(* ===== verification/_CoqProject ===== *)
-Q . S2P
Prelude.v
F64.v
SplitTree.v
SplitTreeSpec.v
SplitTreeRefine.v
SplitTreeMerge.v
SplitTreeProps.v
SplitTreeNav.v
RustStr.v
RemoteConfig.v
Workspace.v
Tabs.v
Surfaces.v
Notebook.v
Window.v
WindowTabs.v
WindowOk.v
WindowProps.v
WindowLife.v
WindowClaims.v
RustNum.v
Session.v
SessionProps.v
Socket.v
SocketProps.v
Cli.v
CliMain.v
Broker.v
BrokerProps.v
Controller.v
ControllerProps.v
SshDetect.v
FileDrop.v
Proxy.v
ProxyProps.v
Rpc.v
RpcProps.v
PortDetect.v
Notify.v
Settings.v
SettingsProps.v
Update.v
UpdateProps.v
GhosttyConfig.v
GhosttyProps.v
Relay.v
RelayProps.v
Bootstrap.v
BootstrapProps.v
Dbus.v
TabStrip.v
DropProps.v
Tray.v
Browser.v
BrowserProps.v
App.v
SurfaceLife.v
SurfaceProps.v
Startup.v
GhosttySys.v
Input.v
Sidebar.v
SidebarProps.v
Paneds.v
PanedProps.v
PanedRebuild.v
PanedClaims.v
Actions.v
PortPoll.v
SessionFile.v
Tunnel.v
Appearance.v
Signals.v
SocketHost.v
SettingsDialog.v
Library.v
Prompts.v
PaneStacks.v
Selection.v
GitBranch.v
