(* ===== verification/Prelude.v ===== *)
(** * Limux: a verification development

    Limux is a terminal multiplexer for the desktop: a GTK window with
    workspaces, each a tree of panes with tabs of terminals or browsers; a control
    socket, a D-Bus service and a command line client that drive it; a saved session;
    and remote workspaces, whose terminals and browsers reach a host over ssh.  This
    library models the program from its Rust sources under src/app/src and src/cli/src
    as executable definitions and proves what makes it correct.

    ** Parts and how they interact

    The window and what it shows:

    - The split tree (split.rs) is an arena of nodes: [SplitTree] has one
      definition per method, on a [gmap] of nodes.  [SplitTreeSpec] is its abstract
      specification, a binary layout over panes; [SplitTreeRefine], [SplitTreeMerge],
      [SplitTreeProps] and [SplitTreeNav] relate the two: the arena of every reachable tree is exactly a layout, and each
      operation refines the operation on layouts.
    - Panes, tabs and workspaces (workspace.rs, util.rs) are [Workspace]; the identities
      and payloads of tab drags (window.rs) are [Tabs]; the registry of terminal surfaces
      (surfaces.rs) is [Surfaces].  [F64] and [RustNum] are the floating-point
      operations and the number parsing they need, [RustStr] the functions of
      [str] on UTF-8 bytes.
    - The window (window.rs) is [AppWindow] in [Window] (workspaces, pins, colours,
      metadata, remote state) and [WindowTabs] (splits, closes, drags, titles,
      bells, focus).  The GTK notebook is the class [NotebookOps] with its laws
      [NotebookLaws] in [Notebook].  [WindowOk], [WindowProps], [WindowLife] and
      [WindowClaims] prove the invariant that ties the workspaces, the pages, the split
      trees and the pane maps together, its preservation by every operation, and what
      each does.  [Actions] has the named actions, the shortcuts and the content of a new
      window.
    - Three files put widgets next to that model, each over an interface of GTK with
      laws: [Paneds] (proofs in [PanedProps], [PanedRebuild], [PanedClaims]) the tree of paneds of a workspace, [PaneStacks] the
      stack of each pane with what it shows, [Selection] the rows of the sidebar with
      the handler that calls back into the window, which may be borrowed.
    - The strips of tabs and what is dropped on strips, panes and rows (tab_strip.rs,
      sidebar.rs) are [TabStrip] with [DropProps]; the rows (sidebar.rs) [Sidebar] with
      [SidebarProps]; the tray (tray.rs, main.rs) [Tray]; the browser panels (browser.rs)
      [Browser] with [BrowserProps]; the colors of the desktop and the style sheet
      (appearance.rs, sidebar.rs) [Appearance]; the branches of git (window.rs)
      [GitBranch].
    - The saved session (session.rs, window.rs) is [Session] with [SessionProps]; the
      file, when it is written and what the next start makes of it, is [SessionFile].

    The terminal library and the process:

    - [GhosttySys] is the binding (ghostty_sys.rs) with the layout of its types;
      [Library] the life of the library's application and configuration and [App]
      the wake-ups and actions (app.rs); [SurfaceLife] with [SurfaceProps]
      terminals and clipboard requests (surface.rs, clipboard.rs); [Input] keys, text and
      pointer (input.rs).  [Startup] is what main.rs does around GTK.
    - [Settings] with [SettingsProps] are the preferences, their file and the shortcuts
      (settings.rs, settings_ui.rs), [SettingsDialog] the dialog; [GhosttyConfig] with
      [GhosttyProps] edits the terminal library's own file; [Update] with [UpdateProps]
      decides when to look for a release and what to offer (update.rs, install.rs), and
      [Prompts] has the windows that ask.
    - [Notify] (notify.rs) limits bell notifications; [PortDetect]
      (port_detect.rs) finds the listening ports, [PortPoll] has its theorems and the timer
      around it.

    Ways in:

    - The control socket (socket.rs) is [Socket]: every command, the buffer of a
      connection and the framing of answers, on a [World] that contains the window;
      [SocketProps] proves that no input panics and that chunking is irrelevant.
      [SocketHost] binds and removes it among several instances on a host.
    - The client (src/cli/src) is [Cli], what a subcommand sends, and [CliMain], the program
      around it: what it sends is what the server does, and it decodes the answer.
    - [Dbus] (dbus.rs) has the methods of the bus, which agree with the commands of the
      client, [Signals] what the window announces there.

    Remote workspaces:

    - [RemoteConfig] (config.rs, shell.rs) is the configuration, its ssh arguments and
      the transport key.  [Controller] (controller.rs) is the thread of each remote
      workspace as a step relation, over [Broker] (proxy_broker.rs), the tunnels that
      workspaces on one transport share; [BrokerProps] and [ControllerProps] have their
      invariants, the termination of what is disconnected, and the waiting times.
    - [Tunnel] starts the client of the daemon and the accept loop of a tunnel; a
      connection is [Proxy] (proxy_tunnel.rs; proofs in [ProxyProps]) over the calls of
      [Rpc] (rpc.rs; proofs in [RpcProps]).  [Bootstrap] (bootstrap.rs; proofs in
      [BootstrapProps]) starts the daemon of a host.
    - Commands of a host reach [Socket] through [Relay] (relay.rs; proofs in
      [RelayProps]), whose connections are interleaved tasks.  [SshDetect]
      (ssh_detect.rs) reads the command lines that [RemoteConfig] writes, and [FileDrop]
      (file_drop.rs, window.rs) uploads dropped files and pastes their paths.

    ** Conventions

    Names follow the sources.  Unsigned integers are [Z] with the wrap-around of
    the release profile written out ([u32_succ] and its like); a panic is [None] of
    an outer [option], an error a sum or the source's own error type.  A [HashMap]
    is a [gmap]; where its iteration order is visible, the order is a parameter
    and the theorems hold for every order.  Handles are opaque numbers, and a call into
    another library is an entry of a log.  Concurrent parts are step functions: one step
    is what a thread or task does between two points where it can be interrupted, and the
    theorems quantify over all interleavings and over all answers of the network, the
    clock and other processes, which are the events of the steps.

    Parameters stand for code that is not part of the repository's sources: the
    JSON library, base64, hashes, the file system and /proc, the session bus, running a
    command, the terminal library.  What is assumed of them is stated as a class of laws
    or a hypothesis: [NotebookLaws], [PanedLaws], [StackLaws], [ListBoxLaws] and
    [BroadcastLaws] for widgets and channels, that a listing of a hash map is a
    permutation of it, that the monotonic clock does not go back, and that the JSON
    library reads the settings that it wrote (of a session nothing is assumed: what the
    library makes of its text is an argument).  Each class has an instance,
    with which the witnesses run.

    ** Fuel

    [trim_start], [split_whitespace], [from_utf8_lossy] and [valid_utf8] recur on
    the length of the text, each round removing at least one byte; lemmas such as
    [trim_start_enough] show that this is enough.  The loops over the arena are
    given one more than the number of its nodes ([fuel_of]); [reachable_wf] and the
    refinement lemmas show that they never run out on a reachable tree.  The walk over
    the processes takes its fuel as an argument, and [descendants_found] proves the number
    of processes enough.  The widget trees of [Paneds] are read with two more than their
    number, which [widgets_show_tree] shows to reach the leaves; the repeated notification
    of a property takes at most three rounds ([emission_ok]).  All other recursion is
    structural.

    ** Theorems

    - Invariants of the state: [window_invariant], [reachable_wf], [selection_follows_page],
      [panes_show_selected], [one_tunnel_per_transport], [tunnel_serves_connected],
      [browsers_agree], [dialog_shows_settings], [look_follows_scheme], [ports_polled],
      [tray_follows_window], [captured_shortcuts_distinct], [branches_reported].
    - Refinement: layouts by [split_refines], [remove_refines],
      [insert_after_focused_order], [move_adjacent_order], [geometry_refines],
      [merge_any_order]; widgets by [widgets_show_tree]; rows by [row_shows_workspace].
    - Equivalence: the requests of the client, the relay and the bus with the operations
      of the window ([cli_commands_dispatch], [relay_requests_served],
      [dbus_agrees_with_cli]), a drag with the move of its tab
      ([dragged_button_moves_its_tab]), ports with their specification
      ([ports_attributed]).
    - Round trips: [session_restores_window], [rebuild_restores_ratios],
      [settings_persist], [config_key_roundtrip], [shell_path_restored],
      [tab_drag_payload_roundtrip], [version_roundtrip], [split_remove_roundtrip].
    - Safety: [drops_conserve_tabs], [commands_keep_window], [every_shortcut_works],
      [library_handles_live], [library_calls_allowed], [answers_routed],
      [relay_authenticates], [cached_binary_verified], [dbus_calls_linear],
      [default_sockets_reach], [relay_sessions_independent].
    - Termination and liveness: [disconnect_ends_loop], [last_lease_ends_tunnel],
      [wakeups_served], [descendants_found].  Bounds: [bells_rate_limited],
      [backoff_doubles], [surface_ids_fresh], [log_keeps_last_50].  Types: the layout of the
      bindings, [binding_layout].
    - Errors: [next_start_continues], [cli_reports_outcome], [bootstrap_ready].
    - Functional behaviour: [serve_chunk_independent], [proxy_session_relays],
      [signals_forwarded], [navigate_directional_nearest], [close_surface_removes],
      [toggle_pin_partitions], [input_translated], [update_prompted],
      [prompt_asked_again], [dropped_path_pasted].

    Some theorems show where the code does not do what it means to; each says so:
    - of the window: [merge_stale_ids], [remove_tab_shifts_selection],
      [closed_tab_kept], [late_switch_clears_other_bell], [late_answer_wins],
      [osc7_never_detects], [conflict_misses_fixed_keys], [torn_write_loses_session],
      [browsers_share_proxy], [dark_stays], [portal_never_read], [start_needs_schema];
    - of settings, updates and the terminal library: [conflict_misses_spelling],
      [update_check_resets_settings], [unreadable_config_replaced], [second_dialog_stale],
      [visited_entry_writes], [tick_after_destroy], [second_init_leaks],
      [backslash_unescaped], [root_is_above_nothing];
    - of the ways in: [eof_discards_commands], [cli_clear_ignored],
      [dbus_loose_arguments], [dbus_zero_is_current], [stop_keeps_service],
      [stop_removes_other_socket], [failed_bind_keeps_outer];
    - of remote workspaces: [transport_key_collision], [lost_connection_stays_lost],
      [stopped_controller_reports_connected], [disconnect_kills_other_tunnel],
      [release_pops_last_callback], [detect_fails_on_names], [failed_subscribe_leaks],
      [connect_ipv6_brackets], [end_leaves_streams], [hex_decode_odd],
      [relay_empty_text], [relay_text_injects], [relay_close_unknown], [cache_race],
      [curl_failure_not_retried].

    ** Not modelled

    The looks, sizes and margins of widgets, the painting of drag previews and the set-up
    of the GTK application.  What libraries do: the parsing of command lines by clap, the
    encodings of JSON and of D-Bus messages, base64 and hashes, WebKit, GTK's input
    methods, and the foreign functions of the terminal library, which have no body in the
    binding.  The daemon under src/daemon is a Go program.

    This file has what all others share: machine-width integers, automation and
    generic lemmas on lists and options. *)

From Stdlib Require Export ZArith Lia.
From stdpp Require Export prelude gmap strings list.

(** ** Machine-width unsigned integers

    Rust's [u32]/[u16]/[u64] values are modelled as [Z]; an operation that can
    leave the range is written with its wrap-around. *)

Declare Scope limux_scope.
Delimit Scope limux_scope with limux.

Definition u32_max : Z := 4294967295.
Definition u16_max : Z := 65535.
Definition u64_max : Z := 18446744073709551615.

(** [x + 1] on [u32] (release profile: wrap-around; a debug build panics
    exactly when the wrap happens). *)
Definition u32_succ (x : Z) : Z := (x + 1) mod (u32_max + 1).

Notation "x '.+1u32'" := (u32_succ x) (at level 1) : limux_scope.

Definition is_u32 (x : Z) : Prop := (0 <= x <= u32_max)%Z.

Lemma u32_succ_small (x : Z) : (0 <= x < u32_max)%Z -> u32_succ x = (x + 1)%Z.
Proof. intros H. unfold u32_succ. apply Z.mod_small. unfold u32_max in *. lia. Qed.

Lemma u32_succ_range (x : Z) : is_u32 (u32_succ x).
Proof.
  unfold is_u32, u32_succ.
  pose proof (Z.mod_pos_bound (x + 1) (u32_max + 1)).
  unfold u32_max in *. lia.
Qed.

(** ** Automation *)

Create HintDb limux.

(** Case analysis on the scrutinee of the first [match] of the goal. *)
Ltac case_goal :=
  match goal with
  | |- context [match ?x with _ => _ end] => destruct x eqn:?
  end.

(** Case analysis on the scrutinee of the first [match] of a hypothesis. *)
Ltac case_in H :=
  match type of H with
  | context [match ?x with _ => _ end] => destruct x eqn:?
  end.

(** [Option::position]: the index of the first element satisfying [f]. *)
Fixpoint position {A} (f : A -> bool) (l : list A) : option nat :=
  match l with
  | [] => None
  | x :: l => if f x then Some 0 else S <$> position f l
  end.

(** [Vec::remove]: the element and the rest; [None] is the panic. *)
Fixpoint vec_remove {A} (i : nat) (l : list A) : option (A * list A) :=
  match l, i with
  | [], _ => None
  | x :: l, 0 => Some (x, l)
  | x :: l, S i => '(y, r) ← vec_remove i l; Some (y, x :: r)
  end.

(** The list with [x] inserted at index [i]. *)
Definition insert_at {A} (i : nat) (x : A) (l : list A) : list A := take i l ++ x :: drop i l.

(** [Vec::insert]: [None] is the panic of an index past the end. *)
Definition vec_insert {A} (i : nat) (x : A) (l : list A) : option (list A) :=
  if decide (i <= length l) then Some (insert_at i x l) else None.

Section list_lemmas.
Context {A : Type}.
Implicit Types (l : list A) (f : A -> bool).

Lemma position_Some f l i :
  position f l = Some i ->
  exists x, l !! i = Some x /\ f x = true /\
    forall j y, j < i -> l !! j = Some y -> f y = false.
Proof.
  revert i. induction l as [|x l IH]; intros i; simpl; [done|].
  destruct (f x) eqn:Hx.
  - intros [= <-]. exists x. repeat split; [done..|]. intros j y Hj. lia.
  - intros (k & Hk & ->)%fmap_Some. destruct (IH _ Hk) as (y & Hy & Hf & Hlt).
    exists y. repeat split; [done..|]. intros [|j] z Hj Hz; simpl in Hz.
    + by simplify_eq.
    + eapply Hlt; [|done]. lia.
Qed.

Lemma position_None f l :
  position f l = None <-> forall x, x ∈ l -> f x = false.
Proof.
  induction l as [|x l IH]; simpl.
  - split; [|done]. intros _ x Hx. by apply elem_of_nil in Hx.
  - destruct (f x) eqn:Hx.
    + split; [done|]. intros H. specialize (H x). rewrite H in Hx; [done|]. left.
    + rewrite fmap_None, IH. split.
      * intros H y [->|Hy]%elem_of_cons; auto.
      * intros H y Hy. apply H. by right.
Qed.

Lemma position_lt f l i : position f l = Some i -> i < length l.
Proof. intros (x & Hx & _)%position_Some. by eapply lookup_lt_Some. Qed.

Lemma position_unique f l i x :
  l !! i = Some x -> f x = true ->
  (forall j y, l !! j = Some y -> f y = true -> j = i) ->
  position f l = Some i.
Proof.
  intros Hi Hx Hu. destruct (position f l) as [k|] eqn:Hk.
  - apply position_Some in Hk as (y & Hy & Hf & _). f_equal. eauto.
  - rewrite position_None in Hk. rewrite Hk in Hx; [done|].
    by eapply list_elem_of_lookup_2.
Qed.

Lemma vec_remove_spec (i : nat) l x :
  l !! i = Some x -> vec_remove i l = Some (x, take i l ++ drop (S i) l).
Proof.
  revert i. induction l as [|y l IH]; intros [|i] Hi; simpl in *; try done.
  - by simplify_eq.
  - rewrite (IH _ Hi). done.
Qed.

Lemma vec_remove_oob (i : nat) l : length l <= i -> vec_remove i l = None.
Proof.
  revert i. induction l as [|y l IH]; intros [|i] Hi; simpl in *; try done; [lia|].
  rewrite IH by lia. done.
Qed.

(** Splitting an append whose middle element occurs once. *)
Lemma NoDup_app_cons_inj (l1 l2 k1 k2 : list A) (x : A) :
  NoDup (l1 ++ x :: l2) -> l1 ++ x :: l2 = k1 ++ x :: k2 -> l1 = k1 /\ l2 = k2.
Proof.
  revert k1. induction l1 as [|y l1 IH]; intros [|z k1] Hnd Heq; simpl in *; simplify_eq.
  - done.
  - apply NoDup_cons in Hnd as [Hnin _]. exfalso. apply Hnin. set_solver.
  - apply NoDup_cons in Hnd as [Hnin _]. exfalso. apply Hnin. set_solver.
  - apply NoDup_cons in Hnd as [_ Hnd]. destruct (IH k1 Hnd) as [-> ->]; done.
Qed.

Lemma filter_all (P : A -> Prop) `{Hdec : !forall x, Decision (P x)} l :
  (forall x, x ∈ l -> P x) -> filter P l = l.
Proof.
  induction l as [|x l IH]; intros Hall; [done|].
  rewrite filter_cons_True by (apply Hall; left). f_equal. apply IH. intros y Hy.
  apply Hall. by right.
Qed.
End list_lemmas.

(** ** Inserting and deleting at an index *)

Lemma insert_at_lookup {A} (l : list A) d x j :
  d <= length l ->
  insert_at d x l !! j =
  if decide (j < d) then l !! j else if decide (j = d) then Some x else l !! (j - 1).
Proof.
  intros Hd. unfold insert_at. destruct (decide (j < d)).
  - rewrite lookup_app_l, lookup_take_lt; [done|done|]. rewrite length_take. lia.
  - rewrite lookup_app_r by (rewrite length_take; lia). rewrite length_take, Nat.min_l by done.
    destruct (decide (j = d)) as [->|].
    + by rewrite Nat.sub_diag.
    + destruct (j - d) as [|k] eqn:E; [lia|]. simpl. rewrite lookup_drop. f_equal. lia.
Qed.

Lemma delete_lookup {A} (l : list A) i j :
  delete i l !! j = if decide (j < i) then l !! j else l !! S j.
Proof.
  case_decide; [by apply list_lookup_delete_lt|]. apply list_lookup_delete_ge. lia.
Qed.

Lemma delete_length {A} (l : list A) i x :
  l !! i = Some x -> length (delete i l) = length l - 1.
Proof. intros H. rewrite length_delete; [done|]. by rewrite H. Qed.

Lemma insert_at_cons {A} i (x : A) l : insert_at i x l ≡ₚ x :: l.
Proof. unfold insert_at. by rewrite <- Permutation_middle, take_drop. Qed.

Lemma insert_at_perm {A} (l : list A) i k x :
  l !! k = Some x -> Permutation (insert_at i x (delete k l)) l.
Proof.
  intros Hk. unfold insert_at. rewrite <- Permutation_middle, take_drop, delete_take_drop.
  rewrite Permutation_middle. by rewrite take_drop_middle.
Qed.

Lemma insert_at_length {A} (l : list A) i k x :
  l !! k = Some x -> length (insert_at i x (delete k l)) = length l.
Proof. intros Hk. by rewrite (insert_at_perm _ _ _ _ Hk). Qed.

(** ** Stable sorting by a key *)

Section sort.
Context {A : Type} (key : A -> nat).

Fixpoint insert_key (x : A) (l : list A) : list A :=
  match l with
  | [] => [x]
  | y :: l => if decide (key x <= key y) then x :: y :: l else y :: insert_key x l
  end.

(** [slice::sort_by_key]: sorted, and elements of equal keys keep their order. *)
Definition sort_by_key (l : list A) : list A := foldr insert_key [] l.

Lemma insert_key_skip x l0 l1 :
  (forall z, z ∈ l0 -> key z < key x) -> insert_key x (l0 ++ l1) = l0 ++ insert_key x l1.
Proof.
  induction l0 as [|z l0 IH]; intros Hz; simpl; [done|].
  rewrite decide_False by (specialize (Hz z (list_elem_of_here z l0)); lia).
  f_equal. apply IH. intros y Hy. apply Hz. by right.
Qed.

(** On a two-valued key the result is the partition. *)
Lemma sort_by_key_two l :
  (forall x, x ∈ l -> key x = 0 \/ key x = 1) ->
  sort_by_key l = filter (fun x => key x = 0) l ++ filter (fun x => key x = 1) l.
Proof.
  induction l as [|x l IH]; intros Hk; [done|]. simpl.
  rewrite IH by (intros y Hy; apply Hk; by right).
  assert (forall z, z ∈ l -> key z = 0 \/ key z = 1) as Hl by (intros z Hz; apply Hk; by right).
  destruct (Hk x (list_elem_of_here x l)) as [E|E].
  - rewrite (filter_cons_True (fun y => key y = 0) x l) by done.
    rewrite (filter_cons_False (fun y => key y = 1) x l) by lia.
    simpl app. set (r := filter (fun y => key y = 0) l ++ filter (fun y => key y = 1) l).
    destruct r as [|y r']; simpl; [done|]. by rewrite decide_True by lia.
  - rewrite (filter_cons_False (fun y => key y = 0) x l) by lia.
    rewrite (filter_cons_True (fun y => key y = 1) x l) by done.
    rewrite insert_key_skip.
    + f_equal. destruct (filter (fun y => key y = 1) l) as [|z l1] eqn:E1; simpl; [done|].
      rewrite decide_True; [done|]. assert (key z = 1); [|lia].
      assert (z ∈ filter (fun y => key y = 1) l) as [? _]%list_elem_of_filter by (rewrite E1; left).
      done.
    + intros z [? _]%list_elem_of_filter. lia.
Qed.

Lemma sort_by_key_perm l : sort_by_key l ≡ₚ l.
Proof.
  assert (forall x l, insert_key x l ≡ₚ x :: l) as Hi.
  { intros x l'. induction l' as [|y l' IH]; simpl; [done|]. case_decide; [done|].
    rewrite IH. apply Permutation_swap. }
  induction l as [|x l IH]; simpl; [done|]. by rewrite Hi, IH.
Qed.
End sort.

(** ** Reachable states *)

(** What each step keeps is so in every state that is reached. *)
Lemma rtc_preserves {A} (R : A -> A -> Prop) (P : A -> Prop) x y :
  (forall a b, R a b -> P a -> P b) -> P x -> rtc R x y -> P y.
Proof. intros Hstep Hx Hr. revert Hx. induction Hr as [|a b c Hab _ IH]; eauto. Qed.
