(* ===== verification/F64.v ===== *)
(** * IEEE-754 binary64 arithmetic

    The [f64] values of the split ratios and pane rectangles
    (app/src/split.rs), as the Standard Library's specification floats at
    precision 53 and maximal exponent 1024: every operation is correctly
    rounded to nearest-even, exactly as Rust's [f64] operators are. *)

From Stdlib Require Import SpecFloat.
From S2P Require Import Prelude.

Abbreviation f64 := spec_float.

Definition f64_prec : Z := 53.
Definition f64_emax : Z := 1024.

(** [n as f64] *)
Definition f64_of_Z (n : Z) : f64 := binary_normalize f64_prec f64_emax n 0 false.
Definition f64_add : f64 -> f64 -> f64 := SFadd f64_prec f64_emax.
Definition f64_sub : f64 -> f64 -> f64 := SFsub f64_prec f64_emax.
Definition f64_mul : f64 -> f64 -> f64 := SFmul f64_prec f64_emax.
Definition f64_div : f64 -> f64 -> f64 := SFdiv f64_prec f64_emax.
Definition f64_abs : f64 -> f64 := SFabs.
Definition f64_ltb : f64 -> f64 -> bool := SFltb.
Definition f64_leb : f64 -> f64 -> bool := SFleb.

(** A decimal literal [n/d]: both parts are exact, so one correctly rounded
    division is the correctly rounded literal. *)
Definition f64_lit (n d : Z) : f64 := f64_div (f64_of_Z n) (f64_of_Z d).

Definition f64_zero : f64 := f64_of_Z 0.
Definition f64_one : f64 := f64_of_Z 1.
Definition f64_two : f64 := f64_of_Z 2.
Definition f64_half : f64 := f64_lit 1 2.

#[global] Instance f64_eq_dec : EqDecision f64.
Proof. solve_decision. Defined.

(** [<] on [f64] is transitive, NaN included (it compares with nothing). *)
Lemma f64_ltb_trans (x y z : f64) :
  f64_ltb x y = true -> f64_ltb y z = true -> f64_ltb x z = true.
Proof.
  unfold f64_ltb, SFltb, SFcompare.
  destruct x as [[]|[]| |[] mx ex], y as [[]|[]| |[] my ey], z as [[]|[]| |[] mz ez];
    try done;
    change (PosDef.Pos.compare_cont Eq) with Pos.compare;
    destruct (Z.compare_spec ex ey), (Z.compare_spec ey ez), (Z.compare_spec ex ez);
    try done; try lia;
    destruct (Pos.compare_spec mx my), (Pos.compare_spec my mz), (Pos.compare_spec mx mz);
    try done; lia.
Qed.

Lemma f64_ltb_irrefl (x : f64) : f64_ltb x x = false.
Proof.
  unfold f64_ltb, SFltb, SFcompare. destruct x as [|[]| |[] m e]; try done;
    rewrite Z.compare_refl; change (PosDef.Pos.compare_cont Eq) with Pos.compare;
    by rewrite Pos.compare_refl.
Qed.

Example f64_half_value : f64_half = S754_finite false 4503599627370496 (-53).
Proof. vm_compute. reflexivity. Qed.
