(* ===== verification/SplitTree.v ===== *)
(** * Split tree: the pane layout arena (app/src/split.rs)

    [SplitTree] keeps its nodes in a hash map from [NodeId] to [Node]; the
    operations below are the methods of the source on that arena, with the
    state passed explicitly.  Recursive walks carry fuel; [fuel_of] is one more
    than the number of nodes, and SplitTreeSpec shows that it is enough on every
    well-formed arena. *)

From S2P Require Import Prelude F64.

Inductive Orientation := Horizontal | Vertical.
Inductive Direction := Up | Down | Left | Right.

#[global] Instance Orientation_eq_dec : EqDecision Orientation.
Proof. solve_decision. Defined.
#[global] Instance Direction_eq_dec : EqDecision Direction.
Proof. solve_decision. Defined.

Abbreviation PaneId := Z.
Abbreviation NodeId := Z.

Inductive Node :=
  | Leaf (pane_id : PaneId)
  | Split (orientation : Orientation) (ratio : f64) (first second : NodeId).

#[global] Instance Node_eq_dec : EqDecision Node.
Proof. solve_decision. Defined.

Record SplitTree := mkSplitTree {
  nodes : gmap Z Node;
  root : option NodeId;
  next_id : Z;
  focused : option PaneId;
}.

#[global] Instance SplitTree_eq_dec : EqDecision SplitTree.
Proof. solve_decision. Defined.

Definition set_nodes (f : gmap Z Node -> gmap Z Node) (t : SplitTree) : SplitTree :=
  mkSplitTree (f (nodes t)) (root t) (next_id t) (focused t).
Definition set_root (r : option NodeId) (t : SplitTree) : SplitTree :=
  mkSplitTree (nodes t) r (next_id t) (focused t).
Definition put_focused (p : option PaneId) (t : SplitTree) : SplitTree :=
  mkSplitTree (nodes t) (root t) (next_id t) p.

Definition new_tree : SplitTree := mkSplitTree ∅ None 0 None.

Definition alloc_id (t : SplitTree) : NodeId * SplitTree :=
  (next_id t, mkSplitTree (nodes t) (root t) (u32_succ (next_id t)) (focused t)).

(** [alloc_id] followed by [nodes.insert] of the new node. *)
Definition alloc_node (x : Node) (t : SplitTree) : NodeId * SplitTree :=
  let '(n, t) := alloc_id t in (n, set_nodes <[n := x]> t).

Definition new_with_pane (pane_id : PaneId) : SplitTree :=
  let '(node_id, tree) := alloc_node (Leaf pane_id) new_tree in
  put_focused (Some pane_id) (set_root (Some node_id) tree).

Definition focused_pane (t : SplitTree) : option PaneId := focused t.
Definition set_focused (pane_id : PaneId) (t : SplitTree) : SplitTree :=
  put_focused (Some pane_id) t.

(** Number of steps a walk over the arena may take. *)
Definition fuel_of (m : gmap Z Node) : nat := S (size m).
#[global] Arguments fuel_of : simpl never.

(** Overwrite one child pointer of a split node, as the [get_mut] blocks do. *)
Definition set_child (parent : NodeId) (is_first : bool) (c : NodeId)
    (m : gmap Z Node) : gmap Z Node :=
  match m !! parent with
  | Some (Split o r a b) =>
      <[parent := if is_first then Split o r c b else Split o r a c]> m
  | _ => m
  end.

Definition child_of (m : gmap Z Node) (parent : NodeId) (is_first : bool) : option NodeId :=
  match m !! parent with
  | Some (Split _ _ a b) => Some (if is_first then a else b)
  | _ => None
  end.

Definition set_ratio (node_id : NodeId) (new_ratio : f64) (t : SplitTree) : SplitTree :=
  match nodes t !! node_id with
  | Some (Split o _ a b) => set_nodes <[node_id := Split o new_ratio a b]> t
  | _ => t
  end.

(** ** Walks *)

Fixpoint collect_panes (fuel : nat) (m : gmap Z Node) (node_id : NodeId)
    (out : list PaneId) : list PaneId :=
  match fuel with
  | O => out
  | S fuel =>
      match m !! node_id with
      | Some (Leaf p) => out ++ [p]
      | Some (Split _ _ first second) =>
          collect_panes fuel m second (collect_panes fuel m first out)
      | None => out
      end
  end.

Definition panes (t : SplitTree) : list PaneId :=
  match root t with
  | Some r => collect_panes (fuel_of (nodes t)) (nodes t) r []
  | None => []
  end.

Fixpoint find_leaf (fuel : nat) (m : gmap Z Node) (node_id : NodeId) (pane_id : PaneId)
    : option NodeId :=
  match fuel with
  | O => None
  | S fuel =>
      match m !! node_id with
      | Some (Leaf pid) => if decide (pid = pane_id) then Some node_id else None
      | Some (Split _ _ first second) =>
          match find_leaf fuel m first pane_id with
          | Some n => Some n
          | None => find_leaf fuel m second pane_id
          end
      | None => None
      end
  end.

Definition node_id_for_pane (pane_id : PaneId) (t : SplitTree) : option NodeId :=
  r ← root t; find_leaf (fuel_of (nodes t)) (nodes t) r pane_id.

Definition is_leaf_of (m : gmap Z Node) (n : NodeId) (pane_id : PaneId) : bool :=
  match m !! n with
  | Some (Leaf pid) => bool_decide (pid = pane_id)
  | _ => false
  end.

Fixpoint find_parent (fuel : nat) (m : gmap Z Node) (node_id : NodeId) (pane_id : PaneId)
    : option (NodeId * bool) :=
  match fuel with
  | O => None
  | S fuel =>
      match m !! node_id with
      | Some (Split _ _ first second) =>
          if is_leaf_of m first pane_id then Some (node_id, true)
          else if is_leaf_of m second pane_id then Some (node_id, false)
          else match find_parent fuel m first pane_id with
               | Some x => Some x
               | None => find_parent fuel m second pane_id
               end
      | _ => None
      end
  end.

Fixpoint find_parent_of_node (fuel : nat) (m : gmap Z Node) (from target : NodeId)
    : option (NodeId * bool) :=
  match fuel with
  | O => None
  | S fuel =>
      match m !! from with
      | Some (Split _ _ first second) =>
          if decide (first = target) then Some (from, true)
          else if decide (second = target) then Some (from, false)
          else match find_parent_of_node fuel m first target with
               | Some x => Some x
               | None => find_parent_of_node fuel m second target
               end
      | _ => None
      end
  end.

Fixpoint find_chain_end (fuel : nat) (m : gmap Z Node) (node_id : NodeId) : NodeId :=
  match fuel with
  | O => node_id
  | S fuel =>
      match m !! node_id with
      | Some (Split _ _ _ second) => find_chain_end fuel m second
      | _ => node_id
      end
  end.

Fixpoint replace_child (fuel : nat) (node_id old_child new_child : NodeId)
    (m : gmap Z Node) : gmap Z Node :=
  match fuel with
  | O => m
  | S fuel =>
      match m !! node_id with
      | Some (Split o r first second) =>
          if decide (first = old_child) then <[node_id := Split o r new_child second]> m
          else if decide (second = old_child) then <[node_id := Split o r first new_child]> m
          else replace_child fuel second old_child new_child
                 (replace_child fuel first old_child new_child m)
      | _ => m
      end
  end.

(** ** Ratios *)

Fixpoint set_chain_ratios (remaining : nat) (node_id : NodeId) (m : gmap Z Node)
    : gmap Z Node :=
  match remaining with
  | O | S O => m
  | S (S _ as remaining') =>
      match m !! node_id with
      | Some (Split o _ first second) =>
          set_chain_ratios remaining' second
            (<[node_id := Split o (f64_div f64_one (f64_of_Z (Z.of_nat remaining)))
                            first second]> m)
      | _ => m
      end
  end.

Definition equalize_chain (t : SplitTree) : SplitTree :=
  let n := length (panes t) in
  if decide (n <= 1) then t
  else match root t with
       | Some r => set_nodes (set_chain_ratios n r) t
       | None => t
       end.

(** The loop of [equalize] over the collected keys. *)
Fixpoint equalize_keys (keys : list NodeId) (m : gmap Z Node) : gmap Z Node :=
  match keys with
  | [] => m
  | nid :: keys =>
      equalize_keys keys
        (match m !! nid with
         | Some (Split o r first second) => <[nid := Split o f64_half first second]> m
         | _ => m
         end)
  end.

Definition equalize (t : SplitTree) : SplitTree :=
  set_nodes (equalize_keys ((map_to_list (nodes t)).*1)) t.

(** ** Structural updates *)

Definition insert_after_node (target : NodeId) (new_pane_id : PaneId)
    (orientation : Orientation) (t : SplitTree) : SplitTree :=
  let '(new_leaf, t) := alloc_node (Leaf new_pane_id) t in
  match root t with
  | None => t
  | Some rt =>
      if decide (rt = target) then
        let '(new_split, t) := alloc_node (Split orientation f64_half target new_leaf) t in
        set_root (Some new_split) t
      else
        match nodes t !! target with
        | Some (Leaf pane_id) =>
            match find_parent (fuel_of (nodes t)) (nodes t) rt pane_id with
            | None => t
            | Some (parent_id, true) =>
                match child_of (nodes t) parent_id false with
                | None => t
                | Some old_second =>
                    let '(new_split, t) :=
                      alloc_node (Split orientation f64_half new_leaf old_second) t in
                    set_nodes (set_child parent_id false new_split) t
                end
            | Some (parent_id, false) =>
                let '(new_split, t) :=
                  alloc_node (Split orientation f64_half target new_leaf) t in
                set_nodes (set_child parent_id false new_split) t
            end
        | _ => t
        end
  end.

(** The pane after which [insert_pane_after_focused] inserts. *)
Definition focused_or_last (rt : NodeId) (new_pane_id : PaneId) (t : SplitTree) : PaneId :=
  match focused t with
  | Some p => p
  | None =>
      match nodes t !! find_chain_end (fuel_of (nodes t)) (nodes t) rt with
      | Some (Leaf pane_id) => pane_id
      | _ => new_pane_id
      end
  end.

Definition insert_pane_after_focused (new_pane_id : PaneId) (orientation : Orientation)
    (t : SplitTree) : bool * SplitTree :=
  match root t with
  | None =>
      let '(node_id, t) := alloc_node (Leaf new_pane_id) t in
      (true, put_focused (Some new_pane_id) (set_root (Some node_id) t))
  | Some rt =>
      match nodes t !! rt with
      | Some (Leaf _) =>
          let '(new_leaf, t) := alloc_node (Leaf new_pane_id) t in
          let '(split_id, t) := alloc_node (Split orientation f64_half rt new_leaf) t in
          (true, equalize_chain (put_focused (Some new_pane_id) (set_root (Some split_id) t)))
      | _ =>
          let target :=
            match node_id_for_pane (focused_or_last rt new_pane_id t) t with
            | Some id => id
            | None => find_chain_end (fuel_of (nodes t)) (nodes t) rt
            end in
          (true, equalize_chain (put_focused (Some new_pane_id)
                   (insert_after_node target new_pane_id orientation t)))
      end
  end.

(** [split] and [split_before] differ in the order of the two children of the
    new split only; [place target new_leaf] gives that order. *)
Definition split_with (place : NodeId -> NodeId -> NodeId * NodeId)
    (pane_id new_pane_id : PaneId) (orientation : Orientation) (t : SplitTree)
    : option NodeId * SplitTree :=
  match root t with
  | None => (None, t)
  | Some rt =>
      match find_parent (fuel_of (nodes t)) (nodes t) rt pane_id with
      | None =>
          match nodes t !! rt with
          | Some (Leaf pid) =>
              if decide (pid <> pane_id) then (None, t)
              else
                let '(new_leaf, t) := alloc_node (Leaf new_pane_id) t in
                let '(first, second) := place rt new_leaf in
                let '(split_id, t) := alloc_node (Split orientation f64_half first second) t in
                (Some split_id, put_focused (Some new_pane_id) (set_root (Some split_id) t))
          | _ => (None, t)
          end
      | Some (parent_id, is_first) =>
          match child_of (nodes t) parent_id is_first with
          | None => (None, t)
          | Some target_node_id =>
              let '(new_leaf, t) := alloc_node (Leaf new_pane_id) t in
              let '(first, second) := place target_node_id new_leaf in
              let '(new_split, t) := alloc_node (Split orientation f64_half first second) t in
              let t := set_nodes (set_child parent_id is_first new_split) t in
              (Some new_split, put_focused (Some new_pane_id) t)
          end
      end
  end.

Definition split : PaneId -> PaneId -> Orientation -> SplitTree -> option NodeId * SplitTree :=
  split_with (fun target new_leaf => (target, new_leaf)).

Definition split_before
    : PaneId -> PaneId -> Orientation -> SplitTree -> option NodeId * SplitTree :=
  split_with (fun target new_leaf => (new_leaf, target)).

Definition remove (pane_id : PaneId) (t : SplitTree) : bool * SplitTree :=
  match root t with
  | None => (false, t)
  | Some rt =>
      if is_leaf_of (nodes t) rt pane_id then
        (true, put_focused None (set_root None (set_nodes (delete rt) t)))
      else
        match find_parent (fuel_of (nodes t)) (nodes t) rt pane_id with
        | None => (false, t)
        | Some (parent_id, is_first) =>
            match child_of (nodes t) parent_id (negb is_first),
                  child_of (nodes t) parent_id is_first with
            | Some sibling_id, Some target_id =>
                let t := set_nodes (delete target_id) t in
                let t :=
                  if decide (root t = Some parent_id) then
                    set_nodes (delete parent_id) (set_root (Some sibling_id) t)
                  else
                    match find_parent_of_node (fuel_of (nodes t)) (nodes t) rt parent_id with
                    | Some (grandparent_id, gp_is_first) =>
                        set_nodes (delete parent_id)
                          (set_nodes (set_child grandparent_id gp_is_first sibling_id) t)
                    | None => t
                    end in
                (true, if decide (focused t = Some pane_id)
                       then put_focused (head (panes t)) t else t)
            | _, _ => (false, t)
            end
        end
  end.

Definition navigate (forward : bool) (t : SplitTree) : option PaneId * SplitTree :=
  let ps := panes t in
  match focused t with
  | None => (None, t)
  | Some f =>
      match position (fun p => bool_decide (p = f)) ps with
      | None => (None, t)
      | Some idx =>
          let new_idx :=
            if forward then (idx + 1) mod length ps
            else (idx + length ps - 1) mod length ps in
          match ps !! new_idx with
          | None => (None, t)
          | Some new_focus => (Some new_focus, put_focused (Some new_focus) t)
          end
      end
  end.

Definition move_pane_adjacent (source_pane target_pane : PaneId) (before : bool)
    (orientation : Orientation) (t : SplitTree) : bool * SplitTree :=
  if decide (source_pane = target_pane) then (false, t)
  else match node_id_for_pane source_pane t, node_id_for_pane target_pane t with
  | Some _, Some _ =>
      match remove source_pane t with
      | (false, t) => (false, t)
      | (true, t) =>
          match node_id_for_pane target_pane t with
          | None => (false, t)
          | Some target_node =>
              let '(source_leaf, t) := alloc_node (Leaf source_pane) t in
              let '(new_split, t) :=
                alloc_node (if before
                            then Split orientation f64_half source_leaf target_node
                            else Split orientation f64_half target_node source_leaf) t in
              let t :=
                if decide (root t = Some target_node) then set_root (Some new_split) t
                else match root t with
                     | Some rt =>
                         set_nodes (replace_child (fuel_of (nodes t)) rt target_node new_split) t
                     | None => t
                     end in
              (true, equalize_chain (put_focused (Some source_pane) t))
          end
      end
  | _, _ => (false, t)
  end.

(** ** Merging two arenas (session restore)

    The iteration order of the two hash maps is unspecified, so it is an
    argument: [ks1] and [ks2] list the keys of the two maps in that order. *)

Definition remap_node (x : Node) (remap : gmap Z Z) : Node :=
  match x with
  | Leaf p => Leaf p
  | Split o r first second =>
      Split o r (default first (remap !! first)) (default second (remap !! second))
  end.

Fixpoint alloc_remap (ks : list NodeId) (remap : gmap Z Z) (t : SplitTree)
    : gmap Z Z * SplitTree :=
  match ks with
  | [] => (remap, t)
  | old_id :: ks =>
      let '(new_id, t) := alloc_id t in alloc_remap ks (<[old_id := new_id]> remap) t
  end.

Fixpoint copy_nodes (ks : list NodeId) (src : gmap Z Node) (remap : gmap Z Z)
    (m : gmap Z Node) : gmap Z Node :=
  match ks with
  | [] => m
  | old_id :: ks =>
      match src !! old_id, remap !! old_id with
      | Some x, Some new_id => copy_nodes ks src remap (<[new_id := remap_node x remap]> m)
      | _, _ => copy_nodes ks src remap m
      end
  end.

Definition merge (ks1 ks2 : list NodeId) (first second : SplitTree)
    (orientation : Orientation) (ratio : f64) : SplitTree :=
  let t := mkSplitTree ∅ None (next_id first `max` next_id second)%Z None in
  let '(first_remap, t) := alloc_remap ks1 ∅ t in
  let t := set_nodes (copy_nodes ks1 (nodes first) first_remap) t in
  let '(second_remap, t) := alloc_remap ks2 ∅ t in
  let t := set_nodes (copy_nodes ks2 (nodes second) second_remap) t in
  let first_root := r ← root first; first_remap !! r in
  let second_root := r ← root second; second_remap !! r in
  let t :=
    match first_root, second_root with
    | Some fr, Some sr =>
        let '(root_id, t) := alloc_node (Split orientation ratio fr sr) t in
        set_root (Some root_id) t
    | Some fr, None => set_root (Some fr) t
    | None, Some sr => set_root (Some sr) t
    | None, None => t
    end in
  put_focused (head (panes t)) t.

(** ** Geometry *)

Record Rect := mkRect { rx : f64; ry : f64; rw : f64; rh : f64 }.

Definition split_rect (orientation : Orientation) (ratio : f64) (rect : Rect) : Rect * Rect :=
  match orientation with
  | Horizontal =>
      let w1 := f64_mul (rw rect) ratio in
      (mkRect (rx rect) (ry rect) w1 (rh rect),
       mkRect (f64_add (rx rect) w1) (ry rect) (f64_sub (rw rect) w1) (rh rect))
  | Vertical =>
      let h1 := f64_mul (rh rect) ratio in
      (mkRect (rx rect) (ry rect) (rw rect) h1,
       mkRect (rx rect) (f64_add (ry rect) h1) (rw rect) (f64_sub (rh rect) h1))
  end.

Fixpoint compute_bounds (fuel : nat) (m : gmap Z Node) (node_id : NodeId) (rect : Rect)
    (out : list (PaneId * Rect)) : list (PaneId * Rect) :=
  match fuel with
  | O => out
  | S fuel =>
      match m !! node_id with
      | Some (Leaf pane_id) => out ++ [(pane_id, rect)]
      | Some (Split orientation ratio first second) =>
          let '(r1, r2) := split_rect orientation ratio rect in
          compute_bounds fuel m second r2 (compute_bounds fuel m first r1 out)
      | None => out
      end
  end.

Definition full_rect : Rect := mkRect f64_zero f64_zero f64_one f64_one.

Definition pane_bounds (t : SplitTree) : list (PaneId * Rect) :=
  match root t with
  | Some r => compute_bounds (fuel_of (nodes t)) (nodes t) r full_rect []
  | None => []
  end.

Definition nav_eps : f64 := f64_lit 1 1000.

(** The candidate lies on the wanted side of the focused rectangle. *)
Definition nav_valid (direction : Direction) (fr rect : Rect) : bool :=
  match direction with
  | Left => f64_leb (f64_add (rx rect) (rw rect)) (f64_add (rx fr) nav_eps)
  | Right => f64_leb (f64_sub (f64_add (rx fr) (rw fr)) nav_eps) (rx rect)
  | Up => f64_leb (f64_add (ry rect) (rh rect)) (f64_add (ry fr) nav_eps)
  | Down => f64_leb (f64_sub (f64_add (ry fr) (rh fr)) nav_eps) (ry rect)
  end.

Definition centre_x (r : Rect) : f64 := f64_add (rx r) (f64_div (rw r) f64_two).
Definition centre_y (r : Rect) : f64 := f64_add (ry r) (f64_div (rh r) f64_two).

(** Distance along the primary axis plus a tenth of the other one. *)
Definition nav_dist (direction : Direction) (fr rect : Rect) : f64 :=
  let dx := f64_abs (f64_sub (centre_x rect) (centre_x fr)) in
  let dy := f64_abs (f64_sub (centre_y rect) (centre_y fr)) in
  match direction with
  | Left | Right => f64_add dx (f64_mul dy (f64_lit 1 10))
  | Up | Down => f64_add dy (f64_mul dx (f64_lit 1 10))
  end.

(** One iteration of the candidate loop. *)
Definition nav_step (direction : Direction) (f : PaneId) (fr : Rect)
    (best : option (PaneId * f64)) (cand : PaneId * Rect) : option (PaneId * f64) :=
  let '(pid, rect) := cand in
  if decide (pid = f) then best
  else if negb (nav_valid direction fr rect) then best
  else
    let dist := nav_dist direction fr rect in
    match best with
    | None => Some (pid, dist)
    | Some (_, d) => if f64_ltb dist d then Some (pid, dist) else best
    end.

Definition navigate_directional (direction : Direction) (t : SplitTree)
    : option PaneId * SplitTree :=
  match focused t with
  | None => (None, t)
  | Some f =>
      let bounds := pane_bounds t in
      match list_find (fun '(pid, _) => pid = f) bounds with
      | None => (None, t)
      | Some (_, (_, fr)) =>
          match foldl (nav_step direction f fr) None bounds with
          | Some (pid, _) => (Some pid, put_focused (Some pid) t)
          | None => (None, t)
          end
      end
  end.
