(* ===== verification/SplitTreeSpec.v ===== *)
(** * Abstract layouts and the representation of a layout by an arena

    [layout] is the specification of a split tree: the binary tree of panes a
    user sees, without node identifiers.  [ltree] is the same tree decorated
    with the [NodeId]s of the arena.  [core m lt] says that the arena [m] holds
    exactly the nodes of [lt].  The lemmas of this file relate the walks and the
    pointer updates of SplitTree to [ltree]s. *)

From S2P Require Import Prelude F64 SplitTree.

(** ** Layouts *)

Inductive layout :=
  | Pane (p : PaneId)
  | Div (o : Orientation) (r : f64) (a b : layout).

#[global] Instance layout_eq_dec : EqDecision layout.
Proof. solve_decision. Defined.

Fixpoint lay_panes (l : layout) : list PaneId :=
  match l with
  | Pane p => [p]
  | Div _ _ a b => lay_panes a ++ lay_panes b
  end.

(** Replace the pane [p] by a whole layout. *)
Fixpoint lay_subst (p : PaneId) (s l : layout) : layout :=
  match l with
  | Pane q => if decide (q = p) then s else Pane q
  | Div o r a b => Div o r (lay_subst p s a) (lay_subst p s b)
  end.

(** Remove the pane [p]; its sibling takes the place of their division. *)
Fixpoint lay_remove (p : PaneId) (l : layout) : option layout :=
  match l with
  | Pane q => if decide (q = p) then None else Some (Pane q)
  | Div o r a b =>
      match lay_remove p a, lay_remove p b with
      | Some a, Some b => Some (Div o r a b)
      | Some a, None => Some a
      | None, b => b
      end
  end.

(** Ratios 1/n, 1/(n-1), ..., down the right spine. *)
Fixpoint lay_chain (n : nat) (l : layout) : layout :=
  match n, l with
  | S (S _ as n'), Div o _ a b =>
      Div o (f64_div f64_one (f64_of_Z (Z.of_nat n))) a (lay_chain n' b)
  | _, _ => l
  end.

Definition lay_equalize_chain (l : layout) : layout := lay_chain (length (lay_panes l)) l.

Fixpoint lay_halve (l : layout) : layout :=
  match l with
  | Pane p => Pane p
  | Div o _ a b => Div o f64_half (lay_halve a) (lay_halve b)
  end.

(** Insert [q] after [p]: between [p] and the rest of its chain when [p] is a
    first child, splitting [p] when it is a second child. *)
Fixpoint lay_insert_after (p q : PaneId) (o : Orientation) (l : layout) : layout :=
  match l with
  | Pane x => Pane x
  | Div d r a b =>
      if decide (a = Pane p) then Div d r a (Div o f64_half (Pane q) b)
      else if decide (b = Pane p) then Div d r a (Div o f64_half (Pane p) (Pane q))
      else Div d r (lay_insert_after p q o a) (lay_insert_after p q o b)
  end.

(** The rectangles the layout gives to its panes. *)
Fixpoint lay_bounds (l : layout) (rect : Rect) : list (PaneId * Rect) :=
  match l with
  | Pane p => [(p, rect)]
  | Div o r a b =>
      let '(r1, r2) := split_rect o r rect in lay_bounds a r1 ++ lay_bounds b r2
  end.

(** ** Layouts decorated with node identifiers *)

Inductive ltree :=
  | LLeaf (n : NodeId) (p : PaneId)
  | LSplit (n : NodeId) (o : Orientation) (r : f64) (a b : ltree).

Definition rid (t : ltree) : NodeId :=
  match t with LLeaf n _ => n | LSplit n _ _ _ _ => n end.

Fixpoint ids (t : ltree) : list NodeId :=
  match t with
  | LLeaf n _ => [n]
  | LSplit n _ _ a b => n :: ids a ++ ids b
  end.

Fixpoint lpanes (t : ltree) : list PaneId :=
  match t with
  | LLeaf _ p => [p]
  | LSplit _ _ _ a b => lpanes a ++ lpanes b
  end.

Fixpoint erase (t : ltree) : layout :=
  match t with
  | LLeaf _ p => Pane p
  | LSplit _ o r a b => Div o r (erase a) (erase b)
  end.

Fixpoint height (t : ltree) : nat :=
  match t with
  | LLeaf _ _ => 1
  | LSplit _ _ _ a b => S (height a `max` height b)
  end.

(** The subtree rooted at [n], and its replacement. *)
Fixpoint lsub (t : ltree) (n : NodeId) : option ltree :=
  if decide (rid t = n) then Some t
  else match t with
       | LLeaf _ _ => None
       | LSplit _ _ _ a b =>
           match lsub a n with Some s => Some s | None => lsub b n end
       end.

Fixpoint lput (t : ltree) (n : NodeId) (s : ltree) : ltree :=
  if decide (rid t = n) then s
  else match t with
       | LLeaf k p => LLeaf k p
       | LSplit k o r a b => LSplit k o r (lput a n s) (lput b n s)
       end.

(** ** Representation *)

Fixpoint reprs (m : gmap Z Node) (t : ltree) : Prop :=
  match t with
  | LLeaf n p => m !! n = Some (Leaf p)
  | LSplit n o r a b =>
      m !! n = Some (Split o r (rid a) (rid b)) /\ reprs m a /\ reprs m b
  end.

Record core (m : gmap Z Node) (t : ltree) : Prop := mkCore {
  core_reprs : reprs m t;
  core_nodup : NoDup (ids t);
  core_dom : forall n x, m !! n = Some x -> n ∈ ids t;
}.

(** ** Lemmas on trees *)

Lemma rid_in_ids t : rid t ∈ ids t.
Proof. destruct t; set_solver. Qed.

Lemma erase_panes t : lay_panes (erase t) = lpanes t.
Proof. induction t; simpl; congruence. Qed.

Lemma height_ids t : height t <= length (ids t).
Proof. induction t; simpl; rewrite ?length_app; lia. Qed.

Lemma lsub_root t : lsub t (rid t) = Some t.
Proof. destruct t; simpl; by rewrite decide_True. Qed.

Lemma lsub_None t n : n ∉ ids t -> lsub t n = None.
Proof.
  induction t as [k p|k o r a IHa b IHb]; simpl; intros Hn.
  - rewrite decide_False; [done|set_solver].
  - rewrite decide_False by set_solver. rewrite IHa, IHb; set_solver.
Qed.

Lemma lsub_rid t n s : lsub t n = Some s -> rid s = n.
Proof.
  induction t as [k p|k o r a IHa b IHb]; simpl; intros H; case_decide; simplify_eq; auto.
  destruct (lsub a n); simplify_eq; auto.
Qed.

Lemma lsub_ids t n s : lsub t n = Some s -> forall i, i ∈ ids s -> i ∈ ids t.
Proof.
  induction t as [k p|k o r a IHa b IHb]; simpl; intros H i Hi; case_decide; simplify_eq; auto.
  destruct (lsub a n); simplify_eq; set_solver.
Qed.

Lemma lsub_in t n s : lsub t n = Some s -> n ∈ ids t.
Proof.
  intros H. eapply lsub_ids; [done|]. rewrite <- (lsub_rid _ _ _ H). apply rid_in_ids.
Qed.

Lemma lsub_panes t n s : lsub t n = Some s -> forall p, p ∈ lpanes s -> p ∈ lpanes t.
Proof.
  induction t as [k p|k o r a IHa b IHb]; simpl; intros H i Hi; case_decide; simplify_eq; auto.
  destruct (lsub a n); simplify_eq; set_solver.
Qed.

Lemma lput_notin t n s : n ∉ ids t -> lput t n s = t.
Proof.
  induction t as [k p|k o r a IHa b IHb]; simpl; intros Hn; rewrite decide_False by set_solver.
  - done.
  - rewrite IHa, IHb; set_solver.
Qed.

Lemma lput_rid t n s : rid s = n -> rid (lput t n s) = rid t.
Proof. intros Hs. destruct t; simpl; case_decide; simpl in *; congruence. Qed.

(** The subtree at [n] is a contiguous segment of the identifiers and of the
    panes, and [lput] replaces exactly that segment. *)
Lemma lput_decomp t n s :
  NoDup (ids t) -> lsub t n = Some s ->
  exists k1 k2 l1 l2,
    ids t = k1 ++ ids s ++ k2 /\ lpanes t = l1 ++ lpanes s ++ l2 /\
    forall s', ids (lput t n s') = k1 ++ ids s' ++ k2 /\
               lpanes (lput t n s') = l1 ++ lpanes s' ++ l2.
Proof.
  induction t as [k p|k o r a IHa b IHb]; simpl; intros Hnd H;
    destruct (decide (k = n)); simplify_eq.
  - exists [], [], [], []. simpl. split_and!; try done. intros s'. by rewrite !app_nil_r.
  - exists [], [], [], []. rewrite !app_nil_r. split_and!; try done.
    intros s'. by rewrite !app_nil_r.
  - apply NoDup_cons in Hnd as [Hk [Hna [Hdisj Hnb]]%NoDup_app].
    destruct (lsub a n) as [s0|] eqn:Ha; simplify_eq.
    + destruct (IHa Hna eq_refl) as (k1 & k2 & l1 & l2 & Hi & Hp & Hput).
      exists (k :: k1), (k2 ++ ids b), l1, (l2 ++ lpanes b).
      assert (n ∉ ids b) as Hn.
      { apply Hdisj. by eapply lsub_in. }
      rewrite Hi, Hp, <- !app_assoc. split_and!; try done.
      intros s'. simpl. destruct (Hput s') as [-> ->].
      by rewrite (lput_notin b), <- !app_assoc.
    + destruct (IHb Hnb H) as (k1 & k2 & l1 & l2 & Hi & Hp & Hput).
      exists (k :: ids a ++ k1), k2, (lpanes a ++ l1), l2.
      assert (n ∉ ids a) as Hn.
      { intros Hin. eapply Hdisj; [done|]. by eapply lsub_in. }
      rewrite Hi, Hp. rewrite <- !app_assoc. split_and!; try done.
      { simpl. by rewrite <- !app_assoc. }
      intros s'. simpl. destruct (Hput s') as [-> ->].
      rewrite (lput_notin a) by done. simpl. by rewrite <- !app_assoc.
Qed.

Lemma lput_in_iff t n s s' i :
  NoDup (ids t) -> lsub t n = Some s ->
  i ∈ ids (lput t n s') <-> i ∈ ids s' \/ (i ∈ ids t /\ i ∉ ids s).
Proof.
  intros Hnd Hs. destruct (lput_decomp _ _ _ Hnd Hs) as (k1 & k2 & ? & ? & Hi & _ & Hput).
  destruct (Hput s') as [-> _]. rewrite Hi in *.
  apply NoDup_app in Hnd as (_ & H1 & (_ & H2 & _)%NoDup_app). set_solver.
Qed.

Lemma lput_nodup t n s s' :
  NoDup (ids t) -> lsub t n = Some s -> NoDup (ids s') ->
  (forall i, i ∈ ids s' -> i ∈ ids s \/ i ∉ ids t) ->
  NoDup (ids (lput t n s')).
Proof.
  intros Hnd Hs Hnd' Hfresh.
  destruct (lput_decomp _ _ _ Hnd Hs) as (k1 & k2 & ? & ? & Hi & _ & Hput).
  destruct (Hput s') as [-> _]. rewrite Hi in *.
  rewrite !NoDup_app in *. destruct Hnd as (H1 & H2 & H3 & H4 & H5). set_solver.
Qed.

(** Subtrees of subtrees. *)
Lemma lsub_trans t n s k u :
  NoDup (ids t) -> lsub t n = Some s -> lsub s k = Some u -> lsub t k = Some u.
Proof.
  induction t as [i p|i o r a IHa b IHb]; simpl; intros Hnd Hs Hu.
  - case_decide; simplify_eq. done.
  - case_decide as Hin.
    { simplify_eq. done. }
    apply NoDup_cons in Hnd as [Hi [Hna [Hdisj Hnb]]%NoDup_app].
    assert (Hk : forall v, lsub v n = Some s -> k ∈ ids v).
    { intros v Hv. eapply lsub_ids; [done|]. by eapply lsub_in. }
    destruct (lsub a n) as [s0|] eqn:Ha; simplify_eq.
    + rewrite decide_False by (intros ->; apply Hi; set_solver).
      by rewrite (IHa Hna).
    + rewrite decide_False by (intros ->; apply Hi; set_solver).
      rewrite (lsub_None a); [by apply IHb|]. intros ?. eapply Hdisj; eauto.
Qed.

(** ** Lemmas on the representation *)

Lemma reprs_frame m m' t :
  reprs m t -> (forall n, n ∈ ids t -> m' !! n = m !! n) -> reprs m' t.
Proof.
  induction t as [k p|k o r a IHa b IHb]; simpl.
  - intros H Hf. rewrite Hf; [done|set_solver].
  - intros (H & Ha & Hb) Hf. rewrite Hf by set_solver.
    split_and!; [done|apply IHa|apply IHb]; set_solver.
Qed.

Lemma reprs_lsub m t n s : reprs m t -> lsub t n = Some s -> reprs m s.
Proof.
  induction t as [k p|k o r a IHa b IHb]; simpl; intros H Hs; case_decide; simplify_eq; auto.
  destruct H as (? & ? & ?). destruct (lsub a n); simplify_eq; auto.
Qed.

Lemma reprs_lookup m t n : reprs m t -> n ∈ ids t -> is_Some (m !! n).
Proof.
  induction t as [k p|k o r a IHa b IHb]; simpl; intros H Hn.
  - apply list_elem_of_singleton in Hn as ->. eauto.
  - destruct H as (? & ? & ?). set_solver.
Qed.

Lemma reprs_lput m m' t n s s' :
  reprs m t -> NoDup (ids t) -> lsub t n = Some s -> rid s' = n ->
  (forall i, i ∈ ids t -> i ∉ ids s -> m' !! i = m !! i) ->
  reprs m' s' -> reprs m' (lput t n s').
Proof.
  intros Hr Hnd Hs Hrid Hframe Hs'.
  induction t as [k p|k o r a IHa b IHb]; simpl in *.
  { case_decide; simplify_eq. done. }
  case_decide as Hk; simplify_eq; [done|].
  destruct Hr as (Hk' & Hra & Hrb).
  apply NoDup_cons in Hnd as [Hin [Hna [Hdisj Hnb]]%NoDup_app].
  simpl. rewrite !lput_rid by done.
  destruct (lsub a (rid s')) as [s0|] eqn:Ha; simplify_eq.
  - pose proof (lsub_ids _ _ _ Ha) as Hsub.
    pose proof (lsub_in _ _ _ Ha) as Hra'.
    rewrite (lput_notin b) by auto. split_and!.
    + rewrite Hframe; [done|set_solver..].
    + apply IHa; try done. intros i Hi. apply Hframe. set_solver.
    + apply (reprs_frame m); [done|]. intros i Hi. apply Hframe; [set_solver|].
      intros ?%Hsub. by eapply Hdisj.
  - pose proof (lsub_ids _ _ _ Hs) as Hsub.
    pose proof (lsub_in _ _ _ Hs) as Hrb'.
    rewrite (lput_notin a) by (intros ?; by eapply Hdisj). split_and!.
    + rewrite Hframe; [done|set_solver..].
    + apply (reprs_frame m); [done|]. intros i Hi. apply Hframe; [set_solver|].
      intros ?%Hsub. by eapply Hdisj.
    + apply IHb; try done. intros i Hi. apply Hframe. set_solver.
Qed.

(** Replacing one subtree of the arena. *)
Lemma core_lput m m' t n s s' :
  core m t -> lsub t n = Some s -> rid s' = n ->
  reprs m' s' -> NoDup (ids s') ->
  (forall i, i ∈ ids t -> i ∉ ids s -> m' !! i = m !! i) ->
  (forall i, i ∈ ids s' -> i ∈ ids s \/ i ∉ ids t) ->
  (forall i x, m' !! i = Some x -> i ∈ ids s' \/ (i ∈ ids t /\ i ∉ ids s)) ->
  core m' (lput t n s').
Proof.
  intros [Hr Hnd Hdom] Hs Hrid Hs' Hnd' Hframe Hfresh Hdom'. split.
  - by eapply reprs_lput.
  - by eapply lput_nodup.
  - intros i x Hi%Hdom'. by apply (lput_in_iff _ _ _ _ _ Hnd Hs).
Qed.

(** Enough fuel for every walk. *)
Lemma core_fuel m t : core m t -> height t <= fuel_of m.
Proof.
  intros [Hr Hnd Hdom]. pose proof (height_ids t).
  enough (length (ids t) <= size m) by (unfold fuel_of; lia).
  rewrite <- size_dom. rewrite <- (size_list_to_set (C := gset Z) (ids t)) by done.
  apply subseteq_size. intros n Hn%elem_of_list_to_set.
  apply elem_of_dom. by eapply reprs_lookup.
Qed.

(** ** The walks compute functions of the tree *)

Definition lis_leaf (t : ltree) (p : PaneId) : bool :=
  match t with LLeaf _ q => bool_decide (q = p) | LSplit _ _ _ _ _ => false end.

Fixpoint lfind_leaf (t : ltree) (p : PaneId) : option NodeId :=
  match t with
  | LLeaf n q => if decide (q = p) then Some n else None
  | LSplit _ _ _ a b =>
      match lfind_leaf a p with Some n => Some n | None => lfind_leaf b p end
  end.

Fixpoint lfind_parent (t : ltree) (p : PaneId) : option (NodeId * bool) :=
  match t with
  | LLeaf _ _ => None
  | LSplit n _ _ a b =>
      if lis_leaf a p then Some (n, true)
      else if lis_leaf b p then Some (n, false)
      else match lfind_parent a p with Some x => Some x | None => lfind_parent b p end
  end.

Fixpoint lparent_of (t : ltree) (target : NodeId) : option (NodeId * bool) :=
  match t with
  | LLeaf _ _ => None
  | LSplit n _ _ a b =>
      if decide (rid a = target) then Some (n, true)
      else if decide (rid b = target) then Some (n, false)
      else match lparent_of a target with Some x => Some x | None => lparent_of b target end
  end.

Fixpoint lchain_end (t : ltree) : ltree :=
  match t with LLeaf _ _ => t | LSplit _ _ _ _ b => lchain_end b end.

Lemma reprs_root m t :
  reprs m t ->
  m !! rid t = Some (match t with
                     | LLeaf _ p => Leaf p
                     | LSplit _ o r a b => Split o r (rid a) (rid b)
                     end).
Proof. destruct t; simpl; [done|]. by intros (? & _). Qed.

Lemma is_leaf_of_spec m t p : reprs m t -> is_leaf_of m (rid t) p = lis_leaf t p.
Proof. intros H%reprs_root. unfold is_leaf_of. rewrite H. by destruct t. Qed.

Ltac walk_induction t f :=
  revert f; induction t as [k q|k o r a IHa b IHb]; intros f; intros; destruct f as [|f];
    simpl in *; try lia; [|destruct_and!];
    match goal with H : _ !! k = Some _ |- _ => rewrite ?H end.

Lemma collect_panes_spec m t : forall f out,
  reprs m t -> height t <= f -> collect_panes f m (rid t) out = out ++ lpanes t.
Proof.
  intros f out. revert out. walk_induction t f; [done|].
  rewrite IHa, IHb, app_assoc; by try lia.
Qed.

Lemma compute_bounds_spec m t : forall f rect out,
  reprs m t -> height t <= f ->
  compute_bounds f m (rid t) rect out = out ++ lay_bounds (erase t) rect.
Proof.
  intros f rect out. revert rect out. walk_induction t f; [done|].
  destruct (split_rect o r rect) as [r1 r2].
  rewrite IHa, IHb, app_assoc; by try lia.
Qed.

Lemma find_leaf_spec m t p : forall f,
  reprs m t -> height t <= f -> find_leaf f m (rid t) p = lfind_leaf t p.
Proof. intros f. walk_induction t f; [done|]. rewrite IHa, IHb; by try lia. Qed.

Lemma find_parent_spec m t p : forall f,
  reprs m t -> height t <= f -> find_parent f m (rid t) p = lfind_parent t p.
Proof.
  intros f. walk_induction t f; [done|].
  rewrite !is_leaf_of_spec, IHa, IHb; by try lia.
Qed.

Lemma find_parent_of_node_spec m t target : forall f,
  reprs m t -> height t <= f -> find_parent_of_node f m (rid t) target = lparent_of t target.
Proof. intros f. walk_induction t f; [done|]. rewrite IHa, IHb; by try lia. Qed.

Lemma find_chain_end_spec m t : forall f,
  reprs m t -> height t <= f -> find_chain_end f m (rid t) = rid (lchain_end t).
Proof. intros f. walk_induction t f; [done|]. rewrite IHb; by try lia. Qed.

(** ** What the walks find *)

Lemma lis_leaf_true t p : lis_leaf t p = true -> t = LLeaf (rid t) p.
Proof. destruct t; simpl; [|done]. by intros ->%bool_decide_eq_true. Qed.

Lemma lfind_leaf_None t p : lfind_leaf t p = None <-> p ∉ lpanes t.
Proof.
  induction t as [k q|k o r a IHa b IHb]; simpl.
  - case_decide; set_solver.
  - rewrite not_elem_of_app, <- IHa, <- IHb. destruct (lfind_leaf a p); naive_solver.
Qed.

Lemma lfind_leaf_Some t p k :
  NoDup (ids t) -> lfind_leaf t p = Some k -> lsub t k = Some (LLeaf k p).
Proof.
  induction t as [n q|n o r a IHa b IHb]; simpl; intros Hnd H.
  - case_decide; simplify_eq. by rewrite decide_True.
  - apply NoDup_cons in Hnd as [Hi [Hna [Hdisj Hnb]]%NoDup_app].
    pose proof (fun v s => lsub_in v k s) as Hk.
    destruct (lfind_leaf a p) as [k'|] eqn:Ha; simplify_eq.
    + specialize (IHa Hna eq_refl). rewrite decide_False, IHa; [done|].
      intros ->. apply Hi. set_solver.
    + specialize (IHb Hnb H). rewrite decide_False by (intros ->; apply Hi; set_solver).
      rewrite (lsub_None a); [done|]. intros ?. eapply Hdisj; eauto.
Qed.

Lemma lchain_end_leaf t : exists k p, lchain_end t = LLeaf k p /\ last (lpanes t) = Some p.
Proof.
  induction t as [k q|k o r a _ b (k' & p & He & Hl)]; simpl.
  - by exists k, q.
  - exists k', p. by rewrite last_app, Hl.
Qed.

(** A child of a split node of the tree. *)
Definition child (b : bool) (x y : ltree) : ltree := if b then x else y.
Definition with_child (b : bool) (n : NodeId) (o : Orientation) (r : f64) (x y c : ltree) : ltree :=
  if b then LSplit n o r c y else LSplit n o r x c.

Lemma lsub_child t par b o r x y :
  NoDup (ids t) -> lsub t par = Some (LSplit par o r x y) ->
  lsub t (rid (child b x y)) = Some (child b x y).
Proof.
  intros Hnd H.
  assert (NoDup (ids (LSplit par o r x y))) as Hnd'.
  { destruct (lput_decomp _ _ _ Hnd H) as (?&?&?&?&Hi&_&_). rewrite Hi in Hnd.
    by apply NoDup_app in Hnd as (_ & _ & (? & _)%NoDup_app). }
  eapply (lsub_trans t par); [done..|]. simpl in *.
  apply NoDup_cons in Hnd' as [Hp [_ [Hd _]]%NoDup_app].
  pose proof (rid_in_ids x). pose proof (rid_in_ids y).
  rewrite decide_False by (destruct b; intros ->; apply Hp; set_solver).
  destruct b; simpl.
  - by rewrite lsub_root.
  - rewrite (lsub_None x), lsub_root; [done|]. intros ?. by eapply Hd.
Qed.

Lemma lfind_parent_Some t p par b :
  NoDup (ids t) -> lfind_parent t p = Some (par, b) ->
  exists o r x y k, lsub t par = Some (LSplit par o r x y) /\ child b x y = LLeaf k p.
Proof.
  induction t as [n q|n o r x IHx y IHy]; simpl; intros Hnd H; [done|].
  apply NoDup_cons in Hnd as [Hi [Hna [Hdisj Hnb]]%NoDup_app].
  pose proof (fun v s => lsub_in v par s) as Hk.
  destruct (lis_leaf x p) eqn:Hlx; [|destruct (lis_leaf y p) eqn:Hly].
  - simplify_eq. rewrite decide_True by done. apply lis_leaf_true in Hlx.
    by exists o, r, x, y, (rid x).
  - simplify_eq. rewrite decide_True by done. apply lis_leaf_true in Hly.
    by exists o, r, x, y, (rid y).
  - destruct (lfind_parent x p) as [[par' b']|] eqn:Hx; simplify_eq.
    + destruct (IHx Hna eq_refl) as (o' & r' & x' & y' & k & Hs & Hc).
      exists o', r', x', y', k. split; [|done].
      rewrite decide_False, Hs; [done|]. intros ->. apply Hi. set_solver.
    + destruct (IHy Hnb H) as (o' & r' & x' & y' & k & Hs & Hc).
      exists o', r', x', y', k. split; [|done].
      rewrite decide_False by (intros ->; apply Hi; set_solver).
      rewrite (lsub_None x); [done|]. intros ?. eapply Hdisj; eauto.
Qed.

Lemma lfind_parent_None t p :
  lfind_parent t p = None -> p ∈ lpanes t -> exists k, t = LLeaf k p.
Proof.
  induction t as [n q|n o r x IHx y IHy]; simpl; intros H Hp.
  - apply list_elem_of_singleton in Hp as ->. by exists n.
  - destruct (lis_leaf x p) eqn:Hlx; [done|]. destruct (lis_leaf y p) eqn:Hly; [done|].
    destruct (lfind_parent x p) eqn:Hx; [done|]. exfalso.
    apply elem_of_app in Hp as [Hp|Hp].
    + destruct (IHx eq_refl Hp) as [k ->]. simpl in Hlx. by rewrite bool_decide_eq_false in Hlx.
    + destruct (IHy H Hp) as [k ->]. simpl in Hly. by rewrite bool_decide_eq_false in Hly.
Qed.

Lemma lparent_of_Some t target par b :
  NoDup (ids t) -> lparent_of t target = Some (par, b) ->
  exists o r x y, lsub t par = Some (LSplit par o r x y) /\ rid (child b x y) = target.
Proof.
  induction t as [n q|n o r x IHx y IHy]; simpl; intros Hnd H; [done|].
  apply NoDup_cons in Hnd as [Hi [Hna [Hdisj Hnb]]%NoDup_app].
  pose proof (fun v s => lsub_in v par s) as Hk.
  case_decide; [|case_decide].
  - simplify_eq. rewrite decide_True by done. by exists o, r, x, y.
  - simplify_eq. rewrite decide_True by done. by exists o, r, x, y.
  - destruct (lparent_of x target) as [[par' b']|] eqn:Hx; simplify_eq.
    + destruct (IHx Hna eq_refl) as (o' & r' & x' & y' & Hs & Hc).
      exists o', r', x', y'. split; [|done].
      rewrite decide_False, Hs; [done|]. intros ->. apply Hi. set_solver.
    + destruct (IHy Hnb H) as (o' & r' & x' & y' & Hs & Hc).
      exists o', r', x', y'. split; [|done].
      rewrite decide_False by (intros ->; apply Hi; set_solver).
      rewrite (lsub_None x); [done|]. intros ?. eapply Hdisj; eauto.
Qed.

Lemma lparent_of_None t target :
  lparent_of t target = None -> target ∈ ids t -> target = rid t.
Proof.
  induction t as [n q|n o r x IHx y IHy]; simpl; intros H Hp; [set_solver|].
  case_decide; [done|]. case_decide; [done|].
  destruct (lparent_of x target) eqn:Hx; [done|].
  apply elem_of_cons in Hp as [->|[Hp|Hp]%elem_of_app]; [done|naive_solver..].
Qed.
