(* ===== verification/SplitTreeRefine.v ===== *)
(** * Refinement of layouts by split trees

    First the arena-level halves: what each pointer update of SplitTree does to the
    decorated tree it represents.  Then [rep t lt] relates a [SplitTree] to the decorated
    tree it stores, [wf] is the invariant of the component, and each operation of SplitTree
    is shown to implement the corresponding operation on layouts. *)

From S2P Require Import Prelude F64 SplitTree SplitTreeSpec.

(** ** Views of a split node through one of its children *)

Lemma with_child_self b n o r x y :
  LSplit n o r x y = with_child b n o r x y (child b x y).
Proof. by destruct b. Qed.

Lemma elem_with_child b n o r x y c i :
  i ∈ ids (with_child b n o r x y c) <->
  i = n \/ i ∈ ids c \/ i ∈ ids (child (negb b) x y).
Proof. destruct b; simpl; rewrite elem_of_cons, elem_of_app; tauto. Qed.

Lemma nodup_with_child b n o r x y c :
  NoDup (ids (with_child b n o r x y c)) <->
  n ∉ ids c /\ n ∉ ids (child (negb b) x y) /\ NoDup (ids c) /\
  NoDup (ids (child (negb b) x y)) /\
  (forall i, i ∈ ids c -> i ∈ ids (child (negb b) x y) -> False).
Proof.
  destruct b; simpl; rewrite NoDup_cons, NoDup_app, not_elem_of_app;
    split; intros; destruct_and?; split_and!; try done; intros i ??; naive_solver.
Qed.

Lemma reprs_with_child m b n o r x y c :
  reprs m (with_child b n o r x y c) <->
  m !! n = Some (if b then Split o r (rid c) (rid y) else Split o r (rid x) (rid c)) /\
  reprs m c /\ reprs m (child (negb b) x y).
Proof. destruct b; simpl; tauto. Qed.

Lemma rid_with_child b n o r x y c : rid (with_child b n o r x y c) = n.
Proof. by destruct b. Qed.

(** ** Framing *)

Lemma core_fresh m t n : core m t -> m !! n = None -> n ∉ ids t.
Proof. intros [Hr _ _] Hn Hin. destruct (reprs_lookup _ _ _ Hr Hin). congruence. Qed.

Lemma core_sub_nodup m t n s : core m t -> lsub t n = Some s -> NoDup (ids s).
Proof.
  intros [_ Hnd _] H. destruct (lput_decomp _ _ _ Hnd H) as (?&?&?&?&Hi&_&_).
  rewrite Hi in Hnd. by apply NoDup_app in Hnd as (_ & _ & (? & _)%NoDup_app).
Qed.

Lemma reprs_insert m t n x : reprs m t -> n ∉ ids t -> reprs (<[n := x]> m) t.
Proof.
  intros H Hn. apply (reprs_frame m); [done|]. intros i Hi.
  rewrite lookup_insert_ne; [done|]. by intros ->.
Qed.

Lemma reprs_delete m t n : reprs m t -> n ∉ ids t -> reprs (delete n m) t.
Proof.
  intros H Hn. apply (reprs_frame m); [done|]. intros i Hi.
  rewrite lookup_delete_ne; [done|]. by intros ->.
Qed.

#[export] Hint Resolve reprs_insert reprs_delete : limux.

(** What [core] gives at one split node of the tree. *)
Lemma core_at m t b n o r x y :
  core m t -> lsub t n = Some (LSplit n o r x y) ->
  m !! n = Some (Split o r (rid x) (rid y)) /\
  reprs m (child b x y) /\ reprs m (child (negb b) x y) /\
  n ∉ ids (child b x y) /\ n ∉ ids (child (negb b) x y) /\
  NoDup (ids (child b x y)) /\ NoDup (ids (child (negb b) x y)) /\
  (forall i, i ∈ ids (child b x y) -> i ∈ ids (child (negb b) x y) -> False).
Proof.
  intros Hcore Hsub.
  pose proof (core_sub_nodup _ _ _ _ Hcore Hsub) as Hnd.
  pose proof (reprs_lsub _ _ _ _ (core_reprs _ _ Hcore) Hsub) as (Hn & Hx & Hy).
  rewrite (with_child_self b), nodup_with_child in Hnd. destruct_and!.
  split_and!; try done; by destruct b.
Qed.

(** ** Wrapping a child in a new split *)

(** The new split [ns] over the old child [c] and the new leaf [v]; [bef] puts
    the new leaf first. *)
Definition wrapped (bef : bool) (ns : NodeId) (od : Orientation) (c v : ltree) : ltree :=
  if bef then LSplit ns od f64_half v c else LSplit ns od f64_half c v.

Definition wrap_node (bef : bool) (od : Orientation) (c v : NodeId) : Node :=
  if bef then Split od f64_half v c else Split od f64_half c v.

Lemma elem_wrapped bef ns od c nl q i :
  i ∈ ids (wrapped bef ns od c (LLeaf nl q)) <-> i = ns \/ i = nl \/ i ∈ ids c.
Proof. destruct bef; simpl; set_solver. Qed.

Lemma nodup_wrapped bef ns od c nl q :
  NoDup (ids c) -> ns ∉ ids c -> nl ∉ ids c -> nl <> ns ->
  NoDup (ids (wrapped bef ns od c (LLeaf nl q))).
Proof.
  intros Hc Hns Hnl Hne. destruct bef; simpl; rewrite NoDup_cons, ?NoDup_cons, ?NoDup_app;
    split_and!; try done; try apply NoDup_singleton; set_solver.
Qed.

Lemma reprs_wrapped m bef ns od c nl q :
  reprs m c -> ns ∉ ids c -> nl ∉ ids c -> nl <> ns ->
  reprs (<[ns := wrap_node bef od (rid c) nl]> (<[nl := Leaf q]> m))
        (wrapped bef ns od c (LLeaf nl q)).
Proof.
  intros Hc Hns Hnl Hne. destruct bef; simpl; simplify_map_eq; split_and!; auto with limux.
Qed.

Lemma core_wrap m t par b o r x y nl ns q od bef :
  core m t -> lsub t par = Some (LSplit par o r x y) ->
  m !! nl = None -> m !! ns = None -> nl <> ns ->
  core (set_child par b ns
          (<[ns := wrap_node bef od (rid (child b x y)) nl]> (<[nl := Leaf q]> m)))
       (lput t par (with_child b par o r x y (wrapped bef ns od (child b x y) (LLeaf nl q)))).
Proof.
  intros Hcore Hsub Hnl Hns Hne.
  destruct (core_at _ _ b _ _ _ _ _ Hcore Hsub) as (Hpar & Hc & Hs & Hpc & Hps & Hndc & Hnds & Hd).
  assert (Hids : forall i, i ∈ ids (LSplit par o r x y) <->
            i = par \/ i ∈ ids (child b x y) \/ i ∈ ids (child (negb b) x y))
    by (intros i; rewrite (with_child_self b); apply elem_with_child).
  pose proof (core_fresh _ _ _ Hcore Hnl) as Hnl'. pose proof (core_fresh _ _ _ Hcore Hns) as Hns'.
  assert (Hsubset : forall i, i ∈ ids (LSplit par o r x y) -> i ∈ ids t)
    by (by eapply lsub_ids).
  assert (nl ∉ ids (child b x y) /\ ns ∉ ids (child b x y) /\
          nl ∉ ids (child (negb b) x y) /\ ns ∉ ids (child (negb b) x y) /\
          par <> nl /\ par <> ns) as (Hc1 & Hc2 & Hs1 & Hs2 & Hp1 & Hp2).
  { setoid_rewrite Hids in Hsubset. split_and!; try intros ?; subst; eauto 6. }
  unfold set_child. rewrite !lookup_insert_ne, Hpar by done. clear Hsubset.
  eapply core_lput; [done|done|by rewrite rid_with_child| | | | |].
  - apply reprs_with_child. split_and!.
    + rewrite lookup_insert_eq. by destruct b, bef.
    + apply reprs_insert; [by apply reprs_wrapped|]. rewrite elem_wrapped. by intros [|[|]].
    + by repeat apply reprs_insert.
  - apply nodup_with_child. split_and!; try done.
    + rewrite elem_wrapped. by intros [|[|]].
    + by apply nodup_wrapped.
    + intros i. rewrite elem_wrapped. intros [->|[->|?]]; eauto.
  - intros i Hi Hni. rewrite Hids in Hni.
    rewrite !lookup_insert_ne; [done|intros ->; tauto..].
  - intros i. rewrite elem_with_child, elem_wrapped, Hids.
    intros [->|[[->|[->|?]]|?]]; tauto.
  - intros i z. rewrite elem_with_child, elem_wrapped, Hids, !lookup_insert_Some.
    pose proof (core_dom _ _ Hcore i z). destruct (decide (i ∈ ids (child b x y)));
      destruct (decide (i ∈ ids (child (negb b) x y))); intuition auto.
Qed.

(** ** Removing a leaf *)

Lemma core_remove_root m n o r x y b k p :
  core m (LSplit n o r x y) -> child b x y = LLeaf k p ->
  core (delete n (delete k m)) (child (negb b) x y).
Proof.
  intros Hcore Hc.
  destruct (core_at _ _ b n o r x y Hcore) as (Hn & _ & Hs & Hpc & Hps & _ & Hnds & Hd).
  { simpl. by rewrite decide_True. }
  rewrite Hc in *. simpl in *. split; [|done|].
  - apply reprs_delete; [apply reprs_delete|]; set_solver.
  - intros i z (Hi1 & (Hi2 & Hz)%lookup_delete_Some)%lookup_delete_Some.
    apply (core_dom _ _ Hcore) in Hz. rewrite (with_child_self b), elem_with_child, Hc in Hz.
    simpl in Hz. set_solver.
Qed.

Lemma core_remove_nested m t gp gb go gr u v par o r x y b k p :
  core m t -> lsub t gp = Some (LSplit gp go gr u v) ->
  child gb u v = LSplit par o r x y -> child b x y = LLeaf k p ->
  core (delete par (set_child gp gb (rid (child (negb b) x y)) (delete k m)))
       (lput t gp (with_child gb gp go gr u v (child (negb b) x y))).
Proof.
  intros Hcore Hsub Hgc Hc.
  destruct (core_at _ _ gb _ _ _ _ _ Hcore Hsub)
    as (Hgp & Hrc & Hrs & Hgpc & Hgps & Hndc & Hnds & Hd).
  pose proof (lsub_child _ _ gb _ _ _ _ (core_nodup _ _ Hcore) Hsub) as Hsubp.
  rewrite Hgc in Hsubp. simpl in Hsubp.
  destruct (core_at _ _ b _ _ _ _ _ Hcore Hsubp)
    as (_ & _ & Hrsib & Hpk & Hpsib & _ & Hndsib & Hdk).
  rewrite Hc in *. simpl in Hpk, Hdk. set (sib := child (negb b) x y) in *.
  assert (Hids : forall i, i ∈ ids (child gb u v) <-> i = par \/ i = k \/ i ∈ ids sib).
  { intros i. rewrite Hgc, (with_child_self b), elem_with_child, Hc. simpl. set_solver. }
  assert (Hall : forall i, i ∈ ids (LSplit gp go gr u v) <->
            i = gp \/ (i = par \/ i = k \/ i ∈ ids sib) \/ i ∈ ids (child (negb gb) u v)).
  { intros i. rewrite (with_child_self gb), elem_with_child, Hids. done. }
  assert (Hpark : par <> k) by set_solver.
  assert (Hksib : k ∉ ids sib) by set_solver.
  assert (Hgpx : gp <> par /\ gp <> k /\ gp ∉ ids sib) by (rewrite Hids in Hgpc; naive_solver).
  assert (par ∉ ids (child (negb gb) u v) /\ k ∉ ids (child (negb gb) u v) /\
          (forall i, i ∈ ids sib -> i ∉ ids (child (negb gb) u v))) as (Ho1 & Ho2 & Ho3).
  { setoid_rewrite Hids in Hd. split_and!; [eauto..|]. intros i ??. eauto. }
  destruct Hgpx as (Hg1 & Hg2 & Hg3). clear Hids Hd.
  unfold set_child. rewrite lookup_delete_ne, Hgp by done.
  eapply core_lput; [done|done|by rewrite rid_with_child| | | | |].
  - apply reprs_with_child. split_and!.
    + rewrite lookup_delete_ne, lookup_insert_eq by done. by destruct gb.
    + apply reprs_delete; [apply reprs_insert; [apply reprs_delete|]|]; done.
    + apply reprs_delete; [apply reprs_insert; [apply reprs_delete|]|]; done.
  - apply nodup_with_child. by split_and!.
  - intros i Hi Hni. rewrite Hall in Hni.
    rewrite lookup_delete_ne, lookup_insert_ne, lookup_delete_ne;
      [done|intros ->; tauto..].
  - intros i. rewrite elem_with_child, Hall. tauto.
  - intros i z (Hi1 & Hz)%lookup_delete_Some. rewrite elem_with_child, Hall.
    apply lookup_insert_Some in Hz as [[-> _]|[Hi2 [Hi3 Hz]%lookup_delete_Some]]; [auto|].
    apply (core_dom _ _ Hcore) in Hz. clear -Hi1 Hi2 Hi3 Hz.
    destruct (decide (i ∈ ids sib)); [tauto|].
    destruct (decide (i ∈ ids (child (negb gb) u v))); [tauto|].
    right. split; [done|]. intuition congruence.
Qed.

(** The walk to the grandparent is not disturbed by the deleted leaf. *)
Lemma find_parent_of_node_delete m k q target : m !! k = Some (Leaf q) ->
  forall f n, find_parent_of_node f (delete k m) n target = find_parent_of_node f m n target.
Proof.
  intros Hk. induction f as [|f IH]; intros n; simpl; [done|].
  destruct (decide (n = k)) as [->|Hne].
  - by rewrite lookup_delete_eq, Hk.
  - rewrite lookup_delete_ne by done. destruct (m !! n) as [[|]|]; [done| |done].
    by rewrite !IH.
Qed.

(** ** [replace_child] *)

Lemma lparent_of_in t target x : lparent_of t target = Some x -> target ∈ ids t.
Proof.
  induction t as [n q|n o r a IHa b IHb]; simpl; [done|].
  pose proof (rid_in_ids a). pose proof (rid_in_ids b).
  case_decide; [set_solver|]. case_decide; [set_solver|].
  destruct (lparent_of a target); intros; [set_solver|].
  specialize (IHb ltac:(done)). set_solver.
Qed.

Lemma lparent_of_par_in t target par b : lparent_of t target = Some (par, b) -> par ∈ ids t.
Proof.
  induction t as [n q|n o r x IHx y IHy]; simpl; [done|].
  case_decide; [set_solver|]. case_decide; [set_solver|].
  destruct (lparent_of x target) as [[??]|]; intros; simplify_eq; [set_solver|].
  specialize (IHy ltac:(done)). set_solver.
Qed.

Lemma set_child_other par b c m i : i <> par -> set_child par b c m !! i = m !! i.
Proof.
  intros Hi. unfold set_child. destruct (m !! par) as [[]|]; try done.
  by rewrite lookup_insert_ne.
Qed.

Lemma replace_child_spec old new t : forall f m,
  reprs m t -> NoDup (ids t) -> height t <= f ->
  replace_child f (rid t) old new m =
  match lparent_of t old with Some (par, b) => set_child par b new m | None => m end.
Proof.
  induction t as [n q|n o r x IHx y IHy]; intros [|f] m Hr Hnd Hf; simpl in *; try lia.
  { by rewrite Hr. }
  destruct Hr as (Hn & Hx & Hy).
  apply NoDup_cons in Hnd as [Hi [Hndx [Hd Hndy]]%NoDup_app]. rewrite Hn.
  case_decide; [unfold set_child; by rewrite Hn|].
  case_decide; [unfold set_child; by rewrite Hn|].
  rewrite IHx by (done || lia).
  destruct (lparent_of x old) as [[par b]|] eqn:Hpx; [|apply IHy; done || lia].
  rewrite IHy; [|eapply reprs_frame; [exact Hy|]|done|lia].
  - destruct (lparent_of y old) as [?|] eqn:Hpy; [|done].
    exfalso. eapply Hd; [by eapply lparent_of_in|]. by eapply lparent_of_in.
  - intros i Hi'. apply set_child_other. intros ->.
    eapply Hd; [|done]. by eapply lparent_of_par_in.
Qed.

(** ** Ratio updates *)

(** [g] rewrites the ratio of each split of the tree. *)
Fixpoint lmap_ratio (g : NodeId -> f64 -> f64) (t : ltree) : ltree :=
  match t with
  | LLeaf n p => LLeaf n p
  | LSplit n o r a b => LSplit n o (g n r) (lmap_ratio g a) (lmap_ratio g b)
  end.

Definition node_ratio (g : NodeId -> f64 -> f64) (n : NodeId) (x : Node) : Node :=
  match x with Leaf p => Leaf p | Split o r a b => Split o (g n r) a b end.

Lemma lmap_ratio_rid g t : rid (lmap_ratio g t) = rid t.
Proof. by destruct t. Qed.
Lemma lmap_ratio_ids g t : ids (lmap_ratio g t) = ids t.
Proof. induction t; simpl; congruence. Qed.
Lemma lmap_ratio_panes g t : lpanes (lmap_ratio g t) = lpanes t.
Proof. induction t; simpl; congruence. Qed.

Lemma core_map_ratio g m m' t :
  core m t -> (forall n, m' !! n = node_ratio g n <$> m !! n) -> core m' (lmap_ratio g t).
Proof.
  intros [Hr Hnd Hdom] Hm'. split.
  - clear Hnd Hdom. induction t as [n q|n o r a IHa b IHb]; simpl in *; rewrite Hm'.
    + by rewrite Hr.
    + destruct Hr as (Hn & Ha & Hb). rewrite Hn, !lmap_ratio_rid. naive_solver.
  - by rewrite lmap_ratio_ids.
  - intros n x. rewrite lmap_ratio_ids, Hm'. intros (y & Hy & _)%fmap_Some. eauto.
Qed.

Definition ratio_at (k : NodeId) (v : f64) (n : NodeId) (r : f64) : f64 :=
  if decide (n = k) then v else r.

Lemma set_ratio_lookup k v t n :
  nodes (set_ratio k v t) !! n = node_ratio (ratio_at k v) n <$> nodes t !! n.
Proof.
  unfold set_ratio, ratio_at. destruct (decide (n = k)) as [->|Hne].
  - destruct (nodes t !! k) as [[q|o r a b]|] eqn:Hk; simpl; rewrite ?Hk; simpl; try done.
    rewrite lookup_insert_eq. by rewrite decide_True.
  - assert (nodes t !! n = node_ratio (fun m r => if decide (m = k) then v else r) n
              <$> nodes t !! n) as <-.
    { destruct (nodes t !! n) as [[]|]; simpl; [done| |done]. by rewrite decide_False. }
    destruct (nodes t !! k) as [[q|o r a b]|]; simpl; try done. by rewrite lookup_insert_ne.
Qed.

Lemma equalize_keys_lookup ks m n :
  equalize_keys ks m !! n =
  if decide (n ∈ ks) then node_ratio (fun _ _ => f64_half) n <$> m !! n else m !! n.
Proof.
  revert m. induction ks as [|k ks IH]; intros m; simpl; [done|]. rewrite IH.
  destruct (decide (n = k)) as [->|Hne].
  - rewrite (decide_True (P := k ∈ k :: ks)) by set_solver.
    destruct (m !! k) as [[q|o r a b]|] eqn:Hk; simplify_map_eq; by case_decide.
  - assert ((match m !! k with
             | Some (Split o _ a b) => <[k := Split o f64_half a b]> m
             | _ => m end) !! n = m !! n) as ->.
    { destruct (m !! k) as [[]|]; try done. by rewrite lookup_insert_ne. }
    destruct (decide (n ∈ ks)), (decide (n ∈ k :: ks)); try done; set_solver.
Qed.

Lemma equalize_lookup t n :
  nodes (equalize t) !! n = node_ratio (fun _ _ => f64_half) n <$> nodes t !! n.
Proof.
  unfold equalize. simpl. rewrite equalize_keys_lookup. case_decide as Hin; [done|].
  destruct (nodes t !! n) eqn:Hn; [|done]. exfalso. apply Hin.
  apply list_elem_of_fmap. exists (n, n0). split; [done|]. by apply elem_of_map_to_list.
Qed.

(** Ratios of the right spine. *)
Fixpoint lchain (k : nat) (t : ltree) : ltree :=
  match k, t with
  | S (S _ as k'), LSplit n o _ a b =>
      LSplit n o (f64_div f64_one (f64_of_Z (Z.of_nat k))) a (lchain k' b)
  | _, _ => t
  end.

Lemma lchain_rid k t : rid (lchain k t) = rid t.
Proof. by destruct k as [|[]], t. Qed.

Lemma lchain_ids k t : ids (lchain k t) = ids t.
Proof.
  revert k. induction t; intros [|[|k]]; try done.
  change (n :: ids t1 ++ ids (lchain (S k) t2) = n :: ids t1 ++ ids t2). by rewrite IHt2.
Qed.

Lemma lchain_panes k t : lpanes (lchain k t) = lpanes t.
Proof.
  revert k. induction t; intros [|[|k]]; try done.
  change (lpanes t1 ++ lpanes (lchain (S k) t2) = lpanes t1 ++ lpanes t2). by rewrite IHt2.
Qed.

Lemma lchain_erase k t : erase (lchain k t) = lay_chain k (erase t).
Proof.
  revert k. induction t; intros [|[|k]]; try done.
  change (Div o (f64_div f64_one (f64_of_Z (Z.of_nat (S (S k))))) (erase t1)
            (erase (lchain (S k) t2)) = lay_chain (S (S k)) (Div o r (erase t1) (erase t2))).
  by rewrite IHt2.
Qed.

Lemma set_chain_ratios_SS k n m o r a b :
  m !! n = Some (Split o r a b) ->
  set_chain_ratios (S (S k)) n m =
  set_chain_ratios (S k) b
    (<[n := Split o (f64_div f64_one (f64_of_Z (Z.of_nat (S (S k))))) a b]> m).
Proof. intros H. cbn [set_chain_ratios]. by rewrite H. Qed.

Lemma set_chain_ratios_frame k t : forall m i,
  reprs m t -> NoDup (ids t) -> i ∉ ids t -> set_chain_ratios k (rid t) m !! i = m !! i.
Proof.
  revert k. induction t as [n q|n o r a _ b IHb]; intros [|[|k]] m i Hr Hnd Hi; try done.
  - simpl in *. by rewrite Hr.
  - destruct Hr as (Hn & _ & Hb). simpl in Hnd, Hi.
    apply NoDup_cons in Hnd as [Hnn [_ [_ Hndb]]%NoDup_app].
    cbn [rid]. erewrite set_chain_ratios_SS by done.
    rewrite IHb; [|apply reprs_insert; [done|set_solver]|done|set_solver].
    rewrite lookup_insert_ne; [done|set_solver].
Qed.

Lemma set_chain_ratios_reprs k t : forall m,
  reprs m t -> NoDup (ids t) -> reprs (set_chain_ratios k (rid t) m) (lchain k t).
Proof.
  revert k. induction t as [n q|n o r a _ b IHb]; intros [|[|k]] m Hr Hnd; try done.
  - simpl in *. by rewrite Hr.
  - destruct Hr as (Hn & Ha & Hb). simpl in Hnd.
    apply NoDup_cons in Hnd as [Hnn [Hnda [Hd Hndb]]%NoDup_app].
    cbn [rid]. erewrite set_chain_ratios_SS by done.
    set (m1 := <[n := _]> m).
    assert (reprs m1 b) as Hb1 by (apply reprs_insert; [done|set_solver]).
    change (reprs (set_chain_ratios (S k) (rid b) m1)
      (LSplit n o (f64_div f64_one (f64_of_Z (Z.of_nat (S (S k))))) a (lchain (S k) b))).
    cbn [reprs]. rewrite lchain_rid, set_chain_ratios_frame by (done || set_solver).
    split_and!; [by unfold m1; rewrite lookup_insert_eq| |by apply IHb].
    apply (reprs_frame m); [done|]. intros i Hi.
    rewrite set_chain_ratios_frame; [|done..|set_solver].
    unfold m1. rewrite lookup_insert_ne; [done|set_solver].
Qed.

Lemma core_chain k m t : core m t -> core (set_chain_ratios k (rid t) m) (lchain k t).
Proof.
  intros [Hr Hnd Hdom]. split.
  - by apply set_chain_ratios_reprs.
  - by rewrite lchain_ids.
  - intros n x Hn. rewrite lchain_ids. destruct (decide (n ∈ ids t)) as [|Hni]; [done|].
    rewrite set_chain_ratios_frame in Hn; eauto.
Qed.

(** * The representation relation *)

(** ** The layout a split tree denotes *)

Fixpoint layout_at (fuel : nat) (m : gmap Z Node) (n : NodeId) : option layout :=
  match fuel with
  | O => None
  | S fuel =>
      match m !! n with
      | Some (Leaf p) => Some (Pane p)
      | Some (Split o r a b) =>
          la ← layout_at fuel m a; lb ← layout_at fuel m b; Some (Div o r la lb)
      | None => None
      end
  end.

Definition layout_of (t : SplitTree) : option layout :=
  r ← root t; layout_at (fuel_of (nodes t)) (nodes t) r.

Record rep (t : SplitTree) (lt : ltree) : Prop := mkRep {
  rep_root : root t = Some (rid lt);
  rep_core : core (nodes t) lt;
  rep_nodup : NoDup (lpanes lt);
  rep_bound : forall n x, nodes t !! n = Some x -> (0 <= n < next_id t)%Z;
  rep_next : (0 <= next_id t <= u32_max)%Z;
}.

(** The invariant of a split tree: either it is empty, or its arena is exactly a
    binary tree over distinct panes, with every identifier below [next_id], and
    the focused pane is one of its panes. *)
Definition wf (t : SplitTree) : Prop :=
  (root t = None /\ nodes t = ∅ /\ focused t = None /\ (0 <= next_id t <= u32_max)%Z) \/
  (exists lt f, rep t lt /\ focused t = Some f /\ f ∈ lpanes lt).

(** There is room for [k] more node identifiers. *)
Definition room (k : Z) (t : SplitTree) : Prop := (next_id t + k <= u32_max)%Z.

(** ** Lemmas on layouts *)

Lemma lay_subst_notin p s l : p ∉ lay_panes l -> lay_subst p s l = l.
Proof.
  induction l as [q|o r a IHa b IHb]; simpl; intros Hp.
  - case_decide; set_solver.
  - rewrite IHa, IHb; set_solver.
Qed.

Lemma lay_subst_panes p s l :
  NoDup (lay_panes l) -> p ∈ lay_panes l ->
  exists l1 l2, lay_panes l = l1 ++ p :: l2 /\
                lay_panes (lay_subst p s l) = l1 ++ lay_panes s ++ l2.
Proof.
  induction l as [q|o r a IHa b IHb]; simpl; intros Hnd Hp.
  - apply list_elem_of_singleton in Hp as ->. rewrite decide_True by done.
    exists [], []. by rewrite app_nil_r.
  - apply NoDup_app in Hnd as (Hna & Hd & Hnb). apply elem_of_app in Hp as [Hp|Hp].
    + destruct (IHa Hna Hp) as (l1 & l2 & -> & ->). exists l1, (l2 ++ lay_panes b).
      rewrite (lay_subst_notin p s b) by auto. by rewrite <- !app_assoc.
    + destruct (IHb Hnb Hp) as (l1 & l2 & -> & ->). exists (lay_panes a ++ l1), l2.
      rewrite (lay_subst_notin p s a) by (intros ?; by eapply Hd). by rewrite <- !app_assoc.
Qed.

Lemma lay_remove_notin p l : p ∉ lay_panes l -> lay_remove p l = Some l.
Proof.
  induction l as [q|o r a IHa b IHb]; simpl; intros Hp.
  - case_decide; set_solver.
  - rewrite IHa, IHb; set_solver.
Qed.

Lemma lay_remove_panes p l :
  filter (fun q => q <> p) (lay_panes l) =
  match lay_remove p l with Some l' => lay_panes l' | None => [] end.
Proof.
  induction l as [q|o r a IHa b IHb]; simpl.
  - destruct (decide (q = p)).
    + rewrite filter_cons_False; [done|naive_solver].
    + by rewrite filter_cons_True.
  - rewrite filter_app, IHa, IHb.
    destruct (lay_remove p a), (lay_remove p b); simpl; by rewrite ?app_nil_r.
Qed.

Lemma lay_chain_panes n l : lay_panes (lay_chain n l) = lay_panes l.
Proof.
  revert n. induction l; intros [|[|n]]; try done.
  change (lay_panes l1 ++ lay_panes (lay_chain (S n) l2) = lay_panes l1 ++ lay_panes l2).
  by rewrite IHl2.
Qed.

Lemma lay_halve_panes l : lay_panes (lay_halve l) = lay_panes l.
Proof. induction l; simpl; congruence. Qed.

Lemma lay_bounds_panes l rect : (lay_bounds l rect).*1 = lay_panes l.
Proof.
  revert rect. induction l as [p|o r a IHa b IHb]; intros rect; simpl; [done|].
  destruct (split_rect o r rect) as [r1 r2]. by rewrite fmap_app, IHa, IHb.
Qed.

(** ** Lemmas on the erasure *)

Lemma erase_lput_leaf t par b o r x y k p w :
  NoDup (ids t) -> NoDup (lpanes t) ->
  lsub t par = Some (LSplit par o r x y) -> child b x y = LLeaf k p ->
  erase (lput t par (with_child b par o r x y w)) = lay_subst p (erase w) (erase t).
Proof.
  intros Hnd Hndp Hs Hc.
  induction t as [n q|n o' r' u IHu v IHv]; simpl in *; [by case_decide; simplify_eq|].
  apply NoDup_cons in Hnd as [Hn [Hndu [Hd Hndv]]%NoDup_app].
  apply NoDup_app in Hndp as (Hpu & Hdp & Hpv).
  case_decide.
  - simplify_eq. destruct b; simpl in *; subst; simpl in *; rewrite decide_True by done.
    + rewrite (lay_subst_notin p _ (erase y)); [done|]. rewrite erase_panes. set_solver.
    + rewrite (lay_subst_notin p _ (erase x)); [done|]. rewrite erase_panes. set_solver.
  - assert (Hin : forall z, lsub z par = Some (LSplit par o r x y) -> p ∈ lpanes z).
    { intros z Hz. eapply lsub_panes; [done|]. destruct b; simpl in *; subst; simpl; set_solver. }
    destruct (lsub u par) eqn:Hu; simplify_eq; simpl.
    + rewrite IHu by done. rewrite (lput_notin v) by (apply Hd; by eapply lsub_in).
      rewrite (lay_subst_notin p _ (erase v)); [done|]. rewrite erase_panes. auto.
    + rewrite IHv by done.
      rewrite (lput_notin u) by (intros ?; eapply Hd; [done|]; by eapply lsub_in).
      rewrite (lay_subst_notin p _ (erase u)); [done|]. rewrite erase_panes.
      intros ?. eapply Hdp; eauto.
Qed.

Lemma erase_remove_split o r x y b k p :
  NoDup (lpanes x ++ lpanes y) -> child b x y = LLeaf k p ->
  lay_remove p (Div o r (erase x) (erase y)) = Some (erase (child (negb b) x y)).
Proof.
  intros (Hx & Hd & Hy)%NoDup_app Hc. destruct b; simpl in *; subst; simpl in *.
  - rewrite decide_True by done. apply lay_remove_notin. rewrite erase_panes. set_solver.
  - rewrite (decide_True (P := p = p)) by done.
    rewrite lay_remove_notin; [done|]. rewrite erase_panes. set_solver.
Qed.

Lemma erase_lput_remove t gp gb go gr u v par o r x y b k p :
  NoDup (ids t) -> NoDup (lpanes t) ->
  lsub t gp = Some (LSplit gp go gr u v) ->
  child gb u v = LSplit par o r x y -> child b x y = LLeaf k p ->
  lay_remove p (erase t) =
  Some (erase (lput t gp (with_child gb gp go gr u v (child (negb b) x y)))).
Proof.
  intros Hnd Hndp Hs Hgc Hc.
  induction t as [n q|n o' r' t1 IH1 t2 IH2]; simpl in *; [by case_decide; simplify_eq|].
  apply NoDup_cons in Hnd as [Hn [Hndu [Hd Hndv]]%NoDup_app].
  apply NoDup_app in Hndp as (Hpu & Hdp & Hpv).
  assert (Hpx : forall z, lpanes (child gb u v) ⊆ z -> p ∈ z).
  { intros z Hz. apply Hz. rewrite Hgc. destruct b; simpl in *; subst; simpl; set_solver. }
  case_decide.
  - simplify_eq. destruct gb; simpl in *; subst; simpl in *.
    + rewrite (lay_remove_notin p (erase v)) by (rewrite erase_panes; apply Hdp, Hpx; done).
      pose proof (erase_remove_split o r _ _ _ _ _ Hpu Hc) as E. simpl in E. by rewrite E.
    + rewrite (lay_remove_notin p (erase u))
        by (rewrite erase_panes; intros ?; eapply Hdp; [done|]; apply Hpx; done).
      pose proof (erase_remove_split o r _ _ _ _ _ Hpv Hc) as E. simpl in E. by rewrite E.
  - assert (Hin : forall z, lsub z gp = Some (LSplit gp go gr u v) -> p ∈ lpanes z).
    { intros z Hz. apply Hpx. intros i Hi. eapply lsub_panes; [done|].
      destruct gb; simpl in *; set_solver. }
    destruct (lsub t1 gp) eqn:Hu; simplify_eq; simpl.
    + rewrite IH1 by done. rewrite (lput_notin t2) by (apply Hd; by eapply lsub_in).
      rewrite (lay_remove_notin p (erase t2)); [done|]. rewrite erase_panes. auto.
    + rewrite IH2 by done.
      rewrite (lput_notin t1) by (intros ?; eapply Hd; [done|]; by eapply lsub_in).
      rewrite (lay_remove_notin p (erase t1)); [done|]. rewrite erase_panes.
      intros ?. eapply Hdp; eauto.
Qed.

(** ** Reading a represented tree *)

Lemma layout_at_spec m t : forall f,
  reprs m t -> height t <= f -> layout_at f m (rid t) = Some (erase t).
Proof. intros f. walk_induction t f; [done|]. rewrite IHa, IHb; by try lia. Qed.

Section rep_facts.
Context (t : SplitTree) (lt : ltree) (Hrep : rep t lt).

Lemma rep_reprs : reprs (nodes t) lt.
Proof. apply (core_reprs _ _ (rep_core _ _ Hrep)). Qed.
Lemma rep_ids : NoDup (ids lt).
Proof. apply (core_nodup _ _ (rep_core _ _ Hrep)). Qed.
Lemma rep_fuel : height lt <= fuel_of (nodes t).
Proof. apply core_fuel, Hrep. Qed.
Hint Resolve rep_reprs rep_ids rep_fuel : core.

Lemma rep_layout : layout_of t = Some (erase lt).
Proof. unfold layout_of. rewrite (rep_root _ _ Hrep). by apply layout_at_spec. Qed.

Lemma rep_panes : panes t = lpanes lt.
Proof. unfold panes. rewrite (rep_root _ _ Hrep). by rewrite (collect_panes_spec _ lt). Qed.

Lemma rep_bounds : pane_bounds t = lay_bounds (erase lt) full_rect.
Proof.
  unfold pane_bounds. rewrite (rep_root _ _ Hrep). by rewrite (compute_bounds_spec _ lt).
Qed.

Lemma rep_node_for_pane p : node_id_for_pane p t = lfind_leaf lt p.
Proof.
  unfold node_id_for_pane. rewrite (rep_root _ _ Hrep). by apply find_leaf_spec.
Qed.

Lemma rep_fresh i : (next_id t <= i)%Z -> nodes t !! i = None.
Proof.
  intros Hi. destruct (nodes t !! i) eqn:E; [|done].
  apply (rep_bound _ _ Hrep) in E. lia.
Qed.
End rep_facts.
#[export] Hint Resolve rep_reprs rep_ids rep_fuel rep_core rep_nodup : limux.

Lemma wf_layout t : wf t -> root t <> None -> exists lt, rep t lt /\ layout_of t = Some (erase lt).
Proof.
  intros [(? & _)|(lt & f & Hrep & _)] Hr; [congruence|].
  exists lt. split; [done|]. by apply rep_layout.
Qed.

Lemma set_child_Some par b c m i x :
  set_child par b c m !! i = Some x -> exists y, m !! i = Some y.
Proof.
  unfold set_child. destruct (m !! par) as [[]|] eqn:E; eauto.
  intros [[<- _]|[_ ?]]%lookup_insert_Some; eauto.
Qed.

(** The layout of a new split: the old layout and the new pane. *)
Definition lay_wrap (bef : bool) (o : Orientation) (l : layout) (q : PaneId) : layout :=
  if bef then Div o f64_half (Pane q) l else Div o f64_half l (Pane q).

Lemma erase_wrapped bef ns o c nl q :
  erase (wrapped bef ns o c (LLeaf nl q)) = lay_wrap bef o (erase c) q.
Proof. by destruct bef. Qed.

Lemma wrap_panes_nodup p q bef o l :
  NoDup (lay_panes l) -> p ∈ lay_panes l -> q ∉ lay_panes l ->
  NoDup (lay_panes (lay_subst p (lay_wrap bef o (Pane p) q) l)).
Proof.
  intros Hnd Hp Hq. destruct (lay_subst_panes p (lay_wrap bef o (Pane p) q) l Hnd Hp)
    as (l1 & l2 & E & ->). rewrite E in Hnd, Hq.
  destruct bef; simpl; rewrite !NoDup_app, !NoDup_cons in *; set_solver.
Qed.

(** Wrapping the leaf of pane [p], found below the split [par], in a new split
    with a new leaf for [q]: the update shared by [split], [split_before],
    [insert_after_node] and [move_pane_adjacent]. *)
Lemma rep_wrap_leaf t lt par b o r x y k p q od bef f :
  rep t lt -> lsub lt par = Some (LSplit par o r x y) -> child b x y = LLeaf k p ->
  q ∉ lpanes lt -> room 2 t ->
  let nl := next_id t in
  let ns := (next_id t + 1)%Z in
  exists lt',
    rep (mkSplitTree (set_child par b ns (<[ns := wrap_node bef od k nl]>
                        (<[nl := Leaf q]> (nodes t)))) (root t) (next_id t + 2) f) lt' /\
    erase lt' = lay_subst p (lay_wrap bef od (Pane p) q) (erase lt).
Proof.
  intros Hrep Hsub Hc Hq Hroom nl ns. unfold room in Hroom.
  assert (p ∈ lpanes lt) as Hp.
  { eapply lsub_panes; [done|]. simpl. destruct b; simpl in Hc; subst; simpl; set_solver. }
  exists (lput lt par (with_child b par o r x y (wrapped bef ns od (child b x y) (LLeaf nl q)))).
  assert (Her : erase (lput lt par (with_child b par o r x y
            (wrapped bef ns od (child b x y) (LLeaf nl q)))) =
          lay_subst p (lay_wrap bef od (Pane p) q) (erase lt)).
  { erewrite erase_lput_leaf by eauto with limux. by rewrite erase_wrapped, Hc. }
  split; [|done]. pose proof (rep_next _ _ Hrep) as Hnext. split; simpl.
  - rewrite lput_rid by apply rid_with_child. apply Hrep.
  - pose proof (core_wrap (nodes t) lt par b o r x y nl ns q od bef) as HW.
    rewrite Hc in HW. simpl in HW. rewrite Hc. apply HW; eauto with limux; try lia.
    + apply (rep_fresh _ _ Hrep). lia.
    + apply (rep_fresh _ _ Hrep). lia.
  - rewrite <- erase_panes, Her. apply wrap_panes_nodup; rewrite ?erase_panes; eauto with limux.
  - intros n z (w & Hw)%set_child_Some.
    apply lookup_insert_Some in Hw as [[<- _]|[_ Hw]]; [lia|].
    apply lookup_insert_Some in Hw as [[<- _]|[_ Hw]]; [lia|].
    apply (rep_bound _ _ Hrep) in Hw. lia.
  - lia.
Qed.

(** ** [split] and [split_before] *)

Definition place_of (bef : bool) (target new_leaf : NodeId) : NodeId * NodeId :=
  if bef then (new_leaf, target) else (target, new_leaf).

(** A single leaf, wrapped with a new leaf under a new root. *)
Lemma rep_wrap_root t k p q od bef f :
  rep t (LLeaf k p) -> q <> p -> room 2 t ->
  rep (mkSplitTree (<[(next_id t + 1)%Z := wrap_node bef od k (next_id t)]>
                      (<[next_id t := Leaf q]> (nodes t)))
         (Some (next_id t + 1)%Z) (next_id t + 2) f)
      (wrapped bef (next_id t + 1) od (LLeaf k p) (LLeaf (next_id t) q)).
Proof.
  intros Hrep Hq Hroom. unfold room in Hroom. pose proof (rep_next _ _ Hrep) as Hnext.
  assert (Hk : (0 <= k < next_id t)%Z).
  { eapply (rep_bound _ _ Hrep). apply (rep_reprs _ _ Hrep). }
  split; simpl.
  - by destruct bef.
  - split.
    + apply (reprs_wrapped _ _ _ _ (LLeaf k p)); [apply (rep_reprs _ _ Hrep)|..|lia];
        simpl; rewrite list_elem_of_singleton; lia.
    + apply nodup_wrapped; [apply NoDup_singleton|..|lia];
        simpl; rewrite list_elem_of_singleton; lia.
    + intros n x Hx. rewrite elem_wrapped.
      apply lookup_insert_Some in Hx as [[<- _]|[_ Hx]]; [auto|].
      apply lookup_insert_Some in Hx as [[<- _]|[_ Hx]]; [auto|].
      right. right. by eapply (core_dom _ _ (rep_core _ _ Hrep)).
  - destruct bef; simpl; rewrite !NoDup_cons; split_and!;
      solve [apply NoDup_nil_2 | set_solver].
  - intros n x Hx.
    apply lookup_insert_Some in Hx as [[<- _]|[_ Hx]]; [lia|].
    apply lookup_insert_Some in Hx as [[<- _]|[_ Hx]]; [lia|].
    apply (rep_bound _ _ Hrep) in Hx. lia.
  - lia.
Qed.

Lemma child_of_at m t par b o r x y :
  core m t -> lsub t par = Some (LSplit par o r x y) ->
  child_of m par b = Some (rid (child b x y)).
Proof.
  intros Hcore Hs. unfold child_of.
  destruct (core_at _ _ b _ _ _ _ _ Hcore Hs) as (-> & _). by destruct b.
Qed.

Lemma u32_succ2 t : (0 <= next_id t)%Z -> room 2 t ->
  u32_succ (next_id t) = (next_id t + 1)%Z /\
  u32_succ (u32_succ (next_id t)) = (next_id t + 2)%Z.
Proof.
  unfold room. intros. rewrite (u32_succ_small (next_id t)) by lia.
  split; [done|]. rewrite u32_succ_small; lia.
Qed.

Lemma split_with_rep t lt bef p q od :
  rep t lt -> p ∈ lpanes lt -> q ∉ lpanes lt -> room 2 t ->
  exists t' lt',
    split_with (place_of bef) p q od t = (Some (next_id t + 1)%Z, t') /\ rep t' lt' /\
    erase lt' = lay_subst p (lay_wrap bef od (Pane p) q) (erase lt) /\
    focused t' = Some q /\ next_id t' = (next_id t + 2)%Z.
Proof.
  intros Hrep Hp Hq Hroom. pose proof (rep_next _ _ Hrep) as Hnext.
  destruct (u32_succ2 t) as [Hs1 Hs2]; [lia|done|].
  unfold split_with. rewrite (rep_root _ _ Hrep), (find_parent_spec _ lt) by eauto with limux.
  destruct (lfind_parent lt p) as [[par b]|] eqn:Hpar.
  - destruct (lfind_parent_Some _ _ _ _ (rep_ids _ _ Hrep) Hpar)
      as (o & r & x & y & k & Hsub & Hc).
    rewrite (child_of_at _ lt par b o r x y) by eauto with limux. rewrite Hc.
    destruct (rep_wrap_leaf t lt par b o r x y k p q od bef (Some q)) as (lt' & Hrep' & He); try done.
    simpl in Hrep'. exists (mkSplitTree (set_child par b (next_id t + 1)%Z
      (<[(next_id t + 1)%Z := wrap_node bef od k (next_id t)]> (<[next_id t := Leaf q]> (nodes t))))
      (root t) (next_id t + 2) (Some q)), lt'.
    split_and!; try done.
    destruct bef; cbn -[u32_succ set_child]; rewrite Hs1, <- Hs2, Hs1; done.
  - destruct (lfind_parent_None _ _ Hpar Hp) as [k ->].
    pose proof (rep_reprs _ _ Hrep) as Hk. simpl in Hk. simpl rid. rewrite Hk.
    rewrite decide_False by naive_solver.
    eexists _, _. split_and!; [|apply (rep_wrap_root t k p q od bef (Some q)); try done; set_solver|..];
      try done.
    + destruct bef; cbn -[u32_succ]; rewrite Hs1, <- Hs2, Hs1; done.
    + rewrite erase_wrapped. simpl. by rewrite decide_True.
Qed.

Lemma split_with_absent t place p q od :
  wf t -> p ∉ panes t -> split_with place p q od t = (None, t).
Proof.
  intros [(Hr & _)|(lt & f & Hrep & _)] Hp; unfold split_with; [by rewrite Hr|].
  rewrite (rep_root _ _ Hrep), (find_parent_spec _ lt) by eauto with limux.
  rewrite (rep_panes _ _ Hrep) in Hp.
  destruct (lfind_parent lt p) as [[par b]|] eqn:Hpar.
  - destruct (lfind_parent_Some _ _ _ _ (rep_ids _ _ Hrep) Hpar)
      as (o & r & x & y & k & Hsub & Hc).
    exfalso. apply Hp. eapply lsub_panes; [done|].
    destruct b; simpl in Hc; subst; simpl; set_solver.
  - rewrite (reprs_root _ lt) by eauto with limux. destruct lt as [k z|]; [|done].
    rewrite decide_True; [done|]. simpl in Hp. set_solver.
Qed.

(** ** [remove] *)

(** Detaching a leaf whose parent is the root. *)
Lemma detach_root t par o r x y b k p :
  rep t (LSplit par o r x y) -> child b x y = LLeaf k p ->
  rep (mkSplitTree (delete par (delete k (nodes t))) (Some (rid (child (negb b) x y)))
         (next_id t) (focused t)) (child (negb b) x y) /\
  lay_remove p (erase (LSplit par o r x y)) = Some (erase (child (negb b) x y)).
Proof.
  intros Hrep Hc. pose proof (rep_nodup _ _ Hrep) as Hnd. simpl in Hnd.
  split; [|by eapply erase_remove_split]. split; simpl; try done.
  - eapply core_remove_root; [|done]. apply Hrep.
  - destruct b; simpl; by apply NoDup_app in Hnd as (? & ? & ?).
  - intros n z Hz. apply lookup_delete_Some in Hz as [_ [_ Hz]%lookup_delete_Some].
    by eapply (rep_bound _ _ Hrep).
  - apply Hrep.
Qed.

(** Detaching a leaf whose parent is the child [gb] of [gp]. *)
Lemma detach_nested t lt gp gb go gr u v par o r x y b k p :
  rep t lt -> lsub lt gp = Some (LSplit gp go gr u v) ->
  child gb u v = LSplit par o r x y -> child b x y = LLeaf k p ->
  exists lt',
    rep (mkSplitTree
           (delete par (set_child gp gb (rid (child (negb b) x y)) (delete k (nodes t))))
           (root t) (next_id t) (focused t)) lt' /\
    lay_remove p (erase lt) = Some (erase lt').
Proof.
  intros Hrep Hgs Hgc Hc.
  assert (Her := erase_lput_remove lt gp gb go gr u v par o r x y b k p
    (rep_ids _ _ Hrep) (rep_nodup _ _ Hrep) Hgs Hgc Hc).
  eexists. split; [|exact Her]. split; simpl; try done.
  - rewrite lput_rid by apply rid_with_child. apply Hrep.
  - eapply core_remove_nested; eauto with limux.
  - rewrite <- erase_panes.
    assert (E := lay_remove_panes p (erase lt)). rewrite Her in E. rewrite <- E.
    apply NoDup_filter. rewrite erase_panes. apply Hrep.
  - intros n z Hz. apply lookup_delete_Some in Hz as [_ (w & Hw)%set_child_Some].
    apply lookup_delete_Some in Hw as [_ Hw]. by eapply (rep_bound _ _ Hrep).
  - apply Hrep.
Qed.

(** The refocusing at the end of [remove]. *)
Lemma refocus_rep t0 lt p :
  rep t0 lt ->
  exists t', (if decide (focused t0 = Some p) then put_focused (head (panes t0)) t0 else t0) = t'
    /\ rep t' lt /\ next_id t' = next_id t0 /\
    focused t' = if decide (focused t0 = Some p) then head (lpanes lt) else focused t0.
Proof.
  intros Hrep. eexists. split; [done|]. case_decide; [|done]. split_and!; [|done|].
  - destruct Hrep. by split.
  - simpl. by rewrite (rep_panes _ _ Hrep).
Qed.

Lemma rep_size t lt : rep t lt -> height lt <= size (nodes t).
Proof.
  intros Hrep. destruct (rep_core _ _ Hrep) as [Hr Hnd _]. pose proof (height_ids lt) as H.
  rewrite <- size_dom. rewrite <- (size_list_to_set (C := gset Z) (ids lt)) in H by done.
  etrans; [exact H|]. apply subseteq_size. intros n Hn%elem_of_list_to_set.
  apply elem_of_dom. by eapply reprs_lookup.
Qed.

(** [remove] on a tree with a single pane. *)
Lemma remove_last t k p :
  rep t (LLeaf k p) ->
  remove p t = (true, mkSplitTree ∅ None (next_id t) None).
Proof.
  intros Hrep. unfold remove.
  rewrite (rep_root _ _ Hrep), (is_leaf_of_spec _ (LLeaf k p)) by eauto with limux.
  simpl. rewrite bool_decide_eq_true_2 by done.
  unfold put_focused, set_root, set_nodes. simpl. do 2 f_equal.
  apply map_eq. intros i. rewrite lookup_empty. apply lookup_delete_None.
  destruct (nodes t !! i) eqn:Hi; [left|by right].
  apply (core_dom _ _ (rep_core _ _ Hrep)) in Hi. set_solver.
Qed.

Lemma remove_split t lt p :
  rep t lt -> p ∈ lpanes lt -> lt <> LLeaf (rid lt) p ->
  exists t' lt', remove p t = (true, t') /\ rep t' lt' /\
    lay_remove p (erase lt) = Some (erase lt') /\ next_id t' = next_id t /\
    focused t' = if decide (focused t = Some p) then head (lpanes lt') else focused t.
Proof.
  intros Hrep Hp Hns. unfold remove.
  rewrite (rep_root _ _ Hrep), (is_leaf_of_spec _ lt) by eauto with limux.
  rewrite (find_parent_spec _ lt) by eauto with limux.
  destruct (lis_leaf lt p) eqn:Hl; [by apply lis_leaf_true in Hl|].
  destruct (lfind_parent lt p) as [[par b]|] eqn:Hpar; last first.
  { destruct (lfind_parent_None _ _ Hpar Hp) as [k ->]. done. }
  destruct (lfind_parent_Some _ _ _ _ (rep_ids _ _ Hrep) Hpar)
    as (o & r & x & y & k & Hsub & Hc).
  rewrite !(child_of_at _ lt par _ o r x y) by eauto with limux. rewrite Hc. simpl rid.
  simpl root. rewrite (rep_root _ _ Hrep).
  destruct (decide (Some (rid lt) = Some par)) as [Hroot|Hnroot].
  - assert (Hlt : lt = LSplit par o r x y).
    { simplify_eq. pose proof (lsub_root lt) as Hlr. congruence. }
    rewrite Hlt in Hrep. destruct (detach_root t par o r x y b k p Hrep Hc) as [Hrep' Her].
    destruct (refocus_rep _ _ p Hrep') as (t' & Ht' & Hr' & Hn' & Hf').
    exists t', (child (negb b) x y). rewrite Hlt.
    by split_and!; [f_equal; exact Ht'|..].
  - pose proof (lsub_child _ _ b _ _ _ _ (rep_ids _ _ Hrep) Hsub) as Hsk.
    rewrite Hc in Hsk. simpl in Hsk.
    pose proof (reprs_lsub _ _ _ _ (rep_reprs _ _ Hrep) Hsk) as Hk. simpl in Hk.
    simpl nodes. rewrite (find_parent_of_node_delete _ _ _ _ Hk).
    assert (Hfuel : height lt <= fuel_of (delete k (nodes t))).
    { pose proof (rep_size _ _ Hrep). unfold fuel_of.
      rewrite map_size_delete_Some by eauto. lia. }
    rewrite (find_parent_of_node_spec _ lt) by eauto with limux.
    destruct (lparent_of lt par) as [[gp gb]|] eqn:Hgp; last first.
    { exfalso. apply Hnroot. f_equal. symmetry.
      eapply lparent_of_None; [done|]. by eapply lsub_in. }
    destruct (lparent_of_Some _ _ _ _ (rep_ids _ _ Hrep) Hgp) as (go & gr & u & v & Hgs & Hgr).
    pose proof (lsub_child _ _ gb _ _ _ _ (rep_ids _ _ Hrep) Hgs) as Hgc.
    rewrite Hgr, Hsub in Hgc. injection Hgc as Hgc. symmetry in Hgc.
    destruct (detach_nested t lt gp gb go gr u v par o r x y b k p)
      as (lt' & Hrep' & Her); try done.
    destruct (refocus_rep _ _ p Hrep') as (t' & Ht' & Hr' & Hn' & Hf').
    exists t', lt'. by split_and!; [f_equal; exact Ht'|..].
Qed.

Lemma remove_absent t p : wf t -> p ∉ panes t -> remove p t = (false, t).
Proof.
  intros [(Hr & _)|(lt & f & Hrep & _)] Hp; unfold remove; [by rewrite Hr|].
  rewrite (rep_panes _ _ Hrep) in Hp.
  rewrite (rep_root _ _ Hrep), (is_leaf_of_spec _ lt) by eauto with limux.
  rewrite (find_parent_spec _ lt) by eauto with limux.
  destruct (lis_leaf lt p) eqn:Hl.
  { apply lis_leaf_true in Hl. rewrite Hl in Hp. simpl in Hp. set_solver. }
  destruct (lfind_parent lt p) as [[par b]|] eqn:Hpar; [|done].
  destruct (lfind_parent_Some _ _ _ _ (rep_ids _ _ Hrep) Hpar)
    as (o & r & x & y & k & Hsub & Hc).
  exfalso. apply Hp. eapply lsub_panes; [done|].
  destruct b; simpl in Hc; subst; simpl; set_solver.
Qed.
