(* ===== verification/SplitTreeMerge.v ===== *)
(** * Insertion, moving, ratios and merging of split trees

    The refinement lemmas for [equalize_chain], [equalize], [set_ratio],
    [insert_pane_after_focused] and [move_pane_adjacent].  Then [merge], which copies two
    arenas under fresh identifiers and joins them below a new split; its lemmas hold for
    every iteration order of the two hash maps. *)

From S2P Require Import Prelude F64 SplitTree SplitTreeSpec SplitTreeRefine.

(** ** Ratios *)

Lemma lay_chain_le1 n l : n <= 1 -> lay_chain n l = l.
Proof. by destruct n as [|[]], l; try lia. Qed.

Lemma rep_eta t lt : rep t lt -> forall f,
  rep (mkSplitTree (nodes t) (root t) (next_id t) f) lt.
Proof. intros [] f. by split. Qed.

Lemma rep_set_focus t lt p : rep t lt -> rep (put_focused p t) lt.
Proof. intros H. by apply rep_eta. Qed.

Lemma set_chain_ratios_dom k t : forall m i x, reprs m t -> NoDup (ids t) ->
  set_chain_ratios k (rid t) m !! i = Some x -> exists y, m !! i = Some y.
Proof.
  intros m i x Hr Hnd Hi. destruct (decide (i ∈ ids t)) as [Hin|Hni].
  - by apply (reprs_lookup m t).
  - rewrite set_chain_ratios_frame in Hi; eauto.
Qed.

Lemma equalize_chain_rep t lt :
  rep t lt ->
  exists lt', rep (equalize_chain t) lt' /\ erase lt' = lay_equalize_chain (erase lt) /\
    focused (equalize_chain t) = focused t /\ next_id (equalize_chain t) = next_id t.
Proof.
  intros Hrep. unfold equalize_chain. rewrite (rep_panes _ _ Hrep).
  unfold lay_equalize_chain. rewrite erase_panes. case_decide as Hn.
  - exists lt. by rewrite lay_chain_le1.
  - rewrite (rep_root _ _ Hrep).
    exists (lchain (length (lpanes lt)) lt). rewrite lchain_erase. split; [|done].
    split; simpl.
    + rewrite lchain_rid. apply Hrep.
    + apply core_chain, Hrep.
    + rewrite lchain_panes. apply Hrep.
    + intros n x (y & Hy)%set_chain_ratios_dom; eauto with limux. by eapply (rep_bound _ _ Hrep).
    + apply Hrep.
Qed.

Lemma erase_halve t : erase (lmap_ratio (fun _ _ => f64_half) t) = lay_halve (erase t).
Proof. induction t; simpl; congruence. Qed.

Lemma rep_map_ratio g t t' lt :
  rep t lt -> root t' = root t -> next_id t' = next_id t ->
  (forall n, nodes t' !! n = node_ratio g n <$> nodes t !! n) -> rep t' (lmap_ratio g lt).
Proof.
  intros Hrep Hr Hn Hm. split.
  - rewrite Hr, lmap_ratio_rid. apply Hrep.
  - eapply core_map_ratio; [apply Hrep|done].
  - rewrite lmap_ratio_panes. apply Hrep.
  - intros n x. rewrite Hm, Hn. intros (y & Hy & _)%fmap_Some. by eapply (rep_bound _ _ Hrep).
  - rewrite Hn. apply Hrep.
Qed.

Lemma equalize_rep t lt :
  rep t lt -> rep (equalize t) (lmap_ratio (fun _ _ => f64_half) lt).
Proof. intros H. eapply rep_map_ratio; try done. intros n. apply equalize_lookup. Qed.

Lemma set_ratio_rep k v t lt :
  rep t lt -> rep (set_ratio k v t) (lmap_ratio (ratio_at k v) lt).
Proof.
  intros H. eapply rep_map_ratio; [done|..]; [| |apply set_ratio_lookup];
    unfold set_ratio; by destruct (nodes t !! k) as [[]|].
Qed.

(** ** Inserting after a pane *)

Lemma lay_insert_after_notin p q o l : p ∉ lay_panes l -> lay_insert_after p q o l = l.
Proof.
  induction l as [x|d r a IHa b IHb]; simpl; intros Hp; [done|].
  rewrite decide_False by (intros ->; simpl in Hp; set_solver).
  rewrite decide_False by (intros ->; simpl in Hp; set_solver).
  rewrite IHa, IHb; set_solver.
Qed.

Lemma lay_insert_after_panes p q o l :
  NoDup (lay_panes l) -> p ∈ lay_panes l -> l <> Pane p ->
  exists l1 l2, lay_panes l = l1 ++ p :: l2 /\
                lay_panes (lay_insert_after p q o l) = l1 ++ p :: q :: l2.
Proof.
  induction l as [x|d r a IHa b IHb]; simpl; intros Hnd Hp Hne.
  { apply list_elem_of_singleton in Hp as ->. done. }
  apply NoDup_app in Hnd as (Hna & Hd & Hnb).
  case_decide as Ha; [|case_decide as Hb].
  - subst a. exists [], (lay_panes b). done.
  - subst b. exists (lay_panes a), []. done.
  - apply elem_of_app in Hp as [Hp|Hp].
    + destruct (IHa Hna Hp Ha) as (l1 & l2 & E1 & E2). exists l1, (l2 ++ lay_panes b).
      rewrite (lay_insert_after_notin p q o b) by auto. simpl. rewrite E1, E2.
      by rewrite <- !app_assoc.
    + destruct (IHb Hnb Hp Hb) as (l1 & l2 & E1 & E2). exists (lay_panes a ++ l1), l2.
      rewrite (lay_insert_after_notin p q o a) by (intros ?; by eapply Hd). simpl.
      rewrite E1, E2. by rewrite <- !app_assoc.
Qed.

Lemma lis_leaf_false t p : lis_leaf t p = false -> erase t <> Pane p.
Proof. destruct t; simpl; [|done]. rewrite bool_decide_eq_false. congruence. Qed.

Lemma lfind_parent_pane t p x : lfind_parent t p = Some x -> p ∈ lpanes t.
Proof.
  induction t as [n q|n o r a IHa b IHb]; simpl; [done|].
  destruct (lis_leaf a p) eqn:Ha; [apply lis_leaf_true in Ha; rewrite Ha; simpl; set_solver|].
  destruct (lis_leaf b p) eqn:Hb; [apply lis_leaf_true in Hb; rewrite Hb; simpl; set_solver|].
  destruct (lfind_parent a p); set_solver.
Qed.

(** The erasure of inserting below the split that [find_parent] returns. *)
Lemma erase_lput_insert t p par b o r x y q od ns nl :
  NoDup (ids t) -> NoDup (lpanes t) -> lfind_parent t p = Some (par, b) ->
  lsub t par = Some (LSplit par o r x y) ->
  erase (lput t par (with_child false par o r x y (wrapped b ns od y (LLeaf nl q)))) =
  lay_insert_after p q od (erase t).
Proof.
  intros Hnd Hndp Hf Hs.
  induction t as [n z|n o' r' u IHu v IHv]; simpl in *; [done|].
  apply NoDup_cons in Hnd as [Hn [Hndu [Hd Hndv]]%NoDup_app].
  apply NoDup_app in Hndp as (Hpu & Hdp & Hpv).
  destruct (lis_leaf u p) eqn:Hu; [|destruct (lis_leaf v p) eqn:Hv].
  - simplify_eq. rewrite decide_True in Hs by done. rewrite decide_True by done. simplify_eq.
    apply lis_leaf_true in Hu. rewrite Hu. simpl. by rewrite decide_True.
  - simplify_eq. rewrite decide_True in Hs by done. rewrite decide_True by done. simplify_eq.
    rewrite decide_False by (by apply lis_leaf_false).
    apply lis_leaf_true in Hv. rewrite Hv. simpl. by rewrite decide_True.
  - rewrite (decide_False (P := erase u = Pane p)), (decide_False (P := erase v = Pane p))
      by (by apply lis_leaf_false).
    destruct (lfind_parent u p) as [[par' b']|] eqn:Hfu; simplify_eq.
    + pose proof (lfind_parent_pane _ _ _ Hfu) as Hin.
      destruct (lfind_parent_Some _ _ _ _ Hndu Hfu) as (?&?&?&?&?&Hsu&_).
      assert (par ∈ ids u) as Hpar by (by eapply lsub_in).
      rewrite decide_False in Hs by set_solver. rewrite decide_False by set_solver.
      rewrite Hsu in Hs. simplify_eq. simpl. rewrite IHu by done.
      rewrite (lput_notin v), (lay_insert_after_notin p q od (erase v)); [done| |by auto].
      rewrite erase_panes. auto.
    + pose proof (lfind_parent_pane _ _ _ Hf) as Hin.
      destruct (lfind_parent_Some _ _ _ _ Hndv Hf) as (?&?&?&?&?&Hsv&_).
      assert (par ∈ ids v) as Hpar by (by eapply lsub_in).
      assert (par ∉ ids u) as Hpu' by (intros ?; by eapply Hd).
      rewrite decide_False in Hs by set_solver. rewrite decide_False by set_solver.
      rewrite (lsub_None u), Hsv in Hs by done. simplify_eq. simpl. rewrite IHv by done.
      rewrite (lput_notin u), (lay_insert_after_notin p q od (erase u)); [done| |done].
      rewrite erase_panes. intros ?. by eapply Hdp.
Qed.

Lemma fuel_insert m i x k : k <= fuel_of m -> m !! i = None -> k <= fuel_of (<[i := x]> m).
Proof. unfold fuel_of. intros Hk Hi. rewrite map_size_insert_None by done. lia. Qed.

Lemma insert_panes_nodup p q o l :
  NoDup (lay_panes l) -> p ∈ lay_panes l -> q ∉ lay_panes l -> l <> Pane p ->
  NoDup (lay_panes (lay_insert_after p q o l)).
Proof.
  intros Hnd Hp Hq Hne. destruct (lay_insert_after_panes p q o l Hnd Hp Hne) as (l1 & l2 & E & ->).
  rewrite E in Hnd, Hq. rewrite !NoDup_app, !NoDup_cons in *. set_solver.
Qed.

(** Two leaves of the same pane are the same leaf. *)
Lemma leaf_unique t k k' p :
  NoDup (ids t) -> NoDup (lpanes t) ->
  lsub t k = Some (LLeaf k p) -> lsub t k' = Some (LLeaf k' p) -> k = k'.
Proof.
  intros Hnd Hndp Hk Hk'.
  induction t as [n z|n o r u IHu v IHv]; simpl in *.
  { repeat case_decide; congruence. }
  apply NoDup_cons in Hnd as [Hn [Hndu [Hd Hndv]]%NoDup_app].
  apply NoDup_app in Hndp as (Hpu & Hdp & Hpv).
  case_decide; [done|]. case_decide; [done|].
  assert (Hin : forall w j, lsub w j = Some (LLeaf j p) -> p ∈ lpanes w)
    by (intros w j Hw; eapply lsub_panes; [done|simpl; set_solver]).
  destruct (lsub u k) eqn:E1, (lsub u k') eqn:E2; simplify_eq; auto;
    exfalso; eapply Hdp; eauto.
Qed.

(** Wrapping the second child of the split that [find_parent] returns. *)
Lemma rep_wrap_second t lt p par b o r x y q od :
  rep t lt -> lfind_parent lt p = Some (par, b) ->
  lsub lt par = Some (LSplit par o r x y) -> q ∉ lpanes lt -> room 2 t ->
  let nl := next_id t in
  let ns := (next_id t + 1)%Z in
  exists lt',
    rep (mkSplitTree (set_child par false ns (<[ns := wrap_node b od (rid y) nl]>
                        (<[nl := Leaf q]> (nodes t)))) (root t) (next_id t + 2) (focused t)) lt' /\
    erase lt' = lay_insert_after p q od (erase lt).
Proof.
  intros Hrep Hpar Hsub Hq Hroom nl ns. unfold room in Hroom.
  pose proof (rep_next _ _ Hrep) as Hnext.
  assert (Her := erase_lput_insert lt p par b o r x y q od ns nl
    (rep_ids _ _ Hrep) (rep_nodup _ _ Hrep) Hpar Hsub).
  eexists. split; [|exact Her]. split; simpl.
  - rewrite lput_rid by done. apply Hrep.
  - apply (core_wrap (nodes t) lt par false o r x y nl ns q od b); eauto with limux; try lia.
    + apply (rep_fresh _ _ Hrep). lia.
    + apply (rep_fresh _ _ Hrep). lia.
  - change (LSplit par o r x (wrapped b ns od y (LLeaf nl q)))
      with (with_child false par o r x y (wrapped b ns od y (LLeaf nl q))).
    rewrite <- erase_panes, Her.
    apply insert_panes_nodup; rewrite ?erase_panes; eauto using lfind_parent_pane with limux.
    by destruct lt.
  - intros n z (w & Hw)%set_child_Some.
    apply lookup_insert_Some in Hw as [[<- _]|[_ Hw]]; [lia|].
    apply lookup_insert_Some in Hw as [[<- _]|[_ Hw]]; [lia|].
    apply (rep_bound _ _ Hrep) in Hw. lia.
  - lia.
Qed.

Lemma child_of_insert m t par o r x y i z b :
  core m t -> lsub t par = Some (LSplit par o r x y) -> m !! i = None ->
  child_of (<[i := z]> m) par b = Some (rid (child b x y)).
Proof.
  intros Hcore Hs Hi. unfold child_of.
  destruct (core_at _ _ b _ _ _ _ _ Hcore Hs) as (Hp & _).
  rewrite lookup_insert_ne, Hp by congruence. by destruct b.
Qed.

Lemma insert_after_node_rep t lt k p q od :
  rep t lt -> lsub lt k = Some (LLeaf k p) -> k <> rid lt -> q ∉ lpanes lt -> room 2 t ->
  exists t' lt', insert_after_node k q od t = t' /\ rep t' lt' /\
    erase lt' = lay_insert_after p q od (erase lt) /\ next_id t' = (next_id t + 2)%Z.
Proof.
  intros Hrep Hsk Hne Hq Hroom. pose proof (rep_next _ _ Hrep) as Hnext.
  destruct (u32_succ2 t) as [Hs1 Hs2]; [lia|done|]. unfold room in Hroom.
  assert (nodes t !! next_id t = None) as Hnl by (apply (rep_fresh _ _ Hrep); lia).
  assert (nodes t !! (next_id t + 1)%Z = None) as Hns by (apply (rep_fresh _ _ Hrep); lia).
  pose proof (reprs_lsub _ _ _ _ (rep_reprs _ _ Hrep) Hsk) as Hk. simpl in Hk.
  assert (reprs (<[next_id t := Leaf q]> (nodes t)) lt) as Hr1.
  { apply reprs_insert; [eauto with limux|]. eapply core_fresh; [apply Hrep|done]. }
  assert (p ∈ lpanes lt) as Hp by (eapply lsub_panes; [done|simpl; set_solver]).
  unfold insert_after_node. cbn -[u32_succ set_child].
  rewrite (rep_root _ _ Hrep), decide_False, lookup_insert_ne, Hk by congruence.
  rewrite (find_parent_spec _ lt) by (eauto using fuel_insert with limux).
  destruct (lfind_parent lt p) as [[par b]|] eqn:Hpar; last first.
  { destruct (lfind_parent_None _ _ Hpar Hp) as [k' ->]. simpl in Hsk, Hne.
    case_decide; congruence. }
  destruct (lfind_parent_Some _ _ _ _ (rep_ids _ _ Hrep) Hpar) as (o & r & x & y & k' & Hsub & Hc).
  pose proof (rep_wrap_second t lt p par b o r x y q od Hrep Hpar Hsub Hq Hroom) as [lt' [HW He]].
  rewrite (rep_root _ _ Hrep) in HW.
  eexists _, lt'. split_and!; [done| |exact He|].
  - destruct b.
    + rewrite (child_of_insert _ lt _ o r x y) by eauto with limux. cbn -[u32_succ set_child].
      rewrite Hs2, Hs1. exact HW.
    + pose proof (lsub_child _ _ false _ _ _ _ (rep_ids _ _ Hrep) Hsub) as Hy.
      simpl in Hc, Hy. rewrite Hc in Hy, HW. simpl in Hy, HW.
      rewrite <- (leaf_unique lt k k' p) in HW by eauto with limux.
      cbn -[u32_succ set_child]. rewrite Hs2, Hs1. exact HW.
  - destruct b; [|done].
    by rewrite (child_of_insert _ lt _ o r x y) by eauto with limux.
Qed.

(** ** [insert_pane_after_focused] *)

(** The pane the insertion is anchored at: the focused pane if it is in the
    tree, the last pane otherwise. *)
Definition anchor (t : SplitTree) : option PaneId :=
  match focused t with
  | Some f => if decide (f ∈ panes t) then Some f else last (panes t)
  | None => last (panes t)
  end.

Definition lay_insert (p q : PaneId) (o : Orientation) (l : layout) : layout :=
  match l with
  | Pane x => Div o f64_half (Pane x) (Pane q)
  | _ => lay_insert_after p q o l
  end.

Lemma lchain_end_sub t : NoDup (ids t) -> exists k p,
  rid (lchain_end t) = k /\ lsub t k = Some (LLeaf k p) /\ last (lpanes t) = Some p.
Proof.
  induction t as [n q|n o r a _ b IHb]; simpl; intros Hnd.
  - exists n, q. by rewrite decide_True.
  - apply NoDup_cons in Hnd as [Hn [Hna [Hd Hnb]]%NoDup_app].
    destruct (IHb Hnb) as (k & p & Hk & Hs & Hl). exists k, p. split; [done|].
    assert (k ∈ ids b) by (by eapply lsub_in). rewrite last_app, Hl.
    rewrite decide_False by set_solver.
    rewrite lsub_None; [done|]. intros ?. by eapply Hd.
Qed.

(** The leaf [insert_pane_after_focused] inserts after. *)
Lemma insert_target_spec t lt q rt :
  rep t lt -> rt = rid lt ->
  exists k p, anchor t = Some p /\ lsub lt k = Some (LLeaf k p) /\
    (q ∉ lpanes lt ->
     match node_id_for_pane (focused_or_last rt q t) t with
     | Some id => id
     | None => find_chain_end (fuel_of (nodes t)) (nodes t) rt
     end = k).
Proof.
  intros Hrep ->. rewrite rep_node_for_pane with (lt := lt) by done.
  unfold anchor, focused_or_last. rewrite (rep_panes _ _ Hrep).
  rewrite (find_chain_end_spec _ lt) by eauto with limux.
  destruct (lchain_end_sub lt) as (k & p & Hk & Hs & Hl); [eauto with limux|]. rewrite Hk.
  pose proof (reprs_lsub _ _ _ _ (rep_reprs _ _ Hrep) Hs) as Hn. simpl in Hn. rewrite Hn.
  assert (Hfind : forall g, g ∈ lpanes lt -> exists j, lfind_leaf lt g = Some j).
  { intros g Hg. destruct (lfind_leaf lt g) eqn:E; [eauto|].
    by apply lfind_leaf_None in E. }
  destruct (focused t) as [f|].
  - case_decide as Hf.
    + destruct (Hfind f Hf) as [j Hj]. exists j, f. rewrite Hj. split; [done|].
      split; [|done]. apply lfind_leaf_Some; eauto with limux.
    + exists k, p. split_and!; try done. intros _.
      assert (lfind_leaf lt f = None) as -> by (by apply lfind_leaf_None). done.
  - destruct (Hfind p) as [j Hj].
    { apply last_Some in Hl as [l' ->]. set_solver. }
    exists k, p. split_and!; try done. intros _. rewrite Hj.
    apply (leaf_unique lt j k p); eauto using lfind_leaf_Some with limux.
Qed.

Lemma insert_pane_after_focused_rep t lt q od :
  rep t lt -> q ∉ lpanes lt -> room 2 t ->
  exists p t' lt', anchor t = Some p /\ p ∈ lpanes lt /\
    insert_pane_after_focused q od t = (true, t') /\ rep t' lt' /\
    erase lt' = lay_equalize_chain (lay_insert p q od (erase lt)) /\
    focused t' = Some q /\ next_id t' = (next_id t + 2)%Z.
Proof.
  intros Hrep Hq Hroom. pose proof (rep_next _ _ Hrep) as Hnext.
  destruct (u32_succ2 t) as [Hs1 Hs2]; [lia|done|].
  destruct (insert_target_spec t lt q _ Hrep eq_refl) as (k & p & Ha & Hs & Ht).
  assert (p ∈ lpanes lt) as Hp by (eapply lsub_panes; [done|simpl; set_solver]).
  exists p. unfold insert_pane_after_focused. rewrite (rep_root _ _ Hrep).
  rewrite (reprs_root _ lt) by eauto with limux. destruct lt as [n x|n o r a b].
  - assert (x = p) as -> by (simpl in Hp; set_solver).
    pose proof (rep_wrap_root t n p q od false (Some q) Hrep ltac:(set_solver) Hroom) as HW.
    destruct (equalize_chain_rep _ _ HW) as (lt' & Hrep' & He & Hf & Hnx).
    eexists _, lt'. split_and!; try done; cbn -[u32_succ equalize_chain]; rewrite Hs2, Hs1; try done.
  - rewrite Ht by done.
    destruct (insert_after_node_rep t (LSplit n o r a b) k p q od) as (t1 & lt1 & E & Hr1 & He1 & Hn1);
      try done.
    { intros ->. simpl in Hs. rewrite decide_True in Hs by done. done. }
    destruct (equalize_chain_rep _ _ (rep_set_focus _ _ (Some q) Hr1))
      as (lt' & Hrep' & He & Hf & Hnx).
    rewrite E. eexists _, lt'. split_and!; try done.
    + rewrite He, He1. done.
    + by rewrite Hnx.
Qed.

(** ** [move_pane_adjacent] *)

(** The insertion half of [move_pane_adjacent], after the removal. *)
Lemma move_insert_rep t1 lt1 s d k before od :
  rep t1 lt1 -> lsub lt1 k = Some (LLeaf k d) -> s ∉ lpanes lt1 -> room 2 t1 ->
  u32_succ (next_id t1) = (next_id t1 + 1)%Z ->
  u32_succ (u32_succ (next_id t1)) = (next_id t1 + 2)%Z ->
  exists t2 lt2, rep t2 lt2 /\
    erase lt2 = lay_subst d (lay_wrap before od (Pane d) s) (erase lt1) /\
    focused t2 = Some s /\ next_id t2 = (next_id t1 + 2)%Z /\
    (let '(source_leaf, t) := alloc_node (Leaf s) t1 in
     let '(new_split, t) :=
       alloc_node (if before then Split od f64_half source_leaf k
                   else Split od f64_half k source_leaf) t in
     let t :=
       if decide (root t = Some k) then set_root (Some new_split) t
       else match root t with
            | Some rt => set_nodes (replace_child (fuel_of (nodes t)) rt k new_split) t
            | None => t
            end in
     (true, equalize_chain (put_focused (Some s) t))) = (true, equalize_chain t2).
Proof.
  intros Hr1 Hsk Hs Hroom Hu1 Hu2. pose proof (rep_next _ _ Hr1) as Hnext.
  unfold room in Hroom.
  assert (Hfr1 : nodes t1 !! next_id t1 = None) by (apply (rep_fresh _ _ Hr1); lia).
  assert (Hfr2 : nodes t1 !! (next_id t1 + 1)%Z = None) by (apply (rep_fresh _ _ Hr1); lia).
  cbn -[u32_succ equalize_chain replace_child]. rewrite (rep_root _ _ Hr1), Hu2, Hu1.
  destruct (decide (Some (rid lt1) = Some k)) as [Hrt|Hrt].
  - assert (lt1 = LLeaf k d) as ->.
    { simplify_eq. rewrite lsub_root in Hsk. congruence. }
    eexists _, _. split_and!; [apply (rep_wrap_root t1 k d s od before (Some s))|..]; try done.
    + simpl in Hs. set_solver.
    + rewrite erase_wrapped. simpl. by rewrite decide_True.
  - set (m2 := <[(next_id t1 + 1)%Z := _]> (<[next_id t1 := Leaf s]> (nodes t1))).
    assert (reprs m2 lt1) as Hm2.
    { apply reprs_insert; [apply reprs_insert|]; eauto with limux;
        (eapply core_fresh; [apply Hr1|done]). }
    assert (height lt1 <= fuel_of m2) as Hfuel.
    { apply fuel_insert; [apply fuel_insert; eauto with limux|].
      rewrite lookup_insert_ne by lia. done. }
    unfold set_nodes. cbn [nodes root next_id focused]. fold m2.
    rewrite (replace_child_spec _ _ lt1) by eauto with limux.
    destruct (lparent_of lt1 k) as [[par b]|] eqn:Hpar; last first.
    { exfalso. apply Hrt. f_equal. symmetry. eapply lparent_of_None; [done|]. by eapply lsub_in. }
    destruct (lparent_of_Some _ _ _ _ (rep_ids _ _ Hr1) Hpar) as (o & r & x & y & Hsub & Hc).
    pose proof (lsub_child _ _ b _ _ _ _ (rep_ids _ _ Hr1) Hsub) as Hch.
    rewrite Hc, Hsk in Hch. injection Hch as Hch. symmetry in Hch.
    destruct (rep_wrap_leaf t1 lt1 par b o r x y k d s od before (Some s))
      as (lt2 & Hr2 & He2); try done.
    simpl in Hr2. rewrite (rep_root _ _ Hr1) in Hr2.
    eexists _, lt2. split_and!; [exact Hr2|done..|].
    unfold m2. by destruct before.
Qed.

Lemma move_pane_adjacent_rep t lt s d before od :
  rep t lt -> s ∈ lpanes lt -> d ∈ lpanes lt -> s <> d -> room 2 t ->
  exists l1 t' lt', lay_remove s (erase lt) = Some l1 /\ d ∈ lay_panes l1 /\
    move_pane_adjacent s d before od t = (true, t') /\ rep t' lt' /\
    erase lt' = lay_equalize_chain (lay_subst d (lay_wrap before od (Pane d) s) l1) /\
    focused t' = Some s /\ next_id t' = (next_id t + 2)%Z.
Proof.
  intros Hrep Hs Hd Hne Hroom.
  assert (lt <> LLeaf (rid lt) s) as Hnl.
  { intros E. rewrite E in Hd. simpl in Hd. set_solver. }
  destruct (remove_split t lt s Hrep Hs Hnl) as (t1 & lt1 & Hrm & Hr1 & Hl1 & Hn1 & _).
  pose proof (lay_remove_panes s (erase lt)) as Hps. rewrite Hl1, !erase_panes in Hps.
  assert (d ∈ lpanes lt1 /\ s ∉ lpanes lt1) as [Hd1 Hs1].
  { rewrite <- Hps. rewrite !list_elem_of_filter. naive_solver. }
  assert (Hfind : forall g u z, rep u z -> g ∈ lpanes z ->
            exists j, node_id_for_pane g u = Some j /\ lsub z j = Some (LLeaf j g)).
  { intros g u z Hu Hg. rewrite (rep_node_for_pane _ _ Hu).
    destruct (lfind_leaf z g) eqn:E; [|by apply lfind_leaf_None in E].
    eauto using lfind_leaf_Some with limux. }
  destruct (Hfind s t lt Hrep Hs) as (js & Hjs & _).
  destruct (Hfind d t lt Hrep Hd) as (jd & Hjd & _).
  destruct (Hfind d t1 lt1 Hr1 Hd1) as (k & Hk & Hsk).
  pose proof (rep_next _ _ Hr1) as Hnext.
  assert (room 2 t1) as Hroom1 by (unfold room in *; lia).
  destruct (u32_succ2 t1) as [Hu1 Hu2]; [lia|done|].
  assert (Hstep : exists t2 lt2, rep t2 lt2 /\
     erase lt2 = lay_subst d (lay_wrap before od (Pane d) s) (erase lt1) /\
     focused t2 = Some s /\ next_id t2 = (next_id t1 + 2)%Z /\
     move_pane_adjacent s d before od t = (true, equalize_chain t2)).
  { unfold move_pane_adjacent. rewrite decide_False, Hjs, Hjd, Hrm, Hk by done.
    eapply (move_insert_rep t1 lt1 s d k before od); done. }
  destruct Hstep as (t2 & lt2 & Hr2 & He2 & Hf2 & Hn2 & ->).
  destruct (equalize_chain_rep _ _ Hr2) as (lt' & Hrep' & He & Hf & Hnx).
  exists (erase lt1). eexists _, lt'. rewrite erase_panes. split_and!; try done.
  - by rewrite He, He2.
  - by rewrite Hf, Hf2.
  - rewrite Hnx, Hn2. lia.
Qed.

(** * Merging *)

(** [ks] enumerates the keys of [m], in some order. *)
Definition enumerates (ks : list NodeId) (m : gmap Z Node) : Prop :=
  NoDup ks /\ forall k, k ∈ ks <-> is_Some (m !! k).

Lemma alloc_remap_spec ks : forall rm t,
  NoDup ks -> (0 <= next_id t)%Z -> (next_id t + Z.of_nat (length ks) <= u32_max)%Z ->
  exists rm', alloc_remap ks rm t =
      (rm', mkSplitTree (nodes t) (root t) (next_id t + Z.of_nat (length ks)) (focused t)) /\
    (forall i k, ks !! i = Some k -> rm' !! k = Some (next_id t + Z.of_nat i)%Z) /\
    (forall k, k ∉ ks -> rm' !! k = rm !! k).
Proof.
  induction ks as [|k ks IH]; intros rm t Hnd H0 Hmax; simpl in *.
  - exists rm. split_and!; try done. destruct t; simpl. by rewrite Z.add_0_r.
  - apply NoDup_cons in Hnd as [Hk Hnd].
    destruct (IH (<[k := next_id t]> rm) (snd (alloc_id t))) as (rm' & E & Hks & Hother); simpl.
    { done. } { rewrite u32_succ_small; lia. } { rewrite u32_succ_small; lia. }
    simpl in *. rewrite u32_succ_small in * by lia.
    exists rm'. split_and!.
    + rewrite E. do 2 f_equal. lia.
    + intros [|i] k' Hi; simpl in Hi.
      * simplify_eq. rewrite Hother, lookup_insert_eq by done. f_equal. lia.
      * rewrite (Hks _ _ Hi). f_equal. lia.
    + intros k' Hk'. rewrite Hother by set_solver. rewrite lookup_insert_ne; set_solver.
Qed.

(** Renaming the identifiers of a decorated tree. *)
Fixpoint lrename (g : Z -> Z) (t : ltree) : ltree :=
  match t with
  | LLeaf n p => LLeaf (g n) p
  | LSplit n o r a b => LSplit (g n) o r (lrename g a) (lrename g b)
  end.

Lemma lrename_rid g t : rid (lrename g t) = g (rid t).
Proof. by destruct t. Qed.
Lemma lrename_ids g t : ids (lrename g t) = g <$> ids t.
Proof. induction t; simpl; [done|]. by rewrite fmap_app, IHt1, IHt2. Qed.
Lemma lrename_panes g t : lpanes (lrename g t) = lpanes t.
Proof. induction t; simpl; congruence. Qed.
Lemma lrename_erase g t : erase (lrename g t) = erase t.
Proof. induction t; simpl; congruence. Qed.

Section copy.
Context (src : gmap Z Node) (rm : gmap Z Z).

Lemma copy_nodes_other ks : forall m i,
  (forall k, k ∈ ks -> rm !! k <> Some i) -> copy_nodes ks src rm m !! i = m !! i.
Proof.
  induction ks as [|k ks IH]; intros m i Hi; simpl; [done|].
  destruct (src !! k), (rm !! k) eqn:E; rewrite IH by set_solver; try done.
  rewrite lookup_insert_ne; [done|]. intros ->. eapply Hi; [|done]. set_solver.
Qed.

Lemma copy_nodes_at ks : forall m k x j,
  (forall k1 k2 j, k1 ∈ ks -> k2 ∈ ks -> rm !! k1 = Some j -> rm !! k2 = Some j -> k1 = k2) ->
  NoDup ks -> k ∈ ks -> src !! k = Some x -> rm !! k = Some j ->
  copy_nodes ks src rm m !! j = Some (remap_node x rm).
Proof.
  induction ks as [|k0 ks IH]; intros m k x j Hinj Hnd Hk Hx Hj; simpl; [set_solver|].
  apply NoDup_cons in Hnd as [Hk0 Hnd].
  destruct (decide (k = k0)) as [->|Hne].
  - rewrite Hx, Hj. rewrite copy_nodes_other; [by rewrite lookup_insert_eq|].
    intros k' Hk' Hj'. apply Hk0. rewrite (Hinj k0 k' j); set_solver.
  - assert (forall m, copy_nodes ks src rm m !! j = Some (remap_node x rm)) as IH'.
    { intros m'. eapply IH; try done; [|set_solver]. intros; eapply Hinj; set_solver. }
    destruct (src !! k0), (rm !! k0); apply IH'.
Qed.

Lemma copy_nodes_reprs ks m t :
  (forall k1 k2 j, k1 ∈ ks -> k2 ∈ ks -> rm !! k1 = Some j -> rm !! k2 = Some j -> k1 = k2) ->
  NoDup ks -> (forall k, k ∈ ks -> is_Some (rm !! k)) ->
  reprs src t -> (forall k, k ∈ ids t -> k ∈ ks) ->
  reprs (copy_nodes ks src rm m) (lrename (fun i => default i (rm !! i)) t).
Proof.
  intros Hinj Hnd Hrm Hr Hids.
  induction t as [n p|n o r a IHa b IHb]; simpl in *.
  - destruct (Hrm n) as [j Hj]; [set_solver|]. rewrite Hj. simpl.
    rewrite (copy_nodes_at ks m n (Leaf p) j); [done|done|done|set_solver|done|done].
  - destruct Hr as (Hn & Ha & Hb). destruct (Hrm n) as [j Hj]; [set_solver|].
    rewrite Hj. simpl. rewrite !lrename_rid.
    split_and!; [|apply IHa; set_solver|apply IHb; set_solver].
    rewrite (copy_nodes_at ks m n (Split o r (rid a) (rid b)) j);
      [done|done|done|set_solver|done|done].
Qed.

Lemma copy_nodes_dom ks : forall m i x,
  copy_nodes ks src rm m !! i = Some x ->
  is_Some (m !! i) \/ exists k, k ∈ ks /\ is_Some (src !! k) /\ rm !! k = Some i.
Proof.
  induction ks as [|k ks IH]; intros m i x Hx; simpl in *; [eauto|].
  destruct (src !! k) eqn:Es, (rm !! k) eqn:Er;
    apply IH in Hx as [Hx|(k' & ? & ? & ?)];
    try (right; exists k'; split_and!; [set_solver|done|done]); try (by left).
  destruct Hx as [y [[<- _]|[_ Hy]]%lookup_insert_Some]; [right|left; eauto].
  exists k. rewrite Es. split_and!; [set_solver|done|done].
Qed.
End copy.

(** One of the two copying phases of [merge], from the tree [t] built so far. *)
Lemma merge_phase ks s ls t :
  enumerates ks (nodes s) -> rep s ls ->
  (0 <= next_id t)%Z -> (next_id t + Z.of_nat (length ks) <= u32_max)%Z ->
  exists rm t' ls',
    alloc_remap ks ∅ t =
      (rm, mkSplitTree (nodes t) (root t) (next_id t + Z.of_nat (length ks)) (focused t)) /\
    t' = mkSplitTree (copy_nodes ks (nodes s) rm (nodes t)) (root t)
           (next_id t + Z.of_nat (length ks)) (focused t) /\
    (r ← root s; rm !! r) = Some (rid ls') /\ reprs (nodes t') ls' /\ NoDup (ids ls') /\
    erase ls' = erase ls /\
    (forall i, i ∈ ids ls' -> (next_id t <= i < next_id t')%Z) /\
    (forall i, (i < next_id t \/ next_id t' <= i)%Z -> nodes t' !! i = nodes t !! i) /\
    (forall i x, nodes t' !! i = Some x -> is_Some (nodes t !! i) \/ i ∈ ids ls').
Proof.
  intros [Hnd Hks] Hrep H0 Hmax.
  destruct (alloc_remap_spec ks ∅ t Hnd H0 Hmax) as (rm & E & Hin & _).
  set (g := fun i => default i (rm !! i)).
  assert (Hrm : forall k, k ∈ ks -> exists i, i < length ks /\ ks !! i = Some k /\
            rm !! k = Some (next_id t + Z.of_nat i)%Z).
  { intros k [i Hi]%list_elem_of_lookup. exists i. eauto using lookup_lt_Some. }
  assert (Hinj : forall k1 k2 j, k1 ∈ ks -> k2 ∈ ks ->
            rm !! k1 = Some j -> rm !! k2 = Some j -> k1 = k2).
  { intros k1 k2 j H1 H2 E1 E2. destruct (Hrm _ H1) as (i1 & _ & L1 & R1).
    destruct (Hrm _ H2) as (i2 & _ & L2 & R2). assert (i1 = i2) as -> by (rewrite E1 in R1; rewrite E2 in R2; simplify_eq; lia).
    congruence. }
  assert (Hsub : forall k, k ∈ ids ls -> k ∈ ks).
  { intros k Hk. apply Hks. eapply reprs_lookup; [apply (rep_reprs _ _ Hrep)|done]. }
  assert (Hran : forall i, i ∈ ids (lrename g ls) ->
            (next_id t <= i < next_id t + Z.of_nat (length ks))%Z).
  { intros i. rewrite lrename_ids. intros (k & -> & Hk)%list_elem_of_fmap.
    destruct (Hrm k) as (j & Hj & _ & R); [auto|]. unfold g. rewrite R. simpl. lia. }
  eexists rm, _, (lrename g ls). split_and!; [exact E|done|..]; simpl.
  - rewrite (rep_root _ _ Hrep), lrename_rid. simpl.
    destruct (Hrm (rid ls)) as (j & _ & _ & R); [apply Hsub, rid_in_ids|].
    unfold g. by rewrite R.
  - apply copy_nodes_reprs; eauto with limux. intros k Hk. destruct (Hrm k Hk) as (?&_&_&->). eauto.
  - rewrite lrename_ids. apply NoDup_fmap_2_strong; [|eauto with limux].
    intros x y Hx Hy. destruct (Hrm x) as (?&_&_&R1); [auto|].
    destruct (Hrm y) as (?&_&_&R2); [auto|]. unfold g. rewrite R1, R2. simpl. intros Heq.
    eapply Hinj; [by auto|by auto|done|]. by rewrite R2, Heq.
  - by rewrite lrename_erase.
  - done.
  - intros i Hi. apply copy_nodes_other. intros k Hk R.
    destruct (Hrm k Hk) as (j & Hj & _ & R'). simplify_eq. lia.
  - intros i x [Hx|(k & Hk & Hs & R)]%copy_nodes_dom; [by left|right].
    rewrite lrename_ids. apply list_elem_of_fmap. exists k. unfold g. rewrite R. split; [done|].
    destruct Hs as [y Hy]. by eapply (core_dom _ _ (rep_core _ _ Hrep)).
Qed.

Lemma lpanes_nonempty t : lpanes t <> [].
Proof. induction t; simpl; [done|]. intros [? ?]%app_eq_nil. done. Qed.

Lemma ids_length t : length (ids t) + 1 = 2 * length (lpanes t).
Proof. induction t; simpl; rewrite ?length_app; lia. Qed.

(** Trees of the same layout have the same number of nodes. *)
Lemma erase_ids_length t1 t2 : erase t1 = erase t2 -> length (ids t1) = length (ids t2).
Proof.
  intros E. pose proof (ids_length t1) as H1. pose proof (ids_length t2) as H2.
  rewrite <- erase_panes, E, erase_panes in H1. lia.
Qed.

Lemma merge_rep ks1 ks2 a b la lb o r :
  enumerates ks1 (nodes a) -> enumerates ks2 (nodes b) -> rep a la -> rep b lb ->
  (forall p, p ∈ lpanes la -> p ∉ lpanes lb) ->
  ((next_id a `max` next_id b) + Z.of_nat (length ks1) + Z.of_nat (length ks2) + 1 <= u32_max)%Z ->
  exists lt, rep (merge ks1 ks2 a b o r) lt /\ erase lt = Div o r (erase la) (erase lb) /\
    focused (merge ks1 ks2 a b o r) = head (lpanes la) /\
    (forall n, n ∈ ids lt -> (next_id a `max` next_id b <= n)%Z) /\
    next_id (merge ks1 ks2 a b o r) =
      (next_id a `max` next_id b + Z.of_nat (length ks1) + Z.of_nat (length ks2) + 1)%Z /\
    length (ids lt) = length (ids la) + length (ids lb) + 1.
Proof.
  intros He1 He2 Ha Hb Hdisj Hroom.
  pose proof (rep_next _ _ Ha) as Hna. pose proof (rep_next _ _ Hb) as Hnb.
  set (t0 := mkSplitTree ∅ None (next_id a `max` next_id b)%Z None).
  destruct (merge_phase ks1 a la t0) as (rm1 & t1 & l1 & E1 & -> & R1 & P1 & N1 & S1 & B1 & O1 & D1);
    [done..|simpl; lia|simpl; lia|].
  destruct (merge_phase ks2 b lb (mkSplitTree (copy_nodes ks1 (nodes a) rm1 (nodes t0)) (root t0)
      (next_id t0 + Z.of_nat (length ks1)) (focused t0)))
    as (rm2 & t2 & l2 & E2 & -> & R2 & P2 & N2 & S2 & B2 & O2 & D2);
    [done..|simpl; lia|simpl; lia|].
  simpl in *. set (N := (next_id a `max` next_id b)%Z) in *.
  set (nr := (N + Z.of_nat (length ks1) + Z.of_nat (length ks2))%Z) in *.
  set (m2 := copy_nodes ks2 (nodes b) rm2 _) in *.
  assert (reprs m2 l1) as P1'.
  { eapply reprs_frame; [exact P1|]. intros n Hn. apply O2. specialize (B1 _ Hn). lia. }
  assert (Hnr1 : nr ∉ ids l1) by (intros Hn%B1; lia).
  assert (Hnr2 : nr ∉ ids l2) by (intros Hn%B2; lia).
  set (lt := LSplit nr o r l1 l2).
  set (t3 := mkSplitTree (<[nr := Split o r (rid l1) (rid l2)]> m2) (Some nr) (nr + 1) None).
  assert (rep t3 lt) as Hrep.
  { split; simpl; try done.
    - split; simpl.
      + split_and!; [by rewrite lookup_insert_eq|by apply reprs_insert..].
      + rewrite NoDup_cons, NoDup_app. split_and!; [set_solver|done| |done].
        intros n H1%B1 H2%B2. lia.
      + intros n x [[<- _]|[_ Hx]]%lookup_insert_Some; [set_solver|].
        apply D2 in Hx as [[y Hx]|Hx]; [|set_solver]. apply D1 in Hx as [[z Hx]|Hx]; [|set_solver].
        by rewrite lookup_empty in Hx.
    - rewrite <- (erase_panes l1), <- (erase_panes l2), S1, S2, !erase_panes.
      apply NoDup_app. split_and!; [apply Ha|done|apply Hb].
    - intros n x [[<- _]|[_ Hx]]%lookup_insert_Some; [lia|].
      apply D2 in Hx as [[y Hx]|Hx%B2]; [|lia]. apply D1 in Hx as [[z Hx]|Hx%B1]; [|lia].
      by rewrite lookup_empty in Hx.
    - lia. }
  assert (Em : merge ks1 ks2 a b o r = put_focused (head (panes t3)) t3).
  { unfold merge. fold N. change (mkSplitTree ∅ None N None) with t0. rewrite E1.
    cbv beta iota zeta. unfold set_nodes at 1.
    cbn [nodes root next_id focused]. rewrite E2, R1, R2.
    cbv beta iota zeta. cbn [alloc_node alloc_id set_nodes nodes root next_id focused].
    rewrite u32_succ_small by lia. done. }
  exists lt. rewrite Em. split_and!.
  - by apply rep_set_focus.
  - unfold lt. simpl. by rewrite S1, S2.
  - simpl. rewrite (rep_panes _ _ Hrep). unfold lt. simpl.
    rewrite <- (erase_panes l1), S1, erase_panes.
    destruct (lpanes la) eqn:E; [|done]. exfalso. by destruct (lpanes_nonempty la).
  - intros n [->|[Hn%B1|Hn%B2]%elem_of_app]%elem_of_cons; lia.
  - done.
  - unfold lt. simpl. rewrite length_app, (erase_ids_length l1 la S1), (erase_ids_length l2 lb S2). lia.
Qed.

(** An enumeration of the nodes of a tree has one entry per node. *)
Lemma rep_enumerates ks t lt : rep t lt -> enumerates ks (nodes t) -> length ks = length (ids lt).
Proof.
  intros Hrep [Hnd Hks]. destruct (rep_core _ _ Hrep) as [Hr Hni Hon].
  apply Permutation_length, NoDup_Permutation; [done..|]. intros k. rewrite Hks. split.
  - intros [x Hx]. by eapply Hon.
  - intros Hk. by eapply reprs_lookup.
Qed.
