(* ===== verification/SplitTreeProps.v ===== *)
(** * Split tree: the properties of the component

    The statements below are about the methods of [SplitTree] themselves, through
    [panes] (the order in which the panes appear), [layout_of] (the layout the
    arena denotes) and the invariant [wf]. *)

From S2P Require Import Prelude F64 SplitTree SplitTreeSpec SplitTreeRefine SplitTreeMerge.

(** ** From representations to the invariant *)

Lemma wf_empty t : root t = None -> panes t = [] /\ layout_of t = None.
Proof. unfold panes, layout_of. by intros ->. Qed.

Lemma wf_intro t lt f : rep t lt -> focused t = Some f -> f ∈ lpanes lt -> wf t.
Proof. right. eauto. Qed.

Lemma wf_nonempty t p : wf t -> p ∈ panes t ->
  exists lt f, rep t lt /\ focused t = Some f /\ f ∈ lpanes lt /\
    panes t = lpanes lt /\ layout_of t = Some (erase lt).
Proof.
  intros [(Hr & _)|(lt & f & Hrep & Hf & Hin)] Hp.
  - rewrite (proj1 (wf_empty t Hr)) in Hp. by apply elem_of_nil in Hp.
  - exists lt, f. rewrite (rep_panes _ _ Hrep), (rep_layout _ _ Hrep). done.
Qed.

Lemma wf_nodup t : wf t -> NoDup (panes t).
Proof.
  intros [(Hr & _)|(lt & f & Hrep & _)].
  - rewrite (proj1 (wf_empty t Hr)). constructor.
  - rewrite (rep_panes _ _ Hrep). apply Hrep.
Qed.

Lemma wf_refocus t p : wf t -> p ∈ panes t -> wf (put_focused (Some p) t).
Proof.
  intros Hwf Hp. destruct (wf_nonempty t p Hwf Hp) as (lt & f & Hrep & _ & _ & Hps & _).
  rewrite Hps in Hp. eapply wf_intro; [by apply rep_set_focus|done|done].
Qed.

Lemma put_focused_panes p t : panes (put_focused p t) = panes t.
Proof. done. Qed.

Lemma head_elem {A} (l : list A) : l <> [] -> exists x, head l = Some x /\ x ∈ l.
Proof. destruct l as [|x l]; [done|]. exists x. split; [done|left]. Qed.

(** ** The specification of each operation, in one statement *)

Lemma split_with_spec bef t p q o :
  wf t -> p ∈ panes t -> q ∉ panes t -> room 2 t ->
  exists t', split_with (place_of bef) p q o t = (Some (next_id t + 1)%Z, t') /\ wf t' /\
    layout_of t' = lay_subst p (lay_wrap bef o (Pane p) q) <$> layout_of t /\
    focused t' = Some q /\ next_id t' = (next_id t + 2)%Z.
Proof.
  intros Hwf Hp Hq Hroom. destruct (wf_nonempty t p Hwf Hp) as (lt & f & Hrep & _ & _ & Hps & Hl).
  rewrite Hps in Hp, Hq.
  destruct (split_with_rep t lt bef p q o) as (t' & lt' & E & Hrep' & He & Hf & Hn); try done.
  exists t'. rewrite Hl, (rep_layout _ _ Hrep'). split_and!; try done; simpl; [|by rewrite He].
  eapply wf_intro; [done..|]. rewrite <- erase_panes, He.
  destruct (lay_subst_panes p (lay_wrap bef o (Pane p) q) (erase lt)) as (l1 & l2 & _ & ->);
    rewrite ?erase_panes; [apply Hrep|done|].
  destruct bef; set_solver.
Qed.

Lemma layout_panes t l : wf t -> layout_of t = Some l -> panes t = lay_panes l.
Proof.
  intros [(Hr & _)|(lt & f & Hrep & _)] Hl.
  - by rewrite (proj2 (wf_empty t Hr)) in Hl.
  - rewrite (rep_layout _ _ Hrep) in Hl. simplify_eq.
    by rewrite (rep_panes _ _ Hrep), erase_panes.
Qed.

Lemma split_panes bef t p q o t' :
  wf t -> p ∈ panes t -> wf t' ->
  layout_of t' = lay_subst p (lay_wrap bef o (Pane p) q) <$> layout_of t ->
  exists l1 l2, panes t = l1 ++ p :: l2 /\
    panes t' = l1 ++ (if bef then [q; p] else [p; q]) ++ l2.
Proof.
  intros Hwf Hp Hwf' Hl'. destruct (wf_nonempty t p Hwf Hp) as (lt & f & Hrep & _ & _ & Hps & Hl).
  rewrite Hl in Hl'. rewrite (layout_panes t' _ Hwf' Hl'), (layout_panes t _ Hwf Hl).
  destruct (lay_subst_panes p (lay_wrap bef o (Pane p) q) (erase lt)) as (l1 & l2 & -> & ->);
    rewrite ?erase_panes; [apply Hrep|congruence|].
  exists l1, l2. by destruct bef.
Qed.

(** What [remove] promises of its result. *)
Definition removed (p : PaneId) (t t' : SplitTree) : Prop :=
  wf t' /\ layout_of t' = (layout_of t ≫= lay_remove p) /\
  panes t' = filter (fun q => q <> p) (panes t) /\ next_id t' = next_id t /\
  focused t' = if decide (focused t = Some p) then head (panes t') else focused t.

Lemma remove_spec_split t lt f p :
  rep t lt -> focused t = Some f -> f ∈ lpanes lt -> p ∈ lpanes lt -> lt <> LLeaf (rid lt) p ->
  exists t', remove p t = (true, t') /\ removed p t t'.
Proof.
  intros Hrep Hf Hfin Hp E.
  destruct (remove_split t lt p Hrep Hp E) as (t' & lt' & Er & Hrep' & Hl & Hn & Hf').
  pose proof (lay_remove_panes p (erase lt)) as Hpan. rewrite Hl, !erase_panes in Hpan.
  exists t'. split; [done|]. unfold removed.
  rewrite (rep_layout _ _ Hrep), (rep_layout _ _ Hrep'), (rep_panes _ _ Hrep),
    (rep_panes _ _ Hrep'). split_and!; try done.
  rewrite Hf in Hf'. case_decide.
  - destruct (head_elem (lpanes lt')) as (x & Hx & Hxin); [apply lpanes_nonempty|].
    rewrite Hx in Hf'. by eapply wf_intro.
  - eapply wf_intro; [done..|]. rewrite <- Hpan, list_elem_of_filter.
    split; [congruence|done].
Qed.

Lemma remove_spec t p :
  wf t -> exists t', remove p t = (bool_decide (p ∈ panes t), t') /\ removed p t t'.
Proof.
  intros Hwf. destruct (decide (p ∈ panes t)) as [Hp|Hp].
  - destruct (wf_nonempty t p Hwf Hp) as (lt & f & Hrep & Hf & Hfin & Hps & Hl).
    rewrite bool_decide_true by done. rewrite Hps in Hp.
    destruct lt as [k p'|k o r a b]; [|by eapply remove_spec_split].
    simpl in Hp, Hfin. apply list_elem_of_singleton in Hp as ->.
    apply list_elem_of_singleton in Hfin as ->.
    rewrite (remove_last _ _ _ Hrep). eexists. split; [done|]. unfold removed.
    rewrite Hl, Hps. simpl. rewrite !decide_True by done.
    split_and!; try done; [left; split_and!; try done; apply Hrep|].
    rewrite filter_cons_False; [done|naive_solver].
  - rewrite remove_absent, bool_decide_false by done. exists t. split; [done|].
    assert (filter (fun q => q <> p) (panes t) = panes t) as Hfil.
    { apply filter_all. intros q Hq ->. done. }
    unfold removed. rewrite Hfil. split_and!; try done.
    + destruct Hwf as [(Hr & _)|(lt & f & Hrep & _)].
      * by rewrite (proj2 (wf_empty t Hr)).
      * rewrite (rep_layout _ _ Hrep). simpl. rewrite lay_remove_notin; [done|].
        by rewrite erase_panes, <- (rep_panes _ _ Hrep).
    + rewrite decide_False; [done|]. intros Hf.
      destruct Hwf as [(_ & _ & Hf' & _)|(lt & f & Hrep & Hf' & Hin)]; [congruence|].
      apply Hp. rewrite (rep_panes _ _ Hrep). congruence.
Qed.

Lemma insert_spec t q o :
  wf t -> q ∉ panes t -> room 2 t ->
  exists t', insert_pane_after_focused q o t = (true, t') /\ wf t' /\ focused t' = Some q /\
    (next_id t' <= next_id t + 2)%Z /\
    match focused t with
    | None => panes t = [] /\ layout_of t' = Some (Pane q)
    | Some f => f ∈ panes t /\
        layout_of t' = lay_equalize_chain ∘ lay_insert f q o <$> layout_of t
    end.
Proof.
  intros Hwf Hq Hroom. destruct Hwf as [(Hr & Hm & Hf & Hn)|(lt & f & Hrep & Hf & Hin)].
  - rewrite Hf. unfold insert_pane_after_focused. rewrite Hr. cbn -[u32_succ].
    rewrite u32_succ_small by (unfold room in Hroom; lia). rewrite Hm.
    assert (rep (mkSplitTree {[next_id t := Leaf q]} (Some (next_id t)) (next_id t + 1) (Some q))
              (LLeaf (next_id t) q)) as Hrep.
    { split; simpl; [done| |apply NoDup_singleton| |unfold room in Hroom; lia].
      - split; simpl; [by rewrite lookup_singleton_eq|apply NoDup_singleton|].
        intros n x [<- _]%lookup_singleton_Some. set_solver.
      - intros n x [<- _]%lookup_singleton_Some. lia. }
    eexists. split; [unfold set_nodes, set_root, put_focused; cbn; by rewrite insert_empty|].
    split_and!; simpl; try done; try lia.
    + eapply wf_intro; [exact Hrep|done|simpl; set_solver].
    + apply (wf_empty t Hr).
    + apply (rep_layout _ _ Hrep).
  - rewrite (rep_panes _ _ Hrep) in Hq.
    destruct (insert_pane_after_focused_rep t lt q o Hrep Hq Hroom)
      as (p & t' & lt' & Ha & Hp & E & Hrep' & He & Hf' & Hn').
    assert (p = f) as ->.
    { unfold anchor in Ha. rewrite Hf, (rep_panes _ _ Hrep), decide_True in Ha by done. congruence. }
    exists t'. rewrite Hf, (rep_panes _ _ Hrep), (rep_layout _ _ Hrep), (rep_layout _ _ Hrep').
    split_and!; try done; [|lia|by rewrite He].
    eapply wf_intro; [done..|]. rewrite <- erase_panes, He. unfold lay_equalize_chain.
    rewrite lay_chain_panes. destruct lt as [k p'|k od r a b]; simpl; [set_solver|].
    edestruct (lay_insert_after_panes f q o (Div od r (erase a) (erase b))) as (l1 & l2 & _ & H);
      [|simpl; by rewrite !erase_panes|done|]; simpl in *.
    { rewrite !erase_panes. apply (rep_nodup _ _ Hrep). }
    rewrite H. set_solver.
Qed.

Lemma lay_insert_panes f q o l :
  NoDup (lay_panes l) -> f ∈ lay_panes l ->
  exists l1 l2, lay_panes l = l1 ++ f :: l2 /\ lay_panes (lay_insert f q o l) = l1 ++ f :: q :: l2.
Proof.
  intros Hnd Hf. destruct l as [x|od r a b].
  - simpl in Hf. apply list_elem_of_singleton in Hf as ->. by exists [], [].
  - by apply lay_insert_after_panes.
Qed.

Lemma move_spec t s d before o :
  wf t -> s ∈ panes t -> d ∈ panes t -> s <> d -> room 2 t ->
  exists t' l1, move_pane_adjacent s d before o t = (true, t') /\ wf t' /\
    (layout_of t ≫= lay_remove s) = Some l1 /\
    layout_of t' = Some (lay_equalize_chain (lay_subst d (lay_wrap before o (Pane d) s) l1)) /\
    focused t' = Some s /\ next_id t' = (next_id t + 2)%Z /\
    exists k1 k2, filter (fun q => q <> s) (panes t) = k1 ++ d :: k2 /\
      panes t' = k1 ++ (if before then [s; d] else [d; s]) ++ k2.
Proof.
  intros Hwf Hs Hd Hne Hroom. destruct (wf_nonempty t s Hwf Hs) as (lt & f & Hrep & _ & _ & Hps & Hl).
  rewrite Hps in Hs, Hd.
  destruct (move_pane_adjacent_rep t lt s d before o) as (l1 & t' & lt' & Hl1 & Hdl & E & Hrep' &
    He & Hf & Hn); try done.
  pose proof (lay_remove_panes s (erase lt)) as Hpan. rewrite Hl1, erase_panes in Hpan.
  destruct (lay_subst_panes d (lay_wrap before o (Pane d) s) l1) as (k1 & k2 & Hk & Hsub);
    [|done|].
  { rewrite <- Hpan. apply NoDup_filter, Hrep. }
  assert (lpanes lt' = k1 ++ (if before then [s; d] else [d; s]) ++ k2) as Hp'.
  { rewrite <- erase_panes, He. unfold lay_equalize_chain. rewrite lay_chain_panes, Hsub.
    by destruct before. }
  exists t', l1. rewrite Hl, Hps, (rep_layout _ _ Hrep'), (rep_panes _ _ Hrep').
  split_and!; try done.
  - eapply wf_intro; [done..|]. rewrite Hp'. destruct before; set_solver.
  - by rewrite He.
  - exists k1, k2. by rewrite Hpan.
Qed.

(** [equalize], [equalize_chain] and [set_ratio] change ratios only. *)
Lemma ratio_ops_spec t l :
  wf t -> layout_of t = Some l ->
  (wf (equalize t) /\ layout_of (equalize t) = Some (lay_halve l)) /\
  (wf (equalize_chain t) /\ layout_of (equalize_chain t) = Some (lay_equalize_chain l)).
Proof.
  intros [(Hr & _)|(lt & f & Hrep & Hf & Hin)] Hl; [by rewrite (proj2 (wf_empty t Hr)) in Hl|].
  rewrite (rep_layout _ _ Hrep) in Hl. simplify_eq.
  pose proof (equalize_rep _ _ Hrep) as H1.
  destruct (equalize_chain_rep _ _ Hrep) as (lt2 & H2 & He2 & Hf2 & _).
  split; split.
  - eapply wf_intro; [exact H1|done|].
    by rewrite <- erase_panes, erase_halve, lay_halve_panes, erase_panes.
  - by rewrite (rep_layout _ _ H1), erase_halve.
  - eapply (wf_intro _ _ f); [exact H2|congruence|]. rewrite <- erase_panes, He2.
    unfold lay_equalize_chain. by rewrite lay_chain_panes, erase_panes.
  - by rewrite (rep_layout _ _ H2), He2.
Qed.

Lemma ratio_ops_empty t :
  root t = None -> nodes t = ∅ -> equalize t = t /\ equalize_chain t = t.
Proof.
  intros Hr Hm. unfold equalize, equalize_chain, panes. rewrite Hr, Hm.
  split; [|by case_decide]. destruct t; simpl in *; subst.
  by rewrite map_to_list_empty.
Qed.

Lemma set_ratio_wf k v t : wf t -> wf (set_ratio k v t) /\ panes (set_ratio k v t) = panes t.
Proof.
  intros [(Hr & Hm & Hf & Hn)|(lt & f & Hrep & Hf & Hin)].
  - assert (set_ratio k v t = t) as ->; [|split; [by left|done]].
    unfold set_ratio. by rewrite Hm, lookup_empty.
  - pose proof (set_ratio_rep k v _ _ Hrep) as H.
    rewrite (rep_panes _ _ Hrep), (rep_panes _ _ H). split; [|apply lmap_ratio_panes].
    eapply wf_intro; [exact H| |by rewrite lmap_ratio_panes].
    unfold set_ratio. by destruct (nodes t !! k) as [[]|].
Qed.

(** ** Focus movement *)

Lemma navigate_spec (forward : bool) t f (i : nat) :
  wf t -> focused t = Some f -> panes t !! i = Some f ->
  exists p, panes t !! ((if forward then i + 1 else i + length (panes t) - 1)
                          mod length (panes t)) = Some p /\
    navigate forward t = (Some p, put_focused (Some p) t).
Proof.
  intros Hwf Hf Hi. pose proof (wf_nodup t Hwf) as Hnd.
  assert (position (fun p => bool_decide (p = f)) (panes t) = Some i) as Hpos.
  { apply (position_unique _ _ i f); [done|by apply bool_decide_eq_true|].
    intros j y Hj ->%bool_decide_eq_true. by eapply NoDup_lookup. }
  pose proof (lookup_lt_Some _ _ _ Hi) as Hlt.
  destruct (lookup_lt_is_Some_2 (panes t)
    ((if forward then i + 1 else i + length (panes t) - 1) mod length (panes t))) as [p Hp].
  { apply Nat.mod_upper_bound. lia. }
  exists p. split; [done|]. unfold navigate. rewrite Hf, Hpos. destruct forward; by rewrite Hp.
Qed.

Lemma navigate_wf forward t : wf t -> wf (snd (navigate forward t)).
Proof.
  intros Hwf. unfold navigate. destruct (focused t); [|done]. case_goal; [|done].
  case_goal; [|done]. simpl. apply wf_refocus; [done|]. by eapply list_elem_of_lookup_2.
Qed.

Lemma mod_step_back (i n : nat) : i < n -> ((i + 1) mod n + n - 1) mod n = i.
Proof.
  intros Hi. destruct (decide (i + 1 = n)) as [E|E].
  - rewrite E, Nat.Div0.mod_same, Nat.mod_small; lia.
  - rewrite (Nat.mod_small (i + 1)) by lia.
    replace (i + 1 + n - 1) with (i + 1 * n) by lia.
    rewrite Nat.Div0.mod_add, Nat.mod_small; lia.
Qed.

(** The best candidate of the directional search so far: it comes from the
    list, it is valid, and no valid candidate is strictly nearer. *)
Definition nav_best (dir : Direction) (f : PaneId) (fr : Rect) (cands : list (PaneId * Rect))
    (best : option (PaneId * f64)) : Prop :=
  match best with
  | None => forall p r, (p, r) ∈ cands -> p <> f -> nav_valid dir fr r = false
  | Some (p, d) =>
      (exists r, (p, r) ∈ cands /\ p <> f /\ nav_valid dir fr r = true /\ d = nav_dist dir fr r) /\
      forall p' r', (p', r') ∈ cands -> p' <> f -> nav_valid dir fr r' = true ->
        f64_ltb (nav_dist dir fr r') d = false
  end.

Lemma nav_fold_best dir f fr cands : forall dn best,
  nav_best dir f fr dn best ->
  nav_best dir f fr (dn ++ cands) (foldl (nav_step dir f fr) best cands).
Proof.
  induction cands as [|[p r] cands IH]; intros dn best Hb; simpl; [by rewrite app_nil_r|].
  rewrite (cons_middle _ dn), app_assoc. apply IH.
  unfold nav_step. destruct (decide (p = f)) as [->|Hp]; [|destruct (nav_valid dir fr r) eqn:Hv]; simpl.
  - destruct best as [[q d]|]; simpl in *; [destruct Hb as [(r0 & ? & ?) Hb]; split|];
      [exists r0; set_solver|..];
      (intros p' r' [?|[= -> ->]%list_elem_of_singleton]%elem_of_app; [by eauto|congruence]).
  - destruct best as [[q d]|]; simpl in *.
    + destruct Hb as [(r0 & Hin & Hq & Hr0 & ->) Hb]. destruct (f64_ltb _ _) eqn:Hlt; simpl.
      * split; [exists r; set_solver|].
        intros p' r' [Hin'|[= -> ->]%list_elem_of_singleton]%elem_of_app Hp' Hv'; [|apply f64_ltb_irrefl].
        specialize (Hb _ _ Hin' Hp' Hv'). apply not_true_is_false. intros H.
        by rewrite (f64_ltb_trans _ _ _ H Hlt) in Hb.
      * split; [exists r0; set_solver|].
        intros p' r' [Hin'|[= -> ->]%list_elem_of_singleton]%elem_of_app; [by apply Hb|done].
    + split; [exists r; set_solver|].
      intros p' r' [Hin'|[= -> ->]%list_elem_of_singleton]%elem_of_app Hp' Hv'; [|apply f64_ltb_irrefl].
      by rewrite (Hb _ _ Hin' Hp') in Hv'.
  - destruct best as [[q d]|]; simpl in *; [destruct Hb as [(r0 & ? & ?) Hb]; split|];
      [exists r0; set_solver|..];
      (intros p' r' [?|[= -> ->]%list_elem_of_singleton]%elem_of_app; [by eauto|congruence]).
Qed.

Lemma bounds_panes t : wf t -> (pane_bounds t).*1 = panes t.
Proof.
  intros [(Hr & _)|(lt & f & Hrep & _)].
  - unfold pane_bounds, panes. by rewrite Hr.
  - by rewrite (rep_bounds _ _ Hrep), (rep_panes _ _ Hrep), lay_bounds_panes, erase_panes.
Qed.

Lemma focused_rect t f : wf t -> focused t = Some f ->
  exists i fr, list_find (fun '(pid, _) => pid = f) (pane_bounds t) = Some (i, (f, fr)) /\
    (f, fr) ∈ pane_bounds t.
Proof.
  intros Hwf Hf.
  assert (f ∈ (pane_bounds t).*1) as ([q fr] & -> & Hfr)%list_elem_of_fmap.
  { rewrite bounds_panes by done. destruct Hwf as [(_ & _ & ? & _)|(lt & f' & Hrep & Hf' & Hin)];
      [congruence|]. rewrite (rep_panes _ _ Hrep). congruence. }
  destruct (list_find_elem_of (fun '(pid, _) => pid = q) (pane_bounds t) (q, fr)) as [[i [q' fr']] Hl];
    [done|done|].
  pose proof Hl as (Hi & -> & _)%list_find_Some. exists i, fr'. simpl. split; [done|].
  by eapply list_elem_of_lookup_2.
Qed.

Lemma navigate_directional_wf dir t : wf t -> wf (snd (navigate_directional dir t)).
Proof.
  intros Hwf. unfold navigate_directional. destruct (focused t) as [f|] eqn:Hf; [|done].
  destruct (focused_rect t f Hwf Hf) as (i & fr & -> & _).
  pose proof (nav_fold_best dir f fr (pane_bounds t) [] None) as Hb.
  destruct (foldl _ _ _) as [[p d]|]; [|done]. simpl.
  destruct Hb as [(r & Hin & _) _]; [by intros ?? ?%elem_of_nil|].
  apply wf_refocus; [done|]. rewrite <- bounds_panes by done.
  apply list_elem_of_fmap. by exists (p, r).
Qed.

(** What directional navigation changes and answers. *)
Lemma navigate_directional_panes dir t : wf t ->
  panes (snd (navigate_directional dir t)) = panes t /\
  forall p, fst (navigate_directional dir t) = Some p -> p ∈ panes t.
Proof.
  intros Hwf. unfold navigate_directional. destruct (focused t) as [f|] eqn:Hf; [|done].
  destruct (focused_rect t f Hwf Hf) as (i & fr & -> & _).
  pose proof (nav_fold_best dir f fr (pane_bounds t) [] None) as Hb.
  destruct (foldl _ _ _) as [[p d]|]; [|done]. simpl. split; [done|]. intros q [= <-].
  destruct Hb as [(r & Hin & _) _]; [by intros ?? ?%elem_of_nil|].
  rewrite <- bounds_panes by done. apply list_elem_of_fmap. by exists (p, r).
Qed.

Lemma navigate_panes forward t : panes (snd (navigate forward t)) = panes t.
Proof. unfold navigate. by repeat case_goal. Qed.

Lemma ratio_ops_panes t : wf t -> panes (equalize t) = panes t.
Proof.
  intros Hwf. destruct Hwf as [(Hr & Hm & _)|(lt & f & Hrep & Hf & Hin)].
  - by destruct (ratio_ops_empty t Hr Hm) as [-> _].
  - rewrite (rep_panes _ _ (equalize_rep _ _ Hrep)), (rep_panes _ _ Hrep). apply lmap_ratio_panes.
Qed.

(** ** The reachable trees

    Every tree the application can build: a fresh one, or one obtained by an
    operation of the component.  A new pane has a fresh identifier (the caller
    draws it from a counter) and the 32-bit node counter has not run out. *)
Inductive reachable : SplitTree -> Prop :=
  | reach_new : reachable new_tree
  | reach_with_pane p : reachable (new_with_pane p)
  | reach_split t p q o : reachable t -> q ∉ panes t -> room 2 t ->
      reachable (snd (split p q o t))
  | reach_split_before t p q o : reachable t -> q ∉ panes t -> room 2 t ->
      reachable (snd (split_before p q o t))
  | reach_insert t q o : reachable t -> q ∉ panes t -> room 2 t ->
      reachable (snd (insert_pane_after_focused q o t))
  | reach_remove t p : reachable t -> reachable (snd (remove p t))
  | reach_move t s d before o : reachable t -> room 2 t ->
      reachable (snd (move_pane_adjacent s d before o t))
  | reach_focus t p : reachable t -> p ∈ panes t -> reachable (set_focused p t)
  | reach_navigate t forward : reachable t -> reachable (snd (navigate forward t))
  | reach_navigate_directional t d : reachable t -> reachable (snd (navigate_directional d t))
  | reach_ratio t k v : reachable t -> reachable (set_ratio k v t)
  | reach_equalize t : reachable t -> reachable (equalize t)
  | reach_equalize_chain t : reachable t -> reachable (equalize_chain t)
  | reach_merge ks1 ks2 a b o r : reachable a -> reachable b ->
      root a <> None -> root b <> None ->
      enumerates ks1 (nodes a) -> enumerates ks2 (nodes b) ->
      (forall p, p ∈ panes a -> p ∉ panes b) ->
      (next_id a `max` next_id b + Z.of_nat (length ks1 + length ks2) + 1 <= u32_max)%Z ->
      reachable (merge ks1 ks2 a b o r).

Lemma wf_new_with_pane p : wf (new_with_pane p).
Proof.
  apply (wf_intro _ (LLeaf 0 p) p); [|done|simpl; set_solver].
  split; simpl; [done| |apply NoDup_singleton| |done].
  - split; simpl; [done|apply NoDup_singleton|].
    intros n x [<- _]%lookup_singleton_Some. set_solver.
  - intros n x [<- _]%lookup_singleton_Some. done.
Qed.

Lemma split_with_wf bef t p q o :
  wf t -> q ∉ panes t -> room 2 t -> wf (snd (split_with (place_of bef) p q o t)).
Proof.
  intros Hwf Hq Hroom. destruct (decide (p ∈ panes t)).
  - by destruct (split_with_spec bef t p q o) as (t' & -> & ? & _).
  - by rewrite split_with_absent.
Qed.

Lemma node_id_for_absent t p : wf t -> p ∉ panes t -> node_id_for_pane p t = None.
Proof.
  intros [(Hr & _)|(lt & f & Hrep & _)] Hp; [by unfold node_id_for_pane; rewrite Hr|].
  rewrite (rep_panes _ _ Hrep) in Hp. rewrite (rep_node_for_pane _ _ Hrep).
  by apply lfind_leaf_None.
Qed.

Lemma move_refused t s d before o :
  wf t -> s = d \/ s ∉ panes t \/ d ∉ panes t ->
  move_pane_adjacent s d before o t = (false, t).
Proof.
  intros Hwf H. unfold move_pane_adjacent. case_decide; [done|].
  destruct H as [?|[H|H]]; [done|..]; rewrite (node_id_for_absent _ _ Hwf H); [done|].
  by case_goal.
Qed.

Lemma move_wf t s d before o :
  wf t -> room 2 t -> wf (snd (move_pane_adjacent s d before o t)).
Proof.
  intros Hwf Hroom.
  destruct (decide (s = d \/ s ∉ panes t \/ d ∉ panes t)) as [H|H]; [by rewrite move_refused|].
  destruct (move_spec t s d before o) as (t' & l1 & -> & ? & _); [done| | | |done|done];
    [apply dec_stable; tauto..|tauto].
Qed.

Lemma ratio_ops_wf t : wf t -> wf (equalize t) /\ wf (equalize_chain t).
Proof.
  intros Hwf. destruct Hwf as [(Hr & Hm & Hf & Hn)|(lt & f & Hrep & Hf & Hin)].
  - destruct (ratio_ops_empty t Hr Hm) as [-> ->]. split; left; done.
  - destruct (ratio_ops_spec t (erase lt)) as ((? & _) & ? & _); [by eapply wf_intro|
      by apply rep_layout|done].
Qed.

Lemma merge_spec ks1 ks2 a b o r :
  wf a -> wf b -> root a <> None -> root b <> None ->
  enumerates ks1 (nodes a) -> enumerates ks2 (nodes b) ->
  (forall p, p ∈ panes a -> p ∉ panes b) ->
  (next_id a `max` next_id b + Z.of_nat (length ks1 + length ks2) + 1 <= u32_max)%Z ->
  let t := merge ks1 ks2 a b o r in
  wf t /\ (exists la lb, layout_of a = Some la /\ layout_of b = Some lb /\
             layout_of t = Some (Div o r la lb)) /\
  panes t = panes a ++ panes b /\ focused t = head (panes a) /\
  (forall n x, nodes t !! n = Some x -> (next_id a `max` next_id b <= n)%Z).
Proof.
  intros [(? & _)|(la & fa & Ha & _)]; [done|].
  intros [(? & _)|(lb & fb & Hb & _)]; [done|]. intros _ _ He1 He2 Hdisj Hroom t.
  rewrite (rep_panes _ _ Ha), (rep_panes _ _ Hb) in *.
  destruct (merge_rep ks1 ks2 a b la lb o r) as (lt & Hrep & He & Hf & Hids & _); try done; [lia|].
  fold t in Hrep, Hf. rewrite (rep_panes _ _ Hrep), (rep_layout _ _ Hrep), He.
  rewrite <- (erase_panes lt), He. simpl. rewrite !erase_panes. split_and!; try done.
  - destruct (head_elem (lpanes la)) as (x & Hx & Hxin); [apply lpanes_nonempty|].
    eapply wf_intro; [exact Hrep|by rewrite Hf|]. rewrite <- erase_panes, He. simpl.
    rewrite !erase_panes. set_solver.
  - exists (erase la), (erase lb). by rewrite (rep_layout _ _ Ha), (rep_layout _ _ Hb).
  - intros n x Hx. apply Hids. by eapply (core_dom _ _ (rep_core _ _ Hrep)).
Qed.

#[export] Hint Resolve wf_new_with_pane split_with_wf move_wf navigate_wf
  navigate_directional_wf wf_refocus : limux.

(** ** Claims *)

(** C38: every tree the application can build satisfies the invariant of the
    component: its arena is exactly a binary tree over distinct panes (no orphan,
    shared or dangling node), every identifier is below the counter, and the
    focused pane is one of its panes. *)
Theorem reachable_wf t : reachable t -> wf t.
Proof.
  induction 1; eauto with limux.
  - left. done.
  - by apply (split_with_wf false).
  - by apply (split_with_wf true).
  - by destruct (insert_spec t q o) as (t' & -> & ? & _).
  - by destruct (remove_spec t p) as (t' & -> & ? & _).
  - by apply set_ratio_wf.
  - by apply ratio_ops_wf.
  - by apply ratio_ops_wf.
  - by apply merge_spec.
Qed.

(** A tree of three panes, for the witnesses: 1 | (2 / 3), focused on 3. *)
Definition demo : SplitTree :=
  snd (split 2 3 Vertical (snd (split 1 2 Horizontal (new_with_pane 1)))).

Ltac notin := by apply (bool_decide_unpack _); vm_compute.
Ltac isin := by apply (bool_decide_unpack _); vm_compute.

Lemma demo_wf : wf demo.
Proof.
  apply (split_with_wf false); [apply (split_with_wf false)|..];
    [apply wf_new_with_pane|notin|done|notin|done].
Qed.

Lemma reachable_wf_witness : reachable demo /\ wf demo.
Proof.
  assert (reachable demo) as H.
  { apply reach_split; [apply reach_split|..]; [apply reach_with_pane|notin|done|notin|done]. }
  exact (conj H (reachable_wf demo H)).
Defined.

(** C39: splitting a pane [p] of a tree refines the layout operation: exactly the
    leaf of [p] becomes a half/half division of [p] and the new pane, after it
    for [split], before it for [split_before]; the order of all other panes is
    kept and the new pane gets the focus. *)
Theorem split_refines t p q o :
  wf t -> p ∈ panes t -> q ∉ panes t -> room 2 t ->
  (exists t', split p q o t = (Some (next_id t + 1)%Z, t') /\ focused t' = Some q /\
    layout_of t' = lay_subst p (Div o f64_half (Pane p) (Pane q)) <$> layout_of t /\
    exists l1 l2, panes t = l1 ++ p :: l2 /\ panes t' = l1 ++ p :: q :: l2) /\
  (exists t', split_before p q o t = (Some (next_id t + 1)%Z, t') /\ focused t' = Some q /\
    layout_of t' = lay_subst p (Div o f64_half (Pane q) (Pane p)) <$> layout_of t /\
    exists l1 l2, panes t = l1 ++ p :: l2 /\ panes t' = l1 ++ q :: p :: l2).
Proof.
  intros Hwf Hp Hq Hroom. split.
  - destruct (split_with_spec false t p q o) as (t' & E & Hwf' & Hl & Hf & _); try done.
    exists t'. split_and!; try done. by apply (split_panes false t p q o).
  - destruct (split_with_spec true t p q o) as (t' & E & Hwf' & Hl & Hf & _); try done.
    exists t'. split_and!; try done. by apply (split_panes true t p q o).
Qed.

Lemma split_refines_witness :
  exists t', split 1 4 Vertical demo = (Some 6%Z, t') /\ panes t' = [1; 4; 2; 3]%Z.
Proof.
  destruct (split_refines demo 1 4 Vertical) as [(t' & E & _) _];
    [apply demo_wf|isin|notin|done|].
  exists t'. split; [exact E|]. revert E. vm_compute. by intros [= <-].
Defined.

(** Splitting a pane off and removing the new pane is the identity on layouts. *)
Lemma lay_remove_subst p q bef o l :
  NoDup (lay_panes l) -> p ∈ lay_panes l -> q ∉ lay_panes l ->
  lay_remove q (lay_subst p (lay_wrap bef o (Pane p) q) l) = Some l.
Proof.
  induction l as [x|d r a IHa b IHb]; simpl; intros Hnd Hp Hq.
  - apply list_elem_of_singleton in Hp as ->. rewrite decide_True by done.
    assert (x <> q) by set_solver.
    destruct bef; simpl; rewrite (decide_False (P := x = q)), (decide_True (P := q = q)) by done; done.
  - apply NoDup_app in Hnd as (Hna & Hd & Hnb). apply elem_of_app in Hp as [Hp|Hp].
    + rewrite (lay_subst_notin p _ b) by auto.
      rewrite IHa, (lay_remove_notin q b); set_solver.
    + rewrite (lay_subst_notin p _ a) by (intros ?; by eapply Hd).
      rewrite IHb, (lay_remove_notin q a); set_solver.
Qed.

(** Splitting a pane and then removing the pane just created gives back the
    layout (ratios and orientations included) and the pane order. *)
Theorem split_remove_roundtrip t p q o :
  wf t -> p ∈ panes t -> q ∉ panes t -> room 2 t ->
  let t' := snd (remove q (snd (split p q o t))) in
  wf t' /\ layout_of t' = layout_of t /\ panes t' = panes t.
Proof.
  intros Hwf Hp Hq Hroom.
  destruct (split_with_spec false t p q o) as (t1 & E & Hwf1 & Hl & _); try done.
  change (split p q o t) with (split_with (place_of false) p q o t). rewrite E. simpl.
  destruct (remove_spec t1 q Hwf1) as (t2 & -> & Hwf2 & Hl2 & _). simpl.
  destruct (wf_nonempty t p Hwf Hp) as (lt & f & Hrep & _ & _ & Hps & Hlt).
  assert (layout_of t2 = Some (erase lt)) as Hl3.
  { rewrite Hl2, Hl, Hlt. apply (lay_remove_subst p q false); rewrite ?erase_panes;
      [apply Hrep|congruence..]. }
  split_and!; [done|congruence|].
  by rewrite (layout_panes _ _ Hwf2 Hl3), (layout_panes _ _ Hwf Hlt).
Qed.

Lemma split_remove_roundtrip_witness :
  layout_of (snd (remove 4 (snd (split 2 4 Horizontal demo)))) = layout_of demo.
Proof.
  apply (split_remove_roundtrip demo 2 4 Horizontal); [apply demo_wf|isin|notin|done].
Defined.

(** [remove] answers whether the pane was there; it removes exactly that
    pane from the order, its sibling takes the place of their division in the
    layout, no identifier is consumed, and the focus moves to the first
    remaining pane only when it was on the removed one. *)
Theorem remove_refines t p :
  wf t ->
  exists t', remove p t = (bool_decide (p ∈ panes t), t') /\ wf t' /\
    layout_of t' = (layout_of t ≫= lay_remove p) /\
    panes t' = filter (fun q => q <> p) (panes t) /\ next_id t' = next_id t /\
    focused t' = if decide (focused t = Some p) then head (panes t') else focused t.
Proof. intros Hwf. destruct (remove_spec t p Hwf) as (t' & E & H). by exists t'. Qed.

Lemma remove_refines_witness :
  exists t', remove 3 demo = (true, t') /\ panes t' = [1; 2]%Z /\ focused t' = Some 1%Z.
Proof.
  destruct (remove_refines demo 3 demo_wf) as (t' & E & _).
  exists t'. split; [exact E|]. revert E. vm_compute. by intros [= <-].
Defined.

(** [insert_pane_after_focused] on a tree with a focused pane puts the new
    pane right after it in the order, keeps every other pane in place, focuses
    it and equalises the ratios of the chain; on the empty tree it installs the
    pane alone. *)
Theorem insert_after_focused_order t q o :
  wf t -> q ∉ panes t -> room 2 t ->
  exists t', insert_pane_after_focused q o t = (true, t') /\ wf t' /\ focused t' = Some q /\
    match focused t with
    | None => panes t' = [q]
    | Some f => exists l1 l2, panes t = l1 ++ f :: l2 /\ panes t' = l1 ++ f :: q :: l2 /\
        layout_of t' = lay_equalize_chain ∘ lay_insert f q o <$> layout_of t
    end.
Proof.
  intros Hwf Hq Hroom. destruct (insert_spec t q o) as (t' & E & Hwf' & Hf & _ & H); try done.
  exists t'. split_and!; try done. destruct (focused t) as [f|].
  - destruct H as [Hin Hl].
    destruct (wf_nonempty t f Hwf Hin) as (lt & _ & Hrep & _ & _ & Hps & Hlt). rewrite Hlt in Hl.
    rewrite (layout_panes _ _ Hwf' Hl), Hps, <- erase_panes. simpl. unfold lay_equalize_chain.
    rewrite lay_chain_panes.
    destruct (lay_insert_panes f q o (erase lt)) as (l1 & l2 & -> & ->);
      [rewrite erase_panes; apply Hrep|rewrite erase_panes; congruence|].
    exists l1, l2. split_and!; try done. by rewrite Hl, Hlt.
  - by rewrite (layout_panes _ _ Hwf' (proj2 H)).
Qed.

Lemma insert_after_focused_order_witness :
  exists t', insert_pane_after_focused 4 Horizontal (set_focused 2 demo) = (true, t') /\
    panes t' = [1; 2; 4; 3]%Z.
Proof.
  destruct (insert_after_focused_order (set_focused 2 demo) 4 Horizontal) as (t' & E & _);
    [apply wf_refocus; [apply demo_wf|isin]|notin|done|].
  exists t'. split; [exact E|]. revert E. vm_compute. by intros [= <-].
Defined.

(** Moving a pane next to another one (drag and drop) takes it out of the
    order and puts it back immediately before or after the target, all others
    keeping their order; the move is refused, with the tree unchanged, exactly
    when source and target are the same pane or one of them is missing. *)
Theorem move_adjacent_order t s d before o :
  wf t -> room 2 t ->
  match move_pane_adjacent s d before o t with
  | (true, t') => wf t' /\ focused t' = Some s /\ Permutation (panes t') (panes t) /\
      exists k1 k2, filter (fun q => q <> s) (panes t) = k1 ++ d :: k2 /\
        panes t' = k1 ++ (if before then [s; d] else [d; s]) ++ k2
  | (false, t') => t' = t /\ (s = d \/ s ∉ panes t \/ d ∉ panes t)
  end.
Proof.
  intros Hwf Hroom.
  destruct (decide (s = d \/ s ∉ panes t \/ d ∉ panes t)) as [H|H]; [by rewrite move_refused|].
  assert (s ∈ panes t) as Hs by (apply dec_stable; tauto).
  destruct (move_spec t s d before o) as (t' & l1 & -> & Hwf' & _ & _ & Hf & _ & k1 & k2 & Hk & Hp);
    [done|done|apply dec_stable; tauto|tauto|done|].
  split_and!; [done|done| |eauto].
  apply NoDup_Permutation; [by apply wf_nodup..|]. intros x.
  assert (x ∈ filter (fun q => q <> s) (panes t) <-> x <> s /\ x ∈ panes t) as Hx
    by (by rewrite list_elem_of_filter).
  rewrite Hk in Hx. rewrite Hp. destruct (decide (x = s)) as [->|];
    destruct before; set_solver.
Qed.

Lemma move_adjacent_order_witness :
  exists t', move_pane_adjacent 3 1 true Horizontal demo = (true, t') /\
    panes t' = [3; 1; 2]%Z /\ wf t'.
Proof.
  pose proof (move_adjacent_order demo 3 1 true Horizontal demo_wf ltac:(done)) as H.
  eexists. split; [vm_compute; reflexivity|]. split; [vm_compute; reflexivity|].
  exact (proj1 H).
Defined.
