(* ===== verification/SplitTreeNav.v ===== *)
(** * Split tree: focus navigation, ratios and merging

    The claims on the operations that do not insert or remove panes: cyclic and
    directional navigation, the two equalising operations, and the merge of two
    trees that restores a saved session. *)

From S2P Require Import Prelude F64 SplitTree SplitTreeSpec SplitTreeRefine SplitTreeMerge SplitTreeProps.

(** [k] forward steps of [navigate]. *)
Fixpoint navigate_n (k : nat) (t : SplitTree) : SplitTree :=
  match k with
  | O => t
  | S k => snd (navigate true (navigate_n k t))
  end.

Lemma put_focused_eta t f : focused t = Some f -> put_focused (Some f) t = t.
Proof. destruct t; simpl. by intros ->. Qed.

Lemma focused_index t f : wf t -> focused t = Some f -> exists i, panes t !! i = Some f.
Proof.
  intros [(_ & _ & ? & _)|(lt & f' & Hrep & Hf' & Hin)] Hf; [congruence|].
  apply list_elem_of_lookup. rewrite (rep_panes _ _ Hrep). congruence.
Qed.

Lemma put_focused_wf t p i : wf t -> panes t !! i = Some p -> wf (put_focused (Some p) t).
Proof. intros Hwf Hi. apply wf_refocus; [done|]. by eapply list_elem_of_lookup_2. Qed.

Lemma navigate_n_spec t f i k :
  wf t -> focused t = Some f -> panes t !! i = Some f ->
  exists p, panes t !! ((i + k) mod length (panes t)) = Some p /\
    navigate_n k t = put_focused (Some p) t.
Proof.
  intros Hwf Hf Hi. pose proof (lookup_lt_Some _ _ _ Hi) as Hlt.
  induction k as [|k (p & Hp & E)]; simpl.
  - exists f. rewrite Nat.add_0_r, Nat.mod_small by done. split; [done|]. by rewrite put_focused_eta.
  - rewrite E.
    destruct (navigate_spec true (put_focused (Some p) t) p ((i + k) mod length (panes t)))
      as (q & Hq & ->); [by eapply put_focused_wf|done|done|].
    rewrite put_focused_panes in Hq. exists q. split; [|done].
    rewrite Nat.Div0.add_mod_idemp_l in Hq. by replace (i + S k) with (i + k + 1) by lia.
Qed.

(** Cyclic navigation: from the [i]-th of [n] panes, [k] forward steps focus
    the pane number [(i + k) mod n] of the order and change nothing else; so [n]
    steps give back the tree, and a backward step undoes a forward one. *)
Theorem navigate_cycles t f i k :
  wf t -> focused t = Some f -> panes t !! i = Some f ->
  (exists p, panes t !! ((i + k) mod length (panes t)) = Some p /\
    navigate_n k t = put_focused (Some p) t) /\
  navigate_n (length (panes t)) t = t /\
  snd (navigate false (snd (navigate true t))) = t.
Proof.
  intros Hwf Hf Hi. pose proof (lookup_lt_Some _ _ _ Hi) as Hlt.
  split_and!; [by apply (navigate_n_spec t f)|..].
  - destruct (navigate_n_spec t f i (length (panes t))) as (p & Hp & ->); try done.
    replace (i + length (panes t)) with (i + 1 * length (panes t)) in Hp by lia.
    rewrite Nat.Div0.mod_add, Nat.mod_small, Hi in Hp by done. simplify_eq.
    by apply put_focused_eta.
  - destruct (navigate_spec true t f i) as (p & Hp & ->); try done. simpl.
    destruct (navigate_spec false (put_focused (Some p) t) p ((i + 1) mod length (panes t)))
      as (q & Hq & ->); [by eapply put_focused_wf|done|done|].
    rewrite put_focused_panes, mod_step_back, Hi in Hq by done. simplify_eq.
    by apply (put_focused_eta t).
Qed.

Lemma navigate_cycles_witness :
  focused (navigate_n 2 demo) = Some 2%Z /\ navigate_n 3 demo = demo.
Proof.
  destruct (navigate_cycles demo 3 2 2 demo_wf ltac:(done) ltac:(by vm_compute))
    as ((p & Hp & E) & Hn & _).
  split; [|exact Hn]. rewrite E. revert Hp. vm_compute. by intros [= <-].
Defined.

(** C40: directional navigation moves the focus to a pane on the wanted side of
    the focused one such that no other pane on that side is strictly nearer, and
    to no pane exactly when there is none on that side; only the focus changes. *)
Theorem navigate_directional_nearest dir t f :
  wf t -> focused t = Some f ->
  exists fr, (f, fr) ∈ pane_bounds t /\
  match navigate_directional dir t with
  | (Some p, t') => t' = put_focused (Some p) t /\ p ∈ panes t /\ p <> f /\
      exists r, (p, r) ∈ pane_bounds t /\ nav_valid dir fr r = true /\
        forall p' r', (p', r') ∈ pane_bounds t -> p' <> f -> nav_valid dir fr r' = true ->
          f64_ltb (nav_dist dir fr r') (nav_dist dir fr r) = false
  | (None, t') => t' = t /\
      forall p r, (p, r) ∈ pane_bounds t -> p <> f -> nav_valid dir fr r = false
  end.
Proof.
  intros Hwf Hf. destruct (focused_rect t f Hwf Hf) as (i & fr & Hfind & Hin).
  exists fr. split; [done|]. unfold navigate_directional. rewrite Hf, Hfind.
  pose proof (nav_fold_best dir f fr (pane_bounds t) [] None) as Hb.
  destruct (foldl _ _ _) as [[p d]|]; simpl in *.
  - destruct Hb as [(r & Hr & Hne & Hv & ->) Hmin]; [by intros ?? ?%elem_of_nil|].
    split_and!; [done| |done|eauto]. rewrite <- bounds_panes by done.
    apply list_elem_of_fmap. by exists (p, r).
  - split; [done|]. apply Hb. by intros ?? ?%elem_of_nil.
Qed.

Lemma navigate_directional_nearest_witness :
  exists fr, (3%Z, fr) ∈ pane_bounds demo /\ fst (navigate_directional Up demo) = Some 2%Z /\
    fst (navigate_directional Left demo) = Some 1%Z /\
    fst (navigate_directional Right demo) = None.
Proof.
  destruct (navigate_directional_nearest Up demo 3 demo_wf ltac:(done)) as (fr & H & _).
  exists fr. split; [exact H|]. by vm_compute.
Defined.

(** The rectangles computed for the panes are those of the layout, one per
    pane in the order of the panes, and [equalize] and [equalize_chain] change
    ratios only: every ratio becomes one half, respectively the splits of the
    right spine get 1/n, 1/(n-1), ... *)
Theorem geometry_refines t l :
  wf t -> layout_of t = Some l ->
  pane_bounds t = lay_bounds l full_rect /\ (pane_bounds t).*1 = panes t /\
  layout_of (equalize t) = Some (lay_halve l) /\ panes (equalize t) = panes t /\
  layout_of (equalize_chain t) = Some (lay_chain (length (panes t)) l) /\
  panes (equalize_chain t) = panes t.
Proof.
  intros Hwf Hl. destruct (ratio_ops_spec t l Hwf Hl) as [[Hw1 H1] [Hw2 H2]].
  rewrite (layout_panes _ _ Hw1 H1), (layout_panes _ _ Hw2 H2), H1, H2.
  unfold lay_equalize_chain. rewrite lay_halve_panes, lay_chain_panes, bounds_panes by done.
  rewrite (layout_panes _ _ Hwf Hl). split_and!; try done.
  destruct Hwf as [(Hr & _)|(lt & f & Hrep & _)]; [by rewrite (proj2 (wf_empty t Hr)) in Hl|].
  rewrite (rep_layout _ _ Hrep) in Hl. simplify_eq. apply (rep_bounds _ _ Hrep).
Qed.

Lemma geometry_refines_witness :
  layout_of (equalize_chain demo) =
    Some (Div Horizontal (f64_lit 1 3) (Pane 1) (Div Vertical f64_half (Pane 2) (Pane 3))).
Proof.
  destruct (geometry_refines demo
    (Div Horizontal f64_half (Pane 1) (Div Vertical f64_half (Pane 2) (Pane 3))) demo_wf)
    as (_ & _ & _ & _ & -> & _); by vm_compute.
Defined.

(** ** Merging *)

Definition left_tree : SplitTree := snd (split 1 2 Horizontal (new_with_pane 1)).
Definition right_tree : SplitTree := snd (split 5 6 Vertical (new_with_pane 5)).

Lemma small_tree_wf p q o : p <> q -> wf (snd (split p q o (new_with_pane p))).
Proof.
  intros Hne. apply (split_with_wf false); [apply wf_new_with_pane| |done].
  change (q ∉ [p]). set_solver.
Qed.

Lemma enumerates_decide ks m :
  bool_decide (NoDup ks) = true -> bool_decide (list_to_set ks = dom m) = true ->
  enumerates ks m.
Proof.
  intros Hnd%bool_decide_eq_true Hd%bool_decide_eq_true. split; [done|].
  intros k. rewrite <- elem_of_dom, <- Hd. by rewrite elem_of_list_to_set.
Qed.

(** For every iteration order of the two hash maps, merging two trees over
    disjoint panes gives one division of the two layouts with the given
    orientation and ratio, its panes in order, focused on the first one. *)
Theorem merge_any_order ks1 ks2 a b o r la lb :
  wf a -> wf b -> layout_of a = Some la -> layout_of b = Some lb ->
  enumerates ks1 (nodes a) -> enumerates ks2 (nodes b) ->
  (forall p, p ∈ panes a -> p ∉ panes b) ->
  (next_id a `max` next_id b + Z.of_nat (length ks1 + length ks2) + 1 <= u32_max)%Z ->
  let t := merge ks1 ks2 a b o r in
  wf t /\ layout_of t = Some (Div o r la lb) /\
  panes t = panes a ++ panes b /\ focused t = head (panes a).
Proof.
  intros Ha Hb Hla Hlb He1 He2 Hd Hroom t.
  destruct (merge_spec ks1 ks2 a b o r) as (Hwf & (la' & lb' & E1 & E2 & E) & Hp & Hf & _); try done.
  - intros Hr. by rewrite (proj2 (wf_empty a Hr)) in Hla.
  - intros Hr. by rewrite (proj2 (wf_empty b Hr)) in Hlb.
  - rewrite Hla in E1. rewrite Hlb in E2. by simplify_eq.
Qed.

Lemma merge_any_order_witness :
  panes (merge [2; 0; 1]%Z [1; 2; 0]%Z left_tree right_tree Vertical f64_half) = [1; 2; 5; 6]%Z.
Proof.
  destruct (merge_any_order [2; 0; 1]%Z [1; 2; 0]%Z left_tree right_tree Vertical f64_half
    (Div Horizontal f64_half (Pane 1) (Pane 2)) (Div Vertical f64_half (Pane 5) (Pane 6)))
    as (_ & _ & -> & _); try (by vm_compute).
  - by apply small_tree_wf.
  - by apply small_tree_wf.
  - by apply enumerates_decide; vm_compute.
  - by apply enumerates_decide; vm_compute.
  - change (forall p, p ∈ [1; 2]%Z -> p ∉ [5; 6]%Z). set_solver.
Defined.

(** A merge gives every node a new identifier, so an identifier taken from
    one of the two trees before the merge names no node of the result: a ratio
    update through it is silently lost. *)
Theorem merge_stale_ids ks1 ks2 a b o r n v :
  wf a -> wf b -> root a <> None -> root b <> None ->
  enumerates ks1 (nodes a) -> enumerates ks2 (nodes b) ->
  (forall p, p ∈ panes a -> p ∉ panes b) ->
  (next_id a `max` next_id b + Z.of_nat (length ks1 + length ks2) + 1 <= u32_max)%Z ->
  is_Some (nodes a !! n) \/ is_Some (nodes b !! n) ->
  let t := merge ks1 ks2 a b o r in
  nodes t !! n = None /\ set_ratio n v t = t.
Proof.
  intros Ha Hb Hra Hrb He1 He2 Hd Hroom Hn t.
  destruct (merge_spec ks1 ks2 a b o r) as (_ & _ & _ & _ & Hids); try done. fold t in Hids.
  assert (n < next_id a `max` next_id b)%Z as Hlt.
  { destruct Hn as [[x Hx]|[x Hx]]; [destruct Ha as [(? & _)|(la & f & Hrep & _)]|
      destruct Hb as [(? & _)|(la & f & Hrep & _)]]; try done;
      pose proof (rep_bound _ _ Hrep _ _ Hx); lia. }
  assert (nodes t !! n = None) as E.
  { destruct (nodes t !! n) eqn:E; [|done]. apply Hids in E. lia. }
  split; [done|]. unfold set_ratio. by rewrite E.
Qed.

Lemma merge_stale_ids_witness :
  set_ratio 2 (f64_lit 3 4) (merge [0; 1; 2]%Z [0; 1; 2]%Z left_tree right_tree Vertical f64_half) =
  merge [0; 1; 2]%Z [0; 1; 2]%Z left_tree right_tree Vertical f64_half.
Proof.
  apply (merge_stale_ids [0; 1; 2]%Z [0; 1; 2]%Z left_tree right_tree Vertical f64_half 2
    (f64_lit 3 4)); try (by vm_compute).
  - by apply small_tree_wf.
  - by apply small_tree_wf.
  - by apply enumerates_decide; vm_compute.
  - by apply enumerates_decide; vm_compute.
  - change (forall p, p ∈ [1; 2]%Z -> p ∉ [5; 6]%Z). set_solver.
  - left. by eexists.
Defined.
