(* ===== verification/RustStr.v ===== *)
(** * The string functions of the Rust standard library that limux uses

    A [str]/[String] is its sequence of UTF-8 bytes, as a [string] of 8-bit
    characters; [len] is therefore [String.length].  White space is Unicode's
    White_Space property, recognised on the byte sequence. *)

From Stdlib Require Import Ascii.
From stdpp Require Import pretty.
From S2P Require Import Prelude.
Open Scope string_scope.
Open Scope list_scope.
#[global] Arguments String.append : simpl nomatch.

Definition byte_eqb (a b : ascii) : bool := Ascii.eqb a b.
Definition ch (n : N) : ascii := ascii_of_N n.
Definition nl : ascii := ch 10.

(** ** White space *)

Definition is_ascii_ws (c : ascii) : bool :=
  let n := N_of_ascii c in bool_decide (n = 32 \/ (9 <= n <= 13))%N.

(** The rest of the string after one leading white-space character: the six
    ASCII ones, U+0085, U+00A0, U+1680, U+2000-U+200A, U+2028, U+2029, U+202F,
    U+205F and U+3000. *)
Definition ws_prefix (s : string) : option string :=
  match s with
  | "" => None
  | String a r =>
      if is_ascii_ws a then Some r
      else match N_of_ascii a, r with
           | 194%N, String b r =>
               if bool_decide (N_of_ascii b = 133 \/ N_of_ascii b = 160)%N then Some r else None
           | 225%N, String b (String c r) =>
               if bool_decide (N_of_ascii b = 154 /\ N_of_ascii c = 128)%N then Some r else None
           | 226%N, String b (String c r) =>
               let n := N_of_ascii c in
               if bool_decide ((N_of_ascii b = 128 /\ (128 <= n <= 138 \/ n = 168 \/ n = 169 \/ n = 175))
                               \/ (N_of_ascii b = 129 /\ n = 159))%N
               then Some r else None
           | 227%N, String b (String c r) =>
               if bool_decide (N_of_ascii b = 128 /\ N_of_ascii c = 128)%N then Some r else None
           | _, _ => None
           end
  end.

Fixpoint trim_start_fuel (fuel : nat) (s : string) : string :=
  match fuel with
  | O => s
  | S fuel => match ws_prefix s with Some r => trim_start_fuel fuel r | None => s end
  end.

(** [str::trim_start]: each step removes at least one byte. *)
Definition trim_start (s : string) : string := trim_start_fuel (String.length s) s.

Definition all_ws (s : string) : bool :=
  match trim_start s with "" => true | _ => false end.

(** [str::trim_end]: cut where everything that follows is white space.  A
    continuation byte never starts a white-space character, so the cut is at a
    character boundary. *)
Fixpoint trim_end (s : string) : string :=
  match s with
  | "" => ""
  | String c r => if all_ws s then "" else String c (trim_end r)
  end.

Definition trim (s : string) : string := trim_end (trim_start s).

(** [str::split_whitespace]: maximal runs without white space. *)
Fixpoint split_ws_fuel (fuel : nat) (s : string) (cur : string) : list string :=
  let flush := match cur with "" => [] | _ => [cur] end in
  match fuel with
  | O => flush
  | S fuel =>
      match ws_prefix s with
      | Some r => flush ++ split_ws_fuel fuel r ""
      | None => match s with
                | "" => flush
                | String c r => split_ws_fuel fuel r (cur +:+ String c "")
                end
      end
  end.

Definition split_whitespace (s : string) : list string :=
  split_ws_fuel (S (String.length s)) s "".

(** ** Prefixes, splitting, joining *)

Fixpoint strip_prefix (p s : string) : option string :=
  match p, s with
  | "", _ => Some s
  | String a p, String b s => if byte_eqb a b then strip_prefix p s else None
  | String _ _, "" => None
  end.

Definition starts_with (p s : string) : bool := bool_decide (is_Some (strip_prefix p s)).

(** [str::split_once] at an ASCII character. *)
Fixpoint split_once (c : ascii) (s : string) : option (string * string) :=
  match s with
  | "" => None
  | String a r =>
      if byte_eqb a c then Some ("", r)
      else '(x, y) ← split_once c r; Some (String a x, y)
  end.

(** [str::split] at an ASCII character: never empty. *)
Fixpoint split_char (c : ascii) (s : string) : list string :=
  match s with
  | "" => [""]
  | String a r =>
      if byte_eqb a c then "" :: split_char c r
      else match split_char c r with
           | x :: xs => String a x :: xs
           | [] => [String a ""]
           end
  end.

(** [splitn(2, c)]: the part before the separator and, if there is one, the rest. *)
Definition splitn2 (c : ascii) (s : string) : string * option string :=
  match split_once c s with Some (x, y) => (x, Some y) | None => (s, None) end.

Fixpoint join (sep : string) (l : list string) : string :=
  match l with
  | [] => ""
  | [x] => x
  | x :: l => x +:+ sep +:+ join sep l
  end.

Fixpoint has_byte (c : ascii) (s : string) : bool :=
  match s with "" => false | String a r => byte_eqb a c || has_byte c r end.

(** ** Lines *)

(** [str::lines] splits at line feeds, drops one carriage return before each and
    an empty last piece. *)
Fixpoint strip_cr (s : string) : string :=
  match s with
  | "" => ""
  | String c "" => if byte_eqb c (ascii_of_nat 13) then "" else s
  | String c r => String c (strip_cr r)
  end.
Fixpoint lines_of (l : list string) : list string :=
  match l with
  | [] => []
  | [x] => match x with "" => [] | _ => [x] end
  | x :: l => strip_cr x :: lines_of l
  end.
Definition str_lines (s : string) : list string := lines_of (split_char nl s).

(** ** Numbers *)

Definition digit_val (c : ascii) : option Z :=
  let n := N_of_ascii c in
  if bool_decide (48 <= n <= 57)%N then Some (Z.of_N n - 48)%Z else None.

Fixpoint parse_digits (acc : Z) (s : string) : option Z :=
  match s with
  | "" => Some acc
  | String c r => d ← digit_val c; parse_digits (acc * 10 + d)%Z r
  end.

(** [str::parse] for an unsigned type of maximum [max]: an optional plus sign,
    at least one digit, an error on overflow. *)
Definition parse_uint (max : Z) (s : string) : option Z :=
  let body := match s with
              | String c r => if byte_eqb c "+" then r else s
              | "" => ""
              end in
  match body with
  | "" => None
  | _ => n ← parse_digits 0 body; if bool_decide (n <= max)%Z then Some n else None
  end.

Definition parse_u32 : string -> option Z := parse_uint u32_max.
Definition parse_u16 : string -> option Z := parse_uint u16_max.

(** [str::parse::<i32>()]. *)
Definition parse_i32 (s : string) : option Z :=
  match s with
  | String c r =>
      if byte_eqb c "-" then
        match r with
        | "" => None
        | _ => n ← parse_digits 0 r; if bool_decide (n <= 2147483648)%Z then Some (- n)%Z else None
        end
      else parse_uint 2147483647 s
  | "" => None
  end.

(** [to_string] of an unsigned integer. *)
Definition show_uint (n : Z) : string := pretty (Z.to_N n).

Definition hex_val (c : ascii) : option Z :=
  let n := Z.of_N (N_of_ascii c) in
  if bool_decide (48 <= n <= 57)%Z then Some (n - 48)%Z
  else if bool_decide (97 <= n <= 102)%Z then Some (n - 87)%Z
  else if bool_decide (65 <= n <= 70)%Z then Some (n - 55)%Z
  else None.

Fixpoint hex_digits (acc : Z) (s : string) : option Z :=
  match s with "" => Some acc | String c r => d ← hex_val c; hex_digits (acc * 16 + d)%Z r end.

(** [from_str_radix(s, 16)] of an unsigned type of maximum [max]. *)
Definition parse_hex (max : Z) (s : string) : option Z :=
  let body := match s with String c r => if byte_eqb c "+" then r else s | "" => "" end in
  match body with
  | "" => None
  | _ => n ← hex_digits 0 body; if bool_decide (n <= max)%Z then Some n else None
  end.

(** [str::replace] of an ASCII character by a string. *)
Fixpoint replace_char (c : ascii) (by_ : string) (s : string) : string :=
  match s with
  | "" => ""
  | String a r =>
      if byte_eqb a c then by_ +:+ replace_char c by_ r else String a (replace_char c by_ r)
  end.

(** [str::as_bytes()\[i\]]. *)
Definition byte_at (i : nat) (s : string) : option ascii := String.get i s.

(** ** Hexadecimal *)

Definition hex_digit (n : N) : ascii :=
  if bool_decide (n < 10)%N then ascii_of_N (48 + n) else ascii_of_N (87 + n).

(** [format!(x:02x)] of one byte. *)
Definition hex_byte (b : ascii) : string :=
  let n := N_of_ascii b in
  String (hex_digit (n / 16)) (String (hex_digit (n mod 16)) "").

Fixpoint hex_of_bytes (s : string) : string :=
  match s with
  | "" => ""
  | String b r => hex_byte b +:+ hex_of_bytes r
  end.

(** ** Lower case

    [to_lowercase] as far as a comparison with an ASCII literal can see it: the
    ASCII letters, and U+212A (Kelvin sign), the only other character whose
    lower case is a single ASCII letter.  Other non-ASCII characters stay
    non-ASCII. *)
Definition lower_byte (c : ascii) : ascii :=
  let n := N_of_ascii c in
  if bool_decide (65 <= n <= 90)%N then ascii_of_N (n + 32) else c.

Fixpoint to_lowercase (s : string) : string :=
  match s with
  | "" => ""
  | String a ((String b (String c r)) as t) =>
      if bool_decide (N_of_ascii a = 226 /\ N_of_ascii b = 132 /\ N_of_ascii c = 170)%N
      then String "k" (to_lowercase r)
      else String (lower_byte a) (to_lowercase t)
  | String a t => String (lower_byte a) (to_lowercase t)
  end.

(** ** UTF-8

    The validity table of [str::from_utf8]: how the sequence that starts [s] is
    decoded, as [(true, n)] for a character of [n] bytes and [(false, n)] for a
    maximal invalid part of [n] bytes. *)
Definition in_range (lo hi : N) (c : ascii) : bool :=
  bool_decide (lo <= N_of_ascii c <= hi)%N.
Definition cont : ascii -> bool := in_range 128 191.

(** A lead byte, the test on its second byte and the number of bytes of the
    character. *)
Definition utf8_lead (a : ascii) : option ((ascii -> bool) * nat) :=
  if in_range 194 223 a then Some (cont, 2)
  else if in_range 224 224 a then Some (in_range 160 191, 3)
  else if in_range 237 237 a then Some (in_range 128 159, 3)
  else if in_range 225 239 a then Some (cont, 3)
  else if in_range 240 240 a then Some (in_range 144 191, 4)
  else if in_range 241 243 a then Some (cont, 4)
  else if in_range 244 244 a then Some (in_range 128 143, 4)
  else None.

(** The number of leading continuation bytes, at most [n]. *)
Fixpoint conts (n : nat) (s : string) : nat :=
  match n, s with
  | S n, String c r => if cont c then S (conts n r) else 0
  | _, _ => 0
  end.

Definition utf8_step (a : ascii) (r : string) : bool * nat :=
  if in_range 0 127 a then (true, 1)
  else match utf8_lead a, r with
       | Some (second, n), String b r =>
           if second b then
             let k := conts (n - 2) r in (bool_decide (k = n - 2), 2 + k)
           else (false, 1)
       | _, _ => (false, 1)
       end.

Definition take_bytes (n : nat) (s : string) : string := String.substring 0 n s.
Fixpoint drop_bytes (n : nat) (s : string) : string :=
  match n, s with S n, String _ r => drop_bytes n r | _, _ => s end.

(** U+FFFD. *)
Definition replacement : string := String (ch 239) (String (ch 191) (String (ch 189) "")).

(** [String::from_utf8_lossy]: each maximal invalid part becomes U+FFFD. *)
Fixpoint lossy_fuel (fuel : nat) (s : string) : string :=
  match fuel, s with
  | S fuel, String a r =>
      let '(ok, n) := utf8_step a r in
      (if ok then take_bytes n s else replacement) +:+ lossy_fuel fuel (drop_bytes n s)
  | _, _ => ""
  end.
Definition from_utf8_lossy (s : string) : string := lossy_fuel (String.length s) s.

Fixpoint valid_utf8_fuel (fuel : nat) (s : string) : bool :=
  match fuel, s with
  | _, "" => true
  | S fuel, String a r =>
      let '(ok, n) := utf8_step a r in ok && valid_utf8_fuel fuel (drop_bytes n s)
  | O, _ => false
  end.
Definition valid_utf8 (s : string) : bool := valid_utf8_fuel (String.length s) s.

(** ** Lemmas *)

Lemma byte_eqb_eq a b : byte_eqb a b = true <-> a = b.
Proof. apply Ascii.eqb_eq. Qed.
Lemma byte_eqb_refl a : byte_eqb a a = true.
Proof. by apply byte_eqb_eq. Qed.

Lemma strip_prefix_app p s : strip_prefix p (p +:+ s) = Some s.
Proof. induction p as [|c p IH]; simpl; [done|]. by rewrite byte_eqb_refl. Qed.

Lemma strip_prefix_Some p s r : strip_prefix p s = Some r -> s = p +:+ r.
Proof.
  revert s. induction p as [|a p IH]; intros s H; simpl in *; [by simplify_eq|].
  destruct s as [|b s]; [done|]. destruct (byte_eqb a b) eqn:E; [|done].
  apply byte_eqb_eq in E as ->. change (String b s = String b (p +:+ r)). f_equal. auto.
Qed.

Lemma str_app_assoc (a b c : string) : (a +:+ b) +:+ c = a +:+ (b +:+ c).
Proof. induction a as [|x a IH]; simpl; [done|]. by f_equal. Qed.
Lemma str_app_nil_r (a : string) : a +:+ "" = a.
Proof. induction a as [|x a IH]; simpl; [done|]. by f_equal. Qed.
Lemma has_byte_app c a b : has_byte c (a +:+ b) = has_byte c a || has_byte c b.
Proof. induction a as [|x a IH]; simpl; [done|]. by rewrite IH, orb_assoc. Qed.

Lemma split_once_app c a b : has_byte c a = false -> split_once c (a +:+ String c b) = Some (a, b).
Proof.
  induction a as [|x a IH]; simpl; intros H; [by rewrite byte_eqb_refl|].
  apply orb_false_iff in H as [-> H]. by rewrite IH.
Qed.

Lemma split_once_None c a : has_byte c a = false -> split_once c a = None.
Proof.
  induction a as [|x a IH]; simpl; intros H; [done|].
  apply orb_false_iff in H as [-> H]. by rewrite IH.
Qed.

Lemma split_once_Some c s a b :
  split_once c s = Some (a, b) -> s = a +:+ String c b /\ has_byte c a = false.
Proof.
  revert a. induction s as [|x s IH]; simpl; intros a H; [done|].
  destruct (byte_eqb x c) eqn:E.
  - simplify_eq. apply byte_eqb_eq in E as ->. done.
  - destruct (split_once c s) as [[u v]|]; simpl in *; [|done]. simplify_eq.
    destruct (IH u) as [-> Hu]; [done|]. simpl. by rewrite E, Hu.
Qed.

Lemma split_char_none c a : has_byte c a = false -> split_char c a = [a].
Proof.
  induction a as [|x a IH]; simpl; intros H; [done|].
  apply orb_false_iff in H as [-> H]. by rewrite IH.
Qed.

Lemma split_char_app c a b :
  has_byte c a = false -> split_char c (a +:+ String c b) = a :: split_char c b.
Proof.
  induction a as [|x a IH]; simpl; intros H; [by rewrite byte_eqb_refl|].
  apply orb_false_iff in H as [-> H]. by rewrite IH.
Qed.

(** Joining with a separator is undone by splitting at it. *)
Lemma split_char_join c (l : list string) :
  l <> [] -> Forall (fun s => has_byte c s = false) l -> split_char c (join (String c "") l) = l.
Proof.
  intros Hne Hl. induction Hl as [|x l Hx Hl IH]; [done|].
  destruct l as [|y l]; [by apply split_char_none|].
  change (join (String c "") (x :: y :: l)) with (x +:+ String c (join (String c "") (y :: l))).
  rewrite split_char_app by done. f_equal. by apply IH.
Qed.

(** ** Printing and parsing integers *)

Lemma digit_val_pretty (d : N) : (d < 10)%N -> digit_val (pretty_N_char d) = Some (Z.of_N d).
Proof.
  intros H. destruct d as [|p]; [done|].
  do 4 (destruct p as [p|p|]; try done; try lia).
Qed.

Lemma parse_digits_go (x : N) : forall s,
  parse_digits 0 (pretty_N_go x s) = parse_digits (Z.of_N x) s.
Proof.
  induction (N.lt_wf_0 x) as [x _ IH]. intros s.
  destruct (decide (x = 0)%N) as [->|Hx]; [by rewrite pretty_N_go_0|].
  rewrite pretty_N_go_step by lia.
  rewrite IH by (apply N.div_lt; lia). simpl.
  rewrite digit_val_pretty by (apply N.mod_lt; lia). simpl. f_equal.
  pose proof (N.div_mod x 10). lia.
Qed.

Lemma pretty_N_go_cons (x : N) (s : string) : s <> "" -> pretty_N_go x s <> "".
Proof.
  revert s. induction (N.lt_wf_0 x) as [x _ IH]. intros s Hs.
  destruct (decide (x = 0)%N) as [->|Hx]; [by rewrite pretty_N_go_0|].
  rewrite pretty_N_go_step by lia. apply IH; [apply N.div_lt; lia|done].
Qed.

Lemma show_uint_digits n : parse_digits 0 (show_uint n) = Some (Z.of_N (Z.to_N n)).
Proof.
  unfold show_uint, pretty, pretty_N. case_decide as H; [by rewrite H|].
  by rewrite parse_digits_go.
Qed.

Lemma show_uint_nonempty n : show_uint n <> "".
Proof.
  unfold show_uint, pretty, pretty_N. case_decide; [done|].
  rewrite pretty_N_go_step by lia. by apply pretty_N_go_cons.
Qed.

Lemma parse_digits_no_byte c s a z :
  digit_val c = None -> parse_digits a s = Some z -> has_byte c s = false.
Proof.
  intros Hc. revert a. induction s as [|x s IH]; intros a H; simpl in *; [done|].
  destruct (digit_val x) eqn:Ex; simpl in *; [|done]. rewrite (IH _ H), orb_false_r.
  destruct (byte_eqb x c) eqn:E; [|done]. apply byte_eqb_eq in E as ->. congruence.
Qed.

Lemma show_uint_no_byte c n : digit_val c = None -> has_byte c (show_uint n) = false.
Proof. intros Hc. eapply parse_digits_no_byte; [done|apply show_uint_digits]. Qed.

(** [n.to_string().parse() == Ok(n)] for every value of the type. *)
Lemma parse_show_uint max n : (0 <= n <= max)%Z -> parse_uint max (show_uint n) = Some n.
Proof.
  intros H. pose proof (show_uint_digits n) as Hd. pose proof (show_uint_nonempty n) as Hne.
  pose proof (show_uint_no_byte "+" n eq_refl) as Hp.
  rewrite Z2N.id in Hd by lia. unfold parse_uint.
  destruct (show_uint n) as [|c r]; [done|]. simpl in Hp. apply orb_false_iff in Hp as [-> _].
  rewrite Hd. simpl. by rewrite bool_decide_true by lia.
Qed.

Lemma parse_uint_range max s n : parse_uint max s = Some n -> (n <= max)%Z.
Proof.
  unfold parse_uint. intros H. destruct (match s with "" => _ | String _ _ => _ end); [done|].
  apply bind_Some in H as (m & _ & H). case_bool_decide; naive_solver.
Qed.

(** ** Trimming *)

(** Visible ASCII: no byte of a white-space character. *)
Definition graphic (c : ascii) : Prop := (33 <= N_of_ascii c <= 126)%N.

Lemma ws_prefix_spec s r :
  ws_prefix s = Some r ->
  (exists a, s = String a r /\ is_ascii_ws a = true) \/
  (exists p, s = p +:+ r /\ 2 <= String.length p /\
     (forall c, (N_of_ascii c < 128)%N -> has_byte c p = false) /\
     forall r', ws_prefix (p +:+ r') = Some r').
Proof.
  assert (forall a c, (128 <= N_of_ascii a)%N -> (N_of_ascii c < 128)%N -> byte_eqb a c = false) as Hne.
  { intros a c Ha Hc. destruct (byte_eqb a c) eqn:E; [|done]. apply byte_eqb_eq in E as ->. lia. }
  destruct s as [|a s]; [done|]. unfold ws_prefix. destruct (is_ascii_ws a) eqn:Ha.
  { intros [= ->]. left. eauto. }
  intros H. right. destruct (N_of_ascii a) as [|p] eqn:Ea; [done|].
  do 8 (destruct p as [p|p|]; try done); destruct s as [|b s]; try done;
    try (destruct s as [|c s]; [done|]); case_bool_decide as Hb; try done; simplify_eq.
  all: first [exists (String a (String b (String c ""))); (split_and!; [done|simpl; lia|..]);
              [intros x Hx; simpl; rewrite !Hne by lia; done
              |intros r'; unfold ws_prefix; simpl; rewrite Ha, Ea; by rewrite bool_decide_true by done]
             |exists (String a (String b "")); (split_and!; [done|simpl; lia|..]);
              [intros x Hx; simpl; rewrite !Hne by lia; done
              |intros r'; unfold ws_prefix; simpl; rewrite Ha, Ea; by rewrite bool_decide_true by done]].
Qed.

Lemma str_length_app a b : String.length (a +:+ b) = String.length a + String.length b.
Proof. induction a as [|c a IH]; simpl; [done|]. by rewrite IH. Qed.

Lemma ws_prefix_length s r : ws_prefix s = Some r -> String.length r < String.length s.
Proof.
  intros [(a & -> & _)|(p & -> & Hp & _)]%ws_prefix_spec; simpl; [lia|]. rewrite str_length_app. lia.
Qed.

Lemma trim_start_enough f1 : forall f2 s,
  String.length s <= f1 -> String.length s <= f2 -> trim_start_fuel f1 s = trim_start_fuel f2 s.
Proof.
  induction f1 as [|f1 IH]; intros f2 s H1 H2.
  - destruct s; simpl in H1; [|lia]. by destruct f2.
  - destruct f2 as [|f2]; simpl.
    + destruct s; simpl in H2; [done|lia].
    + destruct (ws_prefix s) eqn:E; [|done]. apply ws_prefix_length in E. apply IH; lia.
Qed.

Lemma trim_start_eq s :
  trim_start s = match ws_prefix s with Some r => trim_start r | None => s end.
Proof.
  unfold trim_start. destruct s as [|a s]; [done|].
  change (String.length (String a s)) with (S (String.length s)). cbn [trim_start_fuel].
  destruct (ws_prefix (String a s)) eqn:E; [|done]. apply ws_prefix_length in E. simpl in E.
  apply trim_start_enough; lia.
Qed.

Lemma ws_prefix_graphic c s : graphic c -> ws_prefix (String c s) = None.
Proof.
  intros Hc. destruct (ws_prefix (String c s)) as [r|] eqn:E; [|done]. exfalso.
  apply ws_prefix_spec in E as [(a & [= <- <-] & Ha)|(p & Hp & Hl & Hn & _)].
  - unfold is_ascii_ws, graphic in *. apply bool_decide_eq_true in Ha. lia.
  - destruct p as [|a p]; simpl in *; [lia|]. injection Hp as <- _.
    assert ((N_of_ascii c < 128)%N) as Hlt by (unfold graphic in Hc; lia).
    specialize (Hn c Hlt). by rewrite byte_eqb_refl in Hn.
Qed.

(** What starts with a visible character is not trimmed at the start. *)
Lemma trim_start_graphic c s : graphic c -> trim_start (String c s) = String c s.
Proof. intros H. by rewrite trim_start_eq, ws_prefix_graphic. Qed.

Lemma prefix_before c p r q n :
  p +:+ r = q +:+ String c n -> has_byte c p = false ->
  exists q', q = p +:+ q' /\ r = q' +:+ String c n.
Proof.
  revert q. induction p as [|a p IH]; intros q H Hp; simpl in *; [eauto|].
  apply orb_false_iff in Hp as [Ha Hp]. destruct q as [|b q]; simpl in H; injection H as -> H.
  - by rewrite byte_eqb_refl in Ha.
  - destruct (IH _ H Hp) as (q' & -> & ->). eauto.
Qed.

(** A text that is white space only is so after each of its ASCII characters. *)
Lemma all_ws_after k : forall q c n, String.length q < k -> (N_of_ascii c < 128)%N ->
  all_ws (q +:+ String c n) = true -> is_ascii_ws c = true /\ all_ws n = true.
Proof.
  induction k as [|k IH]; intros q c n Hk Hc H; [lia|]. unfold all_ws in H.
  rewrite trim_start_eq in H. destruct (ws_prefix (q +:+ String c n)) as [r|] eqn:E.
  - apply ws_prefix_spec in E as [(a & Hq & Ha)|(p & Hq & Hl & Hp & _)].
    + destruct q as [|b q]; simpl in Hq; injection Hq as Hq1 Hq2; subst; [done|]. simpl in Hk.
      apply (IH q); [lia|done|done].
    + symmetry in Hq. apply prefix_before in Hq as (q' & -> & ->); [|by apply Hp].
      rewrite str_length_app in Hk. apply (IH q'); [lia|done|done].
  - by destruct q.
Qed.

Lemma trim_end_last s c : graphic c -> trim_end (s +:+ String c "") = s +:+ String c "".
Proof.
  intros Hc.
  assert (forall q, all_ws (q +:+ String c "") = false) as Hw.
  { intros q. destruct (all_ws _) eqn:E; [|done].
    apply (all_ws_after (S (String.length q))) in E as [E _]; [|lia|unfold graphic in Hc; lia].
    unfold is_ascii_ws, graphic in *. apply bool_decide_eq_true in E. lia. }
  induction s as [|a s IH].
  - pose proof (Hw "") as H. cbn [String.append trim_end] in *. by rewrite H.
  - pose proof (Hw (String a s)) as H. cbn [String.append trim_end] in *. by rewrite H, IH.
Qed.

(** Words of visible characters: not trimmed, and what splitting at white space
    finds. *)
Fixpoint word (s : string) : bool :=
  match s with
  | "" => true
  | String c r => bool_decide (33 <= N_of_ascii c <= 126)%N && word r
  end.

Lemma word_cons c r : word (String c r) = true <-> graphic c /\ word r = true.
Proof. cbn [word]. by rewrite andb_true_iff, bool_decide_eq_true. Qed.

Lemma word_app a b : word (a +:+ b) = word a && word b.
Proof. induction a as [|c a IH]; [done|]. cbn [String.append word]. by rewrite IH, andb_assoc. Qed.

Lemma string_last s : s = "" \/ exists p c, s = p +:+ String c "".
Proof.
  induction s as [|a s IH]; [by left|right]. destruct IH as [->|(p & c & ->)].
  - by exists "", a.
  - by exists (String a p), c.
Qed.

Lemma trim_word s : word s = true -> trim s = s.
Proof.
  intros H. destruct s as [|a r]; [done|]. unfold trim. rewrite trim_start_graphic by (by apply word_cons in H as [? _]).
  destruct (string_last (String a r)) as [|(p & c & E)]; [done|]. rewrite E in H |- *.
  apply trim_end_last. rewrite word_app in H. apply andb_prop in H as [_ H]. by apply word_cons in H as [? _].
Qed.

Lemma word_uint n : word (show_uint n) = true.
Proof.
  pose proof (show_uint_digits n) as H. revert H. generalize 0%Z. generalize (show_uint n).
  intros s. induction s as [|c s IH]; intros a H; simpl in *; [done|].
  destruct (digit_val c) as [d|] eqn:Ec; simpl in H; [|done]. rewrite (IH _ H), andb_true_r.
  apply bool_decide_eq_true. unfold digit_val in Ec. case_bool_decide; [lia|done].
Qed.

Lemma trim_show_uint n : trim (show_uint n) = show_uint n.
Proof. apply trim_word, word_uint. Qed.

Lemma split_ws_word p : forall s fuel cur,
  word p = true ->
  split_ws_fuel (String.length p + fuel) (p +:+ s) cur = split_ws_fuel fuel s (cur +:+ p).
Proof.
  induction p as [|c p IH]; intros s fuel cur H; [by rewrite str_app_nil_r|].
  apply word_cons in H as [Hc H].
  cbn [String.length Nat.add split_ws_fuel String.append].
  rewrite ws_prefix_graphic by done. rewrite (IH s fuel) by done. by rewrite str_app_assoc.
Qed.

(** A word followed by a space, and the last word. *)
Lemma split_whitespace_cons p s :
  p <> "" -> word p = true -> split_whitespace (p +:+ String " " s) = p :: split_whitespace s.
Proof.
  intros Hne Hp. unfold split_whitespace. rewrite str_length_app, <- Nat.add_succ_r.
  rewrite split_ws_word by done. cbn [String.length split_ws_fuel String.append].
  change (ws_prefix (String " " s)) with (Some s). by destruct p.
Qed.
Lemma split_whitespace_word p : p <> "" -> word p = true -> split_whitespace p = [p].
Proof.
  intros Hne Hp. unfold split_whitespace. pose proof (split_ws_word p "" 1 "" Hp) as E.
  rewrite Nat.add_comm, str_app_nil_r in E. cbn [Nat.add] in E. rewrite E. simpl. by destruct p.
Qed.

(** Trimming the end of a text does not reach beyond an ASCII character and what
    follows it, when that is itself not trimmed away. *)
Lemma trim_end_sep c q n :
  (N_of_ascii c < 128)%N -> trim_end n = n -> n <> "" -> trim_end (q +:+ String c n) = q +:+ String c n.
Proof.
  intros Hc Hn Hne.
  assert (all_ws n = false) as Hnw by (destruct n as [|a n]; [done|]; simpl in Hn; by destruct (all_ws _)).
  assert (forall q, all_ws (q +:+ String c n) = false) as Hw.
  { intros q'. destruct (all_ws (q' +:+ _)) eqn:E; [|done].
    apply (all_ws_after (S (String.length q'))) in E as [_ E]; [congruence|lia|done]. }
  induction q as [|a q IH].
  - pose proof (Hw "") as H. cbn [String.append trim_end] in *. by rewrite H, Hn.
  - pose proof (Hw (String a q)) as H. cbn [String.append trim_end] in *. by rewrite H, IH.
Qed.
Lemma trim_end_word q n :
  trim_end n = n -> n <> "" -> trim_end (q +:+ String " " n) = q +:+ String " " n.
Proof. by apply trim_end_sep. Qed.

(** *** Trimming twice *)

Fixpoint forall_bytes (f : ascii -> bool) (s : string) : bool :=
  match s with "" => true | String c r => f c && forall_bytes f r end.

(** A white-space character is an ASCII one, or a lead byte and continuations. *)
Lemma ws_prefix_bytes s r :
  ws_prefix s = Some r ->
  (exists a, s = String a r /\ is_ascii_ws a = true) \/
  (exists a t, s = String a t +:+ r /\ cont a = false /\ forall_bytes cont t = true /\
     forall r', ws_prefix (String a t +:+ r') = Some r').
Proof.
  destruct s as [|a s]; [done|]. unfold ws_prefix. destruct (is_ascii_ws a) eqn:Ha.
  { intros [= ->]. left. eauto. }
  intros H. right. destruct (N_of_ascii a) as [|p] eqn:Ea; [done|].
  do 8 (destruct p as [p|p|]; try done); destruct s as [|b s]; try done;
    try (destruct s as [|c s]; [done|]); case_bool_decide as Hb; try done; simplify_eq.
  all: first [exists a, (String b (String c ""))|exists a, (String b "")].
  all: split_and!; [done|unfold cont, in_range; apply bool_decide_eq_false; rewrite Ea; lia|..].
  all: try (intros r'; unfold ws_prefix; simpl; rewrite Ha, Ea; by rewrite bool_decide_true by done).
  all: simpl; unfold cont, in_range; rewrite ?andb_true_iff, !bool_decide_eq_true; lia.
Qed.

Lemma ws_prefix_app t r w : ws_prefix t = Some r -> ws_prefix (t +:+ w) = Some (r +:+ w).
Proof.
  intros [(a & -> & Ha)|(p & -> & _ & _ & Hr)]%ws_prefix_spec.
  - simpl. by rewrite Ha.
  - by rewrite str_app_assoc, Hr.
Qed.

Lemma all_ws_eq s :
  all_ws s = match ws_prefix s with Some r => all_ws r | None => match s with "" => true | _ => false end end.
Proof. unfold all_ws. rewrite trim_start_eq. by destruct (ws_prefix s). Qed.

Lemma all_ws_head c w : all_ws (String c w) = true -> cont c = false.
Proof.
  rewrite all_ws_eq. destruct (ws_prefix (String c w)) as [r|] eqn:E; [|done]. intros _.
  apply ws_prefix_bytes in E as [(a & [= <- _] & Ha)|(a & t & [= <- _] & Ha & _ & _)]; [|done].
  unfold is_ascii_ws in Ha. apply bool_decide_eq_true in Ha. apply bool_decide_eq_false. lia.
Qed.

Lemma app_split a b c d : a +:+ b = c +:+ d ->
  (exists t, c = a +:+ t /\ b = t +:+ d) \/ (exists t, t <> "" /\ a = c +:+ t /\ d = t +:+ b).
Proof.
  revert c. induction a as [|x a IH]; intros c H; [by left; exists c|].
  destruct c as [|y c]; [right; by exists (String x a)|]. simpl in H. injection H as -> H.
  destruct (IH _ H) as [(t & -> & ->)|(t & Ht & -> & ->)]; [left|right]; eauto.
Qed.

Lemma forall_bytes_app f a b : forall_bytes f (a +:+ b) = forall_bytes f a && forall_bytes f b.
Proof. induction a as [|c a IH]; [done|]. simpl. by rewrite IH, andb_assoc. Qed.

(** Nothing becomes a white-space character by what follows it, unless that starts
    with a continuation byte. *)
Lemma ws_prefix_app_None s c w :
  s <> "" -> ws_prefix s = None -> cont c = false -> ws_prefix (s +:+ String c w) = None.
Proof.
  intros Hne E Hcont. destruct s as [|b q]; [done|].
  destruct (ws_prefix (String b q +:+ String c w)) as [r|] eqn:E'; [|done]. exfalso.
  apply ws_prefix_bytes in E' as [(a & [= <- _] & Ha)|(a & t & Hp & _ & Hc & Hr)].
  { unfold ws_prefix in E. by rewrite Ha in E. }
  apply app_split in Hp as [(u & Hq & Hw')|(u & _ & Hq & _)]; [|by rewrite Hq, Hr in E].
  destruct u as [|d u].
  { rewrite str_app_nil_r in Hq. specialize (Hr ""). rewrite str_app_nil_r, Hq in Hr. congruence. }
  injection Hq as -> ->. injection Hw' as -> _. rewrite forall_bytes_app in Hc.
  apply andb_prop in Hc as [_ Hc]. apply andb_prop in Hc as [Hc _]. congruence.
Qed.

(** White space at the end does not change whether all is white space. *)
Lemma all_ws_app w : all_ws w = true -> forall k q, String.length q < k -> all_ws (q +:+ w) = all_ws q.
Proof.
  intros Hw. destruct w as [|c w]; [intros _ q _; by rewrite str_app_nil_r|].
  induction k as [|k IH]; intros q Hk; [lia|].
  destruct q as [|b q]; [done|]. rewrite (all_ws_eq (String b q +:+ _)), (all_ws_eq (String b q)).
  destruct (ws_prefix (String b q)) as [r|] eqn:E.
  - pose proof (ws_prefix_length _ _ E). rewrite (ws_prefix_app _ _ _ E). apply IH. simpl in *. lia.
  - rewrite ws_prefix_app_None; [done..|]. by eapply all_ws_head.
Qed.

(** A white-space character at the end is trimmed away. *)
Lemma all_ws_snoc e s : is_ascii_ws e = true -> all_ws (s +:+ String e "") = all_ws s.
Proof.
  intros He. assert (all_ws (String e "") = true) as Hw by (rewrite all_ws_eq; simpl; by rewrite He).
  by apply (all_ws_app _ Hw _ _ (Nat.lt_succ_diag_r _)).
Qed.

Lemma trim_end_snoc e s : is_ascii_ws e = true -> trim_end (s +:+ String e "") = trim_end s.
Proof.
  intros He. induction s as [|a s IH].
  - pose proof (all_ws_snoc e "" He) as H. cbn [String.append trim_end] in *. by rewrite H.
  - pose proof (all_ws_snoc e (String a s) He) as H. cbn [String.append trim_end] in *. by rewrite H, IH.
Qed.
Lemma trim_end_nl s : trim_end (s +:+ String nl "") = trim_end s.
Proof. by apply trim_end_snoc. Qed.

Lemma trim_end_split s : exists w, s = trim_end s +:+ w /\ all_ws w = true.
Proof.
  induction s as [|c s (w & IH & Hw)]; [by exists ""|]. cbn [trim_end].
  destruct (all_ws (String c s)) eqn:E; [by exists (String c s)|].
  exists w. split; [|done]. cbn [String.append]. by rewrite <- IH.
Qed.

Lemma trim_end_idem s : trim_end (trim_end s) = trim_end s.
Proof.
  induction s as [|c s IH]; [done|]. cbn [trim_end]. destruct (all_ws (String c s)) eqn:E; [done|].
  cbn [trim_end]. rewrite IH. destruct (trim_end_split s) as (w & Hs & Hw).
  assert (all_ws (String c (trim_end s)) = false) as ->; [|done].
  rewrite <- E. rewrite Hs at 2. symmetry.
  by apply (all_ws_app w Hw _ (String c (trim_end s)) (Nat.lt_succ_diag_r _)).
Qed.

Lemma ws_prefix_trim_start k : forall s, String.length s < k -> ws_prefix (trim_start s) = None.
Proof.
  induction k as [|k IH]; intros s Hk; [lia|]. rewrite trim_start_eq.
  destruct (ws_prefix s) as [r|] eqn:E; [|done]. pose proof (ws_prefix_length _ _ E). apply IH. lia.
Qed.

(** What [trim] leaves is not trimmed further, at either end. *)
Lemma trim_trimmed s : trim_start (trim s) = trim s /\ trim_end (trim s) = trim s.
Proof.
  split; [|apply trim_end_idem]. unfold trim. rewrite trim_start_eq.
  pose proof (ws_prefix_trim_start _ s (Nat.lt_succ_diag_r _)) as H.
  destruct (trim_end_split (trim_start s)) as (w & Hs & _). rewrite Hs in H.
  destruct (ws_prefix (trim_end (trim_start s))) as [r|] eqn:E; [|done].
  by rewrite (ws_prefix_app _ _ _ E) in H.
Qed.
Lemma trim_idem s : trim (trim s) = trim s.
Proof. destruct (trim_trimmed s) as [H1 H2]. unfold trim at 1. by rewrite H1, H2. Qed.

Lemma trim_snoc e s : is_ascii_ws e = true -> trim (s +:+ String e "") = trim s.
Proof.
  intros He. unfold trim. assert (forall k s, String.length s < k ->
    trim_start (s +:+ String e "") = trim_start s +:+ String e "" \/
    trim_start (s +:+ String e "") = "" /\ trim_start s = "") as H.
  { clear s. induction k as [|k IH]; intros s Hk; [lia|]. rewrite (trim_start_eq s).
    destruct (ws_prefix s) as [r|] eqn:E.
    - rewrite trim_start_eq, (ws_prefix_app _ _ _ E). apply ws_prefix_length in E. apply IH. lia.
    - destruct s as [|a s]; [right; split; [by rewrite trim_start_eq; simpl; rewrite He|done]|left].
      rewrite trim_start_eq, ws_prefix_app_None; [done..|].
      unfold cont, in_range, is_ascii_ws in *. apply bool_decide_eq_true in He. apply bool_decide_eq_false. lia. }
  destruct (H _ s (Nat.lt_succ_diag_r _)) as [->|[-> ->]]; [by apply trim_end_snoc|done].
Qed.

(** ASCII in front does not matter for validity. *)
Fixpoint ascii_only (s : string) : bool :=
  match s with
  | "" => true
  | String c r => bool_decide (N_of_ascii c < 128)%N && ascii_only r
  end.
Lemma valid_utf8_ascii_app p s : ascii_only p = true -> valid_utf8 (p +:+ s) = valid_utf8 s.
Proof.
  unfold valid_utf8. induction p as [|c p IH]; intros H; [done|].
  apply andb_prop in H as [Hc H]. apply bool_decide_eq_true in Hc.
  change (String.length (String c p +:+ s)) with (S (String.length (p +:+ s))).
  change (String c p +:+ s) with (String c (p +:+ s)). cbn [valid_utf8_fuel].
  unfold utf8_step, in_range. rewrite bool_decide_true by lia. simpl. by apply IH.
Qed.

Lemma take_bytes_app a b : take_bytes (String.length a) (a +:+ b) = a.
Proof.
  unfold take_bytes. induction a as [|c a IH]; simpl; [by destruct b|].
  change (String c (String.substring 0 (String.length a) (a +:+ b)) = String c a). by rewrite IH.
Qed.
Lemma take_drop_bytes n s : take_bytes n s +:+ drop_bytes n s = s.
Proof.
  unfold take_bytes. revert s. induction n as [|n IH]; intros [|a s]; simpl; try done.
  change (String a (String.substring 0 n s +:+ drop_bytes n s) = String a s). f_equal. apply IH.
Qed.

Lemma conts_app n s x : conts n s = n -> conts n (s +:+ x) = n /\ n <= String.length s.
Proof.
  revert s. induction n as [|n IH]; intros [|c s] H; simpl in *; try (split; [by try destruct x|lia]).
  destruct (cont c); [|done]. injection H as H. destruct (IH s H) as [-> Hl]. split; [done|lia].
Qed.

Lemma utf8_step_app a r x n :
  utf8_step a r = (true, n) -> utf8_step a (r +:+ x) = (true, n) /\ 1 <= n <= S (String.length r).
Proof.
  unfold utf8_step. destruct (in_range 0 127 a); [intros [= <-]; split; [done|lia]|].
  destruct (utf8_lead a) as [[f m]|]; [|done]. destruct r as [|b r]; [done|]. simpl.
  destruct (f b); [|done]. intros H. injection H as Hb <-. apply bool_decide_eq_true in Hb.
  rewrite Hb. destruct (conts_app (m - 2) r x Hb) as [-> Hl]. rewrite bool_decide_true by done.
  split; [done|lia].
Qed.

Lemma drop_bytes_app n s x : n <= String.length s -> drop_bytes n (s +:+ x) = drop_bytes n s +:+ x.
Proof.
  revert s. induction n as [|n IH]; intros [|c s] H; simpl in *; try done; try lia.
  apply IH. lia.
Qed.
Lemma drop_bytes_length n s : String.length (drop_bytes n s) = String.length s - n.
Proof. revert s. induction n as [|n IH]; intros [|c s]; by simpl. Qed.

Lemma valid_fuel_app f1 : forall f2 s x,
  String.length s <= f1 -> String.length s + String.length x <= f2 ->
  valid_utf8_fuel f1 s = true -> valid_utf8 x = true -> valid_utf8_fuel f2 (s +:+ x) = true.
Proof.
  assert (forall f1 f2 y, String.length y <= f1 -> String.length y <= f2 ->
            valid_utf8_fuel f1 y = valid_utf8_fuel f2 y) as Hfuel.
  { intros g1. induction g1 as [|g1 IH]; intros [|g2] [|c y] H1 H2; simpl in *; try done; try lia.
    destruct (utf8_step c y) as [ok n] eqn:E. destruct ok; [|done]. simpl.
    destruct (utf8_step_app c y "" n E) as [_ Hn].
    destruct n as [|n]; [lia|]. simpl. apply IH; rewrite drop_bytes_length; lia. }
  induction f1 as [|f1 IH]; intros f2 s x H1 H2 Hs Hx.
  - destruct s; simpl in *; [|lia]. rewrite <- Hx. apply Hfuel; lia.
  - destruct s as [|a s]; [simpl; rewrite <- Hx; apply Hfuel; simpl in H2; lia|].
    destruct f2 as [|f2]; [simpl in H2; lia|]. cbn [valid_utf8_fuel String.append] in *.
    destruct (utf8_step a s) as [ok n] eqn:E. apply andb_prop in Hs as [-> Hs].
    destruct (utf8_step_app a s x n E) as [-> Hn]. destruct n as [|n]; [lia|]. simpl in *.
    rewrite drop_bytes_app by lia. apply IH; [rewrite drop_bytes_length; lia..|done|done].
Qed.

(** Valid texts may be put together. *)
Lemma valid_utf8_app a b : valid_utf8 a = true -> valid_utf8 b = true -> valid_utf8 (a +:+ b) = true.
Proof.
  intros Ha Hb. unfold valid_utf8. eapply valid_fuel_app; [|rewrite str_length_app|exact Ha|exact Hb]; lia.
Qed.

(** A valid text cut before a line feed is valid: a line feed is no part of a longer
    character. *)
Lemma conts_cut n s x : conts n (s +:+ String nl x) = conts n s /\ conts n s <= String.length s.
Proof.
  revert s. induction n as [|n IH]; intros [|c s]; simpl; try (split; [done|lia]).
  destruct (cont c); [|split; [done|lia]]. destruct (IH s) as [-> H]. split; [done|lia].
Qed.
Lemma utf8_lead_nl a f n : utf8_lead a = Some (f, n) -> f nl = false.
Proof. unfold utf8_lead. repeat case_match; by intros [= <- <-]. Qed.
Lemma utf8_step_cut a r x n :
  utf8_step a (r +:+ String nl x) = (true, n) -> utf8_step a r = (true, n) /\ 1 <= n <= S (String.length r).
Proof.
  unfold utf8_step. destruct (in_range 0 127 a); [intros [= <-]; split; [done|lia]|].
  destruct (utf8_lead a) as [[f m]|] eqn:E; [|done]. destruct r as [|b r]; simpl.
  - by rewrite (utf8_lead_nl _ _ _ E).
  - destruct (f b); [|done]. destruct (conts_cut (m - 2) r x) as [-> Hl].
    intros H. injection H as Hb <-. rewrite Hb. split; [done|lia].
Qed.
Lemma valid_fuel_cut f : forall g a x, String.length a <= g ->
  valid_utf8_fuel f (a +:+ String nl x) = true -> valid_utf8_fuel g a = true.
Proof.
  induction f as [|f IH]; intros g [|c a] x Hg H; try (by destruct g); try done.
  destruct g as [|g]; [simpl in Hg; lia|]. cbn [valid_utf8_fuel String.append] in *.
  destruct (utf8_step c (a +:+ String nl x)) as [ok n] eqn:E. apply andb_prop in H as [-> H].
  destruct (utf8_step_cut _ _ _ _ E) as [-> Hn]. destruct n as [|n]; [lia|]. simpl in *.
  rewrite drop_bytes_app in H by lia. eapply IH; [|exact H]. rewrite drop_bytes_length. lia.
Qed.
Lemma valid_utf8_cut a x : valid_utf8 (a +:+ String nl x) = true -> valid_utf8 a = true.
Proof. intros H. by eapply valid_fuel_cut; [|exact H]. Qed.

(** The decoding of a valid string is the string itself. *)
Lemma lossy_valid fuel : forall s, valid_utf8_fuel fuel s = true -> lossy_fuel fuel s = s.
Proof.
  induction fuel as [|fuel IH]; intros [|a r] H; try done. cbn [valid_utf8_fuel lossy_fuel] in *.
  destruct (utf8_step a r) as [ok n]. apply andb_prop in H as [-> H].
  rewrite IH by done. apply take_drop_bytes.
Qed.
Lemma from_utf8_lossy_valid s : valid_utf8 s = true -> from_utf8_lossy s = s.
Proof. apply lossy_valid. Qed.

Example lossy_demo :
  from_utf8_lossy (String (ch 195) (String (ch 169) (String (ch 226) (String (ch 130) "a"))))
  = String (ch 195) (String (ch 169) (replacement +:+ "a")).
Proof. reflexivity. Qed.

#[export] Hint Rewrite strip_prefix_app str_app_assoc str_app_nil_r has_byte_app : limux.
#[export] Hint Resolve show_uint_no_byte : limux.

Example trim_demo : trim "  a b  " = "a b".
Proof. reflexivity. Qed.
Example split_ws_demo : split_whitespace " set_status  k v " = ["set_status"; "k"; "v"].
Proof. reflexivity. Qed.
