(* ===== verification/RemoteConfig.v ===== *)
(** * Remote workspace configuration (app/src/remote/config.rs, shell.rs)

    The per-workspace SSH configuration, the argument lists built from it, the
    key under which proxy tunnels are shared, and the startup command of a remote
    terminal. *)

From Stdlib Require Import Ascii.
From stdpp Require Import sorting.
From S2P Require Import Prelude RustStr.
Open Scope string_scope.
Open Scope list_scope.

Record RemoteConfiguration := mkRemoteConfiguration {
  destination : string;
  port : option Z;
  identity_file : option string;
  ssh_options : list string;
  terminal_startup_command : option string;
  relay_port : option Z;
  relay_id : option string;
  relay_token : option string;
  local_socket_path : option string;
}.

#[global] Instance RemoteConfiguration_eq_dec : EqDecision RemoteConfiguration.
Proof. solve_decision. Defined.

Definition display_target (c : RemoteConfiguration) : string :=
  match port c with
  | Some p => destination c +:+ ":" +:+ show_uint p
  | None => destination c
  end.

Definition option_matches (key o : string) : bool :=
  starts_with key o &&
  (bool_decide (String.length o = String.length key)
   || match byte_at (String.length key) o with Some b => byte_eqb b "=" | None => false end).

Definition has_ssh_option (key : string) (c : RemoteConfiguration) : bool :=
  existsb (option_matches key) (ssh_options c).

(** The arguments appended for the port, the identity file and the options. *)
Definition connection_args (c : RemoteConfiguration) : list string :=
  (match port c with Some p => ["-p"; show_uint p] | None => [] end) ++
  (match identity_file c with Some i => ["-i"; i] | None => [] end) ++
  (ssh_options c ≫= fun o => ["-o"; o]).

Definition host_key_args (c : RemoteConfiguration) : list string :=
  if has_ssh_option "StrictHostKeyChecking" c then []
  else ["-o"; "StrictHostKeyChecking=accept-new"].

Definition ssh_interactive_args (c : RemoteConfiguration) : list string :=
  ["-o"; "ServerAliveInterval=20"; "-o"; "ServerAliveCountMax=2"] ++
  host_key_args c ++ connection_args c.

Definition ssh_batch_args (c : RemoteConfiguration) : list string :=
  ["-o"; "ConnectTimeout=6"; "-o"; "ServerAliveInterval=20"; "-o"; "ServerAliveCountMax=2"] ++
  host_key_args c ++ ["-o"; "BatchMode=yes"; "-o"; "ControlMaster=no"] ++ connection_args c.

Definition ssh_command (c : RemoteConfiguration) : string :=
  match terminal_startup_command c with
  | Some cmd => cmd
  | None => join " " (["ssh"] ++ ssh_interactive_args c ++ [destination c])
  end.

Inductive RemoteConnectionState := Disconnected | Connecting | Connected | Error.
#[global] Instance RemoteConnectionState_eq_dec : EqDecision RemoteConnectionState.
Proof. solve_decision. Defined.

Definition RemoteConnectionState_as_str (s : RemoteConnectionState) : string :=
  match s with
  | Disconnected => "disconnected"
  | Connecting => "connecting"
  | Connected => "connected"
  | Error => "error"
  end.

Inductive RemoteDaemonState := Unavailable | Bootstrapping | Ready | DaemonError.
#[global] Instance RemoteDaemonState_eq_dec : EqDecision RemoteDaemonState.
Proof. solve_decision. Defined.

(** Hex of [n] bytes of the random source; zeros when it cannot be opened. *)
Definition random_hex (urandom : nat -> option string) (n : nat) : string :=
  hex_of_bytes (match urandom n with
                | Some buf => buf
                | None => String.string_of_list_ascii (replicate n (ch 0))
                end).
Definition generate_relay_id (urandom : nat -> option string) : string := random_hex urandom 16.
Definition generate_relay_token (urandom : nat -> option string) : string := random_hex urandom 32.

Record RemoteDaemonStatus := mkRemoteDaemonStatus {
  ds_state : RemoteDaemonState;
  ds_detail : option string;
  ds_version : option string;
  ds_name : option string;
  ds_capabilities : list string;
  ds_remote_path : option string;
}.

Record ManifestEntry := mkManifestEntry {
  go_os : string; go_arch : string; download_url : string; sha256 : string;
}.

Record DaemonManifest := mkDaemonManifest {
  schema_version : Z; app_version : string; release_tag : string; release_url : string;
  entries : list ManifestEntry;
}.

Definition find_entry (m : DaemonManifest) (os arch : string) : option ManifestEntry :=
  snd <$> list_find (fun e => go_os e = os /\ go_arch e = arch) (entries m).

Record DaemonHello := mkDaemonHello {
  hello_name : string; hello_version : string;
  hello_capabilities : list string; hello_remote_path : string;
}.

Definition REQUIRED_CAPABILITY : string := "proxy.stream.push".

Record ProxyEndpoint := mkProxyEndpoint { ep_host : string; ep_port : Z }.
#[global] Instance ProxyEndpoint_eq_dec : EqDecision ProxyEndpoint.
Proof. solve_decision. Defined.

Definition socks5_uri (e : ProxyEndpoint) : string :=
  "socks5://" +:+ ep_host e +:+ ":" +:+ show_uint (ep_port e).

(** ** Transport key *)

(** The byte-wise order of [String]'s [Ord]. *)
Definition str_le (a b : string) : Prop := String.leb a b = true.
#[global] Instance str_le_dec : RelDecision str_le.
Proof. intros a b. unfold str_le. apply _. Defined.

Definition sort_strings (l : list string) : list string := merge_sort str_le l.

Definition transport_parts (c : RemoteConfiguration) : list string :=
  ["dest=" +:+ destination c] ++
  (match port c with Some p => ["port=" +:+ show_uint p] | None => [] end) ++
  (match identity_file c with Some i => ["id=" +:+ i] | None => [] end) ++
  (String.append "opt=" <$> sort_strings (ssh_options c)).

Definition transport_key (c : RemoteConfiguration) : string := join "|" (transport_parts c).

(** ** Startup command of a remote terminal (shell.rs) *)

Definition dq : string := String (ch 34) "".
Definition lines (l : list string) : string := join (String nl "") l.

Definition generate_bootstrap_script (relay_port : Z) : string :=
  lines ["export PATH=" +:+ dq +:+ "$HOME/.limux/bin:$PATH" +:+ dq;
         "export LIMUX_SOCKET_PATH='127.0.0.1:" +:+ show_uint relay_port +:+ "'";
         "export COLORTERM='truecolor'";
         "export TERM_PROGRAM='ghostty'";
         "exec " +:+ dq +:+ "$SHELL" +:+ dq +:+ " -il"].

(** [format!("'{}'", s.replace('\'', "'\\''"))] *)
Definition single_quote (s : string) : string :=
  "'" +:+ replace_char "'" "'\''" s +:+ "'".

Definition generate_startup_command (c : RemoteConfiguration) (relay_port : Z) : string :=
  join " " (["ssh"] ++ ssh_interactive_args c ++ ["-t"; destination c] ++
            [single_quote (generate_bootstrap_script relay_port)]).

(** ** Lemmas *)

#[global] Instance str_le_total : Total str_le.
Proof. intros a b. apply String.leb_total. Qed.
#[global] Instance str_le_antisym : AntiSymm (=) str_le.
Proof. intros a b. apply String.leb_antisym. Qed.
#[global] Instance str_le_trans : Transitive str_le.
Proof.
  intros a. unfold str_le, String.leb. induction a as [|x a IH]; intros [|y b] [|z c]; simpl; try done.
  unfold Ascii.compare.
  destruct (N.compare_spec (N_of_ascii x) (N_of_ascii y)), (N.compare_spec (N_of_ascii y) (N_of_ascii z)),
    (N.compare_spec (N_of_ascii x) (N_of_ascii z)); try done; try lia. apply IH.
Qed.

Lemma sort_strings_perm l1 l2 : Permutation l1 l2 <-> sort_strings l1 = sort_strings l2.
Proof.
  unfold sort_strings. split.
  - intros Hp. apply (Sorted_unique str_le); [apply Sorted_merge_sort; apply _..|].
    by rewrite !merge_sort_Permutation.
  - intros E. rewrite <- (merge_sort_Permutation str_le l1), E. apply merge_sort_Permutation.
Qed.

(** The separator occurs in no field of the configuration. *)
Definition no_bar (c : RemoteConfiguration) : Prop :=
  has_byte "|" (destination c) = false /\
  (forall i, identity_file c = Some i -> has_byte "|" i = false) /\
  Forall (fun o => has_byte "|" o = false) (ssh_options c).

Definition port_ok (c : RemoteConfiguration) : Prop :=
  forall p, port c = Some p -> (0 <= p <= u16_max)%Z.

Lemma transport_parts_no_bar c :
  no_bar c -> Forall (fun s => has_byte "|" s = false) (transport_parts c).
Proof.
  intros (Hd & Hi & Ho). unfold transport_parts. rewrite !Forall_app. split_and!.
  - constructor; [|done]. by rewrite has_byte_app, Hd.
  - destruct (port c); [|done]. constructor; [|done]. rewrite has_byte_app.
    by rewrite show_uint_no_byte.
  - destruct (identity_file c); [|done]. constructor; [|done].
    by rewrite has_byte_app, (Hi _ eq_refl).
  - apply Forall_fmap. unfold sort_strings. rewrite merge_sort_Permutation.
    eapply Forall_impl; [exact Ho|]. intros o Hob. simpl. by rewrite Hob.
Qed.

Lemma str_app_inj (p a b : string) : p +:+ a = p +:+ b -> a = b.
Proof. induction p as [|x p IH]; simpl; intros H; simplify_eq; auto. Qed.

Lemma show_uint_inj m n : (0 <= m)%Z -> (0 <= n)%Z -> show_uint m = show_uint n -> m = n.
Proof.
  intros Hm Hn E. pose proof (show_uint_digits m) as H. rewrite E, show_uint_digits in H.
  simplify_eq. lia.
Qed.

Lemma opts_inj l1 l2 :
  String.append "opt=" <$> sort_strings l1 = String.append "opt=" <$> sort_strings l2 ->
  Permutation l1 l2.
Proof.
  intros E. apply sort_strings_perm.
  assert (Inj (=) (=) (fmap (M := list) (String.append "opt="))) as Hinj.
  { apply list_fmap_eq_inj. intros a b. apply str_app_inj. }
  by apply Hinj in E.
Qed.

(** An optional tagged part can be peeled off two equal lists. *)
Lemma peel tag (o1 o2 : option string) r1 r2 :
  Forall (fun s => strip_prefix tag s = None) r1 ->
  Forall (fun s => strip_prefix tag s = None) r2 ->
  ((match o1 with Some x => [tag +:+ x] | None => [] end) ++ r1 =
   (match o2 with Some x => [tag +:+ x] | None => [] end) ++ r2)%list ->
  o1 = o2 /\ r1 = r2.
Proof.
  intros H1 H2 E. destruct o1 as [x|], o2 as [y|]; simpl in E; subst; try done.
  - injection E as Et ->. by apply str_app_inj in Et as ->.
  - apply Forall_cons in H2 as [H2 _]. by rewrite strip_prefix_app in H2.
  - apply Forall_cons in H1 as [H1 _]. by rewrite strip_prefix_app in H1.
Qed.

Lemma opts_no_tag tag l :
  (forall x, strip_prefix tag ("opt=" +:+ x) = None) ->
  Forall (fun s => strip_prefix tag s = None) (String.append "opt=" <$> l).
Proof. intros H. apply Forall_fmap, Forall_forall. intros x _. apply H. Qed.

Lemma transport_parts_inj c1 c2 :
  port_ok c1 -> port_ok c2 -> transport_parts c1 = transport_parts c2 ->
  destination c1 = destination c2 /\ port c1 = port c2 /\
  identity_file c1 = identity_file c2 /\ Permutation (ssh_options c1) (ssh_options c2).
Proof.
  intros H1 H2. unfold transport_parts. simpl. intros [= Hd E].
  assert (show_uint <$> port c1 = show_uint <$> port c2 /\
    identity_file c1 = identity_file c2 /\ Permutation (ssh_options c1) (ssh_options c2))
    as (Hp & Hi & Ho).
  { destruct (peel "port=" (show_uint <$> port c1) (show_uint <$> port c2)
      ((match identity_file c1 with Some i => ["id=" +:+ i] | None => [] end) ++
       (String.append "opt=" <$> sort_strings (ssh_options c1)))
      ((match identity_file c2 with Some i => ["id=" +:+ i] | None => [] end) ++
       (String.append "opt=" <$> sort_strings (ssh_options c2)))) as [Hp E2].
    - apply Forall_app; split; [by destruct (identity_file c1); constructor|by apply opts_no_tag].
    - apply Forall_app; split; [by destruct (identity_file c2); constructor|by apply opts_no_tag].
    - by destruct (port c1), (port c2).
    - apply peel in E2 as [Hi E3]; [|by apply opts_no_tag..]. by apply opts_inj in E3. }
  split_and!; try done. unfold port_ok in *.
  destruct (port c1) as [p1|], (port c2) as [p2|]; simplify_eq/=; try done. f_equal.
  specialize (H1 _ eq_refl). specialize (H2 _ eq_refl).
  eapply show_uint_inj; [lia..|done].
Qed.

(** ** Evaluation of a quoted shell word (POSIX: single quotes, and a backslash
    outside of them); [None] where another rule would apply. *)
Fixpoint sh_eval (quoted : bool) (s : string) : option string :=
  match s with
  | "" => if quoted then None else Some ""
  | String c r =>
      if quoted then
        if byte_eqb c "'" then sh_eval false r else String c <$> sh_eval true r
      else if byte_eqb c "'" then sh_eval true r
      else if byte_eqb c "\" then
        match r with String x r => String x <$> sh_eval false r | "" => None end
      else None
  end.

Lemma sh_eval_quoted s : sh_eval true (replace_char "'" "'\''" s +:+ "'") = Some s.
Proof.
  induction s as [|c s IH]; [done|]. simpl. destruct (byte_eqb c "'") eqn:E.
  - apply byte_eqb_eq in E as ->. simpl. by rewrite IH.
  - simpl. rewrite E. by rewrite IH.
Qed.

Lemma join_app_last sep (l : list string) x :
  l <> [] -> join sep (l ++ [x]) = join sep l +:+ sep +:+ x.
Proof.
  induction l as [|a l IH]; intros H; [done|]. destruct l as [|b l]; [done|].
  change (join sep ((a :: b :: l) ++ [x])) with (a +:+ sep +:+ join sep ((b :: l) ++ [x])).
  change (join sep (a :: b :: l)) with (a +:+ sep +:+ join sep (b :: l)).
  rewrite IH by done. by rewrite !str_app_assoc.
Qed.

Lemma single_quote_eval s : sh_eval false (single_quote s) = Some s.
Proof. apply (sh_eval_quoted s). Qed.

Lemma join_app_last3 sep x (a b : list string) w :
  join sep (x :: a ++ b ++ [w]) = join sep (x :: a ++ b) +:+ sep +:+ w.
Proof. rewrite (assoc_L (++) a b), app_comm_cons. by apply join_app_last. Qed.

(** ** Claims *)

(** Two configurations whose fields do not contain the separator share a
    proxy transport exactly when they have the same destination, port and
    identity file and the same SSH options in any order. *)
Theorem transport_key_identifies c1 c2 :
  no_bar c1 -> no_bar c2 -> port_ok c1 -> port_ok c2 ->
  transport_key c1 = transport_key c2 <->
  destination c1 = destination c2 /\ port c1 = port c2 /\
  identity_file c1 = identity_file c2 /\ Permutation (ssh_options c1) (ssh_options c2).
Proof.
  intros Hn1 Hn2 Hp1 Hp2. split.
  - intros E. apply transport_parts_inj; [done..|].
    rewrite <- (split_char_join "|" (transport_parts c1)), <- (split_char_join "|" (transport_parts c2));
      try done; try by apply transport_parts_no_bar.
    unfold transport_key in E. by rewrite E.
  - intros (Hd & Hp & Hi & Ho). unfold transport_key, transport_parts.
    apply sort_strings_perm in Ho. by rewrite Hd, Hp, Hi, Ho.
Qed.

Definition demo_config (opts : list string) : RemoteConfiguration :=
  mkRemoteConfiguration "me@host" (Some 2222%Z) None opts None None None None None.

Lemma transport_key_identifies_witness :
  transport_key (demo_config ["A=1"; "B=2"]) = transport_key (demo_config ["B=2"; "A=1"]).
Proof.
  apply transport_key_identifies; unfold no_bar, port_ok, demo_config; simpl.
  - split_and!; [done|done|]. by repeat constructor.
  - split_and!; [done|done|]. by repeat constructor.
  - by intros p [= <-].
  - by intros p [= <-].
  - split_and!; [done..|]. apply perm_swap.
Defined.

(** The separator is not escaped: a destination that contains it can have the
    transport key of a different configuration. *)
Theorem transport_key_collision :
  exists c1 c2, transport_key c1 = transport_key c2 /\
    destination c1 <> destination c2 /\ port c1 <> port c2.
Proof.
  exists (demo_config []),
    (mkRemoteConfiguration "me@host|port=2222" None None [] None None None None None).
  split_and!; by vm_compute.
Qed.

(** The startup command of a remote terminal ends in one shell word that
    evaluates to the bootstrap script, whatever single quotes the script contains. *)
Theorem startup_command_quotes c rp :
  exists args word, generate_startup_command c rp = args +:+ " " +:+ word /\
    sh_eval false word = Some (generate_bootstrap_script rp).
Proof.
  exists (join " " (["ssh"] ++ ssh_interactive_args c ++ ["-t"; destination c])),
    (single_quote (generate_bootstrap_script rp)).
  split; [apply join_app_last3|apply single_quote_eval].
Qed.
