(* ===== verification/Workspace.v ===== *)
(** * Workspaces, panes and tabs (app/src/workspace.rs)

    The data model Workspace -> Pane -> Tab and its methods.  The order in which
    a [HashMap] is iterated is unspecified in Rust, so a method that iterates over
    the panes takes that order ([ks], a list of the keys) as an argument. *)

From Stdlib Require Import Ascii.
From S2P Require Import Prelude F64 SplitTree RustStr RemoteConfig.
Open Scope string_scope.
Open Scope list_scope.

Abbreviation SurfaceId := Z.
Abbreviation BrowserPanelId := Z.
Abbreviation WorkspaceId := Z.

(** ** Colours and log levels *)

Inductive WorkspaceColor := Red | Orange | Yellow | Green | Blue | Purple | Pink | Gray.
#[global] Instance WorkspaceColor_eq_dec : EqDecision WorkspaceColor.
Proof. solve_decision. Defined.

Definition css_class (c : WorkspaceColor) : string :=
  match c with
  | Red => "ws-color-red" | Orange => "ws-color-orange" | Yellow => "ws-color-yellow"
  | Green => "ws-color-green" | Blue => "ws-color-blue" | Purple => "ws-color-purple"
  | Pink => "ws-color-pink" | Gray => "ws-color-gray"
  end.

Definition color_ALL : list WorkspaceColor :=
  [Red; Orange; Yellow; Green; Blue; Purple; Pink; Gray].

Definition color_hex (dark : bool) (c : WorkspaceColor) : string :=
  if dark then
    match c with
    | Red => "#ff6b6b" | Orange => "#ffa94d" | Yellow => "#ffd43b" | Green => "#69db7c"
    | Blue => "#74c0fc" | Purple => "#cc8ef5" | Pink => "#f783ac" | Gray => "#adb5bd"
    end
  else
    match c with
    | Red => "#e74c3c" | Orange => "#e67e22" | Yellow => "#f1c40f" | Green => "#2ecc71"
    | Blue => "#3498db" | Purple => "#9b59b6" | Pink => "#e91e8a" | Gray => "#95a5a6"
    end.

Definition bell_hex (dark : bool) : string := if dark then "#ff6b6b" else "#e74c3c".

Definition color_from_name (name : string) : option WorkspaceColor :=
  let s := to_lowercase name in
  if String.eqb s "red" then Some Red
  else if String.eqb s "orange" then Some Orange
  else if String.eqb s "yellow" then Some Yellow
  else if String.eqb s "green" then Some Green
  else if String.eqb s "blue" then Some Blue
  else if String.eqb s "purple" then Some Purple
  else if String.eqb s "pink" then Some Pink
  else if String.eqb s "gray" || String.eqb s "grey" then Some Gray
  else None.

Definition color_display (c : WorkspaceColor) : string :=
  match c with
  | Red => "red" | Orange => "orange" | Yellow => "yellow" | Green => "green"
  | Blue => "blue" | Purple => "purple" | Pink => "pink" | Gray => "gray"
  end.

Inductive LogLevel := Info | Progress | Success | Warning | LogError.
#[global] Instance LogLevel_eq_dec : EqDecision LogLevel.
Proof. solve_decision. Defined.

Definition LogLevel_from_str (s : string) : LogLevel :=
  if String.eqb s "progress" then Progress
  else if String.eqb s "success" then Success
  else if String.eqb s "warning" || String.eqb s "warn" then Warning
  else if String.eqb s "error" then LogError
  else Info.

Definition LogLevel_as_str (l : LogLevel) : string :=
  match l with
  | Info => "info" | Progress => "progress" | Success => "success"
  | Warning => "warning" | LogError => "error"
  end.

(** ** Tabs *)

Inductive PanelKind :=
  | Terminal (surface_id : SurfaceId)
  | Browser (browser_id : BrowserPanelId) (url : string).
#[global] Instance PanelKind_eq_dec : EqDecision PanelKind.
Proof. solve_decision. Defined.

Record Tab := mkTab {
  tab_panel : PanelKind;
  tab_title : string;
  tab_working_directory : option string;
  tab_wd_from_osc7 : bool;
}.
#[global] Instance Tab_eq_dec : EqDecision Tab.
Proof. solve_decision. Defined.

Definition new_tab (panel : PanelKind) : Tab := mkTab panel "" None false.

Definition tab_surface_id (t : Tab) : option SurfaceId :=
  match tab_panel t with Terminal s => Some s | Browser _ _ => None end.
Definition tab_browser_id (t : Tab) : option BrowserPanelId :=
  match tab_panel t with Browser b _ => Some b | Terminal _ => None end.
Definition tab_is_terminal (t : Tab) : bool :=
  match tab_panel t with Terminal _ => true | _ => false end.
Definition tab_is_browser (t : Tab) : bool :=
  match tab_panel t with Browser _ _ => true | _ => false end.

Definition set_title (title : string) (t : Tab) : Tab :=
  mkTab (tab_panel t) title (tab_working_directory t) (tab_wd_from_osc7 t).
Definition set_directory (dir : option string) (t : Tab) : Tab :=
  mkTab (tab_panel t) (tab_title t) dir (tab_wd_from_osc7 t).

(** ** Panes *)

Record Pane := mkPane {
  pane_id : PaneId;
  tabs : list Tab;
  selected_tab : nat;
  pane_has_bell : bool;
}.
#[global] Instance Pane_eq_dec : EqDecision Pane.
Proof. solve_decision. Defined.

Definition set_tabs (l : list Tab) (p : Pane) : Pane :=
  mkPane (pane_id p) l (selected_tab p) (pane_has_bell p).
Definition set_selected (i : nat) (p : Pane) : Pane :=
  mkPane (pane_id p) (tabs p) i (pane_has_bell p).
Definition set_pane_bell (b : bool) (p : Pane) : Pane :=
  mkPane (pane_id p) (tabs p) (selected_tab p) b.

Definition Pane_new_with_id (id : PaneId) (surface_id : SurfaceId) : Pane :=
  mkPane id [new_tab (Terminal surface_id)] 0 false.
Definition Pane_new_browser_with_id (id : PaneId) (browser_id : BrowserPanelId) (url : string)
    : Pane := mkPane id [new_tab (Browser browser_id url)] 0 false.

(** The atomic counter behind [next_pane_id]: [fetch_add] returns the old value
    and wraps around. *)
Definition fetch_next (counter : Z) : Z * Z := (counter, u32_succ counter).

Definition Pane_new (counter : Z) (surface_id : SurfaceId) : Pane * Z :=
  let '(id, counter) := fetch_next counter in (Pane_new_with_id id surface_id, counter).
Definition Pane_new_browser (counter : Z) (browser_id : BrowserPanelId) (url : string) : Pane * Z :=
  let '(id, counter) := fetch_next counter in (Pane_new_browser_with_id id browser_id url, counter).

Definition active_tab (p : Pane) : option Tab := tabs p !! selected_tab p.
Definition active_surface (p : Pane) : option SurfaceId := active_tab p ≫= tab_surface_id.
Definition active_browser (p : Pane) : option BrowserPanelId := active_tab p ≫= tab_browser_id.
Definition active_panel (p : Pane) : option PanelKind := tab_panel <$> active_tab p.
Definition surface_ids (p : Pane) : list SurfaceId := omap tab_surface_id (tabs p).
Definition browser_ids (p : Pane) : list BrowserPanelId := omap tab_browser_id (tabs p).

(** [push] a tab and select it; the result is its index. *)
Definition push_tab (panel : PanelKind) (p : Pane) : nat * Pane :=
  let idx := length (tabs p) in
  (idx, set_selected idx (set_tabs (tabs p ++ [new_tab panel]) p)).
Definition add_tab (surface_id : SurfaceId) : Pane -> nat * Pane := push_tab (Terminal surface_id).
Definition add_browser_tab (browser_id : BrowserPanelId) (url : string) : Pane -> nat * Pane :=
  push_tab (Browser browser_id url).

(** The common body of [remove_tab] and [remove_browser_tab]. *)
Definition remove_tab_by (f : Tab -> bool) (p : Pane) : bool * Pane :=
  match position f (tabs p) with
  | None => (false, p)
  | Some idx =>
      let rest := delete idx (tabs p) in
      let p := set_tabs rest p in
      (true, if decide (length rest <= selected_tab p /\ rest <> [])
             then set_selected (length rest - 1) p else p)
  end.
Definition remove_tab (surface_id : SurfaceId) : Pane -> bool * Pane :=
  remove_tab_by (fun t => bool_decide (tab_surface_id t = Some surface_id)).
Definition remove_browser_tab (browser_id : BrowserPanelId) : Pane -> bool * Pane :=
  remove_tab_by (fun t => bool_decide (tab_browser_id t = Some browser_id)).

Definition select_tab (idx : nat) (p : Pane) : Pane :=
  if decide (idx < length (tabs p)) then set_selected idx p else p.

Definition cycle_tab (forward : bool) (p : Pane) : option PanelKind * Pane :=
  let n := length (tabs p) in
  if decide (n <= 1) then (active_panel p, p)
  else
    let p := set_selected (if forward then (selected_tab p + 1) mod n
                           else (selected_tab p + n - 1) mod n) p in
    (active_panel p, p).

(** [iter_mut().find(f)] followed by an update of the tab found. *)
Fixpoint update_first {A} (f : A -> bool) (g : A -> A) (l : list A) : list A :=
  match l with
  | [] => []
  | x :: l => if f x then g x :: l else x :: update_first f g l
  end.

Definition has_surface_id (surface_id : SurfaceId) (t : Tab) : bool :=
  bool_decide (tab_surface_id t = Some surface_id).
Definition has_browser_id (browser_id : BrowserPanelId) (t : Tab) : bool :=
  bool_decide (tab_browser_id t = Some browser_id).

Definition set_tab_title (surface_id : SurfaceId) (title : string) (p : Pane) : Pane :=
  set_tabs (update_first (has_surface_id surface_id) (set_title title) (tabs p)) p.
Definition set_browser_tab_title (browser_id : BrowserPanelId) (title : string) (p : Pane) : Pane :=
  set_tabs (update_first (has_browser_id browser_id) (set_title title) (tabs p)) p.
Definition set_tab_directory (surface_id : SurfaceId) (dir : string) (p : Pane) : Pane :=
  set_tabs (update_first (has_surface_id surface_id) (set_directory (Some dir)) (tabs p)) p.
Definition has_surface (surface_id : SurfaceId) (p : Pane) : bool :=
  existsb (has_surface_id surface_id) (tabs p).
Definition has_browser (browser_id : BrowserPanelId) (p : Pane) : bool :=
  existsb (has_browser_id browser_id) (tabs p).

(** ** Workspaces *)

Record SidebarStatusEntry := mkStatus {
  st_key : string; st_value : string; st_icon : option string; st_color : option string;
  st_priority : Z;
}.

Record SidebarLogEntry := mkLog {
  log_message : string; log_level : LogLevel; log_source : option string; log_timestamp : Z;
}.

Record SidebarProgressState := mkProgress { progress_value : f64; progress_label : option string }.

Record Workspace := mkWorkspace {
  ws_id : WorkspaceId;
  ws_title : string;
  custom_title : option string;
  ws_working_directory : option string;
  git_branch : option string;
  listening_ports : list Z;
  color : option WorkspaceColor;
  pinned : bool;
  ws_has_bell : bool;
  ws_panes : gmap Z Pane;
  split_tree : SplitTree;
  status_entries : gmap string SidebarStatusEntry;
  log_entries : list SidebarLogEntry;
  progress : option SidebarProgressState;
  remote_config : option RemoteConfiguration;
  remote_state : RemoteConnectionState;
  remote_daemon_status : option RemoteDaemonStatus;
  proxy_endpoint : option ProxyEndpoint;
}.

Definition Workspace_new (id : WorkspaceId) : Workspace :=
  mkWorkspace id "" None None None [] None false false ∅ new_tree ∅ [] None
    None Disconnected None None.

(** Functional updates of single fields. *)
Definition ws_set_title (x : string) (w : Workspace) : Workspace :=
  let '(mkWorkspace a _ c d e f g h i j k l m n o p q r) := w in
  mkWorkspace a x c d e f g h i j k l m n o p q r.
Definition ws_set_custom_title (x : option string) (w : Workspace) : Workspace :=
  let '(mkWorkspace a b _ d e f g h i j k l m n o p q r) := w in
  mkWorkspace a b x d e f g h i j k l m n o p q r.
Definition ws_set_wd (x : option string) (w : Workspace) : Workspace :=
  let '(mkWorkspace a b c _ e f g h i j k l m n o p q r) := w in
  mkWorkspace a b c x e f g h i j k l m n o p q r.
Definition ws_set_git_branch (x : option string) (w : Workspace) : Workspace :=
  let '(mkWorkspace a b c d _ f g h i j k l m n o p q r) := w in
  mkWorkspace a b c d x f g h i j k l m n o p q r.
Definition ws_set_ports (x : list Z) (w : Workspace) : Workspace :=
  let '(mkWorkspace a b c d e _ g h i j k l m n o p q r) := w in
  mkWorkspace a b c d e x g h i j k l m n o p q r.
Definition ws_set_color (x : option WorkspaceColor) (w : Workspace) : Workspace :=
  let '(mkWorkspace a b c d e f _ h i j k l m n o p q r) := w in
  mkWorkspace a b c d e f x h i j k l m n o p q r.
Definition ws_set_pinned (x : bool) (w : Workspace) : Workspace :=
  let '(mkWorkspace a b c d e f g _ i j k l m n o p q r) := w in
  mkWorkspace a b c d e f g x i j k l m n o p q r.
Definition ws_set_bell (x : bool) (w : Workspace) : Workspace :=
  let '(mkWorkspace a b c d e f g h _ j k l m n o p q r) := w in
  mkWorkspace a b c d e f g h x j k l m n o p q r.
Definition ws_set_panes (x : gmap Z Pane) (w : Workspace) : Workspace :=
  let '(mkWorkspace a b c d e f g h i _ k l m n o p q r) := w in
  mkWorkspace a b c d e f g h i x k l m n o p q r.
Definition ws_set_tree (x : SplitTree) (w : Workspace) : Workspace :=
  let '(mkWorkspace a b c d e f g h i j _ l m n o p q r) := w in
  mkWorkspace a b c d e f g h i j x l m n o p q r.
Definition ws_set_status (x : gmap string SidebarStatusEntry) (w : Workspace) : Workspace :=
  let '(mkWorkspace a b c d e f g h i j k _ m n o p q r) := w in
  mkWorkspace a b c d e f g h i j k x m n o p q r.
Definition ws_set_log (x : list SidebarLogEntry) (w : Workspace) : Workspace :=
  let '(mkWorkspace a b c d e f g h i j k l _ n o p q r) := w in
  mkWorkspace a b c d e f g h i j k l x n o p q r.
Definition ws_set_progress (x : option SidebarProgressState) (w : Workspace) : Workspace :=
  let '(mkWorkspace a b c d e f g h i j k l m _ o p q r) := w in
  mkWorkspace a b c d e f g h i j k l m x o p q r.
Definition ws_set_remote (cfg : option RemoteConfiguration) (st : RemoteConnectionState)
    (ds : option RemoteDaemonStatus) (ep : option ProxyEndpoint) (w : Workspace) : Workspace :=
  let '(mkWorkspace a b c d e f g h i j k l m n _ _ _ _) := w in
  mkWorkspace a b c d e f g h i j k l m n cfg st ds ep.

Definition ws_focused_pane (w : Workspace) : option PaneId := focused_pane (split_tree w).
Definition set_focused_pane (pid : PaneId) (w : Workspace) : Workspace :=
  ws_set_tree (set_focused pid (split_tree w)) w.

Definition display_title (w : Workspace) : string :=
  match custom_title w with
  | Some (String _ _ as ct) => ct
  | _ => match ws_title w with
         | String _ _ as t => t
         | "" => "Terminal"
         end
  end.

Definition add_pane (p : Pane) (w : Workspace) : PaneId * Workspace :=
  (pane_id p, ws_set_panes (<[pane_id p := p]> (ws_panes w)) w).
Definition remove_pane (pid : PaneId) (w : Workspace) : option Pane * Workspace :=
  (ws_panes w !! pid, ws_set_panes (delete pid (ws_panes w)) w).

(** [panes.values()] in the order [ks] of the keys. *)
Definition pane_values (ks : list PaneId) (w : Workspace) : list Pane :=
  omap (fun k => ws_panes w !! k) ks.
Definition all_surface_ids (ks : list PaneId) (w : Workspace) : list SurfaceId :=
  pane_values ks w ≫= surface_ids.
Definition all_browser_ids (ks : list PaneId) (w : Workspace) : list BrowserPanelId :=
  pane_values ks w ≫= browser_ids.
Definition all_panels (ks : list PaneId) (w : Workspace) : list PanelKind :=
  pane_values ks w ≫= fun p => tab_panel <$> tabs p.

(** [panes.iter().find(...).map(|(id, _)| *id)] in the order [ks]. *)
Definition find_pane (f : Pane -> bool) (ks : list PaneId) (w : Workspace) : option PaneId :=
  List.find (fun k => match ws_panes w !! k with Some p => f p | None => false end) ks.
Definition pane_for_surface (surface_id : SurfaceId) : list PaneId -> Workspace -> option PaneId :=
  find_pane (has_surface surface_id).
Definition pane_for_browser (browser_id : BrowserPanelId) : list PaneId -> Workspace -> option PaneId :=
  find_pane (has_browser browser_id).

Definition update_title_from_focused (w : Workspace) : Workspace :=
  match ws_focused_pane w ≫= fun pid => ws_panes w !! pid ≫= active_tab with
  | None => w
  | Some tab =>
      let w := match tab_title tab with "" => w | t => ws_set_title t w end in
      match tab_working_directory tab with Some d => ws_set_wd (Some d) w | None => w end
  end.

(** ** Lemmas *)

(** The selection of a pane points at a tab as long as there is one. *)
Definition pane_ok (p : Pane) : Prop := tabs p <> [] -> selected_tab p < length (tabs p).

Lemma update_first_length {A} (f : A -> bool) g l : length (update_first f g l) = length l.
Proof. induction l as [|x l IH]; simpl; [done|]. destruct (f x); simpl; auto. Qed.

Lemma update_first_nil {A} (f : A -> bool) g l : update_first f g l = [] <-> l = [].
Proof. destruct l; simpl; [done|]. by destruct (f a). Qed.

Lemma pane_ok_push panel p : pane_ok (snd (push_tab panel p)).
Proof. intros _. simpl. rewrite length_app. simpl. lia. Qed.

Lemma pane_ok_remove f p : pane_ok p -> pane_ok (snd (remove_tab_by f p)).
Proof.
  unfold remove_tab_by, pane_ok. intros H. destruct (position f (tabs p)) as [i|] eqn:Hi; [|done].
  apply position_lt in Hi. case_decide as Hd; simpl in *; intros Hne.
  - destruct (delete i (tabs p)); simpl; [done|lia].
  - assert (~ length (delete i (tabs p)) <= selected_tab p); [tauto|lia].
Qed.

Lemma pane_ok_select i p : pane_ok p -> pane_ok (select_tab i p).
Proof. unfold select_tab, pane_ok. by case_decide. Qed.

Lemma pane_ok_cycle fwd p : pane_ok p -> pane_ok (snd (cycle_tab fwd p)).
Proof.
  unfold cycle_tab, pane_ok. case_decide; [done|]. intros _ _. simpl.
  destruct fwd; apply Nat.mod_upper_bound; lia.
Qed.

Lemma pane_ok_update f g p :
  pane_ok p -> pane_ok (set_tabs (update_first f g (tabs p)) p).
Proof. unfold pane_ok. simpl. rewrite update_first_length, update_first_nil. done. Qed.

Lemma color_roundtrip c : color_from_name (color_display c) = Some c.
Proof. by destruct c. Qed.
Lemma LogLevel_roundtrip l : LogLevel_from_str (LogLevel_as_str l) = l.
Proof. by destruct l. Qed.
