(* ===== verification/Tabs.v ===== *)
(** * Tab identities, drag payloads and tab lists (app/src/window.rs)

    The helpers of window.rs that work on one pane: the stable identity of a tab
    during a drag, its textual payload, removal and reordering of tabs with the
    selection following the selected tab. *)

From Stdlib Require Import Ascii.
From S2P Require Import Prelude SplitTree RustStr Workspace.
Open Scope string_scope.
Open Scope list_scope.

Inductive TabDragIdentity :=
  | Surface (id : SurfaceId)
  | BrowserPanel (id : BrowserPanelId).
#[global] Instance TabDragIdentity_eq_dec : EqDecision TabDragIdentity.
Proof. solve_decision. Defined.

Inductive TabInsertion := Before (anchor : TabDragIdentity) | Append.

Definition matches_panel (i : TabDragIdentity) (panel : PanelKind) : bool :=
  match i, panel with
  | Surface s, Terminal s' => bool_decide (s = s')
  | BrowserPanel b, Browser b' _ => bool_decide (b = b')
  | _, _ => false
  end.

Definition panel_drag_identity (panel : PanelKind) : TabDragIdentity :=
  match panel with
  | Terminal s => Surface s
  | Browser b _ => BrowserPanel b
  end.

Definition tab_drag_payload (pane_id : PaneId) (panel : PanelKind) : string :=
  match panel_drag_identity panel with
  | Surface s => "pane:" +:+ show_uint pane_id +:+ ":surface:" +:+ show_uint s
  | BrowserPanel b => "pane:" +:+ show_uint pane_id +:+ ":browser:" +:+ show_uint b
  end.

Definition parse_tab_drag_payload (payload : string) : option (PaneId * TabDragIdentity) :=
  rest ← strip_prefix "pane:" payload;
  match split_char ":" rest with
  | f1 :: f2 :: f3 :: extra =>
      pane_id ← parse_u32 f1;
      panel_id ← parse_u32 f3;
      match extra with
      | _ :: _ => None
      | [] =>
          if String.eqb f2 "surface" then Some (pane_id, Surface panel_id)
          else if String.eqb f2 "browser" then Some (pane_id, BrowserPanel panel_id)
          else None
      end
  | _ => None
  end.

(** The name of a panel's child in the stack of its pane. *)
Definition stack_child_name (panel : PanelKind) : string :=
  match panel with
  | Terminal s => "surface-" +:+ show_uint s
  | Browser b _ => "browser-" +:+ show_uint b
  end.

Definition tab_index_for_identity (p : Pane) (i : TabDragIdentity) : option nat :=
  position (fun t => matches_panel i (tab_panel t)) (tabs p).

Definition insertion_index_for_target (p : Pane) (ins : TabInsertion) : option nat :=
  match ins with
  | Before anchor => tab_index_for_identity p anchor
  | Append => Some (length (tabs p))
  end.

(** [None] is the panic of [Vec::remove] out of range. *)
Definition remove_tab_preserving_selection (tab_idx : nat) (p : Pane) : option (Tab * Pane) :=
  let selected := selected_tab p in
  '(tab, rest) ← vec_remove tab_idx (tabs p);
  Some (tab,
    set_selected
      (match rest with
       | [] => 0
       | _ => if decide (tab_idx < selected) then selected - 1
              else if decide (selected = tab_idx) then tab_idx `min` (length rest - 1)
              else selected `min` (length rest - 1)
       end) (set_tabs rest p)).

(** The block of [reorder_tab_in_pane] that updates the pane. *)
Definition reorder_tab (from_index insertion_index : nat) (p : Pane) : option (bool * Pane) :=
  let insertion_index := insertion_index `min` length (tabs p) in
  let destination :=
    if decide (from_index < insertion_index) then insertion_index - 1 else insertion_index in
  if decide (destination = from_index) then Some (false, p)
  else
    '(tab, rest) ← vec_remove from_index (tabs p);
    l ← vec_insert destination tab rest;
    let selected := selected_tab p in
    let selected' :=
      if decide (selected = from_index) then destination
      else
        let s := if decide (from_index < selected) then selected - 1 else selected in
        if decide (destination <= s) then s + 1 else s in
    Some (true, set_selected selected' (set_tabs l p)).

(** ** Lemmas *)

Lemma matches_panel_spec i panel :
  matches_panel i panel = true <-> i = panel_drag_identity panel.
Proof.
  destruct i, panel; simpl; rewrite ?bool_decide_eq_true; try done; split; congruence.
Qed.

Definition tab_identity (t : Tab) : TabDragIdentity := panel_drag_identity (tab_panel t).
Definition identities (p : Pane) : list TabDragIdentity := tab_identity <$> tabs p.

Lemma tab_index_Some p i idx :
  tab_index_for_identity p i = Some idx ->
  exists t, tabs p !! idx = Some t /\ tab_identity t = i.
Proof.
  intros (t & Ht & Hm & _)%position_Some. exists t. split; [done|].
  by apply matches_panel_spec in Hm as ->.
Qed.

Lemma tab_index_identities p i : is_Some (tab_index_for_identity p i) <-> i ∈ identities p.
Proof.
  unfold tab_index_for_identity, identities. split.
  - intros [idx (t & Ht & <-)%tab_index_Some].
    apply list_elem_of_fmap. exists t. split; [done|]. by eapply list_elem_of_lookup_2.
  - intros (t & -> & Ht)%list_elem_of_fmap.
    destruct (position _ _) eqn:E; [eauto|]. exfalso. rewrite position_None in E.
    specialize (E t Ht).
    assert (matches_panel (tab_identity t) (tab_panel t) = true) by (by apply matches_panel_spec).
    congruence.
Qed.

Lemma remove_preserving_ok i p t :
  tabs p !! i = Some t ->
  exists p', remove_tab_preserving_selection i p = Some (t, p') /\
    tabs p' = delete i (tabs p) /\ pane_id p' = pane_id p /\
    pane_has_bell p' = pane_has_bell p /\
    (pane_ok p -> pane_ok p').
Proof.
  intros Ht. pose proof (lookup_lt_Some _ _ _ Ht) as Hlt.
  unfold remove_tab_preserving_selection. rewrite (vec_remove_spec _ _ _ Ht). simpl.
  rewrite <- delete_take_drop. eexists. split_and!; [done..|].
  unfold pane_ok. simpl. intros Hok Hne. specialize (Hok ltac:(by destruct (tabs p))).
  destruct (delete i (tabs p)) as [|y r] eqn:E; [done|].
  assert (length (y :: r) = length (tabs p) - 1) as Hlen.
  { rewrite <- E. rewrite length_delete; [done|]. by rewrite Ht. }
  rewrite Hlen in *. repeat case_decide; simpl in *; lia.
Qed.

(** The payload of a tab drag identifies its pane and its tab: it parses
    back to exactly the pane and the panel it was made from, and the payloads of
    different panes or panels differ. *)
Theorem tab_drag_payload_roundtrip pane_id panel :
  is_u32 pane_id ->
  match panel with Terminal s => is_u32 s | Browser b _ => is_u32 b end ->
  parse_tab_drag_payload (tab_drag_payload pane_id panel) =
  Some (pane_id, panel_drag_identity panel).
Proof.
  intros Hp Hid.
  assert (forall kind n, is_u32 n -> has_byte ":" kind = false ->
    split_char ":" (show_uint pane_id +:+ String ":" (kind +:+ String ":" (show_uint n))) =
    [show_uint pane_id; kind; show_uint n]) as Hsplit.
  { intros kind n Hn Hk. rewrite split_char_app by auto with limux.
    rewrite split_char_app by done. rewrite split_char_none by auto with limux. done. }
  unfold parse_tab_drag_payload, tab_drag_payload.
  destruct panel as [s|b u]; simpl panel_drag_identity; cbv iota; rewrite strip_prefix_app;
    cbn [mbind option_bind].
  - change (":surface:" +:+ show_uint s) with (String ":" ("surface" +:+ String ":" (show_uint s))).
    rewrite (Hsplit "surface" s Hid eq_refl). unfold parse_u32.
    by rewrite !parse_show_uint.
  - change (":browser:" +:+ show_uint b) with (String ":" ("browser" +:+ String ":" (show_uint b))).
    rewrite (Hsplit "browser" b Hid eq_refl). unfold parse_u32.
    by rewrite !parse_show_uint.
Qed.

Lemma tab_drag_payload_roundtrip_witness :
  parse_tab_drag_payload "pane:7:browser:12" = Some (7, BrowserPanel 12)%Z.
Proof.
  exact (tab_drag_payload_roundtrip 7 (Browser 12 "http://x") ltac:(unfold is_u32, u32_max; lia)
           ltac:(simpl; unfold is_u32, u32_max; lia)).
Defined.

(** Removing a tab from a pane with several tabs keeps the selection on the
    tab that was selected; when the selected tab itself is removed, the tab after
    it is selected, or the new last one if there is none.  No other tab changes
    and the order is kept. *)
Theorem remove_tab_keeps_selection i p t :
  pane_ok p -> tabs p !! i = Some t -> 1 < length (tabs p) ->
  exists p', remove_tab_preserving_selection i p = Some (t, p') /\
    tabs p' = delete i (tabs p) /\ pane_ok p' /\
    active_tab p' =
      if decide (selected_tab p = i)
      then (if decide (S i < length (tabs p)) then tabs p !! S i else tabs p !! (i - 1)%nat)
      else active_tab p.
Proof.
  intros Hok Ht Hlen1. pose proof (lookup_lt_Some _ _ _ Ht) as Hlt.
  destruct (remove_preserving_ok i p t Ht) as (p' & E & Htabs & _ & _ & Hok').
  exists p'. split_and!; [done|done|auto|].
  unfold remove_tab_preserving_selection in E. rewrite (vec_remove_spec _ _ _ Ht) in E.
  simpl in E. rewrite <- delete_take_drop in E. injection E as <-.
  unfold active_tab. cbn [set_selected set_tabs selected_tab tabs].
  pose proof (delete_length _ _ _ Ht) as Hlen.
  specialize (Hok ltac:(by destruct (tabs p))).
  rewrite delete_lookup.
  destruct (delete i (tabs p)) as [|y r]; [simpl in Hlen; lia|]. rewrite Hlen.
  repeat case_decide; try lia; f_equal; lia.
Qed.

Definition demo_pane : Pane :=
  mkPane 0 [new_tab (Terminal 1); new_tab (Terminal 2); new_tab (Terminal 3)] 2 false.

Lemma remove_tab_keeps_selection_witness :
  exists p', remove_tab_preserving_selection 0 demo_pane = Some (new_tab (Terminal 1), p') /\
    active_tab p' = Some (new_tab (Terminal 3)).
Proof.
  destruct (remove_tab_keeps_selection 0 demo_pane (new_tab (Terminal 1))) as (p' & E & _ & _ & Ha);
    [intros _; simpl; lia|done|simpl; lia|].
  exists p'. split; [exact E|]. rewrite Ha. reflexivity.
Defined.

(** [Pane::remove_tab], used when a surface exits, does not keep the
    selection: with the second of three tabs selected, removing the first one
    moves the selection to another tab although the selected one is still there. *)
Theorem remove_tab_shifts_selection :
  exists p t, pane_ok p /\ active_tab p = Some t /\ tab_surface_id t <> Some 1%Z /\
    has_surface 1 p = true /\ active_tab (snd (remove_tab 1 p)) <> Some t /\
    t ∈ tabs (snd (remove_tab 1 p)).
Proof.
  exists (select_tab 1 demo_pane), (new_tab (Terminal 2)).
  split_and!; try done; [intros _; simpl; lia|]. vm_compute. left.
Qed.

Lemma reorder_lookup from ins p t :
  tabs p !! from = Some t -> ins <= length (tabs p) ->
  let dest := if decide (from < ins) then ins - 1 else ins in
  exists p' l, reorder_tab from ins p = Some (bool_decide (dest <> from), p') /\
    l = delete from (tabs p) /\ dest <= length l /\ tabs p' = insert_at dest t l /\
    pane_id p' = pane_id p /\ pane_has_bell p' = pane_has_bell p /\
    (selected_tab p < length (tabs p) -> active_tab p' = active_tab p).
Proof.
  intros Ht Hins dest. pose proof (lookup_lt_Some _ _ _ Ht) as Hlt.
  pose proof (delete_length _ _ _ Ht) as Hlen.
  assert (dest <= length (delete from (tabs p))) as Hd
    by (unfold dest; rewrite Hlen; case_decide; lia).
  unfold reorder_tab. rewrite (Nat.min_l ins) by done. fold dest.
  destruct (decide (dest = from)) as [E|E].
  - rewrite bool_decide_false by tauto. exists p, (delete from (tabs p)). split_and!; try done.
    apply list_eq. intros j. rewrite insert_at_lookup by done. rewrite !delete_lookup.
    repeat case_decide; try lia; [done|by rewrite <- Ht; f_equal; lia|f_equal; lia].
  - rewrite bool_decide_true by done. rewrite (vec_remove_spec _ _ _ Ht). simpl.
    rewrite <- delete_take_drop. unfold vec_insert. rewrite (decide_True _ _ Hd). simpl.
    eexists _, _. split_and!; try done. intros Hsel. unfold active_tab.
    cbn [set_selected set_tabs selected_tab tabs]. rewrite insert_at_lookup by done.
    rewrite !delete_lookup. unfold dest in *. repeat case_decide; try lia; subst; try done;
      f_equal; lia.
Qed.

(** Reordering a tab inside its pane moves exactly that tab: it ends up right
    before the tab that was at the insertion index (or last), the other tabs keep
    their order, and the selected tab stays selected. *)
Theorem reorder_tab_moves_one from ins p t :
  pane_ok p -> tabs p !! from = Some t -> ins <= length (tabs p) ->
  exists changed p' dest, reorder_tab from ins p = Some (changed, p') /\
    (changed = false <-> p' = p /\ dest = from) /\
    tabs p' !! dest = Some t /\ delete dest (tabs p') = delete from (tabs p) /\
    (ins <> from -> tabs p' !! S dest = tabs p !! ins) /\
    Permutation (tabs p') (tabs p) /\ active_tab p' = active_tab p.
Proof.
  intros Hok Ht Hins. pose proof (lookup_lt_Some _ _ _ Ht) as Hlt.
  destruct (reorder_lookup from ins p t Ht Hins) as (p' & l & E & Hl & Hd & Htabs & _ & _ & Hact).
  set (dest := if decide (from < ins) then ins - 1 else ins) in *.
  exists (bool_decide (dest <> from)), p', dest.
  assert (Hlk : forall j, tabs p' !! j = if decide (j < dest) then l !! j else
    if decide (j = dest) then Some t else l !! (j - 1)%nat)
    by (intros j; rewrite Htabs; by apply insert_at_lookup).
  split_and!; try done.
  - rewrite bool_decide_eq_false. split; [|tauto]. intros Hn. split; [|by apply dec_stable].
    revert E. unfold reorder_tab. rewrite (Nat.min_l ins) by done. fold dest.
    rewrite decide_True by (by apply dec_stable). by intros [= _ ->].
  - rewrite Hlk, decide_False, decide_True by lia. done.
  - rewrite <- Hl. apply list_eq. intros j. rewrite delete_lookup, !Hlk.
    repeat case_decide; try lia; f_equal; lia.
  - intros Hne. rewrite Hlk, decide_False, decide_False by lia. rewrite Hl, delete_lookup.
    unfold dest. repeat case_decide; try lia; f_equal; lia.
  - rewrite Htabs, Hl. by apply insert_at_perm.
  - apply Hact. apply Hok. intros Hn. by rewrite Hn in Ht.
Qed.

Lemma reorder_tab_moves_one_witness :
  exists p', reorder_tab 2 0 demo_pane = Some (true, p') /\
    active_tab p' = Some (new_tab (Terminal 3)) /\
    tabs p' = [new_tab (Terminal 3); new_tab (Terminal 1); new_tab (Terminal 2)].
Proof.
  destruct (reorder_tab_moves_one 2 0 demo_pane (new_tab (Terminal 3)))
    as (ch & p' & d & E & _ & _ & _ & _ & _ & Ha); [intros _; simpl; lia|done|simpl; lia|].
  exists p'. rewrite Ha. revert E. vm_compute. by intros [= <- <-].
Defined.
