(* ===== verification/Surfaces.v ===== *)
(** * Surface registry (app/src/surfaces.rs)

    The identifiers of the terminal surfaces, the live handles and the widgets of
    surfaces that are not realised yet.  Handles and widgets are opaque values. *)

From S2P Require Import Prelude SplitTree Workspace.

Record SurfaceEntry := mkSurfaceEntry { surface : Z; gl_area : Z; im_context : Z }.

Record SurfaceRegistry := mkRegistry {
  surfaces : gmap Z SurfaceEntry;
  pending : gmap Z Z;
  reg_next_id : Z;
}.

Definition registry_new : SurfaceRegistry := mkRegistry ∅ ∅ 0.

Definition pre_allocate_id (r : SurfaceRegistry) : SurfaceId * SurfaceRegistry :=
  (reg_next_id r, mkRegistry (surfaces r) (pending r) (u32_succ (reg_next_id r))).

Definition register_with_id (id : SurfaceId) (e : SurfaceEntry) (r : SurfaceRegistry)
    : SurfaceRegistry := mkRegistry (<[id := e]> (surfaces r)) (pending r) (reg_next_id r).

Definition register (e : SurfaceEntry) (r : SurfaceRegistry) : SurfaceId * SurfaceRegistry :=
  let '(id, r) := pre_allocate_id r in (id, register_with_id id e r).

Definition unregister (id : SurfaceId) (r : SurfaceRegistry)
    : option SurfaceEntry * SurfaceRegistry :=
  (surfaces r !! id, mkRegistry (delete id (surfaces r)) (pending r) (reg_next_id r)).

Definition get_handle (id : SurfaceId) (r : SurfaceRegistry) : option Z :=
  surface <$> surfaces r !! id.
Definition get_gl_area (id : SurfaceId) (r : SurfaceRegistry) : option Z :=
  gl_area <$> surfaces r !! id.

Definition register_pending (id : SurfaceId) (area : Z) (r : SurfaceRegistry) : SurfaceRegistry :=
  mkRegistry (surfaces r) (<[id := area]> (pending r)) (reg_next_id r).
Definition get_pending_gl_area (id : SurfaceId) (r : SurfaceRegistry) : option Z :=
  pending r !! id.
Definition remove_pending (id : SurfaceId) (r : SurfaceRegistry) : SurfaceRegistry :=
  mkRegistry (surfaces r) (delete id (pending r)) (reg_next_id r).

(** Every identifier in use is below the counter. *)
Definition registry_ok (r : SurfaceRegistry) : Prop :=
  (0 <= reg_next_id r <= u32_max)%Z /\
  forall id, is_Some (surfaces r !! id) \/ is_Some (pending r !! id) -> (0 <= id < reg_next_id r)%Z.

(** The operations of a surface's life: an identifier is allocated, its widget is
    pending, the surface is realised under that identifier, and removed. *)
Inductive registry_step : SurfaceRegistry -> SurfaceRegistry -> Prop :=
  | step_register e r : (reg_next_id r < u32_max)%Z -> registry_step r (snd (register e r))
  | step_pre_allocate r : (reg_next_id r < u32_max)%Z -> registry_step r (snd (pre_allocate_id r))
  | step_pending id a r : (0 <= id < reg_next_id r)%Z -> registry_step r (register_pending id a r)
  | step_realize id e r : (0 <= id < reg_next_id r)%Z -> registry_step r (register_with_id id e r)
  | step_unregister id r : registry_step r (snd (unregister id r))
  | step_remove_pending id r : registry_step r (remove_pending id r).

Lemma registry_step_ok r r' : registry_step r r' -> registry_ok r -> registry_ok r'.
Proof.
  intros Hs [Hn Hids]. destruct Hs; unfold registry_ok, register, pre_allocate_id in *; simpl;
    rewrite ?u32_succ_small by lia; (split; [lia|]);
    intros i [Hi|Hi]; try (specialize (Hids i ltac:(by eauto)); lia);
    destruct Hi as [y Hy]; rewrite ?lookup_insert_Some, ?lookup_delete_Some in Hy;
    destruct Hy as [[<- _]|[_ Hy]] || destruct Hy as [_ Hy]; try lia;
    specialize (Hids i ltac:(by eauto)); lia.
Qed.

(** As long as the 32-bit counter has not wrapped, no identifier is ever given
    twice: after any history of registrations, allocations and removals, a newly
    allocated surface identifier belongs to no live and to no pending surface. *)
Theorem surface_ids_fresh r id r' :
  rtc registry_step registry_new r -> pre_allocate_id r = (id, r') ->
  surfaces r !! id = None /\ pending r !! id = None /\ surfaces r' = surfaces r.
Proof.
  intros Hr E.
  assert (registry_ok r) as [_ Hids].
  { assert (registry_ok registry_new) as H0.
    { split; [done|]. intros i [[x Hx]|[x Hx]]; simpl in Hx; by rewrite lookup_empty in Hx. }
    revert H0. clear E. induction Hr; eauto using registry_step_ok. }
  unfold pre_allocate_id in E. simplify_eq. split_and!; [| |done]; apply eq_None_not_Some;
    intros Hi; specialize (Hids _ ltac:(by eauto)); lia.
Qed.

Lemma surface_ids_fresh_witness :
  surfaces (snd (register (mkSurfaceEntry 7 8 9) registry_new)) !! 1%Z = None.
Proof.
  apply (surface_ids_fresh (snd (register (mkSurfaceEntry 7 8 9) registry_new)) 1
    (mkRegistry {[ 0%Z := mkSurfaceEntry 7 8 9 ]} ∅ 2)); [|by vm_compute].
  apply rtc_once, step_register. done.
Defined.
