(* ===== verification/Notebook.v ===== *)
(** * The notebook of workspace pages

    GTK's Notebook is not part of the sources; [NotebookOps] lists the calls
    window.rs makes and [NotebookLaws] their documented behaviour.  A page is
    identified by the workspace whose overlay it shows.  [list_notebook] is an
    implementation that shows the laws can hold. *)

From S2P Require Import Prelude.

Class NotebookOps (NB : Type) := {
  nb_pages : NB -> list Z;
  nb_current_page : NB -> option nat;
  nb_append_page : Z -> NB -> NB;
  nb_remove_page : nat -> NB -> NB;
  nb_set_current_page : nat -> NB -> NB;
  nb_reorder_child : Z -> nat -> NB -> NB;
}.

(** The visible page. *)
Definition nb_current {NB} `{!NotebookOps NB} (nb : NB) : option Z :=
  i ← nb_current_page nb; nb_pages nb !! i.

Class NotebookLaws (NB : Type) `{!NotebookOps NB} := {
  nb_page_range (nb : NB) i : nb_current_page nb = Some i -> i < length (nb_pages nb);
  nb_page_none (nb : NB) : nb_current_page nb = None -> nb_pages nb = [];
  nb_append_pages (nb : NB) id : nb_pages (nb_append_page id nb) = nb_pages nb ++ [id];
  nb_append_current (nb : NB) id :
    nb_pages nb <> [] -> nb_current_page (nb_append_page id nb) = nb_current_page nb;
  nb_remove_pages (nb : NB) i : nb_pages (nb_remove_page i nb) = delete i (nb_pages nb);
  nb_remove_current (nb : NB) i :
    nb_current_page nb <> Some i -> nb_current (nb_remove_page i nb) = nb_current nb;
  nb_set_pages (nb : NB) i : nb_pages (nb_set_current_page i nb) = nb_pages nb;
  nb_set_current (nb : NB) i :
    i < length (nb_pages nb) -> nb_current_page (nb_set_current_page i nb) = Some i;
  nb_reorder_pages (nb : NB) id k i :
    NoDup (nb_pages nb) -> nb_pages nb !! k = Some id -> i < length (nb_pages nb) ->
    nb_pages (nb_reorder_child id i nb) = insert_at i id (delete k (nb_pages nb));
  nb_reorder_current (nb : NB) id k i :
    NoDup (nb_pages nb) -> nb_pages nb !! k = Some id -> i < length (nb_pages nb) ->
    nb_current (nb_reorder_child id i nb) = nb_current nb;
}.

(** [page_num]: the index of a child. *)
Definition nb_page_num {NB} `{!NotebookOps NB} (id : Z) (nb : NB) : option nat :=
  position (fun x => bool_decide (x = id)) (nb_pages nb).

Lemma nb_page_num_Some {NB} `{!NotebookOps NB} id (nb : NB) k :
  nb_page_num id nb = Some k -> nb_pages nb !! k = Some id.
Proof. intros (x & Hx & ->%bool_decide_eq_true & _)%position_Some. done. Qed.

Lemma nb_page_num_at {NB} `{!NotebookOps NB} id (nb : NB) k :
  NoDup (nb_pages nb) -> nb_pages nb !! k = Some id -> nb_page_num id nb = Some k.
Proof.
  intros Hnd Hk. apply (position_unique _ _ _ id); [done|by apply bool_decide_eq_true|].
  intros j y Hj ->%bool_decide_eq_true. by eapply NoDup_lookup.
Qed.

(** ** An implementation *)

Record list_notebook := mkNotebook { ln_pages : list Z; ln_current : nat }.

Definition ln_current_page (nb : list_notebook) : option nat :=
  match ln_pages nb with [] => None | l => Some (ln_current nb `min` (length l - 1)) end.

Definition ln_index (id : Z) (l : list Z) : nat :=
  default 0 (position (fun x => bool_decide (x = id)) l).

Definition ln_reorder (id : Z) (i : nat) (nb : list_notebook) : list_notebook :=
  let pages := insert_at i id (delete (ln_index id (ln_pages nb)) (ln_pages nb)) in
  mkNotebook pages
    (match ln_current_page nb ≫= (ln_pages nb !!.) with
     | Some cur => ln_index cur pages
     | None => 0
     end).

Definition ln_remove (i : nat) (nb : list_notebook) : list_notebook :=
  let cur := default 0 (ln_current_page nb) in
  mkNotebook (delete i (ln_pages nb)) (if decide (i < cur) then cur - 1 else cur).

#[global] Instance list_notebook_ops : NotebookOps list_notebook := {|
  nb_pages := ln_pages;
  nb_current_page := ln_current_page;
  nb_append_page id nb := mkNotebook (ln_pages nb ++ [id]) (default 0 (ln_current_page nb));
  nb_remove_page := ln_remove;
  nb_set_current_page i nb := mkNotebook (ln_pages nb) i;
  nb_reorder_child := ln_reorder;
|}.

Lemma ln_index_at id l k : NoDup l -> l !! k = Some id -> ln_index id l = k.
Proof.
  intros Hnd Hk. unfold ln_index.
  rewrite (position_unique _ _ k id); [done|done|by apply bool_decide_eq_true|].
  intros j y Hj ->%bool_decide_eq_true. by eapply NoDup_lookup.
Qed.

#[global] Instance list_notebook_laws : NotebookLaws list_notebook.
Proof.
  split; simpl; unfold nb_current; simpl; unfold ln_current_page; simpl.
  - intros [[|x l] c] i; simpl; [done|]. intros [= <-]. lia.
  - by intros [[|x l] c].
  - done.
  - intros [[|x l] c] id; simpl; [done|]. intros _. f_equal. rewrite length_app. simpl. lia.
  - done.
  - intros [l c] i Hne. destruct l as [|x0 l0]; [done|].
    set (l := x0 :: l0) in *. set (cur := c `min` (length l - 1)).
    assert (i <> cur) as Hi by (intros ->; by apply Hne).
    assert (cur < length l) as Hcur by (unfold cur, l; simpl; lia).
    change (ln_current_page (mkNotebook l c)) with (Some cur). simpl.
    unfold ln_remove, ln_current_page. simpl. fold l cur.
    set (c' := if decide (i < cur) then cur - 1 else cur).
    assert (c' < length (delete i l) /\ delete i l !! c' = l !! cur) as [Hlt Hlk].
    { assert (delete i l !! c' = l !! cur) as Hlk.
      { unfold c'. rewrite delete_lookup. repeat case_decide; try lia; f_equal; lia. }
      split; [|done]. apply lookup_lt_is_Some. rewrite Hlk. by apply lookup_lt_is_Some. }
    destruct (delete i l) as [|y r] eqn:E; [simpl in Hlt; lia|]. simpl mbind. cbv beta.
    rewrite Nat.min_l by (simpl in Hlt; lia). done.
  - done.
  - intros [[|x l] c] i; simpl; [lia|]. intros Hi. f_equal. lia.
  - intros nb id k i Hnd Hk Hi. by rewrite (ln_index_at id _ k).
  - intros nb id k i Hnd Hk Hi.
    assert (ln_pages nb <> []) as Hne by (intros E; by rewrite E in Hk).
    assert (exists cur j, ln_current_page nb = Some j /\ ln_pages nb !! j = Some cur) as (cur & j & Ej & Hj).
    { unfold ln_current_page. destruct (ln_pages nb) as [|x l] eqn:E; [done|].
      destruct (lookup_lt_is_Some_2 (x :: l) (ln_current nb `min` (length (x :: l) - 1)))
        as [cur Hcur]; [simpl; lia|]. eauto. }
    unfold ln_reorder. rewrite (ln_index_at id _ k), Ej by done. simpl. rewrite Hj.
    pose proof (insert_at_perm (ln_pages nb) i k id Hk) as Hp.
    set (pages := insert_at i id (delete k (ln_pages nb))) in *.
    assert (cur ∈ pages) as [m Hm]%list_elem_of_lookup
      by (rewrite Hp; by eapply list_elem_of_lookup_2).
    rewrite (ln_index_at cur pages m) by (rewrite ?Hp; done).
    pose proof (lookup_lt_Some _ _ _ Hm) as Hlt. unfold ln_current_page. simpl.
    destruct pages as [|y r] eqn:E; [done|]. rewrite Nat.min_l by (simpl in Hlt; lia). simpl mbind. rewrite Hm. symmetry.
    change (ln_current_page nb ≫= (ln_pages nb !!.) = Some cur). by rewrite Ej.
Qed.

(** ** Bringing the pages into a given order *)

(** The loop of [reorder_workspace_views] over the workspaces, from index [i]. *)
Fixpoint sync_pages {NB} `{!NotebookOps NB} (i : nat) (ids : list Z) (nb : NB) : NB :=
  match ids with
  | [] => nb
  | id :: ids =>
      sync_pages (S i) ids
        (match nb_page_num id nb with
         | Some k => if decide (k <> i) then nb_reorder_child id i nb else nb
         | None => nb
         end)
  end.

Lemma sync_pages_spec {NB} `{NotebookLaws NB} ids : forall dn (nb : NB) rest,
  NoDup (dn ++ ids) -> nb_pages nb = dn ++ rest -> Permutation rest ids ->
  nb_pages (sync_pages (length dn) ids nb) = dn ++ ids /\
  nb_current (sync_pages (length dn) ids nb) = nb_current nb.
Proof.
  induction ids as [|id ids IH]; intros dn nb rest Hnd Hp Hperm; simpl.
  - apply Permutation_nil_r in Hperm as ->. done.
  - assert (NoDup (nb_pages nb)) as Hndp by (by rewrite Hp, Hperm).
    assert (id ∈ rest) as [k Hk]%list_elem_of_lookup by (rewrite Hperm; left).
    assert (nb_pages nb !! (length dn + k) = Some id) as Hk'.
    { rewrite Hp, lookup_app_r by lia. by replace (length dn + k - length dn) with k by lia. }
    rewrite (nb_page_num_at _ _ _ Hndp Hk').
    assert (forall nb' : NB, nb_pages nb' = (dn ++ [id]) ++ delete k rest ->
      nb_pages (sync_pages (S (length dn)) ids nb') = dn ++ id :: ids /\
      nb_current (sync_pages (S (length dn)) ids nb') = nb_current nb') as Hgo.
    { intros nb' Hp'. rewrite (cons_middle id dn ids), (assoc_L (++)).
      replace (S (length dn)) with (length (dn ++ [id])) by (rewrite length_app; simpl; lia).
      apply (IH _ _ (delete k rest)); [by rewrite <- (assoc_L (++))|done|].
      apply (Permutation_cons_inv (a := id)). by rewrite <- (delete_Permutation rest k id Hk). }
    case_decide as Hne.
    + pose proof (lookup_lt_Some _ _ _ Hk') as Hlt.
      destruct (Hgo (nb_reorder_child id (length dn) nb)) as [-> ->].
      * rewrite (nb_reorder_pages nb id (length dn + k)) by (done || lia).
        rewrite Hp. unfold insert_at. rewrite delete_take_drop, take_app_add, drop_app_ge by lia.
        rewrite <- (assoc_L (++)), take_app_length, drop_app_length, <- (assoc_L (++)). simpl.
        do 2 f_equal. rewrite delete_take_drop. do 2 f_equal. lia.
      * split; [done|]. apply (nb_reorder_current nb id (length dn + k)); done || lia.
    + apply Hgo. rewrite Hp. assert (k = 0) as -> by lia. destruct rest as [|y r]; [done|].
      simpl in Hk. simplify_eq. by rewrite <- (assoc_L (++)).
Qed.
