(* ===== verification/Window.v ===== *)
(** * Application window: state and workspace operations (app/src/window.rs)

    [AppWindow] keeps the data of the window: the workspaces, the notebook that
    shows one page per workspace, the surface registry, the identifier counters,
    and the log of effects on other parts of the program (D-Bus signals, requests
    to close surfaces, the remote controller, ...).  GTK widgets are not
    modelled: a guard of the source that only looks widgets up is the boolean
    argument [ui] of the operation.  A Rust panic is [None]. *)

From Stdlib Require Import Ascii.
From stdpp Require Import sorting.
From S2P Require Import Prelude F64 SplitTree RustStr RemoteConfig Workspace Tabs Surfaces Notebook.
Open Scope string_scope.
Open Scope list_scope.

Inductive DbusSignal :=
  | WorkspaceCreated (id : WorkspaceId) (title : string)
  | WorkspaceClosed (id : WorkspaceId)
  | WorkspaceSwitched (id : WorkspaceId)
  | WorkspaceRenamed (id : WorkspaceId) (title : string)
  | BellFired (workspace_id : WorkspaceId) (surface_id : SurfaceId)
  | TitleChanged (surface_id : SurfaceId) (title : string)
  | RemoteStateChanged (workspace_id : WorkspaceId) (state detail : string).

Inductive Effect :=
  | Emit (s : DbusSignal)
  | CreateSurface (wd command : option string) (id : SurfaceId)
  | RequestClose (handle : Z)
  | UnregisterBrowser (id : BrowserPanelId)
  | SetProxy (id : BrowserPanelId) (ep : option ProxyEndpoint)
  | ControllerConnect (id : WorkspaceId) (cfg : RemoteConfiguration)
  | ControllerReconnect (id : WorkspaceId) (cfg : RemoteConfiguration)
  | ControllerDisconnect (id : WorkspaceId)
  | BellNotification (title : string) (id : WorkspaceId)
  | DetectGitBranch (id : WorkspaceId) (dir : string)
  | CloseWindow.

(** The tray's copy of the workspace list. *)
Record TrayWorkspaceEntry := mkTrayEntry { te_id : WorkspaceId; te_title : string; te_has_bell : bool }.

Record AppWindow (NB : Type) := mkAppWindow {
  notebook : NB;
  workspaces : list Workspace;
  app_working_directory : option string;
  app_command : option string;
  sidebar_visible : bool;
  sidebar_last_width : Z;
  paned_position : Z;
  pane_counter : Z;
  workspace_counter : Z;
  registry : SurfaceRegistry;
  tray : list TrayWorkspaceEntry;
  effects : list Effect;
}.
#[global] Arguments mkAppWindow {_}.
#[global] Arguments notebook {_}.
#[global] Arguments workspaces {_}.
#[global] Arguments app_working_directory {_}.
#[global] Arguments app_command {_}.
#[global] Arguments sidebar_visible {_}.
#[global] Arguments sidebar_last_width {_}.
#[global] Arguments paned_position {_}.
#[global] Arguments pane_counter {_}.
#[global] Arguments workspace_counter {_}.
#[global] Arguments registry {_}.
#[global] Arguments tray {_}.
#[global] Arguments effects {_}.

Section window.
  Context {NB : Type} `{!NotebookOps NB}.
  (** The iteration order of the hash map of panes. *)
  Context (ord : gmap Z Pane -> list PaneId).
  Implicit Types (aw : AppWindow NB).

Definition set_notebook (nb : NB) aw : AppWindow NB :=
  mkAppWindow nb (workspaces aw) (app_working_directory aw) (app_command aw) (sidebar_visible aw)
    (sidebar_last_width aw) (paned_position aw) (pane_counter aw) (workspace_counter aw)
    (registry aw) (tray aw) (effects aw).
Definition set_workspaces (l : list Workspace) aw : AppWindow NB :=
  mkAppWindow (notebook aw) l (app_working_directory aw) (app_command aw) (sidebar_visible aw)
    (sidebar_last_width aw) (paned_position aw) (pane_counter aw) (workspace_counter aw)
    (registry aw) (tray aw) (effects aw).
Definition set_sidebar (visible : bool) (width pos : Z) aw : AppWindow NB :=
  mkAppWindow (notebook aw) (workspaces aw) (app_working_directory aw) (app_command aw) visible
    width pos (pane_counter aw) (workspace_counter aw) (registry aw) (tray aw) (effects aw).
Definition set_counters (p w : Z) aw : AppWindow NB :=
  mkAppWindow (notebook aw) (workspaces aw) (app_working_directory aw) (app_command aw)
    (sidebar_visible aw) (sidebar_last_width aw) (paned_position aw) p w
    (registry aw) (tray aw) (effects aw).
Definition set_registry (r : SurfaceRegistry) aw : AppWindow NB :=
  mkAppWindow (notebook aw) (workspaces aw) (app_working_directory aw) (app_command aw)
    (sidebar_visible aw) (sidebar_last_width aw) (paned_position aw) (pane_counter aw)
    (workspace_counter aw) r (tray aw) (effects aw).
Definition effect (e : Effect) aw : AppWindow NB :=
  mkAppWindow (notebook aw) (workspaces aw) (app_working_directory aw) (app_command aw)
    (sidebar_visible aw) (sidebar_last_width aw) (paned_position aw) (pane_counter aw)
    (workspace_counter aw) (registry aw) (tray aw) (effects aw ++ [e]).
Definition update_tray_state aw : AppWindow NB :=
  mkAppWindow (notebook aw) (workspaces aw) (app_working_directory aw) (app_command aw)
    (sidebar_visible aw) (sidebar_last_width aw) (paned_position aw) (pane_counter aw)
    (workspace_counter aw) (registry aw)
    ((fun w => mkTrayEntry (ws_id w) (display_title w) (ws_has_bell w)) <$> workspaces aw)
    (effects aw).

(** ** Lookups *)

Definition has_id (id : WorkspaceId) (w : Workspace) : bool := bool_decide (ws_id w = id).

(** [aw.notebook.current_page()] when it is the index of a workspace. *)
Definition current_ws_idx aw : option nat :=
  i ← nb_current_page (notebook aw);
  if decide (i < length (workspaces aw)) then Some i else None.
Definition current_ws aw : option Workspace :=
  i ← current_ws_idx aw; workspaces aw !! i.

Definition update_ws_at (i : nat) (f : Workspace -> Workspace) aw : AppWindow NB :=
  set_workspaces (alter f i (workspaces aw)) aw.
(** [workspaces.iter_mut().find(|ws| ws.id == id)] and an update of it. *)
Definition update_ws (id : WorkspaceId) (f : Workspace -> Workspace) aw : AppWindow NB :=
  set_workspaces (update_first (has_id id) f (workspaces aw)) aw.
Definition update_pane (pid : PaneId) (f : Pane -> Pane) (w : Workspace) : Workspace :=
  ws_set_panes (alter f pid (ws_panes w)) w.

(** The first workspace for which [f] answers, with its index. *)
Fixpoint find_ws {A} (f : Workspace -> option A) (i : nat) (l : list Workspace)
    : option (nat * Workspace * A) :=
  match l with
  | [] => None
  | w :: l => match f w with Some a => Some (i, w, a) | None => find_ws f (S i) l end
  end.

Definition find_workspace_with_surface (sid : SurfaceId) aw : option (nat * WorkspaceId * PaneId) :=
  '(i, w, p) ← find_ws (fun w => pane_for_surface sid (ord (ws_panes w)) w) 0 (workspaces aw);
  Some (i, ws_id w, p).
Definition find_workspace_with_browser (bid : BrowserPanelId) aw
    : option (nat * WorkspaceId * PaneId) :=
  '(i, w, p) ← find_ws (fun w => pane_for_browser bid (ord (ws_panes w)) w) 0 (workspaces aw);
  Some (i, ws_id w, p).
Definition find_workspace_of_pane (pid : PaneId) aw : option (nat * Workspace * Pane) :=
  find_ws (fun w => ws_panes w !! pid) 0 (workspaces aw).

Definition workspace_id_for_pane (pid : PaneId) aw : option WorkspaceId :=
  '(_, w, _) ← find_workspace_of_pane pid aw; Some (ws_id w).

Definition pane_tab_count_for_identity (pid : PaneId) (i : TabDragIdentity) aw : option nat :=
  '(_, _, n) ← find_ws (fun w => p ← ws_panes w !! pid;
                          if existsb (fun t => matches_panel i (tab_panel t)) (tabs p)
                          then Some (length (tabs p)) else None) 0 (workspaces aw);
  Some n.

Definition tab_insertion_for_pane (pid : PaneId) (insertion_index : nat) aw : option TabInsertion :=
  '(_, _, p) ← find_workspace_of_pane pid aw;
  Some (match tabs p !! insertion_index with
        | Some t => Before (panel_drag_identity (tab_panel t))
        | None => Append
        end).

Definition tab_count aw : nat := length (workspaces aw).
Definition workspace_count aw : nat := tab_count aw.
Definition focused_workspace_id aw : option WorkspaceId := ws_id <$> current_ws aw.
Definition current_workspace_info aw : option (WorkspaceId * string) :=
  (fun w => (ws_id w, display_title w)) <$> current_ws aw.
Definition find_ws_by_id (id : WorkspaceId) aw : option Workspace :=
  List.find (has_id id) (workspaces aw).
Definition list_panes (id : WorkspaceId) aw : option (list PaneId) :=
  w ← find_ws_by_id id aw; Some (ord (ws_panes w)).
Definition list_workspaces_detailed aw : list (WorkspaceId * string * nat * bool * option string) :=
  (fun w => (ws_id w, display_title w, size (ws_panes w), pinned w, color_display <$> color w))
    <$> workspaces aw.

(** The tab whose directory a new terminal inherits: the active tab of the
    focused pane. *)
Definition focused_tab (w : Workspace) : option Tab :=
  pid ← ws_focused_pane w; p ← ws_panes w !! pid; active_tab p.
Definition inherited_wd (w : option Workspace) aw : option string :=
  match (w ≫= focused_tab) ≫= tab_working_directory with
  | Some d => Some d
  | None => app_working_directory aw
  end.

Definition rename_tab (pid : PaneId) (tab_idx : nat) (new_name : string) aw : AppWindow NB :=
  match find_workspace_of_pane pid aw with
  | None => aw
  | Some (i, _, _) =>
      update_ws_at i (update_pane pid (fun p => set_tabs (alter (set_title new_name) tab_idx (tabs p)) p)) aw
  end.

(** ** Creating and removing workspaces *)

(** The part shared by [new_workspace] and [new_remote_workspace] after the
    workspace has been built: its page is appended and shown. *)
Definition install_workspace (w : Workspace) (title : string) aw : AppWindow NB :=
  let nb := nb_append_page (ws_id w) (notebook aw) in
  let nb := nb_set_current_page (length (nb_pages nb) - 1) nb in
  effect (Emit (WorkspaceCreated (ws_id w) title))
    (update_tray_state (set_workspaces (workspaces aw ++ [w]) (set_notebook nb aw))).

Definition new_workspace aw : AppWindow NB :=
  let wd := inherited_wd (current_ws aw) aw in
  let '(sid, r) := pre_allocate_id (registry aw) in
  let '(wid, wc) := fetch_next (workspace_counter aw) in
  let '(p, pc) := Pane_new (pane_counter aw) sid in
  let title := "Workspace " +:+ show_uint (Z.of_nat (length (workspaces aw)) + 1) in
  let w := ws_set_title title (ws_set_tree (new_with_pane (pane_id p))
             (snd (add_pane p (Workspace_new wid)))) in
  install_workspace w title
    (effect (CreateSurface wd (app_command aw) sid) (set_counters pc wc (set_registry r aw))).

(** [free_port] is the port the operating system gives, if any; [urandom] the
    random source. *)
Definition complete_config (free_port : option Z) (urandom : nat -> option string)
    (c : RemoteConfiguration) : RemoteConfiguration :=
  mkRemoteConfiguration (destination c) (port c) (identity_file c) (ssh_options c)
    (terminal_startup_command c)
    (match relay_port c with Some p => Some p | None => free_port end)
    (match relay_id c with Some i => Some i | None => Some (generate_relay_id urandom) end)
    (match relay_token c with Some t => Some t | None => Some (generate_relay_token urandom) end)
    (local_socket_path c).

Definition new_remote_workspace (free_port : option Z) (urandom : nat -> option string)
    (c : RemoteConfiguration) aw : option WorkspaceId * AppWindow NB :=
  let c := complete_config free_port urandom c in
  let rp := default 0%Z (relay_port c) in
  let cmd := if decide (0 < rp)%Z then generate_startup_command c rp else ssh_command c in
  let '(sid, r) := pre_allocate_id (registry aw) in
  let '(wid, wc) := fetch_next (workspace_counter aw) in
  let '(p, pc) := Pane_new (pane_counter aw) sid in
  let title := display_target c in
  let w := ws_set_remote (Some c) Connecting None None (Workspace_new wid) in
  let w := ws_set_custom_title (Some title) (ws_set_title title
             (ws_set_tree (new_with_pane (pane_id p)) (snd (add_pane p w)))) in
  (Some wid,
   effect (ControllerConnect wid c)
     (install_workspace w title
       (effect (CreateSurface (app_working_directory aw) (Some cmd) sid)
         (set_counters pc wc (set_registry r aw))))).

Definition remove_workspace_at (idx : nat) aw : option (AppWindow NB) :=
  w ← workspaces aw !! idx;
  let aw := if decide (is_Some (remote_config w)) then effect (ControllerDisconnect (ws_id w)) aw
            else aw in
  let aw := set_workspaces (delete idx (workspaces aw)) aw in
  let aw := set_notebook (nb_remove_page (default 0 (nb_page_num (ws_id w) (notebook aw)))
                            (notebook aw)) aw in
  Some (effect (Emit (WorkspaceClosed (ws_id w))) (update_tray_state aw)).

(** ** Switching *)

Definition set_page (i : nat) aw : AppWindow NB :=
  set_notebook (nb_set_current_page i (notebook aw)) aw.

Definition goto_workspace (idx : Z) aw : AppWindow NB :=
  if decide (0 <= idx < Z.of_nat (length (workspaces aw)))%Z then set_page (Z.to_nat idx) aw else aw.

(** [(cur + 1) % n] and [(cur - 1 + n) % n]. *)
Definition relative_index (forward : bool) (cur n : nat) : nat :=
  if forward then (cur + 1) mod n else (cur + n - 1) mod n.

Definition goto_workspace_relative (forward : bool) aw : AppWindow NB :=
  let n := length (workspaces aw) in
  if decide (n = 0) then aw
  else set_page (relative_index forward (default 0 (nb_current_page (notebook aw))) n) aw.

Definition goto_tab (idx : Z) aw : AppWindow NB :=
  let n := length (workspaces aw) in
  if decide (n = 0) then aw
  else
    let cur := default 0 (nb_current_page (notebook aw)) in
    if decide (idx = -1)%Z then set_page (relative_index false cur n) aw
    else if decide (idx = -2)%Z then set_page (relative_index true cur n) aw
    else if decide (idx = -3)%Z then set_page (n - 1) aw
    else if decide (0 <= idx < Z.of_nat n)%Z then set_page (Z.to_nat idx) aw
    else aw.

Definition select_workspace_by_id (id : WorkspaceId) aw : bool * AppWindow NB :=
  match position (has_id id) (workspaces aw) with
  | Some idx => (true, effect (Emit (WorkspaceSwitched id)) (set_page idx aw))
  | None => (false, aw)
  end.

(** ** Order of the workspaces *)

Definition reorder_workspace_views aw : AppWindow NB :=
  set_notebook (sync_pages 0 (ws_id <$> workspaces aw) (notebook aw)) aw.

Definition pin_key (w : Workspace) : nat := if pinned w then 0 else 1.

Definition reorder_workspaces_for_pin aw : AppWindow NB :=
  reorder_workspace_views (set_workspaces (sort_by_key pin_key (workspaces aw)) aw).

Definition toggle_workspace_pinned (id : WorkspaceId) aw : AppWindow NB :=
  match position (has_id id) (workspaces aw) with
  | None => aw
  | Some i => reorder_workspaces_for_pin (update_ws_at i (fun w => ws_set_pinned (negb (pinned w)) w) aw)
  end.

Definition move_workspace (source_id target_id : WorkspaceId) (before : bool) aw
    : option (AppWindow NB) :=
  match position (has_id source_id) (workspaces aw), position (has_id target_id) (workspaces aw) with
  | Some si, Some ti =>
      s ← workspaces aw !! si;
      t ← workspaces aw !! ti;
      if decide (pinned s <> pinned t) then Some aw
      else
        '(w, rest) ← vec_remove si (workspaces aw);
        let ti := default 0 (position (has_id target_id) rest) in
        l ← vec_insert (if before then ti else ti + 1) w rest;
        Some (reorder_workspace_views (set_workspaces l aw))
  | _, _ => Some aw
  end.

(** ** Metadata *)

Definition rename_workspace (id : WorkspaceId) (new_name : string) aw : AppWindow NB :=
  effect (Emit (WorkspaceRenamed id new_name))
    (update_tray_state
       (update_ws id (fun w => ws_set_title new_name (ws_set_custom_title (Some new_name) w)) aw)).

Definition set_workspace_color (id : WorkspaceId) (c : option WorkspaceColor) aw : AppWindow NB :=
  update_ws id (ws_set_color c) aw.

Definition set_workspace_status (id : WorkspaceId) (key value : string)
    (icon clr : option string) (priority : Z) aw : AppWindow NB :=
  update_ws id (fun w => ws_set_status (<[key := mkStatus key value icon clr priority]> (status_entries w)) w) aw.
Definition clear_workspace_status (id : WorkspaceId) (key : string) aw : AppWindow NB :=
  update_ws id (fun w => ws_set_status (delete key (status_entries w)) w) aw.

(** [push], then drop the oldest entry beyond 50. *)
Definition push_log (e : SidebarLogEntry) (l : list SidebarLogEntry) : list SidebarLogEntry :=
  let l := l ++ [e] in if decide (50 < length l) then delete 0 l else l.
Definition add_workspace_log (id : WorkspaceId) (message : string) (level : LogLevel)
    (source : option string) (now : Z) aw : AppWindow NB :=
  update_ws id (fun w => ws_set_log (push_log (mkLog message level source now) (log_entries w)) w) aw.
Definition clear_workspace_log (id : WorkspaceId) aw : AppWindow NB :=
  update_ws id (ws_set_log []) aw.

Definition set_workspace_progress (id : WorkspaceId) (value : f64) (label : option string) aw
    : AppWindow NB := update_ws id (ws_set_progress (Some (mkProgress value label))) aw.
Definition clear_workspace_progress (id : WorkspaceId) aw : AppWindow NB :=
  update_ws id (ws_set_progress None) aw.

Definition update_workspace_branch (id : WorkspaceId) (branch : option string) aw : AppWindow NB :=
  update_ws id (ws_set_git_branch branch) aw.

Definition toggle_sidebar aw : AppWindow NB :=
  if sidebar_visible aw then
    set_sidebar false (if decide (0 < paned_position aw)%Z then paned_position aw
                       else sidebar_last_width aw) 0 aw
  else set_sidebar true (sidebar_last_width aw) (sidebar_last_width aw) aw.

(** ** Remote workspaces *)

Definition remote_target (id : option WorkspaceId) aw : option WorkspaceId :=
  match id with
  | Some id => Some id
  | None =>
      let is_remote w := bool_decide (is_Some (remote_config w)) in
      match current_ws aw with
      | Some w => if is_remote w then Some (ws_id w)
                  else ws_id <$> List.find is_remote (workspaces aw)
      | None => ws_id <$> List.find is_remote (workspaces aw)
      end
  end.

Definition disconnect_remote (id : option WorkspaceId) (clear : bool) aw : AppWindow NB :=
  match remote_target id aw with
  | None => aw
  | Some id =>
      update_ws id (fun w => ws_set_remote (if clear then None else remote_config w)
                               Disconnected None (proxy_endpoint w) w)
        (effect (ControllerDisconnect id) aw)
  end.

Definition reconnect_remote (id : option WorkspaceId) aw : AppWindow NB :=
  match remote_target id aw with
  | None => aw
  | Some id =>
      match find_ws_by_id id aw ≫= remote_config with
      | Some cfg => effect (ControllerReconnect id cfg) aw
      | None => aw
      end
  end.

Definition update_remote_state (id : WorkspaceId) (st : RemoteConnectionState)
    (ds : option RemoteDaemonStatus) aw : AppWindow NB :=
  update_ws id (fun w => ws_set_remote (remote_config w) st ds (proxy_endpoint w) w) aw.

Definition update_proxy_endpoint (id : WorkspaceId) (ep : option ProxyEndpoint) aw : AppWindow NB :=
  match position (has_id id) (workspaces aw) with
  | None => aw
  | Some i =>
      let aw := update_ws_at i (fun w => ws_set_remote (remote_config w) (remote_state w)
                                           (remote_daemon_status w) ep w) aw in
      match workspaces aw !! i with
      | None => aw
      | Some w => foldl (fun aw bid => effect (SetProxy bid ep) aw) aw
                    (all_browser_ids (ord (ws_panes w)) w)
      end
  end.

End window.
