(* ===== verification/WindowTabs.v ===== *)
(** * Application window: panes, tabs and surfaces (app/src/window.rs)

    The operations of the window on the panes and tabs of its workspaces: splits,
    closing, drags within and across workspaces, focus, titles and bells.  As in
    Window, [ui] stands for the guards of the source that look GTK widgets up, and
    [None] is a Rust panic ([expect], an index out of range). *)

From Stdlib Require Import Ascii.
From S2P Require Import Prelude F64 SplitTree RustStr RemoteConfig Workspace Tabs Surfaces Notebook Window.
Open Scope string_scope.
Open Scope list_scope.

(** ** Working directory from a terminal title *)

(** [&title\[rfind(c) + 1..\]], or the whole string. *)
Fixpoint after_last (c : ascii) (s : string) : string :=
  match s with
  | "" => ""
  | String a r => if has_byte c r then after_last c r else if byte_eqb a c then r else s
  end.

Definition extract_directory (home : option string) (title : string) : option string :=
  let path := trim (after_last ":" title) in
  match path with
  | String c rest =>
      if byte_eqb c "~" then Some (match home with Some h => h +:+ rest | None => path end)
      else if byte_eqb c "/" then Some path else None
  | "" => None
  end.

(** User input as a URL: a scheme, a domain, or a web search. *)
Definition normalize_url (input : string) : string :=
  let trimmed := trim input in
  match trimmed with
  | "" => ""
  | _ =>
      if starts_with "http://" trimmed || starts_with "https://" trimmed
         || starts_with "file://" trimmed then trimmed
      else if has_byte "." trimmed && negb (has_byte " " trimmed) then "https://" +:+ trimmed
      else "https://www.google.com/search?q=" +:+ replace_char " " "+" trimmed
  end.

Section tabs.
  Context {NB : Type} `{!NotebookOps NB}.
  Context (ord : gmap Z Pane -> list PaneId).
  Implicit Types (aw : AppWindow NB).

Definition set_pane_active (i : nat) (pid : PaneId) aw : AppWindow NB :=
  update_ws_at i (set_focused_pane pid) aw.

Definition drop_pane (pid : PaneId) (w : Workspace) : Workspace :=
  snd (remove_pane pid (ws_set_tree (snd (remove pid (split_tree w))) w)).

Definition remove_pane_from_split (i : nat) (pid : PaneId) aw : AppWindow NB :=
  update_ws_at i (drop_pane pid) aw.

(** Focus the pane that the tree of workspace [i] now has focused. *)
Definition refocus (i : nat) aw : AppWindow NB :=
  match workspaces aw !! i ≫= ws_focused_pane with
  | Some next => set_pane_active i next aw
  | None => aw
  end.

(** ** Closing *)

(** The common body of [close_surface] and [close_browser]: the panel is in pane
    [pid] of workspace [i] and [rm] removes its tab. *)
Definition close_panel_at (i : nat) (pid : PaneId) (rm : Pane -> bool * Pane) aw
    : option (AppWindow NB) :=
  w ← workspaces aw !! i;
  let tab_count := match ws_panes w !! pid with Some p => length (tabs p) | None => 0 end in
  if decide (tab_count <= 1 /\ size (ws_panes w) <= 1) then
    aw ← remove_workspace_at i aw;
    Some (match workspaces aw with [] => effect CloseWindow aw | _ => aw end)
  else if decide (tab_count <= 1) then Some (refocus i (remove_pane_from_split i pid aw))
  else Some (update_ws_at i (update_pane pid (fun p => snd (rm p))) aw).

Definition close_surface (sid : SurfaceId) aw : option (AppWindow NB) :=
  match find_workspace_with_surface ord sid aw with
  | None => Some aw
  | Some (i, _, pid) =>
      close_panel_at i pid (remove_tab sid)
        (set_registry (snd (unregister sid (registry aw))) aw)
  end.

Definition close_browser (bid : BrowserPanelId) aw : option (AppWindow NB) :=
  match find_workspace_with_browser ord bid aw with
  | None => Some aw
  | Some (i, _, pid) =>
      close_panel_at i pid (remove_browser_tab bid) (effect (UnregisterBrowser bid) aw)
  end.

Definition request_close (panel : PanelKind) aw : option (AppWindow NB) :=
  match panel with
  | Terminal sid =>
      Some (match get_handle sid (registry aw) with
            | Some h => effect (RequestClose h) aw
            | None => aw
            end)
  | Browser bid _ => close_browser bid aw
  end.

Fixpoint request_close_all (panels : list PanelKind) aw : option (AppWindow NB) :=
  match panels with
  | [] => Some aw
  | p :: panels => aw ← request_close p aw; request_close_all panels aw
  end.

Definition close_workspace (id : WorkspaceId) aw : option (AppWindow NB) :=
  match find_ws_by_id id aw with
  | None => Some aw
  | Some w => request_close_all (all_panels (ord (ws_panes w)) w) aw
  end.

Definition close_current_workspace aw : option (AppWindow NB) :=
  match current_ws aw with
  | None => Some aw
  | Some w => if pinned w then Some aw
              else request_close_all (all_panels (ord (ws_panes w)) w) aw
  end.

Definition close_workspace_by_id (id : WorkspaceId) aw : option (bool * AppWindow NB) :=
  match find_ws_by_id id aw with
  | None => Some (false, aw)
  | Some w =>
      if pinned w then Some (false, aw)
      else aw ← request_close_all (all_panels (ord (ws_panes w)) w) aw; Some (true, aw)
  end.

Definition close_pane_tab aw : option (AppWindow NB) :=
  match current_ws aw ≫= focused_tab with
  | Some t => request_close (tab_panel t) aw
  | None => Some aw
  end.

(** ** Splitting and navigation *)

(** Add [p] to the workspace and split [from] with it. *)
Definition split_in (from : PaneId) (p : Pane) (o : Orientation) (w : Workspace) : Workspace :=
  let w := snd (add_pane p w) in
  ws_set_tree (snd (split from (pane_id p) o (split_tree w))) w.

Definition split_focused (o : Orientation) aw : AppWindow NB :=
  match current_ws_idx aw, current_ws aw with
  | Some i, Some w =>
      match ws_focused_pane w with
      | None => aw
      | Some from =>
          let wd := inherited_wd (Some w) aw in
          let '(sid, r) := pre_allocate_id (registry aw) in
          let '(pid, pc) := fetch_next (pane_counter aw) in
          update_ws_at i (split_in from (Pane_new_with_id pid sid) o)
            (effect (CreateSurface wd (app_command aw) sid)
              (set_counters pc (workspace_counter aw) (set_registry r aw)))
      end
  | _, _ => aw
  end.

(** [bid] is the identifier the browser module allocates. *)
Definition split_browser_in_workspace (bid : BrowserPanelId) (i : nat) (from : PaneId)
    (o : Orientation) (url : string) aw : AppWindow NB :=
  let '(pid, pc) := fetch_next (pane_counter aw) in
  set_pane_active i pid
    (update_ws_at i (split_in from (Pane_new_browser_with_id pid bid url) o)
      (set_counters pc (workspace_counter aw) aw)).

Definition split_focused_browser (bid : BrowserPanelId) (o : Orientation) (url : string) aw
    : AppWindow NB :=
  let url := normalize_url url in
  match current_ws_idx aw, current_ws aw ≫= ws_focused_pane with
  | Some i, Some from => split_browser_in_workspace bid i from o url aw
  | _, _ => aw
  end.

(** The workspace and pane a popup of [opener] opens next to. *)
Definition popup_place (opener : BrowserPanelId) aw : option (nat * PaneId) :=
  match find_workspace_with_browser ord opener aw with
  | Some (i, _, pid) => Some (i, pid)
  | None =>
      let page := default 0 (nb_current_page (notebook aw)) in
      w ← workspaces aw !! page; from ← ws_focused_pane w; Some (page, from)
  end.

Definition open_browser_popup (opener_live : bool) (bid opener : BrowserPanelId) (url : string) aw
    : AppWindow NB :=
  if opener_live then
    match popup_place opener aw with
    | Some (i, from) => split_browser_in_workspace bid i from Horizontal url aw
    | None => aw
    end
  else aw.

Definition on_browser_title_changed (bid : BrowserPanelId) (title : string) aw : AppWindow NB :=
  match find_workspace_with_browser ord bid aw with
  | None => aw
  | Some (i, _, pid) =>
      update_ws_at i (fun w => update_title_from_focused
                                 (update_pane pid (set_browser_tab_title bid title) w)) aw
  end.

(** The callback of [connect_paned_ratio_sync] for a divider moved to [pos] of
    [total]: [f64::clamp(0.05, 0.95)] of the quotient. *)
Definition f64_clamp (lo hi x : f64) : f64 :=
  let x := if f64_ltb x lo then lo else x in if f64_ltb hi x then hi else x.
Definition paned_moved (id : WorkspaceId) (node : NodeId) (pos total : Z) aw : AppWindow NB :=
  if decide (total <= 0)%Z then aw
  else
    let ratio := f64_clamp (f64_lit 5 100) (f64_lit 95 100)
                   (f64_div (f64_of_Z pos) (f64_of_Z total)) in
    update_ws id (fun w => ws_set_tree (set_ratio node ratio (split_tree w)) w) aw.

Definition navigate_split (forward : bool) aw : AppWindow NB :=
  match current_ws_idx aw with
  | None => aw
  | Some i => update_ws_at i (fun w => ws_set_tree (snd (navigate forward (split_tree w))) w) aw
  end.

Definition navigate_direction (d : Direction) aw : AppWindow NB :=
  match current_ws_idx aw, current_ws aw with
  | Some i, Some w =>
      match navigate_directional d (split_tree w) with
      | (Some pid, t) => set_pane_active i pid (update_ws_at i (ws_set_tree t) aw)
      | (None, t) => update_ws_at i (ws_set_tree t) aw
      end
  | _, _ => aw
  end.

Definition equalize_splits aw : AppWindow NB :=
  match current_ws_idx aw with
  | None => aw
  | Some i => update_ws_at i (fun w => ws_set_tree (equalize (split_tree w)) w) aw
  end.

(** ** Drags *)

Definition move_pane (source target : PaneId) (before : bool) (o : Orientation) aw : AppWindow NB :=
  match current_ws_idx aw, current_ws aw with
  | Some i, Some w =>
      if decide (ws_panes w !! source = None \/ ws_panes w !! target = None) then aw
      else
        match move_pane_adjacent source target before o (split_tree w) with
        | (false, t) => update_ws_at i (ws_set_tree t) aw
        | (true, t) => set_pane_active i source (update_ws_at i (ws_set_tree t) aw)
        end
  | _, _ => aw
  end.

(** The new pane that receives an extracted tab, with the tab's metadata. *)
Definition extracted_pane (pid : PaneId) (t : Tab) : Pane :=
  mkPane pid [mkTab (tab_panel t) (tab_title t) (tab_working_directory t) (tab_wd_from_osc7 t)] 0 false.

Definition split_side (before : bool) : PaneId -> PaneId -> Orientation -> SplitTree
    -> option NodeId * SplitTree := if before then split_before else split.

(** Take tab [k] out of pane [src] and put it into a new pane next to [dst];
    [collapse] removes [src] when it is left empty. *)
Definition extract_tab (collapse : bool) (src : PaneId) (k : nat) (dst new : PaneId)
    (before : bool) (o : Orientation) (w : Workspace) : option Workspace :=
  sp ← ws_panes w !! src;
  '(t, sp') ← remove_tab_preserving_selection k sp;
  let w := ws_set_panes (<[src := sp']> (ws_panes w)) w in
  let w := snd (add_pane (extracted_pane new t) w) in
  let w := if decide (collapse = true /\ tabs sp' = []) then drop_pane src w else w in
  match split_side before dst new o (split_tree w) with
  | (Some _, tree) => Some (set_focused_pane new (ws_set_tree tree w))
  | (None, _) => None
  end.

Definition split_tab_to_pane (ui : bool) (src : PaneId) (ident : TabDragIdentity)
    (o : Orientation) (before : bool) aw : option (AppWindow NB) :=
  match current_ws_idx aw, current_ws aw with
  | Some i, Some w =>
      match ws_panes w !! src with
      | None => Some aw
      | Some sp =>
          if decide (length (tabs sp) < 2 \/ node_id_for_pane src (split_tree w) = None) then Some aw
          else match tab_index_for_identity sp ident with
          | None => Some aw
          | Some k =>
              if negb ui then Some aw
              else
                let '(new, pc) := fetch_next (pane_counter aw) in
                w' ← extract_tab false src k src new before o w;
                Some (update_ws_at i (fun _ => w') (set_counters pc (workspace_counter aw) aw))
          end
      end
  | _, _ => Some aw
  end.

Definition split_tab_to_pane_target (ui : bool) (src : PaneId) (ident : TabDragIdentity)
    (dst : PaneId) (o : Orientation) (before : bool) aw : option (AppWindow NB) :=
  match current_ws_idx aw, current_ws aw with
  | Some i, Some w =>
      if decide (src = dst \/ node_id_for_pane src (split_tree w) = None
                 \/ node_id_for_pane dst (split_tree w) = None) then Some aw
      else
        match sp ← ws_panes w !! src; tab_index_for_identity sp ident with
        | None => Some aw
        | Some k =>
            if negb ui then Some aw
            else
              let '(new, pc) := fetch_next (pane_counter aw) in
              w' ← extract_tab true src k dst new before o w;
              Some (update_ws_at i (fun _ => w') (set_counters pc (workspace_counter aw) aw))
        end
  | _, _ => Some aw
  end.

(** The model part of [move_tab_to_pane]: tab [k] of [src] goes to index [ti] of
    [dst], which selects it. *)
Definition move_tab (src : PaneId) (k : nat) (dst : PaneId) (ti : nat) (w : Workspace)
    : option Workspace :=
  sp ← ws_panes w !! src;
  '(t, sp') ← remove_tab_preserving_selection k sp;
  let w := ws_set_panes (<[src := sp']> (ws_panes w)) w in
  dp ← ws_panes w !! dst;
  l ← vec_insert ti t (tabs dp);
  let w := ws_set_panes (<[dst := set_selected ti (set_tabs l dp)]> (ws_panes w)) w in
  let w := if decide (tabs sp' = []) then drop_pane src w else w in
  Some (set_focused_pane dst w).

Definition move_tab_to_pane (ui : bool) (src : PaneId) (ident : TabDragIdentity) (dst : PaneId)
    (ins : TabInsertion) aw : option (AppWindow NB) :=
  match current_ws_idx aw, current_ws aw with
  | Some i, Some w =>
      if decide (src = dst \/ node_id_for_pane src (split_tree w) = None
                 \/ node_id_for_pane dst (split_tree w) = None) then Some aw
      else
        match sp ← ws_panes w !! src; tab_index_for_identity sp ident,
              dp ← ws_panes w !! dst; insertion_index_for_target dp ins with
        | Some k, Some ti =>
            if negb ui then Some aw
            else w' ← move_tab src k dst ti w; Some (update_ws_at i (fun _ => w') aw)
        | _, _ => Some aw
        end
  | _, _ => Some aw
  end.

Definition reorder_tab_in_pane (ui : bool) (pid : PaneId) (ident : TabDragIdentity)
    (ins : TabInsertion) aw : option (AppWindow NB) :=
  match current_ws_idx aw, current_ws aw with
  | Some i, Some w =>
      match ws_panes w !! pid with
      | None => Some aw
      | Some p =>
          if decide (node_id_for_pane pid (split_tree w) = None) then Some aw
          else match tab_index_for_identity p ident, insertion_index_for_target p ins with
          | Some from, Some to =>
              if negb ui then Some aw
              else '(_, p') ← reorder_tab from to p;
                   Some (update_ws_at i (update_pane pid (fun _ => p')) aw)
          | _, _ => Some aw
          end
      end
  | _, _ => Some aw
  end.

(** The pane of the target workspace that receives a tab from elsewhere. *)
Definition landing_pane (w : Workspace) : option PaneId :=
  match ws_focused_pane w with
  | Some pid => if decide (is_Some (ws_panes w !! pid)) then Some pid
                else List.find (fun p => bool_decide (is_Some (ws_panes w !! p))) (panes (split_tree w))
  | None => List.find (fun p => bool_decide (is_Some (ws_panes w !! p))) (panes (split_tree w))
  end.

Definition push_moved (dst : PaneId) (t : Tab) (w : Workspace) : Workspace :=
  update_pane dst (fun p => set_selected (length (tabs p)) (set_tabs (tabs p ++ [t]) p)) w.

Definition move_tab_to_workspace (ui : bool) (src : PaneId) (ident : TabDragIdentity)
    (target : WorkspaceId) aw : option (AppWindow NB) :=
  match find_workspace_of_pane src aw, position (has_id target) (workspaces aw) with
  | Some (si, sw, sp), Some ti =>
      if decide (si = ti) then Some aw
      else
        tw ← workspaces aw !! ti;
        match landing_pane tw with
        | None => Some aw
        | Some dst =>
            if decide (node_id_for_pane dst (split_tree tw) = None
                       \/ node_id_for_pane src (split_tree sw) = None) then Some aw
            else match tab_index_for_identity sp ident with
            | None => Some aw
            | Some k =>
                if negb ui then Some aw
                else
                  '(t, sp') ← remove_tab_preserving_selection k sp;
                  let aw := update_ws_at si (update_pane src (fun _ => sp')) aw in
                  let aw := update_ws_at ti (push_moved dst t) aw in
                  aw ← (if decide (tabs sp' = []) then
                          let aw := remove_pane_from_split si src aw in
                          sw ← workspaces aw !! si;
                          if decide (ws_panes sw = ∅) then remove_workspace_at si aw
                          else Some (refocus si aw)
                        else Some aw);
                  ti ← position (has_id target) (workspaces aw);
                  Some (set_pane_active ti dst (set_page ti aw))
            end
        end
  | _, _ => Some aw
  end.

(** ** Tabs of the focused pane *)

Definition new_pane_tab aw : AppWindow NB :=
  match current_ws_idx aw, current_ws aw with
  | Some i, Some w =>
      match ws_focused_pane w with
      | None => aw
      | Some pid =>
          let wd := inherited_wd (Some w) aw in
          let '(sid, r) := pre_allocate_id (registry aw) in
          update_ws_at i (update_pane pid (fun p => snd (add_tab sid p)))
            (effect (CreateSurface wd (app_command aw) sid) (set_registry r aw))
      end
  | _, _ => aw
  end.

Definition cycle_pane_tab (forward : bool) aw : AppWindow NB :=
  match current_ws_idx aw, current_ws aw ≫= ws_focused_pane with
  | Some i, Some pid => update_ws_at i (update_pane pid (fun p => snd (cycle_tab forward p))) aw
  | _, _ => aw
  end.

Definition select_pane_tab_generic (pid : PaneId) (tab_idx : nat) aw : AppWindow NB :=
  match find_workspace_of_pane pid aw with
  | None => aw
  | Some (i, _, _) => set_pane_active i pid (update_ws_at i (update_pane pid (select_tab tab_idx)) aw)
  end.

(** ** Titles, directories, bells, focus *)

Definition tab_has_handle (r : SurfaceRegistry) (h : Z) (t : Tab) : bool :=
  bool_decide ((sid ← tab_surface_id t; get_handle sid r) = Some h).
Definition pane_with_handle (h : Z) aw (w : Workspace) : option PaneId :=
  find_pane (fun p => existsb (tab_has_handle (registry aw) h) (tabs p)) (ord (ws_panes w)) w.

(** The title-derived directory is taken only while no OSC 7 report has
    authority. *)
Definition title_tab (home : option string) (title : string) (t : Tab) : Tab :=
  let t := set_title title t in
  match extract_directory home title with
  | Some d => if tab_wd_from_osc7 t then t else set_directory (Some d) t
  | None => t
  end.
(** The directory to look for a git branch in, when it changed. *)
Definition title_dir_changed (home : option string) (title : string) (t : Tab) : option string :=
  match extract_directory home title with
  | Some d => if tab_wd_from_osc7 t then None
              else if decide (tab_working_directory t = Some d) then None else Some d
  | None => None
  end.

Definition set_surface_title (home : option string) (h : Z) (title : string) aw : AppWindow NB :=
  match find_ws (pane_with_handle h aw) 0 (workspaces aw) with
  | None => aw
  | Some (i, w, pid) =>
      let f := tab_has_handle (registry aw) h in
      match (p ← ws_panes w !! pid; List.find f (tabs p)) with
      | None => aw
      | Some t =>
          let aw := update_ws_at i (fun w => update_title_from_focused
                      (update_pane pid (fun p => set_tabs (update_first f (title_tab home title) (tabs p)) p) w)) aw in
          let aw := match title_dir_changed home title t with
                    | Some d => effect (DetectGitBranch (ws_id w) d) aw
                    | None => aw
                    end in
          match tab_surface_id t with
          | Some sid => effect (Emit (TitleChanged sid title)) aw
          | None => aw
          end
      end
  end.

Definition report_wd (home : option string) (wd : string) (t : Tab) : Tab :=
  match wd with
  | "" => mkTab (tab_panel t) (tab_title t) (extract_directory home (tab_title t)) false
  | _ => mkTab (tab_panel t) (tab_title t) (Some wd) true
  end.

(** Handle 0 is the null pointer. *)
Definition set_surface_working_directory (home : option string) (h : Z) (wd : string) aw
    : AppWindow NB :=
  if decide (h = 0)%Z then aw
  else match find_ws (pane_with_handle h aw) 0 (workspaces aw) with
  | None => aw
  | Some (i, _, pid) =>
      update_ws_at i (update_pane pid (fun p =>
        set_tabs (update_first (tab_has_handle (registry aw) h) (report_wd home wd) (tabs p)) p)) aw
  end.

Definition handle_bell (h : Z) aw : AppWindow NB :=
  let active_page := default 0 (nb_current_page (notebook aw)) in
  match find_ws (pane_with_handle h aw) 0 (workspaces aw) with
  | None => aw
  | Some (i, w, pid) =>
      let aw := if decide (i <> active_page) then update_ws_at i (ws_set_bell true) aw else aw in
      let aw := if decide (ws_focused_pane w = Some pid /\ i = active_page) then aw
                else update_ws_at i (update_pane pid (set_pane_bell true)) aw in
      let sid := default 0%Z (ws_panes w !! pid ≫= active_surface) in
      effect (Emit (BellFired (ws_id w) sid))
        (update_tray_state (effect (BellNotification (display_title w) (ws_id w)) aw))
  end.

(** The second component is the pane whose highlight is cleared 500 ms later. *)
Definition clear_workspace_bell (page : nat) aw : AppWindow NB * option (WorkspaceId * PaneId) :=
  match workspaces aw !! page with
  | None => (aw, None)
  | Some w =>
      let aw := if ws_has_bell w then update_tray_state (update_ws_at page (ws_set_bell false) aw)
                else aw in
      (aw, pid ← ws_focused_pane w; p ← ws_panes w !! pid;
           if pane_has_bell p then Some (ws_id w, pid) else None)
  end.

Definition clear_pane_bell (id : WorkspaceId) (pid : PaneId) aw : AppWindow NB :=
  update_ws id (update_pane pid (set_pane_bell false)) aw.

Definition focus_panel_at (i : nat) (pid : PaneId) aw : AppWindow NB :=
  set_pane_active i pid (update_ws_at i (update_pane pid (set_pane_bell false)) aw).
Definition set_focused_surface (sid : SurfaceId) aw : AppWindow NB :=
  match find_workspace_with_surface ord sid aw with
  | None => aw
  | Some (i, _, pid) => focus_panel_at i pid aw
  end.
Definition set_focused_browser (bid : BrowserPanelId) aw : AppWindow NB :=
  match find_workspace_with_browser ord bid aw with
  | None => aw
  | Some (i, _, pid) => focus_panel_at i pid aw
  end.

Definition focus_pane_by_id (pid : PaneId) aw : bool * AppWindow NB :=
  match find_workspace_of_pane pid aw with
  | None => (false, aw)
  | Some (i, _, _) =>
      let aw := if decide (default 0 (nb_current_page (notebook aw)) <> i) then set_page i aw else aw in
      (true, set_pane_active i pid aw)
  end.

(** [get_url] is the live URL of a browser panel. *)
Definition surface_line (get_url : BrowserPanelId -> option string) (w : Workspace) (p : Pane)
    (t : Tab) : string :=
  match tab_panel t with
  | Terminal sid =>
      "surface:" +:+ show_uint sid +:+ " workspace:" +:+ show_uint (ws_id w) +:+ " pane:" +:+
      show_uint (pane_id p) +:+ " terminal" +:+
      match tab_working_directory t with Some d => " cwd=" +:+ d | None => "" end
  | Browser bid _ =>
      "browser:" +:+ show_uint bid +:+ " workspace:" +:+ show_uint (ws_id w) +:+ " pane:" +:+
      show_uint (pane_id p) +:+ " browser" +:+
      match get_url bid with Some u => " url=" +:+ u | None => "" end
  end.
Definition list_surfaces_detailed (get_url : BrowserPanelId -> option string) aw : list string :=
  workspaces aw ≫= fun w =>
    pane_values (ord (ws_panes w)) w ≫= fun p => surface_line get_url w p <$> tabs p.

End tabs.
