(* ===== verification/WindowOk.v ===== *)
(** * Application window: the invariant

    [ws_ok] relates the map of panes of a workspace to its split tree, [win_ok]
    relates the workspaces to the notebook and to the identifier counters.  The
    lemmas show what preserves them; WindowProps applies them to the operations. *)

From S2P Require Import Prelude F64 SplitTree SplitTreeRefine SplitTreeProps RustStr RemoteConfig Workspace Tabs Surfaces Notebook Window WindowTabs.

(** A pane in use: stored under its own identifier, with at least one tab, its
    selection in range. *)
Definition pane_wf (pid : PaneId) (p : Pane) : Prop :=
  pane_id p = pid /\ tabs p <> [] /\ selected_tab p < length (tabs p).

(** [c] bounds the pane identifiers. *)
Record ws_ok (c : Z) (w : Workspace) : Prop := mkWsOk {
  ok_tree : wf (split_tree w);
  ok_dom : forall pid, pid ∈ panes (split_tree w) <-> is_Some (ws_panes w !! pid);
  ok_panes : forall pid p, ws_panes w !! pid = Some p -> pane_wf pid p;
  ok_bound : forall pid, is_Some (ws_panes w !! pid) -> (0 <= pid < c)%Z;
  ok_nonempty : exists pid, is_Some (ws_panes w !! pid);
}.

(** ** Projections of updated workspaces *)

Lemma ws_panes_set_panes m w : ws_panes (ws_set_panes m w) = m.
Proof. by destruct w. Qed.
Lemma split_tree_set_panes m w : split_tree (ws_set_panes m w) = split_tree w.
Proof. by destruct w. Qed.
Lemma ws_panes_set_tree t w : ws_panes (ws_set_tree t w) = ws_panes w.
Proof. by destruct w. Qed.
Lemma split_tree_set_tree t w : split_tree (ws_set_tree t w) = t.
Proof. by destruct w. Qed.
Lemma ws_id_set_panes m w : ws_id (ws_set_panes m w) = ws_id w.
Proof. by destruct w. Qed.
Lemma ws_id_set_tree t w : ws_id (ws_set_tree t w) = ws_id w.
Proof. by destruct w. Qed.

#[export] Hint Rewrite ws_panes_set_panes split_tree_set_panes ws_panes_set_tree
  split_tree_set_tree ws_id_set_panes ws_id_set_tree : limux.
Ltac ws_simpl := unfold set_focused_pane, update_pane, drop_pane, add_pane, remove_pane;
  simpl; autorewrite with limux; simpl.

(** The fields the invariant reads are untouched. *)
Definition same_core (w w' : Workspace) : Prop :=
  ws_id w' = ws_id w /\ ws_panes w' = ws_panes w /\ split_tree w' = split_tree w.

Lemma ws_ok_ext c w w' : same_core w w' -> ws_ok c w -> ws_ok c w'.
Proof. intros (_ & Hp & Ht) [H1 H2 H3 H4 H5]. split; rewrite ?Hp, ?Ht; done. Qed.

Lemma ws_ok_mono c c' w : (c <= c')%Z -> ws_ok c w -> ws_ok c' w.
Proof.
  intros Hc [H1 H2 H3 H4 H5]. split; try done. intros pid Hp. specialize (H4 pid Hp). lia.
Qed.

(** ** Operations on one workspace *)

Lemma ws_ok_tree c w t :
  ws_ok c w -> wf t -> (forall p, p ∈ panes t <-> p ∈ panes (split_tree w)) ->
  ws_ok c (ws_set_tree t w).
Proof.
  intros [H1 H2 H3 H4 H5] Hwf Hp. split; ws_simpl; try done.
  intros pid. by rewrite Hp.
Qed.

Lemma ws_ok_focus c w pid :
  ws_ok c w -> is_Some (ws_panes w !! pid) -> ws_ok c (set_focused_pane pid w).
Proof.
  intros Hok Hp. apply ws_ok_tree; [done| |done].
  apply wf_refocus; [apply Hok|]. by apply (ok_dom _ _ Hok).
Qed.

Lemma ws_ok_panes_update c w m :
  ws_ok c w -> (forall pid, is_Some (m !! pid) <-> is_Some (ws_panes w !! pid)) ->
  (forall pid p, m !! pid = Some p -> pane_wf pid p) -> ws_ok c (ws_set_panes m w).
Proof.
  intros [H1 H2 H3 H4 H5] Hd Hm. split; ws_simpl; try done.
  - intros pid. by rewrite Hd.
  - intros pid Hp. apply H4. by apply Hd.
  - destruct H5 as [pid Hp]. exists pid. by apply Hd.
Qed.

Lemma ws_ok_update_pane c w pid f :
  ws_ok c w -> (forall p, pane_wf pid p -> pane_wf pid (f p)) -> ws_ok c (update_pane pid f w).
Proof.
  intros Hok Hf. apply ws_ok_panes_update; [done|..].
  - intros k. rewrite lookup_alter. case_decide; subst; [apply fmap_is_Some|done].
  - intros k p. rewrite lookup_alter. case_decide; subst.
    + intros (p0 & Hp & ->)%fmap_Some. apply Hf. by apply (ok_panes _ _ Hok).
    + apply (ok_panes _ _ Hok).
Qed.

Lemma find_leaf_pane t pid : wf t -> node_id_for_pane pid t <> None -> pid ∈ panes t.
Proof.
  intros Hwf H. destruct (decide (pid ∈ panes t)); [done|]. by rewrite node_id_for_absent in H.
Qed.

(** A new pane under a fresh identifier, split off an existing one. *)
Lemma ws_ok_split bef c w p from o :
  ws_ok c w -> pane_wf (pane_id p) p -> pane_id p = c -> (0 <= c)%Z ->
  is_Some (ws_panes w !! from) -> room 2 (split_tree w) ->
  exists n t, split_side bef from c o (split_tree w) = (Some n, t) /\ focused t = Some c /\
    ws_ok (c + 1) (ws_set_tree t (snd (add_pane p w))).
Proof.
  intros Hok Hp Hc Hc0 Hfrom Hroom.
  assert (c ∉ panes (split_tree w)) as Hfresh.
  { rewrite (ok_dom _ _ Hok). intros H. apply (ok_bound _ _ Hok) in H. lia. }
  assert (from ∈ panes (split_tree w)) as Hin by (by apply (ok_dom _ _ Hok)).
  destruct (split_with_spec bef (split_tree w) from c o) as (t & E & Hwf & Hl & Hf & _);
    [apply Hok|done..|].
  destruct (split_panes bef (split_tree w) from c o t) as (l1 & l2 & Hp1 & Hp2);
    [apply Hok|done..|].
  assert (forall k, k ∈ panes t <-> k = c \/ k ∈ panes (split_tree w)) as Hpt.
  { intros k. rewrite Hp1, Hp2. destruct bef; set_solver. }
  exists (next_id (split_tree w) + 1)%Z, t. split_and!; [by destruct bef|done|].
  split; ws_simpl; rewrite ?Hc.
  - done.
  - intros k. rewrite Hpt, (ok_dom _ _ Hok), lookup_insert_is_Some.
    destruct (decide (c = k)); naive_solver.
  - intros k q [[<- <-]|[_ Hq]]%lookup_insert_Some; [by rewrite Hc in Hp|by apply (ok_panes _ _ Hok)].
  - intros k [<-|[_ Hk]]%lookup_insert_is_Some; [lia|].
    apply (ok_bound _ _ Hok) in Hk. lia.
  - exists c. by rewrite lookup_insert_eq.
Qed.

(** Dropping a pane that is not the last one. *)
Lemma ws_ok_drop c w pid :
  ws_ok c w -> (exists k, k <> pid /\ is_Some (ws_panes w !! k)) -> ws_ok c (drop_pane pid w).
Proof.
  intros Hok (k & Hk & Hks). destruct (remove_spec (split_tree w) pid) as (t & E & Hwf & _ & Hp & _);
    [apply Hok|].
  split; ws_simpl; rewrite ?E; simpl.
  - done.
  - intros j. rewrite Hp, list_elem_of_filter, (ok_dom _ _ Hok), lookup_delete_is_Some. naive_solver.
  - intros j q [_ Hq]%lookup_delete_Some. by apply (ok_panes _ _ Hok).
  - intros j [_ Hj]%lookup_delete_is_Some. by apply (ok_bound _ _ Hok).
  - exists k. by apply lookup_delete_is_Some.
Qed.

(** ** The tabs of a workspace, up to their order *)

Definition map_tabs (m : gmap Z Pane) : list Tab := map_to_list m ≫= fun kv => tabs kv.2.
Definition ws_tabs (w : Workspace) : list Tab := map_tabs (ws_panes w).

Lemma map_tabs_insert m k p : m !! k = None -> map_tabs (<[k := p]> m) ≡ₚ tabs p ++ map_tabs m.
Proof. intros H. unfold map_tabs. by rewrite (map_to_list_insert m k p H). Qed.

Lemma map_tabs_delete m k p : m !! k = Some p -> map_tabs m ≡ₚ tabs p ++ map_tabs (delete k m).
Proof. intros H. unfold map_tabs. by rewrite <- (map_to_list_delete m k p H). Qed.

Lemma map_tabs_update m k p q :
  m !! k = Some p -> map_tabs (<[k := q]> m) ≡ₚ tabs q ++ map_tabs (delete k m).
Proof.
  intros H. rewrite <- insert_delete_eq. apply map_tabs_insert. apply lookup_delete_eq.
Qed.

Lemma alter_const (m : gmap Z Pane) k p q :
  m !! k = Some p -> alter (fun _ => q) k m = <[k := q]> m.
Proof.
  intros H. apply map_eq. intros i. rewrite lookup_alter, lookup_insert.
  destruct (decide (k = i)) as [<-|]; [by rewrite H|done].
Qed.

Lemma map_tabs_empty m k p :
  m !! k = Some p -> tabs p = [] -> map_tabs (delete k m) ≡ₚ map_tabs m.
Proof. intros H Hp. rewrite (map_tabs_delete m k p H), Hp. done. Qed.

(** ** The whole window *)

Section win_ok.
Context {NB : Type} `{!NotebookOps NB} `{!NotebookLaws NB}.
Implicit Types (aw : AppWindow NB).

Definition ws_ids aw : list WorkspaceId := ws_id <$> workspaces aw.

Record win_ok aw : Prop := mkWinOk {
  win_pages : nb_pages (notebook aw) = ws_ids aw;
  win_nodup : NoDup (ws_ids aw);
  win_ws : Forall (ws_ok (pane_counter aw)) (workspaces aw);
  win_counters : (0 <= pane_counter aw)%Z /\
    Forall (fun id => 0 <= id < workspace_counter aw)%Z (ws_ids aw);
}.

(** All the tabs of the window. *)
Definition all_tabs aw : list Tab := workspaces aw ≫= ws_tabs.

Lemma current_ws_idx_Some aw i :
  current_ws_idx aw = Some i -> nb_current_page (notebook aw) = Some i /\ i < length (workspaces aw).
Proof.
  unfold current_ws_idx. intros (j & Hj & H)%bind_Some. case_decide; [|done]. by simplify_eq.
Qed.

Lemma current_ws_lookup aw i w :
  current_ws_idx aw = Some i -> current_ws aw = Some w -> workspaces aw !! i = Some w.
Proof. unfold current_ws. intros ->. done. Qed.

Lemma win_ws_at aw i w : win_ok aw -> workspaces aw !! i = Some w -> ws_ok (pane_counter aw) w.
Proof. intros Hok Hi. by eapply Forall_lookup_1; [apply Hok|]. Qed.

Lemma alter_ids f i (l : list Workspace) :
  (forall w, l !! i = Some w -> ws_id (f w) = ws_id w) -> ws_id <$> alter f i l = ws_id <$> l.
Proof.
  intros H. apply list_eq. intros j. rewrite !list_lookup_fmap, list_lookup_alter.
  case_decide as E; [subst j|done]. destruct (l !! i) eqn:Hi; simpl; [|done]. by rewrite H.
Qed.

(** Replacing workspace [i] by one that is still well formed. *)
Lemma win_ok_at aw i f :
  win_ok aw ->
  (forall w, workspaces aw !! i = Some w -> ws_id (f w) = ws_id w /\ ws_ok (pane_counter aw) (f w)) ->
  win_ok (update_ws_at i f aw).
Proof.
  intros [H1 H2 H3 H4] Hf.
  assert (ws_ids (update_ws_at i f aw) = ws_ids aw) as E by (apply alter_ids; apply Hf).
  split; rewrite ?E; try done. simpl. apply Forall_lookup_2. intros j w.
  rewrite list_lookup_alter. case_decide; subst.
  - intros (w0 & Hw0 & ->)%fmap_Some. by apply Hf.
  - intros Hw. by eapply Forall_lookup_1.
Qed.

(** Changes to fields the invariant does not read. *)
Lemma win_ok_same aw aw' :
  win_ok aw -> notebook aw' = notebook aw -> workspaces aw' = workspaces aw ->
  pane_counter aw' = pane_counter aw -> workspace_counter aw' = workspace_counter aw ->
  win_ok aw'.
Proof.
  intros [H1 H2 H3 H4] En Ew Ep Ec. unfold ws_ids in *.
  split; unfold ws_ids; rewrite ?En, ?Ew, ?Ep, ?Ec; done.
Qed.

Lemma win_ok_effect aw e : win_ok aw -> win_ok (effect e aw).
Proof. intros H. by eapply win_ok_same. Qed.

Lemma win_ok_tray aw : win_ok aw -> win_ok (update_tray_state aw).
Proof. intros H. by eapply win_ok_same. Qed.

Lemma win_ok_counter aw pc :
  win_ok aw -> (pane_counter aw <= pc)%Z -> win_ok (set_counters pc (workspace_counter aw) aw).
Proof.
  intros [H1 H2 H3 H4] Hpc. split; try done; simpl.
  - eapply Forall_impl; [exact H3|]. intros w. by apply ws_ok_mono.
  - split; [lia|apply H4].
Qed.

Lemma win_ok_page aw i : win_ok aw -> win_ok (set_page i aw).
Proof.
  intros [H1 H2 H3 H4]. split; try done. simpl. by rewrite nb_set_pages.
Qed.

Lemma find_ws_Some {A} (f : Workspace -> option A) l : forall k i w a,
  find_ws f k l = Some (i, w, a) ->
  k <= i /\ l !! (i - k) = Some w /\ f w = Some a /\
  forall j v, j < i - k -> l !! j = Some v -> f v = None.
Proof.
  induction l as [|v l IH]; intros k i w a; simpl; [done|]. destruct (f v) eqn:Hv.
  - intros [= <- <- <-]. rewrite Nat.sub_diag. split_and!; try done. intros j u Hj. lia.
  - intros (Hk & Hl & Hf & Hmin)%IH. split_and!; [lia| |done|].
    + replace (i - k) with (S (i - S k)) by lia. done.
    + intros [|j] u Hj Hu; simpl in Hu; [by simplify_eq|]. eapply Hmin; [|done]. lia.
Qed.
End win_ok.

#[export] Hint Resolve win_ok_page win_ok_effect win_ok_tray : limux.
