(* ===== verification/WindowProps.v ===== *)
(** * Application window: drags of tabs

    Every tab drag either changes nothing or moves exactly one tab: the model
    never panics, the invariant of the window is kept, and no tab is lost or
    duplicated. *)

From S2P Require Import Prelude F64 SplitTree SplitTreeRefine SplitTreeProps RustStr RemoteConfig Workspace Tabs Surfaces Notebook Window WindowTabs WindowOk SplitTreeNav.

(** ** One workspace *)

Lemma tab_delete_perm (l : list Tab) k t : l !! k = Some t -> l ≡ₚ t :: delete k l.
Proof. intros H. by rewrite <- (delete_Permutation l k t H). Qed.

Lemma remove_tab_wf pid p k t :
  pane_wf pid p -> tabs p !! k = Some t ->
  exists p', remove_tab_preserving_selection k p = Some (t, p') /\ tabs p' = delete k (tabs p) /\
    pane_id p' = pid /\ (tabs p' <> [] -> pane_wf pid p').
Proof.
  intros (Hid & Hne & Hsel) Ht. destruct (remove_preserving_ok k p t Ht) as (p' & E & Hl & Hid' & _ & Hok).
  exists p'. split_and!; try done; [congruence|]. intros Hne'. split_and!; [congruence|done|].
  apply Hok; [by intros _|done].
Qed.

(** Emptying pane [src] and dropping it is dropping it. *)
Lemma drop_pane_update c w src f :
  ws_ok c w -> (exists k, k <> src /\ is_Some (ws_panes w !! k)) ->
  ws_ok c (drop_pane src (update_pane src f w)).
Proof.
  intros Hok Hk. apply (ws_ok_ext c (drop_pane src w)); [|by apply ws_ok_drop].
  split_and!; ws_simpl; [done| |done].
  apply map_eq. intros i. destruct (decide (i = src)) as [->|].
  - by rewrite !lookup_delete_eq.
  - by rewrite !lookup_delete_ne, lookup_alter_ne by done.
Qed.

Lemma vec_insert_in {A} i (x : A) l : i <= length l -> vec_insert i x l = Some (insert_at i x l).
Proof. intros H. unfold vec_insert. by rewrite decide_True. Qed.

Section move_tab.
Context (c : Z) (w : Workspace) (src dst : PaneId) (sp dp : Pane) (k : nat) (t : Tab).
Context (Hok : ws_ok c w) (Hne : src <> dst).
Context (Hsp : ws_panes w !! src = Some sp) (Hdp : ws_panes w !! dst = Some dp).
Context (Ht : tabs sp !! k = Some t).

(** The panes after the move, before an empty source is dropped. *)
Lemma moved_panes ti sp' :
  ti <= length (tabs dp) -> pane_id sp' = src -> tabs sp' = delete k (tabs sp) ->
  (tabs sp' <> [] -> pane_wf src sp') ->
  let w1 := ws_set_panes (<[dst := set_selected ti (set_tabs (insert_at ti t (tabs dp)) dp)]>
              (<[src := sp']> (ws_panes w))) w in
  let w2 := if decide (tabs sp' = []) then drop_pane src w1 else w1 in
  ws_ok c (set_focused_pane dst w2) /\ ws_id w2 = ws_id w /\ ws_tabs w2 ≡ₚ ws_tabs w /\
  ws_panes w2 !! dst = Some (set_selected ti (set_tabs (insert_at ti t (tabs dp)) dp)).
Proof.
  intros Hti Hid Hdel Hwf w1 w2.
  set (dp' := set_selected ti (set_tabs (insert_at ti t (tabs dp)) dp)) in *.
  assert (pane_wf dst dp') as Hdp'.
  { destruct (ok_panes _ _ Hok _ _ Hdp) as (Hd1 & _). split_and!; [done| |].
    - unfold dp', insert_at. simpl. intros [_ ?]%app_eq_nil. done.
    - unfold dp'. simpl. rewrite insert_at_cons. simpl. lia. }
  assert (ws_panes w2 !! dst = Some dp') as Hw2dst.
  { unfold w2. case_decide; unfold w1; ws_simpl; [rewrite lookup_delete_ne by done|];
      by rewrite lookup_insert_eq. }
  assert (ws_ok c w2) as Hok2.
  { unfold w2. case_decide as He.
    - apply (ws_ok_ext c (drop_pane src (ws_set_panes (<[dst := dp']> (ws_panes w)) w))).
      + split_and!; unfold w1; ws_simpl; [done| |done]. apply map_eq. intros i.
        destruct (decide (i = src)) as [->|]; [by rewrite !lookup_delete_eq|].
        rewrite !lookup_delete_ne by done.
        destruct (decide (i = dst)) as [->|]; [by rewrite !lookup_insert_eq|].
        by rewrite !lookup_insert_ne by done.
      + apply ws_ok_drop; [|exists dst; split; [done|ws_simpl; by rewrite lookup_insert_eq]].
        apply ws_ok_panes_update; [done| |].
        * intros i. rewrite lookup_insert_is_Some. destruct (decide (dst = i)); naive_solver.
        * intros i q [[<- <-]|[_ Hq]]%lookup_insert_Some; [done|by apply (ok_panes _ _ Hok)].
    - apply ws_ok_panes_update; [done| |].
      + intros i. rewrite !lookup_insert_is_Some.
        destruct (decide (dst = i)), (decide (src = i)); naive_solver.
      + intros i q [[<- <-]|[_ [[<- <-]|[_ Hq]]%lookup_insert_Some]]%lookup_insert_Some;
          [done|auto|by apply (ok_panes _ _ Hok)]. }
  split_and!; [by apply ws_ok_focus; [|rewrite Hw2dst]| | |done].
  - unfold w2. case_decide; unfold w1; by ws_simpl.
  - assert (ws_tabs w1 ≡ₚ ws_tabs w) as Hw1.
    { unfold ws_tabs, w1. ws_simpl.
      rewrite (map_tabs_update _ dst dp dp') by (by rewrite lookup_insert_ne).
      rewrite delete_insert_ne by done.
      rewrite (map_tabs_update _ src sp sp') by (by rewrite lookup_delete_ne).
      rewrite (map_tabs_delete (ws_panes w) dst dp), (map_tabs_delete (delete dst _) src sp)
        by (by rewrite ?lookup_delete_ne).
      unfold dp'. simpl. rewrite insert_at_cons, (tab_delete_perm (tabs sp) k t Ht), Hdel.
      solve_Permutation. }
    unfold w2. case_decide as He; [|done]. rewrite <- Hw1. unfold ws_tabs, w1. ws_simpl.
    apply map_tabs_empty with sp'; [|done]. by rewrite lookup_insert_ne, lookup_insert_eq.
Qed.
End move_tab.

Lemma move_tab_ok c w src dst sp dp k t ti :
  ws_ok c w -> src <> dst -> ws_panes w !! src = Some sp -> ws_panes w !! dst = Some dp ->
  tabs sp !! k = Some t -> ti <= length (tabs dp) ->
  exists w', move_tab src k dst ti w = Some w' /\ ws_ok c w' /\ ws_id w' = ws_id w /\
    ws_tabs w' ≡ₚ ws_tabs w /\ ws_focused_pane w' = Some dst /\
    ws_panes w' !! dst = Some (set_selected ti (set_tabs (insert_at ti t (tabs dp)) dp)).
Proof.
  intros Hok Hne Hsp Hdp Ht Hti.
  destruct (remove_tab_wf src sp k t) as (sp' & E & Hdel & Hid & Hwf);
    [by apply (ok_panes _ _ Hok)|done|].
  destruct (moved_panes c w src dst sp dp k t Hok Hne Hsp Hdp Ht ti sp' Hti Hid Hdel Hwf)
    as (H1 & H2 & H3 & H4).
  set (w2 := if decide (tabs sp' = []) then _ else _) in *.
  unfold move_tab. rewrite Hsp. simpl. rewrite E. simpl. rewrite ws_panes_set_panes.
  rewrite lookup_insert_ne, Hdp by done. simpl. rewrite vec_insert_in by done. simpl.
  assert (forall m m', ws_set_panes m' (ws_set_panes m w) = ws_set_panes m' w) as ->
    by (intros; by destruct w).
  exists (set_focused_pane dst w2). split; [done|]. clearbody w2.
  split_and!; [done|by ws_simpl| | |].
  - unfold ws_tabs in *. by ws_simpl.
  - unfold ws_focused_pane. by ws_simpl.
  - by ws_simpl.
Qed.

(** Taking tab [k] out of pane [src] takes it out of the tabs of the workspace. *)
Lemma taken_tabs m src sp sp' k t :
  m !! src = Some sp -> tabs sp !! k = Some t -> tabs sp' = delete k (tabs sp) ->
  t :: map_tabs (<[src := sp']> m) ≡ₚ map_tabs m.
Proof.
  intros Hsp Ht Hdel. rewrite (map_tabs_update _ src sp sp'), (map_tabs_delete m src sp), Hdel by done.
  rewrite app_comm_cons. f_equiv. symmetry. by apply tab_delete_perm.
Qed.

Section extract_tab.
Context (c : Z) (w : Workspace) (src dst : PaneId) (sp : Pane) (k : nat) (t : Tab).
Context (before : bool) (o : Orientation).
Context (Hok : ws_ok c w) (Hc : (0 <= c)%Z) (Hroom : room 2 (split_tree w)).
Context (Hsp : ws_panes w !! src = Some sp) (Hdp : is_Some (ws_panes w !! dst)).
Context (Ht : tabs sp !! k = Some t).

Lemma fresh_pane : ws_panes w !! c = None.
Proof.
  apply eq_None_not_Some. intros H. apply (ok_bound _ _ Hok) in H. lia.
Qed.

(** What the extraction yields: the tab alone in the new pane, focused. *)
Definition extracted (w' : Workspace) : Prop :=
  ws_ok (c + 1) w' /\ ws_id w' = ws_id w /\ ws_tabs w' ≡ₚ ws_tabs w /\
  ws_focused_pane w' = Some c /\ ws_panes w' !! c = Some (extracted_pane c t).

(** [w0] is the workspace with tab [t] taken out of [src]. *)
Lemma extract_into w0 :
  ws_ok c w0 -> ws_id w0 = ws_id w -> is_Some (ws_panes w0 !! dst) -> room 2 (split_tree w0) ->
  t :: ws_tabs w0 ≡ₚ ws_tabs w ->
  exists n tree, split_side before dst c o (split_tree w0) = (Some n, tree) /\
    extracted (set_focused_pane c
      (ws_set_tree tree (snd (add_pane (extracted_pane c t) w0)))).
Proof.
  intros Hok0 Hid Hdst Hroom0 Htabs.
  destruct (ws_ok_split before c w0 (extracted_pane c t) dst o) as (n & tree & E & Hf & Hok');
    try done; [split_and!; [done|done|simpl; lia]|].
  exists n, tree. split; [done|]. unfold extracted. split_and!.
  - apply ws_ok_focus; [done|]. ws_simpl. by rewrite lookup_insert_eq.
  - by ws_simpl.
  - unfold ws_tabs. ws_simpl. rewrite map_tabs_insert.
    + rewrite <- Htabs. simpl. by destruct t.
    + apply eq_None_not_Some. intros H. apply (ok_bound _ _ Hok0) in H. lia.
  - unfold ws_focused_pane. by ws_simpl.
  - ws_simpl. by rewrite lookup_insert_eq.
Qed.

Lemma extract_tab_keep :
  1 < length (tabs sp) ->
  exists w', extract_tab false src k dst c before o w = Some w' /\ extracted w'.
Proof.
  intros Hlen. destruct (remove_tab_wf src sp k t) as (sp' & E & Hdel & Hid & Hwf);
    [by apply (ok_panes _ _ Hok)|done|].
  assert (tabs sp' <> []) as Hne.
  { rewrite Hdel. intros Hn. pose proof (delete_length _ _ _ Ht) as Hl. rewrite Hn in Hl.
    simpl in Hl. lia. }
  destruct (extract_into (ws_set_panes (<[src := sp']> (ws_panes w)) w))
    as (n & tree & Es & Hex); ws_simpl.
  - apply ws_ok_panes_update; [done| |].
    + intros i. rewrite lookup_insert_is_Some. destruct (decide (src = i)); naive_solver.
    + intros i q [[<- <-]|[_ Hq]]%lookup_insert_Some; [auto|by apply (ok_panes _ _ Hok)].
  - done.
  - rewrite lookup_insert_is_Some. destruct (decide (src = dst)); auto.
  - done.
  - unfold ws_tabs. ws_simpl. by apply (taken_tabs _ src sp sp' k).
  - unfold extract_tab. rewrite Hsp. cbn [mbind option_bind]. rewrite E.
    cbn [mbind option_bind]. rewrite decide_False by naive_solver.
    revert Es Hex. ws_simpl. intros -> Hex. eexists. split; [done|].
    rewrite split_tree_set_tree. exact Hex.
Qed.

Lemma extract_tab_collapse :
  src <> dst ->
  exists w', extract_tab true src k dst c before o w = Some w' /\ extracted w'.
Proof.
  intros Hne. destruct (remove_tab_wf src sp k t) as (sp' & E & Hdel & Hid & Hwf);
    [by apply (ok_panes _ _ Hok)|done|].
  destruct (decide (tabs sp' = [])) as [He|He].
  - assert (src <> c) as Hsc by (intros ->; by rewrite fresh_pane in Hsp).
    destruct (extract_into (drop_pane src w)) as (n & tree & Es & Hex).
    + apply ws_ok_drop; [done|]. exists dst. split; [by apply not_eq_sym|done].
    + by ws_simpl.
    + ws_simpl. by rewrite lookup_delete_ne.
    + ws_simpl. destruct (remove_spec (split_tree w) src) as (t' & -> & _ & _ & _ & Hn & _); [apply Hok|].
      unfold room in *. simpl. lia.
    + unfold ws_tabs. ws_simpl. rewrite (map_tabs_delete (ws_panes w) src sp) by done.
      rewrite (tab_delete_perm _ _ _ Ht), <- Hdel, He. done.
    + unfold extract_tab. rewrite Hsp. cbn [mbind option_bind]. rewrite E.
      cbn [mbind option_bind]. rewrite decide_True by done.
      revert Es Hex. ws_simpl. intros -> Hex. eexists. split; [done|].
      revert Hex. generalize w. intros [] Hex. cbn in *.
      rewrite delete_insert_ne, delete_insert_eq by done. exact Hex.
  - destruct (extract_into (ws_set_panes (<[src := sp']> (ws_panes w)) w))
      as (n & tree & Es & Hex); ws_simpl.
    + apply ws_ok_panes_update; [done| |].
      * intros i. rewrite lookup_insert_is_Some. destruct (decide (src = i)); naive_solver.
      * intros i q [[<- <-]|[_ Hq]]%lookup_insert_Some; [auto|by apply (ok_panes _ _ Hok)].
    + done.
    + by rewrite lookup_insert_ne.
    + done.
    + unfold ws_tabs. ws_simpl. by apply (taken_tabs _ src sp sp' k).
    + unfold extract_tab. rewrite Hsp. cbn [mbind option_bind]. rewrite E.
      cbn [mbind option_bind]. rewrite decide_False by naive_solver.
      revert Es Hex. ws_simpl. intros -> Hex. eexists. split; [done|].
    rewrite split_tree_set_tree. exact Hex.
Qed.
End extract_tab.

(** ** The whole window *)

Lemma tab_index_lookup p i k :
  tab_index_for_identity p i = Some k -> exists t, tabs p !! k = Some t /\ tab_identity t = i.
Proof. apply tab_index_Some. Qed.

Lemma insertion_index_le p ins ti :
  insertion_index_for_target p ins = Some ti -> ti <= length (tabs p).
Proof.
  destruct ins as [a|]; simpl; [|intros [= <-]; done]. intros H%position_lt. lia.
Qed.

Lemma tabs_at f i (l : list Workspace) w :
  l !! i = Some w ->
  alter f i l ≫= ws_tabs ≡ₚ ws_tabs (f w) ++ (delete i l ≫= ws_tabs) /\
  l ≫= ws_tabs ≡ₚ ws_tabs w ++ (delete i l ≫= ws_tabs).
Proof.
  intros Hi. split.
  - etrans; [apply bind_Permutation, (delete_Permutation _ i (f w));
      by rewrite list_lookup_alter_eq, Hi|]. simpl.
    replace (delete i (alter f i l)) with (delete i l); [done|].
    apply list_eq. intros j. rewrite !delete_lookup, !list_lookup_alter. by repeat case_decide; try lia.
  - etrans; [by apply bind_Permutation, (delete_Permutation _ i w)|]. done.
Qed.

(** The drags of the window; [ui] is the outcome of the widget lookups. *)
Inductive Drag :=
  | DragReorder (pid : PaneId) (ident : TabDragIdentity) (ins : TabInsertion)
  | DragToPane (src : PaneId) (ident : TabDragIdentity) (dst : PaneId) (ins : TabInsertion)
  | DragSplit (src : PaneId) (ident : TabDragIdentity) (o : Orientation) (before : bool)
  | DragSplitTarget (src : PaneId) (ident : TabDragIdentity) (dst : PaneId) (o : Orientation)
      (before : bool)
  | DragToWorkspace (src : PaneId) (ident : TabDragIdentity) (target : WorkspaceId).

Section window.
Context {NB : Type} `{!NotebookOps NB} `{!NotebookLaws NB}.
Implicit Types (aw : AppWindow NB).

Definition run_drag (ui : bool) (d : Drag) aw : option (AppWindow NB) :=
  match d with
  | DragReorder pid i ins => reorder_tab_in_pane ui pid i ins aw
  | DragToPane src i dst ins => move_tab_to_pane ui src i dst ins aw
  | DragSplit src i o b => split_tab_to_pane ui src i o b aw
  | DragSplitTarget src i dst o b => split_tab_to_pane_target ui src i dst o b aw
  | DragToWorkspace src i target => move_tab_to_workspace ui src i target aw
  end.

(** The outcome of an operation that must not lose tabs. *)
Definition conserves aw (r : option (AppWindow NB)) : Prop :=
  exists aw', r = Some aw' /\ win_ok aw' /\ all_tabs aw' ≡ₚ all_tabs aw.

Lemma conserves_refl aw : win_ok aw -> conserves aw (Some aw).
Proof. intros H. by exists aw. Qed.

Lemma update_ws_at_const aw i w f :
  workspaces aw !! i = Some w -> update_ws_at i f aw = update_ws_at i (fun _ => f w) aw.
Proof.
  intros Hl. unfold update_ws_at. f_equal. apply list_eq. intros j.
  rewrite !list_lookup_alter. destruct (decide (i = j)) as [<-|]; [by rewrite Hl|done].
Qed.

(** Replacing workspace [i] by one with the same tabs. *)
Lemma conserves_at aw i w w' :
  win_ok aw -> workspaces aw !! i = Some w -> ws_ok (pane_counter aw) w' ->
  ws_id w' = ws_id w -> ws_tabs w' ≡ₚ ws_tabs w ->
  conserves aw (Some (update_ws_at i (fun _ => w') aw)).
Proof.
  intros Hok Hi Hw' Hid Ht. eexists. split; [done|]. split.
  - apply win_ok_at; [done|]. intros v Hv. simplify_eq. done.
  - unfold all_tabs. simpl. destruct (tabs_at (fun _ => w') i (workspaces aw) w Hi) as [-> ->].
    by rewrite Ht.
Qed.

(** The same with a larger pane counter. *)
Lemma conserves_at_counter aw i w w' pc :
  win_ok aw -> workspaces aw !! i = Some w -> (pane_counter aw <= pc)%Z -> ws_ok pc w' ->
  ws_id w' = ws_id w -> ws_tabs w' ≡ₚ ws_tabs w ->
  conserves aw (Some (update_ws_at i (fun _ => w') (set_counters pc (workspace_counter aw) aw))).
Proof.
  intros Hok Hi Hpc Hw' Hid Ht.
  destruct (conserves_at (set_counters pc (workspace_counter aw) aw) i w w') as (aw' & E & H1 & H2);
    try done; [by apply win_ok_counter|]. simplify_eq. eexists. split; [done|]. done.
Qed.

Lemma reorder_conserves ui pid ident ins aw :
  win_ok aw -> conserves aw (reorder_tab_in_pane ui pid ident ins aw).
Proof.
  intros Hok. unfold reorder_tab_in_pane.
  destruct (current_ws_idx aw) as [i|] eqn:Hi; [|by apply conserves_refl].
  destruct (current_ws aw) as [w|] eqn:Hw; [|by apply conserves_refl].
  pose proof (current_ws_lookup _ _ _ Hi Hw) as Hl. pose proof (win_ws_at _ _ _ Hok Hl) as Hwok.
  destruct (ws_panes w !! pid) as [p|] eqn:Hp; [|by apply conserves_refl].
  case_decide; [by apply conserves_refl|].
  destruct (tab_index_for_identity p ident) as [from|] eqn:Hf; [|by apply conserves_refl].
  destruct (insertion_index_for_target p ins) as [to|] eqn:Hto; [|by apply conserves_refl].
  destruct ui; simpl; [|by apply conserves_refl].
  destruct (tab_index_lookup _ _ _ Hf) as (t & Ht & _). apply insertion_index_le in Hto.
  destruct (reorder_lookup from to p t Ht Hto) as (p' & l & E & Hl' & Hd & Htabs & Hid & _ & Hact).
  rewrite E. simpl.
  destruct (ok_panes _ _ Hwok _ _ Hp) as (Hpid & Hne & Hsel).
  assert (tabs p' ≡ₚ tabs p) as Hperm by (rewrite Htabs, Hl'; by apply insert_at_perm).
  assert (pane_wf pid p') as Hp'.
  { split_and!; [congruence| |].
    - intros E'. rewrite E' in Hperm. by apply Permutation_nil_l in Hperm.
    - apply lookup_lt_is_Some. specialize (Hact Hsel). unfold active_tab in Hact. rewrite Hact.
      by apply lookup_lt_is_Some. }
  rewrite (update_ws_at_const aw i w) by done.
  apply (conserves_at _ _ w); [done|done| |by ws_simpl|].
  - by apply ws_ok_update_pane.
  - unfold ws_tabs. ws_simpl.
    rewrite (alter_const _ _ _ _ Hp).
    rewrite (map_tabs_update _ pid p p'), (map_tabs_delete (ws_panes w) pid p), Hperm by done. done.
Qed.

Lemma to_pane_conserves ui src ident dst ins aw :
  win_ok aw -> conserves aw (move_tab_to_pane ui src ident dst ins aw).
Proof.
  intros Hok. unfold move_tab_to_pane.
  destruct (current_ws_idx aw) as [i|] eqn:Hi; [|by apply conserves_refl].
  destruct (current_ws aw) as [w|] eqn:Hw; [|by apply conserves_refl].
  pose proof (current_ws_lookup _ _ _ Hi Hw) as Hl. pose proof (win_ws_at _ _ _ Hok Hl) as Hwok.
  case_decide as Hg; [by apply conserves_refl|].
  destruct (ws_panes w !! src) as [sp|] eqn:Hsp; simpl; [|by apply conserves_refl].
  destruct (tab_index_for_identity sp ident) as [k|] eqn:Hk; [|by apply conserves_refl].
  destruct (ws_panes w !! dst) as [dp|] eqn:Hdp; simpl; [|by apply conserves_refl].
  destruct (insertion_index_for_target dp ins) as [ti|] eqn:Hti; [|by apply conserves_refl].
  destruct ui; simpl; [|by apply conserves_refl].
  destruct (tab_index_lookup _ _ _ Hk) as (t & Ht & _). apply insertion_index_le in Hti.
  destruct (move_tab_ok _ w src dst sp dp k t ti Hwok ltac:(tauto) Hsp Hdp Ht Hti)
    as (w' & -> & H1 & H2 & H3 & _). simpl.
  by apply (conserves_at _ _ w).
Qed.

(** Room for one more split in every tree, and for one more pane. *)
Definition drag_room aw : Prop :=
  Forall (fun w => room 2 (split_tree w)) (workspaces aw) /\ (pane_counter aw < u32_max)%Z.

Lemma drag_room_at aw i w : drag_room aw -> workspaces aw !! i = Some w -> room 2 (split_tree w).
Proof. intros [H _] Hi. by eapply (Forall_lookup_1 _ _ _ _ H). Qed.

Lemma extracted_conserves aw i w w' c t :
  win_ok aw -> (pane_counter aw < u32_max)%Z -> workspaces aw !! i = Some w ->
  c = pane_counter aw -> extracted c w t w' ->
  conserves aw (Some (update_ws_at i (fun _ => w')
    (set_counters (u32_succ c) (workspace_counter aw) aw))).
Proof.
  intros Hok Hc Hi -> (H1 & H2 & H3 & _).
  pose proof (win_counters _ Hok) as [Hc0 _].
  rewrite u32_succ_small by lia.
  apply (conserves_at_counter _ _ w); try done. lia.
Qed.

Lemma split_conserves ui src ident o before aw :
  win_ok aw -> drag_room aw -> conserves aw (split_tab_to_pane ui src ident o before aw).
Proof.
  intros Hok Hroom. unfold split_tab_to_pane.
  destruct (current_ws_idx aw) as [i|] eqn:Hi; [|by apply conserves_refl].
  destruct (current_ws aw) as [w|] eqn:Hw; [|by apply conserves_refl].
  pose proof (current_ws_lookup _ _ _ Hi Hw) as Hl. pose proof (win_ws_at _ _ _ Hok Hl) as Hwok.
  pose proof (win_counters _ Hok) as [Hc0 _].
  destruct (ws_panes w !! src) as [sp|] eqn:Hsp; [|by apply conserves_refl].
  case_decide as Hg; [by apply conserves_refl|].
  destruct (tab_index_for_identity sp ident) as [k|] eqn:Hk; [|by apply conserves_refl].
  destruct ui; simpl; [|by apply conserves_refl].
  destruct (tab_index_lookup _ _ _ Hk) as (t & Ht & _).
  destruct (extract_tab_keep (pane_counter aw) w src src sp k t before o Hwok Hc0
    (drag_room_at _ _ _ Hroom Hl) Hsp ltac:(eauto) Ht) as (w' & -> & Hex).
  { apply not_le. intros H. apply Hg. left. lia. }
  simpl. eapply extracted_conserves; try done. apply Hroom.
Qed.

Lemma split_target_conserves ui src ident dst o before aw :
  win_ok aw -> drag_room aw ->
  conserves aw (split_tab_to_pane_target ui src ident dst o before aw).
Proof.
  intros Hok Hroom. unfold split_tab_to_pane_target.
  destruct (current_ws_idx aw) as [i|] eqn:Hi; [|by apply conserves_refl].
  destruct (current_ws aw) as [w|] eqn:Hw; [|by apply conserves_refl].
  pose proof (current_ws_lookup _ _ _ Hi Hw) as Hl. pose proof (win_ws_at _ _ _ Hok Hl) as Hwok.
  pose proof (win_counters _ Hok) as [Hc0 _].
  case_decide as Hg; [by apply conserves_refl|].
  destruct (ws_panes w !! src) as [sp|] eqn:Hsp; simpl; [|by apply conserves_refl].
  destruct (tab_index_for_identity sp ident) as [k|] eqn:Hk; [|by apply conserves_refl].
  destruct ui; simpl; [|by apply conserves_refl].
  destruct (tab_index_lookup _ _ _ Hk) as (t & Ht & _).
  assert (is_Some (ws_panes w !! dst)) as Hdst.
  { apply (ok_dom _ _ Hwok), find_leaf_pane; [apply Hwok|tauto]. }
  destruct (extract_tab_collapse (pane_counter aw) w src dst sp k t before o Hwok Hc0
    (drag_room_at _ _ _ Hroom Hl) Hsp Hdst Ht ltac:(tauto)) as (w' & -> & Hex).
  simpl. eapply extracted_conserves; try done. apply Hroom.
Qed.

(** ** Across workspaces *)

(** Removing a workspace that has no tab left. *)
Lemma remove_workspace_ok aw i w :
  nb_pages (notebook aw) = ws_ids aw -> NoDup (ws_ids aw) -> workspaces aw !! i = Some w ->
  exists aw', remove_workspace_at i aw = Some aw' /\
    workspaces aw' = delete i (workspaces aw) /\ nb_pages (notebook aw') = ws_ids aw' /\
    pane_counter aw' = pane_counter aw /\ workspace_counter aw' = workspace_counter aw.
Proof.
  intros Hp Hnd Hi. unfold remove_workspace_at. rewrite Hi. simpl. eexists. split; [done|].
  assert (nb_page_num (ws_id w) (notebook aw) = Some i) as Hnum.
  { apply nb_page_num_at; rewrite ?Hp; [done|]. unfold ws_ids. by rewrite list_lookup_fmap, Hi. }
  destruct (decide (is_Some (remote_config w))); simpl; (split_and!; try done);
    unfold ws_ids; simpl; rewrite nb_remove_pages, Hnum; simpl; rewrite Hp; unfold ws_ids;
    by rewrite list_fmap_delete.
Qed.

Lemma win_ok_removed aw aw' i :
  win_ok aw -> workspaces aw' = delete i (workspaces aw) -> nb_pages (notebook aw') = ws_ids aw' ->
  pane_counter aw' = pane_counter aw -> workspace_counter aw' = workspace_counter aw -> win_ok aw'.
Proof.
  intros [H1 H2 H3 [H4 H5]] Ew Hp Ec Ewc.
  assert (ws_ids aw' = delete i (ws_ids aw)) as Eid by (unfold ws_ids; by rewrite Ew, list_fmap_delete).
  split; [done| | |rewrite Ec, Ewc; split; [done|]]; rewrite ?Eid, ?Ew, ?Ec.
  - eapply sublist_NoDup; [done|apply sublist_delete].
  - by apply Forall_delete.
  - by apply Forall_delete.
Qed.

Lemma update_ws_commute aw i j f g :
  i <> j -> update_ws_at i f (update_ws_at j g aw) = update_ws_at j g (update_ws_at i f aw).
Proof. intros H. unfold update_ws_at, set_workspaces. simpl. f_equal. by apply list_alter_alter_ne. Qed.

Lemma update_ws_compose aw i f g :
  update_ws_at i f (update_ws_at i g aw) = update_ws_at i (fun w => f (g w)) aw.
Proof. unfold update_ws_at, set_workspaces. simpl. f_equal. by rewrite list_alter_alter_eq. Qed.

Lemma all_tabs_same aw i f :
  (forall w, ws_tabs (f w) = ws_tabs w) -> all_tabs (update_ws_at i f aw) = all_tabs aw.
Proof.
  intros Hf. unfold all_tabs. simpl. revert i. induction (workspaces aw) as [|w l IH]; [done|].
  intros [|i]; simpl; [by rewrite Hf|]. f_equal. apply IH.
Qed.

Lemma all_tabs_focus aw i pid : all_tabs (set_pane_active i pid aw) = all_tabs aw.
Proof. apply all_tabs_same. intros w. unfold ws_tabs. by ws_simpl. Qed.

Lemma win_ok_focus aw i w pid :
  win_ok aw -> workspaces aw !! i = Some w -> is_Some (ws_panes w !! pid) ->
  win_ok (set_pane_active i pid aw).
Proof.
  intros Hok Hi Hp. apply win_ok_at; [done|]. intros v Hv. simplify_eq.
  split; [by ws_simpl|]. apply ws_ok_focus; [|done]. by eapply win_ws_at.
Qed.

Lemma refocus_ok aw i : win_ok aw -> win_ok (refocus i aw) /\ all_tabs (refocus i aw) = all_tabs aw.
Proof.
  intros Hok. unfold refocus. destruct (workspaces aw !! i) as [w|] eqn:Hi; [|done].
  simpl. destruct (ws_focused_pane w) as [f|] eqn:Hf; [|done].
  split; [|apply all_tabs_focus]. apply (win_ok_focus _ _ w); [done|done|].
  pose proof (win_ws_at _ _ _ Hok Hi) as Hw. apply (ok_dom _ _ Hw).
  destruct (focused_index _ _ (ok_tree _ _ Hw) Hf) as [j Hj]. by eapply list_elem_of_lookup_2.
Qed.

(** The target side of a cross-workspace move. *)
Lemma push_moved_ok c w dst t dp :
  ws_ok c w -> ws_panes w !! dst = Some dp ->
  ws_ok c (push_moved dst t w) /\ ws_tabs (push_moved dst t w) ≡ₚ t :: ws_tabs w.
Proof.
  intros Hok Hd. split.
  - apply ws_ok_update_pane; [done|]. intros p (H1 & H2 & H3). split_and!; simpl.
    + done.
    + intros [_ ?]%app_eq_nil. done.
    + rewrite length_app. simpl. lia.
  - unfold ws_tabs, push_moved. ws_simpl. destruct (ok_panes _ _ Hok _ _ Hd) as (H1 & _).
    assert (alter (fun p => set_selected (length (tabs p)) (set_tabs (tabs p ++ [t]) p)) dst (ws_panes w)
      = <[dst := set_selected (length (tabs dp)) (set_tabs (tabs dp ++ [t]) dp)]> (ws_panes w)) as ->.
    { apply map_eq. intros i. rewrite lookup_alter, lookup_insert.
      destruct (decide (dst = i)) as [<-|]; [by rewrite Hd|done]. }
    rewrite (map_tabs_update _ dst dp) by done. rewrite (map_tabs_delete (ws_panes w) dst dp) by done.
    simpl. rewrite <- Permutation_cons_append. done.
Qed.

Section cross.
Context (base : AppWindow NB) (si : nat) (sw : Workspace) (src : PaneId) (sp sp' : Pane)
  (k : nat) (t : Tab).
Context (Hbase : win_ok base) (Hsi : workspaces base !! si = Some sw).
Context (Hsp : ws_panes sw !! src = Some sp) (Ht : tabs sp !! k = Some t).
Context (Hdel : tabs sp' = delete k (tabs sp)).
Context (Hwf : tabs sp' <> [] -> pane_wf src sp').

Let taken : Workspace -> Workspace := update_pane src (fun _ => sp').

Lemma taken_ws : t :: ws_tabs (taken sw) ≡ₚ ws_tabs sw.
Proof.
  unfold ws_tabs, taken. ws_simpl. rewrite (alter_const _ _ _ _ Hsp).
  by apply (taken_tabs _ src sp sp' k).
Qed.

Lemma taken_all f :
  ws_tabs (f (taken sw)) ≡ₚ ws_tabs (taken sw) ->
  t :: all_tabs (update_ws_at si (fun w => f (taken w)) base) ≡ₚ all_tabs base.
Proof.
  intros Hf. unfold all_tabs. simpl.
  destruct (tabs_at (fun w => f (taken w)) si _ sw Hsi) as [-> ->].
  rewrite Hf, <- taken_ws. done.
Qed.

Definition leave : option (AppWindow NB) :=
  let aw := update_ws_at si taken base in
  if decide (tabs sp' = []) then
    let aw := remove_pane_from_split si src aw in
    sw ← workspaces aw !! si;
    if decide (ws_panes sw = ∅) then remove_workspace_at si aw else Some (refocus si aw)
  else Some aw.

Lemma dropped_ws : tabs sp' = [] ->
  ws_panes (drop_pane src (taken sw)) = delete src (ws_panes sw) /\
  ws_tabs (drop_pane src (taken sw)) ≡ₚ ws_tabs (taken sw).
Proof.
  intros He. unfold ws_tabs, taken. ws_simpl. rewrite (alter_const _ _ _ _ Hsp). split.
  - by rewrite delete_insert_eq.
  - apply map_tabs_empty with sp'; [by rewrite lookup_insert_eq|done].
Qed.

Lemma leave_ok tj w :
  tj <> si -> workspaces base !! tj = Some w ->
  exists aw, leave = Some aw /\ win_ok aw /\ t :: all_tabs aw ≡ₚ all_tabs base /\
    w ∈ workspaces aw.
Proof.
  intros Hne Hw. unfold leave.
  assert (forall f, w ∈ workspaces (update_ws_at si f base)) as Hin.
  { intros f. simpl. apply list_elem_of_lookup. exists tj. by rewrite list_lookup_alter_ne. }
  case_decide as He.
  - destruct (dropped_ws He) as [Hd Htabs].
    unfold remove_pane_from_split. rewrite update_ws_compose.
    set (aw3 := update_ws_at si _ base).
    assert (workspaces aw3 !! si = Some (drop_pane src (taken sw))) as Hsi3
      by (unfold aw3; simpl; by rewrite list_lookup_alter_eq, Hsi).
    rewrite Hsi3. cbn [mbind option_bind]. rewrite Hd.
    assert (t :: all_tabs aw3 ≡ₚ all_tabs base) as Hall by (by apply (taken_all (drop_pane src))).
    case_decide as Hemp.
    + destruct (remove_workspace_ok aw3 si (drop_pane src (taken sw))) as (aw4 & -> & E1 & E2 & E3 & E4);
        [|..|done|].
      * unfold ws_ids, aw3. simpl. rewrite alter_ids; [apply (win_pages _ Hbase)|].
        intros v _. unfold taken. by ws_simpl.
      * unfold ws_ids, aw3. simpl. rewrite alter_ids; [apply (win_nodup _ Hbase)|].
        intros v _. unfold taken. by ws_simpl.
      * assert (delete si (workspaces aw3) = delete si (workspaces base)) as Ed.
        { unfold aw3. simpl. apply list_eq. intros j. rewrite !delete_lookup, !list_lookup_alter.
          by repeat case_decide; try lia. }
        exists aw4. split_and!; [done| | |].
        -- apply (win_ok_removed base _ si); try done. by rewrite E1.
        -- rewrite <- Hall. unfold all_tabs. rewrite E1.
           destruct (tabs_at (fun w => w) si (workspaces aw3) _ Hsi3) as [_ ->].
           unfold ws_tabs at 2. by rewrite Hd, Hemp.
        -- rewrite E1, Ed. apply list_elem_of_lookup.
           exists (if decide (tj < si) then tj else tj - 1). rewrite delete_lookup.
           repeat case_decide; try lia; [done|]. rewrite <- Hw. f_equal. lia.
    + assert (win_ok aw3) as Hok3.
      { apply win_ok_at; [done|]. intros v Hv. rewrite Hsi in Hv. simplify_eq.
        split; [unfold taken; by ws_simpl|]. apply drop_pane_update; [by eapply win_ws_at|].
        destruct (map_choose _ Hemp) as (j & q & Hj%lookup_delete_Some).
        exists j. split; [naive_solver|]. destruct Hj. eauto. }
      destruct (refocus_ok aw3 si Hok3) as [H1 H2].
      eexists. split_and!; [done|done|by rewrite H2|].
      unfold refocus. rewrite Hsi3. simpl. case_goal; [|apply Hin].
      unfold set_pane_active, aw3. rewrite update_ws_compose. apply Hin.
  - eexists. split_and!; [done| |by apply (taken_all (fun w => w))|apply Hin].
    apply win_ok_at; [done|]. intros v Hv. rewrite Hsi in Hv. simplify_eq.
    split; [unfold taken; by ws_simpl|]. unfold taken. apply ws_ok_update_pane; [by eapply win_ws_at|].
    auto.
Qed.
End cross.

Lemma find_workspace_of_pane_Some aw pid i w p :
  find_workspace_of_pane pid aw = Some (i, w, p) ->
  workspaces aw !! i = Some w /\ ws_panes w !! pid = Some p.
Proof. intros (_ & Hl & Hf & _)%find_ws_Some. by rewrite Nat.sub_0_r in Hl. Qed.

Lemma position_id aw id i :
  position (has_id id) (workspaces aw) = Some i ->
  exists w, workspaces aw !! i = Some w /\ ws_id w = id.
Proof.
  intros (w & Hw & Hid & _)%position_Some. exists w. split; [done|].
  by apply bool_decide_eq_true in Hid.
Qed.

Lemma landing_pane_Some w dst : landing_pane w = Some dst -> is_Some (ws_panes w !! dst).
Proof.
  unfold landing_pane. intros H. destruct (ws_focused_pane w) as [f|].
  - case_decide; [by simplify_eq|]. apply List.find_some in H as [_ H].
    by apply bool_decide_eq_true in H.
  - apply List.find_some in H as [_ H]. by apply bool_decide_eq_true in H.
Qed.

(** The workspace with a given identifier is unique. *)
Lemma position_of_member aw w :
  win_ok aw -> w ∈ workspaces aw ->
  exists i, position (has_id (ws_id w)) (workspaces aw) = Some i /\ workspaces aw !! i = Some w.
Proof.
  intros Hok [i Hi]%list_elem_of_lookup. exists i. split; [|done].
  apply (position_unique _ _ _ w); [done|by apply bool_decide_eq_true|].
  intros j v Hj Hid%bool_decide_eq_true.
  eapply (NoDup_lookup (ws_ids aw)); [apply Hok|..]; unfold ws_ids; rewrite list_lookup_fmap;
    [by rewrite Hj|by rewrite Hi; simpl; rewrite Hid].
Qed.

Lemma to_workspace_conserves ui src ident target aw :
  win_ok aw -> conserves aw (move_tab_to_workspace ui src ident target aw).
Proof.
  intros Hok. unfold move_tab_to_workspace.
  destruct (find_workspace_of_pane src aw) as [[[si sw] sp]|] eqn:Hs; [|by apply conserves_refl].
  destruct (position (has_id target) (workspaces aw)) as [ti|] eqn:Hti; [|by apply conserves_refl].
  case_decide as Hne; [by apply conserves_refl|].
  apply find_workspace_of_pane_Some in Hs as [Hsi Hsp].
  destruct (position_id _ _ _ Hti) as (tw & Htw & Hid). rewrite Htw. cbn [mbind option_bind].
  destruct (landing_pane tw) as [dst|] eqn:Hland; [|by apply conserves_refl].
  apply landing_pane_Some in Hland as [dp Hdp].
  case_decide; [by apply conserves_refl|].
  destruct (tab_index_for_identity sp ident) as [k|] eqn:Hk; [|by apply conserves_refl].
  destruct ui; simpl negb; cbv iota; [|by apply conserves_refl].
  destruct (tab_index_lookup _ _ _ Hk) as (t & Ht & _).
  pose proof (win_ws_at _ _ _ Hok Hsi) as Hsw. pose proof (win_ws_at _ _ _ Hok Htw) as Htwok.
  destruct (remove_tab_wf src sp k t) as (sp' & -> & Hdel & _ & Hwf);
    [by apply (ok_panes _ _ Hsw)|done|]. cbn [mbind option_bind].
  rewrite update_ws_commute by done. set (base := update_ws_at ti (push_moved dst t) aw).
  destruct (push_moved_ok _ _ _ t _ Htwok Hdp) as [Hpm Hpmt].
  assert (win_ok base) as Hbase.
  { apply win_ok_at; [done|]. intros v Hv. simplify_eq. split; [unfold push_moved; by ws_simpl|done]. }
  assert (all_tabs base ≡ₚ t :: all_tabs aw) as Hall.
  { unfold all_tabs, base. simpl. destruct (tabs_at (push_moved dst t) ti _ tw Htw) as [-> ->].
    by rewrite Hpmt. }
  destruct (leave_ok base si sw src sp sp' k t Hbase) with (tj := ti) (w := push_moved dst t tw)
    as (aw4 & E & Hok4 & Hall4 & Hin); try done.
  { unfold base. simpl. by rewrite list_lookup_alter_ne. }
  { unfold base. simpl. by rewrite list_lookup_alter_eq, Htw. }
  unfold leave in E. rewrite E. cbn [mbind option_bind].
  destruct (position_of_member _ _ Hok4 Hin) as (tj & Hpos & Htj).
  assert (ws_id (push_moved dst t tw) = target) as Hidp by (unfold push_moved; by ws_simpl).
  rewrite Hidp in Hpos. rewrite Hpos. simpl.
  eexists. split; [done|]. split.
  - apply (win_ok_focus _ _ (push_moved dst t tw)); [by apply win_ok_page|done|].
    unfold push_moved. ws_simpl. by rewrite lookup_alter_eq, Hdp.
  - rewrite all_tabs_focus. change (all_tabs (set_page tj aw4)) with (all_tabs aw4).
    apply (Permutation_cons_inv (a := t)). by rewrite Hall4, Hall.
Qed.

Lemma run_drag_conserves aw ui d : win_ok aw -> drag_room aw -> conserves aw (run_drag ui d aw).
Proof.
  intros Hok Hroom. destruct d; simpl.
  - by apply reorder_conserves.
  - by apply to_pane_conserves.
  - by apply split_conserves.
  - by apply split_target_conserves.
  - by apply to_workspace_conserves.
Qed.
End window.

(** ** Claims *)

(** No drag of a tab - within its strip, into another pane, to the edge of its
    own or of another pane, or onto another workspace - ever panics, loses a tab
    or duplicates one, whatever the state of the widgets, and each keeps the
    window consistent: one page per workspace in the same order, the split tree
    of every workspace over exactly its panes, no pane without a tab, every
    selection in range. *)
Theorem drags_conserve_tabs {NB} `{NotebookLaws NB} (aw : AppWindow NB) ui d :
  win_ok aw -> drag_room aw ->
  exists aw', run_drag ui d aw = Some aw' /\ win_ok aw' /\ all_tabs aw' ≡ₚ all_tabs aw.
Proof. apply run_drag_conserves. Qed.

(** A window with two workspaces, for the witnesses. *)
Definition demo_window : AppWindow list_notebook :=
  mkAppWindow (mkNotebook [0%Z; 1%Z] 0)
    [ws_set_tree (new_with_pane 0) (snd (add_pane (mkPane 0 [new_tab (Terminal 0); new_tab (Terminal 1)] 0 false)
       (Workspace_new 0)));
     ws_set_tree (new_with_pane 1) (snd (add_pane (Pane_new_with_id 1 2) (Workspace_new 1)))]
    None None true 200 200 2 2 registry_new [] [].

Lemma single_ws_ok c id pid l :
  (0 <= pid < c)%Z -> l <> [] ->
  ws_ok c (ws_set_tree (new_with_pane pid) (snd (add_pane (mkPane pid l 0 false) (Workspace_new id)))).
Proof.
  intros Hpid Hl.
  assert (forall k q, ({[pid := mkPane pid l 0 false]} : gmap Z Pane) !! k = Some q ->
    k = pid /\ q = mkPane pid l 0 false) as Hone by (intros k q [<- <-]%lookup_singleton_Some; done).
  split; ws_simpl; rewrite ?insert_empty.
  - apply wf_new_with_pane.
  - intros k. change (k ∈ [pid] <-> is_Some (({[pid := mkPane pid l 0 false]} : gmap Z Pane) !! k)).
    rewrite list_elem_of_singleton, lookup_singleton_is_Some. naive_solver.
  - intros k q [-> ->]%Hone. split_and!; [done|done|]. simpl. destruct l; [done|simpl; lia].
  - intros k [q [-> _]%Hone]. lia.
  - exists pid. rewrite lookup_singleton_eq. eauto.
Qed.

Lemma demo_window_ok : win_ok demo_window.
Proof.
  split; simpl.
  - done.
  - apply (bool_decide_unpack _). by vm_compute.
  - rewrite !Forall_cons. split_and!; [by apply single_ws_ok..|done].
  - split; [done|]. repeat constructor; simpl; lia.
Qed.

Lemma drags_conserve_tabs_witness :
  exists aw', run_drag true (DragToWorkspace 1 (Surface 2) 0) demo_window = Some aw' /\
    ws_ids aw' = [0%Z] /\ all_tabs aw' ≡ₚ all_tabs demo_window.
Proof.
  destruct (drags_conserve_tabs demo_window true (DragToWorkspace 1 (Surface 2) 0))
    as (aw' & E & _ & Ht); [apply demo_window_ok|split; [repeat constructor; by vm_compute|done]|].
  exists aw'. split_and!; [exact E| |exact Ht]. revert E. vm_compute. by intros [= <-].
Defined.
