(* ===== verification/WindowLife.v ===== *)
(** * Application window: life cycle

    The other operations of the window keep its invariant: creating, closing,
    splitting, navigating, ordering and annotating workspaces. *)

From S2P Require Import Prelude F64 SplitTree SplitTreeRefine SplitTreeProps SplitTreeNav RustStr RemoteConfig Workspace Tabs Surfaces Notebook Window WindowTabs WindowOk WindowProps.

(** ** Updates that keep the invariant *)

Lemma remove_tab_by_wf f pid p :
  pane_wf pid p -> 1 < length (tabs p) -> pane_wf pid (snd (remove_tab_by f p)).
Proof.
  intros (Hid & Hne & Hsel) Hlen. pose proof (pane_ok_remove f p (fun _ => Hsel)) as Hok.
  revert Hok. unfold remove_tab_by. destruct (position f (tabs p)) as [i|] eqn:Hi; simpl; [|done].
  apply position_lt in Hi. destruct (lookup_lt_is_Some_2 _ _ Hi) as [t Ht].
  pose proof (delete_length _ _ _ Ht) as Hl.
  assert (delete i (tabs p) <> []) as Hd by (intros E; rewrite E in Hl; simpl in Hl; lia).
  intros Hok. case_decide; (split_and!; [done|done|by apply Hok]).
Qed.

Lemma other_pane (m : gmap Z Pane) pid p :
  m !! pid = Some p -> 1 < size m -> exists k, k <> pid /\ is_Some (m !! k).
Proof.
  intros Hp Hs. destruct (decide (delete pid m = ∅)) as [E|E].
  - assert (size m = S (size (delete pid m))) as Hsz.
    { rewrite <- (insert_delete_id m pid p Hp) at 1.
      by rewrite map_size_insert_None by apply lookup_delete_eq. }
    rewrite E, map_size_empty in Hsz. lia.
  - apply map_choose in E as (k & q & [Hk Hq]%lookup_delete_Some). eauto.
Qed.

(** Pane updates that leave the tabs' number and the selection alone. *)
Lemma pane_wf_update f g pid p :
  pane_wf pid p -> pane_wf pid (set_tabs (update_first f g (tabs p)) p).
Proof.
  intros (H1 & H2 & H3). split_and!; simpl; [done|by rewrite update_first_nil|].
  by rewrite update_first_length.
Qed.

Lemma pane_wf_add sid pid p : pane_wf pid p -> pane_wf pid (snd (add_tab sid p)).
Proof.
  intros (H1 & H2 & H3). split_and!; simpl; [done| |rewrite length_app; simpl; lia].
  by intros [_ ?]%app_eq_nil.
Qed.

Lemma pane_wf_cycle fwd pid p : pane_wf pid p -> pane_wf pid (snd (cycle_tab fwd p)).
Proof.
  intros (H1 & H2 & H3). pose proof (pane_ok_cycle fwd p (fun _ => H3)) as Hok. revert Hok.
  unfold cycle_tab, pane_ok. case_decide; simpl; intros Hok; split_and!; auto.
Qed.

Lemma pane_wf_select i pid p : pane_wf pid p -> pane_wf pid (select_tab i p).
Proof. intros (H1 & H2 & H3). unfold select_tab. case_decide; split_and!; done. Qed.

Lemma pane_wf_bell b pid p : pane_wf pid p -> pane_wf pid (set_pane_bell b p).
Proof. done. Qed.

Lemma pane_wf_alter f i pid p : pane_wf pid p -> pane_wf pid (set_tabs (alter f i (tabs p)) p).
Proof.
  intros (H1 & H2 & H3). split_and!; simpl; [done| |by rewrite length_alter].
  intros E%(f_equal length). rewrite length_alter in E. by destruct (tabs p).
Qed.

#[export] Hint Resolve pane_wf_update pane_wf_add pane_wf_cycle pane_wf_select pane_wf_bell
  pane_wf_alter : limux.

(** Every field but the panes and the tree. *)
Ltac meta := intros; match goal with w : Workspace |- _ => by destruct w end.

Lemma same_core_title w : same_core w (update_title_from_focused w).
Proof.
  unfold update_title_from_focused. case_goal; [|by destruct w].
  destruct (tab_title _), (tab_working_directory _); by destruct w.
Qed.

Section life.
Context {NB : Type} `{!NotebookOps NB} `{!NotebookLaws NB}.
Context (ord : gmap Z Pane -> list PaneId).
Implicit Types (aw : AppWindow NB).

Lemma win_ok_meta aw i f :
  (forall w, same_core w (f w)) -> win_ok aw -> win_ok (update_ws_at i f aw).
Proof.
  intros Hf Hok. apply win_ok_at; [done|]. intros w Hw. split; [apply Hf|].
  eapply ws_ok_ext; [apply Hf|]. by eapply win_ws_at.
Qed.

Lemma update_ws_position aw id f :
  update_ws id f aw = match position (has_id id) (workspaces aw) with
                      | Some i => update_ws_at i f aw
                      | None => aw
                      end.
Proof.
  assert (forall l, update_first (has_id id) f l =
    match position (has_id id) l with Some i => alter f i l | None => l end) as E.
  { induction l as [|w l IH]; simpl; [done|]. destruct (has_id id w); [done|]. rewrite IH.
    by destruct (position (has_id id) l). }
  unfold update_ws, update_ws_at. rewrite E. case_goal; [done|]. by destruct aw.
Qed.

Lemma win_ok_meta_id aw id f :
  (forall w, same_core w (f w)) -> win_ok aw -> win_ok (update_ws id f aw).
Proof. intros Hf Hok. rewrite update_ws_position. case_goal; [by apply win_ok_meta|done]. Qed.

Lemma win_ok_pane aw i pid f :
  (forall p, pane_wf pid p -> pane_wf pid (f p)) -> win_ok aw ->
  win_ok (update_ws_at i (update_pane pid f) aw).
Proof.
  intros Hf Hok. apply win_ok_at; [done|]. intros w Hw. split; [by ws_simpl|].
  apply ws_ok_update_pane; [by eapply win_ws_at|done].
Qed.

Lemma win_ok_tree aw i (g : SplitTree -> SplitTree) :
  (forall t, wf t -> wf (g t) /\ panes (g t) = panes t) -> win_ok aw ->
  win_ok (update_ws_at i (fun w => ws_set_tree (g (split_tree w)) w) aw).
Proof.
  intros Hg Hok. apply win_ok_at; [done|]. intros w Hw. split; [by ws_simpl|].
  pose proof (win_ws_at _ _ _ Hok Hw) as Hwok. destruct (Hg (split_tree w)) as [H1 H2]; [apply Hwok|].
  apply ws_ok_tree; [done|done|]. by rewrite H2.
Qed.

Lemma win_ok_tree_id aw id (g : SplitTree -> SplitTree) :
  (forall t, wf t -> wf (g t) /\ panes (g t) = panes t) -> win_ok aw ->
  win_ok (update_ws id (fun w => ws_set_tree (g (split_tree w)) w) aw).
Proof. intros Hg Hok. rewrite update_ws_position. case_goal; [by apply win_ok_tree|done]. Qed.

(** ** Closing *)

Lemma close_panel_ok aw i w pid p f :
  win_ok aw -> workspaces aw !! i = Some w -> ws_panes w !! pid = Some p ->
  exists aw', close_panel_at i pid (remove_tab_by f) aw = Some aw' /\ win_ok aw' /\
    (length (tabs p) <= 1 /\ size (ws_panes w) <= 1 <->
     workspaces aw' = delete i (workspaces aw)).
Proof.
  intros Hok Hi Hp. pose proof (win_ws_at _ _ _ Hok Hi) as Hw.
  assert (forall g, alter g i (workspaces aw) <> delete i (workspaces aw)) as Hlen.
  { intros g E%(f_equal length). rewrite length_alter, (delete_length _ _ _ Hi) in E.
    apply lookup_lt_Some in Hi. lia. }
  unfold close_panel_at. rewrite Hi. cbn [mbind option_bind]. rewrite Hp.
  case_decide as Hlast.
  - destruct (remove_workspace_ok aw i w) as (aw' & -> & E1 & E2 & E3 & E4); try apply Hok; [done|].
    cbn [mbind option_bind]. assert (win_ok aw') as Hok' by (by eapply win_ok_removed).
    exists (match workspaces aw' with [] => effect CloseWindow aw' | _ => aw' end).
    split; [done|]. assert (win_ok (effect CloseWindow aw')) by (by eapply win_ok_same).
    destruct (workspaces aw') eqn:Ew; (split; [done|]); (split; [|done]); simpl; by rewrite Ew.
  - case_decide as Htab.
    + assert (win_ok (remove_pane_from_split i pid aw)) as Hok'.
      { apply win_ok_at; [done|]. intros v Hv. simplify_eq. split; [by ws_simpl|].
        apply ws_ok_drop; [done|]. apply (other_pane _ _ p); [done|]. lia. }
      eexists. split; [done|]. destruct (refocus_ok _ i Hok') as [H1 _]. split; [done|].
      split; [tauto|]. intros E. exfalso. revert E. unfold refocus. case_goal; [|apply Hlen].
      unfold set_pane_active, remove_pane_from_split. rewrite update_ws_compose. apply Hlen.
    + eexists. split; [done|]. split.
      * apply win_ok_at; [done|]. intros v Hv. simplify_eq. split; [by ws_simpl|].
        apply ws_ok_panes_update; [done|..].
        -- intros k. rewrite lookup_alter. case_decide; subst; [by rewrite fmap_is_Some|done].
        -- intros k q. rewrite lookup_alter. case_decide; subst; [|by apply (ok_panes _ _ Hw)].
           rewrite Hp. intros [= <-]. apply remove_tab_by_wf; [by apply (ok_panes _ _ Hw)|lia].
      * split; [tauto|]. intros E. by apply Hlen in E.
Qed.

Lemma find_pane_Some f ks w pid :
  find_pane f ks w = Some pid -> exists p, ws_panes w !! pid = Some p /\ f p = true.
Proof.
  intros [_ H]%List.find_some. destruct (ws_panes w !! pid) as [p|]; [|done]. eauto.
Qed.

Lemma close_surface_ok sid aw :
  win_ok aw -> exists aw', close_surface ord sid aw = Some aw' /\ win_ok aw'.
Proof.
  intros Hok. unfold close_surface, find_workspace_with_surface.
  destruct (find_ws _ 0 (workspaces aw)) as [[[i w] pid]|] eqn:E; simpl; [|eauto].
  apply find_ws_Some in E as (_ & Hi & Hf & _). rewrite Nat.sub_0_r in Hi.
  apply find_pane_Some in Hf as (p & Hp & _).
  destruct (close_panel_ok (set_registry (snd (unregister sid (registry aw))) aw) i w pid p
    (fun t => bool_decide (tab_surface_id t = Some sid))) as (aw' & E & H & _); try done;
    [by eapply win_ok_same|eauto].
Qed.

Lemma close_browser_ok bid aw :
  win_ok aw -> exists aw', close_browser ord bid aw = Some aw' /\ win_ok aw'.
Proof.
  intros Hok. unfold close_browser, find_workspace_with_browser.
  destruct (find_ws _ 0 (workspaces aw)) as [[[i w] pid]|] eqn:E; simpl; [|eauto].
  apply find_ws_Some in E as (_ & Hi & Hf & _). rewrite Nat.sub_0_r in Hi.
  apply find_pane_Some in Hf as (p & Hp & _).
  destruct (close_panel_ok (effect (UnregisterBrowser bid) aw) i w pid p
    (fun t => bool_decide (tab_browser_id t = Some bid))) as (aw' & E & H & _); try done;
    [by eapply win_ok_same|eauto].
Qed.

Lemma request_close_ok panels : forall aw,
  win_ok aw -> exists aw', request_close_all ord panels aw = Some aw' /\ win_ok aw'.
Proof.
  induction panels as [|p panels IH]; intros aw Hok; simpl; [eauto|].
  destruct p as [sid|bid url]; simpl.
  - apply IH. case_goal; [by eapply win_ok_same|done].
  - destruct (close_browser_ok bid aw Hok) as (aw' & -> & Hok'). simpl. by apply IH.
Qed.

(** ** Order *)

Lemma reorder_views_ok aw :
  nb_pages (notebook aw) ≡ₚ ws_ids aw -> NoDup (ws_ids aw) ->
  nb_pages (notebook (reorder_workspace_views aw)) = ws_ids aw /\
  nb_current (notebook (reorder_workspace_views aw)) = nb_current (notebook aw).
Proof.
  intros Hp Hnd. unfold reorder_workspace_views. simpl.
  exact (sync_pages_spec (ws_ids aw) [] (notebook aw) (nb_pages (notebook aw)) Hnd eq_refl Hp).
Qed.

(** Permuting the workspaces and syncing the views. *)
Lemma reorder_ok aw l :
  win_ok aw -> l ≡ₚ workspaces aw -> win_ok (reorder_workspace_views (set_workspaces l aw)) /\
  nb_current (notebook (reorder_workspace_views (set_workspaces l aw))) = nb_current (notebook aw).
Proof.
  intros [H1 H2 H3 [H4 H5]] Hl.
  assert (ws_id <$> l ≡ₚ ws_ids aw) as Hids by (by apply fmap_Permutation).
  destruct (reorder_views_ok (set_workspaces l aw)) as [E1 E2].
  { simpl. rewrite H1. by symmetry. }
  { unfold ws_ids. simpl. by rewrite Hids. }
  split; [|exact E2]. split.
  - exact E1.
  - unfold ws_ids. simpl. by rewrite Hids.
  - simpl. by rewrite Hl.
  - split; [done|]. unfold ws_ids. simpl. by rewrite Hids.
Qed.

Lemma toggle_pinned_ok aw id :
  win_ok aw -> win_ok (toggle_workspace_pinned id aw) /\
  nb_current (notebook (toggle_workspace_pinned id aw)) = nb_current (notebook aw).
Proof.
  intros Hok. unfold toggle_workspace_pinned. case_goal; [|done].
  set (aw1 := update_ws_at n _ aw).
  assert (win_ok aw1) as Hok1 by (apply win_ok_meta; [meta|done]).
  apply (reorder_ok aw1 (sort_by_key pin_key (workspaces aw1))); [done|apply sort_by_key_perm].
Qed.

Lemma position_has_id aw i w :
  win_ok aw -> workspaces aw !! i = Some w -> position (has_id (ws_id w)) (workspaces aw) = Some i.
Proof.
  intros Hok Hi. destruct (position_of_member aw w Hok) as (j & Hj & Hl);
    [by eapply list_elem_of_lookup_2|].
  rewrite Hj. f_equal. eapply (NoDup_lookup (ws_ids aw)); [apply Hok|..];
    unfold ws_ids; rewrite list_lookup_fmap; [by rewrite Hl|by rewrite Hi].
Qed.

Lemma move_workspace_spec aw s t before ws wt :
  win_ok aw -> s <> t ->
  List.find (has_id s) (workspaces aw) = Some ws -> List.find (has_id t) (workspaces aw) = Some wt ->
  pinned ws = pinned wt ->
  exists aw' l1 l2, move_workspace s t before aw = Some aw' /\ win_ok aw' /\
    nb_current (notebook aw') = nb_current (notebook aw) /\
    filter (fun w => ws_id w <> s) (workspaces aw) = l1 ++ wt :: l2 /\
    workspaces aw' = l1 ++ (if before then [ws; wt] else [wt; ws]) ++ l2.
Proof.
  intros Hok Hne [Hs Hsid]%List.find_some [Ht Htid]%List.find_some Hpin.
  apply bool_decide_eq_true in Hsid, Htid.
  apply list_elem_of_In, list_elem_of_lookup in Hs as [si Hsi].
  apply list_elem_of_In in Ht.
  assert (wt ∈ delete si (workspaces aw)) as [j Hj]%list_elem_of_lookup.
  { rewrite (delete_Permutation _ _ _ Hsi) in Ht. apply elem_of_cons in Ht as [->|]; [congruence|done]. }
  set (rest := delete si (workspaces aw)) in *.
  assert (filter (fun w => ws_id w <> s) (workspaces aw) = rest) as Hfil.
  { rewrite <- (take_drop_middle _ _ _ Hsi), filter_app, filter_cons_False by tauto.
    unfold rest. rewrite delete_take_drop. pose proof (win_nodup _ Hok) as Hnd. unfold ws_ids in Hnd.
    rewrite <- (take_drop_middle _ _ _ Hsi), fmap_app, fmap_cons in Hnd.
    apply NoDup_app in Hnd as (_ & Hd & [Hn _]%NoDup_cons).
    rewrite !filter_all; [done|..]; intros x Hx E.
    - apply Hn. apply list_elem_of_fmap. exists x. split; [congruence|done].
    - apply (Hd (ws_id x)); [by apply list_elem_of_fmap_2|].
      apply elem_of_cons. left. congruence. }
  assert (position (has_id t) rest = Some j) as Hpos.
  { apply (position_unique _ _ j wt); [done|by apply bool_decide_eq_true|].
    intros k v Hk Hv%bool_decide_eq_true.
    assert (NoDup (ws_id <$> rest)) as Hnd.
    { unfold rest. rewrite list_fmap_delete. eapply sublist_NoDup; [apply Hok|apply sublist_delete]. }
    eapply (NoDup_lookup _ _ _ t Hnd); rewrite list_lookup_fmap; [rewrite Hk|rewrite Hj]; simpl; congruence. }
  pose proof (lookup_lt_Some _ _ _ Hj) as Hlt.
  set (d := if before then j else j + 1).
  assert (d <= length rest) as Hd by (unfold d; destruct before; lia).
  destruct (reorder_ok aw (insert_at d ws rest)) as [Hok' Hcur]; [done|by apply insert_at_perm|].
  exists (reorder_workspace_views (set_workspaces (insert_at d ws rest) aw)), (take j rest), (drop (S j) rest).
  split_and!; try done.
  - apply list_elem_of_lookup in Ht as [ti Hti]. unfold move_workspace.
    assert (position (has_id s) (workspaces aw) = Some si) as ->
      by (rewrite <- Hsid; by apply position_has_id).
    assert (position (has_id t) (workspaces aw) = Some ti) as ->
      by (rewrite <- Htid; by apply position_has_id).
    rewrite Hsi, Hti. cbn [mbind option_bind].
    rewrite decide_False by tauto. rewrite (vec_remove_spec _ _ _ Hsi). cbn [mbind option_bind].
    rewrite <- delete_take_drop. fold rest. rewrite Hpos. simpl default. fold d.
    by rewrite vec_insert_in.
  - rewrite Hfil. by rewrite take_drop_middle.
  - simpl. unfold insert_at, d. destruct before; simpl.
    + by rewrite (drop_S _ _ _ Hj).
    + rewrite Nat.add_1_r. rewrite (take_S_r _ _ _ Hj), <- (assoc_L (++)). done.
Qed.
End life.
