(* ===== verification/WindowClaims.v ===== *)
(** * Application window: reachable states and claims

    [win_step] lists the operations of the window; every state reached from the
    empty window satisfies the invariant.  The other claims give the functional
    behaviour of the operations on the order of the workspaces, of closing, of
    the log and of the working directory. *)

From S2P Require Import Prelude F64 SplitTree SplitTreeRefine SplitTreeProps SplitTreeNav RustStr RemoteConfig Workspace Tabs Surfaces Notebook Window WindowTabs WindowOk WindowProps WindowLife.
Open Scope string_scope.
Open Scope list_scope.

Section step.
Context {NB : Type} `{!NotebookOps NB} `{!NotebookLaws NB}.
Context (ord : gmap Z Pane -> list PaneId).
Implicit Types (aw : AppWindow NB).

(** The identifier counters have not run out. *)
Definition fresh_ids aw : Prop :=
  (pane_counter aw < u32_max)%Z /\ (0 <= workspace_counter aw < u32_max)%Z.

Inductive win_step aw : AppWindow NB -> Prop :=
  | step_new : fresh_ids aw -> win_step aw (new_workspace aw)
  | step_new_remote fp ur c : fresh_ids aw ->
      win_step aw (snd (new_remote_workspace fp ur c aw))
  | step_drag ui d aw' : drag_room aw -> run_drag ui d aw = Some aw' -> win_step aw aw'
  | step_move_pane s d b o : drag_room aw -> win_step aw (move_pane s d b o aw)
  | step_close_surface sid aw' : close_surface ord sid aw = Some aw' -> win_step aw aw'
  | step_close_browser bid aw' : close_browser ord bid aw = Some aw' -> win_step aw aw'
  | step_close_workspace id aw' : close_workspace ord id aw = Some aw' -> win_step aw aw'
  | step_close_current aw' : close_current_workspace ord aw = Some aw' -> win_step aw aw'
  | step_split o : drag_room aw -> win_step aw (split_focused o aw)
  | step_split_browser bid o u : drag_room aw -> win_step aw (split_focused_browser bid o u aw)
  | step_navigate f : win_step aw (navigate_split f aw)
  | step_navigate_dir d : win_step aw (navigate_direction d aw)
  | step_equalize : win_step aw (equalize_splits aw)
  | step_divider id n p t : win_step aw (paned_moved id n p t aw)
  | step_new_tab : win_step aw (new_pane_tab aw)
  | step_cycle f : win_step aw (cycle_pane_tab f aw)
  | step_select_tab p i : win_step aw (select_pane_tab_generic p i aw)
  | step_rename_tab p i s : win_step aw (rename_tab p i s aw)
  | step_title h k s : win_step aw (set_surface_title ord h k s aw)
  | step_wd h k s : win_step aw (set_surface_working_directory ord h k s aw)
  | step_browser_title b s : win_step aw (on_browser_title_changed ord b s aw)
  | step_bell h : win_step aw (handle_bell ord h aw)
  | step_clear_bell p : win_step aw (fst (clear_workspace_bell p aw))
  | step_clear_pane_bell i p : win_step aw (clear_pane_bell i p aw)
  | step_focus_surface s : win_step aw (set_focused_surface ord s aw)
  | step_focus_browser s : win_step aw (set_focused_browser ord s aw)
  | step_focus_pane p : win_step aw (snd (focus_pane_by_id p aw))
  | step_goto i : win_step aw (goto_workspace i aw)
  | step_goto_relative f : win_step aw (goto_workspace_relative f aw)
  | step_goto_tab i : win_step aw (goto_tab i aw)
  | step_select i : win_step aw (snd (select_workspace_by_id i aw))
  | step_pin i : win_step aw (toggle_workspace_pinned i aw)
  | step_move_workspace s t b aw' : s <> t -> move_workspace s t b aw = Some aw' -> win_step aw aw'
  | step_rename i s : win_step aw (rename_workspace i s aw)
  | step_color i c : win_step aw (set_workspace_color i c aw)
  | step_status i k v a b p : win_step aw (set_workspace_status i k v a b p aw)
  | step_clear_status i k : win_step aw (clear_workspace_status i k aw)
  | step_log i m l s n : win_step aw (add_workspace_log i m l s n aw)
  | step_clear_log i : win_step aw (clear_workspace_log i aw)
  | step_progress i v l : win_step aw (set_workspace_progress i v l aw)
  | step_clear_progress i : win_step aw (clear_workspace_progress i aw)
  | step_branch i b : win_step aw (update_workspace_branch i b aw)
  | step_sidebar : win_step aw (toggle_sidebar aw)
  | step_disconnect i c : win_step aw (disconnect_remote i c aw)
  | step_reconnect i : win_step aw (reconnect_remote i aw)
  | step_remote_state i st ds : win_step aw (update_remote_state i st ds aw)
  | step_proxy i e : win_step aw (update_proxy_endpoint ord i e aw).

(** ** Each step keeps the invariant *)

Lemma install_ok aw w title pc :
  win_ok aw -> (0 <= workspace_counter aw < u32_max)%Z -> (pane_counter aw <= pc)%Z ->
  ws_id w = workspace_counter aw -> ws_ok pc w ->
  forall aw', workspaces aw' = workspaces aw -> notebook aw' = notebook aw ->
  pane_counter aw' = pc -> workspace_counter aw' = u32_succ (workspace_counter aw) ->
  win_ok (install_workspace w title aw').
Proof.
  intros [H1 H2 H3 [H4 H5]] Hwc Hpc Hid Hw aw' Ew En Ep Ec.
  assert (u32_succ (workspace_counter aw) = (workspace_counter aw + 1)%Z) as Hs
    by (apply u32_succ_small; lia).
  assert (ws_ids (install_workspace w title aw') = ws_ids aw ++ [workspace_counter aw]) as Eids
    by (unfold ws_ids; simpl; by rewrite Ew, fmap_app, <- Hid).
  split; rewrite ?Eids; simpl.
  - by rewrite nb_set_pages, nb_append_pages, En, H1, Hid.
  - apply NoDup_app. split_and!; [done| |apply NoDup_singleton].
    intros x Hx ->%list_elem_of_singleton. rewrite Forall_forall in H5. specialize (H5 _ Hx). lia.
  - rewrite Ew, Ep, Forall_app, Forall_singleton. split; [|done].
    eapply Forall_impl; [exact H3|]. intros v. by apply ws_ok_mono.
  - rewrite Ep, Ec, Hs. split; [lia|]. rewrite Forall_app, Forall_singleton. split; [|lia].
    eapply Forall_impl; [exact H5|]. intros v Hv. simpl in Hv. lia.
Qed.

Lemma new_workspace_ok aw : win_ok aw -> fresh_ids aw -> win_ok (new_workspace aw).
Proof.
  intros Hok [Hp Hw]. pose proof (win_counters _ Hok) as [Hp0 _].
  unfold new_workspace. simpl.
  eapply (install_ok aw _ _ (u32_succ (pane_counter aw))); try done.
  - rewrite u32_succ_small; lia.
  - eapply (ws_ok_ext _ (ws_set_tree (new_with_pane (pane_counter aw))
      (snd (add_pane (mkPane (pane_counter aw) [new_tab (Terminal (reg_next_id (registry aw)))] 0 false)
              (Workspace_new (workspace_counter aw)))))); [done|].
    apply single_ws_ok; [rewrite u32_succ_small; lia|done].
Qed.

Lemma new_remote_ok fp ur c aw :
  win_ok aw -> fresh_ids aw -> win_ok (snd (new_remote_workspace fp ur c aw)).
Proof.
  intros Hok [Hp Hw]. pose proof (win_counters _ Hok) as [Hp0 _].
  unfold new_remote_workspace. set (c' := complete_config fp ur c).
  cbn [pre_allocate_id fetch_next Pane_new Pane_new_with_id pane_id snd].
  apply win_ok_effect.
  eapply (install_ok aw _ _ (u32_succ (pane_counter aw))); try done.
  - rewrite u32_succ_small; lia.
  - eapply (ws_ok_ext _ (ws_set_tree (new_with_pane (pane_counter aw))
      (snd (add_pane (mkPane (pane_counter aw) [new_tab (Terminal (reg_next_id (registry aw)))] 0 false)
              (Workspace_new (workspace_counter aw)))))); [done|].
    apply single_ws_ok; [rewrite u32_succ_small; lia|done].
Qed.

Lemma split_in_ok aw i w from p o :
  win_ok aw -> drag_room aw -> workspaces aw !! i = Some w -> ws_focused_pane w = Some from ->
  pane_wf (pane_id p) p -> pane_id p = pane_counter aw ->
  win_ok (update_ws_at i (split_in from p o)
    (set_counters (u32_succ (pane_counter aw)) (workspace_counter aw) aw)) /\
  is_Some (ws_panes (split_in from p o w) !! pane_id p).
Proof.
  intros Hok Hroom Hi Hf Hp Hid. pose proof (win_counters _ Hok) as [Hp0 _].
  pose proof (win_ws_at _ _ _ Hok Hi) as Hw. destruct Hroom as [Hroom Hc].
  destruct (focused_index _ _ (ok_tree _ _ Hw) Hf) as [j Hj].
  destruct (ws_ok_split false (pane_counter aw) w p from o) as (n & t & E & _ & Hok'); try done.
  { apply (ok_dom _ _ Hw). by eapply list_elem_of_lookup_2. }
  { by eapply (Forall_lookup_1 _ _ _ _ Hroom). }
  assert (split_in from p o w = ws_set_tree t (snd (add_pane p w))) as Es.
  { unfold split_in. rewrite Hid. revert E. ws_simpl. intros E. by rewrite E. }
  split.
  - rewrite u32_succ_small by lia. apply win_ok_at; [apply win_ok_counter; [done|lia]|].
    intros v Hv. simpl in Hv. simplify_eq. rewrite Es. split; [by ws_simpl|done].
  - rewrite Es. ws_simpl. by rewrite lookup_insert_eq.
Qed.

Lemma current_focused aw i w from :
  current_ws_idx aw = Some i -> current_ws aw = Some w -> ws_focused_pane w = Some from ->
  workspaces aw !! i = Some w.
Proof. intros Hi Hw _. by eapply current_ws_lookup. Qed.

Lemma split_focused_ok o aw : win_ok aw -> drag_room aw -> win_ok (split_focused o aw).
Proof.
  intros Hok Hroom. unfold split_focused. destruct (current_ws_idx aw) as [i|] eqn:Hi; [|done].
  destruct (current_ws aw) as [w|] eqn:Hw; [|done]. destruct (ws_focused_pane w) as [f|] eqn:Hf; [|done].
  cbn [pre_allocate_id fetch_next]. pose proof (current_ws_lookup _ _ _ Hi Hw) as Hl.
  destruct (split_in_ok aw i w f (Pane_new_with_id (pane_counter aw) (reg_next_id (registry aw))) o)
    as [H _]; try done; [split_and!; [done|done|simpl; lia]|]. by eapply win_ok_same.
Qed.

Lemma split_browser_ok bid o u aw :
  win_ok aw -> drag_room aw -> win_ok (split_focused_browser bid o u aw).
Proof.
  intros Hok Hroom. unfold split_focused_browser. destruct (current_ws_idx aw) as [i|] eqn:Hi; [|done].
  destruct (current_ws aw) as [w|] eqn:Hw; simpl; [|done].
  destruct (ws_focused_pane w) as [f|] eqn:Hf; [|done].
  pose proof (current_ws_lookup _ _ _ Hi Hw) as Hl. unfold split_browser_in_workspace.
  cbn [fetch_next].
  destruct (split_in_ok aw i w f (Pane_new_browser_with_id (pane_counter aw) bid (normalize_url u)) o)
    as [H1 H2]; try done; [split_and!; [done|done|simpl; lia]|].
  eapply win_ok_focus; [exact H1| |exact H2].
  simpl. by rewrite list_lookup_alter_eq, Hl.
Qed.

Lemma find_pane_ws {A} aw (f : Workspace -> option A) i w a :
  find_ws f 0 (workspaces aw) = Some (i, w, a) -> workspaces aw !! i = Some w /\ f w = Some a.
Proof. intros (_ & Hl & Hf & _)%find_ws_Some. by rewrite Nat.sub_0_r in Hl. Qed.

(** Updating a pane and then focusing it. *)
Lemma focus_updated aw i w pid f :
  (forall p, pane_wf pid p -> pane_wf pid (f p)) -> win_ok aw ->
  workspaces aw !! i = Some w -> is_Some (ws_panes w !! pid) ->
  win_ok (set_pane_active i pid (update_ws_at i (update_pane pid f) aw)).
Proof.
  intros Hf Hok Hi Hp. apply (win_ok_focus _ _ (update_pane pid f w)).
  - by apply win_ok_pane.
  - simpl. by rewrite list_lookup_alter_eq, Hi.
  - ws_simpl. by rewrite lookup_alter_eq, fmap_is_Some.
Qed.

Lemma focus_panel_ok aw i w pid :
  win_ok aw -> workspaces aw !! i = Some w -> is_Some (ws_panes w !! pid) ->
  win_ok (focus_panel_at i pid aw).
Proof. intros. by eapply focus_updated. Qed.

Lemma pane_for_is_Some f ks w pid : find_pane f ks w = Some pid -> is_Some (ws_panes w !! pid).
Proof. intros (p & -> & _)%find_pane_Some. eauto. Qed.

Lemma move_pane_ok s d b o aw : win_ok aw -> drag_room aw -> win_ok (move_pane s d b o aw).
Proof.
  intros Hok Hroom. unfold move_pane. destruct (current_ws_idx aw) as [i|] eqn:Hi; [|done].
  destruct (current_ws aw) as [w|] eqn:Hw; [|done].
  pose proof (current_ws_lookup _ _ _ Hi Hw) as Hl. pose proof (win_ws_at _ _ _ Hok Hl) as Hwok.
  case_decide as Hg; [done|].
  pose proof (drag_room_at _ _ _ Hroom Hl) as Hr.
  destruct (decide (s = d \/ s ∉ panes (split_tree w) \/ d ∉ panes (split_tree w))) as [Hx|Hx].
  - rewrite move_refused by (done || apply Hwok). apply win_ok_at; [done|].
    intros v Hv. simplify_eq. split; [by ws_simpl|]. apply ws_ok_tree; [done|apply Hwok|done].
  - destruct (move_spec (split_tree w) s d b o) as (t & l1 & E & Hwf & _ & _ & Hf & _ & k1 & k2 & Hk & Hp);
      [apply Hwok|apply dec_stable; tauto..|tauto|done|]. rewrite E.
    assert (forall p, p ∈ panes t <-> p ∈ panes (split_tree w)) as Hpt.
    { intros p. assert (p ∈ filter (fun q => q <> s) (panes (split_tree w)) <->
        p <> s /\ p ∈ panes (split_tree w)) as Hfil by (by rewrite list_elem_of_filter).
      assert (s ∈ panes (split_tree w)) by (apply dec_stable; tauto).
      rewrite Hk in Hfil. rewrite Hp. destruct (decide (p = s)) as [->|]; destruct b; set_solver. }
    apply (win_ok_focus _ _ (ws_set_tree t w)).
    + apply win_ok_at; [done|]. intros v Hv. simplify_eq. split; [by ws_simpl|]. by apply ws_ok_tree.
    + simpl. by rewrite list_lookup_alter_eq, Hl.
    + ws_simpl. apply (ok_dom _ _ Hwok). apply dec_stable. tauto.
Qed.

Lemma navigate_direction_ok d aw : win_ok aw -> win_ok (navigate_direction d aw).
Proof.
  intros Hok. unfold navigate_direction. destruct (current_ws_idx aw) as [i|] eqn:Hi; [|done].
  destruct (current_ws aw) as [w|] eqn:Hw; [|done].
  pose proof (current_ws_lookup _ _ _ Hi Hw) as Hl. pose proof (win_ws_at _ _ _ Hok Hl) as Hwok.
  pose proof (navigate_directional_wf d (split_tree w) (ok_tree _ _ Hwok)) as Hwf.
  pose proof (navigate_directional_panes d (split_tree w) (ok_tree _ _ Hwok)) as [Hps Hin].
  destruct (navigate_directional d (split_tree w)) as [[pid|] t]; simpl in *.
  - apply (win_ok_focus _ _ (ws_set_tree t w)).
    + apply win_ok_at; [done|]. intros v Hv. simplify_eq. split; [by ws_simpl|].
      apply ws_ok_tree; [done|done|]. by rewrite Hps.
    + simpl. by rewrite list_lookup_alter_eq, Hl.
    + ws_simpl. apply (ok_dom _ _ Hwok). by apply Hin.
  - apply win_ok_at; [done|]. intros v Hv. simplify_eq. split; [by ws_simpl|].
    apply ws_ok_tree; [done|done|]. by rewrite Hps.
Qed.

Lemma foldl_effect_ok {A} (f : A -> Effect) l : forall aw,
  win_ok aw -> win_ok (foldl (fun aw x => effect (f x) aw) aw l).
Proof.
  induction l as [|x l IH]; intros aw Hok; simpl; [done|]. apply IH. by eapply win_ok_same.
Qed.

Lemma title_step_ok h k s aw : win_ok aw -> win_ok (set_surface_title ord h k s aw).
Proof.
  intros Hok. unfold set_surface_title. case_goal; [|done]. destruct p as [[i w] pid].
  case_goal; [|done].
  match goal with |- win_ok (match _ with Some sid => effect _ (match _ with Some d => effect _ ?a | None => _ end) | None => _ end) =>
    assert (win_ok a) end.
  { apply win_ok_at; [done|]. intros v Hv. pose proof (win_ws_at _ _ _ Hok Hv) as Hv'. split.
    - rewrite (proj1 (same_core_title _)). by ws_simpl.
    - eapply ws_ok_ext; [apply same_core_title|]. apply ws_ok_update_pane; auto with limux. }
  repeat case_goal; auto with limux.
Qed.

Lemma browser_title_ok b s aw : win_ok aw -> win_ok (on_browser_title_changed ord b s aw).
Proof.
  intros Hok. unfold on_browser_title_changed. case_goal; [|done]. destruct p as [[i w] pid].
  apply win_ok_at; [done|]. intros v Hv. pose proof (win_ws_at _ _ _ Hok Hv) as Hv'. split.
  - rewrite (proj1 (same_core_title _)). by ws_simpl.
  - eapply ws_ok_ext; [apply same_core_title|]. apply ws_ok_update_pane; [done|].
    intros p Hp. by apply pane_wf_update.
Qed.

Lemma bell_ok h aw : win_ok aw -> win_ok (handle_bell ord h aw).
Proof.
  intros Hok. unfold handle_bell. case_goal; [|done]. destruct p as [[i w] pid].
  apply win_ok_effect, win_ok_tray, win_ok_effect.
  assert (win_ok (if decide (i <> default 0 (nb_current_page (notebook aw)))
                  then update_ws_at i (ws_set_bell true) aw else aw)) as H.
  { case_decide; [apply win_ok_meta; [meta|done]|done]. }
  destruct (decide (ws_focused_pane w = Some pid /\ _)); [done|].
  apply win_ok_pane; [auto with limux|done].
Qed.

Lemma clear_bell_ok p aw : win_ok aw -> win_ok (fst (clear_workspace_bell p aw)).
Proof.
  intros Hok. unfold clear_workspace_bell. case_goal; [|done]. simpl. case_goal; [|done].
  apply win_ok_tray, win_ok_meta; [meta|done].
Qed.

Lemma focus_ok s aw :
  win_ok aw -> win_ok (set_focused_surface ord s aw) /\ win_ok (set_focused_browser ord s aw).
Proof.
  intros Hok. unfold set_focused_surface, set_focused_browser, find_workspace_with_surface,
    find_workspace_with_browser.
  split; (destruct (find_ws _ 0 (workspaces aw)) as [[[i w] pid]|] eqn:E; simpl; [|done]);
    apply find_pane_ws in E as [Hi Hf]; apply pane_for_is_Some in Hf; by eapply focus_panel_ok.
Qed.

Lemma focus_pane_ok p aw : win_ok aw -> win_ok (snd (focus_pane_by_id p aw)).
Proof.
  intros Hok. unfold focus_pane_by_id, find_workspace_of_pane. case_goal; [|done].
  destruct p0 as [[i w] q]. apply find_pane_ws in Heqo as [Hi Hf]. simpl.
  eapply (win_ok_focus _ _ w); [|by case_decide|eauto]. case_decide; auto with limux.
Qed.

Lemma remote_ok aw :
  win_ok aw -> (forall i c, win_ok (disconnect_remote i c aw)) /\
  (forall i, win_ok (reconnect_remote i aw)) /\ (forall i e, win_ok (update_proxy_endpoint ord i e aw)).
Proof.
  intros Hok. split_and!; intros.
  - unfold disconnect_remote. case_goal; [|done]. apply win_ok_meta_id; [meta|auto with limux].
  - unfold reconnect_remote. repeat case_goal; auto with limux.
  - unfold update_proxy_endpoint. case_goal; [|done].
    match goal with |- context [update_ws_at n ?f aw] =>
      assert (win_ok (update_ws_at n f aw)) as H by (apply win_ok_meta; [meta|done]) end.
    case_goal; [|done]. by apply (foldl_effect_ok (fun bid => SetProxy bid e)).
Qed.

Lemma move_workspace_ok s t b aw aw' :
  win_ok aw -> move_workspace s t b aw = Some aw' -> win_ok aw'.
Proof.
  intros Hok. unfold move_workspace.
  destruct (position (has_id s) _) as [si|] eqn:Hs; [|congruence].
  destruct (position (has_id t) _) as [ti|] eqn:Ht; [|congruence].
  destruct (position_id _ _ _ Hs) as (w & Hw & _). destruct (position_id _ _ _ Ht) as (v & Hv & _).
  rewrite Hw, Hv. cbn [mbind option_bind]. case_decide; [congruence|].
  rewrite (vec_remove_spec _ _ _ Hw). cbn [mbind option_bind]. rewrite <- delete_take_drop.
  unfold vec_insert. case_decide; [|done]. cbn [mbind option_bind]. intros [= <-].
  apply reorder_ok; [done|]. by apply insert_at_perm.
Qed.

Lemma win_step_ok aw aw' : win_step aw aw' -> win_ok aw -> win_ok aw'.
Proof.
  intros Hs Hok. destruct Hs; try (apply win_ok_meta_id; [meta|done]).
  - by apply new_workspace_ok.
  - by apply new_remote_ok.
  - destruct d; simpl in *.
    + destruct (reorder_conserves ui pid ident ins aw Hok) as (a & E & ? & _). congruence.
    + destruct (to_pane_conserves ui src ident dst ins aw Hok) as (a & E & ? & _). congruence.
    + destruct (split_conserves ui src ident o before aw Hok) as (a & E & ? & _); [done|congruence].
    + destruct (split_target_conserves ui src ident dst o before aw Hok) as (a & E & ? & _);
        [done|congruence].
    + destruct (to_workspace_conserves ui src ident target aw Hok) as (a & E & ? & _). congruence.
  - by apply move_pane_ok.
  - destruct (close_surface_ok ord sid aw Hok) as (a & E & ?). congruence.
  - destruct (close_browser_ok ord bid aw Hok) as (a & E & ?). congruence.
  - unfold close_workspace in *. case_in H; [|congruence].
    destruct (request_close_ok ord (all_panels (ord (ws_panes w)) w) aw Hok) as (a & E & ?). congruence.
  - unfold close_current_workspace in *. case_in H; [|congruence]. case_in H; [congruence|].
    destruct (request_close_ok ord (all_panels (ord (ws_panes w)) w) aw Hok) as (a & E & ?). congruence.
  - by apply split_focused_ok.
  - by apply split_browser_ok.
  - unfold navigate_split. case_goal; [|done].
    apply (win_ok_tree _ _ (fun t => snd (navigate f t))); [|done].
    intros t Ht. split; [by apply navigate_wf|apply navigate_panes].
  - by apply navigate_direction_ok.
  - unfold equalize_splits. case_goal; [|done]. apply win_ok_tree; [|done].
    intros t Ht. split; [by apply ratio_ops_wf|by apply ratio_ops_panes].
  - unfold paned_moved. case_decide; [done|].
    eapply (win_ok_tree_id _ _ (set_ratio n _)); [|done]. intros u Hu. by apply set_ratio_wf.
  - unfold new_pane_tab. repeat case_goal; try done. apply win_ok_pane; [auto with limux|].
    by eapply win_ok_same.
  - unfold cycle_pane_tab. repeat case_goal; try done. apply win_ok_pane; auto with limux.
  - unfold select_pane_tab_generic, find_workspace_of_pane. case_goal; [|done].
    destruct p0 as [[j w] q]. apply find_pane_ws in Heqo as [Hi Hf].
    eapply (focus_updated _ _ w); eauto with limux.
  - unfold rename_tab. case_goal; [|done]. destruct p0 as [[j w] q].
    apply win_ok_pane; auto with limux.
  - by apply title_step_ok.
  - unfold set_surface_working_directory. case_decide; [done|]. case_goal; [|done].
    destruct p as [[i w] pid]. apply win_ok_pane; auto with limux.
  - by apply browser_title_ok.
  - by apply bell_ok.
  - by apply clear_bell_ok.
  - unfold clear_pane_bell. rewrite update_ws_position. case_goal; [|done].
    apply win_ok_pane; auto with limux.
  - by apply focus_ok.
  - by apply focus_ok.
  - by apply focus_pane_ok.
  - unfold goto_workspace. case_decide; auto with limux.
  - unfold goto_workspace_relative. case_decide; auto with limux.
  - unfold goto_tab. repeat case_decide; auto with limux.
  - unfold select_workspace_by_id. case_goal; simpl; auto with limux.
  - by apply toggle_pinned_ok.
  - by eapply move_workspace_ok.
  - apply win_ok_effect, win_ok_tray, win_ok_meta_id; [meta|done].
  - unfold toggle_sidebar. case_goal; by eapply win_ok_same.
  - by apply remote_ok.
  - by apply remote_ok.
  - by apply remote_ok.
Qed.
End step.

(** ** Claims *)

(** The window before its first workspace. *)
Definition empty_window {NB} (nb : NB) : AppWindow NB :=
  mkAppWindow nb [] None None true 200 200 0 0 registry_new [] [].

(** C1: in every state the window reaches from its empty start - through any
    sequence of workspace, split, drag, close, focus, title, bell, ordering and
    metadata operations - the notebook shows exactly one page per workspace in the
    order of the workspaces, workspace identifiers are distinct, and in every
    workspace the split tree is well formed over exactly the panes of the pane
    map, each of which has a tab and a selection in range. *)
Theorem window_invariant {NB} `{NotebookLaws NB} ord (nb : NB) (aw : AppWindow NB) :
  nb_pages nb = [] -> rtc (win_step ord) (empty_window nb) aw -> win_ok aw.
Proof.
  intros Hnb Hr.
  assert (win_ok (empty_window nb)) as H1.
  { split; simpl; [done|constructor|constructor|]. split; [done|constructor]. }
  induction Hr as [|a b c Hs Hr IH]; [done|]. apply IH. by eapply win_step_ok.
Qed.

Definition key_order (m : gmap Z Pane) : list PaneId := (map_to_list m).*1.

Definition demo_start : AppWindow list_notebook := empty_window (mkNotebook [] 0).

Lemma window_invariant_witness :
  win_ok (split_focused Vertical (new_pane_tab (new_workspace demo_start))).
Proof.
  apply (window_invariant key_order (mkNotebook [] 0)); [done|].
  eapply rtc_l; [apply step_new; by split|].
  eapply rtc_l; [apply step_new_tab|].
  apply rtc_once, step_split. split; [|done]. by repeat constructor.
Defined.

(** Pinning or unpinning a workspace flips its flag and nothing else, then
    shows the pinned workspaces first, keeping the relative order inside each
    group; the pages follow and the visible workspace stays the same. *)
Theorem toggle_pin_partitions {NB} `{NotebookLaws NB} (aw : AppWindow NB) id i :
  win_ok aw -> position (has_id id) (workspaces aw) = Some i ->
  let l := alter (fun w => ws_set_pinned (negb (pinned w)) w) i (workspaces aw) in
  let aw' := toggle_workspace_pinned id aw in
  workspaces aw' = filter (fun w => pinned w = true) l ++ filter (fun w => pinned w = false) l /\
  nb_pages (notebook aw') = ws_ids aw' /\
  nb_current (notebook aw') = nb_current (notebook aw).
Proof.
  intros Hok Hi l aw'. destruct (toggle_pinned_ok aw id Hok) as [Hok' Hcur].
  split_and!; [|apply Hok'|done].
  unfold aw', toggle_workspace_pinned. rewrite Hi. simpl. fold l.
  rewrite sort_by_key_two by (intros w _; unfold pin_key; destruct (pinned w); auto).
  f_equal; apply list_filter_iff; intros w; unfold pin_key; by destruct (pinned w).
Qed.

Lemma toggle_pin_partitions_witness :
  ws_id <$> workspaces (toggle_workspace_pinned 1 demo_window) = [1; 0]%Z.
Proof.
  destruct (toggle_pin_partitions demo_window 1 1 demo_window_ok eq_refl) as (-> & _).
  by vm_compute.
Defined.

(** Dragging a workspace row onto another of the same group puts it right
    before or after the target, keeps the order of all others, and keeps the
    visible workspace; across the pinned/unpinned boundary nothing changes. *)
Theorem move_workspace_adjacent {NB} `{NotebookLaws NB} (aw : AppWindow NB) s t before ws wt :
  win_ok aw -> s <> t ->
  List.find (has_id s) (workspaces aw) = Some ws -> List.find (has_id t) (workspaces aw) = Some wt ->
  exists aw', move_workspace s t before aw = Some aw' /\
  nb_current (notebook aw') = nb_current (notebook aw) /\ nb_pages (notebook aw') = ws_ids aw' /\
  (if decide (pinned ws = pinned wt) then
     exists l1 l2, filter (fun w => ws_id w <> s) (workspaces aw) = l1 ++ wt :: l2 /\
       workspaces aw' = l1 ++ (if before then [ws; wt] else [wt; ws]) ++ l2
   else aw' = aw).
Proof.
  intros Hok Hne Hs Ht. case_decide as Hp.
  - destruct (move_workspace_spec aw s t before ws wt) as (aw' & l1 & l2 & E & Hok' & Hc & H1 & H2);
      try done. exists aw'. split_and!; [done|done|apply Hok'|]. eauto.
  - exists aw. split_and!; [|done|apply Hok|done].
    apply List.find_some in Hs as [Hs Hsid], Ht as [Ht Htid].
    apply bool_decide_eq_true in Hsid, Htid.
    apply list_elem_of_In, list_elem_of_lookup in Hs as [i Hi], Ht as [j Hj].
    unfold move_workspace.
    assert (position (has_id s) (workspaces aw) = Some i) as ->
      by (rewrite <- Hsid; by apply position_has_id).
    assert (position (has_id t) (workspaces aw) = Some j) as ->
      by (rewrite <- Htid; by apply position_has_id).
    rewrite Hi, Hj. cbn [mbind option_bind]. by rewrite decide_True.
Qed.

Lemma move_workspace_adjacent_witness :
  exists aw', move_workspace 1 0 true demo_window = Some aw' /\ ws_ids aw' = [1; 0]%Z.
Proof.
  destruct (move_workspace_adjacent demo_window 1 0 true
    (default (Workspace_new 0) (workspaces demo_window !! 1))
    (default (Workspace_new 0) (workspaces demo_window !! 0)) demo_window_ok)
    as (aw' & E & _); [done|done|done|].
  exists aw'. split; [exact E|]. revert E. vm_compute. by intros [= <-].
Defined.

(** When the shell of a surface exits, the model never panics: the surface
    leaves the registry, exactly one workspace is affected, and that workspace is
    removed exactly when the surface was the only tab of its only pane. *)
Theorem close_surface_removes {NB} `{NotebookLaws NB} ord (aw : AppWindow NB) sid i id pid :
  win_ok aw -> find_workspace_with_surface ord sid aw = Some (i, id, pid) ->
  exists w p aw', workspaces aw !! i = Some w /\ ws_panes w !! pid = Some p /\ has_surface sid p = true /\
    close_surface ord sid aw = Some aw' /\ win_ok aw' /\
    surfaces (registry aw') = delete sid (surfaces (registry aw)) /\
    (length (tabs p) <= 1 /\ size (ws_panes w) <= 1 <-> workspaces aw' = delete i (workspaces aw)).
Proof.
  intros Hok Hf. pose proof Hf as Hf'. unfold find_workspace_with_surface in Hf.
  destruct (find_ws _ 0 (workspaces aw)) as [[[j w] q]|] eqn:E; simpl in Hf; [|done].
  simplify_eq. apply find_pane_ws in E as [Hi Hq]. apply find_pane_Some in Hq as (p & Hp & Hs).
  destruct (close_panel_ok (set_registry (snd (unregister sid (registry aw))) aw) i w pid p
    (fun t => bool_decide (tab_surface_id t = Some sid))) as (aw' & E & Hok' & Hiff); try done;
    [by eapply win_ok_same|].
  exists w, p, aw'. split_and!; try done; [unfold close_surface; by rewrite Hf'|].
  revert E. unfold close_panel_at. simpl. rewrite Hi. cbn [mbind option_bind]. rewrite Hp.
  repeat case_decide; [|intros [= <-]; unfold refocus; by case_goal|by intros [= <-]].
  unfold remove_workspace_at. simpl. rewrite Hi. cbn [mbind option_bind].
  intros [= <-]. repeat case_goal; done.
Qed.

Lemma close_surface_removes_witness :
  exists aw', close_surface key_order 2 demo_window = Some aw' /\ ws_ids aw' = [0%Z].
Proof.
  destruct (close_surface_removes key_order demo_window 2 1 1 1 demo_window_ok)
    as (w & p & aw' & _ & _ & _ & E & _); [by vm_compute|].
  exists aw'. split; [exact E|]. revert E. vm_compute. by intros [= <-].
Defined.

(** The log of a workspace keeps the 50 most recent messages in order: adding
    one drops the oldest only when there would be more, and no other workspace
    changes. *)
Theorem log_keeps_last_50 {NB} `{NotebookOps NB} (aw : AppWindow NB) id msg lvl src now i w :
  position (has_id id) (workspaces aw) = Some i -> workspaces aw !! i = Some w ->
  length (log_entries w) <= 50 ->
  exists w', workspaces (add_workspace_log id msg lvl src now aw) = <[i := w']> (workspaces aw) /\
    let l := log_entries w ++ [mkLog msg lvl src now] in
    log_entries w' = drop (length l - 50) l /\ length (log_entries w') <= 50.
Proof.
  intros Hi Hw Hlen. unfold add_workspace_log. rewrite update_ws_position, Hi. simpl.
  set (e := mkLog msg lvl src now).
  exists (ws_set_log (push_log e (log_entries w)) w). split.
  - apply list_eq. intros j. rewrite list_lookup_alter.
    destruct (decide (i = j)) as [<-|].
    + rewrite Hw. simpl. by rewrite list_lookup_insert_eq by (by eapply lookup_lt_Some).
    + by rewrite list_lookup_insert_ne.
  - assert (log_entries (ws_set_log (push_log e (log_entries w)) w) = push_log e (log_entries w)) as ->
      by (by destruct w).
    unfold push_log. cbv zeta. rewrite length_app. cbn [length]. case_decide as Hd.
    + destruct (log_entries w) as [|x l]; simpl in *; [lia|].
      replace (length l + 1 - 49) with 1 by lia. simpl. rewrite drop_0, length_app. simpl. split; [done|lia].
    + replace (length (log_entries w) + 1 - 50) with 0 by lia. rewrite drop_0, length_app. simpl.
      split; [done|lia].
Qed.

Definition long_log : list SidebarLogEntry :=
  (fun n => mkLog "m" Info None (Z.of_nat n)) <$> seq 0 50.

Lemma log_keeps_last_50_witness :
  exists w', workspaces (add_workspace_log 0 "new" Warning None 99
      (set_workspaces [ws_set_log long_log (Workspace_new 0)] demo_start)) = [w'] /\
    length (log_entries w') = 50 /\ log_timestamp <$> head (log_entries w') = Some 1%Z.
Proof.
  destruct (log_keeps_last_50 (set_workspaces [ws_set_log long_log (Workspace_new 0)] demo_start)
    0 "new" Warning None 99 0 (ws_set_log long_log (Workspace_new 0))) as (w' & E & Hl & _);
    [done|done|vm_compute; lia|].
  exists w'. split; [exact E|]. rewrite Hl. by vm_compute.
Defined.

(** An OSC 7 working-directory report has authority over titles: after a
    nonempty report, no sequence of title changes alters the directory of the tab;
    an empty report takes the directory from the current title and lets the
    following titles set it again. *)
Theorem osc7_authority home wd t titles title d :
  wd <> "" -> extract_directory home title = Some d ->
  let t1 := foldl (fun t s => title_tab home s t) (report_wd home wd t) titles in
  tab_working_directory t1 = Some wd /\
  tab_working_directory (report_wd home "" t1) = extract_directory home (tab_title t1) /\
  tab_working_directory (title_tab home title (report_wd home "" t1)) = Some d.
Proof.
  intros Hwd Hd t1.
  assert (tab_working_directory t1 = Some wd /\ tab_wd_from_osc7 t1 = true) as [H1 _].
  { unfold t1. assert (tab_working_directory (report_wd home wd t) = Some wd /\
      tab_wd_from_osc7 (report_wd home wd t) = true) as H by (by destruct wd).
    revert H. generalize (report_wd home wd t). induction titles as [|s l IH]; intros u Hu; [done|].
    simpl. apply IH. unfold title_tab. case_goal; simpl; [|done].
    by rewrite (proj2 Hu). }
  split_and!; [done|done|]. unfold title_tab. rewrite Hd. done.
Qed.

Lemma osc7_authority_witness :
  tab_working_directory (title_tab (Some "/home/me") "me@host:~/src"
    (report_wd (Some "/home/me") "/tmp" (new_tab (Terminal 0)))) = Some "/tmp".
Proof.
  exact (proj1 (osc7_authority (Some "/home/me") "/tmp" (new_tab (Terminal 0)) ["me@host:~/src"]
    "/etc" "/etc" ltac:(done) ltac:(by vm_compute))).
Defined.
