(* ===== verification/RustNum.v ===== *)
(** * Parsing decimal floating-point numbers ([str::parse::<f64>])

    The grammar of Rust's [f64::from_str]; the value is the decimal number,
    rounded once to nearest-even: an integer is normalised, a fraction is one
    correctly rounded division of two integers. *)

From Stdlib Require Import Ascii SpecFloat.
From S2P Require Import Prelude F64 RustStr.
Open Scope string_scope.
Open Scope list_scope.

(** The leading digits: their number, their value appended to [acc], the rest. *)
Fixpoint digits (acc : Z) (s : string) : nat * Z * string :=
  match s with
  | String c r =>
      match digit_val c with
      | Some d => let '(n, v, t) := digits (acc * 10 + d)%Z r in (S n, v, t)
      | None => (0, acc, s)
      end
  | "" => (0, acc, "")
  end.

(** [m * 10 ^ e], correctly rounded. *)
Definition f64_decimal (m e : Z) : f64 :=
  match m with
  | Zpos p =>
      if (0 <=? e)%Z then binary_normalize f64_prec f64_emax (m * 10 ^ e) 0 false
      else SFdiv f64_prec f64_emax (S754_finite false p 0)
             (S754_finite false (Z.to_pos (10 ^ (- e))) 0)
  | _ => S754_zero false
  end.

Definition parse_sign (s : string) : bool * string :=
  match s with
  | String c r => if byte_eqb c "-" then (true, r) else if byte_eqb c "+" then (false, r) else (false, s)
  | "" => (false, "")
  end.

(** An optional exponent, then the end of the text. *)
Definition parse_exponent (s : string) : option Z :=
  match s with
  | "" => Some 0%Z
  | String c r =>
      if byte_eqb c "e" || byte_eqb c "E" then
        let '(neg, r) := parse_sign r in
        match digits 0 r with
        | (S _, v, "") => Some (if neg then - v else v)%Z
        | _ => None
        end
      else None
  end.

Definition parse_decimal (s : string) : option f64 :=
  let '(n, v, r) := digits 0 s in
  let '(k, v, r) :=
    match r with
    | String c r' => if byte_eqb c "." then digits v r' else (0, v, r)
    | "" => (0, v, r)
    end in
  if decide (n + k = 0) then None
  else e ← parse_exponent r; Some (f64_decimal v (e - Z.of_nat k)).

Definition f64_neg : f64 -> f64 := SFopp.

Definition parse_f64 (s : string) : option f64 :=
  let '(neg, r) := parse_sign s in
  let l := to_lowercase r in
  x ← (if String.eqb l "inf" || String.eqb l "infinity" then Some (S754_infinity false)
       else if String.eqb l "nan" then Some S754_nan
       else parse_decimal r);
  Some (if neg then f64_neg x else x).

Example parse_half : parse_f64 "0.5" = Some f64_half.
Proof. vm_compute. reflexivity. Qed.
Example parse_tenth : parse_f64 "-1e-1" = Some (f64_neg (f64_lit 1 10)).
Proof. vm_compute. reflexivity. Qed.
Example parse_bad : (parse_f64 "", parse_f64 ".", parse_f64 "1e", parse_f64 "1.5x") = (None, None, None, None).
Proof. vm_compute. reflexivity. Qed.
