(* ===== verification/Session.v ===== *)
(** * Session snapshots (app/src/session.rs and window.rs)

    What is saved of a window and how it is restored: [session_snapshot] and
    [snapshot_layout_node] on the way out, [restore_session],
    [restore_workspace_from_layout] and [build_layout_widget] on the way back.
    The JSON text in between is written and read by serde and not modelled; the
    readers of the scrollback and of the browser URLs are arguments. *)

From Stdlib Require Import Ascii.
From S2P Require Import Prelude F64 SplitTree RustStr RemoteConfig Workspace Surfaces Notebook Window WindowTabs.
Open Scope string_scope.
Open Scope list_scope.

(** ** The snapshot types *)

Record StatusEntrySnapshot := mkStatusSnap {
  ss_key : string; ss_value : string; ss_icon : option string; ss_color : option string;
  ss_priority : Z;
}.
Record LogEntrySnapshot := mkLogSnap {
  ls_message : string; ls_level : string; ls_source : option string;
}.
Record ProgressSnapshot := mkProgressSnap { prs_value : f64; prs_label : option string }.

Record PaneTabSnapshot := mkTabSnap {
  snap_working_directory : option string;
  snap_title : option string;
  snap_scrollback : option string;
  snap_panel_kind : option string;
  snap_url : option string;
}.

Definition is_browser (t : PaneTabSnapshot) : bool :=
  bool_decide (snap_panel_kind t = Some "browser").

Inductive LayoutSnapshot :=
  | SingleSnap (tabs : list PaneTabSnapshot)
  | SplitSnap (orientation : string) (ratio : f64) (first second : LayoutSnapshot).

Record WorkspaceSnapshot := mkWsSnap {
  wsn_title : string;
  wsn_custom_title : option string;
  wsn_working_directory : option string;
  wsn_color : option string;
  wsn_pinned : option bool;
  wsn_layout : LayoutSnapshot;
  wsn_status_entries : option (list StatusEntrySnapshot);
  wsn_log_entries : option (list LogEntrySnapshot);
  wsn_progress : option ProgressSnapshot;
  wsn_remote_config : option RemoteConfiguration;
}.

Record SessionSnapshot := mkSession {
  version : Z;
  sn_workspaces : list WorkspaceSnapshot;
  selected_workspace : option nat;
  sidebar_width : option Z;
  sn_sidebar_visible : option bool;
}.

(** ** Saving *)

Section save.
Context (scrollback_reader : SurfaceId -> option string).
Context (url_reader : BrowserPanelId -> option string).

Definition to_snapshot (t : Tab) : PaneTabSnapshot :=
  let '(kind, url, scrollback) :=
    match tab_panel t with
    | Terminal sid => ("terminal", None, scrollback_reader sid)
    | Browser bid url =>
        ("browser", Some (match url_reader bid with Some u => u | None => url end), None)
    end in
  mkTabSnap (tab_working_directory t)
    (match tab_title t with "" => None | s => Some s end) scrollback (Some kind) url.

Definition orientation_name (o : Orientation) : string :=
  match o with Horizontal => "horizontal" | Vertical => "vertical" end.

Definition pane_snapshot (panes : gmap Z Pane) (pid : PaneId) : LayoutSnapshot :=
  SingleSnap (match panes !! pid with Some p => to_snapshot <$> tabs p | None => [] end).

Fixpoint snapshot_layout_node (fuel : nat) (m : gmap Z Node) (node_id : NodeId)
    (panes : gmap Z Pane) : LayoutSnapshot :=
  match fuel with
  | O => SingleSnap []
  | S fuel =>
      match m !! node_id with
      | Some (Leaf pid) => pane_snapshot panes pid
      | Some (Split o r first second) =>
          SplitSnap (orientation_name o) r (snapshot_layout_node fuel m first panes)
            (snapshot_layout_node fuel m second panes)
      | None => SingleSnap []
      end
  end.

Definition snapshot_layout (t : SplitTree) (panes : gmap Z Pane) : LayoutSnapshot :=
  match root t with
  | Some r => snapshot_layout_node (fuel_of (nodes t)) (nodes t) r panes
  | None => SingleSnap []
  end.

Definition status_snapshot (e : SidebarStatusEntry) : StatusEntrySnapshot :=
  mkStatusSnap (st_key e) (st_value e) (st_icon e) (st_color e) (st_priority e).
Definition log_snapshot (e : SidebarLogEntry) : LogEntrySnapshot :=
  mkLogSnap (log_message e) (LogLevel_as_str (log_level e)) (log_source e).
Definition nonempty {A} (l : list A) : option (list A) :=
  match l with [] => None | _ => Some l end.

(** [sord] is the iteration order of the status map. *)
Definition workspace_snapshot (sord : gmap string SidebarStatusEntry -> list string)
    (w : Workspace) : WorkspaceSnapshot :=
  mkWsSnap (ws_title w) (custom_title w) (ws_working_directory w)
    (color_display <$> color w) (Some (pinned w))
    (snapshot_layout (split_tree w) (ws_panes w))
    (nonempty (status_snapshot <$>
       omap (fun k => status_entries w !! k) (sord (status_entries w))))
    (nonempty (log_snapshot <$> log_entries w))
    ((fun p => mkProgressSnap (progress_value p) (progress_label p)) <$> progress w)
    (remote_config w).

Definition session_snapshot {NB} `{!NotebookOps NB}
    (sord : gmap string SidebarStatusEntry -> list string) (aw : AppWindow NB)
    : SessionSnapshot :=
  mkSession 1 (workspace_snapshot sord <$> workspaces aw) (nb_current_page (notebook aw))
    (if sidebar_visible aw then Some (paned_position aw) else Some (sidebar_last_width aw))
    (Some (sidebar_visible aw)).
End save.

(** ** Restoring a layout *)

(** What [build_layout_widget] updates: the workspace under construction, the
    identifier counters, the split nodes whose divider it connects, the surfaces
    created and the pending identifiers. *)
Record Build := mkBuild {
  b_ws : Workspace;
  b_panes : Z;
  b_surfaces : SurfaceRegistry;
  b_browsers : Z;
  b_paneds : list NodeId;
  b_pending : list SurfaceId;
  b_effects : list Effect;
}.

Definition b_set_ws (f : Workspace -> Workspace) (b : Build) : Build :=
  mkBuild (f (b_ws b)) (b_panes b) (b_surfaces b) (b_browsers b) (b_paneds b) (b_pending b)
    (b_effects b).

Definition b_next_pane (b : Build) : PaneId * Build :=
  let '(pid, pc) := fetch_next (b_panes b) in
  (pid, mkBuild (b_ws b) pc (b_surfaces b) (b_browsers b) (b_paneds b) (b_pending b) (b_effects b)).
Definition b_next_browser (b : Build) : BrowserPanelId * Build :=
  let '(bid, bc) := fetch_next (b_browsers b) in
  (bid, mkBuild (b_ws b) (b_panes b) (b_surfaces b) bc (b_paneds b) (b_pending b) (b_effects b)).
(** [pre_allocate_id], [create_with_id] and the push on the pending list. *)
Definition b_new_surface (wd command : option string) (b : Build) : SurfaceId * Build :=
  let '(sid, r) := pre_allocate_id (b_surfaces b) in
  (sid, mkBuild (b_ws b) (b_panes b) r (b_browsers b) (b_paneds b) (b_pending b ++ [sid])
          (b_effects b ++ [CreateSurface wd command sid])).
Definition b_add_paned (n : NodeId) (b : Build) : Build :=
  mkBuild (b_ws b) (b_panes b) (b_surfaces b) (b_browsers b) (b_paneds b ++ [n]) (b_pending b)
    (b_effects b).

Section restore.
(** The iteration orders of the hash maps of nodes and of panes. *)
Context (nord : gmap Z Node -> list NodeId).
Context (default_wd command : option string).

(** The first tab of a saved pane makes the pane. *)
Definition restore_first_tab (t : PaneTabSnapshot) (b : Build) : PaneId * Build :=
  let '(pid, b) := b_next_pane b in
  if is_browser t then
    let url := default "" (snap_url t) in
    let '(bid, b) := b_next_browser b in
    (pid, b_set_ws (fun w => snd (add_pane (Pane_new_browser_with_id pid bid url) w)) b)
  else
    let wd := match snap_working_directory t with Some d => Some d | None => default_wd end in
    let '(sid, b) := b_new_surface wd command b in
    (pid, b_set_ws (fun w => snd (add_pane (Pane_new_with_id pid sid) w)) b).

(** The others are added to it. *)
Definition restore_tab (pid : PaneId) (b : Build) (t : PaneTabSnapshot) : Build :=
  if is_browser t then
    let url := default "" (snap_url t) in
    let '(bid, b) := b_next_browser b in
    b_set_ws (update_pane pid (fun p =>
      let p := snd (add_browser_tab bid url p) in
      match snap_title t with Some s => set_browser_tab_title bid s p | None => p end)) b
  else
    let wd := match snap_working_directory t with Some d => Some d | None => default_wd end in
    let '(sid, b) := b_new_surface wd command b in
    b_set_ws (update_pane pid (fun p =>
      let p := snd (add_tab sid p) in
      let p := match snap_title t with Some s => set_tab_title sid s p | None => p end in
      match snap_working_directory t with Some d => set_tab_directory sid d p | None => p end)) b.

Definition snap_orientation (s : string) : Orientation :=
  if String.eqb s "vertical" then Vertical else Horizontal.

Fixpoint build_layout_widget (s : LayoutSnapshot) (b : Build) : SplitTree * Build :=
  match s with
  | SingleSnap [] =>
      let '(sid, b) := b_new_surface default_wd command b in
      let '(pid, b) := b_next_pane b in
      (new_with_pane pid, b_set_ws (fun w => snd (add_pane (Pane_new_with_id pid sid) w)) b)
  | SingleSnap (t :: ts) =>
      let '(pid, b) := restore_first_tab t b in
      let b := foldl (restore_tab pid) b ts in
      (new_with_pane pid, b_set_ws (update_pane pid (select_tab 0)) b)
  | SplitSnap o r s1 s2 =>
      let '(t1, b) := build_layout_widget s1 b in
      let '(t2, b) := build_layout_widget s2 b in
      let t := merge (nord (nodes t1)) (nord (nodes t2)) t1 t2 (snap_orientation o) r in
      (t, match root t with Some n => b_add_paned n b | None => b end)
  end.

(** ** Restoring the window *)

(** What the idle callback of a restored workspace does later. *)
Record RestoreIdle := mkIdle {
  ri_pending : list SurfaceId; ri_connect : option (WorkspaceId * RemoteConfiguration);
}.

Definition restore_status (entries : list StatusEntrySnapshot)
    (m : gmap string SidebarStatusEntry) : gmap string SidebarStatusEntry :=
  foldl (fun m e => <[ss_key e := mkStatus (ss_key e) (ss_value e) (ss_icon e) (ss_color e)
                                    (ss_priority e)]> m) m entries.
Definition restore_log (now : Z) (e : LogEntrySnapshot) : SidebarLogEntry :=
  mkLog (ls_message e) (LogLevel_from_str (ls_level e)) (ls_source e) now.

(** The relay credentials of the last session are replaced by fresh ones. *)
Definition refresh_relay (free_port : option Z) (urandom : nat -> option string)
    (c : RemoteConfiguration) : RemoteConfiguration :=
  mkRemoteConfiguration (destination c) (port c) (identity_file c) (ssh_options c)
    (terminal_startup_command c) free_port (Some (generate_relay_id urandom))
    (Some (generate_relay_token urandom)) None.

Definition restore_metadata (now : Z) (s : WorkspaceSnapshot) (w : Workspace) : Workspace :=
  let w := ws_set_status (restore_status (default [] (wsn_status_entries s)) (status_entries w)) w in
  let w := ws_set_log (log_entries w ++ (restore_log now <$> default [] (wsn_log_entries s))) w in
  match wsn_progress s with
  | Some p => ws_set_progress (Some (mkProgress (prs_value p) (prs_label p))) w
  | None => w
  end.

Section window.
Context {NB : Type} `{!NotebookOps NB}.
Context (ord : gmap Z Pane -> list PaneId).
Context (free_port : option Z) (urandom : nat -> option string) (now : Z).
Implicit Types (aw : AppWindow NB).

(** The workspace before its layout is built. *)
Definition restored_shell (id : WorkspaceId) (n : nat) (s : WorkspaceSnapshot) : Workspace :=
  let w := ws_set_custom_title (wsn_custom_title s) (Workspace_new id) in
  let title := match wsn_custom_title s with
               | Some ct => ct
               | None => "Workspace " +:+ show_uint (Z.of_nat n + 1)
               end in
  let w := ws_set_wd (wsn_working_directory s) (ws_set_title title w) in
  let w := ws_set_color (wsn_color s ≫= color_from_name) w in
  let w := ws_set_pinned (default false (wsn_pinned s)) w in
  ws_set_remote (wsn_remote_config s) Disconnected None None w.

Definition reconnect_restored (w : Workspace) : Workspace * option RemoteConfiguration :=
  match remote_config w with
  | None => (w, None)
  | Some c =>
      let c := refresh_relay free_port urandom c in
      (ws_set_remote (Some c) Connecting (remote_daemon_status w) (proxy_endpoint w) w, Some c)
  end.

(** [st] is the browser counter and the window. *)
Definition restore_workspace_from_layout (st : Z * AppWindow NB) (s : WorkspaceSnapshot)
    : RestoreIdle * (Z * AppWindow NB) :=
  let '(bc, aw) := st in
  let '(wid, wc) := fetch_next (workspace_counter aw) in
  let w := restored_shell wid (length (workspaces aw)) s in
  let '(t, b) := build_layout_widget (wsn_layout s)
                   (mkBuild w (pane_counter aw) (registry aw) bc [] [] []) in
  let w := restore_metadata now s (ws_set_tree t (b_ws b)) in
  let aw := foldl (fun aw e => effect e aw)
              (set_counters (b_panes b) wc (set_registry (b_surfaces b) aw)) (b_effects b) in
  let aw := set_workspaces (workspaces aw ++ [w])
              (set_notebook (nb_append_page wid (notebook aw)) aw) in
  let i := length (workspaces aw) - 1 in
  let aw := match (match ws_focused_pane w with Some p => Some p | None => head (ord (ws_panes w)) end) with
            | Some p => set_pane_active i p aw
            | None => aw
            end in
  let cfg := workspaces aw !! i ≫= fun w => snd (reconnect_restored w) in
  let aw := update_ws_at i (fun w => fst (reconnect_restored w)) aw in
  (mkIdle (b_pending b) (pair wid <$> cfg), (b_browsers b, aw)).

Fixpoint restore_workspaces (l : list WorkspaceSnapshot) (st : Z * AppWindow NB)
    : list RestoreIdle * (Z * AppWindow NB) :=
  match l with
  | [] => ([], st)
  | s :: l =>
      let '(idle, st) := restore_workspace_from_layout st s in
      let '(idles, st) := restore_workspaces l st in (idle :: idles, st)
  end.

(** [n as i32]. *)
Definition usize_as_i32 (n : nat) : Z := (Z.of_nat n + 2147483648) mod 4294967296 - 2147483648.

Definition restore_session (s : SessionSnapshot) (st : Z * AppWindow NB)
    : list RestoreIdle * (Z * AppWindow NB) :=
  let '(idles, (bc, aw)) := restore_workspaces (sn_workspaces s) st in
  let aw := match selected_workspace s with
            | Some idx => goto_workspace (usize_as_i32 idx) aw
            | None => aw
            end in
  let aw := match sidebar_width s with
            | Some width => set_sidebar (sidebar_visible aw) width
                              (if sidebar_visible aw then width else paned_position aw) aw
            | None => aw
            end in
  let aw := if bool_decide (sn_sidebar_visible s = Some false) then toggle_sidebar aw else aw in
  (idles, (bc, aw)).

(** The idle callback. *)
Definition run_restore_idle (i : RestoreIdle) aw : AppWindow NB :=
  let aw := set_registry (foldl (fun r sid => remove_pending sid r) (registry aw) (ri_pending i)) aw in
  match ri_connect i with
  | Some (id, cfg) => effect (ControllerConnect id cfg) aw
  | None => aw
  end.
End window.
End restore.

(** ** Scrollback *)

Definition truncate_to_last_n_lines (text : string) (n : nat) : string :=
  let line_count := length (str_lines text) in
  if decide (line_count <= n) then text
  else join (String nl "") (drop (line_count - n) (str_lines text)).
