(* ===== verification/SessionProps.v ===== *)
(** * Session snapshots: what survives a restart

    [restored] says what is left of a saved layout after it has been restored and
    saved again; [build_spec] shows that the rebuilt split tree has exactly the
    saved divisions over fresh panes and that the panes hold the saved tabs. *)

From Stdlib Require Import Ascii.
From S2P Require Import Prelude F64 SplitTree SplitTreeSpec SplitTreeRefine SplitTreeMerge SplitTreeProps RustStr RemoteConfig Workspace Surfaces Notebook Window WindowTabs WindowOk WindowProps WindowLife WindowClaims Session.
Open Scope string_scope.
Open Scope list_scope.

(** ** Sizes of a saved layout *)

Fixpoint snap_leaves (s : LayoutSnapshot) : nat :=
  match s with SingleSnap _ => 1 | SplitSnap _ _ a b => snap_leaves a + snap_leaves b end.
Fixpoint snap_tabs (s : LayoutSnapshot) : nat :=
  match s with
  | SingleSnap l => length l `max` 1
  | SplitSnap _ _ a b => snap_tabs a + snap_tabs b
  end.
Fixpoint snap_nodes (s : LayoutSnapshot) : nat :=
  match s with SingleSnap _ => 1 | SplitSnap _ _ a b => snap_nodes a + snap_nodes b + 1 end.
(** The node identifiers that rebuilding uses up: each merge renumbers. *)
Fixpoint snap_ids (s : LayoutSnapshot) : Z :=
  match s with
  | SingleSnap _ => 1
  | SplitSnap _ _ a b =>
      (snap_ids a `max` snap_ids b + Z.of_nat (snap_nodes a) + Z.of_nat (snap_nodes b) + 1)%Z
  end.

(** ** What is left of a layout after restoring it *)

Definition restored_kind (t : PaneTabSnapshot) : string :=
  if is_browser t then "browser" else "terminal".
Definition restored_url (t : PaneTabSnapshot) : option string :=
  if is_browser t then Some (default "" (snap_url t)) else None.
(** The first tab keeps its kind and address only. *)
Definition first_restored (t : PaneTabSnapshot) : PaneTabSnapshot :=
  mkTabSnap None None None (Some (restored_kind t)) (restored_url t).
(** The others keep their title, terminals their directory too. *)
Definition rest_restored (t : PaneTabSnapshot) : PaneTabSnapshot :=
  mkTabSnap (if is_browser t then None else snap_working_directory t)
    (match snap_title t with Some "" => None | x => x end) None
    (Some (restored_kind t)) (restored_url t).

Fixpoint restored (s : LayoutSnapshot) : LayoutSnapshot :=
  match s with
  | SingleSnap [] => SingleSnap [mkTabSnap None None None (Some "terminal") None]
  | SingleSnap (t :: ts) => SingleSnap (first_restored t :: (rest_restored <$> ts))
  | SplitSnap o r a b =>
      SplitSnap (orientation_name (snap_orientation o)) r (restored a) (restored b)
  end.

(** The layout of a snapshot, its panes numbered from [pc] on. *)
Fixpoint number (pc : Z) (s : LayoutSnapshot) : layout :=
  match s with
  | SingleSnap _ => SplitTreeSpec.Pane pc
  | SplitSnap o r a b =>
      Div (snap_orientation o) r (number pc a) (number (pc + Z.of_nat (snap_leaves a)) b)
  end.

Lemma number_panes s pc p :
  p ∈ lay_panes (number pc s) <-> (pc <= p < pc + Z.of_nat (snap_leaves s))%Z.
Proof.
  revert pc. induction s as [l|o r a IHa b IHb]; intros pc; simpl.
  - rewrite list_elem_of_singleton. lia.
  - rewrite elem_of_app, IHa, IHb. lia.
Qed.

Lemma number_head s pc : head (lay_panes (number pc s)) = Some pc.
Proof.
  revert pc. induction s as [l|o r a IHa b IHb]; intros pc; simpl; [done|].
  specialize (IHa pc). by destruct (lay_panes (number pc a)).
Qed.

(** ** Snapshots follow the layout *)

Section readers.
Context (sb : SurfaceId -> option string) (url : BrowserPanelId -> option string).

Fixpoint lay_snapshot (panes : gmap Z Pane) (l : layout) : LayoutSnapshot :=
  match l with
  | SplitTreeSpec.Pane p => pane_snapshot sb url panes p
  | Div o r a b => SplitSnap (orientation_name o) r (lay_snapshot panes a) (lay_snapshot panes b)
  end.

Lemma snapshot_layout_node_spec m panes lt : forall fuel,
  reprs m lt -> height lt <= fuel ->
  snapshot_layout_node sb url fuel m (rid lt) panes = lay_snapshot panes (erase lt).
Proof.
  induction lt as [n p|n o r a IHa b IHb]; intros [|fuel] Hr Hh; simpl in *; try lia.
  - by rewrite Hr.
  - destruct Hr as (-> & Ha & Hb). rewrite IHa, IHb by (done || lia). done.
Qed.

Lemma snapshot_layout_rep t lt panes :
  rep t lt -> snapshot_layout sb url t panes = lay_snapshot panes (erase lt).
Proof.
  intros Hrep. unfold snapshot_layout. rewrite (rep_root _ _ Hrep).
  apply snapshot_layout_node_spec; [apply Hrep|]. unfold fuel_of.
  pose proof (rep_size _ _ Hrep). lia.
Qed.

Lemma lay_snapshot_ext m m' l :
  (forall p, p ∈ lay_panes l -> m !! p = m' !! p) -> lay_snapshot m l = lay_snapshot m' l.
Proof.
  induction l as [p|o r a IHa b IHb]; simpl; intros H.
  - unfold pane_snapshot. by rewrite H by set_solver.
  - rewrite IHa, IHb by set_solver. done.
Qed.
End readers.

(** ** Rebuilding one pane *)

(** The identifiers in use are below the counters, which will not run out while
    [n] more tabs are made. *)
Definition ids_below (b : Build) (t : Tab) : Prop :=
  match tab_panel t with
  | Terminal sid => (sid < reg_next_id (b_surfaces b))%Z
  | Browser bid _ => (bid < b_browsers b)%Z
  end.
Definition has_room (n : Z) (b : Build) : Prop :=
  (0 <= reg_next_id (b_surfaces b) /\ reg_next_id (b_surfaces b) + n <= u32_max /\
   0 <= b_browsers b /\ b_browsers b + n <= u32_max)%Z.

(** Everything but the panes of the workspace stays; counters only grow, by [n] at
    most. *)
Record grows (n : Z) (b b' : Build) : Prop := mkGrows {
  gr_ws : b_ws b' = ws_set_panes (ws_panes (b_ws b')) (b_ws b);
  gr_surfaces : (reg_next_id (b_surfaces b) <= reg_next_id (b_surfaces b')
                 <= reg_next_id (b_surfaces b) + n)%Z;
  gr_browsers : (b_browsers b <= b_browsers b' <= b_browsers b + n)%Z;
}.

Definition plain_snapshot : Tab -> PaneTabSnapshot := to_snapshot (fun _ => None) (fun _ => None).

Lemma ws_set_panes_twice m1 m2 w : ws_set_panes m1 (ws_set_panes m2 w) = ws_set_panes m1 w.
Proof. by destruct w. Qed.
Lemma ws_set_panes_self w : ws_set_panes (ws_panes w) w = w.
Proof. by destruct w. Qed.

Lemma grows_trans n1 n2 b1 b2 b3 : grows n1 b1 b2 -> grows n2 b2 b3 -> grows (n1 + n2) b1 b3.
Proof.
  intros [W1 S1 B1] [W2 S2 B2]. split; [|lia..].
  rewrite W2, W1 at 1. by rewrite ws_set_panes_twice.
Qed.

Lemma grows_mono n n' b b' : (n <= n')%Z -> grows n b b' -> grows n' b b'.
Proof. intros Hn [W S B]. split; [done|lia..]. Qed.

Lemma has_room_grows n m b b' : grows n b b' -> has_room (n + m) b -> has_room m b'.
Proof. intros [_ HS HB] (H1 & H2 & H3 & H4). unfold has_room. lia. Qed.

Lemma ids_below_grows n b b' t : grows n b b' -> ids_below b t -> ids_below b' t.
Proof. intros [_ HS HB]. unfold ids_below. destruct (tab_panel t); lia. Qed.

Lemma update_first_fresh {A} (f : A -> bool) g l y :
  Forall (fun x => f x = false) l -> f y = true -> update_first f g (l ++ [y]) = l ++ [g y].
Proof.
  intros Hl Hy. induction Hl as [|x l Hx Hl IH]; simpl; [by rewrite Hy|]. by rewrite Hx, IH.
Qed.

Lemma no_surface_below b l :
  Forall (ids_below b) l -> Forall (fun t => has_surface_id (reg_next_id (b_surfaces b)) t = false) l.
Proof.
  intros H. eapply Forall_impl; [exact H|]. intros t Ht. apply bool_decide_eq_false.
  unfold tab_surface_id, ids_below in *. destruct (tab_panel t); [|done]. intros [= ->]. lia.
Qed.
Lemma no_browser_below b l :
  Forall (ids_below b) l -> Forall (fun t => has_browser_id (b_browsers b) t = false) l.
Proof.
  intros H. eapply Forall_impl; [exact H|]. intros t Ht. apply bool_decide_eq_false.
  unfold tab_browser_id, ids_below in *. destruct (tab_panel t); [done|]. intros [= ->]. lia.
Qed.

Lemma alter_at (f : Pane -> Pane) (m : gmap Z Pane) k p :
  m !! k = Some p -> alter f k m = <[k := f p]> m.
Proof.
  intros H. apply map_eq. intros i. rewrite lookup_alter, lookup_insert.
  destruct (decide (k = i)) as [<-|]; [by rewrite H|done].
Qed.

(** The pane after a browser tab, respectively a terminal tab, has been added to
    it and described. *)
Definition with_browser (bid : BrowserPanelId) (url : string) (title : option string) (p : Pane) :=
  let p := snd (add_browser_tab bid url p) in
  match title with Some s => set_browser_tab_title bid s p | None => p end.
Definition with_terminal (sid : SurfaceId) (title dir : option string) (p : Pane) :=
  let p := snd (add_tab sid p) in
  let p := match title with Some s => set_tab_title sid s p | None => p end in
  match dir with Some d => set_tab_directory sid d p | None => p end.

Lemma with_browser_tabs bid url title p :
  Forall (fun t => has_browser_id bid t = false) (tabs p) ->
  tabs (with_browser bid url title p) =
    tabs p ++ [mkTab (Browser bid url) (default "" title) None false] /\
  pane_id (with_browser bid url title p) = pane_id p.
Proof.
  intros H. unfold with_browser. destruct title as [s|]; simpl; [|done]. split; [|done].
  by rewrite update_first_fresh by (done || by apply bool_decide_eq_true).
Qed.

Lemma with_terminal_tabs sid title dir p :
  Forall (fun t => has_surface_id sid t = false) (tabs p) ->
  tabs (with_terminal sid title dir p) =
    tabs p ++ [mkTab (Terminal sid) (default "" title) dir false] /\
  pane_id (with_terminal sid title dir p) = pane_id p.
Proof.
  intros H. unfold with_terminal. destruct title as [s|], dir as [d|]; simpl; split; try done;
    rewrite ?update_first_fresh by (done || by apply bool_decide_eq_true); done.
Qed.

(** One more tab: it is the saved one, as far as tabs are restored. *)
Lemma restore_tab_spec wd cmd pid b t p :
  has_room 1 b -> ws_panes (b_ws b) !! pid = Some p -> Forall (ids_below b) (tabs p) ->
  exists y q, let b' := restore_tab wd cmd pid b t in
    ws_panes (b_ws b') = <[pid := q]> (ws_panes (b_ws b)) /\
    tabs q = tabs p ++ [y] /\ pane_id q = pane_id p /\ plain_snapshot y = rest_restored t /\
    ids_below b' y /\ grows 1 b b' /\ b_panes b' = b_panes b.
Proof.
  intros (Hs & Hs' & Hb & Hb') Hp Hids.
  pose proof (no_surface_below b _ Hids) as Hns. pose proof (no_browser_below b _ Hids) as Hnb.
  unfold restore_tab, rest_restored, restored_kind, restored_url.
  destruct (is_browser t).
  - destruct (with_browser_tabs (b_browsers b) (default "" (snap_url t)) (snap_title t) p Hnb)
      as [Ht Hid].
    eexists _, (with_browser (b_browsers b) (default "" (snap_url t)) (snap_title t) p). simpl.
    ws_simpl. rewrite (alter_at _ _ _ p Hp). split_and!; [done|exact Ht|exact Hid|..].
    + unfold plain_snapshot, to_snapshot. simpl. by destruct (snap_title t) as [[]|].
    + unfold ids_below. simpl. rewrite u32_succ_small; lia.
    + split; simpl; [by destruct (b_ws b)|lia|]. rewrite u32_succ_small; lia.
    + done.
  - destruct (with_terminal_tabs (reg_next_id (b_surfaces b)) (snap_title t)
      (snap_working_directory t) p Hns) as [Ht Hid].
    eexists _, (with_terminal (reg_next_id (b_surfaces b)) (snap_title t)
      (snap_working_directory t) p). simpl.
    ws_simpl. rewrite (alter_at _ _ _ p Hp). split_and!; [done|exact Ht|exact Hid|..].
    + unfold plain_snapshot, to_snapshot. simpl. by destruct (snap_title t) as [[]|].
    + unfold ids_below. simpl. rewrite u32_succ_small; lia.
    + split; simpl; [by destruct (b_ws b)| |lia]. rewrite u32_succ_small; lia.
    + done.
Qed.

Lemma restore_tabs_spec wd cmd pid ts : forall b p,
  has_room (Z.of_nat (length ts)) b -> ws_panes (b_ws b) !! pid = Some p ->
  Forall (ids_below b) (tabs p) ->
  exists ys q, let b' := foldl (restore_tab wd cmd pid) b ts in
    ws_panes (b_ws b') = <[pid := q]> (ws_panes (b_ws b)) /\
    tabs q = tabs p ++ ys /\ pane_id q = pane_id p /\
    plain_snapshot <$> ys = rest_restored <$> ts /\
    grows (Z.of_nat (length ts)) b b' /\ b_panes b' = b_panes b.
Proof.
  induction ts as [|t ts IH]; intros b p Hroom Hp Hids.
  - exists [], p. simpl. rewrite app_nil_r, insert_id by done. split_and!; try done.
    split; simpl; [by rewrite ws_set_panes_self|lia..].
  - destruct (restore_tab_spec wd cmd pid b t p) as (y & q & Hw & Hq & Hi & Hy & Hyb & Hg & Hpc);
      [unfold has_room in *; simpl in *; lia|done|done|].
    destruct (IH (restore_tab wd cmd pid b t) q) as (ys & q' & Hw' & Hq' & Hi' & Hys & Hg' & Hpc').
    + eapply has_room_grows; [exact Hg|]. replace (1 + Z.of_nat (length ts))%Z
        with (Z.of_nat (length (t :: ts))) by (simpl; lia). done.
    + rewrite Hw. apply lookup_insert_eq.
    + rewrite Hq, Forall_app, Forall_singleton. split; [|done].
      eapply Forall_impl; [exact Hids|]. intros x. by apply ids_below_grows with 1%Z.
    + exists (y :: ys), q'. simpl. split_and!.
      * by rewrite Hw', Hw, insert_insert_eq.
      * by rewrite Hq', Hq, <- app_assoc.
      * congruence.
      * f_equal; [exact Hy|exact Hys].
      * eapply grows_mono; [|by eapply grows_trans]. lia.
      * congruence.
Qed.

(** ** Rebuilding a whole layout *)

Section build.
Context (nord : gmap Z Node -> list NodeId) (Hnord : forall m, enumerates (nord m) m).
Context (wd cmd : option string).

(** What [build_layout_widget] gives for [s] on [b]: a tree of exactly the saved
    divisions over panes numbered from the counter on, and those panes hold the
    saved tabs. *)
Record built (s : LayoutSnapshot) (b : Build) (t : SplitTree) (b' : Build) : Prop := mkBuilt {
  bt_tree : exists lt, rep t lt /\ erase lt = number (b_panes b) s /\ length (ids lt) = snap_nodes s;
  bt_next : next_id t = snap_ids s;
  bt_focus : focused t = Some (b_panes b);
  bt_grows : grows (Z.of_nat (snap_tabs s)) b b';
  bt_panes : b_panes b' = (b_panes b + Z.of_nat (snap_leaves s))%Z;
  bt_old : forall pid, (pid < b_panes b)%Z -> ws_panes (b_ws b') !! pid = ws_panes (b_ws b) !! pid;
  bt_dom : forall pid, (b_panes b <= pid)%Z ->
    is_Some (ws_panes (b_ws b') !! pid) <->
    (pid < b_panes b')%Z \/ is_Some (ws_panes (b_ws b) !! pid);
  bt_new : forall pid p, (b_panes b <= pid < b_panes b')%Z ->
    ws_panes (b_ws b') !! pid = Some p -> pane_wf pid p;
  bt_snapshot : lay_snapshot (fun _ => None) (fun _ => None) (ws_panes (b_ws b'))
                  (number (b_panes b) s) = restored s;
}.

(** The counters allow rebuilding [s]. *)
Definition fits (s : LayoutSnapshot) (b : Build) : Prop :=
  (0 <= b_panes b)%Z /\ (b_panes b + Z.of_nat (snap_leaves s) <= u32_max)%Z /\
  has_room (Z.of_nat (snap_tabs s)) b /\ (snap_ids s <= u32_max)%Z.

Lemma new_with_pane_rep pid : rep (new_with_pane pid) (LLeaf 0 pid).
Proof.
  split; simpl; [done| |apply NoDup_singleton| |done].
  - split; simpl; [by rewrite lookup_insert_eq|apply NoDup_singleton|].
    intros n x [[<- _]|[_ H]]%lookup_insert_Some; [set_solver|by rewrite lookup_empty in H].
  - intros n x [[<- _]|[_ H]]%lookup_insert_Some; [done|by rewrite lookup_empty in H].
Qed.

(** A saved pane becomes one pane [q] under the next identifier. *)
Lemma built_single l b b' q :
  (0 <= b_panes b)%Z -> (b_panes b < u32_max)%Z ->
  ws_panes (b_ws b') = <[b_panes b := q]> (ws_panes (b_ws b)) ->
  grows (Z.of_nat (snap_tabs (SingleSnap l))) b b' -> b_panes b' = (b_panes b + 1)%Z ->
  pane_wf (b_panes b) q -> SingleSnap (plain_snapshot <$> tabs q) = restored (SingleSnap l) ->
  built (SingleSnap l) b (new_with_pane (b_panes b)) b'.
Proof.
  intros H0 Hm Hw Hg Hpc Hq Hs. split; try done.
  - exists (LLeaf 0 (b_panes b)). split_and!; [apply new_with_pane_rep|done..].
  - intros pid Hpid. rewrite Hw. rewrite lookup_insert_ne by lia. done.
  - intros pid Hpid. rewrite Hw, Hpc, lookup_insert_is_Some.
    destruct (decide (b_panes b = pid)) as [<-|]; [split; [left; lia|by left]|].
    split; [intros [?|[_ ?]]; [done|by right]|intros [?|?]; [lia|by right]].
  - intros pid p Hpid. rewrite Hw, Hpc in *. assert (pid = b_panes b) as -> by lia.
    rewrite lookup_insert_eq. by intros [= <-].
  - simpl. unfold pane_snapshot. rewrite Hw, lookup_insert_eq. exact Hs.
Qed.

Lemma restore_first_spec t b :
  has_room 1 b -> (0 <= b_panes b < u32_max)%Z ->
  exists y b', restore_first_tab wd cmd t b = (b_panes b, b') /\
    ws_panes (b_ws b') = <[b_panes b := mkPane (b_panes b) [y] 0 false]> (ws_panes (b_ws b)) /\
    plain_snapshot y = first_restored t /\ ids_below b' y /\ grows 1 b b' /\
    b_panes b' = (b_panes b + 1)%Z.
Proof.
  intros (Hs & Hs' & Hb & Hb') Hpc.
  unfold restore_first_tab, first_restored, restored_kind, restored_url.
  destruct (is_browser t); eexists (new_tab _), _; (split; [reflexivity|]); simpl;
    (split_and!; [by ws_simpl|done|unfold ids_below; simpl; rewrite u32_succ_small; lia| |
                  by rewrite u32_succ_small]).
  - split; simpl; [by destruct (b_ws b)|lia|]. rewrite u32_succ_small; lia.
  - split; simpl; [by destruct (b_ws b)| |lia]. rewrite u32_succ_small; lia.
Qed.

Lemma grows_ws n b f :
  (0 <= n)%Z -> f (b_ws b) = ws_set_panes (ws_panes (f (b_ws b))) (b_ws b) ->
  grows n b (b_set_ws f b).
Proof. intros Hn H. split; [exact H|simpl; lia..]. Qed.

Lemma build_single l b :
  fits (SingleSnap l) b ->
  exists t b', build_layout_widget nord wd cmd (SingleSnap l) b = (t, b') /\
    built (SingleSnap l) b t b'.
Proof.
  intros (H0 & Hpc & Hroom & _). simpl in Hpc. destruct l as [|t ts].
  - destruct Hroom as (Hs & Hs' & Hb & Hb'). simpl in Hs', Hb'. eexists _, _. split; [done|].
    apply (built_single [] b _ (Pane_new_with_id (b_panes b) (reg_next_id (b_surfaces b)))); simpl;
      [done|lia|by ws_simpl| |by rewrite u32_succ_small by lia| |done].
    + split; simpl; [by destruct (b_ws b)|rewrite u32_succ_small; lia|lia].
    + split_and!; [done|done|simpl; lia].
  - destruct (restore_first_spec t b) as (y & b1 & E1 & W1 & Y1 & I1 & G1 & P1);
      [unfold has_room in *; simpl in *; lia|lia|].
    destruct (restore_tabs_spec wd cmd (b_panes b) ts b1 (mkPane (b_panes b) [y] 0 false))
      as (ys & q & W2 & Q2 & N2 & Y2 & G2 & P2).
    { eapply has_room_grows; [exact G1|]. unfold has_room in *. simpl in *. lia. }
    { rewrite W1. apply lookup_insert_eq. }
    { by constructor. }
    cbn [build_layout_widget]. rewrite E1. eexists _, _. split; [done|].
    assert (tabs (select_tab 0 q) = y :: ys /\ pane_id (select_tab 0 q) = b_panes b /\
            selected_tab (select_tab 0 q) = 0) as (Ht & Hi & Hsel).
    { unfold select_tab. rewrite Q2. case_decide as Hd; [done|simpl in Hd; lia]. }
    apply (built_single (t :: ts) b _ (select_tab 0 q)); [done|lia|..].
    + simpl. ws_simpl. rewrite (alter_at _ _ _ q) by (rewrite W2; apply lookup_insert_eq).
      by rewrite W2, W1, !insert_insert_eq.
    + eapply grows_mono; [|eapply grows_trans; [exact G1|eapply grows_trans; [exact G2|]]].
      2: { apply (grows_ws 0); [done|]. unfold update_pane. by rewrite ws_panes_set_panes. }
      simpl. lia.
    + simpl. rewrite P2, P1. done.
    + split_and!; [done|by rewrite Ht|rewrite Ht, Hsel; simpl; lia].
    + rewrite Ht. cbn [restored fmap list_fmap]. by rewrite Y1, Y2.
Qed.

(** The two halves of a division. *)
Lemma built_split o r s1 s2 b t1 b1 t2 b2 :
  (0 <= b_panes b)%Z -> (snap_ids (SplitSnap o r s1 s2) <= u32_max)%Z ->
  built s1 b t1 b1 -> built s2 b1 t2 b2 ->
  let t := merge (nord (nodes t1)) (nord (nodes t2)) t1 t2 (snap_orientation o) r in
  built (SplitSnap o r s1 s2) b t
    (match root t with Some n => b_add_paned n b2 | None => b2 end).
Proof.
  intros H0 Hids [(l1 & R1 & E1 & L1) N1 F1 G1 P1 O1 D1 W1 S1]
    [(l2 & R2 & E2 & L2) N2 F2 G2 P2 O2 D2 W2 S2] t.
  simpl in Hids. rewrite P1 in *.
  pose proof (rep_enumerates _ _ _ R1 (Hnord _)) as K1.
  pose proof (rep_enumerates _ _ _ R2 (Hnord _)) as K2.
  assert (Hdisj : forall p, p ∈ lpanes l1 -> p ∉ lpanes l2).
  { intros p. rewrite <- (erase_panes l1), <- (erase_panes l2), E1, E2, !number_panes. lia. }
  destruct (merge_rep (nord (nodes t1)) (nord (nodes t2)) t1 t2 l1 l2 (snap_orientation o) r)
    as (lt & R & E & F & _ & Nx & Ln); [done..|rewrite K1, K2, L1, L2, N1, N2; lia|].
  fold t in R, F, Nx. rewrite (rep_root _ _ R).
  split; simpl.
  - exists lt. split_and!; [done|by rewrite E, E1, E2|by rewrite Ln, L1, L2].
  - by rewrite Nx, K1, K2, L1, L2, N1, N2.
  - by rewrite F, <- erase_panes, E1, number_head.
  - eapply grows_mono; [|eapply grows_trans; [exact G1|]]; [apply Z.eq_le_incl|].
    { symmetry. apply Nat2Z.inj_add. }
    destruct G2 as [X Y Z]. by split.
  - rewrite P2. lia.
  - intros pid Hpid. by rewrite O2, O1 by lia.
  - intros pid Hpid. destruct (decide (pid < b_panes b + Z.of_nat (snap_leaves s1))%Z) as [Hlt|].
    + rewrite O2, D1 by lia. split; intros [?|?]; auto; left; lia.
    + rewrite D2, D1 by lia. split; [intros [?|[?|?]]|intros [?|?]]; auto; lia.
  - intros pid p Hpid. destruct (decide (pid < b_panes b + Z.of_nat (snap_leaves s1))%Z).
    + rewrite O2 by lia. apply W1. lia.
    + apply W2. lia.
  - rewrite S2. f_equal. rewrite <- S1. apply lay_snapshot_ext.
    intros p. rewrite number_panes. intros Hp. apply O2. lia.
Qed.

Lemma build_spec s : forall b, fits s b ->
  exists t b', build_layout_widget nord wd cmd s b = (t, b') /\ built s b t b'.
Proof.
  induction s as [l|o r s1 IH1 s2 IH2]; intros b Hfit; [by apply build_single|].
  destruct Hfit as (H0 & Hpc & Hroom & Hids). simpl in Hpc, Hids.
  destruct (IH1 b) as (t1 & b1 & E1 & B1).
  { split_and!; [done|lia| |lia]. unfold has_room in *. simpl in *. lia. }
  destruct (IH2 b1) as (t2 & b2 & E2 & B2).
  { unfold fits. rewrite (bt_panes _ _ _ _ B1). split_and!; [lia|lia| |lia].
    eapply has_room_grows; [apply B1|]. unfold has_room in *. simpl in *. lia. }
  cbn [build_layout_widget]. rewrite E1, E2. eexists _, _. split; [done|].
  by apply (built_split o r s1 s2 b t1 b1 t2 b2).
Qed.
End build.

(** Restoring twice loses no more than restoring once. *)
Lemma rest_restored_twice t : rest_restored (rest_restored t) = rest_restored t.
Proof.
  unfold rest_restored, restored_kind, restored_url, is_browser. simpl.
  destruct (bool_decide (snap_panel_kind t = Some "browser")); simpl;
    destruct (snap_title t) as [[]|]; done.
Qed.
Lemma first_restored_twice t : first_restored (first_restored t) = first_restored t.
Proof.
  unfold first_restored, restored_kind, restored_url, is_browser. simpl.
  by destruct (bool_decide (snap_panel_kind t = Some "browser")).
Qed.
Lemma restored_twice s : restored (restored s) = restored s.
Proof.
  induction s as [[|t ts]|o r a IHa b IHb]; simpl; [done| |].
  - rewrite first_restored_twice. do 2 f_equal. rewrite <- list_fmap_compose.
    apply list_fmap_ext. intros i x _. apply rest_restored_twice.
  - rewrite IHa, IHb. by destruct (snap_orientation o).
Qed.

Lemma number_seq s pc : lay_panes (number pc s) = seqZ pc (Z.of_nat (snap_leaves s)).
Proof.
  revert pc. induction s as [l|o r a IHa b IHb]; intros pc; simpl; [done|].
  rewrite IHa, IHb. by rewrite Nat2Z.inj_add, seqZ_app by lia.
Qed.

Lemma built_wf s b t b' : built s b t b' -> wf t /\ panes t = seqZ (b_panes b) (Z.of_nat (snap_leaves s)).
Proof.
  intros [(lt & R & E & _) _ F _ _ _ _ _ _]. split.
  - eapply wf_intro; [exact R|exact F|].
    rewrite <- erase_panes, E. apply number_panes. destruct s; simpl; [lia|].
    pose proof (number_head s1 0) as Hh. destruct (snap_leaves s1) eqn:Hl; [|lia].
    rewrite number_seq, Hl in Hh. done.
  - rewrite (rep_panes _ _ R), <- erase_panes, E. apply number_seq.
Qed.

(** A saved layout is rebuilt faithfully, whatever the iteration order of the
    hash maps: the new split tree is well formed over fresh consecutive panes in
    the saved order, and saving it again gives the saved divisions, orientations
    and ratios with every tab in its place - less the title and directory of the
    first tab of each pane and the scrollback; a second restart loses nothing
    more. *)
Theorem restore_layout_roundtrip nord wd cmd s b :
  (forall m, enumerates (nord m) m) -> fits s b ->
  exists t b', build_layout_widget nord wd cmd s b = (t, b') /\ wf t /\
    panes t = seqZ (b_panes b) (Z.of_nat (snap_leaves s)) /\
    snapshot_layout (fun _ => None) (fun _ => None) t (ws_panes (b_ws b')) = restored s /\
    restored (restored s) = restored s.
Proof.
  intros Hn Hf. destruct (build_spec nord Hn wd cmd s b Hf) as (t & b' & E & B).
  exists t, b'. destruct (built_wf _ _ _ _ B) as [Hwf Hp]. split_and!; try done.
  - destruct (bt_tree _ _ _ _ B) as (lt & R & El & _).
    rewrite (snapshot_layout_rep _ _ _ _ _ R), El. apply B.
  - apply restored_twice.
Qed.

Definition node_order (m : gmap Z Node) : list NodeId := (map_to_list m).*1.
Lemma node_order_enumerates m : enumerates (node_order m) m.
Proof.
  split; [apply NoDup_fst_map_to_list|]. intros k. unfold node_order.
  rewrite list_elem_of_fmap. split.
  - intros ([k' x] & -> & Hx%elem_of_map_to_list). simpl. eauto.
  - intros [x Hx]. exists (k, x). by rewrite elem_of_map_to_list.
Qed.

Definition demo_snapshot : LayoutSnapshot :=
  SplitSnap "vertical" f64_half
    (SingleSnap [mkTabSnap None None None (Some "browser") (Some "https://example.com");
                 mkTabSnap (Some "/src") (Some "make") None None None])
    (SingleSnap [mkTabSnap (Some "/etc") (Some "root") None (Some "terminal") None]).
Definition demo_build : Build := mkBuild (Workspace_new 0) 3 registry_new 5 [] [] [].

Lemma restore_layout_roundtrip_witness :
  exists t b', build_layout_widget node_order None None demo_snapshot demo_build = (t, b') /\
    panes t = [3; 4]%Z /\
    snapshot_layout (fun _ => None) (fun _ => None) t (ws_panes (b_ws b')) =
    SplitSnap "vertical" f64_half
      (SingleSnap [mkTabSnap None None None (Some "browser") (Some "https://example.com");
                   mkTabSnap (Some "/src") (Some "make") None (Some "terminal") None])
      (SingleSnap [mkTabSnap None None None (Some "terminal") None]).
Proof.
  destruct (restore_layout_roundtrip node_order None None demo_snapshot demo_build)
    as (t & b' & E & _ & Hp & Hs & _);
    [apply node_order_enumerates|unfold fits, has_room; by vm_compute|].
  exists t, b'. split_and!; [exact E|exact Hp|rewrite Hs; reflexivity].
Defined.

(** ** Restoring the window *)

(** What is kept of a workspace besides its layout. *)
Definition log_kept (e : SidebarLogEntry) : string * LogLevel * option string :=
  (log_message e, log_level e, log_source e).
Definition kept (w : Workspace) :=
  (custom_title w, ws_working_directory w, color w, pinned w, status_entries w,
   log_kept <$> log_entries w, progress w, display_target <$> remote_config w).
Definition kept_snap (s : WorkspaceSnapshot) :=
  (wsn_custom_title s, wsn_working_directory s, wsn_color s ≫= color_from_name,
   default false (wsn_pinned s), restore_status (default [] (wsn_status_entries s)) ∅,
   (fun e => (ls_message e, LogLevel_from_str (ls_level e), ls_source e))
     <$> default [] (wsn_log_entries s),
   (fun p => mkProgress (prs_value p) (prs_label p)) <$> wsn_progress s,
   display_target <$> wsn_remote_config s).
Definition plain_layout (w : Workspace) : LayoutSnapshot :=
  snapshot_layout (fun _ => None) (fun _ => None) (split_tree w) (ws_panes w).

Lemma restore_status_map sord (m : gmap string SidebarStatusEntry) :
  (forall k, k ∈ sord m <-> is_Some (m !! k)) -> NoDup (sord m) ->
  map_Forall (fun k e => st_key e = k) m ->
  restore_status (default [] (nonempty (status_snapshot <$> omap (fun k => m !! k) (sord m)))) ∅ = m.
Proof.
  intros Hin Hnd Hk.
  assert (forall l, default [] (@nonempty StatusEntrySnapshot l) = l) as -> by (by destruct l).
  assert (forall ks m0 j, NoDup ks -> (forall k, k ∈ ks -> is_Some (m !! k)) ->
    restore_status (status_snapshot <$> omap (fun k => m !! k) ks) m0 !! j =
    if decide (j ∈ ks) then m !! j else m0 !! j) as H.
  { intros ks. induction ks as [|k ks IH]; intros m0 j Hn Hs; [done|].
    apply NoDup_cons in Hn as [Hk0 Hn]. destruct (Hs k) as [e He]; [left|].
    cbn [omap list_omap]. rewrite He. cbn [fmap list_fmap]. unfold restore_status in *.
    cbn [foldl]. rewrite IH by (done || (intros; apply Hs; by right)).
    pose proof (Hk _ _ He) as Hke. simpl in Hke. simpl. rewrite Hke.
    destruct (decide (j ∈ ks)), (decide (j ∈ k :: ks)); try done; [set_solver| |].
    - assert (j = k) as -> by set_solver. rewrite lookup_insert_eq, He. by rewrite <- Hke at 1; destruct e.
    - rewrite lookup_insert_ne by set_solver. done. }
  apply map_eq. intros j. rewrite H by (done || apply Hin). destruct (decide (j ∈ sord m)) as [|Hj]; [done|].
  rewrite Hin in Hj. rewrite lookup_empty. symmetry. by apply eq_None_not_Some.
Qed.

Lemma kept_snapshot sb url sord w :
  (forall m, NoDup (sord m) /\ forall k, k ∈ sord m <-> is_Some (m !! k)) ->
  map_Forall (fun k e => st_key e = k) (status_entries w) ->
  kept_snap (workspace_snapshot sb url sord w) = kept w.
Proof.
  intros Hs Hk. destruct (Hs (status_entries w)) as [Hnd Hin].
  unfold kept_snap, kept, workspace_snapshot. simpl.
  rewrite restore_status_map by done. repeat f_equal.
  - destruct (color w); [apply color_roundtrip|done].
  - assert (forall l, default [] (@nonempty LogEntrySnapshot l) = l) as -> by (by destruct l).
    rewrite <- list_fmap_compose. apply list_fmap_ext. intros i e _. unfold log_kept. simpl.
    by rewrite LogLevel_roundtrip.
  - by destruct (progress w) as [[]|].
Qed.

Section window.
Context {NB : Type} `{!NotebookOps NB} `{!NotebookLaws NB}.
Context (nord : gmap Z Node -> list NodeId) (Hnord : forall m, enumerates (nord m) m).
Context (ord : gmap Z Pane -> list PaneId).
Context (wd cmd : option string) (fp : option Z) (ur : nat -> option string) (now : Z).
Implicit Types (aw : AppWindow NB).

Definition sum_leaves : list WorkspaceSnapshot -> nat := sum_list_with (fun s => snap_leaves (wsn_layout s)).
Definition sum_tabs : list WorkspaceSnapshot -> nat := sum_list_with (fun s => snap_tabs (wsn_layout s)).

(** The counters allow restoring all of [l]. *)
Record session_room (l : list WorkspaceSnapshot) (bc : Z) aw : Prop := mkRoom {
  sr_panes : (pane_counter aw + Z.of_nat (sum_leaves l) <= u32_max)%Z;
  sr_workspaces : (0 <= workspace_counter aw /\ workspace_counter aw + Z.of_nat (length l) <= u32_max)%Z;
  sr_surfaces : (0 <= reg_next_id (registry aw) /\
                 reg_next_id (registry aw) + Z.of_nat (sum_tabs l) <= u32_max)%Z;
  sr_browsers : (0 <= bc /\ bc + Z.of_nat (sum_tabs l) <= u32_max)%Z;
  sr_nodes : Forall (fun s => snap_ids (wsn_layout s) <= u32_max)%Z l;
}.

Lemma foldl_effects es aw :
  foldl (fun aw e => effect e aw) aw es =
  mkAppWindow (notebook aw) (workspaces aw) (app_working_directory aw) (app_command aw)
    (sidebar_visible aw) (sidebar_last_width aw) (paned_position aw) (pane_counter aw)
    (workspace_counter aw) (registry aw) (tray aw) (effects aw ++ es).
Proof.
  revert aw. induction es as [|e es IH]; intros aw; simpl.
  - destruct aw; simpl. by rewrite app_nil_r.
  - rewrite IH. simpl. by rewrite <- app_assoc.
Qed.

Lemma alter_last {A} (f : A -> A) l x : alter f (length l) (l ++ [x]) = l ++ [f x].
Proof. induction l as [|y l IH]; [done|]. simpl. f_equal. exact IH. Qed.

(** The workspace built for [s]. *)
Definition finish (s : WorkspaceSnapshot) (t : SplitTree) (w : Workspace) : Workspace :=
  fst (reconnect_restored fp ur (set_focused_pane (default 0%Z (focused t))
         (restore_metadata now s (ws_set_tree t w)))).

Lemma metadata_core s w : same_core w (restore_metadata now s w).
Proof. unfold restore_metadata, same_core. destruct w. simpl. by destruct (wsn_progress s). Qed.
Lemma reconnect_core w : same_core w (fst (reconnect_restored fp ur w)).
Proof. unfold reconnect_restored, same_core. destruct w. simpl. by destruct remote_config. Qed.

Lemma finish_core s t w : focused t <> None ->
  ws_id (finish s t w) = ws_id w /\ ws_panes (finish s t w) = ws_panes w /\
  split_tree (finish s t w) = t.
Proof.
  intros Hf. unfold finish.
  destruct (reconnect_core (set_focused_pane (default 0%Z (focused t))
    (restore_metadata now s (ws_set_tree t w)))) as (-> & -> & ->).
  ws_simpl. destruct (metadata_core s (ws_set_tree t w)) as (-> & -> & ->). ws_simpl.
  split_and!; [done..|]. destruct t as [m r n [f|]]; [done|by destruct Hf].
Qed.

Lemma finish_kept s t id n m :
  kept (finish s t (ws_set_panes m (restored_shell id n s))) = kept_snap s.
Proof.
  unfold finish, reconnect_restored, restore_metadata, restored_shell, kept, kept_snap.
  assert (forall l : list LogEntrySnapshot,
    log_kept <$> (restore_log now <$> l) =
    (fun e => (ls_message e, LogLevel_from_str (ls_level e), ls_source e)) <$> l) as Hl.
  { intros l. by rewrite <- list_fmap_compose. }
  destruct (wsn_progress s) as [[]|], (wsn_remote_config s) as [c|]; simpl; by rewrite Hl.
Qed.

(** The rebuilt panes are exactly those of the rebuilt tree. *)
Lemma built_ws_ok s b t b' w :
  built s b t b' -> (0 <= b_panes b)%Z -> ws_panes (b_ws b) = ∅ ->
  ws_panes w = ws_panes (b_ws b') -> split_tree w = t -> ws_ok (b_panes b') w.
Proof.
  intros B H0 He Hp <-. destruct (built_wf _ _ _ _ B) as [Hwf Hpt].
  assert (forall pid, is_Some (ws_panes w !! pid) <-> (b_panes b <= pid < b_panes b')%Z) as Hd.
  { intros pid. rewrite Hp. destruct (decide (b_panes b <= pid)%Z) as [Hle|Hlt].
    - rewrite (bt_dom _ _ _ _ B pid Hle), He, lookup_empty, is_Some_alt. naive_solver lia.
    - rewrite (bt_old _ _ _ _ B pid), He, lookup_empty, is_Some_alt by lia. naive_solver lia. }
  assert (0 < snap_leaves s)%nat as Hl by (clear; induction s; simpl; lia).
  pose proof (bt_panes _ _ _ _ B) as Hb'. split; [done|..].
  - intros pid. rewrite Hd, Hpt, elem_of_seqZ. lia.
  - intros pid p Hpid. assert (b_panes b <= pid < b_panes b')%Z as Hr by (apply Hd; eauto).
    rewrite Hp in Hpid. by apply (bt_new _ _ _ _ B) in Hpid.
  - intros pid Hpid%Hd. lia.
  - exists (b_panes b). apply Hd. lia.
Qed.

Lemma appended_ok aw w c aw' :
  win_ok aw -> (pane_counter aw <= c)%Z -> (0 <= workspace_counter aw)%Z ->
  ws_ok c w -> ws_id w = workspace_counter aw ->
  notebook aw' = nb_append_page (ws_id w) (notebook aw) ->
  workspaces aw' = workspaces aw ++ [w] -> pane_counter aw' = c ->
  workspace_counter aw' = (workspace_counter aw + 1)%Z -> win_ok aw'.
Proof.
  intros [H1 H2 H3 [H4 H5]] Hc Hw Hok Hid En Ew Ep Ec.
  assert (ws_ids aw' = ws_ids aw ++ [workspace_counter aw]) as Eids
    by (unfold ws_ids; by rewrite Ew, fmap_app, <- Hid).
  split; rewrite ?Eids, ?En, ?Ew, ?Ep, ?Ec.
  - by rewrite nb_append_pages, H1, Hid.
  - apply NoDup_app. split_and!; [done| |apply NoDup_singleton].
    intros x Hx ->%list_elem_of_singleton. rewrite Forall_forall in H5. specialize (H5 _ Hx). lia.
  - rewrite Forall_app, Forall_singleton. split; [|done].
    eapply Forall_impl; [exact H3|]. intros v. by apply ws_ok_mono.
  - split; [lia|]. rewrite Forall_app, Forall_singleton. split; [|lia].
    eapply Forall_impl; [exact H5|]. intros v Hv. simpl in Hv. lia.
Qed.

(** The window after one workspace has been restored. *)
Lemma restore_workspace_eq s bc aw t b' :
  let w0 := restored_shell (workspace_counter aw) (length (workspaces aw)) s in
  let b := mkBuild w0 (pane_counter aw) (registry aw) bc [] [] [] in
  build_layout_widget nord wd cmd (wsn_layout s) b = (t, b') -> focused t <> None ->
  exists idle aw', restore_workspace_from_layout nord wd cmd ord fp ur now (bc, aw) s =
      (idle, (b_browsers b', aw')) /\
    workspaces aw' = workspaces aw ++ [finish s t (b_ws b')] /\
    notebook aw' = nb_append_page (workspace_counter aw) (notebook aw) /\
    pane_counter aw' = b_panes b' /\ workspace_counter aw' = u32_succ (workspace_counter aw) /\
    registry aw' = b_surfaces b' /\ sidebar_visible aw' = sidebar_visible aw.
Proof.
  intros w0 b E Hf. unfold restore_workspace_from_layout. cbn [fetch_next]. fold w0 b. rewrite E.
  rewrite foldl_effects. cbv zeta.
  assert (ws_focused_pane (restore_metadata now s (ws_set_tree t (b_ws b'))) =
          Some (default 0%Z (focused t))) as ->.
  { unfold ws_focused_pane, focused_pane.
    destruct (metadata_core s (ws_set_tree t (b_ws b'))) as (_ & _ & ->).
    rewrite split_tree_set_tree. by destruct (focused t). }
  eexists _, _. split; [reflexivity|]. simpl. split_and!; try done.
  rewrite length_app. simpl.
  replace (length (workspaces aw) + 1 - 1) with (length (workspaces aw)) by lia.
  by rewrite !alter_last.
Qed.

Lemma restore_workspace_spec s l bc aw :
  win_ok aw -> session_room (s :: l) bc aw ->
  exists idle bc' aw' w,
    restore_workspace_from_layout nord wd cmd ord fp ur now (bc, aw) s = (idle, (bc', aw')) /\
    win_ok aw' /\ session_room l bc' aw' /\ workspaces aw' = workspaces aw ++ [w] /\
    kept w = kept_snap s /\ plain_layout w = restored (wsn_layout s) /\
    sidebar_visible aw' = sidebar_visible aw.
Proof.
  intros Hok [R1 R2 R3 R4 R5]. cbn [sum_leaves sum_tabs sum_list_with length] in *.
  apply Forall_cons in R5 as [R5 R6].
  pose proof (win_counters _ Hok) as [Hpc Hwc].
  set (w0 := restored_shell (workspace_counter aw) (length (workspaces aw)) s).
  set (b := mkBuild w0 (pane_counter aw) (registry aw) bc [] [] []).
  unfold sum_leaves, sum_tabs in *. simpl in R1, R2, R3, R4.
  destruct (build_spec nord Hnord wd cmd (wsn_layout s) b) as (t & b' & E & B).
  { unfold fits, has_room. simpl. lia. }
  assert (focused t <> None) as Hf by (by rewrite (bt_focus _ _ _ _ B)).
  destruct (restore_workspace_eq s bc aw t b' E Hf) as (idle & aw' & E' & W & N & P & C & G & V).
  destruct (finish_core s t (b_ws b') Hf) as (Fi & Fp & Ft).
  pose proof (bt_panes _ _ _ _ B) as Hb'. pose proof (bt_grows _ _ _ _ B) as [Gw Gs Gb].
  simpl in Hb', Gs, Gb. rewrite u32_succ_small in C by lia.
  assert (ws_id (finish s t (b_ws b')) = workspace_counter aw) as Hid
    by (rewrite Fi, Gw; reflexivity).
  exists idle, (b_browsers b'), aw', (finish s t (b_ws b')). split_and!; try done.
  - eapply (appended_ok aw (finish s t (b_ws b')) (b_panes b')); try done; [lia|lia| |by rewrite Hid].
    eapply built_ws_ok; [exact B|done| |done|done]. by vm_compute.
  - split; unfold sum_leaves, sum_tabs; rewrite ?P, ?C, ?G; (lia || done).
  - rewrite Gw. apply finish_kept.
  - unfold plain_layout. rewrite Fp, Ft. destruct (bt_tree _ _ _ _ B) as (lt & R & El & _).
    rewrite (snapshot_layout_rep _ _ _ _ _ R), El. apply B.
Qed.

Lemma restore_workspaces_spec l : forall bc aw,
  win_ok aw -> session_room l bc aw ->
  exists idles bc' aw' ws,
    restore_workspaces nord wd cmd ord fp ur now l (bc, aw) = (idles, (bc', aw')) /\
    win_ok aw' /\ workspaces aw' = workspaces aw ++ ws /\ kept <$> ws = kept_snap <$> l /\
    plain_layout <$> ws = (fun s => restored (wsn_layout s)) <$> l /\
    sidebar_visible aw' = sidebar_visible aw.
Proof.
  induction l as [|s l IH]; intros bc aw Hok Hroom.
  - exists [], bc, aw, []. rewrite app_nil_r. done.
  - destruct (restore_workspace_spec s l bc aw Hok Hroom)
      as (idle & bc1 & aw1 & w & E & Hok1 & Hr1 & W & K & L & V).
    destruct (IH bc1 aw1 Hok1 Hr1) as (idles & bc2 & aw2 & ws & E2 & Hok2 & W2 & K2 & L2 & V2).
    exists (idle :: idles), bc2, aw2, (w :: ws). cbn [restore_workspaces]. rewrite E, E2.
    split_and!; [done|done|by rewrite W2, W, <- app_assoc|..]; simpl; [..|congruence];
      by f_equal.
Qed.
End window.

Lemma i32_small n : (Z.of_nat n < 2147483648)%Z -> usize_as_i32 n = Z.of_nat n.
Proof. intros H. unfold usize_as_i32. rewrite Z.mod_small; lia. Qed.

Definition empty_notebook_current {NB} `{!NotebookOps NB} (nb : NB) : Prop :=
  nb_pages nb = [] -> nb_current_page nb = None.
Lemma no_page {NB} `{NotebookLaws NB} (nb : NB) : empty_notebook_current nb.
Proof.
  intros Hp. destruct (nb_current_page nb) as [i|] eqn:E; [|done].
  apply nb_page_range in E. rewrite Hp in E. simpl in E. lia.
Qed.

(** C2: restoring the snapshot taken of a consistent window [aw0] in a fresh one [aw]
    (no workspaces, the sidebar shown) gives the window back: as many workspaces in
    the same order, each with its custom title, directory, colour, pin, status
    entries, log messages, progress and remote destination, its saved layout (as far
    as layouts are restored), the same workspace shown, and the sidebar as it was:
    shown or hidden, its divider at the saved width when shown and at zero when
    hidden, and the width it has, or gets when it is shown again, the saved one; and
    the restored window is consistent.  The identifiers the restoring takes must not
    run out of 32 bits ([session_room]), and the saved workspaces number less than
    2^31 with each status entry under its own key.  The snapshot is restored as it
    was taken: its way through the JSON file is the subject of the next claim. *)
Theorem session_restores_window {NB} `{NotebookLaws NB} nord ord sord sb url wd cmd fp ur now bc
    (aw0 aw : AppWindow NB) :
  (forall m, enumerates (nord m) m) ->
  (forall m : gmap string SidebarStatusEntry,
     NoDup (sord m) /\ forall k, k ∈ sord m <-> is_Some (m !! k)) ->
  win_ok aw0 -> (Z.of_nat (length (workspaces aw0)) < 2147483648)%Z ->
  Forall (fun w => map_Forall (fun k e => st_key e = k) (status_entries w)) (workspaces aw0) ->
  win_ok aw -> workspaces aw = [] -> sidebar_visible aw = true ->
  let s := session_snapshot sb url sord aw0 in
  session_room (sn_workspaces s) bc aw ->
  exists idles bc' aw',
    restore_session nord wd cmd ord fp ur now s (bc, aw) = (idles, (bc', aw')) /\
    win_ok aw' /\ kept <$> workspaces aw' = kept <$> workspaces aw0 /\
    plain_layout <$> workspaces aw' =
      (fun w => restored (snapshot_layout sb url (split_tree w) (ws_panes w))) <$> workspaces aw0 /\
    nb_current_page (notebook aw') = nb_current_page (notebook aw0) /\
    sidebar_visible aw' = sidebar_visible aw0 /\
    paned_position aw' = (if sidebar_visible aw0 then paned_position aw0 else 0%Z) /\
    sidebar_last_width aw' = (if sidebar_visible aw0 then paned_position aw0 else sidebar_last_width aw0).
Proof.
  intros Hn Hs Hok0 Hlen Hkeys Hok Hnil Hv s Hroom.
  destruct (restore_workspaces_spec nord Hn ord wd cmd fp ur now (sn_workspaces s) bc aw Hok Hroom)
    as (idles & bc' & aw1 & ws & E & Hok1 & W & K & L & V).
  rewrite Hnil in W. simpl in W.
  assert (length ws = length (workspaces aw0)) as Hl
    by (apply (f_equal length) in K; simpl in K; by rewrite !length_fmap in K).
  unfold restore_session. rewrite E. eexists idles, bc', _. split; [reflexivity|].
  change (sn_sidebar_visible s) with (Some (sidebar_visible aw0)).
  change (selected_workspace s) with (nb_current_page (notebook aw0)).
  set (aw2 := match nb_current_page (notebook aw0) with Some idx => _ | None => aw1 end).
  assert (win_ok aw2 /\ workspaces aw2 = ws /\ sidebar_visible aw2 = true /\
          nb_current_page (notebook aw2) = nb_current_page (notebook aw0)) as (Hok2 & W2 & V2 & C2).
  { subst aw2. destruct (nb_current_page (notebook aw0)) as [i|] eqn:Hc.
    - apply nb_page_range in Hc. rewrite (win_pages _ Hok0) in Hc. unfold ws_ids in Hc.
      rewrite length_fmap in Hc. unfold goto_workspace. rewrite i32_small by lia.
      rewrite decide_True by (rewrite W; lia).
      split_and!; [by apply win_ok_page|exact W|simpl; congruence|].
      rewrite Nat2Z.id. simpl. apply nb_set_current.
      rewrite (win_pages _ Hok1). unfold ws_ids. rewrite length_fmap, W. lia.
    - apply nb_page_none in Hc. rewrite (win_pages _ Hok0) in Hc. apply fmap_nil_inv in Hc.
      split_and!; [done|done|congruence|]. apply no_page.
      rewrite (win_pages _ Hok1). unfold ws_ids. rewrite W.
      by destruct ws; [|rewrite Hc in Hl]. }
  assert (kept <$> ws = kept <$> workspaces aw0) as HK.
  { rewrite K. simpl. rewrite <- list_fmap_compose. apply Forall_fmap_ext_1.
    eapply Forall_impl; [exact Hkeys|]. intros w Hw. by apply kept_snapshot. }
  assert (plain_layout <$> ws = (fun w => restored (snapshot_layout sb url (split_tree w) (ws_panes w)))
            <$> workspaces aw0) as HL by (rewrite L; simpl; by rewrite <- list_fmap_compose).
  clearbody aw2. unfold toggle_sidebar.
  change (sidebar_width s) with
    (if sidebar_visible aw0 then Some (paned_position aw0) else Some (sidebar_last_width aw0)).
  destruct (sidebar_visible aw0); simpl; rewrite ?V2; simpl;
    rewrite ?V2, ?W2, ?C2; (split_and!; [by eapply win_ok_same; [exact Hok2|..]|done..|by case_decide||done]).
Qed.

Definition status_order (m : gmap string SidebarStatusEntry) : list string := (map_to_list m).*1.
Lemma status_order_enumerates m : NoDup (status_order m) /\ forall k, k ∈ status_order m <-> is_Some (m !! k).
Proof.
  split; [apply NoDup_fst_map_to_list|]. intros k. unfold status_order.
  rewrite list_elem_of_fmap. split.
  - intros ([k' x] & -> & Hx%elem_of_map_to_list). simpl. eauto.
  - intros [x Hx]. exists (k, x). by rewrite elem_of_map_to_list.
Qed.

(** Two workspaces, the second one split, pinned first and described. *)
Definition demo_saved : AppWindow list_notebook :=
  set_workspace_status 1 "build" "ok" None None 3
    (set_workspace_color 1 (Some Blue)
      (split_focused Vertical (new_workspace (new_workspace demo_start)))).

Lemma demo_start_ok : win_ok demo_start.
Proof. split; simpl; [done|constructor|constructor|]. split; [done|constructor]. Qed.

Lemma demo_saved_ok : win_ok demo_saved.
Proof.
  assert (win_ok (new_workspace (new_workspace demo_start))) as H.
  { apply new_workspace_ok; [apply new_workspace_ok; [apply demo_start_ok|]|]; by vm_compute. }
  eapply (win_step_ok key_order); [apply step_status|].
  eapply (win_step_ok key_order); [apply step_color|].
  eapply (win_step_ok key_order); [apply step_split|exact H].
  split; [|by vm_compute].
  apply (Forall_fmap (fun w => next_id (split_tree w)) (fun z => z + 2 <= u32_max)%Z).
  set (l := _ <$> _). assert (l = [1; 1]%Z) as -> by (by vm_compute). by repeat constructor.
Qed.

Lemma session_restores_window_witness :
  exists idles bc' aw',
    restore_session node_order None None key_order None (fun _ => None) 0
      (session_snapshot (fun _ => None) (fun _ => None) status_order demo_saved) (0%Z, demo_start)
      = (idles, (bc', aw')) /\
    win_ok aw' /\ kept <$> workspaces aw' = kept <$> workspaces demo_saved /\
    nb_current_page (notebook aw') = Some 1 /\
    (sidebar_visible aw', sidebar_last_width aw') = (true, 200%Z).
Proof.
  destruct (session_restores_window node_order key_order status_order (fun _ => None)
    (fun _ => None) None None None (fun _ => None) 0 0 demo_saved demo_start)
    as (idles & bc' & aw' & E & Hok & K & _ & C & V & _ & W);
    [apply node_order_enumerates|apply status_order_enumerates|apply demo_saved_ok|by vm_compute
    | |apply demo_start_ok|done|done| |].
  - apply (Forall_fmap status_entries (map_Forall (fun k e => st_key e = k))).
    assert (status_entries <$> workspaces demo_saved =
            [∅; <["build" := mkStatus "build" "ok" None None 3]> ∅]) as -> by (by vm_compute).
    constructor; [apply map_Forall_empty|constructor; [|constructor]].
    apply map_Forall_insert_2; [done|apply map_Forall_empty].
  - split; [by vm_compute..|].
    apply (Forall_fmap (fun s => snap_ids (wsn_layout s)) (fun z => z <= u32_max)%Z).
    set (l := _ <$> _). assert (l = [1; 4]%Z) as -> by (by vm_compute). by repeat constructor.
  - exists idles, bc', aw'. split_and!; [exact E|exact Hok|exact K|etrans; [exact C|by vm_compute]|].
    rewrite V, W. by vm_compute.
Defined.
