(* ===== verification/Socket.v ===== *)
(** * The control socket (app/src/socket.rs)

    A line protocol: a client sends commands ended by line feeds, each is run on
    the window and answered.  [handle_command] is the interpreter of one command,
    [on_readable] the file-descriptor callback of [handle_client] with its buffer
    of partial lines.  What lies behind the window is a parameter: the texts the
    terminal and browser libraries return ([read_text], [get_url]), the crate
    version, [{:?}] of a title and the JSON writer of the remote status. *)

From Stdlib Require Import Ascii.
From S2P Require Import Prelude F64 SplitTree RustStr RustNum RemoteConfig Workspace Surfaces Notebook Window WindowTabs Session.
Open Scope string_scope.
Open Scope list_scope.

(** ** Options *)

(** Positional arguments and the map of [--key=value] options. *)
Record ParsedOpts := mkOpts { positional : list string; opts : gmap string string }.

Definition parse_opts (args : string) : ParsedOpts :=
  foldl (fun po part =>
    match strip_prefix "--" part with
    | Some kv =>
        match split_once "=" kv with
        | Some (k, v) => mkOpts (positional po) (<[k := v]> (opts po))
        | None => po
        end
    | None => mkOpts (positional po ++ [part]) (opts po)
    end) (mkOpts [] ∅) (split_whitespace args).

(** ** Commands *)

(** The commands, by the arm of the source's [match] that handles them. *)
Inductive Command :=
  | Ping | Version | ListSurfaces | NewWorkspace | NewPaneTab | WorkspaceCount | ListWorkspaces
  | WorkspaceSetColor | WorkspacePin | ToggleSidebar | SplitRight | SplitDown | SetStatus
  | ClearStatus | SetProgress | ClearProgress | LogCmd | ClearLog | SelectWorkspace
  | CloseWorkspace | CurrentWorkspace | ListPanes | FocusPane | RenameWorkspace | Send
  | ReadScreen | OpenBrowser | Navigate | BrowserBack | BrowserForward | BrowserReload | GetUrl
  | JsEval | NotifyEnable | NotifyDisable | NotifyStatus | RemoteConnect | RemoteDisconnect
  | RemoteReconnect | RemoteStatus.

Definition command_table : list (string * Command) :=
  [("ping", Ping); ("version", Version); ("list_surfaces", ListSurfaces);
   ("new_workspace", NewWorkspace); ("new_tab", NewWorkspace); ("new_pane_tab", NewPaneTab);
   ("workspace_count", WorkspaceCount); ("tab_count", WorkspaceCount);
   ("list_workspaces", ListWorkspaces); ("workspace_set_color", WorkspaceSetColor);
   ("workspace_pin", WorkspacePin); ("toggle_sidebar", ToggleSidebar);
   ("split_right", SplitRight); ("split_down", SplitDown); ("set_status", SetStatus);
   ("clear_status", ClearStatus); ("set_progress", SetProgress);
   ("clear_progress", ClearProgress); ("log", LogCmd); ("clear_log", ClearLog);
   ("select_workspace", SelectWorkspace); ("close_workspace", CloseWorkspace);
   ("current_workspace", CurrentWorkspace); ("list_panes", ListPanes); ("focus_pane", FocusPane);
   ("rename_workspace", RenameWorkspace); ("send", Send); ("read_screen", ReadScreen);
   ("open_browser", OpenBrowser); ("navigate", Navigate); ("browser_back", BrowserBack);
   ("browser_forward", BrowserForward); ("browser_reload", BrowserReload); ("get_url", GetUrl);
   ("js_eval", JsEval); ("notify_enable", NotifyEnable); ("notify_disable", NotifyDisable);
   ("notify_status", NotifyStatus); ("remote_connect", RemoteConnect);
   ("remote_disconnect", RemoteDisconnect); ("remote_reconnect", RemoteReconnect);
   ("remote_status", RemoteStatus)].

Definition command_of (s : string) : option Command :=
  snd <$> List.find (fun kv => String.eqb kv.1 s) command_table.

(** Calls into the browser and terminal libraries. *)
Inductive ExtCall :=
  | SendText (handle : Z) (text : string)
  | NavigateTo (id : BrowserPanelId) (url : string)
  | GoBack (id : BrowserPanelId)
  | GoForward (id : BrowserPanelId)
  | Reload (id : BrowserPanelId)
  | EvalJs (id : BrowserPanelId) (script : string)
  | TrayNotifications (enabled : bool).

Record World (NB : Type) := mkWorld {
  win : AppWindow NB; notify_enabled : bool; next_browser : Z; calls : list ExtCall;
}.
#[global] Arguments mkWorld {_}.
#[global] Arguments win {_}.
#[global] Arguments notify_enabled {_}.
#[global] Arguments next_browser {_}.
#[global] Arguments calls {_}.

Definition MAX_SCROLLBACK_LINES : nat := 5000.

(** The length of a string in decimal. *)
Definition len_str (s : string) : string := show_uint (Z.of_nat (String.length s)).
Definition multi_line (text : string) : string := "OK+" +:+ len_str text +:+ String nl text.
Definition ok_lines (l : list string) : string :=
  match l with [] => "OK" | _ => multi_line (join (String nl "") l) end.

(** What [remote_status_info] reports. *)
Record StatusInfo := mkStatusInfo {
  si_workspace : WorkspaceId; si_state : string; si_destination : option string;
  si_daemon : option RemoteDaemonStatus;
}.

Section command.
Context {NB : Type} `{!NotebookOps NB}.
Context (ord : gmap Z Pane -> list PaneId).
Context (pkg_version : string) (get_url : BrowserPanelId -> option string).
Context (read_text : Z -> option string) (debug_str : string -> string).
Context (status_json : StatusInfo -> string).
Context (now : Z) (free_port : option Z) (urandom : nat -> option string).
Implicit Types (wd : World NB).

Definition with_win (aw : AppWindow NB) wd : World NB :=
  mkWorld aw (notify_enabled wd) (next_browser wd) (calls wd).
Definition on_win (f : AppWindow NB -> AppWindow NB) wd : World NB := with_win (f (win wd)) wd.
Definition call (c : ExtCall) wd : World NB :=
  mkWorld (win wd) (notify_enabled wd) (next_browser wd) (calls wd ++ [c]).

(** The result of a command: the answer and the new state; [None] is a panic. *)
Definition reply (s : string) wd : option (string * World NB) := Some (s, wd).
Definition ok : World NB -> option (string * World NB) := reply "OK".

Definition parse_u32_arg (s : string) : option Z := parse_u32 (trim s).

Definition read_surface_scrollback (sid : SurfaceId) wd : option string :=
  h ← get_handle sid (registry (win wd));
  full ← read_text h;
  match truncate_to_last_n_lines full MAX_SCROLLBACK_LINES with "" => None | t => Some t end.

Definition send_text (sid : SurfaceId) (text : string) wd : bool * World NB :=
  match get_handle sid (registry (win wd)) with
  | Some h => (true, call (SendText h text) wd)
  | None => (false, wd)
  end.

Definition remote_status_info (id : option WorkspaceId) wd : option string :=
  id ← remote_target id (win wd);
  w ← find_ws_by_id id (win wd);
  Some (status_json (mkStatusInfo (ws_id w) (RemoteConnectionState_as_str (remote_state w))
                       (display_target <$> remote_config w) (remote_daemon_status w))).

Definition workspace_line (e : WorkspaceId * string * nat * bool * option string) : string :=
  let '(id, title, panes, pin, clr) := e in
  "id:" +:+ show_uint id +:+ " title:" +:+ debug_str title +:+ " panes:" +:+
  show_uint (Z.of_nat panes) +:+ (if pin then " pinned" else "") +:+
  match clr with Some c => " color=" +:+ c | None => "" end.

Definition connect_config (po : ParsedOpts) (dest : string) : RemoteConfiguration :=
  mkRemoteConfiguration dest (opts po !! "port" ≫= parse_u16) (opts po !! "identity")
    (match opts po !! "ssh-option" with Some v => [v] | None => [] end)
    (opts po !! "command") None None None None.

(** Commands with a numeric identifier and the rest of the line. *)
Definition with_id_rest (usage name : string) (args : string) wd
    (k : Z -> string -> option (string * World NB)) : option (string * World NB) :=
  match splitn2 " " args with
  | (_, None) => reply usage wd
  | (a, Some rest) =>
      match parse_u32_arg a with
      | None => reply ("ERROR: invalid " +:+ name) wd
      | Some id => k id rest
      end
  end.
Definition with_id (name : string) (args : string) wd (k : Z -> option (string * World NB))
    : option (string * World NB) :=
  match parse_u32_arg args with
  | None => reply ("ERROR: invalid " +:+ name) wd
  | Some id => k id
  end.
Definition with_focused wd (k : WorkspaceId -> option (string * World NB))
    : option (string * World NB) :=
  match focused_workspace_id (win wd) with
  | None => reply "ERROR: no focused workspace" wd
  | Some id => k id
  end.

(** [split_whitespace().next().and_then(parse)]. *)
Definition first_id (args : string) : option Z := head (split_whitespace args) ≫= parse_u32.

Definition run_command (c : Command) (args : string) wd : option (string * World NB) :=
  match c with
  | Ping => reply "OK pong" wd
  | Version => reply ("OK limux " +:+ pkg_version) wd
  | ListSurfaces => reply (ok_lines (list_surfaces_detailed ord get_url (win wd))) wd
  | NewWorkspace => ok (on_win new_workspace wd)
  | NewPaneTab => ok (on_win new_pane_tab wd)
  | WorkspaceCount => reply ("OK " +:+ show_uint (Z.of_nat (workspace_count (win wd)))) wd
  | ListWorkspaces => reply (ok_lines (workspace_line <$> list_workspaces_detailed (win wd))) wd
  | WorkspaceSetColor =>
      with_id_rest "ERROR: usage: workspace_set_color <id> <color|none>" "workspace id" args wd
        (fun id name =>
           if String.eqb name "none" then ok (on_win (set_workspace_color id None) wd)
           else match color_from_name name with
                | Some c => ok (on_win (set_workspace_color id (Some c)) wd)
                | None => reply "ERROR: unknown color" wd
                end)
  | WorkspacePin =>
      with_id "workspace id" args wd (fun id => ok (on_win (toggle_workspace_pinned id) wd))
  | ToggleSidebar => ok (on_win toggle_sidebar wd)
  | SplitRight => ok (on_win (split_focused Horizontal) wd)
  | SplitDown => ok (on_win (split_focused Vertical) wd)
  | SetStatus =>
      with_focused wd (fun id =>
        let po := parse_opts args in
        match positional po with
        | key :: ((_ :: _) as rest) =>
            ok (on_win (set_workspace_status id key (join " " rest) (opts po !! "icon")
                  (opts po !! "color") (default 0%Z (opts po !! "priority" ≫= parse_i32))) wd)
        | _ => reply "ERROR: usage: set_status <key> <value> [--icon=X] [--color=X] [--priority=N]" wd
        end)
  | ClearStatus =>
      with_focused wd (fun id =>
        match trim args with
        | "" => reply "ERROR: usage: clear_status <key>" wd
        | key => ok (on_win (clear_workspace_status id key) wd)
        end)
  | SetProgress =>
      with_focused wd (fun id =>
        let po := parse_opts args in
        match positional po with
        | [] => reply "ERROR: usage: set_progress <0.0-1.0> [--label=X]" wd
        | v :: _ =>
            match parse_f64 (trim v) with
            | None => reply "ERROR: invalid progress value" wd
            | Some v => ok (on_win (set_workspace_progress id v (opts po !! "label")) wd)
            end
        end)
  | ClearProgress => with_focused wd (fun id => ok (on_win (clear_workspace_progress id) wd))
  | LogCmd =>
      with_focused wd (fun id =>
        let po := parse_opts args in
        match positional po with
        | [] => reply "ERROR: usage: log <message> [--level=info|warning|error|success]" wd
        | l => ok (on_win (add_workspace_log id (join " " l)
                     (LogLevel_from_str (default "info" (opts po !! "level"))) None now) wd)
        end)
  | ClearLog => with_focused wd (fun id => ok (on_win (clear_workspace_log id) wd))
  | SelectWorkspace =>
      with_id "workspace id" args wd (fun id =>
        match select_workspace_by_id id (win wd) with
        | (true, aw) => ok (with_win aw wd)
        | (false, aw) => reply "ERROR: workspace not found" (with_win aw wd)
        end)
  | CloseWorkspace =>
      let close id :=
        match close_workspace_by_id ord id (win wd) with
        | None => None
        | Some (true, aw) => ok (with_win aw wd)
        | Some (false, aw) => reply "ERROR: workspace not found or pinned" (with_win aw wd)
        end in
      match trim args with
      | "" => with_focused wd close
      | s => match parse_u32 s with
             | Some id => close id
             | None => reply "ERROR: invalid workspace id" wd
             end
      end
  | CurrentWorkspace =>
      match current_workspace_info (win wd) with
      | Some (id, title) => reply ("OK " +:+ show_uint id +:+ " " +:+ title) wd
      | None => reply "ERROR: no focused workspace" wd
      end
  | ListPanes =>
      let id := match trim args with
                | "" => focused_workspace_id (win wd)
                | s => parse_u32 s
                end in
      match id with
      | None => reply "ERROR: no workspace" wd
      | Some id =>
          match list_panes ord id (win wd) with
          | Some ids => reply ("OK " +:+ join "," (show_uint <$> ids)) wd
          | None => reply "ERROR: workspace not found" wd
          end
      end
  | FocusPane =>
      with_id "pane id" args wd (fun pid =>
        match focus_pane_by_id pid (win wd) with
        | (true, aw) => ok (with_win aw wd)
        | (false, aw) => reply "ERROR: pane not found" (with_win aw wd)
        end)
  | RenameWorkspace =>
      with_id_rest "ERROR: usage: rename_workspace <id> <name>" "workspace id" args wd
        (fun id name => ok (on_win (rename_workspace id (trim name)) wd))
  | Send =>
      with_id_rest "ERROR: usage: send <surface_id> <text>" "surface id" args wd
        (fun sid text =>
           match send_text sid text wd with
           | (true, wd) => ok wd
           | (false, wd) => reply "ERROR: surface not found" wd
           end)
  | ReadScreen =>
      with_id "surface id" args wd (fun sid =>
        match read_surface_scrollback sid wd with
        | Some text => reply (multi_line text) wd
        | None => reply "ERROR: surface not found" wd
        end)
  | OpenBrowser =>
      match current_ws (win wd) ≫= ws_focused_pane with
      | None => ok wd
      | Some _ =>
          let '(bid, nb) := fetch_next (next_browser wd) in
          ok (mkWorld (split_focused_browser bid Horizontal (trim args) (win wd)) (notify_enabled wd)
                nb (calls wd))
      end
  | Navigate =>
      with_id_rest "ERROR: usage: navigate <browser_id> <url>" "browser_id" args wd
        (fun id url => ok (call (NavigateTo id (normalize_url (trim url))) wd))
  | BrowserBack => with_id "browser_id" args wd (fun id => ok (call (GoBack id) wd))
  | BrowserForward => with_id "browser_id" args wd (fun id => ok (call (GoForward id) wd))
  | BrowserReload => with_id "browser_id" args wd (fun id => ok (call (Reload id) wd))
  | GetUrl =>
      with_id "browser_id" args wd (fun id =>
        match get_url id with
        | Some url => reply ("OK " +:+ url) wd
        | None => reply "ERROR: browser not found" wd
        end)
  | JsEval =>
      with_id_rest "ERROR: usage: js_eval <browser_id> <script>" "browser_id" args wd
        (fun id script => ok (call (EvalJs id script) wd))
  | NotifyEnable =>
      ok (call (TrayNotifications true) (mkWorld (win wd) true (next_browser wd) (calls wd)))
  | NotifyDisable =>
      ok (call (TrayNotifications false) (mkWorld (win wd) false (next_browser wd) (calls wd)))
  | NotifyStatus => reply ("OK " +:+ if notify_enabled wd then "enabled" else "disabled") wd
  | RemoteConnect =>
      let po := parse_opts args in
      match positional po with
      | [] => reply "ERROR: remote_connect requires a destination" wd
      | dest :: _ =>
          match new_remote_workspace free_port urandom (connect_config po dest) (win wd) with
          | (Some id, aw) => reply ("OK " +:+ show_uint id) (with_win aw wd)
          | (None, aw) => reply "ERROR: failed to create remote workspace" (with_win aw wd)
          end
      end
  | RemoteDisconnect =>
      let po := parse_opts args in
      ok (on_win (disconnect_remote (head (positional po) ≫= parse_u32)
                    (bool_decide (is_Some (opts po !! "clear")))) wd)
  | RemoteReconnect => ok (on_win (reconnect_remote (first_id args)) wd)
  | RemoteStatus =>
      match remote_status_info (first_id args) wd with
      | Some json => reply (multi_line json) wd
      | None => reply "ERROR: workspace not found or not remote" wd
      end
  end.

Definition handle_command (cmd : string) wd : option (string * World NB) :=
  let '(command, args) := splitn2 " " cmd in
  match command_of command with
  | Some c => run_command c (default "" args) wd
  | None => reply ("ERROR: unknown command: " +:+ command) wd
  end.

(** ** The connection *)

(** What is written for a response: length-prefixed ones as they are, the others
    with a line feed. *)
Definition frame (response : string) : string :=
  if starts_with "OK+" response then response else response +:+ String nl "".

(** The first line of [s] and what follows its line feed. *)
Definition next_line (s : string) : option (string * string) := split_once nl s.

(** Run every complete line of the buffer; the rest stays.  The text in the result is what
    is handed to [write!], response after response: the stream does not block, so it may
    take less of each than that, and the error is ignored. *)
Fixpoint process_lines (fuel : nat) (buf : string) wd : option (string * string * World NB) :=
  match fuel with
  | O => Some (buf, "", wd)
  | S fuel =>
      match next_line buf with
      | None => Some (buf, "", wd)
      | Some (line, rest) =>
          '(response, wd) ← handle_command (trim (from_utf8_lossy line)) wd;
          '(buf, out, wd) ← process_lines fuel rest wd;
          Some (buf, frame response +:+ out, wd)
      end
  end.

(** The outcomes of [read] on the non-blocking stream. *)
Inductive Read := Chunk (bytes : string) | Eof | WouldBlock | ReadError.

Definition MAX_BUFFER : nat := Nat.pow 2 20.

(** Read until the stream would block; [None] removes the source. *)
Fixpoint drain (reads : list Read) (buf : string) : option string :=
  match reads with
  | [] | WouldBlock :: _ => Some buf
  | Chunk b :: reads =>
      let buf := buf +:+ b in
      if decide (MAX_BUFFER < String.length buf) then None else drain reads buf
  | Eof :: _ | ReadError :: _ => None
  end.

(** One call of the callback.  The connection is [None] once its source has been
    removed (the stream is then dropped). *)
Definition on_readable (reads : list Read) (conn : option string) wd
    : option (option string * string * World NB) :=
  match conn with
  | None => Some (None, "", wd)
  | Some buf =>
      match drain reads buf with
      | None => Some (None, "", wd)
      | Some buf =>
          '(buf, out, wd) ← process_lines (S (String.length buf)) buf wd;
          Some (Some buf, out, wd)
      end
  end.

(** A connection's life: the callback runs once per batch of reads. *)
Fixpoint serve (batches : list (list Read)) (conn : option string) wd
    : option (option string * string * World NB) :=
  match batches with
  | [] => Some (conn, "", wd)
  | reads :: batches =>
      '(conn, out, wd) ← on_readable reads conn wd;
      '(conn, out', wd) ← serve batches conn wd;
      Some (conn, out +:+ out', wd)
  end.
End command.
