(* ===== verification/SocketProps.v ===== *)
(** * The control socket: properties

    No command can break the window; how the kernel cuts the input into reads
    does not matter: each complete line is run once, in order; a client that closes together with its last command is not
    served. *)

From Stdlib Require Import Ascii.
From S2P Require Import Prelude F64 SplitTree SplitTreeRefine RustStr RustNum RemoteConfig Workspace Surfaces Notebook Window WindowTabs WindowOk WindowProps WindowLife WindowClaims Session Socket.
Open Scope string_scope.
Open Scope list_scope.

(** ** Commands and the window *)

Section commands.
Context {NB : Type} `{!NotebookOps NB} `{!NotebookLaws NB}.
Context (ord : gmap Z Pane -> list PaneId).
Context (pkg_version : string) (get_url : BrowserPanelId -> option string).
Context (read_text : Z -> option string) (debug_str : string -> string).
Context (status_json : StatusInfo -> string).
Context (now : Z) (free_port : option Z) (urandom : nat -> option string).
Implicit Types (wd : World NB).

Local Abbreviation run_command := (run_command ord pkg_version get_url read_text debug_str status_json
  now free_port urandom).
Local Abbreviation handle_command := (handle_command ord pkg_version get_url read_text debug_str
  status_json now free_port urandom).

(** The window is consistent and its identifiers have not run out. *)
Definition ready wd : Prop := win_ok (win wd) /\ fresh_ids (win wd) /\ drag_room (win wd).

(** The command answers and leaves a consistent window. *)
Definition is_multi_line (s : string) : bool :=
  match split_once nl s with Some (_, text) => String.eqb s (multi_line text) | None => false end.
Definition response (s : string) : bool :=
  String.eqb s "OK" || starts_with "OK " s || starts_with "ERROR: " s || is_multi_line s.

Lemma multi_line_response text : response (multi_line text) = true.
Proof.
  unfold response. rewrite !orb_true_iff. right. unfold is_multi_line.
  replace (split_once nl (multi_line text)) with (Some ("OK+" +:+ len_str text, text)); [apply String.eqb_refl|].
  symmetry. unfold multi_line. rewrite <- str_app_assoc. apply split_once_app.
  simpl. by apply show_uint_no_byte.
Qed.

(** The forms of a response. *)
Lemma response_forms s : response s = true ->
  s = "OK" \/ (exists d, s = "OK " +:+ d) \/ (exists e, s = "ERROR: " +:+ e) \/ exists text, s = multi_line text.
Proof.
  unfold response. rewrite !orb_true_iff. intros [[[H|H]|H]|H].
  - left. by apply String.eqb_eq.
  - right. left. apply bool_decide_eq_true in H as [d H]. exists d. by apply strip_prefix_Some.
  - do 2 right. left. apply bool_decide_eq_true in H as [d H]. exists d. by apply strip_prefix_Some.
  - do 3 right. unfold is_multi_line in H. destruct (split_once nl s) as [[a t]|]; [|done].
    exists t. by apply String.eqb_eq.
Qed.
Definition answers (r : option (string * World NB)) : Prop :=
  exists s wd', r = Some (s, wd') /\ response s = true /\ win_ok (win wd').

Lemma answers_reply s wd : win_ok (win wd) -> response s = true -> answers (reply s wd).
Proof. intros H Hs. by exists s, wd. Qed.
Lemma answers_ok wd : win_ok (win wd) -> answers (ok wd).
Proof. intros H. by apply answers_reply. Qed.
Lemma answers_lines l wd : win_ok (win wd) -> answers (reply (ok_lines l) wd).
Proof. intros H. destruct l; apply answers_reply; try done. apply multi_line_response. Qed.
Lemma answers_text text wd : win_ok (win wd) -> answers (reply (multi_line text) wd).
Proof. intros H. apply answers_reply; [done|apply multi_line_response]. Qed.

Lemma answers_with_id name args wd k :
  win_ok (win wd) -> (forall id, answers (k id)) -> answers (with_id name args wd k).
Proof. intros H Hk. unfold with_id. destruct (parse_u32_arg args); [done|by apply answers_reply]. Qed.
Lemma answers_with_id_rest usage name args wd k :
  win_ok (win wd) -> response usage = true -> (forall id rest, answers (k id rest)) ->
  answers (with_id_rest usage name args wd k).
Proof.
  intros H Hu Hk. unfold with_id_rest. destruct (splitn2 " " args) as [a [rest|]]; [|by apply answers_reply].
  destruct (parse_u32_arg a); [done|by apply answers_reply].
Qed.
Lemma answers_with_focused wd k :
  win_ok (win wd) -> (forall id, answers (k id)) -> answers (with_focused wd k).
Proof.
  intros H Hk. unfold with_focused. destruct (focused_workspace_id (win wd)); [done|by apply answers_reply].
Qed.

(** A command that performs one step of the window. *)
Lemma answers_step wd aw : win_ok (win wd) -> win_step ord (win wd) aw -> answers (ok (with_win aw wd)).
Proof. intros H Hs. apply answers_ok. simpl. by eapply win_step_ok. Qed.

Lemma close_by_id_ok id (aw : AppWindow NB) :
  win_ok aw -> exists b aw', close_workspace_by_id ord id aw = Some (b, aw') /\ win_ok aw'.
Proof.
  intros Hok. unfold close_workspace_by_id. destruct (find_ws_by_id id aw) as [w|]; [|eauto].
  destruct (pinned w); [eauto|].
  destruct (request_close_ok ord (all_panels (ord (ws_panes w)) w) aw Hok) as (aw' & -> & H). simpl. eauto.
Qed.
Lemma close_answers id wd :
  win_ok (win wd) ->
  answers (match close_workspace_by_id ord id (win wd) with
           | None => None
           | Some (true, aw) => ok (with_win aw wd)
           | Some (false, aw) => reply "ERROR: workspace not found or pinned" (with_win aw wd)
           end).
Proof.
  intros H. destruct (close_by_id_ok id (win wd) H) as (b & aw & -> & Hok).
  destruct b; [by apply answers_ok|by apply answers_reply].
Qed.

(** One step for the commands that only run an operation of the window. *)
Ltac stepped :=
  match goal with |- answers (ok (on_win ?f ?wd)) => apply (answers_step wd (f (win wd))) end; [done|by constructor].

Lemma run_command_answers c args wd : ready wd -> answers (run_command c args wd).
Proof.
  intros (Hok & Hfresh & Hroom).
  destruct c; cbn [Socket.run_command]; try (by apply answers_reply); try (by apply answers_lines);
    try (apply answers_with_focused; [done|intros id]);
    try (apply answers_with_id; [done|intros id]);
    try (apply answers_with_id_rest; [done|done|intros id rest]);
    try (by apply answers_ok); try (stepped).
  - destruct (String.eqb rest "none"); [stepped|].
    case_goal; [stepped|by apply answers_reply].
  - destruct (positional (parse_opts args)) as [|key [|v l]]; try (by apply answers_reply).
    stepped.
  - destruct (trim args); [by apply answers_reply|stepped].
  - destruct (positional (parse_opts args)); [by apply answers_reply|].
    case_goal; [stepped|by apply answers_reply].
  - destruct (positional (parse_opts args)); [by apply answers_reply|stepped].
  - pose proof (win_step_ok ord _ _ (step_select ord (win wd) id) Hok) as H.
    destruct (select_workspace_by_id id (win wd)) as [[] aw]; by apply answers_reply.
  - destruct (trim args); [apply answers_with_focused; [done|intros id; by apply close_answers]|].
    case_goal; [by apply close_answers|by apply answers_reply].
  - destruct (current_workspace_info (win wd)) as [[]|]; by apply answers_reply.
  - destruct (trim args); (case_goal; [|by apply answers_reply]); case_goal; by apply answers_reply.
  - pose proof (win_step_ok ord _ _ (step_focus_pane ord (win wd) id) Hok) as H.
    destruct (focus_pane_by_id id (win wd)) as [[] aw]; by apply answers_reply.
  - unfold send_text. destruct (get_handle id (registry (win wd))); by apply answers_reply.
  - case_goal; [by apply answers_text|by apply answers_reply].
  - case_goal; [|by apply answers_ok]. apply answers_ok. simpl.
    by apply (win_step_ok ord _ _ (step_split_browser ord (win wd) _ _ _ Hroom)).
  - case_goal; by apply answers_reply.
  - destruct (positional (parse_opts args)) as [|d l]; [by apply answers_reply|].
    pose proof (win_step_ok ord _ _ (step_new_remote ord (win wd) free_port urandom
      (connect_config (parse_opts args) d) Hfresh) Hok) as H.
    revert H. destruct (new_remote_workspace _ _ _ _) as [[] aw]; intros H; by apply answers_reply.
  - case_goal; [by apply answers_text|by apply answers_reply].
Qed.

Lemma handle_command_answers cmd wd : ready wd -> answers (handle_command cmd wd).
Proof.
  intros H. unfold Socket.handle_command. destruct (splitn2 " " cmd) as [c args].
  destruct (command_of c); [by apply run_command_answers|]. apply answers_reply; [apply H|done].
Qed.
End commands.


Definition demo_world : World list_notebook :=
  mkWorld (new_workspace (new_workspace demo_start)) true 0 [].
Lemma demo_world_ready : ready demo_world.
Proof.
  split_and!; [|by vm_compute|].
  - apply new_workspace_ok; [apply new_workspace_ok; [|by vm_compute]|by vm_compute].
    split; simpl; [done|constructor|constructor|]. split; [done|constructor].
  - split; [|by vm_compute].
    apply (Forall_fmap (fun w => next_id (split_tree w)) (fun z => z + 2 <= u32_max)%Z).
    set (l := _ <$> _). assert (l = [1; 1]%Z) as -> by (by vm_compute). by repeat constructor.
Qed.

Definition no_text (_ : Z) : option string := None.

(** ** Framing *)

Section framing.
Context {NB : Type} `{!NotebookOps NB}.
Context (ord : gmap Z Pane -> list PaneId).
Context (pkg_version : string) (get_url : BrowserPanelId -> option string).
Context (read_text : Z -> option string) (debug_str : string -> string).
Context (status_json : StatusInfo -> string).
Context (now : Z) (free_port : option Z) (urandom : nat -> option string).
Implicit Types (wd : World NB).

Local Abbreviation handle_command := (handle_command ord pkg_version get_url read_text debug_str
  status_json now free_port urandom).
Local Abbreviation process_lines := (process_lines ord pkg_version get_url read_text debug_str
  status_json now free_port urandom).
Local Abbreviation on_readable := (on_readable ord pkg_version get_url read_text debug_str
  status_json now free_port urandom).
Local Abbreviation serve := (serve ord pkg_version get_url read_text debug_str
  status_json now free_port urandom).

Lemma length_str_app a b : String.length (a +:+ b) = String.length a + String.length b.
Proof. induction a as [|c a IH]; simpl; [done|]. by rewrite IH. Qed.

Lemma next_line_length s l r :
  next_line s = Some (l, r) -> s = l +:+ String nl r /\ String.length r < String.length s.
Proof. intros [-> _]%split_once_Some. rewrite length_str_app. simpl. split; [done|lia]. Qed.

Lemma process_fuel f1 : forall f2 buf wd,
  String.length buf < f1 -> String.length buf < f2 -> process_lines f1 buf wd = process_lines f2 buf wd.
Proof.
  induction f1 as [|f1 IH]; intros [|f2] buf wd H1 H2; try lia. simpl.
  destruct (next_line buf) as [[l r]|] eqn:E; [|done]. apply next_line_length in E as [_ E].
  destruct (handle_command _ _) as [[s w]|]; simpl; [|done]. by rewrite (IH f2) by lia.
Qed.

(** All complete lines of a text, with enough fuel. *)
Definition run_lines (buf : string) wd := process_lines (S (String.length buf)) buf wd.

Lemma run_lines_eq buf wd :
  run_lines buf wd =
  match next_line buf with
  | None => Some (buf, "", wd)
  | Some (line, rest) =>
      '(s, wd) ← handle_command (trim (from_utf8_lossy line)) wd;
      '(buf, out, wd) ← run_lines rest wd;
      Some (buf, frame s +:+ out, wd)
  end.
Proof.
  unfold run_lines at 1. simpl. destruct (next_line buf) as [[l r]|] eqn:E; [|done].
  apply next_line_length in E as [_ E]. destruct (handle_command _ _) as [[s w]|]; simpl; [|done].
  unfold run_lines. by rewrite (process_fuel _ (S (String.length r))) by lia.
Qed.

(** What stays in the buffer is not longer than it was. *)
Lemma run_lines_rest n : forall buf wd r out wd',
  String.length buf < n -> run_lines buf wd = Some (r, out, wd') -> String.length r <= String.length buf.
Proof.
  induction n as [|n IH]; intros buf wd r out wd' Hn E; [lia|]. rewrite run_lines_eq in E.
  destruct (next_line buf) as [[l b]|] eqn:El; [|by simplify_eq].
  apply next_line_length in El as [_ El]. destruct (handle_command _ _) as [[s w]|]; simpl in E; [|done].
  destruct (run_lines b w) as [[[r' o] w']|] eqn:Eb; simpl in E; simplify_eq.
  apply IH in Eb; lia.
Qed.

(** Running a text in two parts, the rest of the first put before the second. *)
Lemma run_lines_app n : forall a b wd, String.length a < n ->
  run_lines (a +:+ b) wd =
  '(rest, out, wd) ← run_lines a wd;
  '(rest, out', wd) ← run_lines (rest +:+ b) wd;
  Some (rest, out +:+ out', wd).
Proof.
  induction n as [|n IH]; intros a b wd Hn; [lia|]. rewrite (run_lines_eq a).
  destruct (next_line a) as [[l r]|] eqn:E.
  - apply next_line_length in E as H. destruct H as [-> H].
    apply split_once_Some in E as [_ E].
    rewrite (run_lines_eq (_ +:+ b)). unfold next_line.
    replace ((l +:+ String nl r) +:+ b) with (l +:+ String nl (r +:+ b))
      by (by rewrite str_app_assoc).
    rewrite split_once_app by done.
    destruct (handle_command _ _) as [[s w]|]; simpl; [|done]. rewrite IH by lia.
    destruct (run_lines r w) as [[[r' o] w']|]; simpl; [|done].
    destruct (run_lines (r' +:+ b) w') as [[[r'' o'] w'']|]; simpl; [|done].
    by rewrite str_app_assoc.
  - simpl. destruct (run_lines (a +:+ b) wd) as [[[r' o] w']|]; done.
Qed.

(** The reads of one wake-up: some chunks, then nothing more for now. *)
Definition batch (chunks : list string) : list Read := (Chunk <$> chunks) ++ [WouldBlock].
Definition text_of (chunks : list string) : string := foldr String.append "" chunks.

Lemma drain_batch chunks : forall buf,
  String.length buf + String.length (text_of chunks) <= MAX_BUFFER ->
  drain (batch chunks) buf = Some (buf +:+ text_of chunks).
Proof.
  induction chunks as [|c l IH]; intros buf H; simpl in *; [by rewrite str_app_nil_r|].
  rewrite length_str_app in H. rewrite length_str_app. rewrite decide_False by lia.
  rewrite IH by (rewrite length_str_app; lia). by rewrite str_app_assoc.
Qed.

Lemma run_lines_done n : forall buf wd r out wd',
  String.length buf < n -> run_lines buf wd = Some (r, out, wd') -> next_line r = None.
Proof.
  induction n as [|n IH]; intros buf wd r out wd' Hn E; [lia|]. rewrite run_lines_eq in E.
  destruct (next_line buf) as [[l b]|] eqn:El; [|by simplify_eq].
  apply next_line_length in El as [_ El]. destruct (handle_command _ _) as [[s w]|]; simpl in E; [|done].
  destruct (run_lines b w) as [[[r' o] w']|] eqn:Eb; simpl in E; simplify_eq.
  eapply IH; [|exact Eb]. lia.
Qed.

(** *** Specification: the lines of the input, one after the other *)

(** The complete lines of a text and the unfinished one. *)
Fixpoint cut_lines (s : string) : list string * string :=
  match s with
  | "" => ([], "")
  | String c r =>
      let '(ls, rest) := cut_lines r in
      if byte_eqb c nl then ("" :: ls, rest)
      else match ls with
           | [] => ([], String c rest)
           | l :: ls => (String c l :: ls, rest)
           end
  end.

(** Each line is a command, run once, in order; the answers. *)
Fixpoint run_each (lines : list string) wd : option (list string * World NB) :=
  match lines with
  | [] => Some ([], wd)
  | l :: lines =>
      '(s, wd) ← handle_command (trim (from_utf8_lossy l)) wd;
      '(ss, wd) ← run_each lines wd;
      Some (s :: ss, wd)
  end.

(** What a connection that got [text] has answered and keeps. *)
Definition answers_to (text : string) wd : option (string * string * World NB) :=
  '(ss, wd) ← run_each (cut_lines text).1 wd; Some ((cut_lines text).2, text_of (frame <$> ss), wd).

(** No wake-up brings what is outstanding - the unfinished line and what it reads - over
    the limit of the buffer. *)
Fixpoint within_limit (buf : string) (batches : list (list string)) : Prop :=
  match batches with
  | [] => True
  | cs :: batches =>
      String.length buf + String.length (text_of cs) <= MAX_BUFFER /\
      within_limit (cut_lines (buf +:+ text_of cs)).2 batches
  end.

Lemma cut_lines_cons l r : has_byte nl l = false ->
  cut_lines (l +:+ String nl r) = (l :: (cut_lines r).1, (cut_lines r).2).
Proof.
  induction l as [|c l IH]; intros H; cbn [String.append cut_lines].
  - rewrite byte_eqb_refl. by destruct (cut_lines r).
  - cbn [has_byte] in H. apply orb_false_iff in H as [Hc H]. rewrite IH by done. by rewrite Hc.
Qed.
Lemma cut_lines_none s : split_once nl s = None -> cut_lines s = ([], s).
Proof.
  induction s as [|c s IH]; [done|]. cbn [split_once cut_lines]. destruct (byte_eqb c nl); [done|].
  destruct (split_once nl s) as [[? ?]|]; [done|]. intros _. by rewrite IH.
Qed.

Lemma run_lines_spec n : forall buf wd, String.length buf < n -> run_lines buf wd = answers_to buf wd.
Proof.
  induction n as [|n IH]; intros buf wd Hn; [lia|]. rewrite run_lines_eq. unfold answers_to.
  destruct (next_line buf) as [[l r]|] eqn:E.
  - apply next_line_length in E as H. destruct H as [-> Hl]. apply split_once_Some in E as [_ E].
    rewrite cut_lines_cons by done. cbn [fst snd run_each].
    destruct (handle_command _ _) as [[s w]|]; simpl; [|done]. rewrite IH by lia. unfold answers_to.
    by destruct (run_each _ w) as [[ss w']|].
  - by rewrite cut_lines_none.
Qed.

Lemma serve_batches batches : forall buf wd,
  next_line buf = None -> within_limit buf batches ->
  serve (batch <$> batches) (Some buf) wd =
  '(rest, out, wd) ← run_lines (buf +:+ text_of (text_of <$> batches)) wd;
  Some (Some rest, out, wd).
Proof.
  induction batches as [|cs batches IH]; intros buf wd Hn Hlen.
  - cbn [fmap list_fmap text_of foldr Socket.serve]. rewrite str_app_nil_r, run_lines_eq, Hn. done.
  - cbn [fmap list_fmap text_of foldr] in *. destruct Hlen as [Hlen Hrest].
    change (foldr String.append "" (text_of <$> batches)) with (text_of (text_of <$> batches)) in *.
    cbn [Socket.serve Socket.on_readable]. unfold Socket.on_readable.
    rewrite drain_batch by lia.
    change (process_lines (S (String.length (buf +:+ text_of cs))) (buf +:+ text_of cs) wd)
      with (run_lines (buf +:+ text_of cs) wd).
    rewrite <- str_app_assoc,
      (run_lines_app _ (buf +:+ text_of cs) (text_of (text_of <$> batches)) wd (Nat.lt_succ_diag_r _)).
    destruct (run_lines (buf +:+ text_of cs) wd) as [[[r o] w]|] eqn:E; simpl; [|done].
    rewrite IH.
    + destruct (run_lines _ w) as [[[r' o'] w']|]; done.
    + eapply run_lines_done; [|exact E]. apply Nat.lt_succ_diag_r.
    + rewrite (run_lines_spec _ _ _ (Nat.lt_succ_diag_r _)) in E. unfold answers_to in E.
      destruct (run_each _ wd) as [[ss w']|]; simpl in E; [|done]. by injection E as <- _ _.
Qed.

Lemma serve_app l1 l2 : forall conn wd,
  serve (l1 ++ l2) conn wd =
  '(conn, out, wd) ← serve l1 conn wd; '(conn, out', wd) ← serve l2 conn wd; Some (conn, out +:+ out', wd).
Proof.
  induction l1 as [|b l1 IH]; intros conn wd; cbn [app Socket.serve mbind option_bind].
  - by destruct (serve l2 conn wd) as [[[? ?] ?]|].
  - destruct (on_readable b conn wd) as [[[c o] w]|]; simpl; [|done]. rewrite IH.
    destruct (serve l1 c w) as [[[c' o'] w']|]; simpl; [|done].
    destruct (serve l2 c' w') as [[[c'' o''] w'']|]; simpl; [|done]. by rewrite str_app_assoc.
Qed.

(** A wake-up that sees the end of the stream drops what it has read. *)
Lemma drain_eof last : forall buf, drain ((Chunk <$> last) ++ [Eof]) buf = None.
Proof.
  induction last as [|c l IH]; intros buf; [reflexivity|]. cbn [fmap list_fmap app drain].
  destruct (decide _); [reflexivity|]. apply IH.
Qed.
End framing.

(** C29: the answers a client gets and their effects depend on the bytes it sends
    only, not on how they arrive, up to the end of the stream.  However the input is
    cut into reads and wake-ups, as long as no wake-up leaves more than a mebibyte
    outstanding, the complete lines of the whole input ([cut_lines]) are run as
    commands, each once and in order, the stream is given their answers in that
    order, and the unfinished last line is kept.  The wake-up that sees the end of the
    stream answers nothing any more: the lines it read just before are dropped with
    the connection. *)
Theorem serve_chunk_independent {NB} `{NotebookOps NB} ord ver get_url read_text debug json now fp ur
    batches last (wd : World NB) :
  within_limit "" batches ->
  let serve := serve ord ver get_url read_text debug json now fp ur in
  let '(lines, rest) := cut_lines (text_of (text_of <$> batches)) in
  let ran := run_each ord ver get_url read_text debug json now fp ur lines wd in
  serve (batch <$> batches) (Some "") wd =
    ('(answers, wd') ← ran; Some (Some rest, text_of (frame <$> answers), wd')) /\
  serve ((batch <$> batches) ++ [(Chunk <$> last) ++ [Eof]]) (Some "") wd =
    ('(answers, wd') ← ran; Some (None, text_of (frame <$> answers), wd')).
Proof.
  intros Hlen serve'. subst serve'. set (text := text_of (text_of <$> batches)).
  assert (Socket.serve ord ver get_url read_text debug json now fp ur (batch <$> batches) (Some "") wd =
    '(answers, wd') ← run_each ord ver get_url read_text debug json now fp ur (cut_lines text).1 wd;
    Some (Some (cut_lines text).2, text_of (frame <$> answers), wd')) as E.
  { rewrite serve_batches; [|reflexivity|exact Hlen]. cbn [String.append]. rewrite (run_lines_spec _ _ _ _ _ _ _ _ _ _ _ _ (Nat.lt_succ_diag_r _)).
    unfold answers_to. by destruct (run_each _ _ _ _ _ _ _ _ _ _ wd) as [[ss w]|]. }
  rewrite serve_app, E. destruct (cut_lines text) as [lines rest]. cbn [fst snd].
  destruct (run_each _ _ _ _ _ _ _ _ _ lines wd) as [[ss w]|]; simpl; [|done]. split; [done|].
  unfold Socket.on_readable. rewrite drain_eof. simpl. by rewrite str_app_nil_r.
Qed.

Definition crlf_client : list (list string) := [["pi"; "ng" +:+ String nl "workspace_"]; ["count" +:+ String nl "p"]].
Lemma serve_chunk_independent_witness :
  exists wd, serve key_order "0" no_text no_text (fun s => s) (fun _ => "") 0 None (fun _ => None)
    (batch <$> crlf_client) (Some "") demo_world =
  Some (Some "p", "OK pong" +:+ String nl ("OK 2" +:+ String nl ""), wd).
Proof.
  exists demo_world.
  destruct (serve_chunk_independent key_order "0" no_text no_text (fun s => s) (fun _ => "") 0 None
    (fun _ => None) crlf_client [] demo_world) as [E _].
  { split; [apply Nat.leb_le; vm_compute; reflexivity|]. split; [apply Nat.leb_le; vm_compute; reflexivity|exact I]. }
  rewrite E. vm_compute. reflexivity.
Defined.

(** End of file arriving together with the last commands discards them: the
    callback leaves at end of file before it looks at the buffer, so a client that
    writes a command and closes its side at once can be ignored. *)
Theorem eof_discards_commands {NB} `{NotebookOps NB} ord ver get_url read_text debug json now fp ur
    text (wd : World NB) :
  serve ord ver get_url read_text debug json now fp ur [[Chunk text; Eof]] (Some "") wd =
  Some (None, "", wd).
Proof.
  cbn [serve on_readable drain]. unfold on_readable. cbn [drain].
  destruct (decide (MAX_BUFFER < String.length ("" +:+ text))); done.
Qed.
