(* ===== verification/Cli.v ===== *)
(** * The command line client (cli/src)

    The subcommands, the request line each sends and the decoding of the answer.
    Argument parsing (clap) is not modelled; [show_f64] prints a floating-point
    argument. *)

From Stdlib Require Import Ascii.
From S2P Require Import Prelude F64 SplitTree SplitTreeRefine RustStr RustNum RemoteConfig Workspace Surfaces Notebook Window WindowTabs WindowOk WindowProps WindowLife WindowClaims Session Socket SocketProps.
Open Scope string_scope.
Open Scope list_scope.

(** ** Subcommands *)

Inductive WorkspaceCmd :=
  | CNewWorkspace | CWorkspaceCount | CListWorkspaces
  | CWorkspaceSetColor (id : Z) (color : string)
  | CWorkspacePin (id : Z)
  | CSelectWorkspace (id : Z)
  | CCloseWorkspace (id : option Z)
  | CCurrentWorkspace
  | CListPanes (id : option Z)
  | CFocusPane (id : Z)
  | CRenameWorkspace (id : Z) (name : string)
  | CToggleSidebar.

Inductive SplitCmd := CSplitRight | CSplitDown.

Inductive BrowserCmd :=
  | COpenBrowser (url : string)
  | CNavigate (browser_id : Z) (url : string)
  | CBrowserBack (browser_id : Z)
  | CBrowserForward (browser_id : Z)
  | CBrowserReload (browser_id : Z)
  | CGetUrl (browser_id : Z)
  | CJsEval (browser_id : Z) (script : string).

Inductive MetadataCmd :=
  | CSetStatus (key value : string) (icon color : option string) (priority : option Z)
  | CClearStatus (key : string)
  | CSetProgress (value : f64) (label : option string)
  | CClearProgress
  | CLog (message level : string)
  | CClearLog | CNotifyEnable | CNotifyDisable | CNotifyStatus.

Inductive RemoteCmd :=
  | CRemoteConnect (destination : string) (port : option Z) (identity : option string)
      (ssh_option : list string) (command : option string)
  | CRemoteDisconnect (workspace_id : option Z) (clear : bool)
  | CRemoteReconnect (workspace_id : option Z)
  | CRemoteStatus (workspace_id : option Z).

Inductive TerminalCmd :=
  | CSend (surface_id : Z) (text : string)
  | CReadScreen (surface_id : Z).

Inductive CliCommand :=
  | CPing | CVersion | CListSurfaces
  | CWorkspace (c : WorkspaceCmd) | CSplit (c : SplitCmd) | CBrowser (c : BrowserCmd)
  | CMetadata (c : MetadataCmd) | CRemote (c : RemoteCmd) | CTerminal (c : TerminalCmd).

(** [i32::to_string]. *)
Definition show_int (z : Z) : string := if (z <? 0)%Z then "-" +:+ show_uint (- z) else show_uint z.

(** A command followed by an identifier. *)
Definition cmd_id (cmd : string) (id : Z) : string := cmd +:+ " " +:+ show_uint id.
Definition cmd_opt_id (cmd : string) (id : option Z) : string :=
  match id with Some id => cmd_id cmd id | None => cmd end.
Definition flag (name : string) (v : option string) : string :=
  match v with Some v => " --" +:+ name +:+ "=" +:+ v | None => "" end.

Definition workspace_line (c : WorkspaceCmd) : string :=
  match c with
  | CNewWorkspace => "new_workspace"
  | CWorkspaceCount => "workspace_count"
  | CListWorkspaces => "list_workspaces"
  | CWorkspaceSetColor id color => cmd_id "workspace_set_color" id +:+ " " +:+ color
  | CWorkspacePin id => cmd_id "workspace_pin" id
  | CSelectWorkspace id => cmd_id "select_workspace" id
  | CCloseWorkspace id => cmd_opt_id "close_workspace" id
  | CCurrentWorkspace => "current_workspace"
  | CListPanes id => cmd_opt_id "list_panes" id
  | CFocusPane id => cmd_id "focus_pane" id
  | CRenameWorkspace id name => cmd_id "rename_workspace" id +:+ " " +:+ name
  | CToggleSidebar => "toggle_sidebar"
  end.

Definition split_line (c : SplitCmd) : string :=
  match c with CSplitRight => "split_right" | CSplitDown => "split_down" end.

Definition browser_line (c : BrowserCmd) : string :=
  match c with
  | COpenBrowser url => "open_browser " +:+ url
  | CNavigate id url => cmd_id "navigate" id +:+ " " +:+ url
  | CBrowserBack id => cmd_id "browser_back" id
  | CBrowserForward id => cmd_id "browser_forward" id
  | CBrowserReload id => cmd_id "browser_reload" id
  | CGetUrl id => cmd_id "get_url" id
  | CJsEval id script => cmd_id "js_eval" id +:+ " " +:+ script
  end.

Definition metadata_line (show_f64 : f64 -> string) (c : MetadataCmd) : string :=
  match c with
  | CSetStatus key value icon color priority =>
      "set_status " +:+ key +:+ " " +:+ value +:+ flag "icon" icon +:+ flag "color" color +:+
      flag "priority" (show_int <$> priority)
  | CClearStatus key => "clear_status " +:+ key
  | CSetProgress value label => "set_progress " +:+ show_f64 value +:+ flag "label" label
  | CClearProgress => "clear_progress"
  | CLog message level => "log " +:+ message +:+ " --level=" +:+ level
  | CClearLog => "clear_log"
  | CNotifyEnable => "notify_enable"
  | CNotifyDisable => "notify_disable"
  | CNotifyStatus => "notify_status"
  end.

Definition remote_line (c : RemoteCmd) : string :=
  match c with
  | CRemoteConnect destination port identity ssh_option command =>
      "remote_connect " +:+ destination +:+ flag "port" (show_uint <$> port) +:+
      flag "identity" identity +:+
      foldr (fun o s => flag "ssh-option" (Some o) +:+ s) "" ssh_option +:+
      flag "command" command
  | CRemoteDisconnect id clear =>
      cmd_opt_id "remote_disconnect" id +:+ (if clear then " --clear" else "")
  | CRemoteReconnect id => cmd_opt_id "remote_reconnect" id
  | CRemoteStatus id => cmd_opt_id "remote_status" id
  end.

Definition terminal_line (c : TerminalCmd) : string :=
  match c with
  | CSend id text => cmd_id "send" id +:+ " " +:+ text
  | CReadScreen id => cmd_id "read_screen" id
  end.

Definition command_line (show_f64 : f64 -> string) (c : CliCommand) : string :=
  match c with
  | CPing => "ping"
  | CVersion => "version"
  | CListSurfaces => "list_surfaces"
  | CWorkspace c => workspace_line c
  | CSplit c => split_line c
  | CBrowser c => browser_line c
  | CMetadata c => metadata_line show_f64 c
  | CRemote c => remote_line c
  | CTerminal c => terminal_line c
  end.

(** ** Decoding the answer *)

(** [read_line]: up to the line feed, and what follows. *)
Definition read_line (stream : string) : string * string :=
  match split_once nl stream with
  | Some (l, r) => (l +:+ String nl "", r)
  | None => (stream, "")
  end.

(** What [send_command] makes of the bytes the server sends; [read_error] and
    [body_error] are the messages of a failing read. *)
Definition decode_response (read_error body_error : string) (stream : string) : string + string :=
  let '(line, rest) := read_line stream in
  if negb (valid_utf8 line) then inr read_error
  else
    let line := trim_end line in
    match strip_prefix "OK+" line with
    | Some len_str =>
        match parse_uint u64_max len_str with
        | None => inr ("Invalid length in response: " +:+ len_str)
        | Some len =>
            if (Z.of_nat (String.length rest) <? len)%Z then inr body_error
            else inl (from_utf8_lossy (take_bytes (Z.to_nat len) rest))
        end
    | None =>
        match strip_prefix "OK" line with
        | Some data => inl (trim_start data)
        | None =>
            match strip_prefix "ERROR: " line with
            | Some msg => inr msg
            | None => inr ("Unexpected response: " +:+ line)
            end
        end
    end.

(** ** Decoding inverts the framing *)

Lemma show_uint_ascii n : ascii_only (show_uint n) = true.
Proof.
  pose proof (show_uint_digits n) as H. revert H. generalize 0%Z. generalize (show_uint n).
  intros s. induction s as [|c s IH]; intros a H; simpl in *; [done|].
  destruct (digit_val c) as [d|] eqn:Ec; simpl in H; [|done]. rewrite (IH _ H), andb_true_r.
  apply bool_decide_eq_true. unfold digit_val in Ec. case_bool_decide; [lia|done].
Qed.

(** Texts of digits are not trimmed. *)
Lemma show_uint_last n : exists p c, show_uint n = p +:+ String c "" /\ graphic c.
Proof.
  pose proof (show_uint_digits n) as H. pose proof (show_uint_nonempty n) as Hne. revert H Hne.
  generalize 0%Z. generalize (show_uint n).
  intros s. induction s as [|c s IH]; intros a H Hne; simpl in *; [done|].
  destruct (digit_val c) as [d|] eqn:Ec; simpl in H; [|done].
  destruct s as [|c' s].
  - exists "", c. split; [done|]. unfold digit_val in Ec. unfold graphic. case_bool_decide; [lia|done].
  - destruct (IH _ H ltac:(done)) as (p & x & -> & Hx). by exists (String c p), x.
Qed.

Lemma trim_end_digits p n : trim_end (p +:+ show_uint n) = p +:+ show_uint n.
Proof.
  destruct (show_uint_last n) as (q & c & -> & Hc).
  rewrite <- str_app_assoc. by apply trim_end_last.
Qed.

Lemma valid_ascii s : ascii_only s = true -> valid_utf8 s = true.
Proof. intros H. by rewrite <- (str_app_nil_r s), valid_utf8_ascii_app. Qed.
Lemma ascii_only_app a b : ascii_only (a +:+ b) = ascii_only a && ascii_only b.
Proof. induction a as [|c a IH]; simpl; [done|]. by rewrite IH, andb_assoc. Qed.

Lemma starts_with_app p s : starts_with p (p +:+ s) = true.
Proof. unfold starts_with. rewrite strip_prefix_app. by apply bool_decide_eq_true. Qed.

Lemma decode_multi_line re be text more :
  valid_utf8 text = true -> (Z.of_nat (String.length text) <= u64_max)%Z ->
  decode_response re be (frame (multi_line text) +:+ more) = inl text.
Proof.
  intros Hv Hl. unfold frame, multi_line. rewrite starts_with_app, !str_app_assoc.
  unfold decode_response, read_line, len_str. set (n := Z.of_nat (String.length text)) in *.
  replace ("OK+" +:+ show_uint n +:+ String nl text +:+ more)
    with (("OK+" +:+ show_uint n) +:+ String nl (text +:+ more)) by (by rewrite str_app_assoc).
  rewrite split_once_app by (simpl; by apply show_uint_no_byte).
  rewrite trim_end_nl, trim_end_digits, strip_prefix_app, parse_show_uint by lia.
  rewrite (valid_ascii (("OK+" +:+ show_uint n) +:+ String nl "")).
  2: { rewrite !ascii_only_app, show_uint_ascii. done. }
  simpl. rewrite (proj2 (Z.ltb_ge _ _)) by (rewrite str_length_app; lia).
  unfold n. rewrite Nat2Z.id, take_bytes_app. by rewrite from_utf8_lossy_valid.
Qed.

(** A text the command line hands over unchanged: valid, on one line, not empty
    and without white space at its end. *)
Definition plain (s : string) : bool :=
  valid_utf8 s && negb (has_byte nl s) && String.eqb (trim_end s) s && negb (String.eqb s "").

Lemma plain_spec s :
  plain s = true -> valid_utf8 s = true /\ has_byte nl s = false /\ trim_end s = s /\ s <> "".
Proof.
  unfold plain. intros [[[Hv Hn%negb_true_iff]%andb_prop Ht%String.eqb_eq]%andb_prop
    Hne%negb_true_iff%String.eqb_neq]%andb_prop. done.
Qed.

Lemma decode_line re be p m more :
  ascii_only p = true -> strip_prefix "OK+" (p +:+ String " " m) = None ->
  starts_with "OK+" (p +:+ String " " m) = false -> has_byte nl p = false -> plain m = true ->
  decode_response re be (frame (p +:+ String " " m) +:+ more) =
  match strip_prefix "OK" (p +:+ String " " m) with
  | Some data => inl (trim_start data)
  | None => match strip_prefix "ERROR: " (p +:+ String " " m) with
            | Some msg => inr msg
            | None => inr ("Unexpected response: " +:+ p +:+ String " " m)
            end
  end.
Proof.
  intros Hp Ho Hs Hpn (Hv & Hn & Ht & Hne)%plain_spec. unfold frame. rewrite Hs.
  unfold decode_response, read_line. rewrite !str_app_assoc.
  replace (p +:+ String " " m +:+ String nl "" +:+ more)
    with ((p +:+ String " " m) +:+ String nl more) by (by rewrite str_app_assoc).
  rewrite split_once_app by (by rewrite has_byte_app, Hpn).
  rewrite trim_end_nl, trim_end_word by done. rewrite str_app_assoc, valid_utf8_ascii_app by done.
  change (String " " m +:+ String nl "") with (" " +:+ (m +:+ String nl "")).
  rewrite valid_utf8_ascii_app, (valid_utf8_app m) by done. cbn [negb]. by rewrite Ho.
Qed.

(** What the application answers is what the client reports: the client's
    decoding inverts the server's framing.  A result on one line is returned as
    data, a text of any number of lines arrives whole whatever follows it on the
    stream, and the message of an error becomes the client's error. *)
Theorem responses_decodable re be more :
  decode_response re be (frame "OK" +:+ more) = inl "" /\
  (forall d, plain d = true ->
     decode_response re be (frame ("OK " +:+ d) +:+ more) = inl (trim_start d) /\
     decode_response re be (frame ("ERROR: " +:+ d) +:+ more) = inr d) /\
  (forall text, valid_utf8 text = true -> (Z.of_nat (String.length text) <= u64_max)%Z ->
     decode_response re be (frame (multi_line text) +:+ more) = inl text).
Proof.
  split_and!.
  - unfold frame, decode_response, read_line. simpl. reflexivity.
  - intros d Hd. split.
    + change ("OK " +:+ d) with ("OK" +:+ String " " d). by rewrite decode_line.
    + change ("ERROR: " +:+ d) with ("ERROR:" +:+ String " " d). by rewrite decode_line.
  - intros text. apply decode_multi_line.
Qed.

Lemma responses_decodable_witness :
  plain "disk full" = true /\
  decode_response "" "" (frame ("ERROR: " +:+ "disk full") +:+ "") = inr "disk full".
Proof.
  split; [by vm_compute|].
  by apply (proj1 (proj2 (responses_decodable "" "" "")) "disk full").
Defined.

(** ** Options *)

Lemma word_spec w : word w = true -> ascii_only w = true /\ has_byte nl w = false /\ has_byte " " w = false.
Proof.
  induction w as [|c w IH]; [done|]. intros [Hc H]%word_cons. destruct (IH H) as (H1 & H2 & H3).
  unfold graphic in Hc. cbn [ascii_only has_byte]. rewrite H1, H2, H3. split_and!.
  - rewrite andb_true_r. apply bool_decide_eq_true. lia.
  - rewrite orb_false_r. apply not_true_iff_false. intros ->%byte_eqb_eq. vm_compute in Hc. by destruct Hc as [Hc _].
  - rewrite orb_false_r. apply not_true_iff_false. intros ->%byte_eqb_eq. vm_compute in Hc. by destruct Hc as [Hc _].
Qed.

(** A word of printable ASCII that the option parser of the server takes as it is. *)
Definition value_word (s : string) : bool := word s && negb (String.eqb s "").
Definition positional_word (s : string) : bool := value_word s && negb (starts_with "--" s).
Definition value_word_opt (v : option string) : bool := match v with Some v => word v | None => true end.

Lemma value_word_spec s : value_word s = true -> word s = true /\ s <> "".
Proof. unfold value_word. by intros [? ?%negb_true_iff%String.eqb_neq]%andb_prop. Qed.

Definition spaced (l : list string) : string := foldr (fun w s => " " +:+ w +:+ s) "" l.
Lemma join_spaced w l : join " " (w :: l) = w +:+ spaced l.
Proof.
  revert w. induction l as [|x l IH]; intros w; [by rewrite str_app_nil_r|].
  change (join " " (w :: x :: l)) with (w +:+ " " +:+ join " " (x :: l)). by rewrite IH.
Qed.
Lemma spaced_app a b : spaced (a ++ b) = spaced a +:+ spaced b.
Proof. induction a as [|x a IH]; [done|]. simpl. rewrite IH. by rewrite !str_app_assoc. Qed.

Lemma split_join l : Forall (fun w => value_word w = true) l -> split_whitespace (join " " l) = l.
Proof.
  induction 1 as [|w l Hw Hl IH]; [done|]. destruct (value_word_spec w Hw) as [Hww Hne].
  destruct l as [|x l]; [by apply split_whitespace_word|].
  change (join " " (w :: x :: l)) with (w +:+ String " " (join " " (x :: l))).
  by rewrite split_whitespace_cons, IH.
Qed.

Lemma word_plain w : value_word w = true -> plain w = true.
Proof.
  intros [Hw Hne]%value_word_spec. destruct (word_spec w Hw) as (Ha & Hn & _). unfold plain.
  rewrite (valid_ascii w Ha), Hn. apply String.eqb_neq in Hne as ->. pose proof (trim_word w Hw) as E.
  unfold trim in E. destruct w as [|c w]; [done|]. apply word_cons in Hw as [Hc _].
  rewrite trim_start_graphic in E by done. rewrite E. by rewrite String.eqb_refl.
Qed.

(** The words of an option. *)
Definition flag_word (name : string) (v : option string) : list string :=
  match v with Some v => ["--" +:+ name +:+ "=" +:+ v] | None => [] end.
Lemma flag_spaced name v : flag name v = spaced (flag_word name v).
Proof. destruct v; [|done]. simpl. by rewrite str_app_nil_r. Qed.
Lemma flag_word_ok name v : word name = true -> value_word_opt v = true ->
  Forall (fun w => value_word w = true) (flag_word name v).
Proof.
  intros Hn Hv. destruct v as [v|]; [|done]. repeat constructor. unfold value_word.
  rewrite !word_app, Hn. simpl in Hv. by rewrite Hv.
Qed.

Definition opt_step (po : ParsedOpts) (part : string) : ParsedOpts :=
  match strip_prefix "--" part with
  | Some kv =>
      match split_once "=" kv with
      | Some (k, v) => mkOpts (positional po) (<[k := v]> (opts po))
      | None => po
      end
  | None => mkOpts (positional po ++ [part]) (opts po)
  end.
Definition opt_insert (name : string) (v : option string) (m : gmap string string) : gmap string string :=
  match v with Some v => <[name := v]> m | None => m end.

Lemma opts_positional l : forall po, Forall (fun w => positional_word w = true) l ->
  foldl opt_step po l = mkOpts (positional po ++ l) (opts po).
Proof.
  induction l as [|w l IH]; intros po H; [by rewrite app_nil_r; destruct po|].
  apply Forall_cons in H as [[_ Hw%negb_true_iff]%andb_prop H]. cbn [foldl]. rewrite IH by done.
  unfold opt_step at 1 2. unfold starts_with in Hw. apply bool_decide_eq_false in Hw.
  destruct (strip_prefix "--" w); [destruct Hw; eauto|]. simpl. by rewrite <- app_assoc.
Qed.
Lemma opts_flag name v po : has_byte "=" name = false ->
  foldl opt_step po (flag_word name v) = mkOpts (positional po) (opt_insert name v (opts po)).
Proof.
  intros H. destruct v as [v|]; [|by destruct po]. cbn [flag_word foldl]. unfold opt_step.
  rewrite strip_prefix_app. change ("=" +:+ v) with (String "=" v). by rewrite split_once_app.
Qed.

Lemma opt_insert_eq name v m : m !! name = None -> opt_insert name v m !! name = v.
Proof. destruct v; [intros _; apply lookup_insert_eq|done]. Qed.
Lemma opt_insert_ne name name' v m : name <> name' -> opt_insert name v m !! name' = m !! name'.
Proof. intros H. destruct v; [by apply lookup_insert_ne|done]. Qed.
Lemma opt_insert_none name v : opt_insert name v ∅ !! name = v.
Proof. by apply opt_insert_eq. Qed.
Ltac found_opt := repeat first [rewrite opt_insert_none|rewrite opt_insert_ne by done|rewrite opt_insert_eq by (repeat (rewrite opt_insert_ne by done); done)].

(** What the server finds in the words of a command line. *)
Lemma parse_opts_words l : Forall (fun w => value_word w = true) l ->
  parse_opts (join " " l) = foldl opt_step (mkOpts [] ∅) l.
Proof. intros H. unfold parse_opts. by rewrite split_join. Qed.

Lemma positional_value l : Forall (fun w => positional_word w = true) l -> Forall (fun w => value_word w = true) l.
Proof. intros H. eapply Forall_impl; [exact H|]. by intros w [? _]%andb_prop. Qed.

Definition i32 (n : Z) : Prop := (-2147483648 <= n <= 2147483647)%Z.
Lemma word_int n : word (show_int n) = true.
Proof. unfold show_int. destruct (n <? 0)%Z; [|apply word_uint]. rewrite word_app, word_uint. done. Qed.
Lemma parse_show_int n : i32 n -> parse_i32 (show_int n) = Some n.
Proof.
  unfold i32, show_int. intros Hn. destruct (Z.ltb_spec n 0).
  - change ("-" +:+ show_uint (- n)) with (String "-" (show_uint (- n))). cbn [parse_i32].
    rewrite byte_eqb_refl. pose proof (show_uint_nonempty (- n)) as Hne. destruct (show_uint (- n)) as [|c r] eqn:E; [done|].
    rewrite <- E. pose proof (parse_show_uint 2147483648 (- n) ltac:(lia)) as Hp. rewrite E in Hp.
    pose proof (show_uint_no_byte "+" (- n) eq_refl) as Hb. rewrite E in Hb. cbn [has_byte] in Hb.
    apply orb_false_iff in Hb as [Hb _]. unfold parse_uint in Hp. rewrite Hb in Hp. rewrite E.
    destruct (parse_digits 0 (String c r)) as [m|]; simpl in *; [|done].
    case_bool_decide; simplify_eq. f_equal. lia.
  - pose proof (show_uint_nonempty n) as Hne. pose proof (show_uint_no_byte "-" n eq_refl) as Hb.
    pose proof (parse_show_uint 2147483647 n ltac:(lia)) as Hp.
    destruct (show_uint n) as [|c r] eqn:E; [done|]. cbn [has_byte] in Hb.
    apply orb_false_iff in Hb as [Hb _]. cbn [parse_i32]. by rewrite Hb.
Qed.

(** ** Requests *)

Section requests.
Context {NB : Type} `{!NotebookOps NB}.
Context (ord : gmap Z Pane -> list PaneId).
Context (pkg_version : string) (get_url : BrowserPanelId -> option string).
Context (read_text : Z -> option string) (debug_str : string -> string).
Context (status_json : StatusInfo -> string).
Context (now : Z) (free_port : option Z) (urandom : nat -> option string).
Context (show_f64 : f64 -> string).
Implicit Types (wd : World NB).

Local Abbreviation run_command := (run_command ord pkg_version get_url read_text debug_str status_json
  now free_port urandom).
Local Abbreviation handle_command := (handle_command ord pkg_version get_url read_text debug_str
  status_json now free_port urandom).
Local Abbreviation process_lines := (process_lines ord pkg_version get_url read_text debug_str
  status_json now free_port urandom).

(** What the server does with one line. *)
Definition request (line : string) wd : option (string * string * World NB) :=
  let buf := line +:+ String nl "" in process_lines (S (String.length buf)) buf wd.

(** The outcome of a request that is answered with [r]. *)
Definition answered (r : option (string * World NB)) : option (string * string * World NB) :=
  '(s, wd) ← r; Some ("", frame s, wd).

Lemma request_eq line wd :
  has_byte nl line = false ->
  request line wd = answered (handle_command (trim (from_utf8_lossy line)) wd).
Proof.
  intros Hn. unfold request, answered. cbn [Socket.process_lines]. unfold next_line.
  rewrite split_once_app by done. destruct (handle_command _ _) as [[s w]|]; simpl; [|done].
  destruct (String.length _); simpl; by rewrite str_app_nil_r.
Qed.

(** The names of the commands are words of printable ASCII. *)
Definition cmd_word (s : string) : bool :=
  ascii_only s && negb (has_byte " " s) && negb (has_byte nl s) &&
  match s with String c _ => bool_decide (33 <= N_of_ascii c <= 126)%N | "" => false end &&
  String.eqb (trim_end s) s.

Lemma command_words cmd c : command_of cmd = Some c -> cmd_word cmd = true.
Proof.
  assert (forallb (fun kv => cmd_word kv.1) command_table = true) as H by (vm_compute; done).
  unfold command_of. intros E. destruct (List.find _ _) as [[k v]|] eqn:F; [|done].
  apply find_some in F as [Hin Hk%String.eqb_eq]. simpl in Hk. subst.
  by apply (proj1 (forallb_forall _ _) H _ Hin).
Qed.

Lemma cmd_word_spec cmd :
  cmd_word cmd = true ->
  ascii_only cmd = true /\ has_byte " " cmd = false /\ has_byte nl cmd = false /\
  trim_end cmd = cmd /\ forall s, trim_start (cmd +:+ s) = cmd +:+ s.
Proof.
  unfold cmd_word. intros [[[[Ha Hs%negb_true_iff]%andb_prop Hn%negb_true_iff]%andb_prop
    Hg]%andb_prop Ht%String.eqb_eq]%andb_prop. split_and!; try done.
  destruct cmd as [|a r]; [done|]. apply bool_decide_eq_true in Hg.
  intros s. by apply trim_start_graphic.
Qed.

(** A bare command. *)
Lemma request_bare cmd c wd :
  command_of cmd = Some c -> request cmd wd = answered (run_command c "" wd).
Proof.
  intros Hc. destruct (cmd_word_spec cmd (command_words _ _ Hc)) as (Ha & Hs & Hn & Ht & Hg).
  rewrite request_eq by done. rewrite from_utf8_lossy_valid by (by apply valid_ascii).
  unfold trim. specialize (Hg ""). rewrite str_app_nil_r in Hg. rewrite Hg, Ht.
  unfold Socket.handle_command, splitn2. by rewrite split_once_None, Hc.
Qed.

(** A command with a text. *)
Lemma request_args cmd c args wd :
  command_of cmd = Some c -> plain args = true ->
  request (cmd +:+ String " " args) wd = answered (run_command c args wd).
Proof.
  intros Hc (Hv & Han & Hat & Hne)%plain_spec.
  destruct (cmd_word_spec cmd (command_words _ _ Hc)) as (Ha & Hs & Hn & Ht & Hg).
  rewrite request_eq by (rewrite has_byte_app, Hn; done).
  rewrite from_utf8_lossy_valid by (rewrite valid_utf8_ascii_app by done; change (String " " args) with (" " +:+ args); by rewrite valid_utf8_ascii_app).
  unfold trim. rewrite Hg, trim_end_word by done.
  unfold Socket.handle_command, splitn2. by rewrite split_once_app, Hc.
Qed.

Lemma plain_uint n : plain (show_uint n) = true.
Proof.
  unfold plain. rewrite (valid_ascii _ (show_uint_ascii n)), show_uint_no_byte by done.
  pose proof (trim_end_digits "" n) as H. simpl in H. rewrite H, String.eqb_refl.
  simpl. apply negb_true_iff, String.eqb_neq, show_uint_nonempty.
Qed.
Lemma plain_after p s : plain p = true -> plain s = true -> plain (p +:+ String " " s) = true.
Proof.
  intros (Hv & Hn & _ & _)%plain_spec (Hv' & Hn' & Ht & Hne)%plain_spec. unfold plain.
  rewrite valid_utf8_app, has_byte_app, Hn; [|done|change (String " " s) with (" " +:+ s); by rewrite valid_utf8_ascii_app].
  rewrite trim_end_word, String.eqb_refl by done. simpl. rewrite Hn'. by destruct p.
Qed.

Definition u32 (n : Z) : Prop := (0 <= n <= u32_max)%Z.

Lemma arg_uint n : u32 n -> parse_u32_arg (show_uint n) = Some n.
Proof. intros H. unfold parse_u32_arg. rewrite trim_show_uint. by apply parse_show_uint. Qed.

(** Identifiers, alone and before a text. *)
Lemma request_uint cmd c id wd :
  command_of cmd = Some c -> request (cmd_id cmd id) wd = answered (run_command c (show_uint id) wd).
Proof.
  intros Hc. unfold cmd_id. change (" " +:+ show_uint id) with (String " " (show_uint id)).
  by rewrite (request_args cmd c) by (done || apply plain_uint).
Qed.
Lemma request_id cmd c id name k wd :
  command_of cmd = Some c -> u32 id ->
  (forall args, run_command c args wd = with_id name args wd k) ->
  request (cmd_id cmd id) wd = answered (k id).
Proof.
  intros Hc Hid Hk. rewrite (request_uint cmd c), Hk by done. unfold with_id. by rewrite arg_uint.
Qed.
Lemma request_id_rest cmd c id text usage name k wd :
  command_of cmd = Some c -> u32 id -> plain text = true ->
  (forall args, run_command c args wd = with_id_rest usage name args wd k) ->
  request (cmd_id cmd id +:+ " " +:+ text) wd = answered (k id text).
Proof.
  intros Hc Hid Ht Hk. unfold cmd_id. rewrite !str_app_assoc.
  change (" " +:+ show_uint id +:+ " " +:+ text)
    with (String " " (show_uint id +:+ String " " text)).
  rewrite (request_args cmd c) by (done || by apply plain_after; [apply plain_uint|]).
  rewrite Hk. unfold with_id_rest, splitn2.
  rewrite split_once_app by (by apply show_uint_no_byte). by rewrite arg_uint.
Qed.

(** The answer to an operation that may not find its target. *)
Definition found (msg : string) (r : bool * AppWindow NB) wd : option (string * World NB) :=
  Some (if r.1 then "OK" else msg, with_win r.2 wd).

(** The answer to a request for what may not be there. *)
Definition or_error {A} (msg : string) (x : option A) (say : A -> string) wd : option (string * World NB) :=
  reply (match x with Some x => say x | None => msg end) wd.

(** The new remote workspace, or the error. *)
Definition connected (r : option WorkspaceId * AppWindow NB) wd : option (string * World NB) :=
  reply (match r.1 with Some id => "OK " +:+ show_uint id | None => "ERROR: failed to create remote workspace" end)
    (with_win r.2 wd).

(** What the subcommands mean: the operation of the window each asks for, and the
    answer.  The texts that the server splits into words - those of subcommands with
    options - are words of printable ASCII with one space between them, none of which
    begins with two dashes, and the value of an option is one such word or empty. *)
Inductive means : CliCommand -> World NB -> option (string * World NB) -> Prop :=
  | means_ping wd : means CPing wd (reply "OK pong" wd)
  | means_new_workspace wd :
      means (CWorkspace CNewWorkspace) wd (ok (on_win new_workspace wd))
  | means_count wd :
      means (CWorkspace CWorkspaceCount) wd
        (reply ("OK " +:+ show_uint (Z.of_nat (workspace_count (win wd)))) wd)
  | means_set_color id color c wd : u32 id -> plain color = true -> color <> "none" ->
      color_from_name color = Some c ->
      means (CWorkspace (CWorkspaceSetColor id color)) wd (ok (on_win (set_workspace_color id (Some c)) wd))
  | means_clear_color id wd : u32 id ->
      means (CWorkspace (CWorkspaceSetColor id "none")) wd (ok (on_win (set_workspace_color id None) wd))
  | means_pin id wd : u32 id ->
      means (CWorkspace (CWorkspacePin id)) wd (ok (on_win (toggle_workspace_pinned id) wd))
  | means_select id wd : u32 id ->
      means (CWorkspace (CSelectWorkspace id)) wd
        (found "ERROR: workspace not found" (select_workspace_by_id id (win wd)) wd)
  | means_close id r wd : u32 id -> close_workspace_by_id ord id (win wd) = Some r ->
      means (CWorkspace (CCloseWorkspace (Some id))) wd
        (found "ERROR: workspace not found or pinned" r wd)
  | means_close_current id r wd :
      focused_workspace_id (win wd) = Some id -> close_workspace_by_id ord id (win wd) = Some r ->
      means (CWorkspace (CCloseWorkspace None)) wd
        (found "ERROR: workspace not found or pinned" r wd)
  | means_list_panes id ids wd : u32 id -> list_panes ord id (win wd) = Some ids ->
      means (CWorkspace (CListPanes (Some id))) wd (reply ("OK " +:+ join "," (show_uint <$> ids)) wd)
  | means_focus_pane id wd : u32 id ->
      means (CWorkspace (CFocusPane id)) wd
        (found "ERROR: pane not found" (focus_pane_by_id id (win wd)) wd)
  | means_rename id name wd : u32 id -> plain name = true ->
      means (CWorkspace (CRenameWorkspace id name)) wd (ok (on_win (rename_workspace id (trim name)) wd))
  | means_toggle_sidebar wd :
      means (CWorkspace CToggleSidebar) wd (ok (on_win toggle_sidebar wd))
  | means_split_right wd :
      means (CSplit CSplitRight) wd (ok (on_win (split_focused Horizontal) wd))
  | means_split_down wd :
      means (CSplit CSplitDown) wd (ok (on_win (split_focused Vertical) wd))
  | means_navigate id url wd : u32 id -> plain url = true ->
      means (CBrowser (CNavigate id url)) wd (ok (call (NavigateTo id (normalize_url (trim url))) wd))
  | means_js_eval id script wd : u32 id -> plain script = true ->
      means (CBrowser (CJsEval id script)) wd (ok (call (EvalJs id script) wd))
  | means_send id h text wd : u32 id -> plain text = true ->
      get_handle id (registry (win wd)) = Some h ->
      means (CTerminal (CSend id text)) wd (ok (call (SendText h text) wd))
  | means_read_screen id h full wd : u32 id ->
      get_handle id (registry (win wd)) = Some h -> read_text h = Some full ->
      truncate_to_last_n_lines full MAX_SCROLLBACK_LINES <> "" ->
      means (CTerminal (CReadScreen id)) wd
        (reply (multi_line (truncate_to_last_n_lines full MAX_SCROLLBACK_LINES)) wd)
  | means_notify (b : bool) wd :
      means (CMetadata (if b then CNotifyEnable else CNotifyDisable)) wd
        (ok (call (TrayNotifications b) (mkWorld (win wd) b (next_browser wd) (calls wd))))
  | means_version wd : means CVersion wd (reply ("OK limux " +:+ pkg_version) wd)
  | means_list_surfaces wd :
      means CListSurfaces wd (reply (ok_lines (list_surfaces_detailed ord get_url (win wd))) wd)
  | means_list_workspaces wd :
      means (CWorkspace CListWorkspaces) wd
        (reply (ok_lines (Socket.workspace_line debug_str <$> list_workspaces_detailed (win wd))) wd)
  | means_current wd :
      means (CWorkspace CCurrentWorkspace) wd
        (or_error "ERROR: no focused workspace" (current_workspace_info (win wd))
           (fun e => "OK " +:+ show_uint e.1 +:+ " " +:+ e.2) wd)
  | means_list_panes_none id wd : u32 id -> list_panes ord id (win wd) = None ->
      means (CWorkspace (CListPanes (Some id))) wd (reply "ERROR: workspace not found" wd)
  | means_list_panes_current id wd : focused_workspace_id (win wd) = Some id ->
      means (CWorkspace (CListPanes None)) wd
        (or_error "ERROR: workspace not found" (list_panes ord id (win wd))
           (fun ids => "OK " +:+ join "," (show_uint <$> ids)) wd)
  | means_open_none url wd : plain url = true -> current_ws (win wd) ≫= ws_focused_pane = None ->
      means (CBrowser (COpenBrowser url)) wd (ok wd)
  | means_open url p wd : plain url = true -> current_ws (win wd) ≫= ws_focused_pane = Some p ->
      means (CBrowser (COpenBrowser url)) wd
        (ok (mkWorld (split_focused_browser (next_browser wd) Horizontal (trim url) (win wd)) (notify_enabled wd)
               (u32_succ (next_browser wd)) (calls wd)))
  | means_back id wd : u32 id -> means (CBrowser (CBrowserBack id)) wd (ok (call (GoBack id) wd))
  | means_forward id wd : u32 id -> means (CBrowser (CBrowserForward id)) wd (ok (call (GoForward id) wd))
  | means_reload id wd : u32 id -> means (CBrowser (CBrowserReload id)) wd (ok (call (Reload id) wd))
  | means_get_url id wd : u32 id ->
      means (CBrowser (CGetUrl id)) wd
        (or_error "ERROR: browser not found" (get_url id) (fun url => "OK " +:+ url) wd)
  | means_send_none id text wd : u32 id -> plain text = true -> get_handle id (registry (win wd)) = None ->
      means (CTerminal (CSend id text)) wd (reply "ERROR: surface not found" wd)
  | means_read_none id wd : u32 id -> read_surface_scrollback read_text id wd = None ->
      means (CTerminal (CReadScreen id)) wd (reply "ERROR: surface not found" wd)
  | means_set_status id key ws icon color priority wd :
      focused_workspace_id (win wd) = Some id -> positional_word key = true ->
      Forall (fun w => positional_word w = true) ws -> ws <> [] ->
      value_word_opt icon = true -> value_word_opt color = true -> (forall n, priority = Some n -> i32 n) ->
      means (CMetadata (CSetStatus key (join " " ws) icon color priority)) wd
        (ok (on_win (set_workspace_status id key (join " " ws) icon color (default 0%Z priority)) wd))
  | means_clear_status id key wd : focused_workspace_id (win wd) = Some id -> plain key = true -> trim key <> "" ->
      means (CMetadata (CClearStatus key)) wd (ok (on_win (clear_workspace_status id (trim key)) wd))
  | means_set_progress id v label wd :
      focused_workspace_id (win wd) = Some id ->
      positional_word (show_f64 v) = true -> parse_f64 (show_f64 v) = Some v -> value_word_opt label = true ->
      means (CMetadata (CSetProgress v label)) wd (ok (on_win (set_workspace_progress id v label) wd))
  | means_clear_progress id wd : focused_workspace_id (win wd) = Some id ->
      means (CMetadata CClearProgress) wd (ok (on_win (clear_workspace_progress id) wd))
  | means_log id ws level wd :
      focused_workspace_id (win wd) = Some id ->
      Forall (fun w => positional_word w = true) ws -> ws <> [] -> word level = true ->
      means (CMetadata (CLog (join " " ws) level)) wd
        (ok (on_win (add_workspace_log id (join " " ws) (LogLevel_from_str level) None now) wd))
  | means_clear_log id wd : focused_workspace_id (win wd) = Some id ->
      means (CMetadata CClearLog) wd (ok (on_win (clear_workspace_log id) wd))
  | means_notify_status wd :
      means (CMetadata CNotifyStatus) wd (reply ("OK " +:+ if notify_enabled wd then "enabled" else "disabled") wd)
  | means_connect dest port identity ssh_option command wd :
      positional_word dest = true -> (forall p, port = Some p -> 0 <= p <= u16_max)%Z ->
      value_word_opt identity = true -> value_word_opt ssh_option = true -> value_word_opt command = true ->
      means (CRemote (CRemoteConnect dest port identity (option_list ssh_option) command)) wd
        (connected (new_remote_workspace free_port urandom
           (mkRemoteConfiguration dest port identity (option_list ssh_option) command None None None None)
           (win wd)) wd)
  | means_disconnect id wd : (forall n, id = Some n -> u32 n) ->
      means (CRemote (CRemoteDisconnect id false)) wd (ok (on_win (disconnect_remote id false) wd))
  | means_reconnect id wd : (forall n, id = Some n -> u32 n) ->
      means (CRemote (CRemoteReconnect id)) wd (ok (on_win (reconnect_remote id) wd))
  | means_remote_status id wd : (forall n, id = Some n -> u32 n) ->
      means (CRemote (CRemoteStatus id)) wd
        (or_error "ERROR: workspace not found or not remote" (remote_status_info status_json id wd) multi_line wd).

(** A command with words. *)
Lemma request_words cmd c l wd :
  command_of cmd = Some c -> Forall (fun w => value_word w = true) l -> l <> [] ->
  request (cmd +:+ " " +:+ join " " l) wd = answered (run_command c (join " " l) wd).
Proof.
  intros Hc Hl Hne. change (" " +:+ join " " l) with (String " " (join " " l)).
  apply request_args; [done|]. clear Hc. induction Hl as [|w l Hw Hl IH]; [done|].
  destruct l as [|x l]; [by apply word_plain|].
  change (join " " (w :: x :: l)) with (w +:+ String " " (join " " (x :: l))).
  apply plain_after; [by apply word_plain|by apply IH].
Qed.

Definition flags (l : list (string * option string)) : list string := l ≫= fun f => flag_word f.1 f.2.
Lemma flags_ok l : Forall (fun f => word f.1 = true /\ value_word_opt f.2 = true) l ->
  Forall (fun w => value_word w = true) (flags l).
Proof.
  induction 1 as [|f l [H1 H2] _ IH]; [done|]. apply Forall_app. split; [by apply flag_word_ok|exact IH].
Qed.
Lemma opts_flags l : forall po, Forall (fun f => has_byte "=" f.1 = false) l ->
  foldl opt_step po (flags l) =
  mkOpts (positional po) (foldl (fun m f => opt_insert f.1 f.2 m) (opts po) l).
Proof.
  induction l as [|f l IH]; intros po H; [by destruct po|]. apply Forall_cons in H as [Hf H].
  unfold flags. cbn [mbind list_bind foldl]. rewrite foldl_app, opts_flag by done. by rewrite IH.
Qed.

(** A command with positional words and options: what the option parser makes of it. *)
Lemma request_opts cmd c pos l wd :
  command_of cmd = Some c -> pos <> [] -> Forall (fun w => positional_word w = true) pos ->
  Forall (fun f => word f.1 = true /\ has_byte "=" f.1 = false /\ value_word_opt f.2 = true) l ->
  exists args, request (cmd +:+ " " +:+ (join " " pos +:+ spaced (flags l))) wd = answered (run_command c args wd) /\
    parse_opts args = mkOpts pos (foldl (fun m f => opt_insert f.1 f.2 m) ∅ l).
Proof.
  intros Hc Hne Hp Hl. exists (join " " (pos ++ flags l)).
  assert (join " " pos +:+ spaced (flags l) = join " " (pos ++ flags l)) as ->.
  { destruct pos as [|w pos]; [done|]. cbn [app]. by rewrite !join_spaced, spaced_app, str_app_assoc. }
  assert (Forall (fun w => value_word w = true) (pos ++ flags l)) as Hw.
  { apply Forall_app. split; [by apply positional_value|]. apply flags_ok. eapply Forall_impl; [exact Hl|]. by intros f (? & _ & ?). }
  split; [apply request_words; [done|done|by destruct pos]|].
  rewrite parse_opts_words, foldl_app, (opts_positional pos) by done. cbn [positional opts app].
  rewrite opts_flags; [done|]. eapply Forall_impl; [exact Hl|]. by intros f (_ & ? & _).
Qed.

Lemma request_status id key ws icon color priority wd :
  focused_workspace_id (win wd) = Some id -> positional_word key = true ->
  Forall (fun w => positional_word w = true) ws -> ws <> [] ->
  value_word_opt icon = true -> value_word_opt color = true -> (forall n, priority = Some n -> i32 n) ->
  request (command_line show_f64 (CMetadata (CSetStatus key (join " " ws) icon color priority))) wd =
  answered (ok (on_win (set_workspace_status id key (join " " ws) icon color (default 0%Z priority)) wd)).
Proof.
  intros Hid Hk Hws Hne Hi Hcol Hp. cbn [command_line metadata_line]. rewrite !flag_spaced.
  assert ("set_status " +:+ key +:+ " " +:+ join " " ws +:+ spaced (flag_word "icon" icon) +:+
      spaced (flag_word "color" color) +:+ spaced (flag_word "priority" (show_int <$> priority)) =
    "set_status" +:+ " " +:+ (join " " (key :: ws) +:+
      spaced (flags [("icon", icon); ("color", color); ("priority", show_int <$> priority)]))) as ->.
  { unfold flags. cbn [mbind list_bind fst snd]. rewrite app_nil_r, !spaced_app.
    destruct ws as [|w ws]; [done|]. change (join " " (key :: w :: ws)) with (key +:+ " " +:+ join " " (w :: ws)).
    by rewrite !str_app_assoc. }
  edestruct (request_opts "set_status" SetStatus (key :: ws)
    [("icon", icon); ("color", color); ("priority", show_int <$> priority)] wd) as (args & -> & Ho);
    [done|done|by constructor| |].
  { repeat constructor; cbn [fst snd]; try done. destruct priority; [apply word_int|done]. }
  cbn [Socket.run_command]. unfold with_focused. rewrite Hid, Ho. cbn [Socket.positional Socket.opts].
  destruct ws as [|w ws]; [done|]. cbn [foldl fst snd]. found_opt. do 4 f_equal.
  destruct priority as [n|]; [|done]. simpl. by rewrite (parse_show_int n (Hp n eq_refl)).
Qed.

Lemma request_progress id v label wd :
  focused_workspace_id (win wd) = Some id ->
  positional_word (show_f64 v) = true -> parse_f64 (show_f64 v) = Some v -> value_word_opt label = true ->
  request (command_line show_f64 (CMetadata (CSetProgress v label))) wd =
  answered (ok (on_win (set_workspace_progress id v label) wd)).
Proof.
  intros Hid Hw Hp Hl. cbn [command_line metadata_line]. rewrite flag_spaced.
  edestruct (request_opts "set_progress" SetProgress [show_f64 v] [("label", label)] wd) as (args & E & Ho);
    [done|done|by constructor|by repeat constructor|].
  unfold flags in E. cbn [mbind list_bind fst snd] in E. rewrite app_nil_r in E.
  change ("set_progress" +:+ " " +:+ join " " [show_f64 v] +:+ spaced (flag_word "label" label))
    with ("set_progress " +:+ show_f64 v +:+ spaced (flag_word "label" label)) in E. rewrite E.
  cbn [Socket.run_command]. unfold with_focused. rewrite Hid, Ho. cbn [Socket.positional Socket.opts foldl fst snd].
  assert (trim (show_f64 v) = show_f64 v) as ->.
  { apply trim_word. by apply andb_prop in Hw as [[Hw _]%andb_prop _]. }
  rewrite Hp. by found_opt.
Qed.

Lemma request_log id ws level wd :
  focused_workspace_id (win wd) = Some id ->
  Forall (fun w => positional_word w = true) ws -> ws <> [] -> word level = true ->
  request (command_line show_f64 (CMetadata (CLog (join " " ws) level))) wd =
  answered (ok (on_win (add_workspace_log id (join " " ws) (LogLevel_from_str level) None now) wd)).
Proof.
  intros Hid Hws Hne Hl. cbn [command_line metadata_line].
  edestruct (request_opts "log" LogCmd ws [("level", Some level)] wd) as (args & E & Ho);
    [done|done|done|by repeat constructor|].
  assert ("log" +:+ " " +:+ (join " " ws +:+ spaced (flags [("level", Some level)])) =
    "log " +:+ join " " ws +:+ " --level=" +:+ level) as E'.
  { unfold flags. cbn. by rewrite str_app_nil_r. }
  rewrite E' in E. rewrite E. cbn [Socket.run_command]. unfold with_focused. rewrite Hid, Ho.
  cbn [Socket.positional Socket.opts foldl fst snd]. destruct ws as [|w ws]; [done|]. by found_opt.
Qed.

Lemma request_connect dest port identity ssh_option command wd :
  positional_word dest = true -> (forall p, port = Some p -> 0 <= p <= u16_max)%Z ->
  value_word_opt identity = true -> value_word_opt ssh_option = true -> value_word_opt command = true ->
  request (command_line show_f64 (CRemote (CRemoteConnect dest port identity (option_list ssh_option) command))) wd =
  answered (connected (new_remote_workspace free_port urandom
    (mkRemoteConfiguration dest port identity (option_list ssh_option) command None None None None) (win wd)) wd).
Proof.
  intros Hd Hp Hi Ho Hc. cbn [command_line remote_line].
  set (fl := [("port", show_uint <$> port); ("identity", identity); ("ssh-option", ssh_option); ("command", command)]).
  edestruct (request_opts "remote_connect" RemoteConnect [dest] fl wd) as (args & E & Hopts);
    [done|done|by constructor| |].
  { repeat constructor; cbn [fst snd]; try done. destruct port; [apply word_uint|done]. }
  assert ("remote_connect" +:+ " " +:+ (join " " [dest] +:+ spaced (flags fl)) =
    "remote_connect " +:+ dest +:+ flag "port" (show_uint <$> port) +:+ flag "identity" identity +:+
      foldr (fun o s => flag "ssh-option" (Some o) +:+ s) "" (option_list ssh_option) +:+ flag "command" command) as E'.
  { unfold flags, fl. cbn [mbind list_bind fst snd]. rewrite app_nil_r, !spaced_app, <- !flag_spaced.
    destruct ssh_option as [o|]; [|done]. change (option_list (Some o)) with [o]. cbn [foldr]. by rewrite str_app_nil_r. }
  rewrite E' in E. rewrite E. cbn [Socket.run_command]. rewrite Hopts. cbn [Socket.positional].
  assert (connect_config (mkOpts [dest] (foldl (fun m f => opt_insert f.1 f.2 m) ∅ fl)) dest =
    mkRemoteConfiguration dest port identity (option_list ssh_option) command None None None None) as ->.
  { unfold connect_config, fl. cbn [Socket.opts foldl fst snd]. found_opt. f_equal.
    destruct port as [n|]; [|done]. simpl. unfold parse_u16. by rewrite parse_show_uint by (apply Hp; done). }
  unfold connected. by destruct (new_remote_workspace _ _ _ _) as [[id|] aw].
Qed.

(** A command with an optional identifier as its only word. *)
Lemma request_opt_id cmd c id wd :
  command_of cmd = Some c -> (forall n, id = Some n -> u32 n) ->
  exists args, request (cmd_opt_id cmd id) wd = answered (run_command c args wd) /\
    parse_opts args = mkOpts (option_list (show_uint <$> id)) ∅ /\
    head (split_whitespace args) ≫= parse_u32 = id /\ head (option_list (show_uint <$> id)) ≫= parse_u32 = id.
Proof.
  intros Hc Hid. destruct id as [n|]; cbn [cmd_opt_id].
  - exists (show_uint n). rewrite (request_uint cmd c) by done. split; [done|].
    unfold parse_opts. rewrite split_whitespace_word by (apply show_uint_nonempty || apply word_uint). cbn [foldl].
    assert (strip_prefix "--" (show_uint n) = None) as ->.
    { pose proof (show_uint_no_byte "-" n eq_refl) as H. destruct (show_uint n) as [|a t]; [done|].
      cbn [strip_prefix has_byte] in *. destruct (byte_eqb "-" a) eqn:E; [|done].
      apply byte_eqb_eq in E as <-. by rewrite byte_eqb_refl in H. }
    split; [done|]. simpl. unfold parse_u32. rewrite parse_show_uint by (by apply Hid). done.
  - exists "". by rewrite (request_bare cmd c).
Qed.

(** The ways a request reaches its command. *)
Ltac bare := erewrite request_bare by reflexivity; reflexivity.
Ltac by_id := erewrite request_id; [|reflexivity|done|reflexivity]; cbv beta.
Ltac by_id_rest := erewrite request_id_rest; [|reflexivity|done|done|reflexivity]; cbv beta.

Ltac open_url :=
  match goal with |- context ["open_browser " +:+ ?url] =>
    change ("open_browser " +:+ url) with ("open_browser" +:+ String " " url) end;
  rewrite (request_args "open_browser" OpenBrowser) by done; cbn [Socket.run_command].

Lemma read_id_arg id : trim (show_uint id) = show_uint id /\ show_uint id <> "" /\
  (u32 id -> parse_u32 (show_uint id) = Some id).
Proof.
  split; [apply trim_show_uint|]. split; [apply show_uint_nonempty|]. intros H. unfold parse_u32. by apply parse_show_uint.
Qed.
Ltac read_id id := cbn [Socket.run_command snd]; let E := fresh in let Hne := fresh in let Hp := fresh in
  destruct (read_id_arg id) as (E & Hne & Hp); rewrite E; destruct (show_uint id) eqn:Eid in *; [done|]; rewrite Hp by done.

Lemma means_request c wd r : means c wd r -> request (command_line show_f64 c) wd = answered r.
Proof.
  intros H. destruct H.
  35: by apply request_status.
  36: by apply request_progress.
  37: by apply request_log.
  39: by apply request_connect.
  all: cbn [command_line workspace_line split_line browser_line terminal_line metadata_line remote_line].
  1-3, 13-15, 21-23, 38: bare.
  2, 9-11: by_id_rest; reflexivity.
  2, 16-18: by_id; reflexivity.
  - by_id_rest. rewrite (proj2 (String.eqb_neq _ _)) by done.
    by match goal with E : color_from_name _ = _ |- _ => rewrite E end.
  - by_id. unfold found. by destruct (select_workspace_by_id _ _) as [[] aw].
  - cbn [cmd_opt_id]. erewrite request_uint by reflexivity. read_id id.
    match goal with E : close_workspace_by_id _ _ _ = _ |- _ => rewrite E end.
    unfold found. by destruct r as [[] aw].
  - cbn [cmd_opt_id]. erewrite request_bare by reflexivity. cbn [Socket.run_command snd]. simpl.
    unfold with_focused. simplify_option_eq. unfold found. by destruct r as [[] aw].
  - cbn [cmd_opt_id]. erewrite request_uint by reflexivity. read_id id.
    by match goal with E : list_panes _ _ _ = _ |- _ => rewrite E end.
  - by_id. unfold found. by destruct (focus_pane_by_id _ _) as [[] aw].
  - by_id_rest. unfold send_text. by match goal with E : get_handle _ _ = _ |- _ => rewrite E end.
  - by_id. unfold read_surface_scrollback. simplify_option_eq.
    by destruct (truncate_to_last_n_lines full MAX_SCROLLBACK_LINES).
  - destruct b; bare.
  - erewrite request_bare by reflexivity. cbn [Socket.run_command snd]. unfold or_error.
    by destruct (current_workspace_info _) as [[]|].
  - cbn [cmd_opt_id]. erewrite request_uint by reflexivity. read_id id.
    by match goal with E : list_panes _ _ _ = _ |- _ => rewrite E end.
  - cbn [cmd_opt_id]. erewrite request_bare by reflexivity. cbn [Socket.run_command snd]. simpl. unfold or_error.
    match goal with E : focused_workspace_id _ = _ |- _ => rewrite E end. by destruct (list_panes _ _ _).
  - open_url. by match goal with E : _ ≫= _ = _ |- _ => rewrite E end.
  - open_url. by match goal with E : _ ≫= _ = _ |- _ => rewrite E end.
  - by_id. unfold or_error. by destruct (get_url id).
  - by_id_rest. unfold send_text. by match goal with E : get_handle _ _ = _ |- _ => rewrite E end.
  - by_id. by match goal with E : Socket.read_surface_scrollback _ _ _ = _ |- _ => rewrite E end.
  - change ("clear_status " +:+ key) with ("clear_status" +:+ String " " key).
    rewrite (request_args "clear_status" ClearStatus) by done. cbn [Socket.run_command].
    unfold with_focused. match goal with E : focused_workspace_id _ = _ |- _ => rewrite E end.
    by destruct (trim key).
  - erewrite request_bare by reflexivity. cbn [Socket.run_command snd]. unfold with_focused.
    by match goal with E : focused_workspace_id _ = _ |- _ => rewrite E end.
  - erewrite request_bare by reflexivity. cbn [Socket.run_command snd]. unfold with_focused.
    by match goal with E : focused_workspace_id _ = _ |- _ => rewrite E end.
  - rewrite str_app_nil_r.
    destruct (request_opt_id "remote_disconnect" RemoteDisconnect id wd eq_refl H) as (args & -> & Ho & _ & Hid).
    cbn [Socket.run_command]. rewrite Ho. cbn [Socket.positional Socket.opts]. by rewrite Hid.
  - destruct (request_opt_id "remote_reconnect" RemoteReconnect id wd eq_refl H) as (args & -> & _ & Hid & _).
    cbn [Socket.run_command]. unfold first_id. by rewrite Hid.
  - destruct (request_opt_id "remote_status" RemoteStatus id wd eq_refl H) as (args & -> & _ & Hid & _).
    cbn [Socket.run_command]. unfold first_id. rewrite Hid. unfold or_error. by destruct (remote_status_info _ id wd).
Qed.
End requests.



Lemma strip_uint id : strip_prefix "--" (show_uint id) = None.
Proof.
  pose proof (show_uint_no_byte "-" id eq_refl) as H. destruct (show_uint id) as [|c r]; [done|].
  cbn [strip_prefix has_byte] in *. destruct (byte_eqb "-" c) eqn:E; [|done].
  apply byte_eqb_eq in E as <-. by rewrite byte_eqb_refl in H.
Qed.
Lemma split_uint id : split_whitespace (show_uint id) = [show_uint id].
Proof. apply split_whitespace_word; [apply show_uint_nonempty|apply word_uint]. Qed.
Lemma split_clear id : split_whitespace (show_uint id +:+ String " " "--clear") = [show_uint id; "--clear"].
Proof. rewrite split_whitespace_cons; [done|apply show_uint_nonempty|apply word_uint]. Qed.

(** The [--clear] option of [remote-disconnect] is without effect: it has no
    [=], so the server's option parser drops it, and the request does what the
    same request without the option does. *)
Theorem cli_clear_ignored {NB} `{NotebookOps NB} ord ver get_url read_text debug json now fp ur
    id (wd : World NB) :
  request ord ver get_url read_text debug json now fp ur (remote_line (CRemoteDisconnect id true)) wd =
  request ord ver get_url read_text debug json now fp ur (remote_line (CRemoteDisconnect id false)) wd.
Proof.
  unfold remote_line. destruct id as [id|]; cbn [cmd_opt_id].
  - unfold cmd_id. rewrite str_app_nil_r, !str_app_assoc.
    change (" " +:+ show_uint id +:+ " --clear") with (String " " (show_uint id +:+ String " " "--clear")).
    change (" " +:+ show_uint id) with (String " " (show_uint id)).
    rewrite !(request_args _ _ _ _ _ _ _ _ _ "remote_disconnect" RemoteDisconnect)
      by (done || apply plain_uint || by apply plain_after; [apply plain_uint|]).
    cbn [run_command]. unfold parse_opts. rewrite split_clear, split_uint. cbn [foldl].
    by rewrite strip_uint.
  - change ("remote_disconnect" +:+ " --clear") with ("remote_disconnect" +:+ String " " "--clear").
    rewrite str_app_nil_r.
    rewrite (request_args _ _ _ _ _ _ _ _ _ "remote_disconnect" RemoteDisconnect) by done.
    by rewrite (request_bare _ _ _ _ _ _ _ _ _ "remote_disconnect" RemoteDisconnect).
Qed.
