(* ===== verification/CliMain.v ===== *)
(** * The client as a program (cli/src/main.rs, discovery.rs, socket.rs, output.rs)

    From the options to the exit status: where the socket is looked for, what is sent and
    received, what is printed.  The network is an argument, as is the JSON text of a
    string. *)

From Stdlib Require Import Ascii.
From S2P Require Import Prelude F64 SplitTree RustStr RustNum RemoteConfig Workspace Surfaces Notebook Window WindowTabs WindowOk WindowLife WindowClaims Session Socket SocketProps Cli.
Open Scope string_scope.
Open Scope list_scope.

(** ** The socket *)

(** [env] is the variable LIMUX_SOCKET, if it is set and is Unicode. *)
Definition resolve (socket_flag env : option string) : string + string :=
  match socket_flag, env with
  | Some path, _ => inl path
  | None, Some path =>
      if String.eqb path "" then inr "No socket found. Set LIMUX_SOCKET or use --socket PATH." else inl path
  | None, None => inr "No socket found. Set LIMUX_SOCKET or use --socket PATH."
  end.

(** What becomes of the bytes that are written: an error, or the bytes that come back and
    then the end of the stream or the error of the next read, such as the time-out. *)
Inductive Sent := WriteFailed (e : string) | Received (bytes : string) (failed : option string).
Inductive Connection := Refused (e : string) | Accepted (send : string -> Sent).

Definition isize_max : Z := 2 ^ 63 - 1.

(** The length of the body that the first line announces. *)
Definition announced (bytes : string) : option Z :=
  let line := (read_line bytes).1 in
  if valid_utf8 line then strip_prefix "OK+" (trim_end line) ≫= parse_uint u64_max else None.

Definition read_failed (e : string) : string := "Failed to read response: " +:+ e.
Definition body_failed (e : string) : string := "Failed to read response body: " +:+ e.

(** The answer; [None] is the panic of a buffer that exceeds the address space. *)
Definition receive (bytes : string) (failed : option string) : option (string + string) :=
  match has_byte nl bytes, failed with
  | false, Some e => Some (inr (read_failed e))
  | _, _ =>
      if (isize_max <? default 0 (announced bytes))%Z then None
      else Some (decode_response (read_failed "stream did not contain valid UTF-8")
                   (body_failed (default "failed to fill whole buffer" failed)) bytes)
  end.

Definition send_command (net : string -> Connection) (socket_path command : string) : option (string + string) :=
  match net socket_path with
  | Refused e => Some (inr ("Failed to connect to " +:+ socket_path +:+ ": " +:+ e))
  | Accepted send =>
      match send (command +:+ String nl "") with
      | WriteFailed e => Some (inr ("Failed to send command: " +:+ e))
      | Received bytes failed => receive bytes failed
      end
  end.

(** ** The output *)

Record Outcome := mkOutcome { stdout : string; stderr : string; status : Z }.

Definition println (s : string) : string := s +:+ String nl "".
(** [{"ok":<ok>,"<key>":<value>}] *)
Definition json_object (ok key value : string) : string :=
  "{" +:+ dq +:+ "ok" +:+ dq +:+ ":" +:+ ok +:+ "," +:+ dq +:+ key +:+ dq +:+ ":" +:+ value +:+ "}".

Definition handle (to_json : string -> option string) (result : string + string) (json : bool) : Outcome :=
  match result with
  | inl data =>
      mkOutcome
        (if json then
           println (json_object "true" "data" (if String.eqb data "" then "null" else default "" (to_json data)))
         else if String.eqb data "" then "" else println data) "" 0
  | inr msg =>
      if json then mkOutcome (println (json_object "false" "error" (default "" (to_json msg)))) "" 1
      else mkOutcome "" (println ("Error: " +:+ msg)) 1
  end.

Definition main (net : string -> Connection) (to_json : string -> option string) (show_f64 : f64 -> string)
    (socket_flag env : option string) (json : bool) (c : CliCommand) : option Outcome :=
  match resolve socket_flag env with
  | inr msg => Some (handle to_json (inr msg) json)
  | inl path => (fun r => handle to_json r json) <$> send_command net path (command_line show_f64 c)
  end.

(** ** Decoding any answer *)

Lemma cut_prefix p d a b :
  p +:+ d = a +:+ String nl b -> has_byte nl p = false -> exists d', a = p +:+ d'.
Proof.
  revert a. induction p as [|c p IH]; intros a H Hp; [by exists a|]. simpl in Hp.
  apply orb_false_iff in Hp as [Hc Hp]. destruct a as [|x a]; injection H as -> H.
  - by rewrite byte_eqb_refl in Hc.
  - destruct (IH a H Hp) as [d' ->]. by exists d'.
Qed.

(** The first line of a response that is not length-prefixed. *)
Lemma read_line_frame p d more :
  has_byte nl p = false -> starts_with "OK+" (p +:+ d) = false -> valid_utf8 (p +:+ d) = true ->
  exists d' rest, read_line (frame (p +:+ d) +:+ more) = ((p +:+ d') +:+ String nl "", rest) /\
    valid_utf8 ((p +:+ d') +:+ String nl "") = true.
Proof.
  intros Hp Hs Hv. unfold frame. rewrite Hs, str_app_assoc. cbn [String.append]. unfold read_line.
  destruct (split_once nl (p +:+ d)) as [[a b]|] eqn:E.
  - apply split_once_Some in E as [E Ha]. rewrite E in *. destruct (cut_prefix _ _ _ _ E Hp) as [d' ->].
    exists d', (b +:+ String nl more). split; [|by eapply valid_utf8_app; [eapply valid_utf8_cut|]].
    rewrite str_app_assoc. cbn [String.append]. by rewrite split_once_app.
  - exists d, more. split; [|by apply valid_utf8_app]. rewrite split_once_app; [done|].
    revert E. generalize (p +:+ d). clear. intros s. induction s as [|c s IH]; [done|]. cbn [split_once has_byte].
    destruct (byte_eqb c nl); [done|]. destruct (split_once nl s) as [[? ?]|]; [done|]. auto.
Qed.

Lemma trim_end_cons c s : graphic c -> trim_end (String c s) = String c (trim_end s).
Proof. intros H. cbn [trim_end]. unfold all_ws. by rewrite trim_start_graphic. Qed.
Lemma trim_end_space s : trim_end (String " " s) = "" \/ trim_end (String " " s) = String " " (trim_end s).
Proof. cbn [trim_end]. destruct (all_ws _); auto. Qed.

Ltac graphics := repeat (rewrite trim_end_cons by (unfold graphic; vm_compute; split; discriminate)).

(** Data and errors arrive as such, whatever follows on the stream; only their first line
    is read. *)
Lemma decode_data re be d more :
  valid_utf8 ("OK " +:+ d) = true -> exists data, decode_response re be (frame ("OK " +:+ d) +:+ more) = inl data.
Proof.
  intros Hv. destruct (read_line_frame "OK " d more) as (d' & rest & E & Hl); [done..|].
  unfold decode_response. rewrite E, Hl. cbn [negb]. rewrite trim_end_nl. cbn [String.append]. graphics.
  destruct (trim_end_space d') as [-> | ->]; simpl; by eexists.
Qed.
Lemma decode_error re be e more :
  valid_utf8 ("ERROR: " +:+ e) = true ->
  exists msg, decode_response re be (frame ("ERROR: " +:+ e) +:+ more) = inr msg.
Proof.
  intros Hv. destruct (read_line_frame "ERROR: " e more) as (d' & rest & E & Hl); [done..|].
  unfold decode_response. rewrite E, Hl. cbn [negb]. rewrite trim_end_nl. cbn [String.append]. graphics.
  destruct (trim_end_space d') as [-> | ->]; simpl; by eexists.
Qed.

Lemma announced_none p d more :
  has_byte nl p = false -> starts_with "OK+" (p +:+ d) = false -> valid_utf8 (p +:+ d) = true ->
  (forall d', strip_prefix "OK+" (trim_end (p +:+ d')) = None) -> announced (frame (p +:+ d) +:+ more) = None.
Proof.
  intros Hp Hs Hv Hn. destruct (read_line_frame p d more) as (d' & rest & E & Hl); [done..|].
  unfold announced. rewrite E. cbn [fst]. by rewrite Hl, trim_end_nl, Hn.
Qed.

Lemma announced_text text more : announced (frame (multi_line text) +:+ more) = parse_uint u64_max (len_str text).
Proof.
  unfold announced, frame, multi_line. rewrite starts_with_app, !str_app_assoc. unfold read_line.
  replace ("OK+" +:+ len_str text +:+ String nl text +:+ more)
    with (("OK+" +:+ len_str text) +:+ String nl (text +:+ more)) by (by rewrite str_app_assoc).
  unfold len_str. rewrite split_once_app by (simpl; by apply show_uint_no_byte). cbn [fst].
  rewrite valid_ascii by (by rewrite !ascii_only_app, show_uint_ascii).
  by rewrite trim_end_nl, trim_end_digits, strip_prefix_app.
Qed.

Lemma frame_complete s more : has_byte nl (frame s +:+ more) = true \/ is_multi_line s = false /\ starts_with "OK+" s = true.
Proof.
  unfold frame. destruct (starts_with "OK+" s) eqn:E.
  - unfold is_multi_line. destruct (split_once nl s) as [[a t]|] eqn:F; [left|by right].
    apply split_once_Some in F as [-> _]. rewrite str_app_assoc, has_byte_app. simpl. by rewrite orb_true_r.
  - left. rewrite str_app_assoc, has_byte_app. simpl. by rewrite orb_true_r.
Qed.
Lemma frame_has_line s more : response s = true -> has_byte nl (frame s +:+ more) = true.
Proof.
  intros H. destruct (frame_complete s more) as [|[Hm Hs]]; [done|]. exfalso.
  destruct (response_forms s H) as [->|[[d ->]|[[e ->]|[t ->]]]]; try done.
  pose proof (multi_line_response t) as Hr. unfold response in Hr. by rewrite Hm, orb_false_r in Hr.
Qed.

(** What the client makes of an answer of the server. *)
Definition outcome_of (s : string) (r : string + string) : Prop :=
  (if starts_with "OK" s then exists data, r = inl data else exists msg, r = inr msg) /\
  (s = "OK" -> r = inl "") /\ (forall text, s = multi_line text -> r = inl text) /\
  (forall d, s = "OK " +:+ d -> plain d = true -> r = inl (trim_start d)) /\
  (forall e, s = "ERROR: " +:+ e -> plain e = true -> r = inr e).

Lemma multi_line_inj a b : multi_line a = multi_line b -> a = b.
Proof.
  unfold multi_line. intros H%(f_equal (split_once nl)). rewrite <- !str_app_assoc in H.
  unfold len_str in H. rewrite !split_once_app in H by (simpl; by apply show_uint_no_byte). by simplify_eq.
Qed.

Lemma receive_response s more failed :
  response s = true -> valid_utf8 s = true -> (Z.of_nat (String.length s) <= isize_max)%Z ->
  exists r, receive (frame s +:+ more) failed = Some r /\ outcome_of s r.
Proof.
  intros Hr Hv Hl. unfold receive. rewrite frame_has_line by done.
  assert ((isize_max <? default 0 (announced (frame s +:+ more)))%Z = false /\
    outcome_of s (decode_response (read_failed "stream did not contain valid UTF-8")
      (body_failed (default "failed to fill whole buffer" failed)) (frame s +:+ more))) as [-> H].
  2: { eexists. split; [by destruct failed|exact H]. }
  set (re := read_failed _). set (be := body_failed _).
  destruct (response_forms s Hr) as [->|[[d ->]|[[e ->]|[t ->]]]].
  - split; [done|]. split_and!; try done. by exists "".
  - split.
    { rewrite announced_none; try done. intros d'. cbn [String.append]. graphics.
      by destruct (trim_end_space d') as [-> | ->]. }
    split; [by apply decode_data|]. split_and!; try done. intros d' [= <-] Hd.
    change ("OK " +:+ d) with ("OK" +:+ String " " d). by rewrite decode_line.
  - split.
    { by rewrite announced_none. }
    split; [by apply decode_error|]. split_and!; try done. intros d' [= <-] Hd.
    change ("ERROR: " +:+ e) with ("ERROR:" +:+ String " " e). by rewrite decode_line.
  - assert (Z.of_nat (String.length t) <= isize_max)%Z as Ht.
    { unfold multi_line in Hl. rewrite !str_length_app in Hl. simpl in Hl. lia. }
    assert (valid_utf8 t = true) as Hvt.
    { revert Hv. unfold multi_line, len_str. change (String nl t) with (String nl "" +:+ t).
      rewrite !valid_utf8_ascii_app; [done|done|apply show_uint_ascii|done]. }
    assert (isize_max < u64_max)%Z by done.
    rewrite announced_text. unfold len_str. rewrite parse_show_uint by lia. cbn [default from_option id].
    split; [by apply Z.ltb_ge|]. rewrite decode_multi_line by (done || lia). split_and!.
    + by exists t.
    + done.
    + intros t' E. by rewrite (multi_line_inj _ _ E).
    + done.
    + done.
Qed.

(** Success is reported only for an answer of a server that begins with OK. *)
Lemma decode_ok re be bytes data : decode_response re be bytes = inl data -> starts_with "OK" bytes = true.
Proof.
  unfold decode_response. destruct (read_line bytes) as [line rest] eqn:E.
  assert (exists r, bytes = line +:+ r) as [r ->].
  { unfold read_line in E. destruct (split_once nl bytes) as [[a b]|] eqn:F; injection E as <- <-.
    - apply split_once_Some in F as [-> _]. exists b. by rewrite str_app_assoc.
    - exists "". by rewrite str_app_nil_r. }
  destruct (valid_utf8 line); [|done]. cbn [negb].
  destruct (trim_end_split line) as (w & Hw & _). intros H.
  assert (exists x, trim_end line = "OK" +:+ x) as [x Hx].
  { destruct (strip_prefix "OK+" (trim_end line)) as [x|] eqn:Hx; [|clear Hx;
      destruct (strip_prefix "OK" (trim_end line)) as [x|] eqn:Hx].
    - apply strip_prefix_Some in Hx. by exists ("+" +:+ x).
    - apply strip_prefix_Some in Hx. by exists x.
    - by destruct (strip_prefix "ERROR: " (trim_end line)). }
  rewrite Hw, Hx, !str_app_assoc. apply starts_with_app.
Qed.

(** *** An answer that is cut *)

Lemma take_bytes_0 s : take_bytes 0 s = "".
Proof. by destruct s. Qed.
Lemma take_bytes_S n c s : take_bytes (S n) (String c s) = String c (take_bytes n s).
Proof. done. Qed.
Lemma take_bytes_nil n : take_bytes n "" = "".
Proof. by destruct n. Qed.

Lemma take_bytes_app_le a : forall n b, n <= String.length a -> take_bytes n (a +:+ b) = take_bytes n a.
Proof.
  induction a as [|c a IH]; intros [|n] b H; simpl in H; rewrite ?take_bytes_0; [done|lia|done|].
  cbn [String.append]. by rewrite !take_bytes_S, IH by lia.
Qed.
Lemma take_bytes_app_gt n a b : take_bytes (String.length a + n) (a +:+ b) = a +:+ take_bytes n b.
Proof. induction a as [|c a IH]; [done|]. cbn [String.length Nat.add String.append]. by rewrite take_bytes_S, IH. Qed.
Lemma take_bytes_no_byte c a : forall n, has_byte c a = false -> has_byte c (take_bytes n a) = false.
Proof.
  induction a as [|x a IH]; intros [|n] H; rewrite ?take_bytes_0, ?take_bytes_nil, ?take_bytes_S; try done.
  cbn [has_byte] in *. apply orb_false_iff in H as [-> H]. by apply IH.
Qed.
Lemma take_bytes_short a : forall n, n < String.length a -> String.length (take_bytes n a) = n.
Proof.
  induction a as [|x a IH]; intros [|n] H; simpl in H; rewrite ?take_bytes_0, ?take_bytes_S; [lia..|done|].
  cbn [String.length]. f_equal. apply IH. lia.
Qed.
Lemma take_bytes_all a : forall n, String.length a <= n -> take_bytes n a = a.
Proof.
  induction a as [|x a IH]; intros [|n] H; simpl in H; rewrite ?take_bytes_nil, ?take_bytes_S; try done; [lia|].
  f_equal. apply IH. lia.
Qed.

Lemma decode_short re be text x :
  (Z.of_nat (String.length text) <= u64_max)%Z -> String.length x < String.length text ->
  decode_response re be (("OK+" +:+ len_str text) +:+ String nl x) = inr be.
Proof.
  intros Hl Hx. unfold decode_response, read_line, len_str. set (n := Z.of_nat (String.length text)) in *.
  rewrite split_once_app by (simpl; by apply show_uint_no_byte).
  rewrite (valid_ascii (("OK+" +:+ show_uint n) +:+ String nl "")) by (by rewrite !ascii_only_app, show_uint_ascii).
  cbn [negb]. rewrite trim_end_nl, trim_end_digits, strip_prefix_app, parse_show_uint by lia.
  by rewrite (proj2 (Z.ltb_lt _ _)) by lia.
Qed.

(** A text that the connection does not take whole is an error at the other end, when the
    next read fails. *)
Lemma receive_cut text room e :
  (Z.of_nat (String.length text) <= isize_max)%Z -> room < String.length (multi_line text) ->
  exists msg, receive (take_bytes room (multi_line text)) (Some e) = Some (inr msg).
Proof.
  intros Hl Hr. assert (isize_max < u64_max)%Z by done.
  unfold multi_line in *. rewrite <- !str_app_assoc in *.
  set (hdr := "OK+" +:+ len_str text) in *. assert (has_byte nl hdr = false) as Hn
    by (unfold hdr, len_str; simpl; by apply show_uint_no_byte).
  destruct (decide (room <= String.length hdr)) as [Hle|Hgt].
  - rewrite take_bytes_app_le by done. unfold receive. rewrite take_bytes_no_byte by done. by eexists.
  - assert (room = String.length hdr + S (room - String.length hdr - 1)) as E by lia.
    rewrite str_length_app in Hr. change (String.length (String nl text)) with (S (String.length text)) in Hr. set (k := room - String.length hdr - 1) in *.
    rewrite E, take_bytes_app_gt, take_bytes_S. unfold receive.
    rewrite has_byte_app. cbn [has_byte]. rewrite byte_eqb_refl, orb_true_r.
    assert (announced (hdr +:+ String nl (take_bytes k text)) = Some (Z.of_nat (String.length text))) as ->.
    { unfold announced, read_line. rewrite split_once_app by done. cbn [fst]. unfold hdr, len_str.
      rewrite (valid_ascii (("OK+" +:+ _) +:+ String nl "")) by (by rewrite !ascii_only_app, show_uint_ascii).
      rewrite trim_end_nl, trim_end_digits, strip_prefix_app. simpl. apply parse_show_uint. lia. }
    cbn [default from_option id]. rewrite (proj2 (Z.ltb_ge _ _)) by done.
    eexists. f_equal. apply decode_short; [lia|]. rewrite take_bytes_short; lia.
Qed.

(** A server that holds [wd], on a connection that then ends or stays open.  Its stream does
    not block: it takes no more than it has [room] for, and the server ignores that the
    rest is lost. *)
Section serving.
Context {NB : Type} `{!NotebookOps NB}.
Context (ord : gmap Z Pane -> list PaneId).
Context (pkg_version : string) (get_url : BrowserPanelId -> option string).
Context (read_text : Z -> option string) (debug_str : string -> string).
Context (status_json : StatusInfo -> string).
Context (now : Z) (free_port : option Z) (urandom : nat -> option string).

Definition served (room : nat) (failed : option string) (wd : World NB) (text : string) : Sent :=
  match process_lines ord pkg_version get_url read_text debug_str status_json now free_port urandom
          (S (String.length text)) text wd with
  | Some (_, out, _) => Received (take_bytes room out) failed
  | None => Received "" None
  end.
End serving.



(** The number of bytes of a body is trusted: a server can announce one for which no buffer
    can be made, and the client panics. *)
Lemma cli_length_trusted send to_json show_f64 c :
  send (command_line show_f64 c +:+ String nl "") = Received ("OK+18446744073709551615" +:+ String nl "") None ->
  main (fun _ => Accepted send) to_json show_f64 (Some "s") None false c = None.
Proof. intros H. unfold main, send_command. simpl. rewrite H. by vm_compute. Qed.
