(* ===== verification/Broker.v ===== *)
(** * The proxy broker (app/src/remote/proxy_broker.rs)

    Workspaces on the same transport share one proxy tunnel.  [acquire] and
    [release] are the critical sections behind [ProxyLease]; [run] is one segment
    of [tunnel_task] between two points where it can be interrupted: the awaits
    ([StartTunnel] .. [Backoff]) and the acquisitions of the mutex.  Aborting a
    task takes effect at its next await; a ping is taken to be such an await, that
    is, the call that fails before it has waited for anything (a write refused at
    once), in the instant between the look at the entries and the ping in which
    the task was aborted, is not modelled.  A tunnel is open from its start until
    the [ProxyTunnel] is shut down or dropped.  What the network answers is the
    [Event] of a step. *)

From S2P Require Import Prelude F64 RustStr RemoteConfig.
Open Scope string_scope.
Open Scope list_scope.

Inductive ProxyState := ProxyConnecting | ProxyReady (e : ProxyEndpoint) | ProxyError (msg : string).
#[global] Instance ProxyState_eq_dec : EqDecision ProxyState.
Proof. solve_decision. Defined.

(** Callbacks, leases, tasks and tunnels (with their RPC clients) are named by
    numbers. *)
Record BrokerEntry := mkEntry {
  subscriber_count : nat;
  tunnel : option nat;
  rpc : option nat;
  endpoint : option ProxyEndpoint;
  callbacks : list Z;
  task : option nat;
}.

(** Where a task is: at an await or just before it takes the mutex. *)
Inductive Pc :=
  | StartTunnel
  | Started (c : nat) (ep : ProxyEndpoint)
  | Waiting (c : nat) | CheckEntry (c : nat) | Ping (c : nat) | Died (c : nat)
  | ShutdownRetry (c : nat) | ShutdownExit (c : nat)
  | StartFailed (msg : string) | Backoff (delay : f64) | Recheck
  | Finished.

Record Task := mkTask { t_key : string; t_pc : Pc; t_retry : Z; t_aborted : bool }.

Record Broker := mkBroker {
  entries : gmap string BrokerEntry;
  tasks : gmap nat Task;
  leases : gmap nat string;
  open_tunnels : gset nat;
  shut_clients : gset nat;
  next_task : nat; next_lease : nat; next_tunnel : nat;
  notified : list (Z * ProxyState);
}.

Definition broker_new : Broker := mkBroker ∅ ∅ ∅ ∅ ∅ 0 0 0 [].

Definition set_entries (m : gmap string BrokerEntry) (b : Broker) : Broker :=
  mkBroker m (tasks b) (leases b) (open_tunnels b) (shut_clients b) (next_task b) (next_lease b)
    (next_tunnel b) (notified b).
Definition set_tasks (m : gmap nat Task) (b : Broker) : Broker :=
  mkBroker (entries b) m (leases b) (open_tunnels b) (shut_clients b) (next_task b) (next_lease b)
    (next_tunnel b) (notified b).
Definition set_open (o : gset nat) (b : Broker) : Broker :=
  mkBroker (entries b) (tasks b) (leases b) o (shut_clients b) (next_task b) (next_lease b)
    (next_tunnel b) (notified b).
Definition shut_client (c : option nat) (b : Broker) : Broker :=
  mkBroker (entries b) (tasks b) (leases b) (open_tunnels b)
    (match c with Some c => {[c]} ∪ shut_clients b | None => shut_clients b end)
    (next_task b) (next_lease b) (next_tunnel b) (notified b).
Definition notify (cbs : list Z) (s : ProxyState) (b : Broker) : Broker :=
  mkBroker (entries b) (tasks b) (leases b) (open_tunnels b) (shut_clients b) (next_task b)
    (next_lease b) (next_tunnel b) (notified b ++ ((fun c => (c, s)) <$> cbs)).
Definition add_lease (key : string) (b : Broker) : nat * Broker :=
  (next_lease b,
   mkBroker (entries b) (tasks b) (<[next_lease b := key]> (leases b)) (open_tunnels b)
     (shut_clients b) (next_task b) (S (next_lease b)) (next_tunnel b) (notified b)).
Definition drop_lease (l : nat) (b : Broker) : Broker :=
  mkBroker (entries b) (tasks b) (delete l (leases b)) (open_tunnels b) (shut_clients b)
    (next_task b) (next_lease b) (next_tunnel b) (notified b).
(** [runtime.spawn(tunnel_task(..))]. *)
Definition spawn (key : string) (b : Broker) : nat * Broker :=
  (next_task b,
   mkBroker (entries b) (<[next_task b := mkTask key StartTunnel 0 false]> (tasks b)) (leases b)
     (open_tunnels b) (shut_clients b) (S (next_task b)) (next_lease b) (next_tunnel b) (notified b)).
Definition abort_task (tid : option nat) (b : Broker) : Broker :=
  match tid with
  | Some tid => set_tasks (alter (fun t => mkTask (t_key t) (t_pc t) (t_retry t) true) tid (tasks b)) b
  | None => b
  end.
(** Shutting down or dropping a [ProxyTunnel]. *)
Definition close_tunnel (c : option nat) (b : Broker) : Broker :=
  match c with Some c => set_open (open_tunnels b ∖ {[c]}) b | None => b end.

(** ** Leases *)

Definition acquire (key : string) (callback : Z) (b : Broker) : nat * Broker :=
  match entries b !! key with
  | Some e =>
      let b := set_entries (<[key := mkEntry (S (subscriber_count e)) (tunnel e) (rpc e) (endpoint e)
                                       (callbacks e ++ [callback]) (task e)]> (entries b)) b in
      let b := notify [callback] (match endpoint e with
                                  | Some ep => ProxyReady ep
                                  | None => ProxyConnecting
                                  end) b in
      add_lease key b
  | None =>
      let b := notify [callback] ProxyConnecting b in
      let '(tid, b) := spawn key b in
      let b := set_entries (<[key := mkEntry 1 None None None [callback] (Some tid)]> (entries b)) b in
      add_lease key b
  end.

Definition release (key : string) (b : Broker) : Broker :=
  match entries b !! key with
  | None => b
  | Some e =>
      let n := subscriber_count e - 1 in
      if decide (n = 0) then
        let b := abort_task (task e) b in
        let b := shut_client (rpc e) (close_tunnel (tunnel e) b) in
        set_entries (delete key (entries b)) b
      else
        set_entries (<[key := mkEntry n (tunnel e) (rpc e) (endpoint e)
                                (removelast (callbacks e)) (task e)]> (entries b)) b
  end.

(** [Drop for ProxyLease]. *)
Definition drop_proxy_lease (l : nat) (b : Broker) : option Broker :=
  key ← leases b !! l; Some (release key (drop_lease l b)).

(** ** The tunnel task *)

(** [2.0_f64.powf(k)] for a natural number [k]. *)
Definition f64_pow2 (k : nat) : f64 :=
  if decide (k <= 1023) then SpecFloat.S754_finite false 4503599627370496 (Z.of_nat k - 52)
  else SpecFloat.S754_infinity false.
(** [f64::min] on numbers. *)
Definition f64_min (x y : f64) : f64 := if f64_ltb y x then y else x.
Definition backoff_delay (base : f64) (retry : Z) : f64 :=
  f64_min (f64_mul base (f64_pow2 (Z.to_nat (retry - 1)))) (f64_of_Z 60).

Inductive Event :=
  | StartOk (port : Z)      (** [start_tunnel] succeeds *)
  | StartErr (msg : string) (** [start_tunnel] fails *)
  | Timer                   (** a sleep is over *)
  | PingOk | PingErr        (** the answer to the ping *)
  | ShutdownDone            (** the client has been killed *)
  | Locked                  (** the mutex has been taken *)
  | Cancel.                 (** the runtime drops an aborted task *)

(** The awaits, where an aborted task is dropped. *)
Definition at_await (pc : Pc) : bool :=
  match pc with
  | StartTunnel | Waiting _ | Ping _ | ShutdownRetry _ | ShutdownExit _ | Backoff _ => true
  | _ => false
  end.
(** The tunnel a task still owns. *)
Definition owned (pc : Pc) : option nat :=
  match pc with Started c _ | ShutdownExit c => Some c | _ => None end.

Definition goto (tid : nat) (pc : Pc) (retry : Z) (b : Broker) : Broker :=
  set_tasks (alter (fun t => mkTask (t_key t) pc retry (t_aborted t)) tid (tasks b)) b.

(** A task that returns or is dropped drops the tunnel it owns. *)
Definition finish (tid : nat) (t : Task) (b : Broker) : Broker :=
  goto tid Finished (t_retry t) (close_tunnel (owned (t_pc t)) b).

Definition fresh_tunnel (b : Broker) : nat * Broker :=
  (next_tunnel b,
   mkBroker (entries b) (tasks b) (leases b) ({[next_tunnel b]} ∪ open_tunnels b) (shut_clients b)
     (next_task b) (next_lease b) (S (next_tunnel b)) (notified b)).

(** Replacing the tunnel of an entry drops the one it had. *)
Definition put_tunnel (key : string) (e : BrokerEntry) (c : option nat) (ep : option ProxyEndpoint)
    (b : Broker) : Broker :=
  set_entries (<[key := mkEntry (subscriber_count e) c c ep (callbacks e) (task e)]> (entries b))
    (close_tunnel (tunnel e) b).

Definition run (tid : nat) (ev : Event) (b : Broker) : option Broker :=
  t ← tasks b !! tid;
  let key := t_key t in
  let retry := t_retry t in
  match t_pc t, ev with
  | StartTunnel, StartOk port =>
      if t_aborted t then None else
      let '(c, b) := fresh_tunnel b in
      Some (goto tid (Started c (mkProxyEndpoint "127.0.0.1" port)) 0 b)
  | StartTunnel, StartErr msg =>
      if t_aborted t then None else Some (goto tid (StartFailed msg) (u32_succ retry) b)
  | Started c ep, Locked =>
      match entries b !! key with
      | Some e =>
          Some (goto tid (Waiting c) retry
                  (notify (callbacks e) (ProxyReady ep) (put_tunnel key e (Some c) (Some ep) b)))
      | None => Some (goto tid (ShutdownExit c) retry b)
      end
  | Waiting c, Timer => if t_aborted t then None else Some (goto tid (CheckEntry c) retry b)
  | CheckEntry c, Locked =>
      Some (goto tid (if entries b !! key then Ping c else ShutdownExit c) retry b)
  | Ping c, PingOk => if t_aborted t then None else Some (goto tid (Waiting c) retry b)
  | Ping c, PingErr => if t_aborted t then None else Some (goto tid (Died c) retry b)
  | Died c, Locked =>
      match entries b !! key with
      | Some e =>
          Some (goto tid (ShutdownRetry c) retry
                  (notify (callbacks e) ProxyConnecting (put_tunnel key e None None b)))
      | None => Some (finish tid t b)
      end
  | ShutdownRetry c, ShutdownDone =>
      Some (goto tid StartTunnel (u32_succ retry) (shut_client (Some c) b))
  | ShutdownExit c, ShutdownDone => Some (finish tid t (shut_client (Some c) b))
  | StartFailed msg, Locked =>
      match entries b !! key with
      | Some e =>
          Some (goto tid (Backoff (backoff_delay (f64_of_Z 3) retry)) retry
                  (notify (callbacks e) (ProxyError msg) b))
      | None => Some (finish tid t b)
      end
  | Backoff _, Timer => if t_aborted t then None else Some (goto tid Recheck retry b)
  | Recheck, Locked =>
      match entries b !! key with
      | Some _ => Some (goto tid StartTunnel retry b)
      | None => Some (finish tid t b)
      end
  | pc, Cancel => if t_aborted t && at_await pc then Some (finish tid t b) else None
  | _, _ => None
  end.

(** ** Runs *)

Inductive Label := LAcquire (cfg : RemoteConfiguration) (callback : Z) | LDrop (lease : nat)
  | LTask (tid : nat) (ev : Event).

Definition perform (l : Label) (b : Broker) : option Broker :=
  match l with
  | LAcquire cfg cb => Some (snd (acquire (transport_key cfg) cb b))
  | LDrop lease => drop_proxy_lease lease b
  | LTask tid ev => run tid ev b
  end.

Inductive steps : Broker -> list Label -> Broker -> Prop :=
  | steps_nil b : steps b [] b
  | steps_cons b l b' ls b'' : perform l b = Some b' -> steps b' ls b'' -> steps b (l :: ls) b''.

Definition reachable (b : Broker) : Prop := exists ls, steps broker_new ls b.
