(* ===== verification/BrokerProps.v ===== *)
(** * The proxy broker: properties

    [counts_ok] relates entries, leases and tasks, [tunnels_ok] says who owns an
    open tunnel; both hold in every reachable state, whatever the interleaving of
    workspaces and tasks and whatever the network answers.  [rank] bounds what an
    aborted task may still do. *)

From S2P Require Import Prelude F64 RustStr RemoteConfig Broker.
Open Scope string_scope.
Open Scope list_scope.

(** ** Leases, entries and tasks *)

Definition lease_count (k : string) (m : gmap nat string) : nat :=
  size (filter (fun kv : nat * string => kv.2 = k) m).

Lemma lease_count_insert k k' l m :
  m !! l = None -> lease_count k (<[l := k']> m) = if decide (k' = k) then S (lease_count k m) else lease_count k m.
Proof.
  intros Hl. unfold lease_count. destruct (decide (k' = k)) as [->|Hk].
  - rewrite map_filter_insert_True by done. apply map_size_insert_None.
    by apply map_lookup_filter_None_2; left.
  - rewrite map_filter_insert_False by done. by rewrite delete_id.
Qed.
Lemma lease_count_delete k k' l m :
  m !! l = Some k' -> lease_count k m = if decide (k' = k) then S (lease_count k (delete l m)) else lease_count k (delete l m).
Proof.
  intros Hl. rewrite <- (insert_delete_id m l k') at 1 by done.
  apply lease_count_insert, lookup_delete_eq.
Qed.

(** What a task step keeps of an entry. *)
Definition same_sub (e e' : BrokerEntry) : Prop :=
  subscriber_count e' = subscriber_count e /\ callbacks e' = callbacks e /\ task e' = task e.

(** A task that has decided to return. *)
Definition leaving (pc : Pc) : Prop :=
  match pc with ShutdownExit _ | Finished => True | _ => False end.

Record frame (tid : nat) (b b' : Broker) : Prop := mkFrame {
  fr_leases : leases b' = leases b;
  fr_next_lease : next_lease b' = next_lease b;
  fr_next_task : next_task b' = next_task b;
  fr_entries : forall k, option_Forall2 same_sub (entries b !! k) (entries b' !! k);
  fr_tasks : exists t t', tasks b !! tid = Some t /\ tasks b' = <[tid := t']> (tasks b) /\
    t_key t' = t_key t /\ t_aborted t' = t_aborted t /\
    (leaving (t_pc t') -> t_aborted t = true \/ entries b !! t_key t = None \/ leaving (t_pc t));
}.

Lemma same_sub_refl (o : option BrokerEntry) : option_Forall2 same_sub o o.
Proof. destruct o; by repeat constructor. Qed.

(** The other operations of a task step leave the tasks alone. *)
Definition quiet (b b' : Broker) : Prop :=
  leases b' = leases b /\ next_lease b' = next_lease b /\ next_task b' = next_task b /\
  tasks b' = tasks b /\ forall k, option_Forall2 same_sub (entries b !! k) (entries b' !! k).

Lemma put_entries key e c ep b :
  entries (put_tunnel key e c ep b) =
  <[key := mkEntry (subscriber_count e) c c ep (callbacks e) (task e)]> (entries b).
Proof. unfold put_tunnel. by destruct (tunnel e). Qed.
Lemma quiet_put key e c ep b : entries b !! key = Some e -> quiet b (put_tunnel key e c ep b).
Proof.
  intros He. split_and!; try by unfold put_tunnel; destruct (tunnel e).
  intros k. rewrite put_entries.
  destruct (decide (k = key)) as [->|]; simplify_map_eq; [by repeat constructor|apply same_sub_refl].
Qed.
Lemma quiet_notify cbs s b b' : quiet b b' -> quiet b (notify cbs s b').
Proof. intros (H1 & H2 & H3 & H4 & H5). by split_and!. Qed.
Lemma quiet_refl b : quiet b b.
Proof. split_and!; try done. intros. apply same_sub_refl. Qed.
Lemma quiet_close c b : quiet b (close_tunnel c b).
Proof. destruct c; split_and!; try done; intros; apply same_sub_refl. Qed.
Lemma quiet_shut c b b' : quiet b b' -> quiet b (shut_client c b').
Proof. intros (H1 & H2 & H3 & H4 & H5). by split_and!. Qed.
Lemma quiet_fresh b : quiet b (snd (fresh_tunnel b)).
Proof. split_and!; try done; intros; apply same_sub_refl. Qed.
#[local] Hint Resolve quiet_put quiet_notify quiet_refl quiet_shut quiet_close quiet_fresh : core.

Lemma quiet_frame tid t pc retry b b' :
  quiet b b' -> tasks b !! tid = Some t ->
  (leaving pc -> t_aborted t = true \/ entries b !! t_key t = None \/ leaving (t_pc t)) ->
  frame tid b (goto tid pc retry b').
Proof.
  intros (H1 & H2 & H3 & H4 & H5) Ht Hpc. split; simpl; try done.
  exists t, (mkTask (t_key t) pc retry (t_aborted t)). split_and!; try done. rewrite H4.
  apply map_eq. intros i. by destruct (decide (i = tid)) as [->|]; simplify_map_eq.
Qed.

Lemma finish_frame tid t b b' :
  quiet b b' -> tasks b !! tid = Some t ->
  t_aborted t = true \/ entries b !! t_key t = None \/ leaving (t_pc t) -> frame tid b (finish tid t b').
Proof.
  intros Hq Ht Hf. unfold finish. apply quiet_frame with t; [|done|done].
  destruct Hq as (H1 & H2 & H3 & H4 & H5). by split_and!; destruct (owned _).
Qed.

(** The answer of a step that an aborted task does not take. *)
Ltac unabort H :=
  match type of H with
  | (if ?ab then None else _) = Some _ => destruct ab; [done|]
  | (if ?ab then _ else None) = Some _ => destruct ab; [|done]
  end.

Lemma run_frame tid ev b b' : run tid ev b = Some b' -> frame tid b b'.
Proof.
  unfold run. intros H. destruct (tasks b !! tid) as [t|] eqn:Ht; [|done]. simpl in H.
  destruct t as [key pc retry ab]. cbn [t_pc t_key t_retry t_aborted] in H.
  destruct pc, ev; try done; cbn [at_await] in H; rewrite ?andb_true_r, ?andb_false_r in H; try done;
    try unabort H; try (destruct (entries b !! key) eqn:He); simplify_eq;
    try (eapply quiet_frame; [|exact Ht|simpl; tauto]; auto; fail);
    try (eapply finish_frame; [|exact Ht|simpl; tauto]; auto; fail).
Qed.

(** Entries count the leases and callbacks of their key and have one running task;
    a task that has not been aborted belongs to an entry and has not returned. *)
Record counts_ok (b : Broker) : Prop := mkCounts {
  co_entry : forall k e, entries b !! k = Some e ->
    subscriber_count e = lease_count k (leases b) /\ length (callbacks e) = subscriber_count e /\
    0 < subscriber_count e /\
    exists tid t, task e = Some tid /\ tasks b !! tid = Some t /\ t_key t = k /\ t_aborted t = false;
  co_none : forall k, entries b !! k = None -> lease_count k (leases b) = 0;
  co_task : forall tid t, tasks b !! tid = Some t -> t_aborted t = false ->
    ~ leaving (t_pc t) /\ exists e, entries b !! t_key t = Some e /\ task e = Some tid;
  co_tid : forall tid, is_Some (tasks b !! tid) -> tid < next_task b;
  co_lease : forall l, is_Some (leases b !! l) -> l < next_lease b;
}.

Lemma frame_counts tid b b' : frame tid b b' -> counts_ok b -> counts_ok b'.
Proof.
  intros [Hl Hnl Hnt He (t & t' & Ht & Hts & Hk & Ha & Hpc)] [C1 C2 C3 C4 C5].
  assert (forall i u', tasks b' !! i = Some u' -> exists u, tasks b !! i = Some u /\ t_key u' = t_key u /\
            t_aborted u' = t_aborted u /\ (leaving (t_pc u') -> t_aborted u = true \/
            entries b !! t_key u = None \/ leaving (t_pc u))) as Hback.
  { intros i u'. rewrite Hts. destruct (decide (i = tid)) as [->|]; simplify_map_eq; [naive_solver|].
    intros Hu. exists u'. naive_solver. }
  split.
  - intros k e' Hk'. specialize (He k). rewrite Hk' in He. inversion He as [e ? Hs E1 E2|]; subst.
    destruct Hs as (S1 & S2 & S3). destruct (C1 k e (eq_sym E1)) as (D1 & D2 & D3 & i & u & D4 & D5 & D6 & D7).
    rewrite S1, S2, S3, Hl. split_and!; try done. exists i. rewrite Hts.
    destruct (decide (i = tid)) as [->|]; simplify_map_eq; [|by exists u]. exists t'. by rewrite Hk, Ha.
  - intros k Hk'. specialize (He k). rewrite Hk' in He. inversion He as [|E1 E2]. rewrite Hl. by apply C2.
  - intros i u' Hu' Hab. destruct (Hback i u' Hu') as (u & Hu & Hku & Hau & Hpu). rewrite Hau in Hab.
    destruct (C3 i u Hu Hab) as (Hnl' & e & D1 & D2). split.
    + intros Hlv. destruct (Hpu Hlv) as [|[]]; congruence.
    + specialize (He (t_key u)). rewrite D1 in He. inversion He as [? e' Hs E1 E2|]; subst.
      exists e'. rewrite Hku. split; [done|]. destruct Hs as (_ & _ & ->). done.
  - intros i [u Hu]. rewrite Hnt. apply C4. destruct (Hback i u Hu) as (u0 & -> & _). done.
  - intros l. rewrite Hl, Hnl. apply C5.
Qed.

Lemma acquire_counts key cb b : counts_ok b -> counts_ok (snd (acquire key cb b)).
Proof.
  intros [C1 C2 C3 C4 C5].
  assert (leases b !! next_lease b = None) as Hl.
  { apply eq_None_not_Some. intros H. apply C5 in H. lia. }
  assert (tasks b !! next_task b = None) as Ht.
  { apply eq_None_not_Some. intros H. apply C4 in H. lia. }
  assert (forall k, lease_count k (<[next_lease b := key]> (leases b)) =
            if decide (key = k) then S (lease_count k (leases b)) else lease_count k (leases b)) as Hc
    by (intros k; by apply lease_count_insert).
  unfold acquire. destruct (entries b !! key) as [e|] eqn:He; split; simpl.
  - intros k e' Hk. rewrite Hc. destruct (decide (key = k)) as [->|]; simplify_map_eq; [|by apply C1].
    destruct (C1 k e He) as (D1 & D2 & D3 & D4). rewrite length_app. simpl. split_and!; [lia..|done].
  - intros k Hk. rewrite Hc. destruct (decide (key = k)) as [->|]; simplify_map_eq. by apply C2.
  - intros tid t Hti Hab. destruct (C3 tid t Hti Hab) as (D0 & e0 & D1 & D2). split; [done|].
    destruct (decide (t_key t = key)) as [E|]; [rewrite E in *|]; simplify_map_eq; eauto.
  - done.
  - intros l Hs. destruct (decide (l = next_lease b)); [lia|]. simplify_map_eq. apply C5 in Hs. lia.
  - intros k e' Hk. rewrite Hc. destruct (decide (key = k)) as [->|]; simplify_map_eq.
    + rewrite (C2 k He). split_and!; try done; [lia|].
      eexists _, _. by split_and!; [|apply lookup_insert_eq|..].
    + destruct (C1 k e' Hk) as (D1 & D2 & D3 & tid & t & D4 & D5 & D6 & D7). split_and!; try done.
      exists tid, t. rewrite lookup_insert_ne by congruence. done.
  - intros k Hk. rewrite Hc. destruct (decide (key = k)) as [->|]; simplify_map_eq. by apply C2.
  - intros tid t Hti Hab. destruct (decide (tid = next_task b)) as [->|]; simplify_map_eq; [by eauto|].
    destruct (C3 tid t Hti Hab) as (D0 & e0 & D1 & D2). split; [done|]. exists e0.
    rewrite lookup_insert_ne by congruence. done.
  - intros tid Hs. destruct (decide (tid = next_task b)); [lia|]. simplify_map_eq. apply C4 in Hs. lia.
  - intros l Hs. destruct (decide (l = next_lease b)); [lia|]. simplify_map_eq. apply C5 in Hs. lia.
Qed.

Lemma abort_lookup o b i :
  tasks (abort_task o b) !! i =
  if decide (o = Some i) then (fun t => mkTask (t_key t) (t_pc t) (t_retry t) true) <$> tasks b !! i
  else tasks b !! i.
Proof.
  destruct o as [j|]; [|done]. simpl.
  destruct (decide (Some j = Some i)) as [[= ->]|]; [apply lookup_alter_eq|].
  apply lookup_alter_ne. congruence.
Qed.

(** The parts of a state after a release. *)
Lemma release_last key e b :
  entries b !! key = Some e -> (subscriber_count e = 1)%nat ->
  let b' := release key b in
  entries b' = delete key (entries b) /\ tasks b' = tasks (abort_task (task e) b) /\
  leases b' = leases b /\ next_task b' = next_task b /\ next_lease b' = next_lease b /\
  next_tunnel b' = next_tunnel b /\
  open_tunnels b' = match tunnel e with Some c => open_tunnels b ∖ {[c]} | None => open_tunnels b end.
Proof.
  intros He Hn. unfold release. rewrite He, Hn. simpl. by destruct (tunnel e), (task e).
Qed.
Lemma release_more key e b :
  entries b !! key = Some e -> 1 < subscriber_count e ->
  release key b = set_entries (<[key := mkEntry (subscriber_count e - 1) (tunnel e) (rpc e) (endpoint e)
                                  (removelast (callbacks e)) (task e)]> (entries b)) b.
Proof. intros He Hn. unfold release. rewrite He. rewrite decide_False by lia. done. Qed.

Lemma removelast_length {A} (l : list A) : length (removelast l) = length l - 1.
Proof.
  destruct l as [|x l] using rev_ind; [done|]. rewrite removelast_last, length_app. simpl. lia.
Qed.

Lemma release_counts l b b' : drop_proxy_lease l b = Some b' -> counts_ok b -> counts_ok b'.
Proof.
  unfold drop_proxy_lease. intros H [C1 C2 C3 C4 C5].
  destruct (leases b !! l) as [key|] eqn:Hl; simplify_eq/=.
  assert (forall k, lease_count k (leases b) = if decide (key = k) then S (lease_count k (delete l (leases b)))
            else lease_count k (delete l (leases b))) as Hc by (intros k; by apply lease_count_delete).
  destruct (entries b !! key) as [e|] eqn:He.
  2: { specialize (Hc key). rewrite (C2 _ He), decide_True in Hc by done. lia. }
  destruct (C1 key e He) as (D1 & D2 & D3 & i & u & D4 & D5 & D6 & D7).
  assert (subscriber_count e = S (lease_count key (delete l (leases b)))) as Hn
    by (rewrite D1, Hc, decide_True; done).
  destruct (decide (subscriber_count e = 1)) as [H1|H1].
  - destruct (release_last key e (drop_lease l b) He H1) as (E1 & E2 & E3 & E4 & E5 & _).
    split; rewrite ?E1, ?E2, ?E3, ?E4, ?E5; simpl.
    + intros k e' Hk. rewrite lookup_delete_Some in Hk. destruct Hk as [Hkk Hk].
      specialize (Hc k). rewrite decide_False in Hc by done. rewrite <- Hc.
      destruct (C1 k e' Hk) as (F1 & F2 & F3 & j & v & F4 & F5 & F6 & F7). split_and!; try done.
      exists j, v. rewrite abort_lookup, decide_False; [done|]. rewrite D4. intros [= ->].
      simpl in *. congruence.
    + intros k Hk. destruct (decide (key = k)) as [<-|]; [lia|].
      rewrite lookup_delete_ne in Hk by done. specialize (Hc k). rewrite decide_False in Hc by done.
      rewrite <- Hc. by apply C2.
    + intros tid t. rewrite abort_lookup. case_decide as E; [by destruct (_ !! tid); simpl; intros; simplify_eq|].
      intros Ht Hab. destruct (C3 tid t Ht Hab) as (F0 & e0 & F1 & F2). split; [done|]. exists e0.
      rewrite lookup_delete_ne; [done|]. intros Ek. simpl in *. congruence.
    + intros tid. rewrite abort_lookup. case_decide; rewrite ?fmap_is_Some; apply C4.
    + intros l' [x Hx]. apply C5. exists x. by apply lookup_delete_Some in Hx as [_ Hx].
  - rewrite (release_more key e) by (done || lia). split; simpl; try done.
    + intros k e' Hk. destruct (decide (key = k)) as [<-|Hne]; simplify_map_eq.
      * rewrite removelast_length, D2. split_and!; try lia. by exists i, u.
      * specialize (Hc k). rewrite decide_False in Hc by done. rewrite <- Hc. by apply C1.
    + intros k Hk. destruct (decide (key = k)) as [<-|Hne]; simplify_map_eq.
      specialize (C2 k Hk). by rewrite Hc, decide_False in C2.
    + intros tid t Ht Hab. destruct (C3 tid t Ht Hab) as (F0 & e0 & F1 & F2). split; [done|].
      destruct (decide (t_key t = key)) as [E|]; [rewrite E in *|]; simplify_map_eq; eauto.
    + intros l' [x Hx]. apply C5. exists x. by apply lookup_delete_Some in Hx as [_ Hx].
Qed.

Lemma perform_counts l b b' : perform l b = Some b' -> counts_ok b -> counts_ok b'.
Proof.
  destruct l as [cfg cb|lease|tid ev]; simpl; intros H Hok.
  - simplify_eq. by apply acquire_counts.
  - by eapply release_counts.
  - by eapply frame_counts; [eapply run_frame|].
Qed.

Lemma broker_new_counts : counts_ok broker_new.
Proof. split; simpl; try done; intros x [y Hy]; by rewrite lookup_empty in Hy. Qed.

(** Induction over a run. *)
Lemma steps_preserve (P : Broker -> Prop) b ls b' :
  (forall l b b', perform l b = Some b' -> P b -> P b') -> steps b ls b' -> P b -> P b'.
Proof. intros Hp H. induction H; eauto. Qed.

Lemma reachable_counts b : reachable b -> counts_ok b.
Proof. intros [ls H]. eapply steps_preserve; [apply perform_counts|exact H|apply broker_new_counts]. Qed.

(** ** What an aborted task may still do *)

Definition rank (pc : Pc) : nat :=
  match pc with
  | Finished => 0
  | StartTunnel | Waiting _ | Ping _ | ShutdownExit _ | Backoff _ => 1
  | ShutdownRetry _ | Started _ _ | CheckEntry _ | StartFailed _ | Recheck => 2
  | Died _ => 3
  end.

Lemma goto_lookup tid pc retry b b' t :
  tasks b' = tasks b -> tasks b !! tid = Some t ->
  tasks (goto tid pc retry b') !! tid = Some (mkTask (t_key t) pc retry (t_aborted t)).
Proof. intros E Ht. simpl. by rewrite E, lookup_alter_eq, Ht. Qed.
Lemma put_tasks key e c ep b : tasks (put_tunnel key e c ep b) = tasks b.
Proof. unfold put_tunnel. by destruct (tunnel e). Qed.
Lemma close_tasks c b : tasks (close_tunnel c b) = tasks b.
Proof. by destruct c. Qed.

Lemma run_rank tid ev b b' t :
  run tid ev b = Some b' -> tasks b !! tid = Some t -> t_aborted t = true ->
  exists t', tasks b' !! tid = Some t' /\ t_aborted t' = true /\ rank (t_pc t') < rank (t_pc t).
Proof.
  unfold run. intros H Ht Hab. rewrite Ht in H. simpl in H.
  destruct t as [key pc retry ab]. cbn [t_pc t_key t_retry t_aborted] in *. subst ab.
  destruct pc, ev; try done; cbn [at_await andb] in H; try done;
    try (destruct (entries b !! key) eqn:He); simplify_eq; unfold finish;
    (eexists; split; [eapply goto_lookup; [|exact Ht]; simpl; rewrite ?put_tasks, ?close_tasks; done|]);
    simpl; split; (done || lia).
Qed.

Lemma aborted_enabled tid b t :
  tasks b !! tid = Some t -> t_aborted t = true -> t_pc t <> Finished -> exists ev, is_Some (run tid ev b).
Proof.
  intros Ht Hab Hpc. destruct (at_await (t_pc t)) eqn:Ha.
  - exists Cancel. unfold run. rewrite Ht. simpl. destruct (t_pc t); try done; by rewrite Hab.
  - exists Locked. unfold run. rewrite Ht. simpl.
    destruct (t_pc t); try done; repeat case_match; eauto.
Qed.

(** Steps of others leave an aborted task where it is. *)
Definition own (tid : nat) (l : Label) : bool :=
  match l with LTask i _ => bool_decide (i = tid) | _ => false end.

Lemma others_keep l b b' tid t :
  counts_ok b -> perform l b = Some b' -> own tid l = false -> tasks b !! tid = Some t ->
  t_aborted t = true -> tasks b' !! tid = Some t.
Proof.
  intros Hok H Ho Ht Hab. destruct l as [cfg cb|lease|i ev]; simpl in *.
  - simplify_eq. unfold acquire. destruct (entries b !! _); simpl; [done|].
    rewrite lookup_insert_ne; [done|]. intros E.
    assert (tid < next_task b) by (apply (co_tid _ Hok); eauto). lia.
  - unfold drop_proxy_lease in H. destruct (leases b !! lease) as [key|]; simplify_eq/=.
    unfold release. destruct (entries (drop_lease lease b) !! key) as [e|]; [|done].
    case_decide; [|done]. simpl.
    replace (tasks (close_tunnel (tunnel e) _)) with (tasks (abort_task (task e) (drop_lease lease b)))
      by by destruct (tunnel e).
    rewrite abort_lookup. case_decide; [|done]. simpl. rewrite Ht. simpl. f_equal.
    destruct t; simpl in *; by subst.
  - apply bool_decide_eq_false in Ho. apply run_frame in H as [_ _ _ _ (u & u' & _ & -> & _)].
    by rewrite lookup_insert_ne.
Qed.

Lemma own_steps_bounded b ls b' tid t :
  counts_ok b -> steps b ls b' -> tasks b !! tid = Some t -> t_aborted t = true ->
  exists t', tasks b' !! tid = Some t' /\ t_aborted t' = true /\
    length (List.filter (own tid) ls) + rank (t_pc t') <= rank (t_pc t).
Proof.
  intros Hok H. revert t. induction H as [b|b l b1 ls b2 Hl Hs IH]; intros t Ht Hab; [by exists t|].
  assert (counts_ok b1) as Hok1 by by eapply perform_counts.
  destruct (own tid l) eqn:Ho.
  - destruct l as [| |i ev]; try done. simpl in Ho. apply bool_decide_eq_true in Ho as ->.
    destruct (run_rank _ _ _ _ _ Hl Ht Hab) as (t1 & Ht1 & Hab1 & Hr).
    destruct (IH Hok1 t1 Ht1 Hab1) as (t2 & Ht2 & Hab2 & Hr2). exists t2. split_and!; try done.
    simpl. rewrite bool_decide_true by done. simpl. lia.
  - destruct (IH Hok1 t) as (t2 & Ht2 & Hab2 & Hr2); [by apply (others_keep l b)|done|]. exists t2.
    split_and!; try done. simpl. by rewrite Ho.
Qed.

(** ** Who owns an open tunnel *)

(** The tunnel a task is concerned with. *)
Definition mentions (pc : Pc) : option nat :=
  match pc with
  | Started c _ | Waiting c | CheckEntry c | Ping c | Died c | ShutdownRetry c | ShutdownExit c => Some c
  | _ => None
  end.

Record tunnels_ok (b : Broker) : Prop := mkTunnels {
  tk_open : forall c, c ∈ open_tunnels b ->
    (exists k e, entries b !! k = Some e /\ tunnel e = Some c) \/
    (exists tid t, tasks b !! tid = Some t /\ owned (t_pc t) = Some c);
  tk_entry : forall k e c, entries b !! k = Some e -> tunnel e = Some c ->
    c ∈ open_tunnels b /\ c < next_tunnel b /\
    forall tid t, tasks b !! tid = Some t -> mentions (t_pc t) = Some c -> t_key t = k /\ owned (t_pc t) = None;
  tk_started : forall tid t c ep, tasks b !! tid = Some t -> t_pc t = Started c ep -> c ∈ open_tunnels b;
  tk_fresh : forall tid t c, tasks b !! tid = Some t -> mentions (t_pc t) = Some c -> c < next_tunnel b;
  tk_unique : forall i j t u c, tasks b !! i = Some t -> tasks b !! j = Some u ->
    mentions (t_pc t) = Some c -> mentions (t_pc u) = Some c -> i = j;
  tk_apart : forall k k' e e' c, entries b !! k = Some e -> entries b !! k' = Some e' ->
    tunnel e = Some c -> tunnel e' = Some c -> k = k';
  tk_endpoint : forall k e, entries b !! k = Some e -> is_Some (endpoint e) <-> is_Some (tunnel e);
}.

(** Only these four parts matter. *)
Lemma tunnels_ext b b' :
  entries b' = entries b -> tasks b' = tasks b -> open_tunnels b' = open_tunnels b ->
  next_tunnel b' = next_tunnel b -> tunnels_ok b -> tunnels_ok b'.
Proof. intros E1 E2 E3 E4 [H1 H2 H3 H4 H5 H6 H7]. split; rewrite ?E1, ?E2, ?E3, ?E4; done. Qed.

Lemma goto_cases tid pc retry b t i u :
  tasks b !! tid = Some t -> tasks (goto tid pc retry b) !! i = Some u ->
  (i = tid /\ u = mkTask (t_key t) pc retry (t_aborted t)) \/ (i <> tid /\ tasks b !! i = Some u).
Proof.
  intros Ht. simpl. destruct (decide (i = tid)) as [->|]; intros H; simplify_map_eq; [by left|by right].
Qed.

(** The task of each lookup of a state after [goto]. *)
Ltac goto_inv Ht :=
  repeat match goal with
  | H : tasks (goto _ _ _ _) !! _ = Some _ |- _ => apply (goto_cases _ _ _ _ _ _ _ Ht) in H as [[-> ->]|[? H]]
  end; cbn [t_key t_pc t_retry t_aborted] in *.

(** An owner that is not the task is still there. *)
Lemma goto_owner tid pc retry b t c :
  tasks b !! tid = Some t -> (owned (t_pc t) = Some c -> owned pc = Some c) ->
  (exists i u, tasks b !! i = Some u /\ owned (t_pc u) = Some c) ->
  exists i u, tasks (goto tid pc retry b) !! i = Some u /\ owned (t_pc u) = Some c.
Proof.
  intros Ht Ho (i & u & Hu & Hc). destruct (decide (i = tid)) as [->|]; simplify_eq.
  - exists tid. eexists. split; [by eapply goto_lookup|]. by apply Ho.
  - exists i, u. simpl. by rewrite lookup_alter_ne.
Qed.

Lemma tunnels_move tid t pc retry b :
  tunnels_ok b -> tasks b !! tid = Some t -> (mentions pc = None \/ mentions pc = mentions (t_pc t)) ->
  owned pc = None -> owned (t_pc t) = None -> tunnels_ok (goto tid pc retry b).
Proof.
  intros [H1 H2 H3 H4 H5 H6 H7] Ht Hm Ho Ho'.
  assert (forall c, mentions pc = Some c -> mentions (t_pc t) = Some c) as Hm' by (intros; destruct Hm; congruence).
  split; try done.
  - intros c Hc. destruct (H1 c Hc) as [|Hown]; [by left|right]. eapply goto_owner; [exact Ht|congruence|done].
  - intros k e c Hk Hc. destruct (H2 k e c Hk Hc) as (D1 & D2 & D3). split_and!; try done.
    intros i u Hu Hmu. goto_inv Ht; [|eauto]. split; [|done]. by apply (D3 tid t); auto.
  - intros i u c ep Hu Hpc. goto_inv Ht; [by subst|eauto].
  - intros i u c Hu Hc. goto_inv Ht; eauto.
  - intros i j u v c Hu Hv Hcu Hcv. goto_inv Ht; eauto.
Qed.

(** The task is about to return: no entry has its tunnel. *)
Lemma tunnels_leave tid t c retry b :
  tunnels_ok b -> tasks b !! tid = Some t -> mentions (t_pc t) = Some c ->
  entries b !! t_key t = None -> tunnels_ok (goto tid (ShutdownExit c) retry b).
Proof.
  intros [H1 H2 H3 H4 H5 H6 H7] Ht Hm He. split; try done.
  - intros d Hd. destruct (H1 d Hd) as [|Hown]; [by left|right]. eapply goto_owner; [exact Ht| |done].
    simpl. intros Hod. destruct (t_pc t); simplify_eq/=; done.
  - intros k e d Hk Hd. destruct (H2 k e d Hk Hd) as (D1 & D2 & D3). split_and!; try done.
    intros i u Hu Hmu. goto_inv Ht; [|eauto]. simplify_eq/=. destruct (D3 tid t Ht Hm) as [E _]. congruence.
  - intros i u d ep Hu Hpc. goto_inv Ht; [done|eauto].
  - intros i u d Hu Hd. goto_inv Ht; simplify_eq/=; eauto.
  - intros i j u v d Hu Hv Hdu Hdv. goto_inv Ht; simplify_eq/=; eauto.
Qed.

Lemma owned_mentions pc c : owned pc = Some c -> mentions pc = Some c.
Proof. by destruct pc. Qed.

Lemma close_open c b : open_tunnels (close_tunnel c b) = match c with Some c => open_tunnels b ∖ {[c]} | None => open_tunnels b end.
Proof. by destruct c. Qed.

Lemma tunnels_finish tid t b :
  tunnels_ok b -> tasks b !! tid = Some t -> tunnels_ok (finish tid t b).
Proof.
  intros [H1 H2 H3 H4 H5 H6 H7] Ht. unfold finish. set (b' := close_tunnel _ b).
  assert (tasks b' !! tid = Some t) as Ht' by (subst b'; by rewrite close_tasks).
  assert (entries b' = entries b) as E1 by (subst b'; by destruct (owned _)).
  assert (next_tunnel b' = next_tunnel b) as E2 by (subst b'; by destruct (owned _)).
  assert (tasks b' = tasks b) as E3 by apply close_tasks.
  assert (forall d, d ∈ open_tunnels b' <-> d ∈ open_tunnels b /\ owned (t_pc t) <> Some d) as E4.
  { intros d. subst b'. rewrite close_open. destruct (owned (t_pc t)); set_solver. }
  split; try (simpl; rewrite ?E1, ?E2; done).
  - intros d Hd. simpl in Hd. apply E4 in Hd as [Hd Hnd]. destruct (H1 d Hd) as [|Hown]; [left; simpl; by rewrite E1|right].
    eapply goto_owner; [exact Ht'|done|by rewrite E3].
  - simpl. intros k e d Hk Hd. rewrite E1 in Hk. destruct (H2 k e d Hk Hd) as (D1 & D2 & D3). split_and!.
    + apply E4. split; [done|]. intros Ho. destruct (D3 tid t Ht (owned_mentions _ _ Ho)) as [_ Hn]. congruence.
    + by rewrite E2.
    + intros i u Hu Hmu. destruct (goto_cases tid Finished (t_retry t) b' t i u Ht' Hu) as [[-> ->]|[_ Hu']]; [done|].
      rewrite E3 in Hu'. eauto.
  - intros i u d ep Hu Hpc. goto_inv Ht'; [done|]. rewrite E3 in Hu. apply E4. split; [eauto|].
    intros Ho. assert (i = tid); [|done]. eapply H5; [exact Hu|exact Ht|by rewrite Hpc|by apply owned_mentions].
  - intros i u d Hu Hd. simpl. rewrite E2. goto_inv Ht'; [done|]. rewrite E3 in Hu. eauto.
  - intros i j u v d Hu Hv Hdu Hdv. goto_inv Ht'; try done. rewrite E3 in *. eauto.
Qed.

Lemma tunnels_start tid t ep b :
  tunnels_ok b -> tasks b !! tid = Some t -> t_pc t = StartTunnel ->
  tunnels_ok (goto tid (Started (next_tunnel b) ep) 0 (snd (fresh_tunnel b))).
Proof.
  intros [H1 H2 H3 H4 H5 H6 H7] Ht Hpc. set (b' := snd (fresh_tunnel b)).
  assert (tasks b' !! tid = Some t) as Ht' by done.
  split; try done.
  - intros c Hc. simpl in Hc. apply elem_of_union in Hc as [->%elem_of_singleton|Hc].
    + right. exists tid. eexists. by split; [eapply goto_lookup|].
    + destruct (H1 c Hc) as [|Hown]; [by left|right]. eapply goto_owner; [exact Ht'| |done].
      rewrite Hpc. done.
  - intros k e c Hk Hc. destruct (H2 k e c Hk Hc) as (D1 & D2 & D3). split_and!; [simpl; set_solver|simpl; lia|].
    intros i u Hu Hmu. goto_inv Ht'; [|eauto]. simplify_eq/=. lia.
  - intros i u c ep' Hu Hpcu. simpl. goto_inv Ht'; simplify_eq/=; [set_solver|]. apply elem_of_union_r. eauto.
  - intros i u c Hu Hc. simpl. goto_inv Ht'; simplify_eq/=; [lia|]. pose proof (H4 _ _ _ Hu Hc). lia.
  - intros i j u v c Hu Hv Hcu Hcv. goto_inv Ht'; simplify_eq/=; try done; [| |by eauto].
    + pose proof (H4 _ _ _ Hu Hcu). lia.
    + pose proof (H4 _ _ _ Hv Hcv). lia.
Qed.

(** Putting a tunnel in an entry, or taking it out. *)
Lemma put_open key e c ep b :
  open_tunnels (put_tunnel key e c ep b) =
  match tunnel e with Some d => open_tunnels b ∖ {[d]} | None => open_tunnels b end.
Proof. unfold put_tunnel. by destruct (tunnel e). Qed.
Lemma put_next key e c ep b : next_tunnel (put_tunnel key e c ep b) = next_tunnel b.
Proof. unfold put_tunnel. by destruct (tunnel e). Qed.
Lemma put_open_in key e c ep b d :
  d ∈ open_tunnels (put_tunnel key e c ep b) <-> d ∈ open_tunnels b /\ tunnel e <> Some d.
Proof. rewrite put_open. destruct (tunnel e); set_solver. Qed.

Lemma tunnels_clear key e b :
  tunnels_ok b -> entries b !! key = Some e -> tunnels_ok (put_tunnel key e None None b).
Proof.
  intros [H1 H2 H3 H4 H5 H6 H7] He.
  split; rewrite ?put_entries, ?put_tasks, ?put_next; try done.
  - intros c [Hc Hne]%put_open_in. destruct (H1 c Hc) as [(k & e' & Hk & Ht)|]; [left|by right].
    exists k, e'. rewrite lookup_insert_ne; [done|]. intros ->. congruence.
  - intros k e' c Hk Hc. destruct (decide (k = key)) as [->|]; simplify_map_eq/=.
    destruct (H2 k e' c Hk Hc) as (D1 & D2 & D3). split_and!; try done. apply (put_open_in key e None None b).
    split; [done|]. intros Hd. by pose proof (H6 _ _ _ _ _ Hk He Hc Hd).
  - intros i u c ep Hu Hpc. apply put_open_in. split; [eauto|]. intros Hd.
    destruct (H2 key e c He Hd) as (_ & _ & D3). specialize (D3 i u Hu). rewrite Hpc in D3.
    by destruct (D3 eq_refl).
  - intros k k' e1 e2 c Hk Hk' Hc Hc'.
    destruct (decide (k = key)) as [->|], (decide (k' = key)) as [->|]; simplify_map_eq/=; eauto.
  - intros k e' Hk. destruct (decide (k = key)) as [->|]; simplify_map_eq/=; [by split; intros []|eauto].
Qed.

Lemma tunnels_fill tid t key e c ep retry b :
  tunnels_ok b -> tasks b !! tid = Some t -> t_pc t = Started c ep -> t_key t = key ->
  entries b !! key = Some e -> tunnel e = None ->
  tunnels_ok (goto tid (Waiting c) retry (put_tunnel key e (Some c) (Some ep) b)).
Proof.
  intros [H1 H2 H3 H4 H5 H6 H7] Ht Hpc Hkey He Hnone. unfold put_tunnel. rewrite Hnone. simpl close_tunnel.
  set (b' := set_entries _ b). assert (tasks b' !! tid = Some t) as Ht' by done.
  assert (c ∈ open_tunnels b) as Hc by eauto.
  assert (c < next_tunnel b) as Hn by (eapply H4; [exact Ht|by rewrite Hpc]).
  assert (forall k e', entries b !! k = Some e' -> tunnel e' <> Some c) as Hnc.
  { intros k e' Hk Hd. destruct (H2 k e' c Hk Hd) as (_ & _ & D). specialize (D tid t Ht).
    rewrite Hpc in D. by destruct (D eq_refl). }
  split.
  - intros d Hd. destruct (decide (d = c)) as [->|Hdc].
    { left. exists key. eexists. by split; [apply lookup_insert_eq|]. }
    destruct (H1 d Hd) as [(k & e' & Hk & Hd')|Hown].
    + left. exists k, e'. simpl. rewrite lookup_insert_ne; [done|]. intros ->. congruence.
    + right. eapply goto_owner; [exact Ht'|rewrite Hpc; simpl; congruence|done].
  - intros k e' d Hk Hd. cbn [entries goto set_tasks set_entries b'] in Hk.
    destruct (decide (k = key)) as [->|Hkk].
    + rewrite lookup_insert_eq in Hk. injection Hk as <-. injection Hd as <-. split_and!; try done. intros i u Hu Hm. goto_inv Ht'; [done|].
      exfalso. assert (i = tid); [|done]. eapply H5; [exact Hu|exact Ht|exact Hm|by rewrite Hpc].
    + rewrite lookup_insert_ne in Hk by done. destruct (H2 k e' d Hk Hd) as (D1 & D2 & D3).
      split_and!; try done. intros i u Hu Hm.
      goto_inv Ht'; [|eauto]. simplify_eq/=. by pose proof (Hnc _ _ Hk).
  - intros i u d ep' Hu Hpcu. goto_inv Ht'; [done|eauto].
  - intros i u d Hu Hm. goto_inv Ht'; simplify_eq/=; eauto.
  - intros i j u v d Hu Hv Hdu Hdv. goto_inv Ht'; simplify_eq/=; eauto.
    + eapply H5; [exact Hu|exact Ht|done|by rewrite Hpc].
    + eapply H5; [exact Ht|exact Hv|by rewrite Hpc|done].
  - intros k k' e1 e2 d Hk Hk' Hd Hd'. simpl in *.
    destruct (decide (k = key)) as [->|], (decide (k' = key)) as [->|]; simplify_map_eq/=; eauto;
      exfalso; eapply Hnc; eauto.
  - intros k e' Hk. simpl in Hk. destruct (decide (k = key)) as [->|]; simplify_map_eq/=; [done|eauto].
Qed.

Lemma tunnels_publish tid t key e c ep retry b :
  tunnels_ok b -> tasks b !! tid = Some t -> t_pc t = Started c ep -> t_key t = key ->
  entries b !! key = Some e ->
  tunnels_ok (goto tid (Waiting c) retry (put_tunnel key e (Some c) (Some ep) b)).
Proof.
  intros Hok Ht Hpc Hkey He. set (e1 := mkEntry (subscriber_count e) None None None (callbacks e) (task e)).
  assert (tunnels_ok (goto tid (Waiting c) retry
            (put_tunnel key e1 (Some c) (Some ep) (put_tunnel key e None None b)))) as H.
  { apply tunnels_fill with t; try done; [by apply tunnels_clear|by rewrite put_tasks|].
    rewrite put_entries. apply lookup_insert_eq. }
  revert H. apply tunnels_ext; simpl; rewrite ?put_entries, ?put_tasks, ?put_open, ?put_next; try done.
  - by rewrite insert_insert_eq.
Qed.

Lemma run_tunnels tid ev b b' : run tid ev b = Some b' -> tunnels_ok b -> tunnels_ok b'.
Proof.
  unfold run. intros H Hok. destruct (tasks b !! tid) as [t|] eqn:Ht; [|done]. simpl in H.
  assert (forall cbs s b1, tunnels_ok b1 -> tunnels_ok (notify cbs s b1)) as Hnot by (intros ???; by apply tunnels_ext).
  assert (forall c b1, tunnels_ok b1 -> tunnels_ok (shut_client c b1)) as Hshut by (intros ??; by apply tunnels_ext).
  destruct (t_pc t) eqn:Hpc, ev; try done; cbn [at_await] in H; rewrite ?andb_true_r, ?andb_false_r in H; try done;
    try unabort H;
    try (destruct (entries b !! t_key t) as [e|] eqn:He); simplify_eq;
    try (apply tunnels_finish; by auto);
    try (eapply tunnels_move; [by auto|exact Ht|rewrite ?Hpc; simpl; tauto..]);
    try (eapply tunnels_leave; [done|exact Ht|by rewrite Hpc|done]); try (by eapply tunnels_start).
  - apply (tunnels_ext (goto tid (Waiting c) (t_retry t) (put_tunnel (t_key t) e (Some c) (Some ep) b)));
      [done..|]. by apply tunnels_publish with t.
  - apply tunnels_move with t; [by apply Hnot, tunnels_clear| |by rewrite Hpc; right|done|by rewrite Hpc].
    simpl. by rewrite close_tasks.
Qed.

(** A change that only adds or removes what has no tunnel. *)
Lemma tunnels_shape b b' :
  open_tunnels b' = open_tunnels b -> next_tunnel b' = next_tunnel b ->
  (forall k e', entries b' !! k = Some e' -> (tunnel e' = None /\ endpoint e' = None) \/
     exists e, entries b !! k = Some e /\ tunnel e' = tunnel e /\ endpoint e' = endpoint e) ->
  (forall k e c, entries b !! k = Some e -> tunnel e = Some c ->
     exists e', entries b' !! k = Some e' /\ tunnel e' = Some c) ->
  (forall i u', tasks b' !! i = Some u' -> mentions (t_pc u') = None \/
     exists u, tasks b !! i = Some u /\ t_key u' = t_key u /\ t_pc u' = t_pc u) ->
  (forall i u, tasks b !! i = Some u -> exists u', tasks b' !! i = Some u' /\ t_pc u' = t_pc u) ->
  tunnels_ok b -> tunnels_ok b'.
Proof.
  intros Eo En He' He Ht' Ht [H1 H2 H3 H4 H5 H6 H7].
  assert (forall k e' c, entries b' !! k = Some e' -> tunnel e' = Some c ->
            exists e, entries b !! k = Some e /\ tunnel e = Some c) as Hback.
  { intros k e' c Hk Hc. destruct (He' k e' Hk) as [[]|(e & D1 & D2 & D3)]; [congruence|].
    exists e. by rewrite <- D2. }
  assert (forall i u' c, tasks b' !! i = Some u' -> mentions (t_pc u') = Some c ->
            exists u, tasks b !! i = Some u /\ t_key u' = t_key u /\ t_pc u' = t_pc u) as Htb.
  { intros i u' c Hu Hm. destruct (Ht' i u' Hu) as [|]; [congruence|done]. }
  split; rewrite ?Eo, ?En.
  - intros c Hc. destruct (H1 c Hc) as [(k & e & Hk & Hd)|(i & u & Hu & Ho)].
    + left. destruct (He k e c Hk Hd) as (e' & ? & ?). by exists k, e'.
    + right. destruct (Ht i u Hu) as (u' & Hu' & Hp). exists i, u'. by rewrite Hp.
  - intros k e' c Hk Hc. destruct (Hback k e' c Hk Hc) as (e & Hke & Hce).
    destruct (H2 k e c Hke Hce) as (D1 & D2 & D3). split_and!; try done.
    intros i u' Hu Hm. destruct (Htb i u' c Hu Hm) as (u & E1 & -> & E3). rewrite E3 in *. eauto.
  - intros i u' c ep Hu Hp. destruct (Htb i u' c Hu) as (u & E1 & E2 & E3); [by rewrite Hp|].
    rewrite E3 in Hp. eauto.
  - intros i u' c Hu Hm. destruct (Htb i u' c Hu Hm) as (u & E1 & E2 & E3). rewrite E3 in Hm. eauto.
  - intros i j u' v' c Hu Hv Hm Hm'. destruct (Htb i u' c Hu Hm) as (u & E1 & E2 & E3).
    destruct (Htb j v' c Hv Hm') as (v & F1 & F2 & F3). rewrite E3 in Hm. rewrite F3 in Hm'. eauto.
  - intros k k' e1 e2 c Hk Hk' Hc Hc'. destruct (Hback k e1 c Hk Hc) as (? & ? & ?).
    destruct (Hback k' e2 c Hk' Hc') as (? & ? & ?). eauto.
  - intros k e' Hk. destruct (He' k e' Hk) as [[-> ->]|(e & D1 & -> & ->)]; [|eauto].
    by split; intros [].
Qed.

Lemma acquire_tunnels key cb b : counts_ok b -> tunnels_ok b -> tunnels_ok (snd (acquire key cb b)).
Proof.
  intros Hc. assert (tasks b !! next_task b = None) as Hn.
  { apply eq_None_not_Some. intros H. apply (co_tid _ Hc) in H. lia. }
  unfold acquire. destruct (entries b !! key) as [e|] eqn:He; apply tunnels_shape; simpl; try done.
  - intros k e' Hk. right. destruct (decide (k = key)) as [->|]; simplify_map_eq; eauto.
  - intros k e' c Hk Hd. destruct (decide (k = key)) as [->|]; simplify_map_eq; eauto.
  - eauto.
  - eauto.
  - intros k e' Hk. destruct (decide (k = key)) as [->|]; simplify_map_eq; eauto.
  - intros k e' c Hk Hd. exists e'. rewrite lookup_insert_ne; [done|]. intros ->. congruence.
  - intros i u Hu. destruct (decide (i = next_task b)) as [->|]; simplify_map_eq; eauto.
  - intros i u Hu. exists u. rewrite lookup_insert_ne; [done|]. intros E. congruence.
Qed.

Lemma drop_tunnels l b b' : drop_proxy_lease l b = Some b' -> counts_ok b -> tunnels_ok b -> tunnels_ok b'.
Proof.
  unfold drop_proxy_lease. intros H Hc Hok. destruct (leases b !! l) as [key|]; simplify_eq/=.
  assert (tunnels_ok (drop_lease l b)) as Hok' by (by apply (tunnels_ext b)).
  destruct (entries b !! key) as [e|] eqn:He; [|by unfold release; simpl; rewrite He].
  destruct (co_entry _ Hc key e He) as (_ & _ & Hpos & _).
  destruct (decide (subscriber_count e = 1)) as [H1|H1].
  - destruct (release_last key e (drop_lease l b) He H1) as (E1 & E2 & _ & _ & _ & E6 & E7).
    apply (tunnels_shape (put_tunnel key e None None (drop_lease l b))).
    + by rewrite E7, put_open.
    + by rewrite E6, put_next.
    + intros k e' Hk. rewrite E1 in Hk. apply lookup_delete_Some in Hk as [Hkk Hk]. right. exists e'.
      rewrite put_entries, lookup_insert_ne; done.
    + intros k e' c Hk Hd. rewrite put_entries in Hk.
      destruct (decide (k = key)) as [->|]; simplify_map_eq. exists e'.
      by rewrite E1, lookup_delete_ne.
    + intros i u Hu. rewrite E2, abort_lookup in Hu. rewrite put_tasks. simpl in *. right.
      case_decide; [|eauto]. destruct (tasks b !! i); simplify_eq/=. eauto.
    + intros i u Hu. rewrite put_tasks in Hu. rewrite E2, abort_lookup. simpl in *.
      case_decide; rewrite Hu; simpl; eauto.
    + by apply tunnels_clear.
  - rewrite (release_more key e) by (done || lia). revert Hok'. apply tunnels_shape; simpl; eauto.
    + intros k e' Hk. right. destruct (decide (k = key)) as [->|]; simplify_map_eq; eauto.
    + intros k e' c Hk Hd. destruct (decide (k = key)) as [->|]; simplify_map_eq; eauto.
Qed.

Lemma reachable_ok b : reachable b -> counts_ok b /\ tunnels_ok b.
Proof.
  intros [ls H]. eapply (steps_preserve (fun b => counts_ok b /\ tunnels_ok b)); [|exact H|].
  - intros l b1 b2 Hp [Hc Ht]. split; [by eapply perform_counts|].
    destruct l as [cfg cb|lease|tid ev]; simpl in Hp; simplify_eq.
    + by apply acquire_tunnels.
    + by eapply drop_tunnels.
    + by eapply run_tunnels.
  - split; [apply broker_new_counts|]. split; simpl; intros; set_solver.
Qed.

(** Runs can be computed. *)
Fixpoint run_labels (ls : list Label) (b : Broker) : option Broker :=
  match ls with
  | [] => Some b
  | l :: ls => b ← perform l b; run_labels ls b
  end.
Lemma run_labels_steps ls : forall b b', run_labels ls b = Some b' -> steps b ls b'.
Proof.
  induction ls as [|l ls IH]; intros b b' H; simpl in H; simplify_eq; [constructor|].
  destruct (perform l b) as [b1|] eqn:E; [|done]. econstructor; [exact E|by apply IH].
Qed.

(** ** Claims *)

(** C11: workspaces on one transport share one tunnel.  Whatever the interleaving
    of workspaces and tasks and whatever the network answers, a key has an entry
    exactly while there are leases for it; the entry counts those leases and has
    as many callbacks; exactly one task is in charge of the key, and it has not
    returned; an endpoint that subscribers were given has an open tunnel; and
    every open tunnel is held by an entry or by a task that is handing it over or
    closing it. *)
Theorem one_tunnel_per_transport b k :
  reachable b ->
  (is_Some (entries b !! k) <-> 0 < lease_count k (leases b)) /\
  (forall e, entries b !! k = Some e ->
     subscriber_count e = lease_count k (leases b) /\ length (callbacks e) = subscriber_count e /\
     (exists tid t, tasks b !! tid = Some t /\ t_key t = k /\ t_aborted t = false /\ t_pc t <> Finished /\
        forall i u, tasks b !! i = Some u -> t_key u = k -> t_aborted u = false -> i = tid) /\
     (is_Some (endpoint e) -> exists c, tunnel e = Some c /\ c ∈ open_tunnels b)) /\
  (forall c, c ∈ open_tunnels b ->
     (exists k e, entries b !! k = Some e /\ tunnel e = Some c) \/
     (exists tid t, tasks b !! tid = Some t /\ owned (t_pc t) = Some c)).
Proof.
  intros [Hc Ht]%reachable_ok. split_and!; [| |apply (tk_open _ Ht)].
  - split.
    + intros [e He]. destruct (co_entry _ Hc k e He) as (? & _ & ? & _). lia.
    + intros Hl. destruct (entries b !! k) eqn:E; [done|]. pose proof (co_none _ Hc k E). lia.
  - intros e He. destruct (co_entry _ Hc k e He) as (E1 & E2 & E3 & tid & t & E4 & E5 & E6 & E7).
    split_and!; [done..| |].
    + exists tid, t. split_and!; try done.
      * intros Hf. destruct (co_task _ Hc tid t E5 E7) as [Hl _]. apply Hl. by rewrite Hf.
      * intros i u Hu Hk Hab. destruct (co_task _ Hc i u Hu Hab) as (_ & e' & F1 & F2).
        rewrite Hk in F1. congruence.
    + intros Hep. apply (tk_endpoint _ Ht k e He) in Hep as [c Hcc]. exists c. split; [done|].
      by apply (tk_entry _ Ht k e c He).
Qed.

Definition demo_config : RemoteConfiguration :=
  mkRemoteConfiguration "dev@host" (Some 2222%Z) None [] None None None None None.
Definition demo_labels : list Label :=
  [LAcquire demo_config 1; LAcquire demo_config 2; LTask 0 (StartErr "refused"); LTask 0 Locked;
   LTask 0 Timer; LTask 0 Locked; LTask 0 (StartOk 40000); LTask 0 Locked].
Definition demo_broker : Broker := default broker_new (run_labels demo_labels broker_new).

Lemma demo_reachable : reachable demo_broker.
Proof. exists demo_labels. apply run_labels_steps. vm_compute. reflexivity. Qed.

Lemma one_tunnel_per_transport_witness :
  exists e c, entries demo_broker !! transport_key demo_config = Some e /\ subscriber_count e = 2 /\
    tunnel e = Some c /\ c ∈ open_tunnels demo_broker.
Proof.
  destruct (one_tunnel_per_transport demo_broker (transport_key demo_config) demo_reachable)
    as (_ & H & _).
  destruct (entries demo_broker !! transport_key demo_config) as [e|] eqn:E;
    [|exfalso; revert E; by vm_compute].
  exists e. destruct (H e eq_refl) as (_ & _ & _ & Hep).
  assert (subscriber_count e = 2 /\ is_Some (endpoint e)) as [Hs He].
  { revert E. vm_compute. intros [= <-]. split; [done|by eexists]. }
  destruct (Hep He) as (c & Hc & Ho). exists c. split_and!; [reflexivity|exact Hs|exact Hc|exact Ho].
Defined.

(** C14: when the last lease of a transport is dropped its tunnel goes away: from
    then on, in every run, each task of the transport takes at most three more
    steps, it can always take one until it has returned, and a returned task holds
    no tunnel. *)
Theorem last_lease_ends_tunnel b tid t ls b' :
  reachable b -> tasks b !! tid = Some t -> lease_count (t_key t) (leases b) = 0 -> steps b ls b' ->
  length (List.filter (own tid) ls) <= 3 /\
  exists t', tasks b' !! tid = Some t' /\
    (t_pc t' <> Finished -> exists ev, is_Some (run tid ev b')) /\
    (t_pc t' = Finished -> forall c, c ∈ open_tunnels b' ->
       (exists k e, entries b' !! k = Some e /\ tunnel e = Some c) \/
       (exists i u, i <> tid /\ tasks b' !! i = Some u /\ owned (t_pc u) = Some c)).
Proof.
  intros Hr Ht Hl Hs. pose proof (reachable_ok b Hr) as [Hc Htk].
  assert (t_aborted t = true) as Hab.
  { apply not_false_iff_true. intros Hab. destruct (co_task _ Hc tid t Ht Hab) as (_ & e & He & _).
    destruct (co_entry _ Hc _ _ He) as (E1 & _ & E3 & _). lia. }
  destruct (own_steps_bounded b ls b' tid t Hc Hs Ht Hab) as (t' & Ht' & Hab' & Hn).
  assert (rank (t_pc t) <= 3) by (destruct (t_pc t); simpl; lia). split; [lia|].
  assert (tunnels_ok b') as Htk'.
  { apply reachable_ok. destruct Hr as [ls0 H0]. exists (ls0 ++ ls). clear -H0 Hs.
    induction H0; [done|]. econstructor; eauto. }
  exists t'. split_and!; [done|by apply aborted_enabled|].
  intros Hf c Hop. destruct (tk_open _ Htk' c Hop) as [|(i & u & Hu & Ho)]; [by left|right].
  exists i, u. split_and!; try done. intros ->. simplify_eq. by rewrite Hf in Ho.
Qed.

Lemma last_lease_ends_tunnel_witness :
  exists b' t', run_labels [LDrop 0; LDrop 1; LTask 0 Cancel] demo_broker = Some b' /\
    tasks b' !! 0 = Some t' /\ t_pc t' = Finished /\ open_tunnels b' = ∅ /\
    length (List.filter (own 0) [LTask 0 Cancel]) <= 3.
Proof.
  set (b1 := default broker_new (run_labels [LDrop 0; LDrop 1] demo_broker)).
  set (b2 := default broker_new (run_labels [LTask 0 Cancel] b1)).
  assert (reachable b1) as H1 by (exists (demo_labels ++ [LDrop 0; LDrop 1]); apply run_labels_steps; by vm_compute).
  assert (steps b1 [LTask 0 Cancel] b2) as H2 by (apply run_labels_steps; by vm_compute).
  assert (exists t, tasks b1 !! 0 = Some t /\ lease_count (t_key t) (leases b1) = 0) as (t & Ht & Hl)
    by (eexists; split; [by vm_compute|by vm_compute]).
  destruct (last_lease_ends_tunnel b1 0 t [LTask 0 Cancel] b2 H1 Ht Hl H2) as (Hn & t' & Ht' & _).
  exists b2, t'. split_and!; [by vm_compute|exact Ht'| |by vm_compute|exact Hn].
  revert Ht'. vm_compute. by intros [= <-].
Defined.

(** A release forgets the callback that was registered last, whosesoever lease it
    was: the workspace that stays is no longer told, the one that left is. *)
Theorem release_pops_last_callback cfg :
  exists b, run_labels [LAcquire cfg 1; LAcquire cfg 2; LDrop 0] broker_new = Some b /\
    leases b = {[1 := transport_key cfg]} /\
    callbacks <$> entries b !! transport_key cfg = Some [1%Z].
Proof.
  cbn [run_labels perform]. generalize (transport_key cfg). intros k.
  assert (snd (acquire k 1 broker_new) =
          mkBroker {[k := mkEntry 1 None None None [1%Z] (Some 0)]} {[0 := mkTask k StartTunnel 0 false]}
            {[0 := k]} ∅ ∅ 1 1 0 [(1%Z, ProxyConnecting)]) as -> by done.
  unfold acquire at 1. cbn [entries mbind option_bind]. simplify_map_eq. simpl.
  unfold drop_proxy_lease. cbn [leases]. simplify_map_eq. eexists. split; [reflexivity|].
  unfold release. simpl. simplify_map_eq. simpl. split; [|by simplify_map_eq].
  apply map_eq. intros i. destruct (decide (i = 0)) as [->|]; [by simplify_map_eq|].
  destruct (decide (i = 1)) as [->|]; by simplify_map_eq.
Qed.
