(* ===== verification/Controller.v ===== *)
(** * The remote session controllers (app/src/remote/controller.rs)

    Each remote workspace has a thread that runs [connection_loop]: bootstrap the
    daemon, bind the relay, start the reverse SSH tunnel, install the metadata,
    then watch the tunnel and start over when it is lost.  [advance] is one
    segment of that thread between two of its awaits or reads of shared state; the
    shared state is the registry of controllers, their stop flags, the one
    [TUNNEL_CHILD] slot, the TCP ports in use and the proxy broker.  What the
    network, ssh and the operating system answer is the [Event] of a step.

    A relay listener is held by the accept loop that [RelayServer::start] spawns
    on the runtime of the thread; it goes away with that runtime, when the
    connection loop returns. *)

From S2P Require Import Prelude F64 RustStr RemoteConfig Broker.
Open Scope string_scope.
Open Scope list_scope.

(** Where a controller thread is. *)
Inductive Stage :=
  | CNew                                  (** the runtime is being built *)
  | CTop                                  (** about to read the stop flag *)
  | CBootstrap                            (** [bootstrap_daemon] *)
  | CBind (hello : DaemonHello)           (** [RelayServer::start] *)
  | CSpawn (hello : DaemonHello)          (** spawning the reverse tunnel *)
  | CTry (hello : DaemonHello) (child : nat) (** the 500 ms before [try_wait] *)
  | CSettle (hello : DaemonHello)         (** the 500 ms after it *)
  | CInstall (hello : DaemonHello)        (** [install_remote_metadata] *)
  | CConnected (hello : DaemonHello)      (** [run_full_connection] has returned [Ok] *)
  | CMonitor (lease : nat)                (** sleeping in [monitor_tunnel] *)
  | CLost (lease : nat)                   (** [monitor_tunnel] has returned *)
  | CFailed (msg : string)                (** [run_full_connection] has returned [Err] *)
  | CSleep                                (** waiting before the next attempt *)
  | CDone.

Record Ctl := mkCtl { c_ws : Z; c_config : RemoteConfiguration; c_stage : Stage; c_retry : Z }.

(** What is sent to the main thread. *)
Inductive Push :=
  | PushState (ws : Z) (st : RemoteConnectionState) (ds : option RemoteDaemonStatus)
      (detail : option string)
  | PushProxy (ws : Z) (ep : option ProxyEndpoint).

Record Remote := mkRemote {
  registry : gmap Z nat;
  ctls : gmap nat Ctl;
  stops : gset nat;
  slot : option nat;         (** [TUNNEL_CHILD] *)
  alive : gset nat;          (** running ssh children *)
  bound : gmap Z nat;        (** listening ports, by the controller whose runtime holds them *)
  broker : Broker;
  pushes : list Push;
  next_ctl : nat; next_child : nat;
}.

Definition remote_new : Remote := mkRemote ∅ ∅ ∅ None ∅ ∅ broker_new [] 0 0.

Definition set_registry (m : gmap Z nat) (s : Remote) : Remote :=
  mkRemote m (ctls s) (stops s) (slot s) (alive s) (bound s) (broker s) (pushes s) (next_ctl s) (next_child s).
Definition set_ctls (m : gmap nat Ctl) (s : Remote) : Remote :=
  mkRemote (registry s) m (stops s) (slot s) (alive s) (bound s) (broker s) (pushes s) (next_ctl s) (next_child s).
Definition set_stops (m : gset nat) (s : Remote) : Remote :=
  mkRemote (registry s) (ctls s) m (slot s) (alive s) (bound s) (broker s) (pushes s) (next_ctl s) (next_child s).
Definition set_slot (o : option nat) (s : Remote) : Remote :=
  mkRemote (registry s) (ctls s) (stops s) o (alive s) (bound s) (broker s) (pushes s) (next_ctl s) (next_child s).
Definition set_alive (m : gset nat) (s : Remote) : Remote :=
  mkRemote (registry s) (ctls s) (stops s) (slot s) m (bound s) (broker s) (pushes s) (next_ctl s) (next_child s).
Definition set_bound (m : gmap Z nat) (s : Remote) : Remote :=
  mkRemote (registry s) (ctls s) (stops s) (slot s) (alive s) m (broker s) (pushes s) (next_ctl s) (next_child s).
Definition set_broker (b : Broker) (s : Remote) : Remote :=
  mkRemote (registry s) (ctls s) (stops s) (slot s) (alive s) (bound s) b (pushes s) (next_ctl s) (next_child s).
Definition push (p : Push) (s : Remote) : Remote :=
  mkRemote (registry s) (ctls s) (stops s) (slot s) (alive s) (bound s) (broker s) (pushes s ++ [p])
    (next_ctl s) (next_child s).
Definition fresh_child (s : Remote) : nat * Remote :=
  (next_child s,
   mkRemote (registry s) (ctls s) (stops s) (slot s) ({[next_child s]} ∪ alive s) (bound s) (broker s)
     (pushes s) (next_ctl s) (S (next_child s))).

(** ** The API of the main thread *)

Definition disconnect (ws : Z) (s : Remote) : Remote :=
  match registry s !! ws with
  | Some cid => set_stops ({[cid]} ∪ stops s) (set_registry (delete ws (registry s)) s)
  | None => s
  end.

Definition connect (ws : Z) (config : RemoteConfiguration) (s : Remote) : Remote :=
  let s := disconnect ws s in
  let cid := next_ctl s in
  mkRemote (<[ws := cid]> (registry s)) (<[cid := mkCtl ws config CNew 0]> (ctls s)) (stops s) (slot s)
    (alive s) (bound s) (broker s) (pushes s) (S cid) (next_child s).

Definition reconnect (ws : Z) (config : RemoteConfiguration) (s : Remote) : Remote :=
  connect ws config (disconnect ws s).

Definition is_active (ws : Z) (s : Remote) : bool := bool_decide (is_Some (registry s !! ws)).

(** ** The connection loop *)

Definition retry_delay (base : f64) (retry : Z) : f64 :=
  f64_min (f64_mul base (f64_pow2 (Z.to_nat (Z.max 0 (retry - 1))))) (f64_of_Z 60).

Definition daemon_status_from_hello (h : DaemonHello) : RemoteDaemonStatus :=
  mkRemoteDaemonStatus Ready None (Some (hello_version h)) (Some (hello_name h)) (hello_capabilities h)
    (Some (hello_remote_path h)).

Inductive CEvent :=
  | Go                      (** no answer is awaited *)
  | RuntimeErr (msg : string)
  | BootOk (hello : DaemonHello) | BootErr (msg : string)
  | BindOk | BindErr (msg : string)
  | SshSpawned | SshUp | SshErr (msg : string) (** it cannot be started, or has exited *)
  | TryErr (msg : string)   (** [try_wait] fails: the child is dropped, not killed *)
  | InstallOk | InstallErr (msg : string)
  | CTimer.

Section loop.
(** The path of the control socket; [{:.0}] of a delay. *)
Context (socket_path : option string) (fmt0 : f64 -> string).

(** The credentials and the socket path that the relay needs. *)
Definition relay_wanted (c : RemoteConfiguration) : bool :=
  negb (bool_decide (default 0%Z (relay_port c) = 0%Z)) &&
  negb (String.eqb (default "" (relay_id c)) "") && negb (String.eqb (default "" (relay_token c)) "") &&
  negb (String.eqb (default "" socket_path) "").

Definition at_stage (cid : nat) (st : Stage) (retry : Z) (s : Remote) : Remote :=
  set_ctls (alter (fun c => mkCtl (c_ws c) (c_config c) st retry) cid (ctls s)) s.
(** The loop returns: its runtime and the listeners on it are dropped. *)
Definition finish_loop (cid : nat) (retry : Z) (s : Remote) : Remote :=
  at_stage cid CDone retry
    (set_bound (filter (fun kv : Z * nat => kv.2 <> cid) (bound s)) s).

Definition connecting_status (c : RemoteConfiguration) : RemoteDaemonStatus :=
  mkRemoteDaemonStatus Bootstrapping (Some ("Connecting to " +:+ display_target c +:+ "...")) None None [] None.
Definition error_status (msg : string) : RemoteDaemonStatus :=
  mkRemoteDaemonStatus DaemonError (Some msg) None None [] None.

(** [monitor_tunnel] after a sleep, the flag not being set: the child that is in
    the slot is looked at. *)
Definition tunnel_exited (s : Remote) : bool :=
  match slot s with Some ch => bool_decide (ch ∉ alive s) | None => false end.

Definition advance (cid : nat) (ev : CEvent) (s : Remote) : option Remote :=
  c ← ctls s !! cid;
  let ws := c_ws c in
  let cfg := c_config c in
  let retry := c_retry c in
  let stopped := bool_decide (cid ∈ stops s) in
  match c_stage c, ev with
  | CNew, Go => Some (at_stage cid CTop retry s)
  | CNew, RuntimeErr msg => Some (finish_loop cid retry (push (PushState ws Error None (Some msg)) s))
  | CTop, Go =>
      if stopped then Some (finish_loop cid retry s)
      else Some (at_stage cid CBootstrap retry
                   (push (PushState ws Connecting (Some (connecting_status cfg)) None) s))
  | CBootstrap, BootErr msg => Some (at_stage cid (CFailed msg) retry s)
  | CBootstrap, BootOk hello =>
      Some (at_stage cid (if stopped then CConnected hello
                          else if relay_wanted cfg then CBind hello else CConnected hello) retry s)
  | CBind hello, BindOk =>
      let p := default 0%Z (relay_port cfg) in
      match bound s !! p with
      | Some _ => None
      | None => Some (at_stage cid (if stopped then CConnected hello else CSpawn hello) retry
                        (set_bound (<[p := cid]> (bound s)) s))
      end
  | CBind _, BindErr msg => Some (at_stage cid (CFailed msg) retry s)
  | CSpawn hello, SshSpawned =>
      let '(ch, s) := fresh_child s in Some (at_stage cid (CTry hello ch) retry s)
  | CSpawn _, SshErr msg => Some (at_stage cid (CFailed msg) retry s)
  | CTry hello ch, SshUp =>
      if bool_decide (ch ∈ alive s) then Some (at_stage cid (CSettle hello) retry (set_slot (Some ch) s))
      else None
  | CTry _ ch, SshErr msg => Some (at_stage cid (CFailed msg) retry (set_alive (alive s ∖ {[ch]}) s))
  | CTry _ _, TryErr msg => Some (at_stage cid (CFailed msg) retry s)
  | CSettle hello, CTimer =>
      Some (at_stage cid (if stopped then CConnected hello else CInstall hello) retry s)
  | CInstall hello, InstallOk => Some (at_stage cid (CConnected hello) retry s)
  | CInstall _, InstallErr msg => Some (at_stage cid (CFailed msg) retry s)
  | CConnected hello, Go =>
      let s := push (PushState ws Connected (Some (daemon_status_from_hello hello))
                       (Some ("Connected to " +:+ display_target cfg))) s in
      let '(lease, b) := acquire (transport_key cfg) ws (broker s) in
      Some (at_stage cid (CMonitor lease) 0 (set_broker b s))
  | CMonitor lease, CTimer =>
      if stopped then
        Some (at_stage cid (CLost lease) retry
                (match slot s with
                 | Some ch => set_slot None (set_alive (alive s ∖ {[ch]}) s)
                 | None => s
                 end))
      else if tunnel_exited s then Some (at_stage cid (CLost lease) retry (set_slot None s))
      else Some s
  | CLost lease, Go =>
      b ← drop_proxy_lease lease (broker s);
      let s := push (PushProxy ws None) (set_broker b s) in
      if stopped then Some (finish_loop cid retry s)
      else
        let retry := u32_succ retry in
        let delay := retry_delay (f64_of_Z 2) retry in
        Some (at_stage cid CSleep retry
                (push (PushState ws Connecting None
                         (Some ("Relay tunnel lost, reconnecting in " +:+ fmt0 delay +:+ "s..."))) s))
  | CFailed msg, Go =>
      if stopped then Some (finish_loop cid retry s)
      else
        let retry := u32_succ retry in
        let delay := retry_delay (f64_of_Z 4) retry in
        Some (at_stage cid CSleep retry
                (push (PushState ws Error (Some (error_status msg))
                         (Some (msg +:+ " (retry " +:+ show_uint retry +:+ " in " +:+ fmt0 delay +:+ "s)"))) s))
  | CSleep, CTimer => Some (at_stage cid CTop retry s)
  | _, _ => None
  end.

(** ** The whole system *)

Inductive Action :=
  | UConnect (ws : Z) (cfg : RemoteConfiguration)
  | UReconnect (ws : Z) (cfg : RemoteConfiguration)
  | UDisconnect (ws : Z)
  | Thread (cid : nat) (ev : CEvent)     (** a controller thread *)
  | ChildExits (ch : nat)                (** an ssh process ends by itself *)
  | TunnelTask (tid : nat) (ev : Event). (** a task of the broker *)

Definition act (a : Action) (s : Remote) : option Remote :=
  match a with
  | UConnect ws cfg => Some (connect ws cfg s)
  | UReconnect ws cfg => Some (reconnect ws cfg s)
  | UDisconnect ws => Some (disconnect ws s)
  | Thread cid ev => advance cid ev s
  | ChildExits ch => if bool_decide (ch ∈ alive s) then Some (set_alive (alive s ∖ {[ch]}) s) else None
  | TunnelTask tid ev => b ← run tid ev (broker s); Some (set_broker b s)
  end.

Inductive acts : Remote -> list Action -> Remote -> Prop :=
  | acts_nil s : acts s [] s
  | acts_cons s a s' l s'' : act a s = Some s' -> acts s' l s'' -> acts s (a :: l) s''.

Fixpoint run_acts (l : list Action) (s : Remote) : option Remote :=
  match l with
  | [] => Some s
  | a :: l => s ← act a s; run_acts l s
  end.
End loop.
