(* ===== verification/ControllerProps.v ===== *)
(** * The remote session controllers: properties

    [remote_ok] ties the registry, the stop flags, the threads and the leases of
    the broker together; it holds in every reachable state of the system of all
    controllers and the broker. *)

From S2P Require Import Prelude F64 RustStr RemoteConfig Broker BrokerProps Controller.
Open Scope string_scope.
Open Scope list_scope.

(** The lease a thread holds. *)
Definition lease_of (st : Stage) : option nat :=
  match st with CMonitor l | CLost l => Some l | _ => None end.

Section system.
Context (socket_path : option string) (fmt0 : f64 -> string).
Local Abbreviation advance := (advance socket_path fmt0).
Local Abbreviation act := (act socket_path fmt0).
Local Abbreviation acts := (acts socket_path fmt0).

Record remote_ok (s : Remote) : Prop := mkOk {
  ro_registry : forall ws cid, registry s !! ws = Some cid ->
    cid ∉ stops s /\ exists c, ctls s !! cid = Some c /\ c_ws c = ws;
  ro_active : forall cid c, ctls s !! cid = Some c -> cid ∉ stops s -> registry s !! c_ws c = Some cid;
  ro_fresh : forall cid, is_Some (ctls s !! cid) -> cid < next_ctl s;
  ro_stops : forall cid, cid ∈ stops s -> cid < next_ctl s;
  ro_broker : reachable (broker s);
  ro_lease : forall cid c l, ctls s !! cid = Some c -> lease_of (c_stage c) = Some l ->
    leases (broker s) !! l = Some (transport_key (c_config c));
  ro_held : forall l k, leases (broker s) !! l = Some k ->
    exists cid c, ctls s !! cid = Some c /\ lease_of (c_stage c) = Some l;
  ro_unique : forall i j c d l, ctls s !! i = Some c -> ctls s !! j = Some d ->
    lease_of (c_stage c) = Some l -> lease_of (c_stage d) = Some l -> i = j;
}.

(** *** What a step of a thread does to the threads and to the broker *)

(** The effect on the leases: none, a new one for the thread, or its own dropped. *)
Inductive lease_effect (c c' : Ctl) (b b' : Broker) : Prop :=
  | le_none : b' = b -> lease_of (c_stage c') = lease_of (c_stage c) -> lease_effect c c' b b'
  | le_acquire cb : snd (acquire (transport_key (c_config c)) cb b) = b' ->
      lease_of (c_stage c) = None -> lease_of (c_stage c') = Some (next_lease b) -> lease_effect c c' b b'
  | le_drop l : drop_proxy_lease l b = Some b' ->
      lease_of (c_stage c) = Some l -> lease_of (c_stage c') = None -> lease_effect c c' b b'.

Record thread_step (cid : nat) (s s' : Remote) : Prop := mkThreadStep {
  ts_registry : registry s' = registry s;
  ts_stops : stops s' = stops s;
  ts_next : next_ctl s' = next_ctl s;
  ts_ctls : exists c c', ctls s !! cid = Some c /\ ctls s' = <[cid := c']> (ctls s) /\
    c_ws c' = c_ws c /\ c_config c' = c_config c /\ lease_effect c c' (broker s) (broker s');
}.

Lemma at_stage_ctls cid st retry s c :
  ctls s !! cid = Some c ->
  ctls (at_stage cid st retry s) = <[cid := mkCtl (c_ws c) (c_config c) st retry]> (ctls s).
Proof.
  intros Hc. simpl. apply map_eq. intros i. by destruct (decide (i = cid)) as [->|]; simplify_map_eq.
Qed.

Lemma acquire_lease key cb b : fst (acquire key cb b) = next_lease b.
Proof. unfold acquire. by destruct (entries b !! key). Qed.

(** A step that leaves registry, flags and counter alone. *)
Lemma thread_step_intro cid c st retry s s1 :
  ctls s !! cid = Some c -> registry s1 = registry s -> stops s1 = stops s -> next_ctl s1 = next_ctl s ->
  ctls s1 = ctls s ->
  lease_effect c (mkCtl (c_ws c) (c_config c) st retry) (broker s) (broker s1) ->
  thread_step cid s (at_stage cid st retry s1).
Proof.
  intros Hc E1 E2 E3 E4 He. split; simpl; try done. exists c, (mkCtl (c_ws c) (c_config c) st retry).
  split_and!; try done. rewrite <- E4. rewrite <- E4 in Hc. by apply at_stage_ctls.
Qed.

Lemma advance_step cid ev s s' : advance cid ev s = Some s' -> thread_step cid s s'.
Proof.
  unfold Controller.advance. intros H. destruct (ctls s !! cid) as [c|] eqn:Hc; [|done]. simpl in H.
  assert (forall st retry s1, registry s1 = registry s -> stops s1 = stops s -> next_ctl s1 = next_ctl s ->
            ctls s1 = ctls s -> broker s1 = broker s -> lease_of st = lease_of (c_stage c) ->
            thread_step cid s (at_stage cid st retry s1)) as Hquiet.
  { intros st retry s1 E1 E2 E3 E4 E5 E6. apply thread_step_intro with c; try done. by apply le_none. }
  destruct (c_stage c) eqn:Hst, ev; try done; unfold finish_loop in H;
    try (repeat case_match; simplify_eq; by apply Hquiet).
  - destruct (acquire _ _ _) as [l b] eqn:Ea. simplify_eq. apply thread_step_intro with c; try done.
    pose proof (acquire_lease (transport_key (c_config c)) (c_ws c) (broker s)) as El. rewrite Ea in El.
    apply (le_acquire _ _ _ _ (c_ws c)); [by rewrite Ea|by rewrite Hst|simpl in *; by subst].
  - assert (thread_step cid s s) as Hid.
    { split; try done. exists c, c. rewrite insert_id by done. split_and!; try done. by apply le_none. }
    repeat case_match; simplify_eq; try by apply Hquiet. done.
  - destruct (drop_proxy_lease lease (broker s)) as [b|] eqn:Ed; [|done]. simpl in H.
    destruct (bool_decide (cid ∈ stops s)); simplify_eq; (apply thread_step_intro with c; try done);
      (eapply le_drop; [exact Ed|by rewrite Hst|done]).
Qed.

(** *** The invariant is kept *)

Lemma drop_leases l b b' : drop_proxy_lease l b = Some b' -> leases b' = delete l (leases b).
Proof.
  unfold drop_proxy_lease. destruct (leases b !! l) as [key|]; [|done]. intros [= <-].
  unfold release. destruct (entries _ !! key) as [e|]; [|done]. case_decide; [|done].
  simpl. by destruct (tunnel e), (task e).
Qed.
Lemma acquire_leases key cb b : leases (snd (acquire key cb b)) = <[next_lease b := key]> (leases b).
Proof. unfold acquire. by destruct (entries b !! key). Qed.

Lemma reachable_step b l b' : reachable b -> perform l b = Some b' -> reachable b'.
Proof.
  intros [ls H] Hl. exists (ls ++ [l]).
  induction H; [econstructor; [exact Hl|constructor]|econstructor; eauto].
Qed.

Lemma thread_step_ok cid s s' : thread_step cid s s' -> remote_ok s -> remote_ok s'.
Proof.
  intros [E1 E2 E3 (c & c' & Hc & E4 & E5 & E6 & He)] [R1 R2 R3 R4 R5 R6 R7 R8].
  assert (forall i d, ctls s' !! i = Some d -> exists d0, ctls s !! i = Some d0 /\ c_ws d = c_ws d0 /\
            c_config d = c_config d0 /\ (i = cid /\ d = c' /\ d0 = c \/ i <> cid /\ d = d0)) as Hback.
  { intros i d. rewrite E4. destruct (decide (i = cid)) as [->|]; intros Hd; simplify_map_eq.
    - exists c. split_and!; [done..|by left].
    - exists d. split_and!; [done..|by right]. }
  split; rewrite ?E1, ?E2, ?E3.
  - intros ws i Hi. destruct (R1 ws i Hi) as (Hns & d & Hd & Hw). split; [done|]. rewrite E4.
    destruct (decide (i = cid)) as [->|]; simplify_map_eq; eauto.
  - intros i d Hd Hns. destruct (Hback i d Hd) as (d0 & Hd0 & -> & _). eauto.
  - intros i [d Hd]. destruct (Hback i d Hd) as (d0 & Hd0 & _). eauto.
  - done.
  - destruct He as [Eb _|cb Eb _ _|l Eb _ _].
    + by rewrite Eb.
    + eapply (reachable_step _ (LAcquire (c_config c) cb)); [done|]. simpl. by rewrite Eb.
    + by eapply (reachable_step _ (LDrop l)).
  - intros i d l Hd Hl. destruct (Hback i d Hd) as (d0 & Hd0 & _ & Ecfg & Hcase). rewrite Ecfg.
    destruct He as [Eb El|cb Eb El El'|l0 Eb El El'].
    + rewrite Eb. apply (R6 i); [done|]. destruct Hcase as [(-> & -> & ->)|[_ ->]]; congruence.
    + rewrite <- Eb, acquire_leases. destruct Hcase as [(-> & -> & ->)|[_ ->]].
      * rewrite El' in Hl. simplify_eq. by simplify_map_eq.
      * assert (leases (broker s) !! l = Some (transport_key (c_config d0))) as Hl' by eauto.
        rewrite lookup_insert_ne; [done|]. intros <-.
        pose proof (co_lease _ (proj1 (reachable_ok _ R5)) _ (mk_is_Some _ _ Hl')). lia.
    + apply drop_leases in Eb. rewrite Eb. destruct Hcase as [(-> & -> & ->)|[Hne ->]]; [congruence|].
      rewrite lookup_delete_ne; [eauto|]. intros <-. by pose proof (R8 _ _ _ _ _ Hd0 Hc Hl El).
  - intros l k Hl. rewrite E4. destruct He as [Eb El|cb Eb El El'|l0 Eb El El'].
    + rewrite Eb in Hl. destruct (R7 l k Hl) as (i & d & Hd & Hld).
      destruct (decide (i = cid)) as [->|]; simplify_eq.
      * exists cid, c'. simplify_map_eq. split; [done|congruence].
      * exists i, d. by simplify_map_eq.
    + rewrite <- Eb, acquire_leases in Hl. destruct (decide (l = next_lease (broker s))) as [->|]; simplify_map_eq.
      * exists cid, c'. by simplify_map_eq.
      * destruct (R7 l k) as (i & d & Hd & Hld); [done|]. exists i, d.
        rewrite lookup_insert_ne; [done|]. intros <-. congruence.
    + apply drop_leases in Eb. rewrite Eb in Hl. apply lookup_delete_Some in Hl as [Hne Hl].
      destruct (R7 l k Hl) as (i & d & Hd & Hld). exists i, d.
      rewrite lookup_insert_ne; [done|]. intros <-. congruence.
  - assert (forall i d l, ctls s !! i = Some d -> lease_of (c_stage d) = Some l -> l < next_lease (broker s)) as Hlt.
    { intros i d l Hd Hl. apply (co_lease _ (proj1 (reachable_ok _ R5))). eauto. }
    intros i j d e l Hd He' Hld Hle. destruct (Hback i d Hd) as (d0 & Hd0 & _ & _ & Hi).
    destruct (Hback j e He') as (e0 & He0 & _ & _ & Hj).
    destruct Hi as [(-> & -> & ->)|[Hi ->]], Hj as [(-> & -> & ->)|[Hj ->]]; [done| | |eauto].
    + destruct He as [Eb El|cb Eb El El'|l0 Eb El El']; [|..].
      * apply (R8 cid j c e0 l); congruence.
      * rewrite El' in Hld. simplify_eq. pose proof (Hlt _ _ _ He0 Hle). lia.
      * congruence.
    + destruct He as [Eb El|cb Eb El El'|l0 Eb El El'].
      * apply (R8 i cid d0 c l); congruence.
      * rewrite El' in Hle. simplify_eq. pose proof (Hlt _ _ _ Hd0 Hld). lia.
      * congruence.
Qed.

Lemma disconnect_ok ws s : remote_ok s -> remote_ok (disconnect ws s).
Proof.
  intros [R1 R2 R3 R4 R5 R6 R7 R8]. unfold disconnect. destruct (registry s !! ws) as [cid|] eqn:E; [|done].
  destruct (R1 ws cid E) as (Hns & c & Hc & Hw). split; simpl; try done.
  - intros w i Hi. apply lookup_delete_Some in Hi as [Hne Hi]. destruct (R1 w i Hi) as (Hni & d & Hd & Hdw).
    split; [|eauto]. intros [->%elem_of_singleton|]%elem_of_union; [congruence|done].
  - intros i d Hd Hni. assert (i ∉ stops s) as Hi by set_solver. pose proof (R2 i d Hd Hi) as Hr.
    rewrite lookup_delete_ne; [done|]. intros ->. set_solver.
  - intros i [->%elem_of_singleton|Hi]%elem_of_union; [|by apply R4]. apply R3. by rewrite Hc.
Qed.

Lemma connect_ok ws cfg s : remote_ok s -> remote_ok (connect ws cfg s).
Proof.
  intros Hok. apply (disconnect_ok ws) in Hok. unfold connect. set (s1 := disconnect ws s) in *.
  assert (registry s1 !! ws = None) as Hnone.
  { unfold s1, disconnect. destruct (registry s !! ws) eqn:E; [apply lookup_delete_eq|done]. }
  destruct Hok as [R1 R2 R3 R4 R5 R6 R7 R8].
  assert (ctls s1 !! next_ctl s1 = None) as Hfresh.
  { apply eq_None_not_Some. intros H. apply R3 in H. lia. }
  assert (next_ctl s1 ∉ stops s1) as Hfs by (intros H; apply R4 in H; lia).
  split; simpl; try done.
  - intros w i Hi. destruct (decide (w = ws)) as [->|]; simplify_map_eq; [eauto|].
    destruct (R1 w i Hi) as (Hni & d & Hd & Hdw). split; [done|]. exists d.
    rewrite lookup_insert_ne; [done|]. congruence.
  - intros i d Hd Hni. destruct (decide (i = next_ctl s1)) as [->|]; simplify_map_eq; [done|].
    pose proof (R2 i d Hd Hni). rewrite lookup_insert_ne; [done|]. congruence.
  - intros i Hi. destruct (decide (i = next_ctl s1)); simplify_map_eq; [lia|]. apply R3 in Hi. lia.
  - intros i Hi. apply R4 in Hi. lia.
  - intros i d l Hd Hl. destruct (decide (i = next_ctl s1)) as [->|]; simplify_map_eq; eauto.
  - intros l k Hl. destruct (R7 l k Hl) as (i & d & Hd & Hld). exists i, d.
    rewrite lookup_insert_ne; [done|]. congruence.
  - intros i j d e l Hd He Hld Hle.
    destruct (decide (i = next_ctl s1)) as [->|], (decide (j = next_ctl s1)) as [->|]; simplify_map_eq; eauto.
Qed.

Lemma act_ok a s s' : act a s = Some s' -> remote_ok s -> remote_ok s'.
Proof.
  destruct a as [ws cfg|ws cfg|ws|cid ev|ch|tid ev]; simpl; intros H Hok; simplify_eq.
  - by apply connect_ok.
  - by apply connect_ok, disconnect_ok.
  - by apply disconnect_ok.
  - by eapply thread_step_ok; [eapply advance_step|].
  - case_match; simplify_eq. by destruct Hok.
  - destruct (run tid ev (broker s)) as [b|] eqn:Eb; simplify_eq/=.
    pose proof (fr_leases _ _ _ (run_frame _ _ _ _ Eb)) as El. destruct Hok as [R1 R2 R3 R4 R5 R6 R7 R8].
    split; simpl; try done; rewrite ?El; try done. by eapply (reachable_step _ (LTask tid ev)).
Qed.

Lemma acts_ok s l s' : acts s l s' -> remote_ok s -> remote_ok s'.
Proof. intros H. induction H; eauto using act_ok. Qed.

Lemma remote_new_ok : remote_ok remote_new.
Proof.
  split; simpl; try done.
  - intros cid [c Hc]. by rewrite lookup_empty in Hc.
  - exists []. constructor.
Qed.

(** *** Threads that have been stopped *)

(** The steps a stopped thread can still take. *)
Definition stop_rank (st : Stage) : nat :=
  match st with
  | CDone => 0
  | CTop | CLost _ | CFailed _ => 1
  | CNew | CMonitor _ | CSleep => 2
  | CConnected _ => 3
  | CInstall _ | CSettle _ | CBind _ | CBootstrap => 4
  | CTry _ _ => 5
  | CSpawn _ => 6
  end.

Lemma advance_rank cid ev s s' c :
  advance cid ev s = Some s' -> cid ∈ stops s -> ctls s !! cid = Some c ->
  exists c', ctls s' !! cid = Some c' /\ stop_rank (c_stage c') < stop_rank (c_stage c).
Proof.
  unfold Controller.advance. intros H Hs Hc. rewrite Hc in H. simpl in H. rewrite bool_decide_true in H by done.
  assert (forall st retry s1, ctls s1 = ctls s -> stop_rank st < stop_rank (c_stage c) ->
            exists c', ctls (at_stage cid st retry s1) !! cid = Some c' /\ stop_rank (c_stage c') < stop_rank (c_stage c)) as Hgo.
  { intros st retry s1 E Hr. exists (mkCtl (c_ws c) (c_config c) st retry). simpl. by rewrite E, lookup_alter_eq, Hc. }
  destruct (c_stage c) eqn:Hst, ev; try done; unfold finish_loop in H;
    try (repeat case_match; simplify_eq; apply Hgo; simpl; done || lia).
  destruct (drop_proxy_lease lease (broker s)) as [b|]; [|done]. simpl in H. simplify_eq. apply Hgo; simpl; [done|lia].
Qed.

(** A thread that has not returned can take a step. *)
Lemma advance_enabled cid s c :
  remote_ok s -> ctls s !! cid = Some c -> c_stage c <> CDone -> exists ev, is_Some (advance cid ev s).
Proof.
  intros Hok Hc Hst.
  assert (forall l, c_stage c = CLost l -> is_Some (advance cid Go s)) as Hlost.
  { intros l El. unfold Controller.advance. rewrite Hc. simpl. rewrite El.
    assert (leases (broker s) !! l = Some (transport_key (c_config c))) as Hl
      by (eapply ro_lease; [done|exact Hc|by rewrite El]).
    unfold drop_proxy_lease. rewrite Hl. simpl. case_bool_decide; eauto. }
  destruct (c_stage c) as [| | |h|h|h ch|h|h|h|l|l|msg| |] eqn:E; try done;
    [exists Go|exists Go|exists (BootErr "")|exists (BindErr "")|exists (SshErr "")|exists (SshErr "")
    |exists CTimer|exists (InstallErr "")|exists Go|exists CTimer|exists Go; by eapply Hlost|exists Go|exists CTimer];
    unfold Controller.advance; rewrite Hc; simpl; rewrite E; eauto.
  - case_bool_decide; eauto.
  - destruct (acquire _ _ _). eauto.
  - case_bool_decide; [eauto|]. case_match; eauto.
  - case_bool_decide; eauto.
Qed.

Definition own_step (cid : nat) (a : Action) : bool :=
  match a with Thread i _ => bool_decide (i = cid) | _ => false end.

Lemma stops_grow a s s' cid : act a s = Some s' -> cid ∈ stops s -> cid ∈ stops s'.
Proof.
  destruct a as [ws cfg|ws cfg|ws|i ev|ch|tid ev]; simpl; intros H Hs; simplify_eq.
  - unfold connect, disconnect. destruct (registry s !! ws); simpl; set_solver.
  - unfold reconnect, connect, disconnect. destruct (registry s !! ws) eqn:E; simpl; rewrite ?E; repeat case_match; simpl; set_solver.
  - unfold disconnect. destruct (registry s !! ws); simpl; set_solver.
  - by rewrite (ts_stops _ _ _ (advance_step _ _ _ _ H)).
  - by case_match; simplify_eq.
  - destruct (run tid ev (broker s)); simplify_eq/=. done.
Qed.

Lemma disconnect_ctls ws s : ctls (disconnect ws s) = ctls s.
Proof. unfold disconnect. by destruct (registry s !! ws). Qed.
Lemma disconnect_next ws s : next_ctl (disconnect ws s) = next_ctl s.
Proof. unfold disconnect. by destruct (registry s !! ws). Qed.

Lemma others_ctl a s s' cid c :
  remote_ok s -> act a s = Some s' -> own_step cid a = false -> ctls s !! cid = Some c -> ctls s' !! cid = Some c.
Proof.
  intros Hok H Ho Hc. assert (cid < next_ctl s) as Hlt by (apply (ro_fresh _ Hok); eauto).
  destruct a as [ws cfg|ws cfg|ws|i ev|ch|tid ev]; simpl in H; simplify_eq.
  - simpl. rewrite disconnect_ctls, disconnect_next, lookup_insert_ne; [done|lia].
  - simpl. rewrite !disconnect_ctls, !disconnect_next, lookup_insert_ne; [done|lia].
  - by rewrite disconnect_ctls.
  - simpl in Ho. apply bool_decide_eq_false in Ho.
    destruct (ts_ctls _ _ _ (advance_step _ _ _ _ H)) as (? & ? & _ & -> & _). by rewrite lookup_insert_ne.
  - by case_match; simplify_eq.
  - destruct (run tid ev (broker s)); simplify_eq/=. done.
Qed.

Lemma stopped_bounded s l s' cid c :
  remote_ok s -> acts s l s' -> cid ∈ stops s -> ctls s !! cid = Some c ->
  remote_ok s' /\ exists c', ctls s' !! cid = Some c' /\
    length (List.filter (own_step cid) l) + stop_rank (c_stage c') <= stop_rank (c_stage c).
Proof.
  intros Hok H. revert c. induction H as [s|s a s1 l s2 Ha Hl IH]; intros c Hs Hc; [by split; [|exists c]|].
  pose proof (act_ok _ _ _ Ha Hok) as Hok1. pose proof (stops_grow _ _ _ _ Ha Hs) as Hs1.
  destruct (own_step cid a) eqn:Ho.
  - destruct a as [| | |i ev| |]; try done. simpl in Ho. apply bool_decide_eq_true in Ho as ->.
    destruct (advance_rank _ _ _ _ _ Ha Hs Hc) as (c1 & Hc1 & Hr).
    destruct (IH Hok1 c1 Hs1 Hc1) as (Hok2 & c2 & Hc2 & Hr2). split; [done|]. exists c2. split; [done|].
    simpl. rewrite bool_decide_true by done. simpl. lia.
  - destruct (IH Hok1 c Hs1) as (Hok2 & c2 & Hc2 & Hr2); [by apply (others_ctl a s)|].
    split; [done|]. exists c2. split; [done|]. simpl. by rewrite Ho.
Qed.

(** *** Listening ports *)

(** A step takes no port from another thread, takes at most the relay port, and
    keeps the ports of its thread exactly until the thread returns. *)
Lemma advance_bound cid ev s s' :
  advance cid ev s = Some s' ->
  exists c c', ctls s !! cid = Some c /\ ctls s' !! cid = Some c' /\
    (bound s' = bound s /\ (c_stage c' = CDone -> c_stage c = CDone) \/
     (exists p, bound s !! p = None /\ bound s' = <[p := cid]> (bound s)) /\ c_stage c' <> CDone \/
     bound s' = filter (fun kv : Z * nat => kv.2 <> cid) (bound s) /\ c_stage c' = CDone).
Proof.
  unfold Controller.advance. intros H. destruct (ctls s !! cid) as [c|] eqn:Hc; [|done]. simpl in H. exists c.
  assert (forall st retry s1, ctls s1 = ctls s ->
            ctls (at_stage cid st retry s1) !! cid = Some (mkCtl (c_ws c) (c_config c) st retry)) as Hlk.
  { intros st retry s1 E. simpl. by rewrite E, lookup_alter_eq, Hc. }
  destruct (c_stage c) eqn:Hst, ev; try done; unfold finish_loop in H;
    try (repeat case_match; simplify_eq; eexists; (split; [done|]); (split; [by apply Hlk|]); simpl; naive_solver).
  - repeat case_match; simplify_eq; eexists; (split; [done|]);
      try (split; [by apply Hlk|]; simpl; naive_solver). split; [done|]. left. split; [done|congruence].
  - destruct (drop_proxy_lease lease (broker s)) as [b|]; [|done]. simpl in H.
    case_bool_decide; simplify_eq; eexists; (split; [done|]); (split; [by apply Hlk|]); simpl; naive_solver.
Qed.

(** Ports belong to threads that have not returned. *)
Definition ports_ok (s : Remote) : Prop :=
  forall p cid, bound s !! p = Some cid -> exists c, ctls s !! cid = Some c /\ c_stage c <> CDone.

Lemma disconnect_bound ws s : bound (disconnect ws s) = bound s.
Proof. unfold disconnect. by destruct (registry s !! ws). Qed.

Lemma ports_same s s' :
  bound s' = bound s -> (forall i c, ctls s !! i = Some c -> ctls s' !! i = Some c) -> ports_ok s -> ports_ok s'.
Proof. intros Eb Hc Hok p cid Hp. rewrite Eb in Hp. destruct (Hok p cid Hp) as (c & ? & ?). eauto. Qed.

Lemma act_ports a s s' : act a s = Some s' -> remote_ok s -> ports_ok s -> ports_ok s'.
Proof.
  intros H Hok Hp.
  destruct a as [ws cfg|ws cfg|ws|cid ev|ch|tid ev] eqn:Ea; try (
    apply (ports_same s); [|by intros i c Hc; apply (others_ctl a s s' i c Hok); subst; simpl|done];
    simpl in H; repeat case_match; simplify_eq; simpl; by rewrite ?disconnect_bound).
  - intros p i Hi. destruct (advance_bound cid ev s s' H) as (c & c' & Hc & Hc' & Hcase).
    assert (i <> cid -> bound s !! p = Some i -> exists d, ctls s' !! i = Some d /\ c_stage d <> CDone) as Hother.
    { intros Hne Hb. destruct (Hp p i Hb) as (d & Hd & Hs). exists d. split; [|done].
      eapply (others_ctl (Thread cid ev)); [done|exact H|simpl; by apply bool_decide_eq_false|done]. }
    destruct (decide (i = cid)) as [->|Hne].
    + exists c'. split; [done|]. destruct Hcase as [[Eb Hd]|[[(p' & Hp' & Eb) Hd]|[Eb Hd]]]; rewrite Eb in Hi.
      * intros E. destruct (Hp p cid Hi) as (d & Hdd & Hs). simplify_eq. auto.
      * done.
      * apply map_lookup_filter_Some in Hi as [_ Hi]. done.
    + apply Hother; [done|]. destruct Hcase as [[Eb Hd]|[[(p' & Hp' & Eb) Hd]|[Eb Hd]]]; rewrite Eb in Hi; [done| |].
      * apply lookup_insert_Some in Hi as [[_ Hi]|[_ Hi]]; [by subst|done].
      * by apply map_lookup_filter_Some in Hi as [Hi _].
  - simpl in H. destruct (run tid ev (broker s)); simpl in H; simplify_eq. exact Hp.
Qed.

Lemma acts_ports s l s' : acts s l s' -> remote_ok s -> ports_ok s -> ports_ok s'.
Proof. intros H. induction H; eauto using act_ok, act_ports. Qed.

(** A port stays with its thread until the thread returns. *)
Lemma act_keeps_port a s s' p cid c' :
  act a s = Some s' -> bound s !! p = Some cid -> ctls s' !! cid = Some c' -> c_stage c' <> CDone ->
  bound s' !! p = Some cid.
Proof.
  intros H Hb Hc' Hst. destruct a as [ws cfg|ws cfg|ws|i ev|ch|tid ev]; simpl in H; simplify_eq.
  - simpl. by rewrite disconnect_bound.
  - simpl. by rewrite !disconnect_bound.
  - by rewrite disconnect_bound.
  - destruct (advance_bound i ev s s' H) as (c & c1 & Hc & Hc1 & Hcase).
    destruct Hcase as [[-> _]|[[(p' & Hp' & ->) _]|[-> Hd]]]; [done| |].
    + rewrite lookup_insert_ne; [done|]. congruence.
    + apply map_lookup_filter_Some. split; [done|]. simpl. intros <-. congruence.
  - by case_match; simplify_eq.
  - destruct (run tid ev (broker s)); simpl in H; simplify_eq. done.
Qed.

(** *** After a connection has been lost *)

(** The stages of a thread that is not connected and holds its relay port. *)
Definition lost (st : Stage) : bool :=
  match st with CLost _ | CSleep | CTop | CBootstrap | CBind _ | CFailed _ => true | _ => false end.

Lemma advance_lost cid ev s s' c :
  advance cid ev s = Some s' -> ctls s !! cid = Some c -> lost (c_stage c) = true ->
  relay_wanted socket_path (c_config c) = true ->
  is_Some (bound s !! default 0%Z (relay_port (c_config c))) -> cid ∉ stops s ->
  exists c', ctls s' !! cid = Some c' /\ lost (c_stage c') = true /\ c_config c' = c_config c.
Proof.
  unfold Controller.advance. intros H Hc Hl Hw [x Hb] Hns. rewrite Hc in H. simpl in H.
  rewrite bool_decide_false in H by done. rewrite Hw in H. rewrite Hb in H.
  assert (forall st retry s1, ctls s1 = ctls s -> lost st = true ->
            exists c', ctls (at_stage cid st retry s1) !! cid = Some c' /\ lost (c_stage c') = true /\
              c_config c' = c_config c) as Hgo.
  { intros st retry s1 E Hst. eexists. simpl. rewrite E, lookup_alter_eq, Hc. by split. }
  destruct (c_stage c) eqn:Hst, ev; try done; simplify_eq; try (by apply Hgo).
  destruct (drop_proxy_lease lease (broker s)) as [b|]; [|done]. simpl in H. simplify_eq. by apply Hgo.
Qed.

Lemma stops_before s l s' cid : acts s l s' -> cid ∉ stops s' -> cid ∉ stops s.
Proof. intros H Hn Hs. apply Hn. clear Hn. induction H; eauto using stops_grow. Qed.

Lemma lost_forever s l s' cid c :
  acts s l s' -> remote_ok s -> ctls s !! cid = Some c -> lost (c_stage c) = true ->
  relay_wanted socket_path (c_config c) = true ->
  bound s !! default 0%Z (relay_port (c_config c)) = Some cid -> cid ∉ stops s' ->
  exists c', ctls s' !! cid = Some c' /\ lost (c_stage c') = true.
Proof.
  intros H. revert c. induction H as [s|s a s1 l s2 Ha Hl IH]; intros c Hok Hc Hlost Hw Hb Hns; [eauto|].
  pose proof (act_ok _ _ _ Ha Hok) as Hok1. pose proof (stops_before _ _ _ _ Hl Hns) as Hns1.
  assert (cid ∉ stops s) as Hns0 by (intros E; by apply Hns1, (stops_grow _ _ _ _ Ha)).
  assert (exists c1, ctls s1 !! cid = Some c1 /\ lost (c_stage c1) = true /\ c_config c1 = c_config c)
    as (c1 & Hc1 & Hlost1 & Ecfg).
  { destruct (own_step cid a) eqn:Ho.
    - destruct a as [| | |i ev| |]; try done. simpl in Ho. apply bool_decide_eq_true in Ho as ->.
      by eapply advance_lost.
    - exists c. split; [|done]. by apply (others_ctl a s). }
  apply (IH c1); try done; rewrite Ecfg; [done|].
  eapply act_keeps_port; [exact Ha|done|exact Hc1|]. intros E. by rewrite E in Hlost1.
Qed.
End system.

(** ** Claims *)

(** C12: controllers, tunnels and workspaces stay in step.  Whatever the user, the
    threads, the ssh processes and the network do in whatever order: each workspace
    has at most one controller that has not been told to stop, and it is the
    registered one; and a transport has a broker entry exactly while some
    controller is connected (or just about to give up its connection) over it. *)
Theorem tunnel_serves_connected socket_path fmt0 l s :
  acts socket_path fmt0 remote_new l s ->
  (forall i j c d, ctls s !! i = Some c -> ctls s !! j = Some d -> i ∉ stops s -> j ∉ stops s ->
     c_ws c = c_ws d -> i = j /\ registry s !! c_ws c = Some i) /\
  (forall k, is_Some (entries (broker s) !! k) <->
     exists cid c lease, ctls s !! cid = Some c /\ transport_key (c_config c) = k /\
       lease_of (c_stage c) = Some lease).
Proof.
  intros H%acts_ok; [|apply remote_new_ok]. destruct (reachable_ok _ (ro_broker _ H)) as [Hc _]. split.
  - intros i j c d Hi Hj Hni Hnj E. pose proof (ro_active _ H i c Hi Hni) as Ri.
    pose proof (ro_active _ H j d Hj Hnj) as Rj. split; [congruence|done].
  - intros k. split.
    + intros [e He]. destruct (co_entry _ Hc k e He) as (E1 & _ & E3 & _). rewrite E1 in E3.
      destruct (map_choose (filter (fun kv : nat * string => kv.2 = k) (leases (broker s)))) as (l0 & k0 & Hl).
      { intros E. unfold lease_count in E3. rewrite E, map_size_empty in E3. lia. }
      apply map_lookup_filter_Some in Hl as [Hl Hk]. simpl in Hk. subst k0.
      destruct (ro_held _ H l0 k Hl) as (cid & c & Hcc & Hls). exists cid, c, l0. split_and!; try done.
      pose proof (ro_lease _ H cid c l0 Hcc Hls). congruence.
    + intros (cid & c & l0 & Hcc & Hk & Hls). destruct (entries (broker s) !! k) eqn:E; [done|exfalso].
      pose proof (co_none _ Hc k E) as E0. pose proof (ro_lease _ H cid c l0 Hcc Hls) as Hl.
      rewrite Hk in Hl. rewrite (lease_count_delete k k l0) in E0 by done. by rewrite decide_True in E0.
Qed.

Definition demo_remote_config (p : Z) : RemoteConfiguration :=
  mkRemoteConfiguration "dev@host" None None [] None (Some p) (Some "id") (Some "token") None.
Definition demo_hello : DaemonHello := mkDaemonHello "limuxd-remote" "0.1" [REQUIRED_CAPABILITY] "~/.limux/d".
(** A workspace goes through a whole connection. *)
Definition connected_run (cid : nat) : list Action :=
  [Thread cid Go; Thread cid Go; Thread cid (BootOk demo_hello); Thread cid BindOk; Thread cid SshSpawned;
   Thread cid SshUp; Thread cid CTimer; Thread cid InstallOk; Thread cid Go].
Definition demo_socket : option string := Some "/tmp/limux.sock".
Definition show0 (_ : f64) : string := "0".
Definition demo_run : list Action := UConnect 1 (demo_remote_config 7000) :: connected_run 0.
Definition demo_remote : Remote := default remote_new (run_acts demo_socket show0 demo_run remote_new).

Lemma run_acts_acts sp f l : forall s s', run_acts sp f l s = Some s' -> acts sp f s l s'.
Proof.
  induction l as [|a l IH]; intros s s' H; simpl in H; simplify_eq; [constructor|].
  destruct (act sp f a s) as [s1|] eqn:E; [|done]. econstructor; [exact E|by apply IH].
Qed.
Lemma demo_acts : acts demo_socket show0 remote_new demo_run demo_remote.
Proof. apply run_acts_acts. vm_compute. reflexivity. Qed.

Lemma tunnel_serves_connected_witness :
  is_Some (entries (broker demo_remote) !! transport_key (demo_remote_config 7000)).
Proof.
  apply (tunnel_serves_connected demo_socket show0 demo_run demo_remote demo_acts).
  exists 0, (mkCtl 1 (demo_remote_config 7000) (CMonitor 0) 0), 0. vm_compute. by repeat split.
Defined.

(** C13: disconnecting a workspace ends its controller: whatever happens afterwards,
    the thread takes at most six more steps and can always take one until it has
    returned; then it holds no port. *)
Theorem disconnect_ends_loop socket_path fmt0 l0 s ws cid l s' :
  acts socket_path fmt0 remote_new l0 s -> registry s !! ws = Some cid ->
  acts socket_path fmt0 (disconnect ws s) l s' ->
  length (List.filter (own_step cid) l) <= 6 /\
  exists c, ctls s' !! cid = Some c /\
    (c_stage c <> CDone -> exists ev, is_Some (advance socket_path fmt0 cid ev s')) /\
    (c_stage c = CDone -> forall p, bound s' !! p <> Some cid).
Proof.
  intros H0 Hr Ha. pose proof (acts_ok _ _ _ _ _ H0 remote_new_ok) as H.
  pose proof (acts_ports _ _ _ _ _ H0 remote_new_ok ltac:(done)) as Hp.
  destruct (ro_registry _ H ws cid Hr) as (_ & c & Hc & _).
  destruct (stopped_bounded socket_path fmt0 (disconnect ws s) l s' cid c) as (Hok & c' & Hc' & Hn); try done.
  - by apply disconnect_ok.
  - unfold disconnect. rewrite Hr. simpl. set_solver.
  - by rewrite disconnect_ctls.
  - assert (stop_rank (c_stage c) <= 6) by (destruct (c_stage c); simpl; lia). split; [lia|].
    exists c'. split_and!; [done|by apply advance_enabled|].
    intros Hd p Hb. assert (ports_ok s') as Hp'.
    { eapply acts_ports; [exact Ha|by apply disconnect_ok|].
      apply (ports_same s); [apply disconnect_bound|by rewrite disconnect_ctls|done]. }
    destruct (Hp' p cid Hb) as (d & ? & ?). congruence.
Qed.

Definition stop_run : list Action := [Thread 0 CTimer; Thread 0 Go].
Lemma disconnect_ends_loop_witness :
  exists s c, run_acts demo_socket show0 stop_run (disconnect 1 demo_remote) = Some s /\
    ctls s !! 0 = Some c /\ c_stage c = CDone /\ length (List.filter (own_step 0) stop_run) <= 6.
Proof.
  set (s := default remote_new (run_acts demo_socket show0 stop_run (disconnect 1 demo_remote))).
  assert (run_acts demo_socket show0 stop_run (disconnect 1 demo_remote) = Some s) as Hs by (vm_compute; reflexivity).
  destruct (disconnect_ends_loop demo_socket show0 demo_run demo_remote 1 0 stop_run s demo_acts)
    as (Hn & c & Hc & _); [vm_compute; reflexivity|exact (run_acts_acts _ _ _ _ _ Hs)|].
  exists s, c. split_and!; [exact Hs|exact Hc| |exact Hn]. revert Hc. vm_compute. intros [= <-]. reflexivity.
Defined.

(** A lost connection is never restored.  The relay listener of a connection
    lives as long as the thread, so once a controller has bound its relay port and
    lost the connection every further attempt to start the relay fails: as long as
    the controller is not told to stop it stays disconnected, whatever the network
    does. *)
Theorem lost_connection_stays_lost socket_path fmt0 l0 s l s' cid c :
  acts socket_path fmt0 remote_new l0 s -> ctls s !! cid = Some c -> lost (c_stage c) = true ->
  relay_wanted socket_path (c_config c) = true ->
  bound s !! default 0%Z (relay_port (c_config c)) = Some cid ->
  acts socket_path fmt0 s l s' -> cid ∉ stops s' ->
  exists c', ctls s' !! cid = Some c' /\
    (forall h, c_stage c' <> CConnected h) /\ (forall lease, c_stage c' <> CMonitor lease).
Proof.
  intros H0 Hc Hl Hw Hb H Hns. pose proof (acts_ok _ _ _ _ _ H0 remote_new_ok) as Hok.
  destruct (lost_forever _ _ s l s' cid c H Hok Hc Hl Hw Hb Hns) as (c' & Hc' & Hl').
  exists c'. split; [done|]. by destruct (c_stage c').
Qed.

(** The tunnel process dies, the network is fine, the relay cannot be bound. *)
Definition retry_run : list Action :=
  [ChildExits 0; Thread 0 CTimer; Thread 0 Go].
Definition retry_more : list Action :=
  [Thread 0 CTimer; Thread 0 Go; Thread 0 (BootOk demo_hello); Thread 0 (BindErr "address in use"); Thread 0 Go].
Lemma lost_connection_stays_lost_witness :
  exists s s' c, run_acts demo_socket show0 (demo_run ++ retry_run) remote_new = Some s /\
    run_acts demo_socket show0 retry_more s = Some s' /\ ctls s' !! 0 = Some c /\
    (forall lease, c_stage c <> CMonitor lease).
Proof.
  set (s := default remote_new (run_acts demo_socket show0 (demo_run ++ retry_run) remote_new)).
  set (s' := default remote_new (run_acts demo_socket show0 retry_more s)).
  assert (run_acts demo_socket show0 (demo_run ++ retry_run) remote_new = Some s) as H1 by (vm_compute; reflexivity).
  assert (run_acts demo_socket show0 retry_more s = Some s') as H2 by (vm_compute; reflexivity).
  set (c := default (mkCtl 0 (demo_remote_config 0) CDone 0) (ctls s !! 0)).
  destruct (lost_connection_stays_lost demo_socket show0 (demo_run ++ retry_run) s retry_more s' 0 c)
    as (c' & Hc' & _ & Hm).
  - exact (run_acts_acts _ _ _ _ _ H1).
  - vm_compute. reflexivity.
  - vm_compute. reflexivity.
  - vm_compute. reflexivity.
  - vm_compute. reflexivity.
  - exact (run_acts_acts _ _ _ _ _ H2).
  - apply (bool_decide_unpack (0 ∉ stops s')). vm_compute. exact I.
  - exists s, s', c'. split_and!; [exact H1|exact H2|exact Hc'|exact Hm].
Defined.

(** A workspace that was disconnected during the bootstrap ends up marked as
    connected: a stopped attempt returns [Ok], which is reported before the flag is
    read again; the last state pushed is [Connected], and the thread is gone. *)
Theorem stopped_controller_reports_connected :
  exists s hello,
    run_acts demo_socket show0
      [UConnect 1 (demo_remote_config 7000); Thread 0 Go; Thread 0 Go; UDisconnect 1;
       Thread 0 (BootOk demo_hello); Thread 0 Go; Thread 0 CTimer; Thread 0 Go] remote_new = Some s /\
    c_stage <$> ctls s !! 0 = Some CDone /\ is_active 1 s = false /\
    last (List.filter (fun p => match p with PushState _ _ _ _ => true | _ => false end) (pushes s)) =
      Some (PushState 1 Connected (Some (daemon_status_from_hello hello)) (Some "Connected to dev@host")).
Proof. eexists _, demo_hello. split; [vm_compute; reflexivity|]. vm_compute. by repeat split. Qed.

(** There is one slot for the ssh child of all workspaces: disconnecting the first
    of two connected workspaces kills the tunnel of the second and leaves its own
    running. *)
Theorem disconnect_kills_other_tunnel :
  exists s s',
    run_acts demo_socket show0
      (demo_run ++ UConnect 2 (demo_remote_config 7001) :: connected_run 1) remote_new = Some s /\
    alive s = {[0; 1]} /\
    run_acts demo_socket show0 [UDisconnect 1; Thread 0 CTimer; Thread 0 Go] s = Some s' /\
    alive s' = {[0]} /\ c_ws <$> ctls s' !! 1 = Some 2%Z /\ is_active 2 s' = true.
Proof.
  eexists _, _. split; [vm_compute; reflexivity|]. split; [vm_compute; reflexivity|].
  split; [vm_compute; reflexivity|]. vm_compute. by repeat split.
Qed.

(** ** Back-off *)

(** Small exponents are checked one by one; larger ones overflow to infinity. *)
Lemma delay_small base k :
  (base = 2 \/ base = 3 \/ base = 4)%Z -> k < 1100 ->
  f64_min (f64_mul (f64_of_Z base) (f64_pow2 k)) (f64_of_Z 60) = f64_of_Z (Z.min (base * 2 ^ Z.of_nat k) 60).
Proof.
  intros Hb Hk.
  assert (forallb (fun k => forallb (fun base => bool_decide
            (f64_min (f64_mul (f64_of_Z base) (f64_pow2 k)) (f64_of_Z 60)
             = f64_of_Z (Z.min (base * 2 ^ Z.of_nat k) 60))) [2; 3; 4]%Z) (seq 0 1100) = true) as H
    by (vm_compute; reflexivity).
  rewrite forallb_forall in H. specialize (H k). rewrite in_seq, forallb_forall in H.
  apply (bool_decide_eq_true _), H; [lia|]. simpl. lia.
Qed.
Lemma delay_large base k :
  (base = 2 \/ base = 3 \/ base = 4)%Z -> 1100 <= k ->
  f64_min (f64_mul (f64_of_Z base) (f64_pow2 k)) (f64_of_Z 60) = f64_of_Z (Z.min (base * 2 ^ Z.of_nat k) 60).
Proof.
  intros Hb Hk. rewrite Z.min_r.
  - unfold f64_pow2. rewrite decide_False by lia. by destruct Hb as [->|[->| ->]].
  - assert (2 ^ 6 <= 2 ^ Z.of_nat k)%Z by (apply Z.pow_le_mono_r; lia). lia.
Qed.

(** The waiting times between attempts double from the base (2 s after a lost
    tunnel, 3 s in the broker, 4 s after a failed connection) and stop at one
    minute; the floating-point computation is exact for every retry count. *)
Theorem backoff_doubles base retry :
  (base = 2 \/ base = 3 \/ base = 4)%Z -> (1 <= retry <= u32_max)%Z ->
  retry_delay (f64_of_Z base) retry = f64_of_Z (Z.min (base * 2 ^ (retry - 1)) 60) /\
  backoff_delay (f64_of_Z base) retry = retry_delay (f64_of_Z base) retry.
Proof.
  intros Hb Hr. unfold retry_delay, backoff_delay. rewrite Z.max_r by lia. split; [|done].
  replace (retry - 1)%Z with (Z.of_nat (Z.to_nat (retry - 1))) at 2 by lia.
  destruct (decide (Z.to_nat (retry - 1) < 1100)); [by apply delay_small|apply delay_large; [done|lia]].
Qed.
Lemma backoff_doubles_witness : retry_delay (f64_of_Z 4) 3 = f64_of_Z 16.
Proof. apply (backoff_doubles 4 3); [lia|unfold u32_max; lia]. Defined.
