(* ===== verification/SshDetect.v ===== *)
(** * Foreground SSH sessions and file upload (app/src/remote/ssh_detect.rs, file_drop.rs)

    The parser of an ssh command line, the scan of /proc that finds the command
    line of the foreground process of a terminal, and the commands that upload a
    dropped file with the detected connection.

    /proc is a parameter: the entries of the directory, and per process the text
    of [stat] and the bytes of [cmdline].  A flag of the command line is one ASCII
    character, so the parser's [chars] can be read on the bytes: a first byte of a
    longer character is in neither flag set.  Where the code can panic (slicing
    [stat]) the result is an [option] whose [None] is the panic. *)

From Stdlib Require Import Ascii.
From stdpp Require Import sorting.
From S2P Require Import Prelude RustStr RemoteConfig.
Open Scope string_scope.
Open Scope list_scope.

Record DetectedSSHSession := mkDetectedSSHSession {
  d_destination : string;
  d_port : option Z;
  d_identity_file : option string;
  d_ssh_options : list string;
}.

Definition to_remote_config (s : DetectedSSHSession) : RemoteConfiguration :=
  mkRemoteConfiguration (d_destination s) (d_port s) (d_identity_file s) (d_ssh_options s)
    None None None None None.

(** ** Terminal number *)

Definition u32_wrap (z : Z) : Z := (z mod (u32_max + 1))%Z.

Definition tty_path_to_nr (tty_path : string) : option Z :=
  match strip_prefix "/dev/pts/" tty_path with
  | Some n_str =>
      n ← parse_u32 n_str;
      Some (u32_wrap ((136 + n / 256) * 256 + n mod 256))%Z
  | None =>
      match strip_prefix "/dev/tty" tty_path with
      | Some n_str => n ← parse_u32 n_str; Some (u32_wrap (4 * 256 + n))
      | None => None
      end
  end.

(** ** Options *)

Definition NO_ARG_FLAGS : string := "46AaCfGgKkMNnqsTtVvXxYy".
Definition VALUE_ARG_FLAGS : string := "BbcDEeFIiJLlmOopQRSWw".

Definition FILTERED_OPTION_KEYS : list string :=
  ["batchmode"; "controlmaster"; "controlpersist"; "forkafterauthentication"; "localcommand";
   "permitlocalcommand"; "remotecommand"; "requesttty"; "sendenv"; "sessiontype"; "setenv";
   "stdioforward"].

(** The text before the first ['='] or white space. *)
Fixpoint before_sep (s : string) : string :=
  match s with
  | "" => ""
  | String c r =>
      if byte_eqb c "=" || bool_decide (is_Some (ws_prefix s)) then "" else String c (before_sep r)
  end.

Definition ssh_option_key (opt : string) : string := to_lowercase (before_sep opt).

(** The text after the first white-space character. *)
Fixpoint after_ws (s : string) : option string :=
  match ws_prefix s with
  | Some r => Some r
  | None => match s with "" => None | String _ r => after_ws r end
  end.

Definition non_empty (s : string) : option string :=
  match s with "" => None | _ => Some s end.

Definition ssh_option_value (opt : string) : option string :=
  match split_once "=" opt with
  | Some (_, v) => non_empty (trim v)
  | None => v ← after_ws opt; non_empty (trim v)
  end.

(** The variables that the parser updates. *)
Record ParseVars := mkParseVars {
  v_port : option Z;
  v_identity_file : option string;
  v_login_name : option string;
  v_ssh_options : list string;
}.

Definition vars0 : ParseVars := mkParseVars None None None [].
Definition set_port (p : Z) (v : ParseVars) : ParseVars :=
  mkParseVars (Some p) (v_identity_file v) (v_login_name v) (v_ssh_options v).
Definition set_identity (i : string) (v : ParseVars) : ParseVars :=
  mkParseVars (v_port v) (Some i) (v_login_name v) (v_ssh_options v).
Definition set_login (l : string) (v : ParseVars) : ParseVars :=
  mkParseVars (v_port v) (v_identity_file v) (Some l) (v_ssh_options v).
Definition push_option (o : string) (v : ParseVars) : ParseVars :=
  mkParseVars (v_port v) (v_identity_file v) (v_login_name v) (v_ssh_options v ++ [o]).

Definition set_port_str (s : string) (v : ParseVars) : ParseVars :=
  match parse_u16 s with Some p => set_port p v | None => v end.

Definition consume_ssh_option (opt : string) (v : ParseVars) : ParseVars :=
  let trimmed := trim opt in
  match trimmed with
  | "" => v
  | _ =>
      let key := ssh_option_key trimmed in
      let value := ssh_option_value trimmed in
      if String.eqb key "port" then
        match value with Some s => set_port_str s v | None => v end
      else if String.eqb key "identityfile" then
        match value with Some s => set_identity s v | None => v end
      else if String.eqb key "user" then
        match value with Some s => set_login s v | None => v end
      else if existsb (String.eqb key) FILTERED_OPTION_KEYS then v
      else push_option trimmed v
  end.

Definition consume_value (flag : ascii) (value : string) (v : ParseVars) : ParseVars :=
  let trimmed := trim value in
  match trimmed with
  | "" => v
  | _ =>
      if byte_eqb flag "p" then set_port_str trimmed v
      else if byte_eqb flag "i" then set_identity trimmed v
      else if byte_eqb flag "l" then set_login trimmed v
      else if byte_eqb flag "o" then consume_ssh_option trimmed v
      else v
  end.

Fixpoint all_in (set s : string) : bool :=
  match s with "" => true | String c r => has_byte c set && all_in set r end.

(** ** Command line *)

(** The loop over the arguments: the variables and the destination; [None] where
    the parser gives up. *)
Fixpoint parse_args (args : list string) (v : ParseVars) : option (ParseVars * option string) :=
  match args with
  | [] => Some (v, None)
  | arg :: rest =>
      if String.eqb arg "--" then Some (v, head rest)
      else if negb (starts_with "-" arg) || String.eqb arg "-" then Some (v, Some arg)
      else
        let chars := drop_bytes 1 arg in
        let boolean := if all_in NO_ARG_FLAGS chars then parse_args rest v else None in
        match chars with
        | String flag (String _ _ as value) =>
            if has_byte flag VALUE_ARG_FLAGS
            then parse_args rest (consume_value flag value v) else boolean
        | String flag "" =>
            if has_byte flag VALUE_ARG_FLAGS then
              match rest with
              | [] => None
              | value :: rest' => parse_args rest' (consume_value flag value v)
              end
            else boolean
        | "" => boolean
        end
  end.

Definition resolve_destination (destination : string) (login_name : option string) : string :=
  let trimmed := trim destination in
  match trimmed, login_name with
  | "", _ => ""
  | _, Some login =>
      let login := trim login in
      match login with
      | "" => trimmed
      | _ => if has_byte "@" trimmed then trimmed else login +:+ "@" +:+ trimmed
      end
  | _, None => trimmed
  end.

(** The text after the last [/]. *)
Definition basename (s : string) : string := List.last (split_char "/" s) s.

Definition parse_ssh_command_line (args : list string) : option DetectedSSHSession :=
  match args with
  | [] => None
  | argv0 :: rest =>
      '(v, destination) ← parse_args (if String.eqb (basename argv0) "ssh" then rest else args) vars0;
      dest ← destination;
      let final_dest := resolve_destination dest (v_login_name v) in
      match final_dest with
      | "" => None
      | _ => Some (mkDetectedSSHSession final_dest (v_port v) (v_identity_file v) (v_ssh_options v))
      end
  end.

(** ** Scan of /proc *)

(** The text after the last [c]. *)
Fixpoint rfind_after (c : ascii) (s : string) : option string :=
  match s with
  | "" => None
  | String a r =>
      match rfind_after c r with
      | Some x => Some x
      | None => if byte_eqb a c then Some r else None
      end
  end.

(** [&s\[1..\]]: [None] is the panic of an index that is past the end or inside a
    character. *)
Definition skip_byte (s : string) : option string :=
  match s with
  | "" => None
  | String _ (String b _ as r) => if cont b then None else Some r
  | String _ "" => Some ""
  end.

Record Proc := mkProc {
  proc_dir : option (list (option string)); (** names of /proc; [None]: not UTF-8 *)
  proc_stat : Z -> option string;
  proc_cmdline : Z -> option string;
}.

Definition stat_matches (target_tty_nr : Z) (fields : list string) : bool :=
  match fields with
  | _ :: _ :: f2 :: _ :: f4 :: f5 :: _ =>
      match parse_i32 f2, parse_u32 f4, parse_i32 f5 with
      | Some pgrp, Some tty_nr, Some tpgid =>
          negb (negb (Z.eqb tty_nr target_tty_nr) || Z.leb pgrp 0 || Z.leb tpgid 0
                || negb (Z.eqb pgrp tpgid))
      | _, _, _ => false
      end
  | _ => false
  end.

Definition ssh_cmdline (cmdline : string) : option (list string) :=
  let args := from_utf8_lossy <$> filter (fun s => s <> "") (split_char (ch 0) cmdline) in
  match args with
  | argv0 :: _ => if String.eqb (basename argv0) "ssh" then Some args else None
  | [] => None
  end.

Definition check_pid (proc : Proc) (pid target_tty_nr : Z) : option (option (list string)) :=
  match proc_stat proc pid with
  | None => Some None
  | Some stat =>
      match rfind_after ")" stat with
      | None => Some None
      | Some rest =>
          fields_str ← skip_byte rest;
          if stat_matches target_tty_nr (split_whitespace fields_str)
          then Some (cmdline ← proc_cmdline proc pid; ssh_cmdline cmdline)
          else Some None
      end
  end.

(** The loop over the entries: [Some None] where the function returns early. *)
Fixpoint scan (proc : Proc) (tty_nr : Z) (names : list (option string)) :
    option (option (list (Z * list string))) :=
  match names with
  | [] => Some (Some [])
  | None :: _ => Some None
  | Some name :: rest =>
      match parse_i32 name with
      | None => Some None
      | Some pid =>
          match check_pid proc pid tty_nr, scan proc tty_nr rest with
          | Some (Some args), Some candidates => Some (cons (pid, args) <$> candidates)
          | Some None, candidates => candidates
          | _, _ => None
          end
      end
  end.

Definition newer (a b : Z * list string) : Prop := (b.1 <= a.1)%Z.
#[global] Instance newer_dec : RelDecision newer.
Proof. intros a b. unfold newer. apply _. Defined.

Fixpoint find_map {A B} (f : A -> option B) (l : list A) : option B :=
  match l with [] => None | x :: l => match f x with Some y => Some y | None => find_map f l end end.

Definition detect (proc : Proc) (tty_path : string) : option (option DetectedSSHSession) :=
  match tty_path_to_nr tty_path, proc_dir proc with
  | Some tty_nr, Some names =>
      match scan proc tty_nr names with
      | Some (Some candidates) =>
          Some (find_map (fun c => parse_ssh_command_line c.2) (merge_sort newer candidates))
      | Some None => Some None
      | None => None
      end
  | _, _ => Some None
  end.

(** ** Lemmas on command lines *)

(** Text that [trim] keeps and that is not empty. *)
Definition clean (s : string) : Prop := trim s = s /\ s <> "".

Definition special_keys : list string := ["port"; "identityfile"; "user"].

(** An option that no other part of the configuration duplicates. *)
Definition plain_option (o : string) : Prop := clean o /\ ssh_option_key o ∉ special_keys.

(** The options that the detection keeps. *)
Definition reusable (o : string) : bool :=
  negb (existsb (String.eqb (ssh_option_key o)) FILTERED_OPTION_KEYS).

Definition push_options (l : list string) (v : ParseVars) : ParseVars :=
  mkParseVars (v_port v) (v_identity_file v) (v_login_name v)
    (v_ssh_options v ++ List.filter reusable l).

Lemma consume_clean flag s v :
  clean s ->
  consume_value flag s v =
    if byte_eqb flag "p" then set_port_str s v
    else if byte_eqb flag "i" then set_identity s v
    else if byte_eqb flag "l" then set_login s v
    else if byte_eqb flag "o" then consume_ssh_option s v else v.
Proof. intros [E Hne]. unfold consume_value. rewrite E. by destruct s. Qed.

Lemma consume_option_plain o v : plain_option o -> consume_value "o" o v = push_options [o] v.
Proof.
  intros [Hc Hk]. rewrite consume_clean by done. simpl.
  destruct Hc as [E Hne]. unfold consume_ssh_option. rewrite E.
  destruct o as [|c o]; [done|]. set (s := String c o) in *. unfold special_keys in Hk.
  destruct (String.eqb_spec (ssh_option_key s) "port") as [H|_]; [by rewrite H in Hk; set_solver|].
  destruct (String.eqb_spec (ssh_option_key s) "identityfile") as [H|_]; [by rewrite H in Hk; set_solver|].
  destruct (String.eqb_spec (ssh_option_key s) "user") as [H|_]; [by rewrite H in Hk; set_solver|].
  unfold push_options, reusable. cbn [List.filter].
  destruct (existsb _ _); cbn [negb]; [|done]. destruct v. simpl. by rewrite app_nil_r.
Qed.

Lemma push_options_app l1 l2 v : push_options l2 (push_options l1 v) = push_options (l1 ++ l2) v.
Proof. unfold push_options. simpl. by rewrite List.filter_app, (assoc_L (++)). Qed.

Lemma push_options_nil v : push_options [] v = v.
Proof. destruct v. unfold push_options. simpl. by rewrite app_nil_r. Qed.

Lemma parse_options l : forall rest v,
  Forall plain_option l ->
  parse_args ((l ≫= fun o => ["-o"; o]) ++ rest) v = parse_args rest (push_options l v).
Proof.
  induction l as [|o l IH]; intros rest v H; [by rewrite push_options_nil|].
  apply Forall_cons in H as [Ho Hl].
  change (parse_args (((o :: l) ≫= fun o => ["-o"; o]) ++ rest) v)
    with (parse_args ((l ≫= fun o => ["-o"; o]) ++ rest) (consume_value "o" o v)).
  by rewrite IH, consume_option_plain, push_options_app.
Qed.

(** A word of boolean flags. *)
Definition is_switch (s : string) : Prop :=
  exists cs, s = String "-" cs /\ cs <> "" /\ all_in NO_ARG_FLAGS cs = true.

Lemma no_arg_not_value c :
  has_byte c NO_ARG_FLAGS = true -> has_byte c VALUE_ARG_FLAGS = false /\ c <> "-"%char.
Proof. destruct c as [[] [] [] [] [] [] [] []]; vm_compute; intros H; by try discriminate. Qed.

Lemma parse_switches l : forall rest v,
  Forall is_switch l -> parse_args (l ++ rest) v = parse_args rest v.
Proof.
  induction l as [|s l IH]; intros rest v H; [done|].
  apply Forall_cons in H as [(cs & -> & Hne & Hc) Hl]. rewrite <- (IH rest v Hl).
  destruct cs as [|c cs]; [done|]. pose proof Hc as Hall.
  apply andb_prop in Hc as [Hc _]. apply no_arg_not_value in Hc as [Hv Hd].
  cbn [app parse_args].
  destruct (String.eqb_spec (String "-" (String c cs)) "--") as [E|_]; [by injection E as -> ->|].
  change (starts_with "-" (String "-" (String c cs))) with true.
  cbn [negb orb drop_bytes]. destruct (String.eqb_spec (String "-" (String c cs)) "-") as [E|_]; [done|].
  rewrite Hall, Hv. by destruct cs.
Qed.

Lemma parse_destination d rest v :
  starts_with "-" d = false -> parse_args (d :: rest) v = Some (v, Some d).
Proof.
  intros H. cbn [parse_args]. destruct (String.eqb_spec d "--") as [->|_]; [done|]. by rewrite H.
Qed.

Definition put_port (p : option Z) (v : ParseVars) : ParseVars :=
  match p with Some p => set_port p v | None => v end.
Definition put_identity (i : option string) (v : ParseVars) : ParseVars :=
  match i with Some i => set_identity i v | None => v end.

Lemma parse_connection_args c rest v :
  port_ok c -> (forall i, identity_file c = Some i -> clean i) -> Forall plain_option (ssh_options c) ->
  parse_args (connection_args c ++ rest) v =
  parse_args rest (push_options (ssh_options c) (put_identity (identity_file c) (put_port (port c) v))).
Proof.
  intros Hp Hi Ho. unfold connection_args. rewrite <- !(assoc_L (++)), <- (parse_options _ _ _ Ho).
  destruct (port c) as [p|] eqn:Ep; cbn [app put_port].
  - change (parse_args ("-p" :: show_uint p :: ?l) v) with (parse_args l (consume_value "p" (show_uint p) v)).
    rewrite consume_clean by (split; [apply trim_show_uint|apply show_uint_nonempty]). simpl.
    unfold set_port_str, parse_u16. rewrite parse_show_uint by (by apply Hp).
    destruct (identity_file c) as [i|] eqn:Ei; cbn [app put_identity]; [|done].
    change (parse_args ("-i" :: i :: ?l) ?v) with (parse_args l (consume_value "i" i v)).
    by rewrite consume_clean by eauto.
  - destruct (identity_file c) as [i|] eqn:Ei; cbn [app put_identity]; [|done].
    change (parse_args ("-i" :: i :: ?l) ?v) with (parse_args l (consume_value "i" i v)).
    by rewrite consume_clean by eauto.
Qed.

(** The options that a limux ssh command carries before those of the user. *)
Definition limux_options (c : RemoteConfiguration) : list string :=
  ["ServerAliveInterval=20"; "ServerAliveCountMax=2"] ++
  (if has_ssh_option "StrictHostKeyChecking" c then [] else ["StrictHostKeyChecking=accept-new"]).

Lemma ssh_args_options c :
  ssh_interactive_args c = (limux_options c ≫= fun o => ["-o"; o]) ++ connection_args c.
Proof. unfold ssh_interactive_args, host_key_args, limux_options. by destruct (has_ssh_option _ _). Qed.

Lemma limux_options_plain c :
  Forall plain_option (limux_options c) /\ List.filter reusable (limux_options c) = limux_options c.
Proof.
  assert (forall o, bool_decide (trim o = o) && negb (String.eqb o "") &&
    negb (existsb (String.eqb (ssh_option_key o)) special_keys) = true -> plain_option o) as H.
  { intros o [[H1%bool_decide_eq_true H2%negb_true_iff]%andb_prop H3%negb_true_iff]%andb_prop.
    split; [split; [done|by apply String.eqb_neq]|]. intros Hin.
    rewrite <- not_true_iff_false in H3. apply H3, existsb_exists.
    exists (ssh_option_key o). split; [by apply list_elem_of_In|apply String.eqb_refl]. }
  unfold limux_options. destruct (has_ssh_option _ _); (split; [|by vm_compute]);
    repeat (constructor; [apply H; by vm_compute|]); constructor.
Qed.

(** ** Lemmas on the scan *)

Definition is_candidate proc nr (names : list (option string)) (pid : Z) (args : list string) : Prop :=
  exists name, Some name ∈ names /\ parse_i32 name = Some pid /\
    check_pid proc pid nr = Some (Some args).

Definition numeric_name (n : option string) : Prop := exists s pid, n = Some s /\ parse_i32 s = Some pid.

Lemma scan_spec proc nr names : forall l,
  scan proc nr names = Some (Some l) ->
  Forall numeric_name names /\
  forall pid args, (pid, args) ∈ l <-> is_candidate proc nr names pid args.
Proof.
  unfold is_candidate. induction names as [|[name|] names IH]; intros l H; simpl in H.
  - simplify_eq. split; [done|]. set_solver.
  - destruct (parse_i32 name) as [pid|] eqn:Ep; [|done].
    destruct (check_pid proc pid nr) as [found|] eqn:Ec; [|done].
    assert (exists l', scan proc nr names = Some (Some l') /\
      l = match found with Some args => (pid, args) :: l' | None => l' end) as (l' & Hl' & ->).
    { destruct found as [args|], (scan proc nr names) as [[l'|]|]; simplify_eq/=; eauto. }
    destruct (IH _ Hl') as [Hn Hc]. split; [constructor; [by exists name, pid|done]|].
    intros q args. transitivity ((q = pid /\ found = Some args) \/ (q, args) ∈ l').
    { destruct found; set_solver. }
    rewrite Hc. split.
    + intros [[-> ->]|(nm & ? & ? & ?)]; [exists name|exists nm]; set_solver.
    + intros (nm & [E|Hin]%elem_of_cons & Hq & Hf); [left; simplify_eq; by split|eauto].
  - done.
Qed.

#[global] Instance newer_total : Total newer.
Proof. intros a b. unfold newer. lia. Qed.
#[global] Instance newer_trans : Transitive newer.
Proof. intros a b c. unfold newer. lia. Qed.

Lemma find_map_sorted {B} (f : Z * list string -> option B) l y :
  StronglySorted newer l -> find_map f l = Some y ->
  exists x, x ∈ l /\ f x = Some y /\ forall x', x' ∈ l -> (x.1 < x'.1)%Z -> f x' = None.
Proof.
  induction 1 as [|x l Hs IH Hx]; intros H; simpl in H; [done|].
  destruct (f x) as [z|] eqn:E.
  - simplify_eq. exists x. split_and!; [set_solver|done|].
    intros x' [->|Hin]%elem_of_cons Hlt; [lia|].
    rewrite Forall_forall in Hx. specialize (Hx _ Hin). unfold newer in Hx. lia.
  - destruct (IH H) as (x0 & Hin & Hf & Hmax). exists x0. split_and!; [set_solver|done|].
    intros x' [->|Hin']%elem_of_cons Hlt; [done|by apply Hmax].
Qed.

(** ** Claims *)

(** The command line that limux itself starts for a remote terminal is
    recognised: from the arguments built for a configuration - with any boolean
    flags before the destination and any remote command after it - the detection
    recovers the destination, the port and the identity file, and the options
    that are of use for a copy, in order. *)
Theorem ssh_command_detected c exe flags cmd :
  basename exe = "ssh" -> Forall is_switch flags ->
  clean (destination c) -> starts_with "-" (destination c) = false -> port_ok c ->
  (forall i, identity_file c = Some i -> clean i) -> Forall plain_option (ssh_options c) ->
  parse_ssh_command_line (exe :: ssh_interactive_args c ++ flags ++ destination c :: cmd) =
  Some (mkDetectedSSHSession (destination c) (port c) (identity_file c)
          (limux_options c ++ List.filter reusable (ssh_options c))).
Proof.
  intros He Hf [Hd Hne] Hs Hp Hi Ho. unfold parse_ssh_command_line. rewrite He, String.eqb_refl.
  destruct (limux_options_plain c) as [Hl Hlf].
  rewrite ssh_args_options, <- (assoc_L (++)), parse_options, parse_connection_args by done.
  rewrite parse_switches, parse_destination by done.
  unfold push_options. rewrite Hlf. cbn [mbind option_bind].
  destruct (port c) as [p|], (identity_file c) as [i|];
    cbn; unfold resolve_destination; rewrite Hd; by destruct (destination c).
Qed.

Lemma ssh_command_detected_witness :
  parse_ssh_command_line
    ("/usr/bin/ssh" :: ssh_interactive_args (demo_config ["Compression=yes"; "RequestTTY=force"]) ++
     ["-tv"] ++ "me@host" :: ["uptime"]) =
  Some (mkDetectedSSHSession "me@host" (Some 2222%Z) None
    ["ServerAliveInterval=20"; "ServerAliveCountMax=2"; "StrictHostKeyChecking=accept-new";
     "Compression=yes"]).
Proof.
  apply (ssh_command_detected (demo_config ["Compression=yes"; "RequestTTY=force"]) "/usr/bin/ssh"
    ["-tv"] ["uptime"]).
  - by vm_compute.
  - constructor; [|constructor]. by exists "tv".
  - by vm_compute.
  - by vm_compute.
  - intros p [= <-]. by vm_compute.
  - by intros i.
  - repeat constructor; try done; vm_compute;
      intros H; repeat (apply elem_of_cons in H as [H|H]; [done|]); by apply elem_of_nil in H.
Defined.

(** The session that is found is the one of the newest process in the foreground
    of the terminal whose command line can be parsed; but to find any, every name
    in the directory has to be a number. *)
Lemma detect_newest proc tty_path s :
  detect proc tty_path = Some (Some s) ->
  exists nr names, tty_path_to_nr tty_path = Some nr /\ proc_dir proc = Some names /\
    Forall numeric_name names /\
    exists pid args, is_candidate proc nr names pid args /\ parse_ssh_command_line args = Some s /\
      forall pid' args', is_candidate proc nr names pid' args' -> (pid < pid')%Z ->
        parse_ssh_command_line args' = None.
Proof.
  unfold detect. destruct (tty_path_to_nr tty_path) as [nr|]; [|done].
  destruct (proc_dir proc) as [names|]; [|done].
  destruct (scan proc nr names) as [[l|]|] eqn:E; [|done|done]. intros [= H].
  apply scan_spec in E as [Hn Hc]. exists nr, names. split_and!; [done..|].
  apply find_map_sorted in H as ([pid args] & Hin & Hp & Hmax); [|apply StronglySorted_merge_sort; apply _].
  rewrite merge_sort_Permutation in Hin. exists pid, args. split_and!; [by apply Hc|done|].
  intros pid' args' Hc' Hlt. apply Hc in Hc'. apply (Hmax (pid', args')); [|done].
  by rewrite merge_sort_Permutation.
Qed.

(** /proc also has entries that are no processes ([self], [meminfo], ...); with
    one of them in the directory nothing is ever found: [parse().ok()?] leaves
    the function where [continue] is meant. *)
Theorem detect_fails_on_names proc tty_path names s :
  proc_dir proc = Some names -> Some "self" ∈ names -> detect proc tty_path <> Some (Some s).
Proof.
  intros Hd Hin (nr & names' & _ & Hd' & Hn & _)%detect_newest. rewrite Hd in Hd'. simplify_eq.
  rewrite Forall_forall in Hn. destruct (Hn _ Hin) as (? & ? & [= <-] & H). by vm_compute in H.
Qed.
