(* ===== verification/FileDrop.v ===== *)
(** * Files dropped on a terminal (app/src/remote/file_drop.rs, window.rs)

    [handle_file_drop] pastes the path of a dropped file, quoted for the shell;
    on a terminal of a remote workspace the file is first copied with ssh and scp
    in a thread of its own, and the remote path is pasted.  Running a program is a
    parameter: [exec] gives the outcome of a command from the commands run before
    it.  A path is its sequence of bytes. *)

From Stdlib Require Import Ascii.
From S2P Require Import Prelude RustStr RemoteConfig Workspace Surfaces Window SshDetect Socket.
Open Scope string_scope.
Open Scope list_scope.

(** ** Upload (file_drop.rs) *)

Inductive CmdResult :=
  | Exited (success : bool) (status : string)
  | NotStarted (error : string).

Definition Exec : Type := list (list string) -> list string -> CmdResult.

(** [Path::file_name]: the last component, unless it is [..]. *)
Definition file_name (path : string) : option string :=
  match last (filter (fun c => c <> "" /\ c <> ".") (split_char "/" path)) with
  | Some c => if String.eqb c ".." then None else Some c
  | None => None
  end.

Definition upload_name (path : string) : string :=
  match file_name path with
  | Some n => if valid_utf8 n then n else "file"
  | None => "file"
  end.

Definition build_ssh_args (c : RemoteConfiguration) (command : string) : list string :=
  ssh_batch_args c ++ [destination c; command].

Definition scp_base_args (c : RemoteConfiguration) : list string :=
  ["-o"; "BatchMode=yes"; "-o"; "StrictHostKeyChecking=accept-new"] ++
  (match port c with Some p => ["-P"; show_uint p] | None => [] end) ++
  (match identity_file c with Some i => ["-i"; i] | None => [] end) ++
  (ssh_options c ≫= fun o => ["-o"; o]).

Definition scp_command (c : RemoteConfiguration) (local_path remote_path : string) : list string :=
  "scp" :: scp_base_args c ++
  [from_utf8_lossy local_path; destination c +:+ ":" +:+ remote_path].

Definition mkdir_command (c : RemoteConfiguration) (remote_dir : string) : list string :=
  "ssh" :: build_ssh_args c ("mkdir -p '" +:+ remote_dir +:+ "'").

(** The loop over the files: the result and the commands run so far. *)
Fixpoint upload_loop (exec : Exec) (c : RemoteConfiguration) (remote_dir : string)
    (local_paths remote_paths : list string) (ran : list (list string)) :
    (list string + string) * list (list string) :=
  match local_paths with
  | [] => (inl remote_paths, ran)
  | local_path :: rest =>
      let remote_path := remote_dir +:+ "/" +:+ upload_name local_path in
      let cmd := scp_command c local_path remote_path in
      match exec ran cmd with
      | NotStarted e => (inr ("failed to run scp: " +:+ e), ran ++ [cmd])
      | Exited false status =>
          (inr ("scp failed for " +:+ from_utf8_lossy local_path +:+ ": status " +:+ status), ran ++ [cmd])
      | Exited true _ => upload_loop exec c remote_dir rest (remote_paths ++ [remote_path]) (ran ++ [cmd])
      end
  end.

Definition upload_dir (urandom : nat -> option string) : string :=
  "/tmp/limux-drop-" +:+ generate_relay_id urandom.

Definition upload_files (urandom : nat -> option string) (exec : Exec) (c : RemoteConfiguration)
    (local_paths : list string) : (list string + string) * list (list string) :=
  match local_paths with
  | [] => (inl [], [])
  | _ =>
      let remote_dir := upload_dir urandom in
      let cmd := mkdir_command c remote_dir in
      match exec [] cmd with
      | NotStarted e => (inr ("failed to run ssh mkdir: " +:+ e), [cmd])
      | Exited false status => (inr ("ssh mkdir failed with status " +:+ status), [cmd])
      | Exited true _ => upload_loop exec c remote_dir local_paths [] [cmd]
      end
  end.

(** ** Pasting (window.rs) *)

Definition shell_specials : string := dq +:+ "'\$`!#&|;(){}[]<>?*~".

Fixpoint any_in (set s : string) : bool :=
  match s with "" => false | String c r => has_byte c set || any_in set r end.

Definition needs_quotes (p : string) : bool :=
  bool_decide (is_Some (after_ws p)) || any_in shell_specials p.

Definition shell_escape (p : string) : string := if needs_quotes p then single_quote p else p.

Definition shell_escape_paths (paths : list string) : string := join " " (shell_escape <$> paths).

(** A drop on a terminal that is waiting for its upload. *)
Record Upload := mkUpload {
  up_surface : SurfaceId; up_config : RemoteConfiguration; up_paths : list string;
}.

Section drop.
Context {NB : Type}.
Implicit Types (wd : World NB).

(** The remote configuration of the first workspace that shows the surface. *)
Definition owner_config (surface_id : SurfaceId) (aw : AppWindow NB) : option RemoteConfiguration :=
  w ← List.find (fun w => existsb (fun kv => has_surface surface_id kv.2) (map_to_list (ws_panes w)))
        (workspaces aw);
  remote_config w.

(** [value]: [None] when it is no file, [Some None] when the file has no path. *)
Definition handle_file_drop (surface_id : SurfaceId) (value : option (option string)) wd :
    bool * option Upload * World NB :=
  match value with
  | Some (Some path) =>
      match owner_config surface_id (win wd) with
      | Some config => (true, Some (mkUpload surface_id config [path]), wd)
      | None =>
          (true, None, snd (send_text surface_id (shell_escape_paths [from_utf8_lossy path]) wd))
      end
  | _ => (false, None, wd)
  end.

(** The thread of an upload, and what it makes the main loop do at its end. *)
Definition finish_upload (urandom : nat -> option string) (exec : Exec) (u : Upload) wd :
    list (list string) * World NB :=
  let '(result, ran) := upload_files urandom exec (up_config u) (up_paths u) in
  (ran, match result with
        | inl remote_paths => snd (send_text (up_surface u) (shell_escape_paths remote_paths) wd)
        | inr _ => wd
        end).
End drop.

(** ** Words of a shell command line

    What a POSIX shell makes of unquoted, single-quoted and backslash-quoted text
    separated by spaces; [None] where it would do anything else (an operator, an
    expansion, a pattern, a comment, an unfinished quote). *)
Fixpoint sh_words (quoted : bool) (cur : option string) (s : string) : option (list string) :=
  let add c := Some (default "" cur +:+ String c "") in
  match s with
  | "" => if quoted then None else Some (match cur with Some w => [w] | None => [] end)
  | String c r =>
      if quoted then
        if byte_eqb c "'" then sh_words false cur r else sh_words true (add c) r
      else if byte_eqb c "'" then sh_words true (Some (default "" cur)) r
      else if byte_eqb c " " then
        match cur with Some w => cons w <$> sh_words false None r | None => sh_words false None r end
      else if byte_eqb c "\" then
        match r with
        | String x r => if byte_eqb x nl then None else sh_words false (add x) r
        | "" => None
        end
      else if is_ascii_ws c || has_byte c shell_specials then None
      else sh_words false (add c) r
  end.

Lemma quoted_words p : forall w rest,
  sh_words true (Some w) (replace_char "'" "'\''" p +:+ String "'" rest) =
  sh_words false (Some (w +:+ p)) rest.
Proof.
  induction p as [|c p IH]; intros w rest; [by rewrite str_app_nil_r|]. simpl.
  destruct (byte_eqb c "'") eqn:E.
  - apply byte_eqb_eq in E as ->. simpl. rewrite IH, str_app_assoc. done.
  - simpl. rewrite E, IH, str_app_assoc. done.
Qed.

Lemma no_ws_byte c r : after_ws (String c r) = None -> is_ascii_ws c = false /\ after_ws r = None.
Proof.
  intros H. cbn [after_ws] in H. destruct (ws_prefix (String c r)) as [x|] eqn:E; [done|].
  split; [|done]. destruct (is_ascii_ws c) eqn:Hc; [|done]. unfold ws_prefix in E. by rewrite Hc in E.
Qed.

Lemma plain_words p : forall w rest,
  needs_quotes p = false -> sh_words false (Some w) (p +:+ rest) = sh_words false (Some (w +:+ p)) rest.
Proof.
  induction p as [|c p IH]; intros w rest H; [by rewrite str_app_nil_r|].
  apply orb_false_iff in H as [Hw%bool_decide_eq_false Hs].
  apply eq_None_not_Some, no_ws_byte in Hw as [Hc Hw].
  cbn [any_in] in Hs. apply orb_false_iff in Hs as [Hcs Hs].
  assert (forall x, has_byte x shell_specials || is_ascii_ws x = true -> byte_eqb c x = false) as Hne.
  { intros x Hx. destruct (byte_eqb c x) eqn:E; [|done]. apply byte_eqb_eq in E as ->.
    by rewrite Hcs, Hc in Hx. }
  cbn [String.append sh_words]. rewrite !Hne, Hc, Hcs by by vm_compute. cbn [orb default].
  rewrite IH, str_app_assoc; [done|]. unfold needs_quotes. rewrite Hw. exact Hs.
Qed.

(** One escaped word. *)
Lemma escaped_word p rest :
  p <> "" -> sh_words false None (shell_escape p +:+ rest) = sh_words false (Some p) rest.
Proof.
  intros Hp. unfold shell_escape. destruct (needs_quotes p) eqn:E.
  - unfold single_quote. rewrite !str_app_assoc. cbn. apply (quoted_words p "" rest).
  - transitivity (sh_words false (Some "") (p +:+ rest)); [|by apply (plain_words p "" rest)].
    destruct p as [|c p]; [done|]. cbn [String.append sh_words default from_option id].
    apply orb_false_iff in E as [Hw%bool_decide_eq_false _].
    apply eq_None_not_Some, no_ws_byte in Hw as [Hc _].
    destruct (byte_eqb c " ") eqn:Es; [|done]. by apply byte_eqb_eq in Es as ->.
Qed.

Lemma escaped_words l :
  Forall (fun p => p <> "") l -> sh_words false None (shell_escape_paths l) = Some l.
Proof.
  unfold shell_escape_paths. induction l as [|p l IH]; intros H; [done|].
  apply Forall_cons in H as [Hp Hl]. destruct l as [|q l].
  - cbn. rewrite <- (str_app_nil_r (shell_escape p)). by rewrite escaped_word.
  - change (join " " (shell_escape <$> p :: q :: l))
      with (shell_escape p +:+ String " " (join " " (shell_escape <$> q :: l))).
    rewrite escaped_word by done. cbn [sh_words byte_eqb Ascii.eqb]. simpl (byte_eqb _ _). cbn iota.
    by rewrite (IH Hl).
Qed.

Lemma lossy_nonempty s : s <> "" -> from_utf8_lossy s <> "".
Proof.
  destruct s as [|a r]; [done|]. intros _. unfold from_utf8_lossy. cbn [String.length lossy_fuel].
  destruct (utf8_step a r) as [ok n] eqn:E.
  assert (n <> 0) as Hn.
  { unfold utf8_step in E. repeat case_match; simplify_eq; lia. }
  destruct ok; [|done]. by destruct n.
Qed.

(** ** Claims *)

(** A file dropped on a terminal arrives there as one word.  On a local
    workspace the text pasted into the terminal is read by the shell as exactly
    the path, whatever characters it contains; on a remote workspace nothing is
    pasted until the directory has been made and the file has been copied, each
    with one command, and then the text is read as exactly the remote path; a
    command that fails ends the upload and nothing is pasted. *)
Theorem dropped_path_pasted {NB} urandom exec sid path h (wd : World NB) :
  path <> "" -> get_handle sid (registry (win wd)) = Some h ->
  match owner_config sid (win wd) with
  | None => exists text,
      handle_file_drop sid (Some (Some path)) wd = (true, None, call (SendText h text) wd) /\
      sh_words false None text = Some [from_utf8_lossy path]
  | Some c =>
      let remote := upload_dir urandom +:+ "/" +:+ upload_name path in
      let mk := mkdir_command c (upload_dir urandom) in
      let cp := scp_command c path remote in
      handle_file_drop sid (Some (Some path)) wd = (true, Some (mkUpload sid c [path]), wd) /\
      forall wd' : World NB, get_handle sid (registry (win wd')) = Some h ->
      match exec [] mk, exec [mk] cp with
      | Exited true _, Exited true _ => exists text,
          finish_upload urandom exec (mkUpload sid c [path]) wd' = ([mk; cp], call (SendText h text) wd') /\
          sh_words false None text = Some [remote]
      | Exited true _, _ => finish_upload urandom exec (mkUpload sid c [path]) wd' = ([mk; cp], wd')
      | _, _ => finish_upload urandom exec (mkUpload sid c [path]) wd' = ([mk], wd')
      end
  end.
Proof.
  intros Hp Hh. unfold handle_file_drop. destruct (owner_config sid (win wd)) as [c|].
  - cbv zeta. set (remote := upload_dir urandom +:+ "/" +:+ upload_name path).
    set (mk := mkdir_command c (upload_dir urandom)). set (cp := scp_command c path remote).
    split; [done|]. intros wd' Hh'.
    unfold finish_upload, upload_files. cbn [up_config up_paths up_surface]. fold mk.
    destruct (exec [] mk) as [[] st1|e1]; [|done..]. cbn [upload_loop]. fold remote cp.
    destruct (exec [mk] cp) as [[] st2|e2]; [|done..].
    exists (shell_escape_paths [remote]). unfold send_text. rewrite Hh'. split; [done|].
    by apply escaped_words; repeat constructor.
  - exists (shell_escape_paths [from_utf8_lossy path]). unfold send_text. rewrite Hh. split; [done|].
    apply escaped_words. repeat constructor. by apply lossy_nonempty.
Qed.

(** Surface 0 is in a workspace of [cfg]; its handle is 7. *)
Definition demo_drop (cfg : option RemoteConfiguration) : World unit :=
  mkWorld (mkAppWindow tt
    [ws_set_remote cfg Connected None None
       (ws_set_panes (<[0%Z := Pane_new_with_id 0 0]> ∅) (Workspace_new 0))]
    None None true 200 200 1 1
    (register_with_id 0 (mkSurfaceEntry 7 8 9) registry_new) [] []) false 0 [].

Lemma dropped_path_pasted_witness :
  (exists text, calls (snd (handle_file_drop 0 (Some (Some "/home/me/it's.txt")) (demo_drop None))) =
     [SendText 7 text] /\ sh_words false None text = Some ["/home/me/it's.txt"]) /\
  exists text, (finish_upload (fun _ => None) (fun _ _ => Exited true "0")
      (mkUpload 0 (demo_config []) ["/home/me/a b"]) (demo_drop (Some (demo_config [])))).2 =
    call (SendText 7 text) (demo_drop (Some (demo_config []))) /\
    sh_words false None text = Some ["/tmp/limux-drop-00000000000000000000000000000000/a b"].
Proof.
  split.
  - destruct (dropped_path_pasted (fun _ => None) (fun _ _ => Exited true "0") 0 "/home/me/it's.txt" 7
      (demo_drop None) ltac:(discriminate) eq_refl) as (text & E & Hw).
    exists text. rewrite E. split; [reflexivity|]. rewrite Hw. vm_compute. reflexivity.
  - destruct (dropped_path_pasted (fun _ => None) (fun _ _ => Exited true "0") 0 "/home/me/a b" 7
      (demo_drop (Some (demo_config []))) ltac:(discriminate) eq_refl) as (_ & Hu).
    destruct (Hu (demo_drop (Some (demo_config []))) eq_refl) as (text & E & Hw).
    exists text. rewrite E. split; [reflexivity|]. rewrite Hw. vm_compute. reflexivity.
Defined.
