(* ===== verification/Proxy.v ===== *)
(** * Proxy connections (app/src/remote/proxy_tunnel.rs)

    A browser connects to the local proxy port with SOCKS5 or HTTP CONNECT; the
    session asks the daemon for a stream to the target and carries the bytes in
    both directions.  A socket is the bytes the client will ever send, the writes
    made to it, and the number of writes that still succeed before it breaks.  The
    answers of the daemon and the base64 codec are parameters. *)

From Stdlib Require Import Ascii.
From S2P Require Import Prelude RustStr.
Open Scope string_scope.
Open Scope list_scope.

Record Socket := mkSocket {
  unread : string; written : list string; writes_left : nat;
}.

(** ** An error monad over the socket *)

Definition IO (A : Type) : Type := Socket -> (A + string) * Socket.
Definition ret {A} (a : A) : IO A := fun s => (inl a, s).
Definition fail {A} (e : string) : IO A := fun s => (inr e, s).
Definition bind {A B} (m : IO A) (f : A -> IO B) : IO B := fun s =>
  match m s with (inl a, s) => f a s | (inr e, s) => (inr e, s) end.
Declare Scope io_scope.
Notation "x <- m ;; f" := (bind m (fun x => f))
  (at level 100, m at next level, right associativity) : io_scope.
Notation "m ;;; f" := (bind m (fun _ => f)) (at level 100, right associativity) : io_scope.
Open Scope io_scope.

Definition read_exact (n : nat) : IO string := fun s =>
  if bool_decide (n <= String.length (unread s))
  then (inl (take_bytes n (unread s)), mkSocket (drop_bytes n (unread s)) (written s) (writes_left s))
  else (inr "early eof", mkSocket "" (written s) (writes_left s)).

Definition write_all (bytes : string) : IO unit := fun s =>
  match writes_left s with
  | O => (inr "broken pipe", s)
  | S n => (inl tt, mkSocket (unread s) (written s ++ [bytes]) n)
  end.

(** ** Bytes *)

Definition bytes (l : list N) : string := String.string_of_list_ascii (ch <$> l).
Definition byte (i : nat) (s : string) : N :=
  match byte_at i s with Some b => N_of_ascii b | None => 0%N end.
Definition be16 (hi lo : N) : N := (hi * 256 + lo)%N.

(** [format!(:x)] of a 16-bit number. *)
Definition show_hex (n : N) : string :=
  let d i := hex_digit (N.land (N.shiftr n (4 * i)) 15) in
  if (n <? 16)%N then String (d 0%N) ""
  else if (n <? 256)%N then String (d 1%N) (String (d 0%N) "")
  else if (n <? 4096)%N then String (d 2%N) (String (d 1%N) (String (d 0%N) ""))
  else String (d 3%N) (String (d 2%N) (String (d 1%N) (String (d 0%N) ""))).

Definition show_byte (b : N) : string := show_uint (Z.of_N b).

(** ** SOCKS5 *)

Definition read_host (atyp : N) : IO string :=
  match atyp with
  | 1%N => addr <- read_exact 4 ;;
      ret (join "." ((fun i => show_byte (byte i addr)) <$> seq 0 4))
  | 3%N => len <- read_exact 1 ;;
      domain <- read_exact (N.to_nat (byte 0 len)) ;;
      (if valid_utf8 domain then ret domain else fail "invalid utf-8 sequence")
  | 4%N => addr <- read_exact 16 ;;
      ret (join ":" ((fun i => show_hex (be16 (byte (i * 2) addr) (byte (i * 2 + 1) addr))) <$> seq 0 8))
  | _ => fail "unsupported SOCKS5 address type"
  end.

Definition socks5_handshake : IO (string * Z) :=
  header <- read_exact 2 ;;
  if negb (byte 0 header =? 5)%N then fail "not SOCKS5" else
  read_exact (N.to_nat (byte 1 header)) ;;;
  write_all (bytes [5; 0]%N) ;;;
  req_header <- read_exact 4 ;;
  if negb (byte 1 req_header =? 1)%N then
    write_all (bytes [5; 7; 0; 1; 0; 0; 0; 0; 0; 0]%N) ;;; fail "unsupported SOCKS5 command"
  else
    host <- read_host (byte 3 req_header) ;;
    port_bytes <- read_exact 2 ;;
    ret (host, Z.of_N (be16 (byte 0 port_bytes) (byte 1 port_bytes))).

(** ** HTTP CONNECT *)

Definition cr : ascii := ch 13.
Definition crlf (s : string) : string := String cr (String nl s).
Definition head_end : string := crlf (crlf "").

Definition head_complete (buf : string) : bool :=
  bool_decide (4 <= String.length buf) && String.eqb (drop_bytes (String.length buf - 4) buf) head_end.

(** The loop that reads one byte at a time: the head, and what is left unread. *)
Fixpoint read_head (buf input : string) : (string + string) * string :=
  match input with
  | "" => (inr "early eof", "")
  | String b r =>
      let buf := buf +:+ String b "" in
      if head_complete buf then (inl buf, r)
      else if bool_decide (8192 < N.of_nat (String.length buf))%N then (inr "HTTP CONNECT request too large", r)
      else read_head buf r
  end.

Definition read_request : IO string := fun s =>
  let '(r, rest) := read_head "" (unread s) in (r, mkSocket rest (written s) (writes_left s)).

(** [lines().next()]. *)
Definition first_line (s : string) : string :=
  match split_once nl s with
  | Some (l, _) =>
      match rev (String.list_ascii_of_string l) with
      | c :: l' => if byte_eqb c cr then String.string_of_list_ascii (rev l') else l
      | [] => l
      end
  | None => s
  end.

Fixpoint ascii_lower (s : string) : string :=
  match s with "" => "" | String c r => String (lower_byte c) (ascii_lower r) end.

(** The text before and after the last [c]. *)
Fixpoint rsplit_once (c : ascii) (s : string) : option (string * string) :=
  match s with
  | "" => None
  | String a r =>
      match rsplit_once c r with
      | Some (x, y) => Some (String a x, y)
      | None => if byte_eqb a c then Some ("", r) else None
      end
  end.

Definition parse_authority (authority : string) : (string * Z) + string :=
  match rsplit_once ":" authority with
  | Some (host, p) =>
      match parse_u16 p with
      | Some port => inl (host, port)
      | None => inr ("invalid port in CONNECT: " +:+ authority)
      end
  | None => inl (authority, 443%Z)
  end.

Definition parse_connect (line : string) : (string * Z) + string :=
  match split_whitespace line with
  | method :: authority :: _ =>
      if String.eqb (ascii_lower method) "connect" then parse_authority authority
      else inr ("not an HTTP CONNECT request: " +:+ line)
  | _ => inr ("not an HTTP CONNECT request: " +:+ line)
  end.

Definition http_connect_handshake : IO (string * Z) :=
  buf <- read_request ;;
  match parse_connect (first_line (from_utf8_lossy buf)) with
  | inl target => ret target
  | inr e => fail e
  end.

(** ** Session *)

Inductive ProxyCall :=
  | POpen (host : string) (port : Z)
  | PSubscribe (stream_id : string)
  | PWrite (stream_id : string) (data_base64 : string)
  | PClose (stream_id : string).

(** What a session does to the daemon client, in order. *)
Inductive ProxyAct :=
  | Call (c : ProxyCall)
  | Subscribe (stream_id : string)
  | Unsubscribe (stream_id : string).

(** What happens to a session that carries bytes. *)
Inductive BridgeEvent :=
  | LRead (n : nat)          (** a read of the client's socket, of at most [n] bytes *)
  | LReadError
  | LAnswer (ok : bool)      (** the answer to the pending [proxy.write] *)
  | RData (data : option string) (** a data event with its [data_base64] *)
  | REnd                     (** an eof or close event, or the channel is closed *)
  | ROther.

(** What a handshake is answered with: the stream, or the error of the call. *)
Record Answers := mkAnswers {
  a_open : option string + string; (** the [stream_id] of the answer, if it has one *)
  a_subscribe : unit + string;
}.

Section session.
Context (encode : string -> string) (decode : string -> option string).

(** The loop of both directions; [waiting] while a write to the daemon is not
    answered.  The result says whether the session is over. *)
Fixpoint bridge (sid : string) (waiting : bool) (evs : list BridgeEvent) (s : Socket) :
    list ProxyAct * bool * Socket :=
  match evs with
  | [] => ([], false, s)
  | LRead n :: evs =>
      if waiting || bool_decide (n = 0) then bridge sid waiting evs s
      else match unread s with
           | "" => ([], true, s)
           | _ =>
               let k := N.to_nat (N.min (N.of_nat n) 16384) in
               let '(acts, over, s') := bridge sid true evs
                 (mkSocket (drop_bytes k (unread s)) (written s) (writes_left s)) in
               (Call (PWrite sid (encode (take_bytes k (unread s)))) :: acts, over, s')
           end
  | LReadError :: evs => if waiting then bridge sid waiting evs s else ([], true, s)
  | LAnswer ok :: evs =>
      if waiting then if ok then bridge sid false evs s else ([], true, s)
      else bridge sid waiting evs s
  | RData (Some data) :: evs =>
      match decode data with
      | Some b =>
          match write_all b s with
          | (inl _, s) => bridge sid waiting evs s
          | (inr _, s) => ([], true, s)
          end
      | None => bridge sid waiting evs s
      end
  | RData None :: evs => bridge sid waiting evs s
  | REnd :: _ => ([], true, s)
  | ROther :: evs => bridge sid waiting evs s
  end.

Definition is_socks5 (s : Socket) : bool := (byte 0 (unread s) =? 5)%N.

Definition refused (socks5 : bool) : string :=
  if socks5 then bytes [5; 5; 0; 1; 0; 0; 0; 0; 0; 0]%N
  else "HTTP/1.1 502 Bad Gateway" +:+ head_end.
Definition accepted (socks5 : bool) : string :=
  if socks5 then bytes [5; 0; 0; 1; 0; 0; 0; 0; 0; 0]%N
  else "HTTP/1.1 200 Connection Established" +:+ head_end.

(** [handle_connection]: the actions, whether it has returned, and the socket. *)
Definition handle_connection (ans : Answers) (evs : list BridgeEvent) (s : Socket) :
    list ProxyAct * bool * Socket :=
  let socks5 := is_socks5 s in
  match (if socks5 then socks5_handshake else http_connect_handshake) s with
  | (inr _, s) => ([], true, s)
  | (inl (host, port), s) =>
      let open := Call (POpen host port) in
      match a_open ans with
      | inr _ => ([open], true, snd (write_all (refused socks5) s))
      | inl None => ([open], true, s)
      | inl (Some sid) =>
          let acts := [open; Subscribe sid; Call (PSubscribe sid)] in
          match a_subscribe ans with
          | inr _ => (acts, true, s)
          | inl _ =>
              match write_all (accepted socks5) s with
              | (inr _, s) => (acts, true, s)
              | (inl _, s) =>
                  let '(acts', over, s) := bridge sid false evs s in
                  (acts ++ acts' ++ (if over then [Call (PClose sid); Unsubscribe sid] else []), over, s)
              end
          end
      end
  end.
End session.

(** ** Clients

    The requests of a well-behaved client: the bytes it sends first, the target it
    means, and what it is answered during the handshake. *)

Inductive SocksAddr :=
  | V4 (a b c d : N)
  | Domain (name : string)
  | V6 (groups : list N).

Definition addr_bytes (a : SocksAddr) : string :=
  match a with
  | V4 a b c d => bytes [1; a; b; c; d]%N
  | Domain name => bytes [3; N.of_nat (String.length name)]%N +:+ name
  | V6 groups => bytes (4 :: (groups ≫= fun g => [g / 256; g mod 256]))%N
  end.

Definition addr_name (a : SocksAddr) : string :=
  match a with
  | V4 a b c d => join "." [show_byte a; show_byte b; show_byte c; show_byte d]
  | Domain name => name
  | V6 groups => join ":" (show_hex <$> groups)
  end.

Definition addr_ok (a : SocksAddr) : Prop :=
  match a with
  | V4 a b c d => Forall (fun x => x < 256)%N [a; b; c; d]
  | Domain name => String.length name < 256 /\ valid_utf8 name = true
  | V6 groups => length groups = 8 /\ Forall (fun g => g < 65536)%N groups
  end.

Inductive Request :=
  | Socks5 (methods : string) (addr : SocksAddr) (port : N)
  | Connect (host : string) (port : N) (headers : list string).

Definition connect_line (host : string) (port : N) : string :=
  "CONNECT " +:+ (host +:+ ":" +:+ show_byte port) +:+ " HTTP/1.1".

(** Lines, each ended by CR LF. *)
Fixpoint crlf_lines (l : list string) : string :=
  match l with [] => "" | x :: l => x +:+ crlf (crlf_lines l) end.

Definition request_bytes (r : Request) : string :=
  match r with
  | Socks5 methods addr port =>
      bytes [5; N.of_nat (String.length methods)]%N +:+ methods +:+ bytes [5; 1; 0]%N +:+
      addr_bytes addr +:+ bytes [port / 256; port mod 256]%N
  | Connect host port headers => crlf_lines (connect_line host port :: headers) +:+ crlf ""
  end.

Definition request_target (r : Request) : string * Z :=
  match r with
  | Socks5 _ addr port => (addr_name addr, Z.of_N port)
  | Connect host port _ => (host, Z.of_N port)
  end.

Definition request_ok (r : Request) : Prop :=
  match r with
  | Socks5 methods addr port => String.length methods < 256 /\ addr_ok addr /\ (port < 65536)%N
  | Connect host port headers =>
      word host = true /\ (port < 65536)%N /\
      Forall (fun h => h <> "" /\ has_byte nl h = false) headers /\
      valid_utf8 (request_bytes r) = true /\ (N.of_nat (String.length (request_bytes r)) <= 8192)%N
  end.

Definition is_socks (r : Request) : bool := match r with Socks5 _ _ _ => true | _ => false end.

(** What the handshake writes before the answer to the request. *)
Definition greeting (r : Request) : list string := if is_socks r then [bytes [5; 0]%N] else [].
