(* ===== verification/ProxyProps.v ===== *)
(** * Proxy connections: handshakes and the session (for Proxy.v)

    The handshakes read exactly the request of a client and find its target; a
    session answers as the protocol demands and serves every event up to the one that
    ends it. *)

From Stdlib Require Import Ascii.
From S2P Require Import Prelude RustStr Proxy.
Open Scope string_scope.
Open Scope list_scope.

(** ** Byte strings *)

Lemma drop_bytes_app_l a b : drop_bytes (String.length a) (a +:+ b) = b.
Proof. induction a as [|c a IH]; [done|]. exact IH. Qed.

Lemma read_exact_app a b n w k :
  String.length a = n -> read_exact n (mkSocket (a +:+ b) w k) = (inl a, mkSocket b w k).
Proof.
  intros <-. unfold read_exact. cbn [unread written writes_left].
  rewrite bool_decide_true by (rewrite str_length_app; lia).
  by rewrite take_bytes_app, drop_bytes_app_l.
Qed.

Lemma N_ch n : (n < 256)%N -> N_of_ascii (ch n) = n.
Proof. apply N_ascii_embedding. Qed.

Lemma be16_split n : (n < 65536)%N -> be16 (n / 256) (n mod 256) = n.
Proof. intros H. unfold be16. rewrite N.mul_comm. symmetry. by apply N.div_mod. Qed.
Lemma hi_byte n : (n < 65536)%N -> (n / 256 < 256)%N.
Proof. intros H. by apply N.Div0.div_lt_upper_bound. Qed.
Lemma lo_byte n : (n mod 256 < 256)%N.
Proof. by apply N.mod_upper_bound. Qed.

Lemma bytes_length l : String.length (bytes l) = length l.
Proof. induction l as [|x l IH]; [done|]. cbn. by f_equal. Qed.

(** ** SOCKS5 *)

Lemma read_host_ok a rest w k :
  addr_ok a ->
  exists atyp body, addr_bytes a = String (ch atyp) body /\ (atyp < 256)%N /\
    read_host atyp (mkSocket (body +:+ rest) w k) = (inl (addr_name a), mkSocket rest w k).
Proof.
  destruct a as [a b c d|name|groups]; intros H.
  - exists 1%N, (bytes [a; b; c; d]). split_and!; [done|done|]. unfold read_host, bind.
    rewrite read_exact_app by done. unfold addr_ok in H. rewrite !Forall_cons in H.
    destruct H as (Ha & Hb & Hc & Hd & _). unfold ret. cbn. by rewrite !N_ch.
  - destruct H as [Hl Hu].
    exists 3%N, (bytes [N.of_nat (String.length name)] +:+ name). split_and!; [done|done|].
    unfold read_host, bind. rewrite str_app_assoc, read_exact_app by done. cbn [byte bytes fmap].
    change (byte 0 (bytes [N.of_nat (String.length name)]))
      with (N_of_ascii (ch (N.of_nat (String.length name)))).
    rewrite N_ch by lia. rewrite read_exact_app by lia. by rewrite Hu.
  - destruct H as [Hl Hg]. exists 4%N, (bytes (groups ≫= fun g => [g / 256; g mod 256])%N).
    split_and!; [done|done|]. do 9 (destruct groups as [|? groups]; try done).
    unfold read_host, bind. rewrite read_exact_app by done. rewrite !Forall_cons in Hg.
    destruct Hg as (? & ? & ? & ? & ? & ? & ? & ? & _). unfold ret, addr_name. cbn.
    rewrite !N_ch by first [by apply hi_byte|apply lo_byte]. by rewrite !be16_split.
Qed.

Lemma socks5_ok methods a port rest w k :
  request_ok (Socks5 methods a port) ->
  socks5_handshake (mkSocket (request_bytes (Socks5 methods a port) +:+ rest) w (S k)) =
  (inl (addr_name a, Z.of_N port), mkSocket rest (w ++ [bytes [5; 0]%N]) k).
Proof.
  intros (Hm & Ha & Hp). unfold request_bytes. rewrite !str_app_assoc.
  destruct (read_host_ok a (bytes [port / 256; port mod 256]%N +:+ rest) (w ++ [bytes [5; 0]%N]) k Ha)
    as (atyp & body & -> & Hat & Hr).
  unfold socks5_handshake, bind. rewrite read_exact_app by done.
  change (byte 0 (bytes [5; N.of_nat (String.length methods)]%N)) with 5%N.
  change (byte 1 (bytes [5; N.of_nat (String.length methods)]%N))
    with (N_of_ascii (ch (N.of_nat (String.length methods)))).
  rewrite N_ch by lia. cbn [negb N.eqb Pos.eqb]. rewrite read_exact_app by lia.
  cbn [write_all writes_left unread written].
  change (bytes [5; 1; 0]%N +:+ String (ch atyp) body +:+ ?x)
    with (bytes [5; 1; 0; atyp]%N +:+ (body +:+ x)).
  rewrite read_exact_app by done.
  change (byte 1 (bytes [5; 1; 0; atyp]%N)) with 1%N.
  change (byte 3 (bytes [5; 1; 0; atyp]%N)) with (N_of_ascii (ch atyp)).
  rewrite N_ch by done. cbn [negb N.eqb Pos.eqb]. rewrite Hr, read_exact_app by done.
  unfold ret. cbn. rewrite !N_ch by first [by apply hi_byte|apply lo_byte]. by rewrite be16_split.
Qed.

(** ** HTTP CONNECT *)

Definition snoc (s : string) (c : ascii) : string := s +:+ String c "".

Lemma snoc_inj a b x y : snoc a x = snoc b y -> a = b /\ x = y.
Proof.
  unfold snoc. revert b. induction a as [|c a IH]; intros [|d b] E; cbn in E.
  - by injection E.
  - injection E as _ E. by destruct b.
  - injection E as _ E. by destruct a.
  - injection E as -> E. by destruct (IH _ E) as [-> ->].
Qed.

Lemma head_complete_iff s : head_complete s = true <-> exists p, s = p +:+ head_end.
Proof.
  unfold head_complete. rewrite andb_true_iff, bool_decide_eq_true, String.eqb_eq. split.
  - intros [Hl E]. exists (take_bytes (String.length s - 4) s). by rewrite <- E, take_drop_bytes.
  - intros [p ->]. rewrite str_length_app. change (String.length head_end) with 4.
    split; [lia|]. rewrite Nat.add_sub. apply drop_bytes_app_l.
Qed.

Lemma head_end_snoc p : p +:+ head_end = snoc (snoc (snoc (snoc p cr) nl) cr) nl.
Proof. unfold snoc. by rewrite !str_app_assoc. Qed.

Lemma incomplete_byte b c : c <> nl -> head_complete (snoc b c) = false.
Proof.
  intros Hc. apply not_true_iff_false. rewrite head_complete_iff. intros [p E].
  rewrite head_end_snoc in E. by apply snoc_inj in E as [_ ->].
Qed.
Lemma incomplete_line b c : c <> nl -> head_complete (snoc (snoc (snoc b c) cr) nl) = false.
Proof.
  intros Hc. apply not_true_iff_false. rewrite head_complete_iff. intros [p E].
  rewrite head_end_snoc in E. apply snoc_inj in E as [[[_ ->]%snoc_inj _]%snoc_inj _]. done.
Qed.

Definition fits (s : string) : Prop := (N.of_nat (String.length s) <= 8192)%N.

Lemma fits_app a b : fits (a +:+ b) -> fits a.
Proof. unfold fits. rewrite str_length_app. lia. Qed.

Lemma read_head_step b c r :
  head_complete (snoc b c) = false -> fits (snoc b c) ->
  read_head b (String c r) = read_head (snoc b c) r.
Proof.
  unfold fits. intros Hc Hl. cbn [read_head]. fold (snoc b c). rewrite Hc.
  by rewrite bool_decide_false by lia.
Qed.

Lemma read_head_text l : forall b r,
  has_byte nl l = false -> fits (b +:+ l) ->
  read_head b (l +:+ r) = read_head (b +:+ l) r.
Proof.
  induction l as [|c l IH]; intros b r Hn Hl; [by rewrite str_app_nil_r|].
  cbn [has_byte] in Hn. apply orb_false_iff in Hn as [Hc Hn].
  assert (b +:+ String c l = snoc b c +:+ l) as E by (unfold snoc; by rewrite str_app_assoc).
  rewrite E in *. cbn [String.append]. rewrite read_head_step; [by apply IH| |].
  - apply incomplete_byte. intros ->. by rewrite byte_eqb_refl in Hc.
  - by eapply fits_app.
Qed.

Lemma crlf_app l r : crlf l +:+ r = crlf (l +:+ r).
Proof. done. Qed.

Lemma read_head_line l b r :
  l <> "" -> has_byte nl l = false -> fits (b +:+ l +:+ crlf "") ->
  read_head b (l +:+ crlf r) = read_head (b +:+ l +:+ crlf "") r.
Proof.
  intros Hne Hn Hl. assert (b +:+ l +:+ crlf "" = snoc (snoc (b +:+ l) cr) nl) as E.
  { unfold snoc. by rewrite !str_app_assoc. }
  rewrite E in *. pose proof (fits_app _ _ Hl) as Hl'.
  rewrite read_head_text by (done || by eapply fits_app). unfold crlf.
  destruct (string_last l) as [|(p & c & ->)]; [done|].
  assert (c <> nl) as Hc.
  { rewrite has_byte_app in Hn. apply orb_false_iff in Hn as [_ Hn]. cbn in Hn. intros ->. done. }
  rewrite read_head_step; [rewrite read_head_step; [done| |done]| |done].
  - rewrite <- str_app_assoc. by apply incomplete_line.
  - by apply incomplete_byte.
Qed.

Lemma read_head_lines ls : forall b r,
  Forall (fun h => h <> "" /\ has_byte nl h = false) ls ->
  fits (b +:+ crlf_lines ls) ->
  read_head b (crlf_lines ls +:+ r) = read_head (b +:+ crlf_lines ls) r.
Proof.
  induction ls as [|l ls IH]; intros b r H Hl; [by rewrite str_app_nil_r|].
  apply Forall_cons in H as [[Hne Hn] H]. cbn [crlf_lines] in *.
  assert (b +:+ l +:+ crlf (crlf_lines ls) = (b +:+ l +:+ crlf "") +:+ crlf_lines ls) as E.
  { by rewrite !str_app_assoc. }
  rewrite E in *. rewrite str_app_assoc, crlf_app, read_head_line; [by apply IH|done..|].
  by eapply fits_app.
Qed.

Lemma crlf_lines_end l ls : exists q, crlf_lines (l :: ls) = q +:+ crlf "".
Proof.
  revert l. induction ls as [|x ls IH]; intros l; [by exists l|].
  destruct (IH x) as [q E]. exists (l +:+ crlf q).
  change (crlf_lines (l :: x :: ls)) with (l +:+ crlf (crlf_lines (x :: ls))).
  rewrite E. by rewrite str_app_assoc.
Qed.

Lemma read_head_ok l ls r :
  Forall (fun h => h <> "" /\ has_byte nl h = false) (l :: ls) ->
  fits (crlf_lines (l :: ls) +:+ crlf "") ->
  read_head "" ((crlf_lines (l :: ls) +:+ crlf "") +:+ r) = (inl (crlf_lines (l :: ls) +:+ crlf ""), r).
Proof.
  intros H Hl. rewrite str_app_assoc, read_head_lines by (done || by eapply fits_app).
  change ("" +:+ ?x) with x. destruct (crlf_lines_end l ls) as [q E]. rewrite E in *.
  assert ((q +:+ crlf "") +:+ crlf "" = snoc (snoc (q +:+ crlf "") cr) nl) as E2.
  { unfold snoc. by rewrite !str_app_assoc. }
  rewrite E2 in *. cbn [String.append crlf]. rewrite read_head_step.
  - cbn [read_head]. fold (snoc (snoc (q +:+ crlf "") cr) nl). replace (head_complete _) with true; [done|].
    symmetry. apply head_complete_iff. exists q. rewrite <- E2. by rewrite !str_app_assoc.
  - by apply incomplete_byte.
  - by eapply fits_app.
Qed.

Lemma word_no_byte c s : (N_of_ascii c < 33)%N -> word s = true -> has_byte c s = false.
Proof.
  intros Hc. induction s as [|a s IH]; intros H; [done|]. apply word_cons in H as [Ha H].
  cbn [has_byte]. rewrite (IH H), orb_false_r. destruct (byte_eqb a c) eqn:E; [|done].
  apply byte_eqb_eq in E as ->. unfold graphic in Ha. lia.
Qed.

Lemma rsplit_once_none c s : has_byte c s = false -> rsplit_once c s = None.
Proof.
  induction s as [|a s IH]; intros H; [done|]. cbn [has_byte] in H. apply orb_false_iff in H as [Ha H].
  cbn [rsplit_once]. by rewrite (IH H), Ha.
Qed.
Lemma rsplit_once_app c a b : has_byte c b = false -> rsplit_once c (a +:+ String c b) = Some (a, b).
Proof.
  intros H. induction a as [|x a IH]; cbn [String.append rsplit_once].
  - by rewrite rsplit_once_none, byte_eqb_refl.
  - by rewrite IH.
Qed.

Lemma list_ascii_app a b :
  String.list_ascii_of_string (a +:+ b) =
  String.list_ascii_of_string a ++ String.list_ascii_of_string b.
Proof. induction a as [|c a IH]; [done|]. cbn. by f_equal. Qed.

Lemma first_line_crlf l r : has_byte nl l = false -> first_line (l +:+ crlf r) = l.
Proof.
  intros H. unfold first_line, crlf.
  assert (l +:+ String cr (String nl r) = snoc l cr +:+ String nl r) as ->.
  { unfold snoc. by rewrite str_app_assoc. }
  rewrite split_once_app by (unfold snoc; by rewrite has_byte_app, H).
  unfold snoc. rewrite list_ascii_app, rev_app_distr. cbn.
  by rewrite rev_involutive, String.string_of_list_ascii_of_string.
Qed.

(** The authority of a request line. *)
Definition authority (host : string) (port : N) : string := host +:+ String ":" (show_byte port).

Lemma authority_word host port : word host = true -> word (authority host port) = true.
Proof. intros H. unfold authority. rewrite word_app, H. apply (word_uint (Z.of_N port)). Qed.

Lemma connect_line_eq host port :
  connect_line host port = "CONNECT" +:+ String " " (authority host port +:+ String " " "HTTP/1.1").
Proof. unfold connect_line, authority. by rewrite !str_app_assoc. Qed.

Lemma parse_http_connect_ok host port :
  word host = true -> (port < 65536)%N -> parse_connect (connect_line host port) = inl (host, Z.of_N port).
Proof.
  intros Hh Hp. unfold parse_connect. rewrite connect_line_eq, split_whitespace_cons by done.
  rewrite split_whitespace_cons; [|by destruct host|by apply authority_word].
  change (String.eqb (ascii_lower "CONNECT") "connect") with true. cbn match.
  unfold parse_authority, authority. rewrite rsplit_once_app by (by apply show_uint_no_byte).
  unfold parse_u16, show_byte. by rewrite parse_show_uint by (unfold u16_max; lia).
Qed.

Lemma http_connect_ok host port headers rest w k :
  request_ok (Connect host port headers) ->
  http_connect_handshake (mkSocket (request_bytes (Connect host port headers) +:+ rest) w k) =
  (inl (host, Z.of_N port), mkSocket rest w k).
Proof.
  intros (Hh & Hp & Hhs & Hu & Hl).
  assert (connect_line host port <> "" /\ has_byte nl (connect_line host port) = false) as [Hne Hn].
  { rewrite connect_line_eq. split; [done|]. rewrite has_byte_app. cbn -[authority].
    rewrite has_byte_app. by rewrite (word_no_byte nl) by first [by apply authority_word|done]. }
  unfold http_connect_handshake, bind, read_request. cbn [unread written writes_left].
  unfold request_bytes in *. rewrite read_head_ok by first [done|by constructor].
  rewrite from_utf8_lossy_valid by done.
  cbn [crlf_lines]. rewrite str_app_assoc, crlf_app, first_line_crlf by done.
  by rewrite parse_http_connect_ok.
Qed.

(** ** Any request *)

Lemma is_socks5_request r rest w k :
  is_socks5 (mkSocket (request_bytes r +:+ rest) w k) = is_socks r.
Proof. by destruct r. Qed.

Lemma handshake_ok r rest w k :
  request_ok r ->
  (if is_socks r then socks5_handshake else http_connect_handshake)
    (mkSocket (request_bytes r +:+ rest) w (S k)) =
  (inl (request_target r), mkSocket rest (w ++ greeting r) (if is_socks r then k else S k)).
Proof.
  destruct r as [m a p|h p hs]; intros H; cbn [is_socks request_target greeting].
  - by apply socks5_ok.
  - unfold greeting. cbn [is_socks]. rewrite app_nil_r. by apply http_connect_ok.
Qed.

(** ** Bridge *)

Definition concat_str (l : list string) : string := foldr String.append "" l.

Lemma concat_str_app a b : concat_str (a ++ b) = concat_str a +:+ concat_str b.
Proof.
  induction a as [|x a IH]; [done|]. change (concat_str ((x :: a) ++ b)) with (x +:+ concat_str (a ++ b)).
  rewrite IH. symmetry. apply str_app_assoc.
Qed.

Section bridge.
Context (encode : string -> string) (decode : string -> option string).

(** The bytes of the data events. *)
Definition received (evs : list BridgeEvent) : list string :=
  omap (fun e => match e with RData (Some d) => decode d | _ => None end) evs.

Definition fits_read (s : string) : Prop := (1 <= N.of_nat (String.length s) <= 16384)%N.

Lemma take_fits n s :
  n <> 0 -> s <> "" -> fits_read (take_bytes (N.to_nat (N.min (N.of_nat n) 16384)) s).
Proof.
  intros Hn Hs. unfold fits_read. set (k := N.to_nat _).
  assert (String.length (take_bytes k s) = Nat.min k (String.length s)) as ->.
  { pose proof (take_drop_bytes k s) as E. apply (f_equal String.length) in E.
    rewrite str_length_app, drop_bytes_length in E. lia. }
  destruct s; [done|]. cbn [String.length]. subst k. lia.
Qed.

(** One direction by itself: whether a write to the daemon is not answered, and what
    the client has sent that is not read yet; a read takes a piece of it. *)
Definition due_read (st : bool * string) (n : nat) : bool := negb (st.1 || bool_decide (n = 0)).
Definition read_size (n : nat) : nat := N.to_nat (N.min (N.of_nat n) 16384).

Definition pull (st : bool * string) (e : BridgeEvent) : bool * string :=
  match e with
  | LRead n => if due_read st n then (true, drop_bytes (read_size n) st.2) else st
  | LAnswer true => (false, st.2)
  | _ => st
  end.

Definition piece (st : bool * string) (e : BridgeEvent) : list string :=
  match e with
  | LRead n => if due_read st n then [take_bytes (read_size n) st.2] else []
  | _ => []
  end.

Fixpoint pieces (st : bool * string) (evs : list BridgeEvent) : list string :=
  match evs with [] => [] | e :: evs => piece st e ++ pieces (pull st e) evs end.

(** What ends a session: the client has sent all it will, its socket cannot be read, the
    daemon refuses a write, data comes when no more writes to the client succeed
    ([left] do), or the stream ends. *)
Definition ends (left : nat) (st : bool * string) (e : BridgeEvent) : bool :=
  match e with
  | LRead n => due_read st n && String.eqb st.2 ""
  | LReadError => negb st.1
  | LAnswer ok => st.1 && negb ok
  | RData (Some d) => bool_decide (is_Some (decode d)) && bool_decide (left = 0)
  | REnd => true
  | RData None | ROther => false
  end.

(** The events before the first that ends the session. *)
Fixpoint upto (left : nat) (st : bool * string) (evs : list BridgeEvent) : list BridgeEvent :=
  match evs with
  | [] => []
  | e :: evs => if ends left st e then [] else e :: upto (left - length (received [e])) (pull st e) evs
  end.

Lemma received_cons e evs : received (e :: evs) = received [e] ++ received evs.
Proof. cbn. by destruct e as [| | |[d|]| |]; try destruct (decode d). Qed.

(** Nothing the client sent is lost between the pieces. *)
Lemma pull_piece left st e : ends left st e = false ->
  st.2 = concat_str (piece st e) +:+ (pull st e).2 /\ Forall fits_read (piece st e).
Proof.
  destruct e as [n| |[]|d| |]; try done. cbn [ends piece pull].
  destruct (due_read st n) eqn:Hd; [|done]. intros Hne%String.eqb_neq. cbn. rewrite str_app_nil_r, take_drop_bytes.
  split; [done|]. repeat constructor; apply take_fits; try done;
    (unfold due_read in Hd; apply negb_true_iff, orb_false_iff in Hd as [_ Hd%bool_decide_eq_false]; done).
Qed.

Lemma pieces_conserve evs : forall left st, let u := upto left st evs in
  st.2 = concat_str (pieces st u) +:+ (foldl pull st u).2 /\ Forall fits_read (pieces st u).
Proof.
  induction evs as [|e evs IH]; intros left st; [done|]. cbn [upto].
  destruct (ends left st e) eqn:He; [done|]. cbn [pieces foldl].
  destruct (pull_piece _ _ _ He) as [E F]. destruct (IH (left - length (received [e])) (pull st e)) as [E' F'].
  split; [|by apply Forall_app]. by rewrite concat_str_app, str_app_assoc, <- E'.
Qed.

(** The loop of both directions is the two directions up to the first event that ends
    either. *)
Lemma bridge_spec sid evs : forall waiting s,
  let st := (waiting, unread s) in let u := upto (writes_left s) st evs in
  bridge encode decode sid waiting evs s =
    ((fun b => Call (PWrite sid (encode b))) <$> pieces st u, bool_decide (length u < length evs),
     mkSocket (foldl pull st u).2 (written s ++ received u) (writes_left s - length (received u))).
Proof.
  induction evs as [|e evs IH]; intros waiting s st u.
  { subst u st. cbn. by rewrite app_nil_r, Nat.sub_0_r; destruct s. }
  assert (ends (writes_left s) st e = true ->
    ([], true, s) = ((fun b => Call (PWrite sid (encode b))) <$> pieces st u, bool_decide (length u < length (e :: evs)),
      mkSocket (foldl pull st u).2 (written s ++ received u) (writes_left s - length (received u)))) as stop.
  { intros He. subst u. cbn [upto]. rewrite He. cbn. rewrite app_nil_r, Nat.sub_0_r. by destruct s. }
  assert (forall w s1, ends (writes_left s) st e = false -> (w, unread s1) = pull st e ->
    written s1 = written s ++ received [e] -> writes_left s1 = writes_left s - length (received [e]) ->
    (let '(acts, over, s') := bridge encode decode sid w evs s1 in
      (((fun b => Call (PWrite sid (encode b))) <$> piece st e) ++ acts, over, s')) =
    ((fun b => Call (PWrite sid (encode b))) <$> pieces st u, bool_decide (length u < length (e :: evs)),
      mkSocket (foldl pull st u).2 (written s ++ received u) (writes_left s - length (received u)))) as step.
  { intros w s1 He Hp Hw Hl. rewrite IH. subst u. cbn [upto]. rewrite He, Hp, Hl. set (u := upto _ _ evs).
    cbn [pieces foldl]. rewrite (received_cons e u), fmap_app, length_app, Hw, <- (assoc_L (++)).
    f_equal; [f_equal|f_equal; lia]. apply bool_decide_ext. cbn [length]. lia. }
  assert (ends (writes_left s) st e = false -> pull st e = st -> piece st e = [] -> received [e] = [] ->
    bridge encode decode sid waiting evs s =
    ((fun b => Call (PWrite sid (encode b))) <$> pieces st u, bool_decide (length u < length (e :: evs)),
      mkSocket (foldl pull st u).2 (written s ++ received u) (writes_left s - length (received u)))) as skip.
  { intros He Hp Hq Hr. rewrite <- (step waiting s He); rewrite ?Hp, ?Hr, ?Hq; cbn; rewrite ?app_nil_r, ?Nat.sub_0_r; try done.
    by destruct (bridge encode decode sid waiting evs s) as [[]]. }
  destruct e as [n| |ok|[d|]| |]; cbn [bridge].
  - destruct (waiting || bool_decide (n = 0)) eqn:Ew; [apply skip; cbn; unfold due_read; cbn; by rewrite ?Ew|].
    destruct (decide (unread s = "")) as [E0|Hne].
    + rewrite E0. apply stop. cbn. unfold due_read. cbn. by rewrite Ew, E0.
    + rewrite <- (step true (mkSocket (drop_bytes (read_size n) (unread s)) (written s) (writes_left s)));
        unfold read_size; cbn; unfold due_read; cbn; rewrite ?Ew, ?app_nil_r, ?Nat.sub_0_r; cbn; try done;
        [|by apply String.eqb_neq].
      destruct (bridge encode decode sid true evs _) as [[acts o] s1]. by destruct (unread s).
  - destruct waiting; [by apply skip|by apply stop].
  - destruct waiting, ok; [|by apply stop|by apply skip..].
    rewrite <- (step false s); cbn; rewrite ?app_nil_r, ?Nat.sub_0_r; try done.
    by destruct (bridge encode decode sid false evs s) as [[]].
  - destruct (decode d) as [b|] eqn:Ed.
    + unfold write_all. destruct (writes_left s) as [|k] eqn:Ek.
      * apply stop. cbn. by rewrite Ed.
      * rewrite <- (step waiting (mkSocket (unread s) (written s ++ [b]) k)); cbn; rewrite ?Ed, ?Ek; cbn; try done; [|lia].
        by destruct (bridge encode decode sid waiting evs (mkSocket (unread s) (written s ++ [b]) k)) as [[]].
    + apply skip; cbn; by rewrite ?Ed.
  - by apply skip.
  - by apply stop.
  - by apply skip.
Qed.
End bridge.

(** ** Claims *)

(** C15: a proxy session reaches the target its client asked for and carries the
    bytes in both directions.  For every well-formed SOCKS5 or HTTP CONNECT request,
    with anything following it, on a socket that takes what the handshake writes, the
    daemon is asked for exactly that target, and the client is refused in its protocol
    when the daemon refuses.  When the stream is opened and subscribed the client is
    told so, and from then on every event before the first that ends the session is
    served: each read that is due takes a piece of at most 16 KiB of what the client
    sent after its request and asks the daemon to write it, the pieces in their order
    and nothing between them lost; and all data of the daemon that decodes is written to
    the client.  At the first event that ends it - the client is done or cannot be read,
    the daemon refuses a write, the client takes no more, the stream ends - the session
    closes the stream and unsubscribes from it, and without one it is not over.  (When
    the answer has no stream, or the subscription fails, the session just returns: the
    stream it opened stays open.) *)
Theorem proxy_session_relays encode decode r payload w ans evs :
  request_ok r -> 2 <= w ->
  exists acts over s',
  handle_connection encode decode ans evs (mkSocket (request_bytes r +:+ payload) [] w) = (acts, over, s') /\
  let open := Call (POpen (request_target r).1 (request_target r).2) in
  match a_open ans, a_subscribe ans with
  | inr _, _ => acts = [open] /\ over = true /\ written s' = greeting r ++ [refused (is_socks r)]
  | inl None, _ => acts = [open] /\ over = true /\ written s' = greeting r
  | inl (Some sid), inr _ =>
      acts = [open; Subscribe sid; Call (PSubscribe sid)] /\ over = true /\ written s' = greeting r
  | inl (Some sid), inl _ =>
      let before := upto decode (w - length (greeting r) - 1) (false, payload) evs in
      let sent := pieces (false, payload) before in
      over = bool_decide (length before < length evs) /\
      acts = [open; Subscribe sid; Call (PSubscribe sid)] ++
        ((fun b => Call (PWrite sid (encode b))) <$> sent) ++
        (if over then [Call (PClose sid); Unsubscribe sid] else []) /\
      payload = concat_str sent +:+ unread s' /\ Forall fits_read sent /\
      written s' = greeting r ++ [accepted (is_socks r)] ++ received decode before
  end.
Proof.
  intros Hr Hw. destruct w as [|[|w]]; [lia..|]. unfold handle_connection.
  rewrite is_socks5_request, handshake_ok by done. destruct (request_target r) as [h p]. cbn [fst snd app].
  assert (exists k, (if is_socks r then S w else S (S w)) = S k /\ S (S w) - length (greeting r) - 1 = k) as (k & -> & ->).
  { unfold greeting. destruct (is_socks r); cbn; eexists; (split; [done|lia]). }
  destruct (a_open ans) as [[sid|]|e].
  - destruct (a_subscribe ans) as [[]|e]; [|by eexists _, _, _].
    cbn [write_all writes_left unread written]. rewrite bridge_spec. cbn [unread written writes_left].
    destruct (pieces_conserve decode evs k (false, payload)) as [E F].
    eexists _, _, _. split; [done|]. cbv zeta. split_and!; [done|done|exact E|exact F|].
    cbn [written]. by rewrite <- (assoc_L (++)).
  - by eexists _, _, _.
  - eexists _, _, _. split; [done|]. by split_and!.
Qed.

Definition demo_connect : Request := Connect "example.org" 443 ["Host: example.org"].

Lemma proxy_session_relays_witness :
  exists acts over s',
    handle_connection (fun s => s) Some (mkAnswers (inl (Some "s1")) (inl tt))
      [LRead 100; RData (Some "world"); LAnswer true; LRead 100]
      (mkSocket (request_bytes demo_connect +:+ "hello") [] 2) = (acts, over, s') /\
    acts = [Call (POpen "example.org" 443); Subscribe "s1"; Call (PSubscribe "s1");
            Call (PWrite "s1" "hello"); Call (PClose "s1"); Unsubscribe "s1"] /\ over = true /\
    written s' = [accepted false; "world"] /\ unread s' = "".
Proof.
  destruct (proxy_session_relays (fun s => s) Some demo_connect "hello" 2
    (mkAnswers (inl (Some "s1")) (inl tt)) [LRead 100; RData (Some "world"); LAnswer true; LRead 100])
    as (acts & over & s' & E & Ho & Ha & Hp & _ & Hw).
  - unfold demo_connect, request_ok. split_and!; [by vm_compute..| |by vm_compute|by vm_compute].
    by repeat constructor.
  - apply Nat.le_refl.
  - exists acts, over, s'. split; [exact E|]. rewrite Ho in Ha. rewrite Ha, Ho, Hw.
    split; [vm_compute; reflexivity|]. split; [vm_compute; reflexivity|]. split; [vm_compute; reflexivity|].
    revert Hp. vm_compute. destruct s' as [u x y]. simpl. intros H. injection H. auto.
Defined.

(** When the subscription fails, or the answer cannot be written, the session ends
    without closing the stream it has opened. *)
Theorem failed_subscribe_leaks encode decode evs :
  exists acts s',
    handle_connection encode decode (mkAnswers (inl (Some "s1")) (inr "timed out")) evs
      (mkSocket (request_bytes demo_connect) [] 2) = (acts, true, s') /\
    Call (POpen "example.org" 443) ∈ acts /\ Call (PClose "s1") ∉ acts /\ Unsubscribe "s1" ∉ acts.
Proof.
  eexists _, _. split; [vm_compute; reflexivity|].
  split_and!; [left|intros H; repeat (apply elem_of_cons in H as [H|H]; [discriminate H|]); by apply elem_of_nil in H..].
Qed.

(** The brackets of an IPv6 target stay in the host name of a CONNECT request (the
    daemon adds them to a host with colons), and without a port the address is
    cut at its last colon. *)
Theorem connect_ipv6_brackets :
  parse_connect "CONNECT [2001:db8::1]:443 HTTP/1.1" = inl ("[2001:db8::1]", 443%Z) /\
  parse_connect "CONNECT 2001:db8::1 HTTP/1.1" = inl ("2001:db8:", 1%Z).
Proof. split; vm_compute; reflexivity. Qed.
