(* ===== verification/Rpc.v ===== *)
(** * Client of the remote daemon (app/src/remote/rpc.rs)

    Calls from many tasks share one connection: each takes a number, registers a
    one-shot channel under it, writes its request and waits; a reader task gives
    every answer to the channel registered under its number and every stream event
    to the subscriber of its stream.  A step is what one task does between two
    [await]s.  What the code reads from a JSON line is the parameter [fields]. *)

From S2P Require Import Prelude RustStr.
Open Scope string_scope.
Open Scope list_scope.

Section rpc.
Context {Value : Type}.

(** What [serde_json] says of a line: the number, the error with its message, the
    result, the event with its stream, and the whole object. *)
Record Msg := mkMsg {
  m_id : option Z; m_error : option (option string); m_result : option Value;
  m_event : option string; m_stream : option string; m_obj : Value;
}.

Record StreamEvent := mkEvent { ev_stream : string; ev_event : string; ev_data : Value }.

Inductive RpcResult :=
  | Answer (v : Value)
  | RemoteError (message : string)
  | ProcessDied (why : string)
  | TimedOut
  | IoError.

(** Where a call is: it has its number; it is registered; its request is written
    and it waits; the time is up; it has returned. *)
Inductive CallPc := Numbered | Registered | Waiting | Expired | Returned (r : RpcResult).

(** [c_inbox]: what was sent on the one-shot channel; [c_open]: its sender lives or
    has sent. *)
Record Caller := mkCaller {
  c_id : Z; c_pc : CallPc; c_inbox : option RpcResult; c_open : bool;
}.

Record Receiver := mkReceiver { queue : list StreamEvent; r_open : bool }.

Record RpcClient := mkRpc {
  next_id : Z;
  pending : gmap Z nat;              (** number to caller *)
  subscriptions : gmap string nat;   (** stream to receiver *)
  reader_runs : bool;
  callers : list Caller;
  receivers : list Receiver;
}.

Definition rpc_new : RpcClient := mkRpc 1 ∅ ∅ true [] [].

Definition set_callers (f : list Caller -> list Caller) (c : RpcClient) : RpcClient :=
  mkRpc (next_id c) (pending c) (subscriptions c) (reader_runs c) (f (callers c)) (receivers c).
Definition set_pending (f : gmap Z nat -> gmap Z nat) (c : RpcClient) : RpcClient :=
  mkRpc (next_id c) (f (pending c)) (subscriptions c) (reader_runs c) (callers c) (receivers c).
Definition set_pc (pc : CallPc) (k : nat) : RpcClient -> RpcClient :=
  set_callers (alter (fun c => mkCaller (c_id c) pc (c_inbox c) (c_open c)) k).
Definition send_result (r : RpcResult) (k : nat) : RpcClient -> RpcClient :=
  set_callers (alter (fun c => mkCaller (c_id c) (c_pc c) (Some r) (c_open c)) k).
Definition drop_sender (k : nat) : RpcClient -> RpcClient :=
  set_callers (alter (fun c => mkCaller (c_id c) (c_pc c) (c_inbox c) false) k).
Definition set_receivers (subs : gmap string nat) (l : list Receiver) (c : RpcClient) : RpcClient :=
  mkRpc (next_id c) (pending c) subs (reader_runs c) (callers c) l.
Definition on_receiver (f : Receiver -> Receiver) (j : nat) (c : RpcClient) : RpcClient :=
  set_receivers (subscriptions c) (alter f j (receivers c)) c.
Definition close_receiver (j : option nat) (c : RpcClient) : RpcClient :=
  match j with Some j => on_receiver (fun r => mkReceiver (queue r) false) j c | None => c end.

Definition u64_succ (z : Z) : Z := ((z + 1) mod (u64_max + 1))%Z.

(** ** [call] *)

Definition start_call (c : RpcClient) : RpcClient :=
  mkRpc (u64_succ (next_id c)) (pending c) (subscriptions c) (reader_runs c)
    (callers c ++ [mkCaller (next_id c) Numbered None true]) (receivers c).

Definition register_call (k : nat) (c : RpcClient) : option RpcClient :=
  x ← callers c !! k;
  match c_pc x with
  | Numbered =>
      let c' := match pending c !! c_id x with Some old => drop_sender old c | None => c end in
      Some (set_pc Registered k (set_pending (<[c_id x := k]>) c'))
  | _ => None
  end.

(** The request is written, or writing fails and the call returns at once. *)
Definition write_request (ok : bool) (k : nat) (c : RpcClient) : option RpcClient :=
  x ← callers c !! k;
  match c_pc x with
  | Registered => Some (set_pc (if ok then Waiting else Returned IoError) k c)
  | _ => None
  end.

Definition receive_result (k : nat) (c : RpcClient) : option RpcClient :=
  x ← callers c !! k;
  match c_pc x, c_inbox x, c_open x with
  | Waiting, Some r, _ => Some (set_pc (Returned r) k c)
  | Waiting, None, false => Some (set_pc (Returned (ProcessDied "channel closed")) k c)
  | _, _, _ => None
  end.

(** The timer fires only when there is nothing to receive. *)
Definition time_out (k : nat) (c : RpcClient) : option RpcClient :=
  x ← callers c !! k;
  match c_pc x, c_inbox x, c_open x with
  | Waiting, None, true => Some (set_pc Expired k c)
  | _, _, _ => None
  end.

Definition forget_call (k : nat) (c : RpcClient) : option RpcClient :=
  x ← callers c !! k;
  match c_pc x with
  | Expired => Some (set_pc (Returned TimedOut) k (set_pending (delete (c_id x)) c))
  | _ => None
  end.

(** ** The reader task *)

Context (fields : string -> option Msg) (Null : Value).

Definition reply_of (m : Msg) : RpcResult :=
  match m_error m with
  | Some message => RemoteError (default "unknown error" message)
  | None => Answer (default Null (m_result m))
  end.

Definition message_of (line : string) : option Msg :=
  match trim line with "" => None | t => fields t end.

Definition read_line (line : string) (c : RpcClient) : RpcClient :=
  match message_of line with
  | None => c
  | Some m =>
      match m_id m with
      | Some id =>
          match pending c !! id with
          | Some k => send_result (reply_of m) k (set_pending (delete id) c)
          | None => c
          end
      | None =>
          match m_event m with
          | Some event =>
              let stream_id := default "" (m_stream m) in
              match subscriptions c !! stream_id with
              | Some j => on_receiver (fun r =>
                  mkReceiver (queue r ++ [mkEvent stream_id event (m_obj m)]) (r_open r)) j c
              | None => c
              end
          | None => c
          end
      end
  end.

Definition died : RpcResult := ProcessDied "SSH process exited".

(** The end of the loop: every pending call is told, in any order. *)
Definition reader_ends (c : RpcClient) : RpcClient :=
  let c' := foldr (send_result died) c (map_to_list (pending c)).*2 in
  mkRpc (next_id c') ∅ (subscriptions c') false (callers c') (receivers c').

(** ** Streams *)

Definition subscribe (stream_id : string) (c : RpcClient) : RpcClient :=
  let j := length (receivers c) in
  let c' := close_receiver (subscriptions c !! stream_id) c in
  set_receivers (<[stream_id := j]> (subscriptions c)) (receivers c' ++ [mkReceiver [] true]) c'.

Definition unsubscribe (stream_id : string) (c : RpcClient) : RpcClient :=
  let c' := close_receiver (subscriptions c !! stream_id) c in
  set_receivers (delete stream_id (subscriptions c)) (receivers c') c'.

(** [recv]: the next event; [None] at the end of a closed channel; not enabled
    while there is nothing. *)
Definition recv (j : nat) (c : RpcClient) : option (option StreamEvent * RpcClient) :=
  r ← receivers c !! j;
  match queue r, r_open r with
  | e :: q, _ => Some (Some e, on_receiver (fun r => mkReceiver q (r_open r)) j c)
  | [], false => Some (None, c)
  | [], true => None
  end.

(** ** Steps *)

Inductive RpcStep :=
  | NewCall
  | Register (k : nat)
  | Write (k : nat) (ok : bool)
  | Receive (k : nat)
  | Expire (k : nat)
  | Forget (k : nat)
  | Line (text : string)
  | ReaderEnds
  | SubscribeTo (stream_id : string)
  | UnsubscribeFrom (stream_id : string)
  | Recv (j : nat).

Definition rpc_step (l : RpcStep) (c : RpcClient) : option RpcClient :=
  match l with
  | NewCall => Some (start_call c)
  | Register k => register_call k c
  | Write k ok => write_request ok k c
  | Receive k => receive_result k c
  | Expire k => time_out k c
  | Forget k => forget_call k c
  | Line text => if reader_runs c then Some (read_line text c) else None
  | ReaderEnds => if reader_runs c then Some (reader_ends c) else None
  | SubscribeTo s => Some (subscribe s c)
  | UnsubscribeFrom s => Some (unsubscribe s c)
  | Recv j => snd <$> recv j c
  end.

Fixpoint rpc_steps (ls : list RpcStep) (c : RpcClient) : option RpcClient :=
  match ls with [] => Some c | l :: ls => c' ← rpc_step l c; rpc_steps ls c' end.
End rpc.
#[global] Arguments Msg : clear implicits.
#[global] Arguments RpcClient : clear implicits.
#[global] Arguments RpcResult : clear implicits.
#[global] Arguments Caller : clear implicits.
