(* ===== verification/RpcProps.v ===== *)
(** * Client of the remote daemon: routing of answers (for Rpc.v)

    The invariant of the connection and what it means for a call: its answer is
    the answer to its own request. *)

From S2P Require Import Prelude RustStr Rpc.
Open Scope string_scope.
Open Scope list_scope.

(** ** Lists *)

Lemma lookup_alter_inv {A} (f : A -> A) k (l : list A) j y :
  alter f k l !! j = Some y -> exists x, l !! j = Some x /\ y = (if decide (j = k) then f x else x).
Proof.
  destruct (decide (j = k)) as [->|Hne].
  - rewrite list_lookup_alter_eq. intros (x & H & ->)%fmap_Some. eauto.
  - rewrite list_lookup_alter_ne by done. eauto.
Qed.

Lemma lookup_alter_here {A} (f : A -> A) k (l : list A) x :
  l !! k = Some x -> alter f k l !! k = Some (f x).
Proof. intros H. by rewrite list_lookup_alter_eq, H. Qed.

Section props.
Context {Value : Type} (fields : string -> option (Msg Value)) (Null : Value).
Implicit Types (c : RpcClient Value) (x y : Caller Value) (r : RpcResult Value) (ls : list RpcStep).
Notation step := (rpc_step fields Null).
Notation run := (rpc_steps fields Null).

(** Where a result can come from. *)
Definition comes_from ls (id : Z) r : Prop :=
  match r with
  | Answer _ | RemoteError _ => exists text m,
      Line text ∈ ls /\ message_of fields text = Some m /\ m_id m = Some id /\ r = reply_of Null m
  | ProcessDied _ => ReaderEnds ∈ ls
  | TimedOut | IoError => True
  end.

Definition holds x r : Prop := c_inbox x = Some r \/ c_pc x = Returned r.

(** A call whose answer is expected: registered, nothing received yet. *)
Definition expecting x : Prop := (c_pc x = Registered \/ c_pc x = Waiting) /\ c_inbox x = None.

Record caller_ok ls c (k : nat) x : Prop := mkCallerOk {
  ok_id : c_id x = (Z.of_nat k + 1)%Z;
  ok_open : c_open x = true;
  ok_numbered : c_pc x = Numbered -> c_inbox x = None;
  ok_expecting : expecting x -> pending c !! c_id x = Some k;
  ok_result : forall r, holds x r -> comes_from ls (c_id x) r;
}.

Record rpc_ok ls c : Prop := mkRpcOk {
  ok_next : next_id c = (Z.of_nat (length (callers c)) + 1)%Z;
  ok_callers : forall k x, callers c !! k = Some x -> caller_ok ls c k x;
  ok_pending : forall i k, pending c !! i = Some k ->
    exists x, callers c !! k = Some x /\ c_id x = i /\ c_inbox x = None /\ c_pc x <> Numbered;
  ok_reader : reader_runs c = false <-> ReaderEnds ∈ ls;
  ok_subs : forall s j, subscriptions c !! s = Some j -> j < length (receivers c);
  ok_subs_inj : forall s s' j, subscriptions c !! s = Some j -> subscriptions c !! s' = Some j -> s = s';
}.

Lemma comes_from_mono ls ls' id r : comes_from ls id r -> comes_from (ls ++ ls') id r.
Proof.
  destruct r; simpl; try done; [intros (t & m & ? & ?)..|]; try (exists t, m); set_solver.
Qed.

(** ** Preservation *)

(** The callers keep their number; the state of a caller that changes is again ok. *)
Lemma caller_ok_frame ls ls' c c' k x :
  caller_ok ls c k x -> (pending c !! c_id x = Some k -> pending c' !! c_id x = Some k) ->
  caller_ok (ls ++ ls') c' k x.
Proof.
  intros [] Hp. constructor; auto. intros r Hr. apply comes_from_mono. auto.
Qed.

Lemma run_app ls1 ls2 c : run (ls1 ++ ls2) c = run ls1 c ≫= run ls2.
Proof.
  revert c. induction ls1 as [|l ls1 IH]; intros c; [done|]. simpl.
  destruct (step l c) as [c'|]; [apply IH|done].
Qed.

Lemma end_elem ls l : ReaderEnds ∈ ls ++ [l] <-> ReaderEnds ∈ ls \/ l = ReaderEnds.
Proof. rewrite elem_of_app, list_elem_of_singleton. naive_solver. Qed.

Lemma new_ok : rpc_ok [] (rpc_new : RpcClient Value).
Proof. split; try done. simpl. split; [done|by intros ?%elem_of_nil]. Qed.

Lemma start_ok ls c :
  rpc_ok ls c -> (Z.of_nat (length (callers (start_call c))) < u64_max)%Z ->
  rpc_ok (ls ++ [NewCall]) (start_call c).
Proof.
  intros [] Hb. simpl in Hb. rewrite length_app in Hb. simpl in Hb. split; simpl; try done.
  - rewrite length_app, ok_next0. simpl. unfold u64_succ. rewrite Z.mod_small; lia.
  - intros k x [H|[Hk H]]%lookup_app_Some.
    + eapply caller_ok_frame; eauto.
    + apply list_lookup_singleton_Some in H as [H <-].
      split; simpl; [rewrite ok_next0; lia|done|done|by intros [[] _]|by intros r []].
  - intros i k (x & Hx & H)%ok_pending0. exists x. split; [by apply lookup_app_l_Some|done].
  - rewrite end_elem, ok_reader0. naive_solver.
Qed.

(** A step that changes one caller, and of the pending calls only its entry. *)
Lemma one_caller_ok ls l c c' k f x :
  rpc_ok ls c -> callers c !! k = Some x -> l <> ReaderEnds ->
  next_id c' = next_id c -> callers c' = alter f k (callers c) -> reader_runs c' = reader_runs c ->
  subscriptions c' = subscriptions c -> length (receivers c') = length (receivers c) ->
  (forall i, i <> c_id x -> pending c' !! i = pending c !! i) ->
  (pending c' !! c_id x = None \/
   pending c' !! c_id x = Some k /\ c_inbox (f x) = None /\ c_pc (f x) <> Numbered) ->
  c_id (f x) = c_id x -> caller_ok (ls ++ [l]) c' k (f x) ->
  rpc_ok (ls ++ [l]) c'.
Proof.
  intros [] Hx Hl Hn Hc Hr Hs Hrl Hp Hpk Hid Hok. pose proof (ok_callers0 _ _ Hx) as Hkx.
  split; rewrite ?Hn, ?Hc, ?Hr, ?Hs, ?Hrl, ?length_alter; try done.
  - intros j y (z & Hz & ->)%lookup_alter_inv. destruct (decide (j = k)) as [->|Hne]; [by simplify_eq|].
    apply (caller_ok_frame _ _ c); [by apply ok_callers0|]. intros H. rewrite Hp; [done|].
    pose proof (ok_id _ _ _ _ (ok_callers0 _ _ Hz)). pose proof (ok_id _ _ _ _ Hkx). lia.
  - intros i j H. destruct (decide (i = c_id x)) as [->|Hi].
    + destruct Hpk as [Hpk|(Hpk & Hi & Hnum)]; [congruence|]. rewrite Hpk in H. simplify_eq.
      exists (f x). rewrite (lookup_alter_here _ _ _ _ Hx). by split_and!.
    + rewrite Hp in H by done. destruct (ok_pending0 _ _ H) as (y & Hy & Hyi & ? & ?). exists y.
      rewrite list_lookup_alter_ne; [by split_and!|]. intros <-. by simplify_eq.
  - rewrite end_elem, ok_reader0. naive_solver.
Qed.
Lemma register_ok ls k c c' :
  rpc_ok ls c -> register_call k c = Some c' -> rpc_ok (ls ++ [Register k]) c'.
Proof.
  intros Hok H. unfold register_call in H. destruct (callers c !! k) as [x|] eqn:Hx; [|done]. simpl in H.
  pose proof (ok_callers _ _ Hok _ _ Hx) as [Hid Hopen Hnum Hexp Hres].
  destruct (c_pc x) eqn:Hpc; simplify_eq. specialize (Hnum eq_refl).
  assert (pending c !! c_id x = None) as Hnone.
  { destruct (pending c !! c_id x) as [k'|] eqn:E; [|done].
    destruct (ok_pending _ _ Hok _ _ E) as (y & Hy & Hyi & _ & Hyn).
    pose proof (ok_id _ _ _ _ (ok_callers _ _ Hok _ _ Hy)). assert (k' = k) as -> by lia. congruence. }
  rewrite Hnone. eapply one_caller_ok; try done; simpl.
  - intros i Hi. by rewrite lookup_insert_ne.
  - right. by rewrite lookup_insert_eq.
  - constructor; simpl; try done; [by rewrite lookup_insert_eq|].
    intros r [Hr|Hr]; simpl in Hr; congruence.
Qed.

(** A step of a call that is registered leaves the pending calls alone, or removes
    its own. *)
Lemma set_pc_ok ls l c k x pc f :
  rpc_ok ls c -> callers c !! k = Some x -> l <> ReaderEnds -> pc <> Numbered ->
  f = id \/ f = delete (c_id x) ->
  (expecting (mkCaller (c_id x) pc (c_inbox x) (c_open x)) -> f = id /\ expecting x) ->
  (c_pc x <> Numbered) ->
  (forall r, pc = Returned r -> comes_from (ls ++ [l]) (c_id x) r) ->
  rpc_ok (ls ++ [l]) (set_pc pc k (set_pending f c)).
Proof.
  intros Hok Hx Hl Hpc Hf Hexp Hn Hr. pose proof (ok_callers _ _ Hok _ _ Hx) as [? ? ? Hex Hres].
  eapply (one_caller_ok _ _ c); try done; simpl.
  - intros i Hi. destruct Hf as [->| ->]; [done|]. by rewrite lookup_delete_ne.
  - destruct Hf as [->| ->]; [|left; apply lookup_delete_eq].
    destruct (pending c !! c_id x) as [k'|] eqn:E; [right|by left].
    destruct (ok_pending _ _ Hok _ _ E) as (y & Hy & Hyi & Hin & _).
    pose proof (ok_id _ _ _ _ (ok_callers _ _ Hok _ _ Hy)).
    assert (k' = k) as -> by lia. simplify_eq. by unfold id.
  - constructor; simpl; try done.
    + intros [-> He]%Hexp. by apply Hex.
    + intros r [Hr'|Hr']; simpl in Hr'; [|by apply Hr]. apply comes_from_mono, Hres. by left.
Qed.

Lemma set_pending_id c : set_pending id c = c.
Proof. by destruct c. Qed.

Lemma call_step_ok ls k ok c c' l :
  rpc_ok ls c ->
  (l = Write k ok /\ write_request ok k c = Some c' \/ l = Receive k /\ receive_result k c = Some c' \/
   l = Expire k /\ time_out k c = Some c' \/ l = Forget k /\ forget_call k c = Some c') ->
  rpc_ok (ls ++ [l]) c'.
Proof.
  intros Hok H. unfold write_request, receive_result, time_out, forget_call in H.
  destruct (callers c !! k) as [x|] eqn:Hx; [|naive_solver]. simpl in H.
  pose proof (ok_callers _ _ Hok _ _ Hx) as [? Hopen ? Hex Hres].
  destruct H as [[-> H]|[[-> H]|[[-> H]|[-> H]]]]; destruct (c_pc x) eqn:Hpc; try done.
  - injection H as <-. rewrite <- (set_pending_id c) at 1.
    eapply set_pc_ok; [done..|by destruct ok|by left| |congruence|by destruct ok; intros r [= <-]].
    intros [_ Hi]. split; [done|]. split; [by left|done].
  - rewrite Hopen in H. destruct (c_inbox x) as [r|] eqn:Hi; [|done]. injection H as <-.
    rewrite <- (set_pending_id c) at 1.
    eapply set_pc_ok; [done..|by left|by intros [[] _]|congruence|].
    intros r' [= <-]. apply comes_from_mono, Hres. by left.
  - rewrite Hopen in H. destruct (c_inbox x) as [r|] eqn:Hi; [done|]. injection H as <-.
    rewrite <- (set_pending_id c) at 1.
    eapply set_pc_ok; [done..|by left|by intros [[] _]|congruence|done].
  - injection H as <-. eapply set_pc_ok; [done..|by right|by intros [[] _]|congruence|by intros r [= <-]].
Qed.

(** A step on the streams only. *)
Lemma streams_ok ls l c subs rs :
  rpc_ok ls c -> l <> ReaderEnds -> length (receivers c) <= length rs ->
  (forall s j, subs !! s = Some j -> j < length rs) ->
  (forall s s' j, subs !! s = Some j -> subs !! s' = Some j -> s = s') ->
  rpc_ok (ls ++ [l]) (set_receivers subs rs c).
Proof.
  intros [] Hl Hlen Hs Hi. split; simpl; try done.
  - intros k x Hx. eapply caller_ok_frame; [by apply ok_callers0|done].
  - rewrite end_elem, ok_reader0. naive_solver.
Qed.

Lemma set_receivers_same c : set_receivers (subscriptions c) (receivers c) c = c.
Proof. by destruct c. Qed.
Lemma noop_ok ls l c : rpc_ok ls c -> l <> ReaderEnds -> rpc_ok (ls ++ [l]) c.
Proof.
  intros Hok Hl. rewrite <- (set_receivers_same c). eapply streams_ok; [done..| |].
  - by apply Hok.
  - apply Hok.
Qed.

Lemma on_receiver_ok ls l c f j :
  rpc_ok ls c -> l <> ReaderEnds -> rpc_ok (ls ++ [l]) (on_receiver f j c).
Proof.
  intros Hok Hl. unfold on_receiver. apply streams_ok; rewrite ?length_alter; try done; apply Hok.
Qed.

Lemma close_receiver_length o c :
  length (receivers (close_receiver o c)) = length (receivers c) /\
  set_receivers (subscriptions c) (receivers (close_receiver o c)) c = close_receiver o c.
Proof. destruct o; [|by destruct c]. unfold close_receiver, on_receiver. simpl. by rewrite length_alter. Qed.

Lemma subscribe_ok ls c s : rpc_ok ls c -> rpc_ok (ls ++ [SubscribeTo s]) (subscribe s c).
Proof.
  intros Hok. unfold subscribe. destruct (close_receiver_length (subscriptions c !! s) c) as [Hlen E].
  rewrite <- E. cbn [receivers]. set (l := receivers (close_receiver _ c)) in *.
  change (rpc_ok (ls ++ [SubscribeTo s])
    (set_receivers (<[s := length (receivers c)]> (subscriptions c)) (l ++ [mkReceiver [] true]) c)).
  apply streams_ok; [done..| | |]; rewrite ?length_app; simpl.
  - lia.
  - intros s' j [[<- <-]|[_ H%(ok_subs _ _ Hok)]]%lookup_insert_Some; lia.
  - intros s1 s2 j [[<- <-]|[? H1]]%lookup_insert_Some [[<- H2]|[? H2]]%lookup_insert_Some; try done.
    + apply (ok_subs _ _ Hok) in H2. lia.
    + subst j. apply (ok_subs _ _ Hok) in H1. lia.
    + by eapply (ok_subs_inj _ _ Hok).
Qed.

Lemma unsubscribe_ok ls c s : rpc_ok ls c -> rpc_ok (ls ++ [UnsubscribeFrom s]) (unsubscribe s c).
Proof.
  intros Hok. unfold unsubscribe. destruct (close_receiver_length (subscriptions c !! s) c) as [Hlen E].
  rewrite <- E. cbn [receivers]. set (l := receivers (close_receiver _ c)) in *.
  change (rpc_ok (ls ++ [UnsubscribeFrom s]) (set_receivers (delete s (subscriptions c)) l c)).
  apply streams_ok; [done..|lia| |].
  - intros s' j [_ H%(ok_subs _ _ Hok)]%lookup_delete_Some. lia.
  - intros s1 s2 j [_ H1]%lookup_delete_Some [_ H2]%lookup_delete_Some. by eapply (ok_subs_inj _ _ Hok).
Qed.

Lemma read_line_ok ls c text :
  rpc_ok ls c -> rpc_ok (ls ++ [Line text]) (read_line fields Null text c).
Proof.
  intros Hok. unfold read_line. destruct (message_of fields text) as [m|] eqn:Hm; [|by apply noop_ok].
  destruct (m_id m) as [id|] eqn:Hid.
  - destruct (pending c !! id) as [k|] eqn:Hp; [|by apply noop_ok].
    destruct (ok_pending _ _ Hok _ _ Hp) as (x & Hx & <- & Hi & Hn).
    pose proof (ok_callers _ _ Hok _ _ Hx) as [? ? ? ? Hres].
    eapply (one_caller_ok _ _ c); try done; simpl.
    + intros i Hne. by rewrite lookup_delete_ne.
    + left. apply lookup_delete_eq.
    + constructor; simpl; try done; [by intros [_ ?]|]. intros r [Hr|Hr]; simpl in Hr.
      * simplify_eq. assert (comes_from (ls ++ [Line text]) (c_id x) (reply_of Null m)) as Hc; [|done].
        assert (exists t m0, Line t ∈ ls ++ [Line text] /\ message_of fields t = Some m0 /\
          m_id m0 = Some (c_id x) /\ reply_of Null m = reply_of Null m0) as He.
        { exists text, m. split_and!; [set_solver|done..]. }
        revert He. unfold reply_of at 1 3. by destruct (m_error m).
      * apply comes_from_mono, Hres. by right.
  - destruct (m_event m) as [e|]; [|by apply noop_ok].
    destruct (subscriptions c !! _) as [j|]; [by apply on_receiver_ok|by apply noop_ok].
Qed.

(** The end of the connection. *)
Lemma send_all_callers r l c k :
  callers (foldr (send_result r) c l) !! k =
  (fun x => if decide (k ∈ l) then mkCaller (c_id x) (c_pc x) (Some r) (c_open x) else x) <$> callers c !! k.
Proof.
  induction l as [|j l IH]; cbn [foldr].
  - destruct (callers c !! k); cbn [fmap option_fmap option_map]; [|done].
    by rewrite decide_False by apply not_elem_of_nil.
  - change (callers (send_result r j ?c)) with
      (alter (fun x => mkCaller (c_id x) (c_pc x) (Some r) (c_open x)) j (callers c)).
    destruct (decide (k = j)) as [->|Hne].
    + rewrite list_lookup_alter_eq, IH. destruct (callers c !! j) as [x|]; [|done].
      cbn [fmap option_fmap option_map]. rewrite (decide_True (P := j ∈ j :: l)) by set_solver.
      by destruct (decide (j ∈ l)).
    + rewrite list_lookup_alter_ne, IH by done. destruct (callers c !! k) as [x|]; [|done].
      cbn [fmap option_fmap option_map].
      destruct (decide (k ∈ l)); [rewrite decide_True by set_solver|rewrite decide_False by set_solver]; done.
Qed.

Lemma send_all_frame r l c :
  next_id (foldr (send_result r) c l) = next_id c /\
  length (callers (foldr (send_result r) c l)) = length (callers c) /\
  subscriptions (foldr (send_result r) c l) = subscriptions c /\
  receivers (foldr (send_result r) c l) = receivers c.
Proof. induction l as [|j l (? & ? & ? & ?)]; [done|]. simpl. by rewrite length_alter. Qed.

Lemma reader_ends_ok ls c : rpc_ok ls c -> rpc_ok (ls ++ [ReaderEnds]) (reader_ends c).
Proof.
  intros Hok. pose proof Hok as []. unfold reader_ends. set (l := (map_to_list (pending c)).*2).
  destruct (send_all_frame died l c) as (Hn & Hlen & Hs & Hr).
  assert (forall k, k ∈ l <-> exists i, pending c !! i = Some k) as Hl.
  { intros k. unfold l. rewrite list_elem_of_fmap. split.
    - intros ([i k'] & -> & H%elem_of_map_to_list). by exists i.
    - intros [i H]. exists (i, k). split; [done|]. by apply elem_of_map_to_list. }
  split; cbn [next_id callers pending reader_runs subscriptions receivers]; rewrite ?Hn, ?Hlen, ?Hs, ?Hr; try done.
  - intros k y. rewrite send_all_callers. intros (x & Hx & ->)%fmap_Some.
    pose proof (ok_callers0 _ _ Hx) as [Hid Ho Hnum Hexp Hres]. destruct (decide (k ∈ l)) as [Hin|Hin].
    + apply Hl in Hin as [i Hp]. destruct (ok_pending0 _ _ Hp) as (x' & Hx' & ? & ? & ?). simplify_eq.
      constructor; simpl; try done; [by intros [_ ?]|]. intros r [Hr'|Hr']; simpl in Hr'.
      * simplify_eq. simpl. set_solver.
      * apply comes_from_mono, Hres. by right.
    + constructor; try done.
      * intros He. destruct Hin. apply Hl. eauto.
      * intros r Hr'. apply comes_from_mono, Hres, Hr'.
  - split; [|done]. intros _. set_solver.
Qed.

Lemma step_ok ls l c c' :
  rpc_ok ls c -> step l c = Some c' -> (Z.of_nat (length (callers c')) < u64_max)%Z ->
  rpc_ok (ls ++ [l]) c'.
Proof.
  intros Hok H Hb. destruct l; simpl in H; simplify_eq.
  - by apply start_ok.
  - by eapply register_ok.
  - eapply (call_step_ok _ k ok c); auto.
  - eapply (call_step_ok _ k true c); auto.
  - eapply (call_step_ok _ k true c); auto.
  - eapply (call_step_ok _ k true c); auto.
  - destruct (reader_runs c); simplify_eq. by apply read_line_ok.
  - destruct (reader_runs c); simplify_eq. by apply reader_ends_ok.
  - by apply subscribe_ok.
  - by apply unsubscribe_ok.
  - destruct (recv j c) as [[o c1]|] eqn:E; simplify_eq/=. unfold recv in E.
    destruct (receivers c !! j) as [r|]; [|done]. simpl in E.
    destruct (queue r), (r_open r); simplify_eq; [by apply noop_ok|by apply on_receiver_ok..].
Qed.

(** ** Reachable states *)

(** The cases of a step of one call. *)
Ltac call_cases H :=
  unfold register_call, write_request, receive_result, time_out, forget_call in H;
  match type of H with context [callers ?c !! ?k] => destruct (callers c !! k) as [x|]; [|done] end;
  simpl in H; repeat (case_match; simplify_eq/=; try done).

Lemma step_length l c c' : step l c = Some c' -> length (callers c) <= length (callers c').
Proof.
  intros H. destruct l; simpl in H; simplify_eq.
  - simpl. rewrite length_app. lia.
  - call_cases H; by rewrite ?length_alter.
  - call_cases H; by rewrite ?length_alter.
  - call_cases H; by rewrite ?length_alter.
  - call_cases H; by rewrite ?length_alter.
  - call_cases H; by rewrite ?length_alter.
  - destruct (reader_runs c); simplify_eq. unfold read_line.
    destruct (message_of fields text) as [m|]; [|done]. destruct (m_id m).
    + destruct (pending c !! _); [simpl; by rewrite length_alter|done].
    + destruct (m_event m); [|done]. by destruct (subscriptions c !! _).
  - destruct (reader_runs c); simplify_eq. simpl.
    by destruct (send_all_frame died (map_to_list (pending c)).*2 c) as (_ & -> & _).
  - unfold subscribe. simpl. by destruct (subscriptions c !! stream_id).
  - unfold unsubscribe. simpl. by destruct (subscriptions c !! stream_id).
  - destruct (recv j c) as [[o c1]|] eqn:E; simplify_eq/=. unfold recv in E.
    destruct (receivers c !! j) as [r|]; [|done]. simpl in E.
    by destruct (queue r), (r_open r); simplify_eq.
Qed.

Lemma run_ok ls : forall c,
  run ls rpc_new = Some c -> (Z.of_nat (length (callers c)) < u64_max)%Z -> rpc_ok ls c.
Proof.
  induction ls as [|l ls IH] using rev_ind; intros c H Hb; [simplify_eq/=; apply new_ok|].
  rewrite run_app in H. destruct (run ls rpc_new) as [c0|] eqn:E; [|done]. simpl in H.
  destruct (step l c0) as [c1|] eqn:Hs; [|done]. simplify_eq/=.
  eapply step_ok; [|exact Hs|done]. apply IH; [done|]. apply step_length in Hs. lia.
Qed.

(** ** Claims *)

(** C18: every call gets the answer to its own request.  In every interleaving of
    the callers and the reader, whatever lines the daemon sends: the numbers of
    the calls are distinct; what a call returns is the content of a line with its
    number, or reports the end of the connection only if it has ended; a line with
    the number of a call that expects its answer reaches exactly this call, and so
    does the end of the connection; and a call that waits can always return. *)
Theorem answers_routed ls c :
  run ls rpc_new = Some c -> (Z.of_nat (length (callers c)) < u64_max)%Z ->
  (forall k1 k2 x1 x2, callers c !! k1 = Some x1 -> callers c !! k2 = Some x2 -> c_id x1 = c_id x2 -> k1 = k2) /\
  forall k x, callers c !! k = Some x ->
    (forall r, c_pc x = Returned r -> comes_from ls (c_id x) r) /\
    (expecting x -> forall text m, message_of fields text = Some m -> m_id m = Some (c_id x) ->
      callers (read_line fields Null text c) !! k =
        Some (mkCaller (c_id x) (c_pc x) (Some (reply_of Null m)) true) /\
      forall j, j <> k -> callers (read_line fields Null text c) !! j = callers c !! j) /\
    (expecting x -> callers (reader_ends c) !! k = Some (mkCaller (c_id x) (c_pc x) (Some died) true)) /\
    (c_pc x = Waiting -> exists l c', step l c = Some c' /\ (l = Receive k \/ l = Expire k)).
Proof.
  intros H Hb. pose proof (run_ok _ _ H Hb) as Hok. split.
  { intros k1 k2 x1 x2 H1%(ok_callers _ _ Hok) H2%(ok_callers _ _ Hok) E.
    pose proof (ok_id _ _ _ _ H1). pose proof (ok_id _ _ _ _ H2). lia. }
  intros k x Hx. pose proof (ok_callers _ _ Hok _ _ Hx) as [_ Ho _ Hexp Hres]. split_and!.
  - intros r Hr. apply Hres. by right.
  - intros He text m Hm Hid. specialize (Hexp He). unfold read_line. rewrite Hm, Hid, Hexp. simpl. split.
    + by rewrite (lookup_alter_here _ _ _ _ Hx), Ho.
    + intros j Hj. by rewrite list_lookup_alter_ne.
  - intros He. specialize (Hexp He). unfold reader_ends. cbn [callers]. rewrite send_all_callers, Hx.
    cbn [fmap option_fmap option_map]. rewrite decide_True; [by rewrite Ho|].
    apply list_elem_of_fmap. exists (c_id x, k). split; [done|]. by apply elem_of_map_to_list.
  - intros Hw. destruct (c_inbox x) as [r|] eqn:Hi.
    + exists (Receive k), (set_pc (Returned r) k c). simpl. unfold receive_result.
      rewrite Hx. simpl. rewrite Hw, Hi. auto.
    + exists (Expire k), (set_pc Expired k c). simpl. unfold time_out. rewrite Hx. simpl.
      rewrite Hw, Hi, Ho. auto.
Qed.

(** The end of the connection is told to the calls and not to the streams: a
    subscriber with nothing to receive waits until it unsubscribes. *)
Definition stuck (s : string) (j : nat) c : Prop :=
  reader_runs c = false /\ subscriptions c !! s = Some j /\ receivers c !! j = Some (mkReceiver [] true) /\
  forall s', subscriptions c !! s' = Some j -> s' = s.

Lemma stuck_frame s j c c' :
  stuck s j c -> reader_runs c' = reader_runs c -> subscriptions c' = subscriptions c ->
  receivers c' = receivers c -> stuck s j c'.
Proof. unfold stuck. by intros H -> -> ->. Qed.

Lemma close_other s s' j c :
  stuck s j c -> s' <> s ->
  receivers (close_receiver (subscriptions c !! s') c) !! j = Some (mkReceiver [] true).
Proof.
  intros (_ & _ & Hj & Hi) Hne. destruct (subscriptions c !! s') as [j'|] eqn:E; [|done]. simpl.
  rewrite list_lookup_alter_ne; [done|]. intros ->. by apply Hne, Hi.
Qed.

Lemma stuck_step s j l c c' :
  stuck s j c -> step l c = Some c' -> l <> UnsubscribeFrom s -> l <> SubscribeTo s -> stuck s j c'.
Proof.
  intros Hst H Hu Hs. pose proof Hst as (Hr & Hsub & Hj & Hi).
  destruct l; simpl in H; rewrite ?Hr in H; simplify_eq.
  - by eapply stuck_frame.
  - call_cases H; by eapply stuck_frame.
  - call_cases H; by eapply stuck_frame.
  - call_cases H; by eapply stuck_frame.
  - call_cases H; by eapply stuck_frame.
  - call_cases H; by eapply stuck_frame.
  - assert (stream_id <> s) as Hne by congruence. pose proof (close_other _ _ _ _ Hst Hne) as Hc.
    unfold stuck. simpl. rewrite lookup_insert_ne by done. split_and!; [|done|by apply lookup_app_l_Some|].
    + by destruct (subscriptions c !! stream_id).
    + apply lookup_lt_Some in Hj. intros s' [[_ ?]|[_ ?]]%lookup_insert_Some; [lia|auto].
  - assert (stream_id <> s) as Hne by congruence. pose proof (close_other _ _ _ _ Hst Hne) as Hc.
    unfold stuck. simpl. rewrite lookup_delete_ne by done. split_and!; [|done|done|].
    + by destruct (subscriptions c !! stream_id).
    + intros s' [_ ?]%lookup_delete_Some. auto.
  - destruct (recv j0 c) as [[o c1]|] eqn:E; simplify_eq/=. unfold recv in E.
    destruct (receivers c !! j0) as [r|] eqn:Ej; [|done]. simpl in E.
    assert (j0 <> j \/ queue r = [] /\ r_open r = true) as [Hne|[Hq Ho]].
    { destruct (decide (j0 = j)) as [->|]; [right|by left]. by rewrite Hj in Ej; simplify_eq. }
    + destruct (queue r), (r_open r); simplify_eq; [done|..];
        (unfold stuck; simpl; rewrite list_lookup_alter_ne by done; done).
    + by rewrite Hq, Ho in E.
Qed.

Theorem end_leaves_streams ls c s j ls' c' :
  run ls rpc_new = Some c -> (Z.of_nat (length (callers c)) < u64_max)%Z -> ReaderEnds ∈ ls ->
  subscriptions c !! s = Some j -> receivers c !! j = Some (mkReceiver [] true) ->
  run ls' c = Some c' -> UnsubscribeFrom s ∉ ls' -> SubscribeTo s ∉ ls' -> recv j c' = None.
Proof.
  intros H Hb He Hs Hj Hr Hu Hsub. pose proof (run_ok _ _ H Hb) as Hok.
  assert (stuck s j c) as Hst.
  { split_and!; [by apply (ok_reader _ _ Hok)|done|done|]. intros s' Hs'. by eapply (ok_subs_inj _ _ Hok). }
  clear H Hb He Hs Hj Hok. revert c Hst Hr. induction ls' as [|l ls' IH]; intros c Hst Hr.
  - simplify_eq/=. destruct Hst as (_ & _ & Hj & _). unfold recv. by rewrite Hj.
  - simpl in Hr. destruct (step l c) as [c1|] eqn:E; [|done]. apply (IH ltac:(set_solver) ltac:(set_solver) c1); [|done].
    eapply stuck_step; [done..| |]; set_solver.
Qed.

End props.

(** ** A run with two calls that are answered in the other order *)

Definition demo_fields (t : string) : option (Msg string) :=
  if String.eqb t "1" then Some (mkMsg (Some 1%Z) None (Some "one") None None t)
  else if String.eqb t "2" then Some (mkMsg (Some 2%Z) (Some (Some "no")) None None None t) else None.

Definition demo_calls : list RpcStep :=
  [NewCall; NewCall; Register 1; Register 0; Write 0 true; Write 1 true; Line " 2"; Line "1"; Receive 0].

Definition demo_end : RpcClient string :=
  Eval vm_compute in default rpc_new (rpc_steps demo_fields "" demo_calls rpc_new).

Lemma answers_routed_witness :
  rpc_steps demo_fields "" demo_calls rpc_new = Some demo_end /\
  callers demo_end !! 0 = Some (mkCaller 1 (Returned (Answer "one")) (Some (Answer "one")) true) /\
  comes_from demo_fields "" demo_calls 1 (Answer "one").
Proof.
  assert (rpc_steps demo_fields "" demo_calls rpc_new = Some demo_end) as E by (vm_compute; reflexivity).
  assert (Z.of_nat (length (callers demo_end)) < u64_max)%Z as Hb by (vm_compute; reflexivity).
  destruct (answers_routed demo_fields "" demo_calls demo_end E Hb) as [_ H].
  destruct (H 0 (mkCaller 1 (Returned (Answer "one")) (Some (Answer "one")) true) eq_refl) as [Hr _].
  split; [exact E|]. split; [reflexivity|]. exact (Hr (Answer "one") eq_refl).
Defined.
