(* ===== verification/PortDetect.v ===== *)
(** * Listening ports (app/src/port_detect.rs)

    The scan of /proc for the TCP ports that the descendants of the application
    listen on, and their attribution to workspaces by working directory.  /proc is
    a parameter; a path that is not valid UTF-8 is given as the code reads it.
    The order of a hash map is the parameter [ord]. *)

From Stdlib Require Import Ascii.
From stdpp Require Import sorting.
From S2P Require Import Prelude RustStr SshDetect.
Open Scope string_scope.
Open Scope list_scope.

Record ProcFs := mkProcFs {
  fs_tcp : option string;                   (** /proc/net/tcp *)
  fs_tcp6 : option string;
  fs_names : option (list string);          (** the entries of /proc *)
  fs_stat : Z -> option string;
  fs_fds : Z -> option (list (option string)); (** the targets of /proc/<pid>/fd *)
  fs_cwd : Z -> option string;
}.

(** ** Sockets *)

(** [u16::from_str_radix(s, 16)]. *)
Definition parse_hex_u16 : string -> option Z := parse_hex u16_max.

(** One line of /proc/net/tcp: the inode and the port of a listening socket. *)
Definition tcp_line (line : string) : option (Z * Z) :=
  let fields := split_whitespace line in
  if bool_decide (length fields < 10) then None
  else
    f1 ← fields !! 1; f3 ← fields !! 3; f9 ← fields !! 9;
    if negb (String.eqb f3 "0A") then None
    else
      p ← rfind_after ":" f1;
      port ← parse_hex_u16 p;
      if Z.eqb port 0 then None
      else inode ← parse_uint u64_max f9; Some (inode, port).

(** Lines with other than ten fields or more are skipped, so that it does not
    matter that [lines] drops the empty last line and a carriage return. *)
Definition parse_proc_net_tcp (content : option string) (map : gmap Z Z) : gmap Z Z :=
  match content with
  | Some text =>
      foldl (fun m line => match tcp_line line with Some (i, p) => <[i := p]> m | None => m end)
        map (tail (split_char nl text))
  | None => map
  end.

Definition read_listening_inodes (fs : ProcFs) : gmap Z Z :=
  parse_proc_net_tcp (fs_tcp6 fs) (parse_proc_net_tcp (fs_tcp fs) ∅).

(** ** Processes *)

Definition read_ppid (fs : ProcFs) (pid : Z) : option Z :=
  content ← fs_stat fs pid;
  rest ← rfind_after ")" content;
  match split_whitespace (trim_start rest) with
  | _ :: ppid :: _ => parse_u32 ppid
  | _ => None
  end.

Definition parents (fs : ProcFs) (names : list string) : gmap Z Z :=
  foldl (fun m name =>
      match parse_u32 name with
      | Some pid => match read_ppid fs pid with Some ppid => <[pid := ppid]> m | None => m end
      | None => m
      end) ∅ names.

Section order.
Context (ord : gmap Z Z -> list (Z * Z)).

Definition children_of (parent_of : gmap Z Z) (parent : Z) : list Z :=
  (List.filter (fun kv => Z.eqb kv.2 parent) (ord parent_of)).*1.

(** The loop; the queue is a stack with its top first.  [None]: not finished. *)
Fixpoint descend (fuel : nat) (parent_of : gmap Z Z) (result queue : list Z) : option (list Z) :=
  match queue with
  | [] => Some result
  | parent :: queue =>
      match fuel with
      | O => None
      | S fuel =>
          let new := children_of parent_of parent in
          descend fuel parent_of (result ++ new) (rev new ++ queue)
      end
  end.

Definition collect_descendant_pids (fuel : nat) (fs : ProcFs) (root : Z) : option (list Z) :=
  match fs_names fs with
  | None => Some []
  | Some names => descend fuel (parents fs names) [root] [root]
  end.

Definition strip_suffix_bracket (s : string) : option string :=
  match rfind_after "]" s with
  | Some "" => Some (take_bytes (String.length s - 1) s)
  | _ => None
  end.

Definition socket_inode (target : string) : option Z :=
  inner ← strip_prefix "socket:[" target;
  digits ← strip_suffix_bracket inner;
  parse_uint u64_max digits.

Definition pid_listening_ports (fs : ProcFs) (pid : Z) (inodes : gmap Z Z) : list Z :=
  match fs_fds fs pid with
  | Some targets => omap (fun t => target ← t; inode ← socket_inode target; inodes !! inode) targets
  | None => []
  end.

(** ** Attribution *)

Definition is_under (cwd dir : string) : bool :=
  String.eqb cwd dir || starts_with (dir +:+ "/") cwd.

(** [max_by_key]: the last of the longest. *)
Fixpoint max_by_len (best : option (Z * string)) (l : list (Z * string)) : option (Z * string) :=
  match l with
  | [] => best
  | x :: l =>
      match best with
      | Some b => max_by_len (if bool_decide (String.length x.2 < String.length b.2) then Some b else Some x) l
      | None => max_by_len (Some x) l
      end
  end.

Definition best_match (cwd : string) (cwd_workspaces : list (Z * string)) : option (Z * string) :=
  max_by_len None (List.filter (fun w => is_under cwd w.2) cwd_workspaces).

(** A [BTreeSet] in order. *)
Definition sorted_ports (s : gset Z) : list Z := merge_sort Z.le (elements s).

(** The loop over the processes: the ports per workspace and the claimed ones. *)
Fixpoint claim (cwd_workspaces : list (Z * string)) (pid_ports : list (string * list Z))
    (results : gmap Z (gset Z)) (claimed : gset Z) : gmap Z (gset Z) * gset Z :=
  match pid_ports with
  | [] => (results, claimed)
  | (cwd, ports) :: rest =>
      match best_match cwd cwd_workspaces with
      | Some (ws_id, _) =>
          claim cwd_workspaces rest
            (<[ws_id := default ∅ (results !! ws_id) ∪ list_to_set ports]> results)
            (claimed ∪ list_to_set ports)
      | None => claim cwd_workspaces rest results claimed
      end
  end.

Definition with_dir (workspaces : list (Z * option string)) : list (Z * string) :=
  omap (fun w => (fun d => (w.1, d)) <$> w.2) workspaces.
Definition without_dir (workspaces : list (Z * option string)) : list Z :=
  omap (fun w => match w.2 with None => Some w.1 | Some _ => None end) workspaces.

Definition attribute (ord_results : gmap Z (gset Z) -> list (Z * gset Z))
    (workspaces : list (Z * option string)) (pid_ports : list (string * list Z)) : list (Z * list Z) :=
  let cwd_workspaces := with_dir workspaces in
  let '(cwd_results, claimed_ports) := claim cwd_workspaces pid_ports ∅ ∅ in
  let fallback_ids := without_dir workspaces in
  let results := omap (fun r => if bool_decide (r.2 = ∅) then None else Some (r.1, sorted_ports r.2))
                   (ord_results cwd_results) in
  let all_ports : gset Z := list_to_set (pid_ports ≫= snd) in
  let give (s : gset Z) :=
    if bool_decide (s = ∅) then [] else (fun id => (id, sorted_ports s)) <$> fallback_ids in
  if bool_decide (fallback_ids = []) then results
  else if bool_decide (claimed_ports = ∅) then results ++ give all_ports
  else results ++ give (if bool_decide (cwd_workspaces = []) then all_ports else all_ports ∖ claimed_ports).

Definition listening_processes (fs : ProcFs) (inodes : gmap Z Z) (pids : list Z) : list (string * list Z) :=
  omap (fun pid =>
      match pid_listening_ports fs pid inodes with
      | [] => None
      | ports => cwd ← fs_cwd fs pid; Some (cwd, ports)
      end) pids.

(** [None]: the walk over the processes does not end with this fuel. *)
Definition scan (ord_results : gmap Z (gset Z) -> list (Z * gset Z)) (fuel : nat) (fs : ProcFs)
    (own_pid : Z) (workspaces : list (Z * option string)) : option (list (Z * list Z)) :=
  let inode_map := read_listening_inodes fs in
  if bool_decide (inode_map = ∅) then Some []
  else
    all_pids ← collect_descendant_pids fuel fs own_pid;
    let pid_ports := listening_processes fs inode_map all_pids in
    if bool_decide (pid_ports = []) then Some []
    else Some (attribute ord_results workspaces pid_ports).
End order.
