(* ===== verification/Notify.v ===== *)
(** * Bell notifications (app/src/notify.rs)

    The limits on desktop notifications: one per workspace in five seconds, three
    in ten seconds.  The claim relates the calls made on the bus to the notifications
    that are due.  Times are nanoseconds of the monotonic clock.  The session bus
    and the parser of the variant text are parameters. *)

From Stdlib Require Import Ascii.
From S2P Require Import Prelude RustStr RemoteConfig Workspace.
Open Scope string_scope.
Open Scope list_scope.

Definition NANOS : Z := 1000000000.
Definition PER_WORKSPACE_COOLDOWN_SECS : Z := 5.
Definition GLOBAL_MAX_BURST : nat := 3.
Definition GLOBAL_BURST_WINDOW_SECS : Z := 10.

(** The thread-local state; [bus_calls] are the calls made on the bus, each with its
    time and its parameters' text. *)
Record NotifyState := mkNotify {
  WINDOW_ACTIVE : bool;
  ENABLED : bool;
  LAST_NOTIFY : gmap Z Z;
  RECENT : list Z;
  DBUS_CONN : bool;
  bus_calls : list (Z * string);
}.

Definition notify_new : NotifyState := mkNotify true true ∅ [] false [].

Definition set_window_active (active : bool) (s : NotifyState) : NotifyState :=
  mkNotify active (ENABLED s) (LAST_NOTIFY s) (RECENT s) (DBUS_CONN s) (bus_calls s).
Definition set_enabled (b : bool) (s : NotifyState) : NotifyState :=
  mkNotify (WINDOW_ACTIVE s) b (LAST_NOTIFY s) (RECENT s) (DBUS_CONN s) (bus_calls s).
Definition set_recent (l : list Z) (s : NotifyState) : NotifyState :=
  mkNotify (WINDOW_ACTIVE s) (ENABLED s) (LAST_NOTIFY s) l (DBUS_CONN s) (bus_calls s).

(** [now.duration_since(last).as_secs()]: zero when [last] is later. *)
Definition secs_since (now last : Z) : Z := (Z.max 0 (now - last) / NANOS)%Z.

Definition throttled (now : Z) (id : WorkspaceId) (s : NotifyState) : bool :=
  match LAST_NOTIFY s !! id with
  | Some last => Z.ltb (secs_since now last) PER_WORKSPACE_COOLDOWN_SECS
  | None => false
  end.

Definition after (cutoff t : Z) : bool := Z.ltb cutoff t.
#[global] Arguments after : simpl never.
Definition cutoff (now : Z) : Z := (now - GLOBAL_BURST_WINDOW_SECS * NANOS)%Z.

(** ** The call on the bus *)

Definition gv_escape (s : string) : string := replace_char "'" "\'" s.

Definition notify_params (summary body : string) : string :=
  "('Limux', uint32 0, 'utilities-terminal', '" +:+ gv_escape summary +:+ "', '" +:+ gv_escape body +:+
  "', @as [], @a{sv} {}, 5000)".

Section bus.
Context (bus_up : Z -> bool) (variant_ok : string -> bool).

Definition send_dbus_notification (now : Z) (summary body : string) (s : NotifyState) : NotifyState :=
  if DBUS_CONN s || bus_up now then
    let text := notify_params summary body in
    mkNotify (WINDOW_ACTIVE s) (ENABLED s) (LAST_NOTIFY s) (RECENT s) true
      (if variant_ok text then bus_calls s ++ [(now, text)] else bus_calls s)
  else s.

Definition record_notification (now : Z) (id : WorkspaceId) (s : NotifyState) : NotifyState :=
  mkNotify (WINDOW_ACTIVE s) (ENABLED s) (<[id := now]> (LAST_NOTIFY s)) (RECENT s ++ [now]) (DBUS_CONN s)
    (bus_calls s).

Definition send_bell_notification (now : Z) (workspace_title : string) (workspace_id : WorkspaceId)
    (s : NotifyState) : NotifyState :=
  if negb (ENABLED s) then s
  else if WINDOW_ACTIVE s then s
  else if throttled now workspace_id s then s
  else
    let s := set_recent (List.filter (after (cutoff now)) (RECENT s)) s in
    if bool_decide (GLOBAL_MAX_BURST <= length (RECENT s)) then s
    else
      send_dbus_notification now ("Bell in " +:+ workspace_title)
        ("Terminal bell in workspace " +:+ dq +:+ workspace_title +:+ dq)
        (record_notification now workspace_id s).

(** ** Histories *)

Inductive NotifyEvent :=
  | Bell (title : string) (id : WorkspaceId)
  | Active (b : bool)
  | Enable (b : bool).

Definition notify_step (now : Z) (e : NotifyEvent) (s : NotifyState) : NotifyState :=
  match e with
  | Bell title id => send_bell_notification now title id s
  | Active b => set_window_active b s
  | Enable b => set_enabled b s
  end.

Definition notify_run (evs : list (Z * NotifyEvent)) (s : NotifyState) : NotifyState :=
  foldl (fun s e => notify_step e.1 e.2 s) s evs.

(** ** What is promised *)

(** What the limits say of a history of notifications: none of the workspace in the
    last five seconds, fewer than three in the last ten. *)
Definition allowed (now : Z) (id : WorkspaceId) (h : list (Z * WorkspaceId)) : bool :=
  forallb (fun r => negb (Z.eqb r.2 id) || Z.leb (r.1 + 5 * NANOS) now) h &&
  bool_decide (length (List.filter (fun r => after (cutoff now) r.1) h) < 3).

(** The notifications due after a history of events: whether the window is active,
    whether notifications are enabled, and each notification with its time, its
    workspace and the title shown. *)
Record Due := mkDue { d_active : bool; d_enabled : bool; d_made : list ((Z * WorkspaceId) * string) }.

Definition due_step (d : Due) (e : Z * NotifyEvent) : Due :=
  match e with
  | (now, Bell title id) =>
      if d_enabled d && negb (d_active d) && allowed now id (d_made d).*1
      then mkDue (d_active d) (d_enabled d) (d_made d ++ [((now, id), title)])
      else d
  | (_, Active b) => mkDue b (d_enabled d) (d_made d)
  | (_, Enable b) => mkDue (d_active d) b (d_made d)
  end.

Definition due_of (evs : list (Z * NotifyEvent)) : Due := foldl due_step (mkDue true true []) evs.
Definition due (evs : list (Z * NotifyEvent)) : list ((Z * WorkspaceId) * string) := d_made (due_of evs).

Definition bell_text (title : string) : string :=
  notify_params ("Bell in " +:+ title) ("Terminal bell in workspace " +:+ dq +:+ title +:+ dq).

(** Those of the due notifications that can be sent: the bus could be reached, now
    or for an earlier one, and the text parses. *)
Fixpoint sendable (conn : bool) (l : list ((Z * WorkspaceId) * string)) : list ((Z * WorkspaceId) * string) :=
  match l with
  | [] => []
  | n :: l =>
      let conn := conn || bus_up n.1.1 in
      (if conn && variant_ok (bell_text n.2) then [n] else []) ++ sendable conn l
  end.

Fixpoint reached (conn : bool) (l : list ((Z * WorkspaceId) * string)) : bool :=
  match l with [] => conn | n :: l => reached (conn || bus_up n.1.1) l end.

(** ** Lemmas *)

(** Times do not decrease along the events. *)
Fixpoint in_order (last : Z) (evs : list (Z * NotifyEvent)) : Prop :=
  match evs with [] => True | (t, _) :: evs => (last <= t)%Z /\ in_order t evs end.

Definition last_of (id : WorkspaceId) (h : list (Z * WorkspaceId)) : option Z :=
  fst <$> last (List.filter (fun r => Z.eqb r.2 id) h).

Definition ascending (h : list (Z * WorkspaceId)) : Prop :=
  forall i j r1 r2, h !! i = Some r1 -> h !! j = Some r2 -> i <= j -> (r1.1 <= r2.1)%Z.

Record notify_ok (now : Z) (h : list (Z * WorkspaceId)) (s : NotifyState) : Prop := mkNotifyOk {
  nk_sorted : ascending h;
  nk_past : Forall (fun r => r.1 <= now)%Z h;
  nk_last : forall id, LAST_NOTIFY s !! id = last_of id h;
  nk_recent : exists c, (c <= cutoff now)%Z /\ RECENT s = List.filter (after c) h.*1;
  nk_burst : forall i r1 r2, h !! i = Some r1 -> h !! (i + 3) = Some r2 ->
    (r1.1 + 10 * NANOS <= r2.1)%Z;
  nk_cooldown : forall i j r1 r2, h !! i = Some r1 -> h !! j = Some r2 -> i < j ->
    r1.2 = r2.2 -> (r1.1 + 5 * NANOS <= r2.1)%Z;
}.

Lemma notify_new_ok now : notify_ok now [] notify_new.
Proof.
  split; simpl; try done. exists (cutoff now). split; [lia|done].
Qed.

Lemma filter_after_after c c' l :
  (c <= c')%Z -> List.filter (after c') (List.filter (after c) l) = List.filter (after c') l.
Proof.
  intros H. induction l as [|t l IH]; [done|]. simpl. unfold after in *.
  destruct (Z.ltb_spec c t); simpl; destruct (Z.ltb_spec c' t); simpl; rewrite ?IH; try done. lia.
Qed.

Lemma filter_fst c (h : list (Z * WorkspaceId)) :
  List.filter (after c) h.*1 = (List.filter (fun r => after c r.1) h).*1.
Proof. 
  induction h as [|r h IH]; [done|]. rewrite fmap_cons. cbn [List.filter].
  destruct (after c r.1); by rewrite ?fmap_cons, IH.
Qed.

Lemma secs_small now last : (last <= now)%Z ->
  (secs_since now last <? PER_WORKSPACE_COOLDOWN_SECS)%Z = negb (last + 5 * NANOS <=? now)%Z.
Proof.
  intros H. unfold secs_since, PER_WORKSPACE_COOLDOWN_SECS, NANOS. rewrite Z.max_r by lia.
  pose proof (Z.div_mod (now - last) 1000000000 ltac:(lia)).
  pose proof (Z.mod_pos_bound (now - last) 1000000000 ltac:(lia)).
  apply eq_true_iff_eq. rewrite negb_true_iff, Z.ltb_lt, Z.leb_gt. lia.
Qed.
Lemma last_of_spec id h :
  ascending h ->
  match last_of id h with
  | Some t => (exists r, r ∈ h /\ r.2 = id /\ r.1 = t) /\ forall r, r ∈ h -> r.2 = id -> (r.1 <= t)%Z
  | None => forall r, r ∈ h -> r.2 <> id
  end.
Proof.
  unfold last_of. induction h as [|r h IH] using rev_ind; intros Hs; [by intros r ?%elem_of_nil|].
  assert (ascending h) as Hs' by (intros i j r1 r2 H1 H2; apply Hs; by apply lookup_app_l_Some).
  rewrite List.filter_app. simpl. destruct (Z.eqb_spec r.2 id) as [Hr|Hr].
  - rewrite last_snoc. simpl. split; [exists r; set_solver|].
    intros x [i Hx]%list_elem_of_lookup _. eapply (Hs i (length h)); [exact Hx| |].
    + by rewrite lookup_app_r, Nat.sub_diag by lia.
    + apply lookup_lt_Some in Hx. rewrite length_app in Hx. simpl in Hx. lia.
  - rewrite app_nil_r. specialize (IH Hs'). destruct (fst <$> last _) as [t|].
    + destruct IH as [(x & ? & ? & ?) IH]. split; [exists x; set_solver|].
      intros y [Hy| ->%list_elem_of_singleton]%elem_of_app; [auto|done].
    + intros y [Hy| ->%list_elem_of_singleton]%elem_of_app; [auto|done].
Qed.

Lemma throttled_spec now id h s :
  notify_ok now h s ->
  throttled now id s =
  negb (forallb (fun r => negb (Z.eqb r.2 id) || Z.leb (r.1 + 5 * NANOS) now) h).
Proof.
  intros []. unfold throttled. rewrite nk_last0. pose proof (last_of_spec id _ nk_sorted0) as H.
  apply eq_true_iff_eq. rewrite negb_true_iff, <- not_true_iff_false, forallb_forall.
  rewrite Forall_forall in nk_past0. destruct (last_of id h) as [t|].
  - destruct H as [(r & Hin & Hid & <-) Hmax]. rewrite secs_small by by apply nk_past0.
    rewrite negb_true_iff, Z.leb_gt. split.
    + intros Hlt Hall. apply list_elem_of_In in Hin. specialize (Hall _ Hin).
      apply orb_prop in Hall as [H%negb_true_iff%Z.eqb_neq|H%Z.leb_le]; [done|lia].
    + intros Hn. apply Z.nle_gt. intros Hle. apply Hn. intros x Hx%list_elem_of_In.
      destruct (Z.eqb_spec x.2 id) as [Hxi|]; [|done]. apply Z.leb_le. specialize (Hmax _ Hx Hxi). lia.
  - split; [done|]. intros Hn. destruct Hn. intros x Hx%list_elem_of_In.
    destruct (Z.eqb_spec x.2 id) as [Hxi|]; [by apply H in Hx|done].
Qed.

Lemma burst_spec now h s :
  notify_ok now h s ->
  List.filter (after (cutoff now)) (RECENT s) = (List.filter (fun r => after (cutoff now) r.1) h).*1.
Proof. intros []. destruct nk_recent0 as (c & Hc & ->). by rewrite filter_after_after, filter_fst. Qed.

(** The last [n - k] of an ascending history are recent when the [k]-th is. *)
Lemma recent_suffix c h k r :
  ascending h -> h !! k = Some r -> (c < r.1)%Z ->
  length h - k <= length (List.filter (fun r => after c r.1) h).
Proof.
  intros Hs Hk Hc. rewrite <- (take_drop k h) at 2. rewrite List.filter_app, length_app.
  assert (List.filter (fun r => after c r.1) (drop k h) = drop k h) as ->.
  { assert (Forall (fun r => after c r.1 = true) (drop k h)) as H.
    { apply Forall_lookup. intros i x Hx. rewrite lookup_drop in Hx. apply Z.ltb_lt.
      specialize (Hs k (k + i) r x Hk Hx). lia. }
    induction H as [|x l Hx _ IH]; [done|]. simpl. by rewrite Hx, IH. }
  rewrite length_drop. lia.
Qed.

Lemma record_ok now id h s :
  notify_ok now h s -> allowed now id h = true ->
  notify_ok now (h ++ [(now, id)]) (record_notification now id (set_recent (List.filter (after (cutoff now)) (RECENT s)) s)).
Proof.
  intros Hok Ha. pose proof Hok as []. apply andb_prop in Ha as [Hcd Hb%bool_decide_eq_true].
  rewrite forallb_forall in Hcd.
  assert (forall j r, (h ++ [(now, id)]) !! j = Some r ->
    h !! j = Some r \/ j = length h /\ r = (now, id)) as Hsnoc.
  { intros j r [H|[Hj H]]%lookup_app_Some; [by left|right].
    apply list_lookup_singleton_Some in H as [? <-]. split; [lia|done]. }
  split; simpl.
  - intros i j r1 r2 H1 H2 Hij. apply Hsnoc in H1 as [H1|[-> ->]], H2 as [H2|[-> ->]]; simpl; try lia.
    + by eapply nk_sorted0.
    + rewrite Forall_forall in nk_past0. eapply nk_past0, list_elem_of_lookup_2, H1.
    + apply lookup_lt_Some in H2. lia.
  - apply Forall_app. split; [done|]. by repeat constructor.
  - intros i. unfold last_of. rewrite List.filter_app. simpl. destruct (Z.eqb_spec id i) as [->|Hne].
    + by rewrite lookup_insert_eq, last_snoc.
    + by rewrite lookup_insert_ne, app_nil_r by done.
  - exists (cutoff now). split; [lia|]. rewrite (burst_spec _ h) by done. rewrite fmap_app, List.filter_app, filter_fst.
    simpl. assert (after (cutoff now) now = true) as ->; [|done].
    apply Z.ltb_lt. unfold cutoff, NANOS, GLOBAL_BURST_WINDOW_SECS. lia.
  - intros i r1 r2 H1 H2. apply Hsnoc in H1 as [H1|[-> ->]], H2 as [H2|[Hi ->]];
      [by eapply nk_burst0| |apply lookup_lt_Some in H2; lia|lia]. simpl.
    apply Z.nlt_ge. intros Hlt.
    pose proof (recent_suffix (cutoff now) _ _ _ nk_sorted0 H1) as Hl.
    unfold cutoff, GLOBAL_BURST_WINDOW_SECS, NANOS in *. lia.
  - intros i j r1 r2 H1 H2 Hij Hid. apply Hsnoc in H1 as [H1|[-> ->]], H2 as [H2|[-> ->]];
      [by eapply nk_cooldown0| |apply lookup_lt_Some in H2; lia|lia]. simpl in *.
    apply list_elem_of_lookup_2, list_elem_of_In, Hcd in H1.
    apply orb_prop in H1 as [H1%negb_true_iff%Z.eqb_neq|H1%Z.leb_le]; done.
Qed.

Lemma notify_ok_later now now' h s : notify_ok now h s -> (now <= now')%Z -> notify_ok now' h s.
Proof.
  intros [] Hle. split; try done.
  - eapply Forall_impl; [done|]. simpl. lia.
  - destruct nk_recent0 as (c & Hc & E). exists c. split; [unfold cutoff in *; lia|done].
Qed.

(** Only these parts of the state matter to the invariant. *)
Lemma notify_ok_frame now h s s' :
  notify_ok now h s -> LAST_NOTIFY s' = LAST_NOTIFY s -> RECENT s' = RECENT s -> notify_ok now h s'.
Proof. intros [] E1 E2. by split; rewrite ?E1, ?E2. Qed.

(** A bell the limits refuse changes nothing but what is forgotten of the past. *)
Lemma bell_refused now title id h s :
  notify_ok now h s -> ENABLED s && negb (WINDOW_ACTIVE s) && allowed now id h = false ->
  exists l, send_bell_notification now title id s = set_recent l s /\ notify_ok now h (set_recent l s).
Proof.
  intros Hok Ha. assert (exists l, s = set_recent l s /\ notify_ok now h (set_recent l s)) as Hs
    by (exists (RECENT s); by destruct s).
  unfold send_bell_notification. destruct (ENABLED s); cbn [negb andb] in *; [|done].
  destruct (WINDOW_ACTIVE s); cbn [negb andb] in *; [done|].
  rewrite (throttled_spec _ id _ _ Hok). unfold allowed in Ha.
  destruct (forallb _ h); cbn [negb andb] in *; [|done].
  apply bool_decide_eq_false in Ha. cbv zeta. cbn [RECENT set_recent].
  rewrite (burst_spec _ _ _ Hok), length_fmap, bool_decide_true by (unfold GLOBAL_MAX_BURST; lia).
  eexists. split; [done|]. destruct Hok. split; try done.
  exists (cutoff now). split; [lia|]. simpl. by rewrite filter_fst.
Qed.

(** One they allow is recorded and sent. *)
Lemma bell_allowed now title id h s :
  notify_ok now h s -> ENABLED s && negb (WINDOW_ACTIVE s) && allowed now id h = true ->
  exists s', send_bell_notification now title id s =
      send_dbus_notification now ("Bell in " +:+ title) ("Terminal bell in workspace " +:+ dq +:+ title +:+ dq) s' /\
    notify_ok now (h ++ [(now, id)]) s' /\ ENABLED s' = ENABLED s /\ WINDOW_ACTIVE s' = WINDOW_ACTIVE s /\
    DBUS_CONN s' = DBUS_CONN s /\ bus_calls s' = bus_calls s.
Proof.
  intros Hok [[He Hw]%andb_prop Ha]%andb_prop. pose proof (burst_spec _ _ _ Hok) as Hb.
  pose proof (record_ok now id h s Hok Ha) as Hr. apply andb_prop in Ha as [Hc Hl%bool_decide_eq_true].
  unfold send_bell_notification. rewrite He, (throttled_spec _ id _ _ Hok), Hc.
  destruct (WINDOW_ACTIVE s) eqn:Hact; [done|]. cbn [negb]. cbv zeta. cbn [RECENT set_recent].
  rewrite Hb, length_fmap, bool_decide_false by (unfold GLOBAL_MAX_BURST; lia).
  eexists. split; [done|]. rewrite <- Hb. by split_and!.
Qed.

(** The state follows the notifications due. *)
Record follows (now : Z) (d : Due) (s : NotifyState) : Prop := mkFollows {
  fo_ok : notify_ok now (d_made d).*1 s;
  fo_active : WINDOW_ACTIVE s = d_active d;
  fo_enabled : ENABLED s = d_enabled d;
  fo_conn : DBUS_CONN s = reached false (d_made d);
  fo_calls : bus_calls s = (fun n => (n.1.1, bell_text n.2)) <$> sendable false (d_made d);
}.

Lemma sendable_snoc l n : forall conn,
  sendable conn (l ++ [n]) = sendable conn l ++
    (if (reached conn l || bus_up n.1.1) && variant_ok (bell_text n.2) then [n] else []).
Proof. induction l as [|x l IH]; intros conn; simpl; [by rewrite app_nil_r|]. by rewrite IH, app_assoc. Qed.

Lemma reached_snoc l n : forall conn, reached conn (l ++ [n]) = reached conn l || bus_up n.1.1.
Proof. induction l as [|x l IH]; intros conn; simpl; [done|]. by rewrite IH. Qed.

Lemma notify_step_follows now e d s :
  follows now d s -> follows now (due_step d (now, e)) (notify_step now e s).
Proof.
  intros Hf. pose proof Hf as [Hok Ha He Hc Hb]. destruct e as [title id|b|b]; cbn [notify_step due_step];
    [|by split; [eapply notify_ok_frame|..]..]. rewrite <- Ha, <- He.
  destruct (ENABLED s && negb (WINDOW_ACTIVE s) && allowed now id (d_made d).*1) eqn:Hall.
  - destruct (bell_allowed now title id _ s Hok Hall) as (s' & -> & Hok' & He' & Ha' & Hc' & Hb').
    unfold send_dbus_notification. fold (bell_text title). rewrite Hc', Hc.
    destruct (reached false (d_made d) || bus_up now) eqn:Hr;
      (split; cbn [d_made d_active d_enabled WINDOW_ACTIVE ENABLED DBUS_CONN bus_calls]; try congruence;
       [rewrite fmap_app; by eapply notify_ok_frame|rewrite reached_snoc; simpl; rewrite Hr; try done; apply orb_false_elim in Hr as []; congruence|]);
      rewrite sendable_snoc; simpl; rewrite Hr; cbn [andb]; [|by rewrite app_nil_r, Hb', Hb].
    rewrite Hb', Hb. case_match; [by rewrite fmap_app|by rewrite app_nil_r].
  - destruct (bell_refused now title id _ s Hok Hall) as (l & -> & Hok'). by split.
Qed.

Fixpoint last_time (t : Z) (evs : list (Z * NotifyEvent)) : Z :=
  match evs with [] => t | (t, _) :: evs => last_time t evs end.

Lemma follows_later now now' d s : follows now d s -> (now <= now')%Z -> follows now' d s.
Proof. intros [] ?. split; [by eapply notify_ok_later|done..]. Qed.

Lemma notify_run_follows evs : forall t d s,
  in_order t evs -> follows t d s -> follows (last_time t evs) (foldl due_step d evs) (notify_run evs s).
Proof.
  induction evs as [|[t' e] evs IH]; intros t d s Ho Hf; [done|]. destruct Ho as [Hle Ho].
  change (follows (last_time t' evs) (foldl due_step (due_step d (t', e)) evs)
    (notify_run evs (notify_step t' e s))).
  apply IH; [done|]. by apply notify_step_follows, (follows_later t).
Qed.

Lemma sendable_sublist l : forall conn, sendable conn l `sublist_of` l.
Proof.
  induction l as [|n l IH]; intros conn; simpl; [constructor|].
  case_match; simpl; constructor; apply IH.
Qed.

(** The elements of a sublist are at least as far apart in the list. *)
Lemma sublist_apart {A} (k l : list A) :
  k `sublist_of` l -> forall i j x y, k !! i = Some x -> k !! j = Some y -> i < j ->
  exists i' j', l !! i' = Some x /\ l !! j' = Some y /\ i' + (j - i) <= j'.
Proof.
  assert (forall k l : list A, k `sublist_of` l -> forall j y, k !! j = Some y ->
    exists j', l !! j' = Some y /\ j <= j') as Hone.
  { induction 1 as [|a k0 l0 _ IH|a k0 l0 _ IH]; intros j y H; [done| |].
    - destruct j as [|j]; [by exists 0|]. destruct (IH j y H) as (j' & ? & ?).
      exists (S j'). split; [done|lia].
    - destruct (IH j y H) as (j' & ? & ?). exists (S j'). split; [done|lia]. }
  induction 1 as [|a k l Hs IH|a k l Hs IH]; intros i j x y Hi Hj Hij; [done| |].
  - destruct j as [|j]; [lia|]. destruct i as [|i].
    + destruct (Hone _ _ Hs j y Hj) as (j' & ? & ?). exists 0, (S j'). split_and!; [done..|lia].
    + destruct (IH i j x y Hi Hj ltac:(lia)) as (i' & j' & ? & ? & ?). exists (S i'), (S j'). split_and!; [done..|lia].
  - destruct (IH i j x y Hi Hj Hij) as (i' & j' & ? & ? & ?). exists (S i'), (S j'). split_and!; [done..|lia].
Qed.

(** ** Claims *)

(** C37: the calls made on the bus are limited, and no call is left out that the
    limits, the bus and the text permit.  Whatever bells ring, however the window
    gains and loses the focus and notifications are switched on and off, as long as
    the clock does not go back, the calls [Notify] on the session bus are, in order
    and each once, those of the notifications due that can be sent.  Due is a bell
    that rings while notifications are enabled and the window is not focused, when no
    notification of its workspace was due in the last five seconds and fewer than
    three in the last ten ([due]); it can be sent when the bus could be reached, then
    or for an earlier one, and the variant text with its title parses ([sendable]):
    a due notification that cannot be sent still counts against the limits.  So of
    any four successive calls the last comes at least ten seconds after the first,
    and two calls for the same workspace are at least five seconds apart. *)
Theorem bells_rate_limited evs start :
  in_order start evs ->
  let sent := sendable false (due evs) in
  bus_calls (notify_run evs notify_new) = (fun n => (n.1.1, bell_text n.2)) <$> sent /\
  (forall i c1 c2, bus_calls (notify_run evs notify_new) !! i = Some c1 ->
    bus_calls (notify_run evs notify_new) !! (i + 3) = Some c2 -> (c1.1 + 10 * NANOS <= c2.1)%Z) /\
  (forall i j n1 n2, sent !! i = Some n1 -> sent !! j = Some n2 -> i < j -> n1.1.2 = n2.1.2 ->
    (n1.1.1 + 5 * NANOS <= n2.1.1)%Z).
Proof.
  intros Ho sent. destruct (notify_run_follows _ _ (mkDue true true []) notify_new Ho) as [Hok _ _ _ Hb].
  { split; try done. apply notify_new_ok. }
  fold (due_of evs) in Hok, Hb. fold (due evs) in Hok, Hb. fold sent in Hb. destruct Hok.
  assert (forall i j n1 n2, sent !! i = Some n1 -> sent !! j = Some n2 -> i < j ->
    exists i' j', (due evs).*1 !! i' = Some n1.1 /\ (due evs).*1 !! j' = Some n2.1 /\ i' + (j - i) <= j') as Hap.
  { intros i j n1 n2 H1 H2 Hij. destruct (sublist_apart _ _ (sendable_sublist (due evs) false) _ _ _ _ H1 H2 Hij)
      as (i' & j' & E1 & E2 & ?). exists i', j'. by rewrite !list_lookup_fmap, E1, E2. }
  split_and!; [done| |].
  - intros i c1 c2. rewrite Hb, !list_lookup_fmap, !fmap_Some. intros (n1 & H1 & ->) (n2 & H2 & ->).
    destruct (Hap _ _ _ _ H1 H2 ltac:(lia)) as (i' & j' & E1 & E2 & Hd). simpl.
    destruct (lookup_lt_is_Some_2 (due evs).*1 (i' + 3)) as [r3 E3].
    { apply lookup_lt_Some in E2. lia. }
    pose proof (nk_burst0 _ _ _ E1 E3). pose proof (nk_sorted0 _ _ _ _ E3 E2 ltac:(lia)). lia.
  - intros i j n1 n2 H1 H2 Hij Hid. destruct (Hap _ _ _ _ H1 H2 Hij) as (i' & j' & E1 & E2 & Hd).
    eapply nk_cooldown0; [exact E1|exact E2|lia|done].
Qed.

End bus.

Definition demo_bells : list (Z * NotifyEvent) :=
  [(0, Active false); (0, Bell "a" 1); (2 * NANOS, Bell "a" 1); (3 * NANOS, Bell "b" 2);
   (5 * NANOS, Bell "a" 1); (9 * NANOS, Bell "b" 2); (10 * NANOS, Bell "b" 2)]%Z.

Lemma bells_rate_limited_witness :
  bus_calls (notify_run (fun t => Z.leb 1 t) (fun _ => true) demo_bells notify_new) =
    [(3 * NANOS, bell_text "b"); (5 * NANOS, bell_text "a"); (10 * NANOS, bell_text "b")]%Z /\
  due demo_bells =
    [((0, 1), "a"); ((3 * NANOS, 2), "b"); ((5 * NANOS, 1), "a"); ((10 * NANOS, 2), "b")]%Z.
Proof.
  destruct (bells_rate_limited (fun t => Z.leb 1 t) (fun _ => true) demo_bells 0) as (H & _).
  { repeat (split; [unfold NANOS; lia|]). exact I. }
  rewrite H. split; vm_compute; reflexivity.
Defined.

(** A backslash is not escaped: it takes the quote after it out of force. *)
Theorem backslash_unescaped : notify_params "Bell in a\" "" =
  "('Limux', uint32 0, 'utilities-terminal', 'Bell in a\', '', @as [], @a{sv} {}, 5000)".
Proof. reflexivity. Qed.

