(* ===== verification/Settings.v ===== *)
(** * Settings (app/src/settings.rs, settings_ui.rs, install_prompt.rs)

    The preferences with their defaults, the shortcut table, the settings file and
    the cell that each thread keeps of it.  The JSON codec of serde, the file system's
    answers and GTK's names of accelerators are parameters.  [SettingsProps] has the
    theorems. *)

From Stdlib Require Import Ascii.
From S2P Require Import Prelude RustStr.
Open Scope string_scope.
Open Scope list_scope.

(** ** The data *)

Record GeneralSettings := mkGeneral {
  default_shell : option string;
  working_directory : option string;
  session_restore : option bool;
  notifications_enabled : option bool;
  hide_integrate_prompt : option bool;
  desktop_integrated : option bool;
  check_for_updates : option bool;
  update_check_frequency : option string;
  skip_update_version : option string;
  last_update_check : option Z;
}.
Record SidebarSettings := mkSidebar { width : option Z; visible : option bool }.
Record Settings := mkSettings {
  version : Z;
  general : GeneralSettings;
  sidebar : SidebarSettings;
  shortcuts : gmap string string;
}.

Definition general_default : GeneralSettings :=
  mkGeneral None None None None None None None None None None.
Definition settings_default : Settings := mkSettings 1 general_default (mkSidebar None None) ∅.

#[global] Instance GeneralSettings_eq_dec : EqDecision GeneralSettings.
Proof. solve_decision. Defined.
#[global] Instance SidebarSettings_eq_dec : EqDecision SidebarSettings.
Proof. solve_decision. Defined.
#[global] Instance Settings_eq_dec : EqDecision Settings.
Proof. solve_decision. Defined.

(** The effective values. *)
Definition eff_session_restore (s : Settings) : bool := default true (session_restore (general s)).
Definition eff_notifications_enabled (s : Settings) : bool := 
  default true (notifications_enabled (general s)).
Definition eff_hide_integrate_prompt (s : Settings) : bool := 
  default false (hide_integrate_prompt (general s)).
Definition eff_desktop_integrated (s : Settings) : bool := default false (desktop_integrated (general s)).
Definition eff_check_for_updates (s : Settings) : bool := default true (check_for_updates (general s)).
Definition eff_update_check_frequency (s : Settings) : string :=
  default "daily" (update_check_frequency (general s)).
Definition sidebar_width (s : Settings) : Z := default 180%Z (width (sidebar s)).
Definition sidebar_visible (s : Settings) : bool := default true (visible (sidebar s)).

(** ** Shortcuts *)

Record ShortcutDef := mkShortcut { action : string; default_accel : string; label : string }.

Definition SHORTCUT_DEFAULTS : list ShortcutDef := [
  mkShortcut "new-workspace" "<Ctrl><Shift>t" "New Workspace";
  mkShortcut "close-workspace" "<Ctrl><Shift>w" "Close Workspace";
  mkShortcut "next-workspace" "<Ctrl>Page_Down" "Next Workspace";
  mkShortcut "prev-workspace" "<Ctrl>Page_Up" "Previous Workspace";
  mkShortcut "split-right" "<Ctrl><Shift>Return" "Split Right";
  mkShortcut "split-down" "<Ctrl><Shift>e" "Split Down";
  mkShortcut "next-split" "<Ctrl><Shift>bracketright" "Next Split";
  mkShortcut "prev-split" "<Ctrl><Shift>bracketleft" "Previous Split";
  mkShortcut "equalize-splits" "<Ctrl><Shift>plus" "Equalize Splits";
  mkShortcut "split-left" "<Alt>Left" "Navigate Left";
  mkShortcut "split-right-nav" "<Alt>Right" "Navigate Right";
  mkShortcut "split-up" "<Alt>Up" "Navigate Up";
  mkShortcut "split-down-nav" "<Alt>Down" "Navigate Down";
  mkShortcut "new-pane-tab" "<Ctrl>t" "New Tab in Pane";
  mkShortcut "close-pane-tab" "<Ctrl>w" "Close Tab in Pane";
  mkShortcut "next-pane-tab" "<Ctrl>Tab" "Next Tab in Pane";
  mkShortcut "prev-pane-tab" "<Ctrl><Shift>Tab" "Previous Tab in Pane";
  mkShortcut "toggle-sidebar" "<Ctrl><Shift>backslash" "Toggle Sidebar";
  mkShortcut "open-browser" "<Ctrl><Shift>b" "Open Browser";
  mkShortcut "focus-address-bar" "<Ctrl>l" "Focus Address Bar";
  mkShortcut "browser-find" "<Ctrl>f" "Browser Find";
  mkShortcut "open-settings" "<Ctrl>comma" "Open Settings"
].

Definition find_def (a : string) : option ShortcutDef :=
  List.find (fun d => String.eqb (action d) a) SHORTCUT_DEFAULTS.
Definition default_shortcut (a : string) : option string := default_accel <$> find_def a.

Definition shortcut_accel (s : Settings) (a : string) : option string :=
  match shortcuts s !! a with Some x => Some x | None => default_shortcut a end.

Definition accel_of (s : Settings) (d : ShortcutDef) : string :=
  default (default_accel d) (shortcuts s !! action d).

Definition merged_shortcuts (s : Settings) : gmap string string :=
  foldl (fun m d => <[action d := accel_of s d]> m) ∅ SHORTCUT_DEFAULTS.

(** What [build_shortcut_controller] registers besides the accelerator of an
    action, and the nine keys of the workspaces. *)
Definition alternate (a : string) : option string :=
  if String.eqb a "next-split" then Some "<Ctrl><Shift>braceright"
  else if String.eqb a "prev-split" then Some "<Ctrl><Shift>braceleft"
  else if String.eqb a "equalize-splits" then Some "<Ctrl><Shift>equal"
  else if String.eqb a "toggle-sidebar" then Some "<Ctrl><Shift>bar"
  else if String.eqb a "split-right" then Some "<Ctrl><Shift>d"
  else None.

(** A registered shortcut: trigger text and action name. *)
Definition make_shortcut (accel act : string) : string * string := (accel, act).

Section controller.
(** The order in which a map of shortcuts is listed. *)
Context (ord : gmap string string -> list (string * string)).

Definition build_shortcut_controller (s : Settings) : list (string * string) :=
  mbind (fun '(a, x) =>
    make_shortcut x ("win." +:+ a) ::
    match alternate a with Some alt => [make_shortcut alt ("win." +:+ a)] | None => [] end)
    (ord (merged_shortcuts s)) ++
  ((fun i => make_shortcut ("<Ctrl>" +:+ show_uint (Z.of_nat i))
             ("win.select-workspace-" +:+ show_uint (Z.of_nat i)))
     <$> seq 1 9).

(** The other action that has the accelerator, the first that the listing meets. *)
Definition check_shortcut_conflict (s : Settings) (a accel : string) : option string :=
  fst <$> List.find (fun p => negb (String.eqb p.1 a) && String.eqb p.2 accel) (ord (merged_shortcuts s)).
End controller.

(** ** The settings file *)

(** [PathBuf::join] with a relative path. *)
Definition path_join (p q : string) : string :=
  match p with
  | "" => q
  | _ => if String.eqb (String.substring (String.length p - 1) 1 p) "/" then p +:+ q else p +:+ "/" +:+ q
  end.

Record Vars := mkVars { XDG_CONFIG_HOME : option string; HOME : option string }.

Definition config_dir (v : Vars) : string :=
  match XDG_CONFIG_HOME v with
  | Some x => x
  | None => path_join (default "/tmp" (HOME v)) ".config"
  end.
Definition settings_file_path (v : Vars) : string :=
  path_join (path_join (config_dir v) "limux") "settings.json".
Definition ghostty_config_path (v : Vars) : string :=
  path_join (path_join (config_dir v) "ghostty") "config".

(** How the file system answers a save; a write that fails may leave another text. *)
Inductive SaveIo := SaveOk | MkdirFails (e : string) | WriteFails (e : string) (kept : option string).

(** The readable text files, and the cell of each thread that has used its own. *)
Record Machine := mkMachine { files : gmap string string; cells : gmap Z Settings; warnings : list string }.
Definition MAIN : Z := 0.

Definition cell (t : Z) (m : Machine) : Settings := default settings_default (cells m !! t).

Section persistence.
Context (from_str : string -> option Settings) (to_string_pretty : Settings -> string + string).
Context (vars : Vars).

Definition load (m : Machine) : Settings :=
  match files m !! settings_file_path vars with
  | Some data => default settings_default (from_str data)
  | None => settings_default
  end.

Definition write_file (text : string) (m : Machine) : Machine :=
  mkMachine (<[settings_file_path vars := text]> (files m)) (cells m) (warnings m).

Definition save (io : SaveIo) (s : Settings) (m : Machine) : (unit + string) * Machine :=
  match io with
  | MkdirFails e => (inr ("mkdir: " +:+ e), m)
  | _ =>
      match to_string_pretty s with
      | inr e => (inr ("json: " +:+ e), m)
      | inl json =>
          match io with
          | WriteFails e kept =>
              (inr ("write: " +:+ e), match kept with Some x => write_file x m | None => m end)
          | _ => (inl tt, write_file json m)
          end
      end
  end.

Definition set_cell (t : Z) (s : Settings) (m : Machine) : Machine :=
  mkMachine (files m) (<[t := s]> (cells m)) (warnings m).

Definition init (t : Z) (m : Machine) : Machine := set_cell t (load m) m.
Definition get (t : Z) (m : Machine) : Settings := cell t m.

Definition update (t : Z) (f : Settings -> Settings) (io : SaveIo) (m : Machine) : Machine :=
  let s := f (cell t m) in
  let '(r, m) := save io s (set_cell t s m) in
  match r with
  | inl _ => m
  | inr e => mkMachine (files m) (cells m) (warnings m ++ ["Settings save failed: " +:+ e])
  end.
End persistence.

(** ** What the widgets change

    One definition per closure that calls [settings::update]. *)

Definition set_default_shell (x : option string) (s : Settings) : Settings :=
  let g := general s in
  mkSettings (version s) (mkGeneral x (working_directory g) (session_restore g)
    (notifications_enabled g) (hide_integrate_prompt g) (desktop_integrated g) (check_for_updates g)
    (update_check_frequency g) (skip_update_version g) (last_update_check g))
    (sidebar s) (shortcuts s).
Definition set_working_directory (x : option string) (s : Settings) : Settings :=
  let g := general s in
  mkSettings (version s) (mkGeneral (default_shell g) x (session_restore g)
    (notifications_enabled g) (hide_integrate_prompt g) (desktop_integrated g) (check_for_updates g)
    (update_check_frequency g) (skip_update_version g) (last_update_check g))
    (sidebar s) (shortcuts s).
Definition set_session_restore (x : option bool) (s : Settings) : Settings :=
  let g := general s in
  mkSettings (version s) (mkGeneral (default_shell g) (working_directory g) x
    (notifications_enabled g) (hide_integrate_prompt g) (desktop_integrated g) (check_for_updates g)
    (update_check_frequency g) (skip_update_version g) (last_update_check g))
    (sidebar s) (shortcuts s).
Definition set_notifications_enabled (x : option bool) (s : Settings) : Settings :=
  let g := general s in
  mkSettings (version s) (mkGeneral (default_shell g) (working_directory g) (session_restore g) x
    (hide_integrate_prompt g) (desktop_integrated g) (check_for_updates g)
    (update_check_frequency g) (skip_update_version g) (last_update_check g))
    (sidebar s) (shortcuts s).
Definition set_hide_integrate_prompt (x : option bool) (s : Settings) : Settings :=
  let g := general s in
  mkSettings (version s) (mkGeneral (default_shell g) (working_directory g) (session_restore g)
    (notifications_enabled g) x (desktop_integrated g) (check_for_updates g)
    (update_check_frequency g) (skip_update_version g) (last_update_check g))
    (sidebar s) (shortcuts s).
Definition set_desktop_integrated (x : option bool) (s : Settings) : Settings :=
  let g := general s in
  mkSettings (version s) (mkGeneral (default_shell g) (working_directory g) (session_restore g)
    (notifications_enabled g) (hide_integrate_prompt g) x (check_for_updates g)
    (update_check_frequency g) (skip_update_version g) (last_update_check g))
    (sidebar s) (shortcuts s).
Definition set_check_for_updates (x : option bool) (s : Settings) : Settings :=
  let g := general s in
  mkSettings (version s) (mkGeneral (default_shell g) (working_directory g) (session_restore g)
    (notifications_enabled g) (hide_integrate_prompt g) (desktop_integrated g) x
    (update_check_frequency g) (skip_update_version g) (last_update_check g))
    (sidebar s) (shortcuts s).
Definition set_update_check_frequency (x : option string) (s : Settings) : Settings :=
  let g := general s in
  mkSettings (version s) (mkGeneral (default_shell g) (working_directory g) (session_restore g)
    (notifications_enabled g) (hide_integrate_prompt g) (desktop_integrated g)
    (check_for_updates g) x (skip_update_version g) (last_update_check g))
    (sidebar s) (shortcuts s).
Definition set_skip_update_version (x : option string) (s : Settings) : Settings :=
  let g := general s in
  mkSettings (version s) (mkGeneral (default_shell g) (working_directory g) (session_restore g)
    (notifications_enabled g) (hide_integrate_prompt g) (desktop_integrated g) (check_for_updates g)
    (update_check_frequency g) x (last_update_check g))
    (sidebar s) (shortcuts s).
Definition set_last_update_check (x : option Z) (s : Settings) : Settings :=
  let g := general s in
  mkSettings (version s) (mkGeneral (default_shell g) (working_directory g) (session_restore g)
    (notifications_enabled g) (hide_integrate_prompt g) (desktop_integrated g) (check_for_updates g)
    (update_check_frequency g) (skip_update_version g) x)
    (sidebar s) (shortcuts s).
Definition set_width (x : option Z) (s : Settings) : Settings :=
  mkSettings (version s) (general s) (mkSidebar x (visible (sidebar s))) (shortcuts s).
Definition set_visible (x : option bool) (s : Settings) : Settings :=
  mkSettings (version s) (general s) (mkSidebar (width (sidebar s)) x) (shortcuts s).
Definition set_shortcuts (x : gmap string string) (s : Settings) : Settings :=
  mkSettings (version s) (general s) (sidebar s) x.

(** The text of an entry: an empty one unsets the value. *)
Definition entry_value (text : string) : option string :=
  match text with "" => None | _ => Some text end.

Definition FREQUENCIES : list string := ["startup"; "daily"; "weekly"].

(** The row of the combo box for the frequency that is set. *)
Definition freq_index (s : Settings) : nat :=
  default 1 (position (fun f => String.eqb f (eff_update_check_frequency s)) FREQUENCIES).

Inductive UiEvent :=
  | ShellChanged (text : string)
  | DirChanged (text : string)
  | SessionSwitch (active : bool)
  | NotifSwitch (active : bool)
  | FreqChanged (active : option nat)
  | UpdateSwitch (active : bool)
  | IntegratePressed (result : unit + string)
  | ResetShortcuts
  | ShortcutSet (act accel : string)
  | WidthChanged (val : Z)
  | VisibleSwitch (active : bool)
  | PromptCancel (checked : bool)
  | PromptIntegrate (hide : bool) (result : unit + string)
  | SkipVersion (v : string).

(** The integrate button, and the two buttons of the prompt. *)
Definition integrate_pressed (result : unit + string) : option (Settings -> Settings) :=
  match result with inl _ => Some (set_desktop_integrated (Some true)) | inr _ => None end.
Definition prompt_cancel (checked : bool) : option (Settings -> Settings) :=
  if checked then Some (set_hide_integrate_prompt (Some true)) else None.
Definition prompt_integrate (hide : bool) (result : unit + string) : option (Settings -> Settings) :=
  match result with
  | inl _ =>
      Some (fun s => let s := set_desktop_integrated (Some true) s in
                     if hide then set_hide_integrate_prompt (Some true) s else s)
  | inr _ => None
  end.

(** The change a callback makes, if it makes one. *)
Definition ui_change (e : UiEvent) : option (Settings -> Settings) :=
  match e with
  | ShellChanged text => Some (set_default_shell (entry_value text))
  | DirChanged text => Some (set_working_directory (entry_value text))
  | SessionSwitch b => Some (set_session_restore (Some b))
  | NotifSwitch b => Some (set_notifications_enabled (Some b))
  | FreqChanged i => freq ← i ≫= (FREQUENCIES !!.); Some (set_update_check_frequency (Some freq))
  | UpdateSwitch b => Some (set_check_for_updates (Some b))
  | IntegratePressed result => integrate_pressed result
  | ResetShortcuts => Some (set_shortcuts ∅)
  | ShortcutSet a x => Some (fun s => set_shortcuts (<[a := x]> (shortcuts s)) s)
  | WidthChanged v => Some (set_width (Some v))
  | VisibleSwitch b => Some (set_visible (Some b))
  | PromptCancel checked => prompt_cancel checked
  | PromptIntegrate hide result => prompt_integrate hide result
  | SkipVersion v => Some (set_skip_update_version (Some v))
  end.

Section events.
Context (from_str : string -> option Settings) (to_string_pretty : Settings -> string + string).
Context (vars : Vars).

Definition ui_step (m : Machine) (e : UiEvent * SaveIo) : Machine :=
  match ui_change e.1 with
  | Some f => update to_string_pretty vars MAIN f e.2 m
  | None => m
  end.

(** A run of the program as far as the settings go: start-up, then callbacks. *)
Definition run_settings (evs : list (UiEvent * SaveIo)) (m : Machine) : Machine :=
  foldl ui_step (init from_str vars MAIN m) evs.

(** What the callbacks mean, without files and cells. *)
Definition apply_ui (s : Settings) (e : UiEvent) : Settings :=
  match ui_change e with Some f => f s | None => s end.
End events.

(** ** Capturing a key combination *)

Inductive Key :=
  | Shift_L | Shift_R | Control_L | Control_R | Alt_L | Alt_R | Super_L | Super_R
  | Escape | OtherKey (keyval : Z).

Definition bare_modifier (k : Key) : bool :=
  match k with
  | Shift_L | Shift_R | Control_L | Control_R | Alt_L | Alt_R | Super_L | Super_R => true
  | Escape | OtherKey _ => false
  end.

(** What a key press in the popover does: let through, close the popover, show a
    text, or set the accelerator. *)
Inductive Capture := Proceed | Cancelled | Conflict (text : string) | Captured (e : UiEvent).

Section capture.
Context (ord : gmap string string -> list (string * string)).
Context (accelerator_name : Key -> Z -> string).

Definition conflict_label (a : string) : string :=
  match find_def a with Some d => label d | None => a end.

Definition key_pressed (s : Settings) (a : string) (keyval : Key) (state : Z) : Capture :=
  if bare_modifier keyval then Proceed
  else match keyval with
  | Escape => Cancelled
  | _ =>
      let accel_str := accelerator_name keyval state in
      match check_shortcut_conflict ord s a accel_str with
      | Some other => Conflict ("Conflicts with: " +:+ conflict_label other)
      | None => Captured (ShortcutSet a accel_str)
      end
  end.
End capture.
