(* ===== verification/SettingsProps.v ===== *)
(** * What the settings promise

    The merged shortcuts, the invariant that the dialog never gives two actions one
    accelerator, and persistence: what the main thread changes is what the next start
    loads. *)

From S2P Require Import Prelude RustStr Settings.
Open Scope string_scope.
Open Scope list_scope.

(** ** The merged shortcuts *)

Lemma defaults_NoDup : NoDup (action <$> SHORTCUT_DEFAULTS).
Proof. apply (bool_decide_unpack _). vm_compute. exact I. Qed.

Lemma find_action l a d :
  List.find (fun d => String.eqb (action d) a) l = Some d -> action d = a /\ d ∈ l.
Proof. intros [H1 H2%String.eqb_eq]%List.find_some. split; [done|by apply list_elem_of_In]. Qed.

Lemma find_action_Some l d :
  NoDup (action <$> l) -> d ∈ l -> List.find (fun x => String.eqb (action x) (action d)) l = Some d.
Proof.
  induction l as [|x l IH]; intros Hn Hd; [by apply elem_of_nil in Hd|].
  rewrite fmap_cons in Hn. apply NoDup_cons in Hn as [Hx Hn].
  cbn [List.find]. destruct (String.eqb_spec (action x) (action d)) as [E|E].
  - apply elem_of_cons in Hd as [->|Hd]; [done|]. destruct Hx. rewrite E. by apply list_elem_of_fmap_2.
  - apply elem_of_cons in Hd as [->|Hd]; [done|by apply IH].
Qed.

Lemma fold_insert_lookup (s : Settings) l (m : gmap string string) a :
  NoDup (action <$> l) ->
  foldl (fun m d => <[action d := accel_of s d]> m) m l !! a =
  match List.find (fun d => String.eqb (action d) a) l with
  | Some d => Some (accel_of s d)
  | None => m !! a
  end.
Proof.
  revert m. induction l as [|d l IH]; intros m Hn; [done|].
  rewrite fmap_cons in Hn. apply NoDup_cons in Hn as [Hd Hn].
  cbn [foldl List.find]. rewrite IH by done. destruct (String.eqb_spec (action d) a) as [E|E].
  - destruct (List.find _ l) as [d'|] eqn:Hf; [|by rewrite E, lookup_insert_eq].
    apply find_action in Hf as [Hf Hin]. destruct Hd. rewrite E, <- Hf. by apply list_elem_of_fmap_2.
  - by rewrite lookup_insert_ne.
Qed.

(** Exactly the actions of the table have a merged accelerator: the user's or the
    default. *)
Lemma merged_lookup s a : merged_shortcuts s !! a = accel_of s <$> find_def a.
Proof.
  unfold merged_shortcuts, find_def. rewrite fold_insert_lookup by apply defaults_NoDup.
  by destruct (List.find _ _).
Qed.

Lemma merged_is_accel s a :
  is_Some (find_def a) -> merged_shortcuts s !! a = shortcut_accel s a.
Proof.
  intros [d Hd]. rewrite merged_lookup, Hd. unfold shortcut_accel, accel_of, default_shortcut. rewrite Hd.
  apply find_action in Hd as [<- _]. simpl. by destruct (shortcuts s !! action d).
Qed.

(** ** Distinct accelerators *)

Definition distinct_accels (s : Settings) : Prop :=
  forall a b x, merged_shortcuts s !! a = Some x -> merged_shortcuts s !! b = Some x -> a = b.

Section dialog.
Context (ord : gmap string string -> list (string * string)).
Context (Hord : forall m, Permutation (ord m) (map_to_list m)).
Context (accelerator_name : Key -> Z -> string).

Lemma ord_elem m a x : (a, x) ∈ ord m <-> m !! a = Some x.
Proof. rewrite (Hord m). apply elem_of_map_to_list. Qed.

Lemma conflict_None s a x :
  check_shortcut_conflict ord s a x = None <->
  forall b, merged_shortcuts s !! b = Some x -> b = a.
Proof.
  unfold check_shortcut_conflict. rewrite fmap_None. split.
  - intros H b Hb. apply ord_elem, list_elem_of_In in Hb.
    apply (List.find_none _ _ H) in Hb. simpl in Hb. rewrite String.eqb_refl, andb_true_r in Hb.
    apply negb_false_iff, String.eqb_eq in Hb. done.
  - intros H. destruct (List.find _ _) as [[b y]|] eqn:F; [|done].
    apply List.find_some in F as [Hin Hb]. simpl in Hb.
    apply andb_prop in Hb as [Hb%negb_true_iff%String.eqb_neq ->%String.eqb_eq].
    destruct Hb. by apply H, ord_elem, list_elem_of_In.
Qed.

Lemma conflict_Some s a x b :
  check_shortcut_conflict ord s a x = Some b -> b <> a /\ merged_shortcuts s !! b = Some x.
Proof.
  unfold check_shortcut_conflict. intros ([b' y] & F & ->)%fmap_Some.
  apply List.find_some in F as [Hin Hb]. simpl in *.
  apply andb_prop in Hb as [Hb%negb_true_iff%String.eqb_neq ->%String.eqb_eq].
  split; [done|]. by apply ord_elem, list_elem_of_In.
Qed.

Lemma merged_after_insert s a x b :
  merged_shortcuts (set_shortcuts (<[a := x]> (shortcuts s)) s) !! b =
  if decide (b = a) then (fun _ => x) <$> find_def a else merged_shortcuts s !! b.
Proof.
  rewrite !merged_lookup. unfold accel_of, set_shortcuts. cbn [shortcuts].
  destruct (find_def b) as [d|] eqn:Hd; case_decide as E; subst; rewrite ?Hd; try done; simpl;
    apply find_action in Hd as [-> _].
  - by rewrite lookup_insert_eq.
  - by rewrite lookup_insert_ne.
Qed.

Lemma insert_distinct s a x :
  distinct_accels s -> check_shortcut_conflict ord s a x = None ->
  distinct_accels (set_shortcuts (<[a := x]> (shortcuts s)) s).
Proof.
  intros Hs Hc b c y. rewrite conflict_None in Hc. rewrite !merged_after_insert.
  repeat case_decide; subst; try done.
  - intros (d & _ & ->)%fmap_Some Hy. symmetry. by apply Hc.
  - intros Hy (d & _ & ->)%fmap_Some. by apply Hc.
  - apply Hs.
Qed.

(** The settings the dialog can reach: a captured key, a reset, and every callback
    that is not about shortcuts. *)
Inductive dialog_reaches (s0 : Settings) : Settings -> Prop :=
  | dialog_start : dialog_reaches s0 s0
  | dialog_key s a k st e :
      dialog_reaches s0 s -> key_pressed ord accelerator_name s a k st = Captured e ->
      dialog_reaches s0 (apply_ui s e)
  | dialog_other s e :
      dialog_reaches s0 s -> (forall a x, e <> ShortcutSet a x) -> dialog_reaches s0 (apply_ui s e).

Lemma key_captured s a k st e :
  key_pressed ord accelerator_name s a k st = Captured e ->
  check_shortcut_conflict ord s a (accelerator_name k st) = None /\ e = ShortcutSet a (accelerator_name k st).
Proof.
  unfold key_pressed. destruct (bare_modifier k); [done|].
  destruct (check_shortcut_conflict _ _ _ _); destruct k; naive_solver.
Qed.

(** The branches of a key press, for a key that is no bare modifier nor Escape. *)
Lemma key_pressed_eq s a k st :
  bare_modifier k = false -> k <> Escape ->
  key_pressed ord accelerator_name s a k st =
  match check_shortcut_conflict ord s a (accelerator_name k st) with
  | Some other => Conflict ("Conflicts with: " +:+ conflict_label other)
  | None => Captured (ShortcutSet a (accelerator_name k st))
  end.
Proof. intros Hm He. unfold key_pressed. rewrite Hm. by destruct k. Qed.

Lemma key_refused_iff s a k st :
  bare_modifier k = false -> k <> Escape ->
  (exists t, key_pressed ord accelerator_name s a k st = Conflict t) <->
  (exists b, b <> a /\ merged_shortcuts s !! b = Some (accelerator_name k st)).
Proof.
  intros Hm He. rewrite key_pressed_eq by done.
  destruct (check_shortcut_conflict ord s a (accelerator_name k st)) as [b|] eqn:Hc.
  - apply conflict_Some in Hc. split; eauto.
  - rewrite conflict_None in Hc. split; [by intros [t ?]|]. intros (b & Hb & E). by destruct Hb; apply Hc.
Qed.

Lemma merged_ext s s' : shortcuts s = shortcuts s' -> merged_shortcuts s = merged_shortcuts s'.
Proof. intros E. apply map_eq. intros a. rewrite !merged_lookup. unfold accel_of. by rewrite E. Qed.

Lemma other_shortcuts e s :
  (forall a x, e <> ShortcutSet a x) -> shortcuts (apply_ui s e) = shortcuts s \/ shortcuts (apply_ui s e) = ∅.
Proof.
  intros H. unfold apply_ui. destruct e as [| | | |i| |[]| | | | |[]|[] []|]; simpl; auto.
  - destruct i as [i|]; simpl; [|by left]. destruct (FREQUENCIES !! i); by left.
  - by destruct (H act accel).
Qed.

Lemma default_distinct s : shortcuts s = ∅ -> distinct_accels s.
Proof.
  intros E a b x. rewrite !merged_lookup. unfold accel_of. rewrite E.
  intros (d & Hd & ->)%fmap_Some (d' & Hd' & Hx)%fmap_Some.
  rewrite !lookup_empty in Hx. simpl in Hx.
  apply find_action in Hd as [<- Hd], Hd' as [<- Hd']. f_equal.
  assert (NoDup (default_accel <$> SHORTCUT_DEFAULTS)) as Hn by (apply (bool_decide_unpack _); vm_compute; exact I).
  apply list_elem_of_lookup in Hd as [i Hi], Hd' as [j Hj].
  assert (i = j) as ->; [|congruence].
  eapply NoDup_lookup; [exact Hn|rewrite list_lookup_fmap, Hi; done|rewrite list_lookup_fmap, Hj; simpl; by f_equal].
Qed.

(** As long as the accelerators are distinct at the start, as the defaults are, no
    sequence of captured keys, resets and other changes gives two actions the same
    accelerator, in whatever order the map of shortcuts is listed and whatever names
    GTK gives to the keys; a captured key becomes the accelerator of its action and of
    no other, and a key is refused exactly when another action has it. *)
Theorem captured_shortcuts_distinct s0 s :
  distinct_accels s0 -> dialog_reaches s0 s ->
  distinct_accels s /\
  (forall a k st e, key_pressed ord accelerator_name s a k st = Captured e ->
    shortcut_accel (apply_ui s e) a = Some (accelerator_name k st) /\
    forall b, b <> a -> shortcut_accel (apply_ui s e) b = shortcut_accel s b) /\
  forall a k st, bare_modifier k = false -> k <> Escape ->
    (exists t, key_pressed ord accelerator_name s a k st = Conflict t) <->
    (exists b, b <> a /\ merged_shortcuts s !! b = Some (accelerator_name k st)).
Proof.
  intros H0 Hr. split_and!.
  - induction Hr as [|s a k st e Hr IH Hk|s e Hr IH He]; [done| |].
    + apply key_captured in Hk as [Hc ->]. by apply insert_distinct.
    + destruct (other_shortcuts e s He) as [E|E]; [|by apply default_distinct].
      intros x y z. rewrite !(merged_ext _ _ E). apply IH.
  - intros a k st e Hk. apply key_captured in Hk as [_ ->]. unfold shortcut_accel, apply_ui. simpl.
    split; [by rewrite lookup_insert_eq|]. intros b Hb. by rewrite lookup_insert_ne.
  - intros a k st Hm He. apply key_refused_iff; [done|done].
Qed.
End dialog.

(** ** Persistence *)

Section persistence.
Context (from_str : string -> option Settings) (to_string_pretty : Settings -> string + string).
Context (vars : Vars).
Local Abbreviation path := (settings_file_path vars).
Local Abbreviation load := (load from_str vars).
Local Abbreviation update := (update to_string_pretty vars).
Local Abbreviation ui_step := (ui_step to_string_pretty vars).
Local Abbreviation run_settings := (run_settings from_str to_string_pretty vars).

Lemma cell_set t u s m : cell t (set_cell u s m) = if decide (t = u) then s else cell t m.
Proof.
  unfold cell, set_cell. cbn [cells]. case_decide as E; subst.
  - by rewrite lookup_insert_eq.
  - by rewrite lookup_insert_ne.
Qed.

Lemma save_cells io s m r m' : save to_string_pretty vars io s m = (r, m') -> cells m' = cells m.
Proof. unfold save. intros H. repeat case_in H; by simplify_eq. Qed.

Lemma save_files io s m r m' p :
  save to_string_pretty vars io s m = (r, m') -> p <> path -> files m' !! p = files m !! p.
Proof. unfold save. intros H Hp. repeat case_in H; simplify_eq; try done; by apply lookup_insert_ne. Qed.

(** In memory an update takes effect whatever the file system answers. *)
Lemma update_cell t u f io m : cell t (update u f io m) = if decide (t = u) then f (cell u m) else cell t m.
Proof.
  unfold update. destruct (save _ _ _ _ _) as [r m'] eqn:E. apply save_cells in E.
  transitivity (cell t (set_cell u (f (cell u m)) m)); [|apply cell_set].
  unfold cell in *. by destruct r; cbn [cells]; rewrite E.
Qed.

Lemma update_files u f io m p : p <> path -> files (update u f io m) !! p = files m !! p.
Proof.
  intros Hp. unfold update. destruct (save _ _ _ _ _) as [r m'] eqn:E.
  pose proof (save_files _ _ _ _ _ _ E Hp) as H. by destruct r.
Qed.

Lemma update_saves u f m s json :
  f (cell u m) = s -> to_string_pretty s = inl json ->
  files (update u f SaveOk m) !! path = Some json /\ warnings (update u f SaveOk m) = warnings m.
Proof. intros <- E. unfold update, save. rewrite E. cbn. split; [apply lookup_insert_eq|done]. Qed.

Lemma ui_step_cell m e : cell MAIN (ui_step m e) = apply_ui (cell MAIN m) e.1.
Proof.
  unfold ui_step, apply_ui. destruct (ui_change e.1) as [f|]; [|done].
  by rewrite update_cell, decide_True.
Qed.

Lemma run_cell evs m : cell MAIN (foldl ui_step m evs) = foldl apply_ui (cell MAIN m) evs.*1.
Proof.
  revert m. induction evs as [|e evs IH]; intros m; [done|].
  rewrite fmap_cons. cbn [foldl]. by rewrite IH, ui_step_cell.
Qed.

Lemma run_files evs m p : p <> path -> files (foldl ui_step m evs) !! p = files m !! p.
Proof.
  intros Hp. revert m. induction evs as [|e evs IH]; intros m; [done|]. cbn [foldl]. rewrite IH.
  unfold ui_step. destruct (ui_change e.1); [by apply update_files|done].
Qed.

Context (codec : forall s, exists json, to_string_pretty s = inl json /\ from_str json = Some s).

Lemma run_idle evs m : Forall (fun x => ui_change x.1 = None) evs -> foldl ui_step m evs = m.
Proof.
  intros H. revert m. induction H as [|x l Hx _ IH]; intros m; [done|]. cbn [foldl].
  unfold ui_step at 2. by rewrite Hx, IH.
Qed.

(** C27: What the callbacks of the main thread change is what the next start loads.  The
    main thread's settings are always the loaded ones with the changes made in order,
    also when saves fail; after a change whose save succeeds the file gives them back,
    whatever failed before, and no other file was touched; and a further start whose
    callbacks change nothing has the same settings and leaves every file as it is.
    (The check for updates runs in a thread of its own, which loads and writes the file
    for itself: it is not one of these callbacks.) *)
Theorem settings_persist evs e f m :
  ui_change e = Some f ->
  let m' := run_settings (evs ++ [(e, SaveOk)]) m in
  get MAIN m' = f (foldl apply_ui (load m) evs.*1) /\
  load m' = get MAIN m' /\
  (forall p, p <> path -> files m' !! p = files m !! p) /\
  (forall idle, Forall (fun x => ui_change x.1 = None) idle ->
     get MAIN (run_settings idle m') = get MAIN m' /\ files (run_settings idle m') = files m').
Proof.
  intros Hf. unfold run_settings. rewrite foldl_app. cbn [foldl]. unfold get.
  set (m1 := foldl ui_step _ evs).
  assert (cell MAIN m1 = foldl apply_ui (load m) evs.*1) as H1.
  { unfold m1, init. by rewrite run_cell, cell_set, decide_True. }
  set (m2 := ui_step m1 (e, SaveOk)).
  assert (cell MAIN m2 = f (cell MAIN m1)) as H2.
  { unfold m2. rewrite ui_step_cell. unfold apply_ui. simpl. by rewrite Hf. }
  assert (load m2 = cell MAIN m2) as H3.
  { destruct (codec (f (cell MAIN m1))) as (json & E & D).
    assert (m2 = update MAIN f SaveOk m1) as Em2 by (unfold m2, ui_step; simpl; by rewrite Hf).
    rewrite H2. unfold Settings.load.
    destruct (update_saves MAIN f m1 _ json eq_refl E) as [Hj _]. rewrite Em2, Hj, D. done. }
  split_and!; [congruence|done| |].
  2: { intros idle Hidle. rewrite run_idle by done. unfold init. by rewrite cell_set, decide_True. }
  - intros p Hp. unfold m2, m1. rewrite <- (run_files (evs ++ [(e, SaveOk)]) (init from_str vars MAIN m)) by done.
    by rewrite foldl_app.
Qed.
End persistence.

(** ** A codec, for examples *)

#[export] Instance GeneralSettings_countable : Countable GeneralSettings.
Proof.
  refine (inj_countable'
    (fun g => (default_shell g, working_directory g, session_restore g, notifications_enabled g,
               hide_integrate_prompt g, (desktop_integrated g, check_for_updates g,
               update_check_frequency g, skip_update_version g, last_update_check g)))
    (fun '(a, b, c, d, e, (f, g, h, i, j)) => mkGeneral a b c d e f g h i j) _). by intros [].
Defined.
#[export] Instance SidebarSettings_countable : Countable SidebarSettings.
Proof. refine (inj_countable' (fun s => (width s, visible s)) (fun '(a, b) => mkSidebar a b) _). by intros []. Defined.
#[export] Instance Settings_countable : Countable Settings.
Proof.
  refine (inj_countable' (fun s => (version s, general s, sidebar s, shortcuts s))
    (fun '(a, b, c, d) => mkSettings a b c d) _). by intros [].
Defined.

Definition number_json (s : Settings) : string + string := inl (show_uint (Z.pos (encode s))).
Definition number_settings (json : string) : option Settings :=
  match parse_digits 0 json with Some (Z.pos p) => decode p | _ => None end.

Lemma number_codec s : exists json, number_json s = inl json /\ number_settings json = Some s.
Proof.
  eexists. split; [done|]. unfold number_settings. rewrite show_uint_digits. simpl. apply decode_encode.
Qed.

Lemma captured_shortcuts_distinct_witness :
  let name := fun (_ : Key) (_ : Z) => "<Control>g" in
  let s := apply_ui settings_default (ShortcutSet "browser-find" "<Control>g") in
  dialog_reaches map_to_list name settings_default s /\ distinct_accels s.
Proof.
  assert (dialog_reaches map_to_list (fun _ _ => "<Control>g") settings_default
    (apply_ui settings_default (ShortcutSet "browser-find" "<Control>g"))) as Hr.
  { eapply (dialog_key _ _ _ _ "browser-find" (OtherKey 103) 4); [apply dialog_start|]. vm_compute. reflexivity. }
  split; [exact Hr|].
  apply (captured_shortcuts_distinct map_to_list (fun m => Permutation_refl _) (fun _ _ => "<Control>g")
           settings_default); [|exact Hr]. by apply default_distinct.
Defined.

Lemma settings_persist_witness :
  let vars := mkVars None (Some "/home/me") in
  let m' := run_settings number_settings number_json vars
    [(ShellChanged "/bin/zsh", WriteFails "disk full" (Some "")); (WidthChanged 240, SaveOk)]
    (mkMachine ∅ ∅ []) in
  load number_settings vars m' = set_width (Some 240%Z) (set_default_shell (Some "/bin/zsh") settings_default).
Proof.
  pose proof (settings_persist number_settings number_json (mkVars None (Some "/home/me")) number_codec
    [(ShellChanged "/bin/zsh", WriteFails "disk full" (Some ""))] (WidthChanged 240) (set_width (Some 240%Z))
    (mkMachine ∅ ∅ []) eq_refl) as (H1 & H2 & _ & _).
  etransitivity; [exact H2|]. etransitivity; [exact H1|]. reflexivity.
Defined.

(** ** What the conflict test does not see *)

Section unseen.
Context (ord : gmap string string -> list (string * string)).
Context (Hord : forall m, Permutation (ord m) (map_to_list m)).

Lemma no_conflict_with_defaults a x :
  x ∉ default_accel <$> SHORTCUT_DEFAULTS -> check_shortcut_conflict ord settings_default a x = None.
Proof.
  intros Hx. apply conflict_None; [done|]. intros b Hb. rewrite merged_lookup in Hb.
  apply fmap_Some in Hb as (d & Hd & ->). destruct Hx. apply find_action in Hd as [_ Hd].
  by apply (list_elem_of_fmap_2 default_accel).
Qed.

(** Accelerators are compared as texts.  GTK names the control key [<Control>], the
    table of defaults writes [<Ctrl>]: Control and t is accepted for another action
    although a new tab has it.  Nor are the keys of the workspaces seen. *)
Theorem conflict_misses_spelling :
  check_shortcut_conflict ord settings_default "toggle-sidebar" "<Control>t" = None /\
  shortcut_accel settings_default "new-pane-tab" = Some "<Ctrl>t" /\
  check_shortcut_conflict ord settings_default "toggle-sidebar" "<Ctrl>1" = None /\
  ("<Ctrl>1", "win.select-workspace-1") ∈ build_shortcut_controller ord settings_default.
Proof.
  split_and!; [apply no_conflict_with_defaults|reflexivity|apply no_conflict_with_defaults|].
  1, 2: apply (bool_decide_unpack _); vm_compute; exact I.
  unfold build_shortcut_controller. apply elem_of_app. right. apply list_elem_of_fmap.
  exists 1. split; [reflexivity|]. apply elem_of_seq. lia.
Qed.
End unseen.
