(* ===== verification/Update.v ===== *)
(** * Updates and desktop integration (app/src/update.rs, install.rs, install_prompt.rs)

    The order of versions, when a check is due, the check itself, which fetches on a
    thread of its own and is answered on the main thread, and the decisions of the
    integration prompt.  Programs that are run, the clock and the JSON library are
    parameters. *)

From Stdlib Require Import Ascii.
From S2P Require Import Prelude RustStr Settings.
Open Scope string_scope.
Open Scope list_scope.

(** ** Versions *)

Record Version := mkVersion { major : Z; minor : Z; patch : Z }.

Definition Version_parse (s : string) : option Version :=
  let s := default s (strip_prefix "v" s) in
  match split_char "." s with
  | [a; b; c] => x ← parse_u32 a; y ← parse_u32 b; z ← parse_u32 c; Some (mkVersion x y z)
  | _ => None
  end.

Definition Version_eq (a b : Version) : bool :=
  Z.eqb (major a) (major b) && Z.eqb (minor a) (minor b) && Z.eqb (patch a) (patch b).

(** The order of the tuples. *)
Definition partial_cmp (a b : Version) : comparison :=
  match Z.compare (major a) (major b) with
  | Eq => match Z.compare (minor a) (minor b) with
          | Eq => Z.compare (patch a) (patch b)
          | c => c
          end
  | c => c
  end.
Definition version_gt (a b : Version) : bool :=
  match partial_cmp a b with Gt => true | _ => false end.

(** ** When a check is due *)

Definition DAILY_SECS : Z := 24 * 60 * 60.
Definition WEEKLY_SECS : Z := 7 * DAILY_SECS.

Definition i64_min : Z := -9223372036854775808.
Definition i64_max : Z := 9223372036854775807.
(** [x as i64] of a [u64]. *)
Definition as_i64 (x : Z) : Z := if bool_decide (x <= i64_max)%Z then x else (x - 18446744073709551616)%Z.
Definition i64_saturating_sub (a b : Z) : Z := Z.max i64_min (Z.min i64_max (a - b)).

(** Seconds since the epoch; [None] is a clock that is set before it. *)
Definition unix_now (clock : option Z) : Z := match clock with Some d => as_i64 d | None => 0 end.

Definition check_interval (s : Settings) : option Z :=
  let f := eff_update_check_frequency s in
  if String.eqb f "startup" then None
  else if String.eqb f "weekly" then Some WEEKLY_SECS
  else Some DAILY_SECS.

Definition check_due (s : Settings) (clock : option Z) : bool :=
  if negb (eff_check_for_updates s) then false
  else match last_update_check (general s) with
  | None => true
  | Some last =>
      match check_interval s with
      | None => true
      | Some interval => Z.leb interval (i64_saturating_sub (unix_now clock) last)
      end
  end.

(** ** The fetch *)

Inductive CmdOut := NotRun | ExitFailure | Success (stdout : string).
Record LatestRelease := mkRelease { tag_name : string; html_url : string }.

Definition wget_or_fail (wget : CmdOut) : string + string :=
  match wget with Success out => inl out | _ => inr "download failed" end.

Definition download (curl wget : CmdOut) : string + string :=
  match curl with
  | Success out => inl out
  | ExitFailure => wget_or_fail wget
  | NotRun => wget_or_fail wget
  end.

Section fetch.
(** What is read of the body: the error of the parser, or the two string fields. *)
Context (release_json : string -> (option string * option string) + string).
Context (to_string_pretty : Settings -> string + string) (vars : Vars).

Definition parse_release (body : string) : LatestRelease + string :=
  match release_json body with
  | inr e => inr ("parse: " +:+ e)
  | inl (None, _) => inr "missing tag_name"
  | inl (Some _, None) => inr "missing html_url"
  | inl (Some tag, Some url) => inl (mkRelease tag url)
  end.

(** [t] is the thread it runs on. *)
Definition fetch_latest (t : Z) (curl wget : CmdOut) (clock : option Z) (io : SaveIo) (m : Machine) :
    (option LatestRelease + string) * Machine :=
  match download curl wget with
  | inr e => (inr e, m)
  | inl out =>
      match parse_release (from_utf8_lossy out) with
      | inr e => (inr e, m)
      | inl r =>
          match Version_parse (tag_name r) with
          | None => (inl None, m)
          | Some _ =>
              (inl (Some r),
               update to_string_pretty vars t (set_last_update_check (Some (unix_now clock))) io m)
          end
      end
  end.

(** ** The check *)

(** The thread that fetches: its result stays in the channel until it is received. *)
Inductive Fetcher := NotSpawned | Fetching | Sent (r : option LatestRelease + string) | Gone.

Record Check := mkCheck { fetcher : Fetcher; polling : bool; prompts : list LatestRelease; state : Machine }.

Definition maybe_check (appimage : bool) (clock : option Z) (spawns : bool) (m : Machine) : Check :=
  if negb appimage then mkCheck NotSpawned false [] m
  else if negb (check_due (get MAIN m) clock) then mkCheck NotSpawned false [] m
  else mkCheck (if spawns then Fetching else Gone) true [] m.

Context (current : string).

(** What the main thread does with a result. *)
Definition on_result (s : Settings) (r : option LatestRelease + string) : option LatestRelease :=
  match r with
  | inl (Some latest) =>
      match Version_parse (tag_name latest), Version_parse current with
      | Some latest_ver, Some current_ver =>
          if version_gt latest_ver current_ver then
            if bool_decide (skip_update_version (general s) = Some (tag_name latest)) then None
            else Some latest
          else None
      | _, _ => None
      end
  | inl None | inr _ => None
  end.

(** The callback of the timer: whether it stays, and the state. *)
Definition poll (c : Check) : Check :=
  if polling c then
    match fetcher c with
    | Sent r =>
        mkCheck Gone false
          (match on_result (get MAIN (state c)) r with Some x => prompts c ++ [x] | None => prompts c end) (state c)
    | Fetching => c
    | NotSpawned | Gone => mkCheck (fetcher c) false (prompts c) (state c)
    end
  else c.

Inductive CheckEvent :=
  | Fetched (curl wget : CmdOut) (clock : option Z) (io : SaveIo)
  | Poll
  | Ui (e : UiEvent) (io : SaveIo).

(** The thread of the check; each thread has its own cell of the settings. *)
Definition UPDATE_THREAD : Z := 1.

Definition check_step (c : Check) (e : CheckEvent) : Check :=
  match e with
  | Fetched curl wget clock io =>
      match fetcher c with
      | Fetching =>
          let '(r, m) := fetch_latest UPDATE_THREAD curl wget clock io (state c) in
          mkCheck (Sent r) (polling c) (prompts c) m
      | _ => c
      end
  | Poll => poll c
  | Ui e io => mkCheck (fetcher c) (polling c) (prompts c) (ui_step to_string_pretty vars (state c) (e, io))
  end.
End fetch.

(** ** Desktop integration *)

Record Desktop := mkDesktop {
  APPIMAGE : option string;
  XDG_DATA_HOME : option string;
  home : option string;
  is_file : string -> bool;
  read_text : string -> option string;
}.

Definition is_appimage (d : Desktop) : bool :=
  match APPIMAGE d with Some p => is_file d p | None => false end.

(** [xdg_dir] at XDG_DATA_HOME and .local/share. *)
Definition xdg_data_dir (d : Desktop) : option string :=
  match XDG_DATA_HOME d with
  | Some (String c r) => Some (String c r)
  | _ => h ← home d; Some (path_join h ".local/share")
  end.

Definition desktop_file (dir : string) : string :=
  path_join (path_join dir "applications") "limux.desktop".

Definition is_integrated (d : Desktop) : bool :=
  match xdg_data_dir d with Some dir => is_file d (desktop_file dir) | None => false end.

Fixpoint version_line (l : list string) : option string :=
  match l with
  | [] => None
  | line :: l =>
      match strip_prefix "X-AppImage-Version=" (trim line) with
      | Some rest => match trim rest with "" => version_line l | v => Some v end
      | None => version_line l
      end
  end.

Definition installed_version (d : Desktop) : option string :=
  dir ← xdg_data_dir d; content ← read_text d (desktop_file dir); version_line (str_lines content).

Section version.
Context (current : string).

Definition is_version_stale (d : Desktop) : bool :=
  if negb (is_appimage d) then false
  else match installed_version d with Some v => negb (String.eqb v current) | None => false end.

(** What [maybe_show] shows: nothing, the first-run prompt or the upgrade prompt. *)
Definition maybe_show (d : Desktop) (s : Settings) : option bool :=
  if negb (is_appimage d) then None
  else
    let installed := installed_version d in
    let is_upgrade := match installed with Some v => negb (String.eqb v current) | None => false end in
    if match installed with Some v => String.eqb v current | None => false end then None
    else if eff_hide_integrate_prompt s then None
    else Some is_upgrade.
End version.

(** [perform_integration]: the status of the child, or why it did not run. *)
Definition perform_integration (d : Desktop) (run : string -> (option Z * string) + string) : unit + string :=
  match APPIMAGE d with
  | None => inr "not running from an AppImage"
  | Some p =>
      match run p with
      | inr e => inr ("failed to spawn " +:+ p +:+ ": " +:+ e)
      | inl (Some 0%Z, _) => inl tt
      | inl (_, status) => inr ("integration exited with " +:+ status)
      end
  end.
