(* ===== verification/UpdateProps.v ===== *)
(** * What the update check does

    The order of versions is that of the numbers, a check prompts exactly for a newer
    version that was not skipped, and what the check does to the settings file. *)

From Stdlib Require Import Ascii.
From S2P Require Import Prelude RustStr Settings SettingsProps Update.
Open Scope string_scope.
Open Scope list_scope.

(** ** Versions *)

Definition newer (a b : Version) : Prop :=
  (major b < major a \/
   major a = major b /\ (minor b < minor a \/ minor a = minor b /\ patch b < patch a))%Z.

Lemma version_gt_newer a b : version_gt a b = true <-> newer a b.
Proof.
  unfold version_gt, partial_cmp, newer.
  destruct (Z.compare_spec (major a) (major b)), (Z.compare_spec (minor a) (minor b)),
    (Z.compare_spec (patch a) (patch b)); split; try done; lia.
Qed.

Lemma Version_eq_spec a b : Version_eq a b = true <-> a = b.
Proof.
  unfold Version_eq. rewrite !andb_true_iff, !Z.eqb_eq. destruct a, b; simpl. naive_solver.
Qed.

(** The derived operators are consistent: equality is the comparison's, and exactly
    one of the three relations holds. *)
Theorem version_order a b :
  (partial_cmp a b = Eq <-> Version_eq a b = true) /\
  partial_cmp b a = CompOpp (partial_cmp a b) /\
  (forall c, newer a b -> newer b c -> newer a c) /\ ~ newer a a.
Proof.
  split_and!.
  - rewrite Version_eq_spec. unfold partial_cmp. destruct a, b; simpl.
    repeat (case_match; simpl); rewrite ?Z.compare_eq_iff in *; split; intros; simplify_eq; try done;
      rewrite ?Z.compare_refl in *; done.
  - unfold partial_cmp. rewrite (Z.compare_antisym (major a)), (Z.compare_antisym (minor a)), (Z.compare_antisym (patch a)).
    by destruct (major a ?= major b)%Z, (minor a ?= minor b)%Z, (patch a ?= patch b)%Z.
  - unfold newer. intros c. lia.
  - unfold newer. lia.
Qed.

Definition show_version (v : Version) : string :=
  show_uint (major v) +:+ "." +:+ show_uint (minor v) +:+ "." +:+ show_uint (patch v).

Lemma strip_v_show x s : strip_prefix "v" (show_uint x +:+ s) = None.
Proof.
  pose proof (show_uint_no_byte "v" x eq_refl) as H. pose proof (show_uint_nonempty x).
  destruct (show_uint x) as [|c r]; [done|]. apply orb_false_iff in H as [H _].
  cbn [String.append strip_prefix]. destruct (byte_eqb "v" c) eqn:E; [|done].
  apply byte_eqb_eq in E as <-. by rewrite byte_eqb_refl in H.
Qed.

(** A version of three [u32] is read back, with and without the letter in front. *)
Theorem version_roundtrip v :
  is_u32 (major v) -> is_u32 (minor v) -> is_u32 (patch v) ->
  Version_parse (show_version v) = Some v /\ Version_parse ("v" +:+ show_version v) = Some v.
Proof.
  intros H1 H2 H3.
  assert (split_char "." (show_version v) = [show_uint (major v); show_uint (minor v); show_uint (patch v)]) as E.
  { change (show_version v) with
      (show_uint (major v) +:+ String "." (show_uint (minor v) +:+ String "." (show_uint (patch v)))).
    rewrite !split_char_app by by apply show_uint_no_byte. rewrite split_char_none by by apply show_uint_no_byte. done. }
  assert (forall x, is_u32 x -> parse_u32 (show_uint x) = Some x) as P by (intros; by apply parse_show_uint).
  split; unfold Version_parse.
  - assert (strip_prefix "v" (show_version v) = None) as -> by apply strip_v_show. simpl default. rewrite E, !P by done. by destruct v.
  - rewrite strip_prefix_app. simpl default. rewrite E, !P by done. by destruct v.
Qed.

(** ** The prompt *)

Section check.
Context (release_json : string -> (option string * option string) + string).
Context (to_string_pretty : Settings -> string + string) (vars : Vars) (current : string).
Local Abbreviation check_step := (check_step release_json to_string_pretty vars current).
Local Abbreviation fetch_latest := (fetch_latest release_json to_string_pretty vars).

Lemma on_result_spec s res r :
  on_result current s res = Some r <->
  res = inl (Some r) /\ exists v w, Version_parse (tag_name r) = Some v /\ Version_parse current = Some w /\
    newer v w /\ skip_update_version (general s) <> Some (tag_name r).
Proof.
  unfold on_result. destruct res as [[x|]|]; [|split; [done|by intros [? _]]..].
  destruct (Version_parse (tag_name x)) as [v|] eqn:Ev; [|split; [done|naive_solver]].
  destruct (Version_parse current) as [w|] eqn:Ew; [|split; [done|naive_solver]].
  pose proof (version_gt_newer v w) as Hn. destruct (version_gt v w); [|split; [done|naive_solver]].
  case_bool_decide as Hs; split; naive_solver.
Qed.

(** The callbacks of the settings among the events. *)
Fixpoint ui_events (evs : list CheckEvent) : list UiEvent :=
  match evs with [] => [] | Ui e _ :: evs => e :: ui_events evs | _ :: evs => ui_events evs end.
Definition is_fetch (e : CheckEvent) : bool := match e with Fetched _ _ _ _ => true | _ => false end.
Definition is_poll (e : CheckEvent) : bool := match e with Poll => true | _ => false end.

Lemma ui_events_app l1 l2 : ui_events (l1 ++ l2) = ui_events l1 ++ ui_events l2.
Proof. induction l1 as [|[] l1 IH]; simpl; [done|done|done|by rewrite IH]. Qed.

(** The main thread's settings hear nothing of the thread of the check. *)
Lemma fetch_main t curl wget clock io m :
  t <> MAIN -> get MAIN (fetch_latest t curl wget clock io m).2 = get MAIN m.
Proof.
  intros Ht. unfold fetch_latest. destruct (download _ _); [|done].
  destruct (parse_release _ _) as [r|]; [|done]. destruct (Version_parse _); [|done].
  unfold get. simpl. by rewrite update_cell, decide_False by done.
Qed.

Lemma check_step_main c e :
  get MAIN (state (check_step c e)) = foldl apply_ui (get MAIN (state c)) (ui_events [e]).
Proof.
  destruct e as [curl wget clock io| |e io]; simpl.
  - pose proof (fetch_main UPDATE_THREAD curl wget clock io (state c) ltac:(done)) as H.
    destruct (fetcher c); try done. by destruct (fetch_latest _ _ _ _ _ _).
  - unfold poll. destruct (polling c); [|done]. by destruct (fetcher c).
  - apply ui_step_cell.
Qed.

Lemma run_main evs c :
  get MAIN (state (foldl check_step c evs)) = foldl apply_ui (get MAIN (state c)) (ui_events evs).
Proof.
  revert c. induction evs as [|e evs IH]; intros c; [done|]. cbn [foldl]. rewrite IH, check_step_main.
  change (e :: evs) with ([e] ++ evs). by rewrite ui_events_app, foldl_app.
Qed.

(** While nothing is fetched the callback keeps waiting; once fetched, the result
    waits for the callback; once answered, nothing more is shown. *)
Lemma run_waiting evs c :
  existsb is_fetch evs = false -> fetcher c = Fetching -> polling c = true ->
  let c' := foldl check_step c evs in fetcher c' = Fetching /\ polling c' = true /\ prompts c' = prompts c.
Proof.
  revert c. induction evs as [|e evs IH]; intros c He Hf Hp; [done|]. apply orb_false_iff in He as [He Hes].
  cbn [foldl]. destruct e as [| |e io]; [done| |].
  - simpl. unfold poll. rewrite Hf, Hp. by apply IH.
  - by destruct (IH (check_step c (Ui e io))) as (? & ? & ->).
Qed.

Lemma run_sent evs c r :
  existsb is_poll evs = false -> fetcher c = Sent r ->
  let c' := foldl check_step c evs in
  fetcher c' = Sent r /\ polling c' = polling c /\ prompts c' = prompts c.
Proof.
  revert c. induction evs as [|e evs IH]; intros c He Hf; [done|]. apply orb_false_iff in He as [He Hes].
  cbn [foldl]. destruct e as [curl wget clock io| |e io]; [|done|].
  - simpl. rewrite Hf. by apply IH.
  - by destruct (IH (check_step c (Ui e io))) as (? & -> & ->).
Qed.

Lemma run_done evs c :
  fetcher c = Gone -> polling c = false ->
  let c' := foldl check_step c evs in polling c' = false /\ prompts c' = prompts c.
Proof.
  revert c. induction evs as [|e evs IH]; intros c Hf Hp; [done|]. cbn [foldl].
  destruct e as [curl wget clock io| |e io].
  - simpl. rewrite Hf. by apply IH.
  - simpl. unfold poll. rewrite Hp. by apply IH.
  - by destruct (IH (check_step c (Ui e io))) as [-> ->].
Qed.

Lemma fetch_result t curl wget clock io m r :
  (fetch_latest t curl wget clock io m).1 = inl (Some r) <->
  exists out v, download curl wget = inl out /\
    parse_release release_json (from_utf8_lossy out) = inl r /\ Version_parse (tag_name r) = Some v.
Proof.
  unfold fetch_latest. destruct (download _ _) as [out|e]; [|by split; [|intros (? & ? & ? & _)]].
  destruct (parse_release _ (from_utf8_lossy out)) as [x|e] eqn:Ep.
  - destruct (Version_parse (tag_name x)) as [v|] eqn:Ev; split.
    + intros [= ->]. by exists out, v.
    + intros (out' & v' & [= <-] & E & _). simpl. congruence.
    + done.
    + intros (out' & v' & [= <-] & E & Ev'). congruence.
  - split; [done|]. intros (out' & v & [= <-] & E & _). congruence.
Qed.

Definition checks m clock (evs : list CheckEvent) : Check :=
  foldl check_step (maybe_check true clock true m) evs.

(** A check that is due ends with the callback removed once the fetch has finished
    and the callback has run.  It has then shown a prompt for the release that was
    downloaded exactly when its version and the running one can be read, it is the
    newer in the order of the numbers, and the user, as the settings stand when the
    callback runs, did not skip it; and no other prompt.  Other callbacks may change
    the settings at any time in between. *)
Theorem update_prompted m clock0 pre curl wget clock io mid post :
  check_due (get MAIN m) clock0 = true ->
  existsb is_fetch pre = false -> existsb is_poll mid = false ->
  let c := checks m clock0 (pre ++ Fetched curl wget clock io :: mid ++ Poll :: post) in
  let s := foldl apply_ui (get MAIN m) (ui_events (pre ++ mid)) in
  polling c = false /\ length (prompts c) <= 1 /\
  forall r, r ∈ prompts c <->
    exists out v w, download curl wget = inl out /\ parse_release release_json (from_utf8_lossy out) = inl r /\
      Version_parse (tag_name r) = Some v /\ Version_parse current = Some w /\ newer v w /\
      skip_update_version (general s) <> Some (tag_name r).
Proof.
  intros Hdue Hpre Hmid c s.
  assert (maybe_check true clock0 true m = mkCheck Fetching true [] m) as Em by (unfold maybe_check; by rewrite Hdue).
  assert (exists c1, c1 = foldl check_step (mkCheck Fetching true [] m) pre /\
    fetcher c1 = Fetching /\ polling c1 = true /\ prompts c1 = [] /\
    get MAIN (state c1) = foldl apply_ui (get MAIN m) (ui_events pre)) as (c1 & E1 & F1 & P1 & R1 & G1).
  { eexists. split; [done|]. rewrite run_main.
    by destruct (run_waiting pre (mkCheck Fetching true [] m) Hpre eq_refl eq_refl) as (-> & -> & ->). }
  pose proof (fetch_main UPDATE_THREAD curl wget clock io (state c1) ltac:(done)) as Gf.
  destruct (fetch_latest UPDATE_THREAD curl wget clock io (state c1)) as [res m1] eqn:Ef. simpl in Gf.
  set (c2 := mkCheck (Sent res) true [] m1).
  assert (check_step c1 (Fetched curl wget clock io) = c2) as E2 by (simpl; by rewrite F1, Ef, P1, R1).
  destruct (run_sent mid c2 res Hmid eq_refl) as (F3 & P3 & R3). simpl in P3, R3.
  pose proof (run_main mid c2) as G3. simpl in G3. set (c3 := foldl check_step c2 mid) in *.
  assert (poll current c3 = mkCheck Gone false (option_list (on_result current s res)) (state c3)) as E4.
  { unfold poll. rewrite P3, F3, R3, G3, Gf, G1. unfold s. rewrite ui_events_app, foldl_app. by destruct (on_result _ _ _). }
  destruct (run_done post (poll current c3)) as [P5 R5]; [by rewrite E4..|].
  assert (c = foldl check_step (poll current c3) post) as ->.
  { unfold c, checks. rewrite Em, foldl_app. cbn [foldl]. by rewrite <- E1, E2, foldl_app. }
  rewrite R5, P5, E4. split_and!; [done|simpl; by destruct (on_result _ _ _); simpl; lia|].
  intros r. cbn [prompts]. transitivity (on_result current s res = Some r).
  { destruct (on_result _ _ _); simpl; [rewrite list_elem_of_singleton|rewrite elem_of_nil]; naive_solver. }
  rewrite on_result_spec. assert (res = (fetch_latest UPDATE_THREAD curl wget clock io (state c1)).1) as -> by by rewrite Ef.
  rewrite fetch_result. naive_solver.
Qed.
End check.

Lemma update_prompted_witness :
  let json := fun _ : string => (inl (Some "v1.10.0", Some "https://example.org") : (option string * option string) + string) in
  check_due settings_default None = true /\
  mkRelease "v1.10.0" "https://example.org" ∈
    prompts (checks json number_json (mkVars None None) "1.9.3" (mkMachine ∅ ∅ []) None
      ([Poll] ++ Fetched NotRun (Success "{}") (Some 5%Z) SaveOk :: [Ui (SkipVersion "v1.9.9") SaveOk] ++ Poll :: [])).
Proof.
  intros json. split; [reflexivity|].
  apply (update_prompted json number_json (mkVars None None) "1.9.3" (mkMachine ∅ ∅ []) None [Poll]
    NotRun (Success "{}") (Some 5%Z) SaveOk [Ui (SkipVersion "v1.9.9") SaveOk] []); [reflexivity..|].
  exists "{}", (mkVersion 1 10 0), (mkVersion 1 9 3). split_and!; try reflexivity.
  - right. split; [reflexivity|]. left. reflexivity.
  - vm_compute. discriminate.
Defined.

(** ** The settings file after a check *)

Section file.
Context (release_json : string -> (option string * option string) + string).
Context (from_str : string -> option Settings) (to_string_pretty : Settings -> string + string) (vars : Vars).
Context (codec : forall s, exists json, to_string_pretty s = inl json /\ from_str json = Some s).
Local Abbreviation fetch_latest := (fetch_latest release_json to_string_pretty vars).

Lemma load_after_update t f m :
  load from_str vars (update to_string_pretty vars t f SaveOk m) = f (cell t m).
Proof.
  destruct (codec (f (cell t m))) as (json & E & D).
  destruct (update_saves to_string_pretty vars t f m _ json eq_refl E) as [Hj _].
  unfold load. by rewrite Hj, D.
Qed.

Lemma fetched_state t curl wget clock io m r :
  (fetch_latest t curl wget clock io m).1 = inl (Some r) ->
  (fetch_latest t curl wget clock io m).2 =
  update to_string_pretty vars t (set_last_update_check (Some (unix_now clock))) io m.
Proof.
  unfold fetch_latest. destruct (download _ _); [|done]. destruct (parse_release _ _); [|done].
  by destruct (Version_parse _).
Qed.

(** The settings are kept per thread and the check runs on a new one, whose own are
    the defaults: recording the check writes these to the file.  Whatever the user had
    set is gone at the next start, unless the main thread saves again, and then the
    check is not on record. *)
Theorem update_check_resets_settings curl wget clock m r :
  cells m !! UPDATE_THREAD = None ->
  (fetch_latest UPDATE_THREAD curl wget clock SaveOk m).1 = inl (Some r) ->
  let m' := (fetch_latest UPDATE_THREAD curl wget clock SaveOk m).2 in
  load from_str vars m' = set_last_update_check (Some (unix_now clock)) settings_default /\
  get MAIN m' = get MAIN m /\
  forall e f, ui_change e = Some f ->
    load from_str vars (ui_step to_string_pretty vars m' (e, SaveOk)) = f (get MAIN m).
Proof.
  intros Hc Hr m'. assert (get MAIN m' = get MAIN m) as Hm by by apply fetch_main.
  split_and!; [|done|].
  - unfold m'. rewrite (fetched_state _ _ _ _ _ _ _ Hr), load_after_update. unfold cell. by rewrite Hc.
  - intros e f He. unfold ui_step. simpl. by rewrite He, load_after_update, <- Hm.
Qed.

(** As the file stands after a check, the next start waits for a day. *)
Theorem recorded_check_waits curl wget clock clock' m r :
  cells m !! UPDATE_THREAD = None ->
  (fetch_latest UPDATE_THREAD curl wget clock SaveOk m).1 = inl (Some r) ->
  (0 <= unix_now clock)%Z ->
  (unix_now clock - DAILY_SECS < unix_now clock' < unix_now clock + DAILY_SECS)%Z ->
  check_due (load from_str vars (fetch_latest UPDATE_THREAD curl wget clock SaveOk m).2) clock' = false.
Proof.
  intros Hc Hr H0 H1. destruct (update_check_resets_settings _ _ _ _ _ Hc Hr) as [-> _].
  unfold check_due, check_interval. simpl. apply Z.leb_gt. unfold i64_saturating_sub, i64_min, i64_max, DAILY_SECS in *. lia.
Qed.
End file.

(** ** The integration prompt *)

Section prompt.
Context (current : string).

(** The prompt of an upgrade is shown when the installed file is stale, that of a
    first run when there is none with a version; neither from anything but an
    AppImage, nor once the user has said not to ask again. *)
Theorem integration_prompt d s :
  (maybe_show current d s = Some true <-> is_version_stale current d = true /\ eff_hide_integrate_prompt s = false) /\
  (maybe_show current d s = Some false <->
     is_appimage d = true /\ installed_version d = None /\ eff_hide_integrate_prompt s = false) /\
  maybe_show current d (apply_ui s (PromptCancel true)) = None.
Proof.
  unfold maybe_show, is_version_stale. destruct (is_appimage d); simpl; [|naive_solver].
  destruct (installed_version d) as [v|].
  - destruct (String.eqb v current); simpl; [naive_solver|].
    destruct (eff_hide_integrate_prompt s); naive_solver.
  - destruct (eff_hide_integrate_prompt s); naive_solver.
Qed.
End prompt.
