(* ===== verification/GhosttyConfig.v ===== *)
(** * The terminal's configuration file (app/src/settings_ui.rs)

    The dialog changes single keys of the terminal's own configuration file and reads
    some of them back.  The theorems: what is written is what is read, and the other
    keys keep their values. *)

From Stdlib Require Import Ascii.
From S2P Require Import Prelude RustStr Settings.
Open Scope string_scope.
Open Scope list_scope.

(** ** One key of the file *)

Definition comment_or_empty (trimmed : string) : bool := starts_with "#" trimmed || String.eqb trimmed "".

(** The line sets the key: the key, and after it an equals sign or nothing. *)
Definition sets_key (key line : string) : bool :=
  let trimmed := trim line in
  if comment_or_empty trimmed then false
  else match strip_prefix key trimmed with
       | Some rest => starts_with "=" (trim_start rest) || String.eqb (trim_start rest) ""
       | None => false
       end.

Definition key_line (key value : string) : string :=
  match value with "" => key +:+ " =" | _ => key +:+ " = " +:+ value end.

Definition set_line (key new_line : string) (lines : list string) : list string :=
  match position (sets_key key) lines with
  | Some i => <[i := new_line]> lines
  | None => lines ++ [new_line]
  end.

Fixpoint ends_with_nl (s : string) : bool :=
  match s with "" => false | String c "" => byte_eqb c nl | String _ r => ends_with_nl r end.

Definition set_config_text (key value content : string) : string :=
  let out := join (String nl "") (set_line key (key_line key value) (str_lines content)) in
  if ends_with_nl out then out else out +:+ String nl "".

(** The value a line gives to the key. *)
Definition line_value (key line : string) : option string :=
  let line := trim line in
  if comment_or_empty line then None
  else
    rest ← strip_prefix key line;
    value ← strip_prefix "=" (trim_start rest);
    match trim value with "" => None | v => Some v end.

Fixpoint first_value (key : string) (lines : list string) : option string :=
  match lines with
  | [] => None
  | line :: lines =>
      match line_value key line with Some v => Some v | None => first_value key lines end
  end.

(** ** On the file *)

(** How a write ends: one that fails may leave another text. *)
Inductive WriteIo := Written | NotWritten (kept : option string).

Section file.
Context (vars : Vars).

Definition parse_ghostty_config_key (key : string) (m : Machine) : option string :=
  content ← files m !! ghostty_config_path vars; first_value key (str_lines content).

(** A file that cannot be read is taken to be empty; the answers to making the
    directory and to writing are ignored. *)
Definition put_config (io : WriteIo) (text : string) (m : Machine) : Machine :=
  match io with
  | Written => mkMachine (<[ghostty_config_path vars := text]> (files m)) (cells m) (warnings m)
  | NotWritten (Some kept) => mkMachine (<[ghostty_config_path vars := kept]> (files m)) (cells m) (warnings m)
  | NotWritten None => m
  end.

Definition set_ghostty_config_key (io : WriteIo) (key value : string) (m : Machine) : Machine :=
  put_config io (set_config_text key value (default "" (files m !! ghostty_config_path vars))) m.

(** [apply_config_change]; the terminal library then reloads its configuration. *)
Definition apply_config_change (io : WriteIo) (key value : string) (m : Machine) : Machine :=
  set_ghostty_config_key io key (trim value) m.

(** The entry of the scrollback limit: only numbers are written. *)
Definition scrollback_changed (io : WriteIo) (text : string) (m : Machine) : Machine :=
  match parse_uint u64_max (trim text) with
  | Some _ => apply_config_change io "scrollback-limit" (trim text) m
  | None => m
  end.

Definition ghostty_template : string :=
  "# Ghostty configuration" +:+ String nl ("# See: https://ghostty.org/docs/config" +:+ String nl (String nl "")).

(** The edit button makes the file if there is none. *)
Definition edit_config (io : WriteIo) (exists_ : bool) (m : Machine) : Machine :=
  if exists_ then m else put_config io ghostty_template m.
End file.

(** [color_to_hex]: upper-case hexadecimal digits. *)
Definition HEX_digit (n : N) : ascii :=
  if bool_decide (n < 10)%N then ascii_of_N (48 + n) else ascii_of_N (55 + n).
Definition HEX_byte (b : N) : string := String (HEX_digit (b / 16)) (String (HEX_digit (b mod 16)) "").
Definition color_to_hex (r g b : N) : string := "#" +:+ HEX_byte r +:+ HEX_byte g +:+ HEX_byte b.
