(* ===== verification/GhosttyProps.v ===== *)
(** * What is written to the terminal's configuration is what is read

    Reading a key looks at the trimmed lines that are not empty; writing one replaces
    a line that no other key could have been read from. *)

From Stdlib Require Import Ascii.
From S2P Require Import Prelude RustStr Settings GhosttyConfig.
Open Scope string_scope.
Open Scope list_scope.
#[local] Arguments byte_eqb : simpl never.
#[local] Arguments strip_prefix : simpl never.
#[local] Arguments trim_start : simpl never.
#[local] Arguments trim : simpl never.

(** Names of configuration keys: visible characters without an equals sign, not
    starting with a number sign. *)
Definition config_key (key : string) : bool :=
  word key && negb (has_byte "=" key) && negb (starts_with "#" key) && negb (String.eqb key "").

Record key_ok (key : string) : Prop := mkKeyOk {
  ko_word : word key = true;
  ko_eq : has_byte "=" key = false;
  ko_comment : starts_with "#" key = false;
  ko_nonempty : key <> "";
}.
Lemma config_key_spec key : config_key key = true <-> key_ok key.
Proof.
  unfold config_key. rewrite !andb_true_iff, !negb_true_iff, String.eqb_neq.
  split; [intros [[[]]]; done|by intros []].
Qed.

(** ** Lines *)

Lemma split_char_nonempty c s : split_char c s <> [].
Proof.
  destruct s as [|a s]; simpl; [done|]. destruct (byte_eqb a c); [done|]. by destruct (split_char c s).
Qed.

Lemma split_char_app_sep c a b : split_char c (a +:+ String c b) = split_char c a ++ split_char c b.
Proof.
  induction a as [|x a IH]; cbn [String.append split_char]; [by rewrite byte_eqb_refl|].
  rewrite IH. destruct (byte_eqb x c); [done|]. pose proof (split_char_nonempty c a). by destruct (split_char c a).
Qed.

Lemma split_char_pieces c s : Forall (fun x => has_byte c x = false) (split_char c s).
Proof.
  induction s as [|a s IH]; simpl; [by repeat constructor|].
  destruct (byte_eqb a c) eqn:E; [by constructor|].
  destruct (split_char c s) as [|x xs]; [by repeat constructor; simpl; rewrite E|].
  inversion IH. constructor; [simpl; by rewrite E|done].
Qed.

Definition significant (lines : list string) : list string := filter (fun x => x <> "") (trim <$> lines).

Lemma significant_app l1 l2 : significant (l1 ++ l2) = significant l1 ++ significant l2.
Proof. unfold significant. by rewrite fmap_app, filter_app. Qed.

Lemma trim_strip_cr s : trim (strip_cr s) = trim s.
Proof.
  assert (forall s, strip_cr s = s \/ exists p, s = p +:+ String (ascii_of_nat 13) "" /\ strip_cr s = p) as H.
  { clear s. induction s as [|c s IH]; [by left|]. destruct s as [|d s].
    - simpl. destruct (byte_eqb c _) eqn:E; [right|by left]. apply byte_eqb_eq in E as ->. by exists "".
    - change (strip_cr (String c (String d s))) with (String c (strip_cr (String d s))).
      destruct IH as [->|(p & -> & ->)]; [by left|right]. by exists (String c p). }
  destruct (H s) as [->|(p & -> & ->)]; [done|]. symmetry. by apply trim_snoc.
Qed.

Lemma significant_lines s : significant (str_lines s) = significant (split_char nl s).
Proof.
  unfold str_lines. induction (split_char nl s) as [|x l IH]; [done|].
  destruct l as [|y l]; [by destruct x|]. change (lines_of (x :: y :: l)) with (strip_cr x :: lines_of (y :: l)).
  unfold significant in *. rewrite !fmap_cons, trim_strip_cr, !filter_cons in *. by rewrite IH.
Qed.

Lemma strip_cr_no_nl s : has_byte nl s = false -> has_byte nl (strip_cr s) = false.
Proof.
  induction s as [|c s IH]; [done|]. intros [H1 H2]%orb_false_iff. destruct s as [|d s].
  - cbn [strip_cr]. destruct (byte_eqb c (ascii_of_nat 13)); [done|]. cbn [has_byte]. by rewrite H1.
  - change (strip_cr (String c (String d s))) with (String c (strip_cr (String d s))).
    cbn [has_byte] in *. by rewrite H1, IH.
Qed.

Lemma str_lines_no_nl s : Forall (fun x => has_byte nl x = false) (str_lines s).
Proof.
  unfold str_lines. induction (split_char_pieces nl s) as [|x l Hx Hl IH]; [by constructor|].
  destruct l as [|y l]; [destruct x; [constructor|by constructor; [|constructor]]|].
  change (lines_of (x :: y :: l)) with (strip_cr x :: lines_of (y :: l)).
  constructor; [by apply strip_cr_no_nl|done].
Qed.

(** Joining lines and reading them again keeps the significant ones. *)
Lemma significant_join l :
  l <> [] -> Forall (fun x => has_byte nl x = false) l ->
  let out := join (String nl "") l in
  significant (str_lines (if ends_with_nl out then out else out +:+ String nl "")) = significant l.
Proof.
  intros Hne Hl out. rewrite significant_lines. unfold out.
  destruct (ends_with_nl _); [by rewrite split_char_join|].
  rewrite split_char_app_sep, split_char_join by done. rewrite significant_app. by rewrite app_nil_r.
Qed.

(** ** Keys *)

(** The value that a trimmed line gives to a key. *)
Definition trimmed_value (key line : string) : option string :=
  if comment_or_empty line then None
  else
    rest ← strip_prefix key line;
    value ← strip_prefix "=" (trim_start rest);
    match trim value with "" => None | v => Some v end.

Lemma first_value_significant key l l' :
  significant l = significant l' -> first_value key l = first_value key l'.
Proof.
  assert (forall l, first_value key l =
    foldr (fun x r => match trimmed_value key x with Some v => Some v | None => r end) None (significant l)) as H.
  { clear. induction l as [|x l IH]; [done|]. unfold significant in *. rewrite fmap_cons. cbn [first_value].
    change (line_value key x) with (trimmed_value key (trim x)).
    destruct (decide (trim x = "")) as [E|E].
    - rewrite filter_cons_False by naive_solver. rewrite E. done.
    - rewrite filter_cons_True by done. cbn [foldr]. by rewrite IH. }
  intros E. by rewrite !H, E.
Qed.

Lemma set_line_cons key new x l :
  set_line key new (x :: l) = if sets_key key x then new :: l else x :: set_line key new l.
Proof. unfold set_line. cbn [position]. destruct (sets_key key x); [done|]. by destruct (position _ l). Qed.

Lemma set_line_no_nl key new l :
  has_byte nl new = false -> Forall (fun x => has_byte nl x = false) l ->
  Forall (fun x => has_byte nl x = false) (set_line key new l).
Proof.
  intros Hn. induction 1 as [|x l Hx Hl IH]; [by repeat constructor|].
  rewrite set_line_cons. destruct (sets_key key x); by constructor.
Qed.

Lemma set_line_nonempty key new l : set_line key new l <> [].
Proof. destruct l as [|x l]; [done|]. rewrite set_line_cons. by destruct (sets_key key x). Qed.

(** A line from which a key is read sets that key. *)
Lemma value_sets key x v : line_value key x = Some v -> sets_key key x = true.
Proof.
  unfold line_value, sets_key. destruct (comment_or_empty (trim x)); [done|].
  destruct (strip_prefix key (trim x)) as [rest|]; simpl; [|done].
  unfold starts_with. by destruct (strip_prefix "=" (trim_start rest)).
Qed.

Lemma word_not_ws c s : word (String c s) = true -> trim_start (String c s) = String c s.
Proof. intros [H _]%word_cons. by apply trim_start_graphic. Qed.

(** Two keys that a line could both set are equal. *)
Lemma prefix_key a b x y :
  key_ok a -> key_ok b -> a +:+ x = b +:+ y ->
  (exists z, trim_start x = String "=" z) \/ trim_start x = "" -> (exists z, trim_start y = String "=" z) -> a = b.
Proof.
  intros [Wa Ea _ Na] [Wb Eb _ Nb] H Hx Hy. apply app_split in H as [(t & -> & Ht)|(t & Hne & -> & Ht)].
  - destruct t as [|c t]; [by rewrite str_app_nil_r|exfalso].
    rewrite word_app in Wb. apply andb_prop in Wb as [_ Wb]. rewrite has_byte_app in Eb.
    apply orb_false_iff in Eb as [_ Eb]. subst x. apply word_cons in Wb as [Wb _].
    cbn [String.append] in Hx. rewrite trim_start_graphic in Hx by done. destruct Hx as [[z Hz]|]; [|done].
    injection Hz as -> _. cbn [has_byte] in Eb. by rewrite byte_eqb_refl in Eb.
  - destruct t as [|c t]; [done|exfalso].
    rewrite word_app in Wa. apply andb_prop in Wa as [_ Wa]. rewrite has_byte_app in Ea.
    apply orb_false_iff in Ea as [_ Ea]. destruct Hy as [z Hz]. subst y.
    apply word_cons in Wa as [Wa _]. cbn [String.append] in Hz. rewrite trim_start_graphic in Hz by done.
    injection Hz as -> _. cbn [has_byte] in Ea. by rewrite byte_eqb_refl in Ea.
Qed.

Lemma starts_with_eq c s : starts_with (String c "") s = true <-> exists z, s = String c z.
Proof.
  unfold starts_with. rewrite bool_decide_eq_true. split.
  - intros [z Hz]. apply strip_prefix_Some in Hz. by exists z.
  - intros [z ->]. exists z. apply (strip_prefix_app (String c "")).
Qed.

Lemma sets_only_key key k x :
  key_ok key -> key_ok k -> k <> key -> sets_key key x = true -> line_value k x = None.
Proof.
  intros Hkey Hk Hne Hs. destruct (line_value k x) as [v|] eqn:Hv; [|done]. exfalso. apply Hne.
  unfold sets_key, line_value in *. destruct (comment_or_empty (trim x)); [done|].
  destruct (strip_prefix key (trim x)) as [r1|] eqn:E1; [|done].
  destruct (strip_prefix k (trim x)) as [r2|] eqn:E2; [|done]. simpl in Hv.
  apply strip_prefix_Some in E1, E2. symmetry. apply (prefix_key key k r1 r2); [done|done|congruence| |].
  - apply orb_prop in Hs as [H%starts_with_eq|H%String.eqb_eq]; auto.
  - apply starts_with_eq. unfold starts_with. by destruct (strip_prefix "=" (trim_start r2)).
Qed.

Lemma key_line_trimmed key v : key_ok key -> trim v = v -> v <> "" -> trim (key_line key v) = key_line key v.
Proof.
  intros [W _ _ N] Hv Hne. unfold key_line. destruct v as [|c v]; [done|].
  change (key +:+ " = " +:+ String c v) with (key +:+ String " " (String "=" (String " " (String c v)))).
  unfold trim. destruct key as [|a key]; [done|].
  assert (trim_start (String a key +:+ String " " (String "=" (String " " (String c v)))) =
    String a key +:+ String " " (String "=" (String " " (String c v)))) as ->.
  { apply word_cons in W as [W _]. by apply trim_start_graphic. }
  assert (forall q, q +:+ String " " (String "=" (String " " (String c v))) = (q +:+ String " " "=") +:+ String " " (String c v)) as E.
  { intros q. by rewrite str_app_assoc. }
  rewrite E. apply trim_end_word; [|done]. rewrite <- Hv. apply trim_trimmed.
Qed.

(** What the new line gives to its key, and to the others. *)
Lemma key_line_value key v : key_ok key -> trim v = v -> v <> "" -> line_value key (key_line key v) = Some v.
Proof.
  intros Hkey Hv Hne. unfold line_value. rewrite key_line_trimmed by done.
  destruct v as [|c v]; [done|]. unfold key_line, comment_or_empty. destruct Hkey as [W Eq C N].
  destruct key as [|a key]; [done|].
  assert (starts_with "#" (String a key +:+ " = " +:+ String c v) = false) as ->.
  { apply not_true_iff_false. intros [z Hz]%starts_with_eq. injection Hz as -> _.
    apply not_true_iff_false in C. destruct C. apply starts_with_eq. eauto. }
  rewrite strip_prefix_app. cbn [orb String.eqb mbind option_bind].
  assert (trim_start (" = " +:+ String c v) = String "=" (String " " (String c v))) as -> by done.
  change (strip_prefix "=" (String "=" ?x)) with (Some x). cbn [mbind option_bind].
  assert (trim (String " " (String c v)) = String c v) as ->; [|done].
  rewrite <- Hv at 2. unfold trim. by rewrite (trim_start_eq (String " " _)).
Qed.

Lemma key_line_sets key v : key_ok key -> trim v = v -> v <> "" -> sets_key key (key_line key v) = true.
Proof. intros. by eapply value_sets, key_line_value. Qed.

Lemma set_line_value key v l :
  key_ok key -> trim v = v -> v <> "" -> first_value key (set_line key (key_line key v) l) = Some v.
Proof.
  intros Hkey Hv Hne. induction l as [|x l IH]; [by simpl; rewrite key_line_value|].
  rewrite set_line_cons. destruct (sets_key key x) eqn:E; cbn [first_value]; [by rewrite key_line_value|].
  destruct (line_value key x) eqn:Ev; [|done]. apply value_sets in Ev. congruence.
Qed.

Lemma set_line_other key k v l :
  key_ok key -> key_ok k -> k <> key -> trim v = v -> v <> "" ->
  first_value k (set_line key (key_line key v) l) = first_value k l.
Proof.
  intros Hkey Hk Hne Hv Hv'.
  assert (line_value k (key_line key v) = None) as Hnew.
  { by apply (sets_only_key key); [..|apply key_line_sets]. }
  induction l as [|x l IH]; [by simpl; rewrite Hnew|].
  rewrite set_line_cons. destruct (sets_key key x) eqn:E; cbn [first_value].
  - by rewrite Hnew, (sets_only_key key k x).
  - by rewrite IH.
Qed.

Lemma key_line_no_nl key v : key_ok key -> has_byte nl v = false -> has_byte nl (key_line key v) = false.
Proof.
  intros [W _ _ _] Hv. assert (has_byte nl key = false) as Hk.
  { clear -W. induction key as [|c key IH]; [done|]. apply word_cons in W as [Hc W].
    cbn [has_byte]. rewrite IH by done. rewrite orb_false_r. destruct (byte_eqb c nl) eqn:E; [|done].
    apply byte_eqb_eq in E as ->. unfold graphic in Hc. vm_compute in Hc. by destruct Hc as [[] _]. }
  unfold key_line. destruct v; rewrite !has_byte_app, Hk; [done|]. simpl in *. by rewrite Hv.
Qed.

Definition old_lines vars m : list string := str_lines (default "" (files m !! ghostty_config_path vars)).

(** What is read after a change, of any key. *)
Lemma parse_written vars key text m k :
  key_ok key -> has_byte nl (trim text) = false ->
  parse_ghostty_config_key vars k (apply_config_change vars Written key text m) =
  first_value k (set_line key (key_line key (trim text)) (old_lines vars m)).
Proof.
  intros Hkey Hnl. unfold apply_config_change, set_ghostty_config_key, put_config, parse_ghostty_config_key.
  cbn [files]. rewrite lookup_insert_eq. cbn [mbind option_bind]. apply first_value_significant.
  apply significant_join; [apply set_line_nonempty|].
  apply set_line_no_nl; [by apply key_line_no_nl|apply str_lines_no_nl].
Qed.



(** The scrollback entry writes numbers only, and what it writes is read back. *)
Theorem scrollback_written vars text m :
  let m' := scrollback_changed vars Written text m in
  match parse_uint u64_max (trim text) with
  | Some _ => parse_ghostty_config_key vars "scrollback-limit" m' = Some (trim text)
  | None => m' = m
  end.
Proof.
  unfold scrollback_changed. destruct (parse_uint u64_max (trim text)) as [n|] eqn:E; [|done].
  pose proof (config_key_spec "scrollback-limit") as [Hkey _]. specialize (Hkey eq_refl).
  assert (trim text <> "") as Hne by (intros H; by rewrite H in E).
  assert (has_byte nl (trim text) = false) as Hnl.
  { unfold parse_uint in E. destruct (trim text) as [|c r]; [done|]. destruct (byte_eqb c "+") eqn:Ec.
    - destruct r as [|d r]; [done|]. apply bind_Some in E as (z & E & _).
      apply (parse_digits_no_byte nl) in E; [|done]. apply byte_eqb_eq in Ec as ->. cbn [has_byte] in *. by rewrite E.
    - apply bind_Some in E as (z & E & _). by apply (parse_digits_no_byte nl) in E. }
  rewrite parse_written, trim_idem by (done || by rewrite trim_idem).
  apply set_line_value; [done|apply trim_idem|done].
Qed.

(** A configuration that is there but is not valid UTF-8 cannot be read as text; it is
    taken to be empty, and one change replaces all of it. *)
Theorem unreadable_config_replaced vars key text m :
  files m !! ghostty_config_path vars = None ->
  files (apply_config_change vars Written key text m) !! ghostty_config_path vars =
  Some (let line := key_line key (trim text) in if ends_with_nl line then line else line +:+ String nl "").
Proof.
  intros H. unfold apply_config_change, set_ghostty_config_key, put_config, set_config_text. rewrite H.
  cbn [files]. by rewrite lookup_insert_eq.
Qed.
