(* ===== verification/Relay.v ===== *)
(** * The relay (app/src/remote/relay.rs)

    Commands of a remote host reach the control socket through the relay: a challenge
    with a nonce, an answer with a keyed hash, one command, which is translated if it is
    a JSON request, and one answer.  The hash, the JSON library, the clock and the
    socket are parameters; [RelayProps] has the theorems.  At the end the listener, which
    gives every connection a task of its own: however the tasks interleave, each connection
    is served as [handle_connection] alone would serve it. *)

From Stdlib Require Import Ascii.
From S2P Require Import Prelude RustStr.
Open Scope string_scope.
Open Scope list_scope.

Record RelayServer := mkRelay {
  port : Z;
  relay_id : string;
  relay_token : string;             (** bytes *)
  local_socket_path : string;
}.

(** ** Hexadecimal *)

(** A slice may end at the start of [s]: [s] is empty or starts a character. *)
Definition char_boundary (s : string) : bool := match s with "" => true | String c _ => negb (cont c) end.

Definition push_parsed (n : option Z) (s : string) : string :=
  match n with Some n => String (ch (Z.to_N n)) s | None => s end.

(** Two bytes at a time; a pair that is no number is left out.  [None]: the slice
    [hex\[i..i + 2\]] is out of range or splits a character. *)
Fixpoint hex_decode (hex : string) : option string :=
  match hex with
  | "" => Some ""
  | String _ "" => None
  | String a (String b r) =>
      if char_boundary r then
        bytes ← hex_decode r; Some (push_parsed (parse_hex 255 (String a (String b ""))) bytes)
      else None
  end.

Definition hex_encode : string -> string := hex_of_bytes.

Fixpoint diff_bits (diff : N) (a b : string) : N :=
  match a, b with
  | String x a, String y b => diff_bits (N.lor diff (N.lxor (N_of_ascii x) (N_of_ascii y))) a b
  | _, _ => diff
  end.

Definition constant_time_eq (a b : string) : bool :=
  if negb (Nat.eqb (String.length a) (String.length b)) then false
  else N.eqb (diff_bits 0 a b) 0.

(** [RelayServer::start], after the port is bound; [None] is the panic of [hex_decode]. *)
Definition start (bound : Z) (id token_hex path : string) : option RelayServer :=
  token ← hex_decode token_hex; Some (mkRelay bound id token path).

(** ** Requests and answers *)

Definition v2_table : list (string * string) := [
  ("workspace.list", "list_workspaces"); ("workspace.create", "new_workspace");
  ("workspace.close", "close_workspace"); ("workspace.select", "select_workspace");
  ("workspace.current", "current_workspace"); ("surface.list", "list_surfaces");
  ("surface.focus", "focus_pane"); ("surface.send_text", "send");
  ("surface.close", "close_surface"); ("surface.split", "split_right");
  ("pane.list", "list_panes"); ("pane.create", "split_right");
  ("notification.create", "log"); ("system.capabilities", "version")
].
Definition v2_method_to_v1 (method : string) : option string :=
  snd <$> List.find (fun p => String.eqb p.1 method) v2_table.

Section relay.
Context {Value : Type}.

(** What is read of a request: its id, its method if that is a string, and the string
    and integer members of its parameters. *)
Record V2Request := mkV2 {
  v2_id : option Value;
  v2_method : option string;
  p_str : string -> option string;
  p_u64 : string -> option Z;
}.

(** The object of an answer. *)
Record V2Response := mkResp {
  resp_id : Value;
  resp_ok : bool;
  resp_result : option string;
  resp_error : option string;
}.

Definition push_arg (cmd : string) (arg : option string) : string :=
  match arg with Some x => cmd +:+ " " +:+ x | None => cmd end.

Definition or_else {A} (a b : option A) : option A := match a with Some x => Some x | None => b end.

(** The positional arguments, and the direction that replaces all. *)
Definition translate_params (v1_cmd : string) (q : V2Request) : string :=
  let cmd := push_arg v1_cmd (or_else (p_str q "workspace") (show_uint <$> p_u64 q "workspace")) in
  let cmd := push_arg cmd (or_else (p_str q "surface") (p_str q "surface_id")) in
  let cmd := push_arg cmd (p_str q "text") in
  let cmd := push_arg cmd (p_str q "name") in
  match p_str q "direction" with
  | Some d => if String.eqb d "down" || String.eqb d "bottom" then "split_down" else cmd
  | None => cmd
  end.

Context (parse_v2 : string -> option V2Request).

Definition translate_v2_to_v1 (cmd : string) : string * option Value :=
  if negb (starts_with "{" cmd) then (cmd, None)
  else match parse_v2 cmd with
  | None => (cmd, None)
  | Some q =>
      match v2_method q with
      | None => (cmd, None)
      | Some method =>
          match v2_method_to_v1 method with
          | None => (cmd, v2_id q)
          | Some v1_cmd => (translate_params v1_cmd q, v2_id q)
          end
      end
  end.

Definition v1_plain (id : Value) (trimmed : string) : V2Response :=
  match strip_prefix "OK" trimmed with
  | Some data =>
      match trim data with
      | "" => mkResp id true None None
      | data => mkResp id true (Some data) None
      end
  | None =>
      match strip_prefix "ERROR:" trimmed with
      | Some err => mkResp id false None (Some (trim err))
      | None => mkResp id true (Some trimmed) None
      end
  end.

(** The object that [translate_v1_response_to_v2] prints. *)
Definition v1_response (id : Value) (response : string) : V2Response :=
  let trimmed := trim response in
  if starts_with "OK+" trimmed then
    match split_once nl trimmed with
    | Some (_, data) => mkResp id true (Some data) None
    | None => v1_plain id trimmed
    end
  else v1_plain id trimmed.

Context (to_text : V2Response -> string).
Definition translate_v1_response_to_v2 (id : Value) (response : string) : string :=
  to_text (v1_response id response) +:+ String nl "".

(** ** A connection *)

(** How a read of a line ends: with a text (empty at end of file), an error or the
    time-out. *)
Inductive LineRead := GotLine (s : string) | LineError (e : string) | LineTimeout.
Inductive WriteRes := Wrote | WriteError (e : string) | WriteTimeout.
#[global] Instance WriteRes_eq_dec : EqDecision WriteRes.
Proof. solve_decision. Defined.

(** What the client and the local socket do in one connection. *)
Record Peer := mkPeer {
  challenge_written : WriteRes;
  auth_line : LineRead;
  ok_written : WriteRes;
  command_line : LineRead;
  socket_answer : string -> string + string;
  reply_written : WriteRes;
}.

Inductive RelayAct := Send (text : string) | Sleep (millis : Z) | ToSocket (bytes : string).

(** The answer to the challenge: the error of the parser, or the two string members. *)
Context (parse_auth : string -> (option string * option string) + string).
Context (hmac : string -> string -> string + string).

Definition dquote : string := String (ch 34) "".
Definition quoted (s : string) : string := dquote +:+ s +:+ dquote.

Definition challenge (id nonce : string) : string :=
  "{" +:+ quoted "protocol" +:+ ":" +:+ quoted "limux-relay-auth" +:+ "," +:+ quoted "version" +:+ ":1,"
  +:+ quoted "relay_id" +:+ ":" +:+ quoted id +:+ "," +:+ quoted "nonce" +:+ ":" +:+ quoted nonce +:+ "}"
  +:+ String nl "".

Definition auth_message (id nonce : string) : string :=
  "relay_id=" +:+ id +:+ String nl ("nonce=" +:+ nonce +:+ String nl "version=1").

Definition ok_json (b : bool) : string :=
  "{" +:+ quoted "ok" +:+ (if b then ":true}" else ":false}") +:+ String nl "".

(** [write_all] under a time-out, with [??]. *)
Definition written_or (w : WriteRes) (k : list RelayAct * (unit + string)) : list RelayAct * (unit + string) :=
  match w with
  | Wrote => k
  | WriteError e => ([], inr e)
  | WriteTimeout => ([], inr "deadline has elapsed")
  end.
Definition acts (l : list RelayAct) (k : list RelayAct * (unit + string)) : list RelayAct * (unit + string) :=
  (l ++ k.1, k.2).
Definition refuse (e : string) : list RelayAct * (unit + string) := ([Sleep 50; Send (ok_json false)], inr e).

(** Steps 7 to 11, once the client is authenticated. *)
Definition run_one_command (p : Peer) : list RelayAct * (unit + string) :=
  match command_line p with
  | LineTimeout => ([], inl tt)
  | LineError e => ([], inr e)
  | GotLine cmd_line =>
      match trim cmd_line with
      | "" => ([], inl tt)
      | cmd =>
          let '(socket_cmd, rpc_id) := translate_v2_to_v1 cmd in
          acts [ToSocket (socket_cmd +:+ String nl "")]
            match socket_answer p (socket_cmd +:+ String nl "") with
            | inr e => ([], inr e)
            | inl response =>
                let final_response :=
                  match rpc_id with Some id => translate_v1_response_to_v2 id response | None => response end in
                acts [Send final_response] (written_or (reply_written p) ([], inl tt))
            end
      end
  end.

Definition handle_connection (s : RelayServer) (nonce : string) (p : Peer) : list RelayAct * (unit + string) :=
  acts [Send (challenge (relay_id s) nonce)]
    (written_or (challenge_written p)
      match auth_line p with
      | LineTimeout => ([], inr "deadline has elapsed")
      | LineError e => ([], inr e)
      | GotLine line =>
          match parse_auth (trim line) with
          | inr e => ([], inr e)
          | inl (id, mac) =>
              let client_relay_id := default "" id in
              let client_mac_hex := default "" mac in
              if negb (String.eqb client_relay_id (relay_id s)) then refuse "relay_id mismatch"
              else match hmac (relay_token s) (auth_message (relay_id s) nonce) with
                   | inr e => ([], inr ("hmac init: " +:+ e))
                   | inl expected =>
                       if negb (constant_time_eq client_mac_hex (hex_encode expected)) then refuse "MAC mismatch"
                       else acts [Send (ok_json true)] (written_or (ok_written p) (run_one_command p))
                   end
          end
      end).
End relay.

(** * The listener *)

(** ** Start *)

(** How binding fares: the error, or the port that the listener has, which is another one
    when port 0 is asked for. *)
Definition bind_address (port : Z) : string := "127.0.0.1:" +:+ show_uint port.

(** The error of binding, a panic ([None]), or the server. *)
Definition server_start (bound : string + Z) (id token_hex path : string) : option (string + RelayServer) :=
  match bound with
  | inl e => Some (inl e)
  | inr actual => s ← Relay.start actual id token_hex path; Some (inr s)
  end.

(** ** The tasks *)

Section serve.
Context (handle : string -> Peer -> list RelayAct * (unit + string)).

(** A task: the acts that are left, and the result that is not yet looked at. *)
Record Task := mkTask { t_left : list RelayAct; t_result : option (unit + string) }.

(** [sv_log] are the acts of all connections, in the order they happen. *)
Record Serving := mkServing { sv_tasks : list Task; sv_log : list (nat * RelayAct); sv_errors : list string }.
Definition serving_new : Serving := mkServing [] [] [].

(** A connection is there, with its nonce and what its peer will do; accepting fails; a
    task goes on by one act, or ends. *)
Inductive ServeEvent := RAccepted (nonce : string) (p : Peer) | RAcceptError (e : string) | RTask (k : nat).

Definition task_step (k : nat) (t : Task) (s : Serving) : Serving :=
  match t_left t, t_result t with
  | a :: rest, r => mkServing (<[k := mkTask rest r]> (sv_tasks s)) (sv_log s ++ [(k, a)]) (sv_errors s)
  | [], Some (inr e) =>
      mkServing (<[k := mkTask [] None]> (sv_tasks s)) (sv_log s) (sv_errors s ++ ["[relay] connection error: " +:+ e])
  | [], _ => mkServing (<[k := mkTask [] None]> (sv_tasks s)) (sv_log s) (sv_errors s)
  end.

Definition serve_step (s : Serving) (e : ServeEvent) : Serving :=
  match e with
  | RAccepted nonce p =>
      let '(l, r) := handle nonce p in
      mkServing (sv_tasks s ++ [mkTask l (Some r)]) (sv_log s) (sv_errors s)
  | RAcceptError e => mkServing (sv_tasks s) (sv_log s) (sv_errors s ++ ["[relay] accept error: " +:+ e])
  | RTask k => match sv_tasks s !! k with Some t => task_step k t s | None => s end
  end.
Definition serve_all (l : list ServeEvent) : Serving := foldl serve_step serving_new l.

(** ** Each connection by itself *)

Definition accepted_peers (l : list ServeEvent) : list (string * Peer) :=
  omap (fun e => match e with RAccepted nonce p => Some (nonce, p) | _ => None end) l.
Definition acts_of (k : nat) (log : list (nat * RelayAct)) : list RelayAct :=
  snd <$> filter (fun x => x.1 = k) log.

Lemma acts_of_snoc k log j a : acts_of k (log ++ [(j, a)]) = acts_of k log ++ (if decide (j = k) then [a] else []).
Proof.
  unfold acts_of. rewrite filter_app, fmap_app. f_equal. rewrite filter_cons. simpl. by case_decide.
Qed.

(** The task of a connection has done the first acts of its handler, which are the acts in
    the log, and has the others left. *)
Definition task_ok (log : list (nat * RelayAct)) (k : nat) (c : string * Peer) (t : Task) : Prop :=
  acts_of k log ++ t_left t = (handle c.1 c.2).1 /\
  (t_result t = None -> t_left t = []) /\ (forall r, t_result t = Some r -> r = (handle c.1 c.2).2).

Definition serving_ok (cs : list (string * Peer)) (s : Serving) : Prop :=
  length (sv_tasks s) = length cs /\
  (forall k c t, cs !! k = Some c -> sv_tasks s !! k = Some t -> task_ok (sv_log s) k c t) /\
  (forall k, length cs <= k -> acts_of k (sv_log s) = []).

Lemma task_step_ok cs s k t : serving_ok cs s -> sv_tasks s !! k = Some t -> serving_ok cs (task_step k t s).
Proof.
  intros (Hl & Ht & Hn) Hk. pose proof (lookup_lt_Some _ _ _ Hk) as Hlt.
  unfold task_step. destruct (t_left t) as [|a rest] eqn:Hleft.
  - assert (serving_ok cs (mkServing (<[k := mkTask [] None]> (sv_tasks s)) (sv_log s) (sv_errors s))) as H.
    { split; [simpl; by rewrite length_insert|]. split; [|done]. simpl. intros j c t' Hc Hj.
      destruct (decide (j = k)) as [->|Hne].
      - rewrite list_lookup_insert_eq in Hj by done. injection Hj as <-.
        destruct (Ht k c t Hc Hk) as (H1 & _ & _). rewrite Hleft in H1. by split.
      - rewrite list_lookup_insert_ne in Hj by done. by apply Ht. }
    by destruct (t_result t) as [[|e]|].
  - split; [simpl; by rewrite length_insert|]. simpl. split.
    + intros j c t' Hc Hj. destruct (decide (j = k)) as [->|Hne].
      * rewrite list_lookup_insert_eq in Hj by done. injection Hj as <-.
        destruct (Ht k c t Hc Hk) as (H1 & H2 & H3). split; [|split; [|apply H3]]; simpl.
        -- rewrite acts_of_snoc, decide_True, <- app_assoc by done. by rewrite Hleft in H1.
        -- intros E. specialize (H2 E). congruence.
      * rewrite list_lookup_insert_ne in Hj by done. destruct (Ht j c t' Hc Hj) as (H1 & H2 & H3).
        split; [|done]. by rewrite acts_of_snoc, decide_False, app_nil_r.
    + intros j Hj. rewrite acts_of_snoc, Hn by done. rewrite decide_False by lia. done.
Qed.

Lemma serve_step_ok cs s e : serving_ok cs s ->
  serving_ok (cs ++ match e with RAccepted nonce p => [(nonce, p)] | _ => [] end) (serve_step s e).
Proof.
  intros H. destruct e as [nonce p|e|k]; simpl; rewrite ?app_nil_r.
  - destruct H as (Hl & Ht & Hn). destruct (handle nonce p) as [l r] eqn:Hh. split; [|split]; simpl.
    + rewrite !length_app. simpl. lia.
    + intros k c t Hc Hk. destruct (decide (k = length cs)) as [->|Hne].
      * rewrite lookup_app_r in Hc by lia. rewrite Nat.sub_diag in Hc. injection Hc as <-.
        rewrite lookup_app_r in Hk by lia. rewrite Hl, Nat.sub_diag in Hk. injection Hk as <-.
        unfold task_ok. simpl. rewrite Hn, Hh by lia. split; [done|]. split; [done|]. by intros ? [= <-].
      * pose proof (lookup_lt_Some _ _ _ Hc) as Hlt. rewrite length_app in Hlt. simpl in Hlt.
        rewrite lookup_app_l in Hc by lia. rewrite lookup_app_l in Hk by lia. by apply Ht.
    + intros k Hk. rewrite length_app in Hk. simpl in Hk. apply Hn. lia.
  - done.
  - destruct (sv_tasks s !! k) as [t|] eqn:Hk; [by apply task_step_ok|done].
Qed.

Lemma serve_run_ok l : forall cs s, serving_ok cs s ->
  serving_ok (cs ++ accepted_peers l) (foldl serve_step s l).
Proof.
  induction l as [|e l IH]; intros cs s H; simpl; [by rewrite app_nil_r|].
  apply (serve_step_ok cs s e) in H. apply IH in H. rewrite <- app_assoc in H.
  by destruct e.
Qed.

(** Whatever interleaving: the acts of the k-th connection in the log are the first of
    those that its handler alone would do, the others are left to its task, which can
    always go on; and accepting never ends. *)
Theorem relay_sessions_independent l k nonce p : accepted_peers l !! k = Some (nonce, p) ->
  exists t, sv_tasks (serve_all l) !! k = Some t /\
    acts_of k (sv_log (serve_all l)) ++ t_left t = (handle nonce p).1 /\
    (forall a, a ∈ acts_of k (sv_log (serve_all l)) -> a ∈ (handle nonce p).1) /\
    length (sv_tasks (serve_all (l ++ [RAccepted nonce p]))) = S (length (sv_tasks (serve_all l))).
Proof.
  intros Hk. assert (serving_ok (accepted_peers l) (serve_all l)) as (Hl & Ht & _).
  { apply (serve_run_ok l [] serving_new). split; [done|]. by split. }
  destruct (lookup_lt_is_Some_2 (sv_tasks (serve_all l)) k) as [t Htk].
  { rewrite Hl. by eapply lookup_lt_Some. }
  destruct (Ht k _ t Hk Htk) as (H1 & _ & _). simpl in H1.
  exists t. split; [done|]. split; [done|]. split.
  - intros a Ha. rewrite <- H1. apply elem_of_app. by left.
  - unfold serve_all. rewrite foldl_app. simpl. destruct (handle nonce p). simpl. rewrite length_app. simpl. lia.
Qed.
End serve.
