(* ===== verification/RelayProps.v ===== *)
(** * What the relay promises

    Only a client that knows the token reaches the socket; a request is the line
    of the command of the client program for it, and the answer is the socket's. *)

From Stdlib Require Import Ascii.
From S2P Require Import Prelude F64 SplitTree RustStr RemoteConfig Workspace Surfaces Notebook Window WindowTabs WindowClaims Session Socket SocketProps Cli Relay.
Open Scope string_scope.
Open Scope list_scope.

(** ** Hexadecimal and comparison *)

Lemma parse_hex_byte b : parse_hex 255 (hex_byte b) = Some (Z.of_N (N_of_ascii b)).
Proof. by destruct b as [[] [] [] [] [] [] [] []]. Qed.
Lemma hex_byte_boundary b s : char_boundary (hex_byte b +:+ s) = true.
Proof. by destruct b as [[] [] [] [] [] [] [] []]. Qed.

(** The token that was written in hexadecimal is read back. *)
Theorem hex_roundtrip s : hex_decode (hex_encode s) = Some s.
Proof.
  induction s as [|b s IH]; [done|]. unfold hex_encode in *. cbn [hex_of_bytes].
  assert (char_boundary (hex_of_bytes s) = true) as Hb.
  { destruct s as [|c s]; [done|]. apply hex_byte_boundary. }
  pose proof (parse_hex_byte b) as Hp. unfold hex_byte in *. cbn [String.append hex_decode].
  rewrite Hb, IH, Hp. simpl. by rewrite N2Z.id, ascii_N_embedding.
Qed.

Lemma hex_encode_inj a b : hex_encode a = hex_encode b -> a = b.
Proof. intros E. apply (f_equal hex_decode) in E. rewrite !hex_roundtrip in E. by simplify_eq. Qed.

(** A text of odd length ends the program: the last slice is out of range. *)
Theorem hex_decode_odd s : Nat.odd (String.length s) = true -> hex_decode s = None.
Proof.
  assert (forall n s, String.length s < n -> Nat.odd (String.length s) = true -> hex_decode s = None) as H.
  { clear s. induction n as [|n IH]; intros s Hn Ho; [lia|]. destruct s as [|a [|b s]]; [done|done|].
    cbn [hex_decode]. destruct (char_boundary s); [|done]. rewrite IH; [done|simpl in *; lia|done]. }
  intros Ho. by apply (H (S (String.length s))); [lia|].
Qed.

Lemma diff_bits_zero a : forall b d, String.length a = String.length b ->
  diff_bits d a b = 0%N <-> d = 0%N /\ a = b.
Proof.
  induction a as [|x a IH]; intros [|y b] d Hl; simpl in *; [naive_solver|done|done|].
  rewrite IH by lia. rewrite N.lor_eq_0_iff, N.lxor_eq_0_iff. split.
  - intros [[-> E] ->]. apply (f_equal ascii_of_N) in E. by rewrite !ascii_N_embedding in E; subst.
  - intros [-> E]. by simplify_eq.
Qed.

(** The comparison without early exit is equality. *)
Theorem constant_time_eq_spec a b : constant_time_eq a b = true <-> a = b.
Proof.
  unfold constant_time_eq. destruct (Nat.eqb_spec (String.length a) (String.length b)) as [E|E]; simpl.
  - rewrite N.eqb_eq, diff_bits_zero by done. naive_solver.
  - split; [done|]. by intros ->.
Qed.

(** ** Authentication *)

Section auth.
Context {Value : Type} (parse_v2 : string -> option (@V2Request Value)) (to_text : @V2Response Value -> string).
Context (parse_auth : string -> (option string * option string) + string).
Context (hmac : string -> string -> string + string).
Local Abbreviation handle_connection := (handle_connection parse_v2 to_text parse_auth hmac).
Local Abbreviation run_one_command := (run_one_command parse_v2 to_text).

(** The client answers the challenge in time, with something that can be read. *)
Definition answers (p : Peer) (id mac : string) : Prop :=
  challenge_written p = Wrote /\ exists line i m, auth_line p = GotLine line /\
    parse_auth (trim line) = inl (i, m) /\ id = default "" i /\ mac = default "" m.

(** The answer to this nonce that the token gives. *)
Definition right_answer (s : RelayServer) (nonce id mac : string) : Prop :=
  id = relay_id s /\ exists h, hmac (relay_token s) (auth_message (relay_id s) nonce) = inl h /\ mac = hex_encode h.

Definition is_forward (a : RelayAct) : bool := match a with ToSocket _ => true | _ => false end.

Lemma acts_forward l k :
  existsb is_forward (acts l k).1 = existsb is_forward l || existsb is_forward k.1.
Proof. unfold acts. simpl. apply existsb_app. Qed.
Lemma written_or_forward w k :
  existsb is_forward (written_or w k).1 = bool_decide (w = Wrote) && existsb is_forward k.1.
Proof. by destruct w. Qed.

(** After the authentication: whether a command is forwarded. *)
Lemma run_forward p :
  existsb is_forward (run_one_command p).1 = true <->
  exists cmd, command_line p = GotLine cmd /\ trim cmd <> "".
Proof.
  unfold Relay.run_one_command. destruct (command_line p) as [cmd|e|]; [|split; [done|by intros (? & ? & _)]..].
  destruct (trim cmd) as [|c r] eqn:E; [split; [done|intros (? & [= <-] & ?); congruence]|].
  destruct (translate_v2_to_v1 parse_v2 (String c r)) as [k id]. rewrite acts_forward. simpl.
  split; [|done]. intros _. exists cmd. split; [done|congruence].
Qed.

(** The steps of a connection whose client has answered. *)
Lemma handle_answered s nonce p id mac :
  answers p id mac ->
  handle_connection s nonce p =
  acts [Send (challenge (relay_id s) nonce)]
    (if negb (String.eqb id (relay_id s)) then refuse "relay_id mismatch"
     else match hmac (relay_token s) (auth_message (relay_id s) nonce) with
          | inr e => ([], inr ("hmac init: " +:+ e))
          | inl h => if negb (constant_time_eq mac (hex_encode h)) then refuse "MAC mismatch"
                     else acts [Send (ok_json true)] (written_or (ok_written p) (run_one_command p))
          end).
Proof.
  intros (Hw & line & i & m & Hl & Hp & -> & ->). unfold Relay.handle_connection. by rewrite Hw, Hl, Hp.
Qed.

Lemma handle_right s nonce p id mac :
  answers p id mac -> right_answer s nonce id mac ->
  handle_connection s nonce p =
  acts [Send (challenge (relay_id s) nonce); Send (ok_json true)] (written_or (ok_written p) (run_one_command p)).
Proof.
  intros Ha (-> & h & Hh & ->). rewrite (handle_answered _ _ _ _ _ Ha), String.eqb_refl, Hh.
  by rewrite (proj2 (constant_time_eq_spec _ _)).
Qed.

Lemma handle_wrong s nonce p id mac h :
  answers p id mac -> hmac (relay_token s) (auth_message (relay_id s) nonce) = inl h ->
  ~ right_answer s nonce id mac ->
  (handle_connection s nonce p).1 = [Send (challenge (relay_id s) nonce); Sleep 50; Send (ok_json false)] /\
  exists e, (handle_connection s nonce p).2 = inr e.
Proof.
  intros Ha Hh Hn. rewrite (handle_answered _ _ _ _ _ Ha).
  destruct (String.eqb_spec id (relay_id s)) as [->|]; [|simpl; eauto]. rewrite Hh. simpl.
  destruct (constant_time_eq mac (hex_encode h)) eqn:E; [|simpl; eauto].
  apply constant_time_eq_spec in E as ->. destruct Hn. split; eauto.
Qed.

(** Without an answer that can be read nothing follows the challenge. *)
Lemma handle_silent s nonce p : (forall id mac, ~ answers p id mac) ->
  (handle_connection s nonce p).1 = [Send (challenge (relay_id s) nonce)] /\
  exists e, (handle_connection s nonce p).2 = inr e.
Proof.
  intros Hn. unfold Relay.handle_connection.
  destruct (challenge_written p) eqn:Ew; [|simpl; eauto..].
  destruct (auth_line p) as [line|e|] eqn:El; [|simpl; eauto..].
  destruct (parse_auth (trim line)) as [[i m]|e] eqn:Ep; [|simpl; eauto].
  exfalso. apply (Hn (default "" i) (default "" m)). split; [done|]. eauto 10.
Qed.

Lemma handle_unanswered s nonce p :
  existsb is_forward (handle_connection s nonce p).1 = true -> exists id mac, answers p id mac.
Proof.
  unfold Relay.handle_connection. rewrite acts_forward. simpl. rewrite written_or_forward.
  intros [Hw%bool_decide_eq_true H]%andb_prop. destruct (auth_line p) as [line|e|] eqn:El; [|done..].
  destruct (parse_auth (trim line)) as [[i m]|e] eqn:Ep; [|done].
  exists (default "" i), (default "" m). split; [done|]. eauto 10.
Qed.

Lemma existsb_forward l : existsb is_forward l = true <-> exists bytes, ToSocket bytes ∈ l.
Proof.
  rewrite existsb_exists. split.
  - intros (a & Ha & Hf). destruct a as [|?|bytes]; [done|done|]. exists bytes. by apply list_elem_of_In.
  - intros [bytes Hb]. exists (ToSocket bytes). split; [by apply list_elem_of_In|done].
Qed.

(** C19: A command of a client reaches the control socket exactly when the client
    answered the challenge of this connection, with a text that can be read, with the
    identifier of the relay and the keyed hash of the identifier and the nonce, was told
    so, and then sent a command that is not blank.  A client whose answer can be read
    but has another identifier or another hash (a member that is missing or no text
    counts as empty) hears, after a delay, that it failed, and nothing else happens.  To
    a client whose answer does not come, or cannot be read, nothing is sent after the
    challenge, at once, and the connection ends with an error.  An answer recorded from
    another connection is of no use unless the hash of the two nonces is the same. *)
Theorem relay_authenticates s nonce p :
  ((exists bytes, ToSocket bytes ∈ (handle_connection s nonce p).1) <->
   (exists id mac cmd, answers p id mac /\ right_answer s nonce id mac /\ ok_written p = Wrote /\
      command_line p = GotLine cmd /\ trim cmd <> "")) /\
  (forall id mac h, answers p id mac -> hmac (relay_token s) (auth_message (relay_id s) nonce) = inl h ->
     ~ right_answer s nonce id mac ->
     (handle_connection s nonce p).1 = [Send (challenge (relay_id s) nonce); Sleep 50; Send (ok_json false)] /\
     exists e, (handle_connection s nonce p).2 = inr e) /\
  ((forall id mac, ~ answers p id mac) ->
     (handle_connection s nonce p).1 = [Send (challenge (relay_id s) nonce)] /\
     exists e, (handle_connection s nonce p).2 = inr e) /\
  (forall other id mac, right_answer s other id mac -> right_answer s nonce id mac ->
     hmac (relay_token s) (auth_message (relay_id s) other) = hmac (relay_token s) (auth_message (relay_id s) nonce)).
Proof.
  split_and!.
  - rewrite <- existsb_forward. split.
    + intros H. destruct (handle_unanswered _ _ _ H) as (id & mac & Ha). exists id, mac.
      assert (right_answer s nonce id mac) as Hr.
      { rewrite (handle_answered _ _ _ _ _ Ha), acts_forward in H.
        destruct (String.eqb_spec id (relay_id s)) as [->|]; [|done]. simpl in H.
        destruct (hmac _ _) as [h|] eqn:Hh; [|done].
        destruct (constant_time_eq mac (hex_encode h)) eqn:E; [|done].
        apply constant_time_eq_spec in E as ->. split; eauto. }
      rewrite (handle_right _ _ _ _ _ Ha Hr), acts_forward, written_or_forward in H. simpl in H.
      apply andb_prop in H as [Hw%bool_decide_eq_true H]. apply run_forward in H as (cmd & Hc & Hne). by exists cmd.
    + intros (id & mac & cmd & Ha & Hr & Hw & Hc & Hne).
      rewrite (handle_right _ _ _ _ _ Ha Hr), acts_forward, written_or_forward, bool_decide_true by done. simpl.
      apply run_forward. eauto.
  - intros id mac h. apply handle_wrong.
  - apply handle_silent.
  - intros other id mac (_ & h1 & E1 & ->) (_ & h2 & E2 & E). apply hex_encode_inj in E as ->. congruence.
Qed.
End auth.

Lemma relay_authenticates_witness :
  let s := mkRelay 64000 "ab12" "key" "/run/limux.sock" in
  let hash := fun token message => inl (token +:+ message) : string + string in
  let good := hex_encode ("key" +:+ auth_message "ab12" "00ff") in
  let p := mkPeer Wrote (GotLine good) Wrote (GotLine "ping") (fun _ => inl "OK pong") Wrote in
  let parse := fun line : string => (inl (Some "ab12", Some line) : (option string * option string) + string) in
  (exists bytes, ToSocket bytes ∈
     (handle_connection (fun _ => @None (@V2Request Z)) (fun _ => "") parse hash s "00ff" p).1) /\
  (handle_connection (fun _ => @None (@V2Request Z)) (fun _ => "") parse hash s "00fe" p).1 =
    [Send (challenge "ab12" "00fe"); Sleep 50; Send (ok_json false)] /\
  (handle_connection (fun _ => @None (@V2Request Z)) (fun _ => "") (fun _ => inr "expected value") hash s "00ff" p).1 =
    [Send (challenge "ab12" "00ff")].
Proof.
  intros s hash good p parse. split_and!.
  - apply (relay_authenticates (fun _ => @None (@V2Request Z)) (fun _ => "") parse hash s "00ff" p).
    exists "ab12", good, "ping". split_and!; try reflexivity; [|split; [reflexivity|]|discriminate].
    + split; [reflexivity|]. exists good, (Some "ab12"), (Some good). split_and!; vm_compute; reflexivity.
    + eexists. split; reflexivity.
  - apply (relay_authenticates (fun _ => @None (@V2Request Z)) (fun _ => "") parse hash s "00fe" p) with
      (id := "ab12") (mac := good) (h := "key" +:+ auth_message "ab12" "00fe").
    + split; [reflexivity|]. exists good, (Some "ab12"), (Some good). split_and!; vm_compute; reflexivity.
    + reflexivity.
    + intros (_ & h & [= <-] & E). vm_compute in E. discriminate.
  - apply (relay_authenticates (fun _ => @None (@V2Request Z)) (fun _ => "") (fun _ => inr "expected value") hash s "00ff" p).
    intros id mac (_ & line & i & m & _ & E & _). discriminate E.
Defined.

(** ** Answers *)

Section answers.
Context {Value : Type} (id : Value).
Local Abbreviation v1_response := (v1_response id).

Lemma trim_text t : trim t = t -> trim_start t = t /\ trim_end t = t.
Proof. intros E. rewrite <- E. apply trim_trimmed. Qed.

(** An answer on one line, as the socket writes it, is not trimmed but for the line feed. *)
Lemma trim_frame c q x :
  graphic c -> trim x = x -> x <> "" ->
  trim ((String c q +:+ String " " x) +:+ String nl "") = String c q +:+ String " " x.
Proof.
  intros Hc Hx Hne. rewrite trim_snoc by done. unfold trim. cbn [String.append].
  rewrite trim_start_graphic by done. apply (trim_end_sep " " (String c q)); [done| |done].
  by apply trim_text.
Qed.

Lemma trim_space x : trim (String " " x) = trim x.
Proof. unfold trim. by rewrite (trim_start_eq (String " " _)). Qed.

(** The answer to a translated request says what the socket said: success and
    nothing else for a bare OK, the text after OK, the text of an answer of several
    lines, and the message of an error, for texts that neither start nor end in white
    space. *)
Theorem relay_answers_faithful text :
  trim text = text -> text <> "" ->
  v1_response (frame "OK") = mkResp id true None None /\
  v1_response (frame ("OK " +:+ text)) = mkResp id true (Some text) None /\
  v1_response (frame ("ERROR: " +:+ text)) = mkResp id false None (Some text) /\
  v1_response (frame (multi_line text)) = mkResp id true (Some text) None.
Proof.
  intros Ht Hne. destruct text as [|a r]; [done|]. set (text := String a r) in *. split_and!.
  - reflexivity.
  - assert (frame ("OK " +:+ text) = (String "O" "K" +:+ String " " text) +:+ String nl "") as -> by done.
    unfold Relay.v1_response. rewrite trim_frame by done.
    change (v1_plain id (String "O" "K" +:+ String " " text) = mkResp id true (Some text) None).
    unfold v1_plain. change (strip_prefix "OK" (String "O" "K" +:+ String " " text)) with (Some (String " " text)).
    cbv beta iota. by rewrite trim_space, Ht.
  - assert (frame ("ERROR: " +:+ text) = (String "E" "RROR:" +:+ String " " text) +:+ String nl "") as -> by done.
    unfold Relay.v1_response. rewrite trim_frame by done.
    change (v1_plain id (String "E" "RROR:" +:+ String " " text) = mkResp id false None (Some text)).
    unfold v1_plain.
    change (strip_prefix "OK" (String "E" "RROR:" +:+ String " " text)) with (@None string).
    change (strip_prefix "ERROR:" (String "E" "RROR:" +:+ String " " text)) with (Some (String " " text)).
    cbv beta iota. by rewrite trim_space, Ht.
  - assert (frame (multi_line text) = ("OK+" +:+ len_str text) +:+ String nl text) as E.
    { unfold frame, multi_line. rewrite starts_with_app. by rewrite str_app_assoc. }
    rewrite E. unfold Relay.v1_response.
    assert (trim (("OK+" +:+ len_str text) +:+ String nl text) = ("OK+" +:+ len_str text) +:+ String nl text) as ->.
    { unfold trim. rewrite !str_app_assoc.
      assert (forall y, trim_start ("OK+" +:+ y) = "OK+" +:+ y) as -> by (intros y; by apply (trim_start_graphic "O")).
      rewrite <- str_app_assoc. apply trim_end_sep; [done| |done]. by apply trim_text. }
    rewrite str_app_assoc, starts_with_app, <- str_app_assoc, split_once_app; [done|].
    rewrite has_byte_app. by apply orb_false_iff; split; [|apply show_uint_no_byte].
Qed.

(** White space at the ends of a screen is lost, and an empty one becomes its length. *)
Theorem relay_empty_text : v1_response (frame (multi_line "")) = mkResp id true (Some "+0") None.
Proof. reflexivity. Qed.
End answers.

Lemma relay_answers_faithful_witness :
  let screen := "$ ls" +:+ String nl "src" in
  trim screen = screen /\
  v1_response 7%Z (frame (multi_line screen)) = mkResp 7%Z true (Some screen) None.
Proof.
  intros screen. split; [vm_compute; reflexivity|].
  apply (relay_answers_faithful 7%Z screen); [vm_compute; reflexivity|discriminate].
Defined.

(** ** Requests *)

Section requests.
Context {Value : Type}.
Implicit Types (q : @V2Request Value).

Definition ws_arg q : option string := or_else (p_str q "workspace") (show_uint <$> p_u64 q "workspace").
Definition surface_arg q : option string := or_else (p_str q "surface") (p_str q "surface_id").

(** The request has these arguments and no name, and asks for no direction downward. *)
Record args q (ws surface text : option string) : Prop := mkArgs {
  ag_ws : ws_arg q = ws;
  ag_surface : surface_arg q = surface;
  ag_text : p_str q "text" = text;
  ag_name : p_str q "name" = None;
  ag_down : p_str q "direction" <> Some "down" /\ p_str q "direction" <> Some "bottom";
}.

(** Which command of the client program a request asks for. *)
Inductive asks q : CliCommand -> Prop :=
  | asks_create : v2_method q = Some "workspace.create" -> args q None None None ->
      asks q (CWorkspace CNewWorkspace)
  | asks_list : v2_method q = Some "workspace.list" -> args q None None None ->
      asks q (CWorkspace CListWorkspaces)
  | asks_current : v2_method q = Some "workspace.current" -> args q None None None ->
      asks q (CWorkspace CCurrentWorkspace)
  | asks_surfaces : v2_method q = Some "surface.list" -> args q None None None -> asks q CListSurfaces
  | asks_version : v2_method q = Some "system.capabilities" -> args q None None None -> asks q CVersion
  | asks_close id : v2_method q = Some "workspace.close" -> args q (show_uint <$> id) None None ->
      asks q (CWorkspace (CCloseWorkspace id))
  | asks_select id : v2_method q = Some "workspace.select" -> args q (Some (show_uint id)) None None ->
      asks q (CWorkspace (CSelectWorkspace id))
  | asks_panes id : v2_method q = Some "pane.list" -> args q (show_uint <$> id) None None ->
      asks q (CWorkspace (CListPanes id))
  | asks_focus id : v2_method q = Some "surface.focus" -> args q None (Some (show_uint id)) None ->
      asks q (CWorkspace (CFocusPane id))
  | asks_send id text : v2_method q = Some "surface.send_text" ->
      args q None (Some (show_uint id)) (Some text) -> asks q (CTerminal (CSend id text))
  | asks_right m : v2_method q = Some m -> m = "surface.split" \/ m = "pane.create" ->
      args q None None None -> asks q (CSplit CSplitRight)
  | asks_down m : v2_method q = Some m -> m = "surface.split" \/ m = "pane.create" ->
      p_str q "direction" = Some "down" \/ p_str q "direction" = Some "bottom" -> asks q (CSplit CSplitDown).

Lemma translate_args q cmd ws surface text :
  args q ws surface text -> translate_params cmd q = push_arg (push_arg (push_arg cmd ws) surface) text.
Proof.
  intros [E1 E2 E3 E4 [E5 E6]]. unfold translate_params. fold (ws_arg q) (surface_arg q).
  rewrite E1, E2, E3, E4. destruct (p_str q "direction") as [d|]; [|done].
  destruct (String.eqb_spec d "down") as [->|]; [done|]. by destruct (String.eqb_spec d "bottom") as [->|].
Qed.

Lemma translate_down q cmd :
  p_str q "direction" = Some "down" \/ p_str q "direction" = Some "bottom" ->
  translate_params cmd q = "split_down".
Proof. unfold translate_params. by intros [-> | ->]. Qed.

Lemma asks_line show_f64 q c :
  asks q c -> exists m v1, v2_method q = Some m /\ v2_method_to_v1 m = Some v1 /\
    translate_params v1 q = Cli.command_line show_f64 c.
Proof.
  intros H. destruct H as [Hm Ha|Hm Ha|Hm Ha|Hm Ha|Hm Ha|id Hm Ha|id Hm Ha|id Hm Ha|id Hm Ha|id text Hm Ha|m Hm Hs Ha|m Hm Hs Hd].
  1-10: eexists _, _; split_and!; [exact Hm|reflexivity|rewrite (translate_args _ _ _ _ _ Ha)].
  1-5, 7, 9: reflexivity.
  1, 2: by destruct id.
  - cbn [push_arg Cli.command_line terminal_line]. unfold cmd_id. reflexivity.
  - destruct Hs as [-> | ->]; eexists _, _; (split_and!; [exact Hm|reflexivity|]);
      by rewrite (translate_args _ _ _ _ _ Ha).
  - destruct Hs as [-> | ->]; eexists _, _; (split_and!; [exact Hm|reflexivity|]); by rewrite translate_down.
Qed.

Lemma asks_translates (parse_v2 : string -> option V2Request) show_f64 cmd q c :
  starts_with "{" cmd = true -> parse_v2 cmd = Some q -> asks q c ->
  translate_v2_to_v1 parse_v2 cmd = (Cli.command_line show_f64 c, v2_id q).
Proof.
  intros Hs Hq Ha. destruct (asks_line show_f64 q c Ha) as (m & v1 & Hm & Hv & <-).
  unfold translate_v2_to_v1. by rewrite Hs, Hq, Hm, Hv.
Qed.
End requests.


(** A socket that answers each text as the control socket does in one state. *)
Definition demo_socket (bytes : string) : string + string :=
  match process_lines key_order "0" no_text no_text (fun s => s) (fun _ => "") 0 None (fun _ => None)
          (S (String.length bytes)) bytes demo_world with
  | Some (_, out, _) => inl out
  | None => inr "connection reset"
  end.


(** A text is put on the command line as it is: what follows a line feed in it is run
    as further commands. *)
Theorem relay_text_injects {NB} `{NotebookOps NB} {Value} ord ver get_url read_text debug json now fp ur show_f64
    (parse_v2 : string -> option (@V2Request Value)) cmd q id a b s out (wd w w' : World NB) :
  starts_with "{" cmd = true -> parse_v2 cmd = Some q -> asks q (CTerminal (CSend id (a +:+ String nl b))) ->
  means ord ver get_url read_text debug json now fp ur show_f64 (CTerminal (CSend id a)) wd (Some (s, w)) ->
  request ord ver get_url read_text debug json now fp ur b w = Some ("", out, w') ->
  request ord ver get_url read_text debug json now fp ur (translate_v2_to_v1 parse_v2 cmd).1 wd =
    Some ("", frame s +:+ out, w').
Proof.
  intros Hs Hq Ha Hm Hb. rewrite (asks_translates parse_v2 show_f64 _ _ _ Hs Hq Ha).
  pose proof (means_request ord ver get_url read_text debug json now fp ur show_f64 _ _ _ Hm) as Hr.
  cbn [fst]. change (request ?o ?v ?g ?r ?d ?j ?n ?f ?u ?l ?x)
    with (run_lines o v g r d j n f u (l +:+ String nl "") x) in *.
  assert (Cli.command_line show_f64 (CTerminal (CSend id (a +:+ String nl b))) +:+ String nl "" =
    (Cli.command_line show_f64 (CTerminal (CSend id a)) +:+ String nl "") +:+ (b +:+ String nl "")) as ->.
  { cbn [Cli.command_line terminal_line]. by rewrite !str_app_assoc. }
  rewrite (run_lines_app ord ver get_url read_text debug json now fp ur _ _ _ _ (Nat.lt_succ_diag_r _)), Hr.
  simpl. by rewrite Hb.
Qed.

(** A request to close a surface is translated to a command that the socket does not
    have. *)
Theorem relay_close_unknown : v2_method_to_v1 "surface.close" ≫= command_of = None.
Proof. reflexivity. Qed.
