(* ===== verification/Bootstrap.v ===== *)
(** * Starting the daemon of a remote host (app/src/remote/bootstrap.rs)

    The chain that probes the host, gets the daemon's binary, uploads it and greets it.
    Every command that is run and every access to a file is a tick of the clock of the
    model; what the program answers at a tick and does to the files, which error the file
    system gives and what others have done to the files are parameters, so that nothing
    is assumed of the host, the network or other instances.  [BootstrapProps] has the theorems. *)

From Stdlib Require Import Ascii.
From S2P Require Import Prelude RustStr RemoteConfig Settings.
Open Scope string_scope.
Open Scope list_scope.

(** ** Errors *)

Inductive BootstrapError :=
  | SshFailed (status stderr : string)
  | ScpFailed (status stderr : string)
  | Timeout (operation : string) (seconds : Z)
  | UnsupportedPlatform (os arch : string)
  | ProbeFailed (detail : string)
  | DownloadFailed (detail : string)
  | ChecksumMismatch
  | HelloFailed (detail : string)
  | MissingCapability (capability : string)
  | IoError (e : string).

(** The text of [Display]. *)
Definition error_text (e : BootstrapError) : string :=
  match e with
  | SshFailed status stderr => "SSH failed (" +:+ status +:+ "): " +:+ trim stderr
  | ScpFailed status stderr => "SCP failed (" +:+ status +:+ "): " +:+ trim stderr
  | Timeout operation seconds => operation +:+ " timed out after " +:+ show_uint seconds +:+ "s"
  | UnsupportedPlatform os arch => "unsupported platform: " +:+ os +:+ "-" +:+ arch
  | ProbeFailed detail => "platform probe failed: " +:+ detail
  | DownloadFailed detail => "binary download failed: " +:+ detail
  | ChecksumMismatch => "binary checksum mismatch"
  | HelloFailed detail => "daemon hello failed: " +:+ detail
  | MissingCapability capability => "daemon missing required capability: " +:+ capability
  | IoError e => "I/O error: " +:+ e
  end.

(** ** The host and its clock *)

Record Call := mkCall { program : string; arguments : list string; timeout : Z }.
Record Host := mkHost { tick : nat; calls : list Call; disk : gmap string string }.

Inductive CmdOutcome :=
  | SpawnFails (e : string)
  | WaitFails (e : string)
  | TimesOut
  | Exits (success : bool) (status stdout stderr : string).

Record SshOutput := mkOutput { stdout : string; stderr : string; success : bool; status : string }.

Definition Boot (A : Type) : Type := Host -> (A + BootstrapError) * Host.
Definition bret {A} (a : A) : Boot A := fun h => (inl a, h).
Definition bfail {A} (e : BootstrapError) : Boot A := fun h => (inr e, h).
Definition bbind {A B} (m : Boot A) (f : A -> Boot B) : Boot B := fun h =>
  match m h with (inl a, h) => f a h | (inr e, h) => (inr e, h) end.

(** The outcome as a value: [match m.await { .. }]. *)
Definition btry {A} (m : Boot A) : Boot (A + BootstrapError) := fun h => let '(r, h) := m h in (inl r, h).

Declare Scope boot_scope.
Notation "'let!' x := m 'in' k" := (bbind m (fun x => k))
  (at level 200, x pattern, m at level 100, k at level 200, right associativity) : boot_scope.
Notation "m ;! k" := (bbind m (fun _ => k)) (at level 199, right associativity) : boot_scope.
Open Scope boot_scope.

Section env.
(** What happens at each tick: the outcome of a command and what has become of the
    files when it ends; for an access to a file, what others have done to the files
    before it, and its error. *)
Context (outcome : nat -> CmdOutcome) (effect_of others : nat -> gmap string string -> gmap string string).
Context (io_error : nat -> option string) (file_mode : nat -> Z).

Definition advance (h : Host) : Host := mkHost (S (tick h)) (calls h) (others (tick h) (disk h)).

Definition run_command (program : string) (args : list string) (secs : Z) : Boot SshOutput := fun h =>
  let n := tick h in
  let h := mkHost (S n) (calls h ++ [mkCall program args secs]) (effect_of n (disk h)) in
  match outcome n with
  | SpawnFails e | WaitFails e => (inr (IoError e), h)
  | TimesOut => (inr (Timeout program secs), h)
  | Exits ok st out err =>
      let result := mkOutput (from_utf8_lossy out) (from_utf8_lossy err) ok st in
      if String.eqb program "ssh" && negb ok then (inr (SshFailed st (stderr result)), h)
      else if String.eqb program "scp" && negb ok then (inr (ScpFailed st (stderr result)), h)
      else (inl result, h)
  end.

Definition run_ssh (c : RemoteConfiguration) (remote_command : string) (extra : list string) (secs : Z) :
    Boot SshOutput :=
  run_command "ssh" (ssh_batch_args c ++ extra ++ [destination c; remote_command]) secs.
Definition run_scp (args : list string) (secs : Z) : Boot SshOutput := run_command "scp" args secs.

(** ** Files *)

Definition path_exists (p : string) : Boot bool := fun h =>
  let h := advance h in (inl (bool_decide (is_Some (disk h !! p))), h).

Definition io {A} (f : gmap string string -> option (A * gmap string string)) : Boot A := fun h =>
  let n := tick h in
  let h := advance h in
  match io_error n with
  | Some e => (inr (IoError e), h)
  | None =>
      match f (disk h) with
      | Some (a, d) => (inl a, mkHost (tick h) (calls h) d)
      | None => (inr (IoError "No such file or directory (os error 2)"), h)
      end
  end.

Definition read_file (p : string) : Boot string := io (fun d => c ← d !! p; Some (c, d)).
Definition create_dir_all (p : string) : Boot unit := io (fun d => Some (tt, d)).
Definition set_executable (p : string) : Boot unit := io (fun d => _ ← d !! p; Some (tt, d)).
Definition rename (p q : string) : Boot unit := io (fun d => c ← d !! p; Some (tt, <[q := c]> (delete p d))).
Definition remove_file (p : string) : Boot unit := io (fun d => _ ← d !! p; Some (tt, delete p d)).
Definition mode_of (p : string) : Boot Z := fun h =>
  let n := tick h in io (fun d => _ ← d !! p; Some (file_mode n, d)) h.
Definition ignore {A} (m : Boot A) : Boot unit := let! _ := btry m in bret tt.
End env.

(** ** Texts of the scripts: a tilde stands for a double quote. *)

Definition q (s : string) : string := replace_char "~" dq s.
Definition script (l : list string) : string := join (String nl "") l.

Definition probe_script (version : string) : string := script [
  q "limux_uname_os=~$(uname -s)~";
  q "limux_uname_arch=~$(uname -m)~";
  q "printf '%s%s\n' '__LIMUX_REMOTE_OS__=' ~$limux_uname_os~";
  q "printf '%s%s\n' '__LIMUX_REMOTE_ARCH__=' ~$limux_uname_arch~";
  q "case ~$(printf '%s' ~$limux_uname_os~ | tr '[:upper:]' '[:lower:]')~ in";
  q "  linux|darwin|freebsd) limux_go_os=~$(printf '%s' ~$limux_uname_os~ | tr '[:upper:]' '[:lower:]')~ ;;";
  "  *) exit 70 ;;";
  "esac";
  q "case ~$(printf '%s' ~$limux_uname_arch~ | tr '[:upper:]' '[:lower:]')~ in";
  "  x86_64|amd64) limux_go_arch=amd64 ;;";
  "  aarch64|arm64) limux_go_arch=arm64 ;;";
  "  armv7l) limux_go_arch=arm ;;";
  "  *) exit 71 ;;";
  "esac";
  q "limux_remote_path=~$HOME/.limux/bin/limuxd-remote/" +:+ version +:+
    q "/${limux_go_os}-${limux_go_arch}/limuxd-remote~";
  q "if [ -x ~$limux_remote_path~ ]; then";
  "  printf '%syes\n' '__LIMUX_REMOTE_EXISTS__='";
  "else";
  "  printf '%sno\n' '__LIMUX_REMOTE_EXISTS__='";
  "fi"
].

(** [format!(sh -c '...')] of a script with its single quotes escaped. *)
Definition sh_c (text : string) : string := "sh -c " +:+ single_quote text.

(** ** The probe *)

Record ProbeResult := mkProbe { pr_os : string; pr_arch : string; binary_exists : bool }.

(** What the loop over the lines has seen: the last value of each marker. *)
Record Markers := mkMarkers { raw_os : option string; raw_arch : option string; seen_exists : bool }.

Definition probe_line (m : Markers) (line : string) : Markers :=
  match strip_prefix "__LIMUX_REMOTE_OS__=" line with
  | Some val => mkMarkers (Some val) (raw_arch m) (seen_exists m)
  | None =>
      match strip_prefix "__LIMUX_REMOTE_ARCH__=" line with
      | Some val => mkMarkers (raw_os m) (Some val) (seen_exists m)
      | None =>
          match strip_prefix "__LIMUX_REMOTE_EXISTS__=" line with
          | Some val => mkMarkers (raw_os m) (raw_arch m) (String.eqb (trim val) "yes")
          | None => m
          end
      end
  end.

Definition go_os_of (raw : string) : option string :=
  let l := to_lowercase raw in
  if String.eqb l "linux" then Some "linux"
  else if String.eqb l "darwin" then Some "darwin"
  else if String.eqb l "freebsd" then Some "freebsd"
  else None.

Definition go_arch_of (raw : string) : option string :=
  let l := to_lowercase raw in
  if String.eqb l "x86_64" || String.eqb l "amd64" then Some "amd64"
  else if String.eqb l "aarch64" || String.eqb l "arm64" then Some "arm64"
  else if String.eqb l "armv7l" then Some "arm"
  else None.

Definition parse_probe (out : string) : ProbeResult + BootstrapError :=
  let m := foldl probe_line (mkMarkers None None false) (str_lines out) in
  match raw_os m with
  | None => inr (ProbeFailed "missing __LIMUX_REMOTE_OS__ in probe output")
  | Some os =>
      match raw_arch m with
      | None => inr (ProbeFailed "missing __LIMUX_REMOTE_ARCH__ in probe output")
      | Some arch =>
          match go_os_of os with
          | None => inr (UnsupportedPlatform os arch)
          | Some go_os =>
              match go_arch_of arch with
              | None => inr (UnsupportedPlatform os arch)
              | Some go_arch => inl (mkProbe go_os go_arch (seen_exists m))
              end
          end
      end
  end.

Definition lift {A} (r : A + BootstrapError) : Boot A := match r with inl a => bret a | inr e => bfail e end.

(** ** Paths *)

Record CacheVars := mkCacheVars { XDG_CACHE_HOME : option string; CACHE_HOME : option string }.

Definition cache_dir (v : CacheVars) : string :=
  path_join (path_join
    match XDG_CACHE_HOME v with
    | Some x => x
    | None => path_join (default "/tmp" (CACHE_HOME v)) ".cache"
    end "limux") "remote-daemons".

Definition platform (go_os go_arch : string) : string := go_os +:+ "-" +:+ go_arch.

Definition cached_binary_path (v : CacheVars) (go_os go_arch version : string) : string :=
  path_join (path_join (path_join (cache_dir v) version) (platform go_os go_arch)) "limuxd-remote".

(** [with_extension] of a file named limuxd-remote, and [parent] of a path in it. *)
Definition tmp_of (path : string) : string := path +:+ ".tmp".

Definition rsplit_slash (p : string) : option (string * string) :=
  match rev (split_char "/" p) with
  | name :: ((_ :: _) as dir) => Some (join "/" (rev dir), name)
  | _ => None
  end.

Definition remote_daemon_path (go_os go_arch version : string) : string :=
  "$HOME/.limux/bin/limuxd-remote/" +:+ version +:+ "/" +:+ platform go_os go_arch +:+ "/limuxd-remote".
Definition remote_daemon_path_scp (go_os go_arch version : string) : string :=
  ".limux/bin/limuxd-remote/" +:+ version +:+ "/" +:+ platform go_os go_arch +:+ "/limuxd-remote".

(** [format!(:08x)] of a [u32]. *)
Definition hex8 (n : N) : string :=
  let digit i := hex_digit (N.land (N.shiftr n (4 * N.of_nat i)) 15) in
  String.string_of_list_ascii (digit <$> [7; 6; 5; 4; 3; 2; 1; 0]).

Definition scp_args (c : RemoteConfiguration) (local_path temp_scp : string) : list string :=
  ["-q"] ++
  (if has_ssh_option "StrictHostKeyChecking" c then [] else ["-o"; "StrictHostKeyChecking=accept-new"]) ++
  ["-o"; "ControlMaster=no"] ++
  (match port c with Some p => ["-P"; show_uint p] | None => [] end) ++
  (match identity_file c with Some i => ["-i"; i] | None => [] end) ++
  (ssh_options c ≫= fun o => ["-o"; o]) ++
  [local_path; destination c +:+ ":" +:+ temp_scp].

Definition mkdir_cmd (remote_path : string) : string :=
  "sh -c 'mkdir -p " +:+ default "." (fst <$> rsplit_slash remote_path) +:+ "'".
Definition suffixed (path : string) (nanos : N) : string := path +:+ ".tmp-" +:+ hex8 nanos.
Definition finalize_cmd (remote_path : string) (nanos : N) : string :=
  let temp := suffixed remote_path nanos in
  "sh -c 'chmod 755 " +:+ temp +:+ " && mv " +:+ temp +:+ " " +:+ remote_path +:+ "'".

(** ** The wrapper and the metadata on the host *)

Definition wrapper_script : string := script [
  "#!/usr/bin/env bash";
  "set -euo pipefail";
  q "daemon=~$HOME/.limux/bin/limuxd-remote-current~";
  q "socket_path=~${LIMUX_SOCKET_PATH:-}~";
  q "if [ -z ~$socket_path~ ] && [ -r ~$HOME/.limux/socket_addr~ ]; then";
  q "  socket_path=~$(tr -d '\r\n' < ~$HOME/.limux/socket_addr~)~";
  "fi";
  q "if [ -n ~$socket_path~ ] && [ ~${socket_path#/}~ = ~$socket_path~ ] && [ ~${socket_path#*:}~ != ~$socket_path~ ]; then";
  q "  relay_port=~${socket_path##*:}~";
  q "  relay_map=~$HOME/.limux/relay/${relay_port}.daemon_path~";
  q "  if [ -r ~$relay_map~ ]; then";
  q "    mapped_daemon=~$(tr -d '\r\n' < ~$relay_map~)~";
  q "    if [ -n ~$mapped_daemon~ ] && [ -x ~$mapped_daemon~ ]; then";
  q "      daemon=~$mapped_daemon~";
  "    fi";
  "  fi";
  "fi";
  q "exec ~$daemon~ ~$@~";
  ""
].

Definition install_script (relay_port : Z) (relay_id relay_token daemon_remote_path : string) : string :=
  let port := show_uint relay_port in script [
  "umask 077";
  q "mkdir -p ~$HOME/.limux~ ~$HOME/.limux/relay~ ~$HOME/.limux/bin~";
  q "chmod 700 ~$HOME/.limux/relay~";
  q "cat > ~$HOME/.limux/bin/limux~ <<'LIMUXWRAPPER'";
  wrapper_script;
  "LIMUXWRAPPER";
  q "chmod 755 ~$HOME/.limux/bin/limux~";
  q "printf '%s' ~" +:+ daemon_remote_path +:+ q "~ > ~$HOME/.limux/relay/" +:+ port +:+ q ".daemon_path~";
  q "cat > ~$HOME/.limux/relay/" +:+ port +:+ q ".auth~ <<'LIMUXRELAYAUTH'";
  q "{~relay_id~:~" +:+ relay_id +:+ q "~,~relay_token~:~" +:+ relay_token +:+ q "~}";
  "LIMUXRELAYAUTH";
  q "chmod 600 ~$HOME/.limux/relay/" +:+ port +:+ q ".auth~";
  "printf '%s' '127.0.0.1:" +:+ port +:+ q "' > ~$HOME/.limux/socket_addr~";
  ""
].

Definition hello_json : string := q "{~id~:1,~method~:~hello~,~params~:{}}".
Definition hello_cmd (remote_path : string) : string :=
  q "sh -c 'printf ~%s\n~ '~'~'" +:+ hello_json +:+ q "'~'~' | " +:+ remote_path +:+ " serve --stdio'".

(** ** The operations *)

(** What is read of the daemon's answer to the greeting. *)
Record HelloFields := mkHelloFields {
  hf_ok : option bool; hf_error : option string; hf_name : option string; hf_version : option string;
  hf_capabilities : option (list (option string));
}.

Record BootEnv := mkBootEnv {
  outcome : nat -> CmdOutcome;
  effect_of : nat -> gmap string string -> gmap string string;
  others : nat -> gmap string string -> gmap string string;
  io_error : nat -> option string;
  file_mode : nat -> Z;
  nanos : nat -> N;
  cache_vars : CacheVars;
  LIMUX_REMOTE_DAEMON_BINARY : option string;
  embedded_manifest : string;
  parse_manifest : string -> DaemonManifest + string;
  sha256_hex : string -> string;
  parse_hello : string -> HelloFields + string;
}.

Section operations.
Context (E : BootEnv).
Local Abbreviation run_command := (run_command (outcome E) (effect_of E)).
Local Abbreviation run_ssh := (run_ssh (outcome E) (effect_of E)).
Local Abbreviation run_scp := (run_scp (outcome E) (effect_of E)).
Local Abbreviation path_exists := (path_exists (others E)).
Local Abbreviation read_file := (read_file (others E) (io_error E)).
Local Abbreviation create_dir_all := (create_dir_all (others E) (io_error E)).
Local Abbreviation set_executable := (set_executable (others E) (io_error E)).
Local Abbreviation rename := (rename (others E) (io_error E)).
Local Abbreviation remove_file := (remove_file (others E) (io_error E)).
Local Abbreviation mode_of := (mode_of (others E) (io_error E) (file_mode E)).

Definition probe_remote_platform (c : RemoteConfiguration) (version : string) : Boot ProbeResult :=
  let! output := run_ssh c (sh_c (probe_script version)) [] 20 in
  lift (parse_probe (stdout output)).

Definition download_binary (url dest : string) : Boot unit :=
  let! result := btry (run_command "curl" ["-fsSL"; "-o"; dest; url] 120) in
  match result with
  | inl _ => bret tt
  | inr _ =>
      let! result := btry (run_command "wget" ["-q"; "-O"; dest; url] 120) in
      match result with
      | inl _ => bret tt
      | inr _ => bfail (DownloadFailed ("both curl and wget failed for " +:+ url))
      end
  end.

Definition verify_sha256 (path expected_hex : string) : Boot unit :=
  let! data := read_file path in
  if negb (String.eqb (sha256_hex E data) (to_lowercase expected_hex)) then
    ignore (remove_file path) ;! bfail ChecksumMismatch
  else bret tt.

Definition manifest_url (version : string) : string :=
  "https://github.com/RyantHults/limux/releases/download/limuxd-remote-v" +:+ version +:+
  "/limuxd-remote-manifest.json".
Definition manifest_tmp (version : string) : string :=
  path_join (cache_dir (cache_vars E)) ("manifest-" +:+ version +:+ ".json.tmp").

(** The manifest built in, if there is one for this version. *)
Definition embedded (version : string) : option DaemonManifest :=
  match embedded_manifest E with
  | "" => None
  | text =>
      match parse_manifest E text with
      | inl m => if String.eqb (app_version m) version then Some m else None
      | inr _ => None
      end
  end.

Definition load_manifest (version : string) : Boot DaemonManifest :=
  match embedded version with
  | Some m => bret m
  | None =>
      let tmp := manifest_tmp version in
      ignore (create_dir_all (cache_dir (cache_vars E))) ;!
      download_binary (manifest_url version) tmp ;!
      (let! data := btry (read_file tmp) in
       match data with
       | inr e => bfail (DownloadFailed ("read manifest: " +:+ match e with IoError t => t | _ => "" end))
       | inl data =>
           if negb (valid_utf8 data) then bfail (DownloadFailed "read manifest: stream did not contain valid UTF-8")
           else
           ignore (remove_file tmp) ;!
           match parse_manifest E data with
           | inl m => bret m
           | inr e => bfail (DownloadFailed ("parse manifest: " +:+ e))
           end
       end)
  end.

(** The explicit binary, if it is set. *)
Definition override_binary (p : string) : Boot string :=
  let! ok := path_exists p in
  if negb ok then bfail (DownloadFailed ("LIMUX_REMOTE_DAEMON_BINARY path does not exist: " +:+ p))
  else
    let! mode := mode_of p in
    if Z.eqb (Z.land mode 73) 0
    then bfail (DownloadFailed ("LIMUX_REMOTE_DAEMON_BINARY is not executable: " +:+ p))
    else bret p.

Definition fetch_binary (go_os go_arch version path : string) : Boot string :=
  let! manifest := load_manifest version in
  match find_entry manifest go_os go_arch with
  | None => bfail (DownloadFailed ("no manifest entry for " +:+ platform go_os go_arch))
  | Some entry =>
      let tmp_path := tmp_of path in
      create_dir_all (default "" (fst <$> rsplit_slash path)) ;!
      download_binary (download_url entry) tmp_path ;!
      verify_sha256 tmp_path (sha256 entry) ;!
      set_executable tmp_path ;!
      rename tmp_path path ;!
      bret path
  end.

Definition ensure_local_binary (go_os go_arch version : string) : Boot string :=
  match LIMUX_REMOTE_DAEMON_BINARY E with
  | Some (String a r) => override_binary (String a r)
  | _ =>
      let path := cached_binary_path (cache_vars E) go_os go_arch version in
      let! cached := path_exists path in
      if cached then bret path else fetch_binary go_os go_arch version path
  end.

Definition upload_daemon_binary (c : RemoteConfiguration) (local_path remote_path : string) : Boot unit :=
  run_ssh c (mkdir_cmd remote_path) [] 12 ;!
  (fun h =>
    let n := nanos E (tick h) in
    let scp_path := default remote_path (strip_prefix "$HOME/" remote_path) in
    (run_scp (scp_args c local_path (suffixed scp_path n)) 45 ;!
     run_ssh c (finalize_cmd remote_path n) [] 12 ;! bret tt) h).

Definition install_remote_metadata (c : RemoteConfiguration) (relay_port : Z)
    (relay_id relay_token daemon_remote_path : string) : Boot unit :=
  run_ssh c (sh_c (install_script relay_port relay_id relay_token daemon_remote_path)) [] 12 ;! bret tt.

(** The first line that is not blank. *)
Definition response_line (out : string) : option string :=
  List.find (fun l => negb (String.eqb (trim l) "")) (str_lines out).

Definition read_hello (remote_path out : string) : DaemonHello + BootstrapError :=
  match response_line out with
  | None => inr (HelloFailed "empty response from daemon")
  | Some line =>
      match parse_hello E line with
      | inr e => inr (HelloFailed ("invalid JSON: " +:+ e))
      | inl f =>
          if negb (default false (hf_ok f)) then inr (HelloFailed (default "unknown error" (hf_error f)))
          else
            let capabilities := omap id (default [] (hf_capabilities f)) in
            if negb (existsb (fun c => String.eqb c REQUIRED_CAPABILITY) capabilities)
            then inr (MissingCapability REQUIRED_CAPABILITY)
            else inl (mkDaemonHello (default "limuxd-remote" (hf_name f)) (default "dev" (hf_version f))
                        capabilities remote_path)
      end
  end.

Definition hello_handshake (c : RemoteConfiguration) (remote_path : string) : Boot DaemonHello :=
  let! output := run_ssh c (hello_cmd remote_path) ["-T"; "-S"; "none"; "-o"; "RequestTTY=no"] 12 in
  lift (read_hello remote_path (stdout output)).

Definition bootstrap_daemon (c : RemoteConfiguration) (version : string) : Boot DaemonHello :=
  let! probe := probe_remote_platform c version in
  let remote_path := remote_daemon_path (pr_os probe) (pr_arch probe) version in
  let! local_binary := ensure_local_binary (pr_os probe) (pr_arch probe) version in
  (if binary_exists probe then bret tt else upload_daemon_binary c local_binary remote_path) ;!
  (let! hello := btry (hello_handshake c remote_path) in
   match hello with
   | inl hello => bret hello
   | inr e =>
       if binary_exists probe then
         upload_daemon_binary c local_binary remote_path ;! hello_handshake c remote_path
       else bfail e
   end).
End operations.
