(* ===== verification/BootstrapProps.v ===== *)
(** * What starting the daemon promises

    A host that is reported ready has greeted with the capability that is needed, from
    the binary that was probed or just uploaded; the commands run are bounded; a binary
    is cached only with the checksum of the manifest; the scripts arrive as they are. *)

From Stdlib Require Import Ascii.
From S2P Require Import Prelude RustStr RemoteConfig Workspace Surfaces Window SshDetect Socket FileDrop Settings Bootstrap.
Open Scope string_scope.
Open Scope list_scope.

(** ** The commands that an operation runs *)

Definition runs_within {A} (P : Call -> Prop) (k : nat) (m : Boot A) : Prop :=
  forall h, exists l, calls (m h).2 = calls h ++ l /\ Forall P l /\ length l <= k.

Section within.
Context (P : Call -> Prop).
Local Abbreviation within := (runs_within P).

Lemma within_weaken {A} (m : Boot A) j k : within j m -> j <= k -> within k m.
Proof. intros H Hle h. destruct (H h) as (l & ? & ? & ?). exists l. split_and!; [done|done|lia]. Qed.

Lemma within_ret {A} (a : A) k : within k (bret a).
Proof. intros h. exists []. simpl. split_and!; [by rewrite app_nil_r|done|lia]. Qed.
Lemma within_fail {A} e k : within k (@bfail A e).
Proof. intros h. exists []. simpl. split_and!; [by rewrite app_nil_r|done|lia]. Qed.
Lemma within_lift {A} (r : A + BootstrapError) k : within k (lift r).
Proof. destruct r; [apply within_ret|apply within_fail]. Qed.

Lemma within_bind {A B} (m : Boot A) (f : A -> Boot B) j k :
  within j m -> (forall a, within k (f a)) -> within (j + k) (bbind m f).
Proof.
  intros Hm Hf h. unfold bbind. destruct (Hm h) as (l & Hc & Hl & Hn).
  destruct (m h) as [[a|e] h1]; simpl in *; [|exists l; split_and!; [done|done|lia]].
  destruct (Hf a h1) as (l' & Hc' & Hl' & Hn'). exists (l ++ l').
  rewrite Hc', Hc, (assoc_L (++)), length_app. split_and!; [done|by apply Forall_app|lia].
Qed.

Lemma within_try {A} (m : Boot A) k : within k m -> within k (btry m).
Proof. intros Hm h. unfold btry. destruct (Hm h) as (l & H). exists l. by destruct (m h). Qed.
Lemma within_ignore {A} (m : Boot A) k : within k m -> within k (ignore m).
Proof.
  intros Hm. apply (within_weaken _ (k + 0)); [|lia].
  apply within_bind; [by apply within_try|intros; apply within_ret].
Qed.

Lemma within_run o e p args secs k : P (mkCall p args secs) -> 1 <= k -> within k (run_command o e p args secs).
Proof.
  intros HP Hk h. exists [mkCall p args secs]. unfold run_command. split_and!; [|by repeat constructor|simpl; lia].
  destruct (o (tick h)); try done. by repeat case_match.
Qed.

Lemma within_io {A} w e (f : gmap string string -> option (A * gmap string string)) k : within k (io w e f).
Proof.
  intros h. exists []. unfold io. rewrite app_nil_r. split_and!; [|done|simpl; lia].
  destruct (e (tick h)); [done|]. by destruct (f _) as [[a d]|].
Qed.
Lemma within_exists w p k : within k (path_exists w p).
Proof. intros h. exists []. rewrite app_nil_r. split_and!; [done|done|simpl; lia]. Qed.
End within.

Definition is_download (x : Call) : Prop := program x = "curl" \/ program x = "wget".

Section bootstrap.
Context (E : BootEnv).

Lemma download_within url dest : runs_within is_download 2 (download_binary E url dest).
Proof.
  unfold download_binary. apply (within_bind _ _ _ 1 1); [apply within_try, within_run; [by left|lia]|].
  intros [_|_]; [apply within_ret|]. apply (within_bind _ _ _ 1 0); [apply within_try, within_run; [by right|lia]|].
  intros [_|_]; [apply within_ret|apply within_fail].
Qed.

Lemma verify_within P path hex : runs_within P 0 (verify_sha256 E path hex).
Proof.
  unfold verify_sha256. apply (within_bind _ _ _ 0 0); [apply within_io|intros data]. case_match; [|apply within_ret].
  apply (within_bind _ _ _ 0 0); [apply within_ignore, within_io|intros; apply within_fail].
Qed.

Lemma manifest_within version : runs_within is_download 2 (load_manifest E version).
Proof.
  unfold load_manifest. destruct (embedded E version); [apply within_ret|].
  apply (within_bind _ _ _ 0 2); [apply within_ignore, within_io|intros _].
  apply (within_bind _ _ _ 2 0); [apply download_within|intros _].
  apply (within_bind _ _ _ 0 0); [apply within_try, within_io|intros [data|e]; [|apply within_fail]].
  destruct (valid_utf8 data); cbn [negb]; [|apply within_fail].
  apply (within_bind _ _ _ 0 0); [apply within_ignore, within_io|intros _].
  destruct (parse_manifest E data); [apply within_ret|apply within_fail].
Qed.

Lemma fetch_within os arch version path : runs_within is_download 4 (fetch_binary E os arch version path).
Proof.
  unfold fetch_binary. apply (within_bind _ _ _ 2 2); [apply manifest_within|intros m].
  destruct (find_entry m os arch) as [e|]; [|apply within_fail].
  apply (within_bind _ _ _ 0 2); [apply within_io|intros _].
  apply (within_bind _ _ _ 2 0); [apply download_within|intros _].
  apply (within_bind _ _ _ 0 0); [apply verify_within|intros _].
  apply (within_bind _ _ _ 0 0); [apply within_io|intros _].
  apply (within_bind _ _ _ 0 0); [apply within_io|intros _; apply within_ret].
Qed.

Lemma ensure_within os arch version : runs_within is_download 4 (ensure_local_binary E os arch version).
Proof.
  unfold ensure_local_binary.
  assert (runs_within is_download 4 (let! cached := path_exists (others E)
      (cached_binary_path (cache_vars E) os arch version) in
    if cached then bret (cached_binary_path (cache_vars E) os arch version)
    else fetch_binary E os arch version (cached_binary_path (cache_vars E) os arch version))) as H.
  { apply (within_bind _ _ _ 0 4); [apply within_exists|intros []]; [apply within_ret|apply fetch_within]. }
  destruct (LIMUX_REMOTE_DAEMON_BINARY E) as [[|a r]|]; [done| |done].
  unfold override_binary. apply (within_bind _ _ _ 0 4); [apply within_exists|intros []]; [|apply within_fail]. simpl.
  apply (within_bind _ _ _ 0 4); [intros h; apply within_io|intros mode]. case_match; [apply within_fail|apply within_ret].
Qed.

(** ** What a success means *)

Lemma bind_ok {A B} (m : Boot A) (f : A -> Boot B) h b h' :
  bbind m f h = (inl b, h') <-> exists a h1, m h = (inl a, h1) /\ f a h1 = (inl b, h').
Proof.
  unfold bbind. destruct (m h) as [[a|e] h1]; split; [by eauto|by intros (? & ? & [= <- <-] & ?)|done|].
  by intros (? & ? & [=] & _).
Qed.

Lemma try_ok {A} (m : Boot A) h r h' : btry m h = (inl r, h') -> m h = (r, h').
Proof. unfold btry. destruct (m h). naive_solver. Qed.

Definition ssh_call (c : RemoteConfiguration) (cmd : string) (extra : list string) (secs : Z) : Call :=
  mkCall "ssh" (ssh_batch_args c ++ extra ++ [destination c; cmd]) secs.

Lemma run_ssh_ok c cmd extra secs h out h' :
  run_ssh (outcome E) (effect_of E) c cmd extra secs h = (inl out, h') ->
  calls h' = calls h ++ [ssh_call c cmd extra secs] /\ success out = true /\
  exists st o e, outcome E (tick h) = Exits true st o e /\ stdout out = from_utf8_lossy o.
Proof.
  unfold run_ssh, run_command. intros H.
  destruct (outcome E (tick h)) as [e|e| |[] st o e] eqn:Eo; simpl in H; simplify_eq.
  simpl. eauto 10.
Qed.

Lemma run_ssh_fails c cmd extra secs h e h' :
  run_ssh (outcome E) (effect_of E) c cmd extra secs h = (inr e, h') ->
  calls h' = calls h ++ [ssh_call c cmd extra secs].
Proof.
  unfold run_ssh, run_command. intros H.
  destruct (outcome E (tick h)) as [e'|e'| |[] st o e']; simpl in H; simplify_eq; done.
Qed.

Lemma run_scp_ok args secs h out h' :
  run_scp (outcome E) (effect_of E) args secs h = (inl out, h') ->
  calls h' = calls h ++ [mkCall "scp" args secs] /\ success out = true.
Proof.
  unfold run_scp, run_command. intros H.
  destruct (outcome E (tick h)) as [e|e| |[] st o e] eqn:Eo; simpl in H; by simplify_eq.
Qed.

(** The three commands of an upload. *)
Definition upload_calls (c : RemoteConfiguration) (local_path remote_path : string) (n : N) : list Call :=
  [ssh_call c (mkdir_cmd remote_path) [] 12;
   mkCall "scp" (scp_args c local_path (suffixed (default remote_path (strip_prefix "$HOME/" remote_path)) n)) 45;
   ssh_call c (finalize_cmd remote_path n) [] 12].

Definition hello_call (c : RemoteConfiguration) (remote_path : string) : Call :=
  ssh_call c (hello_cmd remote_path) ["-T"; "-S"; "none"; "-o"; "RequestTTY=no"] 12.
Definition probe_call (c : RemoteConfiguration) (version : string) : Call :=
  ssh_call c (sh_c (probe_script version)) [] 20.

Lemma upload_ok c local_path remote_path h h' :
  upload_daemon_binary E c local_path remote_path h = (inl tt, h') ->
  exists n, calls h' = calls h ++ upload_calls c local_path remote_path n.
Proof.
  unfold upload_daemon_binary. intros (o1 & h1 & H1 & H)%bind_ok.
  apply bind_ok in H as (o2 & h2 & H2 & (o3 & h3 & H3 & [= <-])%bind_ok).
  apply run_ssh_ok in H1 as (C1 & _). apply run_scp_ok in H2 as (C2 & _). apply run_ssh_ok in H3 as (C3 & _).
  eexists. rewrite C3, C2, C1. unfold upload_calls. by rewrite <- !(assoc_L (++)).
Qed.

Lemma read_hello_ok path out hello :
  read_hello E path out = inl hello ->
  REQUIRED_CAPABILITY ∈ hello_capabilities hello /\ hello_remote_path hello = path.
Proof.
  unfold read_hello. intros H. repeat case_match; simplify_eq; try done. simpl. split; [|done].
  match goal with Hx : negb (existsb _ ?l) = false |- _ => apply negb_false_iff, existsb_exists in Hx as (x & Hx & Hc) end.
  apply String.eqb_eq in Hc as ->. by apply list_elem_of_In.
Qed.

(** The daemon at [path] answers the command that comes next with this greeting. *)
Definition greets (path : string) (h : Host) (hello : DaemonHello) : Prop :=
  exists st o e, outcome E (tick h) = Exits true st o e /\ read_hello E path (from_utf8_lossy o) = inl hello.

Lemma hello_ok c path h hello h' :
  hello_handshake E c path h = (inl hello, h') ->
  calls h' = calls h ++ [hello_call c path] /\
  REQUIRED_CAPABILITY ∈ hello_capabilities hello /\ hello_remote_path hello = path /\ greets path h hello.
Proof.
  unfold hello_handshake. intros (out & h1 & (C & _ & st & o & e & Ho & Hout)%run_ssh_ok & H)%bind_ok.
  unfold lift in H. destruct (read_hello E path (stdout out)) as [x|] eqn:Er; [|done]. injection H as -> ->.
  split; [exact C|]. rewrite Hout in Er. apply read_hello_ok in Er as Hr. destruct Hr. unfold greets. eauto 10.
Qed.

Lemma hello_fails c path h e h' :
  hello_handshake E c path h = (inr e, h') ->
  calls h' = calls h ++ [hello_call c path] /\ forall x, ~ greets path h x.
Proof.
  intros H. split.
  - revert H. unfold hello_handshake, bbind. destruct (run_ssh _ _ c _ _ _ h) as [[o|e'] h1] eqn:Er.
    + apply run_ssh_ok in Er as [C _]. unfold lift. destruct (read_hello E path (stdout o)); intros [= _ <-]; done.
    + apply run_ssh_fails in Er as C. by intros [= _ <-].
  - intros x (st & o & err & Ho & Hr). revert H. unfold hello_handshake, bbind, run_ssh, run_command.
    rewrite Ho. cbn. unfold lift. by rewrite Hr.
Qed.

Lemma any_ssh c cmd extra secs : runs_within (fun _ => True) 1 (run_ssh (outcome E) (effect_of E) c cmd extra secs).
Proof. by apply within_run. Qed.

Lemma upload_within c local_path path : runs_within (fun _ => True) 3 (upload_daemon_binary E c local_path path).
Proof.
  apply (within_bind _ _ _ 1 2); [apply any_ssh|intros _ h].
  apply (within_bind _ _ _ 1 1); [by apply within_run|intros _].
  apply (within_bind _ _ _ 1 0); [apply any_ssh|intros _; apply within_ret].
Qed.
Lemma hello_within c path : runs_within (fun _ => True) 1 (hello_handshake E c path).
Proof. apply (within_bind _ _ _ 1 0); [apply any_ssh|intros o; apply within_lift]. Qed.

Lemma ensure_any os arch version : runs_within (fun _ => True) 4 (ensure_local_binary E os arch version).
Proof.
  intros h. destruct (ensure_within os arch version h) as (l & ? & ? & ?). exists l.
  split_and!; [done|by apply Forall_true|done].
Qed.

(** However the host, the network and the files answer, at most ten commands run. *)
Lemma bootstrap_within c version : runs_within (fun _ => True) 10 (bootstrap_daemon E c version).
Proof.
  unfold bootstrap_daemon. apply (within_bind _ _ _ 1 9).
  { apply (within_bind _ _ _ 1 0); [apply any_ssh|intros o; apply within_lift]. }
  intros probe. set (path := remote_daemon_path _ _ _). apply (within_bind _ _ _ 4 5); [apply ensure_any|intros local].
  destruct (binary_exists probe).
  - apply (within_bind _ _ _ 0 5); [apply within_ret|intros _].
    apply (within_bind _ _ _ 1 4); [apply within_try, hello_within|intros [hello|e]; [apply within_ret|]].
    apply (within_bind _ _ _ 3 1); [apply upload_within|intros _; apply hello_within].
  - apply (within_bind _ _ _ 3 2); [apply upload_within|intros _].
    apply (within_bind _ _ _ 1 1); [apply within_try, hello_within|].
    intros [hello|e]; [apply within_ret|apply within_fail].
Qed.

(** What happens when the local binary [local] is there, to a host that had a binary or
    not, before the last greeting: a binary that was there is greeted as it is, and
    replaced by the local one just if it does not answer. *)
Definition before_greeting (c : RemoteConfiguration) (path local : string) (existed : bool) (h : Host)
    (rest : list Call) : Prop :=
  if existed
  then ((exists x, greets path h x) /\ rest = []) \/
       ((forall x, ~ greets path h x) /\ exists n, rest = hello_call c path :: upload_calls c local path n)
  else exists n, rest = upload_calls c local path n.

Lemma finish_ok c path local (existed : bool) h hello h' :
  ((if existed then bret tt else upload_daemon_binary E c local path) ;!
   (let! r := btry (hello_handshake E c path) in
    match r with
    | inl hello => bret hello
    | inr e => if existed then upload_daemon_binary E c local path ;! hello_handshake E c path else bfail e
    end)) h = (inl hello, h') ->
  exists rest last, calls last = calls h ++ rest /\ calls h' = calls last ++ [hello_call c path] /\
    before_greeting c path local existed h rest /\ greets path last hello /\
    REQUIRED_CAPABILITY ∈ hello_capabilities hello /\ hello_remote_path hello = path.
Proof.
  intros ([] & h1 & H1 & ([x|e] & h2 & H2%try_ok & H3)%bind_ok)%bind_ok.
  - injection H3 as -> ->. apply hello_ok in H2 as (C & Hcap & Hp & Hg). destruct existed.
    + injection H1 as <-. exists [], h. rewrite app_nil_r. split_and!; try done. left. eauto.
    + apply upload_ok in H1 as [n C1]. exists (upload_calls c local path n), h1. split_and!; try done. by exists n.
  - destruct existed; [|done]. injection H1 as <-. apply hello_fails in H2 as [C2 Hng].
    apply bind_ok in H3 as ([] & h3 & [n C3]%upload_ok & (C4 & Hcap & Hp & Hg)%hello_ok).
    exists (hello_call c path :: upload_calls c local path n), h3.
    split_and!; try done; [by rewrite C3, C2, <- (assoc_L (++))|]. right. split; [done|by exists n].
Qed.

(** C21: A start that succeeds has greeted a daemon with the capability the proxy
    needs, at the path of the platform that the host reported; the greeting was the last
    command, and its answer is the result.  Before it the host was probed and the local
    binary for that platform was got, from the cache or by downloads.  If the host had
    no binary, the local one was uploaded completely (directory, copy, move into place)
    just before the greeting; if it had one, that was greeted as it was, and it was
    replaced by the local one, and greeted once more, just if it did not answer with the
    capability.  However host, network and files answer, at most ten commands run. *)
Theorem bootstrap_ready c version h :
  (exists l, calls (bootstrap_daemon E c version h).2 = calls h ++ l /\ length l <= 10) /\
  forall hello h', bootstrap_daemon E c version h = (inl hello, h') ->
  exists probe st o e h1 local h2 downloads rest last,
    let path := remote_daemon_path (pr_os probe) (pr_arch probe) version in
    outcome E (tick h) = Exits true st o e /\ parse_probe (from_utf8_lossy o) = inl probe /\
    calls h1 = calls h ++ [probe_call c version] /\
    ensure_local_binary E (pr_os probe) (pr_arch probe) version h1 = (inl local, h2) /\
    calls h2 = calls h1 ++ downloads /\ Forall is_download downloads /\
    calls last = calls h2 ++ rest /\ before_greeting c path local (binary_exists probe) h2 rest /\
    calls h' = calls last ++ [hello_call c path] /\ greets path last hello /\
    REQUIRED_CAPABILITY ∈ hello_capabilities hello /\ hello_remote_path hello = path.
Proof.
  split; [by destruct (bootstrap_within c version h) as (l & ? & _ & ?); exists l|].
  intros hello h' (probe & h1 & H1 & (local & h2 & H2 & H3)%bind_ok)%bind_ok.
  apply bind_ok in H1 as (out & h0 & (C0 & _ & st & o & e & Ho & Hout)%run_ssh_ok & Hp).
  unfold lift in Hp. destruct (parse_probe (stdout out)) as [pr|] eqn:Epr; [|done]. injection Hp as -> ->.
  destruct (ensure_within (pr_os probe) (pr_arch probe) version h1) as (dl & C2 & Hdl & _).
  rewrite H2 in C2. simpl in C2. apply finish_ok in H3 as (rest & last & C3 & C4 & Hr & Hg & Hcap & Hpath).
  rewrite Hout in Epr. exists probe, st, o, e, h1, local, h2, dl, rest, last. by split_and!.
Qed.
End bootstrap.

(** ** The cache *)

Section cache.
Context (E : BootEnv) (p : string).

(** Nobody else writes the file [p] while this instance is at its own files. *)
Definition untouched (x : string) : Prop := forall n d, others E n d !! x = d !! x.
Definition not_written_by_commands (x : string) : Prop := forall n d, effect_of E n d !! x = d !! x.

Definition keeps {A} (m : Boot A) : Prop := forall h, disk (m h).2 !! p = disk h !! p.

Lemma keeps_bind {A B} (m : Boot A) (f : A -> Boot B) : keeps m -> (forall a, keeps (f a)) -> keeps (bbind m f).
Proof.
  intros Hm Hf h. unfold bbind. specialize (Hm h). destruct (m h) as [[a|e] h1]; [|done].
  simpl in Hm. by rewrite Hf.
Qed.
Lemma keeps_try {A} (m : Boot A) : keeps m -> keeps (btry m).
Proof. intros Hm h. unfold btry. specialize (Hm h). by destruct (m h). Qed.
Lemma keeps_ignore {A} (m : Boot A) : keeps m -> keeps (ignore m).
Proof. intros Hm. apply keeps_bind; [by apply keeps_try|done]. Qed.
Lemma keeps_run prog args secs :
  not_written_by_commands p -> keeps (run_command (outcome E) (effect_of E) prog args secs).
Proof.
  intros Hc h. unfold run_command. destruct (outcome E (tick h)); simpl; try apply Hc.
  repeat case_match; apply Hc.
Qed.
Lemma keeps_io {A} (f : gmap string string -> option (A * gmap string string)) :
  untouched p -> (forall d a d', f d = Some (a, d') -> d' !! p = d !! p) -> keeps (io (others E) (io_error E) f).
Proof.
  intros Ho Hf h. unfold io. destruct (io_error E (tick h)); simpl; [apply Ho|].
  destruct (f (others E (tick h) (disk h))) as [[a d]|] eqn:Ef; simpl; [|apply Ho].
  rewrite (Hf _ _ _ Ef). apply Ho.
Qed.

(** An access that succeeds: what it computed from the files it saw. *)
Lemma io_ok {A} (f : gmap string string -> option (A * gmap string string)) h a h' :
  io (others E) (io_error E) f h = (inl a, h') -> f (others E (tick h) (disk h)) = Some (a, disk h').
Proof. unfold io. intros H. repeat case_match; by simplify_eq. Qed.

Lemma verify_ok path hex h h' :
  untouched path -> verify_sha256 E path hex h = (inl tt, h') ->
  exists data, disk h' !! path = Some data /\ sha256_hex E data = to_lowercase hex.
Proof.
  intros Hu (data & h1 & Hr%io_ok & H)%bind_ok. apply bind_Some in Hr as (x & Hx & [= -> Hd]).
  case_match eqn:Hs; [by apply bind_ok in H as (? & ? & _ & ?)|]. injection H as <-. apply negb_false_iff, String.eqb_eq in Hs.
  exists data. by rewrite <- Hd.
Qed.

Lemma keeps_verify path hex : untouched p -> path <> p -> keeps (verify_sha256 E path hex).
Proof.
  intros Hu Hne. apply keeps_bind; [|intros data; case_match; [|done]].
  - apply keeps_io; [done|]. intros d a d' (x & _ & [= _ <-])%bind_Some. done.
  - apply keeps_bind; [|done]. apply keeps_ignore, keeps_io; [done|].
    intros d a d' (x & _ & [= _ <-])%bind_Some. by apply lookup_delete_ne.
Qed.

Lemma keeps_download url dest : not_written_by_commands p -> keeps (download_binary E url dest).
Proof.
  intros Hc. apply keeps_bind; [by apply keeps_try, keeps_run|intros [_|_]; [done|]].
  apply keeps_bind; [by apply keeps_try, keeps_run|by intros [_|_]].
Qed.

Lemma keeps_manifest version :
  untouched p -> not_written_by_commands p -> manifest_tmp E version <> p -> keeps (load_manifest E version).
Proof.
  intros Hu Hc Hne. unfold load_manifest. destruct (embedded E version); [done|].
  apply keeps_bind; [by apply keeps_ignore, keeps_io; [|intros d a d' [= _ <-]]|intros _].
  apply keeps_bind; [by apply keeps_download|intros _].
  apply keeps_bind.
  - apply keeps_try, keeps_io; [done|]. by intros d a d' (x & _ & [= _ <-])%bind_Some.
  - intros [data|e]; [|done]. destruct (valid_utf8 data); cbn [negb]; [|done]. apply keeps_bind; [|intros _; by destruct (parse_manifest E data)].
    apply keeps_ignore, keeps_io; [done|].
    intros d a d' (x & _ & [= _ <-])%bind_Some. by apply lookup_delete_ne.
Qed.

(** The file is not written by a fetch that fails. *)
Lemma fetch_fails os arch version h e h' :
  untouched p -> not_written_by_commands p -> manifest_tmp E version <> p -> tmp_of p <> p ->
  fetch_binary E os arch version p h = (inr e, h') -> disk h' !! p = disk h !! p.
Proof.
  intros Hu Hc Hm Ht H. unfold fetch_binary in H. unfold bbind at 1 in H.
  pose proof (keeps_manifest version Hu Hc Hm h) as Hk.
  destruct (load_manifest E version h) as [[m|e1] h1]; simpl in Hk; [|by simplify_eq].
  destruct (find_entry m os arch) as [en|]; [|by injection H as _ <-]. rewrite <- Hk. clear Hk.
  assert (keeps (create_dir_all (others E) (io_error E) (default "" (fst <$> rsplit_slash p)) ;!
    download_binary E (download_url en) (tmp_of p) ;! verify_sha256 E (tmp_of p) (sha256 en) ;!
    set_executable (others E) (io_error E) (tmp_of p))) as Hk.
  { apply keeps_bind; [by apply keeps_io; [|intros d a d' [= _ <-]]|intros _].
    apply keeps_bind; [by apply keeps_download|intros _]. apply keeps_bind; [by apply keeps_verify|intros _].
    apply keeps_io; [done|]. by intros d a d' (x & _ & [= _ <-])%bind_Some. }
  specialize (Hk h1). unfold bbind in *.
  destruct (create_dir_all (others E) (io_error E) _ h1) as [[[]|] h2]; [|by injection H as _ <-].
  destruct (download_binary E _ _ h2) as [[[]|] h3]; [|by injection H as _ <-].
  destruct (verify_sha256 E _ _ h3) as [[[]|] h4]; [|by injection H as _ <-].
  destruct (set_executable (others E) (io_error E) _ h4) as [[[]|] h5]; [|by injection H as _ <-].
  simpl in Hk. rewrite <- Hk. unfold rename, io in H.
  destruct (io_error E (tick h5)); [injection H as _ <-; apply Hu|].
  destruct (_ ≫= _) as [[[] d]|]; [done|]. injection H as _ <-. apply Hu.
Qed.

Lemma fetch_ok os arch version h q h' :
  untouched (tmp_of p) -> fetch_binary E os arch version p h = (inl q, h') ->
  q = p /\ exists m h1 en data, load_manifest E version h = (inl m, h1) /\ find_entry m os arch = Some en /\
    disk h' !! p = Some data /\ sha256_hex E data = to_lowercase (sha256 en).
Proof.
  intros Hu (m & h1 & Hm & H)%bind_ok. destruct (find_entry m os arch) as [en|] eqn:Hen; [|done].
  apply bind_ok in H as ([] & h2 & _ & ([] & h3 & _ & H)%bind_ok).
  apply bind_ok in H as ([] & h4 & (data & Hd & Hs)%verify_ok & H); [|done].
  apply bind_ok in H as ([] & h5 & Hx%io_ok & H). apply bind_Some in Hx as (x & _ & [= Hx]).
  apply bind_ok in H as ([] & h6 & Hr%io_ok & [= <- <-]). apply bind_Some in Hr as (y & Hy & [= Hr]).
  split; [done|]. exists m, h1, en, data. split_and!; try done.
  rewrite Hu, <- Hx, Hu, Hd in Hy. simplify_eq. by rewrite <- Hr, lookup_insert_eq.
Qed.
End cache.

(** C22: The binary that is used without an explicit one is the cached file, which was
    there or has, when it is returned, the checksum that the manifest gives for the
    platform, as long as no other instance writes the temporary file at the same time.
    A failed attempt leaves the cache as it was. *)
Theorem cached_binary_verified (E : BootEnv) os arch version h :
  LIMUX_REMOTE_DAEMON_BINARY E = None ->
  let p := cached_binary_path (cache_vars E) os arch version in
  untouched E (tmp_of p) ->
  (forall q h', ensure_local_binary E os arch version h = (inl q, h') ->
     q = p /\ (calls h' = calls h /\ is_Some (disk h' !! p) \/
       exists m entry data h1 h2, load_manifest E version h1 = (inl m, h2) /\ find_entry m os arch = Some entry /\
         disk h' !! p = Some data /\ sha256_hex E data = to_lowercase (sha256 entry))) /\
  (untouched E p -> not_written_by_commands E p -> manifest_tmp E version <> p ->
   forall e h', ensure_local_binary E os arch version h = (inr e, h') -> disk h' !! p = disk h !! p).
Proof.
  intros Ho p Hu. unfold ensure_local_binary. rewrite Ho. fold p. split.
  - intros q h' (ex & h1 & [= Hex <-] & H)%bind_ok. destruct ex; [injection H as <- <-|].
    + apply bool_decide_eq_true in Hex. split; [done|]. by left.
    + apply (fetch_ok E p) in H as (-> & m & h2 & en & data & H); [|done]. split; [done|right]. naive_solver.
  - intros Hup Hc Hm e h' H. unfold bbind, path_exists in H. simpl in H.
    destruct (bool_decide _); [done|].
    assert (tmp_of p <> p) as Ht.
    { intros Ht. apply (f_equal String.length) in Ht. unfold tmp_of in Ht. rewrite str_length_app in Ht.
      simpl in Ht. lia. }
    apply (fetch_fails E p) in H; [|done..]. rewrite H. apply Hup.
Qed.

(** ** Examples *)

Definition demo_manifest : DaemonManifest :=
  mkDaemonManifest 1 "0.4.0" "limuxd-remote-v0.4.0" "" [mkManifestEntry "linux" "amd64" "https://h/limuxd" "6F6B"].

Definition marker_lines : string :=
  script ["motd"; "__LIMUX_REMOTE_OS__=Linux"; "__LIMUX_REMOTE_ARCH__=x86_64"; "__LIMUX_REMOTE_EXISTS__=no"; ""].

(** A host without the binary.  The first command is the probe, the second the download,
    which leaves [got] in the temporary file; the checksum is the hexadecimal text; what
    others do is [busy]. *)
Definition demo_env (got : string) (busy : nat -> gmap string string -> gmap string string) : BootEnv :=
  let tmp := "/c/limux/remote-daemons/0.4.0/linux-amd64/limuxd-remote.tmp" in
  mkBootEnv
    (fun n => match n with 0 => Exits true "0" marker_lines "" | _ => Exits true "0" "{}" "" end)
    (fun n d => match n with 3 => <[tmp := got]> d | _ => d end) busy
    (fun _ => None) (fun _ => 493%Z) (fun _ => 255%N) (mkCacheVars (Some "/c") None) None "{}"
    (fun _ => inl demo_manifest) hex_of_bytes
    (fun _ => inl (mkHelloFields (Some true) None None None (Some [Some "proxy.stream.push"]))).

Definition demo_host : RemoteConfiguration :=
  mkRemoteConfiguration "me@host" None None [] None None None None None.
Definition quiet (_ : nat) (d : gmap string string) : gmap string string := d.

Lemma bootstrap_ready_witness :
  exists hello h', bootstrap_daemon (demo_env "ok" quiet) demo_host "0.4.0" (mkHost 0 [] ∅) = (inl hello, h') /\
    REQUIRED_CAPABILITY ∈ hello_capabilities hello /\ length (calls h') = 6.
Proof.
  destruct (bootstrap_daemon (demo_env "ok" quiet) demo_host "0.4.0" (mkHost 0 [] ∅)) as [[hello|e] h'] eqn:B.
  - exists hello, h'. split; [reflexivity|]. split.
    + destruct (proj2 (bootstrap_ready (demo_env "ok" quiet) demo_host "0.4.0" (mkHost 0 [] ∅)) hello h' B)
        as (pr & st & o & e & h1 & local & h2 & dl & rest & last & H). apply H.
    + vm_compute in B. injection B as _ <-. reflexivity.
  - vm_compute in B. discriminate.
Defined.

Lemma cached_binary_verified_witness :
  let p := "/c/limux/remote-daemons/0.4.0/linux-amd64/limuxd-remote" in
  exists h', ensure_local_binary (demo_env "ok" quiet) "linux" "amd64" "0.4.0" (mkHost 1 [] ∅) = (inl p, h') /\
    is_Some (disk h' !! p).
Proof.
  destruct (ensure_local_binary (demo_env "ok" quiet) "linux" "amd64" "0.4.0" (mkHost 1 [] ∅)) as [[q|e] h'] eqn:B.
  - destruct (proj1 (cached_binary_verified (demo_env "ok" quiet) "linux" "amd64" "0.4.0" (mkHost 1 [] ∅)
      eq_refl (fun _ _ => eq_refl)) q h' B) as [-> H].
    exists h'. split; [reflexivity|]. destruct H as [[_ H]|(m & en & data & h1 & h2 & _ & _ & H & _)]; [exact H|by exists data].
  - vm_compute in B. discriminate.
Defined.

(** The temporary file has the same name in all instances: when another one starts its
    download between the check and the move, an unchecked file is cached and used. *)
Definition other_download (n : nat) (d : gmap string string) : gmap string string :=
  match n with 6 => <["/c/limux/remote-daemons/0.4.0/linux-amd64/limuxd-remote.tmp" := "o"]> d | _ => d end.

Theorem cache_race :
  let p := "/c/limux/remote-daemons/0.4.0/linux-amd64/limuxd-remote" in
  match ensure_local_binary (demo_env "ok" other_download) "linux" "amd64" "0.4.0" (mkHost 1 [] ∅) with
  | (r, h') => r = inl p /\ disk h' !! p = Some "o" /\ hex_of_bytes "o" <> to_lowercase "6F6B"
  end.
Proof. vm_compute. split_and!; [reflexivity|reflexivity|discriminate]. Qed.

(** Only the status of ssh and scp is looked at: a curl that fails counts as a
    download, and wget is not tried. *)
Theorem curl_failure_not_retried (E : BootEnv) url dest h st out err :
  outcome E (tick h) = Exits false st out err ->
  (download_binary E url dest h).1 = inl tt /\
  calls (download_binary E url dest h).2 = calls h ++ [mkCall "curl" ["-fsSL"; "-o"; dest; url] 120].
Proof. intros H. unfold download_binary, bbind, btry, run_command. rewrite H. done. Qed.

(** The scripts reach the shell of the host as they are. *)
Theorem scripts_arrive text : sh_words false None (sh_c text) = Some ["sh"; "-c"; text].
Proof.
  unfold sh_c, single_quote. transitivity (cons "sh" <$> (cons "-c" <$>
    sh_words true (Some "") (replace_char "'" "'\''" text +:+ String "'" ""))); [reflexivity|].
  by rewrite (quoted_words text "" "").
Qed.

(** What the probe prints is what is read, whatever else the host prints before. *)
Lemma probe_markers os arch b noise :
  Forall (fun l => probe_line (mkMarkers None None false) l = mkMarkers None None false) noise ->
  foldl probe_line (mkMarkers None None false)
    (noise ++ ["__LIMUX_REMOTE_OS__=" +:+ os; "__LIMUX_REMOTE_ARCH__=" +:+ arch;
               "__LIMUX_REMOTE_EXISTS__=" +:+ (if b : bool then "yes" else "no")]) =
  mkMarkers (Some os) (Some arch) b.
Proof.
  intros H. rewrite foldl_app. assert (foldl probe_line (mkMarkers None None false) noise = mkMarkers None None false) as ->.
  { induction H as [|l ls Hl _ IH]; [done|]. cbn [foldl]. by rewrite Hl. }
  by destruct b.
Qed.
