(* ===== verification/Dbus.v ===== *)
(** * The D-Bus interface (app/src/dbus.rs)

    One definition for what each method does on the main thread, and the hand-over of
    calls from the thread of the bus to the main loop ([dispatch]).  One claim relates
    all the methods to the commands of the client program, the other is about the
    hand-over, whose time-out does not withdraw a call.  The methods that stay on the
    thread of the bus and the signals are in [Signals]; the encoding of messages belongs
    to the D-Bus library. *)

From Stdlib Require Import Ascii.
From S2P Require Import Prelude F64 SplitTree SplitTreeRefine RustStr RustNum RemoteConfig Workspace Surfaces Notebook Window WindowTabs WindowOk WindowProps WindowLife WindowClaims Session Socket SocketProps Cli.
Open Scope string_scope.
Open Scope list_scope.

(** ** The methods *)

Inductive Method :=
  | WorkspaceCountM | NewWorkspaceM | ListWorkspacesM | CurrentWorkspaceM
  | SelectWorkspaceM (id : Z) | CloseWorkspaceM (id : Z) | RenameWorkspaceM (id : Z) (name : string)
  | WorkspaceSetColorM (id : Z) (color : string) | WorkspacePinM (id : Z) | ToggleSidebarM
  | ListPanesM (ws_id : Z) | FocusPaneM (pane_id : Z) | SplitRightM | SplitDownM
  | ListSurfacesM | SendM (surface_id : Z) (text : string) | ReadScreenM (surface_id : Z)
  | OpenBrowserM (url : string) | NavigateM (browser_id : Z) (url : string)
  | BrowserBackM (browser_id : Z) | BrowserForwardM (browser_id : Z) | BrowserReloadM (browser_id : Z)
  | GetUrlM (browser_id : Z) | JsEvalM (browser_id : Z) (script : string)
  | SetStatusM (key value icon color : string) (priority : Z) | ClearStatusM (key : string)
  | SetProgressM (value : f64) (label : string) | ClearProgressM
  | LogM (message level : string) | ClearLogM
  | NotifyEnableM | NotifyDisableM | NotifyStatusM
  | RemoteConnectM (destination : string) (port : Z) (identity_file ssh_options : string)
  | RemoteDisconnectM (workspace_id : Z) (clear : bool) | RemoteReconnectM (workspace_id : Z)
  | RemoteStatusM (workspace_id : Z).

Inductive Reply :=
  | RUnit | RBool (b : bool) | RU32 (n : Z) | RStr (s : string) | RStrs (l : list string) | RIds (l : list Z)
  | RWorkspaces (l : list (Z * string * Z * bool * string)) | RCurrent (id : Z) (title : string).

(** [Option::from] of a text argument that is empty when it is not given, and of an
    identifier that is zero when it is not given. *)
Definition given (s : string) : option string := match s with "" => None | _ => Some s end.
Definition given_id (id : Z) : option Z := if Z.eqb id 0 then None else Some id.

(** [port as u16]. *)
Definition given_port (port : Z) : option Z := if Z.eqb port 0 then None else Some (port mod 65536)%Z.

(** [x as u32] of a count. *)
Definition as_u32 (n : nat) : Z := (Z.of_nat n mod (u32_max + 1))%Z.

Definition remote_of (destination : string) (port : Z) (identity_file ssh_options : string) : RemoteConfiguration :=
  mkRemoteConfiguration destination (given_port port) (given identity_file)
    (match ssh_options with "" => [] | _ => split_char "," ssh_options end) None None None None None.

Definition color_arg (color : string) : option WorkspaceColor :=
  if String.eqb color "" || String.eqb color "none" then None else color_from_name color.

Section methods.
Context {NB : Type} `{!NotebookOps NB}.
Context (ord : gmap Z Pane -> list PaneId) (get_url : BrowserPanelId -> option string).
Context (read_text : Z -> option string) (status_json : StatusInfo -> string).
Context (now : Z) (free_port : option Z) (urandom : nat -> option string).
Implicit Types (wd : World NB).

Definition unit_of wd : option (Reply * World NB) := Some (RUnit, wd).
Definition value (r : Reply) wd : option (Reply * World NB) := Some (r, wd).
Definition found_of (r : bool * AppWindow NB) wd : option (Reply * World NB) := Some (RBool r.1, with_win r.2 wd).

(** The workspace that metadata is set on.  If there is none, the identifier is zero,
    which is that of the first workspace. *)
Definition focused_or_zero wd : WorkspaceId := default 0%Z (focused_workspace_id (win wd)).
Definition notify_to (b : bool) wd : World NB :=
  call (TrayNotifications b) (mkWorld (win wd) b (next_browser wd) (calls wd)).

Definition open_browser (url : string) wd : World NB :=
  match current_ws (win wd) ≫= ws_focused_pane with
  | None => wd
  | Some _ =>
      let '(bid, nb) := fetch_next (next_browser wd) in
      mkWorld (split_focused_browser bid Horizontal url (win wd)) (notify_enabled wd) nb (calls wd)
  end.

Definition workspace_entry (e : WorkspaceId * string * nat * bool * option string) : Z * string * Z * bool * string :=
  let '(id, title, panes, pin, clr) := e in (id, title, as_u32 panes, pin, default "" clr).

(** The metadata of the focused workspace. *)
Definition set_status (key v icon color : string) (priority : Z) wd : World NB :=
  on_win (set_workspace_status (focused_or_zero wd) key v (given icon) (given color) priority) wd.
Definition clear_status (key : string) wd : World NB :=
  on_win (clear_workspace_status (focused_or_zero wd) key) wd.
Definition set_progress (v : f64) (label : string) wd : World NB :=
  on_win (set_workspace_progress (focused_or_zero wd) v (given label)) wd.
Definition clear_progress wd : World NB := on_win (clear_workspace_progress (focused_or_zero wd)) wd.
Definition log (message level : string) wd : World NB :=
  on_win (add_workspace_log (focused_or_zero wd) message (LogLevel_from_str level) None now) wd.
Definition clear_log wd : World NB := on_win (clear_workspace_log (focused_or_zero wd)) wd.

(** Remote workspaces. *)
Definition remote_connect (destination : string) (port : Z) (identity_file ssh_options : string) wd
    : Z * World NB :=
  let '(id, aw) := new_remote_workspace free_port urandom (remote_of destination port identity_file ssh_options)
                     (win wd) in
  (default 0%Z id, with_win aw wd).
Definition remote_disconnect (id : Z) (clear : bool) wd : World NB :=
  on_win (disconnect_remote (given_id id) clear) wd.
Definition remote_reconnect (id : Z) wd : World NB := on_win (reconnect_remote (given_id id)) wd.
Definition remote_status (id : Z) wd : string := default "{}" (remote_status_info status_json (given_id id) wd).

(** The closure that a method runs on the main thread; [None] is a panic. *)
Definition dbus_method (m : Method) wd : option (Reply * World NB) :=
  match m with
  | WorkspaceCountM => value (RU32 (as_u32 (workspace_count (win wd)))) wd
  | NewWorkspaceM => unit_of (on_win new_workspace wd)
  | ListWorkspacesM => value (RWorkspaces (workspace_entry <$> list_workspaces_detailed (win wd))) wd
  | CurrentWorkspaceM =>
      let '(id, title) := default (0%Z, "") (current_workspace_info (win wd)) in value (RCurrent id title) wd
  | SelectWorkspaceM id => found_of (select_workspace_by_id id (win wd)) wd
  | CloseWorkspaceM id => r ← close_workspace_by_id ord id (win wd); found_of r wd
  | RenameWorkspaceM id name => unit_of (on_win (rename_workspace id name) wd)
  | WorkspaceSetColorM id color => unit_of (on_win (set_workspace_color id (color_arg color)) wd)
  | WorkspacePinM id => unit_of (on_win (toggle_workspace_pinned id) wd)
  | ToggleSidebarM => unit_of (on_win toggle_sidebar wd)
  | ListPanesM id => value (RIds (default [] (list_panes ord id (win wd)))) wd
  | FocusPaneM pid => found_of (focus_pane_by_id pid (win wd)) wd
  | SplitRightM => unit_of (on_win (split_focused Horizontal) wd)
  | SplitDownM => unit_of (on_win (split_focused Vertical) wd)
  | ListSurfacesM => value (RStrs (list_surfaces_detailed ord get_url (win wd))) wd
  | SendM sid text => let '(b, wd) := send_text sid text wd in value (RBool b) wd
  | ReadScreenM sid => value (RStr (default "" (read_surface_scrollback read_text sid wd))) wd
  | OpenBrowserM url => unit_of (open_browser url wd)
  | NavigateM id url => unit_of (call (NavigateTo id (normalize_url url)) wd)
  | BrowserBackM id => unit_of (call (GoBack id) wd)
  | BrowserForwardM id => unit_of (call (GoForward id) wd)
  | BrowserReloadM id => unit_of (call (Reload id) wd)
  | GetUrlM id => value (RStr (default "" (get_url id))) wd
  | JsEvalM id s => unit_of (call (EvalJs id s) wd)
  | SetStatusM key v icon clr priority => unit_of (set_status key v icon clr priority wd)
  | ClearStatusM key => unit_of (clear_status key wd)
  | SetProgressM v label => unit_of (set_progress v label wd)
  | ClearProgressM => unit_of (clear_progress wd)
  | LogM message level => unit_of (log message level wd)
  | ClearLogM => unit_of (clear_log wd)
  | NotifyEnableM => unit_of (notify_to true wd)
  | NotifyDisableM => unit_of (notify_to false wd)
  | NotifyStatusM => value (RBool (notify_enabled wd)) wd
  | RemoteConnectM d p i o => let '(id, wd) := remote_connect d p i o wd in value (RU32 id) wd
  | RemoteDisconnectM id clear => unit_of (remote_disconnect id clear wd)
  | RemoteReconnectM id => unit_of (remote_reconnect id wd)
  | RemoteStatusM id => value (RStr (remote_status id wd)) wd
  end.

(** ** The hand-over *)

(** What a caller gets: the method's result, or an error. *)
Inductive Answer := Returned (r : Reply) | Failed (msg : string).

(** The calls are numbered in the order they are made.  [queue] holds the closures given
    to [MainContext::invoke], [awaiting] the calls whose [oneshot] receiver is alive. *)
Record Bus := mkBus {
  b_world : World NB; b_next : nat; b_queue : list (nat * Method); b_awaiting : gset nat;
  b_answers : list (nat * Answer);
}.

Definition bus_start wd : Bus := mkBus wd 0 [] ∅ [].

(** The thread of the bus makes a call; the main loop runs the next closure; the five
    seconds of a call are over. *)
Inductive BusEvent := Invoke (m : Method) | RunNext | TimeUp (k : nat).

(** [tx.send]: without a receiver the result is dropped. *)
Definition send_back (k : nat) (a : Answer) (b : Bus) : Bus :=
  if decide (k ∈ b_awaiting b)
  then mkBus (b_world b) (b_next b) (b_queue b) (b_awaiting b ∖ {[k]}) (b_answers b ++ [(k, a)])
  else b.

(** [None] is a panic on the main thread. *)
Definition bus_step (b : Bus) (e : BusEvent) : option Bus :=
  match e with
  | Invoke m =>
      Some (mkBus (b_world b) (S (b_next b)) (b_queue b ++ [(b_next b, m)])
              (b_awaiting b ∪ {[b_next b]}) (b_answers b))
  | RunNext =>
      match b_queue b with
      | [] => Some b
      | (k, m) :: queue =>
          '(r, wd) ← dbus_method m (b_world b);
          Some (send_back k (Returned r) (mkBus wd (b_next b) queue (b_awaiting b) (b_answers b)))
      end
  | TimeUp k => Some (send_back k (Failed "dispatch timeout") b)
  end.

Fixpoint run_bus (b : Bus) (l : list BusEvent) : option Bus :=
  match l with
  | [] => Some b
  | e :: l => b ← bus_step b e; run_bus b l
  end.

(** *** Specification: the methods, one after the other *)

Definition invoked (l : list BusEvent) : list Method :=
  omap (fun e => match e with Invoke m => Some m | _ => None end) l.

(** The results of a sequence of methods and the state after it. *)
Fixpoint run_methods (l : list Method) wd : option (list Reply * World NB) :=
  match l with
  | [] => Some ([], wd)
  | m :: l =>
      '(r, wd) ← dbus_method m wd;
      '(rs, wd) ← run_methods l wd;
      Some (r :: rs, wd)
  end.

Lemma run_methods_snoc l m wd rs wd1 r wd2 :
  run_methods l wd = Some (rs, wd1) -> dbus_method m wd1 = Some (r, wd2) ->
  run_methods (l ++ [m]) wd = Some (rs ++ [r], wd2).
Proof.
  revert wd rs. induction l as [|m' l IH]; intros wd rs; simpl.
  - intros [= <- <-] ->. done.
  - destruct (dbus_method m' wd) as [[r' wd']|]; simpl; [|done].
    destruct (run_methods l wd') as [[rs' wd'']|] eqn:E; simpl; [|done].
    intros [= <- <-] Hm. by rewrite (IH _ _ E Hm).
Qed.

(** The answers to [n] calls, of which those that have run have the results [rs]: each is
    the result of its call or the time-out, a call is answered once, and a call that is
    not answered awaits. *)
Record answers_ok (n : nat) (rs : list Reply) (b : Bus) : Prop := {
  ao_nodup : NoDup (b_answers b).*1;
  ao_awaiting k : k ∈ b_awaiting b -> (k < n)%nat /\ k ∉ (b_answers b).*1;
  ao_known k : k ∈ (b_answers b).*1 -> (k < n)%nat;
  ao_answer k a : (k, a) ∈ b_answers b ->
    a = Failed "dispatch timeout" \/ exists r, a = Returned r /\ rs !! k = Some r;
  ao_all k : (k < n)%nat -> k ∈ (b_answers b).*1 \/ k ∈ b_awaiting b;
}.

(** The closures that have run are the first calls, those in the queue the others. *)
Record bus_ok wd0 (ms : list Method) (rs : list Reply) (b : Bus) : Prop := {
  bo_ran : exists ran, ms = ran ++ (b_queue b).*2 /\ length ran = length rs /\
    run_methods ran wd0 = Some (rs, b_world b);
  bo_queue : (b_queue b).*1 = seq (length rs) (length (b_queue b));
  bo_next : b_next b = length ms;
  bo_pending k : k ∈ b_awaiting b -> (length rs <= k)%nat;
  bo_answers : answers_ok (length ms) rs b;
}.

Lemma send_back_fields k a b :
  b_world (send_back k a b) = b_world b /\ b_next (send_back k a b) = b_next b /\
  b_queue (send_back k a b) = b_queue b /\ b_awaiting (send_back k a b) = b_awaiting b ∖ {[k]}.
Proof. unfold send_back. case_decide; simpl; split_and!; try done. set_solver. Qed.

Lemma send_back_answers n rs k a b :
  (a = Failed "dispatch timeout" \/ exists r, a = Returned r /\ rs !! k = Some r) ->
  answers_ok n rs b -> answers_ok n rs (send_back k a b).
Proof.
  intros Ha []. unfold send_back. case_decide as Hk; [|by constructor].
  destruct (ao_awaiting0 _ Hk) as [Hn Hf].
  constructor; cbn [b_answers b_awaiting]; rewrite ?fmap_app; simpl.
  - apply NoDup_app. split_and!; [done| |apply NoDup_singleton]. set_solver.
  - intros j [Hj Hjk]%elem_of_difference. destruct (ao_awaiting0 _ Hj). set_solver.
  - intros j [Hj|Hj]%elem_of_app; [auto|]. apply list_elem_of_singleton in Hj. lia.
  - intros j x [Hj|[= -> ->]%list_elem_of_singleton]%elem_of_app; [eauto|done].
  - intros j Hj. destruct (decide (j = k)) as [->|]; [set_solver|].
    destruct (ao_all0 _ Hj); set_solver.
Qed.

Lemma bus_step_ok wd0 ms rs b e b' :
  bus_ok wd0 ms rs b -> bus_step b e = Some b' ->
  exists rs', bus_ok wd0 (ms ++ invoked [e]) rs' b'.
Proof.
  intros [(ran & Hms & Hlen & Hran) Hq Hn Hp Ha]. destruct e as [m| |k]; cbn [bus_step invoked omap list_omap].
  - intros [= <-]. exists rs. constructor; cbn [b_queue b_next b_awaiting b_world].
    + exists ran. by rewrite fmap_app, app_assoc, Hms.
    + rewrite fmap_app, Hq, length_app, seq_app. simpl. rewrite Hn, Hms, length_app, length_fmap. by rewrite Hlen.
    + rewrite length_app. simpl. lia.
    + intros k [Hk|Hk%elem_of_singleton]%elem_of_union; [by apply Hp|].
      rewrite Hk, Hn, Hms, length_app. lia.
    + destruct Ha. rewrite length_app, Hn. simpl.
      constructor; cbn [b_answers b_awaiting]; try done.
      * intros k [Hk| ->%elem_of_singleton]%elem_of_union; [destruct (ao_awaiting0 _ Hk); split; [lia|done]|].
        split; [lia|]. intros Hk%ao_known0. lia.
      * intros k Hk%ao_known0. lia.
      * intros k Hk. destruct (decide (k = length ms)) as [->|]; [set_solver|].
        destruct (ao_all0 k); [lia|by left|set_solver].
  - destruct (b_queue b) as [|[k m] queue] eqn:Eq.
    { intros [= <-]. exists rs. rewrite app_nil_r. constructor; rewrite ?Eq; eauto. }
    destruct (dbus_method m (b_world b)) as [[r wd]|] eqn:Em; simpl; [|done]. intros [= <-].
    rewrite app_nil_r. exists (rs ++ [r]). simpl in Hq. injection Hq as -> Hq.
    match goal with |- context [send_back ?k ?a ?b] =>
      destruct (send_back_fields k a b) as (Ew & En & EQ & EA) end.
    constructor; rewrite ?Ew, ?En, ?EQ, ?EA; cbn [b_queue b_next b_awaiting b_world].
    + exists (ran ++ [m]). split_and!.
      * by rewrite <- app_assoc, Hms.
      * by rewrite !length_app, Hlen.
      * by eapply run_methods_snoc.
    + rewrite length_app, Nat.add_1_r. exact Hq.
    + done.
    + intros j [Hj Hjk]%elem_of_difference. rewrite length_app. simpl. specialize (Hp _ Hj). assert (j <> length rs) by set_solver. lia.
    + apply send_back_answers.
      * right. exists r. split; [done|]. by apply list_lookup_middle.
      * destruct Ha. constructor; cbn [b_answers b_awaiting]; try done.
        intros j a Hj. destruct (ao_answer0 _ _ Hj) as [|(r' & -> & Hr)]; [by left|right].
        exists r'. split; [done|]. by apply lookup_app_l_Some.
  - intros [= <-]. rewrite app_nil_r. exists rs.
    destruct (send_back_fields k (Failed "dispatch timeout") b) as (Ew & En & EQ & EA).
    constructor; rewrite ?Ew, ?En, ?EQ, ?EA; eauto.
    + intros j Hj. apply Hp. set_solver.
    + apply send_back_answers; auto.
Qed.

Lemma run_bus_ok wd0 l ms rs b b' :
  bus_ok wd0 ms rs b -> run_bus b l = Some b' -> exists rs', bus_ok wd0 (ms ++ invoked l) rs' b'.
Proof.
  revert ms rs b. induction l as [|e l IH]; intros ms rs b Hb; simpl.
  - intros [= <-]. exists rs. by rewrite app_nil_r.
  - destruct (bus_step b e) as [b1|] eqn:E; simpl; [|done]. intros Hr.
    destruct (bus_step_ok _ _ _ _ _ _ Hb E) as [rs1 H1].
    destruct (IH _ _ _ H1 Hr) as [rs' H']. exists rs'. rewrite <- app_assoc in H'.
    by destruct e.
Qed.

Lemma bus_start_ok wd0 : bus_ok wd0 [] [] (bus_start wd0).
Proof.
  constructor; simpl; [by exists []|done|done|set_solver|].
  constructor; simpl; [constructor|set_solver..|lia].
Qed.

(** *** The commands of the client *)

(** The methods and the commands that stand for the same operation.  The client's name
    of a workspace, its addresses and its key to be cleared are trimmed by the server,
    those of a method are taken as they are; an empty text of a method and an identifier,
    port or priority of zero stand for what is not given. *)
Inductive twin : Method -> CliCommand -> Prop :=
  | tw_new : twin NewWorkspaceM (CWorkspace CNewWorkspace)
  | tw_count : twin WorkspaceCountM (CWorkspace CWorkspaceCount)
  | tw_list : twin ListWorkspacesM (CWorkspace CListWorkspaces)
  | tw_current : twin CurrentWorkspaceM (CWorkspace CCurrentWorkspace)
  | tw_color id color : twin (WorkspaceSetColorM id color) (CWorkspace (CWorkspaceSetColor id color))
  | tw_pin id : twin (WorkspacePinM id) (CWorkspace (CWorkspacePin id))
  | tw_select id : twin (SelectWorkspaceM id) (CWorkspace (CSelectWorkspace id))
  | tw_close id : twin (CloseWorkspaceM id) (CWorkspace (CCloseWorkspace (Some id)))
  | tw_list_panes id : twin (ListPanesM id) (CWorkspace (CListPanes (Some id)))
  | tw_focus id : twin (FocusPaneM id) (CWorkspace (CFocusPane id))
  | tw_rename id name : twin (RenameWorkspaceM id (trim name)) (CWorkspace (CRenameWorkspace id name))
  | tw_sidebar : twin ToggleSidebarM (CWorkspace CToggleSidebar)
  | tw_right : twin SplitRightM (CSplit CSplitRight)
  | tw_down : twin SplitDownM (CSplit CSplitDown)
  | tw_surfaces : twin ListSurfacesM CListSurfaces
  | tw_send id text : twin (SendM id text) (CTerminal (CSend id text))
  | tw_read id : twin (ReadScreenM id) (CTerminal (CReadScreen id))
  | tw_open url : twin (OpenBrowserM (trim url)) (CBrowser (COpenBrowser url))
  | tw_navigate id url : twin (NavigateM id (trim url)) (CBrowser (CNavigate id url))
  | tw_back id : twin (BrowserBackM id) (CBrowser (CBrowserBack id))
  | tw_forward id : twin (BrowserForwardM id) (CBrowser (CBrowserForward id))
  | tw_reload id : twin (BrowserReloadM id) (CBrowser (CBrowserReload id))
  | tw_get_url id : twin (GetUrlM id) (CBrowser (CGetUrl id))
  | tw_js id script : twin (JsEvalM id script) (CBrowser (CJsEval id script))
  | tw_status key v icon color priority :
      twin (SetStatusM key v icon color priority) (CMetadata (CSetStatus key v (given icon) (given color) (given_id priority)))
  | tw_clear_status key : twin (ClearStatusM (trim key)) (CMetadata (CClearStatus key))
  | tw_progress v label : twin (SetProgressM v label) (CMetadata (CSetProgress v (given label)))
  | tw_clear_progress : twin ClearProgressM (CMetadata CClearProgress)
  | tw_log message level : twin (LogM message level) (CMetadata (CLog message level))
  | tw_clear_log : twin ClearLogM (CMetadata CClearLog)
  | tw_enable : twin NotifyEnableM (CMetadata CNotifyEnable)
  | tw_disable : twin NotifyDisableM (CMetadata CNotifyDisable)
  | tw_notify_status : twin NotifyStatusM (CMetadata CNotifyStatus)
  | tw_connect destination port identity o : (0 <= port <= u16_max)%Z -> has_byte "," o = false ->
      twin (RemoteConnectM destination port identity o)
        (CRemote (CRemoteConnect destination (given_id port) (given identity) (option_list (given o)) None))
  | tw_disconnect id : twin (RemoteDisconnectM id false) (CRemote (CRemoteDisconnect (given_id id) false))
  | tw_reconnect id : twin (RemoteReconnectM id) (CRemote (CRemoteReconnect (given_id id)))
  | tw_remote_status id : twin (RemoteStatusM id) (CRemote (CRemoteStatus (given_id id))).

(** What a method returns when there is nothing to return. *)
Definition nothing (r : Reply) : Prop :=
  r = RBool false \/ r = RCurrent 0 "" \/ r = RIds [] \/ r = RStr "" \/ r = RStr "{}" \/ r = RU32 0.

(** A reply of the bus and an answer of the socket that say the same. *)
Inductive same_answer (debug_str : string -> string) : Reply -> string -> Prop :=
  | sa_unit : same_answer debug_str RUnit "OK"
  | sa_true : same_answer debug_str (RBool true) "OK"
  | sa_nothing r msg : nothing r -> same_answer debug_str r ("ERROR: " +:+ msg)
  | sa_count n : same_answer debug_str (RU32 (as_u32 n)) ("OK " +:+ show_uint (Z.of_nat n))
  | sa_id n : same_answer debug_str (RU32 n) ("OK " +:+ show_uint n)
  | sa_ids l : same_answer debug_str (RIds l) ("OK " +:+ join "," (show_uint <$> l))
  | sa_text t : same_answer debug_str (RStr t) (multi_line t)
  | sa_line t : same_answer debug_str (RStr t) ("OK " +:+ t)
  | sa_lines l : same_answer debug_str (RStrs l) (ok_lines l)
  | sa_workspaces l : same_answer debug_str (RWorkspaces (workspace_entry <$> l)) (ok_lines (Socket.workspace_line debug_str <$> l))
  | sa_current id title : same_answer debug_str (RCurrent id title) ("OK " +:+ show_uint id +:+ " " +:+ title)
  | sa_status (b : bool) : same_answer debug_str (RBool b) ("OK " +:+ if b then "enabled" else "disabled").

Section twins.
Context (pkg_version : string) (debug_str : string -> string) (show_f64 : f64 -> string).

Local Abbreviation means := (means ord pkg_version get_url read_text debug_str status_json now free_port urandom show_f64).

Definition says_same (b : option (Reply * World NB)) (r : option (string * World NB)) : Prop :=
  exists rep s wd, b = Some (rep, wd) /\ r = Some (s, wd) /\ same_answer debug_str rep s.

Lemma found_same msg (r : bool * AppWindow NB) wd :
  says_same (found_of r wd) (found ("ERROR: " +:+ msg) r wd).
Proof.
  destruct r as [[] aw]; eexists _, _, _; split_and!; try reflexivity; constructor. by left.
Qed.

Lemma say rep s wd : same_answer debug_str rep s -> says_same (Some (rep, wd)) (Some (s, wd)).
Proof. intros H. by exists rep, s, wd. Qed.
Lemma say_nothing rep msg wd : nothing rep -> says_same (Some (rep, wd)) (Some ("ERROR: " +:+ msg, wd)).
Proof. intros H. by apply say, sa_nothing. Qed.

Lemma or_error_same {A} msg (x : option A) (f : A -> string) rep wd :
  (forall a, x = Some a -> same_answer debug_str rep (f a)) -> (x = None -> nothing rep) ->
  says_same (Some (rep, wd)) (or_error ("ERROR: " +:+ msg) x f wd).
Proof. intros H1 H2. unfold or_error. apply say. destruct x; [by apply H1|]. by apply sa_nothing, H2. Qed.

Lemma given_some s v : given s = Some v -> s = v.
Proof. destruct s; [done|]. by intros [= <-]. Qed.
Lemma given_id_default z : default 0%Z (given_id z) = z.
Proof. unfold given_id. by destruct (Z.eqb_spec z 0). Qed.

Lemma connect_same destination port identity o wd :
  (0 <= port <= u16_max)%Z -> has_byte "," o = false ->
  says_same (let '(id, wd) := remote_connect destination port identity o wd in value (RU32 id) wd)
    (connected (new_remote_workspace free_port urandom
       (mkRemoteConfiguration destination (given_id port) (given identity) (option_list (given o)) None None None None None)
       (win wd)) wd).
Proof.
  intros Hp Ho. unfold remote_connect, remote_of, connected.
  assert (given_port port = given_id port) as ->.
  { unfold given_port, given_id. destruct (Z.eqb_spec port 0); [done|]. unfold u16_max in Hp. by rewrite Z.mod_small by lia. }
  assert (match o with "" => [] | _ => split_char "," o end = option_list (given o)) as ->.
  { destruct o as [|c o]; [done|]. change (option_list (given (String c o))) with [String c o].
    assert (forall s, has_byte "," s = false -> split_char "," s = [s]) as H; [|by apply H].
    clear. intros s. induction s as [|c s IH]; [done|]. cbn [has_byte split_char]. intros [-> H]%orb_false_iff.
    by rewrite IH. }
  destruct (new_remote_workspace _ _ _ _) as [[id|] aw]; cbn [fst snd].
  - apply say. apply sa_id.
  - apply (say_nothing (RU32 0)). unfold nothing. auto 10.
Qed.

Ltac same := by eexists _, _, _; split_and!; [reflexivity|reflexivity|constructor].
Ltac focused := unfold focused_or_zero; match goal with H : focused_workspace_id _ = _ |- _ => rewrite H end; same.

Ltac use_fact :=
  match goal with
  | H : close_workspace_by_id _ _ _ = _ |- _ => rewrite H
  | H : list_panes _ _ _ = _ |- _ => rewrite H
  | H : get_handle _ _ = _ |- _ => unfold send_text; rewrite H
  | H : Socket.read_surface_scrollback _ _ _ = _ |- _ => rewrite H
  | H : current_ws _ ≫= _ = _ |- _ => unfold open_browser; rewrite H
  end.
Ltac no_answer := apply say_nothing; unfold nothing; auto 10.

Lemma twin_means m c wd r : twin m c -> means c wd r -> says_same (dbus_method m wd) r.
Proof.
  intros Ht Hm. destruct Ht; inversion Hm; subst; cbn [dbus_method];
    try (match goal with b : bool |- _ => destruct b; simplify_eq end);
    unfold set_status, clear_status, set_progress, clear_progress, log, clear_log;
    rewrite ?given_id_default;
    try (match goal with H : option_list _ = option_list _ |- _ => rewrite H end; by apply connect_same);
    try same; try focused;
    try apply (found_same "workspace not found"); try apply (found_same "pane not found");
    try (use_fact; same); try (use_fact; no_answer).
  - unfold value. destruct (current_workspace_info (win wd)) as [[id title]|]; [apply say, sa_current|no_answer].
  - unfold color_arg. match goal with H : plain color = true |- _ => apply plain_spec in H as (_ & _ & _ & Hne) end.
    rewrite (proj2 (String.eqb_neq _ _) Hne), (proj2 (String.eqb_neq color "none")) by done.
    match goal with H : color_from_name _ = _ |- _ => simpl; rewrite H end. same.
  - use_fact. simpl. apply (found_same "workspace not found or pinned").
  - unfold read_surface_scrollback. simplify_option_eq.
    destruct (truncate_to_last_n_lines full MAX_SCROLLBACK_LINES); [done|]. same.
  - apply or_error_same; [by intros a ->; apply sa_line|]. intros ->. unfold nothing. auto 10.
  - unfold remote_status. apply or_error_same; [by intros a ->; apply sa_text|]. intros ->. unfold nothing. auto 10.
Qed.
End twins.
End methods.

(** C25: the bus and the socket are two ways to the same operations: each method of the
    bus and the subcommand of the client that stands for it ([twin]), given the same
    state, leave the same state behind, and the method returns what the server's answer
    says: the same value, true for OK, and for an error false or the value that stands
    for nothing.  All 37 methods have such a command, for the arguments for which a
    command means something (so the metadata methods when a workspace is focused, and a
    color that exists): what the server trims is trimmed, an empty text and a zero stand
    for what is not given, a port has sixteen bits, there is one ssh option at most, and
    remote_disconnect does not clear the configuration. *)
Theorem dbus_agrees_with_cli {NB} `{NotebookOps NB} ord ver get_url read_text debug json now fp ur
    show_f64 m c (wd : World NB) r :
  twin m c -> means ord ver get_url read_text debug json now fp ur show_f64 c wd r ->
  exists rep s wd',
    dbus_method ord get_url read_text json now fp ur m wd = Some (rep, wd') /\
    request ord ver get_url read_text debug json now fp ur (command_line show_f64 c) wd =
      Some ("", frame s, wd') /\
    same_answer debug rep s.
Proof.
  intros Ht Hm. rewrite (means_request ord ver get_url read_text debug json now fp ur show_f64 c wd r Hm).
  destruct (twin_means ord get_url read_text json now fp ur ver debug show_f64 m c wd r Ht Hm) as (rep & s & wd' & Hd & -> & Hs).
  by exists rep, s, wd'.
Qed.

Lemma dbus_agrees_with_cli_witness :
  (exists rep s wd, dbus_method key_order no_text no_text (fun _ => "") 0 None (fun _ => None)
    (SelectWorkspaceM 1) demo_world = Some (rep, wd) /\
  request key_order "0" no_text no_text (fun s => s) (fun _ => "") 0 None (fun _ => None)
    (command_line (fun _ => "") (CWorkspace (CSelectWorkspace 1))) demo_world = Some ("", frame s, wd) /\
  same_answer (fun s => s) rep s) /\
  (exists rep s wd, dbus_method key_order no_text no_text (fun _ => "") 0 None (fun _ => None)
    (SetStatusM "build" "2 errors" "" "red" 0) demo_world = Some (rep, wd) /\
  request key_order "0" no_text no_text (fun s => s) (fun _ => "") 0 None (fun _ => None)
    "set_status build 2 errors --color=red" demo_world = Some ("", frame s, wd) /\
  same_answer (fun s => s) rep s).
Proof.
  split.
  - eapply (dbus_agrees_with_cli key_order "0" no_text no_text (fun s => s) (fun _ => "") 0 None
      (fun _ => None) (fun _ => "")); [apply tw_select|].
    apply means_select. unfold u32, u32_max. lia.
  - eapply (dbus_agrees_with_cli key_order "0" no_text no_text (fun s => s) (fun _ => "") 0 None
      (fun _ => None) (fun _ => "") _ (CMetadata (CSetStatus "build" "2 errors" None (Some "red") None)));
      [apply (tw_status "build" "2 errors" "" "red" 0)|].
    apply (means_set_status _ _ _ _ _ _ _ _ _ _ 1 "build" ["2"; "errors"] None (Some "red") None);
      try reflexivity; [by repeat constructor|discriminate|discriminate].
Defined.

(** C24: the calls of the bus run one at a time and in the order they are made, however
    the calls, the turns of the main loop and the time-outs interleave: the state is that
    of the first calls run one after the other, the others are waiting for their turn.
    A caller gets one answer at most, which is the result of its own call or the
    time-out, and a call that has run is answered.  A call whose time is up is
    answered with an error but is not withdrawn: it still runs. *)
Theorem dbus_calls_linear {NB} `{NotebookOps NB} ord get_url read_text json now fp ur (wd : World NB) l b :
  run_bus ord get_url read_text json now fp ur (bus_start wd) l = Some b ->
  exists ran rs,
    invoked l = ran ++ (b_queue b).*2 /\
    run_methods ord get_url read_text json now fp ur ran wd = Some (rs, b_world b) /\
    NoDup (b_answers b).*1 /\
    (forall k a, (k, a) ∈ b_answers b ->
       a = Failed "dispatch timeout" \/ exists r, a = Returned r /\ rs !! k = Some r) /\
    (forall k, (k < length ran)%nat -> k ∈ (b_answers b).*1).
Proof.
  intros Hr.
  destruct (run_bus_ok _ _ _ _ _ _ _ wd l [] [] _ _ (bus_start_ok _ _ _ _ _ _ _ wd) Hr)
    as [rs [(ran & Hms & Hlen & Hran) Hq Hn Hp []]].
  exists ran, rs. split_and!; try done.
  intros k Hk. destruct (ao_all0 k) as [|Hk']; [|done|].
  - rewrite Hms, length_app. simpl in *. lia.
  - specialize (Hp _ Hk'). lia.
Qed.

(** The first call times out before the main loop gets to it, and yet it runs. *)
Lemma dbus_calls_linear_witness :
  exists b, run_bus key_order no_text no_text (fun _ => "") 0 None (fun _ => None) (bus_start demo_world)
    [Invoke (RenameWorkspaceM 1 "late"); Invoke WorkspaceCountM; TimeUp 0; RunNext; RunNext] = Some b /\
  custom_title <$> find_ws_by_id 1 (win (b_world b)) = Some (Some "late") /\
  b_answers b = [(0, Failed "dispatch timeout"); (1, Returned (RU32 2))] /\
  exists ran rs, invoked [Invoke (RenameWorkspaceM 1 "late"); Invoke WorkspaceCountM; TimeUp 0; RunNext; RunNext]
    = ran ++ (b_queue b).*2 /\
  run_methods key_order no_text no_text (fun _ => "") 0 None (fun _ => None) ran demo_world = Some (rs, b_world b).
Proof.
  eexists. split; [vm_compute; reflexivity|]. split; [vm_compute; reflexivity|]. split; [vm_compute; reflexivity|].
  edestruct (dbus_calls_linear key_order no_text no_text (fun _ => "") 0 None (fun _ => None) demo_world
    [Invoke (RenameWorkspaceM 1 "late"); Invoke WorkspaceCountM; TimeUp 0; RunNext; RunNext])
    as (ran & rs & H1 & H2 & _); [vm_compute; reflexivity|].
  by exists ran, rs.
Defined.

(** An unknown color clears the color over the bus (the socket answers with an error),
    and a port is reduced to its lower sixteen bits. *)
Theorem dbus_loose_arguments {NB} `{NotebookOps NB} ord ver get_url read_text debug json now fp ur
    id (wd : World NB) :
  dbus_method ord get_url read_text json now fp ur (WorkspaceSetColorM id "mauve") wd =
    Some (RUnit, on_win (set_workspace_color id None) wd) /\
  run_command ord ver get_url read_text debug json now fp ur WorkspaceSetColor ("7 mauve") wd =
    Some ("ERROR: unknown color", wd) /\
  port (remote_of "host" 65558 "" "") = Some 22%Z.
Proof. split_and!; reflexivity. Qed.

(** An identifier of zero stands for the current workspace, but it is also that of the
    first workspace: with another one focused, a request about the first one is carried
    out on the focused one. *)
Theorem dbus_zero_is_current {NB} `{NotebookOps NB} ord get_url read_text json now fp ur clear (wd : World NB) :
  dbus_method ord get_url read_text json now fp ur (RemoteDisconnectM 0 clear) wd =
    Some (RUnit, on_win (disconnect_remote None clear) wd) /\
  (focused_workspace_id (win wd) = None ->
   dbus_method ord get_url read_text json now fp ur ClearLogM wd =
     Some (RUnit, on_win (clear_workspace_log 0) wd)).
Proof. split; [done|]. intros Hf. cbn [dbus_method]. unfold clear_log, focused_or_zero. by rewrite Hf. Qed.
