(* ===== verification/TabStrip.v ===== *)
(** * Tab strips and drops (app/src/tab_strip.rs, the drop target of sidebar.rs)

    What the strip of a pane shows, the place a pointer means, and the handlers of the
    three drop targets: a strip, the content of a pane, a row of the sidebar.  A handler
    answers at once whether it takes the drop; the operation on the window runs later,
    when the main loop is idle, on the window as it is then.  Positions of the pointer
    are [f64], allocations of widgets integers. *)

From Stdlib Require Import Ascii.
From S2P Require Import Prelude F64 SplitTree RustStr Workspace Tabs Notebook Window WindowTabs WindowOk WindowProps.
Open Scope string_scope.
Open Scope list_scope.

(** ** The zones of a pane *)

Inductive DropZone := ZLeft | ZRight | ZTop | ZBottom.
#[global] Instance DropZone_eq_dec : EqDecision DropZone.
Proof. solve_decision. Defined.

Definition to_split_params (z : DropZone) : Orientation * bool :=
  match z with
  | ZLeft => (Horizontal, true)
  | ZRight => (Horizontal, false)
  | ZTop => (Vertical, true)
  | ZBottom => (Vertical, false)
  end.

Definition detect_drop_zone (x y width height : f64) : DropZone :=
  if f64_leb width f64_zero || f64_leb height f64_zero then ZRight
  else
    let nx := f64_div x width in
    let ny := f64_div y height in
    let above_main := f64_ltb ny nx in
    let above_anti := f64_ltb ny (f64_sub f64_one nx) in
    match above_main, above_anti with
    | true, true => ZTop
    | false, false => ZBottom
    | false, true => ZLeft
    | true, false => ZRight
    end.

Record PreviewRect := mkPreview { pr_x : f64; pr_y : f64; pr_width : f64; pr_height : f64 }.

(** The rectangle that is painted while a drag is over a pane of [w] by [h] whose origin
    is at ([ox], [oy]). *)
Definition preview_rect (z : DropZone) (ox oy w h inset : f64) : PreviewRect :=
  let half v := f64_div v f64_two in
  let shrink v := f64_sub v (f64_mul inset f64_two) in
  match z with
  | ZLeft => mkPreview (f64_add ox inset) (f64_add oy inset) (shrink (half w)) (shrink h)
  | ZRight => mkPreview (f64_add (f64_add ox (half w)) inset) (f64_add oy inset) (shrink (half w)) (shrink h)
  | ZTop => mkPreview (f64_add ox inset) (f64_add oy inset) (shrink w) (shrink (half h))
  | ZBottom => mkPreview (f64_add ox inset) (f64_add (f64_add oy (half h)) inset) (shrink w) (shrink (half h))
  end.

Definition inset : f64 := f64_of_Z 6.

(** ** The strip of a pane *)

(** One button, with what its callbacks have captured. *)
Record TabButton := mkButton {
  b_label : string; b_active : bool; b_idx : nat; b_panel : PanelKind; b_payload : string;
}.

Definition tab_label (t : Tab) : string :=
  match tab_title t with
  | "" => if tab_is_browser t then "Browser" else "Terminal"
  | s => s
  end.

Definition tab_button (p : Pane) (idx : nat) (t : Tab) : TabButton :=
  mkButton (tab_label t) (bool_decide (idx = selected_tab p)) idx (tab_panel t)
    (tab_drag_payload (pane_id p) (tab_panel t)).

Definition refresh_pane_tab_strip (p : Pane) : list TabButton := imap (tab_button p) (tabs p).

(** A widget in the strip: its allocation and the classes that mark it as the place of a
    drop. *)
Record StripChild := mkChild { c_x : Z; c_width : Z; drop_before : bool; drop_after : bool }.
Record Strip := mkStrip { children : list StripChild; drop_active : bool; drop_end : bool }.

Definition unmarked (c : StripChild) : StripChild := mkChild (c_x c) (c_width c) false false.
Definition mark_before (c : StripChild) : StripChild := mkChild (c_x c) (c_width c) true (drop_after c).
Definition mark_after (c : StripChild) : StripChild := mkChild (c_x c) (c_width c) (drop_before c) true.

Definition clear_tab_drop_indicator (s : Strip) : Strip := mkStrip (unmarked <$> children s) false false.

Definition child_middle (c : StripChild) : f64 :=
  f64_add (f64_of_Z (c_x c)) (f64_div (f64_of_Z (c_width c)) f64_two).

Fixpoint insertion_slot (l : list StripChild) (x : f64) : nat :=
  match l with
  | [] => 0
  | c :: l => if f64_ltb x (child_middle c) then 0 else S (insertion_slot l x)
  end.
Definition tab_insertion_index (s : Strip) (x : f64) : nat := insertion_slot (children s) x.

Definition show_tab_drop_indicator (s : Strip) (insertion_index : nat) : Strip :=
  let s := clear_tab_drop_indicator s in
  let n := length (children s) in
  if decide (n <= insertion_index)
  then mkStrip (alter mark_after (n - 1) (children s)) true true
  else mkStrip (alter mark_before insertion_index (children s)) true false.

(** The motion handler of a strip. *)
Definition strip_motion (s : Strip) (x : f64) : Strip := show_tab_drop_indicator s (tab_insertion_index s x).

Section clicks.
Context {NB : Type} `{!NotebookOps NB}.
Context (ord : gmap Z Pane -> list PaneId).
Implicit Types (aw : AppWindow NB).

(** A click on a button at [x], whose close icon goes from [start] to [stop]; the middle
    button; a new name from the popover.  The popover has captured the index. *)
Inductive StripEvent :=
  | Click (b : TabButton) (x start stop : f64)
  | MiddleClick (b : TabButton)
  | RenameTab (b : TabButton) (new_name : string).

Definition on_close_icon (x start stop : f64) : bool := f64_leb start x && f64_leb x stop.

Definition strip_event (pid : PaneId) (e : StripEvent) aw : option (AppWindow NB) :=
  match e with
  | Click b x start stop =>
      if on_close_icon x start stop then request_close ord (b_panel b) aw
      else Some (select_pane_tab_generic pid (b_idx b) aw)
  | MiddleClick b => request_close ord (b_panel b) aw
  | RenameTab b new_name =>
      Some (match new_name with "" => aw | _ => rename_tab pid (b_idx b) new_name aw end)
  end.

(** ** Drops *)

(** What a handler leaves for the main loop. *)
Inductive Deferred :=
  | LaterStrip (src : PaneId) (ident : TabDragIdentity) (target : PaneId) (ins : TabInsertion)
  | LaterContent (src : PaneId) (ident : option TabDragIdentity) (target : PaneId)
      (o : Orientation) (before : bool)
  | LaterWorkspace (src : PaneId) (ident : TabDragIdentity) (target : WorkspaceId).

(** The answer of a handler: whether it took the drop, and what is left to do. *)
Definition refused : bool * option Deferred := (false, None).
Definition taken (d : Deferred) : bool * option Deferred := (true, Some d).

(** The drop handler of a strip: [strip] is the strip if it still exists, [value] the
    text that was dropped if it is one. *)
Definition strip_drop (strip : option Strip) (target : PaneId) (value : option string) (x : f64) aw
    : bool * option Deferred :=
  match strip with
  | None => refused
  | Some strip =>
      match tab_insertion_for_pane target (tab_insertion_index strip x) aw with
      | None => refused
      | Some ins =>
          match value ≫= parse_tab_drag_payload with
          | None => refused
          | Some (src, ident) =>
              match pane_tab_count_for_identity src ident aw with
              | None => refused
              | Some _ => taken (LaterStrip src ident target ins)
              end
          end
      end
  end.

(** The drop handler of a pane's content, which is [size] large if it still exists.  A
    payload without a panel is a pane. *)
Definition content_drop (size : option (Z * Z)) (target : PaneId) (value : option string) (x y : f64)
    : bool * option Deferred :=
  match value with
  | None => refused
  | Some payload =>
      match strip_prefix "pane:" payload with
      | None => refused
      | Some rest =>
          let source :=
            match parse_tab_drag_payload payload with
            | Some (src, ident) => Some (src, Some ident)
            | None => src ← parse_u32 rest; Some (src, None)
            end in
          match source with
          | None => refused
          | Some (src, ident) =>
              let '(w, h) := default (100, 100)%Z size in
              let '(o, before) := to_split_params (detect_drop_zone x y (f64_of_Z w) (f64_of_Z h)) in
              taken (LaterContent src ident target o before)
          end
      end
  end.

(** The drop handler of a workspace's row, which is [height] high if it still exists.  A
    payload that is a number is a workspace, which is moved at once. *)
Definition row_drop (height : option Z) (target : WorkspaceId) (value : option string) (y : f64) aw
    : option (bool * option Deferred * AppWindow NB) :=
  match value with
  | None => Some (refused, aw)
  | Some payload =>
      match parse_tab_drag_payload payload with
      | Some (src, ident) =>
          match workspace_id_for_pane src aw with
          | None => Some (refused, aw)
          | Some source =>
              if decide (source = target) then Some (refused, aw)
              else match pane_tab_count_for_identity src ident aw with
                   | None => Some (refused, aw)
                   | Some _ => Some (taken (LaterWorkspace src ident target), aw)
                   end
          end
      | None =>
          match parse_u32 payload with
          | None => Some (refused, aw)
          | Some source =>
              if decide (source = target) then Some (refused, aw)
              else
                let row_height := match height with Some h => f64_of_Z h | None => f64_of_Z 40 end in
                let before := f64_ltb y (f64_div row_height f64_two) in
                aw ← move_workspace source target before aw; Some (true, None, aw)
          end
      end
  end.

(** The closure that the main loop runs; [ui] is the outcome of the widget lookups. *)
Definition run_deferred (ui : bool) (d : Deferred) aw : option (AppWindow NB) :=
  match d with
  | LaterStrip src ident target ins =>
      if decide (src = target) then reorder_tab_in_pane ui src ident ins aw
      else move_tab_to_pane ui src ident target ins aw
  | LaterContent src (Some ident) target o before =>
      match pane_tab_count_for_identity src ident aw with
      | None => Some aw
      | Some n =>
          if decide (src = target) then split_tab_to_pane ui src ident o before aw
          else if decide (1 < n) then split_tab_to_pane_target ui src ident target o before aw
          else Some (move_pane src target before o aw)
      end
  | LaterContent src None target o before => Some (move_pane src target before o aw)
  | LaterWorkspace src ident target => move_tab_to_workspace ui src ident target aw
  end.
End clicks.
