(* ===== verification/DropProps.v ===== *)
(** * Drops: theorems

    Whatever is dropped wherever, and whatever happens to the window before the main loop
    gets to it, no tab is lost; and a tab dropped from its own button is the drag of that
    tab.  The mark that a strip shows is where the tab goes. *)

From Stdlib Require Import Ascii.
From S2P Require Import Prelude F64 SplitTree SplitTreeRefine SplitTreeProps RustStr Workspace Tabs Surfaces Notebook Window WindowTabs WindowOk WindowProps WindowLife WindowClaims TabStrip.
Open Scope string_scope.
Open Scope list_scope.

Section drops.
Context {NB : Type} `{!NotebookOps NB} `{!NotebookLaws NB}.
Implicit Types (aw : AppWindow NB).

Lemma move_pane_tabs s d b o aw : all_tabs (move_pane s d b o aw) = all_tabs aw.
Proof.
  unfold move_pane. destruct (current_ws_idx aw) as [i|]; [|done].
  destruct (current_ws aw) as [w|]; [|done]. case_decide; [done|].
  destruct (move_pane_adjacent s d b o (split_tree w)) as [[] t]; rewrite ?all_tabs_focus;
    apply all_tabs_same; intros v; unfold ws_tabs; by ws_simpl.
Qed.

Lemma move_pane_conserves s d b o aw :
  win_ok aw -> drag_room aw -> conserves aw (Some (move_pane s d b o aw)).
Proof.
  intros Hok Hr. eexists. split; [done|]. split; [by apply move_pane_ok|]. by rewrite move_pane_tabs.
Qed.

Lemma move_workspace_conserves s t b aw :
  win_ok aw -> s <> t -> conserves aw (move_workspace s t b aw).
Proof.
  intros Hok Hne. assert (exists aw', move_workspace s t b aw = Some aw' /\ all_tabs aw' ≡ₚ all_tabs aw)
    as (aw' & E & Ht); [|exists aw'; split_and!; [done|by eapply move_workspace_ok|done]].
  unfold move_workspace.
  destruct (position (has_id s) _) as [si|] eqn:Hs; [|eauto].
  destruct (position (has_id t) _) as [ti|] eqn:Ht; [|eauto].
  destruct (position_id _ _ _ Hs) as (w & Hw & Hws). destruct (position_id _ _ _ Ht) as (v & Hv & Hvt).
  rewrite Hw, Hv. cbn [mbind option_bind]. case_decide; [eauto|].
  rewrite (vec_remove_spec _ _ _ Hw). cbn [mbind option_bind]. rewrite <- delete_take_drop.
  assert (v ∈ delete si (workspaces aw)) as Hin.
  { apply list_elem_of_lookup_2 in Hv. rewrite (delete_Permutation _ _ _ Hw) in Hv.
    apply elem_of_cons in Hv as [->|]; [congruence|done]. }
  set (rest := delete si (workspaces aw)) in *.
  rewrite vec_insert_in; cbn [mbind option_bind].
  - eexists. split; [done|]. unfold all_tabs. simpl.
    rewrite (delete_Permutation (workspaces aw) _ _ Hw). apply bind_Permutation, insert_at_cons.
  - apply list_elem_of_lookup in Hin as [k Hk%lookup_lt_Some].
    destruct (position (has_id t) rest) as [j|] eqn:Hj; simpl; [|destruct b; lia].
    apply position_lt in Hj. destruct b; lia.
Qed.

Lemma run_deferred_conserves ui d aw :
  win_ok aw -> drag_room aw -> conserves aw (run_deferred ui d aw).
Proof.
  intros Hok Hr. destruct d as [src i dst ins|src [i|] dst o b|src i dst]; cbn [run_deferred].
  - case_decide.
    + exact (run_drag_conserves aw ui (DragReorder src i ins) Hok Hr).
    + exact (run_drag_conserves aw ui (DragToPane src i dst ins) Hok Hr).
  - destruct (pane_tab_count_for_identity src i aw) as [n|]; [|by apply conserves_refl].
    repeat case_decide.
    + exact (run_drag_conserves aw ui (DragSplit src i o b) Hok Hr).
    + exact (run_drag_conserves aw ui (DragSplitTarget src i dst o b) Hok Hr).
    + by apply move_pane_conserves.
  - by apply move_pane_conserves.
  - exact (run_drag_conserves aw ui (DragToWorkspace src i dst) Hok Hr).
Qed.

Lemma row_drop_conserves height target value y aw :
  win_ok aw -> conserves aw (snd <$> row_drop height target value y aw).
Proof.
  intros Hok. unfold row_drop. destruct value as [text|]; [|by apply conserves_refl].
  destruct (parse_tab_drag_payload text) as [[src i]|].
  - destruct (workspace_id_for_pane src aw); [|by apply conserves_refl].
    case_decide; [by apply conserves_refl|].
    destruct (pane_tab_count_for_identity src i aw); by apply conserves_refl.
  - destruct (parse_u32 text) as [s|]; [|by apply conserves_refl].
    case_decide as Hne; [by apply conserves_refl|].
    match goal with |- context [move_workspace s target ?b aw] =>
      destruct (move_workspace_conserves s target b aw Hok Hne) as (aw' & -> & Ha) end.
    by exists aw'.
Qed.
End drops.

(** ** A drop of a tab *)

Section payload.
Context {NB : Type} `{!NotebookOps NB} `{!NotebookLaws NB}.
Implicit Types (aw : AppWindow NB).

(** Identifiers of the window are 32-bit numbers. *)
Definition panel_u32 (panel : PanelKind) : Prop :=
  match panel with Terminal s => is_u32 s | Browser b _ => is_u32 b end.

(** A pane is found in the first workspace that has it, with each of its tabs. *)
Lemma find_ws_here {A} (f : Workspace -> option A) l i w a :
  l !! i = Some w -> f w = Some a -> (forall j v, j < i -> l !! j = Some v -> f v = None) ->
  forall k, find_ws f k l = Some (k + i, w, a).
Proof.
  revert i. induction l as [|v l IH]; intros i Hi Hf Hmin k; [done|]. simpl.
  destruct i as [|i]; simpl in Hi; [simplify_eq; by rewrite Hf, Nat.add_0_r|].
  rewrite (Hmin 0 v) by (done || lia). rewrite (IH i); [by rewrite Nat.add_succ_comm|done|done|].
  intros j u Hj Hu. apply (Hmin (S j)); [lia|done].
Qed.

Lemma count_of_member aw pid i w p t :
  find_workspace_of_pane pid aw = Some (i, w, p) -> t ∈ tabs p ->
  pane_tab_count_for_identity pid (tab_identity t) aw = Some (length (tabs p)).
Proof.
  intros (_ & Hi & Hp & Hmin)%find_ws_Some Ht. rewrite Nat.sub_0_r in Hi, Hmin. unfold pane_tab_count_for_identity.
  rewrite (find_ws_here _ _ i w (length (tabs p))); [done|done| |].
  - rewrite Hp. cbn [mbind option_bind].
    replace (existsb (fun u => matches_panel (tab_identity t) (tab_panel u)) (tabs p)) with true; [done|].
    symmetry. apply existsb_exists. exists t. split; [by apply list_elem_of_In|]. by apply matches_panel_spec.
  - intros j v Hj Hv. by rewrite (Hmin j v Hj Hv).
Qed.

Lemma button_of_tab p b :
  b ∈ refresh_pane_tab_strip p ->
  exists t, t ∈ tabs p /\ b_panel b = tab_panel t /\ b_payload b = tab_drag_payload (pane_id p) (tab_panel t).
Proof.
  unfold refresh_pane_tab_strip. intros (i & t & -> & Ht)%elem_of_lookup_imap.
  exists t. split_and!; [by eapply list_elem_of_lookup_2|done..].
Qed.

Lemma button_payload aw pid i w p b :
  win_ok aw -> find_workspace_of_pane pid aw = Some (i, w, p) -> b ∈ refresh_pane_tab_strip p ->
  is_u32 pid -> panel_u32 (b_panel b) ->
  parse_tab_drag_payload (b_payload b) = Some (pid, panel_drag_identity (b_panel b)) /\
  pane_tab_count_for_identity pid (panel_drag_identity (b_panel b)) aw = Some (length (tabs p)).
Proof.
  intros Hok Hf (t & Ht & Hp & Hl)%button_of_tab Hu Hb.
  destruct (find_workspace_of_pane_Some _ _ _ _ _ Hf) as [Hw Hlk].
  destruct (ok_panes _ _ (win_ws_at _ _ _ Hok Hw) _ _ Hlk) as [Hid _].
  rewrite Hl, Hp in *. rewrite Hid. split; [by apply tab_drag_payload_roundtrip|].
  by eapply count_of_member.
Qed.
End payload.

(** ** Claims *)

(** C8: no drop loses or duplicates a tab or panics, whatever text is dropped, wherever,
    on whatever widgets; and what it leaves to do can be done at any later time, on a
    window that has changed in the meantime as much as it likes. *)
Theorem drops_conserve_tabs {NB} `{NotebookLaws NB} (aw : AppWindow NB) :
  win_ok aw -> drag_room aw ->
  (forall ui d, exists aw', run_deferred ui d aw = Some aw' /\ win_ok aw' /\ all_tabs aw' ≡ₚ all_tabs aw) /\
  (forall height target value y, exists r aw', row_drop height target value y aw = Some (r, aw') /\
     win_ok aw' /\ all_tabs aw' ≡ₚ all_tabs aw).
Proof.
  intros Hok Hr. split.
  - intros ui d. by apply run_deferred_conserves.
  - intros h t v y. destruct (row_drop_conserves h t v y aw Hok) as (aw' & E & Ha).
    destruct (row_drop h t v y aw) as [[r x]|]; simplify_eq/=. by eexists _, _.
Qed.

Lemma drops_conserve_tabs_witness :
  exists aw', row_drop (NB := list_notebook) None 0 (Some "1") f64_zero demo_window = Some ((true, None), aw') /\
    ws_ids aw' = [1; 0]%Z /\ all_tabs aw' ≡ₚ all_tabs demo_window.
Proof.
  destruct (drops_conserve_tabs demo_window) as [_ Hrow];
    [apply demo_window_ok|split; [repeat constructor; by vm_compute|done]|].
  destruct (Hrow None 0%Z (Some "1") f64_zero) as (r & aw' & E & _ & Ht).
  exists aw'. revert E Ht. vm_compute row_drop. intros [= <- <-] Ht. by split_and!.
Defined.

(** Dragging a tab by its button is the drag of that tab: a strip, the content of a
    pane and a row of another workspace take the drop, nothing happens at once, and what
    is left to do is, on the same window, the reordering, the move or the split of exactly
    that tab, to the place under the pointer. *)
Theorem dragged_button_moves_its_tab {NB} `{NotebookLaws NB} (aw : AppWindow NB) pid i w p b :
  win_ok aw -> find_workspace_of_pane pid aw = Some (i, w, p) -> b ∈ refresh_pane_tab_strip p ->
  is_u32 pid -> panel_u32 (b_panel b) ->
  let ident := panel_drag_identity (b_panel b) in
  (forall s x dst ins, tab_insertion_for_pane dst (tab_insertion_index s x) aw = Some ins ->
     exists d, strip_drop (Some s) dst (Some (b_payload b)) x aw = (true, Some d) /\
     forall ui, run_deferred ui d aw =
       run_drag ui (if decide (pid = dst) then DragReorder pid ident ins else DragToPane pid ident dst ins) aw) /\
  (forall size dst x y, exists d, content_drop size dst (Some (b_payload b)) x y = (true, Some d) /\
     let '(o, before) := to_split_params (detect_drop_zone x y (f64_of_Z (default (100, 100)%Z size).1)
                                            (f64_of_Z (default (100, 100)%Z size).2)) in
     forall ui, run_deferred ui d aw =
       if decide (pid = dst) then run_drag ui (DragSplit pid ident o before) aw
       else if decide (1 < length (tabs p)) then run_drag ui (DragSplitTarget pid ident dst o before) aw
       else Some (move_pane pid dst before o aw)) /\
  (forall height target y, ws_id w <> target ->
     exists d, row_drop height target (Some (b_payload b)) y aw = Some ((true, Some d), aw) /\
     forall ui, run_deferred ui d aw = run_drag ui (DragToWorkspace pid ident target) aw).
Proof.
  intros Hok Hf Hb Hu Hp ident. destruct (button_payload _ _ _ _ _ _ Hok Hf Hb Hu Hp) as [Hparse Hcount].
  fold ident in Hparse, Hcount. split_and!.
  - intros s x dst ins Hins. unfold strip_drop. rewrite Hins. cbn [mbind option_bind]. rewrite Hparse, Hcount.
    eexists. split; [done|]. intros ui. cbn [run_deferred]. by case_decide.
  - intros size dst x y. unfold content_drop. rewrite Hparse.
    assert (exists rest, strip_prefix "pane:" (b_payload b) = Some rest) as [rest ->].
    { unfold parse_tab_drag_payload in Hparse. destruct (strip_prefix _ _); [eauto|done]. }
    destruct (default (100, 100)%Z size) as [sw sh]. simpl fst. simpl snd.
    destruct (to_split_params _) as [o before]. eexists. split; [done|]. intros ui.
    cbn [run_deferred]. rewrite Hcount. by repeat case_decide.
  - intros height target y Hne. unfold row_drop. rewrite Hparse. unfold workspace_id_for_pane. rewrite Hf.
    cbn [mbind option_bind]. rewrite decide_False, Hcount by done. by eexists.
Qed.

Lemma dragged_button_moves_its_tab_witness :
  exists d, row_drop (NB := list_notebook) None 0 (Some "pane:1:surface:2") f64_zero demo_window =
      Some ((true, Some d), demo_window) /\
    run_deferred true d demo_window = run_drag true (DragToWorkspace 1 (Surface 2) 0) demo_window.
Proof.
  destruct (dragged_button_moves_its_tab demo_window 1 1
    (ws_set_tree (new_with_pane 1) (snd (add_pane (Pane_new_with_id 1 2) (Workspace_new 1))))
    (Pane_new_with_id 1 2) (mkButton "Terminal" true 0 (Terminal 2) "pane:1:surface:2"))
    as (_ & _ & Hrow).
  - apply demo_window_ok.
  - by vm_compute.
  - by apply list_elem_of_singleton.
  - unfold is_u32, u32_max. lia.
  - simpl. unfold is_u32, u32_max. lia.
  - destruct (Hrow None 0%Z f64_zero) as (d & E & Hd); [done|]. exists d. split; [exact E|apply Hd].
Defined.

(** ** The mark of a strip *)

Lemma insertion_slot_spec l x :
  insertion_slot l x <= length l /\
  (forall j c, j < insertion_slot l x -> l !! j = Some c -> f64_ltb x (child_middle c) = false) /\
  (forall c, l !! insertion_slot l x = Some c -> f64_ltb x (child_middle c) = true).
Proof.
  induction l as [|c l (IH1 & IH2 & IH3)]; simpl; [split_and!; [lia|lia|done]|].
  destruct (f64_ltb x (child_middle c)) eqn:E; simpl.
  - split_and!; [lia|lia|]. by intros ? [= <-].
  - split_and!; [lia| |done]. intros [|j] d Hj Hd; simpl in Hd; [by simplify_eq|]. eapply IH2; [|done]. lia.
Qed.

Lemma insertion_slot_ext l l' x :
  child_middle <$> l = child_middle <$> l' -> insertion_slot l x = insertion_slot l' x.
Proof.
  revert l'. induction l as [|c l IH]; intros [|d l']; try done. intros [= Hm Hl]. simpl.
  by rewrite Hm, (IH l').
Qed.

Lemma slot_marked f i l x :
  (forall c, child_middle (f c) = child_middle c) ->
  insertion_slot (alter f i (unmarked <$> l)) x = insertion_slot l x.
Proof.
  intros Hf. apply insertion_slot_ext. revert i. induction l as [|c l IH]; intros [|i]; try done.
  - cbn. rewrite Hf. f_equal. clear. induction l as [|c l IH]; [done|]. cbn. by f_equal.
  - cbn. f_equal. apply IH.
Qed.

(** The number of marks in a strip. *)
Definition marks (s : Strip) : nat :=
  length (filter (fun c => drop_before c = true \/ drop_after c = true) (children s)).

Lemma no_marks l : filter (fun c => drop_before c = true \/ drop_after c = true) (unmarked <$> l) = [].
Proof. induction l as [|c l IH]; [done|]. simpl. rewrite filter_cons_False; [done|]. by intros [|]. Qed.

Lemma marks_alter f n l c :
  l !! n = Some c -> drop_before (f (unmarked c)) || drop_after (f (unmarked c)) = true ->
  length (filter (fun c => drop_before c = true \/ drop_after c = true) (alter f n (unmarked <$> l))) = 1.
Proof.
  revert n. induction l as [|d l IH]; intros [|n]; simpl; try done.
  - intros [= ->] Hf. rewrite filter_cons_True by (by apply orb_true_iff). simpl. by rewrite no_marks.
  - intros Hn Hf. rewrite filter_cons_False by (by intros [|]). by apply IH.
Qed.

(** While a drag is over a strip with tabs exactly one mark is shown, and it is where the
    tab would go: before the first tab whose middle is right of the pointer, or after the
    last one. *)
Theorem strip_mark_is_place s x :
  children s <> [] ->
  let s' := strip_motion s x in
  let n := length (children s) in
  let k := tab_insertion_index s x in
  marks s' = 1 /\ tab_insertion_index s' x = k /\ k <= n /\
  (if decide (k < n) then drop_end s' = false /\ exists c, children s' !! k = Some c /\ drop_before c = true
   else drop_end s' = true /\ exists c, children s' !! (n - 1) = Some c /\ drop_after c = true).
Proof.
  intros Hne s' n k. unfold s', strip_motion. fold k. unfold show_tab_drop_indicator.
  unfold clear_tab_drop_indicator. cbn [children]. rewrite length_fmap. fold n.
  destruct (insertion_slot_spec (children s) x) as (Hle & _ & _). fold (tab_insertion_index s x) in Hle.
  fold k n in Hle.
  assert (0 < n) as Hpos by (unfold n; destruct (children s); [done|simpl; lia]).
  destruct (decide (n <= k)).
  - destruct (lookup_lt_is_Some_2 (children s) (n - 1)) as [c Hc]; [fold n; lia|].
    split_and!; [by eapply marks_alter|by apply slot_marked|done|].
    rewrite decide_False by lia. split; [done|]. exists (mark_after (unmarked c)).
    split; [|done]. cbn [children]. by rewrite list_lookup_alter_eq, list_lookup_fmap, Hc.
  - destruct (lookup_lt_is_Some_2 (children s) k) as [c Hc]; [fold n; lia|].
    split_and!; [by eapply marks_alter|by apply slot_marked|done|].
    rewrite decide_True by lia. split; [done|]. exists (mark_before (unmarked c)).
    split; [|done]. cbn [children]. by rewrite list_lookup_alter_eq, list_lookup_fmap, Hc.
Qed.
