(* ===== verification/Tray.v ===== *)
(** * System tray (app/src/tray.rs and its callers in main.rs)

    What the tray shows of its shared state, and what the actions of its menu do on the
    main thread.  The list of workspaces in the state is the one that the window pushes
    ([tray] of the window); ksni asks for status, tool tip and menu whenever it is told
    to, and each answer is computed from the state at that moment. *)

From Stdlib Require Import Ascii.
From S2P Require Import Prelude F64 SplitTree RustStr RemoteConfig Workspace Tabs Surfaces Notebook Window WindowTabs WindowOk WindowProps WindowLife WindowClaims Socket.
Open Scope string_scope.
Open Scope list_scope.

(** ** The state and what is shown of it *)

Record TrayState := mkTrayState {
  t_workspaces : list TrayWorkspaceEntry; t_window_visible : bool; t_notifications_enabled : bool;
}.

Definition tray_new : TrayState := mkTrayState [] true true.

Definition update_workspaces (entries : list TrayWorkspaceEntry) (st : TrayState) : TrayState :=
  mkTrayState entries (t_window_visible st) (t_notifications_enabled st).
Definition update_window_visible (visible : bool) (st : TrayState) : TrayState :=
  mkTrayState (t_workspaces st) visible (t_notifications_enabled st).
Definition update_notifications_enabled (enabled : bool) (st : TrayState) : TrayState :=
  mkTrayState (t_workspaces st) (t_window_visible st) enabled.

Inductive TrayAction :=
  | ToggleWindow
  | SwitchWorkspace (id : WorkspaceId)
  | ToggleNotifications
  | Quit.

Inductive MenuItem := Standard (label : string) (activate : TrayAction) | Separator.

Inductive TrayStatus := Active | NeedsAttention.

Definition status (st : TrayState) : TrayStatus :=
  if existsb te_has_bell (t_workspaces st) then NeedsAttention else Active.

Definition tool_tip (st : TrayState) : string :=
  let n := length (t_workspaces st) in
  show_uint (Z.of_nat n) +:+ " workspace" +:+ (if decide (n = 1) then "" else "s").

(** The red circle U+1F534 in UTF-8. *)
Definition red_circle : string :=
  String (ascii_of_nat 240) (String (ascii_of_nat 159) (String (ascii_of_nat 148) (String (ascii_of_nat 180) ""))).

Definition show_label (st : TrayState) : string :=
  if t_window_visible st then "Hide Window" else "Show Window".
Definition workspace_label (e : TrayWorkspaceEntry) : string :=
  if te_has_bell e then red_circle +:+ " " +:+ te_title e else te_title e.
Definition notif_label (st : TrayState) : string :=
  if t_notifications_enabled st then "Notifications: On" else "Notifications: Off".

Definition menu (st : TrayState) : list MenuItem :=
  [Standard (show_label st) ToggleWindow; Separator] ++
  ((fun e => Standard (workspace_label e) (SwitchWorkspace (te_id e))) <$> t_workspaces st) ++
  [Separator; Standard (notif_label st) ToggleNotifications; Separator; Standard "Quit" Quit].

(** ** The main thread *)

Section desk.
Context {NB : Type} `{!NotebookOps NB}.
Implicit Types (aw : AppWindow NB) (wd : World NB).

(** The program as the tray sees it: the window and the notification switch, the state
    of the tray, whether the window exists, is shown and has the focus, and whether the
    program was told to quit. *)
Record Desk := mkDesk {
  world : World NB; tray_state : TrayState;
  has_window : bool; visible : bool; focused : bool; quitting : bool;
}.
Implicit Types (d : Desk).

Definition set_world wd d : Desk :=
  mkDesk wd (update_workspaces (tray (win wd)) (tray_state d)) (has_window d) (visible d) (focused d) (quitting d).
Definition set_tray_state (st : TrayState) d : Desk :=
  mkDesk (world d) st (has_window d) (visible d) (focused d) (quitting d).
Definition set_visible (v f : bool) d : Desk :=
  mkDesk (world d) (tray_state d) (has_window d) v f (quitting d).

(** [present] shows the window; the window manager tells later whether it has the
    focus. *)
Definition present d : Desk := set_visible true (focused d) d.

(** [dispatch_to_main], once the main loop runs it. *)
Definition dispatch_to_main (a : TrayAction) d : Desk :=
  match a with
  | ToggleWindow =>
      if has_window d then if visible d then set_visible false (focused d) d else present d else d
  | SwitchWorkspace id =>
      let d := set_world (with_win (snd (select_workspace_by_id id (win (world d)))) (world d)) d in
      if has_window d then present d else d
  | ToggleNotifications =>
      let new_state := negb (notify_enabled (world d)) in
      let wd := mkWorld (win (world d)) new_state (next_browser (world d)) (calls (world d)) in
      set_tray_state (update_notifications_enabled new_state (tray_state d)) (set_world wd d)
  | Quit => mkDesk (world d) (tray_state d) (has_window d) (visible d) (focused d) true
  end.

(** The handler of [is-active] and the one place outside the tray where notifications
    are switched: the dialog, D-Bus and the control socket all do the same. *)
Definition on_is_active (active : bool) d : Desk :=
  set_tray_state (update_window_visible active (tray_state d))
    (set_visible (visible d) active d).
Definition switch_notifications (b : bool) d : Desk :=
  set_tray_state (update_notifications_enabled b (tray_state d))
    (set_world (mkWorld (win (world d)) b (next_browser (world d)) (calls (world d))) d).

(** The window when the main window is set up: [setting] is the preference for
    notifications.  The tray is not told of it. *)
Definition activate_desk (setting : bool) aw : Desk :=
  mkDesk (mkWorld aw setting 0 []) (update_workspaces (tray aw) tray_new) true true false false.

Inductive DeskEvent :=
  | Tray (a : TrayAction)
  | IsActive (b : bool)
  | Notifications (b : bool)
  | WindowOp (aw' : AppWindow NB).

Definition desk_event (e : DeskEvent) d : Desk :=
  match e with
  | Tray a => dispatch_to_main a d
  | IsActive b => on_is_active b d
  | Notifications b => switch_notifications b d
  | WindowOp aw' => set_world (with_win aw' (world d)) d
  end.
End desk.
#[global] Arguments Desk : clear implicits.
#[global] Arguments DeskEvent : clear implicits.

(** ** The tray follows the window *)

(** What the menu and the status need of a workspace: who it is and whether it rang. *)
Definition ws_key (w : Workspace) : WorkspaceId * bool := (ws_id w, ws_has_bell w).
Definition entry_key (e : TrayWorkspaceEntry) : WorkspaceId * bool := (te_id e, te_has_bell e).

Section follow.
Context {NB : Type} `{!NotebookOps NB} `{!NotebookLaws NB}.
Context (ord : gmap Z Pane -> list PaneId).
Implicit Types (aw : AppWindow NB).

Definition tray_ok aw : Prop := entry_key <$> tray aw ≡ₚ ws_key <$> workspaces aw.

Lemma tray_ok_pushed aw : tray_ok (update_tray_state aw).
Proof. unfold tray_ok. simpl. by rewrite <- list_fmap_compose. Qed.

Lemma tray_ok_keys aw aw' :
  tray aw' = tray aw -> ws_key <$> workspaces aw' ≡ₚ ws_key <$> workspaces aw -> tray_ok aw -> tray_ok aw'.
Proof. unfold tray_ok. by intros -> ->. Qed.

Lemma tray_ok_at aw i f :
  (forall w, workspaces aw !! i = Some w -> ws_key (f w) = ws_key w) ->
  tray_ok aw -> tray_ok (update_ws_at i f aw).
Proof.
  intros Hf. apply tray_ok_keys; [done|]. simpl. clear - Hf.
  revert i Hf. induction (workspaces aw) as [|w l IH]; intros [|i] Hf; try done; cbn.
  - by rewrite Hf.
  - apply Permutation_skip. by apply IH.
Qed.

Lemma tray_ok_id aw id f : (forall w, ws_key (f w) = ws_key w) -> tray_ok aw -> tray_ok (update_ws id f aw).
Proof. intros Hf. rewrite update_ws_position. case_match; [|done]. by apply tray_ok_at. Qed.

Lemma tray_ok_effect e aw : tray_ok aw -> tray_ok (effect e aw).
Proof. done. Qed.
Lemma tray_ok_notebook nb aw : tray_ok aw -> tray_ok (set_notebook nb aw).
Proof. done. Qed.
Lemma tray_ok_counters p w aw : tray_ok aw -> tray_ok (set_counters p w aw).
Proof. done. Qed.
Lemma tray_ok_registry r aw : tray_ok aw -> tray_ok (set_registry r aw).
Proof. done. Qed.
Lemma tray_ok_sidebar v w p aw : tray_ok aw -> tray_ok (set_sidebar v w p aw).
Proof. done. Qed.
Lemma tray_ok_page i aw : tray_ok aw -> tray_ok (set_page i aw).
Proof. done. Qed.
Lemma tray_ok_active i p aw : tray_ok aw -> tray_ok (set_pane_active i p aw).
Proof. apply tray_ok_at. by intros []. Qed.
Lemma tray_ok_refocus i aw : tray_ok aw -> tray_ok (refocus i aw).
Proof. unfold refocus. case_match; [apply tray_ok_active|done]. Qed.
End follow.

Lemma title_key w : ws_key (update_title_from_focused w) = ws_key w.
Proof. unfold update_title_from_focused. repeat case_match; by destruct w. Qed.

Create HintDb tray.
#[export] Hint Resolve tray_ok_pushed tray_ok_effect tray_ok_notebook tray_ok_counters tray_ok_registry
  tray_ok_sidebar tray_ok_page tray_ok_active tray_ok_refocus : tray.
#[export] Hint Extern 1 (tray_ok (update_ws_at _ _ _)) => apply tray_ok_at; [first [by intros []|by intros []; rewrite ?title_key]|] : tray.
#[export] Hint Extern 1 (tray_ok (update_ws _ _ _)) => apply tray_ok_id; [by intros []|] : tray.

(** Walk through the branches of an operation. *)
Ltac tray_walk := repeat (case_goal; cbn [fst snd]); auto with tray.

Section follow_ops.
Context {NB : Type} `{!NotebookOps NB} `{!NotebookLaws NB}.
Context (ord : gmap Z Pane -> list PaneId).
Implicit Types (aw : AppWindow NB).

Lemma remove_workspace_tray i aw aw' : remove_workspace_at i aw = Some aw' -> tray_ok aw'.
Proof.
  unfold remove_workspace_at. intros (w & _ & [= <-])%bind_Some. apply tray_ok_effect, tray_ok_pushed.
Qed.

Lemma close_panel_tray i pid rm aw aw' :
  close_panel_at i pid rm aw = Some aw' -> tray_ok aw -> tray_ok aw'.
Proof.
  unfold close_panel_at, remove_pane_from_split. intros (w & _ & H)%bind_Some Ht. repeat case_decide.
  - apply bind_Some in H as (a & Ha%remove_workspace_tray & [= <-]). destruct (workspaces a); auto with tray.
  - simplify_eq. auto with tray.
  - simplify_eq. auto with tray.
Qed.

Lemma close_surface_tray sid aw aw' : close_surface ord sid aw = Some aw' -> tray_ok aw -> tray_ok aw'.
Proof.
  unfold close_surface. destruct (find_workspace_with_surface _ _ _) as [[[i w] pid]|]; [|by intros [= <-]].
  intros H Ht. by eapply close_panel_tray; [exact H|].
Qed.

Lemma close_browser_tray bid aw aw' : close_browser ord bid aw = Some aw' -> tray_ok aw -> tray_ok aw'.
Proof.
  unfold close_browser. destruct (find_workspace_with_browser _ _ _) as [[[i w] pid]|]; [|by intros [= <-]].
  intros H Ht. by eapply close_panel_tray; [exact H|].
Qed.

Lemma close_all_tray l aw aw' : request_close_all ord l aw = Some aw' -> tray_ok aw -> tray_ok aw'.
Proof.
  revert aw. induction l as [|k l IH]; intros aw; simpl; [by intros [= <-]|].
  intros (a & Ha & Hl)%bind_Some Ht. apply (IH a Hl). destruct k as [s|b u]; simpl in Ha.
  - case_match; by simplify_eq.
  - by eapply close_browser_tray.
Qed.

Lemma extract_key collapse src k dst new before o w w' :
  extract_tab collapse src k dst new before o w = Some w' -> ws_key w' = ws_key w.
Proof.
  unfold extract_tab. intros (sp & _ & H)%bind_Some. apply bind_Some in H as ([t sp'] & _ & H).
  destruct (split_side _ _ _ _ _) as [[n|] tree]; [|done]. injection H as <-. case_decide; by destruct w.
Qed.

Lemma move_tab_key src k dst ti w w' : move_tab src k dst ti w = Some w' -> ws_key w' = ws_key w.
Proof.
  unfold move_tab. intros (sp & _ & H)%bind_Some. apply bind_Some in H as ([t sp'] & _ & H).
  apply bind_Some in H as (dp & _ & H). apply bind_Some in H as (l & _ & [= <-]). case_decide; by destruct w.
Qed.

Lemma to_workspace_tray ui src ident target aw aw' :
  move_tab_to_workspace ui src ident target aw = Some aw' -> tray_ok aw -> tray_ok aw'.
Proof.
  unfold move_tab_to_workspace. intros H Ht.
  destruct (find_workspace_of_pane src aw) as [[[si sw] sp]|]; [|by simplify_eq].
  destruct (position _ _) as [ti|]; [|by simplify_eq]. case_decide; [by simplify_eq|].
  apply bind_Some in H as (tw & _ & H). destruct (landing_pane tw) as [dst|]; [|by simplify_eq].
  case_decide; [by simplify_eq|]. destruct (tab_index_for_identity sp ident) as [k|]; [|by simplify_eq].
  destruct ui; simpl in H; [|by simplify_eq]. apply bind_Some in H as ([t sp'] & _ & H).
  apply bind_Some in H as (a & Ha & H). apply bind_Some in H as (tj & _ & [= <-]).
  apply tray_ok_active, tray_ok_page. case_decide; [|simplify_eq; auto with tray].
  apply bind_Some in Ha as (v & _ & Ha). case_decide; [by eapply remove_workspace_tray|].
  simplify_eq. unfold remove_pane_from_split. auto with tray.
Qed.

Lemma tray_ok_current aw aw' i w w' :
  current_ws_idx aw = Some i -> current_ws aw = Some w -> ws_key w' = ws_key w ->
  workspaces aw' = workspaces aw -> tray_ok aw' -> tray_ok (update_ws_at i (fun _ => w') aw').
Proof.
  intros Hi Hw Hk He. apply tray_ok_at. intros v Hv.
  rewrite He, (current_ws_lookup _ _ _ Hi Hw) in Hv. by injection Hv as <-.
Qed.

Lemma drag_tray ui d aw aw' : run_drag ui d aw = Some aw' -> tray_ok aw -> tray_ok aw'.
Proof.
  intros H Ht. destruct d as [p i ins|s i dst ins|s i o b|s i dst o b|s i tgt]; simpl in H;
    [..|by eapply to_workspace_tray].
  - unfold reorder_tab_in_pane in H. repeat case_match; simplify_eq; try done.
    apply bind_Some in H as ([x p'] & _ & [= <-]). auto with tray.
  - unfold move_tab_to_pane in H. repeat case_match; simplify_eq; try done.
    apply bind_Some in H as (w' & Hw%move_tab_key & [= <-]). by eapply tray_ok_current.
  - unfold split_tab_to_pane in H. repeat case_match; simplify_eq; try done.
    apply bind_Some in H as (w' & Hw%extract_key & [= <-]). by eapply tray_ok_current.
  - unfold split_tab_to_pane_target in H. repeat case_match; simplify_eq; try done.
    apply bind_Some in H as (w' & Hw%extract_key & [= <-]). by eapply tray_ok_current.
Qed.

Lemma perm_keys (l l' : list Workspace) : l ≡ₚ l' -> ws_key <$> l ≡ₚ ws_key <$> l'.
Proof. by intros ->. Qed.

Lemma toggle_pinned_tray id aw : tray_ok aw -> tray_ok (toggle_workspace_pinned id aw).
Proof.
  unfold toggle_workspace_pinned. intros Ht. case_match; [|done].
  apply (tray_ok_keys (update_ws_at n (fun w => ws_set_pinned (negb (pinned w)) w) aw)); [done| |auto with tray].
  simpl. apply perm_keys, sort_by_key_perm.
Qed.

Lemma move_workspace_tray s t b aw aw' : move_workspace s t b aw = Some aw' -> tray_ok aw -> tray_ok aw'.
Proof.
  unfold move_workspace. intros H Ht.
  destruct (position (has_id s) _) as [si|] eqn:Hs; [|congruence].
  destruct (position (has_id t) _) as [ti|]; [|congruence].
  destruct (position_id _ _ _ Hs) as (w & Hw & _). rewrite Hw in H.
  apply bind_Some in H as (? & _ & H). apply bind_Some in H as (v & _ & H). case_decide; [congruence|].
  rewrite (vec_remove_spec _ _ _ Hw) in H. cbn [mbind option_bind] in H. rewrite <- delete_take_drop in H.
  apply bind_Some in H as (l & Hl & [= <-]). apply (tray_ok_keys aw); [done| |done].
  simpl. apply perm_keys. unfold vec_insert in Hl. case_decide; [|done]. injection Hl as <-.
  by apply insert_at_perm.
Qed.

Lemma proxy_tray id ep aw : tray_ok aw -> tray_ok (update_proxy_endpoint ord id ep aw).
Proof.
  unfold update_proxy_endpoint. intros Ht. case_match; [|done].
  match goal with |- context [update_ws_at ?n ?f aw] => assert (tray_ok (update_ws_at n f aw)) as H1
    by auto with tray; revert H1; generalize (update_ws_at n f aw) end.
  intros a Ha. case_match; [|done]. revert a Ha H0. generalize (all_browser_ids (ord (ws_panes w)) w).
  intros l. induction l as [|k l IH]; intros a Ha Hl; [done|]. simpl. by apply IH.
Qed.

(** Every operation of the window leaves the tray with the workspaces that there are and
    the bells that rang. *)
Lemma win_step_tray aw aw' : win_step ord aw aw' -> tray_ok aw -> tray_ok aw'.
Proof.
  intros Hs Ht. destruct Hs; eauto using close_surface_tray, close_browser_tray, drag_tray,
    toggle_pinned_tray, move_workspace_tray, proxy_tray with tray;
    try (apply tray_ok_id; [by intros []|done]).
  - apply tray_ok_effect, tray_ok_pushed.
  - do 2 apply tray_ok_effect. apply tray_ok_pushed.
  - unfold move_pane. tray_walk.
  - unfold close_workspace in *. case_match; [by eapply close_all_tray|by simplify_eq].
  - unfold close_current_workspace in *. repeat case_match; try (by simplify_eq). by eapply close_all_tray.
  - unfold split_focused. tray_walk.
  - unfold split_focused_browser, split_browser_in_workspace. tray_walk.
  - unfold navigate_split. tray_walk.
  - unfold navigate_direction. tray_walk.
  - unfold equalize_splits. tray_walk.
  - unfold paned_moved. tray_walk.
  - unfold new_pane_tab. tray_walk.
  - unfold cycle_pane_tab. tray_walk.
  - unfold select_pane_tab_generic. tray_walk.
  - unfold rename_tab. tray_walk.
  - unfold set_surface_title. tray_walk.
  - unfold set_surface_working_directory. tray_walk.
  - unfold on_browser_title_changed. tray_walk.
  - unfold handle_bell. tray_walk.
  - unfold clear_workspace_bell. tray_walk.
  - unfold set_focused_surface, focus_panel_at. tray_walk.
  - unfold set_focused_browser, focus_panel_at. tray_walk.
  - unfold focus_pane_by_id. tray_walk.
  - unfold goto_workspace. tray_walk.
  - unfold goto_workspace_relative. tray_walk.
  - unfold goto_tab. tray_walk.
  - unfold select_workspace_by_id. tray_walk.
  - unfold toggle_sidebar. tray_walk.
  - unfold disconnect_remote. tray_walk.
  - unfold reconnect_remote. tray_walk.
Qed.
End follow_ops.

(** ** Claims *)

Section reach.
Context {NB : Type} `{!NotebookOps NB} `{!NotebookLaws NB}.
Context (ord : gmap Z Pane -> list PaneId).
Implicit Types (aw : AppWindow NB) (d : Desk NB).

(** An event that can happen: the window changes by its operations only. *)
Inductive desk_step d : Desk NB -> Prop :=
  | desk_tray a : desk_step d (dispatch_to_main a d)
  | desk_active b : desk_step d (on_is_active b d)
  | desk_notifications b : desk_step d (switch_notifications b d)
  | desk_window aw' : win_step ord (win (world d)) aw' -> desk_step d (desk_event (WindowOp aw') d).

Definition desk_ok d : Prop :=
  win_ok (win (world d)) /\ tray_ok (win (world d)) /\
  t_workspaces (tray_state d) = tray (win (world d)) /\ has_window d = true.

Lemma desk_step_ok d d' : desk_step d d' -> desk_ok d -> desk_ok d'.
Proof.
  assert (forall aw', win_step ord (win (world d)) aw' -> desk_ok d ->
    desk_ok (desk_event (WindowOp aw') d)) as Hop.
  { intros aw' Hs (H1 & H2 & _ & H4). split_and!; [by eapply win_step_ok|by eapply win_step_tray|done|done]. }
  intros Hs Hok. destruct Hs as [[| id | |]|b|b|aw' Ha]; [..|by apply Hop]; try by destruct Hok.
  - unfold dispatch_to_main. by repeat case_match.
  - specialize (Hop _ (step_select _ _ id) Hok). unfold dispatch_to_main. by case_match.
Qed.

(** The tray says of the notifications what is so. *)
Definition bells_agree d : Prop := t_notifications_enabled (tray_state d) = notify_enabled (world d).

Lemma desk_step_bells d d' : desk_step d d' -> bells_agree d -> bells_agree d'.
Proof.
  intros Hs Hb. destruct Hs as [[| id | |]|b|b|aw' Ha]; try done; unfold dispatch_to_main; by repeat case_match.
Qed.

(** The workspaces that a menu offers. *)
Definition offered (items : list MenuItem) : list WorkspaceId :=
  omap (fun i => match i with Standard _ (SwitchWorkspace id) => Some id | _ => None end) items.

Lemma offered_menu st : offered (menu st) = te_id <$> t_workspaces st.
Proof.
  unfold menu, offered. cbn [app omap list_omap]. rewrite omap_app. cbn [omap list_omap].
  rewrite app_nil_r. induction (t_workspaces st) as [|e l IH]; [done|]. cbn. by f_equal.
Qed.

Lemma select_by_id_focuses aw id :
  win_ok aw -> id ∈ ws_ids aw -> focused_workspace_id (snd (select_workspace_by_id id aw)) = Some id.
Proof.
  intros Hok (w & -> & Hw)%list_elem_of_fmap. unfold select_workspace_by_id.
  destruct (position (has_id (ws_id w)) (workspaces aw)) as [i|] eqn:Hi.
  - destruct (position_id _ _ _ Hi) as (v & Hv & Hid). simpl.
    unfold focused_workspace_id, current_ws, current_ws_idx. simpl.
    assert (i < length (workspaces aw)) as Hlt by (by eapply lookup_lt_Some).
    rewrite nb_set_current by (rewrite (win_pages _ Hok); unfold ws_ids; by rewrite length_fmap).
    cbn [mbind option_bind]. rewrite decide_True by done. simpl. rewrite Hv. simpl. by rewrite Hid.
  - exfalso. apply list_elem_of_lookup in Hw as [k Hk].
    apply list_elem_of_lookup_2 in Hk. pose proof (proj1 (position_None _ _) Hi _ Hk) as Hn.
    by apply bool_decide_eq_false in Hn.
Qed.
End reach.

(** Whatever happens to the window and whatever is clicked, the menu of the tray
    offers every workspace that there is, once, and none that is gone; the tray asks for
    attention just when the bell of a workspace rang; each item shows the window with its
    workspace in front; and when notifications are on at the start, or once they were
    switched, the menu says whether they are on. *)
Theorem tray_follows_window {NB} `{NotebookLaws NB} ord (nb : NB) setting aw d :
  nb_pages nb = [] -> rtc (win_step ord) (empty_window nb) aw ->
  rtc (desk_step ord) (activate_desk setting aw) d ->
  offered (menu (tray_state d)) ≡ₚ ws_ids (win (world d)) /\
  (status (tray_state d) = NeedsAttention <->
     exists w, w ∈ workspaces (win (world d)) /\ ws_has_bell w = true) /\
  (forall id, id ∈ offered (menu (tray_state d)) ->
     let d' := dispatch_to_main (SwitchWorkspace id) d in
     focused_workspace_id (win (world d')) = Some id /\ visible d' = true) /\
  (setting = true -> t_notifications_enabled (tray_state d) = notify_enabled (world d)) /\
  (forall b d', rtc (desk_step ord) (switch_notifications b d) d' ->
     t_notifications_enabled (tray_state d') = notify_enabled (world d')).
Proof.
  intros Hnb Hw Hd.
  assert (desk_ok d) as (Hok & Ht & He & Hh).
  { eapply rtc_preserves; [apply (desk_step_ok ord)| |exact Hd]. split_and!; [| |done|done].
    - eapply rtc_preserves; [apply (win_step_ok ord)| |exact Hw].
      split; simpl; [done|constructor|constructor|]. split; [done|constructor].
    - eapply rtc_preserves; [apply (win_step_tray ord)| |exact Hw]. constructor. }
  assert (offered (menu (tray_state d)) ≡ₚ ws_ids (win (world d))) as Hids.
  { rewrite offered_menu, He. pose proof (fmap_Permutation fst _ _ Ht) as Hp.
    unfold ws_ids. by rewrite <- !list_fmap_compose in Hp. }
  split_and!; [done| | | |].
  - unfold status. rewrite He. split.
    + destruct (existsb te_has_bell _) eqn:Eb; [|done]. intros _. apply existsb_exists in Eb as (e & Hin & Hb).
      apply list_elem_of_In in Hin. apply (list_elem_of_fmap_2 entry_key) in Hin. rewrite Ht in Hin.
      apply list_elem_of_fmap in Hin as (w & Hk & Hw'). exists w. split; [done|].
      injection Hk as _ Hk. congruence.
    + intros (w & Hw' & Hb). apply (list_elem_of_fmap_2 ws_key) in Hw'. rewrite <- Ht in Hw'.
      apply list_elem_of_fmap in Hw' as (e & Hk & Hin). replace (existsb te_has_bell _) with true; [done|].
      symmetry. apply existsb_exists. exists e. split; [by apply list_elem_of_In|].
      injection Hk as _ Hk. congruence.
  - intros id Hid d'. rewrite Hids in Hid. unfold d', dispatch_to_main. simpl. rewrite Hh. simpl.
    split; [by apply select_by_id_focuses|done].
  - intros ->. by apply (rtc_preserves _ bells_agree _ d (desk_step_bells ord)) in Hd.
  - intros b d' Hd'. by apply (rtc_preserves _ bells_agree _ d' (desk_step_bells ord)) in Hd'.
Qed.

Lemma tray_follows_window_witness :
  offered (menu (tray_state (dispatch_to_main ToggleNotifications
    (activate_desk true (new_workspace (new_workspace demo_start)))))) ≡ₚ [0; 1]%Z.
Proof.
  destruct (tray_follows_window key_order (mkNotebook [] 0) true (new_workspace (new_workspace demo_start))
    (dispatch_to_main ToggleNotifications (activate_desk true (new_workspace (new_workspace demo_start)))))
    as [H _]; [done| |apply rtc_once, desk_tray|].
  - eapply rtc_l; [apply step_new; by split|]. by apply rtc_once, step_new.
  - rewrite H. by vm_compute.
Defined.

(** The tray is not told of the preference at the start, and it calls a window that has
    lost the focus hidden: the item then says the opposite of what it does. *)
Lemma tray_labels_wrong {NB} `{NotebookOps NB} (aw : AppWindow NB) :
  notify_enabled (world (activate_desk false aw)) = false /\
  notif_label (tray_state (activate_desk false aw)) = "Notifications: On" /\
  let d := on_is_active false (activate_desk true aw) in
  visible d = true /\ show_label (tray_state d) = "Show Window" /\
  visible (dispatch_to_main ToggleWindow d) = false.
Proof. done. Qed.

(** Neither sorting by pin nor moving a workspace pushes the list: the menu keeps the old
    order. *)
Lemma tray_order_stale :
  let aw := toggle_workspace_pinned 1 (new_workspace (new_workspace demo_start)) in
  ws_ids aw = [1; 0]%Z /\ te_id <$> tray aw = [0; 1]%Z.
Proof. by vm_compute. Qed.
