(* ===== verification/Browser.v ===== *)
(** * Browser panels (app/src/browser.rs)

    The registry of the panels, their widgets as far as the callbacks change them, and the
    one network session that all of them share.  WebKit is not part of the sources: the
    calls into it are recorded in order, and what the code relies on is that objects that
    are alive have distinct addresses and that a view keeps the session it was made with. *)

From Stdlib Require Import Ascii.
From S2P Require Import Prelude RustStr RemoteConfig Workspace Settings WindowTabs.
Open Scope string_scope.
Open Scope list_scope.

(** An address of WebKit: a view or a session. *)
Definition Ptr := Z.

Inductive ProxyMode := ProxyDefault | NoProxy | Custom (uri : string).

(** Calls into WebKit on a view. *)
Inductive WebCall :=
  | LoadUri (view : Ptr) (uri : string)
  | CallBack (view : Ptr)
  | CallForward (view : Ptr)
  | CallReload (view : Ptr)
  | Evaluate (view : Ptr) (script : string)
  | SearchNext (view : Ptr)
  | SearchPrevious (view : Ptr).

(** A view with the widgets around it.  [p_search] is the search that the find controller
    is told to show. *)
Record Panel := mkPanel {
  p_id : BrowserPanelId; p_session : Ptr; p_related : option Ptr;
  p_address : string; p_back : bool; p_forward : bool; p_stop : bool;
  p_find_visible : bool; p_search : option string; p_count : string;
}.

Definition with_address (s : string) (p : Panel) : Panel :=
  mkPanel (p_id p) (p_session p) (p_related p) s (p_back p) (p_forward p) (p_stop p)
    (p_find_visible p) (p_search p) (p_count p).
Definition with_buttons (back forward stop : bool) (p : Panel) : Panel :=
  mkPanel (p_id p) (p_session p) (p_related p) (p_address p) back forward stop
    (p_find_visible p) (p_search p) (p_count p).
Definition with_find (visible : bool) (search : option string) (p : Panel) : Panel :=
  mkPanel (p_id p) (p_session p) (p_related p) (p_address p) (p_back p) (p_forward p) (p_stop p)
    visible search (p_count p).
Definition with_count (s : string) (p : Panel) : Panel :=
  mkPanel (p_id p) (p_session p) (p_related p) (p_address p) (p_back p) (p_forward p) (p_stop p)
    (p_find_visible p) (p_search p) s.

(** [browsers] is the registry, [panels] the panels by the address of their view,
    [persistent] the session once there is one, with the directory it was made with. *)
Record Browsers := mkBrowsers {
  browsers : gmap BrowserPanelId Ptr; panels : gmap Ptr Panel;
  persistent : option (Ptr * option string); proxies : gmap Ptr ProxyMode;
  web_calls : list WebCall; focus_requests : list BrowserPanelId;
}.

Definition browsers_new : Browsers := mkBrowsers ∅ ∅ None ∅ [] [].

Definition set_browsers (m : gmap BrowserPanelId Ptr) (b : Browsers) : Browsers :=
  mkBrowsers m (panels b) (persistent b) (proxies b) (web_calls b) (focus_requests b).
Definition on_panel (v : Ptr) (f : Panel -> Panel) (b : Browsers) : Browsers :=
  mkBrowsers (browsers b) (alter f v (panels b)) (persistent b) (proxies b) (web_calls b) (focus_requests b).
Definition web_call (c : WebCall) (b : Browsers) : Browsers :=
  mkBrowsers (browsers b) (panels b) (persistent b) (proxies b) (web_calls b ++ [c]) (focus_requests b).
Definition grab_focus (id : BrowserPanelId) (b : Browsers) : Browsers :=
  mkBrowsers (browsers b) (panels b) (persistent b) (proxies b) (web_calls b) (focus_requests b ++ [id]).
Definition set_proxy (session : Ptr) (mode : ProxyMode) (b : Browsers) : Browsers :=
  mkBrowsers (browsers b) (panels b) (persistent b) (<[session := mode]> (proxies b)) (web_calls b) (focus_requests b).

(** [CString::new]: not with a zero byte inside. *)
Definition cstring (s : string) : option string := if has_byte zero s then None else Some s.

(** ** The session *)

Definition xdg_data_home (xdg home : option string) : option string :=
  match xdg with
  | Some "" | None => (fun h => path_join h ".local/share") <$> home
  | Some v => Some v
  end.

(** The directory of the session; [None] is WebKit's own choice.  [created] tells whether
    the directory could be made. *)
Definition web_data_dir (created : string -> bool) (xdg home : option string) : option string :=
  base ← xdg_data_home xdg home;
  let dir := path_join (path_join base "limux") "web-data" in
  if created dir then cstring dir else None.

(** What the environment gives: the variables, the directory, and the address of a new
    session. *)
Record WebEnv := mkWebEnv {
  env_xdg : option string; env_home : option string; env_created : string -> bool; env_session : Ptr;
}.

Definition build_persistent_session (e : WebEnv) : Ptr * option string :=
  (env_session e, web_data_dir (env_created e) (env_xdg e) (env_home e)).

Definition create_persistent_session (e : WebEnv) (b : Browsers) : Ptr * Browsers :=
  match persistent b with
  | Some s => (s.1, b)
  | None =>
      let s := build_persistent_session e in
      (s.1, mkBrowsers (browsers b) (panels b) (Some s) (<[s.1 := ProxyDefault]> (proxies b))
              (web_calls b) (focus_requests b))
  end.

Definition apply_socks5_proxy (session : Ptr) (uri : string) (b : Browsers) : Browsers :=
  match cstring uri with Some uri => set_proxy session (Custom uri) b | None => b end.
Definition clear_proxy (session : Ptr) (b : Browsers) : Browsers := set_proxy session NoProxy b.

(** ** Creation *)

(** [view] is the address of the new view. *)
Definition create_inner (e : WebEnv) (view : Ptr) (id : BrowserPanelId) (initial_url : string)
    (proxy : option ProxyEndpoint) (related_opener : option Ptr) (b : Browsers) : Browsers :=
  let '(s, b) := create_persistent_session e b in
  let '(session, related, b) :=
    match proxy, related_opener with
    | Some ep, _ => (s, None, apply_socks5_proxy s (socks5_uri ep) b)
    | None, Some opener => (default s (p_session <$> panels b !! opener), Some opener, b)
    | None, None => (s, None, b)
    end in
  let panel := mkPanel id session related initial_url false false false false None "" in
  let b := mkBrowsers (browsers b) (<[view := panel]> (panels b)) (persistent b) (proxies b)
             (web_calls b) (focus_requests b) in
  let b := match initial_url with
           | "" => b
           | _ => match cstring initial_url with Some u => web_call (LoadUri view u) b | None => b end
           end in
  set_browsers (<[id := view]> (browsers b)) b.

Definition create e view id url : Browsers -> Browsers := create_inner e view id url None None.
Definition create_with_proxy e view id url ep : Browsers -> Browsers := create_inner e view id url (Some ep) None.
Definition create_related e view id opener url : Browsers -> Browsers := create_inner e view id url None (Some opener).

(** ** The public interface *)

Definition with_browser (id : BrowserPanelId) (f : Ptr -> Browsers -> Browsers) (b : Browsers) : Browsers :=
  match browsers b !! id with Some v => f v b | None => b end.

Definition load (url : string) (view : Ptr) (b : Browsers) : Browsers :=
  match cstring url with Some u => web_call (LoadUri view u) b | None => b end.

Definition navigate (id : BrowserPanelId) (url : string) : Browsers -> Browsers :=
  with_browser id (load (normalize_url url)).
Definition go_back (id : BrowserPanelId) : Browsers -> Browsers :=
  with_browser id (fun v => web_call (CallBack v)).
Definition go_forward (id : BrowserPanelId) : Browsers -> Browsers :=
  with_browser id (fun v => web_call (CallForward v)).
Definition reload (id : BrowserPanelId) : Browsers -> Browsers :=
  with_browser id (fun v => web_call (CallReload v)).
Definition evaluate_js (id : BrowserPanelId) (script : string) (b : Browsers) : Browsers :=
  match cstring script with Some s => with_browser id (fun v => web_call (Evaluate v s)) b | None => b end.

(** Hiding the bar ends the search. *)
Definition close_find (v : Ptr) : Browsers -> Browsers := on_panel v (with_find false None).
Definition toggle_find_bar (id : BrowserPanelId) : Browsers -> Browsers :=
  with_browser id (fun v b =>
    match panels b !! v with
    | None => b
    | Some p => if p_find_visible p then grab_focus id (close_find v b)
                else on_panel v (with_find true (p_search p)) b
    end).

Definition unregister (id : BrowserPanelId) (b : Browsers) : Browsers :=
  set_browsers (delete id (browsers b)) b.
Definition webview_ptr (id : BrowserPanelId) (b : Browsers) : option Ptr := browsers b !! id.

(** The iteration order of the hash map. *)
Section order.
Context (ord : gmap BrowserPanelId Ptr -> list (BrowserPanelId * Ptr)).
Definition find_id_by_webview_ptr (view : Ptr) (b : Browsers) : option BrowserPanelId :=
  fst <$> List.find (fun kv => bool_decide (kv.2 = view)) (ord (browsers b)).
End order.

Definition set_proxy_endpoint (id : BrowserPanelId) (endpoint : option ProxyEndpoint) : Browsers -> Browsers :=
  with_browser id (fun v b =>
    match panels b !! v with
    | None => b
    | Some p => match endpoint with
                | Some ep => apply_socks5_proxy (p_session p) (socks5_uri ep) b
                | None => clear_proxy (p_session p) b
                end
    end).

(** ** Signals of the widgets of a view *)

Inductive PanelEvent :=
  | AddressActivated (text : string)
  | UriChanged (uri : option string)
  | LoadingChanged (loading can_back can_fwd : bool)
  | BackClicked
  | ForwardClicked
  | ReloadClicked
  | FindChanged (text : string)
  | FindActivated
  | FindPrevious
  | FindClosed
  | FindEscape
  | FoundText (count : Z)
  | FailedToFind.

Definition panel_event (v : Ptr) (ev : PanelEvent) (b : Browsers) : Browsers :=
  match ev with
  | AddressActivated text => load (normalize_url text) v b
  | UriChanged uri => on_panel v (with_address (default "" uri)) b
  | LoadingChanged loading can_back can_fwd => on_panel v (with_buttons can_back can_fwd loading) b
  | BackClicked => web_call (CallBack v) b
  | ForwardClicked => web_call (CallForward v) b
  | ReloadClicked => web_call (CallReload v) b
  | FindChanged text =>
      match text with
      | "" => on_panel v (fun p => with_find (p_find_visible p) None p) b
      | _ => match cstring text with
             | Some t => on_panel v (fun p => with_find (p_find_visible p) (Some t) p) b
             | None => b
             end
      end
  | FindActivated => web_call (SearchNext v) b
  | FindPrevious => web_call (SearchPrevious v) b
  | FindClosed | FindEscape => close_find v b
  | FoundText n => on_panel v (with_count (show_uint n +:+ " matches")) b
  | FailedToFind => on_panel v (with_count "No matches") b
  end.
