(* ===== verification/BrowserProps.v ===== *)
(** * Browser panels: theorems

    The states that are reached, the one proxy that all panels share, and the addresses
    that input is turned into. *)

From Stdlib Require Import Ascii.
From S2P Require Import Prelude RustStr RemoteConfig Workspace Settings WindowTabs Browser.
Open Scope string_scope.
Open Scope list_scope.

(** ** Reachable states *)

(** What is done to the panels.  [Proxied] is the tunnel of a remote workspace, at the
    creation of a panel or later. *)
Inductive BrowserOp :=
  | Create (view : Ptr) (id : BrowserPanelId) (url : string)
  | CreateProxied (view : Ptr) (id : BrowserPanelId) (url : string) (ep : ProxyEndpoint)
  | CreatePopup (view : Ptr) (id : BrowserPanelId) (opener : BrowserPanelId) (url : string)
  | SetProxyOf (id : BrowserPanelId) (ep : option ProxyEndpoint)
  | Unregister (id : BrowserPanelId)
  | Navigate (id : BrowserPanelId) (url : string)
  | Script (id : BrowserPanelId) (script : string)
  | History (id : BrowserPanelId) (c : Ptr -> WebCall)
  | ToggleFind (id : BrowserPanelId)
  | Signal (view : Ptr) (ev : PanelEvent).

Definition browser_op (e : WebEnv) (o : BrowserOp) (b : Browsers) : Browsers :=
  match o with
  | Create view id url => create e view id url b
  | CreateProxied view id url ep => create_with_proxy e view id url ep b
  | CreatePopup view id opener url =>
      match webview_ptr opener b with
      | Some v => create_related e view id v url b
      | None => b
      end
  | SetProxyOf id ep => set_proxy_endpoint id ep b
  | Unregister id => unregister id b
  | Navigate id url => navigate id url b
  | Script id s => evaluate_js id s b
  | History id c => with_browser id (fun v => web_call (c v)) b
  | ToggleFind id => toggle_find_bar id b
  | Signal v ev => panel_event v ev b
  end.

(** A new view has the address of no view that is alive, a new panel an identifier that
    was not used; the text of the find bar changes only while the bar is shown. *)
Definition op_ok (o : BrowserOp) (b : Browsers) : Prop :=
  match o with
  | Create view id _ | CreateProxied view id _ _ | CreatePopup view id _ _ =>
      browsers b !! id = None /\ forall k, browsers b !! k <> Some view
  | Signal v (FindChanged _) => forall p, panels b !! v = Some p -> p_find_visible p = true
  | _ => True
  end.

Inductive browser_step (e : WebEnv) (b : Browsers) : Browsers -> Prop :=
  | browser_step_op o : op_ok o b -> browser_step e b (browser_op e o b).

Record browsers_ok (b : Browsers) : Prop := mkBrowsersOk {
  bo_panel : forall id v, browsers b !! id = Some v -> exists p, panels b !! v = Some p /\ p_id p = id;
  bo_session : forall v p, panels b !! v = Some p -> exists s d, persistent b = Some (s, d) /\ p_session p = s;
  bo_find : forall v p, panels b !! v = Some p -> p_find_visible p = false -> p_search p = None;
}.

Lemma browsers_new_ok : browsers_ok browsers_new.
Proof. by split. Qed.

(** A change of the widgets of a panel. *)
Lemma ok_on_panel v f b :
  (forall p, panels b !! v = Some p -> p_id (f p) = p_id p /\ p_session (f p) = p_session p /\
    ((p_find_visible p = false -> p_search p = None) -> p_find_visible (f p) = false -> p_search (f p) = None)) ->
  browsers_ok b -> browsers_ok (on_panel v f b).
Proof.
  intros Hf [H1 H2 H3]. split; simpl.
  - intros id w Hw. destruct (H1 id w Hw) as (p & Hp & Hid). rewrite lookup_alter. case_decide; subst.
    + exists (f p). rewrite Hp. split; [done|]. apply Hf in Hp as (-> & _). done.
    + eauto.
  - intros w p. rewrite lookup_alter. case_decide; subst; [|apply H2].
    intros (q & Hq & ->)%fmap_Some. destruct (Hf q Hq) as (_ & -> & _). by eapply H2.
  - intros w p. rewrite lookup_alter. case_decide; subst; [|apply H3].
    intros (q & Hq & ->)%fmap_Some. apply (Hf q Hq), (H3 _ _ Hq).
Qed.

Lemma ok_call c b : browsers_ok b -> browsers_ok (web_call c b).
Proof. by intros [H1 H2 H3]. Qed.
Lemma ok_focus id b : browsers_ok b -> browsers_ok (grab_focus id b).
Proof. by intros [H1 H2 H3]. Qed.
Lemma ok_proxy s m b : browsers_ok b -> browsers_ok (set_proxy s m b).
Proof. by intros [H1 H2 H3]. Qed.
Lemma ok_load u v b : browsers_ok b -> browsers_ok (load u v b).
Proof. unfold load. case_match; [apply ok_call|done]. Qed.
Lemma ok_with id f b :
  (forall v, browsers b !! id = Some v -> browsers_ok b -> browsers_ok (f v b)) ->
  browsers_ok b -> browsers_ok (with_browser id f b).
Proof. unfold with_browser. intros Hf Hb. destruct (browsers b !! id); [by apply Hf|done]. Qed.

#[export] Hint Resolve ok_call ok_focus ok_proxy ok_load : limux.

(** The session once it is asked for. *)
Definition session_of (e : WebEnv) (b : Browsers) : Ptr := (create_persistent_session e b).1.

Lemma create_session_state e b : browsers_ok b ->
  let b' := (create_persistent_session e b).2 in
  browsers_ok b' /\ browsers b' = browsers b /\ panels b' = panels b /\
  exists d, persistent b' = Some (session_of e b, d).
Proof.
  intros Hb. unfold session_of, create_persistent_session.
  destruct (persistent b) as [[s d]|] eqn:E; simpl; [by split_and!; eauto|].
  split_and!; [|done|done|eauto]. destruct Hb as [H1 H2 H3]. split; simpl; try done.
  intros v p Hp. destruct (H2 v p Hp) as (s & d & Hs & _). congruence.
Qed.

Lemma ok_new_panel v p b s d :
  browsers_ok b -> (forall k, browsers b !! k <> Some v) -> browsers b !! p_id p = None ->
  persistent b = Some (s, d) -> p_session p = s -> (p_find_visible p = false -> p_search p = None) ->
  browsers_ok (mkBrowsers (<[p_id p := v]> (browsers b)) (<[v := p]> (panels b)) (persistent b) (proxies b)
                 (web_calls b) (focus_requests b)).
Proof.
  intros [H1 H2 H3] Hv Hid Hs Hp Hf. split; simpl.
  - intros k w. rewrite lookup_insert_Some. intros [[<- <-]|[Hne Hk]].
    + exists p. by rewrite lookup_insert_eq.
    + destruct (H1 k w Hk) as (q & Hq & Hqk). exists q. rewrite lookup_insert_ne; [done|]. by intros <-; apply (Hv k).
  - intros w q. rewrite lookup_insert_Some. intros [[<- <-]|[_ Hq]]; [by exists s, d|by eapply H2].
  - intros w q. rewrite lookup_insert_Some. intros [[<- <-]|[_ Hq]]; [done|by eapply H3].
Qed.

Lemma ok_browsers_ext b b' :
  browsers b' = browsers b -> panels b' = panels b -> persistent b' = persistent b ->
  browsers_ok b -> browsers_ok b'.
Proof. intros E1 E2 E3 [H1 H2 H3]. split; by rewrite ?E1, ?E2, ?E3. Qed.

Lemma create_inner_ok e v id url proxy opener b :
  browsers_ok b -> browsers b !! id = None -> (forall k, browsers b !! k <> Some v) ->
  browsers_ok (create_inner e v id url proxy opener b).
Proof.
  intros Hb Hid Hv. unfold create_inner. destruct (create_session_state e b Hb) as (Hb1 & Eb & Ep & d & Es).
  destruct (create_persistent_session e b) as [s b1] eqn:E. unfold session_of in Es. rewrite E in Es. simpl in *.
  assert (exists session related b2, match proxy, opener with
    | Some ep, _ => (s, None, apply_socks5_proxy s (socks5_uri ep) b1)
    | None, Some o => (default s (p_session <$> panels b1 !! o), Some o, b1)
    | None, None => (s, None, b1)
    end = (session, related, b2) /\ session = s /\ browsers b2 = browsers b1 /\ panels b2 = panels b1 /\
    persistent b2 = persistent b1) as (session & related & b2 & -> & -> & E1 & E2 & E3).
  { destruct proxy as [ep|].
    - eexists _, _, _. split; [done|]. unfold apply_socks5_proxy. by case_match.
    - destruct opener as [o|]; eexists _, _, _; (split; [done|]); [|done]. split; [|done].
      destruct (panels b1 !! o) as [p|] eqn:Ho; [|done]. simpl.
      destruct (bo_session _ Hb1 o p Ho) as (s' & d' & Hs & ->). congruence. }
  pose (p := mkPanel id s related url false false false false None "").
  eapply (ok_browsers_ext (mkBrowsers (<[p_id p := v]> (browsers b2)) (<[v := p]> (panels b2)) (persistent b2)
    (proxies b2) (web_calls b2) (focus_requests b2))).
  1-3: unfold set_browsers; simpl; repeat case_match; done.
  apply (ok_new_panel v p b2 s d); simpl; rewrite ?E1, ?Eb, ?E3; try done.
  by eapply ok_browsers_ext; [..|exact Hb1].
Qed.

Lemma browser_op_ok e o b : op_ok o b -> browsers_ok b -> browsers_ok (browser_op e o b).
Proof.
  intros Ho Hb. destruct o as [v id u|v id u ep|v id op u|id ep|id|id u|id s|id c|id|v ev]; simpl in *.
  - destruct Ho. by apply create_inner_ok.
  - destruct Ho. by apply create_inner_ok.
  - destruct Ho. case_match; [by apply create_inner_ok|done].
  - apply ok_with; [|done]. intros v _ _. case_match; [|done]. destruct ep as [ep|]; [|by apply ok_proxy].
    unfold apply_socks5_proxy. case_match; auto with limux.
  - destruct Hb as [H1 H2 H3]. split; simpl; try done.
    intros k v [_ Hk]%lookup_delete_Some. by apply H1.
  - apply ok_with; auto with limux.
  - unfold evaluate_js. case_match; [|done]. apply ok_with; auto with limux.
  - apply ok_with; auto with limux.
  - apply ok_with; [|done]. intros v _ _. case_match; [|done]. case_match.
    + apply ok_focus. by apply ok_on_panel.
    + by apply ok_on_panel.
  - destruct ev as [t|u|l cb cf| | | |t| | | | |n|]; simpl; auto with limux;
      try (by apply ok_on_panel).
    destruct t as [|c t]; [by apply ok_on_panel|]. case_match; [|done].
    apply ok_on_panel; [|done]. intros p Hp. split_and!; [done..|]. simpl. rewrite (Ho p Hp). done.
Qed.

(** The session is made once. *)
Lemma browser_op_persistent e o b :
  (forall s, persistent b = Some s -> s = build_persistent_session e) ->
  forall s, persistent (browser_op e o b) = Some s -> s = build_persistent_session e.
Proof.
  intros Hb. assert (forall s, persistent (create_persistent_session e b).2 = Some s ->
    s = build_persistent_session e) as Hc.
  { unfold create_persistent_session. destruct (persistent b) as [x|] eqn:E; simpl; [by rewrite E|].
    by intros s [= <-]. }
  assert (forall v id u ep op s, persistent (create_inner e v id u ep op b) = Some s ->
    s = build_persistent_session e) as Hi.
  { intros v id u ep op s H. apply Hc. rewrite <- H. unfold create_inner.
    destruct (create_persistent_session e b) as [x b1]. unfold apply_socks5_proxy.
    destruct ep; [|destruct op]; repeat case_match; simplify_eq; done. }
  destruct o as [v id u|v id u ep|v id op u|id ep|id|id u|id s|id c|id|v ev]; simpl; try apply Hi.
  - case_match; [apply Hi|done].
  - unfold set_proxy_endpoint, with_browser, apply_socks5_proxy. by repeat case_match.
  - done.
  - unfold navigate, with_browser, load. by repeat case_match.
  - unfold evaluate_js, with_browser. by repeat case_match.
  - unfold with_browser. by case_match.
  - unfold toggle_find_bar, with_browser. by repeat case_match.
  - destruct ev; simpl; unfold load; by repeat case_match.
Qed.

(** ** The proxy *)

(** The proxy of a panel: that of the session of its view. *)
Definition proxy_of (id : BrowserPanelId) (b : Browsers) : option ProxyMode :=
  v ← browsers b !! id; p ← panels b !! v; Some (default ProxyDefault (proxies b !! p_session p)).

(** One cell, and what an operation writes into it. *)
Definition shared_proxy (b : Browsers) : ProxyMode :=
  default ProxyDefault (s ← persistent b; proxies b !! s.1).
Definition proxy_asked (o : BrowserOp) (b : Browsers) : option ProxyMode :=
  match o with
  | CreateProxied _ _ _ ep => Custom <$> cstring (socks5_uri ep)
  | SetProxyOf id ep =>
      _ ← browsers b !! id;
      match ep with Some ep => Custom <$> cstring (socks5_uri ep) | None => Some NoProxy end
  | _ => None
  end.

Lemma proxy_of_shared id b :
  browsers_ok b -> is_Some (browsers b !! id) -> proxy_of id b = Some (shared_proxy b).
Proof.
  intros Hb [v Hv]. unfold proxy_of, shared_proxy. rewrite Hv. cbn [mbind option_bind].
  destruct (bo_panel _ Hb id v Hv) as (p & Hp & _). rewrite Hp. cbn [mbind option_bind].
  destruct (bo_session _ Hb v p Hp) as (s & d & -> & ->). done.
Qed.

Lemma shared_proxy_ext b b' :
  persistent b' = persistent b -> proxies b' = proxies b -> shared_proxy b' = shared_proxy b.
Proof. unfold shared_proxy. by intros -> ->. Qed.

Lemma shared_proxy_set s d m b : persistent b = Some (s, d) -> shared_proxy (set_proxy s m b) = m.
Proof. unfold shared_proxy. simpl. intros ->. simpl. by rewrite lookup_insert_eq. Qed.

Lemma create_inner_proxy e v id url proxy opener b :
  browsers_ok b ->
  shared_proxy (create_inner e v id url proxy opener b) =
  default (shared_proxy b) (ep ← proxy; Custom <$> cstring (socks5_uri ep)).
Proof.
  intros Hb. unfold create_inner. destruct (create_session_state e b Hb) as (_ & _ & _ & d & Es).
  assert (shared_proxy (create_persistent_session e b).2 = shared_proxy b) as Hs.
  { unfold create_persistent_session, shared_proxy. destruct (persistent b) as [[s d']|] eqn:Eb; simpl.
    - by rewrite Eb.
    - by rewrite lookup_insert_eq. }
  destruct (create_persistent_session e b) as [s b1] eqn:E. unfold session_of in Es. rewrite E in Es. simpl in *.
  destruct proxy as [ep|]; [|destruct opener]; simpl.
  - transitivity (shared_proxy (apply_socks5_proxy s (socks5_uri ep) b1)).
    + apply shared_proxy_ext; repeat case_match; done.
    + unfold apply_socks5_proxy. destruct (cstring _); [by eapply shared_proxy_set|done].
  - rewrite <- Hs. apply shared_proxy_ext; repeat case_match; done.
  - rewrite <- Hs. apply shared_proxy_ext; repeat case_match; done.
Qed.

Lemma browser_op_proxy e o b :
  browsers_ok b -> shared_proxy (browser_op e o b) = default (shared_proxy b) (proxy_asked o b).
Proof.
  intros Hb. destruct o as [v id u|v id u ep|v id op u|id ep|id|id u|id s|id c|id|v ev]; simpl;
    try (apply shared_proxy_ext; unfold navigate, evaluate_js, toggle_find_bar, with_browser, load;
         repeat case_match; done).
  - by apply create_inner_proxy.
  - unfold create_with_proxy. by rewrite create_inner_proxy.
  - case_match; [|done]. by apply create_inner_proxy.
  - unfold set_proxy_endpoint, with_browser. destruct (browsers b !! id) as [v|] eqn:Hv; [|done]. simpl.
    destruct (bo_panel _ Hb id v Hv) as (p & Hp & _). rewrite Hp.
    destruct (bo_session _ Hb v p Hp) as (s & d & Hs & ->).
    destruct ep as [ep|]; [|by eapply shared_proxy_set].
    unfold apply_socks5_proxy. destruct (cstring _); [by eapply shared_proxy_set|done].
  - apply shared_proxy_ext; destruct ev; simpl; unfold load; repeat case_match; done.
Qed.

(** ** Addresses *)

Lemma all_ws_byte c q n :
  (N_of_ascii c < 128)%N -> is_ascii_ws c = false -> all_ws (q +:+ String c n) = false.
Proof.
  intros Hc Hw. destruct (all_ws _) eqn:E; [|done].
  apply (all_ws_after (S (String.length q))) in E as [E _]; [congruence|lia|done].
Qed.

Lemma trim_end_graphic c s : graphic c -> trim_end (String c s) = String c (trim_end s).
Proof.
  intros Hc. cbn [trim_end]. pose proof (all_ws_byte c "" s) as H. cbn [String.append] in H.
  rewrite H; [done|unfold graphic in Hc; lia|].
  unfold is_ascii_ws. apply bool_decide_eq_false. unfold graphic in Hc. lia.
Qed.

Fixpoint all_graphic (s : string) : bool :=
  match s with "" => true | String c r => bool_decide (graphic c) && all_graphic r end.

Lemma trim_after_prefix p s : all_graphic p = true -> p <> "" -> trim (p +:+ s) = p +:+ trim_end s.
Proof.
  intros Hp Hne. unfold trim. assert (trim_start (p +:+ s) = p +:+ s) as ->.
  { destruct p as [|c p]; [done|]. cbn in Hp. apply andb_prop in Hp as [Hc%bool_decide_eq_true _].
    by apply trim_start_graphic. }
  clear Hne. induction p as [|c p IH]; [done|]. cbn in Hp. apply andb_prop in Hp as [Hc%bool_decide_eq_true Hp].
  cbn [String.append]. by rewrite trim_end_graphic, IH.
Qed.

Lemma has_byte_split c s : has_byte c s = true -> exists q n, s = q +:+ String c n.
Proof.
  induction s as [|a s IH]; [done|]. cbn. intros [->%byte_eqb_eq|H]%orb_prop; [by exists "", s|].
  destruct (IH H) as (q & n & ->). by exists (String a q), n.
Qed.

Lemma replace_none c r s : has_byte c s = false -> replace_char c r s = s.
Proof.
  induction s as [|a s IH]; [done|]. cbn. intros [H1 H2]%orb_false_iff. rewrite H1. by rewrite IH.
Qed.

Lemma replace_some c d s : has_byte c s = true -> has_byte d (replace_char c (String d "") s) = true.
Proof.
  induction s as [|a s IH]; [done|]. cbn. destruct (byte_eqb a c); simpl; [by rewrite byte_eqb_refl|].
  intros H. rewrite IH by done. apply orb_true_r.
Qed.

(** Spaces become plus signs, so nothing new is white space at the end. *)
Lemma trim_end_replaced s : trim_end s = s -> trim_end (replace_char " " "+" s) = replace_char " " "+" s.
Proof.
  assert (forall u, all_ws u = false -> all_ws (replace_char " " "+" u) = false) as Hk.
  { intros u Hu. destruct (has_byte " " u) eqn:Hs; [|by rewrite replace_none].
    apply (replace_some " " "+"), has_byte_split in Hs as (q & n & ->). by apply all_ws_byte. }
  induction s as [|c s IH]; [done|]. cbn [trim_end]. destruct (all_ws (String c s)) eqn:E; [done|].
  intros [= Hs]. apply Hk in E. cbn [replace_char] in *. destruct (byte_eqb c " ").
  - cbn [String.append trim_end] in *. rewrite E. by rewrite (IH Hs).
  - cbn [trim_end]. rewrite E. by rewrite (IH Hs).
Qed.

Definition has_scheme (s : string) : bool :=
  starts_with "http://" s || starts_with "https://" s || starts_with "file://" s.

Lemma starts_with_prefix p s : starts_with p (p +:+ s) = true.
Proof. unfold starts_with. rewrite strip_prefix_app. by apply bool_decide_eq_true. Qed.

(** The three outcomes for text that is not blank. *)
Lemma normalize_cases s :
  trim s <> "" ->
  normalize_url s =
    if has_scheme (trim s) then trim s
    else if has_byte "." (trim s) && negb (has_byte " " (trim s)) then "https://" +:+ trim s
    else "https://www.google.com/search?q=" +:+ replace_char " " "+" (trim s).
Proof. unfold normalize_url, has_scheme. by destruct (trim s). Qed.

Lemma normalized_fixed s : trim s = s -> has_scheme s = true -> normalize_url s = s.
Proof.
  intros Ht Hs. rewrite normalize_cases; rewrite Ht; [by rewrite Hs|]. by intros ->.
Qed.

(** ** Claims *)

(** C23: in every state that is reached the registry and the views agree: a panel is found
    by its identifier and, from a signal of its view, by the address of the view; all
    views, local, remote and popups, have the one session, whose directory was chosen
    once; and a find bar that is hidden shows no search. *)
Theorem browsers_agree e b ord :
  (forall m, ord m ≡ₚ map_to_list m) -> rtc (browser_step e) browsers_new b ->
  (forall id v, webview_ptr id b = Some v ->
     find_id_by_webview_ptr ord v b = Some id /\
     exists p, panels b !! v = Some p /\ persistent b = Some (p_session p, (build_persistent_session e).2)) /\
  (forall v p, panels b !! v = Some p -> p_find_visible p = false -> p_search p = None).
Proof.
  intros Hord Hr.
  assert (browsers_ok b /\ (forall s, persistent b = Some s -> s = build_persistent_session e)) as [Hb Hs].
  { eapply (rtc_preserves (browser_step e) (fun b => browsers_ok b /\
      forall s, persistent b = Some s -> s = build_persistent_session e));
      [|split; [apply browsers_new_ok|done]|exact Hr].
    intros a _ [o Ho] [Ha Hp]. split; [by apply browser_op_ok|]. by apply browser_op_persistent. }
  split; [|apply Hb]. intros id v Hv. unfold webview_ptr in Hv.
  destruct (bo_panel _ Hb id v Hv) as (p & Hp & Hid). split.
  - unfold find_id_by_webview_ptr. destruct (List.find _ _) as [[k w]|] eqn:E; simpl.
    + apply List.find_some in E as [Hin Hw%bool_decide_eq_true]. simpl in Hw. subst w.
      apply list_elem_of_In in Hin. rewrite Hord in Hin. apply elem_of_map_to_list in Hin.
      destruct (bo_panel _ Hb k v Hin) as (q & Hq & <-). congruence.
    + exfalso. assert ((id, v) ∈ ord (browsers b)) as Hin%list_elem_of_In
        by (rewrite Hord; by apply elem_of_map_to_list).
      by apply (List.find_none _ _ E), bool_decide_eq_false in Hin.
  - exists p. split; [done|]. destruct (bo_session _ Hb v p Hp) as (s & d & E & ->).
    rewrite E. by rewrite <- (Hs _ E).
Qed.

(** The panels have one proxy between them: it is what the last operation asked for
    that named a tunnel or its end, for whichever panel that was, and it holds for every
    panel, those of local workspaces and of other remote ones included. *)
Theorem browsers_share_proxy e b o :
  rtc (browser_step e) browsers_new b -> op_ok o b ->
  shared_proxy browsers_new = ProxyDefault /\
  shared_proxy (browser_op e o b) = default (shared_proxy b) (proxy_asked o b) /\
  forall id, is_Some (browsers (browser_op e o b) !! id) ->
    proxy_of id (browser_op e o b) = Some (shared_proxy (browser_op e o b)).
Proof.
  intros Hr Ho. assert (browsers_ok b) as Hb.
  { eapply rtc_preserves; [|exact browsers_new_ok|exact Hr].
    intros x _ [p Hp]. by apply browser_op_ok. }
  split_and!; [done|by apply browser_op_proxy|].
  intros id Hid. apply proxy_of_shared; [by apply browser_op_ok|done].
Qed.

(** What is typed becomes an address in one of three ways: with a scheme it is kept
    but for blanks around it, with a dot and no space it is a host, anything else is a
    search; blank text gives no address.  The result is an address already, so that
    typing it again, or the second pass of a command, changes nothing. *)
Theorem normalize_url_canonical s :
  let u := normalize_url s in
  (u = "" <-> trim s = "") /\
  (u <> "" -> has_scheme u = true) /\
  (has_scheme (trim s) = true -> u = trim s) /\
  normalize_url u = u.
Proof.
  intros u. destruct (decide (trim s = "")) as [E|E].
  { assert (u = "") as -> by (unfold u, normalize_url; by rewrite E). rewrite E. by split_and!. }
  assert (trim u = u /\ has_scheme u = true /\ u <> "" /\ (has_scheme (trim s) = true -> u = trim s))
    as (Ht & Hs & Hne & Hk); [|split_and!; [done|done|done|by apply normalized_fixed]].
  destruct (trim_trimmed s) as [_ Hte]. unfold u. rewrite normalize_cases by done.
  destruct (has_scheme (trim s)) eqn:Hsch; [split_and!; [apply trim_idem|done..]|].
  destruct (has_byte "." (trim s) && negb (has_byte " " (trim s))).
  - rewrite trim_after_prefix by done. rewrite Hte. split_and!; [done| |done|done].
    unfold has_scheme. by rewrite (starts_with_prefix "https://"), orb_true_r.
  - rewrite trim_after_prefix by done. rewrite trim_end_replaced by done. split_and!; [done| |done|done].
    unfold has_scheme.
    change ("https://www.google.com/search?q=" +:+ replace_char " " "+" (trim s))
      with ("https://" +:+ ("www.google.com/search?q=" +:+ replace_char " " "+" (trim s))).
    by rewrite (starts_with_prefix "https://"), orb_true_r.
Qed.

Definition demo_env : WebEnv := mkWebEnv None (Some "/home/u") (fun _ => true) 7%Z.
Definition demo_ep : ProxyEndpoint := mkProxyEndpoint "127.0.0.1" 1080%Z.
Definition demo_local : Browsers := create demo_env 100%Z 0%Z "" browsers_new.
Definition demo_both : Browsers := create_with_proxy demo_env 101%Z 1%Z "" demo_ep demo_local.

Lemma demo_local_reached : rtc (browser_step demo_env) browsers_new demo_local.
Proof. apply rtc_once, (browser_step_op _ _ (Create 100%Z 0%Z "")). by split. Qed.
Lemma demo_both_ok : op_ok (CreateProxied 101%Z 1%Z "" demo_ep) demo_local.
Proof. split; [done|]. intros k. unfold demo_local. simpl. by intros [[_ ?]|[_ ?]]%lookup_insert_Some. Qed.

Lemma browsers_agree_witness :
  find_id_by_webview_ptr map_to_list 101%Z demo_both = Some 1%Z /\
  persistent demo_both = Some (7%Z, Some "/home/u/.local/share/limux/web-data").
Proof.
  destruct (browsers_agree demo_env demo_both map_to_list) as [H _]; [done| |].
  - eapply rtc_r; [apply demo_local_reached|].
    apply (browser_step_op _ _ (CreateProxied 101%Z 1%Z "" demo_ep)), demo_both_ok.
  - destruct (H 1%Z 101%Z) as [Hf _]; [by vm_compute|]. split; [exact Hf|by vm_compute].
Defined.

(** The tunnel of one panel takes over the other, and its end leaves both without a
    proxy. *)
Lemma browsers_share_proxy_witness :
  proxy_of 0%Z demo_local = Some ProxyDefault /\
  proxy_of 0%Z demo_both = Some (Custom "socks5://127.0.0.1:1080").
Proof.
  destruct (browsers_share_proxy demo_env demo_local (CreateProxied 101%Z 1%Z "" demo_ep)
    demo_local_reached demo_both_ok) as (_ & Hs & Hp).
  split; [by vm_compute|]. etransitivity; [apply (Hp 0%Z)|rewrite Hs; by vm_compute].
  eexists. by vm_compute.
Defined.

(** The button that says Stop while a page loads reloads it. *)
Lemma stop_reloads v b : web_calls (panel_event v ReloadClicked (panel_event v (LoadingChanged true false false) b))
  = web_calls b ++ [CallReload v].
Proof. done. Qed.
