(* ===== verification/App.v ===== *)
(** * The terminal library's callbacks (app/src/app.rs)

    [wakeup_cb] may be called by any thread and asks the main loop for one tick; [action_cb]
    carries the actions of a terminal out on the window.  The first part is the
    interleaving of the waking threads with the main loop, one atomic operation a step; the
    second part is the dispatch of actions.  The theorems: no wake-up is lost and the ticks
    do not pile up; an action is an operation of the window, or nothing. *)

From Stdlib Require Import Ascii.
From S2P Require Import Prelude F64 SplitTree RustStr Workspace Tabs Surfaces Notebook Window WindowTabs WindowOk WindowProps WindowLife WindowClaims.
Open Scope string_scope.
Open Scope list_scope.

(** ** Wake-ups and ticks *)

(** Where the main thread is: in its loop, in [tick] before the flag is cleared, or
    between clearing it and the tick of the library. *)
Inductive MainPc := Looping | InTick | Cleared.
#[global] Instance MainPc_eq_dec : EqDecision MainPc.
Proof. solve_decision. Defined.

(** [work] counts what the library has left for its next tick, [calling] the threads that
    are in [wakeup_cb] before the exchange, [won] those whose exchange succeeded but whose
    idle callback is not added yet, [idles] the callbacks in the main loop. *)
Record Loop := mkLoop {
  tick_pending : bool; calling : nat; won : nat; idles : nat; main : MainPc; work : nat; renders : nat;
}.

(** One atomic operation, where it can happen. *)
Inductive LoopOp := Post | Exchange | AddIdle | RunIdle | ClearFlag | AppTick.

Definition loop_op (o : LoopOp) (s : Loop) : option Loop :=
  match o with
  | Post => Some (mkLoop (tick_pending s) (S (calling s)) (won s) (idles s) (main s) (S (work s)) (renders s))
  | Exchange =>
      match calling s with
      | 0 => None
      | S n => if tick_pending s
               then Some (mkLoop true n (won s) (idles s) (main s) (work s) (renders s))
               else Some (mkLoop true n (S (won s)) (idles s) (main s) (work s) (renders s))
      end
  | AddIdle =>
      match won s with
      | 0 => None
      | S n => Some (mkLoop (tick_pending s) (calling s) n (S (idles s)) (main s) (work s) (renders s))
      end
  | RunIdle =>
      match main s, idles s with
      | Looping, S n => Some (mkLoop (tick_pending s) (calling s) (won s) n InTick (work s) (renders s))
      | _, _ => None
      end
  | ClearFlag =>
      if decide (main s = InTick)
      then Some (mkLoop false (calling s) (won s) (idles s) Cleared (work s) (renders s)) else None
  | AppTick =>
      if decide (main s = Cleared)
      then Some (mkLoop (tick_pending s) (calling s) (won s) (idles s) Looping 0 (S (renders s))) else None
  end.

Definition loop_new : Loop := mkLoop false 0 0 0 Looping 0 0.

Definition loop_step (s s' : Loop) : Prop := exists o, loop_op o s = Some s'.
(** A step without new work. *)
Definition loop_run (s s' : Loop) : Prop := exists o, o <> Post /\ loop_op o s = Some s'.

(** How many ticks have been asked for and not begun. *)
Definition asked (s : Loop) : nat := won s + idles s + (if decide (main s = InTick) then 1 else 0).

(** The flag is set just while one tick is asked for, and work that is left is on the way
    to a tick: a thread is about to ask, a tick is asked for or is about to run. *)
Record loop_ok (s : Loop) : Prop := mkLoopOk {
  lo_once : asked s = if tick_pending s then 1 else 0;
  lo_work : 0 < work s -> 0 < calling s \/ tick_pending s = true \/ main s = Cleared;
}.

Lemma loop_new_ok : loop_ok loop_new.
Proof. split; simpl; [done|lia]. Qed.

Lemma loop_op_ok o s s' : loop_op o s = Some s' -> loop_ok s -> loop_ok s'.
Proof.
  destruct s as [p c w i m k r]. intros Ho [H1 H2]. unfold asked in *.
  destruct o, m, p, c as [|c], w as [|w], i as [|i]; simpl in *; simplify_eq; split; unfold asked; simpl in *;
    try lia; intuition (lia || congruence).
Qed.

(** What is left to do without new work. *)
Definition loop_measure (s : Loop) : nat :=
  5 * calling s + 4 * won s + 3 * idles s + match main s with Looping => 0 | InTick => 2 | Cleared => 1 end.

Lemma loop_run_decreases s s' : loop_run s s' -> loop_measure s' < loop_measure s.
Proof.
  destruct s as [p c w i m k r]. intros (o & Hne & Ho). unfold loop_measure.
  destruct o, m, p, c as [|c], w as [|w], i as [|i]; simpl in *; simplify_eq; simpl; lia.
Qed.

(** Unless everything is served something can happen. *)
Lemma loop_progress s :
  loop_ok s -> (forall s', ~ loop_run s s') ->
  work s = 0 /\ tick_pending s = false /\ asked s = 0 /\ calling s = 0 /\ main s = Looping.
Proof.
  destruct s as [p c w i m k r]. intros [H1 H2] Hstop. unfold asked in *. simpl in *.
  assert (forall o, o <> Post -> loop_op o (mkLoop p c w i m k r) = None) as Hn.
  { intros o Ho. destruct (loop_op o _) eqn:E; [|done]. exfalso. by apply (Hstop l); exists o. }
  pose proof (Hn Exchange ltac:(done)) as He. pose proof (Hn AddIdle ltac:(done)) as Ha.
  pose proof (Hn RunIdle ltac:(done)) as Hr. pose proof (Hn ClearFlag ltac:(done)) as Hc.
  pose proof (Hn AppTick ltac:(done)) as Ht. clear Hn Hstop.
  destruct m, p, c as [|c], w as [|w], i as [|i]; simpl in *; simplify_eq.
  split_and!; try done. destruct k; [done|]. destruct (H2 ltac:(lia)) as [?|[?|?]]; [lia|done|done].
Qed.

(** ** Actions *)

Inductive SplitDirection := DirRight | DirDown | DirLeft | DirUp.
Inductive GotoSplit := GotoPrevious | GotoNext | GotoOther.

(** An action with its payload; [None] is a null pointer. *)
Inductive GhosttyAction :=
  | ActRender
  | ActSetTitle (title : option string)
  | ActPwd (pwd : option string)
  | ActNewTab
  | ActCloseAllWindows
  | ActNewSplit (dir : SplitDirection)
  | ActGotoSplit (goto : GotoSplit)
  | ActGotoTab (tab : Z)
  | ActRingBell
  | ActOther (tag : Z).

(** The target of an action: whether its tag says surface, and the handle in its union. *)
Record Target := mkTarget { is_surface : bool; target_surface : Z }.

Section actions.
Context {NB : Type} `{!NotebookOps NB}.
Context (ord : gmap Z Pane -> list PaneId) (home : option string).
Implicit Types (aw : AppWindow NB).

(** The window with the title of the program and the number of times that every surface
    was asked to draw itself. *)
Record Shell := mkShell { sh_win : AppWindow NB; sh_title : string; sh_renders : nat }.
Implicit Types (s : Shell).

Definition on_window (f : AppWindow NB -> AppWindow NB) s : Shell :=
  mkShell (f (sh_win s)) (sh_title s) (sh_renders s).
Definition queue_render s : Shell := mkShell (sh_win s) (sh_title s) (S (sh_renders s)).
Definition set_window_title (t : string) s : Shell := mkShell (sh_win s) t (sh_renders s).

Definition split_orientation (d : SplitDirection) : Orientation :=
  match d with DirRight | DirLeft => Horizontal | _ => Vertical end.
Definition goto_forward (g : GotoSplit) : bool :=
  match g with GotoPrevious => false | _ => true end.

Definition action_cb (t : Target) (a : GhosttyAction) s : bool * Shell :=
  match a with
  | ActRender => (true, queue_render s)
  | ActSetTitle None => (true, s)
  | ActSetTitle (Some bytes) =>
      let title := if valid_utf8 bytes then bytes else "limux" in
      let s := if decide (target_surface t = 0)%Z then s
               else on_window (set_surface_title ord home (target_surface t) title) s in
      (true, set_window_title title s)
  | ActPwd pwd =>
      (true, match pwd with
             | Some d => if is_surface t && negb (bool_decide (target_surface t = 0)%Z) && valid_utf8 d
                         then on_window (set_surface_working_directory ord home (target_surface t) d) s else s
             | None => s
             end)
  | ActNewTab => (true, on_window new_workspace s)
  | ActCloseAllWindows => (true, on_window (effect CloseWindow) s)
  | ActNewSplit d => (true, on_window (split_focused (split_orientation d)) s)
  | ActGotoSplit g => (true, on_window (navigate_split (goto_forward g)) s)
  | ActGotoTab n => (true, on_window (goto_tab n) s)
  | ActRingBell =>
      (true, if decide (target_surface t = 0)%Z then s else on_window (handle_bell ord (target_surface t)) s)
  | ActOther _ => (false, s)
  end.

(** What [close_surface_cb] leaves for the main loop; [userdata] is the identifier behind
    the pointer, if it is not null. *)
Definition close_surface_cb (userdata : option SurfaceId) : option SurfaceId := userdata.
Definition close_deferred (id : option SurfaceId) aw : option (AppWindow NB) :=
  match id with Some id => close_surface ord id aw | None => Some aw end.
End actions.

(** * Theorems *)

Lemma loop_reach_ok s : rtc loop_step loop_new s -> loop_ok s.
Proof.
  intros Hr. eapply rtc_preserves; [|exact loop_new_ok|exact Hr].
  intros a b [o Ho]. by eapply loop_op_ok.
Qed.

Lemma loop_run_step s s' : loop_run s s' -> loop_step s s'.
Proof. intros (o & _ & Ho). by exists o. Qed.

(** An operation that is not new work and can happen, if there is one. *)
Definition next_op (s : Loop) : option LoopOp :=
  List.find (fun o => bool_decide (is_Some (loop_op o s))) [Exchange; AddIdle; RunIdle; ClearFlag; AppTick].

Lemma next_op_spec s :
  match next_op s with
  | Some o => exists s', loop_op o s = Some s' /\ loop_run s s'
  | None => forall s', ~ loop_run s s'
  end.
Proof.
  unfold next_op. destruct (List.find _ _) as [o|] eqn:E.
  - apply List.find_some in E as [Hin [s' Hs]%bool_decide_eq_true]. exists s'. split; [done|].
    exists o. split; [|done]. simpl in Hin. intros ->. by intuition.
  - intros s' (o & Hne & Ho). assert (bool_decide (is_Some (loop_op o s)) = false) as H.
    { apply (List.find_none _ _ E). destruct o; simpl; tauto. }
    apply bool_decide_eq_false in H. rewrite Ho in H. by destruct H.
Qed.

Lemma loop_settles s : exists s', rtc loop_run s s' /\ forall s'', ~ loop_run s' s''.
Proof.
  induction s as [s IH] using (Wf_nat.induction_ltof1 _ loop_measure).
  pose proof (next_op_spec s) as H. destruct (next_op s) as [o|]; [|by exists s].
  destruct H as (s1 & _ & H1). destruct (IH s1 (loop_run_decreases _ _ H1)) as (s' & Hr & Hs).
  exists s'. split; [by eapply rtc_l|done].
Qed.

(** C16: however the threads that wake the program up and the main loop interleave, at
    most one tick is asked for at a time; and no wake-up is lost: once nothing new is
    posted, the main loop comes to rest after a bounded number of steps, whatever their
    order, and when it does all work has been served by a tick. *)
Theorem wakeups_served s :
  rtc loop_step loop_new s ->
  asked s = (if tick_pending s then 1 else 0) /\
  (forall n s', nsteps loop_run n s s' -> n <= loop_measure s) /\
  (exists s', rtc loop_run s s' /\ forall s'', ~ loop_run s' s'') /\
  (forall s', rtc loop_run s s' -> (forall s'', ~ loop_run s' s'') ->
     work s' = 0 /\ tick_pending s' = false /\ idles s' = 0 /\ main s' = Looping).
Proof.
  intros Hr. pose proof (loop_reach_ok s Hr) as Hok. split_and!.
  - apply Hok.
  - clear. intros n. revert s. induction n as [|n IH]; intros s s' H; [lia|].
    inversion H as [|? ? s1 ? H1 H2]; subst. apply loop_run_decreases in H1. apply IH in H2. lia.
  - apply loop_settles.
  - intros s' Hs Hstop. assert (loop_ok s') as Hok'.
    { eapply rtc_preserves; [|exact Hok|exact Hs]. intros a b Hab%loop_run_step.
      destruct Hab as [o Ho]. by eapply loop_op_ok. }
    destruct (loop_progress s' Hok' Hstop) as (H1 & H2 & H3 & _ & H5). unfold asked in H3.
    split_and!; [done|done|lia|done].
Qed.

(** Two threads wake the program up before the first tick runs. *)
Lemma wakeups_served_witness :
  exists s, loop_op RunIdle (mkLoop true 0 0 1 Looping 2 0) = Some s /\
    forall s', rtc loop_run (mkLoop true 0 0 1 Looping 2 0) s' -> (forall s'', ~ loop_run s' s'') -> work s' = 0.
Proof.
  eexists. split; [reflexivity|]. intros s' Hs Hstop.
  refine (proj1 (proj2 (proj2 (proj2 (wakeups_served (mkLoop true 0 0 1 Looping 2 0) _))) s' Hs Hstop)).
  eapply rtc_l; [by exists Post|]. eapply rtc_l; [by exists Post|]. eapply rtc_l; [by exists Exchange|].
  eapply rtc_l; [by exists AddIdle|]. apply rtc_once. by exists Exchange.
Defined.

Section actions.
Context {NB : Type} `{!NotebookOps NB} `{!NotebookLaws NB}.
Context (ord : gmap Z Pane -> list PaneId) (home : option string).

(** What an action needs of the window: identifiers and room for what it makes. *)
Definition action_room (a : GhosttyAction) (aw : AppWindow NB) : Prop :=
  match a with ActNewTab => fresh_ids aw | ActNewSplit _ => drag_room aw | _ => True end.

Theorem actions_keep_window t a (s : Shell (NB := NB)) :
  win_ok (sh_win s) -> action_room a (sh_win s) -> win_ok (sh_win (snd (action_cb ord home t a s))).
Proof.
  intros Hok Hr. destruct a as [|[b|]|pwd| | |d|g|n| |tag]; simpl; try done.
  - case_decide; [done|]. simpl. apply (win_step_ok ord _ _ (step_title _ _ _ _ _)), Hok.
  - destruct pwd as [d|]; [|done]. case_match; [|done].
    apply (win_step_ok ord _ _ (step_wd _ _ _ _ _)), Hok.
  - by apply (win_step_ok ord _ _ (step_new _ _ Hr)).
  - by apply win_ok_effect.
  - by apply (win_step_ok ord _ _ (step_split _ _ _ Hr)).
  - apply (win_step_ok ord _ _ (step_navigate _ _ _)), Hok.
  - apply (win_step_ok ord _ _ (step_goto_tab _ _ _)), Hok.
  - case_decide; [done|]. apply (win_step_ok ord _ _ (step_bell _ _ _)), Hok.
Qed.

(** Any other direction than the previous one goes forward; a split to the left or up is
    made to the right or down. *)
Lemma directions_lost (t : Target) (s : Shell (NB := NB)) :
  action_cb ord home t (ActGotoSplit GotoOther) s = action_cb ord home t (ActGotoSplit GotoNext) s /\
  action_cb ord home t (ActNewSplit DirLeft) s = action_cb ord home t (ActNewSplit DirRight) s /\
  action_cb ord home t (ActNewSplit DirUp) s = action_cb ord home t (ActNewSplit DirDown) s.
Proof. done. Qed.
End actions.
