(* ===== verification/SurfaceLife.v ===== *)
(** * Terminal surfaces and their widgets (app/src/surface.rs, app/src/clipboard.rs)

    The life of a surface of the terminal library: its widget is created, realised,
    perhaps unrealised and realised again when it moves to another place of the window,
    drawn, resized, and closed.  GTK and the library are not part of the sources: GTK's
    signals are the steps, and each call into the library is recorded with whether the
    library's rules allow it at that moment. *)

From Stdlib Require Import Ascii.
From S2P Require Import Prelude RustStr SplitTree Workspace Surfaces.
Open Scope string_scope.
Open Scope list_scope.


(** A GLArea.  [a_id] is the data "limux-surface-id", [a_forced] the identifier it was
    created for. *)
Record Area := mkArea { a_forced : option SurfaceId; a_id : option SurfaceId; a_realized : bool }.

Inductive LibCall :=
  | SetSize (h : Z) (w hgt : Z)
  | SetContentScale (h : Z) (scale : Z)
  | Draw (h : Z)
  | DisplayRealized (h : Z)
  | DisplayUnrealized (h : Z)
  | FreeSurface (h : Z)
  | CompleteRequest (h : Z) (text : string) (state : Z).

(** [alive] has the surfaces that exist, and whether they have GPU resources. *)
Definition call_allowed (c : LibCall) (alive : gmap Z bool) : bool :=
  match c with
  | SetSize h _ _ | SetContentScale h _ | FreeSurface h | CompleteRequest h _ _ =>
      bool_decide (is_Some (alive !! h))
  | Draw h | DisplayUnrealized h => bool_decide (alive !! h = Some true)
  | DisplayRealized h => bool_decide (alive !! h = Some false)
  end.
Definition call_effect (c : LibCall) (alive : gmap Z bool) : gmap Z bool :=
  match c with
  | DisplayRealized h => <[h := true]> alive
  | DisplayUnrealized h => <[h := false]> alive
  | FreeSurface h => delete h alive
  | _ => alive
  end.

(** [reads] are the clipboard reads under way: the handle and the state to give back;
    [queued] counts, for each widget, how often it was asked to draw itself. *)
Record Surf := mkSurf {
  sf_reg : SurfaceRegistry; areas : gmap Z Area; alive : gmap Z bool;
  lib_calls : list (LibCall * bool); reads : list (Z * Z); queued : list Z;
}.

Definition surf_new : Surf := mkSurf registry_new ∅ ∅ [] [] [].

Definition set_reg (r : SurfaceRegistry) (s : Surf) : Surf :=
  mkSurf r (areas s) (alive s) (lib_calls s) (reads s) (queued s).
Definition set_area (a : Z) (x : Area) (s : Surf) : Surf :=
  mkSurf (sf_reg s) (<[a := x]> (areas s)) (alive s) (lib_calls s) (reads s) (queued s).
Definition lib_call (c : LibCall) (s : Surf) : Surf :=
  mkSurf (sf_reg s) (areas s) (call_effect c (alive s)) (lib_calls s ++ [(c, call_allowed c (alive s))])
    (reads s) (queued s).
Definition new_handle (h : Z) (s : Surf) : Surf :=
  mkSurf (sf_reg s) (areas s) (<[h := true]> (alive s)) (lib_calls s) (reads s) (queued s).
Definition queue_render (a : Z) (s : Surf) : Surf :=
  mkSurf (sf_reg s) (areas s) (alive s) (lib_calls s) (reads s) (queued s ++ [a]).
Definition set_reads (l : list (Z * Z)) (s : Surf) : Surf :=
  mkSurf (sf_reg s) (areas s) (alive s) (lib_calls s) l (queued s).

(** The size of a widget in pixels: [(w * scale) as u32]. *)
Definition pixels (v scale : Z) : Z := (v * scale) mod 2 ^ 32.
Definition set_size (h : Z) (w hgt scale : Z) : Surf -> Surf :=
  lib_call (SetSize h (pixels w scale) (pixels hgt scale)).

(** The live handle of a widget. *)
Definition area_handle (a : Z) (s : Surf) : option Z :=
  x ← areas s !! a; id ← a_id x; get_handle id (sf_reg s).

(** ** Signals of the widget *)

Definition create_with_id (a : Z) (forced_id : option SurfaceId) (s : Surf) : Surf :=
  set_area a (mkArea forced_id None false) s.

(** The first realisation.  [gl_ok] tells that the GL context has no error, [made] is the
    surface the library makes, if it does; [im] the input method context. *)
Definition realize_first (a : Z) (x : Area) (gl_ok : bool) (made : option Z) (im scale w hgt : Z) (s : Surf)
    : Surf :=
  if negb gl_ok then set_area a (mkArea (a_forced x) None true) s
  else
    let '(id, r) := match a_forced x with Some id => (id, sf_reg s) | None => pre_allocate_id (sf_reg s) end in
    let s := set_reg r s in
    match made with
    | None => set_area a (mkArea (a_forced x) None true) s
    | Some h =>
        let s := new_handle h s in
        let s := if decide (0 < w /\ 0 < hgt)%Z
                 then lib_call (SetContentScale h scale) (set_size h w hgt scale s) else s in
        let s := set_reg (register_with_id id (mkSurfaceEntry h a im) (sf_reg s)) s in
        queue_render a (set_area a (mkArea (a_forced x) (Some id) true) s)
    end.

Definition on_realize (a : Z) (gl_ok : bool) (made : option Z) (im scale w hgt : Z) (s : Surf) : Surf :=
  match areas s !! a with
  | None => s
  | Some x =>
      match a_id x with
      | Some id =>
          let s := match get_handle id (sf_reg s) with Some h => lib_call (DisplayRealized h) s | None => s end in
          queue_render a (set_area a (mkArea (a_forced x) (Some id) true) s)
      | None => realize_first a x gl_ok made im scale w hgt s
      end
  end.

Definition on_unrealize (a : Z) (s : Surf) : Surf :=
  match areas s !! a with
  | None => s
  | Some x =>
      let s := match area_handle a s with Some h => lib_call (DisplayUnrealized h) s | None => s end in
      set_area a (mkArea (a_forced x) (a_id x) false) s
  end.

Definition on_render (a scale w hgt : Z) (s : Surf) : Surf :=
  match area_handle a s with
  | None => s
  | Some h => lib_call (Draw h) (if decide (0 < w /\ 0 < hgt)%Z then set_size h w hgt scale s else s)
  end.

Definition on_resize (a scale w hgt : Z) (s : Surf) : Surf :=
  match area_handle a s with
  | None => s
  | Some h => lib_call (SetContentScale h scale) (set_size h w hgt scale s)
  end.

(** ** The rest of the program *)

(** Closing a terminal in the window takes it out of the registry ... *)
Definition drop_surface (id : SurfaceId) (s : Surf) : Surf := set_reg (snd (unregister id (sf_reg s))) s.
(** ... while [close_surface] of surface.rs, which nothing calls, also frees it. *)
Definition close_surface (id : SurfaceId) (s : Surf) : Surf :=
  let '(e, r) := unregister id (sf_reg s) in
  match e with Some e => lib_call (FreeSurface (surface e)) (set_reg r s) | None => set_reg r s end.

(** [values] is the iteration order of the registry. *)
Definition queue_render_all (values : gmap Z SurfaceEntry -> list SurfaceEntry) (s : Surf) : Surf :=
  foldl (fun s e => queue_render (gl_area e) s) s (values (surfaces (sf_reg s))).

(** ** The clipboard *)

(** [display] tells that there is a display; [userdata] is the identifier that the pointer
    points to, if it is not null. *)
Definition read_clipboard_cb (display : bool) (userdata : option SurfaceId) (state : Z) (s : Surf) : bool * Surf :=
  if negb display then (false, s)
  else match userdata ≫= (fun id => get_handle id (sf_reg s)) with
       | None => (false, s)
       | Some h => (true, set_reads (reads s ++ [(h, state)]) s)
       end.

(** The closure of read [k], when the text has come; [CString::new] fails on a zero byte. *)
Definition read_done (k : nat) (result : option string) (s : Surf) : Surf :=
  match reads s !! k with
  | None => s
  | Some (h, state) =>
      let text := default "" result in
      let cstr := if has_byte zero text then "" else text in
      lib_call (CompleteRequest h cstr state) (set_reads (delete k (reads s)) s)
  end.

Definition confirm_read_clipboard_cb (userdata : option SurfaceId) (content : option string) (state : Z) (s : Surf)
    : Surf :=
  match userdata ≫= (fun id => get_handle id (sf_reg s)) with
  | None => s
  | Some h => lib_call (CompleteRequest h (default "" content) state) s
  end.

(** An item that is to be written: mime type and data, [None] for null. *)
Record ClipItem := mkClip { mime : option string; data : option string }.

Definition item_text (d : string) : string := if valid_utf8 d then d else "".
Definition is_text (i : ClipItem) : bool :=
  match mime i with None => true | Some m => String.eqb m "text/plain" end.

Fixpoint text_item (items : list ClipItem) : option string :=
  match items with
  | [] => None
  | i :: items => match data i with
                  | Some d => if is_text i then Some (item_text d) else text_item items
                  | None => text_item items
                  end
  end.

(** The text that the clipboard is set to, if it is set. *)
Definition write_clipboard_cb (display : bool) (items : list ClipItem) : option string :=
  if negb display then None
  else match items with
       | [] => None
       | first :: _ => match text_item items with
                       | Some t => Some t
                       | None => item_text <$> data first
                       end
       end.
