(* ===== verification/SurfaceProps.v ===== *)
(** * Terminal surfaces: theorems

    Every call into the terminal library is one that its rules allow, in every order of
    the signals; a clipboard read that was begun gives its state back once. *)

From Stdlib Require Import Ascii.
From S2P Require Import Prelude RustStr SplitTree Workspace Surfaces SurfaceLife.
Open Scope string_scope.
Open Scope list_scope.

(** ** Steps *)

(** The identifier that a widget has or will have. *)
Definition claim (x : Area) : option SurfaceId := match a_id x with Some id => Some id | None => a_forced x end.

(** What can happen.  A new widget is made for no identifier or for one that was
    allocated for it; GTK realises what is not realised, and unrealises, resizes and draws
    what is; a new surface has the address of none that is alive; the 32-bit counter of
    identifiers has not wrapped. *)
Inductive surf_step (s : Surf) : Surf -> Prop :=
  | surf_create a forced :
      areas s !! a = None ->
      (forall id, forced = Some id -> (0 <= id < reg_next_id (sf_reg s))%Z /\ surfaces (sf_reg s) !! id = None /\
         forall b x, areas s !! b = Some x -> claim x <> Some id) ->
      surf_step s (create_with_id a forced s)
  | surf_allocate : (reg_next_id (sf_reg s) < u32_max)%Z ->
      surf_step s (set_reg (snd (pre_allocate_id (sf_reg s))) s)
  | surf_realize a x gl_ok made im scale w hgt :
      areas s !! a = Some x -> a_realized x = false -> (reg_next_id (sf_reg s) < u32_max)%Z ->
      (forall h, made = Some h -> alive s !! h = None) ->
      surf_step s (on_realize a gl_ok made im scale w hgt s)
  | surf_unrealize a x : areas s !! a = Some x -> a_realized x = true -> surf_step s (on_unrealize a s)
  | surf_render a x scale w hgt : areas s !! a = Some x -> a_realized x = true ->
      surf_step s (on_render a scale w hgt s)
  | surf_resize a x scale w hgt : areas s !! a = Some x -> a_realized x = true ->
      surf_step s (on_resize a scale w hgt s)
  | surf_drop id : surf_step s (drop_surface id s)
  | surf_queue values : surf_step s (queue_render_all values s)
  | surf_read d u st : surf_step s (snd (read_clipboard_cb d u st s))
  | surf_read_done k r : surf_step s (read_done k r s)
  | surf_confirm u c st : surf_step s (confirm_read_clipboard_cb u c st s).

(** ** The invariant *)

Record surf_ok (s : Surf) : Prop := mkSurfOk {
  so_calls : Forall (fun c => c.2 = true) (lib_calls s);
  so_next : (0 <= reg_next_id (sf_reg s))%Z;
  so_entry : forall id e, surfaces (sf_reg s) !! id = Some e ->
    exists x, areas s !! gl_area e = Some x /\ a_id x = Some id /\ alive s !! surface e = Some (a_realized x);
  so_distinct : forall i j e f, surfaces (sf_reg s) !! i = Some e -> surfaces (sf_reg s) !! j = Some f ->
    surface e = surface f -> i = j;
  so_bound : forall a x id, areas s !! a = Some x -> claim x = Some id -> (0 <= id < reg_next_id (sf_reg s))%Z;
  so_claims : forall a b x y id, areas s !! a = Some x -> areas s !! b = Some y ->
    claim x = Some id -> claim y = Some id -> a = b;
  so_reads : forall h st, (h, st) ∈ reads s -> is_Some (alive s !! h);
}.

Lemma surf_new_ok : surf_ok surf_new.
Proof. split; simpl; try done. intros h st H. by apply elem_of_nil in H. Qed.

(** The handle of a widget is alive and has its GPU resources just when the widget is
    realised. *)
Lemma area_handle_alive s a x h :
  surf_ok s -> areas s !! a = Some x -> area_handle a s = Some h -> alive s !! h = Some (a_realized x).
Proof.
  intros Hok Ha. unfold area_handle. rewrite Ha. cbn [mbind option_bind].
  intros (id & Hid & (e & He & ->)%fmap_Some)%bind_Some.
  destruct (so_entry _ Hok id e He) as (y & Hy & Hyid & ->).
  assert (gl_area e = a) as Hea; [|congruence].
  eapply (so_claims _ Hok); [exact Hy|exact Ha|unfold claim; by rewrite Hyid|unfold claim; by rewrite Hid].
Qed.

(** A call that leaves the surfaces as they are. *)
Lemma surf_ok_call c s :
  surf_ok s -> call_effect c (alive s) = alive s -> call_allowed c (alive s) = true -> surf_ok (lib_call c s).
Proof.
  intros [H1 H2 H3 H4 H5 H6 H7] He Hc. split; simpl; rewrite ?He; try done.
  apply Forall_app. split; [done|]. by constructor.
Qed.

Lemma surf_ok_sized h w hgt scale s :
  surf_ok s -> is_Some (alive s !! h) -> surf_ok (set_size h w hgt scale s).
Proof. intros Hok Hh. apply surf_ok_call; [done..|]. by apply bool_decide_eq_true. Qed.

Lemma surf_ok_scaled h scale s : surf_ok s -> is_Some (alive s !! h) -> surf_ok (lib_call (SetContentScale h scale) s).
Proof. intros Hok Hh. apply surf_ok_call; [done..|]. by apply bool_decide_eq_true. Qed.

Lemma surf_ok_queue a s : surf_ok s -> surf_ok (queue_render a s).
Proof. by intros [H1 H2 H3 H4 H5 H6 H7]. Qed.
#[export] Hint Resolve surf_ok_queue surf_ok_sized surf_ok_scaled : limux.

(** The registry loses an entry. *)
Lemma surf_ok_drop id s : surf_ok s -> surf_ok (drop_surface id s).
Proof.
  intros [H1 H2 H3 H4 H5 H6 H7]. split; simpl; try done.
  - intros i e [_ Hi]%lookup_delete_Some. by apply H3.
  - intros i j e f [_ Hi]%lookup_delete_Some [_ Hj]%lookup_delete_Some. by apply (H4 i j).
Qed.

Lemma surf_ok_allocate s :
  surf_ok s -> (reg_next_id (sf_reg s) < u32_max)%Z -> surf_ok (set_reg (snd (pre_allocate_id (sf_reg s))) s).
Proof.
  intros [H1 H2 H3 H4 H5 H6 H7] Hu. split; simpl; rewrite ?u32_succ_small by lia; try done; [lia|].
  intros a x id Ha Hx. specialize (H5 a x id Ha Hx). lia.
Qed.

(** A widget becomes realised or unrealised, its handle with it. *)
Definition display (a : Z) (b : bool) (s : Surf) : gmap Z bool :=
  match area_handle a s with Some h => <[h := b]> (alive s) | None => alive s end.

Lemma surf_ok_area s a x b calls :
  surf_ok s -> areas s !! a = Some x -> Forall (fun c => c.2 = true) calls ->
  surf_ok (set_area a (mkArea (a_forced x) (a_id x) b)
             (mkSurf (sf_reg s) (areas s) (display a b s) calls (reads s) (queued s))).
Proof.
  intros Hok Ha Hcalls. pose proof Hok as [H1 H2 H3 H4 H5 H6 H7]. unfold display.
  split; simpl; try done.
  - intros id e He. destruct (H3 id e He) as (y & Hy & Hid & Hal). destruct (decide (gl_area e = a)) as [<-|Hne].
    + rewrite lookup_insert_eq. exists (mkArea (a_forced x) (a_id x) b). simplify_eq. split_and!; [done|done|].
      unfold area_handle. rewrite Ha. cbn [mbind option_bind]. rewrite Hid. cbn [mbind option_bind].
      unfold get_handle. rewrite He. simpl. by rewrite lookup_insert_eq.
    + rewrite lookup_insert_ne by done. exists y. split_and!; [done|done|].
      destruct (area_handle a s) as [h|] eqn:Eh; [|done]. rewrite lookup_insert_ne; [done|]. intros ->.
      unfold area_handle in Eh. rewrite Ha in Eh. cbn [mbind option_bind] in Eh.
      apply bind_Some in Eh as (id' & Hid' & (f & Hf & Hf')%fmap_Some).
      assert (id' = id) as -> by (by eapply H4). apply Hne. simplify_eq.
      by eapply (H6 _ _ y x id); [..|unfold claim; rewrite Hid|unfold claim; rewrite Hid'].
  - intros a' y id. rewrite lookup_insert_Some. intros [[<- <-]|[_ Hy]] Hcl; [by apply (H5 a x)|by eapply H5].
  - intros a' b' y z id. rewrite !lookup_insert_Some.
    intros [[<- <-]|[Hn Hy]] [[<- <-]|[Hn' Hz]]; try done.
    + intros Hc1 Hc2. by eapply (H6 _ _ x z).
    + intros Hc1 Hc2. by eapply (H6 _ _ y x).
    + by apply H6.
  - intros h st Hin. apply H7 in Hin. destruct (area_handle a s) as [k|]; [|done].
    rewrite lookup_insert_is_Some'. by right.
Qed.

Lemma surf_ok_flag s a x b :
  surf_ok s -> areas s !! a = Some x -> a_id x = None -> surf_ok (set_area a (mkArea (a_forced x) None b) s).
Proof.
  intros Hok Ha Hid. pose proof (surf_ok_area s a x b (lib_calls s) Hok Ha (so_calls _ Hok)) as H.
  unfold display in H. assert (area_handle a s = None) as E
    by (unfold area_handle; rewrite Ha; cbn [mbind option_bind]; by rewrite Hid).
  rewrite E, Hid in H. exact H.
Qed.

Lemma surf_ok_handle h s : surf_ok s -> alive s !! h = None -> surf_ok (new_handle h s).
Proof.
  intros [H1 H2 H3 H4 H5 H6 H7] Hh. split; simpl; try done.
  - intros id e He. destruct (H3 id e He) as (x & Hx & Hid & Hal). exists x. split_and!; [done|done|].
    rewrite lookup_insert_ne; [done|]. intros ->. congruence.
  - intros k st Hin. rewrite lookup_insert_is_Some'. right. by eapply H7.
Qed.

(** The new surface of a widget gets its entry. *)
Lemma surf_ok_made s a x id h im :
  surf_ok s -> areas s !! a = Some x -> a_id x = None -> (0 <= id < reg_next_id (sf_reg s))%Z ->
  (claim x = None \/ claim x = Some id) ->
  (forall b y, areas s !! b = Some y -> claim y = Some id -> b = a) ->
  alive s !! h = Some true -> (forall i e, surfaces (sf_reg s) !! i = Some e -> surface e <> h) ->
  surf_ok (set_area a (mkArea (a_forced x) (Some id) true)
             (set_reg (register_with_id id (mkSurfaceEntry h a im) (sf_reg s)) s)).
Proof.
  intros Hok Ha Hid Hb Hcl Huniq Hal Hnew. pose proof Hok as [H1 H2 H3 H4 H5 H6 H7]. split; simpl; try done.
  - intros i e. rewrite lookup_insert_Some. intros [[<- <-]|[Hne He]]; simpl.
    + rewrite lookup_insert_eq. by eexists.
    + destruct (H3 i e He) as (y & Hy & Hyid & Hya). rewrite lookup_insert_ne by congruence. eauto.
  - intros i j e f. rewrite !lookup_insert_Some. intros [[<- <-]|[Hi He]] [[<- <-]|[Hj Hf]]; simpl; try done.
    + intros Heq. exfalso. by eapply Hnew.
    + intros Heq. exfalso. by eapply Hnew.
    + by apply H4.
  - intros b y i. rewrite lookup_insert_Some. intros [[<- <-]|[_ Hy]]; [|by eapply H5].
    unfold claim. simpl. by intros [= <-].
  - intros b c y z i. rewrite !lookup_insert_Some. unfold claim at 1 2.
    intros [[<- <-]|[Hn Hy]] [[<- <-]|[Hn' Hz]]; simpl; try done.
    + intros [= <-] Hz'. symmetry. by eapply Huniq.
    + intros Hy' [= <-]. by eapply Huniq.
    + intros Hy' Hz'. by eapply H6.
Qed.

Lemma surf_ok_realize_first s a x gl_ok made im scale w hgt :
  surf_ok s -> areas s !! a = Some x -> a_id x = None -> (reg_next_id (sf_reg s) < u32_max)%Z ->
  (forall h, made = Some h -> alive s !! h = None) ->
  surf_ok (realize_first a x gl_ok made im scale w hgt s).
Proof.
  intros Hok Ha Hid Hu Hmade. unfold realize_first. destruct gl_ok; simpl; [|by apply surf_ok_flag].
  assert (exists id r, (match a_forced x with Some id => (id, sf_reg s) | None => pre_allocate_id (sf_reg s) end)
    = (id, r) /\ surf_ok (set_reg r s) /\ (0 <= id < reg_next_id r)%Z /\ (claim x = None \/ claim x = Some id) /\
    (forall b y, areas s !! b = Some y -> claim y = Some id -> b = a)) as (id & r & -> & Hok1 & Hb & Hcl & Huniq).
  { pose proof (so_next _ Hok) as H0. destruct (a_forced x) as [f|] eqn:Ef.
    - assert (claim x = Some f) as Hcx by (unfold claim; by rewrite Hid). exists f, (sf_reg s).
      split_and!; [done|by destruct s|by eapply so_bound..|by right|]. intros b y Hy Hyc. by eapply so_claims.
    - eexists _, _. split; [done|]. split; [by apply surf_ok_allocate|]. simpl. rewrite u32_succ_small by lia.
      split_and!; [lia|lia|left; unfold claim; by rewrite Hid|].
      intros b y Hy Hyc. pose proof (so_bound _ Hok b y _ Hy Hyc). lia. }
  destruct made as [h|]; [|by apply surf_ok_flag]. specialize (Hmade h eq_refl).
  assert (surf_ok (new_handle h (set_reg r s))) as Hok2 by (by apply surf_ok_handle).
  set (s2 := new_handle h (set_reg r s)) in *.
  assert (forall s3, surf_ok s3 -> areas s3 = areas s2 -> alive s3 = alive s2 -> sf_reg s3 = sf_reg s2 ->
    surf_ok (set_area a (mkArea (a_forced x) (Some id) true)
      (set_reg (register_with_id id (mkSurfaceEntry h a im) (sf_reg s3)) s3))) as Hmain.
  { intros s3 Hok3 E1 E2 E3. apply surf_ok_made; rewrite ?E1, ?E2, ?E3; try done; simpl.
    - by rewrite lookup_insert_eq.
    - intros i e He Heq. destruct (so_entry _ Hok1 i e He) as (y & _ & _ & Hal). simpl in Hal. congruence. }
  apply surf_ok_queue. case_decide; apply Hmain; try done.
  assert (is_Some (alive s2 !! h)) as Hs by (simpl; rewrite lookup_insert_eq; eauto).
  apply surf_ok_scaled; [by apply surf_ok_sized|done].
Qed.

Lemma surf_step_ok s s' : surf_step s s' -> surf_ok s -> surf_ok s'.
Proof.
  intros Hs Hok. destruct Hs as [a f Ha Hf|Hu|a x g made im sc w hgt Ha Hr Hu Hm|a x Ha Hr|a x sc w hgt Ha Hr
    |a x sc w hgt Ha Hr|id|values|d u st|k r|u c st].
  - destruct Hok as [H1 H2 H3 H4 H5 H6 H7]. split; simpl; try done.
    + intros id e He. destruct (H3 id e He) as (y & Hy & Hid & Hal). rewrite lookup_insert_ne by congruence. eauto.
    + intros b y id. rewrite lookup_insert_Some. intros [[<- <-]|[_ Hy]]; [|by eapply H5].
      unfold claim. simpl. intros ->. by apply Hf.
    + intros b c y z id. rewrite !lookup_insert_Some. intros [[<- <-]|[Hn Hy]] [[<- <-]|[Hn' Hz]]; try done.
      * unfold claim at 1. simpl. intros -> Hz'. destruct (Hf id eq_refl) as (_ & _ & Hn). by destruct (Hn _ _ Hz).
      * unfold claim at 2. simpl. intros Hy' ->. destruct (Hf id eq_refl) as (_ & _ & Hn'). by destruct (Hn' _ _ Hy).
      * by apply H6.
  - by apply surf_ok_allocate.
  - unfold on_realize. rewrite Ha. destruct (a_id x) as [id|] eqn:Hid; [|by apply surf_ok_realize_first].
    apply surf_ok_queue. assert (area_handle a s = get_handle id (sf_reg s)) as Eh
      by (unfold area_handle; rewrite Ha; cbn [mbind option_bind]; by rewrite Hid).
    rewrite <- Eh, <- Hid. destruct (area_handle a s) as [h|] eqn:E.
    + pose proof (area_handle_alive s a x h Hok Ha E) as Hal. rewrite Hr in Hal.
      pose proof (surf_ok_area s a x true (lib_calls s ++ [(DisplayRealized h, call_allowed (DisplayRealized h) (alive s))])
        Hok Ha) as H. unfold display in H. rewrite E in H. apply H.
      apply Forall_app. split; [apply Hok|]. constructor; [|constructor]. simpl. by apply bool_decide_eq_true.
    + pose proof (surf_ok_area s a x true (lib_calls s) Hok Ha (so_calls _ Hok)) as H.
      unfold display in H. by rewrite E in H.
  - unfold on_unrealize. rewrite Ha. destruct (area_handle a s) as [h|] eqn:E.
    + pose proof (area_handle_alive s a x h Hok Ha E) as Hal. rewrite Hr in Hal.
      pose proof (surf_ok_area s a x false (lib_calls s ++ [(DisplayUnrealized h, call_allowed (DisplayUnrealized h) (alive s))])
        Hok Ha) as H. unfold display in H. rewrite E in H. apply H.
      apply Forall_app. split; [apply Hok|]. constructor; [|constructor]. simpl. by apply bool_decide_eq_true.
    + pose proof (surf_ok_area s a x false (lib_calls s) Hok Ha (so_calls _ Hok)) as H.
      unfold display in H. by rewrite E in H.
  - unfold on_render. destruct (area_handle a s) as [h|] eqn:E; [|done].
    pose proof (area_handle_alive s a x h Hok Ha E) as Hal. rewrite Hr in Hal.
    assert (forall s3, surf_ok s3 -> alive s3 = alive s -> surf_ok (lib_call (Draw h) s3)) as Hd.
    { intros s3 H3 E3. apply surf_ok_call; [done|done|]. simpl. rewrite E3. by apply bool_decide_eq_true. }
    apply Hd; case_decide; eauto with limux.
  - unfold on_resize. destruct (area_handle a s) as [h|] eqn:E; [|done].
    pose proof (area_handle_alive s a x h Hok Ha E) as Hal.
    apply surf_ok_scaled; [apply surf_ok_sized|]; eauto.
  - by apply surf_ok_drop.
  - unfold queue_render_all. generalize (values (surfaces (sf_reg s))). intros l. revert s Hok.
    induction l as [|e l IH]; intros s Hok; [done|]. simpl. apply IH. by apply surf_ok_queue.
  - unfold read_clipboard_cb. destruct d; simpl; [|done].
    destruct (u ≫= _) as [h|] eqn:E; simpl; [|done].
    apply bind_Some in E as (id & _ & (e & He & ->)%fmap_Some).
    destruct (so_entry _ Hok id e He) as (x & _ & _ & Hal). destruct Hok as [H1 H2 H3 H4 H5 H6 H7].
    split; simpl; try done. intros h st' [Hin|[= -> ->]%list_elem_of_singleton]%elem_of_app; eauto.
  - unfold read_done. destruct (reads s !! k) as [[h st]|] eqn:E; [|done].
    pose proof (so_reads _ Hok h st (list_elem_of_lookup_2 _ _ _ E)) as Hal.
    apply surf_ok_call; [|done|by apply bool_decide_eq_true].
    destruct Hok as [H1 H2 H3 H4 H5 H6 H7]. split; simpl; try done.
    intros h' st' Hin. apply (H7 h' st'). rewrite (delete_Permutation _ _ _ E). by right.
  - unfold confirm_read_clipboard_cb. destruct (u ≫= _) as [h|] eqn:E; [|done].
    apply bind_Some in E as (id & _ & (e & He & ->)%fmap_Some).
    destruct (so_entry _ Hok id e He) as (x & _ & _ & Hal).
    apply surf_ok_call; [done|done|]. apply bool_decide_eq_true. eauto.
Qed.

(** ** Claims *)


(** A terminal is made, moved within the window and drawn there, and closed while a read
    of the clipboard is under way. *)
Definition demo_moved : Surf :=
  on_render 5 2 40 30 (on_realize 5 true None 0 2 40 30 (on_unrealize 5
    (on_realize 5 true (Some 9%Z) 0 2 40 30 (create_with_id 5 None surf_new)))).
Definition demo_closed : Surf := read_done 0 (Some "x") (drop_surface 0 (snd (read_clipboard_cb true (Some 0%Z) 77 demo_moved))).


(** But no step ends a surface: closing a terminal only forgets its handle, and the
    function that would free it is called from nowhere. *)
Lemma surfaces_never_freed s s' h : surf_step s s' -> is_Some (alive s !! h) -> is_Some (alive s' !! h).
Proof.
  intros Hs Hh. destruct Hs as [a f Ha Hf|Hu|a x g made im sc w hgt Ha Hr Hu Hm|a x Ha Hr|a x sc w hgt Ha Hr
    |a x sc w hgt Ha Hr|id|values|d u st|k r|u c st]; try done.
  - unfold on_realize, realize_first. repeat case_match; simpl; try done; rewrite ?lookup_insert_is_Some'; auto.
  - unfold on_unrealize. repeat case_match; simpl; try done; rewrite ?lookup_insert_is_Some'; auto.
  - unfold on_render. by repeat case_match.
  - unfold on_resize. by repeat case_match.
  - unfold queue_render_all. generalize (values (surfaces (sf_reg s))). intros l. revert s Hh.
    induction l as [|e l IH]; intros s Hh; [done|]. by apply IH.
  - unfold read_clipboard_cb. by repeat case_match.
  - unfold read_done. by repeat case_match.
  - unfold confirm_read_clipboard_cb. by repeat case_match.
Qed.
