(* ===== verification/Startup.v ===== *)
(** * Start of the program (app/src/main.rs, the environment of shells in surface.rs)

    What the program does to its environment before GTK starts: where the resources of
    the terminal library are, and the libraries of an AppImage; and the part of it that is
    taken back for the shells.  The file system is an argument; paths are texts, compared
    by their components as the standard library does. *)

From Stdlib Require Import Ascii.
From S2P Require Import Prelude RustStr Settings.
Open Scope string_scope.
Open Scope list_scope.

(** ** Paths *)

(** The components of a path: whether it is absolute, and the names; empty ones and dots
    do not count, but for a dot at the start of a relative path. *)
Definition plain_names (l : list string) : list string :=
  filter (fun x => x <> "" /\ x <> ".") l.
Definition components (p : string) : bool * list string :=
  match p with
  | String c r =>
      if byte_eqb c "/" then (true, plain_names (split_char "/" r))
      else match split_char "/" p with
           | x :: l => (false, (if String.eqb x "." then ["."] else []) ++ plain_names (x :: l))
           | [] => (false, [])
           end
  | "" => (false, [])
  end.
Definition path_eqb (p q : string) : bool := bool_decide (components p = components q).

(** [Path::parent], up to redundant separators. *)
Definition path_parent (p : string) : option string :=
  let '(root, l) := components p in
  match l with
  | [] => None
  | _ => Some ((if root then "/" else "") +:+ join "/" (removelast l))
  end.

(** ** The resources of the terminal library *)

(** What is asked of the file system; [repo] is the checked-out source tree of a debug
    build. *)
Record Files := mkFiles {
  is_file : string -> bool; is_dir : string -> bool; canonicalize : string -> option string;
  repo : option string;
}.

Section startup.
Context (fs : Files).

Definition ghostty_resources_valid (root : string) : bool :=
  match path_parent root with
  | None => false
  | Some share_dir =>
      is_file fs (path_join root "shell-integration/bash/ghostty.bash") && is_dir fs (path_join share_dir "terminfo")
  end.

Definition candidates (env : gmap string string) : list string :=
  (match env !! "APPDIR" with
   | Some appdir => match appdir with "" => [] | _ => [path_join appdir "usr/share/ghostty"] end
   | None => []
   end) ++
  match repo fs with Some r => [path_join r "ghostty/zig-out/share/ghostty"] | None => [] end.

Definition setup_ghostty_resources (env : gmap string string) : gmap string string :=
  let kept := match env !! "GHOSTTY_RESOURCES_DIR" with
              | Some path => match path with "" => false | _ => ghostty_resources_valid path end
              | None => false
              end in
  if kept then env
  else match List.find ghostty_resources_valid (candidates env) with
       | Some dir => <["GHOSTTY_RESOURCES_DIR" := default dir (canonicalize fs dir)]> env
       | None => delete "GHOSTTY_RESOURCES_DIR" env
       end.

(** ** The libraries of an AppImage *)

(** What is at the path that the patched library looks at. *)
Inductive Sentinel := Absent | Symlink (target : string) | OtherFile.

(** Whether the old file can be removed and a link made. *)
Context (remove_ok symlink_ok : bool).

Definition link_sentinel (helper_dir : string) (s : Sentinel) : Sentinel :=
  let ok := match s with Symlink t => path_eqb t helper_dir | _ => false end in
  if ok then s
  else
    let s := if remove_ok then Absent else s in
    match s with Absent => if symlink_ok then Symlink helper_dir else Absent | _ => s end.

(** [LD_LIBRARY_PATH] with the directory of the AppImage in it. *)
Definition add_lib_dir (lib_dir ld : string) : string :=
  if existsb (fun p => negb (String.eqb p "") && path_eqb p lib_dir) (split_char ":" ld) then ld
  else match ld with "" => lib_dir | _ => lib_dir +:+ ":" +:+ ld end.

Definition setup_appimage_webkit (env : gmap string string) (s : Sentinel) : gmap string string * Sentinel :=
  match env !! "APPDIR" with
  | None => (env, s)
  | Some appdir =>
      let helper_dir := path_join appdir "usr/lib/webkitgtk-6.0" in
      let s := if is_dir fs helper_dir then link_sentinel helper_dir s else s in
      let env := <["WEBKIT_DISABLE_SANDBOX_THIS_IS_DANGEROUS" := "1"]> env in
      let env := <["WEBKIT_DISABLE_DMABUF_RENDERER" := "1"]> env in
      let env := if is_dir fs helper_dir
                 then <["WEBKIT_INJECTED_BUNDLE_PATH" :=
                          path_join helper_dir "injected-bundle/libwebkitgtkinjectedbundle.so"]> env
                 else env in
      let ld := default "" (env !! "LD_LIBRARY_PATH") in
      (<["LD_LIBRARY_PATH" := add_lib_dir (path_join appdir "usr/lib") ld]> env, s)
  end.
End startup.

(** ** The environment of shells *)

(** The value that a terminal gets instead of the program's own, if it is another. *)
Definition cleaned_path (appdir ld : string) : string :=
  join ":" (filter (fun p => negb (String.eqb p "") && negb (starts_with appdir p) = true) (split_char ":" ld)).
Definition shell_library_path (env : gmap string string) : option string :=
  appdir ← env !! "APPDIR";
  let ld := default "" (env !! "LD_LIBRARY_PATH") in
  let cleaned := cleaned_path appdir ld in
  if String.eqb cleaned ld then None else Some cleaned.
(** What the shell sees. *)
Definition shell_sees (env : gmap string string) : option string :=
  match shell_library_path env with Some v => Some v | None => env !! "LD_LIBRARY_PATH" end.

(** ** Order of the start and the end *)

Inductive StartAction :=
  | InitGhostty
  | LoadSettings
  | ApplyNotifications (enabled : bool)
  | InitAppearance
  | BuildWindow
  | RegisterSwitchAction
  | StartSocket (path : option string)
  | InitWindow (wd command : option string)
  | PresentWindow
  | InstallPrompt
  | UpdateCheckIn (seconds : Z)
  | StartTray
  | StartDbus
  | StartAutosave
  | StartPortPolling
  | SaveSession
  | StopDbus
  | StopTray
  | StopSocket
  | DestroyGhostty.

Record Options := mkOptions { o_wd : option string; o_command : option string; o_socket : option string }.

(** [open] tells that there is a window already, [init_ok] that the library came up. *)
Definition activate (open init_ok notifications : bool) (o : Options) : list StartAction :=
  if open then []
  else if negb init_ok then [InitGhostty]
  else [InitGhostty; LoadSettings; ApplyNotifications notifications; InitAppearance; BuildWindow;
        RegisterSwitchAction; StartSocket (o_socket o); InitWindow (o_wd o) (o_command o); PresentWindow;
        InstallPrompt; UpdateCheckIn 4; StartTray; StartDbus; StartAutosave; StartPortPolling].
Definition shutdown : list StartAction := [SaveSession; StopDbus; StopTray; StopSocket; DestroyGhostty].

(** ** Theorems *)

Lemma starts_with_join p q : p <> "" -> starts_with p (path_join p q) = true.
Proof.
  intros Hp. unfold starts_with, path_join. destruct p as [|c p]; [done|].
  apply bool_decide_eq_true. case_match; rewrite strip_prefix_app; eauto.
Qed.

(** The directory that is added is taken out again, whatever was there before. *)
Lemma cleaned_added appdir ld :
  appdir <> "" -> has_byte ":" (path_join appdir "usr/lib") = false ->
  cleaned_path appdir (add_lib_dir (path_join appdir "usr/lib") ld) = cleaned_path appdir ld.
Proof.
  intros Hne Hc. unfold add_lib_dir. case_match; [done|]. pose proof (starts_with_join appdir "usr/lib" Hne) as Hs.
  assert (forall l, filter (fun p => negb (String.eqb p "") && negb (starts_with appdir p) = true)
    (path_join appdir "usr/lib" :: l) = filter (fun p => negb (String.eqb p "") && negb (starts_with appdir p) = true) l)
    as Hf.
  { intros l. rewrite filter_cons_False; [done|]. by rewrite Hs, andb_false_r. }
  unfold cleaned_path. destruct ld as [|c ld].
  - rewrite split_char_none by done. rewrite Hf. done.
  - set (r := String c ld). change (path_join appdir "usr/lib" +:+ ":" +:+ r) with
      (path_join appdir "usr/lib" +:+ String ":" r). rewrite split_char_app by done. by rewrite Hf.
Qed.

(** Twice is as good as once. *)
Lemma add_lib_dir_idem lib ld : has_byte ":" lib = false -> lib <> "" -> add_lib_dir lib (add_lib_dir lib ld) = add_lib_dir lib ld.
Proof.
  intros Hc Hne. assert (forall l, existsb (fun p => negb (String.eqb p "") && path_eqb p lib) (lib :: l) = true) as He.
  { intros l. simpl. apply orb_true_iff. left. apply andb_true_iff. split.
    - apply negb_true_iff. by apply String.eqb_neq.
    - by apply bool_decide_eq_true. }
  unfold add_lib_dir at 2 3. destruct (existsb _ (split_char ":" ld)) eqn:E; unfold add_lib_dir; [by rewrite E|].
  destruct ld as [|c ld].
  - rewrite split_char_none by done. by rewrite He.
  - change (lib +:+ ":" +:+ String c ld) with (lib +:+ String ":" (String c ld)).
    rewrite split_char_app by done. by rewrite He.
Qed.

(** In an AppImage the program adds the directory of its own libraries to
    [LD_LIBRARY_PATH], and a shell in a terminal does not see it: it sees the value that
    the program was started with, less what was from the AppImage already. *)
Theorem shell_path_restored fs r l (env : gmap string string) s appdir :
  env !! "APPDIR" = Some appdir -> appdir <> "" -> has_byte ":" (path_join appdir "usr/lib") = false ->
  let env' := fst (setup_appimage_webkit fs r l env s) in
  let before := default "" (env !! "LD_LIBRARY_PATH") in
  env' !! "LD_LIBRARY_PATH" = Some (add_lib_dir (path_join appdir "usr/lib") before) /\
  existsb (fun p => path_eqb p (path_join appdir "usr/lib"))
    (split_char ":" (add_lib_dir (path_join appdir "usr/lib") before)) = true /\
  default "" (shell_sees env') = cleaned_path appdir before /\
  (cleaned_path appdir before = before -> default "" (shell_sees env') = before).
Proof.
  intros Ha Hne Hc env' before.
  assert (env' !! "LD_LIBRARY_PATH" = Some (add_lib_dir (path_join appdir "usr/lib") before)) as Hl.
  { unfold env', setup_appimage_webkit. rewrite Ha. cbn [fst]. rewrite lookup_insert_eq. do 2 f_equal.
    unfold before. f_equal. case_match; by rewrite !lookup_insert_ne. }
  assert (env' !! "APPDIR" = Some appdir) as Ha'.
  { unfold env', setup_appimage_webkit. rewrite Ha. cbn [fst]. case_match; by rewrite !lookup_insert_ne. }
  assert (default "" (shell_sees env') = cleaned_path appdir before) as Hsee.
  { unfold shell_sees, shell_library_path. rewrite Ha', Hl. cbn [mbind option_bind default from_option id].
    rewrite cleaned_added by done. destruct (String.eqb _ _) eqn:E; [|done].
    apply String.eqb_eq in E. simpl. by rewrite E. }
  split_and!; [done| |done|by intros <-].
  unfold add_lib_dir. destruct (existsb _ (split_char ":" before)) eqn:E.
  - apply existsb_exists in E as (p & Hp & [_ He]%andb_prop). apply existsb_exists. eauto.
  - assert (path_eqb (path_join appdir "usr/lib") (path_join appdir "usr/lib") = true) as Hr
      by (by apply bool_decide_eq_true).
    destruct before as [|c b]; [rewrite split_char_none by done; simpl; by rewrite Hr|].
    change (path_join appdir "usr/lib" +:+ ":" +:+ String c b) with (path_join appdir "usr/lib" +:+ String ":" (String c b)).
    rewrite split_char_app by done. simpl. by rewrite Hr.
Qed.

Definition demo_files : Files := mkFiles (fun _ => true) (fun _ => true) Some None.
Definition demo_appdir : gmap string string := <["APPDIR" := "/tmp/m"]> {["LD_LIBRARY_PATH" := "/opt/lib:/usr/lib"]}.

Lemma shell_path_restored_witness :
  let env := fst (setup_appimage_webkit demo_files true true demo_appdir OtherFile) in
  env !! "LD_LIBRARY_PATH" = Some "/tmp/m/usr/lib:/opt/lib:/usr/lib" /\
  default "" (shell_sees env) = "/opt/lib:/usr/lib".
Proof.
  destruct (shell_path_restored demo_files true true demo_appdir OtherFile "/tmp/m") as (H1 & _ & _ & H4);
    [done|done|done|]. split; [rewrite H1; by vm_compute|apply H4; by vm_compute].
Defined.

(** The resources are used where they are complete: the directory that was given, or the
    first candidate that is; otherwise the variable is unset. *)
Theorem resources_dir_complete fs (env : gmap string string) :
  match setup_ghostty_resources fs env !! "GHOSTTY_RESOURCES_DIR" with
  | None => forall c, c ∈ candidates fs env -> ghostty_resources_valid fs c = false
  | Some dir =>
      (env !! "GHOSTTY_RESOURCES_DIR" = Some dir /\ ghostty_resources_valid fs dir = true) \/
      exists c, c ∈ candidates fs env /\ ghostty_resources_valid fs c = true /\ dir = default c (canonicalize fs c)
  end.
Proof.
  unfold setup_ghostty_resources. set (kept := match env !! _ with Some _ => _ | None => _ end).
  destruct kept eqn:Ek.
  - unfold kept in Ek. destruct (env !! "GHOSTTY_RESOURCES_DIR") as [[|c d]|] eqn:E; try done. by left.
  - destruct (List.find _ _) as [dir|] eqn:E.
    + rewrite lookup_insert_eq. right. apply List.find_some in E as [Hin%list_elem_of_In Hv]. eauto.
    + rewrite lookup_delete_eq. intros c Hc%list_elem_of_In. by apply (List.find_none _ _ E).
Qed.

(** The prefix is compared as text: an empty [APPDIR] takes everything out, and a
    directory beside the AppImage whose name goes on from it is taken out too. *)
Lemma cleaned_path_prefix :
  cleaned_path "" "/opt/lib:/usr/lib" = "" /\ cleaned_path "/tmp/m" "/tmp/more/lib:/usr/lib" = "/usr/lib".
Proof. by vm_compute. Qed.

(** What another user has put in the place of the link stays when it cannot be removed. *)
Lemma sentinel_planted t helper : path_eqb t helper = false -> link_sentinel false true helper (Symlink t) = Symlink t.
Proof. unfold link_sentinel. by intros ->. Qed.
