(* ===== verification/GhosttySys.v ===== *)
(** * The binding of the terminal library (app/src/ghostty_sys.rs)

    The constants and the data types that the program shares with the C library.  What
    makes the sharing right is the layout of the types: the rules of [repr(C)] are
    definitions here, and the types are given by their fields. *)

From S2P Require Import Prelude.
Open Scope string_scope.
Open Scope list_scope.

(** ** Layout *)

(** A scalar of 2^k bytes, aligned to its size, as all are on 64-bit targets. *)
Inductive ctype :=
  | Scalar (k : nat)
  | Array (t : ctype) (n : nat)
  | Struct (fields : list (string * ctype))
  | Union (fields : list (string * ctype)).

Definition c_bool : ctype := Scalar 0.
Definition u8 : ctype := Scalar 0.
Definition u32 : ctype := Scalar 2.
Definition u64 : ctype := Scalar 3.
Definition usize : ctype := Scalar 3.
Definition c_int : ctype := Scalar 2.
Definition f32 : ctype := Scalar 2.
Definition f64_t : ctype := Scalar 3.
Definition pointer : ctype := Scalar 3.

(** The exponent of the alignment. *)
Fixpoint align_exp (t : ctype) : nat :=
  match t with
  | Scalar k => k
  | Array t _ => align_exp t
  | Struct fs | Union fs => foldr Nat.max 0 (map (fun f => align_exp f.2) fs)
  end.
Definition align_of (t : ctype) : nat := 2 ^ align_exp t.

Definition round_up (n a : nat) : nat := (n + a - 1) / a * a.

(** Where the fields go, one after the other from [off], each given by its size and
    alignment; the end of the last one. *)
Fixpoint place (off : nat) (fs : list (nat * nat)) : list nat * nat :=
  match fs with
  | [] => ([], off)
  | (size, align) :: fs =>
      let o := round_up off align in
      let '(os, e) := place (o + size) fs in
      (o :: os, e)
  end.

Fixpoint size_of (t : ctype) : nat :=
  match t with
  | Scalar k => 2 ^ k
  | Array t n => n * size_of t
  | Struct fs =>
      round_up (place 0 (map (fun f => (size_of f.2, 2 ^ align_exp f.2)) fs)).2
        (2 ^ foldr Nat.max 0 (map (fun f => align_exp f.2) fs))
  | Union fs =>
      round_up (foldr Nat.max 0 (map (fun f => size_of f.2) fs))
        (2 ^ foldr Nat.max 0 (map (fun f => align_exp f.2) fs))
  end.

(** The offsets of the fields. *)
Definition offsets (t : ctype) : list nat :=
  match t with
  | Struct fs => (place 0 (map (fun f => (size_of f.2, align_of f.2)) fs)).1
  | Union fs => map (fun _ => 0) fs
  | _ => []
  end.
Definition fields (t : ctype) : list (string * ctype) :=
  match t with Struct fs | Union fs => fs | _ => [] end.

(** ** The types *)

Definition ghostty_config_color_s : ctype := Struct [("r", u8); ("g", u8); ("b", u8)].
Definition ghostty_platform_linux_s : ctype := Struct [("_reserved", pointer)].
Definition ghostty_platform_u : ctype := Union [("linux", ghostty_platform_linux_s); ("_pad", Array u8 8)].
Definition ghostty_point_s : ctype := Struct [("tag", c_int); ("coord", c_int); ("x", u32); ("y", u32)].
Definition ghostty_selection_s : ctype :=
  Struct [("top_left", ghostty_point_s); ("bottom_right", ghostty_point_s); ("rectangle", c_bool)].
Definition ghostty_text_s : ctype :=
  Struct [("tl_px_x", f64_t); ("tl_px_y", f64_t); ("offset_start", u32); ("offset_len", u32);
          ("text", pointer); ("text_len", usize)].
Definition ghostty_clipboard_content_s : ctype := Struct [("mime", pointer); ("data", pointer)].
Definition ghostty_input_key_s : ctype :=
  Struct [("action", c_int); ("mods", c_int); ("consumed_mods", c_int); ("keycode", u32); ("text", pointer);
          ("unshifted_codepoint", u32); ("composing", c_bool)].
Definition ghostty_env_var_s : ctype := Struct [("key", pointer); ("value", pointer)].
Definition ghostty_surface_config_s : ctype :=
  Struct [("platform_tag", c_int); ("platform", ghostty_platform_u); ("userdata", pointer);
          ("scale_factor", f64_t); ("font_size", f32); ("working_directory", pointer); ("command", pointer);
          ("env_vars", pointer); ("env_var_count", usize); ("initial_input", pointer);
          ("wait_after_command", c_bool); ("context", c_int)].
Definition ghostty_action_set_title_s : ctype := Struct [("title", pointer)].
Definition ghostty_action_pwd_s : ctype := Struct [("pwd", pointer)].
Definition ghostty_action_scrollbar_s : ctype := Struct [("total", u64); ("offset", u64); ("len", u64)].
Definition ghostty_action_u : ctype :=
  Union [("new_split", c_int); ("goto_tab", c_int); ("goto_split", c_int);
         ("set_title", ghostty_action_set_title_s); ("pwd", ghostty_action_pwd_s);
         ("scrollbar", ghostty_action_scrollbar_s)].
Definition ghostty_action_s : ctype := Struct [("tag", c_int); ("action", ghostty_action_u)].
Definition ghostty_target_u : ctype := Union [("surface", pointer)].
Definition ghostty_target_s : ctype := Struct [("tag", c_int); ("target", ghostty_target_u)].
Definition ghostty_runtime_config_s : ctype :=
  Struct [("userdata", pointer); ("supports_selection_clipboard", c_bool); ("wakeup_cb", pointer);
          ("action_cb", pointer); ("read_clipboard_cb", pointer); ("confirm_read_clipboard_cb", pointer);
          ("write_clipboard_cb", pointer); ("close_surface_cb", pointer)].

(** The types that cross the boundary by value or by pointer. *)
Definition binding_types : list ctype :=
  [ghostty_config_color_s; ghostty_platform_linux_s; ghostty_platform_u; ghostty_point_s; ghostty_selection_s;
   ghostty_text_s; ghostty_clipboard_content_s; ghostty_input_key_s; ghostty_env_var_s; ghostty_surface_config_s;
   ghostty_action_set_title_s; ghostty_action_pwd_s; ghostty_action_scrollbar_s; ghostty_action_u;
   ghostty_action_s; ghostty_target_u; ghostty_target_s; ghostty_runtime_config_s].

(** ** Constants *)

Definition GHOSTTY_MODS_NONE : Z := 0.
Definition GHOSTTY_MODS_SHIFT : Z := Z.shiftl 1 0.
Definition GHOSTTY_MODS_CTRL : Z := Z.shiftl 1 1.
Definition GHOSTTY_MODS_ALT : Z := Z.shiftl 1 2.
Definition GHOSTTY_MODS_SUPER : Z := Z.shiftl 1 3.
Definition GHOSTTY_MODS_CAPS : Z := Z.shiftl 1 4.

Definition GHOSTTY_ACTION_RELEASE : Z := 0.
Definition GHOSTTY_ACTION_PRESS : Z := 1.
Definition GHOSTTY_ACTION_REPEAT : Z := 2.

Definition GHOSTTY_MOUSE_RELEASE : Z := 0.
Definition GHOSTTY_MOUSE_PRESS : Z := 1.
Definition GHOSTTY_MOUSE_UNKNOWN : Z := 0.
Definition GHOSTTY_MOUSE_LEFT : Z := 1.
Definition GHOSTTY_MOUSE_RIGHT : Z := 2.
Definition GHOSTTY_MOUSE_MIDDLE : Z := 3.
Definition GHOSTTY_MOUSE_FOUR : Z := 4.
Definition GHOSTTY_MOUSE_FIVE : Z := 5.
Definition GHOSTTY_MOUSE_SIX : Z := 6.
Definition GHOSTTY_MOUSE_SEVEN : Z := 7.
Definition GHOSTTY_MOUSE_EIGHT : Z := 8.

(** ** Theorems *)

Lemma round_up_ge n a : 0 < a -> n <= round_up n a.
Proof.
  intros Ha. unfold round_up. pose proof (Nat.div_mod (n + a - 1) a ltac:(lia)) as H.
  pose proof (Nat.mod_upper_bound (n + a - 1) a ltac:(lia)). lia.
Qed.
Lemma round_up_divide n a : Nat.divide a (round_up n a).
Proof. unfold round_up. by eexists. Qed.

Lemma pow2_pos k : 0 < 2 ^ k.
Proof. induction k; simpl; lia. Qed.

(** The fields are in order, aligned, and do not overlap. *)
Lemma place_spec fs : forall off,
  Forall (fun f => 0 < f.2) fs ->
  length (place off fs).1 = length fs /\ off <= (place off fs).2 /\
  (forall i o f, (place off fs).1 !! i = Some o -> fs !! i = Some f ->
     off <= o /\ o + f.1 <= (place off fs).2 /\ Nat.divide f.2 o) /\
  (forall i j o p f, i < j -> (place off fs).1 !! i = Some o -> (place off fs).1 !! j = Some p ->
     fs !! i = Some f -> o + f.1 <= p).
Proof.
  induction fs as [|[s a] fs IH]; intros off Hp; [by split_and!|]. inversion Hp as [|? ? Ha Hps]; subst. simpl in Ha.
  cbn [place]. pose proof (round_up_ge off a Ha) as Hge.
  destruct (IH (round_up off a + s) Hps) as (H1 & H2 & H3 & H4).
  destruct (place (round_up off a + s) fs) as [os e]. cbn [fst snd] in *. split_and!; simpl; [lia|lia| |].
  - intros [|i] o f; simpl.
    + intros [= <-] [= <-]. simpl. split_and!; [lia|lia|apply round_up_divide].
    + intros Ho Hf. destruct (H3 i o f Ho Hf) as (? & ? & ?). split_and!; [lia|lia|done].
  - intros [|i] [|j] o p f Hij; simpl; try lia.
    + intros [= <-] Hp' [= <-]. simpl. destruct (lookup_lt_is_Some_2 fs j) as [g Hg].
      { rewrite <- H1. by eapply lookup_lt_Some. }
      destruct (H3 j p g Hp' Hg) as (? & _). lia.
    + intros Ho Hp' Hf. apply (H4 i j o p f); [lia|done..].
Qed.

(** Sizes are multiples of alignments, so that elements of arrays are aligned. *)
Lemma size_aligned t : Nat.divide (align_of t) (size_of t).
Proof.
  induction t as [k|t IH n|fs|fs].
  - apply Nat.divide_refl.
  - cbn [size_of]. change (align_of (Array t n)) with (align_of t). by apply Nat.divide_mul_r.
  - cbn [size_of]. apply round_up_divide.
  - cbn [size_of]. apply round_up_divide.
Qed.

Lemma max_le_foldr (l : list nat) x : x ∈ l -> x <= foldr Nat.max 0 l.
Proof. induction l as [|y l IH]; [by intros ?%elem_of_nil|]. intros [->|H]%elem_of_cons; simpl; [lia|]. specialize (IH H). lia. Qed.

Lemma map_lookup {A B} (g : A -> B) l i : map g l !! i = g <$> l !! i.
Proof. revert i. induction l as [|x l IH]; intros [|i]; try done. apply IH. Qed.

Lemma pow2_divide a b : a <= b -> Nat.divide (2 ^ a) (2 ^ b).
Proof. intros H. exists (2 ^ (b - a)). rewrite <- Nat.pow_add_r. f_equal. lia. Qed.

(** An aligned value has aligned fields. *)
Lemma field_aligned t i f : fields t !! i = Some f -> Nat.divide (align_of f.2) (align_of t).
Proof.
  intros Hf. apply pow2_divide. destruct t as [k|t n|fs|fs]; try done; cbn [fields] in Hf; cbn [align_exp];
    apply max_le_foldr, list_elem_of_In, in_map_iff; exists f; (split; [done|]);
    by apply list_elem_of_In, (list_elem_of_lookup_2 fs i).
Qed.

(** The fields of a type lie inside it and are aligned; those of a structure do not
    overlap. *)
Definition laid_out (t : ctype) : Prop :=
  Nat.divide (align_of t) (size_of t) /\ length (offsets t) = length (fields t) /\
  (forall i o f, offsets t !! i = Some o -> fields t !! i = Some f ->
     o + size_of f.2 <= size_of t /\ forall base, Nat.divide (align_of t) base -> Nat.divide (align_of f.2) (base + o)) /\
  (forall fs, t = Struct fs -> forall i j o p f, i < j -> offsets t !! i = Some o -> offsets t !! j = Some p ->
     fields t !! i = Some f -> o + size_of f.2 <= p).

Theorem layout_sound t : laid_out t.
Proof.
  split; [apply size_aligned|]. destruct t as [k|t n|fs|fs]; try by split_and!.
  - pose proof (place_spec (map (fun f => (size_of f.2, align_of f.2)) fs) 0) as H.
    destruct H as (H1 & _ & H3 & H4).
    { apply Forall_forall. intros x Hx%list_elem_of_In. apply in_map_iff in Hx as (f & <- & _). apply pow2_pos. }
    assert (forall i f, fs !! i = Some f ->
      map (fun f => (size_of f.2, align_of f.2)) fs !! i = Some (size_of f.2, align_of f.2)) as Hm.
    { intros i f Hf. by rewrite map_lookup, Hf. }
    cbn [offsets fields]. rewrite H1, length_map. split_and!; [done| |].
    + intros i o f Ho Hf. destruct (H3 i o _ Ho (Hm i f Hf)) as (_ & Hle & Hd). simpl in Hle, Hd. split.
      * etransitivity; [exact Hle|]. cbn [size_of]. apply round_up_ge, pow2_pos.
      * intros base Hb. apply Nat.divide_add_r; [|done]. etransitivity; [|exact Hb].
        by eapply (field_aligned (Struct fs)).
    + intros fs' _ i j o p f Hij Ho Hp Hf. by apply (H4 i j o p _ Hij Ho Hp (Hm i f Hf)).
  - cbn [offsets fields]. rewrite length_map. split_and!; [done| |done].
    intros i o f Ho Hf. assert (o = 0) as -> .
    { rewrite map_lookup, Hf in Ho. by injection Ho. }
    split.
    + simpl. etransitivity; [|cbn [size_of]; apply round_up_ge, pow2_pos].
      apply max_le_foldr, list_elem_of_In, in_map_iff. exists f. split; [done|].
      by apply list_elem_of_In, (list_elem_of_lookup_2 fs i).
    + intros base Hb. rewrite Nat.add_0_r. etransitivity; [by eapply (field_aligned (Union fs))|exact Hb].
Qed.

(** Every type that crosses the boundary of the terminal library is laid out by the
    rules of C: its fields lie inside it and are aligned wherever an aligned value is put,
    those of a structure do not overlap, and values of the type can follow one another in
    an array; and the sizes that the source asserts of the actions are theirs. *)
Theorem binding_layout :
  (forall t, t ∈ binding_types -> laid_out t) /\
  size_of ghostty_action_u = 24 /\ align_of ghostty_action_u = 8 /\ size_of ghostty_action_s = 32 /\
  offsets ghostty_action_s = [0; 8] /\ size_of ghostty_platform_u = 8 /\
  offsets ghostty_input_key_s = [0; 4; 8; 12; 16; 24; 28] /\ size_of ghostty_input_key_s = 32 /\
  offsets ghostty_runtime_config_s = [0; 8; 16; 24; 32; 40; 48; 56] /\ size_of ghostty_runtime_config_s = 64.
Proof. split; [intros t _; apply layout_sound|]. by vm_compute. Qed.
