(* ===== verification/Input.v ===== *)
(** * Key, pointer and text input (app/src/input.rs)

    How the events of GTK become calls of the terminal library.  Modifier states of GDK are
    bit sets; the library's are too, with other bits. *)

From Stdlib Require Import Ascii.
From S2P Require Import Prelude RustStr GhosttySys.
Open Scope string_scope.
Open Scope list_scope.

(** ** Modifiers and buttons *)

(** The masks of [gdk4::ModifierType]. *)
Definition SHIFT_MASK : Z := Z.shiftl 1 0.
Definition LOCK_MASK : Z := Z.shiftl 1 1.
Definition CONTROL_MASK : Z := Z.shiftl 1 2.
Definition ALT_MASK : Z := Z.shiftl 1 3.
Definition SUPER_MASK : Z := Z.shiftl 1 26.

(** [bitflags]' [contains]. *)
Definition contains (state mask : Z) : bool := Z.eqb (Z.land state mask) mask.

Definition add_mod (state mask bit mods : Z) : Z := if contains state mask then Z.lor mods bit else mods.
Definition translate_mods (state : Z) : Z :=
  add_mod state LOCK_MASK GHOSTTY_MODS_CAPS
    (add_mod state SUPER_MASK GHOSTTY_MODS_SUPER
      (add_mod state ALT_MASK GHOSTTY_MODS_ALT
        (add_mod state CONTROL_MASK GHOSTTY_MODS_CTRL
          (add_mod state SHIFT_MASK GHOSTTY_MODS_SHIFT GHOSTTY_MODS_NONE)))).

Definition translate_mouse_button (button : Z) : Z :=
  if Z.eqb button 1 then GHOSTTY_MOUSE_LEFT
  else if Z.eqb button 2 then GHOSTTY_MOUSE_MIDDLE
  else if Z.eqb button 3 then GHOSTTY_MOUSE_RIGHT
  else if Z.eqb button 4 then GHOSTTY_MOUSE_FOUR
  else if Z.eqb button 5 then GHOSTTY_MOUSE_FIVE
  else if Z.eqb button 6 then GHOSTTY_MOUSE_SIX
  else if Z.eqb button 7 then GHOSTTY_MOUSE_SEVEN
  else if Z.eqb button 8 then GHOSTTY_MOUSE_EIGHT
  else GHOSTTY_MOUSE_UNKNOWN.

(** ** Calls *)

Record KeyEvent := mkKeyEvent {
  k_action : Z; k_keycode : Z; k_mods : Z; k_consumed : Z; k_text : option string;
  k_unshifted : Z; k_composing : bool;
}.

Inductive InputCall :=
  | Key (e : KeyEvent)
  | MousePos (x y : Z) (mods : Z)
  | MouseButton (state button mods : Z)
  | MouseScroll (dx dy : Z) (mods : Z)
  | SetFocus (focused : bool)
  | Preedit (text : option string)
  | FocusedSurface
  | GrabFocus.

(** A character of a key, as GDK gives it. *)
Record Char := mkChar { codepoint : Z; is_control : bool; utf8 : string }.

(** Positions and distances are opaque here. *)
Inductive InputEvent :=
  | KeyPressed (unicode : option Char) (lower : option Char) (keycode state : Z)
  | KeyReleased (keycode state : Z)
  | ButtonPressed (button state x y : Z)
  | ButtonReleased (button state x y : Z)
  | Motion (state x y : Z)
  | Scroll (state dx dy : Z)
  | FocusEnter
  | FocusLeave
  | ImCommit (text : string)
  | ImPreeditChanged (text : string)
  | ImPreeditEnd.

Definition c_text (s : string) : option string := if has_byte zero s then None else Some s.

Definition key_press (unicode lower : option Char) (keycode state : Z) : KeyEvent :=
  mkKeyEvent GHOSTTY_ACTION_PRESS keycode (translate_mods state) GHOSTTY_MODS_NONE
    (match unicode with Some c => if is_control c then None else c_text (utf8 c) | None => None end)
    (match lower with Some c => codepoint c | None => 0 end) false.
Definition key_release (keycode state : Z) : KeyEvent :=
  mkKeyEvent GHOSTTY_ACTION_RELEASE keycode (translate_mods state) GHOSTTY_MODS_NONE None 0 false.
Definition commit_key (text : string) : KeyEvent :=
  mkKeyEvent GHOSTTY_ACTION_PRESS 0 GHOSTTY_MODS_NONE GHOSTTY_MODS_NONE (Some text) 0 false.

Definition input_event (e : InputEvent) : list InputCall :=
  match e with
  | KeyPressed u l k s => [Key (key_press u l k s)]
  | KeyReleased k s => [Key (key_release k s)]
  | ButtonPressed b s x y =>
      [MousePos x y (translate_mods s);
       MouseButton GHOSTTY_MOUSE_PRESS (translate_mouse_button b) (translate_mods s); GrabFocus]
  | ButtonReleased b s x y =>
      [MousePos x y (translate_mods s);
       MouseButton GHOSTTY_MOUSE_RELEASE (translate_mouse_button b) (translate_mods s)]
  | Motion s x y => [MousePos x y (translate_mods s)]
  | Scroll s dx dy => [MouseScroll dx dy (translate_mods s)]
  | FocusEnter => [SetFocus true; FocusedSurface]
  | FocusLeave => [SetFocus false]
  | ImCommit text => match c_text text with Some t => [Key (commit_key t); Preedit None] | None => [] end
  | ImPreeditChanged text => match c_text text with Some t => [Preedit (Some t)] | None => [] end
  | ImPreeditEnd => [Preedit None]
  end.

Definition input_events (l : list InputEvent) : list InputCall := l ≫= input_event.

(** ** Theorems *)

Lemma contains_bit state n : (0 <= n)%Z -> contains state (Z.shiftl 1 n) = Z.testbit state n.
Proof.
  intros Hn. unfold contains. rewrite Z.shiftl_1_l. destruct (Z.testbit state n) eqn:E.
  - apply Z.eqb_eq. apply Z.bits_inj'. intros m Hm. rewrite Z.land_spec, Z.pow2_bits_eqb by done.
    destruct (Z.eqb_spec n m); subst; [by rewrite E|]. by rewrite andb_false_r.
  - apply Z.eqb_neq. intros H. apply (f_equal (fun x => Z.testbit x n)) in H.
    rewrite Z.land_spec, Z.pow2_bits_true, E in H by done. done.
Qed.

Lemma add_mod_bit state mask n mods m :
  (0 <= n)%Z -> (0 <= m)%Z -> (exists k, (0 <= k)%Z /\ mask = Z.shiftl 1 k) ->
  Z.testbit (add_mod state mask (Z.shiftl 1 n) mods) m =
  Z.testbit mods m || (contains state mask && Z.eqb n m).
Proof.
  intros Hn Hm _. unfold add_mod. destruct (contains state mask); simpl; [|by rewrite orb_false_r].
  rewrite Z.lor_spec, Z.shiftl_1_l, Z.pow2_bits_eqb by done. done.
Qed.

(** The bits of the library's modifiers and where they come from. *)
Definition mod_source (n : Z) : option Z :=
  if Z.eqb n 0 then Some 0%Z else if Z.eqb n 1 then Some 2%Z else if Z.eqb n 2 then Some 3%Z
  else if Z.eqb n 3 then Some 26%Z else if Z.eqb n 4 then Some 1%Z else None.

Lemma translate_mods_bits state n : (0 <= n)%Z ->
  Z.testbit (translate_mods state) n = match mod_source n with Some k => Z.testbit state k | None => false end.
Proof.
  intros Hn. unfold translate_mods.
  assert (forall k, (0 <= k)%Z -> exists j, (0 <= j)%Z /\ Z.shiftl 1 k = Z.shiftl 1 j) as Hk by eauto.
  unfold LOCK_MASK, SUPER_MASK, ALT_MASK, CONTROL_MASK, SHIFT_MASK, GHOSTTY_MODS_CAPS, GHOSTTY_MODS_SUPER,
    GHOSTTY_MODS_ALT, GHOSTTY_MODS_CTRL, GHOSTTY_MODS_SHIFT.
  rewrite !add_mod_bit by (first [lia|apply Hk; lia]).
  rewrite !contains_bit by lia. unfold GHOSTTY_MODS_NONE. rewrite Z.bits_0. unfold mod_source. rewrite orb_false_l.
  destruct (Z.eqb_spec n 0) as [->|]; [simpl; by rewrite ?andb_true_r, ?andb_false_r, ?orb_false_r|].
  destruct (Z.eqb_spec n 1) as [->|]; [simpl; by rewrite ?andb_true_r, ?andb_false_r, ?orb_false_r|].
  destruct (Z.eqb_spec n 2) as [->|]; [simpl; by rewrite ?andb_true_r, ?andb_false_r, ?orb_false_r|].
  destruct (Z.eqb_spec n 3) as [->|]; [simpl; by rewrite ?andb_true_r, ?andb_false_r, ?orb_false_r|].
  destruct (Z.eqb_spec n 4) as [->|]; [simpl; by rewrite ?andb_true_r, ?andb_false_r, ?orb_false_r|].
  repeat match goal with |- context [Z.eqb ?a n] => destruct (Z.eqb_spec a n); [lia|] end.
  by rewrite ?andb_false_r.
Qed.

(** What the terminal shows of the text that is being composed. *)
Fixpoint preedit_after (l : list InputCall) (shown : option string) : option string :=
  match l with
  | [] => shown
  | Preedit t :: l => preedit_after l t
  | _ :: l => preedit_after l shown
  end.

Lemma preedit_after_app l k shown : preedit_after (l ++ k) shown = preedit_after k (preedit_after l shown).
Proof. revert shown. induction l as [|c l IH]; intros shown; [done|]. destruct c; simpl; apply IH. Qed.

(** The button that the library's number stands for. *)
Definition button_of (t : Z) : Z := if Z.eqb t 2 then 3 else if Z.eqb t 3 then 2 else t.
Lemma button_known b : translate_mouse_button b = GHOSTTY_MOUSE_UNKNOWN \/ b = button_of (translate_mouse_button b).
Proof.
  unfold translate_mouse_button.
  repeat match goal with |- context [if Z.eqb b ?k then _ else _] => destruct (Z.eqb_spec b k) as [->|];
    [by right|] end. by left.
Qed.

(** The modifiers that the library is told are exactly those of the event, each by
    its own bit, and nothing else of the state; the eight buttons are told apart and any
    other is unknown; a key never carries the text of a control character; and when a
    text is committed or composition ends, nothing of it stays on the screen, whatever
    came before. *)
Theorem input_translated :
  (forall state n, (0 <= n)%Z ->
     Z.testbit (translate_mods state) n =
     match mod_source n with Some k => Z.testbit state k | None => false end) /\
  (forall state, (0 <= translate_mods state < 2 ^ 5)%Z) /\
  (forall a b, translate_mouse_button a = translate_mouse_button b -> a = b \/ translate_mouse_button a = GHOSTTY_MOUSE_UNKNOWN) /\
  (forall b, translate_mouse_button b = GHOSTTY_MOUSE_UNKNOWN <-> ~ (1 <= b <= 8)%Z) /\
  (forall c l k s, is_control c = true -> k_text (key_press (Some c) l k s) = None) /\
  (forall l e shown, e = ImPreeditEnd \/ (exists text, e = ImCommit text /\ has_byte zero text = false) ->
     preedit_after (input_events (l ++ [e])) shown = None).
Proof.
  split_and!.
  - apply translate_mods_bits.
  - intros state. unfold translate_mods, add_mod.
    repeat (destruct (contains state _)); by vm_compute.
  - intros a b E. destruct (button_known a) as [Ha|Ha]; [by right|].
    destruct (button_known b) as [Hb|Hb]; [right; congruence|left; congruence].
  - intros b. unfold translate_mouse_button. split.
    + repeat match goal with |- context [if Z.eqb b ?k then _ else _] => destruct (Z.eqb_spec b k) as [->|];
        [done|] end. intros _. lia.
    + intros Hb. repeat match goal with |- context [if Z.eqb b ?k then _ else _] =>
        destruct (Z.eqb_spec b k) as [->|]; [lia|] end. done.
  - intros c l k s Hc. unfold key_press. simpl. by rewrite Hc.
  - intros l e shown He. unfold input_events. rewrite bind_app, preedit_after_app.
    destruct He as [->|(t & -> & Ht)]; [done|]. cbn. unfold c_text. by rewrite Ht.
Qed.
