(* ===== verification/Sidebar.v ===== *)
(** * Rows of the sidebar (app/src/sidebar.rs)

    The row of a workspace is a tree of widgets, and each update looks a widget up by its
    name and changes it.  GTK is not part of the sources; a widget here is what the code
    sets of one: its kind with its content, its name, its style classes, whether it is
    visible and its children. *)

From Stdlib Require Import Ascii.
From S2P Require Import Prelude F64 RustStr SplitTree RemoteConfig Workspace Notebook Window WindowTabs.
Open Scope string_scope.
Open Scope list_scope.

(** ** Widgets *)

Inductive Kind :=
  | Box
  | Label (text : string)
  | Image (icon : string) (tooltip : option string)
  | Button (icon : string)
  | ProgressBar (fraction : f64).

Inductive Widget := mkWidget {
  w_kind : Kind; w_name : string; w_classes : list string; w_visible : bool; w_children : list Widget;
}.

Definition add_css_class (c : string) (l : list string) : list string :=
  if bool_decide (c ∈ l) then l else l ++ [c].
Definition remove_css_class (c : string) (l : list string) : list string := filter (fun x => x <> c) l.

Definition set_kind (k : Kind) (w : Widget) : Widget :=
  mkWidget k (w_name w) (w_classes w) (w_visible w) (w_children w).
Definition set_classes (f : list string -> list string) (w : Widget) : Widget :=
  mkWidget (w_kind w) (w_name w) (f (w_classes w)) (w_visible w) (w_children w).
Definition set_shown (b : bool) (w : Widget) : Widget :=
  mkWidget (w_kind w) (w_name w) (w_classes w) b (w_children w).
Definition set_children (l : list Widget) (w : Widget) : Widget :=
  mkWidget (w_kind w) (w_name w) (w_classes w) (w_visible w) l.

(** [find_widget_by_name]: the first widget of that name, a parent before its children;
    here with the change that the caller makes to it. *)
Fixpoint update_by_name (name : string) (f : Widget -> Widget) (w : Widget) : option Widget :=
  if String.eqb (w_name w) name then Some (f w)
  else
    (fun l => set_children l w) <$>
      (fix go (l : list Widget) : option (list Widget) :=
         match l with
         | [] => None
         | c :: l => match update_by_name name f c with
                     | Some c => Some (c :: l)
                     | None => cons c <$> go l
                     end
         end) (w_children w).

(** The change of a widget of a row that is looked up by name; nothing if there is none. *)
Definition on_child (name : string) (f : Widget -> Widget) (row : Widget) : Widget :=
  default row (update_by_name name f row).

(** ** The row *)

(** What a row is made of: the child of the list row, which holds the header and the
    details below it. *)
Definition named (k : Kind) (name : string) (classes : list string) (visible : bool) : Widget :=
  mkWidget k name classes visible [].

Definition make_row (title : string) : Widget :=
  let hbox :=
    mkWidget Box "" [] true
      [named Box "workspace-color" [] false;
       named (Image "view-pin-symbolic" None) "workspace-pin" [] false;
       named (Label title) "workspace-title" [] true;
       named (Label "") "workspace-branch" ["dim-label"] false;
       named (Image "network-idle-symbolic" None) "workspace-remote" [] false;
       named (Label "●") "workspace-bell" ["ws-bell"] false;
       named (Button "window-close-symbolic") "workspace-close" ["flat"; "circular"] true] in
  let detail_box := mkWidget Box "workspace-detail" ["workspace-detail"] false [] in
  mkWidget Box "" [] true [hbox; detail_box].

(** ** Updates of the header *)

Definition set_label (s : string) (w : Widget) : Widget :=
  match w_kind w with Label _ => set_kind (Label s) w | _ => w end.

Definition update_row_title (title : string) (row : Widget) : Widget :=
  on_child "workspace-title" (set_label title) row.

(** The icon, the tool tip for want of a detail, the class that is set and those that are
    taken away. *)
Definition remote_icon (st : RemoteConnectionState) : option (string * string * string * list string) :=
  match st with
  | Disconnected => None
  | Connecting => Some ("network-transmit-receive-symbolic", "Connecting...", "remote-connecting",
                        ["remote-connected"; "remote-error"])
  | Connected => Some ("network-idle-symbolic", "Connected", "remote-connected",
                       ["remote-connecting"; "remote-error"])
  | Error => Some ("network-error-symbolic", "Connection error", "remote-error",
                   ["remote-connecting"; "remote-connected"])
  end.

Definition remove_classes (gone : list string) (l : list string) : list string :=
  foldl (fun l c => remove_css_class c l) l gone.

Definition update_row_remote_state (st : RemoteConnectionState) (detail : option string) (row : Widget) : Widget :=
  on_child "workspace-remote" (fun w =>
    match w_kind w with
    | Image icon tip =>
        match remote_icon st with
        | None => set_classes (remove_classes ["remote-connecting"; "remote-connected"; "remote-error"]) (set_shown false w)
        | Some (icon, fallback, cls, gone) =>
            set_kind (Image icon (Some (default fallback detail)))
              (set_classes (fun l => add_css_class cls (remove_classes gone l)) (set_shown true w))
        end
    | _ => w
    end) row.

(** The loop over the children of the child of the row. *)
Definition branch_widget (branch : option string) (w : Widget) : Widget :=
  match branch with Some b => set_shown true (set_label b w) | None => set_shown false w end.
Fixpoint branch_loop (branch : option string) (l : list Widget) : list Widget :=
  match l with
  | [] => []
  | w :: l =>
      match w_kind w with
      | Label _ => if String.eqb (w_name w) "workspace-branch" then branch_widget branch w :: l
                   else w :: branch_loop branch l
      | _ => w :: branch_loop branch l
      end
  end.
Definition update_row_branch (branch : option string) (row : Widget) : Widget :=
  match w_kind row with
  | Box => set_children (branch_loop branch (w_children row)) row
  | _ => row
  end.

Definition update_row_color (color : option WorkspaceColor) (row : Widget) : Widget :=
  on_child "workspace-color" (fun w =>
    let w := set_classes (remove_classes (css_class <$> color_ALL)) w in
    match color with
    | Some c => set_shown true (set_classes (add_css_class (css_class c)) w)
    | None => set_shown false w
    end) row.

Definition update_row_pinned (pinned : bool) (row : Widget) : Widget :=
  on_child "workspace-close" (set_shown (negb pinned)) (on_child "workspace-pin" (set_shown pinned) row).

Definition update_row_bell (has_bell : bool) (row : Widget) : Widget :=
  on_child "workspace-bell" (set_shown has_bell) row.

(** ** Updates of the details *)

Definition remove_children_by_class (class : string) (l : list Widget) : list Widget :=
  filter (fun w => class ∉ w_classes w) l.

(** The details are changed and then shown just when there are any. *)
Definition on_detail (f : list Widget -> list Widget) (row : Widget) : Widget :=
  on_child "workspace-detail" (fun w =>
    let l := f (w_children w) in
    set_shown (match l with [] => false | _ => true end) (set_children l w)) row.

Definition small_icon (icon : string) : Widget := named (Image icon None) "" [] true.
Definition text_label (text : string) (classes : list string) : Widget := named (Label text) "" classes true.

Definition status_widget (e : SidebarStatusEntry) : Widget :=
  mkWidget Box "" ["status-entry"] true
    (match st_icon e with Some i => [small_icon i] | None => [] end ++
     [text_label (st_key e +:+ ": " +:+ st_value e)
        (match st_color e with Some c => ["status-color-" +:+ c] | None => [] end)]).

(** [sort_by] of the priorities, the highest first; entries of the same priority keep
    their order. *)
Fixpoint insert_status (e : SidebarStatusEntry) (l : list SidebarStatusEntry) : list SidebarStatusEntry :=
  match l with
  | [] => [e]
  | x :: r => if (st_priority x <=? st_priority e)%Z then e :: x :: r else x :: insert_status e r
  end.
Definition sorted_status (values : list SidebarStatusEntry) : list SidebarStatusEntry :=
  foldr insert_status [] values.

(** [values] are the entries in the order of the hash map.  Each is put before what is
    there. *)
Definition update_row_status (values : list SidebarStatusEntry) (row : Widget) : Widget :=
  on_detail (fun l => foldl (fun l e => status_widget e :: l) (remove_children_by_class "status-entry" l)
                        (sorted_status values)) row.

Definition level_icon (l : LogLevel) : string :=
  match l with
  | Info => "dialog-information-symbolic"
  | Progress => "emblem-synchronizing-symbolic"
  | Success => "emblem-ok-symbolic"
  | Warning => "dialog-warning-symbolic"
  | LogError => "dialog-error-symbolic"
  end.
Definition log_widget (e : SidebarLogEntry) : Widget :=
  mkWidget Box "" ["log-entry"; "log-" +:+ LogLevel_as_str (log_level e)] true
    [small_icon (level_icon (log_level e)); text_label (log_message e) ["dim-label"]].
Definition update_row_log (entry : option SidebarLogEntry) (row : Widget) : Widget :=
  on_detail (fun l => remove_children_by_class "log-entry" l ++
                      match entry with Some e => [log_widget e] | None => [] end) row.

Definition ports_widget (ports : list Z) : Widget :=
  mkWidget Box "" ["ports-entry"] true
    [small_icon "network-wired-symbolic";
     text_label (join " " ((fun p => ":" +:+ show_uint p) <$> ports)) ["dim-label"]].
Definition update_row_ports (ports : list Z) (row : Widget) : Widget :=
  on_detail (fun l => match ports with [] => [] | _ => [ports_widget ports] end ++
                      remove_children_by_class "ports-entry" l) row.

Definition progress_widget (s : SidebarProgressState) : Widget :=
  mkWidget Box "" ["progress-entry"] true
    (named (ProgressBar (f64_clamp f64_zero f64_one (progress_value s))) "" [] true ::
     match progress_label s with Some t => [text_label t ["dim-label"; "caption"]] | None => [] end).
Definition update_row_progress (state : option SidebarProgressState) (row : Widget) : Widget :=
  on_detail (fun l => remove_children_by_class "progress-entry" l ++
                      match state with Some s => [progress_widget s] | None => [] end) row.

(** ** The menu of a row *)

(** The first character of a lower-case ASCII name in upper case; the names of the colors
    are the only ones it is used for. *)
Definition capitalize (s : string) : string :=
  match s with
  | "" => ""
  | String c r => String (if (97 <=? N_of_ascii c)%N && (N_of_ascii c <=? 122)%N
                          then ascii_of_N (N_of_ascii c - 32) else c) r
  end.

Inductive RowAction := SetColor (c : WorkspaceColor) | ClearColor | TogglePin | RenameRow.
#[global] Instance RowAction_eq_dec : EqDecision RowAction.
Proof. solve_decision. Defined.

(** The items of the menu with the names of their actions, and the actions by name. *)
Definition menu_items : list (string * string) :=
  ((fun c => (capitalize (color_display c), "ws.set-color-" +:+ color_display c)) <$> color_ALL) ++
  [("None", "ws.clear-color"); ("Rename", "ws.rename"); ("Pin / Unpin", "ws.toggle-pin")].
Definition row_actions : list (string * RowAction) :=
  ((fun c => ("set-color-" +:+ color_display c, SetColor c)) <$> color_ALL) ++
  [("clear-color", ClearColor); ("toggle-pin", TogglePin); ("rename", RenameRow)].

(** What a row does to the window: its button, an item of its menu, and the entry that the
    item to rename opens, which has the title of the row until it is changed. *)
Inductive RowEvent := CloseClicked | MenuAction (a : RowAction) | EntryActivated (text : string) | EntryEscape.

Definition label_text (w : Widget) : string := match w_kind w with Label s => s | _ => "" end.
(** [find_widget_by_name] for the widget itself. *)
Fixpoint find_widget_by_name (name : string) (w : Widget) : option Widget :=
  if String.eqb (w_name w) name then Some w
  else (fix go (l : list Widget) : option Widget :=
          match l with
          | [] => None
          | c :: l => match find_widget_by_name name c with Some r => Some r | None => go l end
          end) (w_children w).
Definition rename_text (row : Widget) : string :=
  default "" (label_text <$> find_widget_by_name "workspace-title" row).

Section events.
Context {NB : Type} `{!NotebookOps NB}.
Context (ord : gmap Z Pane -> list PaneId).

(** The window after the event, and the entry that is open; [None] is a panic. *)
Definition row_event (id : WorkspaceId) (row : Widget) (ev : RowEvent) (entry : option string)
    (aw : AppWindow NB) : option (option string * AppWindow NB) :=
  match ev with
  | CloseClicked => aw ← close_workspace ord id aw; Some (entry, aw)
  | MenuAction (SetColor c) => Some (entry, set_workspace_color id (Some c) aw)
  | MenuAction ClearColor => Some (entry, set_workspace_color id None aw)
  | MenuAction TogglePin => Some (entry, toggle_workspace_pinned id aw)
  | MenuAction RenameRow => Some (Some (rename_text row), aw)
  | EntryActivated text =>
      match entry with
      | None => Some (None, aw)
      | Some _ => Some (None, match text with "" => aw | _ => rename_workspace id text aw end)
      end
  | EntryEscape => Some (None, aw)
  end.
End events.

(** ** Colors of the style sheet *)

(** The rules that depend on the color scheme: class and color. *)
Definition color_rules (dark : bool) : list (string * string) :=
  ((fun c => (css_class c, color_hex dark c)) <$> color_ALL) ++
  [("ws-bell", bell_hex dark); ("pane-bell", bell_hex dark);
   ("remote-connecting", if dark then "#888888" else "#999999");
   ("remote-connected", if dark then "#73d216" else "#4e9a06");
   ("remote-error", if dark then "#ff6b6b" else "#cc0000")] ++
  omap (fun n => (fun c => ("status-color-" +:+ n, color_hex dark c)) <$> color_from_name n)
    ["red"; "orange"; "yellow"; "green"; "blue"; "purple"] ++
  [("log-progress", color_hex dark Blue); ("log-success", color_hex dark Green);
   ("log-warning", color_hex dark Orange); ("log-error", color_hex dark Red)].
