(* ===== verification/SidebarProps.v ===== *)
(** * Rows of the sidebar: theorems

    The tree of widgets of a row is, after any updates, the picture of what was set last:
    an abstract row with the fields of a workspace.  The branch is the exception. *)

From Stdlib Require Import Ascii.
From S2P Require Import Prelude F64 RustStr RemoteConfig Workspace Notebook Window WindowTabs WindowClaims Sidebar.
Open Scope string_scope.
Open Scope list_scope.

(** ** The abstract row *)

Inductive Detail :=
  | DStatus (e : SidebarStatusEntry)
  | DLog (e : SidebarLogEntry)
  | DPorts (ports : list Z)
  | DProgress (s : SidebarProgressState).

Definition detail_widget (d : Detail) : Widget :=
  match d with
  | DStatus e => status_widget e
  | DLog e => log_widget e
  | DPorts l => ports_widget l
  | DProgress s => progress_widget s
  end.

Record RowView := mkRowView {
  v_title : string; v_color : option WorkspaceColor; v_pinned : bool; v_remote : RemoteConnectionState;
  v_icon : string; v_tip : option string; v_bell : bool; v_details : list Detail;
}.

Definition color_classes (c : option WorkspaceColor) : list string :=
  match c with Some c => [css_class c] | None => [] end.
Definition remote_classes (st : RemoteConnectionState) : list string :=
  match remote_icon st with Some (_, _, cls, _) => [cls] | None => [] end.
Definition shown {A} (o : option A) : bool := match o with Some _ => true | None => false end.

(** The tree of an abstract row. *)
Definition row_of (v : RowView) : Widget :=
  mkWidget Box "" [] true
    [mkWidget Box "" [] true
       [named Box "workspace-color" (color_classes (v_color v)) (shown (v_color v));
        named (Image "view-pin-symbolic" None) "workspace-pin" [] (v_pinned v);
        named (Label (v_title v)) "workspace-title" [] true;
        named (Label "") "workspace-branch" ["dim-label"] false;
        named (Image (v_icon v) (v_tip v)) "workspace-remote" (remote_classes (v_remote v))
          (shown (remote_icon (v_remote v)));
        named (Label "●") "workspace-bell" ["ws-bell"] (v_bell v);
        named (Button "window-close-symbolic") "workspace-close" ["flat"; "circular"] (negb (v_pinned v))];
     mkWidget Box "workspace-detail" ["workspace-detail"] (match v_details v with [] => false | _ => true end)
       (detail_widget <$> v_details v)].

Definition new_row (title : string) : RowView :=
  mkRowView title None false Disconnected "network-idle-symbolic" None false [].

Inductive RowUpdate :=
  | Title (s : string)
  | Remote (st : RemoteConnectionState) (detail : option string)
  | Branch (b : option string)
  | Color (c : option WorkspaceColor)
  | Pinned (b : bool)
  | Bell (b : bool)
  | Status (values : list SidebarStatusEntry)
  | LogLine (e : option SidebarLogEntry)
  | Ports (l : list Z)
  | ProgressBarOf (s : option SidebarProgressState).

Definition update_row (row : Widget) (u : RowUpdate) : Widget :=
  match u with
  | Title s => update_row_title s row
  | Remote st d => update_row_remote_state st d row
  | Branch b => update_row_branch b row
  | Color c => update_row_color c row
  | Pinned b => update_row_pinned b row
  | Bell b => update_row_bell b row
  | Status l => update_row_status l row
  | LogLine e => update_row_log e row
  | Ports l => update_row_ports l row
  | ProgressBarOf s => update_row_progress s row
  end.

Definition with_details (f : list Detail -> list Detail) (v : RowView) : RowView :=
  mkRowView (v_title v) (v_color v) (v_pinned v) (v_remote v) (v_icon v) (v_tip v) (v_bell v) (f (v_details v)).

Definition is_status (d : Detail) : bool := match d with DStatus _ => true | _ => false end.
Definition is_log (d : Detail) : bool := match d with DLog _ => true | _ => false end.
Definition is_ports (d : Detail) : bool := match d with DPorts _ => true | _ => false end.
Definition is_progress (d : Detail) : bool := match d with DProgress _ => true | _ => false end.
Definition without (p : Detail -> bool) (l : list Detail) : list Detail := filter (fun d => p d = false) l.
Definition only (p : Detail -> bool) (l : list Detail) : list Detail := filter (fun d => p d = true) l.

(** What an update means: the branch is lost. *)
Definition update_view (v : RowView) (u : RowUpdate) : RowView :=
  match u with
  | Title s => mkRowView s (v_color v) (v_pinned v) (v_remote v) (v_icon v) (v_tip v) (v_bell v) (v_details v)
  | Remote st d =>
      match remote_icon st with
      | Some (icon, fallback, _, _) =>
          mkRowView (v_title v) (v_color v) (v_pinned v) st icon (Some (default fallback d)) (v_bell v) (v_details v)
      | None => mkRowView (v_title v) (v_color v) (v_pinned v) st (v_icon v) (v_tip v) (v_bell v) (v_details v)
      end
  | Branch _ => v
  | Color c => mkRowView (v_title v) c (v_pinned v) (v_remote v) (v_icon v) (v_tip v) (v_bell v) (v_details v)
  | Pinned b => mkRowView (v_title v) (v_color v) b (v_remote v) (v_icon v) (v_tip v) (v_bell v) (v_details v)
  | Bell b => mkRowView (v_title v) (v_color v) (v_pinned v) (v_remote v) (v_icon v) (v_tip v) b (v_details v)
  | Status l => with_details (fun ds => (DStatus <$> rev (sorted_status l)) ++ without is_status ds) v
  | LogLine e => with_details (fun ds => without is_log ds ++ match e with Some e => [DLog e] | None => [] end) v
  | Ports l => with_details (fun ds => match l with [] => [] | _ => [DPorts l] end ++ without is_ports ds) v
  | ProgressBarOf s =>
      with_details (fun ds => without is_progress ds ++ match s with Some s => [DProgress s] | None => [] end) v
  end.

(** ** Each update does what it means *)

Lemma remove_details c p l :
  (forall d, bool_decide (c ∈ w_classes (detail_widget d)) = p d) ->
  remove_children_by_class c (detail_widget <$> l) = detail_widget <$> without p l.
Proof.
  intros Hp. unfold remove_children_by_class, without. induction l as [|d l IH]; [done|].
  rewrite fmap_cons, !filter_cons, IH. specialize (Hp d).
  destruct (p d); [apply bool_decide_eq_true in Hp|apply bool_decide_eq_false in Hp].
  - rewrite decide_False by tauto. by rewrite decide_False by done.
  - rewrite decide_True by done. by rewrite decide_True by done.
Qed.

Lemma status_class d : bool_decide ("status-entry" ∈ w_classes (detail_widget d)) = is_status d.
Proof. by destruct d as [e|[m [] s t]|l|s]. Qed.
Lemma log_class d : bool_decide ("log-entry" ∈ w_classes (detail_widget d)) = is_log d.
Proof. by destruct d as [e|[m [] s t]|l|s]. Qed.
Lemma ports_class d : bool_decide ("ports-entry" ∈ w_classes (detail_widget d)) = is_ports d.
Proof. by destruct d as [e|[m [] s t]|l|s]. Qed.
Lemma progress_class d : bool_decide ("progress-entry" ∈ w_classes (detail_widget d)) = is_progress d.
Proof. by destruct d as [e|[m [] s t]|l|s]. Qed.

Lemma on_detail_row f g v :
  f (detail_widget <$> v_details v) = detail_widget <$> g (v_details v) ->
  on_detail f (row_of v) = row_of (with_details g v).
Proof.
  intros Hf. unfold on_detail.
  change (on_child "workspace-detail" ?h (row_of v)) with
    (mkWidget Box "" [] true
      [mkWidget Box "" [] true (w_children (default (row_of v) (head (w_children (row_of v)))));
       h (mkWidget Box "workspace-detail" ["workspace-detail"] (match v_details v with [] => false | _ => true end)
            (detail_widget <$> v_details v))]).
  unfold row_of, set_shown, set_children. cbn [w_children w_kind w_name w_classes head default from_option id].
  rewrite Hf. cbn [v_title v_color v_pinned v_remote v_icon v_tip v_bell v_details with_details].
  by destruct (g (v_details v)).
Qed.

Lemma prepend_all (f : SidebarStatusEntry -> Widget) l m :
  foldl (fun l e => f e :: l) m l = (f <$> rev l) ++ m.
Proof.
  revert m. induction l as [|e l IH]; intros m; [done|]. simpl. by rewrite IH, fmap_app, <- app_assoc.
Qed.

Lemma update_row_view v u : update_row (row_of v) u = row_of (update_view v u).
Proof.
  destruct u as [t|st d|b|c|b|b|l|e|l|s]; simpl.
  - done.
  - destruct v as [vt vc vp vr vi vtip vb vd]. destruct vr, st; reflexivity.
  - destruct b; reflexivity.
  - destruct v as [vt vc vp vr vi vtip vb vd]. destruct c as [[]|], vc as [[]|]; reflexivity.
  - done.
  - done.
  - apply on_detail_row. rewrite prepend_all, (remove_details _ _ _ status_class), fmap_app.
    by rewrite <- list_fmap_compose.
  - apply on_detail_row. rewrite (remove_details _ _ _ log_class), fmap_app. by destruct e.
  - apply on_detail_row. rewrite (remove_details _ _ _ ports_class), fmap_app. by destruct l.
  - apply on_detail_row. rewrite (remove_details _ _ _ progress_class), fmap_app. by destruct s.
Qed.

(** ** What was set last *)

Definition last_set {A} (f : RowUpdate -> option A) (init : A) (us : list RowUpdate) : A :=
  foldl (fun a u => default a (f u)) init us.
Definition set_title_to (u : RowUpdate) := match u with Title s => Some s | _ => None end.
Definition set_color_to (u : RowUpdate) := match u with Color c => Some c | _ => None end.
Definition set_pinned_to (u : RowUpdate) := match u with Pinned b => Some b | _ => None end.
Definition set_bell_to (u : RowUpdate) := match u with Bell b => Some b | _ => None end.
Definition set_remote_to (u : RowUpdate) := match u with Remote st _ => Some st | _ => None end.
Definition set_status_to (u : RowUpdate) := match u with Status l => Some l | _ => None end.
Definition set_log_to (u : RowUpdate) := match u with LogLine e => Some e | _ => None end.
Definition set_ports_to (u : RowUpdate) := match u with Ports l => Some l | _ => None end.
Definition set_progress_to (u : RowUpdate) := match u with ProgressBarOf s => Some s | _ => None end.

Lemma last_set_snoc {A} (f : RowUpdate -> option A) i us u :
  last_set f i (us ++ [u]) = default (last_set f i us) (f u).
Proof. unfold last_set. by rewrite foldl_snoc. Qed.

Lemma only_without p q l : (forall d, p d = true -> q d = false) -> only p (without q l) = only p l.
Proof.
  intros H. unfold only, without. rewrite list_filter_filter. apply list_filter_iff. intros d. naive_solver.
Qed.
Lemma only_without_same p l : only p (without p l) = [].
Proof.
  unfold only, without. rewrite list_filter_filter. induction l as [|d l IH]; [done|].
  rewrite filter_cons_False; [done|]. intros [? ?]. congruence.
Qed.
Lemma only_app p l m : only p (l ++ m) = only p l ++ only p m.
Proof. apply filter_app. Qed.
Lemma only_status_all l : only is_status (DStatus <$> l) = DStatus <$> l.
Proof.
  induction l as [|e l IH]; [done|]. rewrite fmap_cons. unfold only in *.
  rewrite filter_cons_True by done. by rewrite IH.
Qed.
Lemma only_status_none p l : (forall e, p (DStatus e) = false) -> only p (DStatus <$> l) = [].
Proof.
  intros H. induction l as [|e l IH]; [done|]. rewrite fmap_cons. unfold only in *.
  rewrite filter_cons_False; [done|]. by rewrite H.
Qed.

Definition log_of (e : option SidebarLogEntry) : list Detail := match e with Some e => [DLog e] | None => [] end.
Definition ports_of (l : list Z) : list Detail := match l with [] => [] | _ => [DPorts l] end.
Definition progress_of (s : option SidebarProgressState) : list Detail :=
  match s with Some s => [DProgress s] | None => [] end.

Definition last_log (us : list RowUpdate) := last_set set_log_to None us.
Definition last_status (us : list RowUpdate) := last_set set_status_to [] us.
Definition last_ports (us : list RowUpdate) := last_set set_ports_to [] us.
Definition last_progress (us : list RowUpdate) := last_set set_progress_to None us.

Definition view_after (title : string) (us : list RowUpdate) : RowView := foldl update_view (new_row title) us.

(** The details of each kind are those that were set last, whatever else was set. *)
Lemma details_last title us :
  let ds := v_details (view_after title us) in
  only is_status ds = DStatus <$> rev (sorted_status (last_status us)) /\
  only is_log ds = log_of (last_log us) /\
  only is_ports ds = ports_of (last_ports us) /\
  only is_progress ds = progress_of (last_progress us).
Proof.
  unfold view_after, last_status, last_log, last_ports, last_progress.
  induction us as [|u us (H1 & H2 & H3 & H4)] using rev_ind; [done|].
  rewrite foldl_snoc, !last_set_snoc. set (v := foldl update_view (new_row title) us) in *.
  destruct u as [t|st d|b|c|b|b|l|e|l|s]; cbn [set_status_to set_log_to set_ports_to set_progress_to default
    from_option id]; try done; [simpl; by destruct (remote_icon st) as [[[[? ?] ?] ?]|]|..];
    cbn [update_view with_details v_details]; rewrite !only_app.
  - rewrite only_status_all, only_without_same, app_nil_r. split_and!; [done|..];
      rewrite only_status_none, only_without by (by intros []); done.
  - rewrite (only_without is_status), (only_without is_ports), (only_without is_progress), only_without_same
      by (by intros []). rewrite H1, H3, H4. destruct e; simpl; by rewrite ?app_nil_r.
  - rewrite (only_without is_status), (only_without is_log), (only_without is_progress), only_without_same
      by (by intros []). rewrite H1, H2, H4. destruct l; simpl; by rewrite ?app_nil_r.
  - rewrite (only_without is_status), (only_without is_ports), (only_without is_log), only_without_same
      by (by intros []). rewrite H1, H2, H3. destruct s; simpl; by rewrite ?app_nil_r.
Qed.

Lemma header_last title us :
  let v := view_after title us in
  v_title v = last_set set_title_to title us /\ v_color v = last_set set_color_to None us /\
  v_pinned v = last_set set_pinned_to false us /\ v_bell v = last_set set_bell_to false us /\
  v_remote v = last_set set_remote_to Disconnected us.
Proof.
  unfold view_after. induction us as [|u us (H1 & H2 & H3 & H4 & H5)] using rev_ind; [done|].
  rewrite foldl_snoc, !last_set_snoc. set (v := foldl update_view (new_row title) us) in *.
  destruct u as [t|st d|b|c|b|b|l|e|l|s]; try done; simpl.
  by destruct (remote_icon st) as [[[[? ?] ?] ?]|].
Qed.

(** C31: after any updates the widgets of a row are the picture of an abstract row, whose
    title, color, pin, bell and connection are the ones that were set last, and whose
    details are the status entries, the log line, the ports and the progress that were set
    last, each kind once; the box of the details is visible just when there are any.  No
    update changes the label of the branch: it stays hidden whatever branch is set. *)
Theorem row_shows_workspace title us :
  let row := foldl update_row (make_row title) us in
  exists v, row = row_of v /\
    (v_title v = last_set set_title_to title us /\ v_color v = last_set set_color_to None us /\
     v_pinned v = last_set set_pinned_to false us /\ v_bell v = last_set set_bell_to false us /\
     v_remote v = last_set set_remote_to Disconnected us) /\
    (only is_status (v_details v) = DStatus <$> rev (sorted_status (last_set set_status_to [] us)) /\
     only is_log (v_details v) = log_of (last_set set_log_to None us) /\
     only is_ports (v_details v) = ports_of (last_set set_ports_to [] us) /\
     only is_progress (v_details v) = progress_of (last_set set_progress_to None us)).
Proof.
  exists (view_after title us). split; [|split; [apply header_last|apply details_last]].
  unfold view_after. change (make_row title) with (row_of (new_row title)). generalize (new_row title).
  induction us as [|u us IH]; intros v; [done|]. simpl. rewrite update_row_view. apply IH.
Qed.

(** The entry of the highest priority is put in first, and each later one before it: the
    lowest priority is on top. *)
Lemma lowest_status_on_top :
  let hi := mkStatus "a" "1" None None 9 in let lo := mkStatus "b" "2" None None 1 in
  v_details (update_view (new_row "t") (Status [hi; lo])) = [DStatus lo; DStatus hi] /\
  v_details (update_view (new_row "t") (Status [lo; hi])) = [DStatus lo; DStatus hi].
Proof. split; reflexivity. Qed.

(** Each item of the menu has its action, and no two items the same. *)
Lemma menu_has_actions :
  (forall label act, (label, act) ∈ menu_items ->
     exists name a, act = "ws." +:+ name /\ (name, a) ∈ row_actions) /\
  NoDup (menu_items.*2) /\ NoDup (row_actions.*1).
Proof.
  split.
  - assert (forall i, i ∈ menu_items -> exists p, p ∈ row_actions /\ i.2 = "ws." +:+ p.1) as H.
    { assert (forallb (fun i => existsb (fun p => String.eqb i.2 ("ws." +:+ p.1)) row_actions) menu_items = true)
        as Hb by (by vm_compute).
      rewrite forallb_forall in Hb. intros i Hi%list_elem_of_In%Hb. apply existsb_exists in Hi as (p & Hp & E).
      exists p. split; [by apply list_elem_of_In|by apply String.eqb_eq]. }
    intros label act Hin. destruct (H _ Hin) as ([n a] & Hp & E). by exists n, a.
  - split; apply (bool_decide_unpack _); by vm_compute.
Qed.

(** Every class of a connection and of a log level that needs a color has one. *)
Lemma classes_have_colors dark st l cls :
  cls ∈ remote_classes st \/ (l <> Info /\ cls = "log-" +:+ LogLevel_as_str l) ->
  exists color, (cls, color) ∈ color_rules dark.
Proof.
  intros H. assert (existsb (fun p => String.eqb p.1 cls) (color_rules dark) = true) as E.
  { destruct H as [H|[Hl ->]]; [destruct st; unfold remote_classes in H; simpl in H; try (by apply elem_of_nil in H);
      apply list_elem_of_singleton in H as ->|destruct l; try done]; by destruct dark. }
  apply existsb_exists in E as ([c color] & Hin & Hc). apply String.eqb_eq in Hc. simpl in Hc. subst c.
  exists color. by apply list_elem_of_In.
Qed.

(** ** The events of a row *)

(** The entry opens with the title that was set last. *)
Lemma rename_starts_with_title title us :
  rename_text (foldl update_row (make_row title) us) = last_set set_title_to title us.
Proof.
  change (make_row title) with (row_of (new_row title)).
  assert (forall v, foldl update_row (row_of v) us = row_of (foldl update_view v us)) as ->.
  { induction us as [|u us IH]; intros v; [done|]. simpl. rewrite update_row_view. apply IH. }
  transitivity (v_title (view_after title us)); [done|]. apply header_last.
Qed.

(** A row acts on the window by operations of the window only. *)
Lemma row_events_are_steps {NB} `{NotebookLaws NB} ord id row ev entry entry' (aw aw' : AppWindow NB) :
  row_event ord id row ev entry aw = Some (entry', aw') -> aw' = aw \/ win_step ord aw aw'.
Proof.
  destruct ev as [|[c| | |]|text|]; simpl; intros E.
  - apply bind_Some in E as (a & Ha & [= <- <-]). right. by eapply step_close_workspace.
  - injection E as <- <-. right. apply step_color.
  - injection E as <- <-. right. apply step_color.
  - injection E as <- <-. right. apply step_pin.
  - injection E as <- <-. by left.
  - destruct entry; [|injection E as <- <-; by left].
    destruct text; injection E as <- <-; [by left|right; apply step_rename].
  - injection E as <- <-. by left.
Qed.
