(* ===== verification/Paneds.v ===== *)
(** * The widgets of a split layout (app/src/window.rs)

    A workspace shows its panes in a tree of GtkPaneds, which the operations on panes
    change by hand next to the split tree.  A paned and the container of a pane are
    widgets with identifiers.  GTK is not part of the sources: [Gtk] is what can be read of
    its widgets, [PanedOps] lists the calls and [PanedLaws] their documented behaviour.
    Sizes, cursors and the focus are not modelled. *)

From S2P Require Import Prelude F64 SplitTree SplitTreeSpec.

(** ** GTK *)

Inductive WKind := Container (p : PaneId) | Paned (o : Orientation) (st en : option Z) | Question.

(** What GTK keeps: the kind of each widget with the two children of a paned, the parent of
    a widget, and whether a call was refused. *)
Record Gtk := mkGtk { kinds : gmap Z WKind; parents : gmap Z Z; next_widget : Z; refused : bool }.

Definition new_widget (k : WKind) (g : Gtk) : Z * Gtk :=
  (next_widget g, mkGtk (<[next_widget g := k]> (kinds g)) (parents g) (next_widget g + 1) (refused g)).

(** The start child or the end child. *)
Definition pick (start : bool) (st en : option Z) : option Z := if start then st else en.
Definition put_child (start : bool) (c : option Z) (o : Orientation) (st en : option Z) : WKind :=
  if start then Paned o c en else Paned o st c.
Definition child_at (start : bool) (w : Z) (g : Gtk) : option Z :=
  match kinds g !! w with Some (Paned _ st en) => pick start st en | _ => None end.

(** A child is taken out of a paned, or put into it. *)
Definition taken_out (b : bool) (w x : Z) (o : Orientation) (st en : option Z) (g : Gtk) : Gtk :=
  mkGtk (<[w := put_child b None o st en]> (kinds g)) (delete x (parents g)) (next_widget g) (refused g).
Definition put_in (b : bool) (w x : Z) (o : Orientation) (st en : option Z) (g : Gtk) : Gtk :=
  mkGtk (<[w := put_child b (Some x) o st en]> (kinds g)) (<[x := w]> (parents g)) (next_widget g) (refused g).

(** The calls on a paned: [set_start_child] and [set_end_child], and [set_orientation]. *)
Class PanedOps := {
  set_child : bool -> Z -> option Z -> Gtk -> Gtk;
  set_orientation : Z -> Orientation -> Gtk -> Gtk;
}.

(** Their documented behaviour, where the sources use them: a child is removed by setting
    none; a child without a parent goes into an empty place; and a child that has a parent
    already is refused with a critical error. *)
Class PanedLaws `{!PanedOps} : Prop := {
  set_child_out b w x g o st en :
    kinds g !! w = Some (Paned o st en) -> pick b st en = Some x ->
    set_child b w None g = taken_out b w x o st en g;
  set_child_none b w g o st en :
    kinds g !! w = Some (Paned o st en) -> pick b st en = None -> set_child b w None g = g;
  set_child_in b w x g o st en :
    kinds g !! w = Some (Paned o st en) -> pick b st en = None -> parents g !! x = None ->
    set_child b w (Some x) g = put_in b w x o st en g;
  set_child_refused b w x k g o st en :
    kinds g !! w = Some (Paned o st en) -> pick b st en <> Some x -> parents g !! x = Some k ->
    refused (set_child b w (Some x) g) = true;
  set_orientation_at w o0 o st en g :
    kinds g !! w = Some (Paned o0 st en) ->
    set_orientation w o g = mkGtk (<[w := Paned o st en]> (kinds g)) (parents g) (next_widget g) (refused g);
}.

(** The parent, if it is a paned. *)
Definition paned_parent (c : Z) (g : Gtk) : option Z :=
  w ← parents g !! c; match kinds g !! w with Some (Paned _ _ _) => Some w | _ => None end.

(** ** The widgets of a workspace *)

Section widgets.
Context {GtkO : PanedOps}.

Record WsWidgets := mkWidgets {
  gtk : Gtk; root_paned : Z; pane_widgets : gmap Z Z; split_paneds : gmap Z Z;
}.
Definition set_gtk (g : Gtk) (ww : WsWidgets) : WsWidgets :=
  mkWidgets g (root_paned ww) (pane_widgets ww) (split_paneds ww).
Definition set_pane_widgets (m : gmap Z Z) (ww : WsWidgets) : WsWidgets :=
  mkWidgets (gtk ww) (root_paned ww) m (split_paneds ww).
Definition set_split_paneds (m : gmap Z Z) (ww : WsWidgets) : WsWidgets :=
  mkWidgets (gtk ww) (root_paned ww) (pane_widgets ww) m.

(** A workspace with its first pane. *)
Definition new_widgets (p : PaneId) : WsWidgets :=
  let '(c, g) := new_widget (Container p) (mkGtk ∅ ∅ 0 false) in
  let '(r, g) := new_widget (Paned Horizontal None None) g in
  mkWidgets (set_child true r (Some c) g) r {[p := c]} ∅.

(** Track a paned as the widget of a node of the split tree. *)
Definition track (nid : option NodeId) (w : Z) (ww : WsWidgets) : WsWidgets :=
  match nid with Some n => set_split_paneds (<[n := w]> (split_paneds ww)) ww | None => ww end.

(** The widgets of a split of pane [from]: [new] comes [before] it or after it; [count] is
    the number of panes so far and [nid] the new node of the split tree. *)
Definition split_widgets (before : bool) (count : nat) (from new : PaneId) (o : Orientation)
    (nid : option NodeId) (ww : WsWidgets) : WsWidgets :=
  let '(c, g) := new_widget (Container new) (gtk ww) in
  let ww :=
    if decide (count = 1) then
      let r := root_paned ww in
      let g := set_orientation r o g in
      let g := if before then
                 set_child false r (pane_widgets ww !! from)
                   (set_child true r (Some c) (set_child false r None (set_child true r None g)))
               else set_child false r (Some c) g in
      track nid r (set_gtk g ww)
    else
      match pane_widgets ww !! from with
      | None => set_gtk g ww
      | Some fc =>
          match paned_parent fc g with
          | None => set_gtk g ww
          | Some k =>
              let is_start := bool_decide (child_at true k g = Some fc) in
              let '(np, g) := new_widget (Paned o None None) g in
              let g := set_child is_start k None g in
              let g := if before then set_child false np (Some fc) (set_child true np (Some c) g)
                       else set_child false np (Some c) (set_child true np (Some fc) g) in
              track nid np (set_gtk (set_child is_start k (Some np) g) ww)
          end
      end in
  set_pane_widgets (<[new := c]> (pane_widgets ww)) ww.

(** The widgets of [remove_pane_from_split]. *)
Definition remove_pane_widgets (pid : PaneId) (ww : WsWidgets) : WsWidgets :=
  match pane_widgets ww !! pid with
  | None => ww
  | Some c =>
      let ww := set_pane_widgets (delete pid (pane_widgets ww)) ww in
      let g := gtk ww in
      match paned_parent c g with
      | None => ww
      | Some k =>
          let is_start := bool_decide (child_at true k g = Some c) in
          let sibling := child_at (negb is_start) k g in
          let g := set_child is_start k None g in
          if decide (k = root_paned ww) then
            set_gtk (match sibling with
                     | Some sib => if is_start then set_child true k (Some sib) (set_child false k None g) else g
                     | None => g
                     end) ww
          else
            match sibling with
            | None => set_gtk g ww
            | Some sib =>
                let g := match paned_parent k g with
                         | None => g
                         | Some gp =>
                             let parent_is_start := bool_decide (child_at true gp g = Some k) in
                             let g := set_child (bool_decide (child_at true k g = Some sib)) k None g in
                             set_child parent_is_start gp (Some sib) (set_child parent_is_start gp None g)
                         end in
                set_split_paneds (filter (fun kv => kv.2 <> k) (split_paneds ww)) (set_gtk g ww)
            end
      end
  end.

(** ** Rebuilding *)

Inductive TreeSnapshot :=
  | SnapLeaf (pane_id : PaneId)
  | SnapSplit (orientation : Orientation) (node_id : NodeId) (ratio : f64) (first second : TreeSnapshot).

Fixpoint snapshot_tree_node (fuel : nat) (m : gmap Z Node) (node_id : NodeId) : TreeSnapshot :=
  match fuel with
  | O => SnapLeaf 0
  | S fuel =>
      match m !! node_id with
      | Some (Leaf p) => SnapLeaf p
      | Some (Split o r a b) =>
          SnapSplit o node_id r (snapshot_tree_node fuel m a) (snapshot_tree_node fuel m b)
      | None => SnapLeaf 0
      end
  end.
Definition clone_split_tree_structure (t : SplitTree) : option TreeSnapshot :=
  r ← root t; Some (snapshot_tree_node (fuel_of (nodes t)) (nodes t) r).

Fixpoint build_widget_from_snapshot (s : TreeSnapshot) (ww : WsWidgets) : Z * WsWidgets :=
  match s with
  | SnapLeaf p =>
      match pane_widgets ww !! p with
      | Some c => (c, ww)
      | None => let '(q, g) := new_widget Question (gtk ww) in (q, set_gtk g ww)
      end
  | SnapSplit o n _ a b =>
      let '(k, g) := new_widget (Paned o None None) (gtk ww) in
      let '(x, ww) := build_widget_from_snapshot a (set_gtk g ww) in
      let '(y, ww) := build_widget_from_snapshot b ww in
      let g := set_child false k (Some y) (set_child true k (Some x) (gtk ww)) in
      (k, set_split_paneds (<[n := k]> (split_paneds ww)) (set_gtk g ww))
  end.

(** Take the container of a pane out of its paned. *)
Definition detach (c : Z) (g : Gtk) : Gtk :=
  match paned_parent c g with
  | None => g
  | Some k => set_child (bool_decide (child_at true k g = Some c)) k None g
  end.

(** [order] are the containers in the order of the hash map. *)
Definition rebuild_split_widgets (order : list Z) (snapshot : option TreeSnapshot) (ww : WsWidgets) : WsWidgets :=
  let g := foldl (fun g c => detach c g) (gtk ww) order in
  let r := root_paned ww in
  let ww := set_split_paneds ∅ (set_gtk (set_child false r None (set_child true r None g)) ww) in
  match snapshot with
  | None => ww
  | Some s =>
      let '(w, ww) := build_widget_from_snapshot s ww in
      set_gtk (set_child true r (Some w) (gtk ww)) ww
  end.

(** ** Restoring *)

(** The widgets of [build_layout_widget]: [l] is the saved layout with the panes that it
    gives to its leaves.  The paneds are tracked with [tracked] below. *)
Fixpoint restore_widget (l : layout) (ww : WsWidgets) : Z * WsWidgets :=
  match l with
  | Pane p =>
      let '(c, g) := new_widget (Container p) (gtk ww) in
      (c, set_pane_widgets (<[p := c]> (pane_widgets ww)) (set_gtk g ww))
  | Div o _ a b =>
      let '(x, ww) := restore_widget a ww in
      let '(y, ww) := restore_widget b ww in
      let '(k, g) := new_widget (Paned o None None) (gtk ww) in
      (k, set_gtk (set_child false k (Some y) (set_child true k (Some x) g)) ww)
  end.

(** The widgets of a restored workspace.  [tracked] are the paneds under the node that each
    has at the time, which a later merge renames. *)
Definition restored_widgets (tracked : gmap Z Z) (l : layout) : WsWidgets :=
  let '(w, ww) := restore_widget l (mkWidgets (mkGtk ∅ ∅ 0 false) 0 ∅ tracked) in
  let '(r, g) := new_widget (Paned Horizontal None None) (gtk ww) in
  mkWidgets (set_child true r (Some w) g) r (pane_widgets ww) (split_paneds ww).

(** The ratios that are applied to the paneds once they have a size. *)
Fixpoint collect_paned_ratios (s : TreeSnapshot) (split_paneds : gmap Z Z) : list (Z * f64) :=
  match s with
  | SnapLeaf _ => []
  | SnapSplit _ n r a b =>
      match split_paneds !! n with Some w => [(w, r)] | None => [] end ++
      collect_paned_ratios a split_paneds ++ collect_paned_ratios b split_paneds
  end.

(** [collect_all_paneds], of [equalize_splits]; [fuel] bounds the depth. *)
Fixpoint collect_all_paneds (fuel : nat) (w : Z) (g : Gtk) : list Z :=
  match fuel with
  | O => []
  | S fuel =>
      let nested c := match c with
                      | Some x => match kinds g !! x with
                                  | Some (Paned _ _ _) => x :: collect_all_paneds fuel x g
                                  | _ => []
                                  end
                      | None => []
                      end in
      nested (child_at true w g) ++ nested (child_at false w g)
  end.

End widgets.

(** The layout that is shown under a widget, where [ratio] is the position of a paned. *)
Fixpoint shown_at (ratio : Z -> f64) (fuel : nat) (w : Z) (g : Gtk) : option layout :=
  match fuel with
  | O => None
  | S fuel =>
      match kinds g !! w with
      | Some (Container p) => Some (Pane p)
      | Some (Paned o (Some a) (Some b)) =>
          x ← shown_at ratio fuel a g; y ← shown_at ratio fuel b g; Some (Div o (ratio w) x y)
      | Some (Paned _ (Some a) None) => shown_at ratio fuel a g
      | _ => None
      end
  end.
Definition shown_with (ratio : Z -> f64) (ww : WsWidgets) : option layout :=
  shown_at ratio (S (S (size (kinds (gtk ww))))) (root_paned ww) (gtk ww).

(** Without the positions. *)
Definition shown : WsWidgets -> option layout := shown_with (fun _ => f64_half).

(** The positions that are applied. *)
Definition positions (l : list (Z * f64)) (w : Z) : f64 := default f64_half ((list_to_map (reverse l) : gmap Z f64) !! w).
