(* ===== verification/PanedProps.v ===== *)
(** * The widgets of a split layout: trees and operations

    The two directions of the widget tree agree, whatever children are set.  [arena] reads
    the paneds as an arena of nodes, so that the trees that represent split trees represent
    what is shown as well, and the lemmas on them apply to both.  Then every operation on
    the panes leaves the widgets showing the split tree. *)

From S2P Require Import Prelude F64 SplitTree SplitTreeSpec SplitTreeRefine SplitTreeMerge SplitTreeProps Paneds.

Section paned_tree.
Context {GtkO : PanedOps} {GtkL : PanedLaws}.

(** ** The two directions of the widget tree agree *)

Record linked (g : Gtk) : Prop := mkLinked {
  lk_child : forall b w c, child_at b w g = Some c -> parents g !! c = Some w;
  lk_parent : forall c w, parents g !! c = Some w -> exists b, child_at b w g = Some c;
  lk_once : forall w c, child_at true w g = Some c -> child_at false w g = Some c -> False;
  lk_known : forall c w, parents g !! c = Some w -> is_Some (kinds g !! c);
  lk_fresh : forall i, is_Some (kinds g !! i) -> (i < next_widget g)%Z;
}.

Lemma child_at_kind b w g o st en : kinds g !! w = Some (Paned o st en) -> child_at b w g = pick b st en.
Proof. intros H. unfold child_at. by rewrite H. Qed.

Lemma pick_put b b' c o st en :
  match put_child b c o st en with Paned _ s e => pick b' s e | _ => None end =
  if bool_decide (b = b') then c else pick b' st en.
Proof. by destruct b, b'. Qed.

Lemma child_at_insert b b' w w' c o st en m ps n r :
  child_at b' w' (mkGtk (<[w := put_child b c o st en]> m) ps n r) =
  if decide (w = w') then (if bool_decide (b = b') then c else pick b' st en)
  else child_at b' w' (mkGtk m ps n r).
Proof.
  unfold child_at. cbn [kinds]. case_decide as H.
  - subst. rewrite lookup_insert_eq. apply pick_put.
  - by rewrite lookup_insert_ne.
Qed.
Lemma child_at_ext b w g g' : kinds g = kinds g' -> child_at b w g = child_at b w g'.
Proof. intros H. unfold child_at. by rewrite H. Qed.

Lemma taken_out_linked b w x g o st en :
  linked g -> kinds g !! w = Some (Paned o st en) -> pick b st en = Some x -> linked (taken_out b w x o st en g).
Proof.
  intros [H1 H2 H3 H4 H5] Hw Hx.
  assert (forall b', child_at b' w g = pick b' st en) as Hc by (intros; by eapply child_at_kind).
  assert (forall b' w' c, child_at b' w' (taken_out b w x o st en g) = Some c ->
    child_at b' w' g = Some c /\ c <> x) as Hold.
  { intros b' w' c. unfold taken_out. rewrite child_at_insert. case_decide as Hww.
    - subst w'. case_bool_decide as Hb; [done|]. intros E. rewrite Hc. split; [done|]. intros ->.
      apply (H3 w x); destruct b, b'; try done; by rewrite Hc.
    - intros E. rewrite (child_at_ext b' w' _ g) in E by done. split; [done|]. intros ->.
      apply H1 in E. rewrite (H1 b w x) in E by (by rewrite Hc). by injection E. }
  split.
  - intros b' w' c E. apply Hold in E as [E Hne]. simpl. rewrite lookup_delete_ne by done. eauto.
  - intros c w' E. simpl in E. apply lookup_delete_Some in E as [Hne E].
    destruct (H2 c w' E) as [b' Hb]. exists b'. unfold taken_out. rewrite child_at_insert. case_decide as Hww.
    + subst w'. rewrite Hc in Hb. case_bool_decide as Hbb; [|done]. subst b'. rewrite Hx in Hb. by injection Hb as ->.
    + by rewrite (child_at_ext b' w' _ g).
  - intros w' c E1 E2. apply Hold in E1 as [E1 _]. apply Hold in E2 as [E2 _]. eauto.
  - intros c w' E. simpl in *. apply lookup_delete_Some in E as [_ E]. apply lookup_insert_is_Some'. right. by eapply H4.
  - intros i [k Hi]. simpl in *. destruct (decide (w = i)) as [->|]; [apply H5; by rewrite Hw|].
    rewrite lookup_insert_ne in Hi by done. apply H5. by exists k.
Qed.

Lemma put_in_linked b w x g o st en :
  linked g -> kinds g !! w = Some (Paned o st en) -> pick b st en = None -> parents g !! x = None ->
  is_Some (kinds g !! x) -> linked (put_in b w x o st en g).
Proof.
  intros [H1 H2 H3 H4 H5] Hw Hx Hp Hk.
  assert (forall b', child_at b' w g = pick b' st en) as Hc by (intros; by eapply child_at_kind).
  assert (forall b' w', child_at b' w' g <> Some x) as Hno.
  { intros b' w' E%H1. by rewrite Hp in E. }
  assert (forall b' w' c, child_at b' w' (put_in b w x o st en g) = Some c ->
    (w' = w /\ b' = b /\ c = x) \/ child_at b' w' g = Some c) as Hold.
  { intros b' w' c. unfold put_in. rewrite child_at_insert. case_decide as Hww.
    - subst w'. case_bool_decide as Hb; [intros [= ->]; by left|]. intros E. right. by rewrite Hc.
    - intros E. right. by rewrite (child_at_ext b' w' _ g) in E. }
  split.
  - intros b' w' c [(-> & -> & ->)|E]%Hold; simpl; [by rewrite lookup_insert_eq|].
    rewrite lookup_insert_ne by (intros ->; by apply Hno in E). by eapply H1.
  - intros c w' E. simpl in E. apply lookup_insert_Some in E as [[<- <-]|[Hne E]].
    + exists b. unfold put_in. rewrite child_at_insert, decide_True by done. by rewrite bool_decide_true.
    + destruct (H2 c w' E) as [b' Hb]. exists b'. unfold put_in. rewrite child_at_insert. case_decide as Hww.
      * subst w'. rewrite Hc in Hb. case_bool_decide as Hbb; [subst b'; by rewrite Hx in Hb|done].
      * by rewrite (child_at_ext b' w' _ g).
  - intros w' c [(E1 & E2 & E3)|E]%Hold [(E1' & E2' & E3')|E']%Hold; [congruence|subst c; by eapply Hno|
      subst c; by eapply Hno|by eapply H3].
  - intros c w' E. simpl in *. apply lookup_insert_is_Some'.
    apply lookup_insert_Some in E as [[<- <-]|[Hne E]]; [right; done|right; by eapply H4].
  - intros i [k Hi]. simpl in *. destruct (decide (w = i)) as [->|]; [apply H5; by rewrite Hw|].
    rewrite lookup_insert_ne in Hi by done. apply H5. by exists k.
Qed.

(** A new widget has no parent; a paned is made without children. *)
Lemma linked_fresh g : linked g -> kinds g !! next_widget g = None /\ parents g !! next_widget g = None.
Proof.
  intros Hl. assert (kinds g !! next_widget g = None) as Hk.
  { destruct (kinds g !! next_widget g) as [k|] eqn:E; [|done].
    assert (next_widget g < next_widget g)%Z by (by apply (lk_fresh _ Hl); eexists). lia. }
  split; [done|]. destruct (parents g !! next_widget g) eqn:E; [|done].
  apply (lk_known _ Hl) in E as [? E]. by rewrite Hk in E.
Qed.
Definition no_children (k : WKind) : Prop := match k with Paned _ None None | Container _ | Question => True | _ => False end.
Lemma new_widget_linked k g : linked g -> no_children k -> linked (snd (new_widget k g)).
Proof.
  intros Hl Hk. destruct (linked_fresh g Hl) as [Hn Hp].
  assert (forall b w, child_at b w (snd (new_widget k g)) = child_at b w g) as Hc.
  { intros b w. unfold child_at. cbn [new_widget snd kinds]. destruct (decide (next_widget g = w)) as [<-|].
    - rewrite lookup_insert_eq, Hn. destruct k as [|o [] []|]; try done. by destruct b.
    - by rewrite lookup_insert_ne. }
  destruct Hl as [H1 H2 H3 H4 H5]. split.
  - intros b w c. rewrite Hc. apply H1.
  - intros c w E. destruct (H2 c w E) as [b Hb]. exists b. by rewrite Hc.
  - intros w c. rewrite !Hc. apply H3.
  - intros c w E. simpl. apply lookup_insert_is_Some'. right. by eapply H4.
  - intros i Hi. simpl in *. apply lookup_insert_is_Some' in Hi as [<-|Hi%H5]; lia.
Qed.

(** ** The widgets as an arena *)

Definition node_of (k : WKind) : option Node :=
  match k with
  | Container p => Some (Leaf p)
  | Paned o (Some a) (Some b) => Some (Split o f64_half a b)
  | _ => None
  end.
Definition arena (g : Gtk) : gmap Z Node := omap node_of (kinds g).

Lemma arena_at g i : arena g !! i = kinds g !! i ≫= node_of.
Proof. unfold arena. by rewrite lookup_omap. Qed.
Lemma arena_ext g g' i : kinds g' !! i = kinds g !! i -> arena g' !! i = arena g !! i.
Proof. rewrite !arena_at. by intros ->. Qed.
Lemma arena_known g i x : arena g !! i = Some x -> is_Some (kinds g !! i).
Proof. rewrite arena_at. destruct (kinds g !! i); [by eexists|done]. Qed.

(** [t] is the tree of the widgets below the root paned, or with the root paned itself as
    its first division. *)
Definition rooted (ww : WsWidgets) (t : ltree) : Prop :=
  (rid t = root_paned ww /\ exists o a b, kinds (gtk ww) !! root_paned ww = Some (Paned o (Some a) (Some b))) \/
  (exists o, kinds (gtk ww) !! root_paned ww = Some (Paned o (Some (rid t)) None)).

Record shows (ww : WsWidgets) (t : ltree) : Prop := mkShows {
  sw_linked : linked (gtk ww);
  sw_reprs : reprs (arena (gtk ww)) t;
  sw_ids : NoDup (ids t);
  sw_panes : NoDup (lpanes t);
  sw_root : rooted ww t;
  sw_top : parents (gtk ww) !! root_paned ww = None;
  sw_dom : forall p, is_Some (pane_widgets ww !! p) <-> p ∈ lpanes t;
  sw_cont : forall p c, pane_widgets ww !! p = Some c -> c ∈ ids t /\ kinds (gtk ww) !! c = Some (Container p);
  sw_refused : refused (gtk ww) = false;
}.

Lemma lsub_elem t n : n ∈ ids t -> exists s, lsub t n = Some s.
Proof.
  induction t as [k p|k o r a IHa b IHb]; simpl; intros H.
  - apply list_elem_of_singleton in H as ->. rewrite decide_True by done. by eexists.
  - case_decide; [by eexists|]. apply elem_of_cons in H as [->|[H|H]%elem_of_app]; [done| |].
    + destruct (IHa H) as [s ->]. by eexists.
    + destruct (lsub a n); [by eexists|auto].
Qed.

Lemma reprs_fresh g t i : linked g -> reprs (arena g) t -> i ∈ ids t -> (i < next_widget g)%Z.
Proof.
  intros Hl Hr Hi. destruct (reprs_lookup _ _ _ Hr Hi) as [x Hx]. by eapply (lk_fresh _ Hl), arena_known.
Qed.

Lemma sub_leaf g t n p : reprs (arena g) t -> n ∈ ids t -> kinds g !! n = Some (Container p) -> lsub t n = Some (LLeaf n p).
Proof.
  intros Hr Hn Hk. destruct (lsub_elem t n Hn) as [s Hs]. pose proof (lsub_rid _ _ _ Hs) as Hid.
  pose proof (reprs_root _ _ (reprs_lsub _ _ _ _ Hr Hs)) as E. rewrite Hid, arena_at, Hk in E.
  destruct s; simpl in *; [|done]. by simplify_eq.
Qed.

(** A division that is shown, and its widget. *)
Lemma sub_split g t n o r x y : reprs (arena g) t -> lsub t n = Some (LSplit n o r x y) ->
  kinds g !! n = Some (Paned o (Some (rid x)) (Some (rid y))) /\ r = f64_half.
Proof.
  intros Hr Hs. pose proof (reprs_root _ _ (reprs_lsub _ _ _ _ Hr Hs)) as E. simpl in E.
  rewrite arena_at in E. destruct (kinds g !! n) as [[|? [] []|]|]; simpl in E; simplify_eq; done.
Qed.

Lemma pick_child b x y : pick b (Some (rid x)) (Some (rid y)) = Some (rid (child b x y)).
Proof. by destruct b. Qed.

(** Replacing one child of a division. *)
Lemma reprs_at m m' t n b o r x y c :
  reprs m t -> NoDup (ids t) -> lsub t n = Some (LSplit n o r x y) ->
  (forall i, i ∈ ids t -> i <> n -> i ∉ ids (child b x y) -> m' !! i = m !! i) ->
  m' !! n = Some (if b then Split o r (rid c) (rid y) else Split o r (rid x) (rid c)) -> reprs m' c ->
  reprs m' (lput t n (with_child b n o r x y c)).
Proof.
  intros Hr Hnd Hs Hf Hn Hc.
  assert (NoDup (ids (LSplit n o r x y))) as Hnds.
  { destruct (lput_decomp _ _ _ Hnd Hs) as (?&?&?&?&Hi&_&_). rewrite Hi in Hnd.
    by apply NoDup_app in Hnd as (_ & _ & (? & _)%NoDup_app). }
  rewrite (with_child_self b), nodup_with_child in Hnds. destruct Hnds as (N1 & N2 & _ & _ & N3).
  assert (forall i, i ∈ ids (child b x y) \/ i ∈ ids (child (negb b) x y) \/ i = n -> i ∈ ids (LSplit n o r x y)) as Hin.
  { intros i Hi. rewrite (with_child_self b), elem_with_child. tauto. }
  apply (reprs_lput m m' t n (LSplit n o r x y)); try done; [apply rid_with_child| |].
  - intros i Hi Hni. apply Hf; [done|intros ->; apply Hni, Hin; auto|intros ?; apply Hni, Hin; auto].
  - rewrite reprs_with_child. split_and!; [done|done|]. apply (reprs_frame m).
    + pose proof (reprs_lsub _ _ _ _ Hr Hs) as H. rewrite (with_child_self b), reprs_with_child in H. apply H.
    + intros i Hi. apply Hf; [eapply lsub_ids; [exact Hs|apply Hin; auto]|by intros ->|].
      intros Hi'. by apply (N3 i).
Qed.

(** The container of a pane and the paned that it is in. *)
Lemma shows_leaf ww t p : shows ww t -> p ∈ lpanes t ->
  exists c, pane_widgets ww !! p = Some c /\ lsub t c = Some (LLeaf c p) /\ kinds (gtk ww) !! c = Some (Container p).
Proof.
  intros Hs [c Hc]%(sw_dom _ _ Hs). destruct (sw_cont _ _ Hs p c Hc) as [Hi Hk]. exists c.
  split_and!; [done|by eapply sub_leaf, Hk; [apply Hs|]|done].
Qed.

Lemma shows_parent ww t n s : shows ww t -> lsub t n = Some s -> n <> rid t ->
  exists k b o x y, lsub t k = Some (LSplit k o f64_half x y) /\ child b x y = s /\
    kinds (gtk ww) !! k = Some (Paned o (Some (rid x)) (Some (rid y))) /\ parents (gtk ww) !! n = Some k /\
    pick b (Some (rid x)) (Some (rid y)) = Some n /\ bool_decide (child_at true k (gtk ww) = Some n) = b.
Proof.
  intros Hs Hn Hne. destruct (lparent_of t n) as [[k b]|] eqn:E.
  2: { apply lparent_of_None in E; [done|by eapply lsub_in]. }
  apply lparent_of_Some in E as (o & r & x & y & Hk & Hid); [|apply Hs].
  destruct (sub_split _ _ _ _ _ _ _ (sw_reprs _ _ Hs) Hk) as [Hkind ->]. exists k, b, o, x, y.
  pose proof (lsub_child _ _ b _ _ _ _ (sw_ids _ _ Hs) Hk) as Hc. rewrite Hid in Hc.
  assert (child_at b k (gtk ww) = Some n) as Hat by (erewrite child_at_kind by done; by rewrite pick_child, Hid).
  split_and!; [done|congruence|done|by eapply lk_child, Hat; apply Hs|by rewrite pick_child, Hid|].
  destruct b; [by apply bool_decide_eq_true|]. apply bool_decide_eq_false. intros Ht.
  by eapply (lk_once _ (sw_linked _ _ Hs)).
Qed.

(** ** Splitting *)

Lemma new_widget_at k g i : kinds (snd (new_widget k g)) !! i = if decide (i = next_widget g) then Some k else kinds g !! i.
Proof. simpl. case_decide as H; [subst; by rewrite lookup_insert_eq|by rewrite lookup_insert_ne]. Qed.

(** The new paned takes the place of widget [n] in its paned [k] and holds [n] and the
    new container. *)
(** Both children of an empty paned. *)
Lemma fill_paned w x y o g :
  linked g -> kinds g !! w = Some (Paned o None None) -> parents g !! x = None -> parents g !! y = None ->
  x <> y -> is_Some (kinds g !! x) -> is_Some (kinds g !! y) ->
  let g' := set_child false w (Some y) (set_child true w (Some x) g) in
  linked g' /\ kinds g' = <[w := Paned o (Some x) (Some y)]> (kinds g) /\
  parents g' = <[y := w]> (<[x := w]> (parents g)) /\ next_widget g' = next_widget g /\ refused g' = refused g.
Proof.
  intros Hl Hw Px Py Hxy Kx Ky g'.
  assert (linked (put_in true w x o None None g)) as H1 by (by apply put_in_linked).
  assert (kinds (put_in true w x o None None g) !! w = Some (Paned o (Some x) None)) as K1
    by (cbn [put_in kinds put_child]; by rewrite lookup_insert_eq).
  assert (parents (put_in true w x o None None g) !! y = None) as P1
    by (cbn [put_in parents]; by rewrite lookup_insert_ne).
  assert (g' = put_in false w y o (Some x) None (put_in true w x o None None g)) as ->.
  { unfold g'. rewrite (set_child_in true w x g o None None) by done. by apply set_child_in. }
  split_and!; try done.
  - apply put_in_linked; try done. cbn [put_in kinds]. apply lookup_insert_is_Some'. by right.
  - cbn [put_in kinds put_child]. by rewrite insert_insert_eq.
Qed.

Lemma pick_emptied b ok st en np : exists st' en', put_child b None ok st en = Paned ok st' en' /\
  pick b st' en' = None /\ put_child b (Some np) ok st' en' = put_child b (Some np) ok st en.
Proof. destruct b; by do 2 eexists. Qed.

(** A new paned takes the place of widget [n] in its paned [k] and holds [n] and the
    container of a new pane. *)
Lemma wrap_gtk (before : bool) b k n q o ok st en g :
  linked g -> kinds g !! k = Some (Paned ok st en) -> pick b st en = Some n -> n <> k ->
  let c := next_widget g in let np := (next_widget g + 1)%Z in
  let g2 := snd (new_widget (Paned o None None) (snd (new_widget (Container q) g))) in
  let g3 := set_child b k None g2 in
  let g5 := if before then set_child false np (Some n) (set_child true np (Some c) g3)
            else set_child false np (Some c) (set_child true np (Some n) g3) in
  let g' := set_child b k (Some np) g5 in
  linked g' /\ refused g' = refused g /\
  (forall i, kinds g' !! i =
     if decide (i = k) then Some (put_child b (Some np) ok st en)
     else if decide (i = np) then Some (if before then Paned o (Some c) (Some n) else Paned o (Some n) (Some c))
     else if decide (i = c) then Some (Container q) else kinds g !! i) /\
  (forall i, i <> n -> i <> c -> i <> np -> parents g' !! i = parents g !! i).
Proof.
  intros Hl Hk Hn Hnk c np g2 g3 g5 g'.
  destruct (linked_fresh g Hl) as [Hfk Hfp].
  assert (linked g2) as Hl2 by (apply new_widget_linked; [by apply new_widget_linked|done]).
  assert (parents g !! n = Some k) as Hpn by (apply (lk_child _ Hl b); by erewrite child_at_kind).
  destruct (lk_known _ Hl _ _ Hpn) as [kn Hkn].
  assert (k < c)%Z as Hkb by (apply (lk_fresh _ Hl); by eexists).
  assert (n < c)%Z as Hnb by (apply (lk_fresh _ Hl); by eexists).
  assert (c <> np) as Hcnp by (unfold c, np; lia).
  assert (forall i, kinds g2 !! i = if decide (i = np) then Some (Paned o None None)
    else if decide (i = c) then Some (Container q) else kinds g !! i) as K2.
  { intros i. unfold g2. by rewrite !new_widget_at. }
  assert (kinds g2 !! k = Some (Paned ok st en)) as K2k by (by rewrite K2, !decide_False by lia).
  assert (g3 = taken_out b k n ok st en g2) as E3 by (by apply set_child_out).
  assert (linked g3) as Hl3 by (rewrite E3; by apply taken_out_linked).
  assert (forall i, i <> k -> kinds g3 !! i = kinds g2 !! i) as K3.
  { intros i Hi. rewrite E3. cbn [taken_out kinds]. by rewrite lookup_insert_ne. }
  assert (parents g3 = delete n (parents g)) as P3 by (by rewrite E3).
  assert (forall i, i = c \/ i = n -> is_Some (kinds g3 !! i)) as Kcn.
  { intros i [->| ->]; rewrite K3, K2 by lia.
    - rewrite decide_False, decide_True by done. by eexists.
    - rewrite !decide_False by lia. by eexists. }
  set (x := if before then c else n). set (y := if before then n else c).
  destruct (fill_paned np x y o g3) as (Hl5 & K5 & P5 & N5 & R5); try done.
  { by rewrite K3, K2, decide_True by lia. }
  { rewrite P3. unfold x. destruct before; [rewrite lookup_delete_ne by lia; done|by rewrite lookup_delete_eq]. }
  { rewrite P3. unfold y. destruct before; [by rewrite lookup_delete_eq|rewrite lookup_delete_ne by lia; done]. }
  { unfold x, y. destruct before; lia. }
  { apply Kcn. unfold x. destruct before; auto. }
  { apply Kcn. unfold y. destruct before; auto. }
  assert (g5 = set_child false np (Some y) (set_child true np (Some x) g3)) as E5 by (unfold g5, x, y; by destruct before).
  rewrite <- E5 in Hl5, K5, P5, N5, R5.
  destruct (pick_emptied b ok st en np) as (st' & en' & Ep & Epk & Epp).
  assert (kinds g5 !! k = Some (Paned ok st' en')) as K5k.
  { rewrite K5, lookup_insert_ne, E3 by lia. cbn [taken_out kinds]. by rewrite lookup_insert_eq, Ep. }
  assert (parents g5 !! np = None) as P5np.
  { rewrite P5, P3, !lookup_insert_ne, lookup_delete_ne by (unfold x, y; destruct before; lia).
    destruct (parents g !! np) eqn:E; [|done]. apply (lk_known _ Hl), (lk_fresh _ Hl) in E. lia. }
  assert (g' = put_in b k np ok st' en' g5) as E' by (by apply set_child_in).
  assert (is_Some (kinds g5 !! np)) as K5np by (rewrite K5; apply lookup_insert_is_Some'; by left).
  rewrite E'. split_and!.
  - by apply put_in_linked.
  - cbn [put_in refused]. by rewrite R5, E3.
  - intros i. cbn [put_in kinds]. case_decide as Hik; [by rewrite Hik, lookup_insert_eq, Epp|].
    rewrite lookup_insert_ne, K5 by done. case_decide as Hinp; [rewrite Hinp, lookup_insert_eq; unfold x, y; by destruct before|].
    by rewrite lookup_insert_ne, K3, K2, decide_False by done.
  - intros i Hin Hic Hinp. cbn [put_in parents].
    by rewrite lookup_insert_ne, P5, !lookup_insert_ne, P3, lookup_delete_ne by (unfold x, y; destruct before; done).
Qed.

Lemma shows_track nid w ww t : shows ww t -> shows (track nid w ww) t.
Proof. intros []. by destruct nid. Qed.

(** The tree with a leaf wrapped, on any store that has it. *)
Lemma wrapped_reprs (before : bool) m m' t k b o x y n p c q np od :
  reprs m t -> NoDup (ids t) -> lsub t k = Some (LSplit k o f64_half x y) -> child b x y = LLeaf n p ->
  c ∉ ids t -> np ∉ ids t -> c <> np ->
  (forall i, i ∈ ids t -> i <> k -> m' !! i = m !! i) ->
  m' !! k = Some (if b then Split o f64_half np (rid y) else Split o f64_half (rid x) np) ->
  m' !! np = Some (if before then Split od f64_half c n else Split od f64_half n c) ->
  m' !! c = Some (Leaf q) ->
  let t' := lput t k (with_child b k o f64_half x y (wrapped before np od (LLeaf n p) (LLeaf c q))) in
  reprs m' t' /\ NoDup (ids t') /\ forall i, i ∈ ids t' <-> i ∈ ids t \/ i = np \/ i = c.
Proof.
  intros Hr Hnd Hs Hn Hc Hnp Hne Hf Hk Hmp Hmc t'.
  assert (NoDup (ids (LSplit k o f64_half x y))) as Hnds.
  { destruct (lput_decomp _ _ _ Hnd Hs) as (?&?&?&?&Hi&_&_). rewrite Hi in Hnd.
    by apply NoDup_app in Hnd as (_ & _ & (? & _)%NoDup_app). }
  pose proof (fun i H => lsub_ids _ _ _ Hs i H) as Hsub.
  assert (n ∈ ids t /\ n <> k) as [Hnt Hnk].
  { rewrite (with_child_self b), nodup_with_child, Hn in Hnds. split; [|set_solver].
    apply Hsub. rewrite (with_child_self b), elem_with_child, Hn. set_solver. }
  assert (reprs m' (wrapped before np od (LLeaf n p) (LLeaf c q))) as Hw.
  { assert (m' !! n = Some (Leaf p)) as Hmn.
    { rewrite Hf by done. pose proof (lsub_child _ _ b _ _ _ _ Hnd Hs) as E. rewrite Hn in E. simpl in E.
      apply (reprs_lsub _ _ _ _ Hr E). }
    destruct before; simpl; by split_and!. }
  split_and!.
  - apply (reprs_at m); try done; [intros; by apply Hf|]. rewrite Hk. by destruct b, before.
  - eapply lput_nodup; [done..| |].
    + rewrite (with_child_self b), nodup_with_child, Hn in Hnds. rewrite nodup_with_child.
      assert (k ∈ ids t) as Hkt by (by eapply lsub_in).
      assert (forall i, i ∈ ids (child (negb b) x y) -> i ∈ ids t) as Hyt.
      { intros i Hi. apply Hsub. rewrite (with_child_self b), elem_with_child. auto. }
      split_and!; [rewrite elem_wrapped; set_solver|tauto|apply nodup_wrapped; set_solver|tauto|].
      intros i. rewrite elem_wrapped. intros [->|[->|Hi]] Hi'; [by apply Hnp, Hyt|by apply Hc, Hyt|]. by apply Hnds in Hi.
    + intros i. rewrite elem_with_child, elem_wrapped, (with_child_self b _ _ _ x y), elem_with_child, Hn. set_solver.
  - intros i. unfold t'. rewrite (lput_in_iff _ _ _ _ _ Hnd Hs).
    rewrite elem_with_child, elem_wrapped, (with_child_self b _ _ _ x y), elem_with_child, Hn.
    assert (forall j, j = k \/ j ∈ ids (LLeaf n p) \/ j ∈ ids (child (negb b) x y) -> j ∈ ids t) as Hall.
    { intros j Hj. apply Hsub. by rewrite (with_child_self b), elem_with_child, Hn. }
    specialize (Hall i).
    destruct (decide (i = k \/ i ∈ ids (LLeaf n p) \/ i ∈ ids (child (negb b) x y))); tauto.
Qed.

(** The containers of the panes after a new pane has got one. *)
Lemma conts_insert ww t t' q c g' :
  shows ww t -> NoDup (lpanes t') -> (forall p, p ∈ lpanes t' <-> p ∈ lpanes t \/ p = q) ->
  (forall i, i ∈ ids t -> i ∈ ids t') -> c ∈ ids t' -> kinds g' !! c = Some (Container q) ->
  (forall i p, i ∈ ids t -> kinds (gtk ww) !! i = Some (Container p) -> kinds g' !! i = Some (Container p)) ->
  let m := <[q := c]> (pane_widgets ww) in
  (forall p, is_Some (m !! p) <-> p ∈ lpanes t') /\
  (forall p n, m !! p = Some n -> n ∈ ids t' /\ kinds g' !! n = Some (Container p)).
Proof.
  intros Hs Hnd Hp Hi Hc Hkc Hk m. split.
  - intros p. pose proof (Hp p). pose proof (sw_dom _ _ Hs p).
    pose proof (lookup_insert_is_Some' (pane_widgets ww) q p c) as E. fold m in E.
    destruct (decide (p = q)) as [->|]; [|naive_solver]. tauto.
  - intros p n [[<- <-]|[_ E]]%lookup_insert_Some; [done|].
    destruct (sw_cont _ _ Hs p n E) as [H1 H2]. auto.
Qed.

Lemma shows_split_nested before count from q o nid ww t :
  shows ww t -> from ∈ lpanes t -> q ∉ lpanes t -> count <> 1 -> (forall n, t <> LLeaf n from) ->
  exists t', shows (split_widgets before count from q o nid ww) t' /\
    erase t' = lay_subst from (lay_wrap before o (Pane from) q) (erase t).
Proof.
  intros Hs Hfrom Hq Hcount Hleaf.
  destruct (shows_leaf ww t from Hs Hfrom) as (n & Hpn & Hsub & Hkn).
  assert (n <> rid t) as Hnr.
  { intros ->. rewrite lsub_root in Hsub. injection Hsub as E. by eapply Hleaf. }
  destruct (shows_parent ww t n _ Hs Hsub Hnr) as (k & b & ok & x & y & Hk & Hc & Hkk & Hpar & Hpick & Hb).
  pose proof (sw_linked _ _ Hs) as Hl. destruct (linked_fresh _ Hl) as [Hf1 Hf2].
  set (g := gtk ww) in *. set (c := next_widget g) in *. set (np := (c + 1)%Z).
  assert (k < c)%Z as Hkc by (apply (lk_fresh _ Hl); by eexists).
  destruct (wrap_gtk before b k n q o ok _ _ g Hl Hkk Hpick) as (L & R & K & P).
  { intros ->. by rewrite Hkk in Hkn. }
  revert L R K P. fold c np.
  match goal with |- linked ?x -> _ => set (g' := x) end. intros L R K P.
  assert (split_widgets before count from q o nid ww =
    set_pane_widgets (<[q := c]> (pane_widgets ww)) (track nid np (set_gtk g' ww))) as ->.
  { unfold split_widgets. fold g. cbn [new_widget]. fold c. rewrite decide_False by done. rewrite Hpn.
    set (g1 := mkGtk (<[c := Container q]> (kinds g)) (parents g) (c + 1) (refused g)).
    assert (kinds g1 !! k = Some (Paned ok (Some (rid x)) (Some (rid y)))) as Hk1
      by (unfold g1; cbn [kinds]; rewrite lookup_insert_ne by lia; done).
    assert (paned_parent n g1 = Some k) as ->.
    { unfold paned_parent. cbn [g1 parents]. rewrite Hpar. cbn [mbind option_bind]. by rewrite Hk1. }
    assert (bool_decide (child_at true k g1 = Some n) = b) as ->.
    { rewrite <- Hb. by rewrite (child_at_kind true k g1 _ _ _ Hk1), (child_at_kind true k g _ _ _ Hkk). }
    cbn [new_widget]. unfold g'. destruct before, nid; reflexivity. }
  destruct (wrapped_reprs before (arena g) (arena g') t k b ok x y n from c q np o) as (Hr & Hnd & Hids);
    [apply Hs|apply Hs|done|done|..].
  { intros Hi. apply (reprs_fresh g) in Hi; [lia|done|apply Hs]. }
  { intros Hi. apply (reprs_fresh g) in Hi; [lia|done|apply Hs]. }
  { lia. }
  { intros i Hi Hik. apply arena_ext. apply (reprs_fresh g) in Hi; [|done|apply Hs]. rewrite K, !decide_False by lia. done. }
  { rewrite arena_at, K, decide_True by done. by destruct b. }
  { rewrite arena_at, K, decide_False, decide_True by lia. by destruct before. }
  { rewrite arena_at, K, !decide_False, decide_True by lia. done. }
  set (t' := lput _ _ _) in *.
  assert (erase t' = lay_subst from (lay_wrap before o (Pane from) q) (erase t)) as He.
  { unfold t'. erewrite erase_lput_leaf; [by rewrite erase_wrapped|apply Hs|apply Hs|done|done]. }
  destruct (lay_subst_panes from (lay_wrap before o (Pane from) q) (erase t)) as (l1 & l2 & E1 & E2);
    [rewrite erase_panes; apply Hs|by rewrite erase_panes|].
  rewrite <- He, !erase_panes in *.
  assert (NoDup (lpanes t')) as Hndp.
  { rewrite <- erase_panes, He. apply wrap_panes_nodup; rewrite ?erase_panes; [apply Hs|done|done]. }
  exists t'. split; [|done].
  assert (forall i p, i ∈ ids t -> kinds g !! i = Some (Container p) -> kinds g' !! i = Some (Container p)) as Hkeep.
  { intros i p Hi Hki. pose proof (reprs_fresh g t i Hl (sw_reprs _ _ Hs) Hi).
    rewrite K, !decide_False; [done|lia|lia|]. intros ->. by rewrite Hkk in Hki. }
  destruct (conts_insert ww t t' q c g' Hs) as [D1 D2]; try done.
  { intros p. rewrite E1, E2. destruct before; simpl; rewrite !elem_of_app, !elem_of_cons; tauto. }
  { intros i Hi. apply Hids. auto. }
  { apply Hids. auto. }
  { rewrite K, !decide_False, decide_True by lia. done. }
  assert (rooted (set_gtk g' ww) t') as Hroot.
  { assert (rid t' = rid t) as Hrid by (apply lput_rid, rid_with_child).
    destruct (sw_root _ _ Hs) as [[Hrt (o1 & a1 & b1 & Hkr)]|[o1 Hkr]]; [left|right]; cbn [set_gtk gtk root_paned].
    - split; [by rewrite Hrid|]. destruct (decide (root_paned ww = k)) as [Hrk|].
      + rewrite K, decide_True by done. destruct b; cbn [put_child]; by do 3 eexists.
      + assert (root_paned ww < c)%Z by (apply (lk_fresh _ Hl); by eexists).
        rewrite K, !decide_False by lia. by do 3 eexists.
    - exists o1. rewrite Hrid. assert (root_paned ww < c)%Z by (apply (lk_fresh _ Hl); by eexists).
      rewrite K, !decide_False; [done|lia|lia|]. intros E. fold g in Hkr. rewrite E, Hkk in Hkr. done. }
  assert (root_paned ww < c)%Z as Hrc.
  { destruct (sw_root _ _ Hs) as [[_ (o1 & a1 & b1 & Hkr)]|[o1 Hkr]]; apply (lk_fresh _ Hl); by eexists. }
  assert (parents g' !! root_paned ww = None) as Htop.
  { pose proof (sw_top _ _ Hs) as Ht. fold g in Ht. rewrite P; [done| |lia|lia]. intros E. by rewrite E, Hpar in Ht. }
  destruct nid; (split; cbn [set_pane_widgets set_gtk track set_split_paneds gtk root_paned pane_widgets];
    [done|done|done|done|exact Hroot|done|done|done|rewrite R; apply Hs]).
Qed.
End paned_tree.

(** * Operations *)

Section paned_ops.
Context {GtkO : PanedOps} {GtkL : PanedLaws}.

Lemma set_orientation_spec w o o0 st en g :
  linked g -> kinds g !! w = Some (Paned o0 st en) ->
  let g' := set_orientation w o g in
  linked g' /\ kinds g' = <[w := Paned o st en]> (kinds g) /\ parents g' = parents g /\
  next_widget g' = next_widget g /\ refused g' = refused g.
Proof.
  intros [H1 H2 H3 H4 H5] Hw g'. unfold g'. rewrite (set_orientation_at w o0 o st en g Hw). split_and!; try done.
  assert (forall b w', child_at b w' (mkGtk (<[w := Paned o st en]> (kinds g)) (parents g) (next_widget g) (refused g)) =
    child_at b w' g) as Hc.
  { intros b w'. unfold child_at. cbn [kinds]. destruct (decide (w = w')) as [<-|].
    - by rewrite lookup_insert_eq, Hw.
    - by rewrite lookup_insert_ne. }
  split; cbn [kinds parents next_widget].
  - intros b w' c. rewrite Hc. apply H1.
  - intros c w' E. destruct (H2 c w' E) as [b Hb]. exists b. by rewrite Hc.
  - intros w' c. rewrite !Hc. apply H3.
  - intros c w' E. apply lookup_insert_is_Some'. right. by eapply H4.
  - intros i [k Hi]. destruct (decide (w = i)) as [->|]; [apply H5; by rewrite Hw|].
    rewrite lookup_insert_ne in Hi by done. apply H5. by exists k.
Qed.

(** The first split: the root paned gets a second child. *)
Lemma root_gtk (before : bool) r n q o o0 g :
  linked g -> kinds g !! r = Some (Paned o0 (Some n) None) -> parents g !! r = None ->
  let c := next_widget g in
  let g2 := set_orientation r o (snd (new_widget (Container q) g)) in
  let g' := if before then set_child false r (Some n) (set_child true r (Some c) (set_child false r None (set_child true r None g2)))
            else set_child false r (Some c) g2 in
  linked g' /\ refused g' = refused g /\ parents g' !! r = None /\
  forall i, kinds g' !! i =
    if decide (i = r) then Some (if before then Paned o (Some c) (Some n) else Paned o (Some n) (Some c))
    else if decide (i = c) then Some (Container q) else kinds g !! i.
Proof.
  intros Hl Hr Ht c g2 g'.
  destruct (linked_fresh g Hl) as [Hfk Hfp].
  assert (parents g !! n = Some r) as Hpn by (apply (lk_child _ Hl true); by erewrite child_at_kind).
  destruct (lk_known _ Hl _ _ Hpn) as [kn Hkn].
  assert (r < c)%Z as Hrc by (apply (lk_fresh _ Hl); by eexists).
  assert (n < c)%Z as Hnc by (apply (lk_fresh _ Hl); by eexists).
  assert (n <> r) as Hnr by (intros ->; by rewrite Ht in Hpn).
  set (g1 := snd (new_widget (Container q) g)) in *.
  assert (linked g1) as Hl1 by (by apply new_widget_linked).
  assert (kinds g1 !! r = Some (Paned o0 (Some n) None)) as K1 by (unfold g1; rewrite new_widget_at, decide_False by lia; done).
  destruct (set_orientation_spec r o o0 _ _ g1 Hl1 K1) as (Hl2 & K2 & P2 & N2 & R2). fold g2 in Hl2, K2, P2, N2, R2.
  assert (kinds g2 !! r = Some (Paned o (Some n) None)) as K2r by (rewrite K2; by rewrite lookup_insert_eq).
  assert (forall i, i <> r -> kinds g2 !! i = if decide (i = c) then Some (Container q) else kinds g !! i) as K2i.
  { intros i Hi. rewrite K2, lookup_insert_ne by done. apply new_widget_at. }
  assert (forall i, i = c \/ i = n -> is_Some (kinds g2 !! i)) as Kcn.
  { intros i [->| ->]; rewrite K2i by lia; [rewrite decide_True by done|rewrite decide_False by lia]; by eexists. }
  assert (parents g2 = parents g) as P2g by (by rewrite P2).
  assert (parents g2 !! c = None) as P2c by (by rewrite P2g).
  destruct before.
  - assert (set_child false r None (set_child true r None g2) = taken_out true r n o (Some n) None g2) as E3.
    { rewrite (set_child_out true r n g2 o (Some n) None) by done. apply (set_child_none false r _ o None None); [|done].
      cbn [taken_out kinds put_child]. by rewrite lookup_insert_eq. }
    unfold g'. rewrite E3. set (g3 := taken_out _ _ _ _ _ _ _).
    assert (linked g3) as Hl3 by (by apply taken_out_linked).
    assert (forall i, i <> r -> kinds g3 !! i = kinds g2 !! i) as K3 by (intros i Hi; unfold g3; cbn [taken_out kinds]; by rewrite lookup_insert_ne).
    destruct (fill_paned r c n o g3) as (L & K & P & N & R).
    + done.
    + unfold g3. cbn [taken_out kinds put_child]. by rewrite lookup_insert_eq.
    + unfold g3. cbn [taken_out parents]. rewrite lookup_delete_ne by lia. done.
    + unfold g3. cbn [taken_out parents]. by rewrite lookup_delete_eq.
    + lia.
    + rewrite K3 by lia. apply Kcn. auto.
    + rewrite K3 by lia. apply Kcn. auto.
    + split_and!; [done|by rewrite R| |].
      * rewrite P, !lookup_insert_ne by lia. unfold g3. cbn [taken_out parents]. rewrite lookup_delete_ne by done. by rewrite P2g.
      * intros i. rewrite K. case_decide as Hi; [by rewrite Hi, lookup_insert_eq|]. rewrite lookup_insert_ne, K3 by done. by apply K2i.
  - unfold g'. assert (set_child false r (Some c) g2 = put_in false r c o (Some n) None g2) as -> by (by apply set_child_in).
    split_and!; [apply put_in_linked; auto|done| |].
    + cbn [put_in parents]. rewrite lookup_insert_ne by lia. by rewrite P2g.
    + intros i. cbn [put_in kinds put_child]. case_decide as Hi; [by rewrite Hi, lookup_insert_eq|]. rewrite lookup_insert_ne by done. by apply K2i.
Qed.

Lemma shows_split_single before from q o nid ww n :
  shows ww (LLeaf n from) -> q <> from ->
  exists t', shows (split_widgets before 1 from q o nid ww) t' /\ erase t' = lay_wrap before o (Pane from) q.
Proof.
  intros Hs Hq. pose proof (sw_linked _ _ Hs) as Hl.
  destruct (shows_leaf ww _ from Hs) as (n' & Hpn & Hsub & Hkn); [by apply list_elem_of_singleton|].
  simpl in Hsub. case_decide as Hnn; [|done]. subst n'.
  destruct (sw_root _ _ Hs) as [[E (o1 & a1 & b1 & Hkr)]|[o0 Hkr]]; [simpl in E; by rewrite <- E, Hkn in Hkr|].
  simpl in Hkr. set (g := gtk ww) in *. set (r := root_paned ww) in *. set (c := next_widget g).
  destruct (root_gtk before r n q o o0 g Hl Hkr (sw_top _ _ Hs)) as (L & R & T & K). revert L R T K. fold c.
  match goal with |- linked ?x -> _ => set (g' := x) end. intros L R T K.
  assert (r < c)%Z by (apply (lk_fresh _ Hl); by eexists).
  assert (n < c)%Z by (apply (lk_fresh _ Hl); by eexists).
  assert (n <> r) as Hnr by (intros ->; by rewrite Hkn in Hkr).
  assert (split_widgets before 1 from q o nid ww =
    set_pane_widgets (<[q := c]> (pane_widgets ww)) (track nid r (set_gtk g' ww))) as ->.
  { unfold split_widgets. cbn [new_widget]. fold g c r. rewrite decide_True by done. rewrite Hpn. unfold g'.
    by destruct before, nid. }
  set (t' := wrapped before r o (LLeaf n from) (LLeaf c q)).
  assert (kinds g' !! n = Some (Container from)) as Kn by (rewrite K, !decide_False by lia; done).
  assert (kinds g' !! c = Some (Container q)) as Kc by (rewrite K, decide_False, decide_True by lia; done).
  assert (reprs (arena g') t') as Hr.
  { assert (arena g' !! r = Some (if before then Split o f64_half c n else Split o f64_half n c)) as Kr
      by (rewrite arena_at, K, decide_True by done; by destruct before).
    destruct before; simpl; rewrite !arena_at, Kn, Kc; by rewrite arena_at in Kr. }
  assert (NoDup (ids t')) as Hnd.
  { apply nodup_wrapped; [apply NoDup_singleton|..]; simpl; rewrite ?list_elem_of_singleton; lia. }
  assert (NoDup (lpanes t')) as Hndp.
  { destruct before; simpl; rewrite NoDup_cons, list_elem_of_singleton; (split; [congruence|apply NoDup_singleton]). }
  exists t'. split; [|unfold t'; by rewrite erase_wrapped].
  destruct (conts_insert ww (LLeaf n from) t' q c g' Hs) as [D1 D2]; try done.
  { intros p. unfold t'. destruct before; simpl; rewrite elem_of_cons, !list_elem_of_singleton; tauto. }
  { intros i Hi. unfold t'. rewrite elem_wrapped. auto. }
  { unfold t'. rewrite elem_wrapped. auto. }
  { intros i p Hi Hki. simpl in Hi. apply list_elem_of_singleton in Hi as ->. fold g in Hki. by rewrite Kn, <- Hki. }
  assert (rooted (set_gtk g' ww) t') as Hroot.
  { left. cbn [set_gtk gtk root_paned]. fold r. split; [by destruct before|]. rewrite K, decide_True by done.
    destruct before; by do 3 eexists. }
  destruct nid; (split; cbn [set_pane_widgets set_gtk track set_split_paneds gtk root_paned pane_widgets]; try done;
    rewrite R; apply Hs).
Qed.

(** ** Removing a pane *)

(** A paned [k] with the children [c] and [sib] is taken out of its paned [gp], which gets
    [sib]. *)
Lemma collapse_gtk b k c sib o st en ps gp og sg eg g :
  linked g -> kinds g !! k = Some (Paned o st en) -> pick b st en = Some c -> pick (negb b) st en = Some sib ->
  kinds g !! gp = Some (Paned og sg eg) -> pick ps sg eg = Some k -> NoDup [c; sib; k; gp] ->
  let g2 := set_child (negb b) k None (set_child b k None g) in
  let g' := set_child ps gp (Some sib) (set_child ps gp None g2) in
  linked g' /\ refused g' = refused g /\
  (forall i, kinds g' !! i = if decide (i = gp) then Some (put_child ps (Some sib) og sg eg)
                             else if decide (i = k) then Some (Paned o None None) else kinds g !! i) /\
  (forall i, i <> c -> i <> sib -> i <> k -> parents g' !! i = parents g !! i).
Proof.
  intros Hl Hk Hc Hsib Hgp Hps Hnd g2 g'.
  assert (c <> sib /\ sib <> k /\ sib <> gp /\ k <> gp /\ c <> k) as (N1 & N2 & N3 & N4 & N5).
  { rewrite !NoDup_cons, !not_elem_of_cons in Hnd. tauto. }
  assert (parents g !! sib = Some k) as Hpsib by (apply (lk_child _ Hl (negb b)); by erewrite child_at_kind).
  set (g1 := set_child b k None g) in *.
  assert (g1 = taken_out b k c o st en g) as E1 by (by apply set_child_out).
  assert (linked g1) as L1 by (rewrite E1; by apply taken_out_linked).
  destruct (pick_emptied b o st en 0) as (st1 & en1 & Ep & Epk & _).
  assert (kinds g1 !! k = Some (Paned o st1 en1)) as K1 by (rewrite E1; cbn [taken_out kinds]; by rewrite lookup_insert_eq, Ep).
  assert (pick (negb b) st1 en1 = Some sib) as S1 by (destruct b; simpl in *; congruence).
  assert (g2 = taken_out (negb b) k sib o st1 en1 g1) as E2 by (by apply set_child_out).
  assert (linked g2) as L2 by (rewrite E2; by apply taken_out_linked).
  assert (forall i, kinds g2 !! i = if decide (i = k) then Some (Paned o None None) else kinds g !! i) as K2.
  { intros i. rewrite E2. cbn [taken_out kinds]. case_decide as Hi.
    - rewrite Hi, lookup_insert_eq. f_equal. destruct b; simpl in *; congruence.
    - rewrite lookup_insert_ne, E1 by done. cbn [taken_out kinds]. by rewrite lookup_insert_ne. }
  assert (parents g2 = delete sib (delete c (parents g))) as P2 by (by rewrite E2, E1).
  assert (kinds g2 !! gp = Some (Paned og sg eg)) as K2gp by (by rewrite K2, decide_False).
  set (g3 := set_child ps gp None g2) in *.
  assert (g3 = taken_out ps gp k og sg eg g2) as E3 by (by apply set_child_out).
  assert (linked g3) as L3 by (rewrite E3; by apply taken_out_linked).
  destruct (pick_emptied ps og sg eg sib) as (sg3 & eg3 & Eq & Eqk & Eqq).
  assert (kinds g3 !! gp = Some (Paned og sg3 eg3)) as K3 by (rewrite E3; cbn [taken_out kinds]; by rewrite lookup_insert_eq, Eq).
  assert (parents g3 !! sib = None) as P3.
  { rewrite E3. cbn [taken_out parents]. rewrite lookup_delete_ne, P2 by done. by rewrite lookup_delete_eq. }
  assert (is_Some (kinds g3 !! sib)) as K3s.
  { rewrite E3. cbn [taken_out kinds]. rewrite lookup_insert_ne, K2, decide_False by done. by eapply (lk_known _ Hl). }
  assert (g' = put_in ps gp sib og sg3 eg3 g3) as E4 by (by apply set_child_in).
  rewrite E4. split_and!.
  - by apply put_in_linked.
  - by rewrite E3, E2, E1.
  - intros i. cbn [put_in kinds]. case_decide as Hi; [by rewrite Hi, lookup_insert_eq, Eqq|].
    rewrite lookup_insert_ne, E3 by done. cbn [taken_out kinds]. by rewrite lookup_insert_ne, K2.
  - intros i Hic His Hik. cbn [put_in parents]. rewrite lookup_insert_ne, E3 by done. cbn [taken_out parents].
    by rewrite lookup_delete_ne, P2, !lookup_delete_ne.
Qed.

Lemma conts_delete ww t t' p g' :
  shows ww t -> lpanes t' = filter (fun q => q <> p) (lpanes t) ->
  (forall i q, i ∈ ids t -> kinds (gtk ww) !! i = Some (Container q) -> q <> p ->
     i ∈ ids t' /\ kinds g' !! i = Some (Container q)) ->
  let m := delete p (pane_widgets ww) in
  (forall q, is_Some (m !! q) <-> q ∈ lpanes t') /\
  (forall q n, m !! q = Some n -> n ∈ ids t' /\ kinds g' !! n = Some (Container q)).
Proof.
  intros Hs Hp Hk m. split.
  - intros q. rewrite Hp, list_elem_of_filter. pose proof (sw_dom _ _ Hs q) as H. unfold m.
    destruct (decide (q = p)) as [->|Hne]; [rewrite lookup_delete_eq; split; [by intros []|tauto]|].
    rewrite lookup_delete_ne by done. tauto.
  - intros q n [Hne E]%lookup_delete_Some. destruct (sw_cont _ _ Hs q n E) as [H1 H2]. by apply Hk.
Qed.

Lemma sibling_of k b o x y c p :
  let t := LSplit k o f64_half x y in
  NoDup (ids t) -> NoDup (lpanes t) -> child b x y = LLeaf c p ->
  let sb := child (negb b) x y in
  NoDup (ids sb) /\ lay_remove p (erase t) = Some (erase sb) /\ k ∉ ids sb /\ c ∉ ids sb /\ c <> k /\
  forall i, i ∈ ids t <-> i = k \/ i = c \/ i ∈ ids sb.
Proof.
  intros t Hnd Hndp Hc sb.
  assert (forall i, i ∈ ids t <-> i = k \/ i = c \/ i ∈ ids sb) as Hi.
  { intros i. unfold t. rewrite (with_child_self b), elem_with_child, Hc. simpl. by rewrite list_elem_of_singleton. }
  unfold t in Hnd. rewrite (with_child_self b), nodup_with_child, Hc in Hnd. destruct Hnd as (N1 & N2 & _ & N3 & N4).
  assert (c ∈ ids (LLeaf c p)) as Hcc by (by apply list_elem_of_singleton).
  split_and!; [done|by eapply erase_remove_split|done|intros H; by eapply N4|intros ->; by apply N1|done].
Qed.

Lemma removed_panes p t t' : lay_remove p (erase t) = Some (erase t') ->
  lpanes t' = filter (fun q => q <> p) (lpanes t).
Proof. intros E. pose proof (lay_remove_panes p (erase t)) as H. rewrite E, !erase_panes in H. by symmetry. Qed.

(** The last division is gone: the sibling is shown by the root paned alone. *)
Lemma shows_sibling ww k b o x y c p g' o' ww' :
  let t := LSplit k o f64_half x y in let sb := child (negb b) x y in
  shows ww t -> child b x y = LLeaf c p ->
  linked g' -> refused g' = false -> parents g' !! root_paned ww = None ->
  kinds g' !! root_paned ww = Some (Paned o' (Some (rid sb)) None) ->
  (forall i, i ∈ ids sb -> kinds g' !! i = kinds (gtk ww) !! i) -> kinds (gtk ww) !! c = Some (Container p) ->
  gtk ww' = g' -> root_paned ww' = root_paned ww -> pane_widgets ww' = delete p (pane_widgets ww) ->
  shows ww' sb /\ lay_remove p (erase t) = Some (erase sb).
Proof.
  intros t sb Hs Hc L R T K Hk Hkc E1 E2 E3.
  destruct (sibling_of k b o x y c p (sw_ids _ _ Hs) (sw_panes _ _ Hs) Hc) as (Hnd & Hrem & _ & _ & _ & Hids).
  fold t sb in Hrem, Hids, Hnd. split; [|done]. pose proof (removed_panes _ _ _ Hrem) as Hp.
  destruct (conts_delete ww t sb p g' Hs Hp) as [D1 D2].
  { intros i q Hi Hkq Hne. apply Hids in Hi as [->|[->|Hi]]; [|by rewrite Hkc in Hkq; simplify_eq|by rewrite Hk].
    destruct (sub_split _ _ _ _ _ _ _ (sw_reprs _ _ Hs) (lsub_root t)) as [Hkk _]. simpl in Hkk. by rewrite Hkk in Hkq. }
  split; rewrite ?E1, ?E2, ?E3; try done.
  - apply (reprs_frame (arena (gtk ww))); [|intros i Hi; by apply arena_ext, Hk].
    pose proof (sw_reprs _ _ Hs) as Hr. unfold t in Hr. rewrite (with_child_self b), reprs_with_child in Hr. apply Hr.
  - rewrite Hp. apply NoDup_filter, Hs.
  - right. exists o'. by rewrite E1, E2.
Qed.

(** A division inside is gone: the sibling takes its place. *)
Lemma shows_collapsed ww t gp ps og u v k b o x y c p g' ww' :
  let sb := child (negb b) x y in
  shows ww t -> lsub t gp = Some (LSplit gp og f64_half u v) -> child ps u v = LSplit k o f64_half x y ->
  child b x y = LLeaf c p -> kinds (gtk ww) !! c = Some (Container p) ->
  linked g' -> refused g' = false -> parents g' !! root_paned ww = None ->
  (forall i, kinds g' !! i =
     if decide (i = gp) then Some (put_child ps (Some (rid sb)) og (Some (rid u)) (Some (rid v)))
     else if decide (i = k) then Some (Paned o None None) else kinds (gtk ww) !! i) ->
  root_paned ww <> k ->
  gtk ww' = g' -> root_paned ww' = root_paned ww -> pane_widgets ww' = delete p (pane_widgets ww) ->
  exists t', shows ww' t' /\ lay_remove p (erase t) = Some (erase t').
Proof.
  intros sb Hs Hgp Hps Hc Hkc L R T K Hrk E1 E2 E3.
  set (t' := lput t gp (with_child ps gp og f64_half u v sb)).
  pose proof (sw_ids _ _ Hs) as Hnd.
  assert (lay_remove p (erase t) = Some (erase t')) as Hrem by (by eapply erase_lput_remove; [apply Hs|apply Hs|..]).
  exists t'. split; [|done]. pose proof (removed_panes _ _ _ Hrem) as Hp.
  assert (NoDup (ids (LSplit gp og f64_half u v))) as Hnds.
  { destruct (lput_decomp _ _ _ Hnd Hgp) as (?&?&?&?&Hi&_&_). rewrite Hi in Hnd.
    by apply NoDup_app in Hnd as (_ & _ & (? & _)%NoDup_app). }
  rewrite (with_child_self ps), nodup_with_child, Hps in Hnds. destruct Hnds as (N1 & N2 & N3 & N4 & N5).
  assert (NoDup (lpanes (LSplit k o f64_half x y))) as Hndp.
  { destruct (lput_decomp _ _ _ (sw_ids _ _ Hs) Hgp) as (?&?&l1&l2&_&Hl&_). pose proof (sw_panes _ _ Hs) as H.
    rewrite Hl in H. apply NoDup_app in H as (_ & _ & (H & _)%NoDup_app). rewrite <- Hps.
    simpl in H. apply NoDup_app in H as (? & _ & ?). by destruct ps. }
  destruct (sibling_of k b o x y c p N3 Hndp Hc) as (S1 & _ & S2 & S3 & S4 & S5). fold sb in S1, S2, S3, S5.
  pose proof (sub_split _ _ _ _ _ _ _ (sw_reprs _ _ Hs) Hgp) as [Hkgp _].
  assert (kinds (gtk ww) !! k = Some (Paned o (Some (rid x)) (Some (rid y)))) as Hkk.
  { pose proof (lsub_child _ _ ps _ _ _ _ Hnd Hgp) as E. rewrite Hps in E. by apply (sub_split _ _ _ _ _ _ _ (sw_reprs _ _ Hs) E). }
  assert (forall i, i ∈ ids t' <-> (i = gp \/ i ∈ ids sb \/ i ∈ ids (child (negb ps) u v)) \/
    (i ∈ ids t /\ ~ (i = gp \/ (i = k \/ i = c \/ i ∈ ids sb) \/ i ∈ ids (child (negb ps) u v)))) as Hids.
  { intros i. unfold t'. rewrite (lput_in_iff _ _ _ _ _ Hnd Hgp), elem_with_child.
    by rewrite (with_child_self ps gp og f64_half u v), elem_with_child, Hps, S5. }
  assert (forall i, i = gp \/ (i = k \/ i = c \/ i ∈ ids sb) \/ i ∈ ids (child (negb ps) u v) -> i ∈ ids t) as Hsub.
  { intros i Hi. eapply lsub_ids; [exact Hgp|].
    by rewrite (with_child_self ps gp og f64_half u v), elem_with_child, Hps, S5. }
  assert (gp <> k) as Hgk by (intros ->; apply N1, S5; auto).
  assert (reprs (arena g') t') as Hr.
  { apply (reprs_at (arena (gtk ww))); [apply Hs|done|done|..].
    - intros i Hi Hig Hni. apply arena_ext. rewrite K, !decide_False; [done| |done].
      intros ->. apply Hni. rewrite Hps. apply S5. auto.
    - rewrite arena_at, K, decide_True by done. by destruct ps.
    - apply (reprs_frame (arena (gtk ww))).
      + pose proof (reprs_lsub _ _ _ _ (sw_reprs _ _ Hs) (lsub_child _ _ ps _ _ _ _ Hnd Hgp)) as H.
        rewrite Hps, (with_child_self b), reprs_with_child in H. apply H.
      + intros i Hi. apply arena_ext. rewrite K, !decide_False; [done|by intros ->|].
        intros ->. apply N1, S5. auto. }
  destruct (conts_delete ww t t' p g' Hs Hp) as [D1 D2].
  { intros i q Hi Hkq Hne.
    assert (i <> gp) as Hig by (intros ->; by rewrite Hkgp in Hkq).
    assert (i <> k) as Hik by (intros ->; by rewrite Hkk in Hkq).
    assert (i <> c) as Hic by (intros ->; rewrite Hkc in Hkq; by simplify_eq).
    rewrite K, !decide_False by done. split; [|done]. apply Hids.
    destruct (decide (i ∈ ids sb)), (decide (i ∈ ids (child (negb ps) u v))); tauto. }
  split; rewrite ?E1, ?E2, ?E3; try done.
  - eapply lput_nodup; [done|exact Hgp| |].
    + rewrite nodup_with_child. split_and!; try done.
      * intros H. apply N1, S5. auto.
      * intros i Hi. apply N5, S5. auto.
    + intros i. rewrite elem_with_child. intros Hi. left.
      rewrite (with_child_self ps gp og f64_half u v), elem_with_child, Hps, S5. tauto.
  - rewrite Hp. apply NoDup_filter, Hs.
  - assert (rid t' = rid t) as Hrid by (apply lput_rid, rid_with_child). unfold rooted. rewrite E1, E2, Hrid.
    destruct (sw_root _ _ Hs) as [[Hrt (o1 & a1 & b1 & Hkr)]|[o1 Hkr]]; [left|right].
    + split; [done|]. rewrite K. case_decide; [destruct ps; by do 3 eexists|]. rewrite decide_False by done. by do 3 eexists.
    + exists o1. rewrite K, !decide_False; [done|done|]. intros E. by rewrite E, Hkgp in Hkr.
Qed.

Lemma pick_sibling b x y : pick (negb b) (Some (rid x)) (Some (rid y)) = Some (rid (child (negb b) x y)).
Proof. by destruct b. Qed.
Lemma root_not_child ww t n k : shows ww t -> parents (gtk ww) !! n = Some k -> n <> root_paned ww.
Proof. intros Hs Hp ->. by rewrite (sw_top _ _ Hs) in Hp. Qed.

(** The root paned is left with one child, as its start child. *)
Lemma uproot_gtk (b : bool) r c sib o st en g :
  linked g -> kinds g !! r = Some (Paned o st en) -> pick b st en = Some c -> pick (negb b) st en = Some sib ->
  sib <> r -> c <> r -> parents g !! r = None ->
  let g1 := set_child b r None g in
  let g' := if b then set_child true r (Some sib) (set_child false r None g1) else g1 in
  linked g' /\ refused g' = refused g /\ parents g' !! r = None /\
  forall i, kinds g' !! i = if decide (i = r) then Some (Paned o (Some sib) None) else kinds g !! i.
Proof.
  intros Hl Hr Hc Hsib Hsr Hcr Ht g1 g'.
  assert (parents g !! sib = Some r) as Hps by (apply (lk_child _ Hl (negb b)); by erewrite child_at_kind).
  assert (g1 = taken_out b r c o st en g) as E1 by (by apply set_child_out).
  assert (linked g1) as L1 by (rewrite E1; by apply taken_out_linked).
  destruct b; simpl in Hc, Hsib; subst st en.
  - assert (kinds g1 !! r = Some (Paned o None (Some sib))) as K1
      by (rewrite E1; cbn [taken_out kinds put_child]; by rewrite lookup_insert_eq).
    assert (set_child false r None g1 = taken_out false r sib o None (Some sib) g1) as E2 by (by apply set_child_out).
    set (g2 := taken_out false r sib o None (Some sib) g1) in *.
    assert (linked g2) as L2 by (by apply taken_out_linked).
    assert (kinds g2 !! r = Some (Paned o None None)) as K2
      by (unfold g2; cbn [taken_out kinds put_child]; by rewrite lookup_insert_eq).
    assert (parents g2 !! sib = None) as P2 by (unfold g2; cbn [taken_out parents]; by rewrite lookup_delete_eq).
    assert (is_Some (kinds g2 !! sib)) as K2s.
    { unfold g2. rewrite E1. cbn [taken_out kinds]. rewrite !lookup_insert_ne by done. by eapply (lk_known _ Hl). }
    unfold g'. rewrite E2, (set_child_in true r sib g2 o None None) by done. split_and!.
    + by apply put_in_linked.
    + unfold g2. by rewrite E1.
    + unfold g2. rewrite E1. cbn [put_in taken_out parents]. by rewrite lookup_insert_ne, !lookup_delete_ne.
    + intros i. cbn [put_in kinds put_child]. case_decide as Hi; [by rewrite Hi, lookup_insert_eq|].
      rewrite lookup_insert_ne by done. unfold g2. rewrite E1. cbn [taken_out kinds]. by rewrite !lookup_insert_ne.
  - unfold g'. rewrite E1. split_and!; [by rewrite <- E1|done| |].
    + cbn [taken_out parents]. by rewrite lookup_delete_ne.
    + intros i. cbn [taken_out kinds put_child]. case_decide as Hi; [by rewrite Hi, lookup_insert_eq|].
      by rewrite lookup_insert_ne.
Qed.

(** The paned above a nested one, and what is shown once the nested one is gone. *)
Lemma above_removed p ww t c k b o x y :
  let sb := child (negb b) x y in
  shows ww t -> lsub t k = Some (LSplit k o f64_half x y) -> child b x y = LLeaf c p ->
  kinds (gtk ww) !! c = Some (Container p) -> parents (gtk ww) !! c = Some k -> parents (gtk ww) !! rid sb = Some k ->
  k <> root_paned ww ->
  exists gp ps og sg eg, kinds (gtk ww) !! gp = Some (Paned og sg eg) /\ parents (gtk ww) !! k = Some gp /\
    pick ps sg eg = Some k /\ bool_decide (child_at true gp (gtk ww) = Some k) = ps /\ NoDup [c; rid sb; k; gp] /\
    forall g' ww', linked g' -> refused g' = false -> parents g' !! root_paned ww = None ->
      (forall i, kinds g' !! i = if decide (i = gp) then Some (put_child ps (Some (rid sb)) og sg eg)
                                 else if decide (i = k) then Some (Paned o None None) else kinds (gtk ww) !! i) ->
      gtk ww' = g' -> root_paned ww' = root_paned ww -> pane_widgets ww' = delete p (pane_widgets ww) ->
      exists t', shows ww' t' /\ lay_remove p (erase t) = Some (erase t').
Proof.
  intros sb Hs Hk Hc Hkc Hpc Hpsib Hroot. pose proof (sw_linked _ _ Hs) as Hl. pose proof (sw_ids _ _ Hs) as Hnd.
  assert (NoDup (ids (LSplit k o f64_half x y)) /\ NoDup (lpanes (LSplit k o f64_half x y))) as [Hndk Hndp].
  { destruct (lput_decomp _ _ _ Hnd Hk) as (?&?&?&?&Hi&Hp&_). pose proof (sw_panes _ _ Hs) as H. rewrite Hi in Hnd. rewrite Hp in H.
    split; [by apply NoDup_app in Hnd as (_ & _ & (? & _)%NoDup_app)|by apply NoDup_app in H as (_ & _ & (? & _)%NoDup_app)]. }
  destruct (sibling_of k b o x y c p Hndk Hndp Hc) as (S1 & _ & S2 & S3 & S4 & S5). fold sb in S1, S2, S3, S5.
  assert (rid sb ∈ ids sb) as Hsb by apply rid_in_ids.
  assert (forall gp, gp <> c -> gp <> rid sb -> gp <> k -> NoDup [c; rid sb; k; gp]) as Hdist.
  { intros gp H1 H2 H3. assert (c <> rid sb) by (by intros ->). assert (rid sb <> k) by (by intros <-).
    rewrite !NoDup_cons, !not_elem_of_cons. split_and!; try congruence; try apply not_elem_of_nil. apply NoDup_nil_2. }
  destruct (decide (k = rid t)) as [Hkt|Hkt].
  - assert (t = LSplit k o f64_half x y) as ->.
    { rewrite Hkt, lsub_root in Hk. injection Hk as ->. by rewrite <- Hkt. }
    destruct (sw_root _ _ Hs) as [[E _]|[o1 Hkr]]; [by destruct Hroot|]. simpl in Hkr.
    assert (child_at true (root_paned ww) (gtk ww) = Some k) as Hat by (by rewrite (child_at_kind _ _ _ _ _ _ Hkr)).
    assert (parents (gtk ww) !! k = Some (root_paned ww)) as Hpk by (by eapply (lk_child _ Hl)).
    exists (root_paned ww), true, o1, (Some k), None. split_and!; try done.
    + by apply bool_decide_eq_true.
    + apply Hdist; apply not_eq_sym; by eapply root_not_child.
    + intros g' ww' L R T K E1 E2 E3. exists sb.
      eapply (shows_sibling ww k b o x y c p g' o1 ww'); try done.
      * rewrite K. by rewrite decide_True.
      * intros i Hi. rewrite K, !decide_False; [done|by intros ->|]. intros ->.
        assert (root_paned ww ∈ ids (LSplit k o f64_half x y)) as Hin by (apply S5; auto).
        destruct (reprs_lookup _ _ _ (sw_reprs _ _ Hs) Hin) as [z Hz]. by rewrite arena_at, Hkr in Hz.
  - destruct (shows_parent ww t k _ Hs Hk Hkt) as (gp & ps & og & u & v & Hgp & Hps & Hkgp & Hpk & Hpick & Hb).
    assert (gp ∉ ids (LSplit k o f64_half x y)) as Hni.
    { destruct (lput_decomp _ _ _ Hnd Hgp) as (?&?&?&?&Hi&_&_). rewrite Hi in Hnd.
      apply NoDup_app in Hnd as (_ & _ & (H & _)%NoDup_app). rewrite (with_child_self ps), nodup_with_child, Hps in H. apply H. }
    exists gp, ps, og, (Some (rid u)), (Some (rid v)). split_and!; try done.
    + apply Hdist; intros ->; apply Hni, S5; auto.
    + intros g' ww' L R T K E1 E2 E3. by eapply (shows_collapsed ww t gp ps og u v k b o x y c p g' ww').
Qed.

Lemma shows_remove p ww t :
  shows ww t -> p ∈ lpanes t -> (forall n, t <> LLeaf n p) ->
  exists t', shows (remove_pane_widgets p ww) t' /\ lay_remove p (erase t) = Some (erase t').
Proof.
  intros Hs Hp Hleaf.
  destruct (shows_leaf ww t p Hs Hp) as (c & Hpc & Hsub & Hkc).
  assert (c <> rid t) as Hcr.
  { intros ->. rewrite lsub_root in Hsub. injection Hsub as E. by eapply Hleaf. }
  destruct (shows_parent ww t c _ Hs Hsub Hcr) as (k & b & o & x & y & Hk & Hc & Hkk & Hpar & Hpick & Hb).
  pose proof (sw_linked _ _ Hs) as Hl. pose proof (sw_ids _ _ Hs) as Hnd.
  set (sb := child (negb b) x y). pose proof (pick_sibling b x y) as Hsib. fold sb in Hsib.
  assert (child_at (negb b) k (gtk ww) = Some (rid sb)) as Hat by (by erewrite child_at_kind).
  assert (parents (gtk ww) !! rid sb = Some k) as Hpsib by (by eapply (lk_child _ Hl)).
  assert (c <> rid sb) as Hcs.
  { intros E. rewrite <- E in Hat. assert (child_at b k (gtk ww) = Some c) as Hat' by (by erewrite child_at_kind).
    destruct b; [by eapply (lk_once _ Hl k c)|by eapply (lk_once _ Hl k c)]. }
  assert (c <> k) as Hck by (intros ->; by rewrite Hkk in Hkc).
  unfold remove_pane_widgets. rewrite Hpc. cbn [set_pane_widgets gtk root_paned].
  assert (paned_parent c (gtk ww) = Some k) as -> by (unfold paned_parent; rewrite Hpar; cbn [mbind option_bind]; by rewrite Hkk).
  rewrite Hb, Hat. destruct (decide (k = root_paned ww)) as [Hroot|Hroot].
  - assert (t = LSplit k o f64_half x y) as ->.
    { destruct (sw_root _ _ Hs) as [[E _]|[o1 Hkr]]; [|by rewrite <- Hroot, Hkk in Hkr].
      rewrite Hroot, <- E, lsub_root in Hk. injection Hk as ->. by rewrite Hroot, <- E. }
    assert (rid sb <> k) as Hsk by (rewrite Hroot; by eapply root_not_child).
    assert (parents (gtk ww) !! k = None) as Ht by (rewrite Hroot; apply Hs).
    destruct (uproot_gtk b k c (rid sb) o _ _ _ Hl Hkk Hpick Hsib Hsk Hck Ht) as (L & R & T & K).
    exists sb. eapply (shows_sibling ww k b o x y c p _ o); [exact Hs|exact Hc|exact L|rewrite R; apply Hs|..|done|done|done|done].
    + by rewrite <- Hroot.
    + rewrite K. by rewrite decide_True.
    + intros i Hi. rewrite K, decide_False; [done|]. intros ->.
      destruct (sibling_of k b o x y c p Hnd (sw_panes _ _ Hs) Hc) as (_ & _ & Hni & _). by apply Hni.
  - assert (exists gp ps og sg eg, kinds (gtk ww) !! gp = Some (Paned og sg eg) /\ parents (gtk ww) !! k = Some gp /\
      pick ps sg eg = Some k /\ bool_decide (child_at true gp (gtk ww) = Some k) = ps /\ NoDup [c; rid sb; k; gp] /\
      forall g' ww', linked g' -> refused g' = false -> parents g' !! root_paned ww = None ->
        (forall i, kinds g' !! i = if decide (i = gp) then Some (put_child ps (Some (rid sb)) og sg eg)
                                   else if decide (i = k) then Some (Paned o None None) else kinds (gtk ww) !! i) ->
        gtk ww' = g' -> root_paned ww' = root_paned ww -> pane_widgets ww' = delete p (pane_widgets ww) ->
        exists t', shows ww' t' /\ lay_remove p (erase t) = Some (erase t'))
      as (gp & ps & og & sg & eg & Hgp & Hpk & Hps & Hpsb & Hne & Hfin) by (by eapply above_removed).
    pose proof Hne as Hne'. rewrite !NoDup_cons, !not_elem_of_cons in Hne'.
    assert (c <> k /\ c <> gp /\ k <> gp) as (N1 & N2 & N3) by tauto.
    pose proof (set_child_out b k c _ o _ _ Hkk Hpick) as E1.
    assert (paned_parent k (set_child b k None (gtk ww)) = Some gp) as ->.
    { unfold paned_parent. rewrite E1. cbn [taken_out parents kinds]. rewrite lookup_delete_ne, Hpk by done.
      cbn [mbind option_bind]. by rewrite lookup_insert_ne, Hgp by done. }
    assert (child_at true gp (set_child b k None (gtk ww)) = child_at true gp (gtk ww)) as ->.
    { rewrite E1. unfold taken_out. rewrite child_at_insert, decide_False by done. by apply child_at_ext. }
    assert (bool_decide (child_at true k (set_child b k None (gtk ww)) = Some (rid sb)) = negb b) as ->.
    { rewrite E1. unfold taken_out. rewrite child_at_insert, decide_True by done. destruct b; simpl; [done|].
      apply bool_decide_eq_true. exact Hsib. }
    rewrite Hpsb. destruct (collapse_gtk b k c (rid sb) o _ _ ps gp og sg eg _ Hl Hkk Hpick Hsib Hgp Hps Hne) as (L & R & K & P).
    eapply Hfin; [exact L|rewrite R; apply Hs| |exact K|done..].
    rewrite P; [apply Hs|..]; apply not_eq_sym; by eapply root_not_child.
Qed.
End paned_ops.
