(* ===== verification/PanedRebuild.v ===== *)
(** * The widgets of a split layout: rebuilding and restoring

    All containers are taken out of their paneds and put into new ones, as a snapshot of
    the split tree says; and the paneds of a saved layout are built from the panes up. *)

From S2P Require Import Prelude F64 SplitTree SplitTreeSpec SplitTreeRefine SplitTreeMerge SplitTreeProps Paneds PanedProps.

Section rebuilding.
Context {GtkO : PanedOps} {GtkL : PanedLaws}.

(** ** Taking children out *)

(** What taking children out leaves as it was. *)
Record emptier (g g' : Gtk) : Prop := mkEmptier {
  em_linked : linked g';
  em_refused : refused g' = refused g;
  em_next : next_widget g' = next_widget g;
  em_loose : forall i, parents g !! i = None -> parents g' !! i = None;
  em_cont : forall i p, kinds g !! i = Some (Container p) -> kinds g' !! i = Some (Container p);
  em_paned : forall i o st en, kinds g !! i = Some (Paned o st en) -> exists st' en', kinds g' !! i = Some (Paned o st' en');
  em_child : forall b w, child_at b w g = None -> child_at b w g' = None;
}.

Lemma emptier_refl g : linked g -> emptier g g.
Proof. intros H. split; eauto. Qed.
Lemma emptier_trans g1 g2 g3 : emptier g1 g2 -> emptier g2 g3 -> emptier g1 g3.
Proof.
  intros [A1 A2 A3 A4 A5 A6 A7] [B1 B2 B3 B4 B5 B6 B7]. split; auto; try congruence.
  intros i o st en H. destruct (A6 _ _ _ _ H) as (st' & en' & H'). eauto.
Qed.

(** Taking a child out, if there is one. *)
Lemma taken_out_emptier b w x o st en g : linked g -> kinds g !! w = Some (Paned o st en) -> pick b st en = Some x ->
  emptier g (taken_out b w x o st en g).
Proof.
  intros Hl Hw Hx. split; try done.
  - by apply taken_out_linked.
  - intros i Hi. cbn [taken_out parents]. apply lookup_delete_None. by right.
  - intros i p Hi. cbn [taken_out kinds]. rewrite lookup_insert_ne; [done|]. intros ->. by rewrite Hw in Hi.
  - intros i o' st' en' Hi. cbn [taken_out kinds]. destruct (decide (w = i)) as [->|].
    + rewrite lookup_insert_eq. rewrite Hw in Hi. injection Hi as -> -> ->. destruct b; by do 2 eexists.
    + rewrite lookup_insert_ne by done. by do 2 eexists.
  - intros b' w' Hc. unfold taken_out. rewrite child_at_insert. case_decide as Hww.
    + subst. case_bool_decide; [done|]. by erewrite child_at_kind in Hc.
    + by rewrite (child_at_ext b' w' _ g).
Qed.

Lemma empty_child b w g o st en : linked g -> kinds g !! w = Some (Paned o st en) ->
  emptier g (set_child b w None g) /\ child_at b w (set_child b w None g) = None /\
  forall c, child_at b w g = Some c -> parents (set_child b w None g) !! c = None.
Proof.
  intros Hl Hw. pose proof (child_at_kind b w g o st en Hw) as Hc. destruct (pick b st en) as [x|] eqn:Hx.
  - rewrite (set_child_out b w x g o st en) by done. split_and!; [by apply taken_out_emptier|..].
    + unfold taken_out. rewrite child_at_insert, decide_True by done. by rewrite bool_decide_true.
    + intros c Hc'. rewrite Hc in Hc'. injection Hc' as ->. cbn [taken_out parents]. by rewrite lookup_delete_eq.
  - rewrite (set_child_none b w g o st en) by done. rewrite Hc. split_and!; [by apply emptier_refl|done|done].
Qed.

Lemma detach_emptier c g : linked g -> emptier g (detach c g) /\ parents (detach c g) !! c = None.
Proof.
  intros Hl. unfold detach, paned_parent. destruct (parents g !! c) as [k|] eqn:Hp; [|by split; [apply emptier_refl|]].
  cbn [mbind option_bind]. destruct (lk_parent _ Hl _ _ Hp) as [b Hb].
  assert (exists o st en, kinds g !! k = Some (Paned o st en)) as (o & st & en & Hk).
  { unfold child_at in Hb. destruct (kinds g !! k) as [[]|]; try done. by do 3 eexists. }
  rewrite Hk.
  assert (bool_decide (child_at true k g = Some c) = b) as ->.
  { destruct b; [by apply bool_decide_eq_true|]. apply bool_decide_eq_false. intros H. by eapply (lk_once _ Hl). }
  destruct (empty_child b k g o st en Hl Hk) as (H1 & _ & H3). auto.
Qed.

Lemma detach_all order : forall g, linked g ->
  let g' := foldl (fun g c => detach c g) g order in
  emptier g g' /\ forall c, c ∈ order -> parents g' !! c = None.
Proof.
  induction order as [|c order IH]; intros g Hl; simpl; [split; [by apply emptier_refl|intros c H; by apply elem_of_nil in H]|].
  destruct (detach_emptier c g Hl) as [H1 H2]. destruct (IH _ (em_linked _ _ H1)) as [H3 H4].
  split; [by eapply emptier_trans|]. intros x [->|Hx]%elem_of_cons; [by apply (em_loose _ _ H3)|auto].
Qed.

(** ** Building *)

Fixpoint snap_panes (s : TreeSnapshot) : list PaneId :=
  match s with SnapLeaf p => [p] | SnapSplit _ _ _ a b => snap_panes a ++ snap_panes b end.
Fixpoint snap_nodes (s : TreeSnapshot) : list NodeId :=
  match s with SnapLeaf _ => [] | SnapSplit _ n _ a b => n :: snap_nodes a ++ snap_nodes b end.

(** The widgets [t] are those of the snapshot, and [m] has the paned of each node. *)
Fixpoint matched (m : gmap Z Z) (s : TreeSnapshot) (t : ltree) : Prop :=
  match s, t with
  | SnapLeaf p, LLeaf _ q => p = q
  | SnapSplit o n _ a b, LSplit w o' r x y => m !! n = Some w /\ o = o' /\ r = f64_half /\ matched m a x /\ matched m b y
  | _, _ => False
  end.

Lemma matched_frame m m' s t : matched m s t -> (forall n, n ∈ snap_nodes s -> m' !! n = m !! n) -> matched m' s t.
Proof.
  revert t. induction s as [p|o n r a IHa b IHb]; intros [w q|w o' r' x y] H Hf; try done.
  simpl in *. destruct H as (H1 & H2 & H3 & H4 & H5). split_and!; try done.
  - rewrite Hf; [done|by left].
  - apply IHa; [done|]. intros k Hk. apply Hf. right. apply elem_of_app. by left.
  - apply IHb; [done|]. intros k Hk. apply Hf. right. apply elem_of_app. by right.
Qed.
Lemma matched_panes m s t : matched m s t -> lpanes t = snap_panes s.
Proof.
  revert t. induction s as [p|o n r a IHa b IHb]; intros [w q|w o' r' x y] H; simpl in *; try done; [by subst|].
  destruct H as (_ & _ & _ & Ha & Hb). by rewrite (IHa _ Ha), (IHb _ Hb).
Qed.

(** The containers of these panes are there, and in no paned. *)
Definition loose (ww : WsWidgets) (ps : list PaneId) : Prop :=
  forall p, p ∈ ps -> exists c, pane_widgets ww !! p = Some c /\ kinds (gtk ww) !! c = Some (Container p) /\ parents (gtk ww) !! c = None.

(** What building [s] on [ww] gives. *)
Record built (s : TreeSnapshot) (ww ww' : WsWidgets) (t : ltree) : Prop := mkBuilt {
  bu_matched : matched (split_paneds ww') s t;
  bu_linked : linked (gtk ww');
  bu_refused : refused (gtk ww') = refused (gtk ww);
  bu_root : root_paned ww' = root_paned ww;
  bu_conts : pane_widgets ww' = pane_widgets ww;
  bu_reprs : reprs (arena (gtk ww')) t;
  bu_ids : NoDup (ids t);
  bu_next : (next_widget (gtk ww) <= next_widget (gtk ww'))%Z;
  bu_kinds : forall i, (i < next_widget (gtk ww))%Z -> kinds (gtk ww') !! i = kinds (gtk ww) !! i;
  bu_parents : forall i, i ∉ ids t -> parents (gtk ww') !! i = parents (gtk ww) !! i;
  bu_top : parents (gtk ww') !! rid t = None;
  bu_where : forall i, i ∈ ids t -> (exists p, p ∈ snap_panes s /\ pane_widgets ww !! p = Some i) \/
    (next_widget (gtk ww) <= i < next_widget (gtk ww'))%Z;
  bu_in : forall p, p ∈ snap_panes s -> exists c, pane_widgets ww !! p = Some c /\ c ∈ ids t;
  bu_nodes : forall n, n ∉ snap_nodes s -> split_paneds ww' !! n = split_paneds ww !! n;
}.

Lemma build_leaf p ww : linked (gtk ww) -> loose ww [p] ->
  exists c, build_widget_from_snapshot (SnapLeaf p) ww = (c, ww) /\ built (SnapLeaf p) ww ww (LLeaf c p).
Proof.
  intros Hl Hlo. destruct (Hlo p) as (c & Hc & Hk & Hp); [by left|]. exists c. simpl. rewrite Hc. split; [done|].
  split; simpl; try done.
  - by rewrite arena_at, Hk.
  - apply NoDup_singleton.
  - intros i ->%list_elem_of_singleton. left. exists p. split; [by left|done].
  - intros q ->%list_elem_of_singleton. exists c. split; [done|by left].
Qed.

Lemma built_below s ww ww' t i : linked (gtk ww) -> loose ww (snap_panes s) -> built s ww ww' t -> i ∈ ids t ->
  (exists p, p ∈ snap_panes s /\ pane_widgets ww !! p = Some i /\ kinds (gtk ww) !! i = Some (Container p) /\
     (i < next_widget (gtk ww))%Z) \/
  (next_widget (gtk ww) <= i < next_widget (gtk ww'))%Z.
Proof.
  intros Hl Hlo Hb Hi. destruct (bu_where _ _ _ _ Hb i Hi) as [(p & Hp & Hc)|]; [left|by right].
  destruct (Hlo p Hp) as (c & Hc' & Hk & _). rewrite Hc in Hc'. injection Hc' as <-.
  exists p. split_and!; try done. apply (lk_fresh _ Hl). by eexists.
Qed.

(** Two parts that are built one after the other are apart, and apart from the paned that
    was made before them. *)
Lemma built_apart a b ww wwa wwb ta tb k :
  linked (gtk ww) -> loose ww (snap_panes a) -> loose ww (snap_panes b) -> NoDup (snap_panes a ++ snap_panes b) ->
  built a ww wwa ta -> built b wwa wwb tb -> linked (gtk wwa) -> loose wwa (snap_panes b) ->
  (k < next_widget (gtk ww))%Z -> (forall p, kinds (gtk ww) !! k <> Some (Container p)) ->
  NoDup (k :: ids ta ++ ids tb).
Proof.
  intros Hl Ha Hb Hnd Ba Bb Hla Hb' Hk Hkk. pose proof (bu_next _ _ _ _ Ba) as Hna.
  assert (forall i, i ∈ ids tb -> (exists p, p ∈ snap_panes b /\ kinds (gtk ww) !! i = Some (Container p) /\
    (i < next_widget (gtk ww))%Z) \/ (next_widget (gtk wwa) <= i)%Z) as Hib.
  { intros i Hi. destruct (built_below _ _ _ _ i Hla Hb' Bb Hi) as [(p & Hp & Hc & _)|]; [left|right; lia].
    rewrite (bu_conts _ _ _ _ Ba) in Hc. destruct (Hb p Hp) as (c & Hc' & Hkc & _). rewrite Hc in Hc'. injection Hc' as <-.
    exists p. split_and!; try done. apply (lk_fresh _ Hl). by eexists. }
  pose proof (fun i => built_below _ _ _ _ i Hl Ha Ba) as Hia.
  rewrite NoDup_cons, NoDup_app, not_elem_of_app. split_and!; [| |apply Ba| |apply Bb].
  - intros Hi. destruct (Hia k Hi) as [(p & _ & _ & Hc & _)|]; [by apply Hkk in Hc|lia].
  - intros Hi. destruct (Hib k Hi) as [(p & _ & Hc & _)|]; [by apply Hkk in Hc|lia].
  - intros i Hi Hi'. destruct (Hia i Hi) as [(p & Hp & _ & Hc & Hlt)|Hlt], (Hib i Hi') as [(q & Hq & Hc' & Hlt')|Hlt']; try lia.
    rewrite Hc in Hc'. injection Hc' as ->. apply NoDup_app in Hnd as (_ & Hd & _). by eapply Hd.
Qed.

Lemma loose_built s ps ww ww' t : linked (gtk ww) -> loose ww (snap_panes s) -> loose ww ps -> NoDup (snap_panes s ++ ps) ->
  built s ww ww' t -> loose ww' ps.
Proof.
  intros Hl Hs Hps Hnd Hb p Hp. destruct (Hps p Hp) as (c & Hc & Hk & Hpar). exists c.
  assert (c < next_widget (gtk ww))%Z as Hlt by (apply (lk_fresh _ Hl); by eexists).
  rewrite (bu_conts _ _ _ _ Hb), (bu_kinds _ _ _ _ Hb), (bu_parents _ _ _ _ Hb); [done| |done].
  intros Hi. destruct (built_below _ _ _ _ c Hl Hs Hb Hi) as [(q & Hq & _ & Hkq & _)|]; [|lia].
  rewrite Hk in Hkq. injection Hkq as ->. apply NoDup_app in Hnd as (_ & Hd & _). by eapply Hd.
Qed.

Lemma build_split o n r a b ww wwa wwb ta tb :
  let k := next_widget (gtk ww) in
  let ww1 := set_gtk (snd (new_widget (Paned o None None) (gtk ww))) ww in
  let s := SnapSplit o n r a b in
  linked (gtk ww) -> loose ww (snap_panes s) -> NoDup (snap_panes s) -> NoDup (snap_nodes s) ->
  linked (gtk ww1) -> loose ww1 (snap_panes a) -> loose ww1 (snap_panes b) ->
  built a ww1 wwa ta -> loose wwa (snap_panes b) -> built b wwa wwb tb ->
  let ww' := set_split_paneds (<[n := k]> (split_paneds wwb))
    (set_gtk (set_child false k (Some (rid tb)) (set_child true k (Some (rid ta)) (gtk wwb))) wwb) in
  built s ww ww' (LSplit k o f64_half ta tb).
Proof.
  intros k ww1 s Hl Hlo Hnd Hndn Hl1 Ha Hb Ba Hba Bb ww'.
  assert (next_widget (gtk ww1) = (k + 1)%Z) as N1 by done.
  pose proof (bu_next _ _ _ _ Ba) as Na. pose proof (bu_next _ _ _ _ Bb) as Nb. rewrite N1 in Na.
  assert (kinds (gtk ww1) !! k = Some (Paned o None None)) as K1 by (simpl; by rewrite lookup_insert_eq).
  assert (NoDup (k :: ids ta ++ ids tb)) as Hids.
  { apply (built_apart a b ww1 wwa wwb); try done; [apply Ba|lia|]. intros p. by rewrite K1. }
  pose proof Hids as Hids'. rewrite NoDup_cons, not_elem_of_app, NoDup_app in Hids'. destruct Hids' as ([Hka Hkb] & _ & Hab & _).
  pose proof (rid_in_ids ta) as Hra. pose proof (rid_in_ids tb) as Hrb.
  assert (kinds (gtk wwb) !! k = Some (Paned o None None)) as Kb.
  { rewrite (bu_kinds _ _ _ _ Bb), (bu_kinds _ _ _ _ Ba); [done|rewrite N1; lia|lia]. }
  assert (forall i, i ∈ ids ta -> kinds (gtk wwb) !! i = kinds (gtk wwa) !! i) as Kta.
  { intros i Hi. apply (bu_kinds _ _ _ _ Bb). by eapply (reprs_fresh _ ta); [apply Ba|apply Ba|]. }
  assert (forall i, i ∈ ids ta -> is_Some (kinds (gtk wwa) !! i)) as Ka.
  { intros i Hi. destruct (reprs_lookup _ _ _ (bu_reprs _ _ _ _ Ba) Hi). by eapply arena_known. }
  destruct (fill_paned k (rid ta) (rid tb) o (gtk wwb)) as (L & K & P & N & R); try done.
  - apply Bb.
  - rewrite (bu_parents _ _ _ _ Bb); [apply Ba|by apply Hab].
  - apply Bb.
  - intros E. rewrite E in Hra. by apply (Hab (rid tb)).
  - rewrite Kta by done. by apply Ka.
  - destruct (reprs_lookup _ _ _ (bu_reprs _ _ _ _ Bb) Hrb). by eapply arena_known.
  - assert (forall i, i ∉ k :: ids ta ++ ids tb -> parents (gtk ww') !! i = parents (gtk ww) !! i) as Pi.
    { intros i [Hik [Hia Hib]%not_elem_of_app]%not_elem_of_cons. unfold ww'. cbn [set_split_paneds set_gtk gtk].
      rewrite P, !lookup_insert_ne by (by intros <-). by rewrite (bu_parents _ _ _ _ Bb), (bu_parents _ _ _ _ Ba). }
    assert (forall i, i <> k -> kinds (gtk ww') !! i = kinds (gtk wwb) !! i) as Ki.
    { intros i Hik. unfold ww'. cbn [set_split_paneds set_gtk gtk]. by rewrite K, lookup_insert_ne. }
    change (NoDup (n :: snap_nodes a ++ snap_nodes b)) in Hndn.
    rewrite NoDup_cons, NoDup_app in Hndn. destruct Hndn as (Hn & _ & Hnab & _). rewrite not_elem_of_app in Hn.
    split; try done.
    + simpl. split_and!; try done; [by rewrite lookup_insert_eq|..].
      * apply (matched_frame (split_paneds wwa)); [apply Ba|]. intros j Hj.
        rewrite lookup_insert_ne by (intros ->; tauto). apply (bu_nodes _ _ _ _ Bb). by apply Hnab.
      * apply (matched_frame (split_paneds wwb)); [apply Bb|]. intros j Hj. by rewrite lookup_insert_ne by (intros ->; tauto).
    + unfold ww'. cbn [set_split_paneds set_gtk gtk]. by rewrite R, (bu_refused _ _ _ _ Bb), (bu_refused _ _ _ _ Ba).
    + unfold ww'. cbn [set_split_paneds set_gtk root_paned]. by rewrite (bu_root _ _ _ _ Bb), (bu_root _ _ _ _ Ba).
    + unfold ww'. cbn [set_split_paneds set_gtk pane_widgets]. by rewrite (bu_conts _ _ _ _ Bb), (bu_conts _ _ _ _ Ba).
    + simpl. split_and!.
      * rewrite arena_at. unfold ww'. cbn [set_split_paneds set_gtk gtk]. by rewrite K, lookup_insert_eq.
      * apply (reprs_frame (arena (gtk wwa))); [apply Ba|]. intros i Hi. apply arena_ext.
        rewrite Ki by (by intros ->). by apply Kta.
      * apply (reprs_frame (arena (gtk wwb))); [apply Bb|]. intros i Hi. apply arena_ext. apply Ki. by intros ->.
    + unfold ww'. cbn [set_split_paneds set_gtk gtk]. rewrite N. fold k. lia.
    + intros i Hi. rewrite Ki by (unfold k; lia). fold k in Hi. rewrite (bu_kinds _ _ _ _ Bb), (bu_kinds _ _ _ _ Ba) by (rewrite ?N1; lia).
      simpl. rewrite lookup_insert_ne; [done|]. fold k. lia.
    + unfold ww'. cbn [set_split_paneds set_gtk gtk rid]. rewrite P, !lookup_insert_ne by (by intros <-).
      rewrite (bu_parents _ _ _ _ Bb), (bu_parents _ _ _ _ Ba) by done.
      change (parents (gtk ww) !! k = None). by apply linked_fresh.
    + unfold ww'. cbn [set_split_paneds set_gtk gtk]. rewrite N. fold k.
      intros i [->|[Hi|Hi]%elem_of_app]%elem_of_cons; [right; lia| |].
      * destruct (bu_where _ _ _ _ Ba i Hi) as [(p & Hp & Hc)|Hi']; [left|right; rewrite N1 in Hi'; lia].
        exists p. split; [simpl; apply elem_of_app; by left|done].
      * destruct (bu_where _ _ _ _ Bb i Hi) as [(p & Hp & Hc)|Hi']; [left|right; lia].
        exists p. split; [simpl; apply elem_of_app; by right|by rewrite (bu_conts _ _ _ _ Ba) in Hc].
    + intros p [Hp|Hp]%elem_of_app.
      * destruct (bu_in _ _ _ _ Ba p Hp) as (c & Hc & Hi). exists c. split; [done|]. right. apply elem_of_app. by left.
      * destruct (bu_in _ _ _ _ Bb p Hp) as (c & Hc & Hi). rewrite (bu_conts _ _ _ _ Ba) in Hc. exists c. split; [done|].
        right. apply elem_of_app. by right.
    + intros j [Hj [Hja Hjb]%not_elem_of_app]%not_elem_of_cons. simpl. rewrite lookup_insert_ne by done.
      by rewrite (bu_nodes _ _ _ _ Bb), (bu_nodes _ _ _ _ Ba).
Qed.

Lemma build_from_spec s : forall ww, linked (gtk ww) -> loose ww (snap_panes s) -> NoDup (snap_panes s) -> NoDup (snap_nodes s) ->
  exists ww' t, build_widget_from_snapshot s ww = (rid t, ww') /\ built s ww ww' t.
Proof.
  induction s as [p|o n r a IHa b IHb]; intros ww Hl Hlo Hnd Hndn.
  { destruct (build_leaf p ww Hl Hlo) as (c & E & Hb). by exists ww, (LLeaf c p). }
  pose proof (linked_fresh _ Hl) as [Hfk _].
  pose proof Hndn as Hn. change (NoDup (n :: snap_nodes a ++ snap_nodes b)) in Hn.
  apply NoDup_cons in Hn as [_ [Hna [_ Hnb]]%NoDup_app].
  pose proof Hnd as Hp. change (NoDup (snap_panes a ++ snap_panes b)) in Hp. apply NoDup_app in Hp as (Hpa & _ & Hpb).
  set (ww1 := set_gtk (snd (new_widget (Paned o None None) (gtk ww))) ww).
  assert (linked (gtk ww1)) as Hl1 by (by apply new_widget_linked).
  assert (forall ps, (forall p, p ∈ ps -> p ∈ snap_panes (SnapSplit o n r a b)) -> loose ww1 ps) as Hlo1.
  { intros ps Hps p Hin. destruct (Hlo p (Hps p Hin)) as (c & Hc & Hk & Hpar). exists c. split_and!; [done| |done].
    cbn [ww1 set_gtk gtk]. rewrite new_widget_at, decide_False; [done|]. intros ->. by rewrite Hfk in Hk. }
  assert (loose ww1 (snap_panes a)) as Hla by (apply Hlo1; intros p H; apply elem_of_app; by left).
  assert (loose ww1 (snap_panes b)) as Hlb by (apply Hlo1; intros p H; apply elem_of_app; by right).
  destruct (IHa ww1 Hl1 Hla Hpa Hna) as (wwa & ta & Ea & Ba).
  assert (loose wwa (snap_panes b)) as Hlb' by (by apply (loose_built a (snap_panes b) ww1 wwa ta Hl1 Hla Hlb Hnd)).
  destruct (IHb wwa (bu_linked _ _ _ _ Ba) Hlb' Hpb Hnb) as (wwb & tb & Eb & Bb).
  eexists _, (LSplit (next_widget (gtk ww)) o f64_half ta tb). split; [|by apply (build_split o n r a b ww wwa wwb ta tb)].
  simpl. fold ww1. change (set_gtk _ ww) with ww1. by rewrite Ea, Eb.
Qed.

(** ** The snapshot of a split tree *)

Fixpoint snap_of (t : ltree) : TreeSnapshot :=
  match t with LLeaf _ p => SnapLeaf p | LSplit n o r a b => SnapSplit o n r (snap_of a) (snap_of b) end.

Lemma snapshot_spec m t : forall f, reprs m t -> height t <= f -> snapshot_tree_node f m (rid t) = snap_of t.
Proof. intros f. walk_induction t f; [done|]. rewrite IHa, IHb; by try lia. Qed.
Lemma snap_of_panes t : snap_panes (snap_of t) = lpanes t.
Proof. induction t as [|n o r a IHa b IHb]; simpl; [done|]. by rewrite IHa, IHb. Qed.
Lemma snap_of_nodes t i : i ∈ snap_nodes (snap_of t) -> i ∈ ids t.
Proof.
  induction t as [|n o r a IHa b IHb]; simpl; intros H; [by apply elem_of_nil in H|].
  apply elem_of_cons in H as [->|[H|H]%elem_of_app]; [by left|right; apply elem_of_app; auto|right; apply elem_of_app; auto].
Qed.
Lemma snap_of_nodup t : NoDup (ids t) -> NoDup (snap_nodes (snap_of t)).
Proof.
  induction t as [|n o r a IHa b IHb]; simpl; intros H; [constructor|].
  rewrite NoDup_cons, NoDup_app, not_elem_of_app in *. destruct H as ((H1 & H2) & H3 & H4 & H5).
  split_and!; auto using snap_of_nodes. intros i Hi Hi'. apply (H4 i); auto using snap_of_nodes.
Qed.

(** The widgets that match the snapshot of a tree show its layout. *)
Lemma matched_erase m lt t : matched m (snap_of lt) t -> erase t = lay_halve (erase lt).
Proof.
  revert t. induction lt as [n p|n o r a IHa b IHb]; intros [w q|w o' r' x y] H; simpl in *; try done; [by subst|].
  destruct H as (_ & -> & -> & Ha & Hb). by rewrite (IHa _ Ha), (IHb _ Hb).
Qed.

(** ** Rebuilding *)

(** The widgets on which the layout of the panes [ps] can be rebuilt. *)
Record rebuildable (ww : WsWidgets) (ps : list PaneId) : Prop := mkRebuildable {
  rb_linked : linked (gtk ww);
  rb_refused : refused (gtk ww) = false;
  rb_root : exists o st en, kinds (gtk ww) !! root_paned ww = Some (Paned o st en);
  rb_top : parents (gtk ww) !! root_paned ww = None;
  rb_dom : forall p, is_Some (pane_widgets ww !! p) <-> p ∈ ps;
  rb_cont : forall p c, pane_widgets ww !! p = Some c -> kinds (gtk ww) !! c = Some (Container p);
}.

Lemma shows_rebuildable ww t : shows ww t -> rebuildable ww (lpanes t).
Proof.
  intros Hs. split; try apply Hs.
  - destruct (sw_root _ _ Hs) as [[_ (o & a & b & H)]|[o H]]; by do 3 eexists.
Qed.

Lemma rebuild_shows order lt ww :
  rebuildable ww (lpanes lt) -> order ≡ₚ (map_to_list (pane_widgets ww)).*2 -> NoDup (ids lt) -> NoDup (lpanes lt) ->
  let ww' := rebuild_split_widgets order (Some (snap_of lt)) ww in
  exists t, shows ww' t /\ matched (split_paneds ww') (snap_of lt) t.
Proof.
  intros Hrb Hord Hnd Hndp ww'. destruct (detach_all order (gtk ww) (rb_linked _ _ Hrb)) as [M1 D].
  set (g1 := foldl (fun g c => detach c g) (gtk ww) order) in *. set (r := root_paned ww).
  destruct (rb_root _ _ Hrb) as (o & st & en & Hr). destruct (em_paned _ _ M1 _ _ _ _ Hr) as (st1 & en1 & Hr1).
  destruct (empty_child true r g1 o st1 en1 (em_linked _ _ M1) Hr1) as (M2 & C2 & _).
  destruct (em_paned _ _ M2 _ _ _ _ Hr1) as (st2 & en2 & Hr2).
  destruct (empty_child false r _ o st2 en2 (em_linked _ _ M2) Hr2) as (M3 & C3 & _).
  set (g3 := set_child false r None (set_child true r None g1)) in *.
  pose proof (emptier_trans _ _ _ M1 (emptier_trans _ _ _ M2 M3)) as M.
  assert (child_at true r g3 = None) as C2' by (by apply (em_child _ _ M3)).
  set (ww3 := set_split_paneds ∅ (set_gtk g3 ww)).
  assert (loose ww3 (snap_panes (snap_of lt))) as Hlo.
  { rewrite snap_of_panes. intros p Hp. apply (rb_dom _ _ Hrb) in Hp as [c Hc]. exists c.
    pose proof (rb_cont _ _ Hrb p c Hc) as Hk. split_and!; [done|by apply (em_cont _ _ M)|].
    apply (em_loose _ _ M3), (em_loose _ _ M2), D. rewrite Hord. apply list_elem_of_fmap. exists (p, c).
    split; [done|]. by apply elem_of_map_to_list. }
  destruct (build_from_spec (snap_of lt) ww3) as (ww4 & t & E & B); try done.
  { apply M. } { by rewrite snap_of_panes. } { by apply snap_of_nodup. }
  assert (ww' = set_gtk (set_child true r (Some (rid t)) (gtk ww4)) ww4) as ->.
  { unfold ww', rebuild_split_widgets. fold g1 r g3 ww3. by rewrite E. }
  destruct (em_paned _ _ M _ _ _ _ Hr) as (st' & en' & Hr3). fold r in Hr3.
  rewrite (child_at_kind true _ _ _ _ _ Hr3) in C2'. rewrite (child_at_kind false _ _ _ _ _ Hr3) in C3. simpl in C2', C3. subst st' en'.
  assert (r < next_widget g3)%Z as Hrn by (apply (lk_fresh _ (em_linked _ _ M)); by eexists).
  assert (kinds (gtk ww4) !! r = Some (Paned o None None)) as Hr4 by (by rewrite (bu_kinds _ _ _ _ B)).
  assert (r ∉ ids t) as Hrt.
  { intros Hi. destruct (reprs_lookup _ _ _ (bu_reprs _ _ _ _ B) Hi) as [z Hz]. by rewrite arena_at, Hr4 in Hz. }
  rewrite (set_child_in true r (rid t) (gtk ww4) o None None) by (done || apply B).
  pose proof (matched_panes _ _ _ (bu_matched _ _ _ _ B)) as Hp. rewrite snap_of_panes in Hp.
  assert (forall i, i <> r -> kinds (put_in true r (rid t) o None None (gtk ww4)) !! i = kinds (gtk ww4) !! i) as Ki
    by (intros i Hi; cbn [put_in kinds]; by rewrite lookup_insert_ne).
  exists t. split; [|apply B].
  split; cbn [set_gtk gtk root_paned pane_widgets]; rewrite ?(bu_conts _ _ _ _ B), ?(bu_root _ _ _ _ B), ?Hp; try done.
  - apply put_in_linked; [apply B|done|done|apply B|].
    destruct (reprs_lookup _ _ _ (bu_reprs _ _ _ _ B) (rid_in_ids t)) as [z Hz]. by eapply arena_known.
  - apply (reprs_frame (arena (gtk ww4))); [apply B|]. intros i Hi. apply arena_ext, Ki. by intros ->.
  - apply B.
  - right. exists o. cbn [set_gtk gtk root_paned]. rewrite (bu_root _ _ _ _ B). cbn [put_in kinds put_child].
    by rewrite lookup_insert_eq.
  - cbn [put_in parents]. change (root_paned ww3) with r. rewrite lookup_insert_ne, (bu_parents _ _ _ _ B); [|done|intros <-; by apply Hrt, rid_in_ids].
    apply (em_loose _ _ M), Hrb.
  - apply Hrb.
  - intros p c Hc. destruct (Hlo p) as (c' & Hc' & Hk & _).
    { rewrite snap_of_panes. apply (rb_dom _ _ Hrb). by eexists. }
    assert (Some c' = Some c) as [= ->] by (etransitivity; [symmetry; exact Hc'|exact Hc]).
    assert (c < next_widget (gtk ww3))%Z as Hcn by (apply (lk_fresh _ (em_linked _ _ M)); by eexists).
    destruct (bu_in _ _ _ _ B p) as (c'' & Hc'' & Hin); [rewrite snap_of_panes; apply (rb_dom _ _ Hrb); by eexists|].
    rewrite Hc' in Hc''. injection Hc'' as <-. split; [done|].
    rewrite Ki, (bu_kinds _ _ _ _ B) by (done || by intros ->). done.
  - cbn [put_in refused]. rewrite (bu_refused _ _ _ _ B). cbn [ww3 set_split_paneds set_gtk gtk].
    rewrite (em_refused _ _ M). apply Hrb.
Qed.
End rebuilding.

(** * A restored workspace *)

Section restoring.
Context {GtkO : PanedOps} {GtkL : PanedLaws}.

(** What restoring [l] on [ww] gives: new widgets only, under one that has no parent. *)
Record grown (l : layout) (ww ww' : WsWidgets) (t : ltree) : Prop := mkGrown {
  gr_layout : erase t = lay_halve l;
  gr_linked : linked (gtk ww');
  gr_refused : refused (gtk ww') = refused (gtk ww);
  gr_reprs : reprs (arena (gtk ww')) t;
  gr_ids : NoDup (ids t);
  gr_next : (next_widget (gtk ww) <= next_widget (gtk ww'))%Z;
  gr_new : forall i, i ∈ ids t -> (next_widget (gtk ww) <= i < next_widget (gtk ww'))%Z;
  gr_kinds : forall i, (i < next_widget (gtk ww))%Z -> kinds (gtk ww') !! i = kinds (gtk ww) !! i;
  gr_parents : forall i, i ∉ ids t -> parents (gtk ww') !! i = parents (gtk ww) !! i;
  gr_top : parents (gtk ww') !! rid t = None;
  gr_in : forall p, p ∈ lay_panes l -> exists c, pane_widgets ww' !! p = Some c /\ c ∈ ids t /\ kinds (gtk ww') !! c = Some (Container p);
  gr_out : forall p, p ∉ lay_panes l -> pane_widgets ww' !! p = pane_widgets ww !! p;
}.

Lemma grown_leaf p ww : linked (gtk ww) ->
  exists ww', restore_widget (Pane p) ww = (next_widget (gtk ww), ww') /\ grown (Pane p) ww ww' (LLeaf (next_widget (gtk ww)) p).
Proof.
  intros Hl. destruct (linked_fresh _ Hl) as [F1 F2]. eexists. split; [done|].
  set (g' := snd (new_widget (Container p) (gtk ww))).
  assert (kinds g' !! next_widget (gtk ww) = Some (Container p)) as K by (unfold g'; by rewrite new_widget_at, decide_True).
  split; cbn [set_pane_widgets set_gtk gtk pane_widgets new_widget]; try done.
  - by apply (new_widget_linked (Container p)).
  - change (arena g' !! next_widget (gtk ww) = Some (Leaf p)). by rewrite arena_at, K.
  - apply NoDup_singleton.
  - simpl. lia.
  - intros i ->%list_elem_of_singleton. simpl. lia.
  - intros i Hi. change (kinds g' !! i = kinds (gtk ww) !! i). unfold g'. rewrite new_widget_at, decide_False by lia. done.
  - intros q ->%list_elem_of_singleton. exists (next_widget (gtk ww)). rewrite lookup_insert_eq. split_and!; [done|by left|exact K].
  - intros q Hq. simpl in Hq. rewrite list_elem_of_singleton in Hq. by rewrite lookup_insert_ne.
Qed.

Lemma grown_split o r a b ww wwa wwb ta tb :
  grown a ww wwa ta -> grown b wwa wwb tb -> NoDup (lay_panes a ++ lay_panes b) ->
  let k := next_widget (gtk wwb) in
  let g := snd (new_widget (Paned o None None) (gtk wwb)) in
  grown (Div o r a b) ww (set_gtk (set_child false k (Some (rid tb)) (set_child true k (Some (rid ta)) g)) wwb) (LSplit k o f64_half ta tb).
Proof.
  intros Ga Gb Hnd k g. pose proof (gr_next _ _ _ _ Ga) as Na. pose proof (gr_next _ _ _ _ Gb) as Nb.
  pose proof (gr_new _ _ _ _ Ga) as Ia. pose proof (gr_new _ _ _ _ Gb) as Ib.
  destruct (linked_fresh _ (gr_linked _ _ _ _ Gb)) as [F1 F2]. fold k in F1, F2.
  pose proof (rid_in_ids ta) as Ra. pose proof (rid_in_ids tb) as Rb.
  assert (forall i, i <> k -> kinds g !! i = kinds (gtk wwb) !! i) as Kg by (intros i Hi; unfold g; by rewrite new_widget_at, decide_False).
  assert (forall i, i ∈ ids ta -> kinds (gtk wwb) !! i = kinds (gtk wwa) !! i) as Ka by (intros i Hi; apply (gr_kinds _ _ _ _ Gb); by apply Ia).
  assert (forall i, i ∈ ids ta -> i ∉ ids tb) as Hd by (intros i H1%Ia H2%Ib; lia).
  assert (forall i, i ∈ ids ta -> i <> k) as Dak by (intros i H1%Ia; unfold k; lia).
  assert (forall i, i ∈ ids tb -> i <> k) as Dbk by (intros i H1%Ib; unfold k; lia).
  destruct (fill_paned k (rid ta) (rid tb) o g) as (L & K & P & N & R).
  - apply new_widget_linked; [apply Gb|done].
  - unfold g. by rewrite new_widget_at, decide_True.
  - cbn [g new_widget snd parents]. rewrite (gr_parents _ _ _ _ Gb); [apply Ga|by apply Hd].
  - cbn [g new_widget snd parents]. apply Gb.
  - intros E. apply (Hd (rid tb)); [by rewrite <- E|done].
  - rewrite Kg, Ka by auto. destruct (reprs_lookup _ _ _ (gr_reprs _ _ _ _ Ga) Ra). by eapply arena_known.
  - rewrite Kg by auto. destruct (reprs_lookup _ _ _ (gr_reprs _ _ _ _ Gb) Rb). by eapply arena_known.
  - revert L K P N R. match goal with |- linked ?x -> _ => set (g' := x) end. intros L K P N R.
    assert (forall i, i <> k -> kinds g' !! i = kinds (gtk wwb) !! i) as Ki by (intros i Hi; rewrite K, lookup_insert_ne by done; by apply Kg).
    assert (next_widget g' = (k + 1)%Z) as N' by (rewrite N; done).
    split; cbn [set_gtk gtk pane_widgets]; try done.
    + simpl. by rewrite (gr_layout _ _ _ _ Ga), (gr_layout _ _ _ _ Gb).
    + rewrite R. cbn [g new_widget snd refused]. by rewrite (gr_refused _ _ _ _ Gb), (gr_refused _ _ _ _ Ga).
    + simpl. split_and!; [by rewrite arena_at, K, lookup_insert_eq|..].
      * apply (reprs_frame (arena (gtk wwa))); [apply Ga|]. intros i Hi. apply arena_ext. rewrite Ki by auto. auto.
      * apply (reprs_frame (arena (gtk wwb))); [apply Gb|]. intros i Hi. apply arena_ext, Ki. auto.
    + simpl. rewrite NoDup_cons, not_elem_of_app, NoDup_app. split_and!; [naive_solver|naive_solver|apply Ga|done|apply Gb].
    + rewrite N'. unfold k. lia.
    + rewrite N'. intros i [->|[Hi%Ia|Hi%Ib]%elem_of_app]%elem_of_cons; unfold k; lia.
    + intros i Hi. rewrite Ki by (unfold k; lia). rewrite (gr_kinds _ _ _ _ Gb) by lia. by apply (gr_kinds _ _ _ _ Ga).
    + intros i [Hik [Hia Hib]%not_elem_of_app]%not_elem_of_cons. rewrite P, !lookup_insert_ne by (by intros <-).
      cbn [g new_widget snd parents]. by rewrite (gr_parents _ _ _ _ Gb), (gr_parents _ _ _ _ Ga).
    + cbn [rid]. rewrite P, !lookup_insert_ne by auto. exact F2.
    + apply NoDup_app in Hnd as (_ & Hdp & _). intros p [Hp|Hp]%elem_of_app.
      * destruct (gr_in _ _ _ _ Ga p Hp) as (c & Hc & Hi & Hk). exists c. rewrite (gr_out _ _ _ _ Gb) by auto.
        rewrite Ki, Ka by auto. split_and!; [done| |done]. right. apply elem_of_app. by left.
      * destruct (gr_in _ _ _ _ Gb p Hp) as (c & Hc & Hi & Hk). exists c. rewrite Ki by auto.
        split_and!; [done| |done]. right. apply elem_of_app. by right.
    + intros p [Ha Hb]%not_elem_of_app. by rewrite (gr_out _ _ _ _ Gb), (gr_out _ _ _ _ Ga).
Qed.

Lemma restore_spec l : forall ww, linked (gtk ww) -> NoDup (lay_panes l) ->
  exists ww' t, restore_widget l ww = (rid t, ww') /\ grown l ww ww' t.
Proof.
  induction l as [p|o r a IHa b IHb]; intros ww Hl Hnd.
  { destruct (grown_leaf p ww Hl) as (ww' & E & G). by exists ww', (LLeaf (next_widget (gtk ww)) p). }
  simpl in Hnd. pose proof Hnd as (Hna & _ & Hnb)%NoDup_app.
  destruct (IHa ww Hl Hna) as (wwa & ta & Ea & Ga). destruct (IHb wwa (gr_linked _ _ _ _ Ga) Hnb) as (wwb & tb & Eb & Gb).
  eexists _, (LSplit (next_widget (gtk wwb)) o f64_half ta tb). split; [|by apply (grown_split o r a b ww wwa wwb)].
  simpl. by rewrite Ea, Eb.
Qed.
End restoring.
