(* ===== verification/PanedClaims.v ===== *)
(** * The widgets of a split layout: agreement with the split tree

    The operations of the window on panes change the split tree and the widgets; this file
    puts the two together and shows that they never disagree. *)

From S2P Require Import Prelude F64 SplitTree SplitTreeSpec SplitTreeRefine SplitTreeMerge SplitTreeProps Paneds PanedProps PanedRebuild.

Abbreviation State := (SplitTree * WsWidgets)%type.

Section agreement.
Context {GtkO : PanedOps} {GtkL : PanedLaws}.

(** ** The operations *)

(** [split_focused], [split_browser_in_workspace] and [split_tab_to_pane]. *)
Definition split_pane (before : bool) (from new : PaneId) (o : Orientation) (s : State) : State :=
  let '(t, ww) := s in
  let count := length (panes t) in
  let '(nid, t) := split_with (place_of before) from new o t in
  (t, split_widgets before count from new o nid ww).

(** [remove_pane_from_split]. *)
Definition remove_pane_from_split (p : PaneId) (s : State) : State :=
  let '(t, ww) := s in
  let ww := remove_pane_widgets p ww in (snd (remove p t), ww).

(** [rebuild_workspace_split_widgets]. *)
Definition rebuild_workspace_split_widgets (order : list Z) (s : State) : State :=
  let '(t, ww) := s in (t, rebuild_split_widgets order (clone_split_tree_structure t) ww).

(** [move_pane]. *)
Definition move_pane (order : list Z) (source target : PaneId) (before : bool) (o : Orientation) (s : State) : State :=
  let '(t, ww) := s in
  match move_pane_adjacent source target before o t with
  | (false, t) => (t, ww)
  | (true, t) => rebuild_workspace_split_widgets order (t, ww)
  end.

(** The end of [split_tab_to_pane_target]: the container of the new pane is in no paned
    before the rebuild. *)
Definition place_pane (order : list Z) (before : bool) (target new : PaneId) (o : Orientation) (s : State) : State :=
  let '(t, ww) := s in
  let '(c, g) := new_widget (Container new) (gtk ww) in
  let '(_, t) := split_with (place_of before) target new o t in
  rebuild_workspace_split_widgets order (t, set_pane_widgets (<[new := c]> (pane_widgets ww)) (set_gtk g ww)).

(** The containers in the order of the hash map. *)
Definition hash_order (order : list Z) (m : gmap Z Z) : Prop := order ≡ₚ (map_to_list m).*2.

(** A workspace that loses its last pane is removed, and its widgets with it. *)
Inductive widget_step : State -> State -> Prop :=
  | step_split before from new o t ww : from ∈ panes t -> new ∉ panes t -> room 2 t ->
      widget_step (t, ww) (split_pane before from new o (t, ww))
  | step_remove p t ww : p ∈ panes t -> panes t <> [p] ->
      widget_step (t, ww) (remove_pane_from_split p (t, ww))
  | step_move order source target before o t ww : source ∈ panes t -> target ∈ panes t -> room 2 t ->
      hash_order order (pane_widgets ww) ->
      widget_step (t, ww) (move_pane order source target before o (t, ww))
  | step_place order before target new o t ww : target ∈ panes t -> new ∉ panes t -> room 2 t ->
      hash_order order (<[new := next_widget (gtk ww)]> (pane_widgets ww)) ->
      widget_step (t, ww) (place_pane order before target new o (t, ww))
  | step_rebuild order t ww : hash_order order (pane_widgets ww) ->
      widget_step (t, ww) (rebuild_workspace_split_widgets order (t, ww))
  | step_ratio n r t ww : widget_step (t, ww) (set_ratio n r t, ww)
  | step_equalize t ww : widget_step (t, ww) (equalize t, ww)
  | step_focus p t ww : p ∈ panes t -> widget_step (t, ww) (set_focused p t, ww).

(** ** The layout without the ratios *)

Lemma halve_idem l : lay_halve (lay_halve l) = lay_halve l.
Proof. induction l as [p|o r a IHa b IHb]; simpl; congruence. Qed.
Lemma halve_subst p s l : lay_halve (lay_subst p s l) = lay_subst p (lay_halve s) (lay_halve l).
Proof. induction l as [q|o r a IHa b IHb]; simpl; [by case_decide|congruence]. Qed.
Lemma halve_wrap before o p q : lay_halve (lay_wrap before o (Pane p) q) = lay_wrap before o (Pane p) q.
Proof. by destruct before. Qed.
Lemma halve_remove p l : lay_halve <$> lay_remove p l = lay_remove p (lay_halve l).
Proof.
  induction l as [q|o r a IHa b IHb]; simpl; [by case_decide|].
  rewrite <- IHa, <- IHb. by destruct (lay_remove p a), (lay_remove p b).
Qed.
Lemma halve_chain n l : lay_halve (lay_chain n l) = lay_halve l.
Proof.
  revert n. induction l as [q|o r a IHa b IHb]; intros [|[|n]]; try done.
  change (Div o f64_half (lay_halve a) (lay_halve (lay_chain (S n) b)) = Div o f64_half (lay_halve a) (lay_halve b)).
  by rewrite IHb.
Qed.

(** ** What the widgets show *)

(** The tree with the ratio of each paned. *)
Fixpoint ratioed (ratio : Z -> f64) (t : ltree) : layout :=
  match t with LLeaf _ p => Pane p | LSplit n o _ a b => Div o (ratio n) (ratioed ratio a) (ratioed ratio b) end.

Lemma shown_at_tree ratio g t : forall f, reprs (arena g) t -> height t <= f ->
  shown_at ratio f (rid t) g = Some (ratioed ratio t).
Proof.
  induction t as [n p|n o r a IHa b IHb]; intros [|f] Hr Hf; simpl in Hf; try lia; simpl.
  - simpl in Hr. rewrite arena_at in Hr. by destruct (kinds g !! n) as [[|? [] []|]|]; simplify_eq/=.
  - destruct Hr as (Hn & Ha & Hb). rewrite arena_at in Hn.
    destruct (kinds g !! n) as [[|? [] []|]|]; simplify_eq/=.
    rewrite IHa, IHb by (done || lia). done.
Qed.

Lemma reprs_size g t : reprs (arena g) t -> NoDup (ids t) -> height t <= size (kinds g).
Proof.
  intros Hr Hnd. pose proof (height_ids t) as H. rewrite <- size_dom.
  rewrite <- (size_list_to_set (C := gset Z) (ids t)) in H by done. etrans; [exact H|].
  apply subseteq_size. intros n Hn%elem_of_list_to_set. apply elem_of_dom.
  destruct (reprs_lookup _ _ _ Hr Hn). by eapply arena_known.
Qed.

Lemma shown_at_only ratio f w g o a : kinds g !! w = Some (Paned o (Some a) None) ->
  shown_at ratio (S f) w g = shown_at ratio f a g.
Proof. intros H. simpl. by rewrite H. Qed.

Lemma shown_with_tree ratio ww t : shows ww t -> shown_with ratio ww = Some (ratioed ratio t).
Proof.
  intros Hs. pose proof (reprs_size _ _ (sw_reprs _ _ Hs) (sw_ids _ _ Hs)) as Hh. unfold shown_with.
  destruct (sw_root _ _ Hs) as [[<- _]|[o Hk]]; [apply shown_at_tree; [apply Hs|lia]|].
  rewrite (shown_at_only _ _ _ _ _ _ Hk). apply shown_at_tree; [apply Hs|lia].
Qed.

Lemma ratioed_half g t : reprs (arena g) t -> ratioed (fun _ => f64_half) t = erase t /\ lay_halve (erase t) = erase t.
Proof.
  induction t as [n p|n o r a IHa b IHb]; [done|]. intros (Hn & Ha & Hb). simpl.
  rewrite arena_at in Hn. destruct (kinds g !! n) as [[|? [] []|]|]; simplify_eq/=.
  destruct (IHa Ha) as [-> ->], (IHb Hb) as [-> ->]. done.
Qed.

(** ** Agreement *)

(** The widgets show the layout of a well-formed split tree. *)
Definition agree (s : State) : Prop :=
  wf s.1 /\ exists wt, shows s.2 wt /\ lay_halve <$> layout_of s.1 = Some (erase wt).

Lemma agree_panes t ww wt : wf t -> shows ww wt -> lay_halve <$> layout_of t = Some (erase wt) -> panes t = lpanes wt.
Proof.
  intros Hwf Hs Hl. destruct (layout_of t) as [l|] eqn:E; [|done]. injection Hl as El.
  by rewrite (layout_panes t l Hwf E), <- lay_halve_panes, El, erase_panes.
Qed.

Lemma linked_empty : linked (mkGtk ∅ ∅ 0 false).
Proof.
  assert (forall b w, child_at b w (mkGtk ∅ ∅ 0 false) = None) as H by done.
  split; try done. intros i [k Hk]. simpl in Hk. by rewrite lookup_empty in Hk.
Qed.

Lemma agree_initial p : agree (new_with_pane p, new_widgets p).
Proof.
  split; [apply wf_new_with_pane|]. exists (LLeaf 0 p). split; [|done]. cbn [snd].
  set (g1 := mkGtk (<[0%Z := Container p]> ∅) ∅ (0 + 1) false).
  assert (linked g1) as H1.
  { apply (new_widget_linked (Container p) (mkGtk ∅ ∅ 0 false)); [|done]. by apply linked_empty. }
  assert (linked (snd (new_widget (Paned Horizontal None None) g1))) as H2 by (by apply new_widget_linked).
  set (g2 := snd (new_widget (Paned Horizontal None None) g1)) in *.
  change (new_widgets p) with (mkWidgets (set_child true 1 (Some 0%Z) g2) 1 {[p := 0%Z]} ∅).
  rewrite (set_child_in true 1 0 g2 Horizontal None None) by done.
  assert (forall i, i <> 1%Z -> kinds (put_in true 1 0 Horizontal None None g2) !! i = kinds g1 !! i) as K.
  { intros i Hi. cbn [put_in kinds g2 new_widget snd]. by rewrite !lookup_insert_ne. }
  split; cbn [set_gtk gtk root_paned pane_widgets]; try done.
  - by apply put_in_linked.
  - apply NoDup_singleton.
  - apply NoDup_singleton.
  - right. by exists Horizontal.
  - intros q. cbn [lpanes]. rewrite list_elem_of_singleton, lookup_singleton_is_Some. by split.
  - intros q c [<- <-]%lookup_singleton_Some. split; [by left|by rewrite K].
Qed.

(** The root paned around the widgets that were restored. *)
Lemma grown_shows l ww t m : grown l (mkWidgets (mkGtk ∅ ∅ 0 false) 0 ∅ m) ww t -> NoDup (lay_panes l) ->
  let g := snd (new_widget (Paned Horizontal None None) (gtk ww)) in
  shows (mkWidgets (set_child true (next_widget (gtk ww)) (Some (rid t)) g) (next_widget (gtk ww)) (pane_widgets ww) (split_paneds ww)) t.
Proof.
  intros G Hnd g. set (r := next_widget (gtk ww)). destruct (linked_fresh _ (gr_linked _ _ _ _ G)) as [F1 F2]. fold r in F1, F2.
  assert (linked g) as Hg by (apply new_widget_linked; [apply G|done]).
  assert (kinds g !! r = Some (Paned Horizontal None None)) as Kr by (unfold g; by rewrite new_widget_at, decide_True).
  assert (r ∉ ids t) as Hrt by (intros Hi%(gr_new _ _ _ _ G); unfold r in Hi; lia).
  assert (rid t <> r) as Hne by (intros E; by pose proof (rid_in_ids t) as Hi; rewrite E in Hi).
  rewrite (set_child_in true r (rid t) g Horizontal None None) by (done || exact (gr_top _ _ _ _ G)).
  assert (forall i, i <> r -> kinds (put_in true r (rid t) Horizontal None None g) !! i = kinds (gtk ww) !! i) as K.
  { intros i Hi. cbn [put_in kinds]. rewrite lookup_insert_ne by done. unfold g. by rewrite new_widget_at, decide_False. }
  assert (lpanes t = lay_panes l) as Hp by (by rewrite <- erase_panes, (gr_layout _ _ _ _ G), lay_halve_panes).
  split; cbn [gtk root_paned pane_widgets]; rewrite ?Hp; try done.
  - apply put_in_linked; try done; [exact (gr_top _ _ _ _ G)|].
    destruct (reprs_lookup _ _ _ (gr_reprs _ _ _ _ G) (rid_in_ids t)) as [x Hx]. apply arena_known in Hx.
    unfold g. by rewrite new_widget_at, decide_False.
  - apply (reprs_frame (arena (gtk ww))); [apply G|]. intros i Hi. apply arena_ext, K. by intros ->.
  - apply G.
  - right. exists Horizontal. cbn [gtk root_paned put_in kinds put_child]. by rewrite lookup_insert_eq.
  - cbn [put_in parents]. by rewrite lookup_insert_ne.
  - intros p. destruct (decide (p ∈ lay_panes l)) as [Hin|Hin].
    + destruct (gr_in _ _ _ _ G p Hin) as (c & -> & _). by split; [|by eexists].
    + rewrite (gr_out _ _ _ _ G p Hin). simpl. rewrite lookup_empty. split; [by intros []|done].
  - intros p c Hc. destruct (decide (p ∈ lay_panes l)) as [Hin|Hin].
    + destruct (gr_in _ _ _ _ G p Hin) as (c' & Hc' & Hi & Hk). rewrite Hc in Hc'. injection Hc' as <-.
      split; [done|]. rewrite K; [done|]. by intros ->.
    + rewrite (gr_out _ _ _ _ G p Hin) in Hc. simpl in Hc. by rewrite lookup_empty in Hc.
  - exact (gr_refused _ _ _ _ G).
Qed.

Lemma agree_restored t l m : wf t -> layout_of t = Some l -> agree (t, restored_widgets m l).
Proof.
  intros Hwf Hl. split; [done|]. cbn [fst snd]. assert (NoDup (lay_panes l)) as Hnd.
  { rewrite <- (layout_panes t l Hwf Hl). by apply wf_nodup. }
  destruct (restore_spec l (mkWidgets (mkGtk ∅ ∅ 0 false) 0 ∅ m)) as (ww & wt & E & G); [by apply linked_empty|done|].
  exists wt. split; [|by rewrite Hl; simpl; rewrite (gr_layout _ _ _ _ G)].
  unfold restored_widgets. rewrite E. by apply (grown_shows l ww wt m).
Qed.

Lemma long_tree n o r a b : length (lpanes (LSplit n o r a b)) <> 1.
Proof.
  simpl. rewrite length_app. pose proof (lpanes_nonempty a). pose proof (lpanes_nonempty b).
  destruct (lpanes a), (lpanes b); simpl; try done. lia.
Qed.

Lemma agree_split before from new o t ww : agree (t, ww) -> from ∈ panes t -> new ∉ panes t -> room 2 t ->
  agree (split_pane before from new o (t, ww)).
Proof.
  intros [Hwf (wt & Hs & Hl)] Hf Hn Hr. simpl in Hwf, Hs, Hl. pose proof (agree_panes _ _ _ Hwf Hs Hl) as Hp.
  destruct (split_with_spec before t from new o) as (t' & E & Hwf' & Hl' & _); try done.
  unfold split_pane. rewrite E. split; [done|]. cbn [snd fst]. rewrite Hl'. rewrite Hp in *.
  assert (lay_halve <$> (lay_subst from (lay_wrap before o (Pane from) new) <$> layout_of t) =
    Some (lay_subst from (lay_wrap before o (Pane from) new) (erase wt))) as ->.
  { destruct (layout_of t) as [l|]; [|done]. injection Hl as <-. simpl. by rewrite halve_subst, halve_wrap. }
  destruct wt as [n q|n od r a b].
  - simpl in Hf. apply list_elem_of_singleton in Hf as <-.
    assert (new <> from) as Hne by (intros ->; apply Hn; simpl; by left).
    destruct (shows_split_single before from new o (Some (next_id t + 1)%Z) ww n Hs Hne) as (wt' & Hs' & He).
    exists wt'. split; [done|]. rewrite He. simpl. by rewrite decide_True.
  - destruct (shows_split_nested before (length (lpanes (LSplit n od r a b))) from new o (Some (next_id t + 1)%Z) ww (LSplit n od r a b))
      as (wt' & Hs' & He); try done; [apply long_tree|].
    exists wt'. by rewrite He.
Qed.

Lemma agree_remove p t ww : agree (t, ww) -> p ∈ panes t -> panes t <> [p] -> agree (remove_pane_from_split p (t, ww)).
Proof.
  intros [Hwf (wt & Hs & Hl)] Hp Hne. simpl in Hwf, Hs, Hl. pose proof (agree_panes _ _ _ Hwf Hs Hl) as Hps.
  destruct (remove_spec t p Hwf) as (t' & E & Hwf' & Hl' & _). unfold remove_pane_from_split. rewrite E.
  split; [done|]. cbn [snd fst]. rewrite Hps in *.
  destruct (shows_remove p ww wt Hs Hp) as (wt' & Hs' & He); [by intros n ->|].
  exists wt'. split; [done|]. rewrite Hl'. destruct (layout_of t) as [l|]; [|done]. injection Hl as El. simpl.
  by rewrite halve_remove, El.
Qed.

Lemma rebuildable_elem ww ps qs : rebuildable ww ps -> (forall p, p ∈ ps <-> p ∈ qs) -> rebuildable ww qs.
Proof. intros [H1 H2 H3 H4 H5 H6] Heq. split; auto. intros p. by rewrite H5. Qed.

(** The snapshot of a tree that has panes. *)
Lemma snapshot_tree t p : wf t -> p ∈ panes t ->
  exists lt, rep t lt /\ panes t = lpanes lt /\ layout_of t = Some (erase lt) /\ clone_split_tree_structure t = Some (snap_of lt).
Proof.
  intros Hwf Hp. destruct (wf_nonempty t p Hwf Hp) as (lt & f & Hrep & _ & _ & Hps & Hl). exists lt.
  split_and!; try done. unfold clone_split_tree_structure. rewrite (rep_root _ _ Hrep). cbn [mbind option_bind].
  by rewrite (snapshot_spec _ lt) by eauto with limux.
Qed.

Lemma agree_rebuild order t ww p : wf t -> p ∈ panes t -> rebuildable ww (panes t) -> hash_order order (pane_widgets ww) ->
  agree (rebuild_workspace_split_widgets order (t, ww)).
Proof.
  intros Hwf Hp Hrb Hord. destruct (snapshot_tree t p Hwf Hp) as (lt & Hrep & Hps & Hl & E).
  split; [done|]. cbn [rebuild_workspace_split_widgets snd fst]. rewrite E. rewrite Hps in Hrb.
  destruct (rebuild_shows order lt ww) as (wt & Hs & Hm); try done; [by eapply rep_ids|apply Hrep|].
  exists wt. split; [done|]. by rewrite Hl, (matched_erase _ _ _ Hm).
Qed.

Lemma agree_move order source target before o t ww : agree (t, ww) -> source ∈ panes t -> target ∈ panes t -> room 2 t ->
  hash_order order (pane_widgets ww) -> agree (move_pane order source target before o (t, ww)).
Proof.
  intros Ha Hsrc Htgt Hr Hord. unfold move_pane. destruct (decide (source = target)) as [->|Hne].
  { unfold move_pane_adjacent. by rewrite decide_True. }
  destruct Ha as [Hwf (wt & Hs & Hl)]. simpl in Hwf, Hs, Hl. pose proof (agree_panes _ _ _ Hwf Hs Hl) as Hps.
  destruct (move_spec t source target before o) as (t' & l1 & -> & Hwf' & _ & _ & _ & _ & k1 & k2 & Ef & E'); try done.
  assert (forall p, p ∈ panes t <-> p ∈ panes t') as Heq.
  { intros p. assert (p ∈ filter (fun q => q <> source) (panes t) <-> p ∈ k1 ++ target :: k2) as Hf by (by rewrite Ef).
    rewrite list_elem_of_filter, elem_of_app, elem_of_cons in Hf. rewrite E', !elem_of_app.
    destruct (decide (p = source)) as [->|]; destruct before; rewrite !elem_of_cons, elem_of_nil; tauto. }
  apply (agree_rebuild order t' ww source); [done|by apply Heq| |done].
  eapply rebuildable_elem; [by apply shows_rebuildable|]. intros p. by rewrite <- Hps.
Qed.

(** A container that is in no paned yet. *)
Lemma rebuildable_new ww ps new : rebuildable ww ps -> new ∉ ps ->
  rebuildable (set_pane_widgets (<[new := next_widget (gtk ww)]> (pane_widgets ww)) (set_gtk (snd (new_widget (Container new) (gtk ww))) ww))
    (new :: ps).
Proof.
  intros [H1 H2 (o & st & en & H3) H4 H5 H6] Hn. destruct (linked_fresh _ H1) as [F1 F2].
  split; cbn [set_pane_widgets set_gtk gtk root_paned pane_widgets]; try done.
  - by apply new_widget_linked.
  - exists o, st, en. rewrite new_widget_at, decide_False; [done|]. intros E. by rewrite E, F1 in H3.
  - intros p. rewrite lookup_insert_is_Some', H5, elem_of_cons. naive_solver.
  - intros p c [[<- <-]|[Hp Hc]]%lookup_insert_Some; [by rewrite new_widget_at, decide_True|].
    apply H6 in Hc. rewrite new_widget_at, decide_False; [done|]. intros ->. by rewrite F1 in Hc.
Qed.

Lemma agree_place order before target new o t ww : agree (t, ww) -> target ∈ panes t -> new ∉ panes t -> room 2 t ->
  hash_order order (<[new := next_widget (gtk ww)]> (pane_widgets ww)) ->
  agree (place_pane order before target new o (t, ww)).
Proof.
  intros [Hwf (wt & Hs & Hl)] Htgt Hn Hr Hord. simpl in Hwf, Hs, Hl. pose proof (agree_panes _ _ _ Hwf Hs Hl) as Hps.
  destruct (split_with_spec before t target new o) as (t' & E & Hwf' & Hl' & _); try done.
  destruct (split_panes before t target new o t' Hwf Htgt Hwf' Hl') as (l1 & l2 & E1 & E2).
  unfold place_pane. cbn [new_widget]. rewrite E.
  assert (forall p, p ∈ new :: panes t <-> p ∈ panes t') as Heq.
  { intros p. rewrite elem_of_cons, E1, E2, !elem_of_app. destruct before; rewrite !elem_of_cons, elem_of_nil; tauto. }
  apply (agree_rebuild order t' _ new); [done|apply Heq; by left| |done].
  eapply rebuildable_elem; [|exact Heq]. apply (rebuildable_new ww); [|done]. rewrite Hps. by apply shows_rebuildable.
Qed.

Lemma panes_exist t ww : agree (t, ww) -> exists p, p ∈ panes t.
Proof.
  intros [Hwf (wt & Hs & Hl)]. simpl in *. rewrite (agree_panes _ _ _ Hwf Hs Hl). pose proof (lpanes_nonempty wt).
  destruct (lpanes wt) as [|p]; [done|]. exists p. by left.
Qed.

(** A change of the tree that leaves its layout as it is, up to the ratios. *)
Lemma agree_ratios t t' ww : agree (t, ww) -> wf t' -> lay_halve <$> layout_of t' = lay_halve <$> layout_of t -> agree (t', ww).
Proof. intros [_ (wt & Hs & Hl)] Hwf' E. split; [done|]. exists wt. cbn [fst snd] in *. by rewrite E. Qed.

Lemma erase_ratios g t : lay_halve (erase (lmap_ratio g t)) = lay_halve (erase t).
Proof. induction t as [n p|n o r a IHa b IHb]; simpl; congruence. Qed.

Lemma agree_step s s' : agree s -> widget_step s s' -> agree s'.
Proof.
  intros Ha Hstep. destruct Hstep as [bef f q o t ww|p t ww|ord sp tg bef o t ww|ord bef tg q o t ww|ord t ww|n r t ww|t ww|p t ww].
  - by apply agree_split.
  - by apply agree_remove.
  - by apply agree_move.
  - by apply agree_place.
  - destruct (panes_exist t ww Ha) as [p Hp]. destruct Ha as [Hwf (wt & Hs & Hl)]. simpl in *.
    apply (agree_rebuild ord t ww p); try done. rewrite (agree_panes _ _ _ Hwf Hs Hl). by apply shows_rebuildable.
  - destruct (panes_exist t ww Ha) as [p Hp]. destruct (wf_nonempty t p (proj1 Ha) Hp) as (lt & f & Hrep & _ & _ & _ & Hl).
    eapply agree_ratios; [done|by apply set_ratio_wf, Ha|].
    rewrite Hl, (rep_layout _ _ (set_ratio_rep n r _ _ Hrep)). simpl. by rewrite erase_ratios.
  - destruct (panes_exist t ww Ha) as [p Hp]. destruct (wf_nonempty t p (proj1 Ha) Hp) as (lt & f & Hrep & _ & _ & _ & Hl).
    destruct (ratio_ops_spec t _ (proj1 Ha) Hl) as [[Hwf' Hl'] _].
    eapply agree_ratios; [done|done|]. rewrite Hl, Hl'. simpl. by rewrite halve_idem.
  - eapply agree_ratios; [done|by apply wf_refocus; [apply Ha|]|done].
Qed.

(** ** The ratios after a rebuild *)

(** Each paned of the widgets [y] with the ratio of the division of [x] that it shows. *)
Fixpoint pairs (x y : ltree) : list (Z * f64) :=
  match x, y with
  | LSplit _ _ r a b, LSplit w _ _ u v => (w, r) :: pairs a u ++ pairs b v
  | _, _ => []
  end.

Lemma collect_pairs m x y : matched m (snap_of x) y -> collect_paned_ratios (snap_of x) m = pairs x y.
Proof.
  revert y. induction x as [n p|n o r a IHa b IHb]; intros [w q|w o' r' u v] H; simpl in *; try done.
  destruct H as (-> & _ & _ & Ha & Hb). by rewrite (IHa _ Ha), (IHb _ Hb).
Qed.
Lemma pairs_ids x y i : i ∈ (pairs x y).*1 -> i ∈ ids y.
Proof.
  revert y. induction x as [n p|n o r a IHa b IHb]; intros [w q|w o' r' u v]; simpl; try (by intros []%elem_of_nil).
  rewrite fmap_app, !elem_of_cons, !elem_of_app. naive_solver.
Qed.
Lemma pairs_nodup x y : NoDup (ids y) -> NoDup (pairs x y).*1.
Proof.
  revert y. induction x as [n p|n o r a IHa b IHb]; intros [w q|w o' r' u v] H; simpl in *; try constructor.
  - rewrite fmap_app, elem_of_app. apply NoDup_cons in H as [Hw _]. rewrite elem_of_app in Hw. naive_solver eauto using pairs_ids.
  - apply NoDup_cons in H as [_ (Hu & Hd & Hv)%NoDup_app]. rewrite fmap_app, NoDup_app. split_and!; auto.
    intros i Hi Hi'. eapply Hd; by eapply pairs_ids.
Qed.

Lemma ratioed_pairs f m x y : matched m (snap_of x) y -> (forall w r, (w, r) ∈ pairs x y -> f w = r) -> ratioed f y = erase x.
Proof.
  revert y. induction x as [n p|n o r a IHa b IHb]; intros [w q|w o' r' u v] H Hf; simpl in *; try done; [by subst|].
  destruct H as (_ & -> & _ & Ha & Hb).
  rewrite (Hf w r), (IHa u Ha), (IHb v Hb); [done|..]; [| |by left]; intros w' r'' Hin; apply Hf; right; apply elem_of_app; auto.
Qed.

Lemma positions_in l w r : NoDup l.*1 -> (w, r) ∈ l -> positions l w = r.
Proof.
  intros Hnd Hin. unfold positions. rewrite (elem_of_list_to_map_1 _ w r); [done| |].
  - by rewrite fmap_reverse, (reverse_Permutation _).
  - by apply elem_of_reverse.
Qed.

(** ** The claims *)

(** A workspace is made with one pane, or restored: its tree is that of a saved layout
    (Session.build_layout_widget). *)
Inductive initial : State -> Prop :=
  | made p : initial (new_with_pane p, new_widgets p)
  | restored t l tracked : wf t -> layout_of t = Some l -> initial (t, restored_widgets tracked l).

Definition opened (s : State) : Prop := exists s0, initial s0 /\ rtc widget_step s0 s.

Lemma opened_agree s : opened s -> agree s.
Proof.
  intros (s0 & H0 & H). assert (agree s0) as Ha by (destruct H0; [apply agree_initial|by apply agree_restored]).
  apply (rtc_preserves widget_step agree s0 s); [|done|done]. intros s1 s2 Hstep H1. by apply (agree_step s1).
Qed.

(** The steps on a state that is not taken apart. *)
Lemma opened_split before from new o s : opened s -> from ∈ panes s.1 -> new ∉ panes s.1 -> room 2 s.1 ->
  opened (split_pane before from new o s).
Proof. intros (s0 & H0 & H) ???. destruct s. exists s0. split; [done|]. eapply rtc_r; [done|]. by apply step_split. Qed.
Lemma opened_remove p s : opened s -> p ∈ panes s.1 -> panes s.1 <> [p] -> opened (remove_pane_from_split p s).
Proof. intros (s0 & H0 & H) ??. destruct s. exists s0. split; [done|]. eapply rtc_r; [done|]. by apply step_remove. Qed.
Lemma opened_ratio n r s : opened s -> opened (set_ratio n r s.1, s.2).
Proof. intros (s0 & H0 & H). destruct s. exists s0. split; [done|]. eapply rtc_r; [done|]. apply step_ratio. Qed.
Lemma opened_move source target before o s : opened s -> source ∈ panes s.1 -> target ∈ panes s.1 -> room 2 s.1 ->
  opened (move_pane (map_to_list (pane_widgets s.2)).*2 source target before o s).
Proof. intros (s0 & H0 & H) ???. destruct s. exists s0. split; [done|]. eapply rtc_r; [done|]. apply step_move; unfold hash_order; first [done|reflexivity]. Qed.

(** C4: The widgets of a workspace, new or restored, always show its split tree. Whatever
    panes are split, closed, moved, extracted and rebuilt, the paneds under the root paned
    form the layout of the split tree (their positions apart), every pane of the tree has its container and
    no other pane has one, and GTK never refuses a child because it has a parent already. *)
Theorem widgets_show_tree t ww : opened (t, ww) ->
  shown ww = lay_halve <$> layout_of t /\ refused (gtk ww) = false /\
  forall p, (p ∈ panes t <-> is_Some (pane_widgets ww !! p)) /\
    forall c, pane_widgets ww !! p = Some c -> kinds (gtk ww) !! c = Some (Container p).
Proof.
  intros [Hwf (wt & Hs & Hl)]%opened_agree. simpl in *. split_and!; [|by apply Hs|].
  - unfold shown. rewrite (shown_with_tree _ _ _ Hs), Hl. f_equal. eapply ratioed_half, Hs.
  - intros p. rewrite (agree_panes _ _ _ Hwf Hs Hl), (sw_dom _ _ Hs). split; [done|]. intros c Hc. by apply (sw_cont _ _ Hs p).
Qed.

(** C5: A rebuild puts back every ratio. Whatever the state of the widgets and in whatever
    order the containers are taken out of them, the snapshot of the split tree is complete,
    and with the positions that are collected from it after the rebuild the widgets show
    the layout of the split tree with the very ratios that it has. *)
Theorem rebuild_restores_ratios order t ww : opened (t, ww) -> hash_order order (pane_widgets ww) ->
  let ww' := (rebuild_workspace_split_widgets order (t, ww)).2 in
  exists s, clone_split_tree_structure t = Some s /\
    shown_with (positions (collect_paned_ratios s (split_paneds ww'))) ww' = layout_of t.
Proof.
  intros Ha%opened_agree Hord ww'. destruct (panes_exist t ww Ha) as [p Hp]. destruct Ha as [Hwf (wt & Hs & Hl)].
  destruct (snapshot_tree t p Hwf Hp) as (lt & Hrep & Hps & Hlt & E). exists (snap_of lt). split; [done|].
  pose proof (shows_rebuildable _ _ Hs) as Hrb. cbn [fst snd] in *. rewrite <- (agree_panes _ _ _ Hwf Hs Hl), Hps in Hrb.
  destruct (rebuild_shows order lt ww) as (wt' & Hs' & Hm); try done; [by eapply rep_ids|apply Hrep|].
  unfold ww' in *. cbn [rebuild_workspace_split_widgets snd]. rewrite E, Hlt, (shown_with_tree _ _ _ Hs'). f_equal.
  eapply ratioed_pairs; [exact Hm|]. intros w r Hin. rewrite (collect_pairs _ _ _ Hm).
  apply positions_in; [|done]. apply pairs_nodup, Hs'.
Qed.
End agreement.

(** ** A run, on widgets that behave as documented *)

Definition model_set_child (start : bool) (w : Z) (c : option Z) (g : Gtk) : Gtk :=
  match kinds g !! w with
  | Some (Paned o st en) =>
      let old := pick start st en in
      if decide (old = c) then g
      else if decide (is_Some (x ← c; parents g !! x)) then mkGtk (kinds g) (parents g) (next_widget g) true
      else
        let ps := match old with Some x => delete x (parents g) | None => parents g end in
        mkGtk (<[w := put_child start c o st en]> (kinds g))
          (match c with Some x => <[x := w]> ps | None => ps end) (next_widget g) (refused g)
  | _ => g
  end.

Definition model_set_orientation (w : Z) (o : Orientation) (g : Gtk) : Gtk :=
  match kinds g !! w with
  | Some (Paned _ st en) => mkGtk (<[w := Paned o st en]> (kinds g)) (parents g) (next_widget g) (refused g)
  | _ => g
  end.

#[local] Instance model_paneds : PanedOps := { set_child := model_set_child; set_orientation := model_set_orientation }.

#[local] Instance model_laws : PanedLaws.
Proof.
  split; unfold set_child, set_orientation; cbn [model_paneds]; unfold model_set_child, model_set_orientation.
  - intros b w x g o st en Hw Hx. rewrite Hw, Hx, decide_False by done. by rewrite decide_False by (by intros []).
  - intros b w g o st en Hw Hx. by rewrite Hw, Hx.
  - intros b w x g o st en Hw Hx Hp. rewrite Hw, Hx, decide_False by done.
    rewrite decide_False; [done|]. cbn [mbind option_bind]. rewrite Hp. by intros [].
  - intros b w x k g o st en Hw Hx Hp. rewrite Hw, decide_False by done.
    rewrite decide_True; [done|]. cbn [mbind option_bind]. rewrite Hp. by eexists.
  - intros w o0 o st en g Hw. by rewrite Hw.
Qed.


(** Pane 1 is split to the right, its new neighbour downwards, then above, pane 1 is closed,
    and the first divider is moved before pane 4 is put next to pane 2. *)
Definition run : State :=
  let s := (new_with_pane 1, new_widgets 1) in
  let s := split_pane false 1 2 Horizontal s in
  let s := split_pane false 2 3 Vertical s in
  let s := split_pane true 2 4 Horizontal s in
  let s := remove_pane_from_split 1 s in
  let s := (set_ratio 4 (f64_lit 1 4) s.1, s.2) in
  move_pane (map_to_list (pane_widgets s.2)).*2 3 2 true Vertical s.

(** Decide a closed condition. *)
Local Ltac evaluates := first [apply (bool_decide_unpack _); vm_compute; exact I|vm_compute; discriminate].

Lemma run_opened : opened (run.1, run.2).
Proof.
  rewrite <- surjective_pairing.
  apply opened_move; [|evaluates..]. apply opened_ratio. apply opened_remove; [|evaluates..].
  do 3 (apply opened_split; [|evaluates..]). exists (new_with_pane 1, new_widgets 1). split; [apply made|apply rtc_refl].
Qed.

Lemma widgets_show_tree_witness :
  shown run.2 = lay_halve <$> layout_of run.1 /\
  shown run.2 = Some (Div Horizontal f64_half (Pane 4) (Div Vertical f64_half (Pane 3) (Pane 2))).
Proof.
  split; [|vm_compute; reflexivity]. apply (widgets_show_tree run.1 run.2). exact run_opened.
Defined.

Lemma rebuild_restores_ratios_witness :
  exists s, clone_split_tree_structure run.1 = Some s /\
    let ww' := (rebuild_workspace_split_widgets (map_to_list (pane_widgets run.2)).*2 (run.1, run.2)).2 in
    shown_with (positions (collect_paned_ratios s (split_paneds ww'))) ww' = layout_of run.1.
Proof.
  apply (rebuild_restores_ratios (map_to_list (pane_widgets run.2)).*2 run.1 run.2); [exact run_opened|by unfold hash_order].
Defined.
