(* ===== verification/Actions.v ===== *)
(** * Actions, shortcuts and the content of a new window (app/src/window.rs)

    [init] names the actions of the window, binds the shortcuts of the settings to them,
    connects the list of the side bar and the pages to each other, and restores the saved
    session or makes a first workspace. *)

From S2P Require Import Prelude F64 SplitTree SplitTreeRefine SplitTreeMerge RustStr RemoteConfig Workspace Tabs Surfaces Notebook Window WindowTabs WindowOk WindowProps WindowLife WindowClaims Session SessionProps Settings SettingsProps.
Open Scope string_scope.
Open Scope list_scope.

(** ** Actions *)

(** What the callback of an action calls. *)
Inductive Act :=
  | ActNewWorkspace | ActCloseWorkspace
  | ActGotoRelative (forward : bool) | ActGoto (idx : Z)
  | ActSplit (o : Orientation) | ActNavigate (forward : bool) | ActDirection (d : Direction) | ActEqualize
  | ActNewTab | ActCloseTab | ActCycleTab (forward : bool)
  | ActToggleSidebar | ActOpenBrowser | ActAddressBar | ActFind | ActSettings.

Definition select_name (i : nat) : string := "select-workspace-" +:+ show_uint (Z.of_nat i).

(** The action group "win". *)
Definition win_actions : list (string * Act) := [
  ("new-workspace", ActNewWorkspace);
  ("close-workspace", ActCloseWorkspace);
  ("next-workspace", ActGotoRelative true);
  ("prev-workspace", ActGotoRelative false);
  ("split-right", ActSplit Horizontal);
  ("split-down", ActSplit Vertical);
  ("next-split", ActNavigate true);
  ("prev-split", ActNavigate false);
  ("split-left", ActDirection Left);
  ("split-right-nav", ActDirection Right);
  ("split-up", ActDirection Up);
  ("split-down-nav", ActDirection Down);
  ("equalize-splits", ActEqualize);
  ("new-pane-tab", ActNewTab);
  ("close-pane-tab", ActCloseTab);
  ("next-pane-tab", ActCycleTab true);
  ("prev-pane-tab", ActCycleTab false)] ++
  ((fun i => (select_name i, ActGoto (Z.of_nat i - 1))) <$> seq 1 9) ++ [
  ("toggle-sidebar", ActToggleSidebar);
  ("open-browser", ActOpenBrowser);
  ("focus-address-bar", ActAddressBar);
  ("browser-find", ActFind);
  ("open-settings", ActSettings)].

(** The action with the full name [name]. *)
Definition find_act (name : string) : option Act :=
  snd <$> List.find (fun p => String.eqb ("win." +:+ p.1) name) win_actions.

(** Calls on other parts. *)
Inductive Call := FocusAddressBar (id : BrowserPanelId) | ToggleFindBar (id : BrowserPanelId) | ShowSettings.

Section actions.
Context {NB : Type} `{!NotebookOps NB}.
Context (ord : gmap Z Pane -> list PaneId).
Implicit Types (aw : AppWindow NB).

(** The browser of the focused pane, for [focus_browser_address_bar] and
    [toggle_browser_find]. *)
Definition focused_browser aw : option BrowserPanelId :=
  w ← current_ws aw; pid ← ws_focused_pane w; p ← ws_panes w !! pid; active_browser p.

(** [bid] is the identifier that a new browser gets; a panic is [None]. *)
Definition run_act (bid : BrowserPanelId) (a : Act) aw : option (AppWindow NB * list Call) :=
  match a with
  | ActNewWorkspace => Some (new_workspace aw, [])
  | ActCloseWorkspace => aw ← close_current_workspace ord aw; Some (aw, [])
  | ActGotoRelative forward => Some (goto_workspace_relative forward aw, [])
  | ActGoto idx => Some (goto_workspace idx aw, [])
  | ActSplit o => Some (split_focused o aw, [])
  | ActNavigate forward => Some (navigate_split forward aw, [])
  | ActDirection d => Some (navigate_direction d aw, [])
  | ActEqualize => Some (equalize_splits aw, [])
  | ActNewTab => Some (new_pane_tab aw, [])
  | ActCloseTab => aw ← close_pane_tab ord aw; Some (aw, [])
  | ActCycleTab forward => Some (cycle_pane_tab forward aw, [])
  | ActToggleSidebar => Some (toggle_sidebar aw, [])
  | ActOpenBrowser => Some (split_focused_browser bid Horizontal "" aw, [])
  | ActAddressBar => Some (aw, match focused_browser aw with Some b => [FocusAddressBar b] | None => [] end)
  | ActFind => Some (aw, match focused_browser aw with Some b => [ToggleFindBar b] | None => [] end)
  | ActSettings => Some (aw, [ShowSettings])
  end.

(** A named action is activated; nothing happens when there is none of that name. *)
Definition activate (bid : BrowserPanelId) (name : string) aw : option (AppWindow NB * list Call) :=
  match find_act name with Some a => run_act bid a aw | None => Some (aw, []) end.

(** ** The list of the side bar and the pages *)

(** [connect_row_selected]: the page of the workspace of the row, if there is one. *)
Definition row_selected (row : option WorkspaceId) aw : AppWindow NB :=
  match row ≫= fun id => nb_page_num id (notebook aw) with
  | Some n => set_notebook (nb_set_current_page n (notebook aw)) aw
  | None => aw
  end.

(** Calls on the terminal library and GTK after a page was shown. *)
Inductive PageCall := SetFocus (handle : Z) (focused : bool) | Refresh (handle : Z) | FocusGtk (panel : PanelKind).

(** The idle callback of [connect_switch_page]. *)
Definition page_shown (page : nat) aw : AppWindow NB * list PageCall :=
  let aw := fst (clear_workspace_bell page aw) in
  match workspaces aw !! page with
  | None => (aw, [])
  | Some w =>
      let pane := pid ← ws_focused_pane w; ws_panes w !! pid in
      let focused := pane ≫= active_surface in
      (aw,
       (sid ← all_surface_ids (ord (ws_panes w)) w;
        match get_handle sid (registry aw) with
        | Some h => [SetFocus h (bool_decide (focused = Some sid)); Refresh h]
        | None => []
        end) ++
       match pane ≫= active_panel with Some p => [FocusGtk p] | None => [] end)
  end.

(** ** The first content *)

(** The window of [init] before it has a workspace; the counters and the registry are
    those of the program. *)
Definition initial_window (nb : NB) (wd cmd : option string) (pc wc : Z) (r : SurfaceRegistry) : AppWindow NB :=
  mkAppWindow nb [] wd cmd true 180 180 pc wc r [] [].

Section content.
Context (nord : gmap Z Node -> list NodeId).
Context (free_port : option Z) (urandom : nat -> option string) (now : Z).

(** The end of [init]; [bc] is the counter of browsers. *)
Definition first_content (saved : option SessionSnapshot) (bc : Z) aw : list RestoreIdle * (Z * AppWindow NB) :=
  match saved with
  | Some s =>
      if decide (sn_workspaces s = []) then ([], (bc, new_workspace aw))
      else restore_session nord (app_working_directory aw) (app_command aw) ord free_port urandom now s (bc, aw)
  | None => ([], (bc, new_workspace aw))
  end.
End content.
End actions.

(** ** Names *)

#[global] Instance Act_eq_dec : EqDecision Act.
Proof. solve_decision. Defined.

Lemma actions_found : Forall (fun p => find_act ("win." +:+ p.1) = Some p.2) win_actions.
Proof. apply (bool_decide_unpack _). vm_compute. exact I. Qed.

Lemma find_act_in name act : find_act name = Some act ->
  exists a, (a, act) ∈ win_actions /\ name = "win." +:+ a.
Proof.
  unfold find_act. intros ([a act'] & Hf & E0)%fmap_Some. simpl in E0. subst act'. apply List.find_some in Hf as [Hin E%String.eqb_eq].
  exists a. split; [by apply list_elem_of_In|done].
Qed.

Lemma defaults_found : Forall (fun d => is_Some (find_act ("win." +:+ action d))) SHORTCUT_DEFAULTS.
Proof. apply (bool_decide_unpack _). vm_compute. exact I. Qed.

Lemma actions_bound : Forall (fun p => is_Some (find_def p.1) \/ p.1 ∈ select_name <$> seq 1 9) win_actions.
Proof. apply (bool_decide_unpack _). vm_compute. exact I. Qed.

Lemma selects_found : Forall (fun i => is_Some (find_act ("win." +:+ select_name i))) (seq 1 9).
Proof. apply (bool_decide_unpack _). vm_compute. exact I. Qed.

Lemma default_found s a x : merged_shortcuts s !! a = Some x -> is_Some (find_act ("win." +:+ a)).
Proof.
  rewrite merged_lookup. intros (d & Hd & _)%fmap_Some. apply find_action in Hd as [<- Hin].
  pose proof defaults_found as H. rewrite Forall_forall in H. by apply H.
Qed.

Section shortcuts.
Context (sord : gmap string string -> list (string * string)).
Context (Hsord : forall m, Permutation (sord m) (map_to_list m)).

(** The accelerators registered: those of the table with what the settings make of them,
    the alternate keys, and the keys of the first nine workspaces. *)
Lemma shortcut_registered s x name : (x, name) ∈ build_shortcut_controller sord s <->
  (exists a d, find_def a = Some d /\ name = "win." +:+ a /\ (x = accel_of s d \/ alternate a = Some x)) \/
  (exists i, 1 <= i <= 9 /\ x = "<Ctrl>" +:+ show_uint (Z.of_nat i) /\ name = "win." +:+ select_name i).
Proof.
  unfold build_shortcut_controller. rewrite elem_of_app. split.
  - intros [H|H]; [left|right].
    + apply list_elem_of_bind in H as ([a y] & Hin & Ha). exists a.
      apply (ord_elem sord Hsord) in Ha. rewrite merged_lookup in Ha. apply fmap_Some in Ha as (d & Hd & ->).
      exists d. split; [done|]. apply elem_of_cons in Hin as [E|Hin]; [injection E as -> ->; by split; [|left]|].
      destruct (alternate a) eqn:Ea; [|by apply elem_of_nil in Hin].
      apply list_elem_of_singleton in Hin. injection Hin as -> ->. split; [done|by right].
    + apply list_elem_of_fmap in H as (i & E & Hi). injection E as -> ->. apply elem_of_seq in Hi.
      exists i. split_and!; [lia|lia|done|done].
  - intros [(a & d & Hd & -> & Hx)|(i & Hi & -> & ->)]; [left|right].
    + apply list_elem_of_bind. exists (a, accel_of s d). split.
      * destruct Hx as [->|Ha]; [by left|]. right. rewrite Ha. by left.
      * apply (ord_elem sord Hsord). by rewrite merged_lookup, Hd.
    + apply list_elem_of_fmap. exists i. split; [done|]. apply elem_of_seq. lia.
Qed.

Lemma shortcut_found s x name : (x, name) ∈ build_shortcut_controller sord s -> is_Some (find_act name).
Proof.
  intros [(a & d & Hd & -> & _)|(i & Hi & _ & ->)]%shortcut_registered.
  - apply (default_found s a (accel_of s d)). by rewrite merged_lookup, Hd.
  - pose proof selects_found as H. rewrite Forall_forall in H. apply H, elem_of_seq. lia.
Qed.

Lemma action_bound s a act : (a, act) ∈ win_actions ->
  exists x, (x, "win." +:+ a) ∈ build_shortcut_controller sord s.
Proof.
  intros Hin. pose proof actions_bound as H. rewrite Forall_forall in H. specialize (H _ Hin). cbn [fst] in H.
  destruct H as [[d Hd]|(i & -> & Hi%elem_of_seq)%list_elem_of_fmap].
  - exists (accel_of s d). apply shortcut_registered. left. exists a, d. by split_and!; [| |left].
  - eexists. apply shortcut_registered. right. exists i. split_and!; [lia|lia|done|done].
Qed.
End shortcuts.

(** ** Running an action *)

Section run.
Context {NB : Type} `{!NotebookOps NB} `{!NotebookLaws NB}.
Context (ord : gmap Z Pane -> list PaneId).
Implicit Types (aw : AppWindow NB).

Lemma close_tab_ok aw : win_ok aw -> exists aw', close_pane_tab ord aw = Some aw' /\ win_ok aw'.
Proof.
  intros Hok. unfold close_pane_tab. case_goal; [|by exists aw].
  destruct (request_close_ok ord [tab_panel t] aw Hok) as (aw' & E & Hok'). exists aw'. split; [|done].
  simpl in E. destruct (request_close ord (tab_panel t) aw); [by injection E as ->|done].
Qed.

Lemma close_current_ok aw : win_ok aw -> exists aw', close_current_workspace ord aw = Some aw' /\ win_ok aw'.
Proof.
  intros Hok. unfold close_current_workspace. case_goal; [|by exists aw]. case_goal; [by exists aw|].
  by apply request_close_ok.
Qed.

Lemma step_runs aw aw' (calls : list Call) : win_ok aw -> win_step ord aw aw' -> exists aw'' c, Some (aw', calls) = Some (aw'', c) /\ win_ok aw'' /\ c = calls.
Proof. intros Hok Hs. exists aw', calls. split_and!; [done| |done]. by eapply win_step_ok. Qed.

(** What an action asks of other parts. *)
Definition allowed aw (c : Call) : Prop :=
  match c with
  | FocusAddressBar b | ToggleFindBar b => focused_browser aw = Some b
  | ShowSettings => True
  end.

Lemma run_act_ok bid a aw : win_ok aw -> fresh_ids aw -> drag_room aw ->
  exists aw' calls, run_act ord bid a aw = Some (aw', calls) /\ win_ok aw' /\ Forall (allowed aw) calls.
Proof.
  intros Hok Hf Hd.
  assert (forall aw', win_step ord aw aw' -> exists aw'' calls, Some (aw', @nil Call) = Some (aw'', calls) /\ win_ok aw'' /\ Forall (allowed aw) calls) as Hstep.
  { intros aw' Hs. exists aw', []. split_and!; [done|by eapply win_step_ok|done]. }
  destruct a; simpl; try (apply Hstep; by constructor).
  - destruct (close_current_ok aw Hok) as (aw' & -> & Hok'). by exists aw', [].
  - destruct (close_tab_ok aw Hok) as (aw' & -> & Hok'). by exists aw', [].
  - exists aw. eexists. split_and!; [done|done|]. destruct (focused_browser aw) eqn:E; by repeat constructor.
  - exists aw. eexists. split_and!; [done|done|]. destruct (focused_browser aw) eqn:E; by repeat constructor.
  - exists aw, [ShowSettings]. split_and!; [done|done|]. by repeat constructor.
Qed.
End run.

(** C10: the shortcuts registered with the window are those of the settings, and each runs
    an action that exists.  Whatever the settings say, the accelerators registered are
    exactly: for each action of the table the text the settings give it, or its default;
    the alternate keys of five of them; and Ctrl with a digit for the first nine
    workspaces.  Each is registered with the name of an action of the window; activating
    that name in a consistent window with identifiers left runs that action, which does
    not panic, leaves the window consistent, and of the dialogs and browsers addresses
    only the settings dialog and the browser of the focused pane.  And every action of the window is the
    target of a registered accelerator.  An accelerator is registered as the text it is:
    one that GTK cannot parse binds no key, and two actions may be given the same. *)
Theorem every_shortcut_works {NB} `{NotebookLaws NB} ord sord s bid :
  (forall m : gmap string string, sord m ≡ₚ map_to_list m) ->
  (forall x name, (x, name) ∈ build_shortcut_controller sord s <->
    (exists a d, find_def a = Some d /\ name = "win." +:+ a /\ (x = accel_of s d \/ alternate a = Some x)) \/
    (exists i, 1 <= i <= 9 /\ x = "<Ctrl>" +:+ show_uint (Z.of_nat i) /\ name = "win." +:+ select_name i)) /\
  (forall x name, (x, name) ∈ build_shortcut_controller sord s ->
    exists a act, name = "win." +:+ a /\ (a, act) ∈ win_actions /\
      forall aw : AppWindow NB, win_ok aw -> fresh_ids aw -> drag_room aw ->
        exists aw' calls, activate ord bid name aw = Some (aw', calls) /\
          run_act ord bid act aw = Some (aw', calls) /\ win_ok aw' /\
          forall c, c ∈ calls -> c = ShowSettings \/
            exists b, focused_browser aw = Some b /\ (c = FocusAddressBar b \/ c = ToggleFindBar b)) /\
  (forall a act, (a, act) ∈ win_actions ->
    exists x, (x, "win." +:+ a) ∈ build_shortcut_controller sord s).
Proof.
  intros Hs. split; [by apply shortcut_registered|]. split; [|intros a act; by apply action_bound].
  intros x name [act Hact]%(shortcut_found sord Hs). destruct (find_act_in _ _ Hact) as (a & Hin & ->).
  exists a, act. split; [done|]. split; [done|]. intros aw Hok Hf Hd.
  destruct (run_act_ok ord bid act aw Hok Hf Hd) as (aw' & calls & E & Hok' & Hc). exists aw', calls.
  unfold activate. rewrite Hact. split_and!; [done..|]. intros c Hcin. rewrite Forall_forall in Hc.
  specialize (Hc c Hcin). destruct c; simpl in Hc; eauto.
Qed.

Definition demo_settings : Settings := set_shortcuts {["next-split" := "<Ctrl>j"]} settings_default.

Lemma every_shortcut_works_witness :
  ("<Ctrl>j", "win.next-split") ∈ build_shortcut_controller map_to_list demo_settings /\
  exists a act, "win.next-split" = "win." +:+ a /\ (a, act) ∈ win_actions /\
    exists aw' calls, activate key_order 7 "win.next-split" (new_workspace demo_start) = Some (aw', calls) /\ win_ok aw'.
Proof.
  destruct (every_shortcut_works (NB := list_notebook) key_order map_to_list demo_settings 7 (fun m => Permutation_refl _)) as (Hi & Hr & _).
  assert (("<Ctrl>j", "win.next-split") ∈ build_shortcut_controller map_to_list demo_settings) as Hin.
  { apply Hi. left. eexists "next-split", _. split; [vm_compute; reflexivity|]. split; [done|].
    left. vm_compute. reflexivity. }
  split; [exact Hin|].
  destruct (Hr _ _ Hin) as (a & act & Ha & Hact & Hw). exists a, act. split; [exact Ha|]. split; [exact Hact|].
  destruct (Hw (new_workspace demo_start)) as (aw' & calls & E & _ & Hok & _).
  - apply new_workspace_ok; [|by split]. split; simpl; [done|constructor|constructor|]. split; [done|constructor].
  - by split.
  - split; [|done]. by repeat constructor.
  - exists aw', calls. split; [exact E|exact Hok].
Defined.

(** ** The first content of the window *)

Lemma restored_ok {NB} `{NotebookLaws NB} nord ord wd cmd fp ur now s bc (aw : AppWindow NB) :
  (forall m, enumerates (nord m) m) -> win_ok aw -> session_room (sn_workspaces s) bc aw ->
  exists idles bc' aw', restore_session nord wd cmd ord fp ur now s (bc, aw) = (idles, (bc', aw')) /\ win_ok aw' /\
    length (workspaces aw') = length (workspaces aw) + length (sn_workspaces s).
Proof.
  intros Hn Hok Hroom.
  destruct (restore_workspaces_spec nord Hn ord wd cmd fp ur now (sn_workspaces s) bc aw Hok Hroom)
    as (idles & bc' & aw1 & ws & E & Hok1 & W & K & _).
  unfold restore_session. rewrite E. eexists idles, bc', _. split; [reflexivity|].
  assert (length (workspaces aw1) = length (workspaces aw) + length (sn_workspaces s)) as L.
  { apply (f_equal length) in K. rewrite !length_fmap in K. by rewrite W, length_app, K. }
  assert (forall aw', win_ok aw' /\ length (workspaces aw') = length (workspaces aw) + length (sn_workspaces s) ->
    win_ok (toggle_sidebar aw') /\ length (workspaces (toggle_sidebar aw')) = length (workspaces aw) + length (sn_workspaces s)) as T.
  { intros aw' [H1 H2]. unfold toggle_sidebar. case_goal; (split; [by eapply win_ok_same|done]). }
  set (aw2 := match selected_workspace s with Some idx => _ | None => aw1 end).
  assert (win_ok aw2 /\ length (workspaces aw2) = length (workspaces aw) + length (sn_workspaces s)) as [H2 L2].
  { unfold aw2. case_match; [|done]. unfold goto_workspace. case_decide; [|done]. split; [by apply win_ok_page|done]. }
  clearbody aw2.
  set (aw3 := match Session.sidebar_width s with Some width => _ | None => aw2 end).
  assert (win_ok aw3 /\ length (workspaces aw3) = length (workspaces aw) + length (sn_workspaces s)) as H3.
  { unfold aw3. case_match; [|done]. split; [by eapply win_ok_same|done]. }
  clearbody aw3. case_bool_decide; [by apply T|done].
Qed.

(** Whatever was saved, the window starts consistent and with a workspace: the saved ones,
    or one new workspace when none was saved. *)
Theorem start_content {NB} `{NotebookLaws NB} nord ord fp ur now saved bc (nb : NB) wd cmd pc wc r :
  (forall m, enumerates (nord m) m) -> nb_pages nb = [] ->
  let aw := initial_window nb wd cmd pc wc r in
  fresh_ids aw -> (0 <= pc)%Z -> session_room (default [] (sn_workspaces <$> saved)) bc aw ->
  exists idles bc' aw', first_content ord nord fp ur now saved bc aw = (idles, (bc', aw')) /\ win_ok aw' /\
    length (workspaces aw') = length (default [] (sn_workspaces <$> saved)) `max` 1.
Proof.
  intros Hn Hnb aw Hf Hpc Hroom.
  assert (win_ok aw) as Hok.
  { split; simpl; [done|constructor|constructor|]. split; [done|constructor]. }
  assert (win_ok (new_workspace aw) /\ length (workspaces (new_workspace aw)) = 1) as [Hnew Ln].
  { split; [by apply new_workspace_ok|]. unfold new_workspace, install_workspace. simpl. by repeat case_goal. }
  unfold first_content. destruct saved as [s|]; [|by eexists _, _, _].
  simpl in *. case_decide as E.
  { eexists _, _, _. split; [done|]. rewrite E. done. }
  destruct (restored_ok nord ord (app_working_directory aw) (app_command aw) fp ur now s bc aw Hn Hok Hroom)
    as (idles & bc' & aw' & Er & Hok' & L). exists idles, bc', aw'. split_and!; [done|done|].
  rewrite L. change (workspaces aw) with (@nil Workspace). destruct (sn_workspaces s); [done|]. simpl. lia.
Qed.

(** The check for conflicts looks at the accelerators of the table only: the keys of the
    workspaces and the alternate keys can be given to another action, and are then bound
    twice. *)
Theorem conflict_misses_fixed_keys :
  check_shortcut_conflict map_to_list settings_default "new-pane-tab" "<Ctrl>1" = None /\
  check_shortcut_conflict map_to_list settings_default "new-pane-tab" "<Ctrl><Shift>d" = None /\
  let s := set_shortcuts {["new-pane-tab" := "<Ctrl>1"]} settings_default in
  ("<Ctrl>1", "win.new-pane-tab") ∈ build_shortcut_controller map_to_list s /\
  ("<Ctrl>1", "win.select-workspace-1") ∈ build_shortcut_controller map_to_list s.
Proof.
  split; [vm_compute; reflexivity|]. split; [vm_compute; reflexivity|]. intros s.
  split; apply (bool_decide_unpack _); vm_compute; exact I.
Qed.
