(* ===== verification/PortPoll.v ===== *)
(** * Listening ports: what a scan finds, and the timer (app/src/window.rs; for PortDetect.v)

    The walk over the processes ends and finds the descendants, and ports are attributed as
    the specification says.  Every five seconds a timer of the main loop starts a thread
    that scans /proc, and the main loop updates the workspaces with what was found. *)

From Stdlib Require Import Ascii.
From stdpp Require Import sorting.
From S2P Require Import Prelude RustStr RemoteConfig Workspace SshDetect PortDetect.
Open Scope string_scope.
Open Scope list_scope.

(** ** Descendants *)

Section descend.
Context (ord : gmap Z Z -> list (Z * Z)) (ord_perm : forall m, ord m ≡ₚ map_to_list m).
Context (m : gmap Z Z) (root : Z).

Definition child (p c : Z) : Prop := m !! c = Some p.

(** No descendant of the root is its parent. *)
Definition no_cycle : Prop := forall p, rtc child root p -> ~ child p root.

Lemma elem_children p c : c ∈ children_of ord m p <-> child p c.
Proof.
  unfold children_of, child. rewrite list_elem_of_fmap. split.
  - intros ([k v] & -> & H%list_elem_of_In). apply List.filter_In in H as [H E]. simpl in E.
    apply list_elem_of_In in H. rewrite ord_perm, elem_of_map_to_list in H. simpl. by apply Z.eqb_eq in E as <-.
  - intros H. exists (c, p). split; [done|]. apply list_elem_of_In, List.filter_In. simpl.
    rewrite Z.eqb_refl, <- list_elem_of_In, ord_perm, elem_of_map_to_list. done.
Qed.

Lemma NoDup_children p : NoDup (children_of ord m p).
Proof.
  assert (NoDup (ord m).*1) as H by (rewrite ord_perm; apply NoDup_fst_map_to_list).
  unfold children_of. induction (ord m) as [|[k v] l IH]; [constructor|]. simpl in *.
  apply NoDup_cons in H as [Hn H]. destruct (Z.eqb v p); [|by apply IH]. simpl. constructor; [|by apply IH].
  intros ([k' v'] & -> & Hin%list_elem_of_In)%list_elem_of_fmap. apply List.filter_In in Hin as [Hin _].
  apply Hn, list_elem_of_fmap. exists (k', v'). split; [done|]. by apply list_elem_of_In.
Qed.

Record walk (result queue : list Z) : Prop := mkWalk {
  walk_root : root ∈ result;
  walk_nodup : NoDup result;
  walk_queue : NoDup queue;
  walk_sub : forall x, x ∈ queue -> x ∈ result;
  walk_parent : forall x, x ∈ result -> x <> root -> exists p, child p x /\ p ∈ result /\ p ∉ queue;
  walk_closed : forall p c, p ∈ result -> p ∉ queue -> child p c -> c ∈ result;
  walk_sound : forall x, x ∈ result -> rtc child root x;
}.

Lemma walk_start : walk [root] [root].
Proof.
  split; try set_solver; apply NoDup_singleton.
Qed.

Lemma walk_step p queue result :
  no_cycle -> walk result (p :: queue) ->
  walk (result ++ children_of ord m p) (rev (children_of ord m p) ++ queue).
Proof.
  intros Hc [Hroot Hnd Hq Hsub Hpar Hcl Hs]. apply NoDup_cons in Hq as [Hpq Hq].
  assert (p ∈ result) as Hp by (apply Hsub; set_solver).
  assert (forall c, child p c -> c ∉ result) as Hnew.
  { intros c Hch Hin. destruct (decide (c = root)) as [->|Hne]; [by apply (Hc p); [apply Hs|]|].
    destruct (Hpar _ Hin Hne) as (p' & Hp' & _ & Hn). unfold child in *. simplify_eq. set_solver. }
  assert (forall x, x ∈ rev (children_of ord m p) <-> child p x) as Hrev.
  { intros x. rewrite <- elem_children, !list_elem_of_In. symmetry. apply in_rev. }
  assert (NoDup (rev (children_of ord m p))) as Hndr.
  { rewrite <- Permutation_rev. apply NoDup_children. }
  split.
  - set_solver.
  - apply NoDup_app. split_and!; [done| |apply NoDup_children].
    intros x Hx Hin%elem_children. by eapply Hnew.
  - apply NoDup_app. split_and!; [done| |done].
    intros x Hx%Hrev Hin. eapply Hnew; [done|]. apply Hsub. set_solver.
  - intros x [Hx%Hrev|Hx]%elem_of_app; apply elem_of_app.
    + right. by apply elem_children.
    + left. apply Hsub. set_solver.
  - intros x [Hx|Hx%elem_children]%elem_of_app Hne.
    + destruct (Hpar _ Hx Hne) as (q & ? & ? & Hnq). exists q. split_and!; [done|set_solver|].
      rewrite elem_of_app, Hrev. intros [Hqc|?]; [by eapply Hnew|set_solver].
    + exists p. split_and!; [done|set_solver|]. rewrite elem_of_app, Hrev.
      intros [Hpp|?]; [by eapply Hnew|done].
  - intros q c [Hq'|Hq'%elem_children]%elem_of_app Hnq Hch; rewrite elem_of_app, Hrev in Hnq.
    + destruct (decide (q = p)) as [->|]; [apply elem_of_app; right; by apply elem_children|].
      apply elem_of_app. left. eapply Hcl; [done|set_solver|done].
    + set_solver.
  - intros x [Hx|Hx%elem_children]%elem_of_app; [by apply Hs|].
    eapply rtc_r; [by apply Hs|done].
Qed.

Lemma walk_length result queue : walk result queue -> length result <= S (size m).
Proof.
  intros []. transitivity (length (root :: (map_to_list m).*1)).
  - apply submseteq_length, NoDup_submseteq; [done|]. intros x Hx.
    destruct (decide (x = root)) as [->|Hne]; [set_solver|]. right.
    destruct (walk_parent0 _ Hx Hne) as (p & Hp & _). apply list_elem_of_fmap. exists (x, p).
    split; [done|]. by apply elem_of_map_to_list.
  - simpl. by rewrite length_fmap, length_map_to_list.
Qed.

Lemma descend_spec fuel : forall result queue,
  no_cycle -> walk result queue -> S (size m) + length queue <= fuel + length result ->
  exists l, descend ord fuel m result queue = Some l /\ walk l [].
Proof.
  induction fuel as [|fuel IH]; intros result queue Hc Hw Hf; destruct queue as [|p queue]; simpl.
  - eauto.
  - pose proof (walk_length _ _ Hw). simpl in Hf. lia.
  - eauto.
  - apply IH; [done|by apply walk_step|]. rewrite !length_app, length_rev. simpl in Hf. lia.
Qed.
End descend.

(** The walk over the processes ends and finds the right ones.  Whatever the
    order of the hash map, as long as the application is not among its own
    descendants, as many rounds as there are processes are enough, and the result
    is every descendant of the application, itself included, exactly once. *)
Theorem descendants_found ord fs names root fuel :
  (forall m, ord m ≡ₚ map_to_list m) -> fs_names fs = Some names -> no_cycle (parents fs names) root ->
  S (size (parents fs names)) <= fuel ->
  exists l, collect_descendant_pids ord fuel fs root = Some l /\ NoDup l /\
    forall pid, pid ∈ l <-> rtc (child (parents fs names)) root pid.
Proof.
  intros Ho Hn Hc Hf. unfold collect_descendant_pids. rewrite Hn.
  destruct (descend_spec ord Ho (parents fs names) root fuel [root] [root] Hc (walk_start ord Ho _ _))
    as (l & -> & Hw); [simpl; lia|].
  exists l. split_and!; [done|apply Hw|]. intros pid. split; [apply Hw|].
  apply (rtc_ind_r (fun pid => pid ∈ l) root); [apply Hw|].
  intros p c _ Hch IH. by eapply (walk_closed _ _ _ _ Hw); [exact IH|apply not_elem_of_nil|].
Qed.

(** A process tree with a name that is no number and a process outside of it. *)
Definition demo_fs : ProcFs :=
  mkProcFs None None (Some ["7"; "self"; "9"; "8"; "1"])
    (fun pid => if Z.eqb pid 7 then Some "7 (limux) S 1 7" else
                if Z.eqb pid 8 then Some "8 (a) b) S 7 8" else
                if Z.eqb pid 9 then Some "9 (node) S 8 9" else
                if Z.eqb pid 1 then Some "1 (init) S 0 1" else None)
    (fun _ => None) (fun _ => None).

Lemma demo_parents : parents demo_fs ["7"; "self"; "9"; "8"; "1"] = {[1 := 0; 7 := 1; 8 := 7; 9 := 8]}%Z.
Proof. vm_compute. reflexivity. Qed.

Lemma descendants_found_witness :
  exists l, collect_descendant_pids (@map_to_list Z Z _ _) 5 demo_fs 7 = Some l /\ l = [7; 8; 9]%Z /\ NoDup l.
Proof.
  destruct (descendants_found (@map_to_list Z Z _ _) demo_fs ["7"; "self"; "9"; "8"; "1"] 7 5)
    as (l & E & Hn & _).
  - reflexivity.
  - reflexivity.
  - rewrite demo_parents. intros p Hp Hc. unfold child in Hc. vm_compute in Hc. injection Hc as <-.
    apply rtc_inv_r in Hp as [Hp|(q & Hp & Hq)]; [discriminate|]. unfold child in Hq. vm_compute in Hq.
    injection Hq as <-.
    apply rtc_inv_r in Hp as [Hp|(q & _ & Hq)]; [discriminate|]. vm_compute in Hq. discriminate.
  - rewrite demo_parents. vm_compute. lia.
  - exists l. split; [exact E|]. split; [|exact Hn]. revert E. vm_compute. by intros [= <-].
Defined.

(** ** Attribution *)

(** The owner of a working directory: the last of the longest directories above it. *)
Definition owner (workspaces : list (Z * option string)) (cwd : string) : option Z :=
  fst <$> best_match cwd (with_dir workspaces).

Lemma max_by_len_spec l : forall best w,
  max_by_len best l = Some w ->
  (Some w = best \/ w ∈ l) /\
  (forall b, best = Some b -> String.length b.2 <= String.length w.2) /\
  (forall x, x ∈ l -> String.length x.2 <= String.length w.2).
Proof.
  induction l as [|x l IH]; intros best w H; simpl in H.
  - subst. split_and!; [by left|by intros b [= <-]|set_solver].
  - destruct best as [b|]; apply IH in H as (Hin & Hb & Hl).
    + case_bool_decide as Hlt; specialize (Hb _ eq_refl); (split_and!; [set_solver| |]).
      * by intros b' [= <-].
      * intros y [->|Hy]%elem_of_cons; [lia|by apply Hl].
      * intros b' [= <-]. lia.
      * intros y [->|Hy]%elem_of_cons; [lia|by apply Hl].
    + specialize (Hb _ eq_refl). split_and!; [set_solver|done|].
      intros y [->|Hy]%elem_of_cons; [lia|by apply Hl].
Qed.

Lemma max_by_len_None l : forall best, max_by_len best l = None -> best = None /\ l = [].
Proof.
  induction l as [|x l IH]; intros best H; simpl in H; [done|].
  destruct best as [b|]; apply IH in H as [H _]; [by case_bool_decide|done].
Qed.

Lemma elem_filter {A} (f : A -> bool) l x : x ∈ List.filter f l <-> x ∈ l /\ f x = true.
Proof. by rewrite !list_elem_of_In, List.filter_In. Qed.

Lemma elem_with_dir workspaces id d : (id, d) ∈ with_dir workspaces <-> (id, Some d) ∈ workspaces.
Proof.
  unfold with_dir. rewrite list_elem_of_omap. split.
  - intros ([i [d'|]] & Hin & H); simplify_eq/=; done.
  - intros H. by exists (id, Some d).
Qed.

Lemma owner_spec workspaces cwd :
  match owner workspaces cwd with
  | Some id => exists d, (id, Some d) ∈ workspaces /\ is_under cwd d = true /\
      forall id' d', (id', Some d') ∈ workspaces -> is_under cwd d' = true -> String.length d' <= String.length d
  | None => forall id' d', (id', Some d') ∈ workspaces -> is_under cwd d' = false
  end.
Proof.
  unfold owner, best_match. destruct (max_by_len None _) as [[id d]|] eqn:E; simpl.
  - apply max_by_len_spec in E as ([?|[Hin Hu]%elem_filter] & _ & Hmax); [done|]. exists d.
    split_and!; [by apply elem_with_dir|done|]. intros id' d' Hin' Hu'.
    apply (Hmax (id', d')), elem_filter. split; [by apply elem_with_dir|done].
  - apply max_by_len_None in E as [_ E]. intros id' d' Hin'. apply not_true_iff_false. intros Hu'.
    assert ((id', d') ∈ []) as H; [|by apply elem_of_nil in H].
    rewrite <- E. apply elem_filter. split; [by apply elem_with_dir|done].
Qed.

(** Ports of processes that satisfy [P]. *)
Definition port_of (P : string -> Prop) (pps : list (string * list Z)) (p : Z) : Prop :=
  exists cwd ps, (cwd, ps) ∈ pps /\ p ∈ ps /\ P cwd.

Lemma port_of_cons P cwd ps pps p :
  port_of P ((cwd, ps) :: pps) p <-> (p ∈ ps /\ P cwd) \/ port_of P pps p.
Proof.
  unfold port_of. split.
  - intros (c & l & [[= -> ->]|H]%elem_of_cons & ? & ?); [by left|right; eauto].
  - intros [[? ?]|(c & l & ? & ? & ?)]; [exists cwd, ps|exists c, l]; set_solver.
Qed.

Lemma claim_spec workspaces pps : forall r cl r' cl',
  claim (with_dir workspaces) pps r cl = (r', cl') ->
  (forall id p, p ∈ default ∅ (r' !! id) <->
     p ∈ default ∅ (r !! id) \/ port_of (fun cwd => owner workspaces cwd = Some id) pps p) /\
  (forall p, p ∈ cl' <-> p ∈ cl \/ port_of (fun cwd => is_Some (owner workspaces cwd)) pps p).
Proof.
  induction pps as [|[cwd ps] pps IH]; intros r cl r' cl' H; simpl in H.
  - simplify_eq. unfold port_of. set_solver.
  - assert (owner workspaces cwd = fst <$> best_match cwd (with_dir workspaces)) as Ho by done.
    destruct (best_match cwd (with_dir workspaces)) as [[id d]|]; simpl in Ho;
      apply IH in H as [Hr Hc]; split.
    + intros id' p. rewrite Hr, port_of_cons, Ho. destruct (decide (id' = id)) as [->|Hne].
      * rewrite lookup_insert_eq. simpl. rewrite elem_of_union, elem_of_list_to_set. naive_solver.
      * rewrite lookup_insert_ne by done. naive_solver.
    + intros p. rewrite Hc, port_of_cons, Ho, elem_of_union, elem_of_list_to_set. naive_solver.
    + intros id' p. rewrite Hr, port_of_cons, Ho. naive_solver.
    + intros p. rewrite Hc, port_of_cons, Ho. unfold is_Some. naive_solver.
Qed.

(** ** Sorted sets *)

Definition strictly_sorted (l : list Z) : Prop := StronglySorted Z.le l /\ NoDup l.

Lemma sorted_ports_spec (s : gset Z) l :
  l = sorted_ports s <-> strictly_sorted l /\ forall p, p ∈ l <-> p ∈ s.
Proof.
  unfold sorted_ports, strictly_sorted. split.
  - intros ->. rewrite merge_sort_Permutation at 2. split_and!; [apply StronglySorted_merge_sort; apply _|apply NoDup_elements|].
    intros p. rewrite merge_sort_Permutation. apply elem_of_elements.
  - intros [[Hs Hn] He]. apply (Sorted_unique Z.le).
    + by apply StronglySorted_Sorted.
    + apply Sorted_merge_sort, _.
    + rewrite merge_sort_Permutation. apply NoDup_Permutation; [done|apply NoDup_elements|].
      intros p. by rewrite He, elem_of_elements.
Qed.

(** The ports that a workspace with the directory [dir], or without one, shows. *)
Definition shown workspaces (pps : list (string * list Z)) (id : Z) (dir : option string) (p : Z) : Prop :=
  match dir with
  | Some _ => port_of (fun cwd => owner workspaces cwd = Some id) pps p
  | None => port_of (fun _ => True) pps p /\ ~ port_of (fun cwd => is_Some (owner workspaces cwd)) pps p
  end.

Lemma sorted_nonempty s : sorted_ports s <> [] <-> s <> ∅.
Proof.
  destruct (sorted_ports_spec s (sorted_ports s)) as [[_ H] _]; [done|]. split; intros Hne E; apply Hne.
  - destruct (sorted_ports s) as [|p l]; [done|]. specialize (H p). set_solver.
  - rewrite E in H. apply set_eq. set_solver.
Qed.

Section attribute.
Context (ord_results : gmap Z (gset Z) -> list (Z * gset Z)).
Context (ord_perm : forall m, ord_results m ≡ₚ map_to_list m).

(** The results of the workspaces with a directory. *)
Lemma owned_results workspaces pps R C id ports :
  claim (with_dir workspaces) pps ∅ ∅ = (R, C) ->
  (id, ports) ∈ omap (fun r => if bool_decide (r.2 = ∅) then None else Some (r.1, sorted_ports r.2))
                  (ord_results R) <->
  ports <> [] /\ exists d, (id, Some d) ∈ workspaces /\ strictly_sorted ports /\
    forall p, p ∈ ports <-> shown workspaces pps id (Some d) p.
Proof.
  intros H. apply claim_spec in H as [Hr _]. rewrite list_elem_of_omap. split.
  - intros ([i s] & Hin & E). rewrite ord_perm, elem_of_map_to_list in Hin. simpl in E.
    case_bool_decide as Hs; simplify_eq. apply sorted_nonempty in Hs as Hne.
    destruct (proj1 (sorted_ports_spec s _) eq_refl) as [Hss Hel].
    assert (forall p, p ∈ sorted_ports s <-> port_of (fun cwd => owner workspaces cwd = Some id) pps p) as Hp.
    { intros p. rewrite Hel. specialize (Hr id p). rewrite Hin, lookup_empty in Hr. set_solver. }
    split; [done|]. destruct (sorted_ports s) as [|p l] eqn:El; [done|].
    destruct (proj1 (Hp p) ltac:(left)) as (cwd & ps & _ & _ & Ho).
    pose proof (owner_spec workspaces cwd) as Hos. rewrite Ho in Hos. destruct Hos as (d & Hd & _).
    by exists d.
  - intros (Hne & d & _ & Hss & Hp). simpl in Hp. destruct ports as [|p l]; [done|].
    assert (forall q, q ∈ default ∅ (R !! id) <-> q ∈ p :: l) as Hq.
    { intros q. rewrite Hr, lookup_empty, Hp. set_solver. }
    destruct (R !! id) as [s|] eqn:Es; [|specialize (Hq p); set_solver].
    exists (id, s). rewrite ord_perm, elem_of_map_to_list. split; [done|]. simpl in *.
    assert (p :: l = sorted_ports s) as E by (apply sorted_ports_spec; split; [done|set_solver]).
    rewrite bool_decide_false; [by rewrite E|]. apply sorted_nonempty. by rewrite <- E.
Qed.

(** The results of those without. *)
Lemma fallback_results workspaces (s : gset Z) id ports P :
  (forall p, p ∈ s <-> P p) ->
  (id, ports) ∈ (if bool_decide (s = ∅) then [] else
                   (fun id => (id, sorted_ports s)) <$> without_dir workspaces) <->
  ports <> [] /\ (id, None) ∈ workspaces /\ strictly_sorted ports /\ forall p, p ∈ ports <-> P p.
Proof.
  intros HP.
  assert (forall i, i ∈ without_dir workspaces <-> (i, None) ∈ workspaces) as Hw.
  { intros i. unfold without_dir. rewrite list_elem_of_omap. split.
    - intros ([j [d|]] & Hin & H); simplify_eq/=; done.
    - intros H. by exists (i, None). }
  pose proof (sorted_ports_spec s ports) as Hs. pose proof (sorted_nonempty s) as Hn. split.
  - case_bool_decide as E; [by intros ?%elem_of_nil|].
    intros (i & [= -> ->] & Hin)%list_elem_of_fmap. split_and!; [by apply Hn|by apply Hw|by apply Hs|].
    intros p. rewrite <- HP. by apply Hs.
  - intros (Hne & Hin & Hss & Hp). assert (ports = sorted_ports s) as E.
    { apply Hs. split; [done|]. intros p. by rewrite Hp, HP. }
    rewrite bool_decide_false by (apply Hn; by rewrite <- E). apply list_elem_of_fmap.
    exists id. rewrite E. split; [done|]. by apply Hw.
Qed.

Lemma attribute_eq workspaces pps R C :
  claim (with_dir workspaces) pps ∅ ∅ = (R, C) ->
  attribute ord_results workspaces pps =
  omap (fun r => if bool_decide (r.2 = ∅) then None else Some (r.1, sorted_ports r.2)) (ord_results R) ++
  (let s := list_to_set (pps ≫= snd) ∖ C in
   if bool_decide (s = ∅) then [] else (fun id => (id, sorted_ports s)) <$> without_dir workspaces).
Proof.
  intros H. unfold attribute. rewrite H. cbv zeta. case_bool_decide as Hf.
  { rewrite Hf. destruct (bool_decide _); by rewrite app_nil_r. }
  assert (forall s : gset Z, s ∖ ∅ = s) as Hd by set_solver.
  case_bool_decide as Hc; [by rewrite Hc, Hd|].
  rewrite (bool_decide_false (with_dir workspaces = [])); [done|]. intros E. apply Hc.
  apply claim_spec in H as [_ HC]. apply set_eq. intros p. rewrite HC.
  split; [|set_solver]. intros [?|(cwd & ps & _ & _ & Ho)]; [done|].
  unfold owner, best_match in Ho. rewrite E in Ho. by apply is_Some_None in Ho.
Qed.
End attribute.

(** Ports go to the workspaces that they belong to.  Whatever the order of the
    hash map, a workspace with a directory is listed with exactly the ports of the
    processes whose working directory is under its own and under no longer one
    (the last workspace when several have this directory); a workspace without a
    directory with exactly the ports that no other workspace claims; each list is
    sorted without repetition, and a workspace without ports is not listed. *)
Theorem ports_attributed ord_results workspaces pps :
  (forall m, ord_results m ≡ₚ map_to_list m) ->
  (forall id ports,
    (id, ports) ∈ attribute ord_results workspaces pps <->
    ports <> [] /\ exists dir, (id, dir) ∈ workspaces /\ strictly_sorted ports /\
      forall p, p ∈ ports <-> shown workspaces pps id dir p) /\
  forall cwd, match owner workspaces cwd with
    | Some id => exists d, (id, Some d) ∈ workspaces /\ is_under cwd d = true /\
        forall id' d', (id', Some d') ∈ workspaces -> is_under cwd d' = true -> String.length d' <= String.length d
    | None => forall id' d', (id', Some d') ∈ workspaces -> is_under cwd d' = false
    end.
Proof.
  intros Ho. split; [|apply owner_spec]. intros id ports.
  destruct (claim (with_dir workspaces) pps ∅ ∅) as [R C] eqn:E.
  rewrite (attribute_eq _ Ho _ _ _ _ E), elem_of_app, (owned_results _ Ho _ _ _ _ _ _ E). cbv zeta.
  apply claim_spec in E as [_ HC].
  rewrite (fallback_results _ _ _ _ (shown workspaces pps id None)).
  - split.
    + intros [(? & d & ?)|(? & ? & ? & ?)]; eauto.
    + intros (? & [d|] & ? & ? & ?); [left|right]; eauto.
  - intros p. rewrite elem_of_difference, HC, elem_of_list_to_set. unfold shown, port_of.
    rewrite list_elem_of_bind. split.
    + intros [([cwd ps] & ? & ?) Hn]. split; [by exists cwd, ps|]. intros ?. apply Hn. by right.
    + intros [(cwd & ps & ? & ? & _) Hn]. split; [by exists (cwd, ps)|]. intros [?|?]; [set_solver|done].
Qed.

Lemma ports_attributed_witness :
  (1%Z, [8080%Z]) ∈ attribute (@map_to_list Z (gset Z) _ _)
    [(1%Z, Some "/home/me/site"); (2%Z, None); (3%Z, Some "/home/me")]
    [("/home/me/site/www", [8080%Z; 8080%Z]); ("/home/me", [3000%Z]); ("/", [22%Z])].
Proof.
  destruct (ports_attributed (@map_to_list Z (gset Z) _ _)
    [(1%Z, Some "/home/me/site"); (2%Z, None); (3%Z, Some "/home/me")]
    [("/home/me/site/www", [8080%Z; 8080%Z]); ("/home/me", [3000%Z]); ("/", [22%Z])]
    (fun m => Permutation_refl _)) as [H _].
  apply H. split; [discriminate|]. exists (Some "/home/me/site"). split; [left|]. split.
  - split; [repeat constructor|apply NoDup_singleton].
  - intros p. unfold shown. rewrite !port_of_cons. vm_compute (owner _ _).
    split; [intros ->%list_elem_of_singleton; left; split; [left|reflexivity]|].
    intros [[Hp _]|[[_ ?]|[[_ ?]|(? & ? & ?%elem_of_nil & _)]]]; [set_solver|discriminate..|done].
Defined.

(** A workspace at the root directory has no processes under it. *)
Theorem root_is_above_nothing : is_under "/home/me" "/" = false.
Proof. reflexivity. Qed.

(** * The timer *)

Abbreviation Dirs := (list (WorkspaceId * option string)).
Abbreviation Found := (list (WorkspaceId * list Z)).

(** [pl_rows] are the ports that the rows of the side bar show and [pl_next] the next
    identifier of a workspace. *)
Record Polling := mkPolling {
  pl_workspaces : list Workspace;
  pl_next : Z;
  pl_rows : gmap WorkspaceId (list Z);
  SCAN_IN_PROGRESS : bool;
  pl_threads : list Dirs;
  pl_idle : list Found;
}.

(** The directories of the workspaces that are not remote. *)
Definition local_dirs (l : list Workspace) : Dirs :=
  omap (fun w => match remote_config w with None => Some (ws_id w, ws_working_directory w) | Some _ => None end) l.

(** The callback of [start_port_polling]. *)
Definition poll_tick (p : Polling) : Polling :=
  if SCAN_IN_PROGRESS p then p
  else
    let snapshot := local_dirs (pl_workspaces p) in
    if bool_decide (snapshot = []) then p
    else mkPolling (pl_workspaces p) (pl_next p) (pl_rows p) true (pl_threads p ++ [snapshot]) (pl_idle p).

(** One workspace of the loop of [update_workspace_ports]. *)
Definition update_ports (result_map : gmap WorkspaceId (list Z)) (w : Workspace) (rows : gmap WorkspaceId (list Z))
    : Workspace * gmap WorkspaceId (list Z) :=
  let new_ports := default [] (result_map !! ws_id w) in
  if decide (listening_ports w = new_ports) then (w, rows)
  else (ws_set_ports new_ports w, <[ws_id w := new_ports]> rows).
Fixpoint update_all (result_map : gmap WorkspaceId (list Z)) (l : list Workspace) (rows : gmap WorkspaceId (list Z))
    : list Workspace * gmap WorkspaceId (list Z) :=
  match l with
  | [] => ([], rows)
  | w :: l =>
      let '(w, rows) := update_ports result_map w rows in
      let '(l, rows) := update_all result_map l rows in (w :: l, rows)
  end.

(** [collect] into a hash map: the last entry of an identifier counts. *)
Definition collected (results : Found) : gmap WorkspaceId (list Z) := list_to_map (reverse results).

Definition update_workspace_ports (results : Found) (p : Polling) : Polling :=
  let '(l, rows) := update_all (collected results) (pl_workspaces p) (pl_rows p) in
  mkPolling l (pl_next p) rows false (pl_threads p) (pl_idle p).

Section poll.
Context (ord : gmap Z Z -> list (Z * Z)) (ord_results : gmap Z (gset Z) -> list (Z * gset Z)) (own_pid : Z).
Context (ord_perm : forall m, ord_results m ≡ₚ map_to_list m).

(** Other changes of the window: workspaces go, come with a new identifier and without
    ports, and no workspace becomes remote after it was made. *)
Definition kept_from (l : list Workspace) (w' : Workspace) : Prop :=
  exists w, w ∈ l /\ ws_id w' = ws_id w /\ listening_ports w' = listening_ports w /\
    (remote_config w = None -> remote_config w' = None).
Definition window_changes (p : Polling) (l : list Workspace) (next : Z) (rows : gmap WorkspaceId (list Z)) : Prop :=
  (pl_next p <= next)%Z /\ NoDup (ws_id <$> l) /\
  forall w, w ∈ l -> (ws_id w < next)%Z /\
    ((kept_from (pl_workspaces p) w /\ rows !! ws_id w = pl_rows p !! ws_id w) \/
     ((pl_next p <= ws_id w)%Z /\ listening_ports w = [] /\ rows !! ws_id w = Some [])).

Inductive poll_step (p : Polling) : Polling -> Prop :=
  | poll_timer : poll_step p (poll_tick p)
  | poll_scan k1 dirs k2 fuel fs found :
      pl_threads p = k1 ++ dirs :: k2 -> scan ord ord_results fuel fs own_pid dirs = Some found ->
      poll_step p (mkPolling (pl_workspaces p) (pl_next p) (pl_rows p) (SCAN_IN_PROGRESS p) (k1 ++ k2) (pl_idle p ++ [found]))
  | poll_idle found rest : pl_idle p = found :: rest ->
      poll_step p (update_workspace_ports found
        (mkPolling (pl_workspaces p) (pl_next p) (pl_rows p) (SCAN_IN_PROGRESS p) (pl_threads p) rest))
  | poll_window l next rows : window_changes p l next rows ->
      poll_step p (mkPolling l next rows (SCAN_IN_PROGRESS p) (pl_threads p) (pl_idle p)).

Definition poll_start : Polling := mkPolling [] 0 ∅ false [] [].

(** ** What a scan finds *)

Lemma scan_ids fuel fs dirs found id ports :
  scan ord ord_results fuel fs own_pid dirs = Some found -> (id, ports) ∈ found -> exists d, (id, d) ∈ dirs.
Proof.
  unfold scan. case_bool_decide; [intros [= <-] []%elem_of_nil|].
  destruct (collect_descendant_pids _ _ _ _) as [pids|]; [|done]. cbn [mbind option_bind].
  case_bool_decide; [intros [= <-] []%elem_of_nil|]. intros [= <-].
  set (pps := listening_processes _ _ _). destruct (claim (with_dir dirs) pps ∅ ∅) as [R C] eqn:E.
  rewrite (attribute_eq ord_results ord_perm _ _ _ _ E). intros [H1|H1]%elem_of_app.
  - apply (owned_results ord_results ord_perm _ _ _ _ _ _ E) in H1 as (_ & d & Hd & _). by exists (Some d).
  - cbv zeta in H1. case_bool_decide; [by apply elem_of_nil in H1|].
    apply list_elem_of_fmap in H1 as (i & [= -> _] & Hi). apply list_elem_of_omap in Hi as ([j d] & Hj & Hd).
    simpl in Hd. destruct d; [done|]. injection Hd as ->. by exists None.
Qed.

Lemma collected_elem found id ports : collected found !! id = Some ports -> (id, ports) ∈ found.
Proof. intros H%elem_of_list_to_map_2. by rewrite elem_of_reverse in H. Qed.

Lemma local_elem l id d : (id, d) ∈ local_dirs l -> exists w, w ∈ l /\ ws_id w = id /\ remote_config w = None.
Proof.
  intros (w & Hw & E)%list_elem_of_omap. exists w. destruct (remote_config w) eqn:Hr; [done|].
  injection E as <- _. done.
Qed.

(** ** The update of all workspaces *)

Definition with_ports (m : gmap WorkspaceId (list Z)) (w : Workspace) : Workspace :=
  ws_set_ports (default [] (m !! ws_id w)) w.

Lemma set_ports_same w : ws_set_ports (listening_ports w) w = w.
Proof. by destruct w. Qed.
Lemma set_ports_fields x w : ws_id (ws_set_ports x w) = ws_id w /\ listening_ports (ws_set_ports x w) = x /\
  remote_config (ws_set_ports x w) = remote_config w.
Proof. by destruct w. Qed.

Lemma update_all_spec m l : forall rows l' rows', NoDup (ws_id <$> l) ->
  (forall w, w ∈ l -> rows !! ws_id w = Some (listening_ports w)) ->
  update_all m l rows = (l', rows') ->
  l' = with_ports m <$> l /\
  (forall w, w ∈ l -> rows' !! ws_id w = Some (default [] (m !! ws_id w))) /\
  forall id, id ∉ ws_id <$> l -> rows' !! id = rows !! id.
Proof.
  induction l as [|w l IH]; intros rows l' rows' Hnd Hr E; simpl in E.
  { injection E as <- <-. split_and!; [done|intros w Hw; by apply elem_of_nil in Hw|done]. }
  rewrite fmap_cons in Hnd. apply NoDup_cons in Hnd as [Hw Hnd].
  destruct (update_ports m w rows) as [w1 rows1] eqn:E1. destruct (update_all m l rows1) as [l2 rows2] eqn:E2.
  injection E as <- <-.
  assert (w1 = with_ports m w /\ rows1 !! ws_id w = Some (default [] (m !! ws_id w)) /\
    forall id, id <> ws_id w -> rows1 !! id = rows !! id) as (Ew & Ei & Eo).
  { unfold update_ports in E1. unfold with_ports. case_decide as Hd; injection E1 as <- <-.
    - rewrite <- Hd. split_and!; [by rewrite set_ports_same|apply Hr; by left|done].
    - split_and!; [done|by rewrite lookup_insert_eq|]. intros id Hid. by rewrite lookup_insert_ne. }
  destruct (IH rows1 l2 rows2 Hnd) as (El & Hin & Hout); [|done|].
  { intros v Hv. rewrite Eo; [apply Hr; by right|]. intros E. apply Hw. rewrite <- E. by apply list_elem_of_fmap_2. }
  rewrite El, Ew. split_and!; [done|..].
  - intros v [->|Hv]%elem_of_cons; [by rewrite Hout|by apply Hin].
  - intros id [Hid Hid']%not_elem_of_cons. by rewrite Hout, Eo.
Qed.

(** ** The invariant *)

(** The identifier is of a workspace that was local. *)
Definition local_id (p : Polling) (id : WorkspaceId) : Prop :=
  (id < pl_next p)%Z /\ forall w, w ∈ pl_workspaces p -> ws_id w = id -> remote_config w = None.

Record poll_ok (p : Polling) : Prop := mkPollOk {
  po_count : length (pl_threads p) + length (pl_idle p) = if SCAN_IN_PROGRESS p then 1 else 0;
  po_nodup : NoDup (ws_id <$> pl_workspaces p);
  po_next : forall w, w ∈ pl_workspaces p -> (ws_id w < pl_next p)%Z;
  po_rows : forall w, w ∈ pl_workspaces p -> pl_rows p !! ws_id w = Some (listening_ports w);
  po_remote : forall w, w ∈ pl_workspaces p -> is_Some (remote_config w) -> listening_ports w = [];
  po_threads : forall dirs id d, dirs ∈ pl_threads p -> (id, d) ∈ dirs -> local_id p id;
  po_idle : forall found id ports, found ∈ pl_idle p -> (id, ports) ∈ found -> local_id p id;
}.

Lemma same_id l w w' : NoDup (ws_id <$> l) -> w ∈ l -> w' ∈ l -> ws_id w = ws_id w' -> w = w'.
Proof.
  intros Hnd [i Hi]%list_elem_of_lookup [j Hj]%list_elem_of_lookup E.
  assert (i = j) as ->; [|congruence].
  eapply (NoDup_lookup _ i j (ws_id w) Hnd); rewrite list_lookup_fmap; [by rewrite Hi|by rewrite Hj, E].
Qed.

Lemma tick_ok p : poll_ok p -> poll_ok (poll_tick p).
Proof.
  intros Hp. unfold poll_tick. destruct (SCAN_IN_PROGRESS p) eqn:Hs; [done|]. case_bool_decide; [done|].
  pose proof (po_count _ Hp) as Hc. rewrite Hs in Hc.
  split; cbn [pl_workspaces pl_next pl_rows SCAN_IN_PROGRESS pl_threads pl_idle]; try apply Hp.
  - rewrite length_app. simpl. lia.
  - intros dirs id d [Hd| ->%list_elem_of_singleton]%elem_of_app; [by apply Hp|].
    intros (w & Hw & <- & Hr)%local_elem. split; [by apply (po_next _ Hp)|]. intros w' Hw' E.
    by rewrite (same_id _ w' w (po_nodup _ Hp)).
Qed.

Lemma idle_ok p found rest : poll_ok p -> pl_idle p = found :: rest ->
  let p' := update_workspace_ports found
    (mkPolling (pl_workspaces p) (pl_next p) (pl_rows p) (SCAN_IN_PROGRESS p) (pl_threads p) rest) in
  poll_ok p' /\ pl_workspaces p' = with_ports (collected found) <$> pl_workspaces p.
Proof.
  intros Hp Hi p'. pose proof (po_count _ Hp) as Hc. rewrite Hi in Hc. simpl in Hc.
  unfold p', update_workspace_ports. cbn [pl_workspaces pl_rows].
  destruct (update_all (collected found) (pl_workspaces p) (pl_rows p)) as [l rows] eqn:E.
  destruct (update_all_spec _ _ _ _ _ (po_nodup _ Hp) (po_rows _ Hp) E) as (-> & Hin & _).
  assert (forall w', w' ∈ with_ports (collected found) <$> pl_workspaces p -> exists w, w ∈ pl_workspaces p /\
    ws_id w' = ws_id w /\ listening_ports w' = default [] (collected found !! ws_id w) /\ remote_config w' = remote_config w) as Hw.
  { intros w' (w & -> & Hw)%list_elem_of_fmap. exists w. unfold with_ports.
    destruct (set_ports_fields (default [] (collected found !! ws_id w)) w) as (-> & -> & ->). done. }
  assert (forall id, local_id p id -> local_id (mkPolling (with_ports (collected found) <$> pl_workspaces p) (pl_next p) rows false (pl_threads p) rest) id) as Hl.
  { intros id [H1 H2]. split; [done|]. cbn [pl_workspaces]. intros w' (w & Hin' & -> & _ & ->)%Hw. by apply H2. }
  split; [|done].
  split; cbn [pl_workspaces pl_next pl_rows SCAN_IN_PROGRESS pl_threads pl_idle].
  - destruct (SCAN_IN_PROGRESS p); lia.
  - rewrite <- list_fmap_compose. erewrite list_fmap_ext; [apply (po_nodup _ Hp)|]. intros i w _. simpl.
    apply set_ports_fields.
  - intros w' (w & Hw' & -> & _)%Hw. by apply (po_next _ Hp).
  - intros w' (w & Hw' & -> & -> & _)%Hw. by apply Hin.
  - intros w' (w & Hw' & _ & -> & ->)%Hw [c Hr]. destruct (collected found !! ws_id w) as [ports|] eqn:Ec; [|done].
    apply collected_elem in Ec. destruct (po_idle _ Hp found (ws_id w) ports) as [_ Hloc]; [rewrite Hi; by left|done|].
    by rewrite (Hloc w Hw' eq_refl) in Hr.
  - intros dirs id d Hd Hid. eapply Hl, (po_threads _ Hp); eauto.
  - intros f id ports Hf Hid. eapply Hl, (po_idle _ Hp); [|done]. rewrite Hi. by right.
Qed.

Lemma window_ok p l next rows : poll_ok p -> window_changes p l next rows ->
  poll_ok (mkPolling l next rows (SCAN_IN_PROGRESS p) (pl_threads p) (pl_idle p)).
Proof.
  intros Hp (Hn & Hnd & Hw).
  assert (forall id, local_id p id -> local_id (mkPolling l next rows (SCAN_IN_PROGRESS p) (pl_threads p) (pl_idle p)) id) as Hl.
  { intros id [H1 H2]. split; cbn [pl_next pl_workspaces]; [lia|]. intros w Hin Hid.
    destruct (Hw w Hin) as [_ [[(v & Hv & Ei & _ & Hr) _]|[Hge _]]]; [|lia].
    apply Hr, H2; [done|congruence]. }
  split; cbn [pl_workspaces pl_next pl_rows SCAN_IN_PROGRESS pl_threads pl_idle]; try done; [apply Hp|..].
  - intros w Hin. by apply Hw.
  - intros w Hin. destruct (Hw w Hin) as [_ [[(v & Hv & Ei & El & Hr) E]|(_ & El & E)]]; [|by rewrite E, El].
    rewrite E, Ei, El. by apply (po_rows _ Hp).
  - intros w Hin [c Hc]. destruct (Hw w Hin) as [_ [[(v & Hv & Ei & El & Hr) E]|(_ & El & E)]]; [|done].
    rewrite El. apply (po_remote _ Hp); [done|]. destruct (remote_config v) eqn:Ev; [by eexists|].
    by rewrite (Hr eq_refl) in Hc.
  - intros dirs id d Hd Hid. eapply Hl, (po_threads _ Hp); eauto.
  - intros f id ports Hf Hid. eapply Hl, (po_idle _ Hp); eauto.
Qed.

Lemma poll_step_ok p p' : poll_step p p' -> poll_ok p -> poll_ok p'.
Proof.
  intros Hs Hp. destruct Hs as [|k1 dirs k2 fuel fs found Ht Hscan|found rest Hi|l next rows Hw].
  - by apply tick_ok.
  - pose proof (po_count _ Hp) as Hc. rewrite Ht, length_app in Hc. simpl in Hc.
    assert (forall id, local_id p id -> local_id (mkPolling (pl_workspaces p) (pl_next p) (pl_rows p) (SCAN_IN_PROGRESS p) (k1 ++ k2) (pl_idle p ++ [found])) id)
      as Hl by done.
    split; cbn [pl_workspaces pl_next pl_rows SCAN_IN_PROGRESS pl_threads pl_idle]; try apply Hp.
    + rewrite !length_app. simpl. destruct (SCAN_IN_PROGRESS p); lia.
    + intros ds id d Hd Hid. eapply Hl, (po_threads _ Hp); [|done]. rewrite Ht.
      apply elem_of_app in Hd as [Hd|Hd]; apply elem_of_app; [by left|right; by right].
    + intros f id ports [Hf| ->%list_elem_of_singleton]%elem_of_app Hid; [by eapply Hl, (po_idle _ Hp)|].
      destruct (scan_ids _ _ _ _ _ _ Hscan Hid) as [d Hd]. eapply Hl, (po_threads _ Hp); [|done]. rewrite Ht.
      apply elem_of_app. right. by left.
  - by apply idle_ok.
  - by apply window_ok.
Qed.

Lemma poll_start_ok : poll_ok poll_start.
Proof.
  split; cbn; [done|constructor|..]; intros x; intros; exfalso;
    match goal with H : x ∈ [] |- _ => by apply elem_of_nil in H end.
Qed.

Definition polled (p : Polling) : Prop := rtc poll_step poll_start p.

Lemma polled_ok p : polled p -> poll_ok p.
Proof. apply (rtc_preserves poll_step poll_ok); [intros a b H; by apply poll_step_ok|apply poll_start_ok]. Qed.
End poll.

(** C35: The ports of the side bar are up to date and of this machine. However the timer,
    the scans and the changes of the window follow each other, one scan at most is at work
    and the flag says just whether there is one; every row shows the ports that its
    workspace has; a remote workspace, whose processes run elsewhere, never has any; and
    when the result of a scan comes in, each workspace has exactly the ports that the scan
    found for it, or none. *)
Theorem ports_polled ord ord_results own_pid p :
  (forall m, ord_results m ≡ₚ map_to_list m) -> polled ord ord_results own_pid p ->
  length (pl_threads p) + length (pl_idle p) = (if SCAN_IN_PROGRESS p then 1 else 0) /\
  (forall w, w ∈ pl_workspaces p -> pl_rows p !! ws_id w = Some (listening_ports w) /\
    (is_Some (remote_config w) -> listening_ports w = [])) /\
  forall found rest, pl_idle p = found :: rest ->
    exists p', poll_step ord ord_results own_pid p p' /\ SCAN_IN_PROGRESS p' = false /\
      pl_workspaces p' = with_ports (collected found) <$> pl_workspaces p.
Proof.
  intros Ho Hp%polled_ok; [|done]. split_and!; [apply Hp|intros w Hw; split; by apply Hp|].
  intros found rest Hi. eexists. split; [by eapply poll_idle|].
  destruct (idle_ok p found rest Hp Hi) as [_ Hw]. split; [|exact Hw].
  unfold update_workspace_ports. by case_match.
Qed.

(** Process 8, below the application, listens on port 8080 in the directory of workspace 0. *)
Definition web_fs : ProcFs :=
  mkProcFs (Some ("head" +:+ String nl "0: 00000000:1F90 00000000:0000 0A 0:0 0:0 0 1000 0 4242"))%string None (Some ["7"; "8"])
    (fun pid => if Z.eqb pid 7 then Some "7 (limux) S 1 7" else
                if Z.eqb pid 8 then Some "8 (node) S 7 8" else None)%string
    (fun pid => if Z.eqb pid 8 then Some [Some "socket:[4242]"] else Some [])%string
    (fun pid => Some "/home/me/site")%string.

Definition local_ws : Workspace := ws_set_wd (Some "/home/me"%string) (Workspace_new 0).

Definition polled_demo : Polling := update_workspace_ports [(0%Z, [8080%Z])] (mkPolling [local_ws] 1 {[0%Z := []]} true [] []).

Lemma polled_demo_reached : polled (@map_to_list Z Z _ _) (@map_to_list Z (gset Z) _ _) 7 polled_demo.
Proof.
  eapply rtc_l; [apply (poll_window _ _ _ _ [local_ws] 1 {[0%Z := []]})|].
  { split; [done|]. split; [apply NoDup_singleton|]. intros w ->%list_elem_of_singleton. split; [done|]. right. done. }
  eapply rtc_l; [apply poll_timer|].
  eapply rtc_l; [eapply (poll_scan _ _ _ _ [] [(0%Z, Some "/home/me"%string)] [] 5 web_fs); [reflexivity|vm_compute; reflexivity]|].
  apply rtc_once. by eapply poll_idle.
Qed.

Lemma ports_polled_witness :
  pl_rows polled_demo !! 0%Z = Some [8080%Z] /\ SCAN_IN_PROGRESS polled_demo = false /\
  (forall w, w ∈ pl_workspaces polled_demo -> pl_rows polled_demo !! ws_id w = Some (listening_ports w)).
Proof.
  split; [reflexivity|]. split; [reflexivity|]. intros w Hw.
  apply (ports_polled (@map_to_list Z Z _ _) (@map_to_list Z (gset Z) _ _) 7 polled_demo (fun m => Permutation_refl _)
    polled_demo_reached); exact Hw.
Defined.
