(* ===== verification/SessionFile.v ===== *)
(** * The file of the session (app/src/session.rs)

    The session is saved every thirty seconds and when the application ends, and loaded by
    the next start.  The JSON library is a parameter; the file system answers each save. *)

From S2P Require Import Prelude F64 SplitTree SplitTreeRefine SplitTreeMerge RustStr RemoteConfig Workspace Tabs Surfaces Notebook Window WindowTabs WindowOk WindowProps WindowLife WindowClaims Session SessionProps Settings Actions.
Open Scope string_scope.
Open Scope list_scope.

Section session_file.
Context (from_str : string -> option SessionSnapshot) (to_string_pretty : SessionSnapshot -> string + string).
Context (vars : Vars).

Definition session_file_path : string := path_join (path_join (config_dir vars) "limux") "session.json".

(** The files, and the messages on the error output. *)
Record SessionDisk := mkDisk { sd_files : gmap string string; sd_messages : list string }.

Definition put_file (text : string) (d : SessionDisk) : SessionDisk :=
  mkDisk (<[session_file_path := text]> (sd_files d)) (sd_messages d).

Definition session_save (io : SaveIo) (s : SessionSnapshot) (d : SessionDisk) : (unit + string) * SessionDisk :=
  match io with
  | MkdirFails e => (inr ("mkdir: " +:+ e), d)
  | _ =>
      match to_string_pretty s with
      | inr e => (inr ("json: " +:+ e), d)
      | inl json =>
          match io with
          | WriteFails e kept => (inr ("write: " +:+ e), match kept with Some x => put_file x d | None => d end)
          | _ => (inl tt, put_file json d)
          end
      end
  end.

Definition session_load (d : SessionDisk) : option SessionSnapshot :=
  data ← sd_files d !! session_file_path; from_str data.

(** [save_current_session]: there is no snapshot while the window is in use elsewhere. *)
Definition save_current_session (snapshot : option SessionSnapshot) (io : SaveIo) (d : SessionDisk) : SessionDisk :=
  match snapshot with
  | None => d
  | Some s =>
      match session_save io s d with
      | (inl _, d) => d
      | (inr e, d) => mkDisk (sd_files d) (sd_messages d ++ ["Session save failed: " +:+ e])
      end
  end.

(** The ticks of [start_autosave] and the save at the end. *)
Definition saves (l : list (option SessionSnapshot * SaveIo)) (d : SessionDisk) : SessionDisk :=
  foldl (fun d x => save_current_session x.1 x.2 d) d l.

Lemma saves_cons x l d : saves (x :: l) d = saves l (save_current_session x.1 x.2 d).
Proof. done. Qed.
Lemma saves_app l1 l2 d : saves (l1 ++ l2) d = saves l2 (saves l1 d).
Proof. unfold saves. by rewrite foldl_app. Qed.

(** A save that leaves the file as it was. *)
Definition harmless (x : option SessionSnapshot * SaveIo) : Prop :=
  match x.1 with
  | None => True
  | Some s => match x.2 with
              | MkdirFails _ | WriteFails _ None => True
              | _ => exists e, to_string_pretty s = inr e
              end
  end.

Lemma harmless_same x d : harmless x -> sd_files (save_current_session x.1 x.2 d) = sd_files d.
Proof.
  destruct x as [[s|] io]; [|done]. unfold harmless, save_current_session, session_save. simpl.
  destruct io as [|e|e [k|]]; simpl; try done; try (by intros [e' ->]); by destruct (to_string_pretty s).
Qed.

Lemma harmless_all l : Forall harmless l -> forall d, sd_files (saves l d) = sd_files d.
Proof.
  induction 1 as [|x l Hx _ IH]; intros d; [done|]. by rewrite saves_cons, IH, harmless_same.
Qed.

(** What the last good save wrote is what the next start reads, whatever saves came before
    it and whatever failed after it without touching the file. *)
Lemma last_save_read l1 s j l2 d :
  to_string_pretty s = inl j -> Forall harmless l2 ->
  sd_files (saves (l1 ++ (Some s, SaveOk) :: l2) d) !! session_file_path = Some j.
Proof.
  intros Hj Hl. rewrite saves_app, saves_cons, harmless_all by done.
  cbn [save_current_session session_save fst snd]. rewrite Hj. cbn [put_file sd_files]. by rewrite lookup_insert_eq.
Qed.

(** A write that stops half way leaves a file that is not read: the session is lost, and
    the next start makes a new workspace, which the following save writes over it. *)
Theorem torn_write_loses_session s e torn d l :
  from_str torn = None -> (exists j, to_string_pretty s = inl j) -> Forall harmless l ->
  session_load (saves ((Some s, WriteFails e (Some torn)) :: l) d) = None.
Proof.
  intros Ht [j Hj] Hl. unfold session_load. rewrite saves_cons, harmless_all by done.
  cbn [save_current_session session_save fst snd]. rewrite Hj. cbn [put_file sd_files]. rewrite lookup_insert_eq. exact Ht.
Qed.
End session_file.

(** ** From one run to the next *)

(** C3: the next start reads what the last save wrote. If that save was one of the
    window [aw0], and those that came after it did not reach the file, the file holds
    exactly the JSON text of the snapshot of [aw0], and the next start loads exactly what
    the JSON library makes of that text: if it is a snapshot - of [aw0] when the text reads
    back, and that has all the workspaces of [aw0] in their order - the window opens
    consistent with a workspace for each of its own, or one when it has none; if the text
    does not read back, as that of a progress that is not a finite number, which is
    written as null, or if there is no file, it opens consistent with one new workspace.
    The counters of the new window must have room for one workspace and for those loaded
    ([fresh_ids], [session_room]). *)
Theorem next_start_continues {NB} `{NotebookLaws NB} from_str to_string_pretty vars nord ord sord sb url fp ur now
    l1 l2 j d bc (nb : NB) wd cmd pc wc r (aw0 : AppWindow NB) :
  let s := session_snapshot sb url sord aw0 in
  let aw := initial_window nb wd cmd pc wc r in
  let start disk := first_content ord nord fp ur now (session_load from_str vars disk) bc aw in
  (forall m, enumerates (nord m) m) -> nb_pages nb = [] -> fresh_ids aw -> (0 <= pc)%Z -> session_room [] bc aw ->
  to_string_pretty s = inl j -> Forall (harmless to_string_pretty) l2 ->
  let d' := saves to_string_pretty vars (l1 ++ (Some s, SaveOk) :: l2) d in
  sd_files d' !! session_file_path vars = Some j /\ session_load from_str vars d' = from_str j /\
  sn_workspaces s = workspace_snapshot sb url sord <$> workspaces aw0 /\
  (forall s', from_str j = Some s' -> session_room (sn_workspaces s') bc aw ->
    exists idles bc' aw', start d' = (idles, (bc', aw')) /\
      win_ok aw' /\ length (workspaces aw') = length (sn_workspaces s') `max` 1) /\
  (from_str j = None ->
    exists aw', start d' = ([], (bc, aw')) /\ win_ok aw' /\ length (workspaces aw') = 1) /\
  (forall d0, session_load from_str vars d0 = None ->
    exists aw', start d0 = ([], (bc, aw')) /\ win_ok aw' /\ length (workspaces aw') = 1).
Proof.
  intros s aw start Hn Hnb Hf Hpc Hr0 Hj Hl d'.
  assert (sd_files d' !! session_file_path vars = Some j) as E by (by apply last_save_read).
  assert (session_load from_str vars d' = from_str j) as El by (unfold session_load; by rewrite E).
  assert (forall d0, session_load from_str vars d0 = None ->
    exists aw', start d0 = ([], (bc, aw')) /\ win_ok aw' /\ length (workspaces aw') = 1) as Hnone.
  { intros d0 H0. destruct (start_content nord ord fp ur now None bc nb wd cmd pc wc r)
      as (idles & bc' & aw' & Ec & Hok & Hlen); try done.
    exists aw'. unfold start. rewrite H0. simpl in Ec |- *. injection Ec as <- <- <-. done. }
  split_and!; [done|done|done| |intros Hj0; apply Hnone; congruence|exact Hnone].
  intros s' Hs' Hroom. unfold start. rewrite El, Hs'.
  by apply (start_content nord ord fp ur now (Some s') bc nb wd cmd pc wc r).
Qed.

(** A file that is saved, and a later save that cannot make the directory. *)
Definition demo_snapshot : SessionSnapshot := session_snapshot (fun _ => None) (fun _ => None) status_order demo_saved.
Definition demo_from (t : string) : option SessionSnapshot := if String.eqb t "{}" then Some demo_snapshot else None.
Definition demo_vars : Vars := mkVars None (Some "/home/me").

Lemma next_start_continues_witness :
  let d := saves (fun _ => inl "{}") demo_vars
    [(None, SaveOk); (Some demo_snapshot, SaveOk); (Some demo_snapshot, MkdirFails "read-only")] (mkDisk ∅ []) in
  let aw := initial_window (mkNotebook [] 0) None None 0 0 registry_new in
  (exists idles bc' aw',
    first_content key_order node_order None (fun _ => None) 0 (session_load demo_from demo_vars d) 0 aw = (idles, (bc', aw')) /\
    win_ok aw' /\ length (workspaces aw') = 2) /\
  (exists aw',
    first_content key_order node_order None (fun _ => None) 0 (session_load demo_from demo_vars (mkDisk ∅ [])) 0 aw = ([], (0%Z, aw')) /\
    win_ok aw' /\ length (workspaces aw') = 1).
Proof.
  intros d aw.
  destruct (next_start_continues demo_from (fun _ => inl "{}") demo_vars node_order key_order status_order
    (fun _ => None) (fun _ => None) None (fun _ => None) 0 [(None, SaveOk)] [(Some demo_snapshot, MkdirFails "read-only")] "{}"
    (mkDisk ∅ []) 0 (mkNotebook [] 0) None None 0 0 registry_new demo_saved) as (_ & _ & _ & Hsome & _ & Hnone).
  - apply node_order_enumerates.
  - reflexivity.
  - by split.
  - done.
  - split; [by vm_compute..|constructor].
  - reflexivity.
  - by repeat constructor.
  - split; [|by apply Hnone].
    destruct (Hsome demo_snapshot) as (idles & bc' & aw' & E & Hok & Hlen); [reflexivity| |].
    + split; [by vm_compute..|].
      apply (Forall_fmap (fun s => snap_ids (wsn_layout s)) (fun z => z <= u32_max)%Z).
      set (l := _ <$> _). assert (l = [1; 4]%Z) as -> by (by vm_compute). by repeat constructor.
    + exists idles, bc', aw'. split; [exact E|]. split; [exact Hok|]. rewrite Hlen. by vm_compute.
Defined.
