(* ===== verification/Tunnel.v ===== *)
(** * Starting the daemon client and the proxy tunnel (app/src/remote/rpc.rs, proxy_tunnel.rs)

    The connection to the daemon is an ssh process whose first call is the greeting; the
    tunnel accepts connections until it is told to stop. *)

From S2P Require Import Prelude RustStr RemoteConfig Rpc.
Open Scope string_scope.
Open Scope list_scope.

(** ** [RpcClient::connect] *)

Inductive RpcError := EProcessDied (s : string) | ETimeout | ERemote (s : string) | EIo (e : string) | EHelloFailed (s : string).

Definition RpcError_display (e : RpcError) : string :=
  match e with
  | EProcessDied s => "SSH process died: " +:+ s
  | ETimeout => "RPC call timed out"
  | ERemote s => "remote error: " +:+ s
  | EIo e => "IO error: " +:+ e
  | EHelloFailed s => "hello failed: " +:+ s
  end.

Definition connect_args (c : RemoteConfiguration) (daemon_path : string) : list string :=
  ssh_batch_args c ++ ["-T"; "-S"; "none"; destination c; daemon_path +:+ " serve --stdio"].

(** What became of the ssh process. *)
Inductive Spawn := SpawnFails (e : string) | NoStdin | NoStdout | Spawned.

Section connect.
Context {Value : Type} (has_name : Value -> bool) (show : Value -> string).

(** The greeting is a call like any other; [hello] is what it returns, [why] the message of
    a failed write. *)
Definition greeted (hello : RpcResult Value) (why : string) : RpcError + Value :=
  match hello with
  | Answer v => if has_name v then inr v else inl (EHelloFailed ("unexpected hello response: " +:+ show v))
  | RemoteError m => inl (ERemote m)
  | ProcessDied s => inl (EProcessDied s)
  | TimedOut => inl ETimeout
  | IoError => inl (EIo why)
  end.

(** The client of a connection: its first call has number 1 and is the greeting. *)
Definition connect (sp : Spawn) (hello : RpcResult Value) (why : string) : RpcError + RpcClient Value :=
  match sp with
  | SpawnFails e => inl (EIo e)
  | NoStdin => inl (EIo "no stdin")
  | NoStdout => inl (EIo "no stdout")
  | Spawned => match greeted hello why with inl e => inl e | inr _ => inr (start_call rpc_new) end
  end.

(** A client is given out just when the daemon answered the greeting with a name, and then
    the number of the greeting is used up. *)
Theorem connect_succeeds sp hello why c :
  connect sp hello why = inr c <->
  sp = Spawned /\ c = start_call rpc_new /\ exists v, hello = Answer v /\ has_name v = true.
Proof.
  split.
  - destruct sp; simpl; try done. destruct hello as [v| | | |]; simpl; try done.
    destruct (has_name v) eqn:E; [|done]. intros [= <-]. split_and!; [done|done|by exists v].
  - intros (-> & -> & v & -> & E). simpl. by rewrite E.
Qed.
End connect.

(** ** The accept loop *)

(** [tn_cancelled]: the flag was set or its sender dropped; [tn_sessions] are the
    connections that were handed to a task of their own. *)
Record Tunnel := mkTunnel { tn_running : bool; tn_cancelled : bool; tn_sessions : list Z }.
Definition tunnel_start : Tunnel := mkTunnel true false [].

(** A connection is there, accepting fails, [shutdown] or the drop of the tunnel, or the
    loop sees the flag. *)
Inductive TunnelEvent := Accepted (conn : Z) | AcceptFails | TunnelShutdown | SeesCancel.

#[global] Instance TunnelEvent_eq_dec : EqDecision TunnelEvent.
Proof. solve_decision. Defined.

(** The branches of [select!] are tried in a random order. *)
Definition accept_loop (e : TunnelEvent) (t : Tunnel) : option Tunnel :=
  match e with
  | Accepted conn => if tn_running t then Some (mkTunnel true (tn_cancelled t) (tn_sessions t ++ [conn])) else None
  | AcceptFails => if tn_running t then Some (mkTunnel false (tn_cancelled t) (tn_sessions t)) else None
  | TunnelShutdown => Some (mkTunnel (tn_running t) true (tn_sessions t))
  | SeesCancel => if tn_running t && tn_cancelled t then Some (mkTunnel false true (tn_sessions t)) else None
  end.

Fixpoint run_tunnel (es : list TunnelEvent) (t : Tunnel) : option Tunnel :=
  match es with [] => Some t | e :: es => t ← accept_loop e t; run_tunnel es t end.

Definition accepted (es : list TunnelEvent) : list Z :=
  omap (fun e => match e with Accepted c => Some c | _ => None end) es.

Lemma run_spec es : forall t t', run_tunnel es t = Some t' ->
  tn_sessions t' = tn_sessions t ++ accepted es /\
  (tn_running t' = true <-> tn_running t = true /\ AcceptFails ∉ es /\ SeesCancel ∉ es) /\
  (tn_cancelled t' = true <-> tn_cancelled t = true \/ TunnelShutdown ∈ es) /\
  (SeesCancel ∈ es -> tn_cancelled t = true \/ TunnelShutdown ∈ es).
Proof.
  induction es as [|e es IH]; intros t t' H; simpl in H.
  - injection H as <-. rewrite app_nil_r, !elem_of_nil. tauto.
  - destruct (accept_loop e t) as [t1|] eqn:E; [|done]. apply IH in H as (H1 & H2 & H3 & H4).
    rewrite H1, !elem_of_cons. destruct e; simpl in *; try (case_match eqn:Er; [|done]); injection E as <-; simpl in *;
      rewrite <- ?app_assoc; try (apply andb_prop in Er as [Er Ec]); naive_solver.
Qed.

(** Every connection that is accepted is served, in order and once; a tunnel that was told
    to stop can always do so, and after it has stopped it serves nobody; but it stops as well
    when accepting fails once, though nobody told it to. *)
Theorem tunnel_serves es t : run_tunnel es tunnel_start = Some t ->
  tn_sessions t = accepted es /\
  (tn_cancelled t = true -> tn_running t = true -> is_Some (accept_loop SeesCancel t)) /\
  (tn_running t = false -> forall c, accept_loop (Accepted c) t = None) /\
  (tn_running t = false -> TunnelShutdown ∈ es \/ AcceptFails ∈ es).
Proof.
  intros H. apply run_spec in H as (H1 & H2 & H3 & H4). simpl in *. split_and!; [done|..].
  - intros Hc Hr. unfold accept_loop. rewrite Hc, Hr. by eexists.
  - intros Hr c. unfold accept_loop. by rewrite Hr.
  - intros Hr. destruct (decide (AcceptFails ∈ es)); [by right|]. left.
    destruct (decide (SeesCancel ∈ es)) as [Hs|Hs]; [destruct (H4 Hs); [done|done]|].
    assert (tn_running t = true) as Ht by (by apply H2). by rewrite Hr in Ht.
Qed.
