(* ===== verification/Appearance.v ===== *)
(** * Colors of the desktop (app/src/appearance.rs, the style sheet in sidebar.rs)

    The program is dark or light as the desktop is.  [detect_color_scheme] asks, in this
    order, a property of GTK, the name of its theme, the portal and the settings of GNOME;
    a change of any of them calls [on_scheme_changed], which writes the very property of
    GTK that detection asks first, and replaces the style sheet.  The desktop is an
    argument, with what it answers at each question; a call into GLib may also unwind or
    end the process.  Writing a property notifies its listeners, as GObject documents:
    inside the write, or, when the write happens in a listener of the same property, by
    another round when the listeners are done. *)

From Stdlib Require Import Ascii.
From S2P Require Import Prelude RustStr Workspace.
Open Scope string_scope.
Open Scope list_scope.

(** ** The style sheet *)

Definition static_rules : string := "
        .sidebar {
            background-color: @theme_bg_color;
            border-right: 1px solid @borders;
        }
        .workspace-list row {
            padding: 2px 0;
        }
        .workspace-list row:selected {
            background-color: alpha(@theme_selected_bg_color, 0.3);
        }
        .drag-active { opacity: 0.5; }
        .drop-above { border-top: 2px solid @theme_selected_bg_color; }
        .drop-below { border-bottom: 2px solid @theme_selected_bg_color; }
        .workspace-tab-drop { background-color: alpha(@theme_selected_bg_color, 0.18); }
        .pane-tab-strip {
            min-height: 24px;
            padding: 2px 4px;
            border-bottom: 1px solid @borders;
        }
        .pane-tab-strip.tab-drop-active {
            background-color: alpha(@theme_selected_bg_color, 0.08);
        }
        .pane-tab-strip.tab-drop-end {
            border-right: 2px solid @theme_selected_bg_color;
        }
        .tab-drop-before {
            border-left: 2px solid @theme_selected_bg_color;
        }
        .tab-drop-after {
            border-right: 2px solid @theme_selected_bg_color;
        }
        .pane-tab {
            margin: 0 2px;
        }
        .pane-tab-strip.pane-active .pane-tab:checked {
            box-shadow: inset 0 2px 0 0 @theme_selected_bg_color;
        }
        .pane-tab-close {
            opacity: 0.5;
        }
        .pane-tab-close:hover {
            opacity: 1.0;
        }
        .workspace-detail { font-size: 0.85em; margin-top: 2px; margin-bottom: 2px; }
        .status-entry { margin-top: 1px; }
        .progress-entry { margin-top: 2px; }
        .progress-entry progressbar { min-height: 4px; }
        .caption { font-size: 0.8em; }
        paned > separator {
            min-width: 1px;
            min-height: 1px;
            padding: 0;
            margin: 0;
        }
    ".

Definition NL : string := String nl "".

(** [".{} {{ background-color: {}; border-radius: 2px; }}\n"] and its like. *)
Definition color_rule (dark : bool) (c : WorkspaceColor) : string :=
  "." +:+ css_class c +:+ " { background-color: " +:+ color_hex dark c +:+ "; border-radius: 2px; }" +:+ NL.
Definition text_rule (class hex : string) : string := "." +:+ class +:+ " { color: " +:+ hex +:+ "; }" +:+ NL.

(** The names are those of colors, so that the [unwrap] does not panic. *)
Definition status_rule (dark : bool) (color : string) : option string :=
  wc ← color_from_name color; Some (text_rule ("status-color-" +:+ color) (color_hex dark wc)).

Definition concat_all (l : list string) : string := foldr String.append "" l.

Definition generate_css (dark : bool) (bell : string) : option string :=
  status ← mapM (status_rule dark) ["red"; "orange"; "yellow"; "green"; "blue"; "purple"];
  Some (concat_all (
    [static_rules] ++
    (color_rule dark <$> color_ALL) ++
    [".ws-bell { color: " +:+ bell +:+ "; font-size: 10px; margin-start: 4px; }" +:+ NL;
     ".pane-bell { border: 2px solid " +:+ bell +:+ "; }" +:+ NL;
     text_rule "remote-connecting" (if dark then "#888888" else "#999999");
     text_rule "remote-connected" (if dark then "#73d216" else "#4e9a06");
     text_rule "remote-error" (if dark then "#ff6b6b" else "#cc0000")] ++
    status ++
    [".log-info     { }" +:+ NL;
     ".log-progress { color: " +:+ color_hex dark Blue +:+ "; }" +:+ NL;
     ".log-success  { color: " +:+ color_hex dark Green +:+ "; }" +:+ NL;
     ".log-warning  { color: " +:+ color_hex dark Orange +:+ "; }" +:+ NL;
     ".log-error    { color: " +:+ color_hex dark Red +:+ "; }" +:+ NL])).

(** ** What GLib answers *)

Inductive Variant :=
  | VU32 (n : Z) | VStr (s : string) | VVariant (v : Variant) | VTuple (l : list Variant) | VOther.

(** A boxed variant has its content as its only child. *)
Definition child_value (i : nat) (v : Variant) : option Variant :=
  match v with
  | VTuple l => l !! i
  | VVariant v => match i with O => Some v | S _ => None end
  | _ => None
  end.

(** [get] is [None] unless the type is the very one that is asked for. *)
Definition get_u32 (v : Variant) : option Z := match v with VU32 n => Some n | _ => None end.
Definition get_string (v : Variant) : option string := match v with VStr s => Some s | _ => None end.

Inductive Called (A : Type) := Returned (a : A) | Unwound | Terminated.
Arguments Returned {A}. Arguments Unwound {A}. Arguments Terminated {A}.

(** [catch_unwind] stops a panic, not the end of the process ([None]). *)
Definition catch_unwind {A} (c : Called A) : option (option A) :=
  match c with Returned a => Some (Some a) | Unwound => Some None | Terminated => None end.

(** What the desktop would answer at one moment: whether there is a session bus, the
    portal's reply, what [Settings::new] does and what reading its key does. *)
Record Desktop := mkDesktop {
  session_bus : bool; portal_reply : option Variant;
  gio_settings_new : Called unit; color_scheme_enum : Called Z;
}.

(** ** Detection *)

Record GtkSettings := mkGtkSettings { prefer_dark : bool; theme_name : option string }.

Definition gio_portal_color_scheme (d : Desktop) : option Z :=
  if session_bus d then
    result ← portal_reply d;
    outer ← child_value 0 result;
    get_u32 outer
  else None.

Definition gnome_color_scheme (d : Desktop) : option (option bool) :=
  match catch_unwind (gio_settings_new d) with
  | None => None
  | Some None => Some None
  | Some (Some _) =>
      val ← catch_unwind (color_scheme_enum d);
      Some (match val with Some v => Some (Z.eqb v 1) | None => None end)
  end.

(** [str::contains]. *)
Fixpoint str_contains (p s : string) : bool :=
  starts_with p s || match s with "" => false | String _ r => str_contains p r end.

Definition gtk_says_dark (gtk : option GtkSettings) : bool :=
  match gtk with
  | None => false
  | Some g =>
      prefer_dark g ||
      match theme_name g with Some t => str_contains "dark" (to_lowercase t) | None => false end
  end.

(** [None] when the process ends. *)
Definition detect_color_scheme (gtk : option GtkSettings) (d : Desktop) : option bool :=
  if gtk_says_dark gtk then Some true
  else match gio_portal_color_scheme d with
       | Some p => Some (Z.eqb p 1)
       | None => dark ← gnome_color_scheme d; Some (default false dark)
       end.

(** ** State *)

(** [providers] are the style sheets that the program has put on the display; [at_]
    counts the questions of one event.  [emitting] and [again] belong to GObject: the
    listeners of the property are being called, and have to be called once more. *)
Record Look := mkLook {
  IS_DARK : bool;
  gtk : option GtkSettings;
  gtk_listens : bool; portal_listens : bool; gsettings_listens : bool;
  providers : list (nat * string); CSS_PROVIDER : option nat; next_provider : nat;
  emitting : bool; again : bool; at_ : nat;
}.

Definition set_dark (d : bool) (s : Look) : Look :=
  mkLook d (gtk s) (gtk_listens s) (portal_listens s) (gsettings_listens s) (providers s) (CSS_PROVIDER s)
    (next_provider s) (emitting s) (again s) (at_ s).
Definition set_gtk (g : option GtkSettings) (s : Look) : Look :=
  mkLook (IS_DARK s) g (gtk_listens s) (portal_listens s) (gsettings_listens s) (providers s) (CSS_PROVIDER s)
    (next_provider s) (emitting s) (again s) (at_ s).
Definition set_listens (g p n : bool) (s : Look) : Look :=
  mkLook (IS_DARK s) (gtk s) g p n (providers s) (CSS_PROVIDER s) (next_provider s) (emitting s) (again s) (at_ s).
Definition set_sheets (l : list (nat * string)) (p : option nat) (n : nat) (s : Look) : Look :=
  mkLook (IS_DARK s) (gtk s) (gtk_listens s) (portal_listens s) (gsettings_listens s) l p n
    (emitting s) (again s) (at_ s).
Definition set_emission (e a : bool) (s : Look) : Look :=
  mkLook (IS_DARK s) (gtk s) (gtk_listens s) (portal_listens s) (gsettings_listens s) (providers s) (CSS_PROVIDER s)
    (next_provider s) e a (at_ s).
Definition set_at (n : nat) (s : Look) : Look :=
  mkLook (IS_DARK s) (gtk s) (gtk_listens s) (portal_listens s) (gsettings_listens s) (providers s) (CSS_PROVIDER s)
    (next_provider s) (emitting s) (again s) n.

(** [Ended]: the process is gone, by a panic in a callback or by the library. *)
Inductive Outcome := Ran (s : Look) | Ended | OutOfFuel.
Definition and_then (r : Outcome) (k : Look -> Outcome) : Outcome := match r with Ran s => k s | _ => r end.

(** ** The style sheet on the display *)

(** Without a display there are no settings of GTK either. *)
Definition apply_css (dark : bool) (s : Look) : Outcome :=
  match gtk s, generate_css dark (bell_hex dark) with
  | Some _, Some css =>
      let others := match CSS_PROVIDER s with
                    | Some old => filter (fun p => p.1 <> old) (providers s)
                    | None => providers s
                    end in
      Ran (set_sheets (others ++ [(next_provider s, css)]) (Some (next_provider s)) (S (next_provider s)) s)
  | _, _ => Ended
  end.

Definition load_css (s : Look) : Outcome := apply_css (IS_DARK s) s.
Definition reload_css (dark : bool) (s : Look) : Outcome := apply_css dark s.

(** ** Changes of the scheme *)

Section changes.
(** The answers of the desktop during one event, and whether GObject notifies of a write
    that does not change the value. *)
Context (desk : nat -> Desktop) (notify_same : bool).

Definition apply_gtk_theme (notify : Look -> Outcome) (dark : bool) (s : Look) : Outcome :=
  match gtk s with
  | None => Ran s
  | Some g =>
      let s' := set_gtk (Some (mkGtkSettings dark (theme_name g))) s in
      if gtk_listens s && (notify_same || negb (Bool.eqb dark (prefer_dark g))) then notify s' else Ran s'
  end.

Definition changed_with (notify : Look -> Outcome) (s : Look) : Outcome :=
  match detect_color_scheme (gtk s) (desk (at_ s)) with
  | None => Ended
  | Some new_dark =>
      let s := set_at (S (at_ s)) s in
      if Bool.eqb new_dark (IS_DARK s) then Ran s
      else and_then (apply_gtk_theme notify new_dark (set_dark new_dark s)) (reload_css new_dark)
  end.

(** The listeners of the property, called again while one of them has written it. *)
Fixpoint emission (fuel : nat) (s : Look) : Outcome :=
  match fuel with
  | O => OutOfFuel
  | S fuel =>
      and_then (changed_with (fun s => Ran (set_emission (emitting s) true s)) (set_emission true false s))
        (fun s => if again s then emission fuel s else Ran (set_emission false false s))
  end.

Definition notified (s : Look) : Outcome := emission 3 s.
Definition on_scheme_changed (s : Look) : Outcome := changed_with notified s.

(** ** Events *)

Inductive Change :=
  | PreferDarkSet (b : bool) | ThemeNameSet (t : option string)
  | PortalSignal (params : Variant) | GSettingsChanged.

Definition portal_signal (params : Variant) (s : Look) : Outcome :=
  match key ← child_value 1 params; get_string key with
  | Some key => if String.eqb key "color-scheme" then on_scheme_changed s else Ran s
  | None => Ran s
  end.

Definition look_event (e : Change) (s : Look) : Outcome :=
  match e, gtk s with
  | PreferDarkSet b, Some g =>
      apply_gtk_theme notified b s
  | ThemeNameSet t, Some g =>
      let s := set_gtk (Some (mkGtkSettings (prefer_dark g) t)) s in
      if gtk_listens s then on_scheme_changed s else Ran s
  | PortalSignal params, _ => if portal_listens s then portal_signal params s else Ran s
  | GSettingsChanged, _ => if gsettings_listens s then on_scheme_changed s else Ran s
  | _, None => Ran s
  end.

(** [init]; the listeners are connected after the property is first written. *)
Definition init (s : Look) : Outcome :=
  match detect_color_scheme (gtk s) (desk (at_ s)) with
  | None => Ended
  | Some dark =>
      let s := set_at (S (at_ s)) (set_dark dark s) in
      and_then (apply_gtk_theme Ran dark s) (fun s =>
        let d := desk (at_ s) in
        match catch_unwind (gio_settings_new d) with
        | None => Ended
        | Some settings =>
            Ran (set_listens (bool_decide (is_Some (gtk s))) (session_bus d) (bool_decide (is_Some settings)) s)
        end)
  end.

End changes.

(** The program's start, up to the window's style sheet, and the events after it, each
    with the answers of the desktop while it is handled. *)
Definition look_new (g : option GtkSettings) : Look :=
  mkLook false g false false false [] None 0 false false 0.
Definition look_start (same : bool) (desk : nat -> Desktop) (g : option GtkSettings) : Outcome :=
  and_then (init desk same (look_new g)) load_css.
Definition look_run (same : bool) (evs : list (Change * (nat -> Desktop))) (s : Look) : Outcome :=
  foldl (fun r e => and_then r (fun s => look_event e.2 same e.1 (set_at 0 s))) (Ran s) evs.

(** ** The style sheet is that of the scheme *)

(** There is one style sheet of the program on the display, that for [d]. *)
Definition sheet_is (d : bool) (s : Look) : Prop :=
  exists id css, generate_css d (bell_hex d) = Some css /\ providers s = [(id, css)] /\ CSS_PROVIDER s = Some id.
Definition good (s : Look) : Prop := sheet_is (IS_DARK s) s.
(** What detection says is what the program has. *)
Definition detected (desk : nat -> Desktop) (s : Look) : Prop :=
  exists n, detect_color_scheme (gtk s) (desk n) = Some (IS_DARK s).
Definition steady (desk : nat -> Desktop) : Prop := forall n, desk n = desk 0.

Lemma generate_css_some d : exists css, generate_css d (bell_hex d) = Some css.
Proof. destruct d; eexists; vm_compute; reflexivity. Qed.

Lemma apply_css_sheet d d0 s : sheet_is d0 s \/ (providers s = [] /\ CSS_PROVIDER s = None) -> is_Some (gtk s) ->
  exists s', apply_css d s = Ran s' /\ sheet_is d s' /\ IS_DARK s' = IS_DARK s /\ gtk s' = gtk s /\
    gtk_listens s' = gtk_listens s /\ again s' = again s /\ at_ s' = at_ s.
Proof.
  intros Hs [g Hg]. destruct (generate_css_some d) as [css Hcss].
  unfold apply_css. rewrite Hg, Hcss. eexists. split; [reflexivity|]. simpl. repeat split; auto.
  exists (next_provider s), css. simpl. split; [done|]. split; [|done].
  destruct Hs as [(id & css0 & _ & -> & ->)|[-> ->]]; simpl; [|done].
  rewrite filter_cons_False; [done|simpl; tauto].
Qed.

Lemma detect_prefer g d : prefer_dark g = true -> detect_color_scheme (Some g) d = Some true.
Proof. unfold detect_color_scheme. simpl. by intros ->. Qed.

(** What was detected is still detected when the property has been written. *)
Lemma detect_written g d b : detect_color_scheme (Some g) d = Some b ->
  detect_color_scheme (Some (mkGtkSettings b (theme_name g))) d = Some b.
Proof.
  intros H. destruct b; [by apply detect_prefer|].
  destruct (prefer_dark g) eqn:E; [by rewrite (detect_prefer g) in H by done|].
  by destruct g as [p t]; simpl in E |- *; subst p.
Qed.
#[local] Hint Resolve detect_written : core.

Section rounds.
Context (desk : nat -> Desktop) (same : bool).
Let mark := fun s => Ran (set_emission (emitting s) true s).

(** One round of the listeners inside an emission. *)
Lemma round_ok s : good s -> is_Some (gtk s) ->
  match changed_with desk same mark s with
  | Ran s' => good s' /\ detected desk s' /\ is_Some (gtk s') /\ gtk_listens s' = gtk_listens s /\
      (forall g, gtk s = Some g -> prefer_dark g = true -> IS_DARK s' = true) /\
      (s' = set_at (S (at_ s)) s \/
       IS_DARK s' = negb (IS_DARK s) /\ exists g, gtk s' = Some g /\ prefer_dark g = IS_DARK s')
  | Ended => True
  | OutOfFuel => False
  end.
Proof.
  intros Hg [g Hgtk]. unfold changed_with. rewrite Hgtk.
  destruct (detect_color_scheme (Some g) (desk (at_ s))) as [new|] eqn:E; [|done]. simpl.
  destruct (Bool.eqb new (IS_DARK s)) eqn:Heq.
  - apply eqb_prop in Heq as ->. split; [done|]. split; [by exists (at_ s); simpl; rewrite Hgtk|].
    simpl. rewrite Hgtk. split; [done|]. split; [done|]. split; [|by left].
    intros ? [= <-] Hp. by rewrite detect_prefer in E by done; injection E.
  - apply eqb_false_iff in Heq. unfold apply_gtk_theme. simpl. rewrite Hgtk.
    set (s1 := if gtk_listens s && _ then _ else _).
    assert (exists s2, s1 = Ran s2 /\ providers s2 = providers s /\ CSS_PROVIDER s2 = CSS_PROVIDER s /\
      IS_DARK s2 = new /\ gtk s2 = Some (mkGtkSettings new (theme_name g)) /\ gtk_listens s2 = gtk_listens s)
      as (s2 & -> & Hp & Hc & Hd & Hg2 & Hl).
    { subst s1. case_match; eexists; repeat split. }
    simpl. unfold reload_css. destruct (apply_css_sheet new (IS_DARK s) s2) as (s' & -> & Hs & Hd' & Hg' & Hl' & _).
    { left. destruct Hg as (id & css & ? & ? & ?). exists id, css. by rewrite Hp, Hc. }
    { by rewrite Hg2. }
    split; [unfold good; by rewrite Hd', Hd|].
    split; [exists (at_ s); rewrite Hg', Hg2, Hd', Hd; auto|].
    split; [by rewrite Hg', Hg2|]. split; [by rewrite Hl'|].
    split; [intros ? [= <-] Hpd; rewrite detect_prefer in E by done; injection E; congruence|]. right.
    rewrite Hd', Hd, Hg', Hg2. split; [by destruct new, (IS_DARK s)|eauto].
Qed.
End rounds.

Section emissions.
Context (desk : nat -> Desktop) (same : bool).

Definition settled (s : Look) : Prop := good s /\ detected desk s /\ is_Some (gtk s).

(** How many rounds can follow: none once GTK and the program are dark, one more when the
    program is light, two otherwise. *)
Definition rounds (s : Look) : nat :=
  if IS_DARK s
  then match gtk s with Some g => if prefer_dark g then 1 else 3 | None => 3 end
  else 2.

Lemma emission_ok fuel : forall s, rounds s <= fuel -> good s -> is_Some (gtk s) ->
  match emission desk same fuel s with
  | Ran s' => settled s' /\ gtk_listens s' = gtk_listens s /\ again s' = false /\ emitting s' = false
  | Ended => True
  | OutOfFuel => False
  end.
Proof.
  induction fuel as [|fuel IH]; intros s Hf Hs Hg.
  { unfold rounds in Hf. destruct (IS_DARK s), (gtk s) as [g|]; try destruct (prefer_dark g); lia. }
  simpl. pose proof (round_ok desk same (set_emission true false s) Hs Hg) as H.
  destruct (changed_with desk same _ _) as [s'| |]; [|done|done]. simpl.
  destruct H as (Hs' & Hd & Hg' & Hl & Hdk & Hch).
  destruct (again s') eqn:Ha; [|done].
  destruct Hch as [->|(Hn & g & Hgg & Hp)]; [done|].
  assert (rounds s' <= fuel) as Hr.
  { destruct Hg as [g0 Hg0]. unfold rounds in *. simpl in Hn. rewrite Hgg, Hp. rewrite Hg0 in Hf.
    destruct (IS_DARK s), (IS_DARK s'); try done; [|lia].
    destruct (prefer_dark g0) eqn:Hp0; [|lia]. by specialize (Hdk g0 Hg0 Hp0). }
  specialize (IH s' Hr Hs' Hg'). destruct (emission desk same fuel s'); [|done|done].
  destruct IH as (? & Hl2 & ? & ?). split; [done|]. split; [by rewrite Hl2, Hl|done].
Qed.

(** Nothing happens in an emission when what was detected is detected again. *)
Lemma emission_quiet fuel s : detect_color_scheme (gtk s) (desk (at_ s)) = Some (IS_DARK s) ->
  emission desk same (S fuel) s = Ran (set_emission false false (set_at (S (at_ s)) s)).
Proof. intros H. simpl. unfold changed_with. simpl. rewrite H. by rewrite eqb_reflx. Qed.

Lemma notified_ok s : good s -> is_Some (gtk s) ->
  match notified desk same s with
  | Ran s' => settled s' /\ gtk_listens s' = gtk_listens s
  | Ended => True
  | OutOfFuel => False
  end.
Proof.
  intros Hs Hg. unfold notified. pose proof (emission_ok 3 s) as H.
  destruct (emission desk same 3 s); [|done|].
  - destruct H as (? & ? & _); try done. unfold rounds. by repeat case_match; lia.
  - apply H; try done. unfold rounds. by repeat case_match; lia.
Qed.

Lemma changed_steady s : steady desk -> good s -> is_Some (gtk s) ->
  match on_scheme_changed desk same s with
  | Ran s' => settled s' /\ gtk_listens s' = gtk_listens s
  | Ended => True
  | OutOfFuel => False
  end.
Proof.
  intros Hst Hs [g Hg]. unfold on_scheme_changed, changed_with. rewrite Hg.
  destruct (detect_color_scheme (Some g) (desk (at_ s))) as [new|] eqn:E; [|done]. simpl.
  destruct (Bool.eqb new (IS_DARK s)) eqn:Heq.
  { apply eqb_prop in Heq as ->. split; [|done]. split; [done|].
    split; [exists (at_ s); simpl; by rewrite Hg|by exists g]. }
  set (r := apply_gtk_theme _ _ _ _).
  assert (exists s2, r = Ran s2 /\ providers s2 = providers s /\ CSS_PROVIDER s2 = CSS_PROVIDER s /\
    IS_DARK s2 = new /\ gtk s2 = Some (mkGtkSettings new (theme_name g)) /\ gtk_listens s2 = gtk_listens s)
    as (s2 & -> & Hp & Hc & Hd & Hg2 & Hl).
  { subst r. unfold apply_gtk_theme. simpl. rewrite Hg. case_match; [|by eexists; repeat split].
    unfold notified. rewrite emission_quiet; [by eexists; repeat split|].
    simpl. rewrite (Hst (S (at_ s))), <- (Hst (at_ s)). auto using detect_written. }
  simpl. unfold reload_css. destruct (apply_css_sheet new (IS_DARK s) s2) as (s' & -> & Hs' & Hd' & Hg' & Hl' & _).
  { left. destruct Hs as (id & css & ? & ? & ?). exists id, css. by rewrite Hp, Hc. }
  { by rewrite Hg2. }
  split; [|by rewrite Hl']. split; [unfold good; by rewrite Hd', Hd|].
  split; [exists (at_ s); rewrite Hg', Hg2, Hd', Hd; auto using detect_written|by rewrite Hg', Hg2].
Qed.
End emissions.

(** What holds between events from the start on. *)
Record look_ok (s : Look) : Prop := mk_look_ok {
  ok_good : good s;
  ok_gtk : is_Some (gtk s);
  ok_listens : gtk_listens s = true;
  ok_dark : forall g, gtk s = Some g -> prefer_dark g = true -> IS_DARK s = true;
}.

(** The events that the program hears of. *)
Definition notices (same : bool) (e : Change) (s : Look) : Prop :=
  match e with
  | PreferDarkSet b => same = true \/ exists g, gtk s = Some g /\ prefer_dark g <> b
  | ThemeNameSet _ => True
  | PortalSignal params => portal_listens s = true /\ exists v, child_value 1 params = Some v /\ get_string v = Some "color-scheme"
  | GSettingsChanged => gsettings_listens s = true
  end.

Lemma settled_ok desk s : settled desk s -> gtk_listens s = true -> look_ok s.
Proof.
  intros (Hg & [n Hd] & Hs) Hl. split; try done.
  intros g Hg0 Hp. rewrite Hg0, detect_prefer in Hd by done. by injection Hd.
Qed.

Lemma event_ok desk same e s : steady desk -> look_ok s ->
  match look_event desk same e (set_at 0 s) with
  | Ran s' => look_ok s' /\ (notices same e s -> detected desk s')
  | Ended => True
  | OutOfFuel => False
  end.
Proof.
  intros Hst [Hg [g Hgtk] Hl Hk].
  assert (look_ok (set_at 0 s)) as Hok by (by split; try done; exists g).
  unfold look_event. simpl. rewrite Hgtk.
  destruct e as [b|t|params|]; simpl.
  - unfold apply_gtk_theme. simpl. rewrite Hgtk, Hl. simpl.
    destruct (same || negb (Bool.eqb b (prefer_dark g))) eqn:Hn.
    + set (s1 := set_gtk _ _).
      pose proof (notified_ok desk same s1 Hg (mk_is_Some _ _ eq_refl)) as H.
      destruct (notified desk same s1); [|done|done]. destruct H as [H Hl'].
      split; [|intros _; apply H]. eapply settled_ok; [done|by rewrite Hl'].
    + apply orb_false_iff in Hn as [-> Hn]. apply negb_false_iff, eqb_prop in Hn as ->. split.
      * split; simpl; try done. intros ? [= <-]. apply Hk. by rewrite Hgtk; destruct g.
      * intros [?|(g' & [= <-] & ?)]; [done|]. congruence.
  - rewrite Hl. set (s1 := set_gtk _ _).
    pose proof (changed_steady desk same s1 Hst Hg (mk_is_Some _ _ eq_refl)) as H.
    destruct (on_scheme_changed desk same s1); [|done|done]. destruct H as [H Hl'].
    split; [|intros _; apply H]. eapply settled_ok; [done|by rewrite Hl'].
  - pose proof (changed_steady desk same _ Hst (ok_good _ Hok) (ok_gtk _ Hok)) as H.
    unfold portal_signal. destruct (portal_listens s); [|by split; [|intros []]].
    destruct (child_value 1 params) as [v|]; simpl; [|by split; [|intros (_ & ? & ? & _)]].
    destruct (get_string v) as [key|] eqn:Hv; [|by split; [|intros (_ & ? & [= <-] & ?); congruence]].
    destruct (String.eqb key "color-scheme") eqn:Hkey.
    + destruct (on_scheme_changed desk same _); [|done|done]. destruct H as [H Hl'].
      split; [|intros _; apply H]. eapply settled_ok; [done|by rewrite Hl'].
    + split; [done|]. intros (_ & ? & [= <-] & Hv'). rewrite Hv in Hv'. by injection Hv' as ->.
  - pose proof (changed_steady desk same _ Hst (ok_good _ Hok) (ok_gtk _ Hok)) as H.
    destruct (gsettings_listens s); [|by split].
    destruct (on_scheme_changed desk same _); [|done|done]. destruct H as [H Hl'].
    split; [|intros _; apply H]. eapply settled_ok; [done|by rewrite Hl'].
Qed.

Lemma run_ended same r evs : (r = Ended \/ r = OutOfFuel) ->
  foldl (fun r e => and_then r (fun s => look_event e.2 same e.1 (set_at 0 s))) r evs = r.
Proof. intros H. induction evs as [|e evs IH]; [done|]. simpl. by destruct H as [-> | ->]. Qed.

Lemma look_run_ok same evs : forall s, Forall (fun e => steady e.2) evs -> look_ok s ->
  match look_run same evs s with
  | Ran s' => look_ok s'
  | Ended => True
  | OutOfFuel => False
  end.
Proof.
  unfold look_run. induction evs as [|[e D] evs IH]; intros s HF Hs; [done|].
  inversion_clear HF as [|? ? HD HF']. simpl.
  pose proof (event_ok D same e s HD Hs) as H.
  destruct (look_event D same e (set_at 0 s)) as [s'| |]; [|by rewrite run_ended by auto|done].
  destruct H as [H _]. by apply IH.
Qed.

Lemma look_start_ok same desk g s : look_start same desk (Some g) = Ran s -> look_ok s.
Proof.
  unfold look_start, init. simpl.
  destruct (detect_color_scheme (Some g) (desk 0)) as [dark|] eqn:E; [|done]. simpl.
  destruct (catch_unwind _) as [st|]; [|done]. unfold and_then, load_css.
  set (s1 := set_listens _ _ _ _). intros H.
  destruct (apply_css_sheet (IS_DARK s1) false s1) as (s' & Hs' & Hsh & Hd & Hg & Hl & _); [by right|by eexists|].
  rewrite Hs' in H. injection H as <-. split.
  - unfold good. by rewrite Hd.
  - by rewrite Hg.
  - by rewrite Hl.
  - intros g0. rewrite Hg, Hd. simpl. intros [= <-]. done.
Qed.

(** C32: from the start of the program on, whatever happens on the desktop, as long as it
    does not change its answers while one event is handled: the listeners come to an end;
    there is exactly one style sheet of the program, that for the scheme it has; GTK is
    told to be dark only if the program is; and after every event that the program hears
    of, the scheme is the one that detection finds. *)
Theorem look_follows_scheme same desk g s evs :
  look_start same desk (Some g) = Ran s -> Forall (fun e => steady e.2) evs ->
  look_run same evs s <> OutOfFuel /\
  forall s1, look_run same evs s = Ran s1 ->
    (exists id css, generate_css (IS_DARK s1) (bell_hex (IS_DARK s1)) = Some css /\
       providers s1 = [(id, css)] /\ CSS_PROVIDER s1 = Some id) /\
    (forall g1, gtk s1 = Some g1 -> prefer_dark g1 = true -> IS_DARK s1 = true) /\
    (forall e D s2, steady D -> notices same e s1 -> look_event D same e (set_at 0 s1) = Ran s2 ->
       detect_color_scheme (gtk s2) (D 0) = Some (IS_DARK s2)).
Proof.
  intros Hs HF. pose proof (look_run_ok same evs s HF (look_start_ok _ _ _ _ Hs)) as H.
  destruct (look_run same evs s) as [s1| |]; [|by split|done].
  split; [done|]. intros ? [= <-]. split; [apply H|]. split; [apply H|].
  intros e D s2 HD Hn He. pose proof (event_ok D same e s1 HD H) as H2.
  rewrite He in H2. destruct H2 as [_ H2]. destruct (H2 Hn) as [n Hd]. by rewrite (HD n) in Hd.
Qed.

(** ** Where the scheme is not followed *)

(** Once the program and GTK are dark, nothing but another writer of GTK's property makes
    them light: detection asks the property first, and the program has written it. *)
Theorem dark_stays desk same e s s' g :
  gtk s = Some g -> prefer_dark g = true -> IS_DARK s = true -> e <> PreferDarkSet false ->
  look_event desk same e s = Ran s' ->
  IS_DARK s' = true /\ exists g', gtk s' = Some g' /\ prefer_dark g' = true.
Proof.
  intros Hg Hp Hd He.
  assert (forall notify s, (exists g', gtk s = Some g' /\ prefer_dark g' = true) -> IS_DARK s = true ->
    changed_with desk same notify s = Ran (set_at (S (at_ s)) s)) as Hq.
  { clear. intros notify s (g & Hg & Hp) Hd. unfold changed_with. rewrite Hg, detect_prefer by done. simpl. by rewrite Hd. }
  unfold look_event, on_scheme_changed. rewrite Hg. destruct e as [[]|t|params|].
  - unfold apply_gtk_theme. rewrite Hg. case_match; [|intros [= <-]; simpl; eauto].
    unfold notified. simpl. rewrite Hq by (simpl; eauto). simpl. intros [= <-]. simpl. eauto.
  - done.
  - case_match; [rewrite Hq by (simpl; eauto)|]; intros [= <-]; simpl; eauto.
  - unfold portal_signal, on_scheme_changed. rewrite Hq by eauto. repeat case_match; intros [= <-]; simpl; eauto.
  - rewrite Hq by eauto. case_match; intros [= <-]; simpl; eauto.
Qed.

(** The portal's [Read] answers a tuple of one boxed variant, whose type is never that of
    a number: the portal is asked, but never believed. *)
Theorem portal_never_read d v : portal_reply d = Some (VTuple [VVariant v]) -> gio_portal_color_scheme d = None.
Proof. unfold gio_portal_color_scheme. intros ->. by destruct (session_bus d). Qed.

(** GNOME's settings are opened at every start, to listen to them: where opening them ends
    the process, as GIO documents for a schema that is not installed, so ends the start. *)
Theorem start_needs_schema same desk g :
  (forall n, gio_settings_new (desk n) = Terminated) -> look_start same desk g = Ended.
Proof.
  intros H. unfold look_start, init. destruct (detect_color_scheme _ _); [|done].
  unfold apply_gtk_theme. simpl. destruct g; simpl; by rewrite H.
Qed.

(** ** A desktop *)

(** A session bus with a portal, and GNOME's settings with the value [v]. *)
Definition gnome (v : Z) (n : nat) : Desktop :=
  mkDesktop true (Some (VTuple [VVariant (VU32 v)])) (Returned tt) (Returned v).
Definition light_gtk : GtkSettings := mkGtkSettings false (Some "Adwaita").
Definition look_at (r : Outcome) : option (bool * option bool * list nat) :=
  match r with Ran s => Some (IS_DARK s, prefer_dark <$> gtk s, fst <$> providers s) | _ => None end.

(** Light, then dark, then light again in GNOME's settings: the program stays dark. *)
Definition day_and_night : list (Change * (nat -> Desktop)) :=
  [(GSettingsChanged, gnome 1); (PortalSignal (VTuple [VStr "ns"; VStr "color-scheme"; VOther]), gnome 2)].

Example switch_back_missed :
  look_at (and_then (look_start true (gnome 2) (Some light_gtk)) (look_run true day_and_night)) =
    Some (true, Some true, [1]).
Proof. vm_compute. reflexivity. Qed.

(** A desktop that changes its answer between two questions of one event leaves the
    style sheet of the other scheme: the inner change puts its sheet first. *)
Definition turning (n : nat) : Desktop := gnome (match n with O => 2 | S _ => 1 end) n.
Example unsteady_desktop_mismatch :
  match and_then (look_start true (gnome 1) (Some light_gtk))
          (look_run true [(PreferDarkSet false, gnome 1); (GSettingsChanged, turning)]) with
  | Ran s => IS_DARK s = true /\ sheet_is false s
  | _ => False
  end.
Proof.
  vm_compute. split; [reflexivity|].
  eexists _, _. split; [reflexivity|]. split; reflexivity.
Qed.

Definition day_start : Look :=
  match look_start true (gnome 2) (Some light_gtk) with Ran s => s | _ => look_new None end.
Lemma look_follows_scheme_witness :
  IS_DARK day_start = false /\ length day_and_night = 2 /\ look_run true day_and_night day_start <> OutOfFuel.
Proof.
  split; [reflexivity|]. split; [reflexivity|].
  apply (look_follows_scheme true (gnome 2) light_gtk day_start day_and_night); [vm_compute; reflexivity|].
  apply Forall_cons_2; [intros n; reflexivity|]. apply Forall_cons_2; [intros n; reflexivity|apply Forall_nil_2].
Defined.
