(* ===== verification/Signals.v ===== *)
(** * Signals on the session bus (app/src/dbus.rs)

    Every change of the window that other programs can listen to is emitted into a
    broadcast channel of bounded size; a task on the thread of the bus takes signals out
    of it and sends them.  The channel is a library's: [BroadcastOps] lists the calls and
    [BroadcastLaws] what is documented of them, for the one receiver that there is.  The
    events interleave emissions of the main thread with the turns of the task.  The start
    and the stop of the service are at the end, as what they do to the connection. *)

From Stdlib Require Import Ascii.
From S2P Require Import Prelude RustStr RemoteConfig Workspace Notebook Window.
Open Scope string_scope.
Open Scope list_scope.

(** ** The channel *)

Inductive Recv (A : Type) := RecvOk (a : A) | RecvLagged (n : nat) | RecvClosed.
Arguments RecvOk {A}. Arguments RecvLagged {A}. Arguments RecvClosed {A}.

(** [bc_waiting] is what a receiver has in front of it: how many values it has missed
    since it was last told, and the values still kept for it; [None] without a receiver.
    [bc_recv] is [None] when there is nothing yet. *)
Class BroadcastOps (Ch A : Type) := {
  bc_channel : nat -> Ch;
  bc_capacity : Ch -> nat;
  bc_subscribe : Ch -> Ch;
  bc_drop_receiver : Ch -> Ch;
  bc_send : A -> Ch -> Ch;
  bc_recv : Ch -> option (Recv A * Ch);
  bc_waiting : Ch -> option (nat * list A);
}.
Arguments bc_channel {Ch A _}. Arguments bc_capacity {Ch A _}. Arguments bc_subscribe {Ch A _}.
Arguments bc_drop_receiver {Ch A _}.

(** A full channel forgets its oldest value. *)
Definition pushed {A} (cap : nat) (a : A) (w : nat * list A) : nat * list A :=
  let '(k, q) := w in
  if decide (length q < cap) then (k, q ++ [a]) else (S k, tail (q ++ [a])).

Class BroadcastLaws (Ch A : Type) `{!BroadcastOps Ch A} := {
  bc_channel_capacity n : n <= bc_capacity (bc_channel n);
  bc_channel_waiting n : bc_waiting (bc_channel n) = None;
  bc_subscribe_waiting c : bc_waiting (bc_subscribe c) = Some (0, []);
  bc_subscribe_capacity c : bc_capacity (bc_subscribe c) = bc_capacity c;
  bc_drop_waiting c : bc_waiting (bc_drop_receiver c) = None;
  bc_drop_capacity c : bc_capacity (bc_drop_receiver c) = bc_capacity c;
  bc_send_waiting c a : bc_waiting (bc_send a c) = pushed (bc_capacity c) a <$> bc_waiting c;
  bc_send_capacity c a : bc_capacity (bc_send a c) = bc_capacity c;
  bc_recv_lagged c k q : bc_waiting c = Some (S k, q) ->
    exists c', bc_recv c = Some (RecvLagged (S k), c') /\ bc_waiting c' = Some (0, q) /\ bc_capacity c' = bc_capacity c;
  bc_recv_value c a q : bc_waiting c = Some (0, a :: q) ->
    exists c', bc_recv c = Some (RecvOk a, c') /\ bc_waiting c' = Some (0, q) /\ bc_capacity c' = bc_capacity c;
  bc_recv_nothing c : bc_waiting c = Some (0, []) -> bc_recv c = None;
}.

(** ** What goes out *)

Inductive DArg := DU32 (n : Z) | DStr (s : string).

(** Member and arguments of the signal on [com.limuxapp.Limux1]. *)
Definition signal_message (s : DbusSignal) : string * list DArg :=
  match s with
  | WorkspaceCreated id title => ("WorkspaceCreated", [DU32 id; DStr title])
  | WorkspaceClosed id => ("WorkspaceClosed", [DU32 id])
  | WorkspaceSwitched id => ("WorkspaceSwitched", [DU32 id])
  | WorkspaceRenamed id title => ("WorkspaceRenamed", [DU32 id; DStr title])
  | BellFired ws sid => ("BellFired", [DU32 ws; DU32 sid])
  | TitleChanged sid title => ("TitleChanged", [DU32 sid; DStr title])
  | RemoteStateChanged ws state detail => ("RemoteStateChanged", [DU32 ws; DStr state; DStr detail])
  end.

(** A signal with whether sending it worked, and the line on standard error that says how
    many were lost. *)
Inductive Out := OutSignal (m : string * list DArg) (ok : bool) | OutDropped (n : nat).

(** ** The task *)

Inductive Forwarder := NotStarted | LookingUp | Serving | Gone.

Section signals.
Context {Ch : Type} `{!BroadcastOps Ch DbusSignal}.

Record SignalBus := mkSignals { SIGNAL_TX : option Ch; forwarder : Forwarder; out : list Out }.
Definition signals_new : SignalBus := mkSignals None NotStarted [].

Definition emit (s : DbusSignal) (b : SignalBus) : SignalBus :=
  match SIGNAL_TX b with
  | Some tx => mkSignals (Some (bc_send s tx)) (forwarder b) (out b)
  | None => b
  end.

(** The task starts, finds the interface or not, and then goes round its loop; [ok] is
    whether sending the signal works. *)
Inductive SignalEvent := EmitSignal (s : DbusSignal) | StartTask | Found (iface : bool) | Round (ok : bool).

Definition forward_one (ok : bool) (tx : Ch) (b : SignalBus) : SignalBus :=
  match bc_recv tx with
  | None => b
  | Some (RecvOk s, tx) => mkSignals (Some tx) Serving (out b ++ [OutSignal (signal_message s) ok])
  | Some (RecvLagged n, tx) => mkSignals (Some tx) Serving (out b ++ [OutDropped n])
  | Some (RecvClosed, tx) => mkSignals (Some (bc_drop_receiver tx)) Gone (out b)
  end.

Definition signal_step (b : SignalBus) (e : SignalEvent) : SignalBus :=
  match e, forwarder b, SIGNAL_TX b with
  | EmitSignal s, _, _ => emit s b
  | StartTask, NotStarted, tx =>
      mkSignals (Some (bc_subscribe (default (bc_channel 64) tx))) LookingUp (out b)
  | Found true, LookingUp, tx => mkSignals tx Serving (out b)
  | Found false, LookingUp, Some tx => mkSignals (Some (bc_drop_receiver tx)) Gone (out b)
  | Round ok, Serving, Some tx => forward_one ok tx b
  | _, _, _ => b
  end.

Definition run_signals (l : list SignalEvent) (b : SignalBus) : SignalBus := foldl signal_step b l.

(** What is emitted while the task is not yet running is for nobody. *)
Definition started (e : SignalEvent) : bool := match e with StartTask => true | _ => false end.
Fixpoint heard (listening : bool) (l : list SignalEvent) : list DbusSignal :=
  match l with
  | [] => []
  | EmitSignal s :: l => (if listening then [s] else []) ++ heard listening l
  | e :: l => heard (listening || started e) l
  end.

End signals.
Arguments SignalBus : clear implicits.

(** ** What the bus is told of what was emitted *)

(** [accounts o l]: [o] is what went out for the signals [l], each of which is sent, in
    order, or counted in a line that says that signals were lost. *)
Inductive accounts : list Out -> list DbusSignal -> Prop :=
  | accounts_nil : accounts [] []
  | accounts_sent o l s ok : accounts o l -> accounts (o ++ [OutSignal (signal_message s) ok]) (l ++ [s])
  | accounts_dropped o l lost : accounts o l -> accounts (o ++ [OutDropped (length lost)]) (l ++ lost).

(** ** Proofs *)

Section proofs.
Context {Ch : Type} `{!BroadcastOps Ch DbusSignal, !BroadcastLaws Ch DbusSignal}.
Implicit Types (b : SignalBus Ch) (tx : Ch).

Definition listening b : bool := match forwarder b with NotStarted => false | _ => true end.

(** Between the channel and the bus no signal of [h] is unaccounted for. *)
Definition tells (o : list Out) (tx : Ch) (h : list DbusSignal) : Prop :=
  64 <= bc_capacity tx /\ exists k q acc lost, bc_waiting tx = Some (k, q) /\ length q <= bc_capacity tx /\
    accounts o acc /\ length lost = k /\ h = acc ++ lost ++ q.

Definition signals_ok (h : list DbusSignal) b : Prop :=
  match forwarder b with
  | NotStarted => SIGNAL_TX b = None /\ out b = [] /\ h = []
  | LookingUp | Serving => exists tx, SIGNAL_TX b = Some tx /\ tells (out b) tx h /\ (forwarder b = LookingUp -> out b = [])
  | Gone => exists tx, SIGNAL_TX b = Some tx /\ out b = [] /\ bc_waiting tx = None
  end.

Lemma tells_send o tx h s : tells o tx h -> tells o (bc_send s tx) (h ++ [s]).
Proof.
  intros (Hc & k & q & acc & lost & Hw & Hq & Ha & Hk & ->).
  unfold tells. rewrite bc_send_capacity, bc_send_waiting, Hw. split; [done|]. simpl.
  destruct (decide (length q < bc_capacity tx)) as [Hlt|Hge].
  - exists k, (q ++ [s]), acc, lost. rewrite length_app. simpl. rewrite <- !app_assoc. repeat split; try done. lia.
  - destruct q as [|a q]; simpl in *; [lia|].
    exists (S k), (q ++ [s]), acc, (lost ++ [a]). rewrite !length_app. simpl.
    rewrite <- !app_assoc. simpl. repeat split; try done; lia.
Qed.

Lemma signals_emit h b s : signals_ok h b -> signals_ok (h ++ if listening b then [s] else []) (emit s b).
Proof.
  unfold signals_ok, listening, emit. destruct (forwarder b) eqn:Hf.
  - intros (Htx & Ho & ->). rewrite Htx. simpl. by rewrite Hf.
  - intros (tx & -> & Ht & Ho). simpl. eauto using tells_send.
  - intros (tx & -> & Ht & Ho). simpl. eauto using tells_send.
  - intros (tx & -> & Ho & Hw). simpl. eexists. split; [done|]. split; [done|].
    by rewrite bc_send_waiting, Hw.
Qed.

Lemma forward_ok h b tx ok : forwarder b = Serving -> SIGNAL_TX b = Some tx -> tells (out b) tx h ->
  exists tx', SIGNAL_TX (forward_one ok tx b) = Some tx' /\ tells (out (forward_one ok tx b)) tx' h /\
    forwarder (forward_one ok tx b) = Serving.
Proof.
  intros Hf Htx (Hc & k & q & acc & lost & Hw & Hq & Ha & Hk & ->). unfold forward_one.
  destruct k as [|k]; [destruct q as [|a q]|].
  - rewrite bc_recv_nothing by done. exists tx. split; [done|]. split; [|done].
    split; [done|]. by exists 0, [], acc, lost.
  - destruct (bc_recv_value tx a q Hw) as (tx' & -> & Hw' & Hc'). simpl. exists tx'.
    split; [done|]. split; [|done]. unfold tells. rewrite Hc'. split; [done|].
    apply nil_length_inv in Hk as ->. simpl in *. exists 0, q, (acc ++ [a]), [].
    rewrite <- app_assoc. repeat split; [done|lia|by constructor].
  - destruct (bc_recv_lagged tx k q Hw) as (tx' & -> & Hw' & Hc'). simpl. exists tx'.
    split; [done|]. split; [|done]. unfold tells. rewrite Hc'. split; [done|].
    exists 0, q, (acc ++ lost), []. rewrite <- app_assoc, <- Hk. repeat split; try done. by constructor.
Qed.

Lemma subscribed_tells tx : 64 <= bc_capacity tx -> tells [] (bc_subscribe tx) [].
Proof.
  intros H. unfold tells. rewrite bc_subscribe_capacity, bc_subscribe_waiting. split; [done|].
  exists 0, [], [], []. simpl. repeat split; [lia|constructor].
Qed.

Lemma signal_step_ok h b e : signals_ok h b ->
  signals_ok (h ++ match e with EmitSignal s => if listening b then [s] else [] | _ => [] end) (signal_step b e) /\
  listening (signal_step b e) = listening b || started e.
Proof.
  intros H. destruct e as [s| |f|ok].
  - simpl. split; [by apply signals_emit|]. unfold emit, listening. rewrite orb_false_r. by destruct (SIGNAL_TX b).
  - rewrite app_nil_r. unfold signal_step, listening, signals_ok in *.
    destruct (forwarder b) eqn:Hf; rewrite ?Hf; try done. destruct H as (-> & -> & ->). simpl.
    split; [|done]. eexists. split; [done|]. split; [|done].
    apply subscribed_tells, bc_channel_capacity.
  - rewrite app_nil_r, orb_false_r. unfold signal_step, listening, signals_ok in *.
    destruct f, (forwarder b) eqn:Hf; rewrite ?Hf; try done.
    + destruct H as (tx & -> & Ht & Ho). simpl. split; [|done]. by exists tx.
    + destruct H as (tx & -> & Ht & Ho). simpl. split; [|done]. eexists. split; [done|].
      split; [auto|]. by rewrite bc_drop_waiting.
  - rewrite app_nil_r, orb_false_r. unfold signal_step, listening, signals_ok in *.
    destruct (forwarder b) eqn:Hf; rewrite ?Hf; try done. destruct H as (tx & Htx & Ht & _).
    rewrite Htx. destruct (forward_ok h b tx ok Hf Htx Ht) as (tx' & ? & ? & Hf'). rewrite Hf'.
    split; [|done]. by exists tx'.
Qed.

Lemma run_signals_ok l : forall h b, signals_ok h b -> signals_ok (h ++ heard (listening b) l) (run_signals l b).
Proof.
  induction l as [|e l IH]; intros h b H; simpl; [by rewrite app_nil_r|].
  destruct (signal_step_ok h b e H) as [H1 H2]. specialize (IH _ _ H1). rewrite H2, <- app_assoc in IH.
  revert IH. by destruct e; simpl; rewrite ?orb_false_r.
Qed.

(** What waits is sent, in order, by as many rounds. *)
Lemma rounds_send oks : forall b tx q, forwarder b = Serving -> SIGNAL_TX b = Some tx -> bc_waiting tx = Some (0, q) ->
  length oks = length q ->
  out (run_signals (Round <$> oks) b) = out b ++ zip_with (fun s ok => OutSignal (signal_message s) ok) q oks.
Proof.
  induction oks as [|ok oks IH]; intros b tx q Hf Htx Hw Hlen; destruct q as [|a q]; try done; simpl.
  { by rewrite app_nil_r. }
  rewrite Hf, Htx. unfold forward_one. destruct (bc_recv_value tx a q Hw) as (tx' & -> & Hw' & _).
  erewrite IH; [|done..|simpl in Hlen; lia]. simpl. by rewrite <- app_assoc.
Qed.

Lemma burst_kept es : forall b tx q, forwarder b = Serving -> SIGNAL_TX b = Some tx -> bc_waiting tx = Some (0, q) ->
  length q + length es <= bc_capacity tx ->
  exists tx', run_signals (EmitSignal <$> es) b = mkSignals (Some tx') Serving (out b) /\ bc_waiting tx' = Some (0, q ++ es).
Proof.
  induction es as [|s es IH]; intros b tx q Hf Htx Hw Hlen.
  { exists tx. rewrite app_nil_r. split; [|done]. destruct b; simpl in *. by subst. }
  simpl in Hlen. change (run_signals (EmitSignal <$> s :: es) b) with (run_signals (EmitSignal <$> es) (emit s b)).
  unfold emit. rewrite Htx, Hf.
  destruct (IH (mkSignals (Some (bc_send s tx)) Serving (out b)) (bc_send s tx) (q ++ [s])) as (tx' & -> & Hw'); [done..| | |].
  - rewrite bc_send_waiting, Hw. simpl. rewrite decide_True by lia. done.
  - rewrite bc_send_capacity, length_app. simpl. lia.
  - exists tx'. by rewrite <- app_assoc in Hw'.
Qed.

(** C26: however emissions and the turns of the task interleave, every signal that is
    emitted once the task has started is sent on the bus with its own message, in the
    order of emission, or is counted in a report of losses, or still waits in the channel,
    which keeps the last 64 at least; without the interface nothing is ever sent; and when
    the task has caught up, a burst of at most 64 signals is sent whole by as many rounds. *)
Theorem signals_forwarded l :
  let b := run_signals l (signals_new (Ch := Ch)) in
  (forwarder b = LookingUp \/ forwarder b = Serving ->
     exists tx k q acc lost, SIGNAL_TX b = Some tx /\ bc_waiting tx = Some (k, q) /\
       64 <= bc_capacity tx /\ length q <= bc_capacity tx /\
       accounts (out b) acc /\ length lost = k /\ heard false l = acc ++ lost ++ q) /\
  (forwarder b <> Serving -> out b = []) /\
  (forall tx es oks, forwarder b = Serving -> SIGNAL_TX b = Some tx -> bc_waiting tx = Some (0, []) ->
     length es <= 64 -> length oks = length es ->
     out (run_signals ((EmitSignal <$> es) ++ (Round <$> oks)) b) =
       out b ++ zip_with (fun s ok => OutSignal (signal_message s) ok) es oks).
Proof.
  intros b. assert (signals_ok (heard false l) b) as H by (by apply (run_signals_ok l [] signals_new)).
  unfold signals_ok in H. split; [|split].
  - intros Hf. destruct (forwarder b); try by destruct Hf.
    + destruct H as (tx & ? & (? & k & q & acc & lost & ? & ? & ? & ? & ?) & _). by exists tx, k, q, acc, lost.
    + destruct H as (tx & ? & (? & k & q & acc & lost & ? & ? & ? & ? & ?) & _). by exists tx, k, q, acc, lost.
  - intros Hf. destruct (forwarder b); [apply H| |done|].
    + destruct H as (? & _ & _ & H). by apply H.
    + by destruct H as (? & _ & H & _).
  - intros tx es oks Hf Htx Hw Hes Hoks. rewrite Hf in H. destruct H as (tx' & Htx' & [Hc _] & _).
    rewrite Htx in Htx'. injection Htx' as <-.
    unfold run_signals. rewrite foldl_app. fold (run_signals (EmitSignal <$> es) b).
    destruct (burst_kept es b tx [] Hf Htx Hw) as (tx' & -> & Hw'); [simpl; lia|].
    exact (rounds_send oks (mkSignals (Some tx') Serving (out b)) tx' es eq_refl eq_refl Hw' Hoks).
Qed.
End proofs.

(** ** An implementation of the channel *)

Record list_channel (A : Type) := mkChannel { lc_capacity : nat; lc_waiting : option (nat * list A) }.
Arguments mkChannel {A}. Arguments lc_capacity {A}. Arguments lc_waiting {A}.

Definition lc_recv {A} (c : list_channel A) : option (Recv A * list_channel A) :=
  match lc_waiting c with
  | Some (0, a :: q) => Some (RecvOk a, mkChannel (lc_capacity c) (Some (0, q)))
  | Some (S k, q) => Some (RecvLagged (S k), mkChannel (lc_capacity c) (Some (0, q)))
  | _ => None
  end.

#[export] Instance list_channel_ops A : BroadcastOps (list_channel A) A := {
  bc_channel n := mkChannel n None;
  bc_capacity := lc_capacity;
  bc_subscribe c := mkChannel (lc_capacity c) (Some (0, []));
  bc_drop_receiver c := mkChannel (lc_capacity c) None;
  bc_send a c := mkChannel (lc_capacity c) (pushed (lc_capacity c) a <$> lc_waiting c);
  bc_recv := lc_recv;
  bc_waiting := lc_waiting;
}.
#[export] Instance list_channel_laws A : BroadcastLaws (list_channel A) A.
Proof.
  split; simpl; try done.
  - intros c k q Hw. unfold lc_recv. rewrite Hw. by eexists.
  - intros c a q Hw. unfold lc_recv. rewrite Hw. by eexists.
  - intros c Hw. unfold lc_recv. by rewrite Hw.
Qed.

(** A task that finds the interface, then a burst that the task catches up with. *)
Definition up : list SignalEvent :=
  [EmitSignal (WorkspaceCreated 1 "lost"); StartTask; EmitSignal (WorkspaceCreated 2 "kept"); Found true; Round true].
Definition up_bus : SignalBus (list_channel DbusSignal) := run_signals up signals_new.
Lemma signals_forwarded_witness :
  out up_bus = [OutSignal ("WorkspaceCreated", [DU32 2; DStr "kept"]) true] /\
  out (run_signals ((EmitSignal <$> [WorkspaceSwitched 2; BellFired 2 7]) ++ (Round <$> [true; false])) up_bus) =
    out up_bus ++ [OutSignal ("WorkspaceSwitched", [DU32 2]) true; OutSignal ("BellFired", [DU32 2; DU32 7]) false].
Proof.
  split; [reflexivity|].
  apply (proj2 (proj2 (signals_forwarded (Ch := list_channel DbusSignal) up)) (mkChannel 64 (Some (0, [])))
           [WorkspaceSwitched 2; BellFired 2 7] [true; false]); try reflexivity.
  simpl. lia.
Defined.

(** ** Signals of the window *)

(** The signals among the effects of an operation of the window, in their order. *)
Definition emitted (l : list Effect) : list DbusSignal :=
  omap (fun e => match e with Emit s => Some s | _ => None end) l.

(** [push_state], run on the main thread. *)
Definition push_state {NB} `{!NotebookOps NB} (id : WorkspaceId) (st : RemoteConnectionState)
    (ds : option RemoteDaemonStatus) (detail : option string) (aw : AppWindow NB) : AppWindow NB :=
  effect (Emit (RemoteStateChanged id (RemoteConnectionState_as_str st) (default "" detail)))
    (update_remote_state id st ds aw).

(** A change of the connection's state is announced even for a workspace that is gone. *)
Theorem remote_state_announced {NB} `{!NotebookOps NB} id st ds detail (aw : AppWindow NB) :
  emitted (effects (push_state id st ds detail aw)) =
    emitted (effects aw) ++ [RemoteStateChanged id (RemoteConnectionState_as_str st) (default "" detail)].
Proof.
  unfold push_state, emitted. simpl. rewrite omap_app. simpl. do 2 f_equal.
Qed.

(** ** Start and stop *)

(** [ping] and [version] are answered on the thread of the bus. *)
Definition ping : string := "pong".
Definition version (pkg_version : string) : string := "limux " +:+ pkg_version.

(** How the thread of the service fares: it is not spawned, has no runtime, fails to
    reach the session bus, to own the name or to serve, or serves until the end of the
    process. *)
Inductive ServiceRun := NoThread | NoRuntime (e : string) | BuildFailed (e : string) | Served.

(** The static with the connection, the owners of the connection besides it, and what was
    printed. *)
Record Service := mkService { DBUS_CONN : bool; owners : nat; printed : list string }.
Definition service_new : Service := mkService false 0 [].

(** [run_service] keeps the connection itself while it waits for ever, and the task of the
    signals has another clone. *)
Definition service_start (r : ServiceRun) (s : Service) : Service :=
  match r with
  | NoThread => s
  | NoRuntime e => mkService (DBUS_CONN s) (owners s) (printed s ++ ["[dbus] failed to create runtime: " +:+ e])
  | BuildFailed e => mkService (DBUS_CONN s) (owners s) (printed s ++ ["[dbus] service error: " +:+ e])
  | Served => mkService true (S (S (owners s))) (printed s)
  end.
Definition service_stop (s : Service) : Service := mkService false (owners s) (printed s).

(** The connection is closed when nobody owns it any more. *)
Definition connected (s : Service) : bool := DBUS_CONN s || bool_decide (0 < owners s).

(** [stop] empties the static, but the service goes on: its other owners never end. *)
Theorem stop_keeps_service s : connected (service_stop (service_start Served s)) = true.
Proof. reflexivity. Qed.
