(* ===== verification/SocketHost.v ===== *)
(** * The socket of each instance (app/src/socket.rs: start and stop)

    Several instances of the program share the files of a host.  Each removes what is at
    the path of its socket, binds it, tells its shells about it in [LIMUX_SOCKET], accepts
    connections, and removes the file when it stops.  The claim is that instances with
    their default paths never come in each other's way, through any sequence of starts,
    stops and crashes, so that the client in a shell reaches the window it is in. *)

From Stdlib Require Import Ascii.
From S2P Require Import Prelude RustStr Workspace Surfaces RemoteConfig Session Socket Cli CliMain.
Open Scope string_scope.
Open Scope list_scope.

(** ** Files and processes *)

(** What is at a path: the socket that a process has bound, or something else. *)
Inductive FileNode := SocketOf (pid : Z) | OtherNode.

(** One instance: the static of the path for [stop], the variable its shells inherit,
    whether its listener is polled, the connections it has, and what it printed. *)
Record Instance_ := mkInstance {
  SOCKET_PATH : option string; LIMUX_SOCKET : option string; polled : bool; clients : list nat;
  printed : list string;
}.

Record Host := mkHost { nodes : gmap string FileNode; procs : gmap Z Instance_ }.

(** [/tmp/limux-<pid>.sock]. *)
Definition default_path (pid : Z) : string := "/tmp/limux-" +:+ show_uint pid +:+ ".sock".
Definition chosen_path (path : option string) (pid : Z) : string := default (default_path pid) path.

(** ** Start *)

(** What the system answers: whether the file at the path could be removed, if there was
    one, and whether the path could be bound, given that nothing is there. *)
Record StartAnswers := mkAnswers { removed : bool; bind_error : option string }.

Definition remove_file (p : string) (works : bool) (n : gmap string FileNode) : gmap string FileNode :=
  if works then delete p n else n.

(** [UnixListener::bind]: a path that exists is in use. *)
Definition bind (p : string) (pid : Z) (err : option string) (n : gmap string FileNode) :
    string + gmap string FileNode :=
  match n !! p, err with
  | Some _, _ => inl "Address already in use (os error 98)"
  | None, Some e => inl e
  | None, None => inr (<[p := SocketOf pid]> n)
  end.

(** [outer] is the variable that the process was started with; a failure to set the
    permissions or the non-blocking mode is ignored. *)
Definition start (pid : Z) (path outer : option string) (a : StartAnswers) (h : Host) : Host :=
  let p := chosen_path path pid in
  let n := remove_file p (removed a) (nodes h) in
  match bind p pid (bind_error a) n with
  | inl e =>
      mkHost n (<[pid := mkInstance None outer false [] ["Failed to bind socket at " +:+ p +:+ ": " +:+ e]]> (procs h))
  | inr n =>
      mkHost n (<[pid := mkInstance (Some p) (Some p) true [] ["Socket listening on: " +:+ p]]> (procs h))
  end.

(** ** Stop and crash *)

(** [stop] does not look whose socket is at the path; after it the process ends. *)
Definition stop (pid : Z) (works : bool) (h : Host) : Host :=
  match procs h !! pid with
  | Some i =>
      mkHost (match SOCKET_PATH i with Some p => remove_file p works (nodes h) | None => nodes h end)
        (delete pid (procs h))
  | None => h
  end.
Definition crash (pid : Z) (h : Host) : Host := mkHost (nodes h) (delete pid (procs h)).

(** ** Connections *)

(** The process that a client of the path reaches: the one that bound what is there, if
    it still runs. *)
Definition reaches (h : Host) (p : string) : option Z :=
  match nodes h !! p with
  | Some (SocketOf pid) =>
      i ← procs h !! pid; if polled i then Some pid else None
  | _ => None
  end.

(** The callback of the listener. *)
Inductive Accept := Accepted (conn : nat) | AcceptWouldBlock | AcceptError (e : string).
Definition on_incoming (a : Accept) (i : Instance_) : Instance_ :=
  match a with
  | Accepted c => mkInstance (SOCKET_PATH i) (LIMUX_SOCKET i) (polled i) (clients i ++ [c]) (printed i)
  | AcceptWouldBlock => i
  | AcceptError e =>
      mkInstance (SOCKET_PATH i) (LIMUX_SOCKET i) (polled i) (clients i) (printed i ++ ["Socket accept error: " +:+ e])
  end.

(** [socket_path]. *)
Definition socket_path (i : Instance_) : option string := SOCKET_PATH i.

(** ** Histories of a host *)

(** No instance is given a path of the form of the default ones. *)
Definition explicit (path : option string) : Prop := forall p pid, path = Some p -> p <> default_path pid.

(** A process that starts has an identifier that no running process has. *)
Inductive host_step : Host -> Host -> Prop :=
  | step_start h pid path outer a : procs h !! pid = None -> (0 <= pid <= u32_max)%Z -> explicit path ->
      host_step h (start pid path outer a h)
  | step_stop h pid works : host_step h (stop pid works h)
  | step_crash h pid : host_step h (crash pid h)
  | step_incoming h pid i a : procs h !! pid = Some i ->
      host_step h (mkHost (nodes h) (<[pid := on_incoming a i]> (procs h))).

(** ** Paths are not shared *)

Lemma default_path_inj x y : (0 <= x <= u32_max)%Z -> (0 <= y <= u32_max)%Z -> default_path x = default_path y -> x = y.
Proof.
  intros Hx Hy H. unfold default_path in H.
  assert (show_uint x +:+ ".sock" = show_uint y +:+ ".sock") as H1.
  { pose proof (strip_prefix_app "/tmp/limux-" (show_uint x +:+ ".sock")) as E. rewrite H, strip_prefix_app in E.
    by injection E. }
  pose proof (split_once_app "." (show_uint x) "sock" (show_uint_no_byte "." x eq_refl)) as E.
  change (String "." "sock") with ".sock" in E. rewrite H1 in E.
  change ".sock" with (String "." "sock") in E.
  rewrite split_once_app in E by (by apply show_uint_no_byte). injection E as E.
  pose proof (parse_show_uint u32_max x Hx) as Hpx. rewrite <- E, (parse_show_uint u32_max y Hy) in Hpx. congruence.
Qed.

(** What every running instance has. *)
Record instance_ok (h : Host) (pid : Z) (i : Instance_) : Prop := {
  io_pid : (0 <= pid <= u32_max)%Z;
  io_none : SOCKET_PATH i = None -> polled i = false;
  io_some p : SOCKET_PATH i = Some p ->
    polled i = true /\ LIMUX_SOCKET i = Some p /\ (p = default_path pid \/ forall q, p <> default_path q);
  io_file : SOCKET_PATH i = Some (default_path pid) -> nodes h !! default_path pid = Some (SocketOf pid);
}.
Definition host_ok (h : Host) : Prop := forall pid i, procs h !! pid = Some i -> instance_ok h pid i.

(** An instance keeps its file when the files of another path change. *)
Lemma instance_frame h n ps pid i p :
  instance_ok h pid i -> (p = default_path pid -> False) -> (forall q, q <> p -> n !! q = nodes h !! q) ->
  instance_ok (mkHost n ps) pid i.
Proof.
  intros [] Hp Hn. split; try done. simpl. intros H. rewrite Hn; [auto|]. intros E. by apply Hp.
Qed.

(** The path of an instance is not the default one of another. *)
Lemma others_path h pid i q p : instance_ok h pid i -> (0 <= q <= u32_max)%Z -> pid <> q ->
  SOCKET_PATH i = Some p -> p <> default_path q.
Proof.
  intros [] Hq Hne Hp. destruct (io_some0 p Hp) as (_ & _ & [->|H]); [|apply H].
  intros E. by apply Hne, default_path_inj.
Qed.

Lemma bind_elsewhere p pid e n n' q : bind p pid e n = inr n' -> q <> p -> n' !! q = n !! q.
Proof. unfold bind. destruct (n !! p), e; intros [= <-]. intros Hq. by rewrite lookup_insert_ne. Qed.

Lemma host_start_ok h pid path outer a : host_ok h -> (0 <= pid <= u32_max)%Z -> explicit path ->
  host_ok (start pid path outer a h).
Proof.
  intros H Hpid Hex.
  assert (forall q, q <> pid -> (0 <= q <= u32_max)%Z -> chosen_path path pid = default_path q -> False) as Hne.
  { intros q Hq Hr E. destruct path as [p|]; simpl in E; [by eapply Hex|]. by apply Hq, default_path_inj. }
  assert (forall q, q <> chosen_path path pid -> remove_file (chosen_path path pid) (removed a) (nodes h) !! q = nodes h !! q) as Hrm.
  { intros q Hq. unfold remove_file. case_match; [by rewrite lookup_delete_ne|done]. }
  intros q i. unfold start. cbv zeta.
  destruct (bind _ _ _ _) as [e|n] eqn:Hb; simpl.
  - destruct (decide (q = pid)) as [->|Hq].
    + rewrite lookup_insert_eq. intros [= <-]. by split.
    + rewrite lookup_insert_ne by done. intros Hi. eapply instance_frame; [by apply H| |apply Hrm].
      apply Hne; [done|]. by destruct (H _ _ Hi).
  - destruct (decide (q = pid)) as [->|Hq].
    + rewrite lookup_insert_eq. intros [= <-]. split; simpl; try done.
      * intros p [= <-]. split; [done|]. split; [done|]. destruct path as [p|]; [right|by left].
        intros q. by apply Hex.
      * intros [= Hp]. unfold bind in Hb. destruct (_ !! _), (bind_error a); try done.
        injection Hb as <-. rewrite Hp. apply lookup_insert_eq.
    + rewrite lookup_insert_ne by done. intros Hi. eapply instance_frame; [by apply H| |].
      * apply Hne; [done|]. by destruct (H _ _ Hi).
      * intros p Hp. by rewrite (bind_elsewhere _ _ _ _ _ _ Hb Hp), Hrm.
Qed.

Lemma stop_ok h pid works : host_ok h -> host_ok (stop pid works h).
Proof.
  intros H. unfold stop. destruct (procs h !! pid) as [i|] eqn:Hi; [|done].
  intros q j. simpl. intros [Hq Hj]%lookup_delete_Some.
  pose proof (H _ _ Hi) as Hio. pose proof (H _ _ Hj) as Hjo.
  destruct (SOCKET_PATH i) as [p|] eqn:Hp; [|by destruct Hjo; split].
  eapply (instance_frame h _ _ q j p); [done| |].
  - apply (others_path h pid i q p Hio); [by destruct Hjo|done|done].
  - intros r Hr. unfold remove_file. case_match; [by rewrite lookup_delete_ne|done].
Qed.

Lemma host_step_ok h h' : host_step h h' -> host_ok h -> host_ok h'.
Proof.
  intros Hs H. destruct Hs as [h pid path outer a _ Hpid Hex|h pid works|h pid|h pid i a Hi].
  - by apply host_start_ok.
  - by apply stop_ok.
  - intros q j. simpl. intros [_ Hj]%lookup_delete_Some. by destruct (H _ _ Hj); split.
  - intros q j. simpl. destruct (decide (q = pid)) as [->|Hq].
    + rewrite lookup_insert_eq. intros [= <-]. by destruct (H _ _ Hi), a; split.
    + rewrite lookup_insert_ne by done. intros Hj. by destruct (H _ _ Hj); split.
Qed.

(** C30: on a host whose files are arbitrary and where nothing runs at first, through any
    sequence of starts, stops and crashes, as long as no instance is given a path of the
    form of the default ones: a client in a shell of an instance that has its default
    path finds that path in its environment and reaches this very instance; an instance
    can always be started again over what a crash has left; and when it stops the file is
    gone. *)
Theorem default_sockets_reach h0 h pid :
  procs h0 = ∅ -> rtc host_step h0 h -> (0 <= pid <= u32_max)%Z ->
  (forall i, procs h !! pid = Some i -> SOCKET_PATH i = Some (default_path pid) ->
     resolve None (LIMUX_SOCKET i) = inl (default_path pid) /\ reaches h (default_path pid) = Some pid /\
     nodes (stop pid true h) !! default_path pid = None) /\
  (forall outer, procs h !! pid = None ->
     exists i, procs (start pid None outer (mkAnswers true None) h) !! pid = Some i /\
       SOCKET_PATH i = Some (default_path pid)).
Proof.
  intros H0 Hs Hpid.
  assert (host_ok h) as H.
  { eapply (rtc_preserves host_step host_ok); [apply host_step_ok| |done]. intros q i. by rewrite H0. }
  split.
  - intros i Hi Hp. destruct (H _ _ Hi) as [_ _ Hsome Hfile]. destruct (Hsome _ Hp) as (Hl & -> & _).
    split; [done|]. split; [unfold reaches; by rewrite (Hfile Hp), Hi; simpl; rewrite Hl|].
    unfold stop. rewrite Hi, Hp. simpl. apply lookup_delete_eq.
  - intros outer Hn. unfold start, bind, remove_file. simpl. rewrite lookup_delete_eq. simpl.
    eexists. split; [apply lookup_insert_eq|done].
Qed.

(** Two windows and a crash between them; the second is asked for. *)
Definition two_windows : Host :=
  start 8 None (Some "/tmp/limux-7.sock") (mkAnswers true None)
    (start 7 None None (mkAnswers true None) (crash 7 (start 7 None None (mkAnswers true None) (mkHost ∅ ∅)))).
Lemma default_sockets_reach_witness :
  exists i, procs two_windows !! 8%Z = Some i /\ reaches two_windows (default_path 8) = Some 8%Z.
Proof.
  eexists. split; [vm_compute; reflexivity|].
  eapply (proj1 (default_sockets_reach (mkHost ∅ ∅) two_windows 8 eq_refl
    ltac:(unfold two_windows;
          eapply rtc_l; [apply (step_start _ 7 None None (mkAnswers true None)); [reflexivity|unfold u32_max; lia|discriminate]|];
          eapply rtc_l; [apply (step_crash _ 7)|];
          eapply rtc_l; [apply (step_start _ 7 None None (mkAnswers true None)); [reflexivity|unfold u32_max; lia|discriminate]|];
          eapply rtc_l; [apply (step_start _ 8 None (Some "/tmp/limux-7.sock") (mkAnswers true None)); [reflexivity|unfold u32_max; lia|discriminate]|];
          apply rtc_refl) ltac:(unfold u32_max; lia))); vm_compute; reflexivity.
Defined.

(** ** Where instances come in each other's way *)

(** With the same explicit path the second instance takes the socket of the first, and
    the first, when it stops, removes that of the second, which nobody reaches any more. *)
Theorem stop_removes_other_socket h p x y outer :
  x <> y -> procs h !! x = None -> procs h !! y = None ->
  let h1 := start x (Some p) outer (mkAnswers true None) h in
  let h2 := start y (Some p) outer (mkAnswers true None) h1 in
  reaches h1 p = Some x /\ reaches h2 p = Some y /\
  reaches (stop x true h2) p = None /\ exists i, procs (stop x true h2) !! y = Some i /\ polled i = true.
Proof.
  intros Hxy Hx Hy. unfold start, bind, remove_file, stop, reaches. simpl.
  do 3 (rewrite ?lookup_delete_eq, ?lookup_insert_eq; simpl). split; [done|]. split; [done|].
  rewrite lookup_insert_ne, lookup_insert_eq by done.
  do 3 (rewrite ?lookup_delete_eq, ?lookup_insert_eq; simpl). split; [done|].
  eexists. rewrite lookup_delete_ne by done. rewrite lookup_insert_eq. by split.
Qed.

(** When the socket cannot be bound, the shells keep the variable of the process: in a
    window that was opened from a shell of another one, the client drives the other. *)
Theorem failed_bind_keeps_outer h pid path outer a e :
  bind (chosen_path path pid) pid (bind_error a) (remove_file (chosen_path path pid) (removed a) (nodes h)) = inl e ->
  exists i, procs (start pid path outer a h) !! pid = Some i /\ LIMUX_SOCKET i = outer.
Proof. unfold start. intros ->. eexists. split; [apply lookup_insert_eq|done]. Qed.
