(* ===== verification/SettingsDialog.v ===== *)
(** * The settings dialog (app/src/settings_ui.rs)

    What the controls of the dialog show when it opens, and what each callback changes:
    the control itself, the settings of [Settings], and what it tells the rest of the
    program.  A number in a spin button is kept within the button's range.  The page of
    the terminal reads and writes the terminal library's own file with [GhosttyConfig];
    values that are read through the library are arguments. *)

From Stdlib Require Import Ascii.
From S2P Require Import Prelude F64 RustStr Settings SettingsProps GhosttyConfig GhosttyProps Update.
Open Scope string_scope.
Open Scope list_scope.

(** ** Pages general, shortcuts and appearance *)

(** What the part on desktop integration shows: a fixed switch, a line of text, a button. *)
Inductive Integration := FixedSwitch | Note (text : string) | IntegrateButton.
#[global] Instance Integration_eq_dec : EqDecision Integration.
Proof. solve_decision. Defined.

(** A row of the shortcuts: the action of its button, its label and the accelerator. *)
Record Row := mkRow { r_action : string; r_label : string; r_accel : string }.

Record Dialog := mkDialog {
  d_shell : string; d_dir : string; d_session : bool; d_notif : bool;
  d_update : bool; d_freq : nat; d_freq_sensitive : bool; d_integration : list Integration;
  d_rows : list Row; d_popover : option (string * string);
  d_width : Z; d_visible : bool;
}.

(** [SpinButton::with_range] and [set_value]. *)
Definition spin_clamp (lo hi v : Z) : Z := Z.max lo (Z.min hi v).

Section dialog.
Context (current : string).

Definition append_integrate_section (d : Desktop) : list Integration :=
  if negb (is_appimage d) then []
  else if is_integrated d then
    [FixedSwitch;
     Note match installed_version d with
          | Some v =>
              if negb (String.eqb v current) then "Integrated as v" +:+ v +:+ " — running v" +:+ current
              else "Integrated as v" +:+ v
          | None => "limux is already integrated with your desktop."
          end]
  else [IntegrateButton].

Definition build_shortcut_row (d : ShortcutDef) (accel : string) : Row := mkRow (action d) (label d) accel.
Definition build_shortcuts_page (s : Settings) : list Row :=
  (fun d => build_shortcut_row d (accel_of s d)) <$> SHORTCUT_DEFAULTS.

(** The entries and switches of the general page, with the line of the box of frequencies
    and whether the box can be used. *)
Definition build_general_page (d : Desktop) (s : Settings) :
    string * string * bool * bool * (bool * nat * bool) * list Integration :=
  (default "" (default_shell (general s)), default "" (working_directory (general s)),
   eff_session_restore s, eff_notifications_enabled s,
   (eff_check_for_updates s, freq_index s, eff_check_for_updates s), append_integrate_section d).

Definition build_appearance_page (s : Settings) : Z * bool :=
  (spin_clamp 100 500 (sidebar_width s), sidebar_visible s).

Definition show (d : Desktop) (s : Settings) : Dialog :=
  let '(shell, dir, session, notif, (update, freq, sensitive), integration) := build_general_page d s in
  let '(w, vis) := build_appearance_page s in
  mkDialog shell dir session notif update freq sensitive integration (build_shortcuts_page s) None w vis.

(** *** Callbacks *)

Definition set_fields (shell dir : string) (session notif update : bool) (freq : nat) (sensitive : bool)
    (w : Z) (vis : bool) (g : Dialog) : Dialog :=
  mkDialog shell dir session notif update freq sensitive (d_integration g) (d_rows g) (d_popover g) w vis.
Definition set_rows (rows : list Row) (g : Dialog) : Dialog :=
  mkDialog (d_shell g) (d_dir g) (d_session g) (d_notif g) (d_update g) (d_freq g) (d_freq_sensitive g)
    (d_integration g) rows (d_popover g) (d_width g) (d_visible g).
Definition set_popover (p : option (string * string)) (g : Dialog) : Dialog :=
  mkDialog (d_shell g) (d_dir g) (d_session g) (d_notif g) (d_update g) (d_freq g) (d_freq_sensitive g)
    (d_integration g) (d_rows g) p (d_width g) (d_visible g).
Definition set_integration (l : list Integration) (g : Dialog) : Dialog :=
  mkDialog (d_shell g) (d_dir g) (d_session g) (d_notif g) (d_update g) (d_freq g) (d_freq_sensitive g)
    l (d_rows g) (d_popover g) (d_width g) (d_visible g).

(** What the user does to a control; GTK has put the new value into it. *)
Definition control_changed (e : UiEvent) (g : Dialog) : Dialog :=
  let keep sh di se no up fr fs w v := set_fields sh di se no up fr fs w v g in
  match e with
  | ShellChanged t => keep t (d_dir g) (d_session g) (d_notif g) (d_update g) (d_freq g) (d_freq_sensitive g) (d_width g) (d_visible g)
  | DirChanged t => keep (d_shell g) t (d_session g) (d_notif g) (d_update g) (d_freq g) (d_freq_sensitive g) (d_width g) (d_visible g)
  | SessionSwitch b => keep (d_shell g) (d_dir g) b (d_notif g) (d_update g) (d_freq g) (d_freq_sensitive g) (d_width g) (d_visible g)
  | NotifSwitch b => keep (d_shell g) (d_dir g) (d_session g) b (d_update g) (d_freq g) (d_freq_sensitive g) (d_width g) (d_visible g)
  | FreqChanged i => keep (d_shell g) (d_dir g) (d_session g) (d_notif g) (d_update g) (default (d_freq g) i) (d_freq_sensitive g) (d_width g) (d_visible g)
  | UpdateSwitch b => keep (d_shell g) (d_dir g) (d_session g) (d_notif g) b (d_freq g) b (d_width g) (d_visible g)
  | WidthChanged v => keep (d_shell g) (d_dir g) (d_session g) (d_notif g) (d_update g) (d_freq g) (d_freq_sensitive g) v (d_visible g)
  | VisibleSwitch b => keep (d_shell g) (d_dir g) (d_session g) (d_notif g) (d_update g) (d_freq g) (d_freq_sensitive g) (d_width g) b
  | _ => g
  end.

(** What the callbacks tell the rest of the program. *)
Inductive DialogEffect := RebuildShortcuts | NotifySet (enabled : bool) | TrayNotifications (enabled : bool).

Inductive DialogEvent :=
  | Control (e : UiEvent)
  | ResetClicked
  | SetClicked (row : nat)
  | KeyPress (keyval : Key) (state : Z)
  | PopoverClosed
  | IntegrateClicked (result : unit + string).

Section steps.
Context (to_string_pretty : Settings -> string + string) (vars : Vars).
Context (ord : gmap string string -> list (string * string)) (accelerator_name : Key -> Z -> string).

Record Open_ := mkOpen { o_dialog : Dialog; o_machine : Machine; o_effects : list DialogEffect }.

(** The settings are changed, then the dialog, then the others are told. *)
Definition changes (e : UiEvent) (io : SaveIo) (f : Dialog -> Dialog) (told : list DialogEffect) (o : Open_) : Open_ :=
  mkOpen (f (o_dialog o)) (ui_step to_string_pretty vars (o_machine o) (e, io)) (o_effects o ++ told).

Definition row_set (a x : string) (r : Row) : Row :=
  if String.eqb (r_action r) a then mkRow (r_action r) (r_label r) x else r.

Definition captured (a x : string) (g : Dialog) : Dialog := set_popover None (set_rows (row_set a x <$> d_rows g) g).

(** While the popover is open it takes all input. *)
Definition dialog_step (o : Open_) (e : DialogEvent * SaveIo) : Open_ :=
  let g := o_dialog o in
  let keep g := mkOpen g (o_machine o) (o_effects o) in
  match e.1, d_popover g with
  | KeyPress k st, Some (a, _) =>
      match key_pressed ord accelerator_name (cell MAIN (o_machine o)) a k st with
      | Proceed => o
      | Cancelled => keep (set_popover None g)
      | Conflict text => keep (set_popover (Some (a, text)) g)
      | Captured e1 =>
          changes e1 e.2 (captured a (accelerator_name k st)) [RebuildShortcuts] o
      end
  | PopoverClosed, _ => keep (set_popover None g)
  | KeyPress _ _, None => o
  | _, Some _ => o
  | Control (NotifSwitch b), None =>
      changes (NotifSwitch b) e.2 (control_changed (NotifSwitch b)) [NotifySet b; TrayNotifications b] o
  | Control e1, None => changes e1 e.2 (control_changed e1) [] o
  | ResetClicked, None =>
      changes ResetShortcuts e.2
        (set_rows ((fun d => build_shortcut_row d (default_accel d)) <$> SHORTCUT_DEFAULTS)) [RebuildShortcuts] o
  | SetClicked i, None =>
      match d_rows g !! i with
      | Some r => keep (set_popover (Some (r_action r, "Press a key combination...")) g)
      | None => o
      end
  | IntegrateClicked result, None =>
      match result with
      | inl _ =>
          changes (IntegratePressed result) e.2
            (fun g => set_integration
               (filter (fun i => i <> IntegrateButton) (d_integration g) ++
                [FixedSwitch; Note ("Integrated as v" +:+ current)]) g) [] o
      | inr _ => o
      end
  end.
End steps.
End dialog.

(** ** The dialog shows the settings *)

(** What the controls can be changed to: a spin button keeps its range, and the box of
    frequencies has three lines. *)
Definition possible (e : DialogEvent) : Prop :=
  match e with
  | Control (ShellChanged _) | Control (DirChanged _) | Control (SessionSwitch _) | Control (NotifSwitch _)
  | Control (UpdateSwitch _) | Control (VisibleSwitch _) => True
  | Control (FreqChanged i) => exists k, i = Some k /\ k < 3
  | Control (WidthChanged v) => (100 <= v <= 500)%Z
  | Control _ => False
  | _ => True
  end.

(** All controls but the popover and the part on the desktop are as a dialog that opens
    now would have them. *)
Definition shows (current : string) (d : Desktop) (s : Settings) (g : Dialog) : Prop :=
  g = set_popover (d_popover g) (set_integration (d_integration g) (show current d s)).

Lemma shell_shown text : default "" (entry_value text) = text.
Proof. by destruct text. Qed.

Lemma freq_shown k : k < 3 -> forall s f, FREQUENCIES !! k = Some f -> freq_index (set_update_check_frequency (Some f) s) = k.
Proof. intros Hk s f. destruct k as [|[|[|k]]]; [intros [= <-]; reflexivity..|lia]. Qed.

Lemma freq_some k : k < 3 -> exists f, FREQUENCIES !! k = Some f.
Proof. intros Hk. destruct k as [|[|[|k]]]; [by eexists..|lia]. Qed.

Lemma rows_set a x s (l : list ShortcutDef) :
  row_set a x <$> ((fun d => build_shortcut_row d (accel_of s d)) <$> l) =
    (fun d => build_shortcut_row d (accel_of (set_shortcuts (<[a := x]> (shortcuts s)) s) d)) <$> l.
Proof.
  induction l as [|d l IH]; [done|]. rewrite !fmap_cons, IH. f_equal.
  unfold row_set, build_shortcut_row, accel_of. simpl.
  destruct (String.eqb_spec (action d) a) as [<-|Hne].
  - by rewrite lookup_insert_eq.
  - by rewrite lookup_insert_ne.
Qed.

Lemma key_captured_event ord name s a k st e :
  key_pressed ord name s a k st = Captured e -> e = ShortcutSet a (name k st).
Proof. unfold key_pressed. repeat case_match; intros [= <-]; done. Qed.

Lemma page_set a x s :
  row_set a x <$> build_shortcuts_page s = build_shortcuts_page (apply_ui s (ShortcutSet a x)).
Proof. apply rows_set. Qed.

#[local] Opaque SHORTCUT_DEFAULTS build_shortcuts_page.

Section invariant.
Context (current : string) (to_string_pretty : Settings -> string + string) (vars : Vars).
Context (ord : gmap string string -> list (string * string)) (accelerator_name : Key -> Z -> string).
Local Abbreviation step := (dialog_step current to_string_pretty vars ord accelerator_name).
Local Abbreviation now o := (cell MAIN (o_machine o)).

Lemma changed_shows d s e g : possible (Control e) -> shows current d s g ->
  shows current d (apply_ui s e) (control_changed e g).
Proof.
  unfold shows. intros Hp ->. destruct e; try done; unfold control_changed, set_fields, apply_ui; simpl; try done.
  - unfold set_popover, set_integration, show. simpl. by rewrite shell_shown.
  - unfold set_popover, set_integration, show. simpl. by rewrite shell_shown.
  - destruct Hp as (k & -> & Hk). destruct (freq_some k Hk) as [f Hf].
    cbn [default mbind option_bind id]. rewrite Hf. simpl. unfold set_popover, set_integration, show. simpl.
    by rewrite (freq_shown k Hk s f Hf).
  - unfold set_popover, set_integration, show, build_appearance_page, sidebar_width, spin_clamp. simpl. f_equal. simpl in Hp. lia.
Qed.

Lemma captured_shows d s a x g : shows current d s g -> shows current d (apply_ui s (ShortcutSet a x)) (captured a x g).
Proof.
  intros H. assert (d_rows g = build_shortcuts_page s) as Hr by (by rewrite H).
  unfold captured. rewrite Hr, page_set, H. reflexivity.
Qed.

Lemma step_shows d o e : possible e.1 -> shows current d (now o) (o_dialog o) ->
  shows current d (now (step o e)) (o_dialog (step o e)).
Proof.
  intros Hp Hs. destruct e as [e io]. simpl in Hp.
  assert (forall e f told, (shows current d (apply_ui (now o) e) (f (o_dialog o))) ->
    shows current d (now (changes to_string_pretty vars e io f told o)) (o_dialog (changes to_string_pretty vars e io f told o))) as Hch.
  { intros e0 f told H. simpl. by rewrite ui_step_cell. }
  unfold dialog_step. cbn [fst snd].
  destruct e as [e1| |i|k st| |r]; [destruct e1|..]; destruct (d_popover (o_dialog o)) as [[a t]|]; try done;
    try (apply Hch; by apply changed_shows).
  - apply Hch. unfold shows in *. rewrite Hs. reflexivity.
  - case_match; [|done]. simpl. unfold shows in *. by rewrite Hs.
  - destruct (key_pressed _ _ _ _ _ _) eqn:Hk; [done|simpl; unfold shows in *; by rewrite Hs..|].
    apply key_captured_event in Hk as ->. apply Hch. by apply captured_shows.
  - simpl. unfold shows in *. by rewrite Hs.
  - simpl. unfold shows in *. by rewrite Hs.
  - destruct r; [|done]. apply Hch. unfold shows in *. rewrite Hs. reflexivity.
Qed.

Lemma steps_show d evs : forall o, Forall (fun e => possible e.1) evs -> shows current d (now o) (o_dialog o) ->
  shows current d (now (foldl step o evs)) (o_dialog (foldl step o evs)).
Proof.
  induction evs as [|e evs IH]; intros o HF H; [done|]. inversion_clear HF. simpl. apply IH; [done|].
  by apply step_shows.
Qed.

(** A step that changes a shortcut rebuilds those of the window. *)
Lemma rebuilds o e : possible e.1 ->
  RebuildShortcuts ∈ o_effects (step o e) \/ shortcuts (now (step o e)) = shortcuts (now o).
Proof.
  intros Hp. destruct e as [e io]. simpl in Hp.
  assert (forall e f told, RebuildShortcuts ∈ told \/ shortcuts (apply_ui (now o) e) = shortcuts (now o) ->
    let o' := changes to_string_pretty vars e io f told o in
    RebuildShortcuts ∈ o_effects o' \/ shortcuts (now o') = shortcuts (now o)) as Hch.
  { intros e0 f told H. simpl. rewrite ui_step_cell. simpl. destruct H; [left|by right].
    apply elem_of_app. by right. }
  unfold dialog_step. cbn [fst snd].
  destruct e as [e1| |i|k st| |r]; [destruct e1|..]; destruct (d_popover (o_dialog o)) as [[a t]|]; try done;
    try (by right); try (apply Hch; right; reflexivity).
  - destruct Hp as (k & -> & Hk). destruct (freq_some k Hk) as [f Hf]. apply Hch. right. unfold apply_ui.
    cbn [ui_change mbind option_bind]. by rewrite Hf.
  - apply Hch. left. apply list_elem_of_here.
  - right. by case_match.
  - destruct (key_pressed _ _ _ _ _ _) eqn:Hk; [by right..|]. apply Hch. left. apply list_elem_of_here.
  - destruct r; [|by right]. apply Hch. by right.
Qed.

Lemma rebuilds_kept evs : forall o, RebuildShortcuts ∈ o_effects o -> RebuildShortcuts ∈ o_effects (foldl step o evs).
Proof.
  induction evs as [|[e io] evs IH]; intros o H; [done|]. apply IH. unfold dialog_step, changes. cbn [fst snd].
  repeat case_match; simpl; try done; apply elem_of_app; by left.
Qed.
End invariant.

(** C28: whatever the user does in a dialog, from the moment it opens, every control shows
    what a dialog that opened now would show for the settings of the moment: no callback
    changes a control and not its setting, or a setting and not its control, be it by the
    capture of a key combination or by the reset of all shortcuts; and the shortcuts of
    the window are rebuilt whenever one of them has changed. *)
Theorem dialog_shows_settings current to_string_pretty vars ord accelerator_name d m evs :
  Forall (fun e => possible e.1) evs ->
  let o := foldl (dialog_step current to_string_pretty vars ord accelerator_name)
             (mkOpen (show current d (cell MAIN m)) m []) evs in
  shows current d (cell MAIN (o_machine o)) (o_dialog o) /\
  (RebuildShortcuts ∈ o_effects o \/ shortcuts (cell MAIN (o_machine o)) = shortcuts (cell MAIN m)).
Proof.
  intros HF o. split; [by apply steps_show|]. subst o.
  set (o0 := mkOpen _ _ _). change (cell MAIN m) with (cell MAIN (o_machine o0)).
  generalize o0. clear o0. induction evs as [|e evs IH]; intros o; [by right|].
  inversion_clear HF as [|? ? Hp HF']. simpl.
  destruct (IH HF' (dialog_step current to_string_pretty vars ord accelerator_name o e)) as [H|H]; [by left|].
  destruct (rebuilds current to_string_pretty vars ord accelerator_name o e Hp) as [H'|H'].
  - left. by apply rebuilds_kept.
  - right. congruence.
Qed.

(** A visit to the dialog: the session switch, a shortcut that is captured, a frequency. *)
Definition no_desktop : Desktop := mkDesktop None None None (fun _ => false) (fun _ => None).
Definition some_vars : Vars := mkVars None (Some "/home/u").
Definition visit : list (DialogEvent * SaveIo) :=
  [(Control (SessionSwitch false), SaveOk); (SetClicked 0, SaveOk); (KeyPress (OtherKey 5) 4, SaveOk);
   (Control (FreqChanged (Some 2)), MkdirFails "read-only")].
Definition visit_step : Open_ -> DialogEvent * SaveIo -> Open_ :=
  dialog_step "1.0" (fun _ => inl "{}") some_vars map_to_list (fun _ _ => "<Control>5").
Definition visit_end : Open_ :=
  foldl visit_step (mkOpen (show "1.0" no_desktop (cell MAIN (mkMachine ∅ ∅ []))) (mkMachine ∅ ∅ []) []) visit.

Lemma dialog_shows_settings_witness :
  d_freq (o_dialog visit_end) = 2 /\ (r_accel <$> head (d_rows (o_dialog visit_end))) = Some "<Control>5" /\
  shows "1.0" no_desktop (cell MAIN (o_machine visit_end)) (o_dialog visit_end).
Proof.
  split; [vm_compute; reflexivity|]. split; [vm_compute; reflexivity|].
  assert (Forall (fun e => possible e.1) visit) as HF.
  { apply Forall_cons_2; [exact I|]. apply Forall_cons_2; [exact I|]. apply Forall_cons_2; [exact I|].
    apply Forall_cons_2; [exists 2; split; [reflexivity|lia]|apply Forall_nil_2]. }
  unfold visit_end, visit_step.
  exact (proj1 (dialog_shows_settings "1.0" (fun _ => inl "{}") some_vars map_to_list (fun _ _ => "<Control>5")
           no_desktop (mkMachine ∅ ∅ []) visit HF)).
Defined.

(** [show] never presents a dialog that is open: with two of them, a change in one leaves
    the other as it was, and what it shows is not what is set. *)
Theorem second_dialog_stale current to_string_pretty vars ord name d m b io :
  eff_session_restore (cell MAIN m) <> b ->
  let opened := show current d (cell MAIN m) in
  let o := dialog_step current to_string_pretty vars ord name (mkOpen opened m []) (Control (SessionSwitch b), io) in
  ~ shows current d (cell MAIN (o_machine o)) opened.
Proof.
  intros Hb opened o H. apply Hb.
  assert (cell MAIN (o_machine o) = apply_ui (cell MAIN m) (SessionSwitch b)) as E.
  { unfold o, dialog_step. simpl. apply ui_step_cell. }
  unfold shows in H. rewrite E in H. apply (f_equal d_session) in H. exact H.
Qed.

(** ** The page of the terminal *)

Definition CURSOR_STYLES : list string := ["block"; "bar"; "underline"; "block_hollow"].

(** The values that are read through the library: [None] without a configuration or when
    the library does not know the key. *)
Record LibConfig := mkLibConfig {
  config_get_f32 : string -> option f64; config_get_color : string -> option (N * N * N);
  config_get_ptr_str : string -> option string;
}.

(** The entries, the size in its spin button, and the line of the box of cursor styles. *)
Record TerminalPage := mkTerminalPage {
  t_family : string; t_size : f64; t_background : string; t_foreground : string; t_cursor : nat;
  t_scrollback : string;
}.

Definition f64_clamp (lo hi v : f64) : f64 := if f64_ltb v lo then lo else if f64_ltb hi v then hi else v.
Definition color_text (c : option (N * N * N)) : string :=
  match c with Some (r, g, b) => color_to_hex r g b | None => "" end.

Section terminal.
Context (vars : Vars) (lib : LibConfig).

Definition build_terminal_appearance_section (m : Machine) : TerminalPage :=
  mkTerminalPage (default "" (parse_ghostty_config_key vars "font-family" m))
    (f64_clamp (f64_of_Z 6) (f64_of_Z 72) (default (f64_of_Z 12) (config_get_f32 lib "font-size")))
    (color_text (config_get_color lib "background")) (color_text (config_get_color lib "foreground"))
    (default 0 (position (String.eqb (default "block" (config_get_ptr_str lib "cursor-style"))) CURSOR_STYLES))
    (default "" (parse_ghostty_config_key vars "scrollback-limit" m)).

(** An entry acts when it is activated and when it loses the focus. *)
Inductive TerminalEvent :=
  | FamilyDone (text : string) | SizeChanged (value : Z) | BackgroundDone (text : string)
  | ForegroundDone (text : string) | CursorChanged (active : option nat) | ScrollbackDone (text : string).

Definition terminal_event (io : WriteIo) (e : TerminalEvent) (m : Machine) : Machine :=
  match e with
  | FamilyDone text => apply_config_change vars io "font-family" text m
  | SizeChanged v => apply_config_change vars io "font-size" (show_uint v) m
  | BackgroundDone text => apply_config_change vars io "background" text m
  | ForegroundDone text => apply_config_change vars io "foreground" text m
  | CursorChanged i =>
      match i ≫= (CURSOR_STYLES !!.) with
      | Some v => apply_config_change vars io "cursor-style" v m
      | None => m
      end
  | ScrollbackDone text => scrollback_changed vars io text m
  end.
End terminal.

(** Looking into an entry and leaving it writes the file, even if nothing is set: a color
    that the configuration does not mention gets an empty line. *)
Theorem visited_entry_writes vars lib m :
  config_get_color lib "background" = None -> files m !! ghostty_config_path vars = None ->
  files (terminal_event vars Written (BackgroundDone (t_background (build_terminal_appearance_section vars lib m))) m)
    !! ghostty_config_path vars = Some ("background =" +:+ String nl "").
Proof.
  intros Hc Hf. unfold build_terminal_appearance_section. simpl. rewrite Hc. simpl.
  unfold apply_config_change, set_ghostty_config_key, put_config. rewrite Hf. simpl. apply lookup_insert_eq.
Qed.
