(* ===== verification/Library.v ===== *)
(** * The life of the terminal library (app/src/app.rs: GhosttyApp)

    [init] makes a configuration and the library's application, [reload_config] replaces
    the configuration from the files, [destroy] frees both.  The library is what it is
    asked to do: a log of calls, over handles that it makes up.  [protocol] says which
    calls are in order: nothing is used that was not made or is freed, nothing is freed
    twice. *)

From Stdlib Require Import Ascii.
From S2P Require Import Prelude.
Open Scope string_scope.
Open Scope list_scope.

(** ** Calls and their order *)

Abbreviation Handle := Z.

Inductive LibCall :=
  | GhosttyInit (argc : nat) | ConfigNew (c : option Handle) | LoadDefaultFiles (c : Handle) | Finalize (c : Handle)
  | AppNew (c : Handle) (a : option Handle) | UpdateConfig (a c : Handle) | ConfigGet (c : Handle) | AppTick (a : Handle)
  | ConfigFree (c : Handle) | AppFree (a : Handle).

(** What a handle is. *)
Inductive Thing := FreshConfig | FinalConfig | TheApp.
#[global] Instance Thing_eq_dec : EqDecision Thing.
Proof. solve_decision. Defined.

(** The live handles after a call; [None] for a call out of order. *)
Definition protocol (live : gmap Handle Thing) (c : LibCall) : option (gmap Handle Thing) :=
  let at_ h t := bool_decide (live !! h = Some t) in
  let guard (b : bool) r := if b then Some r else None in
  match c with
  | GhosttyInit _ => Some live
  | ConfigNew None => Some live
  | ConfigNew (Some c) => guard (bool_decide (live !! c = None)) (<[c := FreshConfig]> live)
  | LoadDefaultFiles c => guard (at_ c FreshConfig) live
  | Finalize c => guard (at_ c FreshConfig) (<[c := FinalConfig]> live)
  | AppNew c None => guard (at_ c FinalConfig) live
  | AppNew c (Some a) => guard (at_ c FinalConfig && bool_decide (live !! a = None)) (<[a := TheApp]> live)
  | UpdateConfig a c => guard (at_ a TheApp && at_ c FinalConfig) live
  | ConfigGet c => guard (at_ c FinalConfig) live
  | AppTick a => guard (at_ a TheApp) live
  | ConfigFree c => guard (at_ c FinalConfig) (delete c live)
  | AppFree a => guard (at_ a TheApp) (delete a live)
  end.

Fixpoint replay (live : gmap Handle Thing) (l : list LibCall) : option (gmap Handle Thing) :=
  match l with
  | [] => Some live
  | c :: l => live ← protocol live c; replay live l
  end.

(** ** The program *)

(** [APP] with the two handles, and the calls so far. *)
Record Lib := mkLib { APP : option (Handle * Handle); calls : list LibCall }.
Definition lib_new : Lib := mkLib None [].

Definition call (c : LibCall) (s : Lib) : Lib := mkLib (APP s) (calls s ++ [c]).

(** What the library answers to [init]: the status of its own start, a configuration, an
    application. *)
Record InitAnswers := mkInitAnswers { ia_ret : Z; ia_config : option Handle; ia_app : option Handle }.

Definition init (argc : nat) (a : InitAnswers) (s : Lib) : (unit + string) * Lib :=
  let s := call (GhosttyInit argc) s in
  if negb (Z.eqb (ia_ret a) 0) then (inr "ghostty_init failed", s)
  else
    let s := call (ConfigNew (ia_config a)) s in
    match ia_config a with
    | None => (inr "ghostty_config_new returned null", s)
    | Some config =>
        let s := call (AppNew config (ia_app a)) (call (Finalize config) (call (LoadDefaultFiles config) s)) in
        match ia_app a with
        | None => (inr "ghostty_app_new returned null", call (ConfigFree config) s)
        | Some app =>
            match APP s with
            | Some _ => (inr "GhosttyApp already initialized", s)
            | None => (inl tt, mkLib (Some (app, config)) (calls s))
            end
        end
    end.

(** [handle] and [config] panic before [init]. *)
Definition handle (s : Lib) : option Handle := fst <$> APP s.
Definition config (s : Lib) : option Handle := snd <$> APP s.

Definition reload_config (new : option Handle) (s : Lib) : option Lib :=
  let s := call (ConfigNew new) s in
  match new with
  | None => Some s
  | Some c =>
      let s := call (Finalize c) (call (LoadDefaultFiles c) s) in
      app ← handle s; Some (call (ConfigFree c) (call (UpdateConfig app c) s))
  end.

Definition destroy (s : Lib) : Lib :=
  match APP s with
  | Some (app, config) => call (ConfigFree config) (call (AppFree app) s)
  | None => s
  end.

(** What the program does with the library between the start and the end: a change in the
    settings dialog, a value read by it, a tick of the main loop. *)
Inductive LibEvent := Reload (new : option Handle) | ReadKey | TickNow.
Definition lib_event (e : LibEvent) (s : Lib) : option Lib :=
  match e with
  | Reload new => reload_config new s
  | ReadKey => c ← config s; Some (call (ConfigGet c) s)
  | TickNow => match APP s with Some (app, _) => Some (call (AppTick app) s) | None => Some s end
  end.
Fixpoint lib_events (l : list LibEvent) (s : Lib) : option Lib :=
  match l with [] => Some s | e :: l => s ← lib_event e s; lib_events l s end.

(** Handles that the library makes up while others are live are new. *)
Definition fresh_for (app cfg : Handle) (e : LibEvent) : Prop :=
  match e with Reload (Some c) => c <> app /\ c <> cfg | _ => True end.
Definition init_fresh (a : InitAnswers) : Prop :=
  forall c h, ia_config a = Some c -> ia_app a = Some h -> c <> h.

(** ** Every call is in order *)

Lemma replay_app l1 : forall live l2, replay live (l1 ++ l2) = (live ← replay live l1; replay live l2).
Proof. induction l1 as [|c l1 IH]; intros live l2; simpl; [done|]. destruct (protocol live c); simpl; auto. Qed.

(** While the program runs, the library has the application and its configuration. *)
Definition running (app cfg : Handle) (s : Lib) : Prop :=
  APP s = Some (app, cfg) /\ app <> cfg /\ replay ∅ (calls s) = Some (<[app := TheApp]> {[cfg := FinalConfig]}).

Ltac steps :=
  repeat first
    [ rewrite lookup_insert_eq | rewrite lookup_singleton_eq | rewrite lookup_empty
    | rewrite lookup_insert_ne by congruence | rewrite lookup_singleton_ne by congruence
    | rewrite lookup_delete_eq | rewrite lookup_delete_ne by congruence
    | rewrite bool_decide_true by congruence | progress simpl ].

Lemma init_running argc a s : init_fresh a -> init argc a lib_new = (inl tt, s) ->
  exists app cfg, ia_app a = Some app /\ ia_config a = Some cfg /\ running app cfg s.
Proof.
  intros Hf. unfold init. destruct (Z.eqb _ 0); simpl; [|done].
  destruct (ia_config a) as [cfg|] eqn:Hc; [|done]. destruct (ia_app a) as [app|] eqn:Ha; simpl; [|done].
  intros [= <-]. exists app, cfg. pose proof (Hf cfg app Hc Ha) as Hne. repeat split; try done.
  simpl. unfold protocol. steps. by rewrite insert_insert_eq.
Qed.

(** A start that fails leaves nothing behind. *)
Lemma init_failed argc a s e : init argc a lib_new = (inr e, s) ->
  APP s = None /\ replay ∅ (calls s) = Some ∅.
Proof.
  unfold init. destruct (Z.eqb _ 0); simpl; [|by intros [= _ <-]].
  destruct (ia_config a) as [cfg|] eqn:Hc; [|by intros [= _ <-]]. destruct (ia_app a) as [app|] eqn:Ha; simpl; [done|].
  intros [= _ <-]. split; [done|]. simpl. unfold protocol. steps. by rewrite insert_insert_eq, delete_insert_id.
Qed.

Lemma event_running app cfg e s : fresh_for app cfg e -> running app cfg s ->
  exists s', lib_event e s = Some s' /\ running app cfg s'.
Proof.
  intros Hf (HA & Hne & Hr). destruct e as [[c|]| |]; simpl.
  - unfold reload_config, handle. simpl. rewrite HA. simpl. eexists. split; [done|]. split; [done|]. split; [done|].
    destruct Hf as [H1 H2]. simpl. rewrite <- !app_assoc. simpl. rewrite replay_app, Hr. simpl. unfold protocol. steps.
    rewrite insert_insert_eq, delete_insert_id; [done|]. by steps.
  - eexists. split; [done|]. split; [done|]. split; [done|]. simpl. rewrite replay_app, Hr. done.
  - unfold config. rewrite HA. simpl. eexists. split; [done|]. split; [done|]. split; [done|].
    simpl. rewrite replay_app, Hr. simpl. unfold protocol. by steps.
  - rewrite HA. eexists. split; [done|]. split; [done|]. split; [done|].
    simpl. rewrite replay_app, Hr. simpl. unfold protocol. by steps.
Qed.

Lemma events_running app cfg l : forall s, Forall (fresh_for app cfg) l -> running app cfg s ->
  exists s', lib_events l s = Some s' /\ running app cfg s'.
Proof.
  induction l as [|e l IH]; intros s HF H; simpl; [by exists s|]. inversion_clear HF.
  destruct (event_running app cfg e s) as (s' & -> & H'); [done..|]. simpl. by apply IH.
Qed.

(** From the start of the library, through any changes of its configuration, values
    read and ticks, to its end: nothing panics, every call is in order, with handles that
    are live and finalized, and the end frees all that was made, once; and a start that
    fails frees what it had made and leaves no handle to be used. *)
Theorem library_handles_live argc a l :
  init_fresh a ->
  (forall s, init argc a lib_new = (inl tt, s) ->
     (forall app cfg, APP s = Some (app, cfg) -> Forall (fresh_for app cfg) l) ->
     exists s', lib_events l s = Some s' /\ is_Some (replay ∅ (calls s')) /\
       replay ∅ (calls (destroy s')) = Some ∅) /\
  (forall s e, init argc a lib_new = (inr e, s) -> APP s = None /\ replay ∅ (calls s) = Some ∅).
Proof.
  intros Hf. split; [|intros s e; apply init_failed].
  intros s Hi HF. destruct (init_running argc a s Hf Hi) as (app & cfg & _ & _ & Hr).
  destruct (events_running app cfg l s) as (s' & Hs' & HA & Hne & Hr'); [apply HF, Hr|done|].
  exists s'. split; [done|]. rewrite Hr'. split; [by eexists|].
  unfold destroy. rewrite HA. simpl. rewrite <- app_assoc. simpl. rewrite replay_app, Hr'. simpl. unfold protocol. steps.
  rewrite delete_insert_id by (by rewrite lookup_singleton_ne). by steps; rewrite delete_singleton_eq.
Qed.

Definition usual_start : InitAnswers := mkInitAnswers 0 (Some 10%Z) (Some 20%Z).
Definition usual_lib : Lib := (init 1 usual_start lib_new).2.
Lemma library_handles_live_witness :
  exists s', lib_events [ReadKey; Reload (Some 11%Z); TickNow; Reload None] usual_lib = Some s' /\
    is_Some (replay ∅ (calls s')) /\ replay ∅ (calls (destroy s')) = Some ∅.
Proof.
  assert (init_fresh usual_start) as Hf by (intros c h [= <-] [= <-]; done).
  apply (proj1 (library_handles_live 1 usual_start [ReadKey; Reload (Some 11%Z); TickNow; Reload None] Hf) usual_lib eq_refl).
  intros app cfg [= <- <-].
  apply Forall_cons_2; [exact I|]. apply Forall_cons_2; [split; done|]. apply Forall_cons_2; [exact I|].
  apply Forall_cons_2; [exact I|apply Forall_nil_2].
Defined.

(** ** Outside of that life *)

(** [destroy] leaves the freed handles in the static: a tick that is still asked for, or a
    dialog that is still open, would use them. *)
Theorem tick_after_destroy app cfg s : running app cfg s ->
  exists s', lib_event TickNow (destroy s) = Some s' /\ replay ∅ (calls s') = None.
Proof.
  intros (HA & Hne & Hr). unfold destroy. rewrite HA. simpl. rewrite HA. eexists. split; [done|].
  simpl. rewrite <- !app_assoc. simpl. rewrite replay_app, Hr. simpl. unfold protocol. by steps.
Qed.

(** A second start reports an error and keeps a second application and configuration. *)
Theorem second_init_leaks app cfg s app2 cfg2 argc : running app cfg s ->
  cfg2 <> app -> cfg2 <> cfg -> app2 <> app -> app2 <> cfg -> app2 <> cfg2 ->
  exists s', init argc (mkInitAnswers 0 (Some cfg2) (Some app2)) s = (inr "GhosttyApp already initialized", s') /\
    replay ∅ (calls (destroy s')) = Some (<[app2 := TheApp]> {[cfg2 := FinalConfig]}).
Proof.
  intros (HA & Hne & Hr) ?????. unfold init. simpl. rewrite HA. eexists. split; [done|].
  unfold destroy. simpl. rewrite HA. simpl. rewrite <- !app_assoc. simpl. rewrite replay_app, Hr. simpl.
  unfold protocol. steps. f_equal. apply map_eq. intros k.
  destruct (decide (k = app2)) as [->|]; [by steps|]. destruct (decide (k = cfg2)) as [->|]; [by steps|].
  destruct (decide (k = app)) as [->|]; [by steps|]. destruct (decide (k = cfg)) as [->|]; by steps.
Qed.

(** A change of the configuration before the start panics. *)
Theorem reload_before_init c s : APP s = None -> reload_config (Some c) s = None.
Proof. intros H. unfold reload_config, handle. simpl. by rewrite H. Qed.
