(* ===== verification/Prompts.v ===== *)
(** * The two prompts (app/src/install_prompt.rs, update.rs: show_prompt)

    The windows that ask whether to integrate the program with the desktop and whether to
    fetch a new version, with what their buttons do; and what is asked again at the next
    start, over the decisions of [Update] and the settings file of [Settings]. *)

From Stdlib Require Import Ascii.
From S2P Require Import Prelude RustStr Settings SettingsProps Update UpdateProps.
Open Scope string_scope.
Open Scope list_scope.

(** ** The prompt on desktop integration *)

Record PromptWindow := mkPromptWindow {
  pw_title : string; pw_message : string; pw_detail : string; pw_dont_ask : bool; pw_open : bool;
}.

Section prompts.
Context (current : string).

Definition prompt_texts (installed : option string) (is_upgrade : bool) : string * string * string :=
  if is_upgrade then
    ("Update limux desktop integration?",
     "A newer version of limux is installed. Update the desktop integration?",
     "The installed desktop file is for limux v" +:+ default "?" installed +:+ ", but you're running v" +:+ current +:+
     ". Re-integrating will refresh the .desktop file, app menu entry, and file associations.")
  else
    ("Integrate limux with your desktop?", "Integrate limux with your desktop?",
     "Integrating adds limux to your app menu, registers a .desktop file, and enables desktop notifications and file associations.").

(** [maybe_show], up to the window. *)
Definition open_prompt (d : Desktop) (s : Settings) : option PromptWindow :=
  is_upgrade ← maybe_show current d s;
  let '(title, message, detail) := prompt_texts (installed_version d) is_upgrade in
  Some (mkPromptWindow title message detail false true).

(** The box is ticked or not, a button is pressed, the window is closed otherwise. *)
Inductive PromptEvent := Tick (b : bool) | Cancel | Integrate (result : unit + string) | CloseWindow.

Section steps.
Context (to_string_pretty : Settings -> string + string) (vars : Vars).

(** [PromptCancel] and [PromptIntegrate] of [Settings] are what the buttons change. *)
Definition prompt_step (p : PromptWindow * Machine * list string) (e : PromptEvent * SaveIo) :
    PromptWindow * Machine * list string :=
  let '(w, m, err) := p in
  let closed := mkPromptWindow (pw_title w) (pw_message w) (pw_detail w) (pw_dont_ask w) false in
  if negb (pw_open w) then p
  else match e.1 with
  | Tick b => (mkPromptWindow (pw_title w) (pw_message w) (pw_detail w) b true, m, err)
  | Cancel => (closed, ui_step to_string_pretty vars m (PromptCancel (pw_dont_ask w), e.2), err)
  | Integrate result =>
      (closed, ui_step to_string_pretty vars m (PromptIntegrate (pw_dont_ask w) result, e.2),
       err ++ match result with inl _ => [] | inr x => ["Desktop integration failed: " +:+ x] end)
  | CloseWindow => (closed, m, err)
  end.
Definition run_prompt (l : list (PromptEvent * SaveIo)) p := foldl prompt_step p l.
End steps.

(** ** The prompt on a new version *)

Fixpoint trim_start_v (s : string) : string :=
  match s with String c r => if byte_eqb c "v" then trim_start_v r else s | "" => "" end.

(** [show_prompt]: the text, and what a button does besides closing the window: a change of
    the settings, a program that is run. *)
Definition update_detail (new_version : string) : string :=
  "limux " +:+ trim_start_v new_version +:+ " is available. You are running " +:+ current +:+ ".".
Inductive UpdateButton := NotNow | SkipThisVersion | UpdateNow.
Definition update_clicked (r : LatestRelease) (b : UpdateButton) : option UiEvent * option (string * string) :=
  match b with
  | NotNow => (None, None)
  | SkipThisVersion => (Some (SkipVersion (tag_name r)), None)
  | UpdateNow => (None, Some ("xdg-open", html_url r))
  end.
End prompts.

(** ** What is asked again *)

Section again.
Context (current : string).
Context (from_str : string -> option Settings) (to_string_pretty : Settings -> string + string) (vars : Vars).
Hypothesis codec : forall s, exists json, to_string_pretty s = inl json /\ from_str json = Some s.

(** The settings after a change that is saved, at the next start. *)
Lemma load_after_ui e f m : ui_change e = Some f ->
  load from_str vars (ui_step to_string_pretty vars m (e, SaveOk)) = f (cell MAIN m).
Proof.
  intros Hf. unfold ui_step. simpl. rewrite Hf. destruct (codec (f (cell MAIN m))) as (json & E & D).
  unfold load. rewrite (proj1 (update_saves to_string_pretty vars MAIN f m _ json eq_refl E)). by rewrite D.
Qed.

(** The last tick of the box, while the window is open. *)
Fixpoint ticked (b : bool) (l : list (PromptEvent * SaveIo)) : bool :=
  match l with (Tick b, _) :: l => ticked b l | _ :: l => ticked b l | [] => b end.
Definition only_ticks (l : list (PromptEvent * SaveIo)) : Prop := Forall (fun e => exists b, e.1 = Tick b) l.

Lemma run_ticks l : forall w m err, only_ticks l -> pw_open w = true ->
  run_prompt to_string_pretty vars l (w, m, err) =
    (mkPromptWindow (pw_title w) (pw_message w) (pw_detail w) (ticked (pw_dont_ask w) l) true, m, err).
Proof.
  induction l as [|[e io] l IH]; intros w m err HF Ho; simpl.
  { destruct w; simpl in *. by subst. }
  inversion_clear HF as [|? ? [b Hb] HF']. simpl in Hb. subst e. simpl. rewrite Ho. simpl. by rewrite IH.
Qed.

Lemma maybe_show_hidden d s : eff_hide_integrate_prompt s = true -> maybe_show current d s = None.
Proof. unfold maybe_show. intros ->. by repeat case_match. Qed.
Lemma maybe_show_unhidden d s s' : eff_hide_integrate_prompt s' = eff_hide_integrate_prompt s ->
  maybe_show current d s' = maybe_show current d s.
Proof. unfold maybe_show. by intros ->. Qed.

(** The prompt is shown at a start; the user ticks the box or not, and then presses a
    button or closes the window, and the settings can be saved.  At the next start, on the
    same desktop, it is shown again, with the same texts, unless it was cancelled with the
    box ticked or the integration succeeded with the box ticked or, what a successful
    integration sees to, the desktop file has the program's version by then.  An
    integration that fails is reported, and forgets the box. *)
Theorem prompt_asked_again d m w ticks e :
  load from_str vars m = cell MAIN m -> open_prompt current d (cell MAIN m) = Some w -> only_ticks ticks ->
  let '(w', m', err) := run_prompt to_string_pretty vars (ticks ++ [(e, SaveOk)]) (w, m, []) in
  match e with
  | Tick _ => True
  | Cancel => pw_open w' = false /\ err = [] /\
      forall d', open_prompt current d' (load from_str vars m') =
        if ticked false ticks then None else open_prompt current d' (cell MAIN m)
  | Integrate (inl _) => pw_open w' = false /\ err = [] /\
      forall d', ticked false ticks = true \/ (installed_version d' = Some current) ->
        open_prompt current d' (load from_str vars m') = None
  | Integrate (inr x) => pw_open w' = false /\ err = ["Desktop integration failed: " +:+ x] /\
      open_prompt current d (load from_str vars m') = Some w
  | CloseWindow => pw_open w' = false /\ err = [] /\ open_prompt current d (load from_str vars m') = Some w
  end.
Proof.
  intros Hl Hw Ht. unfold run_prompt. rewrite foldl_app. fold (run_prompt to_string_pretty vars ticks (w, m, [])).
  assert (pw_open w = true /\ pw_dont_ask w = false) as [Ho Hd].
  { revert Hw. unfold open_prompt. destruct (maybe_show _ _ _); [|done]. simpl. case_match. case_match. by intros [= <-]. }
  rewrite run_ticks by done. rewrite Hd. simpl.
  destruct e as [b| |[[]|x]|]; simpl; [done| | | |by rewrite Hl, Hw].
  - split; [done|]. split; [done|]. intros d'. destruct (ticked false ticks) eqn:Hb.
    + rewrite (load_after_ui (PromptCancel true) _ m eq_refl). unfold open_prompt. by rewrite maybe_show_hidden.
    + unfold ui_step. simpl. by rewrite Hl.
  - split; [done|]. split; [done|]. intros d' H.
    rewrite (load_after_ui (PromptIntegrate (ticked false ticks) (inl tt)) _ m eq_refl). unfold open_prompt.
    destruct (ticked false ticks) eqn:Hb; [by rewrite maybe_show_hidden|]. destruct H as [H|H]; [done|].
    unfold maybe_show. rewrite H, String.eqb_refl. by case_match.
  - unfold ui_step. simpl. by rewrite Hl, Hw.
Qed.

(** A version that was skipped is not offered again; one that was put off is. *)
Theorem skipped_not_offered r m :
  (forall e, (update_clicked r SkipThisVersion).1 = Some e ->
     on_result current (load from_str vars (ui_step to_string_pretty vars m (e, SaveOk))) (inl (Some r)) = None) /\
  (update_clicked r NotNow).1 = None /\ (update_clicked r UpdateNow).1 = None.
Proof.
  split; [|done]. intros e [= <-]. rewrite (load_after_ui (SkipVersion (tag_name r)) _ m eq_refl).
  unfold on_result. simpl. destruct (Version_parse (tag_name r)); [|done].
  destruct (Version_parse current); [|done]. case_match; [|done]. by rewrite bool_decide_true.
Qed.
End again.

(** An AppImage that is not integrated yet. *)
Definition appimage_desktop : Desktop :=
  mkDesktop (Some "/a.AppImage") None (Some "/home/u") (fun p => String.eqb p "/a.AppImage") (fun _ => None).
Definition first_prompt : PromptWindow :=
  default (mkPromptWindow "" "" "" false false) (open_prompt "1.0" appimage_desktop settings_default).
Lemma prompt_asked_again_witness :
  exists w' m' err,
    run_prompt number_json (mkVars None None) ([(Tick true, SaveOk)] ++ [(Cancel, SaveOk)])
      (first_prompt, mkMachine ∅ ∅ [], []) = (w', m', err) /\
    open_prompt "1.0" appimage_desktop (load number_settings (mkVars None None) m') = None.
Proof.
  pose proof (prompt_asked_again "1.0" number_settings number_json (mkVars None None) number_codec
    appimage_desktop (mkMachine ∅ ∅ []) first_prompt [(Tick true, SaveOk)] Cancel eq_refl) as H.
  destruct (run_prompt _ _ _ _) as [[w' m'] err] eqn:E. exists w', m', err. split; [reflexivity|].
  apply H; [reflexivity|]. apply Forall_cons_2; [by exists true|apply Forall_nil_2].
Defined.
