(* ===== verification/PaneStacks.v ===== *)
(** * What a pane shows (app/src/window.rs: the stacks of the panes)

    The widget of a pane has a stack with a child for every tab, of which it shows one.
    Every operation on tabs changes the pane of the model and, apart from it, its stack;
    a drag first looks whether the stack has the widget of the dragged tab.  Here the two
    are put side by side: the panes of all workspaces with their stacks.  GTK's stack is
    the interface [StackOps], with its documented behaviour in [StackLaws]. *)

From Stdlib Require Import Ascii.
From S2P Require Import Prelude F64 SplitTree RustStr RemoteConfig Workspace Tabs Surfaces Notebook Window WindowTabs.
Open Scope string_scope.
Open Scope list_scope.

(** ** Stacks *)

(** The widget of a tab: the area of a terminal or the box of a browser. *)
Inductive TabWidget := GLArea (sid : SurfaceId) | BrowserBox (bid : BrowserPanelId).

Class StackOps (S : Type) := {
  st_new : S;
  st_children : S -> gmap string TabWidget;
  st_visible : S -> option string;
  st_add_named : TabWidget -> string -> S -> S;
  st_remove : string -> S -> S;
  st_set_visible : string -> S -> S;
}.

(** A name that no child has is not made visible; what is shown after the visible child
    has been removed is left open. *)
Class StackLaws (S : Type) `{!StackOps S} := {
  st_new_children : st_children st_new = ∅;
  st_add_children (k : S) w n : st_children k !! n = None -> st_children (st_add_named w n k) = <[n := w]> (st_children k);
  st_remove_children (k : S) n : st_children (st_remove n k) = delete n (st_children k);
  st_set_children (k : S) n : st_children (st_set_visible n k) = st_children k;
  st_set_shows (k : S) n : is_Some (st_children k !! n) -> st_visible (st_set_visible n k) = Some n;
  st_set_absent (k : S) n : st_children k !! n = None -> st_visible (st_set_visible n k) = st_visible k;
}.

Definition panel_widget (panel : PanelKind) : TabWidget :=
  match panel with Terminal sid => GLArea sid | Browser bid _ => BrowserBox bid end.
Definition tab_name (t : Tab) : string := stack_child_name (tab_panel t).

(** The downcast: a terminal's widget is an area, a browser's is a box. *)
Definition tab_panel_widget (panel : PanelKind) (w : TabWidget) : bool :=
  match panel, w with Terminal _, GLArea _ => true | Browser _ _, BrowserBox _ => true | _, _ => false end.

Section stacks.
Context {K : Type} `{StackO : !StackOps K}.

(** ** Panes with their stacks *)

Record Shelf := mkShelf { sh_panes : gmap Z Pane; sh_stacks : gmap Z K }.
Definition shelf_new : Shelf := mkShelf ∅ ∅.
Definition put (pid : PaneId) (p : Pane) (k : K) (s : Shelf) : Shelf :=
  mkShelf (<[pid := p]> (sh_panes s)) (<[pid := k]> (sh_stacks s)).
Definition drop (pid : PaneId) (s : Shelf) : Shelf := mkShelf (delete pid (sh_panes s)) (delete pid (sh_stacks s)).
Definition at_ (pid : PaneId) (s : Shelf) : option (Pane * K) :=
  p ← sh_panes s !! pid; k ← sh_stacks s !! pid; Some (p, k).

(** [build_pane_widget] and [build_browser_pane_widget]. *)
Definition build_tab_panel_widget (panel : PanelKind) (w : TabWidget) : K :=
  let n := stack_child_name panel in st_set_visible n (st_add_named w n st_new).

Definition show_active (p : Pane) (k : K) : K :=
  match active_tab p with Some t => st_set_visible (tab_name t) k | None => k end.

(** *** Tabs that come and go *)

(** A pane with one tab: a new workspace, a split, a popup. *)
Definition new_pane (pid : PaneId) (panel : PanelKind) (s : Shelf) : Shelf :=
  put pid (match panel with
           | Terminal sid => Pane_new_with_id pid sid
           | Browser bid url => Pane_new_browser_with_id pid bid url
           end) (build_tab_panel_widget panel (panel_widget panel)) s.

Definition add_named (panel : PanelKind) (k : K) : K := st_add_named (panel_widget panel) (stack_child_name panel) k.

Definition new_pane_tab (pid : PaneId) (sid : SurfaceId) (s : Shelf) : Shelf :=
  match at_ pid s with
  | Some (p, k) =>
      put pid (snd (add_tab sid p))
        (st_set_visible (stack_child_name (Terminal sid)) (add_named (Terminal sid) k)) s
  | None => s
  end.

(** A pane of a restored layout: the first tab makes it, the others are added, and the
    first is shown (titles and directories, which no stack sees, are left out). *)
Definition restore_pane (pid : PaneId) (panel : PanelKind) (panels : list PanelKind) (s : Shelf) : Shelf :=
  match at_ pid (new_pane pid panel s) with
  | Some (p, k) =>
      let p := foldl (fun p x => snd (push_tab x p)) p panels in
      let k := foldl (fun k x => add_named x k) k panels in
      put pid (select_tab 0 p) (st_set_visible (stack_child_name panel) k) s
  | None => s
  end.

(** The tab of a panel that is closed while the pane has others: the stack is told to
    show the active tab, and keeps the widget. *)
Definition close_tab (pid : PaneId) (rm : Pane -> bool * Pane) (s : Shelf) : Shelf :=
  match at_ pid s with
  | Some (p, k) => let p := snd (rm p) in put pid p (show_active p k) s
  | None => s
  end.

(** *** Tabs that are chosen *)

Definition cycle_pane_tab (forward : bool) (pid : PaneId) (s : Shelf) : Shelf :=
  match at_ pid s with
  | Some (p, k) =>
      match cycle_tab forward p with
      | (Some panel, p) => put pid p (st_set_visible (stack_child_name panel) k) s
      | (None, p) => put pid p k s
      end
  | None => s
  end.

(** The index and the panel are those that the button of the tab was made with. *)
Definition select_pane_tab (pid : PaneId) (idx : nat) (panel : PanelKind) (s : Shelf) : Shelf :=
  match at_ pid s with
  | Some (p, k) => put pid (select_tab idx p) (st_set_visible (stack_child_name panel) k) s
  | None => s
  end.

(** *** Drags *)

(** What a drag looks up before it changes anything: the widget in the source's stack, which
    must not be in the target's. *)
Definition drag_widget (t : Tab) (source : K) (target : option K) : option TabWidget :=
  w ← st_children source !! tab_name t;
  match target with
  | Some k => match st_children k !! tab_name t with Some _ => None | None => Some w end
  | None => Some w
  end.

(** The source after the tab has gone: without tabs the pane goes too. *)
Definition leave (src : PaneId) (sp : Pane) (sk : K) (s : Shelf) : Shelf :=
  match tabs sp with [] => drop src s | _ => put src sp (show_active sp sk) s end.

(** Tab [i] of [src] into a new pane, next to some pane or in a workspace of its own;
    [None] is a panic. *)
Definition extract_to_pane (src : PaneId) (i : nat) (new : PaneId) (target : option PaneId) (s : Shelf) : option Shelf :=
  match at_ src s with
  | None => Some s
  | Some (sp, sk) =>
      match tabs sp !! i with
      | None => Some s
      | Some t =>
          match drag_widget t sk (target ≫= (sh_stacks s !!.)) with
          | None => Some s
          | Some w =>
              if negb (tab_panel_widget (tab_panel t) w) then Some s
              else
                '(t, sp) ← remove_tab_preserving_selection i sp;
                Some (put new (extracted_pane new t) (build_tab_panel_widget (tab_panel t) w)
                        (leave src sp (st_remove (tab_name t) sk) s))
          end
      end
  end.

(** Tab [i] of [src] to index [ti] of [dst], in the same workspace or in another. *)
Definition move_to_pane (src : PaneId) (i : nat) (dst : PaneId) (ti : nat) (s : Shelf) : option Shelf :=
  match at_ src s, at_ dst s with
  | Some (sp, sk), Some (dp, dk) =>
      match tabs sp !! i with
      | None => Some s
      | Some t =>
          match drag_widget t sk (Some dk) with
          | None => Some s
          | Some w =>
              '(t, sp) ← remove_tab_preserving_selection i sp;
              l ← vec_insert ti t (tabs dp);
              let dp := set_selected ti (set_tabs l dp) in
              let dk := st_set_visible (tab_name t) (st_add_named w (tab_name t) dk) in
              Some (put dst dp dk (leave src sp (st_remove (tab_name t) sk) s))
          end
      end
  | _, _ => Some s
  end.

(** A reorder leaves the stack alone. *)
Definition reorder_in_pane (pid : PaneId) (from ins : nat) (s : Shelf) : option Shelf :=
  match at_ pid s with
  | None => Some s
  | Some (p, k) =>
      match tabs p !! from with
      | None => Some s
      | Some t =>
          match st_children k !! tab_name t with
          | None => Some s
          | Some _ => '(_, p) ← reorder_tab from ins p; Some (put pid p k s)
          end
      end
  end.
(** *** What happens to panes *)

(** A tab that closes: the last one takes its pane along. *)
Definition close_panel (pid : PaneId) (panel : PanelKind) (s : Shelf) : Shelf :=
  match sh_panes s !! pid with
  | Some p =>
      if decide (length (tabs p) <= 1) then drop pid s
      else close_tab pid (match panel with Terminal sid => remove_tab sid | Browser bid _ => remove_browser_tab bid end) s
  | None => s
  end.

Inductive ShelfEvent :=
  | New (pid : PaneId) (panel : PanelKind)
  | Add (pid : PaneId) (sid : SurfaceId)
  | RestorePane (pid : PaneId) (panel : PanelKind) (panels : list PanelKind)
  | ClosePanel (pid : PaneId) (panel : PanelKind)
  | DropPane (pid : PaneId)
  | Cycle (forward : bool) (pid : PaneId)
  | SelectTab (pid : PaneId) (idx : nat) (panel : PanelKind)
  | Extract (src : PaneId) (i : nat) (new : PaneId) (target : option PaneId)
  | MoveTab (src : PaneId) (i : nat) (dst : PaneId) (ti : nat)
  | Reorder (pid : PaneId) (from ins : nat).

Definition shelf_step (e : ShelfEvent) (s : Shelf) : option Shelf :=
  match e with
  | New pid panel => Some (new_pane pid panel s)
  | Add pid sid => Some (new_pane_tab pid sid s)
  | RestorePane pid panel panels => Some (restore_pane pid panel panels s)
  | ClosePanel pid panel => Some (close_panel pid panel s)
  | DropPane pid => Some (drop pid s)
  | Cycle forward pid => Some (cycle_pane_tab forward pid s)
  | SelectTab pid idx panel => Some (select_pane_tab pid idx panel s)
  | Extract src i new target => extract_to_pane src i new target s
  | MoveTab src i dst ti => move_to_pane src i dst ti s
  | Reorder pid from ins => reorder_in_pane pid from ins s
  end.

(** A name that no stack has. *)
Definition fresh (n : string) (s : Shelf) : Prop := map_Forall (fun _ k => st_children k !! n = None) (sh_stacks s).

(** What holds of a pane, if it is there. *)
Definition pane_is (P : Pane -> Prop) (pid : PaneId) (s : Shelf) : Prop :=
  match at_ pid s with Some (p, _) => P p | None => True end.

(** A new panel has a new id, the button of a tab knows its index and panel, and the
    handlers of drags look at the target before they come here. *)
Definition allowed (e : ShelfEvent) (s : Shelf) : Prop :=
  match e with
  | New _ panel => fresh (stack_child_name panel) s
  | Add _ sid => fresh (stack_child_name (Terminal sid)) s
  | RestorePane _ panel panels =>
      NoDup (stack_child_name <$> panel :: panels) /\ Forall (fun x => fresh (stack_child_name x) s) (panel :: panels)
  | SelectTab pid idx panel => pane_is (fun p => (tab_panel <$> tabs p !! idx) = Some panel) pid s
  | Extract src _ _ target => target <> Some src
  | MoveTab src _ dst ti => dst <> src /\ pane_is (fun p => ti <= length (tabs p)) dst s
  | Reorder pid _ ins => pane_is (fun p => ins <= length (tabs p)) pid s
  | _ => True
  end.

#[export] Instance pane_is_dec P `{!forall p, Decision (P p)} pid s : Decision (pane_is P pid s).
Proof. unfold pane_is. destruct (at_ pid s) as [[p k]|]; apply _. Defined.
#[export] Instance allowed_dec e s : Decision (allowed e s).
Proof. destruct e; simpl; unfold fresh; apply _. Defined.

Fixpoint shelf_run (es : list ShelfEvent) (s : Shelf) : option Shelf :=
  match es with [] => Some s | e :: es => s ← shelf_step e s; shelf_run es s end.
Fixpoint all_allowed (es : list ShelfEvent) (s : Shelf) : Prop :=
  match es with
  | [] => True
  | e :: es => allowed e s /\ match shelf_step e s with Some s => all_allowed es s | None => True end
  end.
#[export] Instance all_allowed_dec es : forall s, Decision (all_allowed es s).
Proof. induction es as [|e es IH]; intros s; simpl; [apply _|]. destruct (shelf_step e s); apply _. Defined.
End stacks.
Arguments Shelf : clear implicits.

(** ** Every pane shows its selected tab *)

Section proofs.
Context {K : Type} `{StackO : !StackOps K, StackL : !StackLaws K}.
Implicit Types (s : Shelf K) (k : K) (p : Pane).

(** The stack has the widget of every tab, and shows that of the selected one. *)
Record slot_ok p k : Prop := mk_slot_ok {
  so_tabs : selected_tab p < length (tabs p);
  so_names : NoDup (tab_name <$> tabs p);
  so_children t : t ∈ tabs p -> st_children k !! tab_name t = Some (panel_widget (tab_panel t));
  so_shows t : active_tab p = Some t -> st_visible k = Some (tab_name t);
}.

(** No stack has a child with the name of a tab of another pane. *)
Record shelf_ok s : Prop := mk_shelf_ok {
  sf_dom pid : is_Some (sh_panes s !! pid) <-> is_Some (sh_stacks s !! pid);
  sf_slot pid p k : at_ pid s = Some (p, k) -> slot_ok p k;
  sf_apart a b p k t : a <> b -> sh_panes s !! a = Some p -> sh_stacks s !! b = Some k -> t ∈ tabs p ->
    st_children k !! tab_name t = None;
}.

Lemma at_lookup pid s p k : at_ pid s = Some (p, k) <-> sh_panes s !! pid = Some p /\ sh_stacks s !! pid = Some k.
Proof. unfold at_. destruct (_ !! _), (_ !! _); simpl; naive_solver. Qed.

Lemma at_put pid q p k s : at_ q (put pid p k s) = if decide (q = pid) then Some (p, k) else at_ q s.
Proof.
  unfold at_, put. simpl. case_decide as E; [subst; by rewrite !lookup_insert_eq|by rewrite !lookup_insert_ne].
Qed.
Lemma at_drop pid q s : at_ q (drop pid s) = if decide (q = pid) then None else at_ q s.
Proof.
  unfold at_, drop. simpl. case_decide as E; [subst; by rewrite !lookup_delete_eq|by rewrite !lookup_delete_ne].
Qed.

(** A slot can be replaced when the tabs it gains have names that no other stack has, and
    the children it gains are no tabs of others. *)
Lemma put_ok pid p k s : shelf_ok s -> slot_ok p k ->
  (forall b k' t, b <> pid -> sh_stacks s !! b = Some k' -> t ∈ tabs p -> st_children k' !! tab_name t = None) ->
  (forall a p' t, a <> pid -> sh_panes s !! a = Some p' -> t ∈ tabs p' -> st_children k !! tab_name t = None) ->
  shelf_ok (put pid p k s).
Proof.
  intros [Hd Hs Ha] Hpk H1 H2. split.
  - intros q. simpl. destruct (decide (q = pid)) as [->|]; [rewrite !lookup_insert_eq; split; by eexists|].
    by rewrite !lookup_insert_ne.
  - intros q p0 k0. rewrite at_put. case_decide; [by intros [= <- <-]|by apply Hs].
  - intros a b p0 k0 t Hab. simpl. destruct (decide (a = pid)) as [->|Hap].
    + rewrite lookup_insert_eq, lookup_insert_ne by done. intros [= <-]. by apply H1.
    + rewrite lookup_insert_ne by done. destruct (decide (b = pid)) as [->|Hbp].
      * rewrite lookup_insert_eq. intros Hp [= <-] Hin. by apply (H2 a p0 t).
      * rewrite lookup_insert_ne by done. by apply Ha.
Qed.

Lemma drop_ok pid s : shelf_ok s -> shelf_ok (drop pid s).
Proof.
  intros [Hd Hs Ha]. split.
  - intros q. simpl. destruct (decide (q = pid)) as [->|]; [by rewrite !lookup_delete_eq|]. by rewrite !lookup_delete_ne.
  - intros q p k. rewrite at_drop. case_decide; [done|by apply Hs].
  - intros a b p k t Hab. simpl. intros [_ Hp]%lookup_delete_Some [_ Hk]%lookup_delete_Some. apply (Ha a b p k t); done.
Qed.

Lemma fresh_no_tab n s pid p : shelf_ok s -> fresh n s -> sh_panes s !! pid = Some p -> n ∉ tab_name <$> tabs p.
Proof.
  intros H Hf Hp (t & -> & Ht)%list_elem_of_fmap.
  destruct (proj1 (sf_dom _ H pid) (mk_is_Some _ _ Hp)) as [k Hk].
  pose proof (so_children _ _ (sf_slot _ H pid p k ltac:(by apply at_lookup)) t Ht) as Hc.
  by rewrite (Hf pid k Hk) in Hc.
Qed.

(** Replacing within what the slot had. *)
Lemma put_within pid p k p' k' s : shelf_ok s -> at_ pid s = Some (p, k) -> slot_ok p' k' ->
  (forall t, t ∈ tabs p' -> t ∈ tabs p) -> (forall n, st_children k !! n = None -> st_children k' !! n = None) ->
  shelf_ok (put pid p' k' s).
Proof.
  intros H [Hp Hk]%at_lookup Hok Ht Hc. apply put_ok; [done|done| |].
  - intros b k0 t Hb Hk0 Hin. apply (sf_apart _ H pid b p k0 t); auto.
  - intros a p0 t Ha Hp0 Hin. apply Hc. by apply (sf_apart _ H a pid p0 k t).
Qed.

(** Adding one fresh name. *)
Lemma put_fresh pid p' k' n s : shelf_ok s -> fresh n s -> slot_ok p' k' ->
  (forall t, t ∈ tabs p' -> tab_name t = n \/ exists p, sh_panes s !! pid = Some p /\ t ∈ tabs p) ->
  (forall m, m <> n -> is_Some (st_children k' !! m) -> exists k, sh_stacks s !! pid = Some k /\ is_Some (st_children k !! m)) ->
  shelf_ok (put pid p' k' s).
Proof.
  intros H Hf Hok Ht Hc. apply put_ok; [done|done| |].
  - intros b k0 t Hb Hk0 Hin. destruct (Ht t Hin) as [->|(p & Hp & Hin')]; [by eapply Hf|].
    by apply (sf_apart _ H pid b p k0 t).
  - intros a p0 t Ha Hp0 Hin. destruct (st_children k' !! tab_name t) eqn:E; [|done]. exfalso.
    destruct (decide (tab_name t = n)) as [En|Hne].
    + apply (fresh_no_tab n s a p0 H Hf Hp0). apply list_elem_of_fmap. by exists t.
    + destruct (Hc _ Hne (mk_is_Some _ _ E)) as (k & Hk & Hs).
      rewrite (sf_apart _ H a pid p0 k t Ha Hp0 Hk Hin) in Hs. by destruct Hs.
Qed.

(** Telling the stack to show the active tab. *)
Lemma shows_active p k : selected_tab p < length (tabs p) -> NoDup (tab_name <$> tabs p) ->
  (forall t, t ∈ tabs p -> st_children k !! tab_name t = Some (panel_widget (tab_panel t))) ->
  slot_ok p (show_active p k).
Proof.
  intros Hs Hn Hc. unfold show_active. destruct (active_tab p) as [t|] eqn:E.
  - split; [done|done|by intros; rewrite st_set_children; apply Hc|].
    intros t' Ht'. rewrite E in Ht'. injection Ht' as <-. apply st_set_shows. rewrite Hc; [by eexists|]. by eapply list_elem_of_lookup_2.
  - exfalso. unfold active_tab in E. apply lookup_ge_None in E. lia.
Qed.
Lemma shows_tab p k n : selected_tab p < length (tabs p) -> NoDup (tab_name <$> tabs p) ->
  (forall t, t ∈ tabs p -> st_children k !! tab_name t = Some (panel_widget (tab_panel t))) ->
  (tab_name <$> active_tab p) = Some n -> slot_ok p (st_set_visible n k).
Proof.
  intros Hs Hnd Hc Ha. pose proof (shows_active p k Hs Hnd Hc) as H. unfold show_active in H.
  destruct (active_tab p) as [t|]; [|done]. simpl in Ha. by injection Ha as <-.
Qed.
Lemma show_active_children p k : st_children (show_active p k) = st_children k.
Proof. unfold show_active. case_match; [apply st_set_children|done]. Qed.

(** All but what is shown. *)
Definition filled p k : Prop :=
  selected_tab p < length (tabs p) /\ NoDup (tab_name <$> tabs p) /\
  (forall t, t ∈ tabs p -> st_children k !! tab_name t = Some (panel_widget (tab_panel t))).

Lemma slot_filled p k : slot_ok p k -> filled p k.
Proof. by intros []. Qed.
Lemma filled_active p k : filled p k -> slot_ok p (show_active p k).
Proof. intros (? & ? & ?). by apply shows_active. Qed.
Lemma filled_tab p k n : filled p k -> (tab_name <$> active_tab p) = Some n -> slot_ok p (st_set_visible n k).
Proof. intros (? & ? & ?). by apply shows_tab. Qed.

Lemma push_filled panel p k : filled p k -> st_children k !! stack_child_name panel = None ->
  filled (snd (push_tab panel p)) (add_named panel k).
Proof.
  intros (Hs & Hn & Hc) Hf. unfold filled, add_named. simpl. rewrite fmap_app, st_add_children by done.
  assert (stack_child_name panel ∉ tab_name <$> tabs p) as Hnin.
  { intros (t & E & Ht)%list_elem_of_fmap. rewrite E, (Hc t Ht) in Hf. done. }
  split_and!.
  - rewrite length_app. simpl. lia.
  - apply NoDup_app. split_and!; [done| |apply NoDup_singleton].
    intros n Hin Hin'. apply list_elem_of_singleton in Hin' as ->. done.
  - intros t [Ht|Ht]%elem_of_app.
    + rewrite lookup_insert_ne; [by apply Hc|]. intros E. apply Hnin. rewrite E. apply list_elem_of_fmap. by exists t.
    + apply list_elem_of_singleton in Ht as ->. apply lookup_insert_eq.
Qed.

Lemma built_filled pid panel t : tab_panel t = panel -> filled (mkPane pid [t] 0 false) (build_tab_panel_widget panel (panel_widget panel)).
Proof.
  intros <-. unfold filled, build_tab_panel_widget. simpl. split_and!; [lia|apply NoDup_singleton|].
  intros t' ->%list_elem_of_singleton. rewrite st_set_children, st_add_children by (by rewrite st_new_children).
  apply lookup_insert_eq.
Qed.
Lemma built_children panel : st_children (build_tab_panel_widget panel (panel_widget panel)) = {[stack_child_name panel := panel_widget panel]}.
Proof.
  unfold build_tab_panel_widget. rewrite st_set_children, st_add_children by (by rewrite st_new_children).
  by rewrite st_new_children.
Qed.
Lemma built_slot pid panel t : tab_panel t = panel -> slot_ok (mkPane pid [t] 0 false) (build_tab_panel_widget panel (panel_widget panel)).
Proof.
  intros <-. pose proof (built_filled pid _ t eq_refl) as (? & ? & ?). split; [done..|].
  intros t' [= <-]. unfold build_tab_panel_widget. apply st_set_shows.
  rewrite st_add_children by (by rewrite st_new_children). rewrite lookup_insert_eq. by eexists.
Qed.

(** A new pane with one tab, whose name no stack has. *)
Lemma put_built_ok pid panel t s : shelf_ok s -> fresh (stack_child_name panel) s -> tab_panel t = panel ->
  shelf_ok (put pid (mkPane pid [t] 0 false) (build_tab_panel_widget panel (panel_widget panel)) s).
Proof.
  intros H Hf Ht. apply (put_fresh _ _ _ (stack_child_name panel)); [done|done|by apply built_slot| |].
  - intros t' ->%list_elem_of_singleton. left. unfold tab_name. by rewrite Ht.
  - intros m Hm [w Hw]. rewrite built_children, lookup_singleton_ne in Hw by done. done.
Qed.

Lemma new_pane_ok pid panel s : shelf_ok s -> fresh (stack_child_name panel) s -> shelf_ok (new_pane pid panel s).
Proof. intros H Hf. unfold new_pane. destruct panel; by apply put_built_ok. Qed.

Lemma new_pane_tab_ok pid sid s : shelf_ok s -> fresh (stack_child_name (Terminal sid)) s -> shelf_ok (new_pane_tab pid sid s).
Proof.
  intros H Hf. unfold new_pane_tab. destruct (at_ pid s) as [[p k]|] eqn:E; [|done].
  pose proof (proj1 (at_lookup _ _ _ _) E) as [Hp Hk]. unfold add_tab.
  apply (put_fresh _ _ _ (stack_child_name (Terminal sid))); [done|done| | |].
  - apply filled_tab; [apply push_filled; [by eapply slot_filled, sf_slot|by eapply Hf]|].
    unfold active_tab. simpl. by rewrite lookup_app_r, Nat.sub_diag by lia.
  - simpl. intros t [Ht|Ht]%elem_of_app; [right; by exists p|left; by apply list_elem_of_singleton in Ht as ->].
  - intros m Hm. rewrite st_set_children. unfold add_named. rewrite st_add_children by (by eapply Hf).
    rewrite lookup_insert_ne by done. intros Hs. by exists k.
Qed.

(** Tabs pushed onto a pane by a restore, with the first pane and stack. *)
Lemma fold_filled panels : forall p k, filled p k ->
  NoDup (stack_child_name <$> panels) -> (forall x, x ∈ panels -> st_children k !! stack_child_name x = None) ->
  let p' := foldl (fun p x => snd (push_tab x p)) p panels in
  let k' := foldl (fun k x => add_named x k) k panels in
  filled p' k' /\ (exists l, tabs p' = tabs p ++ l /\ forall t, t ∈ l -> tab_panel t ∈ panels) /\
  (forall m, is_Some (st_children k' !! m) -> is_Some (st_children k !! m) \/ m ∈ stack_child_name <$> panels).
Proof.
  induction panels as [|x panels IH]; intros p k Hf Hn Hc; cbn [foldl]; cbv zeta.
  { split; [done|]. split; [|by left]. exists []. rewrite app_nil_r. split; [done|]. by intros t ?%not_elem_of_nil. }
  rewrite fmap_cons in Hn. apply NoDup_cons in Hn as [Hx Hn].
  destruct (IH (snd (push_tab x p)) (add_named x k)) as (H1 & (l & Hl & Hin) & H3).
  - apply push_filled; [done|]. apply Hc. left.
  - done.
  - intros y Hy. unfold add_named. rewrite st_add_children by (apply Hc; left).
    rewrite lookup_insert_ne; [apply Hc; by right|]. intros E. apply Hx. rewrite E. by apply list_elem_of_fmap_2.
  - split; [done|]. split.
    + exists (new_tab x :: l). rewrite Hl. simpl. rewrite <- app_assoc. split; [done|].
      intros t [->|Ht]%elem_of_cons; [left|right; by apply Hin].
    + intros m Hm. rewrite fmap_cons. destruct (H3 m Hm) as [H|H]; [|right; by right].
      unfold add_named in H. rewrite st_add_children in H by (apply Hc; left).
      destruct (decide (m = stack_child_name x)) as [->|Hne]; [right; left|].
      rewrite lookup_insert_ne in H by done. by left.
Qed.

Lemma restore_pane_ok pid panel panels s : shelf_ok s -> NoDup (stack_child_name <$> panel :: panels) ->
  (forall x, x ∈ panel :: panels -> fresh (stack_child_name x) s) -> shelf_ok (restore_pane pid panel panels s).
Proof.
  intros H Hn Hf. unfold restore_pane, new_pane. rewrite at_put, decide_True by done.
  set (p0 := match panel with Terminal _ => _ | Browser _ _ => _ end).
  assert (p0 = mkPane pid [new_tab panel] 0 false) as -> by (by destruct panel).
  rewrite fmap_cons in Hn. apply NoDup_cons in Hn as [Hx Hn].
  destruct (fold_filled panels (mkPane pid [new_tab panel] 0 false) (build_tab_panel_widget panel (panel_widget panel)))
    as ((Hs & Hnd & Hc) & (l & Hl & Hin) & Hch); [by apply built_filled|done| |].
  { intros x Hxp. rewrite built_children, lookup_singleton_ne; [done|]. intros E. apply Hx. rewrite E.
    by apply list_elem_of_fmap_2. }
  set (p := foldl (fun p x => snd (push_tab x p)) _ panels) in *.
  set (k := foldl (fun k x => add_named x k) _ panels) in *. simpl in Hl.
  assert (forall t, t ∈ tabs (select_tab 0 p) -> tab_panel t ∈ panel :: panels) as Htp.
  { assert (tabs (select_tab 0 p) = tabs p) as -> by (unfold select_tab; by case_decide).
    rewrite Hl. intros t [->|Ht]%elem_of_cons; [left|right; by apply Hin]. }
  apply put_ok; [done| | |].
  - assert (tabs (select_tab 0 p) = tabs p) as E by (unfold select_tab; by case_decide).
    apply filled_tab.
    + unfold filled. rewrite E. split_and!; [|done|done]. unfold select_tab. rewrite decide_True by lia. simpl. lia.
    + unfold active_tab. rewrite E, Hl. unfold select_tab. rewrite decide_True by lia. done.
  - intros b k' t Hb Hk' Ht.
    by apply (Hf (tab_panel t) (Htp t Ht) b).
  - intros a p' t Ha Hp' Ht.
    rewrite st_set_children. destruct (st_children k !! tab_name t) eqn:E; [|done]. exfalso.
    assert (exists x, x ∈ panel :: panels /\ tab_name t = stack_child_name x) as (x & Hxp & Ex).
    { destruct (Hch _ (mk_is_Some _ _ E)) as [H'|(x & Ex & Hxp)%list_elem_of_fmap].
      - rewrite built_children in H'. exists panel. split; [left|].
        destruct (decide (tab_name t = stack_child_name panel)); [done|].
        rewrite lookup_singleton_ne in H' by done. by destruct H'.
      - exists x. split; [by right|done]. }
    apply (fresh_no_tab _ s a p' H (Hf x Hxp) Hp'). apply list_elem_of_fmap. by exists t.
Qed.

(** Fewer tabs with the same children. *)
Lemma filled_sub p p' k k' : filled p k -> selected_tab p' < length (tabs p') ->
  (exists i, tabs p' = delete i (tabs p)) \/ tabs p' ≡ₚ tabs p ->
  (forall t, t ∈ tabs p' -> st_children k' !! tab_name t = st_children k !! tab_name t) -> filled p' k'.
Proof.
  intros (Hs & Hn & Hc) Hs' Hsub Hk.
  assert (forall t, t ∈ tabs p' -> t ∈ tabs p) as Hin.
  { intros t Ht. destruct Hsub as [[i E]|E]; [|by rewrite <- E].
    rewrite E in Ht. eapply elem_of_submseteq; [exact Ht|]. apply sublist_submseteq, sublist_delete. }
  split_and!; [done| |intros t Ht; rewrite Hk by done; auto].
  destruct Hsub as [[i E]|E]; [|by rewrite E].
  rewrite E. eapply sublist_NoDup; [exact Hn|]. apply fmap_sublist, sublist_delete.
Qed.

Lemma shelf_close_tab_ok pid f s :
  (forall p k, at_ pid s = Some (p, k) -> 2 <= length (tabs p)) -> shelf_ok s -> shelf_ok (close_tab pid (remove_tab_by f) s).
Proof.
  intros Hlen H. unfold close_tab. destruct (at_ pid s) as [[p k]|] eqn:E; [|done]. specialize (Hlen p k eq_refl).
  pose proof (sf_slot _ H _ _ _ E) as Hsl. pose proof (so_tabs _ _ Hsl) as Hsel.
  pose proof (pane_ok_remove f p (fun _ => Hsel)) as Hok.
  unfold remove_tab_by in *. destruct (position f (tabs p)) as [i|] eqn:Hi; simpl in *.
  - destruct (position_Some _ _ _ Hi) as (t & Ht & _). pose proof (delete_length _ _ _ Ht) as Hl.
    set (p' := if decide _ then _ else _) in *.
    assert (tabs p' = delete i (tabs p)) as Ep by (unfold p'; by case_decide).
    assert (filled p' k) as Hf.
    { eapply filled_sub; [by apply slot_filled, Hsl| |left; by exists i|done]. apply Hok. intros En. rewrite Ep in En.
      rewrite En in Hl. simpl in Hl. lia. }
    apply (put_within _ p k); [done|done|by apply filled_active| |by intros n; rewrite show_active_children].
    intros t' Ht'. rewrite Ep in Ht'. eapply elem_of_submseteq; [exact Ht'|]. apply sublist_submseteq, sublist_delete.
  - apply (put_within _ p k); [done|done|by apply filled_active, slot_filled|done|by intros n; rewrite show_active_children].
Qed.

(** The same tabs with another selection, whose widget is shown. *)
Lemma reselect_ok pid p k p' n s : shelf_ok s -> at_ pid s = Some (p, k) -> tabs p' = tabs p ->
  selected_tab p' < length (tabs p) -> (tab_name <$> active_tab p') = Some n -> shelf_ok (put pid p' (st_set_visible n k) s).
Proof.
  intros H E Ht Hs Hn. pose proof (slot_filled _ _ (sf_slot _ H _ _ _ E)) as (_ & H2 & H3).
  apply (put_within _ p k); [done|done| |by rewrite Ht|by intros m; rewrite st_set_children].
  apply filled_tab; [|done]. unfold filled. by rewrite Ht.
Qed.

Lemma cycle_pane_tab_ok fwd pid s : shelf_ok s -> shelf_ok (cycle_pane_tab fwd pid s).
Proof.
  intros H. unfold cycle_pane_tab. destruct (at_ pid s) as [[p k]|] eqn:E; [|done].
  pose proof (so_tabs _ _ (sf_slot _ H _ _ _ E)) as Hs. pose proof (pane_ok_cycle fwd p (fun _ => Hs)) as Hok.
  assert (tabs (snd (cycle_tab fwd p)) = tabs p) as Et by (unfold cycle_tab; by case_decide).
  assert (fst (cycle_tab fwd p) = active_panel (snd (cycle_tab fwd p))) as Ea by (unfold cycle_tab; by case_decide).
  destruct (cycle_tab fwd p) as [pn p']. simpl in *. subst pn. unfold pane_ok in Hok. rewrite Et in Hok.
  assert (selected_tab p' < length (tabs p)) as Hs' by (apply Hok; intros En; rewrite En in Hs; simpl in Hs; lia).
  unfold active_panel. destruct (active_tab p') as [t|] eqn:Eat; simpl.
  - apply (reselect_ok _ p); [done|done|done|done|by rewrite Eat].
  - unfold active_tab in Eat. rewrite Et in Eat. apply lookup_ge_None in Eat. lia.
Qed.

Lemma select_pane_tab_ok pid idx panel s : shelf_ok s ->
  pane_is (fun p => (tab_panel <$> tabs p !! idx) = Some panel) pid s ->
  shelf_ok (select_pane_tab pid idx panel s).
Proof.
  intros H Hi. unfold select_pane_tab, pane_is in *. destruct (at_ pid s) as [[p k]|] eqn:E; [|done].
  destruct (tabs p !! idx) as [t|] eqn:Ht; [|done]. simpl in Hi. injection Hi as Hi.
  pose proof (lookup_lt_Some _ _ _ Ht) as Hlt. unfold select_tab. rewrite decide_True by done.
  apply (reselect_ok _ p); try done. unfold active_tab. simpl. rewrite Ht. simpl. unfold tab_name. by rewrite Hi.
Qed.

(** *** Drags *)

(** A drag of any tab of a pane to another pane finds what it looks for. *)
Lemma guard_holds src p k t target s : shelf_ok s -> at_ src s = Some (p, k) -> t ∈ tabs p -> target <> Some src ->
  drag_widget t k (target ≫= (sh_stacks s !!.)) = Some (panel_widget (tab_panel t)).
Proof.
  intros H E Ht Hne. unfold drag_widget. rewrite (so_children _ _ (sf_slot _ H _ _ _ E) t Ht).
  destruct target as [dst|]; simpl; [|done]. destruct (sh_stacks s !! dst) as [dk|] eqn:Hd; [|done]. simpl.
  apply at_lookup in E as [Hp _]. by rewrite (sf_apart _ H src dst p dk t) by congruence.
Qed.
Lemma widget_kind panel : tab_panel_widget panel (panel_widget panel) = true.
Proof. by destruct panel. Qed.

(** The tab has left its pane, and its name is nowhere. *)
Lemma shelf_leave_ok src p k i t s : shelf_ok s -> at_ src s = Some (p, k) -> tabs p !! i = Some t ->
  exists p', remove_tab_preserving_selection i p = Some (t, p') /\ tabs p' = delete i (tabs p) /\
    let s' := leave src p' (st_remove (tab_name t) k) s in
    shelf_ok s' /\ fresh (tab_name t) s' /\ forall q, q <> src -> at_ q s' = at_ q s.
Proof.
  intros H E Ht. pose proof (sf_slot _ H _ _ _ E) as Hsl. pose proof (proj1 (at_lookup _ _ _ _) E) as [Hp Hk].
  destruct (remove_preserving_ok i p t Ht) as (p' & Hr & Et & _ & _ & Hok).
  specialize (Hok (fun _ => so_tabs _ _ Hsl)).
  exists p'. split; [done|]. split; [done|]. cbv zeta.
  assert (forall t', t' ∈ tabs p' -> t' ∈ tabs p /\ tab_name t' <> tab_name t) as Hsub.
  { rewrite Et. intros t' (j & Hj)%list_elem_of_lookup_1. rewrite delete_lookup in Hj.
    set (j' := if decide (j < i) then j else S j) in *.
    assert (tabs p !! j' = Some t') as Hj' by (unfold j'; by case_decide).
    split; [by eapply list_elem_of_lookup_2|]. intros En.
    assert (j' = i) as Ej.
    { apply (NoDup_lookup (tab_name <$> tabs p) _ _ (tab_name t) (so_names _ _ Hsl)); rewrite list_lookup_fmap.
      - by rewrite Hj'; simpl; rewrite En.
      - by rewrite Ht. }
    unfold j' in Ej. case_decide; lia. }
  assert (forall q, q <> src -> at_ q (leave src p' (st_remove (tab_name t) k) s) = at_ q s) as Hat.
  { intros q Hq. unfold leave. destruct (tabs p'); [by rewrite at_drop, decide_False|by rewrite at_put, decide_False]. }
  assert (forall q k', q <> src -> sh_stacks s !! q = Some k' -> st_children k' !! tab_name t = None) as Hf.
  { intros q k' Hq Hk'. apply (sf_apart _ H src q p k' t); [done|done|done|]. by eapply list_elem_of_lookup_2. }
  unfold leave in *. destruct (tabs p') as [|y r] eqn:En.
  - split; [by apply drop_ok|]. split; [|exact Hat]. intros q k'. simpl. intros [Hq Hk']%lookup_delete_Some. by apply (Hf q).
  - split; [|split; [|exact Hat]].
    + apply (put_within _ p k); [done|done| | |].
      * apply filled_active. eapply filled_sub; [by apply slot_filled, Hsl|apply Hok; by rewrite En| |].
        -- left. exists i. by rewrite En.
        -- intros t' Ht'. rewrite st_remove_children. rewrite En in Ht'.
           rewrite lookup_delete_ne; [done|]. intros Ee. by destruct (Hsub t' Ht').
      * intros t' Ht'. rewrite En in Ht'. by apply Hsub.
      * intros n Hn. rewrite show_active_children, st_remove_children. apply lookup_delete_None. by right.
    + intros q k'. simpl. destruct (decide (q = src)) as [->|Hq].
      * rewrite lookup_insert_eq. intros [= <-]. rewrite show_active_children, st_remove_children. apply lookup_delete_eq.
      * rewrite lookup_insert_ne by done. by apply Hf.
Qed.

Lemma extract_ok src i new target s : shelf_ok s -> target <> Some src ->
  exists s', extract_to_pane src i new target s = Some s' /\ shelf_ok s'.
Proof.
  intros H Hne. unfold extract_to_pane. destruct (at_ src s) as [[sp sk]|] eqn:E; [|by exists s].
  destruct (tabs sp !! i) as [t|] eqn:Ht; [|by exists s].
  rewrite (guard_holds src sp sk t target s H E) by (done || by eapply list_elem_of_lookup_2). rewrite widget_kind. simpl.
  destruct (shelf_leave_ok src sp sk i t s H E Ht) as (p' & -> & _ & H1 & H2 & _). simpl.
  eexists. split; [done|]. by apply put_built_ok.
Qed.

Lemma move_ok src i dst ti s : shelf_ok s -> dst <> src ->
  pane_is (fun p => ti <= length (tabs p)) dst s ->
  exists s', move_to_pane src i dst ti s = Some s' /\ shelf_ok s'.
Proof.
  intros H Hne Hti. unfold move_to_pane, pane_is in *. destruct (at_ src s) as [[sp sk]|] eqn:E; [|by exists s].
  destruct (at_ dst s) as [[dp dk]|] eqn:Ed; [|by exists s].
  destruct (tabs sp !! i) as [t|] eqn:Ht; [|by exists s].
  pose proof (guard_holds src sp sk t (Some dst) s H E ltac:(by eapply list_elem_of_lookup_2) ltac:(congruence)) as Hg.
  simpl in Hg. rewrite (proj2 (proj1 (at_lookup _ _ _ _) Ed)) in Hg. rewrite Hg. simpl.
  destruct (shelf_leave_ok src sp sk i t s H E Ht) as (p' & -> & _ & H1 & H2 & H3). simpl.
  unfold vec_insert. rewrite decide_True by done. simpl. eexists. split; [done|].
  set (s1 := leave _ _ _ _) in *. pose proof (H3 dst Hne) as Ed1. rewrite Ed in Ed1.
  pose proof (proj1 (at_lookup _ _ _ _) Ed1) as [Hdp Hdk].
  pose proof (H2 dst dk Hdk) as Hdn. pose proof (sf_slot _ H1 _ _ _ Ed1) as Hsl.
  assert (forall t', t' ∈ insert_at ti t (tabs dp) <-> t' = t \/ t' ∈ tabs dp) as Hin.
  { intros t'. by rewrite insert_at_cons, elem_of_cons. }
  apply (put_fresh _ _ _ (tab_name t)); [done|done| | |].
  - apply filled_tab.
    + unfold filled. cbn [set_selected set_tabs tabs selected_tab]. split_and!.
      * rewrite insert_at_cons. simpl. lia.
      * rewrite insert_at_cons, fmap_cons. apply NoDup_cons. split; [by eapply fresh_no_tab|apply Hsl].
      * intros t' Ht'. rewrite st_add_children by done. destruct (decide (tab_name t' = tab_name t)) as [En|En].
        -- rewrite En, lookup_insert_eq. apply Hin in Ht' as [->|Ht']; [done|].
           rewrite <- En, (so_children _ _ Hsl t' Ht') in Hdn. done.
        -- rewrite lookup_insert_ne by done. apply Hin in Ht' as [->|Ht']; [done|]. by apply Hsl.
    + unfold active_tab. cbn [set_selected set_tabs tabs selected_tab]. rewrite insert_at_lookup by done.
      rewrite decide_False, decide_True by lia. done.
  - cbn [set_selected set_tabs tabs]. intros t' [->|Ht']%Hin; [by left|right; by exists dp].
  - intros m Hm. rewrite st_set_children, st_add_children, lookup_insert_ne by done. intros Hs. by exists dk.
Qed.

Lemma reorder_pane_ok pid from ins s : shelf_ok s ->
  pane_is (fun p => ins <= length (tabs p)) pid s ->
  exists s', reorder_in_pane pid from ins s = Some s' /\ shelf_ok s'.
Proof.
  intros H Hi. unfold reorder_in_pane, pane_is in *. destruct (at_ pid s) as [[p k]|] eqn:E; [|by exists s].
  destruct (tabs p !! from) as [t|] eqn:Ht; [|by exists s].
  pose proof (sf_slot _ H _ _ _ E) as Hsl. rewrite (so_children _ _ Hsl t) by (by eapply list_elem_of_lookup_2).
  destruct (reorder_lookup from ins p t Ht Hi) as (p' & l & -> & -> & Hd & Et & _ & _ & Ha). simpl.
  eexists. split; [done|]. specialize (Ha (so_tabs _ _ Hsl)).
  assert (tabs p' ≡ₚ tabs p) as Hperm.
  { rewrite Et. by apply insert_at_perm. }
  assert (selected_tab p' < length (tabs p')) as Hs'.
  { destruct (decide (selected_tab p' < length (tabs p'))); [done|]. exfalso.
    unfold active_tab in Ha. rewrite (proj2 (lookup_ge_None (tabs p') _)) in Ha by lia.
    symmetry in Ha. apply lookup_ge_None in Ha. pose proof (so_tabs _ _ Hsl). lia. }
  apply (put_within _ p k); [done|done| |by intros t'; rewrite Hperm|done].
  destruct (filled_sub p p' k k) as (H1 & H2 & H3); [by apply slot_filled, Hsl|done|by right|done|].
  split; [done..|]. intros t'. rewrite Ha. apply Hsl.
Qed.

Lemma shelf_close_panel_ok pid panel s : shelf_ok s -> shelf_ok (close_panel pid panel s).
Proof.
  intros H. unfold close_panel. destruct (sh_panes s !! pid) as [p|] eqn:Ep; [|done].
  case_decide; [by apply drop_ok|].
  assert (forall q k, at_ pid s = Some (q, k) -> 2 <= length (tabs q)) as Hl.
  { intros q k [Hq _]%at_lookup. rewrite Ep in Hq. injection Hq as <-. lia. }
  destruct panel; by apply shelf_close_tab_ok.
Qed.

Lemma shelf_step_ok e s : shelf_ok s -> allowed e s -> exists s', shelf_step e s = Some s' /\ shelf_ok s'.
Proof.
  intros H Ha. destruct e; simpl in *; try (eexists; split; [done|]).
  - by apply new_pane_ok.
  - by apply new_pane_tab_ok.
  - destruct Ha as [Hn Hf]. apply restore_pane_ok; [done|done|by apply Forall_forall].
  - by apply shelf_close_panel_ok.
  - by apply drop_ok.
  - by apply cycle_pane_tab_ok.
  - by apply select_pane_tab_ok.
  - by apply extract_ok.
  - destruct Ha. by apply move_ok.
  - by apply reorder_pane_ok.
Qed.

Lemma shelf_new_ok : shelf_ok shelf_new.
Proof.
  split; simpl.
  - intros pid. by rewrite !lookup_empty.
  - intros pid p k [Hp _]%at_lookup. simpl in Hp. by rewrite lookup_empty in Hp.
  - intros a b p k t _ Hp. by rewrite lookup_empty in Hp.
Qed.

Lemma shelf_run_ok es : forall s, shelf_ok s -> all_allowed es s -> exists s', shelf_run es s = Some s' /\ shelf_ok s'.
Proof.
  induction es as [|e es IH]; intros s H Ha; simpl in *; [by exists s|].
  destruct Ha as [H1 H2]. destruct (shelf_step_ok e s H H1) as (s1 & E & Hs1). rewrite E in *. simpl. by apply IH.
Qed.

(** C6: Whatever happens to the tabs of the panes - new ones, splits, restored layouts, tabs
    that close, are chosen by their button or by cycling, are reordered or dragged into
    other panes and workspaces - no step panics, every pane has a selected tab, and its
    stack shows the widget of exactly that tab and has the widget, of the right kind, of
    every other tab of the pane.  So a drag of a tab to another pane never stops at what it
    looks up in the stacks.  The assumptions: a new panel has an id that no panel had, the
    click of a tab carries the index and the panel of its button, and a drag names two
    different panes and an index within the target. *)
Theorem panes_show_selected es : all_allowed es (shelf_new (K := K)) ->
  exists s, shelf_run es shelf_new = Some s /\
    forall pid p, sh_panes s !! pid = Some p ->
      exists k t, sh_stacks s !! pid = Some k /\ active_tab p = Some t /\ st_visible k = Some (tab_name t) /\
        (forall t', t' ∈ tabs p -> st_children k !! tab_name t' = Some (panel_widget (tab_panel t'))) /\
        (forall t' target, t' ∈ tabs p -> target <> Some pid ->
           drag_widget t' k (target ≫= (sh_stacks s !!.)) = Some (panel_widget (tab_panel t'))).
Proof.
  intros Ha. destruct (shelf_run_ok es shelf_new shelf_new_ok Ha) as (s & E & H).
  exists s. split; [done|]. intros pid p Hp. destruct (proj1 (sf_dom _ H pid) (mk_is_Some _ _ Hp)) as [k Hk].
  assert (at_ pid s = Some (p, k)) as Ea by (by apply at_lookup). pose proof (sf_slot _ H _ _ _ Ea) as Hsl.
  destruct (active_tab p) as [t|] eqn:Et.
  - exists k, t. split_and!; [done|done|by apply Hsl|apply Hsl|]. intros t' target Ht Hne. by apply (guard_holds pid p).
  - apply lookup_ge_None in Et. pose proof (so_tabs _ _ Hsl). lia.
Qed.

(** A tab that closes while its pane has others leaves its widget behind: the stack of the
    pane keeps all its children, that of the closed tab among them, and with it the
    terminal's area or the web page, until the pane itself goes. *)
Theorem closed_tab_kept pid p k t s : shelf_ok s -> at_ pid s = Some (p, k) -> t ∈ tabs p -> 2 <= length (tabs p) ->
  exists p' k', at_ pid (close_panel pid (tab_panel t) s) = Some (p', k') /\ length (tabs p') = length (tabs p) - 1 /\
    st_children k' !! tab_name t = Some (panel_widget (tab_panel t)).
Proof.
  intros H Ea Ht Hl. pose proof (proj1 (at_lookup _ _ _ _) Ea) as [Hp _]. unfold close_panel. rewrite Hp, decide_False by lia.
  set (rm := match tab_panel t with Terminal _ => _ | Browser _ _ => _ end). unfold close_tab. rewrite Ea.
  exists (snd (rm p)), (show_active (snd (rm p)) k). rewrite at_put, decide_True by done. split; [done|].
  rewrite show_active_children. split; [|by apply (so_children _ _ (sf_slot _ H _ _ _ Ea))].
  assert (exists f, rm = remove_tab_by f /\ f t = true) as (f & -> & Hf).
  { unfold rm, remove_tab, remove_browser_tab, tab_surface_id, tab_browser_id.
    destruct (tab_panel t) eqn:Etp; eexists; (split; [done|]); apply bool_decide_eq_true; by rewrite Etp. }
  unfold remove_tab_by. destruct (position f (tabs p)) as [i|] eqn:Hi.
  - destruct (position_Some _ _ _ Hi) as (x & Hx & _). simpl. case_decide; simpl; by rewrite (delete_length _ _ _ Hx).
  - rewrite (proj1 (position_None _ _) Hi t Ht) in Hf. done.
Qed.
End proofs.

(** ** A stack *)

(** Children with names, and the one that shows. *)
Record NamedStack := mkNamedStack { ns_children : gmap string TabWidget; ns_visible : option string }.
#[export] Instance named_stack_ops : StackOps NamedStack := {|
  st_new := mkNamedStack ∅ None;
  st_children := ns_children;
  st_visible := ns_visible;
  st_add_named w n k :=
    mkNamedStack (<[n := w]> (ns_children k)) (match ns_visible k with None => Some n | v => v end);
  st_remove n k :=
    mkNamedStack (delete n (ns_children k)) (if decide (ns_visible k = Some n) then None else ns_visible k);
  st_set_visible n k :=
    match ns_children k !! n with Some _ => mkNamedStack (ns_children k) (Some n) | None => k end
|}.
#[export] Instance named_stack_laws : StackLaws NamedStack.
Proof.
  split; simpl; try done.
  - intros k n. by case_match.
  - intros k n [w ->]. done.
  - intros k n ->. done.
Qed.

(** Two terminals in a pane, a browser split off, the second terminal dragged into the
    browser's pane and the first closed. *)
Definition some_events : list ShelfEvent :=
  [New 1 (Terminal 1%Z); Add 1 2%Z; New 2 (Browser 1%Z "https://example.org"); MoveTab 1 1 2 0; SelectTab 2 1 (Browser 1%Z "https://example.org");
   ClosePanel 1 (Terminal 1%Z)].
Lemma panes_show_selected_witness : all_allowed some_events (shelf_new (K := NamedStack)) /\
  exists s, shelf_run some_events (shelf_new (K := NamedStack)) = Some s /\
    forall pid p, sh_panes s !! pid = Some p ->
      exists k t, sh_stacks s !! pid = Some k /\ active_tab p = Some t /\ st_visible k = Some (tab_name t) /\
        (forall t', t' ∈ tabs p -> st_children k !! tab_name t' = Some (panel_widget (tab_panel t'))) /\
        (forall t' target, t' ∈ tabs p -> target <> Some pid ->
           drag_widget t' k (target ≫= (sh_stacks s !!.)) = Some (panel_widget (tab_panel t'))).
Proof.
  assert (all_allowed some_events (shelf_new (K := NamedStack))) as H.
  { apply (bool_decide_unpack _). vm_compute. exact I. }
  split; [exact H|]. exact (panes_show_selected some_events H).
Defined.
