(* ===== verification/Selection.v ===== *)
(** * The selected row of the sidebar (app/src/window.rs)

    The window shows its workspaces twice: as pages of the notebook and as rows of the
    list in the sidebar.  Every operation that changes the pages changes the rows and
    selects one, and a row that is selected, by the user or by the program, calls back
    into the window, which it may find borrowed.  GTK's list is the interface
    [ListBoxOps] with its documented behaviour in [ListBoxLaws]; the theorem is that the
    rows are the workspaces in their order and that the selected row is that of the
    page shown.  What a page switch leaves to the main loop is at the end. *)

From Stdlib Require Import Ascii.
From S2P Require Import Prelude F64 SplitTree SplitTreeMerge RustStr RemoteConfig Workspace Tabs Surfaces Notebook Window WindowTabs WindowOk WindowProps WindowLife WindowClaims Session SessionProps.
Open Scope string_scope.
Open Scope list_scope.

(** ** The list of rows *)

(** A row is identified by the workspace it stands for. *)
Class ListBoxOps (LB : Type) := {
  lb_rows : LB -> list WorkspaceId;
  lb_selected : LB -> option WorkspaceId;
  lb_append : WorkspaceId -> LB -> LB;
  lb_remove : WorkspaceId -> LB -> LB;
  lb_select_row : WorkspaceId -> LB -> LB;
  lb_unselect : LB -> LB;
}.

(** The mode is that in which one row or none is selected. *)
Class ListBoxLaws (LB : Type) `{!ListBoxOps LB} := {
  lb_append_rows (l : LB) r : lb_rows (lb_append r l) = lb_rows l ++ [r];
  lb_append_selected (l : LB) r : lb_selected (lb_append r l) = lb_selected l;
  lb_remove_rows (l : LB) r : lb_rows (lb_remove r l) = filter (fun x => x <> r) (lb_rows l);
  lb_remove_selected (l : LB) r :
    lb_selected (lb_remove r l) = if decide (lb_selected l = Some r) then None else lb_selected l;
  lb_select_rows (l : LB) r : lb_rows (lb_select_row r l) = lb_rows l;
  lb_select_selected (l : LB) r : r ∈ lb_rows l -> lb_selected (lb_select_row r l) = Some r;
  lb_unselect_rows (l : LB) : lb_rows (lb_unselect l) = lb_rows l;
  lb_unselect_selected (l : LB) : lb_selected (lb_unselect l) = None;
}.

(** The window's cell while a signal is handled: free, or borrowed by the operation that
    caused the signal. *)
Inductive Borrow := NotBorrowed | Shared | Exclusive.
Definition try_borrow (b : Borrow) : bool := match b with Exclusive => false | _ => true end.

Section selection.
Context {NB LB : Type} `{NBO : !NotebookOps NB, LBO : !ListBoxOps LB}.
(** Whether selecting the selected row signals; the listings of maps and the parameters of
    a restore. *)
Context (emits_same : bool) (nord : gmap Z Node -> list NodeId) (ord : gmap Z Pane -> list PaneId).
Context (wd cmd : option string) (fp : option Z) (ur : nat -> option string) (now : Z).

Record Side := mkSide { sd_win : AppWindow NB; sd_list : LB }.

(** ** The handler of the list *)

(** The widgets of a workspace are there as long as the workspace is. *)
Definition row_selected (b : Borrow) (id : WorkspaceId) (s : Side) : Side :=
  if try_borrow b && bool_decide (id ∈ ws_ids (sd_win s)) then
    match nb_page_num id (notebook (sd_win s)) with
    | Some n => mkSide (set_page n (sd_win s)) (sd_list s)
    | None => s
    end
  else s.

(** [select_row], with the handler inside; the handler does nothing without a row. *)
Definition select_row (b : Borrow) (id : WorkspaceId) (s : Side) : Side :=
  let s' := mkSide (sd_win s) (lb_select_row id (sd_list s)) in
  if emits_same || bool_decide (lb_selected (sd_list s) <> Some id) then row_selected b id s' else s'.

Definition select_at (b : Borrow) (i : nat) (s : Side) : Side :=
  match workspaces (sd_win s) !! i with Some w => select_row b (ws_id w) s | None => s end.
Definition select_current (b : Borrow) (s : Side) : Side :=
  match nb_current_page (notebook (sd_win s)) with Some i => select_at b i s | None => s end.

(** ** Operations *)

Definition new_workspace_row (s : Side) : Side :=
  let id := workspace_counter (sd_win s) in
  select_row Exclusive id (mkSide (new_workspace (sd_win s)) (lb_append id (sd_list s))).
Definition new_remote_workspace_row (c : RemoteConfiguration) (s : Side) : Side :=
  let id := workspace_counter (sd_win s) in
  select_row Exclusive id (mkSide (snd (new_remote_workspace fp ur c (sd_win s))) (lb_append id (sd_list s))).

(** A restored workspace is not selected. *)
Definition restore_workspace_row (bc : Z) (snap : WorkspaceSnapshot) (s : Side) : Side :=
  mkSide (snd (snd (restore_workspace_from_layout nord wd cmd ord fp ur now (bc, sd_win s) snap)))
    (lb_append (workspace_counter (sd_win s)) (sd_list s)).

Definition remove_workspace_row (idx : nat) (s : Side) : option Side :=
  w ← workspaces (sd_win s) !! idx;
  aw ← remove_workspace_at idx (sd_win s);
  Some (select_current Exclusive (mkSide aw (lb_remove (ws_id w) (sd_list s)))).

(** The switches look up the page first, then the row; the window is borrowed shared. *)
Definition switched (b : Borrow) (aw : AppWindow NB) (target : option nat) (s : Side) : Side :=
  let s := mkSide aw (sd_list s) in match target with Some i => select_at b i s | None => s end.

Definition goto_workspace_row (idx : Z) (s : Side) : Side :=
  switched Shared (goto_workspace idx (sd_win s))
    (if decide (0 <= idx < Z.of_nat (length (workspaces (sd_win s))))%Z then Some (Z.to_nat idx) else None) s.

Definition relative_target (forward : bool) (aw : AppWindow NB) : option nat :=
  if decide (length (workspaces aw) = 0) then None
  else Some (relative_index forward (default 0 (nb_current_page (notebook aw))) (length (workspaces aw))).
Definition goto_relative_row (forward : bool) (s : Side) : Side :=
  switched Shared (goto_workspace_relative forward (sd_win s)) (relative_target forward (sd_win s)) s.

Definition tab_target (idx : Z) (aw : AppWindow NB) : option nat :=
  let n := length (workspaces aw) in
  if decide (n = 0) then None
  else if decide (idx = -1)%Z then relative_target false aw
  else if decide (idx = -2)%Z then relative_target true aw
  else if decide (idx = -3)%Z then Some (n - 1)
  else if decide (0 <= idx < Z.of_nat n)%Z then Some (Z.to_nat idx)
  else None.
Definition goto_tab_row (idx : Z) (s : Side) : Side :=
  switched Shared (goto_tab idx (sd_win s)) (tab_target idx (sd_win s)) s.

Definition select_by_id_row (id : WorkspaceId) (s : Side) : Side :=
  switched Shared (snd (select_workspace_by_id id (sd_win s))) (position (has_id id) (workspaces (sd_win s))) s.

Definition focus_pane_row (pid : PaneId) (s : Side) : Side :=
  switched Exclusive (snd (focus_pane_by_id pid (sd_win s)))
    ('(i, _, _) ← find_workspace_of_pane pid (sd_win s);
     if decide (default 0 (nb_current_page (notebook (sd_win s))) <> i) then Some i else None) s.

(** The end of [move_tab_to_workspace]: the target is shown. *)
Definition show_target_row (i : nat) (s : Side) : Side :=
  switched Exclusive (set_page i (sd_win s)) (Some i) s.

Definition reorder_rows (ids : list WorkspaceId) (l : LB) : LB :=
  foldl (fun l id => lb_append id l) (foldl (fun l id => lb_remove id l) l ids) ids.
(** [reorder_workspace_views]: the pages are in [aw]. *)
Definition reordered (aw : AppWindow NB) (s : Side) : Side :=
  select_current Exclusive (mkSide aw (reorder_rows (ws_ids aw) (sd_list s))).

Definition toggle_pinned_row (id : WorkspaceId) (s : Side) : Side :=
  match position (has_id id) (workspaces (sd_win s)) with
  | Some _ => reordered (toggle_workspace_pinned id (sd_win s)) s
  | None => s
  end.

Definition move_workspace_row (source target : WorkspaceId) (before : bool) (s : Side) : option Side :=
  let l := workspaces (sd_win s) in
  aw ← move_workspace source target before (sd_win s);
  match position (has_id source) l ≫= (l !!.), position (has_id target) l ≫= (l !!.) with
  | Some a, Some b => if decide (pinned a <> pinned b) then Some (mkSide aw (sd_list s)) else Some (reordered aw s)
  | _, _ => Some (mkSide aw (sd_list s))
  end.

(** The bell part of what a page switch leaves to the main loop. *)
Definition page_idle (page : nat) (s : Side) : Side :=
  mkSide (fst (clear_workspace_bell page (sd_win s))) (sd_list s).

(** ** Runs *)

(** [Elsewhere]: any other operation of the window; [PageIdle]: what a page switch has
    left to the main loop. *)
Inductive SideEvent :=
  | NewRow | NewRemoteRow (c : RemoteConfiguration) | RestoreRow (bc : Z) (snap : WorkspaceSnapshot)
  | RemoveRow (idx : nat)
  | GotoRow (idx : Z) | GotoRelative (forward : bool) | GotoTabRow (idx : Z) | SelectById (id : WorkspaceId)
  | FocusPane (pid : PaneId) | ShowTarget (i : nat)
  | TogglePinned (id : WorkspaceId) | MoveRow (source target : WorkspaceId) (before : bool)
  | RowClicked (id : WorkspaceId) | RowUnselected
  | PageIdle (page : nat) | Elsewhere (aw : AppWindow NB).

Definition side_step (e : SideEvent) (s : Side) : option Side :=
  match e with
  | NewRow => Some (new_workspace_row s)
  | NewRemoteRow c => Some (new_remote_workspace_row c s)
  | RestoreRow bc snap => Some (restore_workspace_row bc snap s)
  | RemoveRow idx => remove_workspace_row idx s
  | GotoRow idx => Some (goto_workspace_row idx s)
  | GotoRelative forward => Some (goto_relative_row forward s)
  | GotoTabRow idx => Some (goto_tab_row idx s)
  | SelectById id => Some (select_by_id_row id s)
  | FocusPane pid => Some (focus_pane_row pid s)
  | ShowTarget i => Some (show_target_row i s)
  | TogglePinned id => Some (toggle_pinned_row id s)
  | MoveRow source target before => move_workspace_row source target before s
  | RowClicked id => Some (select_row NotBorrowed id s)
  | RowUnselected => Some (mkSide (sd_win s) (lb_unselect (sd_list s)))
  | PageIdle page => Some (page_idle page s)
  | Elsewhere aw => Some (mkSide aw (sd_list s))
  end.

(** Where an event is possible: counters that have not run out, indices and rows that are
    there, and nothing else that changes the pages. *)
Definition side_allowed (e : SideEvent) (s : Side) : Prop :=
  let aw := sd_win s in
  match e with
  | NewRow | NewRemoteRow _ => fresh_ids aw
  | RestoreRow bc snap => session_room [snap] bc aw
  | RemoveRow idx | ShowTarget idx => idx < length (workspaces aw)
  | MoveRow source target _ => source <> target
  | RowClicked id => id ∈ lb_rows (sd_list s)
  | Elsewhere aw' => win_ok aw' /\ ws_ids aw' = ws_ids aw /\ nb_current (notebook aw') = nb_current (notebook aw)
  | _ => True
  end.

Fixpoint side_run (es : list SideEvent) (s : Side) : option Side :=
  match es with [] => Some s | e :: es => s ← side_step e s; side_run es s end.
Fixpoint side_all_allowed (es : list SideEvent) (s : Side) : Prop :=
  match es with
  | [] => True
  | e :: es => side_allowed e s /\ match side_step e s with Some s => side_all_allowed es s | None => True end
  end.

(** An event that selects a row, and one that may leave none selected. *)
Definition selects (e : SideEvent) (s : Side) : bool :=
  match e with
  | NewRow | NewRemoteRow _ | RemoveRow _ | ShowTarget _ | RowClicked _ => true
  | GotoRow idx => bool_decide (0 <= idx < Z.of_nat (length (workspaces (sd_win s))))%Z
  | GotoRelative _ => true
  | SelectById id | TogglePinned id => bool_decide (id ∈ ws_ids (sd_win s))
  | _ => false
  end.
Definition deselects (e : SideEvent) : bool :=
  match e with RowUnselected | RestoreRow _ _ => true | _ => false end.
(** Since the last event that may have left no row selected, one has been selected. *)
Fixpoint row_sure (es : list SideEvent) (s : Side) (b : bool) : bool :=
  match es with
  | [] => b
  | e :: es =>
      match side_step e s with
      | Some s' => row_sure es s' (selects e s || b && negb (deselects e))
      | None => true
      end
  end.
End selection.
Arguments Side : clear implicits.
Arguments SideEvent : clear implicits.

(** ** Rows and pages agree *)

Section proofs.
Context {NB LB : Type} `{NBO : !NotebookOps NB, NBL : !NotebookLaws NB, LBO : !ListBoxOps LB, LBL : !ListBoxLaws LB}.
Context (emits_same : bool) (nord : gmap Z Node -> list NodeId) (Hnord : forall m, enumerates (nord m) m).
Context (ord : gmap Z Pane -> list PaneId) (wd cmd : option string) (fp : option Z) (ur : nat -> option string) (now : Z).
Implicit Types (s : Side NB LB) (aw : AppWindow NB).

Definition settled s : Prop := lb_selected (sd_list s) = nb_current (notebook (sd_win s)).
Record side_ok s : Prop := mk_side_ok {
  so_win : win_ok (sd_win s);
  so_rows : lb_rows (sd_list s) = ws_ids (sd_win s);
  so_selected : lb_selected (sd_list s) = None \/ settled s;
}.

Lemma current_workspace aw i : win_ok aw -> nb_current_page (notebook aw) = Some i ->
  exists w, workspaces aw !! i = Some w /\ nb_current (notebook aw) = Some (ws_id w).
Proof.
  intros Hok Hi. pose proof (nb_page_range _ _ Hi) as Hr. rewrite (win_pages _ Hok) in Hr.
  unfold ws_ids in Hr. rewrite length_fmap in Hr. destruct (lookup_lt_is_Some_2 _ _ Hr) as [w Hw].
  exists w. split; [done|]. unfold nb_current. rewrite Hi. simpl. rewrite (win_pages _ Hok). unfold ws_ids.
  by rewrite list_lookup_fmap, Hw.
Qed.

Lemma set_page_current i aw : win_ok aw -> i < length (workspaces aw) ->
  nb_current (notebook (set_page i aw)) = ws_ids aw !! i.
Proof.
  intros Hok Hi. unfold nb_current. simpl. rewrite nb_set_current, nb_set_pages, (win_pages _ Hok); [done|].
  rewrite (win_pages _ Hok). unfold ws_ids. by rewrite length_fmap.
Qed.
Lemma set_page_ids i aw : ws_ids (set_page i aw) = ws_ids aw.
Proof. done. Qed.
Lemma id_in aw i w : workspaces aw !! i = Some w -> ws_id w ∈ ws_ids aw.
Proof. intros H. unfold ws_ids. apply list_elem_of_fmap_2. by eapply list_elem_of_lookup_2. Qed.

(** A row that is selected is that of the page, or the handler makes it so. *)
Lemma select_row_ok b id s : win_ok (sd_win s) -> lb_rows (sd_list s) = ws_ids (sd_win s) -> id ∈ ws_ids (sd_win s) ->
  nb_current (notebook (sd_win s)) = Some id \/ (try_borrow b = true /\ (lb_selected (sd_list s) = None \/ settled s)) ->
  side_ok (select_row emits_same b id s) /\ settled (select_row emits_same b id s).
Proof.
  intros Hok Hr Hin Hcur. set (l := lb_select_row id (sd_list s)).
  assert (lb_rows l = ws_ids (sd_win s) /\ lb_selected l = Some id) as [Hl1 Hl2].
  { unfold l. by rewrite lb_select_rows, lb_select_selected by (by rewrite Hr). }
  assert (forall aw', win_ok aw' -> ws_ids aw' = ws_ids (sd_win s) -> nb_current (notebook aw') = Some id ->
            side_ok (mkSide aw' l) /\ settled (mkSide aw' l)) as Hdone.
  { intros aw' H1 H2 H3. assert (settled (mkSide aw' l)) by (unfold settled; simpl; congruence).
    split; [split|]; simpl; [done|congruence|by right|done]. }
  unfold select_row. fold l. destruct (emits_same || _) eqn:E.
  - unfold row_selected. simpl. destruct (try_borrow b) eqn:Eb; simpl.
    + rewrite bool_decide_eq_true_2 by done.
      apply list_elem_of_lookup_1 in Hin as [n Hn].
      rewrite (nb_page_num_at id _ n) by (rewrite (win_pages _ Hok); first [done|apply Hok]).
      assert (n < length (workspaces (sd_win s))) as Hlt.
      { apply lookup_lt_Some in Hn. unfold ws_ids in Hn. by rewrite length_fmap in Hn. }
      apply Hdone; [by apply win_ok_page|done|by rewrite set_page_current].
    + destruct Hcur as [Hcur|[? _]]; [|done]. by apply Hdone.
  - apply orb_false_iff in E as [_ E%bool_decide_eq_false]. apply dec_stable in E.
    apply Hdone; [done|done|]. destruct Hcur as [|[_ [H|H]]]; [done|congruence|]. unfold settled in H. congruence.
Qed.

Lemma select_current_ok s : win_ok (sd_win s) -> lb_rows (sd_list s) = ws_ids (sd_win s) ->
  (workspaces (sd_win s) = [] -> lb_selected (sd_list s) = None) ->
  side_ok (select_current emits_same Exclusive s) /\ settled (select_current emits_same Exclusive s).
Proof.
  intros Hok Hr He. unfold select_current. destruct (nb_current_page _) as [i|] eqn:Hi.
  - destruct (current_workspace _ _ Hok Hi) as (w & Hw & Hc). unfold select_at. rewrite Hw.
    apply select_row_ok; [done|done|by eapply id_in|by left].
  - pose proof (nb_page_none _ Hi) as Hp. rewrite (win_pages _ Hok) in Hp.
    assert (settled s) as Hs.
    { unfold settled, nb_current. rewrite Hi. simpl. apply He. unfold ws_ids in Hp. by apply fmap_nil_inv in Hp. }
    split; [split; [done|done|by right]|done].
Qed.

(** A switch to a page and its row. *)
Lemma switched_ok b aw target s : side_ok s -> win_ok aw -> ws_ids aw = ws_ids (sd_win s) ->
  match target with
  | Some i => nb_current (notebook aw) = ws_ids aw !! i /\ i < length (workspaces aw)
  | None => nb_current (notebook aw) = nb_current (notebook (sd_win s))
  end ->
  side_ok (switched emits_same b aw target s) /\ (settled s \/ is_Some target -> settled (switched emits_same b aw target s)).
Proof.
  intros [H1 H2 H3] Hok Hids Ht. unfold switched. destruct target as [i|].
  - destruct Ht as [Hc Hi]. destruct (lookup_lt_is_Some_2 _ _ Hi) as [w Hw]. unfold select_at. simpl. rewrite Hw.
    destruct (select_row_ok b (ws_id w) (mkSide aw (sd_list s))) as [Ha Hb]; simpl; [done|congruence|by eapply id_in| |done].
    left. rewrite Hc. unfold ws_ids. by rewrite list_lookup_fmap, Hw.
  - assert (settled s -> settled (mkSide aw (sd_list s))) as Hs by (unfold settled; simpl; congruence).
    split; [|intros [?|[? ?]]; [auto|done]]. split; simpl; [done|congruence|]. destruct H3; [by left|right; auto].
Qed.

(** *** Operations *)

Lemma installed_current (nb : NB) id :
  nb_current (nb_set_current_page (length (nb_pages (nb_append_page id nb)) - 1) (nb_append_page id nb)) = Some id.
Proof.
  unfold nb_current. rewrite nb_set_current; [|rewrite nb_append_pages, length_app; simpl; lia]. simpl.
  rewrite nb_set_pages, nb_append_pages, length_app, lookup_app_r by (simpl; lia).
  replace (length (nb_pages nb) + length [id] - 1 - length (nb_pages nb)) with 0 by (simpl; lia). done.
Qed.

Lemma installed_row s aw id : side_ok s -> win_ok aw -> ws_ids aw = ws_ids (sd_win s) ++ [id] ->
  nb_current (notebook aw) = Some id ->
  let s' := select_row emits_same Exclusive id (mkSide aw (lb_append id (sd_list s))) in side_ok s' /\ settled s'.
Proof.
  intros [H1 H2 H3] Hok Hids Hc. apply select_row_ok; simpl; [done| | |by left].
  - by rewrite lb_append_rows, H2, Hids.
  - rewrite Hids. apply elem_of_app. right. by apply list_elem_of_singleton.
Qed.

Lemma new_ids aw : ws_ids (new_workspace aw) = ws_ids aw ++ [workspace_counter aw] /\
  nb_current (notebook (new_workspace aw)) = Some (workspace_counter aw).
Proof. split; [unfold ws_ids; simpl; by rewrite fmap_app|apply installed_current]. Qed.
Lemma new_remote_ids c aw : ws_ids (snd (new_remote_workspace fp ur c aw)) = ws_ids aw ++ [workspace_counter aw] /\
  nb_current (notebook (snd (new_remote_workspace fp ur c aw))) = Some (workspace_counter aw).
Proof. split; [unfold ws_ids; simpl; by rewrite fmap_app|apply installed_current]. Qed.

Lemma restore_notebook bc snap aw :
  notebook (snd (snd (restore_workspace_from_layout nord wd cmd ord fp ur now (bc, aw) snap))) =
  nb_append_page (workspace_counter aw) (notebook aw).
Proof.
  unfold restore_workspace_from_layout. cbn [fetch_next]. destruct (build_layout_widget _ _ _ _ _) as [t b].
  rewrite foldl_effects. cbv zeta. simpl. by case_match.
Qed.

Lemma restore_row_ok bc snap s : side_ok s -> session_room [snap] bc (sd_win s) ->
  side_ok (restore_workspace_row nord ord wd cmd fp ur now bc snap s).
Proof.
  intros [H1 H2 H3] Hroom. pose proof (restore_notebook bc snap (sd_win s)) as Hn.
  destruct (restore_workspace_spec nord Hnord ord wd cmd fp ur now snap [] bc (sd_win s) H1 Hroom)
    as (idle & bc' & aw' & w & E & Hok & _ & W & _).
  unfold restore_workspace_row. rewrite E in *. simpl in *.
  assert (ws_ids aw' = ws_ids (sd_win s) ++ [workspace_counter (sd_win s)]) as Hids.
  { by rewrite <- (win_pages _ Hok), Hn, nb_append_pages, (win_pages _ H1). }
  split; simpl; [done|by rewrite lb_append_rows, H2|]. unfold settled. simpl. rewrite lb_append_selected.
  destruct H3 as [H3|H3]; [by left|]. unfold settled in H3.
  destruct (nb_current_page (notebook (sd_win s))) as [i|] eqn:Hi.
  - right. destruct (current_workspace _ _ H1 Hi) as (v & Hv & Hc). rewrite H3, Hn. unfold nb_current.
    rewrite nb_append_current, Hi.
    + simpl. rewrite nb_append_pages. symmetry. apply lookup_app_l. by apply nb_page_range.
    + intros E'. apply nb_page_range in Hi. rewrite E' in Hi. simpl in Hi. lia.
  - left. rewrite H3. unfold nb_current. by rewrite Hi.
Qed.

Lemma delete_rows (l : list WorkspaceId) i x : NoDup l -> l !! i = Some x -> filter (fun y => y <> x) l = delete i l.
Proof.
  intros Hnd Hi. rewrite delete_take_drop. rewrite <- (take_drop_middle _ _ _ Hi) in Hnd |- * at 1.
  apply NoDup_app in Hnd as (_ & Hd & [Hn _]%NoDup_cons).
  rewrite filter_app, filter_cons_False by tauto. rewrite !filter_all; [done|..]; intros y Hy ->; [done|].
  apply (Hd x Hy). left.
Qed.

Lemma remove_row_ok idx s : side_ok s -> idx < length (workspaces (sd_win s)) ->
  exists s', remove_workspace_row emits_same idx s = Some s' /\ side_ok s' /\ settled s'.
Proof.
  intros [H1 H2 H3] Hlt. destruct (lookup_lt_is_Some_2 _ _ Hlt) as [w Hw].
  destruct (remove_workspace_ok (sd_win s) idx w (win_pages _ H1) (win_nodup _ H1) Hw) as (aw & E & Ew & Ep & Ec & Ewc).
  unfold remove_workspace_row. rewrite Hw. simpl. rewrite E. simpl. eexists. split; [done|].
  pose proof (win_ok_removed _ _ _ H1 Ew Ep Ec Ewc) as Hok. apply select_current_ok; simpl; [done| |].
  - rewrite lb_remove_rows, H2. unfold ws_ids. rewrite Ew, list_fmap_delete. apply delete_rows; [apply H1|].
    by rewrite list_lookup_fmap, Hw.
  - intros En. rewrite Ew in En. rewrite lb_remove_selected. case_decide as Hd; [done|].
    destruct H3 as [|H3]; [done|]. unfold settled in H3. rewrite H3.
    destruct (nb_current_page (notebook (sd_win s))) as [i|] eqn:Hi; [|unfold nb_current; by rewrite Hi].
    destruct (current_workspace _ _ H1 Hi) as (v & Hv & Hc). exfalso. apply Hd. rewrite H3, Hc. f_equal.
    apply (f_equal length) in En. rewrite (delete_length _ _ _ Hw) in En. simpl in En.
    apply lookup_lt_Some in Hv as Hvl. assert (i = idx) as -> by lia. congruence.
Qed.

Lemma reorder_rows_rows ids : forall (l : LB), (forall r, r ∈ lb_rows l -> r ∈ ids) -> lb_rows (reorder_rows ids l) = ids.
Proof.
  intros l H. unfold reorder_rows.
  assert (forall ids (l : LB), lb_rows (foldl (fun l id => lb_remove id l) l ids) = filter (fun r => r ∉ ids) (lb_rows l)) as Hr.
  { clear -LBL. induction ids as [|x ids IH]; intros l; simpl.
    - symmetry. apply filter_all. intros r _. apply not_elem_of_nil.
    - rewrite IH, lb_remove_rows, list_filter_filter. apply list_filter_iff. intros r. rewrite not_elem_of_cons. tauto. }
  assert (forall ids (l : LB), lb_rows (foldl (fun l id => lb_append id l) l ids) = lb_rows l ++ ids) as Ha.
  { clear -LBL. induction ids as [|x ids IH]; intros l; simpl; [by rewrite app_nil_r|]. by rewrite IH, lb_append_rows, <- app_assoc. }
  rewrite Ha, Hr. replace (filter _ _) with (@nil WorkspaceId); [done|]. symmetry.
  apply elem_of_nil_inv. intros r [Hn Hin]%list_elem_of_filter. by apply Hn, H.
Qed.
Lemma reorder_rows_selected ids (l : LB) : lb_selected l = None -> lb_selected (reorder_rows ids l) = None.
Proof.
  intros H. unfold reorder_rows.
  assert (lb_selected (foldl (fun l id => lb_remove id l) l ids) = None) as Hr.
  { revert l H. induction ids as [|x ids IH]; intros l H; simpl; [done|]. apply IH. rewrite lb_remove_selected. by case_decide. }
  revert Hr. generalize (foldl (fun l id => lb_remove id l) l ids). clear -LBL. induction ids as [|x ids IH]; intros l H; simpl; [done|].
  apply IH. by rewrite lb_append_selected.
Qed.

Lemma reordered_ok aw s : side_ok s -> win_ok aw -> ws_ids aw ≡ₚ ws_ids (sd_win s) ->
  side_ok (reordered emits_same aw s) /\ settled (reordered emits_same aw s).
Proof.
  intros [H1 H2 H3] Hok Hp. apply select_current_ok; simpl; [done| |].
  - apply reorder_rows_rows. intros r. by rewrite H2, Hp.
  - intros En. apply reorder_rows_selected. destruct H3 as [|H3]; [done|]. rewrite H3.
    destruct (nb_current_page (notebook (sd_win s))) as [i|] eqn:Hi; [|unfold nb_current; by rewrite Hi].
    destruct (current_workspace _ _ H1 Hi) as (v & Hv%id_in & _). rewrite <- Hp in Hv. unfold ws_ids in Hv. rewrite En in Hv.
    by apply not_elem_of_nil in Hv.
Qed.

Lemma find_position {A} (f : A -> bool) l : forall i x, position f l = Some i -> l !! i = Some x -> List.find f l = Some x.
Proof.
  induction l as [|a l IH]; intros i x; simpl; [done|]. destruct (f a); [by intros [= <-] [= <-]|].
  destruct (position f l) as [j|]; [|done]. intros [= <-] Hx. by apply (IH j).
Qed.

Lemma move_row_ok source target before s : side_ok s -> source <> target ->
  exists s', move_workspace_row emits_same source target before s = Some s' /\ side_ok s' /\ (settled s -> settled s').
Proof.
  intros H Hne. pose proof (so_win _ H) as Hok. unfold move_workspace_row.
  destruct (position (has_id source) (workspaces (sd_win s))) as [si|] eqn:Hs.
  2: { unfold move_workspace. rewrite Hs. simpl. eexists. split; [done|]. by destruct s. }
  destruct (position (has_id target) (workspaces (sd_win s))) as [ti|] eqn:Ht.
  2: { unfold move_workspace. rewrite Hs, Ht. simpl. destruct (_ !! si); eexists; (split; [done|]); by destruct s. }
  destruct (position_id _ _ _ Hs) as (a & Ha & Hai). destruct (position_id _ _ _ Ht) as (b & Hb & Hbi).
  simpl. rewrite Ha, Hb. destruct (decide (pinned a <> pinned b)) as [Hd|Hd].
  - unfold move_workspace. rewrite Hs, Ht, Ha, Hb. simpl. rewrite decide_True by done. simpl.
    eexists. split; [done|]. by destruct s.
  - destruct (move_workspace_spec (sd_win s) source target before a b Hok Hne (find_position _ _ _ _ Hs Ha)
      (find_position _ _ _ _ Ht Hb)) as (aw & l1 & l2 & E & Hok' & _ & Hf & Ew); [by apply dec_stable|].
    rewrite E. simpl. eexists. split; [done|]. destruct (reordered_ok aw s H Hok') as [? ?]; [|done].
    unfold ws_ids. apply fmap_Permutation. rewrite Ew. etrans; [|symmetry; apply (delete_Permutation _ _ _ Ha)].
    assert (filter (fun w => ws_id w <> source) (workspaces (sd_win s)) ≡ₚ delete si (workspaces (sd_win s))) as Hfd.
    { rewrite (delete_Permutation _ _ _ Ha) at 1. rewrite filter_cons_False by tauto. rewrite filter_all; [done|].
      intros x Hx Ex. pose proof (win_nodup _ Hok) as Hnd. unfold ws_ids in Hnd.
      rewrite (fmap_Permutation ws_id _ _ (delete_Permutation _ _ _ Ha)), fmap_cons in Hnd. apply NoDup_cons in Hnd as [Hn _].
      apply Hn. rewrite Hai, <- Ex. by apply list_elem_of_fmap_2. }
    rewrite <- Hfd, Hf. destruct before; simpl; solve_Permutation.
Qed.

Lemma clear_bell_keeps page aw :
  ws_ids (fst (clear_workspace_bell page aw)) = ws_ids aw /\
  notebook (fst (clear_workspace_bell page aw)) = notebook aw.
Proof.
  unfold clear_workspace_bell. destruct (workspaces aw !! page) as [w|]; [|done]. simpl.
  destruct (ws_has_bell w); [|done]. simpl. split; [|done]. apply alter_ids. intros v _. by destruct v.
Qed.

Lemma relative_index_lt forward cur n : n <> 0 -> relative_index forward cur n < n.
Proof. intros H. unfold relative_index. destruct forward; by apply Nat.mod_upper_bound. Qed.

(** A switch of the window and its target. *)
Lemma page_switch_ok b i s : side_ok s -> i < length (workspaces (sd_win s)) ->
  let s' := switched emits_same b (set_page i (sd_win s)) (Some i) s in side_ok s' /\ settled s'.
Proof.
  intros H Hi. pose proof (so_win _ H) as Hok.
  destruct (switched_ok b (set_page i (sd_win s)) (Some i) s H (win_ok_page _ i Hok) (set_page_ids i _)) as [H1 H2].
  - rewrite set_page_ids. split; [by apply set_page_current|done].
  - split; [done|]. apply H2. right. by eexists.
Qed.
Lemma no_switch_ok b s : side_ok s ->
  let s' := switched emits_same b (sd_win s) None s in side_ok s' /\ (settled s -> settled s').
Proof. intros H. destruct (switched_ok b (sd_win s) None s H (so_win _ H) eq_refl eq_refl) as [H1 H2]. split; [done|]. auto. Qed.

Lemma goto_relative_ok forward s : side_ok s ->
  let s' := goto_relative_row emits_same forward s in side_ok s' /\ settled s'.
Proof.
  intros H. cbv zeta. unfold goto_relative_row, goto_workspace_relative, relative_target. case_decide as E.
  - destruct (no_switch_ok Shared s H) as [H1 H2]. split; [done|]. apply H2. destruct (so_selected _ H) as [Hn|]; [|done].
    unfold settled. rewrite Hn. destruct (nb_current_page (notebook (sd_win s))) as [i|] eqn:Hi; [|unfold nb_current; by rewrite Hi].
    destruct (current_workspace _ _ (so_win _ H) Hi) as (w & Hw%lookup_lt_Some & _). lia.
  - apply page_switch_ok; [done|]. by apply relative_index_lt.
Qed.

Lemma goto_tab_ok idx s : side_ok s -> let s' := goto_tab_row emits_same idx s in side_ok s' /\ (settled s -> settled s').
Proof.
  intros H. cbv zeta. unfold goto_tab_row, goto_tab, tab_target.
  assert (forall i, i < length (workspaces (sd_win s)) ->
    side_ok (switched emits_same Shared (set_page i (sd_win s)) (Some i) s) /\
    (settled s -> settled (switched emits_same Shared (set_page i (sd_win s)) (Some i) s))) as Hp.
  { intros i Hi. destruct (page_switch_ok Shared i s H Hi). by split. }
  unfold relative_target. repeat case_decide; try (by apply (no_switch_ok Shared)); try apply Hp; try done;
    try (by apply relative_index_lt); lia.
Qed.

Lemma focus_row_ok pid s : side_ok s -> let s' := focus_pane_row emits_same pid s in side_ok s' /\ (settled s -> settled s').
Proof.
  intros H. cbv zeta. pose proof (so_win _ H) as Hok. unfold focus_pane_row.
  assert (win_ok (snd (focus_pane_by_id pid (sd_win s)))) as Hok'
    by (eapply (win_step_ok ord); [constructor|done]).
  unfold focus_pane_by_id in *. destruct (find_workspace_of_pane pid (sd_win s)) as [[[i w] p]|] eqn:E; simpl in *.
  2: by apply (no_switch_ok Exclusive).
  apply find_pane_ws in E as [Hi _]. pose proof (lookup_lt_Some _ _ _ Hi) as Hlt.
  assert (forall aw, ws_ids (set_pane_active i pid aw) = ws_ids aw) as Hids.
  { intros aw. apply alter_ids. intros v _. unfold set_focused_pane. by destruct v. }
  case_decide as Hd.
  - destruct (switched_ok Exclusive (set_pane_active i pid (set_page i (sd_win s))) (Some i) s H Hok') as [H1 H2].
    + by rewrite Hids.
    + rewrite Hids. split; [|simpl; by rewrite length_alter]. by apply (set_page_current i (sd_win s)).
    + split; [done|]. intros _. apply H2. right. by eexists.
  - destruct (switched_ok Exclusive (set_pane_active i pid (sd_win s)) None s H Hok' (Hids _) eq_refl) as [H1 H2].
    split; [done|]. auto.
Qed.

Lemma pin_ok id s : side_ok s -> let s' := toggle_pinned_row emits_same id s in
  side_ok s' /\ (settled s \/ id ∈ ws_ids (sd_win s) -> settled s').
Proof.
  intros H. cbv zeta. pose proof (so_win _ H) as Hok. unfold toggle_pinned_row.
  destruct (position (has_id id) (workspaces (sd_win s))) as [i|] eqn:E.
  - destruct (reordered_ok (toggle_workspace_pinned id (sd_win s)) s H (proj1 (toggle_pinned_ok _ id Hok))); [|done].
    unfold toggle_workspace_pinned. rewrite E. unfold ws_ids. simpl.
    rewrite (fmap_Permutation ws_id _ _ (sort_by_key_perm pin_key _)).
    rewrite (alter_ids (fun w => ws_set_pinned (negb (pinned w)) w) i); [done|]. intros v _. by destruct v.
  - split; [done|]. intros [?|Hin]; [done|]. exfalso. apply list_elem_of_fmap in Hin as (w & -> & Hw).
    pose proof (proj1 (position_None _ _) E w Hw) as Hn. by apply bool_decide_eq_false in Hn.
Qed.

Lemma side_step_ok e s : side_ok s -> side_allowed e s ->
  exists s', side_step emits_same nord ord wd cmd fp ur now e s = Some s' /\ side_ok s' /\
    (deselects e = false -> settled s -> settled s') /\ (selects e s = true -> settled s').
Proof.
  intros H Ha. pose proof (so_win _ H) as Hok. destruct e; simpl in Ha |- *.
  - destruct (new_ids (sd_win s)) as [E1 E2].
    destruct (installed_row s _ _ H (new_workspace_ok _ Hok Ha) E1 E2). eexists. by split_and!.
  - destruct (new_remote_ids c (sd_win s)) as [E1 E2].
    destruct (installed_row s _ _ H (new_remote_ok fp ur c _ Hok Ha) E1 E2). eexists. by split_and!.
  - eexists. split_and!; [done|by apply restore_row_ok|done|done].
  - destruct (remove_row_ok idx s H Ha) as (s' & E & H1 & H2). exists s'. by split_and!.
  - eexists. split; [done|]. unfold goto_workspace_row, goto_workspace. case_decide as Hd.
    + destruct (page_switch_ok Shared (Z.to_nat idx) s H); [lia|]. by split_and!.
    + destruct (no_switch_ok Shared s H). rewrite bool_decide_eq_false_2 by done. by split_and!.
  - eexists. split; [done|]. destruct (goto_relative_ok forward s H). by split_and!.
  - eexists. split; [done|]. destruct (goto_tab_ok idx s H). by split_and!.
  - eexists. split; [done|]. unfold select_by_id_row, select_workspace_by_id.
    destruct (position (has_id id) (workspaces (sd_win s))) as [i|] eqn:E; simpl.
    + destruct (position_id _ _ _ E) as (w & Hw%lookup_lt_Some & _).
      destruct (switched_ok Shared (effect (Emit (WorkspaceSwitched id)) (set_page i (sd_win s))) (Some i) s H) as [H1 H2].
      * by apply win_ok_effect, win_ok_page.
      * done.
      * split; [by apply (set_page_current i (sd_win s))|done].
      * split_and!; [done|intros _ _; apply H2; right; by eexists|intros _; apply H2; right; by eexists].
    + destruct (no_switch_ok Shared s H). split_and!; [done|done|]. intros Hin%bool_decide_eq_true. exfalso.
      apply list_elem_of_fmap in Hin as (w & -> & Hw).
      pose proof (proj1 (position_None _ _) E w Hw) as Hn. by apply bool_decide_eq_false in Hn.
  - eexists. split; [done|]. destruct (focus_row_ok pid s H). by split_and!.
  - eexists. split; [done|]. destruct (page_switch_ok Exclusive i s H Ha). by split_and!.
  - eexists. split; [done|]. destruct (pin_ok id s H) as [H1 H2]. split_and!; [done|auto|].
    intros Hin%bool_decide_eq_true. auto.
  - destruct (move_row_ok source target before s H Ha) as (s' & E & H1 & H2). exists s'. by split_and!.
  - eexists. split; [done|]. destruct (select_row_ok NotBorrowed id s) as [H1 H2]; [done|apply H| |right; split; [done|apply H]|].
    + by rewrite <- (so_rows _ H).
    + by split_and!.
  - eexists. split_and!; [done| |done|done]. destruct H as [H1 H2 H3]. split; simpl; [done|by rewrite lb_unselect_rows|].
    left. apply lb_unselect_selected.
  - eexists. split; [done|]. destruct (clear_bell_keeps page (sd_win s)) as [E1 E2]. destruct H as [H1 H2 H3].
    unfold settled in *. simpl. rewrite E2. split_and!; [|done|done]. split; simpl; [|congruence|unfold settled; simpl; by rewrite E2].
    eapply (win_step_ok ord); [apply step_clear_bell|done].
  - destruct Ha as (A1 & A2 & A3). eexists. split; [done|]. destruct H as [H1 H2 H3]. unfold settled in *. simpl. rewrite A3.
    split_and!; [|done|done]. split; simpl; [done|congruence|unfold settled; simpl; by rewrite A3].
Qed.

Lemma side_run_ok es : forall s b, side_ok s -> (b = true -> settled s) ->
  side_all_allowed emits_same nord ord wd cmd fp ur now es s ->
  exists s', side_run emits_same nord ord wd cmd fp ur now es s = Some s' /\ side_ok s' /\
    (row_sure emits_same nord ord wd cmd fp ur now es s b = true -> settled s').
Proof.
  induction es as [|e es IH]; intros s b H Hb Ha; simpl in *; [by exists s|].
  destruct Ha as [A1 A2]. destruct (side_step_ok e s H A1) as (s1 & E & H1 & Hk & Hs). rewrite E in *. simpl.
  apply IH; [done| |done]. intros [Hc|[-> Hc%negb_true_iff]%andb_prop]%orb_prop; auto.
Qed.

(** C7: from the empty window on, whatever the program does to its workspaces - opening,
    restoring, closing, switching by index, direction, identifier or pane, dragging tabs,
    pinning and moving - and whatever row the user selects or unselects, with the handler
    of the list called in the middle of the operations and finding the window free or
    borrowed: no step panics, the rows of the sidebar are the workspaces in the order of
    the pages, a row that is selected is that of the page shown, and one is selected
    unless, since the last event that selects one, the user has unselected it or a
    workspace has been restored.  It is assumed that identifiers have not run out, that
    indices and clicked rows exist, and that operations other than these leave the pages
    alone. *)
Theorem selection_follows_page nb lb es :
  nb_pages nb = [] -> lb_rows lb = [] -> lb_selected lb = None ->
  side_all_allowed emits_same nord ord wd cmd fp ur now es (mkSide (empty_window nb) lb) ->
  exists s, side_run emits_same nord ord wd cmd fp ur now es (mkSide (empty_window nb) lb) = Some s /\
    lb_rows (sd_list s) = ws_ids (sd_win s) /\ nb_pages (notebook (sd_win s)) = ws_ids (sd_win s) /\
    (lb_selected (sd_list s) = None \/ lb_selected (sd_list s) = nb_current (notebook (sd_win s))) /\
    (row_sure emits_same nord ord wd cmd fp ur now es (mkSide (empty_window nb) lb) true = true ->
     lb_selected (sd_list s) = nb_current (notebook (sd_win s))).
Proof.
  intros Hp Hr Hs Ha.
  assert (win_ok (empty_window nb)) as Hok by (split; simpl; [done|constructor|constructor|split; [done|constructor]]).
  destruct (side_run_ok es (mkSide (empty_window nb) lb) true) as (s & E & [H1 H2 H3] & H4); [|..|done|].
  - split; simpl; [done|done|by left].
  - intros _. unfold settled. simpl. rewrite Hs. unfold nb_current. by rewrite (no_page nb Hp).
  - exists s. split_and!; [done|done|apply H1|done|done].
Qed.

(** What a page switch leaves to the main loop knows the page by its index.  When a
    workspace before it is closed first, the bell that is cleared is that of the workspace
    after the one shown, which nobody has seen, and the bell of the one shown stays. *)
Theorem late_switch_clears_other_bell aw i shown other :
  win_ok aw -> 0 < i -> workspaces aw !! i = Some shown -> workspaces aw !! S i = Some other ->
  ws_has_bell shown = true -> ws_has_bell other = true ->
  exists aw', remove_workspace_at 0 (set_page i aw) = Some aw' /\ nb_current (notebook aw') = Some (ws_id shown) /\
    let l := workspaces (fst (clear_workspace_bell i aw')) in
    l !! (i - 1) = Some shown /\ exists v, l !! i = Some v /\ ws_id v = ws_id other /\ ws_has_bell v = false.
Proof.
  intros Hok Hi Hs Ho Hbs Hbo. set (aw1 := set_page i aw).
  assert (0 < length (workspaces aw)) as H0 by (apply lookup_lt_Some in Hs; lia).
  destruct (lookup_lt_is_Some_2 _ _ H0) as [w0 Hw0].
  assert (win_ok aw1) as Hok1 by by apply win_ok_page.
  destruct (remove_workspace_ok aw1 0 w0 (win_pages _ Hok1) (win_nodup _ Hok1) Hw0) as (aw2 & E & Ew & Ep & _).
  exists aw2. split; [done|]. split.
  - unfold remove_workspace_at in E. change (workspaces aw1) with (workspaces aw) in E. rewrite Hw0 in E. simpl in E.
    injection E as <-. case_decide; simpl.
    all: rewrite (nb_page_num_at (ws_id w0) _ 0);
      [|rewrite nb_set_pages, (win_pages _ Hok); apply Hok
       |rewrite nb_set_pages, (win_pages _ Hok); unfold ws_ids; by rewrite list_lookup_fmap, Hw0].
    all: simpl; rewrite nb_remove_current;
      [pose proof (set_page_current i aw Hok (lookup_lt_Some _ _ _ Hs)) as Hc; simpl in Hc; rewrite Hc;
       unfold ws_ids; by rewrite list_lookup_fmap, Hs|].
    all: rewrite nb_set_current; [intros [= ->]; lia|];
      rewrite (win_pages _ Hok); unfold ws_ids; rewrite length_fmap; by eapply lookup_lt_Some.
  - change (workspaces aw1) with (workspaces aw) in Ew.
    assert (workspaces aw2 !! i = Some other) as Ho2 by (by rewrite Ew, delete_lookup, decide_False by lia).
    assert (workspaces aw2 !! (i - 1) = Some shown) as Hs2.
    { rewrite Ew, delete_lookup, decide_False by lia. by replace (S (i - 1)) with i by lia. }
    unfold clear_workspace_bell. rewrite Ho2. simpl. rewrite Hbo. simpl. split.
    + by rewrite list_lookup_alter_ne by lia.
    + exists (ws_set_bell false other). rewrite list_lookup_alter_eq, Ho2. split; [done|]. by destruct other.
Qed.
End proofs.

(** ** A list of rows *)

Record RowList := mkRowList { rl_rows : list WorkspaceId; rl_selected : option WorkspaceId }.
#[export] Instance row_list_ops : ListBoxOps RowList := {|
  lb_rows := rl_rows;
  lb_selected := rl_selected;
  lb_append r l := mkRowList (rl_rows l ++ [r]) (rl_selected l);
  lb_remove r l := mkRowList (filter (fun x => x <> r) (rl_rows l)) (if decide (rl_selected l = Some r) then None else rl_selected l);
  lb_select_row r l := mkRowList (rl_rows l) (if decide (r ∈ rl_rows l) then Some r else rl_selected l);
  lb_unselect l := mkRowList (rl_rows l) None
|}.
#[export] Instance row_list_laws : ListBoxLaws RowList.
Proof. split; simpl; try done. intros l r H. by rewrite decide_True. Qed.

(** Three workspaces; the user selects the first, unselects it, goes to the next, closes
    the first and pins the last. *)
Definition a_day : list (SideEvent list_notebook) :=
  [NewRow; NewRow; NewRow; RowClicked 0%Z; RowUnselected; GotoRelative true; RemoveRow 0; PageIdle 1; TogglePinned 2%Z;
   MoveRow 1%Z 2%Z true].
Definition no_order (m : gmap Z Pane) : list PaneId := (map_to_list m).*1.
Definition day_start : Side list_notebook RowList := mkSide (empty_window (mkNotebook [] 0)) (mkRowList [] None).

Lemma selection_follows_page_witness :
  exists s, side_run false node_order no_order None None None (fun _ => None) 0%Z a_day day_start = Some s /\
    lb_rows (sd_list s) = ws_ids (sd_win s) /\ nb_pages (notebook (sd_win s)) = ws_ids (sd_win s) /\
    (lb_selected (sd_list s) = None \/ lb_selected (sd_list s) = nb_current (notebook (sd_win s))) /\
    (row_sure false node_order no_order None None None (fun _ => None) 0%Z a_day day_start true = true ->
     lb_selected (sd_list s) = nb_current (notebook (sd_win s))).
Proof.
  assert (side_all_allowed false node_order no_order None None None (fun _ => None) 0%Z a_day day_start) as H.
  { vm_compute. repeat split; try discriminate; try reflexivity; [left|lia]. }
  exact (selection_follows_page false node_order node_order_enumerates no_order None None None (fun _ => None) 0%Z
    (mkNotebook [] 0) (mkRowList [] None) a_day eq_refl eq_refl eq_refl H).
Defined.
