(* ===== verification/GitBranch.v ===== *)
(** * The git branch of a workspace (app/src/window.rs: detect_git_branch)

    When the title of a terminal names another directory, a thread asks git for the
    branch there, and the main loop is given the answer.  Nothing ties an answer to the
    directory that the workspace has by then: the theorems say what the branch that is
    shown can be, that it is the last one when the threads answer in order, and that it
    need not be otherwise. *)

From Stdlib Require Import Ascii.
From S2P Require Import Prelude F64 SplitTree RustStr RemoteConfig Workspace Tabs Surfaces Notebook Window WindowTabs.
Open Scope string_scope.
Open Scope list_scope.

(** ** The thread *)

(** What running git gave: nothing, or whether it succeeded and what it wrote. *)
Definition branch_of (output : option (bool * string)) : option string :=
  match output with
  | Some (true, out) => if valid_utf8 out then Some (trim out) else None
  | _ => None
  end.

Section branch.
Context {NB : Type} `{NBO : !NotebookOps NB}.

(** The threads that run git, in the order of their starts, and the answers that wait for
    the main loop. *)
Record Branching := mkBranching {
  br_win : AppWindow NB;
  br_threads : list (WorkspaceId * string);
  br_waiting : list (WorkspaceId * option string);
}.

Definition request (e : Effect) : option (WorkspaceId * string) :=
  match e with DetectGitBranch id dir => Some (id, dir) | _ => None end.
(** An operation of the window with the threads that it starts. *)
Definition detect_git_branch (aw : AppWindow NB) (b : Branching) : Branching :=
  mkBranching aw (br_threads b ++ omap request (drop (length (effects (br_win b))) (effects aw))) (br_waiting b).

Definition thread_ends (k : nat) (output : option (bool * string)) (b : Branching) : Branching :=
  match br_threads b !! k with
  | Some (id, _) => mkBranching (br_win b) (delete k (br_threads b)) (br_waiting b ++ [(id, branch_of output)])
  | None => b
  end.
Definition main_loop (b : Branching) : Branching :=
  match br_waiting b with
  | (id, branch) :: rest => mkBranching (update_workspace_branch id branch (br_win b)) (br_threads b) rest
  | [] => b
  end.

(** [says dir output]: git may give this in the directory, at some time. *)
Context (says : string -> option (bool * string) -> Prop) (ord : gmap Z Pane -> list PaneId).

(** Any other operation: branches stay with their workspaces, a new one has none. *)
Definition branches_kept (aw aw' : AppWindow NB) : Prop :=
  forall w', w' ∈ workspaces aw' -> git_branch w' = None \/
    exists w, w ∈ workspaces aw /\ ws_id w' = ws_id w /\ git_branch w' = git_branch w.

Inductive branch_step (b : Branching) : Branching -> Prop :=
  | br_title home h title : branch_step b (detect_git_branch (set_surface_title ord home h title (br_win b)) b)
  | br_git k id dir output : br_threads b !! k = Some (id, dir) -> says dir output -> branch_step b (thread_ends k output b)
  | br_idle : branch_step b (main_loop b)
  | br_other aw l : branches_kept (br_win b) aw -> effects aw = effects (br_win b) ++ l -> omap request l = [] ->
      branch_step b (detect_git_branch aw b).

(** ** What is shown *)

(** The branch was found in a directory that was reported for the workspace. *)
Definition found_in (l : list Effect) (id : WorkspaceId) (branch : string) : Prop :=
  exists dir output, DetectGitBranch id dir ∈ l /\ says dir output /\ branch_of output = Some branch.
Record branching_ok (b : Branching) : Prop := mk_branching_ok {
  bo_shown w branch : w ∈ workspaces (br_win b) -> git_branch w = Some branch -> found_in (effects (br_win b)) (ws_id w) branch;
  bo_threads id dir : (id, dir) ∈ br_threads b -> DetectGitBranch id dir ∈ effects (br_win b);
  bo_waiting id branch : (id, Some branch) ∈ br_waiting b -> found_in (effects (br_win b)) id branch;
}.

Lemma kept_title home h title aw : branches_kept aw (set_surface_title ord home h title aw).
Proof.
  assert (forall aw0 : AppWindow NB, workspaces aw0 = workspaces aw -> branches_kept aw aw0) as Hsame
    by (intros aw0 E w' Hw; rewrite E in Hw; right; by exists w').
  unfold set_surface_title. destruct (find_ws _ _ _) as [[[i w] pid]|]; [|by apply Hsame].
  destruct (p ← _; _) as [t|]; [|by apply Hsame].
  set (f := fun w => update_title_from_focused _). set (aw1 := update_ws_at i f aw).
  assert (forall v, ws_id (f v) = ws_id v /\ git_branch (f v) = git_branch v) as Hf.
  { intros v. unfold f, update_title_from_focused. case_match; [|by destruct v]. repeat case_match; by destruct v. }
  assert (branches_kept aw aw1) as H1.
  { intros w' (j & Hj)%list_elem_of_lookup. unfold aw1 in Hj. simpl in Hj. destruct (decide (i = j)) as [->|Hij].
    - rewrite list_lookup_alter_eq in Hj. destruct (workspaces aw !! j) as [v|] eqn:Hv; [|done]. injection Hj as <-.
      right. exists v. split; [by eapply list_elem_of_lookup_2|]. apply Hf.
    - rewrite list_lookup_alter_ne in Hj by done. right. exists w'. split; [by eapply list_elem_of_lookup_2|done]. }
  destruct (title_dir_changed _ _ _), (tab_surface_id t); exact H1.
Qed.

Lemma title_effects home h title (aw : AppWindow NB) : exists l, effects (set_surface_title ord home h title aw) = effects aw ++ l.
Proof.
  unfold set_surface_title. destruct (find_ws _ _ _) as [[[i w] pid]|]; [|exists []; by rewrite app_nil_r].
  destruct (p ← _; _) as [t|]; [|exists []; by rewrite app_nil_r].
  destruct (title_dir_changed _ _ _), (tab_surface_id t); simpl; rewrite <- ?app_assoc; eexists;
    first [reflexivity|symmetry; apply app_nil_r].
Qed.

Lemma found_in_app l l' id branch : found_in l id branch -> found_in (l ++ l') id branch.
Proof. intros (dir & o & H & H1). exists dir, o. split; [|done]. apply elem_of_app. by left. Qed.

(** An operation that keeps the branches. *)
Lemma operation_ok b aw l : branching_ok b -> branches_kept (br_win b) aw -> effects aw = effects (br_win b) ++ l ->
  branching_ok (detect_git_branch aw b).
Proof.
  intros [H1 H2 H3] Hk He. split; simpl; rewrite He.
  - intros w' branch Hw Hb. apply found_in_app. destruct (Hk w' Hw) as [Hn|(w & Hin & -> & E)]; [congruence|].
    apply H1; [done|congruence].
  - intros id dir [Hin|Hin]%elem_of_app; apply elem_of_app; [left; by apply H2|right].
    rewrite drop_app_length in Hin. apply list_elem_of_omap in Hin as (e & Hin & Ee). destruct e; try done. by injection Ee as -> ->.
  - intros id branch Hin. by apply found_in_app, H3.
Qed.

Lemma branch_step_ok b b' : branch_step b b' -> branching_ok b -> branching_ok b'.
Proof.
  intros Hs H. destruct Hs as [home h title|k id dir output Hk Hsay| |aw l Hkept He _].
  - destruct (title_effects home h title (br_win b)) as [l He]. eapply operation_ok; [done|apply kept_title|done].
  - unfold thread_ends. rewrite Hk. destruct H as [H1 H2 H3]. split; simpl; [done| |].
    + intros i d Hin. apply H2. eapply elem_of_submseteq; [exact Hin|]. apply sublist_submseteq, sublist_delete.
    + intros i br [Hin|Hin]%elem_of_app; [by apply H3|]. apply list_elem_of_singleton in Hin. injection Hin as -> Hbr.
      exists dir, output. split; [|done]. apply H2. by eapply list_elem_of_lookup_2.
  - unfold main_loop. destruct (br_waiting b) as [|[id branch] rest] eqn:Ew; [done|]. destruct H as [H1 H2 H3]. rewrite Ew in H3.
    split; simpl; [|done|by intros; apply H3; right].
    intros w br Hw Hb. unfold update_workspace_branch, update_ws in Hw. simpl in Hw.
    apply list_elem_of_lookup in Hw as [j Hj].
    assert (exists v, v ∈ workspaces (br_win b) /\ (w = v \/ w = ws_set_git_branch branch v /\ ws_id v = id)) as (v & Hv & Hc).
    { clear -Hj. revert j Hj. induction (workspaces (br_win b)) as [|x xs IH]; intros j Hj; [done|]. simpl in Hj.
      destruct (has_id id x) eqn:Hx.
      - apply bool_decide_eq_true in Hx. destruct j as [|j]; simpl in Hj.
        + injection Hj as <-. exists x. split; [left|by right].
        + exists w. split; [right; by eapply list_elem_of_lookup_2|by left].
      - destruct j as [|j]; simpl in Hj; [injection Hj as <-; exists x; split; [left|by left]|].
        destruct (IH j Hj) as (v & Hin & Hc). exists v. split; [by right|done]. }
    destruct Hc as [->|[-> Hid]]; [by apply H1|]. destruct v; simpl in *. subst. apply H3. by left.
  - by eapply operation_ok.
Qed.
End branch.
Arguments Branching : clear implicits.

(** From a window without branches on, in every interleaving of the window, the threads
    and the main loop: a branch that a workspace shows is what git said, at some time, in
    a directory that a title of one of its terminals reported. *)
Theorem branches_reported {NB} `{NotebookOps NB} says ord (aw : AppWindow NB) (b : Branching NB) :
  (forall w, w ∈ workspaces aw -> git_branch w = None) -> rtc (branch_step says ord) (mkBranching aw [] []) b ->
  forall w branch, w ∈ workspaces (br_win b) -> git_branch w = Some branch -> found_in says (effects (br_win b)) (ws_id w) branch.
Proof.
  intros H0 Hr. apply bo_shown. eapply (rtc_preserves (branch_step says ord) (branching_ok says)); [apply branch_step_ok|split|exact Hr].
  - simpl. intros w br Hw Hb. rewrite H0 in Hb by done. done.
  - simpl. by intros id dir ?%not_elem_of_nil.
  - simpl. by intros id br ?%not_elem_of_nil.
Qed.

(** ** Answers out of order *)

Section order.
Context {NB : Type} `{NBO : !NotebookOps NB}.
Implicit Types (aw : AppWindow NB) (b : Branching NB).

(** The threads end, and the main loop runs, one after the other. *)
Definition answered (o : list (nat * option (bool * string))) b : Branching NB :=
  foldl (fun b x => main_loop (thread_ends x.1 x.2 b)) b o.

Lemma update_first_twice id x y (l : list Workspace) :
  update_first (has_id id) (ws_set_git_branch y) (update_first (has_id id) (ws_set_git_branch x) l) =
  update_first (has_id id) (ws_set_git_branch y) l.
Proof.
  induction l as [|w l IH]; [done|]. simpl. destruct (has_id id w) eqn:E; simpl.
  - assert (has_id id (ws_set_git_branch x w) = true) as -> by (by destruct w). f_equal. by destruct w.
  - by rewrite E, IH.
Qed.

(** Two directories of a workspace in turn.  When the threads answer in the order of their
    starts, the branch is that of the second directory; when the first is slower, it is
    that of the directory that was left. *)
Theorem late_answer_wins id d1 d2 o1 o2 aw :
  let b := mkBranching aw [(id, d1); (id, d2)] [] in
  let shown b := workspaces (br_win b) in
  shown (answered [(0, o1); (0, o2)] b) = workspaces (update_workspace_branch id (branch_of o2) aw) /\
  shown (answered [(1, o2); (0, o1)] b) = workspaces (update_workspace_branch id (branch_of o1) aw).
Proof. split; simpl; apply update_first_twice. Qed.

(** A shell that reports its directory by OSC 7 never has its branch looked up: the report
    starts no thread, and after it no title does. *)
Theorem osc7_never_detects ord home h wd aw t titles title :
  effects (set_surface_working_directory ord home h wd aw) = effects aw /\
  (wd <> "" -> title_dir_changed home title (foldl (fun t s => title_tab home s t) (report_wd home wd t) titles) = None).
Proof.
  split.
  - unfold set_surface_working_directory. case_decide; [done|]. by destruct (find_ws _ _ _) as [[[i w] pid]|].
  - intros Hwd.
    assert (tab_wd_from_osc7 (foldl (fun t s => title_tab home s t) (report_wd home wd t) titles) = true) as H.
    { assert (tab_wd_from_osc7 (report_wd home wd t) = true) as H by (by destruct wd). revert H.
      generalize (report_wd home wd t). induction titles as [|s l IH]; intros u Hu; [done|]. simpl. apply IH.
      unfold title_tab. destruct (extract_directory home s); [|by destruct u].
      assert (tab_wd_from_osc7 (set_title s u) = true) as -> by (by destruct u). by destruct u. }
    unfold title_dir_changed. rewrite H. by destruct (extract_directory home title).
Qed.
End order.
